(* ===== verification/_CoqProject ===== *)
-Q . S2P
Prelude.v
Pmm.v
Vmm.v
Process.v
Sched.v
Fork.v
Strap.v
Cow.v
Heap.v
Faults.v
CString.v
Snprintf.v
Bytes.v
DebugLine.v
LineTable.v
Pages.v
HashTable.v
VfsData.v
Rfs.v
RfsDisk.v
RfsFile.v
RfsDir.v
RfsLife.v
RfsUnlink.v
Vfs.v
VfsRefs.v
ProcFile.v
SpikeFile.v
Hostfs.v
Machine.v
Elf.v
ElfLoad.v
ElfSym.v
Syscall.v
UserIO.v
Dts.v
DtsTree.v
Mtrap.v
MtrapProps.v
Boot.v
BootOrder.v
UserLib.v
Spinlock.v
Htif.v
UserProg.v
UserRun.v
AppSem.v
Shell.v
Asm.v
AsmMtrap.v
Console.v
HeapSpace.v
Malloc.v
MallocRun.v
MallocProps.v
ForkSpace.v
ForkAlloc.v
DoFork.v
ForkProps.v
UserWrite.v
