(* ===== verification/Prelude.v ===== *)
(** * Verification of the PKE teaching kernel (src/kernel, src/util,
      src/spike_interface, src/user)

    The program is a RISC-V proxy kernel: it boots under the Spike emulator,
    manages physical pages, gives every user process an Sv39 address space,
    schedules processes over two harts, serves their system calls and page
    faults, and offers a RAM disk file system behind a virtual file system.
    This library translates its C functions into executable definitions, one
    definition to a function (and one to a loop of it), and proves what they do.

    ** How C is modelled

    A C function is a computation of the monad [M S A]: it takes the state [S]
    of its component and either returns ([Ret]) or ends in a [stop] from which
    control does not come back to the caller: [Panic] and [Kill] for [panic],
    [assert] and [kill_current_process]; [Resume p], the [sret] into process
    [p]; [Shutdown] and [Wfi] of an idle hart; [Spin], a spinlock that is held;
    [Fault], a memory access outside the memory that is there; [UB], an index
    out of an array or another behaviour C leaves undefined.  Unsigned integers
    are truncated at their width ([u64], [u32], [u16], [u8]), signed ones by
    [i32] and [i64], where the code can reach the bounds.  A loop that is not
    structural takes a bound on its iterations and ends in [OutOfFuel] when the
    bound is reached; the theorems are equations [f s = Ret a s'], so the bound
    is shown to be enough wherever a theorem speaks about such a function.

    ** Which file models what

    - Prelude.v (this file): integers, the macros of util/functions.h, the
      constants of kernel/config.h and kernel/memlayout.h, the monad and its
      notations, tactics and shared lemmas.
    - Pmm.v: kernel/pmm.c.  [pstate] is physical memory as 64-bit words, with
      the free list in the first word of each free page, the reference counters
      and the lock.  [pmm_inv s l]: the free list spells out [l], and a managed
      page is on it exactly when its counter is 0.
    - Vmm.v: kernel/vmm.c.  Page tables are pages of the memory of Pmm.v.
      [xlate] is the translation that the hardware would compute; [vm_inv] says
      that the tables of a root form a tree of pages that nobody else uses.
    - Process.v: kernel/process.h and the globals of kernel/process.c; [kstate]
      is the process table, the semaphores, the ready queue, the harts and the
      memory.  Structures that live in pages (trapframe, mapped_info, malloc
      nodes, proc_file_management) are words at their C offsets.
    - Sched.v: kernel/sched.c, the semaphores of kernel/process.c and the system
      calls that block (exit, wait, yield, semaphores) with a step relation
      [mstep] in which the harts take traps in any order.
    - Fork.v: alloc_process, clr_proc and do_fork.  Strap.v: kernel/strap.c.
    - Cow.v, Faults.v, Heap.v: a page from fork to the copying fault; page
      faults; the two allocators of the user heap.
    - CString.v, Snprintf.v: util/string.c and util/snprintf.c on byte memory.
    - Pages.v: the class [PageSource], what the file systems need from the page
      allocator; [pmm_pages] shows that Pmm.v provides it.
    - HashTable.v: util/hash_table.c, for the class [HashKey] of key types.
    - VfsData.v: the structures of kernel/vfs.h in typed heaps indexed by the
      address of their page.  Rfs.v: kernel/ramdev.c and kernel/rfs.c.
      RfsDisk.v, RfsFile.v, RfsDir.v: theorems about inodes and the free map,
      files, directories.  RfsLife.v: formatting, mounting and creating, and a file
      from its creation to the read that finds it again.  RfsUnlink.v: removing a name.
    - Vfs.v: kernel/vfs.c, against the table [vinode_ops] of the operations of a
      file system (class [FileSystems]).  VfsRefs.v: caches and reference counts.
    - ProcFile.v: kernel/proc_file.c.
    - SpikeFile.v: spike_interface/spike_file.c, with the emulator as the class
      [Frontend].  Hostfs.v: kernel/hostfs.c and fs_init.
    - Bytes.v: bytes of physical memory.  Machine.v: the state [sys] of the whole
      machine (file systems over kernel, host files, static buffers of elf.c).
    - Elf.v: kernel/elf.c.  ElfLoad.v, ElfSym.v: theorems about loading and about
      the symbol table.  DebugLine.v, LineTable.v: make_addr_line and the meaning
      of the line number program it decodes.
    - Syscall.v: kernel/syscall.c, the dispatch and the trap that reaches it.
      UserIO.v: theorems about the buffers of read and write.
    - Dts.v: spike_interface/dts_parse.c, spike_memory.c and query_htif.
      DtsTree.v: what a scan of an encoded device tree computes.
    - Mtrap.v: kernel/machine (minit.c, mtrap.c, mtrap_vector.S); [board] adds the
      machine mode registers of the harts and the timer.  MtrapProps.v: theorems.
    - Boot.v: kernel/kernel.c and kernel/sync_utils.h as a step function of the
      harts.  BootOrder.v: theorems.
    - UserLib.v: user/user_lib.c.  Spinlock.v: the two spinlocks.  Htif.v:
      spike_htif.c and frontend_syscall.
    - UserProg.v: user/start.c and every user/app_*.c as interaction trees over the
      calls of the user library.  UserRun.v: programs run by the harts over the
      scheduler and the semaphores of Sched.v.  AppSem.v, Shell.v: theorems about
      app_semaphore and about the shell.
    - Asm.v: the assembly of kernel/strap_vector.S, util/load_store.S, machine/mentry.S
      and machine/mtrap_vector.S as lists of instructions with their meaning.
      AsmMtrap.v: what the machine trap vector does around Mtrap.v.
    - Console.v: the output functions of spike_utils.c and the text of a program.
    - HeapSpace.v, Malloc.v, MallocRun.v, MallocProps.v: the pages behind the user
      heap, the two lists of nodes of the block allocator of Heap.v, its runs and
      the theorems about it.
    - ForkSpace.v, ForkAlloc.v, DoFork.v, ForkProps.v: alloc_process and do_fork of
      Fork.v as a whole: the memory of parent and child while the fork runs, the
      new process, the regions one after the other, and the theorems.
    - UserWrite.v: write, from the buffer of the user through the page table and the
      table of open files to the blocks of the RAM disk.


    ** What the theorems show

    - The page allocator refines an abstract allocator with reference counts,
      and boot establishes its invariant.
    - Mapping and unmapping change exactly the translations they name, and keep
      the page tables a tree; a mapped address translates to its frame.
    - In every state that the harts reach from boot by traps that involve the scheduler,
      in any order, one after the other, and if no process ends while its parent waits
      on a semaphore, each process is in exactly the queue that its status says; every
      such trap is served (no fault, no deadlock, no exhausted bound); a process in the ready queue
      runs after as many turns as there are processes before it; P, V, wait and
      schedule do what their contracts say on every branch.
    - fork shares heap pages copy-on-write; the first store copies the page.
    - memcpy, memset and memmove equal their byte-wise definitions in spite of
      the word loops; strtok, strcmp, safestrcpy and vsnprintf do what their
      specifications say and write nothing outside their buffers.
    - The hash table is a finite map.  Writing a file stores the bytes, touches
      no block of another file and keeps the file well-formed; reading returns
      them; directories map names to inodes; closing a file frees what nobody
      else refers to and stores the inode of an rfs file; open returns the lowest free descriptor.
    - elf_load maps the segments of a file at their addresses with the bytes of the
      file; the line table holds the rows that the encoded line number program
      denotes, the LEB128 readers invert the encoding, and find_func_name answers
      with the innermost function that contains an address.
    - write stores the bytes of the user in a file of the RAM disk, in order and from
      whatever frames they lie in; the registers of each
      library call reach the kernel function that is meant with its arguments.
    - The device tree is visited in preorder and gives the size of memory; the
      harts pass the phases of kernel start in order and without deadlock; machine
      mode hands over to s_start; a call of the host returns what the host stored.
    - spinlock_amo_t excludes in every interleaving; spinlock_t does not.
    - app_semaphore prints its lines in turn for every order of the traps of the two
      harts and the timer and does not stop short; the shell does what its table of commands says.
    - A trap gives the registers back but t6; the assembly of machine mode refines
      Mtrap.v; the harts have stacks of their own; printed text reaches the host.
    - A block that user_better_malloc returns overlaps no other and is mapped; user_better_free
      unmaps the pages that no block uses any more; the contents of the others stay.
    - The child of do_fork reads what its parent read at the fork (but for the heap
      pages that the uninitialised free_block_filter loses) and has its registers, the
      parent keeps what it has, and the child is queued; do_fork panics without a slot and faults without a page.
    - A formatted and mounted disk has an empty root directory; a file created in it
      and written is found again by lookup with the bytes that were written, up to the
      first NUL; a name
      that is removed is gone, and with the last one the blocks of the file are free.
    - Some theorems prove a defect of the code on the model: a page freed twice
      is handed out twice, exit takes a parent out of the wait queue of a
      semaphore, a load fault is never repaired, a short overwrite damages the
      rest of the block, the number of open files only grows, a failed read is
      reported as complete, two harts lose a wake-up of a semaphore, the report of an
      illegal instruction does not fit the machine mode stack, so the exception is
      never forwarded.

    ** Bounds

    The queues of processes are walked with [S NPROC] steps: a queue without
    repetition has at most [NPROC] members.  The hash chains are walked with one
    step more than there are nodes.  create_freepage_list gets one step to a
    page of the area.  The malloc lists are walked with [MAX_NODES] steps.  wait
    looks at the table at most twice before its hart switches away.  String
    routines take a bound; their theorems hold for every bound above the length
    of the string.
    fdt_scan takes a step to a token, at most one to a byte of the blob; a
    transfer of [count] bytes takes at most [count + 2] rounds; waiting for the
    host takes a bound that the theorem gives from the promise of the host;
    scanfu copies at most 255 bytes; a fork takes at most 12 pages, two for a page
    of the heap and three for a page of the program.

    ** Not modelled

    - A lock is what one hart sees of it: held or free.  The harts are interleaved at
      traps, each served to its end before the next.  With one hart this is always so;
      with two the kernel does not enforce it, and the semaphores take no lock:
      [Sched.semaphore_race] is a run in which a wake-up is lost.  Spinlock.v treats
      the locks alone.
    - The steps of [Sched.mstep] are the traps that involve the scheduler (timer, yield,
      exit, wait, semNew, semP, semV), from user mode, without the tick counters of
      handle_mtimer_trap, which are in Strap.v.
    - mstatus and sstatus are two registers in the assembly; on the machine the second
      is a view of the first.
    - Messages of the kernel before a panic, and print_proc_vmspace.
    - Fetching of instructions: the assembly is a list of instructions, and the C
      functions find the arguments of a trap in the trapframe.
    - What the kernel answers to the calls of a user program other than printing,
      fork, exit and the semaphores: they are events of the program only.

    ** Plan

    Left for later: do_exec composed with elf_load, reading through the table of open
    files as UserWrite.v does for writing, and the remaining calls of the user programs
    over the kernel. *)
From Stdlib Require Export ZArith Lia.
From stdpp Require Export base gmap list strings numbers option.
#[global] Open Scope Z_scope.

(** ** Machine integers

    An unsigned C integer of width [w] is a [Z] in [0, 2^w); the operations
    that can wrap are written with the truncation of their type. *)

Definition u64 (z : Z) : Z := z mod 18446744073709551616.
Definition u32 (z : Z) : Z := z mod 4294967296.
Definition u16 (z : Z) : Z := z mod 65536.
Definition u8 (z : Z) : Z := z mod 256.

(** Conversion to [int] (two's complement, as gcc defines it). *)
Definition i32 (z : Z) : Z :=
  let r := z mod 4294967296 in
  if r <? 2147483648 then r else r - 4294967296.

(** Conversion to [long] / [int64]. *)
Definition i64 (z : Z) : Z :=
  let r := z mod 18446744073709551616 in
  if r <? 9223372036854775808 then r else r - 18446744073709551616.

(** The macros of util/functions.h on [uint64] operands. *)
Definition ROUNDUP (a b : Z) : Z := u64 ((u64 (a - 1) / b + 1) * b).
Definition ROUNDDOWN (a b : Z) : Z := u64 (a / b * b).
Definition MIN (a b : Z) : Z := if a <? b then a else b.

(** ** Constants of kernel/riscv.h, kernel/config.h and kernel/memlayout.h *)

Definition PGSIZE : Z := 4096.
Definition PGSHIFT : Z := 12.
Definition NCPU : nat := 2.
Definition PKE_MAX_ALLOWABLE_RAM : Z := 134217728.
Definition DRAM_BASE : Z := 2147483648.
Definition KERN_BASE : Z := 2147483648.
Definition PHYS_TOP : Z := DRAM_BASE + PKE_MAX_ALLOWABLE_RAM.
Definition USER_STACK_TOP : Z := 2147479552.
Definition USER_FREE_ADDRESS_START : Z := 0 + PGSIZE * 1024.

(** ** Why control does not come back to the caller

    kernel/sched.c's [kill_current_process] and [schedule] end in [sret] and
    never return; [panic] and [assert] stop the machine; an access outside the
    memory the kernel maps traps; a spinlock that is held spins.  A C buffer
    written past its end is [UB].  [OutOfFuel] marks a loop whose bound was
    reached and is proved unreachable where a loop has one. *)
Inductive stop : Type :=
| Kill (reason : string) (code : Z)
| Panic (msg : string)
| Fault (addr : Z)
| Spin
| Resume (p : nat)
| Shutdown (code : Z)
| Wfi
| UB (what : string)
| OutOfFuel.

#[global] Instance stop_eq_dec : EqDecision stop.
Proof. solve_decision. Defined.

Inductive outcome (S A : Type) : Type :=
| Ret (a : A) (s : S)
| Stop (e : stop) (s : S).
Arguments Ret {S A} a s.
Arguments Stop {S A} e s.

(** ** The state and stop monad in which the kernel's C functions are written *)

Definition M (S A : Type) : Type := S -> outcome S A.

Definition ret {S A} (a : A) : M S A := fun s => Ret a s.
Definition bind {S A B} (c : M S A) (k : A -> M S B) : M S B :=
  fun s => match c s with Ret a s' => k a s' | Stop e s' => Stop e s' end.
Definition halt {S A} (e : stop) : M S A := fun s => Stop e s.
Definition get {S} : M S S := fun s => Ret s s.
Definition modify {S} (f : S -> S) : M S unit := fun s => Ret tt (f s).

Declare Scope kernel_scope.
Delimit Scope kernel_scope with kernel.
Notation "'let*' x ':=' c 'in' k" := (bind c (fun x => k))
  (at level 10, x name, c at level 100, k at level 200,
   format "'let*'  x  ':='  c  'in' '//' k") : kernel_scope.
Notation "'let*' ''' p ':=' c 'in' k" := (bind c (fun x => match x with p => k end))
  (at level 10, p pattern, c at level 100, k at level 200) : kernel_scope.
Notation "c1 ;;; c2" := (bind c1 (fun _ => c2))
  (at level 199, right associativity, format "c1  ;;; '//' c2") : kernel_scope.
#[global] Open Scope kernel_scope.

(** [when b c]: the C statement [if (b) c;]. *)
Definition when {S} (b : bool) (c : M S unit) : M S unit := if b then c else ret tt.

(** [if (b) stop;] for a [stop] that does not return. *)
Definition check {S} (b : bool) (e : stop) : M S unit := if b then halt e else ret tt.

(** Running a computation of a component on its part of a larger state. *)
Definition zoom {S T A} (gt : S -> T) (put : T -> S -> S) (c : M T A) : M S A :=
  fun s => match c (gt s) with
           | Ret a t => Ret a (put t s)
           | Stop e t => Stop e (put t s)
           end.

(** Final state of an outcome, whichever way it ends. *)
Definition final {S A} (o : outcome S A) : S :=
  match o with Ret _ s => s | Stop _ s => s end.

Definition returns {S A} (o : outcome S A) : Prop := exists a s, o = Ret a s.

(** ** Proof automation *)

Create HintDb kernel.
Create Rewrite HintDb kernel.

Ltac kconst := unfold u64, u32, u16, u8, PGSIZE, PGSHIFT, PHYS_TOP, DRAM_BASE, KERN_BASE,
  PKE_MAX_ALLOWABLE_RAM, USER_STACK_TOP, USER_FREE_ADDRESS_START, MIN in *.

(** [lia] over the constants and truncations of this development. *)
Ltac klia := kconst; Z.to_euclidean_division_equations; lia.

(** Split boolean guards of the code into arithmetic hypotheses. *)
Ltac bsplit :=
  repeat match goal with
  | H : context [bool_decide _] |- _ => fail 1
  | H : (_ || _)%bool = true |- _ => apply orb_true_iff in H
  | H : (_ || _)%bool = false |- _ => apply orb_false_iff in H as [? ?]
  | H : (_ && _)%bool = true |- _ => apply andb_true_iff in H as [? ?]
  | H : (_ && _)%bool = false |- _ => apply andb_false_iff in H
  | H : negb _ = true |- _ => apply negb_true_iff in H
  | H : negb _ = false |- _ => apply negb_false_iff in H
  | H : (_ <? _) = true |- _ => apply Z.ltb_lt in H
  | H : (_ <? _) = false |- _ => apply Z.ltb_ge in H
  | H : (_ <=? _) = true |- _ => apply Z.leb_le in H
  | H : (_ <=? _) = false |- _ => apply Z.leb_gt in H
  | H : (_ =? _) = true |- _ => apply Z.eqb_eq in H
  | H : (_ =? _) = false |- _ => apply Z.eqb_neq in H
  | H : (_ >=? _) = true |- _ => apply Z.geb_ge in H
  | H : (_ >? _) = true |- _ => apply Z.gtb_gt in H
  | H : _ \/ _ |- _ => destruct H
  end.

(** Decide a boolean comparison of the goal by arithmetic. *)
Ltac btrue b := replace b with true by (symmetry; lia).
Ltac bfalse b := replace b with false by (symmetry; lia).

(** ** Lemmas shared by the components *)

Lemma u64_small z : 0 <= z < 18446744073709551616 -> u64 z = z.
Proof. apply Z.mod_small. Qed.

Lemma u64_range z : 0 <= u64 z < 18446744073709551616.
Proof. apply Z.mod_pos_bound. lia. Qed.

Lemma i32_small z : -2147483648 <= z < 2147483648 -> i32 z = z.
Proof.
  intros H. unfold i32. destruct (z mod 4294967296 <? 2147483648) eqn:E;
  bsplit; Z.to_euclidean_division_equations; lia.
Qed.

Lemma i32_range z : -2147483648 <= i32 z < 2147483648.
Proof.
  unfold i32. pose proof (Z.mod_pos_bound z 4294967296).
  destruct (_ <? _) eqn:E; bsplit; lia.
Qed.

Lemma rounddown_aligned a : 0 <= a < 18446744073709551616 -> ROUNDDOWN a PGSIZE mod PGSIZE = 0.
Proof. intros. unfold ROUNDDOWN. klia. Qed.

Lemma rounddown_range a :
  0 <= a < 18446744073709551616 -> ROUNDDOWN a PGSIZE <= a < ROUNDDOWN a PGSIZE + PGSIZE.
Proof. intros. unfold ROUNDDOWN. klia. Qed.

Lemma rounddown_id a :
  0 <= a < 18446744073709551616 -> a mod PGSIZE = 0 -> ROUNDDOWN a PGSIZE = a.
Proof. intros. unfold ROUNDDOWN. klia. Qed.

Lemma roundup_spec a :
  0 < a < 18446744073709547520 ->
  a <= ROUNDUP a PGSIZE < a + PGSIZE /\ ROUNDUP a PGSIZE mod PGSIZE = 0.
Proof. intros. unfold ROUNDUP. klia. Qed.

(** The monad laws that the proofs use as rewriting steps. *)
Lemma bind_ret_l {S A B} (a : A) (k : A -> M S B) s : bind (ret a) k s = k a s.
Proof. reflexivity. Qed.

Lemma bind_assoc {S A B C} (c : M S A) (k : A -> M S B) (h : B -> M S C) s :
  bind (bind c k) h s = bind c (fun a => bind (k a) h) s.
Proof. unfold bind. by destruct (c s). Qed.

Lemma bind_Ret {S A B} (c : M S A) (k : A -> M S B) s a s' :
  c s = Ret a s' -> bind c k s = k a s'.
Proof. intros H. unfold bind. by rewrite H. Qed.

Lemma bind_Stop {S A B} (c : M S A) (k : A -> M S B) s e s' :
  c s = Stop e s' -> bind c k s = Stop e s'.
Proof. intros H. unfold bind. by rewrite H. Qed.

Lemma bind_Ret_inv {S A B} (c : M S A) (k : A -> M S B) s b s'' :
  bind c k s = Ret b s'' -> exists a s', c s = Ret a s' /\ k a s' = Ret b s''.
Proof. unfold bind. destruct (c s) as [a s'|]; [eauto | done]. Qed.
