(* ===== verification/Pmm.v ===== *)
(** * The physical page manager (kernel/pmm.c)

    The state is the part of the machine that kernel/pmm.c owns: physical
    memory as 64-bit words indexed by their address, the head of the free
    list, whose links live in the first word of each free page, the reference
    counters, the bounds of the managed area and the spinlock word. *)
From S2P Require Import Prelude.

Definition PMM_MAX_PAGES : Z := 65536.
Definition SPIN_LOCK_FREE : Z := 0.
Definition SPIN_LOCK_HELD : Z := 1.

Record pstate : Type := mkP {
  mem : gmap Z Z;
  g_free_mem_list : Z;
  page_ref_count : gmap Z Z;
  free_mem_start_addr : Z;
  free_mem_end_addr : Z;
  g_mem_size : Z;
  pmm_lock : Z
}.

Definition set_mem (v : gmap Z Z) (s : pstate) : pstate :=
  mkP v (g_free_mem_list s) (page_ref_count s) (free_mem_start_addr s) (free_mem_end_addr s)
      (g_mem_size s) (pmm_lock s).
Definition set_head (v : Z) (s : pstate) : pstate :=
  mkP (mem s) v (page_ref_count s) (free_mem_start_addr s) (free_mem_end_addr s)
      (g_mem_size s) (pmm_lock s).
Definition set_refs (v : gmap Z Z) (s : pstate) : pstate :=
  mkP (mem s) (g_free_mem_list s) v (free_mem_start_addr s) (free_mem_end_addr s)
      (g_mem_size s) (pmm_lock s).
Definition set_bounds (a e sz : Z) (s : pstate) : pstate :=
  mkP (mem s) (g_free_mem_list s) (page_ref_count s) a e sz (pmm_lock s).
Definition set_lock (v : Z) (s : pstate) : pstate :=
  mkP (mem s) (g_free_mem_list s) (page_ref_count s) (free_mem_start_addr s)
      (free_mem_end_addr s) (g_mem_size s) v.

(** ** Word access through the kernel's direct mapping of [DRAM_BASE, PHYS_TOP) *)

Definition addr_ok (a : Z) : bool :=
  (DRAM_BASE <=? a) && (a + 8 <=? PHYS_TOP) && (a mod 8 =? 0).

Definition rd (m : gmap Z Z) (a : Z) : Z := default 0 (m !! a).

Definition load (a : Z) : M pstate Z :=
  fun s => if addr_ok a then Ret (rd (mem s) a) s else Stop (Fault a) s.
Definition store (a v : Z) : M pstate unit :=
  fun s => if addr_ok a then Ret tt (set_mem (<[a := v]> (mem s)) s) else Stop (Fault a) s.

(** The word loops of memset and memcpy (util/string.c) for [n] words. *)
Fixpoint memset_words (n : nat) (d w : Z) : M pstate unit :=
  match n with
  | O => ret tt
  | S n' => store d w ;;; memset_words n' (d + 8) w
  end.

Fixpoint memcpy_words (n : nat) (d src : Z) : M pstate unit :=
  match n with
  | O => ret tt
  | S n' => let* v := load src in store d v ;;; memcpy_words n' (d + 8) (src + 8)
  end.

(** ** The lock of kernel/riscv.h, as one hart sees it *)

Definition spinlock_amo_init : M pstate unit := modify (set_lock SPIN_LOCK_FREE).

Definition spinlock_amo_lock : M pstate unit :=
  fun s => if pmm_lock s =? SPIN_LOCK_FREE then Ret tt (set_lock SPIN_LOCK_HELD s)
           else Stop Spin s.

Definition spinlock_amo_unlock : M pstate unit := modify (set_lock SPIN_LOCK_FREE).

(** ** Operations *)

Definition PAGE_INDEX (s : pstate) (pa : Z) : Z := u64 (pa - free_mem_start_addr s) / PGSIZE.
Definition MAX_PAGE_NUM (s : pstate) : Z :=
  u64 (free_mem_end_addr s - free_mem_start_addr s) / PGSIZE.

Definition ref_at (s : pstate) (idx : Z) : Z := default 0 (page_ref_count s !! idx).
Definition set_ref (idx v : Z) : M pstate unit :=
  modify (fun s => set_refs (<[idx := u16 v]> (page_ref_count s)) s).

Definition free_page (pa : Z) : M pstate unit :=
  spinlock_amo_lock ;;;
  let* s := get in
  check (negb (pa mod PGSIZE =? 0) || (pa <? free_mem_start_addr s)
         || (free_mem_end_addr s <=? pa)) (Panic "free_page") ;;;
  let idx := PAGE_INDEX s pa in
  let max_pages := MAX_PAGE_NUM s in
  check (max_pages <=? idx) (Panic "free_page index") ;;;
  when (0 <? ref_at s idx) (set_ref idx (ref_at s idx - 1)) ;;;
  let* s1 := get in
  when (ref_at s1 idx =? 0)
    (store pa (g_free_mem_list s1) ;;; modify (set_head pa)) ;;;
  spinlock_amo_unlock.

Definition alloc_page : M pstate Z :=
  spinlock_amo_lock ;;;
  let* s := get in
  let n := g_free_mem_list s in
  when (negb (n =? 0)) (let* nxt := load n in modify (set_head nxt)) ;;;
  when (negb (n =? 0))
    (let idx := PAGE_INDEX s n in
     when (idx <? MAX_PAGE_NUM s) (set_ref idx 1)) ;;;
  spinlock_amo_unlock ;;;
  ret n.

Definition inc_page_ref (pa : Z) : M pstate unit :=
  let* s := get in
  if (pa <? free_mem_start_addr s) || (free_mem_end_addr s <=? pa) then ret tt else
  spinlock_amo_lock ;;;
  (let idx := PAGE_INDEX s pa in
   when (idx <? MAX_PAGE_NUM s) (set_ref idx (ref_at s idx + 1))) ;;;
  spinlock_amo_unlock.

Definition dec_page_ref (pa : Z) : M pstate unit := free_page pa.

Definition get_page_ref (pa : Z) : M pstate Z :=
  let* s := get in
  if (pa <? free_mem_start_addr s) || (free_mem_end_addr s <=? pa) then ret 0 else
  spinlock_amo_lock ;;;
  let idx := PAGE_INDEX s pa in
  let ref := if idx <? MAX_PAGE_NUM s then ref_at s idx else 0 in
  spinlock_amo_unlock ;;;
  ret ref.

(** The loop of [create_freepage_list]; [fuel] bounds the number of pages. *)
Fixpoint freepage_loop (fuel : nat) (p end_ : Z) : M pstate unit :=
  match fuel with
  | O => halt OutOfFuel
  | S f => if u64 (p + PGSIZE) <? end_
           then free_page p ;;; freepage_loop f (u64 (p + PGSIZE)) end_
           else ret tt
  end.

Definition create_freepage_list (start end_ : Z) : M pstate unit :=
  modify (set_head 0) ;;;
  freepage_loop (Z.to_nat ((end_ - start) / PGSIZE + 2)) (ROUNDUP start PGSIZE) end_.

(** [kernel_end] is the address of the linker symbol [_end]. *)
Definition pmm_init (kernel_end : Z) : M pstate unit :=
  let g_kernel_start := KERN_BASE in
  let g_kernel_end := kernel_end in
  let pke_kernel_size := u64 (g_kernel_end - g_kernel_start) in
  let start := ROUNDUP g_kernel_end PGSIZE in
  let* s := get in
  let sz := MIN PKE_MAX_ALLOWABLE_RAM (g_mem_size s) in
  modify (set_bounds start (free_mem_end_addr s) sz) ;;;
  check (sz <? pke_kernel_size)
    (Panic "Error when recomputing physical memory size (g_mem_size).") ;;;
  modify (set_bounds start (u64 (sz + DRAM_BASE)) sz) ;;;
  spinlock_amo_init ;;;
  create_freepage_list start (u64 (sz + DRAM_BASE)).

(** ** The invariant *)

(** The pages that [create_freepage_list] hands to the allocator. *)
Definition managed (s : pstate) (p : Z) : Prop :=
  p mod PGSIZE = 0 /\ free_mem_start_addr s <= p /\ p + PGSIZE < free_mem_end_addr s.

Definition page_ref (s : pstate) (p : Z) : Z := ref_at s ((p - free_mem_start_addr s) / PGSIZE).

(** [freelist m p l]: following the links of memory [m] from [p] visits [l]
    and ends at the null pointer. *)
Fixpoint freelist (m : gmap Z Z) (p : Z) (l : list Z) : Prop :=
  match l with
  | [] => p = 0
  | x :: l' => p = x /\ freelist m (rd m x) l'
  end.

Record geometry (s : pstate) : Prop := {
  geo_start : free_mem_start_addr s mod PGSIZE = 0;
  geo_lo : DRAM_BASE <= free_mem_start_addr s;
  geo_hi : free_mem_end_addr s <= PHYS_TOP;
  geo_le : free_mem_start_addr s <= free_mem_end_addr s
}.

(** [pmm_inv s l]: the free list of [s] is exactly [l], without repetition,
    and a managed page is on it exactly when nothing refers to it. *)
Record pmm_inv (s : pstate) (l : list Z) : Prop := {
  inv_geo : geometry s;
  inv_list : freelist (mem s) (g_free_mem_list s) l;
  inv_nodup : NoDup l;
  inv_free : forall p, p ∈ l <-> managed s p /\ page_ref s p = 0;
  inv_refs : forall i, 0 <= ref_at s i < 65536;
  inv_lock : pmm_lock s = SPIN_LOCK_FREE
}.

(** ** Lemmas *)

Ltac pmm_unfold := unfold spinlock_amo_lock, spinlock_amo_unlock, spinlock_amo_init, bind, get,
  check, when, set_ref, modify, ret, halt, store, load in *.

Lemma managed_index s p :
  geometry s -> managed s p ->
  PAGE_INDEX s p = (p - free_mem_start_addr s) / PGSIZE /\
  0 <= PAGE_INDEX s p < MAX_PAGE_NUM s.
Proof.
  intros [] (Ha & Hlo & Hhi). unfold PAGE_INDEX, MAX_PAGE_NUM. kconst.
  rewrite !Z.mod_small by lia. Z.to_euclidean_division_equations; lia.
Qed.

Lemma managed_addr_ok s p : geometry s -> managed s p -> addr_ok p = true.
Proof.
  intros [] (Ha & Hlo & Hhi). unfold addr_ok.
  rewrite !andb_true_iff, !Z.leb_le, Z.eqb_eq. klia.
Qed.

Lemma managed_index_inj s p q :
  geometry s -> managed s p -> managed s q ->
  (p - free_mem_start_addr s) / PGSIZE = (q - free_mem_start_addr s) / PGSIZE -> p = q.
Proof. intros [] (? & ? & ?) (? & ? & ?) ?. klia. Qed.

Lemma managed_nonzero s p : geometry s -> managed s p -> p <> 0.
Proof. intros [] (? & ? & ?). klia. Qed.

Lemma rd_insert_eq m a v : rd (<[a := v]> m) a = v.
Proof. unfold rd. by rewrite lookup_insert_eq. Qed.

Lemma rd_insert_ne m a b v : a <> b -> rd (<[a := v]> m) b = rd m b.
Proof. intros. unfold rd. by rewrite lookup_insert_ne. Qed.

#[export] Hint Rewrite rd_insert_eq : kernel.
#[export] Hint Resolve managed_addr_ok managed_nonzero : kernel.

(** A store outside the free pages' first words leaves the free list alone. *)
Lemma freelist_insert m a v p l :
  a ∉ l -> freelist m p l -> freelist (<[a := v]> m) p l.
Proof.
  revert p. induction l as [|x l IH]; intros p Hn; [done|].
  intros [-> H]. apply not_elem_of_cons in Hn as [? Hn]. split; [done|].
  rewrite rd_insert_ne by done. by apply IH.
Qed.

(** The free list depends on memory only through the first words of its pages. *)
Lemma freelist_ext m m' p l :
  (forall x, x ∈ l -> rd m' x = rd m x) -> freelist m p l -> freelist m' p l.
Proof.
  revert p. induction l as [|x l IH]; intros p He; [done|].
  intros [-> H]. split; [done|]. rewrite He by (by left). apply IH; [|done].
  intros y Hy. apply He. by right.
Qed.

Lemma freelist_inj m p l l' : ~ 0 ∈ l -> ~ 0 ∈ l' -> freelist m p l -> freelist m p l' -> l = l'.
Proof.
  revert p l'. induction l as [|x l IH]; intros p [|y l'] H0 H0' H H'; simpl in *; try done.
  - destruct H' as [-> _]. set_solver.
  - destruct H as [-> _]. set_solver.
  - destruct H as [-> H], H' as [-> H']. f_equal. eapply IH; eauto; set_solver.
Qed.

(** [free_page] on a page with several references only drops one of them. *)
Definition unref_result (s : pstate) (p : Z) : pstate :=
  set_refs (<[PAGE_INDEX s p := page_ref s p - 1]> (page_ref_count s)) s.

(** Linking a page in at the head of the free list. *)
Definition push_result (s : pstate) (p : Z) : pstate :=
  set_head p (set_mem (<[p := g_free_mem_list s]> (mem s)) s).

(** [free_page] on the last reference. *)
Definition free_result (s : pstate) (p : Z) : pstate := push_result (unref_result s p) p.

(** [free_page] on any managed page: a positive count is decremented, and the
    page is linked in when the count is then zero - also when it already was. *)
Lemma free_page_exec s p :
  geometry s -> pmm_lock s = SPIN_LOCK_FREE -> managed s p -> 0 <= page_ref s p < 65536 ->
  free_page p s =
    Ret tt (let s1 := if 0 <? page_ref s p then unref_result s p else s in
            if page_ref s p <=? 1 then push_result s1 p else s1).
Proof.
  intros Hg Hl Hm Hr.
  destruct (managed_index _ _ Hg Hm) as [Hi [Hi0 Hi1]].
  pose proof (managed_addr_ok _ _ Hg Hm) as Hok.
  assert (Hrp : page_ref s p = ref_at s (PAGE_INDEX s p)) by (unfold page_ref; by rewrite Hi).
  unfold push_result, unref_result. rewrite !Hrp in *. clear Hrp Hi.
  destruct Hm as (Ha & Hlo & Hhi).
  unfold free_page. pmm_unfold. rewrite Hl. cbn.
  change (PAGE_INDEX (set_lock SPIN_LOCK_HELD s) p) with (PAGE_INDEX s p).
  change (MAX_PAGE_NUM (set_lock _ _)) with (MAX_PAGE_NUM s).
  change (ref_at (set_lock SPIN_LOCK_HELD s) (PAGE_INDEX s p)) with (ref_at s (PAGE_INDEX s p)).
  rewrite (proj2 (Z.eqb_eq _ _) Ha), (proj2 (Z.ltb_ge p _) Hlo),
    (proj2 (Z.leb_gt _ p)) by klia. cbn.
  rewrite (proj2 (Z.leb_gt _ _)) by lia.
  destruct (0 <? ref_at s (PAGE_INDEX s p)) eqn:E0; bsplit; cbn.
  - unfold ref_at at 1. cbn. rewrite lookup_insert_eq. cbn.
    unfold u16. rewrite Z.mod_small by lia.
    destruct (ref_at s (PAGE_INDEX s p) <=? 1) eqn:E; bsplit.
    + rewrite (proj2 (Z.eqb_eq _ 0)) by lia. rewrite Hok.
      unfold set_head, set_mem, set_refs, set_lock. cbn. by rewrite Hl.
    + rewrite (proj2 (Z.eqb_neq _ 0)) by lia.
      unfold set_head, set_mem, set_refs, set_lock. cbn. by rewrite Hl.
  - change (ref_at (set_lock SPIN_LOCK_HELD s) (PAGE_INDEX s p)) with (ref_at s (PAGE_INDEX s p)).
    rewrite (proj2 (Z.eqb_eq _ 0)) by lia. rewrite (proj2 (Z.leb_le _ 1)) by lia.
    rewrite Hok. unfold set_head, set_mem, set_lock. cbn. by rewrite Hl.
Qed.

Section Operations.
Context (s : pstate) (l : list Z) (Hinv : pmm_inv s l).

Lemma inv_managed p : p ∈ l -> managed s p.
Proof. intros H. by apply (inv_free _ _ Hinv) in H as [? _]. Qed.

(** What [alloc_page] computes: the first free page and the new state. *)
Definition alloc_result (p : Z) : pstate :=
  set_head (rd (mem s) p) (set_refs (<[PAGE_INDEX s p := 1]> (page_ref_count s)) s).

Lemma alloc_page_run p l' :
  l = p :: l' -> alloc_page s = Ret p (alloc_result p).
Proof.
  intros El. pose proof (inv_managed p ltac:(rewrite El; by left)) as Hm.
  pose proof (inv_geo _ _ Hinv) as Hg.
  destruct (managed_index _ _ Hg Hm) as [Hi [Hi0 Hi1]].
  pose proof (managed_nonzero _ _ Hg Hm) as Hnz.
  pose proof (managed_addr_ok _ _ Hg Hm) as Hok.
  pose proof (inv_list _ _ Hinv) as Hh. rewrite El in Hh. destruct Hh as [Hh _].
  pose proof (inv_lock _ _ Hinv) as Hl.
  unfold alloc_page, alloc_result. pmm_unfold. rewrite Hl. cbn.
  rewrite Hh, (proj2 (Z.eqb_neq p 0)) by done. cbn. rewrite Hok. cbn.
  fold (PAGE_INDEX s p). change (MAX_PAGE_NUM (set_lock _ _)) with (MAX_PAGE_NUM s).
  change (PAGE_INDEX (set_lock _ _) p) with (PAGE_INDEX s p).
  rewrite (proj2 (Z.ltb_lt _ _)) by done. cbn.
  unfold set_head, set_refs, set_lock. cbn. by rewrite Hl.
Qed.

Lemma alloc_page_empty : l = [] -> alloc_page s = Ret 0 s.
Proof.
  intros El. pose proof (inv_list _ _ Hinv) as Hh. rewrite El in Hh. cbn in Hh.
  pose proof (inv_lock _ _ Hinv) as Hl.
  unfold alloc_page. pmm_unfold. rewrite Hl. cbn. rewrite Hh. unfold set_lock. cbn.
  destruct s; cbn in *. by subst.
Qed.

Lemma alloc_result_inv p l' : l = p :: l' -> pmm_inv (alloc_result p) l'.
Proof.
  intros El. pose proof (inv_geo _ _ Hinv) as Hg.
  pose proof (inv_managed p ltac:(rewrite El; by left)) as Hm.
  destruct (managed_index _ _ Hg Hm) as [Hi _].
  pose proof (inv_list _ _ Hinv) as Ht. rewrite El in Ht. destruct Ht as [Hh Ht].
  pose proof (inv_nodup _ _ Hinv) as Hnd. rewrite El in Hnd.
  apply list.NoDup_cons in Hnd as [Hp Hnd].
  split; cbn; try done.
  - destruct Hg; by split.
  - intros q. change (managed (alloc_result p) q) with (managed s q).
    unfold page_ref, ref_at. cbn. rewrite Hi.
    pose proof (inv_free _ _ Hinv q) as Hq.
    rewrite El, elem_of_cons in Hq. unfold page_ref, ref_at in Hq. split.
    + intros Hin. destruct (proj1 Hq (or_intror Hin)) as [Hmq Hr]. split; [done|].
      rewrite lookup_insert_ne; [done|]. intros E.
      apply managed_index_inj in E; auto. congruence.
    + intros [Hmq Hr]. destruct (decide (p = q)) as [<-|Hne].
      { by rewrite lookup_insert_eq in Hr. }
      rewrite lookup_insert_ne in Hr.
      2:{ intros E. apply managed_index_inj in E; auto. }
      destruct (proj2 Hq (conj Hmq Hr)); congruence.
  - intros i. unfold ref_at. cbn. rewrite lookup_insert. case_decide; cbn; [lia|].
    apply (inv_refs _ _ Hinv).
  - by apply (inv_lock _ _ Hinv).
Qed.

Lemma free_page_run p :
  managed s p -> 0 < page_ref s p ->
  free_page p s = Ret tt (if page_ref s p =? 1 then free_result s p else unref_result s p).
Proof.
  intros Hm Hr.
  pose proof (inv_refs _ _ Hinv ((p - free_mem_start_addr s) / PGSIZE)).
  rewrite free_page_exec by (auto; apply Hinv).
  rewrite (proj2 (Z.ltb_lt 0 _)) by done.
  destruct (page_ref s p =? 1) eqn:E, (page_ref s p <=? 1) eqn:E'; bsplit; lia || done.
Qed.

Lemma page_ref_unref p q :
  managed s p -> managed s q ->
  page_ref (unref_result s p) q = if decide (q = p) then page_ref s p - 1 else page_ref s q.
Proof.
  intros Hp Hq. pose proof (inv_geo _ _ Hinv) as Hg.
  destruct (managed_index _ _ Hg Hp) as [Hi _].
  unfold page_ref at 1, ref_at. cbn. rewrite Hi. rewrite lookup_insert.
  case_decide as E.
  - apply managed_index_inj in E; auto. subst. by rewrite decide_True by done.
  - rewrite decide_False by congruence. done.
Qed.

Lemma unref_result_inv p :
  managed s p -> 1 < page_ref s p -> pmm_inv (unref_result s p) l.
Proof.
  intros Hm Hr. split; try apply Hinv.
  - destruct (inv_geo _ _ Hinv); by split.
  - intros q. change (managed (unref_result s p) q) with (managed s q).
    rewrite (inv_free _ _ Hinv q). split; intros [Hq H0]; (split; [done|]);
    rewrite page_ref_unref in * by done; case_decide; subst; lia.
  - intros i. unfold ref_at. cbn. rewrite lookup_insert. case_decide; cbn.
    + pose proof (inv_refs _ _ Hinv ((p - free_mem_start_addr s) / PGSIZE)).
      unfold page_ref in *. lia.
    + apply (inv_refs _ _ Hinv).
Qed.

Lemma free_result_inv p :
  managed s p -> page_ref s p = 1 -> pmm_inv (free_result s p) (p :: l).
Proof.
  intros Hm Hr.
  assert (Hnp : p ∉ l).
  { intros Hin. apply (inv_free _ _ Hinv) in Hin as [_ ?]. lia. }
  split; cbn.
  - destruct (inv_geo _ _ Hinv); by split.
  - split; [done|]. rewrite rd_insert_eq. apply freelist_insert; [done|].
    apply (inv_list _ _ Hinv).
  - apply list.NoDup_cons. split; [done|]. apply (inv_nodup _ _ Hinv).
  - intros q. change (managed (free_result s p) q) with (managed s q).
    change (page_ref (free_result s p) q) with (page_ref (unref_result s p) q).
    rewrite elem_of_cons, (inv_free _ _ Hinv q). split.
    + intros [->|[Hq H0]]; (split; [done|]); rewrite page_ref_unref by done;
      case_decide; subst; lia.
    + intros [Hq H0]. rewrite page_ref_unref in H0 by done. case_decide; auto.
  - intros i. change (ref_at (free_result s p) i) with (ref_at (unref_result s p) i).
    unfold ref_at. cbn. rewrite lookup_insert. case_decide; cbn; [lia|].
    apply (inv_refs _ _ Hinv).
  - apply (inv_lock _ _ Hinv).
Qed.
End Operations.

(** ** Establishing the free list at boot *)

(** What holds at boot before the list is built: static data is zero. *)
Record boot_state (s : pstate) : Prop := {
  boot_geo : geometry s;
  boot_lock : pmm_lock s = SPIN_LOCK_FREE;
  boot_refs : forall i, ref_at s i = 0
}.

Lemma push_boot s p : boot_state s -> boot_state (push_result s p).
Proof. intros [[] ? ?]. by repeat split. Qed.

Lemma freepage_loop_run fuel p s l :
  boot_state s -> p mod PGSIZE = 0 -> free_mem_start_addr s <= p <= free_mem_end_addr s ->
  (free_mem_end_addr s - p) / PGSIZE + 1 < Z.of_nat fuel ->
  freelist (mem s) (g_free_mem_list s) l -> NoDup l ->
  (forall q, q ∈ l <-> managed s q /\ q < p) ->
  exists s' l', freepage_loop fuel p (free_mem_end_addr s) s = Ret tt s' /\ pmm_inv s' l' /\
    free_mem_start_addr s' = free_mem_start_addr s /\ free_mem_end_addr s' = free_mem_end_addr s /\
    page_ref_count s' = page_ref_count s /\ (forall a, ~ managed s a -> rd (mem s') a = rd (mem s) a).
Proof.
  revert p s l. induction fuel as [|fuel IH]; intros p s l Hb Hp Hlo Hf Hl Hnd Hq.
  { destruct Hb as [[] _ _]. klia. }
  pose proof (boot_geo _ Hb) as Hg. cbn [freepage_loop].
  destruct (u64 (p + PGSIZE) <? free_mem_end_addr s) eqn:E; bsplit.
  - assert (Hu : u64 (p + PGSIZE) = p + PGSIZE) by (destruct Hg; klia).
    rewrite Hu in *.
    assert (Hm : managed s p) by (repeat split; klia).
    unfold bind. rewrite free_page_exec; auto using boot_lock.
    2:{ unfold page_ref. rewrite (boot_refs _ Hb). lia. }
    unfold page_ref. rewrite !(boot_refs _ Hb). cbn.
    destruct (IH (p + PGSIZE) (push_result s p) (p :: l)) as (s' & l' & H1 & H2 & H3 & H4 & H5 & H6); cbn.
    + by apply push_boot.
    + klia.
    + klia.
    + klia.
    + split; [done|]. rewrite rd_insert_eq. apply freelist_insert; [|done].
      rewrite Hq. lia.
    + apply list.NoDup_cons. split; [rewrite Hq; lia|done].
    + intros q. change (managed (push_result s p) q) with (managed s q).
      rewrite elem_of_cons, Hq. split.
      * intros [->|[? ?]]; split; auto; klia.
      * intros [Hmq ?]. destruct (decide (q = p)); [by left|right; split; [done|]].
        destruct Hmq as (? & ? & ?). klia.
    + exists s', l'. do 5 (split; [done|]). intros a Ha. rewrite H6 by done. cbn. apply rd_insert_ne. by intros ->.
  - exists s, l. split; [done|]. split; [|done]. split; auto using boot_lock.
    + intros q. rewrite Hq. split.
      * intros [? ?]. split; [done|]. unfold page_ref. by rewrite (boot_refs _ Hb).
      * intros [Hmq _]. split; [done|]. destruct Hmq as (? & ? & ?), Hg. klia.
    + intros i. rewrite (boot_refs _ Hb). lia.
Qed.

(** ** Correctness *)

(** C26: after [pmm_init], whatever memory held before, the free list is a
    well-formed list without repetition of exactly the managed pages - the
    aligned pages between the end of the kernel image and the end of memory
    that [create_freepage_list] visits - all unreferenced, and the lock is
    free.  The only words of memory that change are the first words of these pages.  The loop ends by itself. *)
Theorem pmm_init_establishes_inv s kernel_end :
  KERN_BASE < kernel_end <= DRAM_BASE + g_mem_size s ->
  kernel_end <= PHYS_TOP - PGSIZE ->
  ROUNDUP kernel_end PGSIZE <= DRAM_BASE + g_mem_size s ->
  (forall i, ref_at s i = 0) ->
  exists s' l, pmm_init kernel_end s = Ret tt s' /\ pmm_inv s' l /\
    free_mem_start_addr s' = ROUNDUP kernel_end PGSIZE /\
    free_mem_end_addr s' = DRAM_BASE + Z.min PKE_MAX_ALLOWABLE_RAM (g_mem_size s) /\
    (forall p, p ∈ l <-> managed s' p) /\ (forall a, a ∉ l -> rd (mem s') a = rd (mem s) a).
Proof.
  intros Hk Hk' Hk'' Hz.
  assert (Hmin : MIN PKE_MAX_ALLOWABLE_RAM (g_mem_size s)
                 = Z.min PKE_MAX_ALLOWABLE_RAM (g_mem_size s)) by (unfold MIN; destruct (_ <? _) eqn:?; bsplit; lia).
  destruct (roundup_spec kernel_end) as [Hr1 Hr2]; [klia|].
  unfold pmm_init, create_freepage_list. unfold spinlock_amo_init, bind, get, check, modify, ret.
  rewrite Hmin. set (sz := Z.min PKE_MAX_ALLOWABLE_RAM (g_mem_size s)) in *.
  assert (Hsz : u64 (sz + DRAM_BASE) = DRAM_BASE + sz) by klia.
  rewrite Hsz, (proj2 (Z.ltb_ge sz _)) by klia.
  assert (Hs : ROUNDUP (ROUNDUP kernel_end PGSIZE) PGSIZE = ROUNDUP kernel_end PGSIZE).
  { pose proof (roundup_spec (ROUNDUP kernel_end PGSIZE)). klia. }
  rewrite Hs. set (start := ROUNDUP kernel_end PGSIZE) in *.
  match goal with |- context [freepage_loop _ _ _ ?s0] => set (s1 := s0) end.
  assert (Hb : boot_state s1) by (repeat split; cbn; auto; klia).
  destruct (freepage_loop_run (Z.to_nat ((DRAM_BASE + sz - start) / PGSIZE + 2)) start s1 [])
    as (s' & l & H1 & H2 & H3 & H4 & H5 & H6); cbn; auto; try klia.
  { constructor. }
  { intros q. split; [by intros ?%elem_of_nil|]. intros [(? & ? & ?) ?]. cbn in *. lia. }
  exists s', l. split; [exact H1|]. split; [done|]. split; [done|]. split; [done|].
  assert (Hl : forall p, p ∈ l <-> managed s' p).
  { intros p. rewrite (inv_free _ _ H2). split; [by intros [? _]|]. intros Hm. split; [done|].
    unfold page_ref, ref_at. rewrite H5. apply Hz. }
  split; [exact Hl|]. intros a Ha. apply H6. intros Hm. apply Ha, Hl. unfold managed in *. by rewrite H3, H4.
Qed.

(** A small boot: 16 managed pages above a kernel image of one page. *)
Definition boot16 : pstate := mkP ∅ 0 ∅ 0 0 (18 * 4096) 0.

Lemma pmm_init_establishes_inv_witness :
  exists s' l, pmm_init (KERN_BASE + 100) boot16 = Ret tt s' /\ pmm_inv s' l /\
    free_mem_start_addr s' = KERN_BASE + 4096.
Proof.
  destruct (pmm_init_establishes_inv boot16 (KERN_BASE + 100)) as (s' & l & H1 & H2 & H3 & _).
  - cbv; split; congruence.
  - cbv; congruence.
  - cbv; congruence.
  - intros i. reflexivity.
  - exists s', l. split; [exact H1|]. split; [exact H2|]. rewrite H3. reflexivity.
Defined.

Section Counting.
Context (s : pstate) (l : list Z) (Hinv : pmm_inv s l).

Definition inc_result (p : Z) : pstate :=
  set_refs (<[PAGE_INDEX s p := page_ref s p + 1]> (page_ref_count s)) s.

Lemma inc_page_ref_run p :
  managed s p -> page_ref s p < 65535 -> inc_page_ref p s = Ret tt (inc_result p).
Proof.
  intros Hm Hr. pose proof (inv_geo _ _ Hinv) as Hg.
  destruct (managed_index _ _ Hg Hm) as [Hi [Hi0 Hi1]].
  pose proof (inv_refs _ _ Hinv (PAGE_INDEX s p)) as Hrg.
  pose proof (inv_lock _ _ Hinv) as Hl.
  assert (Hrp : page_ref s p = ref_at s (PAGE_INDEX s p)) by (unfold page_ref; by rewrite Hi).
  unfold inc_result. rewrite Hrp in *. destruct Hm as (Ha & Hlo & Hhi).
  unfold inc_page_ref. pmm_unfold.
  rewrite (proj2 (Z.ltb_ge p _) Hlo), (proj2 (Z.leb_gt _ p)) by klia. cbn.
  rewrite Hl. cbn. rewrite (proj2 (Z.ltb_lt (PAGE_INDEX s p) _)) by done. cbn.
  unfold u16. rewrite Z.mod_small by lia.
  unfold set_refs, set_lock. cbn. by rewrite Hl.
Qed.

Lemma get_page_ref_run p : managed s p -> get_page_ref p s = Ret (page_ref s p) s.
Proof.
  intros Hm. pose proof (inv_geo _ _ Hinv) as Hg.
  destruct (managed_index _ _ Hg Hm) as [Hi [Hi0 Hi1]].
  pose proof (inv_lock _ _ Hinv) as Hl.
  destruct Hm as (Ha & Hlo & Hhi).
  unfold get_page_ref. pmm_unfold.
  rewrite (proj2 (Z.ltb_ge p _) Hlo), (proj2 (Z.leb_gt _ p)) by klia. cbn.
  rewrite Hl. cbn. rewrite (proj2 (Z.ltb_lt (PAGE_INDEX s p) _)) by done. cbn.
  unfold page_ref. rewrite <- Hi. unfold set_lock. cbn. destruct s; cbn in *. by rewrite Hl.
Qed.

Lemma page_ref_alloc p q :
  managed s p -> managed s q ->
  page_ref (alloc_result s p) q = if decide (q = p) then 1 else page_ref s q.
Proof.
  intros Hp Hq. pose proof (inv_geo _ _ Hinv) as Hg.
  destruct (managed_index _ _ Hg Hp) as [Hi _].
  unfold page_ref, ref_at, alloc_result. cbn. rewrite Hi, lookup_insert.
  destruct (decide (q = p)) as [->|Hne]; [by rewrite decide_True|].
  rewrite decide_False; [done|]. intros E. apply Hne. by eapply managed_index_inj; eauto.
Qed.

Lemma page_ref_inc p q :
  managed s p -> managed s q ->
  page_ref (inc_result p) q = if decide (q = p) then page_ref s p + 1 else page_ref s q.
Proof.
  intros Hp Hq. pose proof (inv_geo _ _ Hinv) as Hg.
  destruct (managed_index _ _ Hg Hp) as [Hi _].
  unfold page_ref at 1, ref_at. cbn. rewrite Hi. rewrite lookup_insert.
  case_decide as E.
  - apply managed_index_inj in E; auto. subst. by rewrite decide_True by done.
  - rewrite decide_False by congruence. done.
Qed.

Lemma inc_result_inv p :
  managed s p -> 0 < page_ref s p < 65535 -> pmm_inv (inc_result p) l.
Proof.
  intros Hm Hr. split; try apply Hinv.
  - destruct (inv_geo _ _ Hinv); by split.
  - intros q. change (managed (inc_result p) q) with (managed s q).
    rewrite (inv_free _ _ Hinv q). split; intros [Hq H0]; (split; [done|]);
    rewrite page_ref_inc in * by done; case_decide; subst; lia.
  - intros i. unfold ref_at. cbn. rewrite lookup_insert. case_decide; cbn.
    + unfold page_ref in *. lia.
    + apply (inv_refs _ _ Hinv).
Qed.
End Counting.

(** ** The allocator's contract, and that the code implements it *)

(** What the rest of the kernel may rely on: a map from pages to reference
    counts, from which [alloc] takes a page that nobody refers to. *)
Inductive pevent : Type :=
| EvAlloc (p : Z)
| EvNoMemory
| EvFree (p : Z)
| EvShare (p : Z).

Definition upd (r : Z -> Z) (p v : Z) : Z -> Z := fun q => if decide (q = p) then v else r q.

Inductive astep (dom : Z -> Prop) (r : Z -> Z) : pevent -> (Z -> Z) -> Prop :=
| astep_alloc p : dom p -> r p = 0 -> astep dom r (EvAlloc p) (upd r p 1)
| astep_none : (forall p, dom p -> r p <> 0) -> astep dom r EvNoMemory r
| astep_free p : dom p -> 0 < r p -> astep dom r (EvFree p) (upd r p (r p - 1))
| astep_share p : dom p -> 0 < r p -> astep dom r (EvShare p) (upd r p (r p + 1)).

(** The requests of the other components. *)
Inductive prequest : Type := ReqAlloc | ReqFree (p : Z) | ReqShare (p : Z).

Definition serve (q : prequest) : M pstate pevent :=
  match q with
  | ReqAlloc => let* p := alloc_page in ret (if p =? 0 then EvNoMemory else EvAlloc p)
  | ReqFree p => free_page p ;;; ret (EvFree p)
  | ReqShare p => inc_page_ref p ;;; ret (EvShare p)
  end.

(** A caller only drops or shares a reference it holds, and the 16-bit
    counter is not exhausted. *)
Definition admissible (s : pstate) (q : prequest) : Prop :=
  match q with
  | ReqAlloc => True
  | ReqFree p => managed s p /\ 0 < page_ref s p
  | ReqShare p => managed s p /\ 0 < page_ref s p < 65535
  end.

(** C1: the allocator refines its contract. From a state that satisfies the
    invariant every admissible request returns, preserves the invariant and
    the managed area, and changes the reference counts exactly as the
    abstract step says; in particular a page is handed out only when its
    count was zero, and failure is reported only when every page is in use. *)
Theorem pmm_refines_contract s l q :
  pmm_inv s l -> admissible s q ->
  exists ev s' l' r', serve q s = Ret ev s' /\ pmm_inv s' l' /\
    astep (managed s) (page_ref s) ev r' /\
    (forall p, managed s' p <-> managed s p) /\
    (forall p, managed s p -> page_ref s' p = r' p).
Proof.
  intros Hinv Ha. pose proof (inv_geo _ _ Hinv) as Hg. destruct q as [|p|p]; cbn in *.
  - destruct l as [|p l'].
    + unfold bind. rewrite (alloc_page_empty _ _ Hinv eq_refl). cbn.
      eexists _, s, [], _. split; [done|]. split; [done|]. split; [apply astep_none|done].
      intros p Hm H0. by apply (elem_of_nil p), (inv_free _ _ Hinv).
    + pose proof (inv_managed _ _ Hinv p ltac:(by left)) as Hm.
      destruct (proj1 (inv_free _ _ Hinv p) ltac:(by left)) as [_ H0].
      destruct (managed_index _ _ Hg Hm) as [Hi _].
      unfold bind. rewrite (alloc_page_run _ _ Hinv _ _ eq_refl). cbn.
      rewrite (proj2 (Z.eqb_neq p 0)) by eauto with kernel.
      eexists _, _, l', _. split; [done|].
      split; [by apply (alloc_result_inv _ _ Hinv)|].
      split; [by apply astep_alloc|]. split; [done|].
      intros q Hq. unfold page_ref at 1, ref_at, upd. cbn. rewrite Hi, lookup_insert.
      case_decide as E.
      * apply managed_index_inj in E; auto. subst. by rewrite decide_True.
      * rewrite decide_False by congruence. done.
  - destruct Ha as [Hm Hr]. unfold bind. rewrite (free_page_run _ _ Hinv _ Hm Hr).
    destruct (page_ref s p =? 1) eqn:E; bsplit; eexists _, _, _, _;
      (split; [done|]); split.
    + by apply (free_result_inv _ _ Hinv).
    + split; [by apply astep_free|]. split; [done|]. intros q Hq. by apply (page_ref_unref _ _ Hinv).
    + apply (unref_result_inv _ _ Hinv); [done|lia].
    + split; [by apply astep_free|]. split; [done|]. intros q Hq. by apply (page_ref_unref _ _ Hinv).
  - destruct Ha as [Hm Hr]. unfold bind. rewrite (inc_page_ref_run _ _ Hinv) by (auto; lia).
    eexists _, _, l, _. split; [done|]. split; [by apply (inc_result_inv _ _ Hinv)|].
    split; [apply astep_share; [done|lia]|]. split; [done|].
    intros q Hq. by apply (page_ref_inc _ _ Hinv).
Qed.

(** A concrete allocator with two managed pages, both free. *)
Definition tiny : pstate :=
  mkP {[ 2147487744 := 2147483648 ]} 2147487744 ∅ 2147483648 2147495936 12288 0.

Lemma tiny_inv : pmm_inv tiny [2147487744; 2147483648].
Proof.
  split.
  - split; cbv; congruence.
  - done.
  - apply list.NoDup_cons. split; [by intros ?%list_elem_of_singleton|]. apply NoDup_singleton.
  - intros p. unfold managed, page_ref, ref_at. cbn. rewrite lookup_empty. cbn.
    rewrite !elem_of_cons, elem_of_nil. split.
    + intros [->|[->|[]]]; cbv; intuition congruence.
    + intros [(? & ? & ?) _]. kconst. Z.to_euclidean_division_equations. lia.
  - intros i. unfold ref_at. cbn. rewrite lookup_empty. cbn. lia.
  - done.
Qed.

Lemma pmm_refines_contract_witness :
  exists ev s' l' r', serve ReqAlloc tiny = Ret ev s' /\ pmm_inv s' l' /\
    astep (managed tiny) (page_ref tiny) ev r'.
Proof.
  destruct (pmm_refines_contract tiny _ ReqAlloc tiny_inv I)
    as (ev & s' & l' & r' & H1 & H2 & H3 & _).
  exists ev, s', l', r'. exact (conj H1 (conj H2 H3)).
Defined.

(** [free_page] stops the machine exactly on the addresses its guards name:
    a misaligned address, or one outside the managed area; every other
    address is accepted. *)
Theorem free_page_guard s l pa :
  pmm_inv s l -> 0 <= pa < 18446744073709551616 ->
  ((exists m s', free_page pa s = Stop (Panic m) s') <->
   pa mod PGSIZE <> 0 \/ pa < free_mem_start_addr s \/
   free_mem_start_addr s + MAX_PAGE_NUM s * PGSIZE <= pa).
Proof.
  intros Hinv Hpa. pose proof (inv_geo _ _ Hinv) as [Hs Hlo Hhi Hle].
  pose proof (inv_lock _ _ Hinv) as Hl.
  unfold free_page. pmm_unfold. rewrite Hl. cbn.
  change (PAGE_INDEX (set_lock SPIN_LOCK_HELD s) pa) with (PAGE_INDEX s pa).
  change (MAX_PAGE_NUM (set_lock SPIN_LOCK_HELD s)) with (MAX_PAGE_NUM s).
  assert (HM : MAX_PAGE_NUM s = (free_mem_end_addr s - free_mem_start_addr s) / PGSIZE)
    by (unfold MAX_PAGE_NUM; klia).
  destruct (_ || _)%bool eqn:G; cbn.
  { split; [intros _|eauto]. bsplit; auto. right; right. rewrite HM. klia. }
  bsplit.
  assert (HI : PAGE_INDEX s pa = (pa - free_mem_start_addr s) / PGSIZE)
    by (unfold PAGE_INDEX; klia).
  destruct (MAX_PAGE_NUM s <=? PAGE_INDEX s pa) eqn:G'; bsplit.
  { split; [intros _|eauto]. right; right. rewrite HI, HM in *. klia. }
  assert (Hok : addr_ok pa = true).
  { unfold addr_ok. rewrite HI, HM in *. rewrite !andb_true_iff, !Z.leb_le, Z.eqb_eq. klia. }
  rewrite Hok. split.
  - intros (m & s' & Hrun). exfalso. revert Hrun.
    repeat match goal with |- context [if ?b then _ else _] => destruct b end; done.
  - rewrite HI, HM in *. intros [?|[?|?]]; exfalso; klia.
Qed.

Lemma free_page_guard_witness :
  (exists m s', free_page 4096 tiny = Stop (Panic m) s').
Proof.
  apply (free_page_guard tiny _ 4096 tiny_inv).
  - lia.
  - right; left. cbv. reflexivity.
Defined.

(** the counter does not protect against a second [free_page]. A page freed
    twice is linked to itself, and the next two allocations return the same
    page to two owners. *)
Theorem double_free_aliases s l p :
  pmm_inv s l -> managed s p -> page_ref s p = 1 ->
  exists s1 s2 s3 s4, free_page p s = Ret tt s1 /\ free_page p s1 = Ret tt s2 /\
    alloc_page s2 = Ret p s3 /\ alloc_page s3 = Ret p s4.
Proof.
  intros Hinv Hm Hr.
  pose proof (free_result_inv _ _ Hinv p Hm Hr) as Hinv1.
  pose proof (inv_geo _ _ Hinv1) as Hg. set (s1 := free_result s p) in *.
  assert (H0 : page_ref s1 p = 0).
  { by apply (proj1 (inv_free _ _ Hinv1 p) ltac:(by left)). }
  pose proof (managed_addr_ok _ _ Hg Hm) as Hok.
  pose proof (managed_nonzero _ _ Hg Hm) as Hnz.
  destruct (managed_index _ _ Hg Hm) as [_ [_ Hi1]].
  exists s1, (push_result s1 p).
  assert (E2 : free_page p s1 = Ret tt (push_result s1 p)).
  { rewrite free_page_exec; auto; [by rewrite H0|apply (inv_lock _ _ Hinv1)|lia]. }
  assert (Halloc : forall t, g_free_mem_list t = p -> rd (mem t) p = p -> pmm_lock t = 0 ->
            PAGE_INDEX t p = PAGE_INDEX s1 p -> MAX_PAGE_NUM t = MAX_PAGE_NUM s1 ->
            exists t', alloc_page t = Ret p t' /\ g_free_mem_list t' = p /\ rd (mem t') p = p /\
              pmm_lock t' = 0 /\ PAGE_INDEX t' p = PAGE_INDEX s1 p /\ MAX_PAGE_NUM t' = MAX_PAGE_NUM s1).
  { intros t Hh Hn Hl HI HM. unfold alloc_page. pmm_unfold. rewrite Hl. cbn.
    rewrite Hh, (proj2 (Z.eqb_neq p 0)) by done. cbn. rewrite Hok. cbn.
    change (PAGE_INDEX (set_lock SPIN_LOCK_HELD t) p) with (PAGE_INDEX t p).
    change (MAX_PAGE_NUM (set_lock SPIN_LOCK_HELD t)) with (MAX_PAGE_NUM t).
    rewrite HI, HM, (proj2 (Z.ltb_lt _ _) Hi1). cbn.
    eexists. split; [done|]. cbn. rewrite Hn. repeat split; auto. }
  destruct (Halloc (push_result s1 p)) as (s3 & E3 & ? & ? & ? & ? & ?); cbn; auto.
  { by rewrite rd_insert_eq. } { apply (inv_lock _ _ Hinv). }
  destruct (Halloc s3) as (s4 & E4 & _); auto.
  exists s3, s4. split; [|done].
  rewrite (free_page_run _ _ Hinv p Hm) by lia. by rewrite Hr.
Qed.

Lemma double_free_aliases_witness :
  exists s1 s2 s3 s4, free_page 2147487744 (alloc_result tiny 2147487744) = Ret tt s1 /\
    free_page 2147487744 s1 = Ret tt s2 /\
    alloc_page s2 = Ret 2147487744 s3 /\ alloc_page s3 = Ret 2147487744 s4.
Proof.
  apply (double_free_aliases (alloc_result tiny 2147487744) [2147483648] 2147487744).
  - apply (alloc_result_inv _ _ tiny_inv 2147487744). reflexivity.
  - repeat split; cbv; congruence.
  - vm_compute. reflexivity.
Defined.
