(* ===== verification/Vmm.v ===== *)
(** * Sv39 page tables (kernel/vmm.c)

    Page tables live in the word memory of [Pmm]; a [pte_t *] is the address of
    a word and the null pointer is 0.  The operations run in the monad of the
    page manager, because [page_walk] allocates the intermediate tables;
    [kill_current_process] is the stop [Kill]. *)
From S2P Require Import Prelude Pmm.

(** ** PTE fields and address macros (kernel/riscv.h) *)

Definition PTE_V : Z := 1.
Definition PTE_R : Z := 2.
Definition PTE_W : Z := 4.
Definition PTE_X : Z := 8.
Definition PTE_U : Z := 16.
Definition PTE_A : Z := 64.
Definition PTE_D : Z := 128.
Definition PTE_COW : Z := 256.

Definition PA2PTE (pa : Z) : Z := u64 (Z.shiftl (Z.shiftr pa 12) 10).
Definition PTE2PA (pte : Z) : Z := u64 (Z.shiftl (Z.shiftr pte 10) 12).
Definition PTE_FLAGS (pte : Z) : Z := Z.land pte 1023.

Definition PXMASK : Z := 511.
Definition PXSHIFT (level : Z) : Z := PGSHIFT + 9 * level.
Definition PX (level va : Z) : Z := Z.land (Z.shiftr va (PXSHIFT level)) PXMASK.
Definition MAXVA : Z := 274877906944.

Definition PROT_READ : Z := 1.
Definition PROT_WRITE : Z := 2.
Definition PROT_EXEC : Z := 4.

(** [has w f] is the C test [w & f]. *)
Definition has (w f : Z) : bool := negb (Z.land w f =? 0).
Infix ".|" := Z.lor (at level 50, left associativity) : kernel_scope.

(** ** Operations *)

Definition prot_to_type (prot user : Z) : Z :=
  let perm := 0 in
  let perm := if has prot PROT_READ then perm .| (PTE_R .| PTE_A) else perm in
  let perm := if has prot PROT_WRITE then perm .| (PTE_W .| PTE_D) else perm in
  let perm := if has prot PROT_EXEC then perm .| (PTE_X .| PTE_A) else perm in
  let perm := if perm =? 0 then PTE_R else perm in
  if negb (user =? 0) then perm .| PTE_U else perm.

(** The loop over the levels of [page_walk], from [level] down to the leaf table. *)
Fixpoint page_walk_levels (level : nat) (pt va : Z) (alloc : bool) : M pstate Z :=
  match level with
  | O => ret (pt + 8 * PX 0 va)
  | S l =>
      let pte := pt + 8 * PX (Z.of_nat level) va in
      let* w := load pte in
      if has w PTE_V then page_walk_levels l (PTE2PA w) va alloc
      else if alloc then
        let* p := alloc_page in
        if negb (p =? 0) then
          memset_words 512 p 0 ;;;
          store pte (PA2PTE p .| PTE_V) ;;;
          page_walk_levels l p va alloc
        else ret 0
      else ret 0
  end.

Definition page_walk (page_dir va : Z) (alloc : bool) : M pstate Z :=
  check (MAXVA <=? va) (Kill "page_walk" (-1)) ;;;
  page_walk_levels 2 page_dir va alloc.

(** The loop of [map_pages] over [n] pages.  The variable [first] cannot wrap
    before [page_walk] refuses an address above [MAXVA]. *)
Fixpoint map_loop (n : nat) (page_dir first pa perm : Z) : M pstate Z :=
  match n with
  | O => ret 0
  | S n' =>
      let* pte := page_walk page_dir first true in
      if pte =? 0 then ret (-1) else
      let* w := load pte in
      check (has w PTE_V) (Kill "map_pages fails on mapping va to pa" (-1)) ;;;
      store pte (PA2PTE pa .| perm .| PTE_V) ;;;
      map_loop n' page_dir (u64 (first + PGSIZE)) (u64 (pa + PGSIZE)) perm
  end.

(** Iterations of [for (first = a; first <= last; first += PGSIZE)]. *)
Definition page_count (first last : Z) : nat :=
  if first <=? last then Z.to_nat ((last - first) / PGSIZE + 1) else O.

Definition map_pages (page_dir va size pa perm : Z) : M pstate Z :=
  let first := ROUNDDOWN va PGSIZE in
  let last := ROUNDDOWN (u64 (va + size - 1)) PGSIZE in
  map_loop (page_count first last) page_dir first pa perm.

Definition lookup_pa (pagetable va : Z) : M pstate Z :=
  if MAXVA <=? va then ret 0 else
  let* pte := page_walk pagetable va false in
  if pte =? 0 then ret 0 else
  let* w := load pte in
  if negb (has w PTE_V) || (negb (has w PTE_R) && negb (has w PTE_W)) then ret 0
  else ret (PTE2PA w).

Definition kern_vm_map (page_dir va pa sz perm : Z) : M pstate unit :=
  let* r := map_pages page_dir va sz pa perm in
  check (negb (r =? 0)) (Kill "kern_vm_map" (-1)).

(** [etext] is the address of the linker symbol [_etext]; the result is the
    value stored in [g_kernel_pagetable]. *)
Definition kern_vm_init (etext : Z) : M pstate Z :=
  let* t_page_dir := alloc_page in
  memset_words 512 t_page_dir 0 ;;;
  kern_vm_map t_page_dir KERN_BASE DRAM_BASE (u64 (etext - KERN_BASE))
    (prot_to_type (PROT_READ .| PROT_EXEC) 0) ;;;
  let* _ := lookup_pa t_page_dir KERN_BASE in
  kern_vm_map t_page_dir etext etext (u64 (PHYS_TOP - etext))
    (prot_to_type (PROT_READ .| PROT_WRITE) 0) ;;;
  let* _ := lookup_pa t_page_dir etext in
  ret t_page_dir.

Definition user_va_to_pa (page_dir va : Z) : M pstate Z :=
  let* pte := page_walk page_dir va false in
  if pte =? 0 then ret 0 else
  let* w := load pte in
  if negb (has w PTE_V) then ret 0 else
  ret (u64 (Z.shiftl (Z.land (Z.shiftr w 10) 70368744177663) 12
            + Z.land va (Z.shiftl 1 PGSHIFT - 1))).

Definition user_vm_map (page_dir va size pa perm : Z) : M pstate unit :=
  let* r := map_pages page_dir va size pa perm in
  check (negb (r =? 0)) (Kill "fail to user_vm_map ." (-1)).

Fixpoint unmap_loop (n : nat) (page_dir a : Z) (free : bool) : M pstate unit :=
  match n with
  | O => ret tt
  | S n' =>
      let* pte := page_walk page_dir a false in
      check (pte =? 0) (Kill "not find" (-1)) ;;;
      let* w := load pte in
      check (negb (has w PTE_V)) (Kill "not mapped" (-1)) ;;;
      check (PTE_FLAGS w =? PTE_V) (Kill "not leaf" (-1)) ;;;
      when free (free_page (PTE2PA w)) ;;;
      store pte 0 ;;;
      unmap_loop n' page_dir (u64 (a + PGSIZE)) free
  end.

Definition user_vm_unmap (page_dir va size : Z) (free : bool) : M pstate unit :=
  check (negb (va mod PGSIZE =? 0)) (Kill "not aligned" (-1)) ;;;
  unmap_loop (Z.to_nat ((u64 (va + size) - va + PGSIZE - 1) / PGSIZE)) page_dir va free.

Definition user_vm_set_cow (page_dir va : Z) : M pstate unit :=
  let* pte := page_walk page_dir va false in
  if pte =? 0 then ret tt else
  let* w := load pte in
  if negb (has w PTE_V) then ret tt else
  store pte (Z.ldiff w PTE_W .| PTE_COW).

Definition user_vm_get_pte (pagetable va : Z) : M pstate Z := page_walk pagetable va false.

Fixpoint map_cow_loop (n : nat) (page_dir first pa perm : Z) : M pstate unit :=
  match n with
  | O => ret tt
  | S n' =>
      let* pte := page_walk page_dir first true in
      if pte =? 0 then ret tt else
      let* w := load pte in
      check (has w PTE_V) (Kill "user_vm_map_cow: va 0x%lx already mapped" (i32 first)) ;;;
      store pte (PA2PTE pa .| perm) ;;;
      map_cow_loop n' page_dir (u64 (first + PGSIZE)) (u64 (pa + PGSIZE)) perm
  end.

Definition user_vm_map_cow (page_dir va size pa : Z) : M pstate unit :=
  let perm := PTE_R .| PTE_A .| PTE_U .| PTE_COW .| PTE_V in
  let first := ROUNDDOWN va PGSIZE in
  let last := ROUNDDOWN (u64 (va + size - 1)) PGSIZE in
  map_cow_loop (page_count first last) page_dir first pa perm.

(** ** The page table as a tree of tables *)

(** A table is reached by the indices taken from the root. *)
Inductive path : Type := P0 | P1 (i : Z) | P2 (i j : Z).

Definition child (m : gmap Z Z) (t i : Z) : option Z :=
  let w := rd m (t + 8 * i) in if has w PTE_V then Some (PTE2PA w) else None.

Definition tbl (m : gmap Z Z) (root : Z) (π : path) : option Z :=
  match π with
  | P0 => Some root
  | P1 i => child m root i
  | P2 i j => child m root i ≫= fun t => child m t j
  end.

Definition idx_ok (i : Z) : Prop := 0 <= i < 512.
Definition path_ok (π : path) : Prop :=
  match π with P0 => True | P1 i => idx_ok i | P2 i j => idx_ok i /\ idx_ok j end.
Definition inner (π : path) : Prop := match π with P2 _ _ => False | _ => True end.

Definition table_page (t : Z) : Prop :=
  t mod PGSIZE = 0 /\ DRAM_BASE <= t /\ t + PGSIZE <= PHYS_TOP.

(** Tables are pages of physical memory, and no table is shared: the structure
    is a tree.  This is what makes two virtual pages independent. *)
Record pt_wf (m : gmap Z Z) (root : Z) : Prop := {
  pt_page : forall π t, path_ok π -> tbl m root π = Some t -> table_page t;
  pt_tree : forall π π' t, path_ok π -> path_ok π' ->
            tbl m root π = Some t -> tbl m root π' = Some t -> π = π'
}.

(** Address of the leaf entry of [va], and its content when it is valid. *)
Definition leaf (m : gmap Z Z) (root va : Z) : option Z :=
  t ← tbl m root (P2 (PX 2 va) (PX 1 va)); Some (t + 8 * PX 0 va).

Definition xlate (m : gmap Z Z) (root va : Z) : option Z :=
  a ← leaf m root va; let w := rd m a in if has w PTE_V then Some w else None.

(** The page manager and one page table side by side: no table is free. *)
Record vm_inv (s : pstate) (l : list Z) (root : Z) : Prop := {
  vm_pmm : pmm_inv s l;
  vm_pt : pt_wf (mem s) root;
  vm_sep : forall π t, path_ok π -> tbl (mem s) root π = Some t -> t ∉ l
}.

(** ** Bit-level facts *)

Lemma has_V w : has w PTE_V = Z.odd w.
Proof.
  unfold has, PTE_V. change 1 with (Z.ones 1). rewrite Z.land_ones by lia.
  change (2 ^ 1) with 2. rewrite Zmod_odd. by destruct (Z.odd w).
Qed.

Lemma PX_mod level va : 0 <= level -> PX level va = (va / 2 ^ PXSHIFT level) mod 512.
Proof.
  intros. unfold PX, PXMASK. change 511 with (Z.ones 9). rewrite Z.land_ones by lia.
  rewrite Z.shiftr_div_pow2; [done|]. unfold PXSHIFT, PGSHIFT. lia.
Qed.

Lemma PX_range level va : 0 <= level -> idx_ok (PX level va).
Proof. intros. rewrite PX_mod by done. apply Z.mod_pos_bound. lia. Qed.

Lemma PX_page va va' :
  0 <= va < MAXVA -> 0 <= va' < MAXVA ->
  PX 2 va = PX 2 va' -> PX 1 va = PX 1 va' -> PX 0 va = PX 0 va' ->
  va / PGSIZE = va' / PGSIZE.
Proof.
  intros H H'. rewrite !PX_mod by lia. unfold PXSHIFT, PGSHIFT, MAXVA in *. kconst. cbn -[Z.div].
  rewrite !Z.mul_0_r, !Z.add_0_r. change (2 ^ 12) with 4096.
  change (Z.pow_pos 2 30) with 1073741824. change (Z.pow_pos 2 21) with 2097152.
  change (Z.pow_pos 2 12) with 4096.
  intros. Z.to_euclidean_division_equations. lia.
Qed.

Lemma PX_same_page level va va' :
  0 <= level -> va / PGSIZE = va' / PGSIZE -> PX level va = PX level va'.
Proof.
  intros Hl H. rewrite !PX_mod by done. unfold PXSHIFT, PGSHIFT in *. kconst.
  rewrite !Z.pow_add_r by lia. change (2 ^ 12) with 4096.
  rewrite <- !Z.div_div by lia. by rewrite H.
Qed.

Lemma shiftr10_flags f : 0 <= f < 1024 -> Z.shiftr f 10 = 0.
Proof. intros. rewrite Z.shiftr_div_pow2 by lia. change (2 ^ 10) with 1024. by apply Z.div_small. Qed.

Lemma PA2PTE_eq pa : 0 <= pa < 18446744073709551616 -> PA2PTE pa = Z.shiftl (pa / 4096) 10.
Proof.
  intros. unfold PA2PTE. rewrite Z.shiftr_div_pow2 by lia. change (2 ^ 12) with 4096.
  apply u64_small. rewrite Z.shiftl_mul_pow2 by lia. change (2 ^ 10) with 1024.
  Z.to_euclidean_division_equations; lia.
Qed.

Lemma PA2PTE_shiftr pa f :
  0 <= pa < 18446744073709551616 -> 0 <= f < 1024 -> Z.shiftr (PA2PTE pa .| f) 10 = pa / 4096.
Proof.
  intros. rewrite Z.shiftr_lor, (shiftr10_flags f), Z.lor_0_r, PA2PTE_eq by done.
  rewrite Z.shiftr_shiftl_l by lia. by rewrite Z.shiftl_0_r.
Qed.

(** Encoding a page-aligned address with any flags and decoding it. *)
Lemma PTE2PA_PA2PTE pa f :
  0 <= pa < 18446744073709551616 -> pa mod PGSIZE = 0 -> 0 <= f < 1024 ->
  PTE2PA (PA2PTE pa .| f) = pa.
Proof.
  intros Hpa Ha Hf. unfold PTE2PA. rewrite PA2PTE_shiftr by done.
  rewrite Z.shiftl_mul_pow2 by lia. change (2 ^ 12) with 4096. kconst.
  rewrite Z.mod_small; Z.to_euclidean_division_equations; lia.
Qed.

Lemma PTE_FLAGS_PA2PTE pa f :
  0 <= pa < 18446744073709551616 -> 0 <= f < 1024 -> PTE_FLAGS (PA2PTE pa .| f) = f.
Proof.
  intros Hpa Hf. unfold PTE_FLAGS. rewrite Z.land_lor_distr_l.
  change 1023 with (Z.ones 10). rewrite !Z.land_ones by lia. change (2 ^ 10) with 1024.
  rewrite PA2PTE_eq by done. rewrite Z.shiftl_mul_pow2 by lia. change (2 ^ 10) with 1024.
  rewrite Z.mod_mul by lia. rewrite Z.lor_0_l. by apply Z.mod_small.
Qed.

Lemma PA2PTE_V pa f :
  0 <= pa < 18446744073709551616 -> has (PA2PTE pa .| f .| PTE_V) PTE_V = true.
Proof.
  intros. rewrite has_V. rewrite <- Z.bit0_odd, Z.lor_spec. by rewrite orb_true_r.
Qed.

(** ** Tables and memory *)

Lemma slot_inj t t' i i' :
  table_page t -> table_page t' -> idx_ok i -> idx_ok i' ->
  t + 8 * i = t' + 8 * i' -> t = t' /\ i = i'.
Proof. intros (? & ? & ?) (? & ? & ?) [] [] ?. klia. Qed.

Lemma slot_addr_ok t i : table_page t -> idx_ok i -> addr_ok (t + 8 * i) = true.
Proof.
  intros (? & ? & ?) []. unfold addr_ok. rewrite !andb_true_iff, !Z.leb_le, Z.eqb_eq. klia.
Qed.
#[export] Hint Resolve slot_addr_ok PX_range : kernel.

(** Tables do not change when no word of an inner table changes. *)
Lemma tbl_frame m m' root :
  (forall π t k, path_ok π -> inner π -> tbl m root π = Some t -> idx_ok k ->
     rd m' (t + 8 * k) = rd m (t + 8 * k)) ->
  forall π, path_ok π -> tbl m' root π = tbl m root π.
Proof.
  intros H.
  assert (H1 : forall i, idx_ok i -> child m' root i = child m root i).
  { intros i Hi. unfold child. by rewrite (H P0 root). }
  intros [|i|i j] Hok; cbn; [done|by apply H1|].
  destruct Hok as [Hi Hj]. rewrite (H1 i) by done.
  destruct (child m root i) as [t|] eqn:E; cbn; [|done].
  unfold child. by rewrite (H (P1 i) t).
Qed.

Lemma pt_wf_ext m m' root :
  (forall π, path_ok π -> tbl m' root π = tbl m root π) -> pt_wf m root -> pt_wf m' root.
Proof.
  intros He [Hp Ht]. split.
  - intros π t Hok. rewrite He by done. eauto.
  - intros π π' t Hok Hok'. rewrite !He by done. eauto.
Qed.

(** Writing an entry of a leaf table changes no table. *)
Lemma tbl_insert_leaf m root i j t k v :
  pt_wf m root -> idx_ok i -> idx_ok j -> idx_ok k -> tbl m root (P2 i j) = Some t ->
  forall π, path_ok π -> tbl (<[t + 8 * k := v]> m) root π = tbl m root π.
Proof.
  intros Hwf Hi Hj Hk Ht. apply tbl_frame. intros π t' k' Hok Hin Ht' Hk'.
  apply rd_insert_ne. intros E.
  apply slot_inj in E as [-> ->]; auto; [|by eapply (pt_page _ _ Hwf (P2 i j))|by eapply (pt_page _ _ Hwf)].
  assert (P2 i j = π) by (eapply (pt_tree _ _ Hwf); eauto; done). by subst.
Qed.

Lemma leaf_page m root va :
  0 <= va < MAXVA -> pt_wf m root -> forall a, leaf m root va = Some a -> addr_ok a = true /\ a <> 0.
Proof.
  intros Hva Hwf a Ha. unfold leaf in Ha.
  destruct (tbl m root _) as [t|] eqn:Et; [|done]. cbn in Ha. simplify_eq.
  assert (Htp : table_page t).
  { eapply (pt_page _ _ Hwf); [|done]. split; by apply PX_range. }
  split; [by apply slot_addr_ok, PX_range|].
  pose proof (PX_range 0 va ltac:(lia)) as [? ?]. destruct Htp as (? & ? & ?). klia.
Qed.

(** Two addresses share their leaf entry exactly when they are on one page. *)
Lemma leaf_inj m root va va' a :
  pt_wf m root -> 0 <= va < MAXVA -> 0 <= va' < MAXVA ->
  leaf m root va = Some a -> leaf m root va' = Some a -> va / PGSIZE = va' / PGSIZE.
Proof.
  intros Hwf Hva Hva' H H'. unfold leaf in *.
  destruct (tbl m root (P2 (PX 2 va) (PX 1 va))) as [t|] eqn:E; [|done].
  destruct (tbl m root (P2 (PX 2 va') (PX 1 va'))) as [t'|] eqn:E'; [|done].
  cbn in *. simplify_eq.
  assert (Hk : path_ok (P2 (PX 2 va) (PX 1 va))) by (split; by apply PX_range).
  assert (Hk' : path_ok (P2 (PX 2 va') (PX 1 va'))) by (split; by apply PX_range).
  pose proof (pt_page _ _ Hwf _ _ Hk E) as Hp1. pose proof (pt_page _ _ Hwf _ _ Hk' E') as Hp2.
  match goal with H : _ + _ = _ + _ |- _ =>
    apply slot_inj in H as [-> Hi]; [|done|done|by apply PX_range|by apply PX_range] end.
  pose proof (pt_tree _ _ Hwf _ _ _ Hk Hk' E E') as Hp. injection Hp as ? ?.
  by apply PX_page.
Qed.

Lemma leaf_same_page m root va va' :
  va / PGSIZE = va' / PGSIZE -> leaf m root va = leaf m root va'.
Proof.
  intros H. unfold leaf. by rewrite !(PX_same_page _ va va') by (lia || done).
Qed.

(** Writing the leaf entry of [va] changes the translation of its page only. *)
Lemma xlate_insert_leaf m root va va' a v :
  pt_wf m root -> 0 <= va < MAXVA -> 0 <= va' < MAXVA -> leaf m root va = Some a ->
  pt_wf (<[a := v]> m) root /\
  xlate (<[a := v]> m) root va' =
    if decide (va' / PGSIZE = va / PGSIZE)
    then (if has v PTE_V then Some v else None) else xlate m root va'.
Proof.
  intros Hwf Hva Hva' Ha. pose proof Ha as Ha0. unfold leaf in Ha.
  destruct (tbl m root _) as [t|] eqn:Et; [|done]. cbn in Ha. simplify_eq.
  assert (Hfr : forall π, path_ok π ->
            tbl (<[t + 8 * PX 0 va := v]> m) root π = tbl m root π).
  { intros π Hπ. eapply tbl_insert_leaf; eauto; by apply PX_range. }
  split; [by apply (pt_wf_ext m)|].
  assert (Hlf : leaf (<[t + 8 * PX 0 va := v]> m) root va' = leaf m root va').
  { unfold leaf. rewrite Hfr; [done|]. split; by apply PX_range. }
  unfold xlate. rewrite Hlf. case_decide as E.
  - rewrite (leaf_same_page _ _ va' va E), Ha0. cbn. by rewrite rd_insert_eq.
  - destruct (leaf m root va') as [a'|] eqn:Ea'; cbn; [|done].
    rewrite rd_insert_ne; [done|]. intros Heq. rewrite <- Heq in Ea'. apply E. symmetry.
    by eapply leaf_inj.
Qed.

(** ** Walking *)

(** Effect of the word loop of memset. *)
Fixpoint fill (n : nat) (d w : Z) (m : gmap Z Z) : gmap Z Z :=
  match n with O => m | S n' => fill n' (d + 8) w (<[d := w]> m) end.

Lemma memset_words_run n d w s :
  (forall i, 0 <= i < Z.of_nat n -> addr_ok (d + 8 * i) = true) ->
  memset_words n d w s = Ret tt (set_mem (fill n d w (mem s)) s).
Proof.
  revert d s. induction n as [|n IH]; intros d s H; cbn [memset_words fill].
  { by destruct s. }
  unfold bind, store. pose proof (H 0 ltac:(lia)) as H0. rewrite Z.mul_0_r, Z.add_0_r in H0.
  rewrite H0, IH; [done|]. intros i Hi. replace (d + 8 + 8 * i) with (d + 8 * (i + 1)) by lia.
  apply H. lia.
Qed.

Lemma rd_fill_out n d w m a : (a < d \/ d + 8 * Z.of_nat n <= a) -> rd (fill n d w m) a = rd m a.
Proof.
  revert d m. induction n as [|n IH]; intros d m H; cbn [fill]; [done|].
  rewrite IH by lia. apply rd_insert_ne. lia.
Qed.

Lemma rd_fill_in n d w m i :
  0 <= i < Z.of_nat n -> rd (fill n d w m) (d + 8 * i) = w.
Proof.
  revert d m i. induction n as [|n IH]; intros d m i H; cbn [fill]; [lia|].
  destruct (decide (i = 0)) as [->|].
  - rewrite rd_fill_out by lia. rewrite Z.mul_0_r, Z.add_0_r. apply rd_insert_eq.
  - replace (d + 8 * i) with (d + 8 + 8 * (i - 1)) by lia. apply IH. lia.
Qed.

Definition ext (π : path) (k : Z) : path :=
  match π with P0 => P1 k | P1 i => P2 i k | P2 i j => P2 i j end.

#[global] Instance path_eq_dec : EqDecision path.
Proof. solve_decision. Defined.

Lemma managed_table s p : geometry s -> managed s p -> table_page p.
Proof. intros [] (? & ? & ?). repeat split; klia. Qed.

(** One new table: the page [p], cleared and linked at entry [k] of table [t]. *)
Definition link_table (m : gmap Z Z) (t k p : Z) : gmap Z Z :=
  <[t + 8 * k := PA2PTE p .| PTE_V]> (fill 512 p 0 m).

Section LinkTable.
Context (m : gmap Z Z) (root : Z) (π : path) (t k p : Z).
Hypothesis Hwf : pt_wf m root.
Hypothesis Hπ : path_ok π.
Hypothesis Hin : inner π.
Hypothesis Ht : tbl m root π = Some t.
Hypothesis Hk : idx_ok k.
Hypothesis Hnone : child m t k = None.
Hypothesis Hp : table_page p.
Hypothesis Hfresh : forall π' t', path_ok π' -> tbl m root π' = Some t' -> t' <> p.

Let m' := link_table m t k p.

Lemma link_slot_new : rd m' (t + 8 * k) = PA2PTE p .| PTE_V.
Proof. apply rd_insert_eq. Qed.

Lemma link_new_entry : has (PA2PTE p .| PTE_V) PTE_V = true /\ PTE2PA (PA2PTE p .| PTE_V) = p.
Proof.
  destruct Hp as (? & ? & ?). split.
  - rewrite has_V, <- Z.bit0_odd, Z.lor_spec. by rewrite orb_true_r.
  - apply PTE2PA_PA2PTE; [klia|done|cbv; split; congruence].
Qed.

Lemma link_other t' k' :
  table_page t' -> t' <> p -> idx_ok k' -> (t' <> t \/ k' <> k) ->
  rd m' (t' + 8 * k') = rd m (t' + 8 * k').
Proof.
  intros Htp Hne Hk' Hd. unfold m', link_table.
  rewrite rd_insert_ne.
  2:{ intros E. apply slot_inj in E as [? ?]; [| |done|done|done].
      - destruct Hd; congruence.
      - by eapply (pt_page _ _ Hwf π). }
  apply rd_fill_out. destruct Hk', Htp as (? & ? & ?), Hp as (? & ? & ?). klia.
Qed.

Lemma link_zero k' : idx_ok k' -> rd m' (p + 8 * k') = 0.
Proof.
  intros Hk'. unfold m', link_table. rewrite rd_insert_ne.
  - apply rd_fill_in. destruct Hk'. lia.
  - intros E. apply slot_inj in E as [? _]; [|by eapply (pt_page _ _ Hwf π)|done|done|done].
    by apply (Hfresh π t Hπ).
Qed.

Lemma link_child_other t' k' :
  table_page t' -> t' <> p -> idx_ok k' -> (t' <> t \/ k' <> k) -> child m' t' k' = child m t' k'.
Proof. intros. unfold child. by rewrite link_other. Qed.

Lemma link_child_new : child m' t k = Some p.
Proof.
  unfold child. rewrite link_slot_new. destruct link_new_entry as [-> ->]. done.
Qed.

Lemma link_child_p k' : idx_ok k' -> child m' p k' = None.
Proof. intros. unfold child. by rewrite link_zero. Qed.

(** The new tree is the old one with one more table. *)
Lemma link_tbl π' :
  path_ok π' -> tbl m' root π' = if decide (π' = ext π k) then Some p else tbl m root π'.
Proof.
  intros Hok'.
  assert (Hr : table_page root /\ root <> p).
  { split; [by apply (pt_page _ _ Hwf P0)|by apply (Hfresh P0)]. }
  assert (Hc : (π = P0 /\ root = t) \/ (exists i0, π = P1 i0 /\ child m root i0 = Some t)).
  { clear -Ht Hin. destruct π; cbn in *; [left; by simplify_eq|right; eauto|done]. }
  assert (H1 : forall i, idx_ok i -> P1 i <> ext π k -> child m' root i = child m root i).
  { intros i Hi Hne. apply link_child_other; try apply Hr; auto.
    destruct (decide (root = t)) as [Ert|]; [|by left]. right. intros ->.
    assert (Hp0 : P0 = π) by (apply (pt_tree _ _ Hwf P0 π t); [done|done|cbn; congruence|done]).
    apply Hne. by rewrite <- Hp0. }
  destruct π' as [|i|i j].
  - cbn. rewrite decide_False; [done|]. clear. by destruct π.
  - cbn. case_decide as E.
    + destruct Hc as [[Hc Hrt]|(i0 & Hc & _)]; rewrite Hc in E; [|done].
      injection E as ->. rewrite Hrt. apply link_child_new.
    + by apply H1.
  - destruct Hok' as [Hi Hj]. cbn. case_decide as E.
    + destruct Hc as [[Hc _]|(i0 & Hc & Hc')]; rewrite Hc in E; [done|].
      injection E as -> ->. rewrite H1, Hc'; [apply link_child_new|done|by rewrite Hc].
    + destruct (decide (P1 i = ext π k)) as [E1|E1].
      * destruct Hc as [[Hc Hrt]|(i0 & Hc & _)]; rewrite Hc in E1; [|done].
        injection E1 as ->. rewrite Hrt. rewrite link_child_new, Hnone. cbn.
        by apply link_child_p.
      * rewrite H1 by done. destruct (child m root i) as [t'|] eqn:Et'; cbn; [|done].
        apply link_child_other; auto.
        -- by eapply (pt_page _ _ Hwf (P1 i)).
        -- by eapply (Hfresh (P1 i)).
        -- destruct (decide (t' = t)) as [->|]; [right|by left]. intros ->.
           assert (Hpi : P1 i = π) by (eapply (pt_tree _ _ Hwf); eauto; done).
           apply E. by rewrite <- Hpi.
Qed.

Lemma ext_ok : path_ok (ext π k).
Proof. clear -Hπ Hk Hin. destruct π; cbn in *; done. Qed.

Lemma ext_was_none : tbl m root (ext π k) = None.
Proof.
  clear -Ht Hin Hnone. destruct π; cbn in *; [by simplify_eq| |done]. by rewrite Ht.
Qed.

Lemma link_wf : pt_wf m' root.
Proof.
  split.
  - intros π' t' Hok'. rewrite link_tbl by done. case_decide.
    + intros. by simplify_eq.
    + by apply (pt_page _ _ Hwf).
  - intros π1 π2 t' Hok1 Hok2. rewrite !link_tbl by done. repeat case_decide; intros; simplify_eq.
    + done.
    + exfalso. by eapply (Hfresh π2).
    + exfalso. by eapply (Hfresh π1).
    + by eapply (pt_tree _ _ Hwf).
Qed.

Lemma link_xlate va : 0 <= va < MAXVA -> xlate m' root va = xlate m root va.
Proof.
  intros Hva. unfold xlate, leaf.
  assert (Hok : path_ok (P2 (PX 2 va) (PX 1 va))) by (split; by apply PX_range).
  rewrite link_tbl by done. case_decide as E.
  - rewrite E, ext_was_none. cbn. rewrite link_zero by (by apply PX_range). done.
  - destruct (tbl m root (P2 _ _)) as [t'|] eqn:Et'; cbn -[link_table]; [|done].
    fold m'. rewrite link_other; [done| | | |].
    + by eapply (pt_page _ _ Hwf).
    + by eapply Hfresh.
    + by apply PX_range.
    + left. intros ->. assert (Hpi : P2 (PX 2 va) (PX 1 va) = π)
        by (eapply (pt_tree _ _ Hwf); eauto).
      clear -Hin Hpi. by subst.
Qed.
End LinkTable.

Definition in_page (a p : Z) : Prop := p <= a < p + PGSIZE.

(** How an operation on one page table changes the machine: it takes pages from
    the front of the free list, keeps the tables it finds, and changes no word
    outside the tables and the pages that were free. *)
Record vm_frame (s : pstate) (l : list Z) (s' : pstate) (l' : list Z) (root : Z) : Prop := {
  vf_inv : vm_inv s' l' root;
  vf_suffix : exists k, l = k ++ l';
  vf_tbl : forall π t, path_ok π -> tbl (mem s) root π = Some t -> tbl (mem s') root π = Some t;
  vf_new : forall π t, path_ok π -> tbl (mem s') root π = Some t ->
           tbl (mem s) root π = Some t \/ t ∈ l;
  vf_mem : forall a, (forall p, p ∈ l -> ~ in_page a p) ->
           (forall π t, path_ok π -> tbl (mem s) root π = Some t -> ~ in_page a t) ->
           rd (mem s') a = rd (mem s) a;
  vf_ref : forall p, managed s p -> p ∉ l -> page_ref s' p = page_ref s p;
  vf_start : free_mem_start_addr s' = free_mem_start_addr s;
  vf_end : free_mem_end_addr s' = free_mem_end_addr s
}.

(** An operation that also keeps every translation. *)
Record vm_ext (s : pstate) (l : list Z) (s' : pstate) (l' : list Z) (root : Z) : Prop := {
  ve_frame : vm_frame s l s' l' root;
  ve_xlate : forall va, 0 <= va < MAXVA -> xlate (mem s') root va = xlate (mem s) root va
}.

Lemma vm_frame_refl s l root : vm_inv s l root -> vm_frame s l s l root.
Proof. intros H. split; auto. by exists []. Qed.

Lemma vm_frame_trans s l s1 l1 s2 l2 root :
  vm_frame s l s1 l1 root -> vm_frame s1 l1 s2 l2 root -> vm_frame s l s2 l2 root.
Proof.
  intros H1 H2. destruct (vf_suffix _ _ _ _ _ H1) as [k1 ->].
  assert (Hsub : forall p, p ∈ l1 -> p ∈ k1 ++ l1) by (intros; apply elem_of_app; auto).
  split.
  - apply H2.
  - destruct (vf_suffix _ _ _ _ _ H2) as [k2 ->]. exists (k1 ++ k2). by rewrite <- app_assoc.
  - intros. apply (vf_tbl _ _ _ _ _ H2); [done|]. by apply (vf_tbl _ _ _ _ _ H1).
  - intros π t Hπ Ht. apply (vf_new _ _ _ _ _ H2) in Ht as [Ht|Ht]; auto.
    by apply (vf_new _ _ _ _ _ H1).
  - intros a Hf Ht. rewrite (vf_mem _ _ _ _ _ H2 a).
    + by apply (vf_mem _ _ _ _ _ H1).
    + eauto.
    + intros π t Hπ Htt. apply (vf_new _ _ _ _ _ H1) in Htt as [?|?]; eauto.
  - intros p Hm Hp. rewrite (vf_ref _ _ _ _ _ H2).
    + by apply (vf_ref _ _ _ _ _ H1).
    + unfold managed. by rewrite (vf_start _ _ _ _ _ H1), (vf_end _ _ _ _ _ H1).
    + intros ?. apply Hp. auto.
  - by rewrite (vf_start _ _ _ _ _ H2), (vf_start _ _ _ _ _ H1).
  - by rewrite (vf_end _ _ _ _ _ H2), (vf_end _ _ _ _ _ H1).
Qed.

Lemma vm_ext_refl s l root : vm_inv s l root -> vm_ext s l s l root.
Proof. intros H. split; auto using vm_frame_refl. Qed.

Lemma vm_ext_trans s l s1 l1 s2 l2 root :
  vm_ext s l s1 l1 root -> vm_ext s1 l1 s2 l2 root -> vm_ext s l s2 l2 root.
Proof.
  intros [H1 X1] [H2 X2]. split; [by eapply vm_frame_trans|].
  intros. rewrite X2, X1 by done. done.
Qed.
#[export] Hint Resolve vm_frame_refl vm_ext_refl ve_frame vf_inv : kernel.

(** Stores into words that belong to no free page keep the page manager's invariant. *)
Lemma pmm_inv_set_mem s l m' :
  pmm_inv s l -> (forall x, x ∈ l -> rd m' x = rd (mem s) x) -> pmm_inv (set_mem m' s) l.
Proof.
  intros [Hg Hl Hn Hf Hr Hk] He. split; try done.
  - destruct Hg; by split.
  - by apply (freelist_ext (mem s)).
Qed.

Lemma page_neq_in_page p q a :
  p mod PGSIZE = 0 -> q mod PGSIZE = 0 -> in_page a p -> in_page a q -> p = q.
Proof. unfold in_page. intros. klia. Qed.

Lemma slot_in_page t k : idx_ok k -> in_page (t + 8 * k) t.
Proof. intros []. unfold in_page. klia. Qed.

(** The step of [page_walk] that installs a new table. *)
Lemma link_ext s p l root π t k :
  vm_inv s (p :: l) root -> path_ok π -> inner π -> tbl (mem s) root π = Some t ->
  idx_ok k -> child (mem s) t k = None ->
  let s' := set_mem (link_table (mem s) t k p) (alloc_result s p) in
  vm_ext s (p :: l) s' l root /\ tbl (mem s') root (ext π k) = Some p.
Proof.
  intros [Hpm Hwf Hsep] Hπ Hin Ht Hk Hno s'.
  pose proof (inv_geo _ _ Hpm) as Hg.
  assert (Hman : forall q, q ∈ p :: l -> managed s q) by apply (inv_managed _ _ Hpm).
  assert (Htp : table_page p) by (eapply managed_table, Hman; [done|by left]).
  assert (Hfr : forall π' t', path_ok π' -> tbl (mem s) root π' = Some t' -> t' <> p).
  { intros π' t' Hok' Ht' ->. by apply (Hsep _ _ Hok' Ht'), list_elem_of_here. }
  pose proof (inv_nodup _ _ Hpm) as [Hnp Hnd]%list.NoDup_cons.
  assert (Htt : table_page t) by (by eapply (pt_page _ _ Hwf π)).
  pose proof (link_tbl (mem s) root π t k p Hwf Hπ Hin Ht Hk Hno Htp Hfr) as Hlink.
  assert (Hmem : forall a, (forall q, q ∈ p :: l -> ~ in_page a q) ->
            (forall π' t', path_ok π' -> tbl (mem s) root π' = Some t' -> ~ in_page a t') ->
            rd (link_table (mem s) t k p) a = rd (mem s) a).
  { intros a Ha Hb. unfold link_table. rewrite rd_insert_ne.
    - apply rd_fill_out. specialize (Ha p ltac:(by left)). unfold in_page in Ha. klia.
    - intros <-. by apply (Hb π t Hπ Ht), slot_in_page. }
  split; [split; [split; cbn|]|].
  - split; cbn.
    + apply pmm_inv_set_mem; [by apply (alloc_result_inv _ _ Hpm)|]. cbn. intros x Hx.
      unfold link_table. rewrite rd_insert_ne.
      * apply rd_fill_out. destruct (Hman x ltac:(by right)) as (? & ? & ?).
        destruct Htp as (? & ? & ?). assert (x <> p) by congruence. klia.
      * intros E. apply (Hsep π t Hπ Ht). right.
        replace t with x; [done|]. destruct (Hman x ltac:(by right)) as (? & ? & ?).
        destruct Htt as (? & ? & ?), Hk. klia.
    + by apply (link_wf _ _ π).
    + intros π' t' Hok'. rewrite Hlink by done. case_decide.
      * intros. by simplify_eq.
      * intros Ht' Hc. apply (Hsep _ _ Hok' Ht'). by right.
  - by exists [p].
  - intros π' t' Hok' Ht'. rewrite Hlink by done. case_decide; [|done]. subst.
    by rewrite (ext_was_none _ _ _ t) in Ht'.
  - intros π' t' Hok'. rewrite Hlink by done. case_decide; intros; simplify_eq; [|by left].
    right. by left.
  - exact Hmem.
  - intros q Hmq Hq. unfold page_ref, ref_at. cbn.
    destruct (managed_index _ _ Hg (Hman p ltac:(by left))) as [-> _].
    rewrite lookup_insert_ne; [done|]. intros E.
    apply managed_index_inj in E; auto; [|apply Hman; by left]. subst. apply Hq. by left.
  - done.
  - done.
  - intros va Hva. by apply (link_xlate _ _ π).
  - cbn [mem set_mem s']. rewrite Hlink by (by apply ext_ok). by rewrite decide_True.
Qed.

(** One level of the allocating walk. *)
Lemma walk_level s l root π t lv va :
  vm_inv s l root -> path_ok π -> inner π -> tbl (mem s) root π = Some t ->
  let k := PX (Z.of_nat (S lv)) va in
  (exists t' s' l', page_walk_levels (S lv) t va true s = page_walk_levels lv t' va true s' /\
     vm_ext s l s' l' root /\ tbl (mem s') root (ext π k) = Some t' /\
     (length l <= S (length l'))%nat) \/
  (l = [] /\ page_walk_levels (S lv) t va true s = Ret 0 s).
Proof.
  intros Hvm Hπ Hin Ht k. assert (Hk : idx_ok k) by (apply PX_range; lia).
  assert (Htt : table_page t) by (by eapply (pt_page _ _ (vm_pt _ _ _ Hvm) π)).
  cbn [page_walk_levels]. fold k. rewrite (bind_Ret _ _ s (rd (mem s) (t + 8 * k)) s).
  2:{ unfold load. by rewrite slot_addr_ok. }
  destruct (has (rd (mem s) (t + 8 * k)) PTE_V) eqn:Ev.
  - left. exists (PTE2PA (rd (mem s) (t + 8 * k))), s, l. split; [done|].
    split; [by apply vm_ext_refl|].
    assert (Hc : child (mem s) t k = Some (PTE2PA (rd (mem s) (t + 8 * k))))
      by (unfold child; by rewrite Ev).
    split; [|lia]. destruct π; cbn in *; [by simplify_eq|by rewrite Ht|done].
  - assert (Hc : child (mem s) t k = None) by (unfold child; by rewrite Ev).
    destruct l as [|p l'].
    + right. split; [done|].
      by rewrite (bind_Ret _ _ _ _ _ (alloc_page_empty _ _ (vm_pmm _ _ _ Hvm) eq_refl)).
    + left. destruct (link_ext s p l' root π t k) as [He Ht']; auto.
      assert (Hm : managed s p) by (apply (inv_managed _ _ (vm_pmm _ _ _ Hvm)); by left).
      pose proof (inv_geo _ _ (vm_pmm _ _ _ Hvm)) as Hg.
      exists p, (set_mem (link_table (mem s) t k p) (alloc_result s p)), l'.
      split; [|split; [done|split; [done|cbn; lia]]].
      rewrite (bind_Ret _ _ _ _ _ (alloc_page_run _ _ (vm_pmm _ _ _ Hvm) p l' eq_refl)).
      rewrite (proj2 (Z.eqb_neq p 0)) by eauto with kernel. cbn [negb].
      erewrite bind_Ret; [|apply memset_words_run].
      * unfold bind, store. by rewrite slot_addr_ok.
      * intros i Hi. apply slot_addr_ok; [by eapply managed_table|]. unfold idx_ok. lia.
Qed.

Definition leaf_ptr (m : gmap Z Z) (root va : Z) : Z := default 0 (leaf m root va).

(** A walk that does not allocate finds the leaf entry, or reports its absence. *)
Lemma page_walk_lookup s root va :
  pt_wf (mem s) root -> 0 <= va < MAXVA ->
  page_walk root va false s = Ret (leaf_ptr (mem s) root va) s.
Proof.
  intros Hwf Hva. unfold page_walk, check. rewrite (proj2 (Z.leb_gt MAXVA va)) by lia.
  rewrite bind_ret_l. cbn [page_walk_levels]. unfold leaf_ptr, leaf, tbl.
  pose proof (PX_range 2 va ltac:(lia)) as H2. pose proof (PX_range 1 va ltac:(lia)) as H1.
  change (Z.of_nat 2) with 2. change (Z.of_nat 1) with 1.
  rewrite (bind_Ret _ _ s (rd (mem s) (root + 8 * PX 2 va)) s).
  2:{ unfold load. rewrite slot_addr_ok; [done| |done]. by apply (pt_page _ _ Hwf P0). }
  unfold child. destruct (has (rd (mem s) (root + 8 * PX 2 va)) PTE_V) eqn:E2;
    cbn [mbind option_bind]; [|done].
  assert (Ht : tbl (mem s) root (P1 (PX 2 va)) = Some (PTE2PA (rd (mem s) (root + 8 * PX 2 va)))).
  { cbn. unfold child. by rewrite E2. }
  set (t := PTE2PA _) in *.
  rewrite (bind_Ret _ _ s (rd (mem s) (t + 8 * PX 1 va)) s).
  2:{ unfold load. rewrite slot_addr_ok; [done| |done]. by apply (pt_page _ _ Hwf (P1 (PX 2 va))). }
  by destruct (has (rd (mem s) (t + 8 * PX 1 va)) PTE_V).
Qed.

(** A walk that allocates ends at the leaf entry, or the free list is empty. *)
Lemma page_walk_alloc s l root va :
  vm_inv s l root -> 0 <= va < MAXVA ->
  (exists a s' l', page_walk root va true s = Ret a s' /\ vm_ext s l s' l' root /\
     leaf (mem s') root va = Some a /\ (length l <= length l' + 2)%nat) \/
  (exists s', page_walk root va true s = Ret 0 s' /\ vm_ext s l s' [] root /\ (length l < 2)%nat).
Proof.
  intros Hvm Hva. unfold page_walk, check. rewrite (proj2 (Z.leb_gt MAXVA va)) by lia.
  rewrite bind_ret_l.
  destruct (walk_level s l root P0 root 1 va) as [(t1 & s1 & l1 & E1 & X1 & T1 & L1)|[-> E1]]; auto.
  2:{ done. } 3:{ right. exists s. rewrite E1. split; [done|]. split; [by apply vm_ext_refl|cbn; lia]. } { done. }
  rewrite E1.
  destruct (walk_level s1 l1 root (P1 (PX 2 va)) t1 0 va)
    as [(t0 & s0 & l0 & E0 & X0 & T0 & L0)|[-> E0]].
  - apply (vf_inv _ _ _ _ _ (ve_frame _ _ _ _ _ X1)).
  - by apply PX_range.
  - done.
  - done.
  - left. exists (t0 + 8 * PX 0 va), s0, l0. rewrite E0. split; [done|].
    split; [by eapply vm_ext_trans|]. split; [|lia]. unfold leaf. change (Z.of_nat 1) with 1 in T0.
    cbn [ext] in T0. by rewrite T0.
  - right. exists s1. rewrite E0. split; [done|]. split; [done|]. cbn in L1. lia.
Qed.

(** ** Mapping and unmapping *)

Lemma leaf_store s l root va a v :
  vm_inv s l root -> 0 <= va < MAXVA -> leaf (mem s) root va = Some a ->
  let s' := set_mem (<[a := v]> (mem s)) s in
  store a v s = Ret tt s' /\ vm_frame s l s' l root /\
  (forall va', 0 <= va' < MAXVA -> xlate (mem s') root va' =
     if decide (va' / PGSIZE = va / PGSIZE)
     then (if has v PTE_V then Some v else None) else xlate (mem s) root va').
Proof.
  intros Hvm Hva Ha s'. pose proof (vm_pt _ _ _ Hvm) as Hwf.
  destruct (leaf_page _ _ _ Hva Hwf _ Ha) as [Hok _].
  split; [unfold store; by rewrite Hok|].
  pose proof Ha as Ha0. unfold leaf in Ha0.
  destruct (tbl (mem s) root _) as [t|] eqn:Et; [|done]. cbn in Ha0. simplify_eq.
  assert (Hpk : path_ok (P2 (PX 2 va) (PX 1 va))) by (split; by apply PX_range).
  pose proof (PX_range 0 va ltac:(lia)) as H0.
  assert (Htbl : forall π, path_ok π -> tbl (mem s') root π = tbl (mem s) root π).
  { intros. apply (tbl_insert_leaf _ _ (PX 2 va) (PX 1 va)); auto; by apply PX_range. }
  pose proof (pt_page _ _ Hwf _ _ Hpk Et) as Htp.
  split.
  - split; cbn; auto.
    + split.
      * apply pmm_inv_set_mem; [apply Hvm|]. intros x Hx. apply rd_insert_ne. intros E.
        apply (vm_sep _ _ _ Hvm _ _ Hpk Et).
        destruct (inv_managed _ _ (vm_pmm _ _ _ Hvm) x Hx) as (Hxa & _).
        replace t with x; [done|]. destruct Htp as (? & ? & ?), H0. klia.
      * by apply (pt_wf_ext (mem s)).
      * intros π t'. intros Hπ. rewrite Htbl by done. by apply (vm_sep _ _ _ Hvm).
    + by exists [].
    + intros π t' Hπ. by rewrite Htbl.
    + intros π t' Hπ. rewrite Htbl by done. auto.
    + intros b _ Hb. apply rd_insert_ne. intros <-.
      apply (Hb _ _ Hpk Et). by apply slot_in_page.
  - intros va' Hva'. by apply xlate_insert_leaf.
Qed.

Lemma xlate_leaf m root va a :
  leaf m root va = Some a -> xlate m root va = if has (rd m a) PTE_V then Some (rd m a) else None.
Proof. intros H. unfold xlate. by rewrite H. Qed.

(** The entry that mapping [first ...] to [pa ...] gives to the page of [va]. *)
Definition pte_for (pa first perm va : Z) : Z :=
  PA2PTE (pa + (va / PGSIZE - first / PGSIZE) * PGSIZE) .| perm .| PTE_V.

Lemma pte_for_next pa first perm va :
  pte_for (pa + PGSIZE) (first + PGSIZE) perm va = pte_for pa first perm va.
Proof.
  unfold pte_for. do 3 f_equal. kconst.
  replace (first + 4096) with (first + 1 * 4096) by lia. rewrite Z.div_add by lia. lia.
Qed.

(** What one pass of [map_pages] does on pages that are not mapped. *)
Lemma map_loop_run n first pa s l root perm :
  vm_inv s l root -> first mod PGSIZE = 0 -> 0 <= first ->
  first + Z.of_nat n * PGSIZE <= MAXVA ->
  0 <= pa -> pa + Z.of_nat n * PGSIZE < 18446744073709551616 ->
  (forall va, first <= va < first + Z.of_nat n * PGSIZE -> xlate (mem s) root va = None) ->
  exists r s' l', map_loop n root first pa perm s = Ret r s' /\ vm_frame s l s' l' root /\
    (forall va, 0 <= va < MAXVA -> ~ (first <= va < first + Z.of_nat n * PGSIZE) ->
       xlate (mem s') root va = xlate (mem s) root va) /\
    ((r = 0 /\ forall va, first <= va < first + Z.of_nat n * PGSIZE ->
        xlate (mem s') root va = Some (pte_for pa first perm va)) \/
     (r = -1 /\ l' = [] /\ (length l < 2 * n)%nat)) /\
    (length l <= length l' + 2 * n)%nat.
Proof.
  revert first pa s l. induction n as [|n IH]; intros first pa s l Hvm Ha H0 Hmax Hpa Hpa' Hun.
  { exists 0, s, l. cbn [map_loop]. split; [done|]. split; [by apply vm_frame_refl|].
    split; [done|]. split; [|lia]. left. split; [done|]. intros. lia. }
  cbn [map_loop].
  assert (Hf : 0 <= first < MAXVA) by (unfold MAXVA in *; klia).
  destruct (page_walk_alloc s l root first Hvm Hf)
    as [(a & s1 & l1 & Ew & [Xf Xx] & Hl & Hlen)|(s1 & Ew & [Xf Xx] & Hlen)].
  2:{ exists (-1), s1, []. rewrite (bind_Ret _ _ _ _ _ Ew). cbn. split; [done|]. split; [done|].
      split; [intros; by apply Xx|]. split; [right; repeat split; lia|lia]. }
  rewrite (bind_Ret _ _ _ _ _ Ew). pose proof (vf_inv _ _ _ _ _ Xf) as Hvm1.
  destruct (leaf_page _ _ _ Hf (vm_pt _ _ _ Hvm1) _ Hl) as [Hok Hnz].
  rewrite (proj2 (Z.eqb_neq a 0)) by done.
  rewrite (bind_Ret _ _ s1 (rd (mem s1) a) s1) by (unfold load; by rewrite Hok).
  assert (Hinv : has (rd (mem s1) a) PTE_V = false).
  { pose proof (xlate_leaf _ _ _ _ Hl) as Hx. rewrite Xx, Hun in Hx by (done || klia).
    by destruct (has _ _). }
  rewrite Hinv. unfold check at 1. rewrite bind_ret_l.
  destruct (leaf_store s1 l1 root first a (PA2PTE pa .| perm .| PTE_V) Hvm1 Hf Hl)
    as (Es & Hfr & Hx).
  rewrite (bind_Ret _ _ _ _ _ Es). set (s2 := set_mem _ s1) in *.
  rewrite !u64_small by (unfold MAXVA in *; klia).
  assert (HV : has (PA2PTE pa .| perm .| PTE_V) PTE_V = true) by (apply PA2PTE_V; klia).
  destruct (IH (first + PGSIZE) (pa + PGSIZE) s2 l1) as (r & s' & l' & Er & Hfr' & Hout & Hin & Hlen').
  - apply (vf_inv _ _ _ _ _ Hfr).
  - klia.
  - klia.
  - klia.
  - klia.
  - klia.
  - intros va Hva. assert (0 <= va < MAXVA) by klia.
    rewrite Hx by done. rewrite decide_False by klia. rewrite Xx by done. apply Hun. klia.
  - exists r, s', l'. split; [done|].
    split; [eapply vm_frame_trans; [done|]; by eapply vm_frame_trans|].
    split.
    + intros va Hva Hno. rewrite Hout by (done || klia). rewrite Hx by done.
      rewrite decide_False by klia. by apply Xx.
    + split; [|lia]. destruct Hin as [[-> Hin]|(-> & -> & ?)]; [left|right; repeat split; lia].
      split; [done|]. intros va Hva. assert (0 <= va < MAXVA) by klia.
      destruct (Z_lt_le_dec va (first + PGSIZE)).
      * rewrite Hout by (done || klia). rewrite Hx by done. rewrite decide_True by klia.
        rewrite HV. f_equal. unfold pte_for. do 3 f_equal. klia.
      * rewrite Hin by klia. by rewrite pte_for_next.
Qed.

(** One page that is not mapped yet. *)
Lemma map_one s l root va pa perm :
  vm_inv s l root -> va mod PGSIZE = 0 -> 0 <= va -> va + PGSIZE <= MAXVA ->
  0 <= pa < 72057594037923840 -> (2 <= length l)%nat -> xlate (mem s) root va = None ->
  exists s' l', user_vm_map root va PGSIZE pa perm s = Ret tt s' /\ vm_frame s l s' l' root /\
    (length l <= length l' + 2)%nat /\
    (forall x, 0 <= x < MAXVA -> xlate (mem s') root x =
       if decide (x / PGSIZE = va / PGSIZE) then Some (PA2PTE pa .| perm .| PTE_V)
       else xlate (mem s) root x).
Proof.
  intros Hi Ha H0 Hmax Hpa Hlen Hun.
  assert (Hr1 : ROUNDDOWN va PGSIZE = va) by (apply rounddown_id; [unfold MAXVA in *; klia|done]).
  assert (Hr2 : ROUNDDOWN (u64 (va + PGSIZE - 1)) PGSIZE = va) by (unfold ROUNDDOWN, MAXVA in *; klia).
  assert (Hpc : page_count va va = 1%nat).
  { unfold page_count. rewrite Z.leb_refl. replace (va - va) with 0 by lia. reflexivity. }
  assert (Hin : forall x, va <= x < va + Z.of_nat 1 * PGSIZE <-> x / PGSIZE = va / PGSIZE) by (intros; klia).
  destruct (map_loop_run 1 va pa s l root perm) as (r & s' & l' & E & F & Xo & Hr & Hl); auto; try klia.
  { intros x Hx. apply Hin in Hx. unfold xlate in *. by rewrite (leaf_same_page _ _ x va Hx). }
  destruct Hr as [[-> Xi]|(_ & _ & ?)]; [|lia].
  exists s', l'. split; [|split; [done|split; [lia|]]].
  - unfold user_vm_map, map_pages. rewrite Hr1, Hr2, Hpc. by rewrite (bind_Ret _ _ _ _ _ E).
  - intros x Hx. destruct (decide _) as [Hd|Hd].
    + rewrite Xi by by apply Hin. unfold pte_for. do 4 f_equal. rewrite Hd. lia.
    + apply Xo; [done|]. by rewrite Hin.
Qed.

(** C2: [map_pages] on a range none of whose pages is mapped.  When two free
    pages per mapped page are available it returns 0; then exactly the pages
    that [va, va+size) touches are mapped, the i-th to the i-th physical page,
    with the permission bits asked for.  Otherwise it may return -1, and then
    the free list is exhausted.  Translations outside the range, and memory
    outside the tables, never change. *)
Theorem map_pages_correct s l root va size pa perm :
  vm_inv s l root -> 0 <= va -> 0 < size -> va + size <= MAXVA ->
  0 <= pa -> pa + size + 2 * PGSIZE < 18446744073709551616 ->
  let first := va / PGSIZE * PGSIZE in
  let last := (va + size - 1) / PGSIZE * PGSIZE in
  let n := Z.to_nat ((last - first) / PGSIZE + 1) in
  (forall x, first <= x < last + PGSIZE -> xlate (mem s) root x = None) ->
  exists r s' l', map_pages root va size pa perm s = Ret r s' /\ vm_frame s l s' l' root /\
    (forall x, 0 <= x < MAXVA -> ~ (first <= x < last + PGSIZE) ->
       xlate (mem s') root x = xlate (mem s) root x) /\
    ((r = 0 /\ forall x, first <= x < last + PGSIZE ->
        xlate (mem s') root x = Some (pte_for pa first perm x)) \/
     (r = -1 /\ l' = [] /\ (length l < 2 * n)%nat)).
Proof.
  intros Hvm H0 Hs Hmax Hpa Hpa' first last n Hun.
  assert (Hn : first + Z.of_nat n * PGSIZE = last + PGSIZE).
  { unfold n. rewrite Z2Nat.id; subst first last; klia. }
  unfold map_pages, page_count.
  assert (E1 : ROUNDDOWN va PGSIZE = first)
    by (unfold ROUNDDOWN; subst first; unfold MAXVA in *; klia).
  assert (E2 : ROUNDDOWN (u64 (va + size - 1)) PGSIZE = last)
    by (unfold ROUNDDOWN; subst last; unfold MAXVA in *; klia).
  rewrite E1, E2, (proj2 (Z.leb_le first last)) by (subst first last; klia). fold n.
  rewrite <- Hn in *.
  destruct (map_loop_run n first pa s l root perm) as (r & s' & l' & H1 & H2 & H3 & H4 & _);
    auto; try (subst first last; unfold MAXVA in *; klia).
  by exists r, s', l'.
Qed.

(** A page full of zeros, not on the free list, is an empty page table. *)
Lemma fresh_root s l root :
  pmm_inv s l -> table_page root -> root ∉ l ->
  (forall k, idx_ok k -> rd (mem s) (root + 8 * k) = 0) -> vm_inv s l root.
Proof.
  intros Hpm Htp Hl Hz.
  assert (Hc : forall k, idx_ok k -> child (mem s) root k = None)
    by (intros k Hk; unfold child; by rewrite Hz).
  assert (Ht : forall π t, path_ok π -> tbl (mem s) root π = Some t -> π = P0 /\ t = root).
  { intros [|i|i j] t Hok; cbn; [by intros [= ->]|by rewrite Hc|].
    destruct Hok. by rewrite Hc. }
  split; [done| |].
  - split.
    + intros π t Hok Hπ. by destruct (Ht _ _ Hok Hπ) as [_ ->].
    + intros π π' t Hok Hok' H1 H2. destruct (Ht _ _ Hok H1), (Ht _ _ Hok' H2). congruence.
  - intros π t Hok Hπ. by destruct (Ht _ _ Hok Hπ) as [_ ->].
Qed.

Lemma fresh_root_xlate m root va :
  (forall k, idx_ok k -> rd m (root + 8 * k) = 0) -> xlate m root va = None.
Proof.
  intros Hz. unfold xlate, leaf. cbn [tbl]. unfold child.
  rewrite (Hz (PX 2 va)) by (apply PX_range; lia). done.
Qed.

(** A machine with three free pages and an empty page table at [DRAM_BASE]. *)
Definition vm3 : pstate :=
  mkP {[ 2147495936 := 2147491840; 2147491840 := 2147487744 ]} 2147495936 ∅
      2147487744 2147504128 20480 0.

Lemma vm3_pmm : pmm_inv vm3 [2147495936; 2147491840; 2147487744].
Proof.
  split.
  - split; cbv; congruence.
  - done.
  - repeat (apply list.NoDup_cons; split; [rewrite ?elem_of_cons, ?elem_of_nil; lia|]).
    constructor.
  - intros p. unfold managed, page_ref, ref_at. cbn. rewrite lookup_empty. cbn.
    rewrite !elem_of_cons, elem_of_nil. split.
    + intros [->|[->|[->|[]]]]; cbv; intuition congruence.
    + intros [(? & ? & ?) _]. kconst. Z.to_euclidean_division_equations. lia.
  - intros i. unfold ref_at. cbn. rewrite lookup_empty. cbn. lia.
  - done.
Qed.

Lemma vm3_zero k : idx_ok k -> rd (mem vm3) (2147483648 + 8 * k) = 0.
Proof.
  intros []. unfold rd. cbn. rewrite lookup_insert_ne, lookup_singleton_ne by lia. done.
Qed.

Lemma vm3_inv : vm_inv vm3 [2147495936; 2147491840; 2147487744] 2147483648.
Proof.
  apply fresh_root; [apply vm3_pmm|repeat split; cbv; congruence| |apply vm3_zero].
  rewrite !elem_of_cons, elem_of_nil. lia.
Qed.

Lemma map_pages_correct_witness :
  exists r s' l', map_pages 2147483648 4194304 4096 2147500032 199 vm3 = Ret r s' /\
    vm_frame vm3 [2147495936; 2147491840; 2147487744] s' l' 2147483648 /\
    ((r = 0 /\ xlate (mem s') 2147483648 4194304 = Some (pte_for 2147500032 4194304 199 4194304)) \/
     (r = -1 /\ l' = [])).
Proof.
  destruct (map_pages_correct vm3 _ 2147483648 4194304 4096 2147500032 199 vm3_inv)
    as (r & s' & l' & H1 & H2 & _ & H4).
  - lia.
  - lia.
  - cbv; congruence.
  - lia.
  - cbv; congruence.
  - intros x _. apply fresh_root_xlate, vm3_zero.
  - exists r, s', l'. split; [exact H1|]. split; [exact H2|].
    clear H1 H2. destruct H4 as [[Hr H4]|(Hr & Hl & _)]; [left|right; exact (conj Hr Hl)].
    split; [exact Hr|]. apply (H4 4194304). cbv; split; congruence.
Defined.

(** ** Translation by the kernel *)

(** [user_va_to_pa] and [lookup_pa] read the translation of the tree. *)
Lemma user_va_to_pa_run s root va :
  pt_wf (mem s) root -> 0 <= va < MAXVA ->
  user_va_to_pa root va s =
    Ret (match xlate (mem s) root va with
         | Some w => u64 (Z.shiftl (Z.land (Z.shiftr w 10) 70368744177663) 12 + va mod PGSIZE)
         | None => 0
         end) s.
Proof.
  intros Hwf Hva. unfold user_va_to_pa. rewrite (bind_Ret _ _ _ _ _ (page_walk_lookup s root va Hwf Hva)).
  unfold leaf_ptr, xlate. destruct (leaf (mem s) root va) as [a|] eqn:E; cbn [default mbind option_bind];
    [|done].
  destruct (leaf_page _ _ _ Hva Hwf _ E) as [Hok Hnz].
  cbn. rewrite (proj2 (Z.eqb_neq a 0)) by done.
  rewrite (bind_Ret _ _ s (rd (mem s) a) s) by (unfold load; by rewrite Hok).
  destruct (has (rd (mem s) a) PTE_V); cbn [negb]; [|done].
  change (Z.shiftl 1 PGSHIFT - 1) with (Z.ones 12). by rewrite Z.land_ones by lia.
Qed.

Lemma lookup_pa_run s root va :
  pt_wf (mem s) root -> 0 <= va ->
  lookup_pa root va s =
    Ret (if MAXVA <=? va then 0 else
         match xlate (mem s) root va with
         | Some w => if has w PTE_R || has w PTE_W then PTE2PA w else 0
         | None => 0
         end) s.
Proof.
  intros Hwf H0. unfold lookup_pa. destruct (MAXVA <=? va) eqn:Em; bsplit; [done|].
  assert (Hva : 0 <= va < MAXVA) by lia.
  rewrite (bind_Ret _ _ _ _ _ (page_walk_lookup s root va Hwf Hva)).
  unfold leaf_ptr, xlate. destruct (leaf (mem s) root va) as [a|] eqn:E; cbn [default mbind option_bind];
    [|done].
  destruct (leaf_page _ _ _ Hva Hwf _ E) as [Hok Hnz].
  cbn. rewrite (proj2 (Z.eqb_neq a 0)) by done.
  rewrite (bind_Ret _ _ s (rd (mem s) a) s) by (unfold load; by rewrite Hok).
  destruct (has (rd (mem s) a) PTE_V); cbn; [|done].
  by destruct (has (rd (mem s) a) PTE_R), (has (rd (mem s) a) PTE_W).
Qed.

Lemma pte_for_pa pa first perm va off :
  0 <= pa -> pa mod PGSIZE = 0 -> first mod PGSIZE = 0 -> 0 <= first <= va ->
  pa + (va - first) < 72057594037927936 -> 0 <= perm < 1024 -> 0 <= off < PGSIZE ->
  u64 (Z.shiftl (Z.land (Z.shiftr (pte_for pa first perm va) 10) 70368744177663) 12 + off)
  = pa + (va / PGSIZE - first / PGSIZE) * PGSIZE + off.
Proof.
  intros Hpa Ha Hf Hle Hb Hp Ho. unfold pte_for. rewrite <- Z.lor_assoc.
  set (q := pa + (va / PGSIZE - first / PGSIZE) * PGSIZE).
  assert (Hq : 0 <= q < 72057594037927936 /\ q mod 4096 = 0) by (subst q; klia).
  assert (Hfl : 0 <= perm .| PTE_V < 1024).
  { split; [apply Z.lor_nonneg; split; [lia|done]|].
    destruct (Z.eq_dec (perm .| PTE_V) 0); [lia|].
    apply (Z.log2_lt_pow2 _ 10); [pose proof (proj2 (Z.lor_nonneg perm PTE_V)); unfold PTE_V in *; lia|].
    rewrite Z.log2_lor by (unfold PTE_V; lia). apply Z.max_lub_lt; [|done].
    destruct (Z.eq_dec perm 0) as [->|]; [done|]. apply Z.log2_lt_pow2; lia. }
  rewrite PA2PTE_shiftr by lia.
  change 70368744177663 with (Z.ones 46). rewrite Z.land_ones by lia.
  change (2 ^ 46) with 70368744177664.
  rewrite (Z.mod_small (q / 4096)) by (Z.to_euclidean_division_equations; lia).
  rewrite Z.shiftl_mul_pow2 by lia. change (2 ^ 12) with 4096.
  rewrite u64_small; Z.to_euclidean_division_equations; kconst; lia.
Qed.

(** mapping then translating.  After [user_vm_map] of an unmapped, aligned
    user page to an aligned physical page returns, [user_va_to_pa] of every
    address in that page is the physical page plus the offset; with two free
    pages in the allocator it does return. *)
Theorem user_vm_map_translates s l root va pa perm :
  vm_inv s l root -> va mod PGSIZE = 0 -> 0 <= va -> va + PGSIZE <= MAXVA ->
  pa mod PGSIZE = 0 -> 0 <= pa < 72057594037923840 -> 0 <= perm < 1024 ->
  (2 <= length l)%nat -> xlate (mem s) root va = None ->
  exists s' l', user_vm_map root va PGSIZE pa perm s = Ret tt s' /\ vm_inv s' l' root /\
    forall off, 0 <= off < PGSIZE -> user_va_to_pa root (va + off) s' = Ret (pa + off) s'.
Proof.
  intros Hvm Ha H0 Hmax Hpa Hpar Hperm Hlen Hun.
  destruct (map_one s l root va pa perm) as (s' & l' & E & Hf & _ & Hx); auto.
  exists s', l'. split; [done|]. split; [apply Hf|]. intros off Hoff.
  rewrite user_va_to_pa_run, Hx; [|unfold MAXVA in *; klia
    |apply (vm_pt _ _ _ (vf_inv _ _ _ _ _ Hf))|unfold MAXVA in *; klia].
  rewrite decide_True by klia.
  assert (Hp : PA2PTE pa .| perm .| PTE_V = pte_for pa va perm va).
  { unfold pte_for. do 4 f_equal. lia. }
  rewrite Hp, pte_for_pa by (done || klia). f_equal. klia.
Qed.

Lemma user_vm_map_translates_witness :
  exists s' l', user_vm_map 2147483648 4194304 4096 2147500032 (prot_to_type 3 1) vm3 = Ret tt s' /\
    vm_inv s' l' 2147483648 /\ user_va_to_pa 2147483648 (4194304 + 5) s' = Ret (2147500032 + 5) s'.
Proof.
  destruct (user_vm_map_translates vm3 _ 2147483648 4194304 2147500032 (prot_to_type 3 1) vm3_inv)
    as (s' & l' & H1 & H2 & H3).
  - reflexivity.
  - lia.
  - cbv; congruence.
  - reflexivity.
  - lia.
  - cbv; split; congruence.
  - cbn; lia.
  - apply fresh_root_xlate, vm3_zero.
  - exists s', l'. split; [exact H1|]. split; [exact H2|]. apply H3. cbv; split; congruence.
Defined.

(** ** Memory that the tables do not see *)

(** Two memories that agree on the words of the tables of [root]. *)
Definition tables_agree (m m' : gmap Z Z) (root : Z) : Prop :=
  forall π t k, path_ok π -> tbl m root π = Some t -> idx_ok k ->
    rd m' (t + 8 * k) = rd m (t + 8 * k).

Lemma agree_tbl m m' root :
  tables_agree m m' root -> forall π, path_ok π -> tbl m' root π = tbl m root π.
Proof. intros H. apply tbl_frame. intros. by apply (H π). Qed.

Lemma agree_leaf m m' root va : tables_agree m m' root -> leaf m' root va = leaf m root va.
Proof.
  intros H. unfold leaf. rewrite (agree_tbl m m' root H); [done|]. split; apply PX_range; lia.
Qed.

Lemma agree_xlate m m' root va : tables_agree m m' root -> xlate m' root va = xlate m root va.
Proof.
  intros H. unfold xlate. rewrite (agree_leaf m m') by done.
  destruct (leaf m root va) as [a|] eqn:E; cbn; [|done].
  unfold leaf in E. destruct (tbl m root _) as [t|] eqn:Et; cbn in E; [|done]. simplify_eq.
  rewrite (H (P2 (PX 2 va) (PX 1 va)) t (PX 0 va)); [done| |done|apply PX_range; lia].
  split; apply PX_range; lia.
Qed.

Lemma agree_vm_inv s l s' l' root :
  vm_inv s l root -> tables_agree (mem s) (mem s') root -> pmm_inv s' l' ->
  (forall p, p ∈ l' -> p ∈ l \/ forall π t, path_ok π -> tbl (mem s) root π = Some t -> t <> p) ->
  vm_inv s' l' root.
Proof.
  intros [Hpm Hwf Hsep] Ha Hpm' Hl. split; [done| |].
  - apply (pt_wf_ext (mem s)); [by apply agree_tbl|done].
  - intros π t Hok. rewrite (agree_tbl (mem s)) by done. intros Ht Hin.
    destruct (Hl t Hin) as [?|Hne]; [by apply (Hsep π t)|by apply (Hne π t)].
Qed.

(** A store into a page that is not a table. *)
Lemma agree_insert m root a p v :
  pt_wf m root -> p mod PGSIZE = 0 -> in_page a p ->
  (forall π t, path_ok π -> tbl m root π = Some t -> t <> p) ->
  tables_agree m (<[a := v]> m) root.
Proof.
  intros Hwf Hp Ha Hne π t k Hok Ht Hk. apply rd_insert_ne. intros ->.
  apply (Hne π t Hok Ht). apply (page_neq_in_page t p (t + 8 * k)); auto using slot_in_page.
  by apply (pt_page _ _ Hwf π t).
Qed.

Lemma user_vm_unmap_frame s l root va w :
  vm_inv s l root -> va mod PGSIZE = 0 -> 0 <= va -> va + PGSIZE <= MAXVA ->
  xlate (mem s) root va = Some w -> PTE_FLAGS w <> PTE_V ->
  managed s (PTE2PA w) -> 0 < page_ref s (PTE2PA w) ->
  (forall π t, path_ok π -> tbl (mem s) root π = Some t -> t <> PTE2PA w) ->
  exists s', user_vm_unmap root va PGSIZE true s = Ret tt s' /\
    vm_inv s' (if page_ref s (PTE2PA w) =? 1 then PTE2PA w :: l else l) root /\
    page_ref s' (PTE2PA w) = page_ref s (PTE2PA w) - 1 /\
    (forall x, 0 <= x < MAXVA -> xlate (mem s') root x =
       if decide (x / PGSIZE = va / PGSIZE) then None else xlate (mem s) root x) /\
    (forall a, (forall q, q ∈ l -> ~ in_page a q) -> ~ in_page a (PTE2PA w) ->
       (forall π t, path_ok π -> tbl (mem s) root π = Some t -> ~ in_page a t) -> rd (mem s') a = rd (mem s) a) /\
    (forall q, managed s q -> q <> PTE2PA w -> page_ref s' q = page_ref s q) /\
    (forall π t, path_ok π -> tbl (mem s') root π = Some t -> tbl (mem s) root π = Some t) /\
    free_mem_start_addr s' = free_mem_start_addr s /\ free_mem_end_addr s' = free_mem_end_addr s.
Proof.
  intros Hvm Ha H0 Hmax Hx Hfl Hm Hr Hne.
  set (p := PTE2PA w) in *. assert (Hva : 0 <= va < MAXVA) by klia.
  pose proof (vm_pmm _ _ _ Hvm) as Hpm. pose proof (vm_pt _ _ _ Hvm) as Hwf.
  unfold xlate in Hx. destruct (leaf (mem s) root va) as [a|] eqn:El; cbn in Hx; [|done].
  destruct (has (rd (mem s) a) PTE_V) eqn:Ev; [|done]. simplify_eq.
  destruct (leaf_page _ _ _ Hva Hwf _ El) as [Hok Hnz].
  unfold user_vm_unmap. rewrite (proj2 (Z.eqb_eq (va mod PGSIZE) 0) Ha). cbn [negb check].
  rewrite bind_ret_l.
  replace (Z.to_nat ((u64 (va + PGSIZE) - va + PGSIZE - 1) / PGSIZE)) with 1%nat
    by (unfold MAXVA in *; rewrite u64_small by klia; klia).
  cbn [unmap_loop].
  rewrite (bind_Ret _ _ _ _ _ (page_walk_lookup s root va Hwf Hva)).
  unfold leaf_ptr. rewrite El. cbn [default]. unfold check at 1, id. cbn.
  rewrite (proj2 (Z.eqb_neq a 0)) by done. rewrite bind_ret_l.
  rewrite (bind_Ret _ _ s (rd (mem s) a) s) by (unfold load; by rewrite Hok).
  rewrite Ev. unfold check at 1. cbn [negb]. rewrite bind_ret_l.
  rewrite (proj2 (Z.eqb_neq _ PTE_V)) by done. unfold check. rewrite bind_ret_l.
  unfold when. fold p.
  set (s1 := if page_ref s p =? 1 then free_result s p else unref_result s p).
  set (l1 := if page_ref s p =? 1 then p :: l else l).
  rewrite (bind_Ret _ _ s tt s1) by (by apply (free_page_run s l Hpm p Hm Hr)).
  assert (Hag : tables_agree (mem s) (mem s1) root).
  { unfold s1. destruct (_ =? _); [|done]. cbn. apply (agree_insert _ _ _ p); auto.
    - apply Hm.
    - unfold in_page. klia. }
  assert (Hpm1 : pmm_inv s1 l1).
  { unfold s1, l1. destruct (page_ref s p =? 1) eqn:E1; bsplit.
    - by apply free_result_inv.
    - apply unref_result_inv; auto. lia. }
  assert (Hvm1 : vm_inv s1 l1 root).
  { apply (agree_vm_inv s l); auto. intros q. unfold l1. destruct (_ =? _); [|auto].
    intros [->|?]%elem_of_cons; auto. }
  assert (El1 : leaf (mem s1) root va = Some a) by (by rewrite (agree_leaf (mem s))).
  destruct (leaf_store s1 l1 root va a 0 Hvm1 Hva El1) as (Es & Hf & Hx).
  rewrite (bind_Ret _ _ _ _ _ Es). eexists. split; [reflexivity|].
  assert (Hrf : forall q, managed s q -> page_ref s1 q = if decide (q = p) then page_ref s p - 1 else page_ref s q).
  { intros q Hq. unfold s1.
    destruct (page_ref s p =? 1); [change (page_ref (free_result s p) q) with (page_ref (unref_result s p) q)|];
    apply (page_ref_unref s l Hpm p q Hm Hq). }
  split; [apply Hf|]. split; [change (page_ref s1 p = page_ref s p - 1); rewrite Hrf by done; by rewrite decide_True|].
  split; [intros x Hxr; etransitivity; [by apply Hx|]; case_decide; [done|]; by apply agree_xlate|].
  split; [|split; [|split; [|split; unfold s1; by destruct (_ =? _)]]].
  - intros b Hbl Hbp Hbt. rewrite (vf_mem _ _ _ _ _ Hf).
    + unfold s1. destruct (_ =? _); [|done]. cbn. apply rd_insert_ne. intros <-. apply Hbp. unfold in_page. klia.
    + unfold l1. intros q. destruct (_ =? _); [intros [->|?]%elem_of_cons; [done|auto]|auto].
    + intros π t Hπ. rewrite (agree_tbl (mem s)) by done. exact (Hbt π t Hπ).
  - intros q Hq Hqp. change (page_ref s1 q = page_ref s q). rewrite Hrf by done. by rewrite decide_False.
  - intros π t Hπ Ht. destruct (vf_new _ _ _ _ _ Hf π t Hπ Ht) as [Ht1|Hin]; [by rewrite (agree_tbl (mem s)) in Ht1|].
    exfalso. by apply (vm_sep _ _ _ (vf_inv _ _ _ _ _ Hf) π t).
Qed.

Lemma user_vm_unmap_run s l root va w :
  vm_inv s l root -> va mod PGSIZE = 0 -> 0 <= va -> va + PGSIZE <= MAXVA ->
  xlate (mem s) root va = Some w -> PTE_FLAGS w <> PTE_V ->
  managed s (PTE2PA w) -> 0 < page_ref s (PTE2PA w) ->
  (forall π t, path_ok π -> tbl (mem s) root π = Some t -> t <> PTE2PA w) ->
  exists s', user_vm_unmap root va PGSIZE true s = Ret tt s' /\
    vm_inv s' (if page_ref s (PTE2PA w) =? 1 then PTE2PA w :: l else l) root /\
    page_ref s' (PTE2PA w) = page_ref s (PTE2PA w) - 1 /\
    (forall x, 0 <= x < MAXVA -> xlate (mem s') root x =
       if decide (x / PGSIZE = va / PGSIZE) then None else xlate (mem s) root x).
Proof.
  intros H1 H2 H3 H4 H5 H6 H7 H8 H9.
  destruct (user_vm_unmap_frame s l root va w H1 H2 H3 H4 H5 H6 H7 H8 H9) as (s' & E1 & E2 & E3 & E4 & _). by exists s'.
Qed.

(** C39: [user_vm_unmap] of one mapped leaf page with [free] set removes that
    translation and no other, gives back one reference of the physical page, and
    puts the page on the free list exactly when that was the last one; the other
    counters keep their values, the address space has no new table, and memory
    outside of its tables, of the free pages and of the page itself is unchanged. *)
Theorem user_vm_unmap_correct s l root va w :
  vm_inv s l root -> va mod PGSIZE = 0 -> 0 <= va -> va + PGSIZE <= MAXVA ->
  xlate (mem s) root va = Some w -> PTE_FLAGS w <> PTE_V ->
  managed s (PTE2PA w) -> 0 < page_ref s (PTE2PA w) ->
  (forall π t, path_ok π -> tbl (mem s) root π = Some t -> t <> PTE2PA w) ->
  exists s', user_vm_unmap root va PGSIZE true s = Ret tt s' /\
    vm_inv s' (if page_ref s (PTE2PA w) =? 1 then PTE2PA w :: l else l) root /\
    page_ref s' (PTE2PA w) = page_ref s (PTE2PA w) - 1 /\
    (forall x, 0 <= x < MAXVA -> xlate (mem s') root x =
       if decide (x / PGSIZE = va / PGSIZE) then None else xlate (mem s) root x) /\
    (forall a, (forall q, q ∈ l -> ~ in_page a q) -> ~ in_page a (PTE2PA w) ->
       (forall π t, path_ok π -> tbl (mem s) root π = Some t -> ~ in_page a t) -> rd (mem s') a = rd (mem s) a) /\
    (forall q, managed s q -> q <> PTE2PA w -> page_ref s' q = page_ref s q) /\
    (forall π t, path_ok π -> tbl (mem s') root π = Some t -> tbl (mem s) root π = Some t).
Proof.
  intros H1 H2 H3 H4 H5 H6 H7 H8 H9.
  destruct (user_vm_unmap_frame s l root va w H1 H2 H3 H4 H5 H6 H7 H8 H9) as (s' & E1 & E2 & E3 & E4 & E5 & E6 & E7 & _).
  by exists s'.
Qed.

(** ** A concrete address space with one user page

    Tables at [DRAM_BASE] and the two pages above it; the page at 2147495936
    is the only managed one, in use, mapped at 4 MB for reading and writing. *)
Definition one_page : Z := 2147495936.
Definition one_mem : gmap Z Z :=
  <[ 2147483648 := 536871937 ]> (<[ 2147487760 := 536872961 ]>
    {[ 2147491840 := PA2PTE one_page .| prot_to_type 3 1 .| PTE_V ]}).
Definition one : pstate := mkP one_mem 0 {[ 0 := 1 ]} one_page (one_page + 8192) 20480 0.

Lemma one_pmm : pmm_inv one [].
Proof.
  split.
  - split; cbv; congruence.
  - done.
  - constructor.
  - intros p. split; [by intros ?%elem_of_nil|]. intros [(H1 & H2 & H3) H4]. exfalso.
    unfold one, one_page in *. cbn in *. assert (p = 2147495936) as -> by klia. done.
  - intros i. unfold ref_at. cbn. destruct (decide (i = 0)) as [->|].
    + rewrite lookup_singleton_eq. cbn. lia.
    + rewrite lookup_singleton_ne by done. cbn. lia.
  - done.
Qed.

Lemma one_rd a :
  rd one_mem a = if decide (a = 2147483648) then 536871937 else
                 if decide (a = 2147487760) then 536872961 else
                 if decide (a = 2147491840) then PA2PTE one_page .| prot_to_type 3 1 .| PTE_V else 0.
Proof.
  unfold rd, one_mem. rewrite !lookup_insert, lookup_singleton.
  by repeat (case_decide; simplify_eq).
Qed.

Lemma one_tbl π t :
  path_ok π -> tbl one_mem 2147483648 π = Some t ->
  (π = P0 /\ t = 2147483648) \/ (π = P1 0 /\ t = 2147487744) \/ (π = P2 0 2 /\ t = 2147491840).
Proof.
  assert (H0 : forall i, idx_ok i -> child one_mem 2147483648 i =
                 if decide (i = 0) then Some 2147487744 else None).
  { intros i []. unfold child. rewrite one_rd.
    repeat case_decide; (lia || by subst || done). }
  assert (H1 : forall i, idx_ok i -> child one_mem 2147487744 i =
                 if decide (i = 2) then Some 2147491840 else None).
  { intros i []. unfold child. rewrite one_rd.
    repeat case_decide; (lia || by subst || done). }
  destruct π as [|i|i j]; cbn.
  - intros _ [= <-]. auto.
  - intros Hi. rewrite H0 by done. case_decide; [|done]. intros [= <-]. subst. auto.
  - intros [Hi Hj]. rewrite H0 by done. case_decide; cbn; [|done].
    rewrite H1 by done. case_decide; [|done]. intros [= <-]. subst. auto.
Qed.

Lemma one_inv : vm_inv one [] 2147483648.
Proof.
  split; [apply one_pmm| |intros; apply not_elem_of_nil]. split.
  - intros π t Hok Ht. apply one_tbl in Ht; [|done].
    destruct Ht as [[_ ->]|[[_ ->]|[_ ->]]]; repeat split; cbv; congruence.
  - intros π π' t Hok Hok' Ht Ht'. apply one_tbl in Ht, Ht'; [|done|done].
    destruct Ht as [[-> ->]|[[-> ->]|[-> ->]]], Ht' as [[-> ?]|[[-> ?]|[-> ?]]]; done.
Qed.

Lemma user_vm_unmap_correct_witness :
  exists s', user_vm_unmap 2147483648 4194304 4096 true one = Ret tt s' /\
    vm_inv s' [one_page] 2147483648 /\ xlate (mem s') 2147483648 4194304 = None.
Proof.
  destruct (user_vm_unmap_correct one [] 2147483648 4194304
              (PA2PTE one_page .| prot_to_type 3 1 .| PTE_V) one_inv) as (s' & H1 & H2 & _ & H4 & _).
  - reflexivity.
  - lia.
  - cbv; congruence.
  - reflexivity.
  - cbv; congruence.
  - repeat split; cbv; congruence.
  - reflexivity.
  - intros π t Hok Ht. apply one_tbl in Ht; [|exact Hok].
    destruct Ht as [[_ ->]|[[_ ->]|[_ ->]]]; cbv; congruence.
  - exists s'. split; [exact H1|]. split; [exact H2|].
    rewrite H4; [reflexivity|cbv; split; congruence].
Defined.

(** [user_vm_set_cow] on a mapped page: the entry loses [PTE_W] and gains
    [PTE_COW]; nothing else changes. *)
Lemma user_vm_set_cow_run s l root va w :
  vm_inv s l root -> 0 <= va < MAXVA -> xlate (mem s) root va = Some w ->
  exists s', user_vm_set_cow root va s = Ret tt s' /\ vm_frame s l s' l root /\
    (forall x, 0 <= x < MAXVA -> xlate (mem s') root x =
       if decide (x / PGSIZE = va / PGSIZE) then Some (Z.ldiff w PTE_W .| PTE_COW)
       else xlate (mem s) root x).
Proof.
  intros Hvm Hva Hx. pose proof (vm_pt _ _ _ Hvm) as Hwf.
  unfold xlate in Hx. destruct (leaf (mem s) root va) as [a|] eqn:El; cbn in Hx; [|done].
  destruct (has (rd (mem s) a) PTE_V) eqn:Ev; [|done]. simplify_eq.
  destruct (leaf_page _ _ _ Hva Hwf _ El) as [Hok Hnz].
  unfold user_vm_set_cow. rewrite (bind_Ret _ _ _ _ _ (page_walk_lookup s root va Hwf Hva)).
  unfold leaf_ptr. rewrite El. cbn. rewrite (proj2 (Z.eqb_neq a 0)) by done.
  rewrite (bind_Ret _ _ s (rd (mem s) a) s) by (unfold load; by rewrite Hok).
  rewrite Ev. cbn [negb].
  destruct (leaf_store s l root va a (Z.ldiff (rd (mem s) a) PTE_W .| PTE_COW) Hvm Hva El)
    as (Es & Hf & Hx').
  rewrite Es. eexists. split; [done|]. split; [done|].
  intros x Hxr. etransitivity; [by apply Hx'|]. case_decide; [|done].
  replace (has (Z.ldiff (rd (mem s) a) PTE_W .| PTE_COW) PTE_V) with true; [done|].
  symmetry. rewrite has_V in *. rewrite <- Z.bit0_odd in *.
  rewrite Z.lor_spec, Z.ldiff_spec, Ev. done.
Qed.
