(* ===== verification/Process.v ===== *)
(** * Processes: data of kernel/process.h and kernel/process.c

    The kernel's process table, the state that the scheduler, the semaphores,
    the user heap and the trap handlers share, and the accesses the C code
    makes to it.  A [process *] is an index into [procs] ([None] is [NULL]);
    the structures that live in pages of their own (trapframe, mapped_info,
    malloc nodes, proc_file_management) are words of the memory of Pmm.v at
    their C offsets. *)
From S2P Require Import Prelude Pmm Vmm.

Definition NPROC : nat := 32.
Definition NSEM : nat := 32.
Definition MAX_HEAP_PAGES : nat := 32.
Definition TIME_SLICE_LEN : Z := 2.

(** Status of a process. *)
Inductive proc_status : Type := FREE | READY | RUNNING | BLOCKED | ZOMBIE.

#[global] Instance proc_status_eq_dec : EqDecision proc_status.
Proof. solve_decision. Defined.

(** Segment types, the indices of the first four entries of [mapped_info]. *)
Definition STACK_SEGMENT : Z := 0.
Definition CONTEXT_SEGMENT : Z := 1.
Definition SYSTEM_SEGMENT : Z := 2.
Definition HEAP_SEGMENT : Z := 3.
Definition CODE_SEGMENT : Z := 4.
Definition DATA_SEGMENT : Z := 5.

Record process_heap_manager : Type := mkHeap {
  heap_top : Z;
  heap_bottom : Z;
  free_pages_address : list Z;
  free_pages_count : Z
}.

Record process : Type := mkProc {
  kstack : Z;
  pagetable : Z;
  trapframe : Z;
  proc_size : Z;
  malloc_list : Z;
  malloc_free_list : Z;
  mapped_info : Z;
  total_mapped_region : Z;
  user_heap : process_heap_manager;
  pid : Z;
  status : proc_status;
  parent : option nat;
  queue_next : option nat;
  tick_count : Z;
  pfiles : Z;
  debugline : Z;
  dir : Z;
  file : Z;
  line : Z;
  line_ind : Z
}.

Record semaphore : Type := mkSem {
  ifuse : Z;
  value : Z;
  wait_queue : option nat
}.

(** The control and status registers of one hart that the kernel uses in
    supervisor mode. *)
Record csr : Type := mkCsr {
  stvec : Z;
  sstatus : Z;
  sepc : Z;
  satp : Z;
  scause : Z;
  stval : Z;
  sip : Z
}.

(** What the kernel keeps about processes.  The harts share all of it but
    [current], [g_ticks] and [csrs], which have an entry per hart. *)
Record kstate : Type := mkK {
  pm : pstate;
  procs : list process;
  sem_table : list semaphore;
  current : list (option nat);
  ready_queue_head : option nat;
  rq_lock : Z;
  rq_lock_inited : Z;
  proc_alloc_lock : Z;
  g_ticks : list Z;
  csrs : list csr
}.

(** ** Field updates *)

Definition set_heap_top (v : Z) (r : process_heap_manager) : process_heap_manager :=
  mkHeap v (heap_bottom r) (free_pages_address r) (free_pages_count r).

Definition set_free_pages_count (v : Z) (r : process_heap_manager) : process_heap_manager :=
  mkHeap (heap_top r) (heap_bottom r) (free_pages_address r) v.

Definition set_free_pages (a : list Z) (n : Z) (r : process_heap_manager) : process_heap_manager :=
  mkHeap (heap_top r) (heap_bottom r) a n.

Definition set_proc_size (v : Z) (r : process) : process :=
  mkProc (kstack r) (pagetable r) (trapframe r) v (malloc_list r) (malloc_free_list r)
    (mapped_info r) (total_mapped_region r) (user_heap r) (pid r) (status r) (parent r)
    (queue_next r) (tick_count r) (pfiles r) (debugline r) (dir r) (file r) (line r)
    (line_ind r).

Definition set_malloc_list (v : Z) (r : process) : process :=
  mkProc (kstack r) (pagetable r) (trapframe r) (proc_size r) v (malloc_free_list r)
    (mapped_info r) (total_mapped_region r) (user_heap r) (pid r) (status r) (parent r)
    (queue_next r) (tick_count r) (pfiles r) (debugline r) (dir r) (file r) (line r)
    (line_ind r).

Definition set_malloc_free_list (v : Z) (r : process) : process :=
  mkProc (kstack r) (pagetable r) (trapframe r) (proc_size r) (malloc_list r) v
    (mapped_info r) (total_mapped_region r) (user_heap r) (pid r) (status r) (parent r)
    (queue_next r) (tick_count r) (pfiles r) (debugline r) (dir r) (file r) (line r)
    (line_ind r).

Definition set_total_mapped_region (v : Z) (r : process) : process :=
  mkProc (kstack r) (pagetable r) (trapframe r) (proc_size r) (malloc_list r)
    (malloc_free_list r) (mapped_info r) v (user_heap r) (pid r) (status r) (parent r)
    (queue_next r) (tick_count r) (pfiles r) (debugline r) (dir r) (file r) (line r)
    (line_ind r).

Definition set_user_heap (v : process_heap_manager) (r : process) : process :=
  mkProc (kstack r) (pagetable r) (trapframe r) (proc_size r) (malloc_list r)
    (malloc_free_list r) (mapped_info r) (total_mapped_region r) v (pid r) (status r)
    (parent r) (queue_next r) (tick_count r) (pfiles r) (debugline r) (dir r) (file r)
    (line r) (line_ind r).

Definition set_status (v : proc_status) (r : process) : process :=
  mkProc (kstack r) (pagetable r) (trapframe r) (proc_size r) (malloc_list r)
    (malloc_free_list r) (mapped_info r) (total_mapped_region r) (user_heap r) (pid r) v
    (parent r) (queue_next r) (tick_count r) (pfiles r) (debugline r) (dir r) (file r)
    (line r) (line_ind r).

Definition set_parent (v : option nat) (r : process) : process :=
  mkProc (kstack r) (pagetable r) (trapframe r) (proc_size r) (malloc_list r)
    (malloc_free_list r) (mapped_info r) (total_mapped_region r) (user_heap r) (pid r)
    (status r) v (queue_next r) (tick_count r) (pfiles r) (debugline r) (dir r) (file r)
    (line r) (line_ind r).

Definition set_queue_next (v : option nat) (r : process) : process :=
  mkProc (kstack r) (pagetable r) (trapframe r) (proc_size r) (malloc_list r)
    (malloc_free_list r) (mapped_info r) (total_mapped_region r) (user_heap r) (pid r)
    (status r) (parent r) v (tick_count r) (pfiles r) (debugline r) (dir r) (file r)
    (line r) (line_ind r).

Definition set_tick_count (v : Z) (r : process) : process :=
  mkProc (kstack r) (pagetable r) (trapframe r) (proc_size r) (malloc_list r)
    (malloc_free_list r) (mapped_info r) (total_mapped_region r) (user_heap r) (pid r)
    (status r) (parent r) (queue_next r) v (pfiles r) (debugline r) (dir r) (file r)
    (line r) (line_ind r).

Definition set_pfiles (v : Z) (r : process) : process :=
  mkProc (kstack r) (pagetable r) (trapframe r) (proc_size r) (malloc_list r)
    (malloc_free_list r) (mapped_info r) (total_mapped_region r) (user_heap r) (pid r)
    (status r) (parent r) (queue_next r) (tick_count r) v (debugline r) (dir r) (file r)
    (line r) (line_ind r).

Definition set_trapframe (v : Z) (r : process) : process :=
  mkProc (kstack r) (pagetable r) v (proc_size r) (malloc_list r) (malloc_free_list r)
    (mapped_info r) (total_mapped_region r) (user_heap r) (pid r) (status r) (parent r)
    (queue_next r) (tick_count r) (pfiles r) (debugline r) (dir r) (file r) (line r)
    (line_ind r).

Definition set_pagetable (v : Z) (r : process) : process :=
  mkProc (kstack r) v (trapframe r) (proc_size r) (malloc_list r) (malloc_free_list r)
    (mapped_info r) (total_mapped_region r) (user_heap r) (pid r) (status r) (parent r)
    (queue_next r) (tick_count r) (pfiles r) (debugline r) (dir r) (file r) (line r)
    (line_ind r).

Definition set_kstack (v : Z) (r : process) : process :=
  mkProc v (pagetable r) (trapframe r) (proc_size r) (malloc_list r) (malloc_free_list
    r) (mapped_info r) (total_mapped_region r) (user_heap r) (pid r) (status r) (parent
    r) (queue_next r) (tick_count r) (pfiles r) (debugline r) (dir r) (file r) (line r)
    (line_ind r).

Definition set_mapped_info (v : Z) (r : process) : process :=
  mkProc (kstack r) (pagetable r) (trapframe r) (proc_size r) (malloc_list r)
    (malloc_free_list r) v (total_mapped_region r) (user_heap r) (pid r) (status r)
    (parent r) (queue_next r) (tick_count r) (pfiles r) (debugline r) (dir r) (file r)
    (line r) (line_ind r).

Definition set_stvec (v : Z) (r : csr) : csr :=
  mkCsr v (sstatus r) (sepc r) (satp r) (scause r) (stval r) (sip r).

Definition set_sstatus (v : Z) (r : csr) : csr :=
  mkCsr (stvec r) v (sepc r) (satp r) (scause r) (stval r) (sip r).

Definition set_sepc (v : Z) (r : csr) : csr :=
  mkCsr (stvec r) (sstatus r) v (satp r) (scause r) (stval r) (sip r).

Definition set_satp (v : Z) (r : csr) : csr :=
  mkCsr (stvec r) (sstatus r) (sepc r) v (scause r) (stval r) (sip r).

Definition set_sip (v : Z) (r : csr) : csr :=
  mkCsr (stvec r) (sstatus r) (sepc r) (satp r) (scause r) (stval r) v.

Definition set_pm (v : pstate) (r : kstate) : kstate :=
  mkK v (procs r) (sem_table r) (current r) (ready_queue_head r) (rq_lock r)
    (rq_lock_inited r) (proc_alloc_lock r) (g_ticks r) (csrs r).

Definition set_procs (v : list process) (r : kstate) : kstate :=
  mkK (pm r) v (sem_table r) (current r) (ready_queue_head r) (rq_lock r)
    (rq_lock_inited r) (proc_alloc_lock r) (g_ticks r) (csrs r).

Definition set_sem_table (v : list semaphore) (r : kstate) : kstate :=
  mkK (pm r) (procs r) v (current r) (ready_queue_head r) (rq_lock r) (rq_lock_inited r)
    (proc_alloc_lock r) (g_ticks r) (csrs r).

Definition set_current (v : list (option nat)) (r : kstate) : kstate :=
  mkK (pm r) (procs r) (sem_table r) v (ready_queue_head r) (rq_lock r) (rq_lock_inited
    r) (proc_alloc_lock r) (g_ticks r) (csrs r).

Definition set_ready_queue_head (v : option nat) (r : kstate) : kstate :=
  mkK (pm r) (procs r) (sem_table r) (current r) v (rq_lock r) (rq_lock_inited r)
    (proc_alloc_lock r) (g_ticks r) (csrs r).

Definition set_rq_lock (v : Z) (r : kstate) : kstate :=
  mkK (pm r) (procs r) (sem_table r) (current r) (ready_queue_head r) v (rq_lock_inited
    r) (proc_alloc_lock r) (g_ticks r) (csrs r).

Definition set_rq_lock_inited (v : Z) (r : kstate) : kstate :=
  mkK (pm r) (procs r) (sem_table r) (current r) (ready_queue_head r) (rq_lock r) v
    (proc_alloc_lock r) (g_ticks r) (csrs r).

Definition set_proc_alloc_lock (v : Z) (r : kstate) : kstate :=
  mkK (pm r) (procs r) (sem_table r) (current r) (ready_queue_head r) (rq_lock r)
    (rq_lock_inited r) v (g_ticks r) (csrs r).

Definition set_g_ticks (v : list Z) (r : kstate) : kstate :=
  mkK (pm r) (procs r) (sem_table r) (current r) (ready_queue_head r) (rq_lock r)
    (rq_lock_inited r) (proc_alloc_lock r) v (csrs r).

Definition set_csrs (v : list csr) (r : kstate) : kstate :=
  mkK (pm r) (procs r) (sem_table r) (current r) (ready_queue_head r) (rq_lock r)
    (rq_lock_inited r) (proc_alloc_lock r) (g_ticks r) v.

(** ** Accesses *)

(** Addresses of the symbols that kernel/kernel.lds and strap_vector.S define. *)
Class Linker : Type := {
  trap_sec_start : Z;
  smode_trap_vector : Z;
  smode_trap_handler_addr : Z
}.

(** Halves of a word, for the [int] and [uint32] fields of structures in pages. *)
Definition load32 (a : Z) : M pstate Z :=
  if a mod 8 =? 0 then let* w := load a in ret (w mod 4294967296)
  else let* w := load (a - 4) in ret (w / 4294967296).
Definition store32 (a v : Z) : M pstate unit :=
  if a mod 8 =? 0
  then let* w := load a in store a (w / 4294967296 * 4294967296 + u32 v)
  else let* w := load (a - 4) in store (a - 4) (u32 v * 4294967296 + w mod 4294967296).

Definition get_proc (p : nat) : M kstate process :=
  fun s => match procs s !! p with
           | Some x => Ret x s
           | None => Stop (UB "procs out of range") s
           end.
Definition upd_proc (p : nat) (f : process -> process) : M kstate unit :=
  fun s => match procs s !! p with
           | Some x => Ret tt (set_procs (<[p := f x]> (procs s)) s)
           | None => Stop (UB "procs out of range") s
           end.

(** Dereferencing a [process *]. *)
Definition deref (o : option nat) : M kstate nat :=
  match o with Some p => ret p | None => halt (Fault 0) end.

(** [current[tp]] *)
Definition get_current (tp : nat) : M kstate (option nat) :=
  fun s => match current s !! tp with
           | Some c => Ret c s
           | None => Stop (UB "current out of range") s
           end.
Definition set_current_at (tp : nat) (c : option nat) : M kstate unit :=
  modify (fun s => set_current (<[tp := c]> (current s)) s).

(** The running process itself: [current[tp]->...]. *)
Definition self (tp : nat) : M kstate nat := let* c := get_current tp in deref c.

Definition get_csr (tp : nat) : M kstate csr :=
  fun s => match csrs s !! tp with
           | Some c => Ret c s
           | None => Stop (UB "hart out of range") s
           end.
Definition upd_csr (tp : nat) (f : csr -> csr) : M kstate unit :=
  let* c := get_csr tp in
  modify (fun s => set_csrs (<[tp := f c]> (csrs s)) s).

(** A function of pmm.c or vmm.c called where it cannot kill the process. *)
Definition on_pm {A} (c : M pstate A) : M kstate A := zoom pm set_pm c.

(** Offsets in the trapframe structure. *)
Definition TF_ra : Z := 0.
Definition TF_sp : Z := 8.
Definition TF_tp : Z := 24.
Definition TF_s0 : Z := 56.
Definition TF_a (n : Z) : Z := 72 + 8 * n.
Definition TF_kernel_sp : Z := 248.
Definition TF_kernel_trap : Z := 256.
Definition TF_epc : Z := 264.
Definition TF_kernel_satp : Z := 272.
Definition sizeof_trapframe : Z := 280.

Definition SSTATUS_SPP : Z := 256.
Definition SSTATUS_SPIE : Z := 32.
Definition SIP_SSIP : Z := 2.
Definition SATP_SV39 : Z := 9223372036854775808.
Definition MAKE_SATP (pt : Z) : Z := Z.lor SATP_SV39 (Z.shiftr pt 12).

(** ** Operations that only touch the process table *)

(** [switch_to]: prepare the trapframe and the registers of the hart, then
    [return_to_user], which ends in [sret]: control goes to the process. *)
Definition switch_to `{Linker} (tp : nat) (proc : option nat) : M kstate unit :=
  check (bool_decide (proc = None)) (Panic "assert(proc)") ;;;
  let* p := deref proc in
  set_current_at tp proc ;;;
  upd_csr tp (set_stvec smode_trap_vector) ;;;
  let* x := get_proc p in
  let tf := trapframe x in
  on_pm (store (tf + TF_kernel_sp) (kstack x)) ;;;
  let* c := get_csr tp in
  on_pm (store (tf + TF_kernel_satp) (satp c)) ;;;
  on_pm (store (tf + TF_kernel_trap) smode_trap_handler_addr) ;;;
  on_pm (store (tf + TF_tp) (Z.of_nat tp)) ;;;
  upd_csr tp (fun c => set_sstatus (Z.ldiff (sstatus c) SSTATUS_SPP .| SSTATUS_SPIE) c) ;;;
  let* epc := on_pm (load (tf + TF_epc)) in
  upd_csr tp (set_sepc epc) ;;;
  upd_csr tp (set_satp (MAKE_SATP (pagetable x))) ;;;
  halt (Resume p).

Definition zero_proc (i : nat) : process :=
  mkProc 0 0 0 0 0 0 0 0 (mkHeap 0 0 (replicate MAX_HEAP_PAGES 0) 0)
         (Z.of_nat i) FREE None None 0 0 0 0 0 0 0.

Definition init_proc_pool : M kstate unit :=
  modify (fun s => set_procs (zero_proc <$> seq 0 NPROC) s) ;;;
  modify (fun s => set_sem_table (replicate NSEM (mkSem 0 0 None)) s) ;;;
  modify (set_proc_alloc_lock SPIN_LOCK_FREE).

Definition free_process (p : nat) : M kstate Z :=
  upd_proc p (set_status ZOMBIE) ;;; ret 0.
