(* ===== verification/Sched.v ===== *)
(** * The scheduler, the semaphores and the system calls that block
      (kernel/sched.c, kernel/process.c, kernel/syscall.c, kernel/strap.c)

    The ready queue and the wait queues of the semaphores are linked through
    the one field [queue_next] of a process.  The operations below follow the
    links as the C code does; the invariant says which lists of processes the
    links spell out, and the theorems describe every operation on those lists. *)
From S2P Require Import Prelude Pmm Vmm Process.

Section Operations.
Context `{Linker}.

(** ** Ready queue *)

Definition rq_init_once : M kstate unit :=
  let* s := get in
  when (rq_lock_inited s =? 0)
    (modify (set_rq_lock SPIN_LOCK_FREE) ;;; modify (set_rq_lock_inited 1)).

Definition rq_acquire : M kstate unit :=
  fun s => if rq_lock s =? SPIN_LOCK_FREE then Ret tt (set_rq_lock SPIN_LOCK_HELD s)
           else Stop Spin s.
Definition rq_release : M kstate unit := modify (set_rq_lock SPIN_LOCK_FREE).

Definition is_done (x : process) : bool :=
  bool_decide (status x = FREE) || bool_decide (status x = ZOMBIE).

Definition all_process_done (s : kstate) : bool := forallb is_done (procs s).

(** The search of [insert_to_ready_queue] from [p]: [None] when it meets
    [proc], otherwise the last element of the queue. *)
Fixpoint rq_last (fuel : nat) (p proc : nat) : M kstate (option nat) :=
  match fuel with
  | O => halt OutOfFuel
  | S f =>
      let* x := get_proc p in
      match queue_next x with
      | Some n => if bool_decide (p = proc) then ret None else rq_last f n proc
      | None => if bool_decide (p = proc) then ret None else ret (Some p)
      end
  end.

Definition insert_to_ready_queue (proc : nat) : M kstate unit :=
  rq_init_once ;;;
  rq_acquire ;;;
  let* x := get_proc proc in
  if bool_decide (status x = ZOMBIE) || bool_decide (status x = FREE) then rq_release else
  let* s := get in
  match ready_queue_head s with
  | None =>
      upd_proc proc (set_status READY) ;;;
      upd_proc proc (set_queue_next None) ;;;
      modify (set_ready_queue_head (Some proc)) ;;;
      rq_release
  | Some h =>
      let* o := rq_last (S NPROC) h proc in
      match o with
      | None => rq_release
      | Some p =>
          upd_proc p (set_queue_next (Some proc)) ;;;
          upd_proc proc (set_status READY) ;;;
          upd_proc proc (set_queue_next None) ;;;
          rq_release
      end
  end.

(** One turn of the loop of [schedule] on hart [tp]: it switches to the first
    ready process, or shuts down, or waits for an interrupt ([Wfi]) and then
    starts again. *)
Definition schedule (tp : nat) : M kstate unit :=
  rq_init_once ;;;
  rq_acquire ;;;
  let* s := get in
  match ready_queue_head s with
  | Some p =>
      set_current_at tp (Some p) ;;;
      let* x := get_proc p in
      modify (set_ready_queue_head (queue_next x)) ;;;
      upd_proc p (set_queue_next None) ;;;
      upd_proc p (set_status RUNNING) ;;;
      rq_release ;;;
      switch_to tp (Some p)
  | None =>
      rq_release ;;;
      let* s1 := get in
      if all_process_done s1
      then if bool_decide (tp = 0%nat) then halt (Shutdown 0) else halt Wfi
      else halt Wfi
  end.

(** [if (parent && parent->status == BLOCKED) { ... }] of [sys_user_exit] and
    [kill_current_process]. *)
Definition wake_parent (par : option nat) : M kstate unit :=
  match par with
  | None => ret tt
  | Some q =>
      let* y := get_proc q in
      when (bool_decide (status y = BLOCKED))
        (upd_proc q (set_status READY) ;;; insert_to_ready_queue q)
  end.

Definition kill_current_process (tp : nat) (reason : string) (code : Z) : M kstate unit :=
  let* p := self tp in
  let* x := get_proc p in
  let* _ := free_process p in
  wake_parent (parent x) ;;;
  schedule tp.

(** A function of vmm.c that may call [kill_current_process], on hart [tp]. *)
Definition vm_call {A} (tp : nat) (dflt : A) (c : M pstate A) : M kstate A :=
  fun s => match on_pm c s with
           | Stop (Kill r code) s' => (kill_current_process tp r code ;;; ret dflt) s'
           | o => o
           end.

(** ** System calls and the timer *)

Definition sys_user_exit (tp : nat) (code : Z) : M kstate Z :=
  let* p := self tp in
  let* x := get_proc p in
  let* _ := free_process p in
  wake_parent (parent x) ;;;
  schedule tp ;;;
  ret 0.

Definition sys_user_yield (tp : nat) : M kstate Z :=
  let* p := self tp in
  upd_proc p (set_status READY) ;;;
  insert_to_ready_queue p ;;;
  schedule tp ;;;
  ret 0.

Definition rrsched (tp : nat) : M kstate unit :=
  let* p := self tp in
  upd_proc p (fun x => set_tick_count (tick_count x + 1) x) ;;;
  let* x := get_proc p in
  when (TIME_SLICE_LEN <=? tick_count x)
    (upd_proc p (set_tick_count 0) ;;;
     upd_proc p (set_status READY) ;;;
     insert_to_ready_queue p ;;;
     schedule tp).

(** The scan of [sys_user_wait] for a terminated child, from index [i]. *)
Fixpoint find_zombie (ps : list process) (i : nat) (c : option nat) : option nat :=
  match ps with
  | [] => None
  | x :: ps' =>
      if bool_decide (parent x = c) && bool_decide (status x = ZOMBIE) then Some i
      else find_zombie ps' (S i) c
  end.

Definition block_and_schedule (tp : nat) : M kstate unit :=
  let* p := self tp in
  upd_proc p (set_status BLOCKED) ;;;
  schedule tp.

(** [fuel] bounds the turns of the loops of [sys_user_wait]; as [schedule] does
    not come back, one turn is all that is ever executed. *)
Fixpoint wait_any (fuel : nat) (tp : nat) : M kstate Z :=
  match fuel with
  | O => halt OutOfFuel
  | S f =>
      let* s := get in
      let* c := get_current tp in
      match find_zombie (procs s) 0 c with
      | Some i =>
          let* x := get_proc i in
          let* _ := free_process i in
          ret (i32 (pid x))
      | None => block_and_schedule tp ;;; wait_any f tp
      end
  end.

Fixpoint wait_pid (fuel : nat) (tp : nat) (i : nat) : M kstate Z :=
  match fuel with
  | O => halt OutOfFuel
  | S f =>
      let* x := get_proc i in
      if bool_decide (status x = ZOMBIE)
      then let* _ := free_process i in ret (Z.of_nat i)
      else
        block_and_schedule tp ;;;
        let* x1 := get_proc i in
        let* c1 := get_current tp in
        if negb (bool_decide (parent x1 = c1)) || bool_decide (status x1 = FREE)
        then ret (-1) else wait_pid f tp i
  end.

Definition sys_user_wait (tp : nat) (p : Z) : M kstate Z :=
  if p =? -1 then wait_any 2 tp else
  if (p <? 0) || (Z.of_nat NPROC <=? p) then ret (-1) else
  let* x := get_proc (Z.to_nat p) in
  let* c := get_current tp in
  if negb (bool_decide (parent x = c)) then ret (-1) else
  wait_pid 2 tp (Z.to_nat p).

(** ** Semaphores *)

Definition get_sem (sid : nat) : M kstate semaphore :=
  fun s => match sem_table s !! sid with
           | Some x => Ret x s
           | None => Stop (UB "sem_table out of range") s
           end.
Definition put_sem (sid : nat) (x : semaphore) : M kstate unit :=
  modify (fun s => set_sem_table (<[sid := x]> (sem_table s)) s).

Fixpoint first_unused (l : list semaphore) (i : nat) : option nat :=
  match l with
  | [] => None
  | x :: l' => if ifuse x =? 0 then Some i else first_unused l' (S i)
  end.

Definition do_semNew (init_val : Z) : M kstate Z :=
  let* s := get in
  match first_unused (sem_table s) 0 with
  | Some i => put_sem i (mkSem 1 (i32 init_val) None) ;;; ret (Z.of_nat i)
  | None => ret (-1)
  end.

(** [while (p->queue_next != NULL) p = p->queue_next;] *)
Fixpoint queue_end (fuel : nat) (p : nat) : M kstate nat :=
  match fuel with
  | O => halt OutOfFuel
  | S f =>
      let* x := get_proc p in
      match queue_next x with Some n => queue_end f n | None => ret p end
  end.

(** [sid >= NSEM || sem_table[sid].ifuse == 0] *)
Definition bad_sid (s : kstate) (sid : Z) : bool :=
  (Z.of_nat NSEM <=? sid) ||
  match sem_table s !! Z.to_nat sid with Some x => ifuse x =? 0 | None => true end.

(** The part of [do_semP] that puts the process at the end of the wait queue. *)
Definition sem_enqueue (i : nat) (sem : semaphore) (p : nat) : M kstate unit :=
  upd_proc p (set_queue_next None) ;;;
  match wait_queue sem with
  | None => put_sem i (mkSem (ifuse sem) (value sem) (Some p))
  | Some h => let* e := queue_end (S NPROC) h in upd_proc e (set_queue_next (Some p))
  end ;;;
  upd_proc p (set_status BLOCKED).

Definition do_semP (tp : nat) (sid : Z) : M kstate unit :=
  let* s := get in
  if bad_sid s sid then kill_current_process tp "do_semP: invalid sid" (-1) else
  let i := Z.to_nat sid in
  let* sem := get_sem i in
  if 0 <? value sem then put_sem i (mkSem (ifuse sem) (value sem - 1) (wait_queue sem)) else
  let* p := self tp in
  sem_enqueue i sem p ;;;
  schedule tp.

Definition do_semV (tp : nat) (sid : Z) : M kstate unit :=
  let* s := get in
  if bad_sid s sid then kill_current_process tp "do_semV: invalid sid" (-1) else
  let i := Z.to_nat sid in
  let* sem := get_sem i in
  check (value sem =? 2147483647) (UB "signed overflow of sem->value") ;;;
  put_sem i (mkSem (ifuse sem) (value sem + 1) (wait_queue sem)) ;;;
  match wait_queue sem with
  | None => ret tt
  | Some p =>
      let* x := get_proc p in
      put_sem i (mkSem (ifuse sem) (value sem + 1) (queue_next x)) ;;;
      upd_proc p (set_queue_next None) ;;;
      put_sem i (mkSem (ifuse sem) (value sem) (queue_next x)) ;;;
      insert_to_ready_queue p
  end.

Definition sys_user_semNew (init_val : Z) : M kstate Z :=
  let* r := do_semNew init_val in ret (u64 r).
Definition sys_user_semP (tp : nat) (sid : Z) : M kstate Z := do_semP tp sid ;;; ret 0.
Definition sys_user_semV (tp : nat) (sid : Z) : M kstate Z := do_semV tp sid ;;; ret 0.

End Operations.

(** ** Linked queues *)

(** [chain ps h l]: following [queue_next] from [h] visits [l] and ends in [NULL]. *)
Fixpoint chain (ps : list process) (h : option nat) (l : list nat) : Prop :=
  match l with
  | [] => h = None
  | p :: l' => h = Some p /\ exists x, ps !! p = Some x /\ chain ps (queue_next x) l'
  end.

(** A process without its link. *)
Definition core (x : process) : process := set_queue_next None x.
Definition cores (s : kstate) : list process := core <$> procs s.

(** Which queues the links of [s] spell out: [q] is the ready queue and [w i]
    the wait queue of semaphore [i]. *)
Record links (s : kstate) (q : list nat) (w : nat -> list nat) : Prop := {
  lk_np : length (procs s) = NPROC;
  lk_ns : length (sem_table s) = NSEM;
  lk_lock : rq_lock s = SPIN_LOCK_FREE;
  lk_rq : chain (procs s) (ready_queue_head s) q;
  lk_wq : forall i x, sem_table s !! i = Some x -> chain (procs s) (wait_queue x) (w i);
  lk_wout : forall i, sem_table s !! i = None -> w i = [];
  lk_nodup : NoDup q;
  lk_wnodup : forall i, NoDup (w i);
  lk_disj : forall i p, p ∈ q -> p ∉ w i;
  lk_wdisj : forall i j p, i <> j -> p ∈ w i -> p ∉ w j
}.

(** Everything but the process table and the ready queue is unchanged. *)
Record same_rest (s s' : kstate) : Prop := {
  sr_pm : pm s' = pm s;
  sr_sem : sem_table s' = sem_table s;
  sr_current : current s' = current s;
  sr_csrs : csrs s' = csrs s;
  sr_ticks : g_ticks s' = g_ticks s
}.

Lemma same_rest_trans s1 s2 s3 : same_rest s1 s2 -> same_rest s2 s3 -> same_rest s1 s3.
Proof. intros [] []. split; congruence. Qed.

Lemma chain_elem ps h l p : chain ps h l -> p ∈ l -> exists x, ps !! p = Some x.
Proof.
  revert h. induction l as [|a l IH]; intros h Hc Hp; [by apply not_elem_of_nil in Hp|].
  destruct Hc as (-> & x & Hx & Hc). apply elem_of_cons in Hp as [->|Hp]; eauto.
Qed.

Lemma chain_length ps h l : chain ps h l -> NoDup l -> (length l <= length ps)%nat.
Proof.
  intros Hc Hn. rewrite <- (length_seq (length ps) 0). apply submseteq_length.
  apply NoDup_submseteq; [done|]. intros p Hp.
  destruct (chain_elem _ _ _ _ Hc Hp) as [x Hx]. apply elem_of_seq.
  apply lookup_lt_Some in Hx. lia.
Qed.

Lemma chain_insert_out ps h l p x : p ∉ l -> chain ps h l -> chain (<[p := x]> ps) h l.
Proof.
  revert h. induction l as [|a l IH]; intros h Hp Hc; [done|].
  apply not_elem_of_cons in Hp as [? ?]. destruct Hc as (-> & y & Hy & Hc). split; [done|].
  exists y. rewrite list_lookup_insert_ne by done. auto.
Qed.

Lemma chain_insert_keep ps h l p x y :
  ps !! p = Some x -> queue_next y = queue_next x -> chain ps h l -> chain (<[p := y]> ps) h l.
Proof.
  intros Hx Hq. revert h. induction l as [|a l IH]; intros h Hc; [done|].
  destruct Hc as (-> & z & Hz & Hc). split; [done|].
  destruct (decide (a = p)) as [->|Hne].
  - exists y. rewrite list_lookup_insert_eq by by eapply lookup_lt_Some.
    split; [done|]. rewrite Hq. assert (x = z) as -> by congruence. auto.
  - exists z. rewrite list_lookup_insert_ne by done. auto.
Qed.

(** Linking a process after the last one of a queue. *)
Lemma chain_snoc ps h l e n x y :
  chain ps h (l ++ [e]) -> NoDup (l ++ [e]) -> ps !! e = Some x ->
  ps !! n = Some y -> queue_next y = None -> n <> e ->
  chain (<[e := set_queue_next (Some n) x]> ps) h (l ++ [e] ++ [n]).
Proof.
  revert h. induction l as [|a l IH]; intros h Hc Hn Hx Hy Hq Hne.
  - destruct Hc as (-> & z & _ & _). cbn. split; [done|].
    exists (set_queue_next (Some n) x).
    rewrite list_lookup_insert_eq by by eapply lookup_lt_Some.
    split; [done|]. split; [done|]. exists y. by rewrite list_lookup_insert_ne by done.
  - destruct Hc as (-> & z & Hz & Hc). cbn [app] in *. apply list.NoDup_cons in Hn as [Ha Hn].
    split; [done|]. exists z. rewrite list_lookup_insert_ne.
    + split; [done|]. by apply IH.
    + intros ->. apply Ha, elem_of_app. right. by apply list_elem_of_singleton.
Qed.

Lemma chain_last ps h l e : chain ps h (l ++ [e]) -> exists x, ps !! e = Some x /\ queue_next x = None.
Proof.
  revert h. induction l as [|a l IH]; intros h Hc; destruct Hc as (_ & z & Hz & Hc); eauto.
Qed.

Lemma cores_lookup s p x : procs s !! p = Some x -> cores s !! p = Some (core x).
Proof. intros Hx. unfold cores. by rewrite list_lookup_fmap, Hx. Qed.

Lemma cores_upd s p x y :
  procs s !! p = Some x -> core <$> (<[p := y]> (procs s)) = <[p := core y]> (cores s).
Proof. intros _. unfold cores. by rewrite list_fmap_insert. Qed.

(** ** The primitive steps on the queues *)

Lemma get_proc_run s p x : procs s !! p = Some x -> get_proc p s = Ret x s.
Proof. intros Hx. unfold get_proc. by rewrite Hx. Qed.

Lemma upd_proc_run s p x f :
  procs s !! p = Some x -> upd_proc p f s = Ret tt (set_procs (<[p := f x]> (procs s)) s).
Proof. intros Hx. unfold upd_proc. by rewrite Hx. Qed.

(** Run the first step of a sequence with the lemma that says what it returns. *)
Ltac step_by lem := erewrite bind_Ret; [|lem]; cbv beta iota.
Ltac step_get H := step_by ltac:(apply get_proc_run; exact H).
Ltac step_upd H := step_by ltac:(apply upd_proc_run; exact H).

Lemma links_view s s' q w :
  links s q w -> procs s' = procs s -> sem_table s' = sem_table s -> rq_lock s' = rq_lock s ->
  ready_queue_head s' = ready_queue_head s -> links s' q w.
Proof. intros [] H1 H2 H3 H4. split; rewrite ?H1, ?H2, ?H3, ?H4; auto. Qed.

(** A change of one process that keeps its link keeps all the queues. *)
Lemma links_upd s q w p x y :
  links s q w -> procs s !! p = Some x -> queue_next y = queue_next x ->
  links (set_procs (<[p := y]> (procs s)) s) q w.
Proof.
  intros [] Hx Hy. split; cbn; auto.
  - by rewrite length_insert.
  - by eapply chain_insert_keep.
  - intros. eapply chain_insert_keep; eauto.
Qed.

(** The state after [rq_init_once]. *)
Definition inited (s : kstate) : kstate :=
  if rq_lock_inited s =? 0 then set_rq_lock_inited 1 (set_rq_lock SPIN_LOCK_FREE s) else s.

Lemma rq_init_once_run s : rq_init_once s = Ret tt (inited s).
Proof. unfold rq_init_once, inited, bind, get, when. by destruct (rq_lock_inited s =? 0). Qed.

Lemma inited_inited s : inited (inited s) = inited s.
Proof. unfold inited. by destruct (rq_lock_inited s =? 0) eqn:E; cbn; rewrite ?E. Qed.

Lemma inited_ne s : rq_lock_inited (inited s) <> 0.
Proof. unfold inited. destruct (rq_lock_inited s =? 0) eqn:E; cbn; bsplit; lia. Qed.

Lemma inited_view s :
  procs (inited s) = procs s /\ ready_queue_head (inited s) = ready_queue_head s /\
  same_rest s (inited s).
Proof. unfold inited. by destruct (rq_lock_inited s =? 0). Qed.

Lemma links_inited s q w : links s q w -> links (inited s) q w.
Proof. intros []. unfold inited. destruct (rq_lock_inited s =? 0); by split. Qed.

(** The search of [insert_to_ready_queue] on a well-formed queue. *)
Lemma rq_last_run s h l e p fuel :
  chain (procs s) (Some h) (l ++ [e]) -> p ∉ l ++ [e] -> (length l < fuel)%nat ->
  rq_last fuel h p s = Ret (Some e) s.
Proof.
  revert h fuel. induction l as [|a l IH]; intros h fuel Hc Hp Hf;
    destruct Hc as ([= <-] & x & Hx & Hc); (destruct fuel; [cbn in Hf; lia|]);
    cbn [rq_last]; rewrite (bind_Ret _ _ _ _ _ (get_proc_run _ _ _ Hx)).
  - cbn in Hc. rewrite Hc. rewrite bool_decide_eq_false_2; [done|].
    intros ->. apply Hp. by apply list_elem_of_here.
  - cbn [app] in Hp. apply not_elem_of_cons in Hp as [Hne Hp].
    destruct (queue_next x) as [n|] eqn:En.
    + rewrite bool_decide_eq_false_2 by congruence. apply IH; [done|done|cbn in Hf; lia].
    + by destruct l; destruct Hc.
Qed.

Lemma rq_last_found s h l p fuel :
  chain (procs s) (Some h) l -> p ∈ l -> (length l <= fuel)%nat ->
  rq_last fuel h p s = Ret None s.
Proof.
  revert h fuel. induction l as [|a l IH]; intros h fuel Hc Hp Hf; [by apply not_elem_of_nil in Hp|].
  destruct Hc as ([= <-] & x & Hx & Hc). destruct fuel; [cbn in Hf; lia|].
  cbn [rq_last]. rewrite (bind_Ret _ _ _ _ _ (get_proc_run _ _ _ Hx)).
  destruct (decide (h = p)) as [->|Hne].
  - rewrite bool_decide_eq_true_2 by done. by destruct (queue_next x).
  - apply elem_of_cons in Hp as [->|Hp]; [done|]. rewrite bool_decide_eq_false_2 by done.
    destruct (queue_next x) as [n|] eqn:En; [|by destruct l; [apply not_elem_of_nil in Hp|destruct Hc]].
    apply IH; [done|done|cbn in Hf; lia].
Qed.

Lemma queue_end_run s h l e fuel :
  chain (procs s) (Some h) (l ++ [e]) -> (length l < fuel)%nat -> queue_end fuel h s = Ret e s.
Proof.
  revert h fuel. induction l as [|a l IH]; intros h fuel Hc Hf;
    destruct Hc as ([= <-] & x & Hx & Hc); (destruct fuel; [cbn in Hf; lia|]);
    cbn [queue_end]; rewrite (bind_Ret _ _ _ _ _ (get_proc_run _ _ _ Hx)).
  - cbn in Hc. by rewrite Hc.
  - destruct (queue_next x) as [n|] eqn:En; [|by destruct l; destruct Hc].
    apply IH; [done|cbn in Hf; lia].
Qed.

(** The process table after [y], the new content of [p], is linked behind [q]. *)
Definition linked (ps : list process) (q : list nat) (p : nat) (y : process) : list process :=
  let ps' := <[p := y]> ps in
  match list.last q with
  | None => ps'
  | Some e => match ps !! e with
              | Some z => <[e := set_queue_next (Some p) z]> ps'
              | None => ps'
              end
  end.

Lemma linked_cores s q p y :
  p ∉ q -> core <$> linked (procs s) q p y = <[p := core y]> (cores s).
Proof.
  intros Hp. unfold linked.
  assert (Hc : core <$> <[p := y]> (procs s) = <[p := core y]> (cores s))
    by by rewrite list_fmap_insert.
  destruct (list.last q) as [e|] eqn:El; [|done]. destruct (procs s !! e) as [z|] eqn:Ez; [|done].
  rewrite list_fmap_insert, Hc. apply list_insert_id. rewrite list_lookup_insert_ne.
  - by rewrite (cores_lookup _ _ _ Ez).
  - intros ->. apply Hp. apply last_Some in El as [l ->]. apply elem_of_app. right.
    by apply list_elem_of_singleton.
Qed.

Lemma linked_chain ps h q p x y :
  chain ps h q -> NoDup q -> ps !! p = Some x -> queue_next y = None -> p ∉ q ->
  chain (linked ps q p y) (match q with [] => Some p | _ => h end) (q ++ [p]).
Proof.
  intros Hc Hn Hx Hy Hp. assert (Hlt : (p < length ps)%nat) by by eapply lookup_lt_Some.
  unfold linked. destruct (list.last q) as [e|] eqn:El.
  - apply last_Some in El as [l ->]. destruct (chain_last _ _ _ _ Hc) as (z & Hz & _). rewrite Hz.
    assert (Hne : p <> e).
    { intros ->. apply Hp, elem_of_app. right. by apply list_elem_of_singleton. }
    replace (match l ++ [e] with [] => Some p | _ => h end)
      with h by (clear; destruct l; reflexivity).
    rewrite <- app_assoc. eapply chain_snoc; [by apply chain_insert_out|done| | |exact Hy|done].
    + by rewrite list_lookup_insert_ne.
    + by apply list_lookup_insert_eq.
  - apply last_None in El as ->. cbn. split; [done|]. exists y. split; [|done].
    by apply list_lookup_insert_eq.
Qed.

Lemma linked_out ps q p y h l :
  p ∉ l -> (forall r, r ∈ l -> r ∉ q) -> chain ps h l -> chain (linked ps q p y) h l.
Proof.
  intros Hp Hd Hc. unfold linked.
  assert (chain (<[p := y]> ps) h l) by by apply chain_insert_out.
  destruct (list.last q) as [e|] eqn:El; [|done]. destruct (ps !! e); [|done].
  apply chain_insert_out; [|done]. intros He. apply (Hd _ He).
  apply last_Some in El as [k ->]. apply elem_of_app. right. by apply list_elem_of_singleton.
Qed.

Lemma linked_length ps q p y : length (linked ps q p y) = length ps.
Proof.
  unfold linked. destruct (list.last q) as [e|]; [destruct (ps !! e)|]; by rewrite ?length_insert.
Qed.

Definition enqueued (s : kstate) (q : list nat) (p : nat) (x : process) : kstate :=
  set_ready_queue_head (match q with [] => Some p | _ => ready_queue_head s end)
    (set_procs (linked (procs s) q p (set_queue_next None (set_status READY x))) s).

Lemma enqueued_links s q w p x :
  links s q w -> procs s !! p = Some x -> p ∉ q -> (forall i, p ∉ w i) ->
  links (enqueued s q p x) (q ++ [p]) w.
Proof.
  intros Hl Hx Hq Hw.
  pose proof (linked_chain _ _ _ _ _ (set_queue_next None (set_status READY x))
    (lk_rq _ _ _ Hl) (lk_nodup _ _ _ Hl) Hx eq_refl Hq) as Hc.
  split; cbn [enqueued procs sem_table rq_lock ready_queue_head set_ready_queue_head set_procs];
    try apply Hl; auto.
  - rewrite linked_length. apply Hl.
  - intros i y Hy. apply linked_out; auto; [|by apply (lk_wq _ _ _ Hl)].
    intros r Hr' Hrq. by apply (lk_disj _ _ _ Hl i r).
  - apply list.NoDup_app. split; [apply Hl|]. split; [|apply list.NoDup_singleton].
    intros r Hr' ->%list_elem_of_singleton. done.
  - intros i r [Hr'| ->%list_elem_of_singleton]%elem_of_app; [by apply Hl|done].
Qed.

(** The lock is free again at the end, so taking it leaves no trace. *)
Lemma relock s v : rq_lock s = SPIN_LOCK_FREE -> set_rq_lock SPIN_LOCK_FREE (set_rq_lock v s) = s.
Proof. destruct s. cbn. by intros ->. Qed.

Lemma insert_exec s q w p x :
  links s q w -> procs s !! p = Some x -> status x <> ZOMBIE -> status x <> FREE -> p ∉ q ->
  rq_lock_inited s <> 0 -> insert_to_ready_queue p s = Ret tt (enqueued s q p x).
Proof.
  intros Hl Hx Hz Hf Hq Hi. pose proof (lk_lock _ _ _ Hl) as Hlock.
  pose proof (chain_length _ _ _ (lk_rq _ _ _ Hl) (lk_nodup _ _ _ Hl)) as Hn.
  rewrite (lk_np _ _ _ Hl) in Hn.
  set (sh := set_rq_lock SPIN_LOCK_HELD s). unfold insert_to_ready_queue.
  step_by ltac:(unfold rq_init_once, bind, get; rewrite (proj2 (Z.eqb_neq _ _) Hi); reflexivity).
  step_by ltac:(unfold rq_acquire; rewrite Hlock; reflexivity). fold sh.
  step_get Hx. rewrite !bool_decide_eq_false_2 by done. cbn [orb]. unfold bind at 1. cbn [get].
  change (ready_queue_head sh) with (ready_queue_head s). pose proof (lk_rq _ _ _ Hl) as Hc.
  unfold enqueued, linked. destruct (list.last q) as [e|] eqn:El.
  - apply last_Some in El as [l ->]. destruct (chain_last _ _ _ _ Hc) as (y & Hy & _). rewrite Hy.
    assert (Hne : p <> e).
    { intros ->. apply Hq, elem_of_app. right. by apply list_elem_of_singleton. }
    destruct (ready_queue_head s) as [h|] eqn:Eh; [|by destruct l; destruct Hc].
    step_by ltac:(apply (rq_last_run sh h l e); [exact Hc|exact Hq|rewrite length_app in Hn; cbn in Hn; lia]).
    step_upd Hy.
    step_by ltac:(apply upd_proc_run; cbn; rewrite list_lookup_insert_ne by done; exact Hx).
    step_by ltac:(apply upd_proc_run; cbn; apply list_lookup_insert_eq;
                  rewrite length_insert; by eapply lookup_lt_Some).
    cbn. rewrite list_insert_insert_eq. rewrite (list_insert_insert_ne _ e p) by done.
    unfold sh, rq_release, modify. f_equal. clear -Hlock Eh. destruct s; cbn in *. subst.
    by destruct l.
  - apply last_None in El as ->. cbn in Hc. rewrite Hc. step_upd Hx.
    step_by ltac:(apply upd_proc_run; cbn; apply list_lookup_insert_eq; by eapply lookup_lt_Some).
    cbn. rewrite list_insert_insert_eq. unfold rq_release, modify. f_equal.
    clear -Hlock. destruct s; cbn in *. by subst.
Qed.

Lemma insert_inited p s : insert_to_ready_queue p s = insert_to_ready_queue p (inited s).
Proof.
  unfold insert_to_ready_queue. step_by ltac:(apply rq_init_once_run). symmetry.
  step_by ltac:(apply rq_init_once_run). by rewrite inited_inited.
Qed.

(** [insert_to_ready_queue] appends a process that is in no queue. *)
Lemma insert_run s q w p x :
  links s q w -> procs s !! p = Some x -> status x <> ZOMBIE -> status x <> FREE ->
  p ∉ q -> (forall i, p ∉ w i) ->
  exists s', insert_to_ready_queue p s = Ret tt s' /\ links s' (q ++ [p]) w /\
    cores s' = <[p := core (set_status READY x)]> (cores s) /\ same_rest s s'.
Proof.
  intros Hl Hx Hz Hf Hq Hw. destruct (inited_view s) as (Hps & _ & Hr).
  assert (Hx' : procs (inited s) !! p = Some x) by congruence.
  exists (enqueued (inited s) q p x). split; [|split; [|split]].
  - rewrite insert_inited. eapply insert_exec; eauto using links_inited, inited_ne.
  - by apply enqueued_links; auto using links_inited.
  - unfold cores at 1. cbn. rewrite (linked_cores _ _ _ _ Hq). unfold cores. by rewrite Hps.
  - destruct Hr. by split.
Qed.

(** A process that is queued already, or that is over, is left alone. *)
Lemma insert_idle s q w p x :
  links s q w -> procs s !! p = Some x -> p ∈ q \/ status x = ZOMBIE \/ status x = FREE ->
  insert_to_ready_queue p s = Ret tt (inited s).
Proof.
  intros Hl0 Hx0 Hor. rewrite insert_inited. pose proof (links_inited _ _ _ Hl0) as Hl.
  destruct (inited_view s) as (Hps & _ & _). assert (Hx : procs (inited s) !! p = Some x) by congruence.
  pose proof (chain_length _ _ _ (lk_rq _ _ _ Hl) (lk_nodup _ _ _ Hl)) as Hn.
  rewrite (lk_np _ _ _ Hl) in Hn. pose proof (lk_lock _ _ _ Hl) as Hlock.
  unfold insert_to_ready_queue. step_by ltac:(apply rq_init_once_run). rewrite inited_inited.
  step_by ltac:(unfold rq_acquire; rewrite Hlock; reflexivity). step_get Hx.
  destruct (_ || _) eqn:Eb; [unfold rq_release, modify; by rewrite relock|].
  apply orb_false_iff in Eb as [E1 E2]. apply bool_decide_eq_false in E1, E2.
  destruct Hor as [Hq|[?|?]]; [|done..]. unfold bind at 1. cbn [get].
  change (ready_queue_head (set_rq_lock SPIN_LOCK_HELD (inited s))) with (ready_queue_head (inited s)).
  pose proof (lk_rq _ _ _ Hl) as Hc.
  destruct (ready_queue_head (inited s)) as [h|].
  - step_by ltac:(apply (rq_last_found (set_rq_lock SPIN_LOCK_HELD (inited s)) h q); [exact Hc|exact Hq|lia]).
    unfold rq_release, modify. by rewrite relock.
  - destruct q; [by apply not_elem_of_nil in Hq|by destruct Hc].
Qed.

(** ** Leaving the kernel *)

Section Switch.
Context `{Linker}.

(** The state in which [switch_to] executes [sret]. *)
Definition switched (tp p : nat) (x : process) (c : csr) (s : kstate) : kstate :=
  let tf := trapframe x in
  let m := <[tf + TF_tp := Z.of_nat tp]> (<[tf + TF_kernel_trap := smode_trap_handler_addr]>
           (<[tf + TF_kernel_satp := satp c]> (<[tf + TF_kernel_sp := kstack x]> (mem (pm s))))) in
  let c' := mkCsr smode_trap_vector (Z.ldiff (sstatus c) SSTATUS_SPP .| SSTATUS_SPIE)
                  (rd (mem (pm s)) (tf + TF_epc)) (MAKE_SATP (pagetable x))
                  (scause c) (stval c) (sip c) in
  set_csrs (<[tp := c']> (csrs s))
    (set_pm (set_mem m (pm s)) (set_current (<[tp := Some p]> (current s)) s)).

Lemma table_page_word t o : table_page t -> 0 <= o < PGSIZE -> o mod 8 = 0 -> addr_ok (t + o) = true.
Proof.
  intros (Ha & Hlo & Hhi) Ho Hm. unfold addr_ok. kconst.
  rewrite !andb_true_iff, !Z.leb_le, Z.eqb_eq. repeat split; klia.
Qed.

Lemma on_pm_store a v s :
  addr_ok a = true -> on_pm (store a v) s = Ret tt (set_pm (set_mem (<[a := v]> (mem (pm s))) (pm s)) s).
Proof. intros Ha. unfold on_pm, zoom, store. by rewrite Ha. Qed.

Lemma on_pm_load a s : addr_ok a = true -> on_pm (load a) s = Ret (rd (mem (pm s)) a) (set_pm (pm s) s).
Proof. intros Ha. unfold on_pm, zoom, load. by rewrite Ha. Qed.

Lemma get_csr_run tp c s : csrs s !! tp = Some c -> get_csr tp s = Ret c s.
Proof. intros Hc. unfold get_csr. by rewrite Hc. Qed.

Lemma upd_csr_run tp c f s :
  csrs s !! tp = Some c -> upd_csr tp f s = Ret tt (set_csrs (<[tp := f c]> (csrs s)) s).
Proof. intros Hc. unfold upd_csr. by step_by ltac:(apply get_csr_run; exact Hc). Qed.

Lemma switch_to_run tp p x c s :
  procs s !! p = Some x -> table_page (trapframe x) -> csrs s !! tp = Some c ->
  switch_to tp (Some p) s = Stop (Resume p) (switched tp p x c s).
Proof.
  intros Hx Htf Hc. assert (Hlt : (tp < length (csrs s))%nat) by by eapply lookup_lt_Some.
  assert (Hok : forall o, 0 <= o < PGSIZE -> o mod 8 = 0 -> addr_ok (trapframe x + o) = true)
    by (intros; by apply table_page_word).
  unfold switch_to. step_by ltac:(reflexivity). step_by ltac:(reflexivity). step_by ltac:(reflexivity).
  step_by ltac:(apply upd_csr_run; exact Hc). step_get Hx.
  step_by ltac:(apply on_pm_store, Hok; [cbv; split; congruence|reflexivity]).
  step_by ltac:(apply get_csr_run; cbn; by apply list_lookup_insert_eq).
  do 3 step_by ltac:(apply on_pm_store, Hok; [cbv; split; congruence|reflexivity]).
  step_by ltac:(apply upd_csr_run; cbn; by apply list_lookup_insert_eq).
  step_by ltac:(apply on_pm_load, Hok; [cbv; split; congruence|reflexivity]).
  do 2 step_by ltac:(apply upd_csr_run; cbn; apply list_lookup_insert_eq; by rewrite ?length_insert).
  unfold halt, switched. cbn. rewrite !list_insert_insert_eq.
  rewrite !rd_insert_ne by (unfold TF_epc, TF_tp, TF_kernel_trap, TF_kernel_satp, TF_kernel_sp; lia).
  reflexivity.
Qed.

End Switch.

(** ** The scheduler invariant

    [run] says which process each hart executes in user mode ([None]: the hart
    is in the kernel, in the loop of [schedule]).  It is derived from how the
    last handler of the hart ended, and is not kept in memory: [current[h]] of
    a hart that waits still names the process it ran last. *)
Record run_ok (s : kstate) (run : list (option nat)) : Prop := {
  ro_len : length run = NCPU;
  ro_ncur : length (current s) = NCPU;
  ro_ncsr : length (csrs s) = NCPU;
  ro_cur : forall h p, run !! h = Some (Some p) -> current s !! h = Some (Some p);
  ro_one : forall h h' p, run !! h = Some (Some p) -> run !! h' = Some (Some p) -> h = h'
}.

Definition runs (run : list (option nat)) (p : nat) : Prop := exists h, run !! h = Some (Some p).

Record sched_inv (s : kstate) (run : list (option nat)) (q : list nat) (w : nat -> list nat)
  : Prop := {
  si_links : links s q w;
  si_run_ok : run_ok s run;
  si_exists : forall p, runs run p -> exists c, cores s !! p = Some c;
  si_ready : forall p c, cores s !! p = Some c -> (status c = READY <-> p ∈ q);
  si_run : forall p c, cores s !! p = Some c -> (status c = RUNNING <-> runs run p);
  si_wait : forall p c i, cores s !! p = Some c -> p ∈ w i -> status c = BLOCKED;
  si_sem : forall i m, sem_table s !! i = Some m -> ifuse m = 0 \/ 0 < value m -> w i = [];
  si_frame : forall p c, cores s !! p = Some c -> status c <> FREE -> table_page (trapframe c);
  si_parent : forall p c r, cores s !! p = Some c -> parent c = Some r -> (r < NPROC)%nat
}.

(** One process changes status, and with it the queues and the harts. *)
Lemma restatus s s1 run run1 q q1 w w1 p c c' :
  sched_inv s run q w -> cores s !! p = Some c -> cores s1 = <[p := c']> (cores s) ->
  links s1 q1 w1 -> run_ok s1 run1 -> table_page (trapframe c') -> parent c' = parent c ->
  (forall r, r <> p -> r ∈ q1 <-> r ∈ q) -> (forall r i, r <> p -> r ∈ w1 i -> r ∈ w i) ->
  (forall r, r <> p -> runs run1 r <-> runs run r) ->
  (status c' = READY <-> p ∈ q1) -> (forall i, p ∈ w1 i -> status c' = BLOCKED) ->
  (status c' = RUNNING <-> runs run1 p) ->
  (forall i m, sem_table s1 !! i = Some m -> ifuse m = 0 \/ 0 < value m -> w1 i = []) ->
  sched_inv s1 run1 q1 w1.
Proof.
  intros Hi Hc Hcs Hl Hro Htf Hpar Hq Hw Hrun Hrdy Hwt Hrn Hsem.
  assert (Hp : cores s1 !! p = Some c').
  { rewrite Hcs. apply list_lookup_insert_eq. by eapply lookup_lt_Some. }
  assert (Ho : forall r, r <> p -> cores s1 !! r = cores s !! r).
  { intros r Hr. rewrite Hcs. by apply list_lookup_insert_ne. }
  split; try done.
  - intros r Hr. destruct (decide (r = p)) as [->|Hne]; [eauto|]. rewrite Ho by done.
    apply (si_exists _ _ _ _ Hi). by apply Hrun.
  - intros r d Hd. destruct (decide (r = p)) as [->|Hne]; [by simplify_eq|].
    rewrite Ho in Hd by done. rewrite Hq by done. by apply (si_ready _ _ _ _ Hi).
  - intros r d Hd. destruct (decide (r = p)) as [->|Hne]; [by simplify_eq|].
    rewrite Ho in Hd by done. rewrite Hrun by done. by apply (si_run _ _ _ _ Hi).
  - intros r d i Hd Hin. destruct (decide (r = p)) as [->|Hne]; [simplify_eq; eauto|].
    rewrite Ho in Hd by done. eapply (si_wait _ _ _ _ Hi); eauto.
  - intros r d Hd Hs. destruct (decide (r = p)) as [->|Hne]; [by simplify_eq|].
    rewrite Ho in Hd by done. by eapply (si_frame _ _ _ _ Hi).
  - intros r d k Hd Hk. destruct (decide (r = p)) as [->|Hne].
    + simplify_eq. rewrite Hpar in Hk. by eapply (si_parent _ _ _ _ Hi).
    + rewrite Ho in Hd by done. by eapply (si_parent _ _ _ _ Hi).
Qed.

Lemma run_ok_stop s run h : run_ok s run -> run_ok s (<[h := None]> run).
Proof.
  intros []. split; try done.
  - by rewrite length_insert.
  - intros h' p Hr. apply ro_cur0. destruct (decide (h = h')) as [->|Hne].
    + apply list_lookup_insert_Some in Hr as [(_ & ? & _)|(? & _)]; done.
    + by rewrite list_lookup_insert_ne in Hr.
  - intros h1 h2 p H1 H2.
    apply list_lookup_insert_Some in H1 as [(_ & ? & _)|(_ & H1)]; [done|].
    apply list_lookup_insert_Some in H2 as [(_ & ? & _)|(_ & H2)]; [done|]. eauto.
Qed.

Lemma run_ok_same s s' run :
  run_ok s run -> current s' = current s -> length (csrs s') = length (csrs s) -> run_ok s' run.
Proof. intros [] Hc Hn. split; rewrite ?Hc, ?Hn; auto. Qed.

Lemma runs_stop s run h p r :
  run_ok s run -> run !! h = Some (Some p) -> runs (<[h := None]> run) r <-> r <> p /\ runs run r.
Proof.
  intros Ho Hp. split.
  - intros [h' Hr]. apply list_lookup_insert_Some in Hr as [(_ & ? & _)|(Hne & Hr)]; [done|].
    split; [|by exists h']. intros ->. apply Hne. by eapply (ro_one _ _ Ho).
  - intros [Hne [h' Hr]]. exists h'. rewrite list_lookup_insert_ne; [done|]. intros ->. congruence.
Qed.

Lemma run_ok_start s s' run h p :
  run_ok s run -> run !! h = Some None -> ~ runs run p ->
  current s' = <[h := Some p]> (current s) -> length (csrs s') = length (csrs s) ->
  run_ok s' (<[h := Some p]> run).
Proof.
  intros [] Hh Hp Hc Hn. assert (h < length run)%nat by by eapply lookup_lt_Some.
  split; rewrite ?Hc, ?Hn, ?length_insert; try done.
  - intros h' r Hr. apply list_lookup_insert_Some in Hr as [(<- & [= ->] & _)|(Hne & Hr)].
    + apply list_lookup_insert_eq. lia.
    + rewrite list_lookup_insert_ne by done. auto.
  - intros h1 h2 r H1 H2.
    apply list_lookup_insert_Some in H1 as [(<- & E1 & _)|(Hn1 & H1)];
    apply list_lookup_insert_Some in H2 as [(<- & E2 & _)|(Hn2 & H2)]; simplify_eq; eauto;
    exfalso; apply Hp; by eexists.
Qed.

Lemma runs_start run h p r :
  run !! h = Some None -> runs (<[h := Some p]> run) r <-> r = p \/ runs run r.
Proof.
  intros Hh. split.
  - intros [h' Hr]. apply list_lookup_insert_Some in Hr as [(_ & [= ->] & _)|(_ & Hr)]; [by left|].
    right. by exists h'.
  - intros [->|[h' Hr]].
    + exists h. apply list_lookup_insert_eq. by eapply lookup_lt_Some.
    + exists h'. rewrite list_lookup_insert_ne; [done|]. intros ->. congruence.
Qed.

Section Scheduling.
Context `{Linker}.

(** The states in which [schedule] ends: the first ready process runs. *)
Definition dequeued (s : kstate) (p : nat) (x : process) : kstate :=
  set_ready_queue_head (queue_next x)
    (set_procs (<[p := set_status RUNNING (set_queue_next None x)]> (procs s)) s).

Lemma dequeued_links s q w p x :
  links s (p :: q) w -> procs s !! p = Some x -> links (dequeued s p x) q w.
Proof.
  intros Hl Hx. pose proof (lk_rq _ _ _ Hl) as (Hh & x' & Hx' & Hc). simplify_eq.
  pose proof (lk_nodup _ _ _ Hl) as Hnd. apply list.NoDup_cons in Hnd as [Hp Hnd].
  split; cbn; try apply Hl; auto.
  - rewrite length_insert. apply Hl.
  - by apply chain_insert_out.
  - intros i m Hm. apply chain_insert_out; [|by apply Hl].
    intros Hi. apply (lk_disj _ _ _ Hl i p); [by apply list_elem_of_here|done].
  - intros i r Hr. apply (lk_disj _ _ _ Hl i r). by apply elem_of_cons; right.
Qed.

Lemma schedule_pop s q w p x c tp :
  links s (p :: q) w -> procs s !! p = Some x -> table_page (trapframe x) ->
  csrs s !! tp = Some c ->
  schedule tp s = Stop (Resume p) (switched tp p x c (dequeued (inited s) p x)).
Proof.
  intros Hl0 Hx0 Htf Hc0. pose proof (links_inited _ _ _ Hl0) as Hl.
  destruct (inited_view s) as (Hps & _ & Hr).
  assert (Hx : procs (inited s) !! p = Some x) by congruence.
  assert (Hc : csrs (inited s) !! tp = Some c) by (rewrite (sr_csrs _ _ Hr); done).
  pose proof (lk_rq _ _ _ Hl) as (Hh & _).
  unfold schedule. step_by ltac:(apply rq_init_once_run).
  step_by ltac:(unfold rq_acquire; rewrite (lk_lock _ _ _ Hl); reflexivity).
  unfold bind at 1. cbn [get]. cbn [ready_queue_head set_rq_lock]. rewrite Hh.
  step_by ltac:(reflexivity). step_get Hx. step_by ltac:(reflexivity). step_upd Hx.
  step_by ltac:(apply upd_proc_run; cbn; apply list_lookup_insert_eq; by eapply lookup_lt_Some).
  step_by ltac:(reflexivity). cbn [set_procs procs set_ready_queue_head set_current set_rq_lock].
  rewrite list_insert_insert_eq.
  rewrite (switch_to_run tp p (set_status RUNNING (set_queue_next None x)) c).
  - f_equal. pose proof (lk_lock _ _ _ Hl) as Hk. unfold switched, dequeued. clear -Hk.
    destruct (inited s). cbn in *. subst. by rewrite list_insert_insert_eq.
  - cbn. apply list_lookup_insert_eq. by eapply lookup_lt_Some.
  - done.
  - done.
Qed.

Lemma schedule_empty s w tp :
  links s [] w ->
  schedule tp s = Stop (if all_process_done s && bool_decide (tp = 0%nat) then Shutdown 0 else Wfi)
                       (inited s).
Proof.
  intros Hl0. pose proof (links_inited _ _ _ Hl0) as Hl. pose proof (lk_rq _ _ _ Hl) as Hh.
  destruct (inited_view s) as (Hps & _ & _). cbn in Hh.
  unfold schedule. step_by ltac:(apply rq_init_once_run).
  step_by ltac:(unfold rq_acquire; rewrite (lk_lock _ _ _ Hl); reflexivity).
  unfold bind at 1. cbn [get]. cbn [ready_queue_head set_rq_lock]. rewrite Hh.
  step_by ltac:(reflexivity). unfold bind. cbn [get]. rewrite (relock _ _ (lk_lock _ _ _ Hl)).
  unfold all_process_done. rewrite Hps. destruct (forallb _ _); [|done].
  by destruct (decide (tp = 0%nat)); [rewrite bool_decide_eq_true_2|rewrite bool_decide_eq_false_2].
Qed.

(** How a handler that ends in [schedule] on hart [h] leaves the machine, when
    the ready queue is [q]. *)
Inductive scheduled (h : nat) (run : list (option nat)) (q : list nat) (w : nat -> list nat)
  : stop -> kstate -> Prop :=
| sched_next p q' s' :
    q = p :: q' -> sched_inv s' (<[h := Some p]> run) q' w -> scheduled h run q w (Resume p) s'
| sched_idle s' :
    q = [] -> sched_inv s' run [] w ->
    scheduled h run q w
      (if all_process_done s' && bool_decide (h = 0%nat) then Shutdown 0 else Wfi) s'.

Lemma sched_inv_inited s run q w : sched_inv s run q w -> sched_inv (inited s) run q w.
Proof.
  intros []. destruct (inited_view s) as (Hps & _ & []).
  assert (Hcs : cores (inited s) = cores s) by (unfold cores; by rewrite Hps).
  split; rewrite ?Hcs, ?sr_sem0; auto using links_inited.
  eapply run_ok_same; eauto. by rewrite sr_csrs0.
Qed.

Lemma schedule_inv s run q w h :
  sched_inv s run q w -> run !! h = Some None ->
  exists e s', schedule h s = Stop e s' /\ scheduled h run q w e s' /\
    sem_table s' = sem_table s.
Proof.
  intros Hi Hh. pose proof (si_links _ _ _ _ Hi) as Hl. pose proof (si_run_ok _ _ _ _ Hi) as Hro.
  assert (Hlt : (h < NCPU)%nat) by (rewrite <- (ro_len _ _ Hro); by eapply lookup_lt_Some).
  destruct q as [|p q].
  - do 2 eexists. split; [by eapply schedule_empty|].
    destruct (inited_view s) as (Hps & _ & []). split; [|done].
    replace (all_process_done s) with (all_process_done (inited s))
      by (unfold all_process_done; by rewrite Hps).
    apply sched_idle; [done|by apply sched_inv_inited].
  - destruct (chain_elem _ _ _ p (lk_rq _ _ _ Hl)) as [x Hx]; [by apply list_elem_of_here|].
    pose proof (cores_lookup _ _ _ Hx) as Hcx.
    assert (Hrdy : status (core x) = READY).
    { apply (si_ready _ _ _ _ Hi p); [done|by apply list_elem_of_here]. }
    assert (Htf : table_page (trapframe x)).
    { apply (si_frame _ _ _ _ Hi p (core x)); [done|]. by rewrite Hrdy. }
    destruct (lookup_lt_is_Some_2 (csrs s) h) as [c Hc]; [by rewrite (ro_ncsr _ _ Hro)|].
    do 2 eexists. split; [by eapply schedule_pop|].
    destruct (inited_view s) as (Hps & _ & [_ Hsm Hcu Hcr _]).
    split; [|done]. eapply sched_next; [done|].
    assert (Hnr : ~ runs run p).
    { intros Hr. apply (si_run _ _ _ _ Hi p (core x)) in Hr; [|done]. congruence. }
    eapply (restatus s _ run _ (p :: q) q w w p (core x) (core (set_status RUNNING x))); eauto.
    + unfold cores. cbn. by rewrite Hps, list_fmap_insert.
    + eapply links_view; [by eapply dequeued_links; [apply links_inited|rewrite Hps]|done..].
    + eapply run_ok_start; eauto; cbn; rewrite ?Hcu, ?length_insert, ?Hcr; done.
    + intros r Hr. rewrite elem_of_cons. naive_solver.
    + intros r Hr. rewrite runs_start by done. naive_solver.
    + split; [done|]. intros Hq. exfalso.
      pose proof (lk_nodup _ _ _ Hl) as Hnd. by apply list.NoDup_cons in Hnd as [? _].
    + intros i Hw. exfalso. apply (lk_disj _ _ _ Hl i p); [by apply list_elem_of_here|done].
    + rewrite runs_start by done. naive_solver.
    + cbn. rewrite Hsm. by apply Hi.
Qed.

(** ** Parking the running process *)

Lemma park s s1 run q q1 w w1 h p c c' :
  sched_inv s run q w -> run !! h = Some (Some p) -> cores s !! p = Some c ->
  cores s1 = <[p := c']> (cores s) -> links s1 q1 w1 ->
  current s1 = current s -> length (csrs s1) = length (csrs s) ->
  trapframe c' = trapframe c -> parent c' = parent c -> status c' <> RUNNING ->
  (forall r, r <> p -> r ∈ q1 <-> r ∈ q) -> (forall r i, r <> p -> r ∈ w1 i -> r ∈ w i) ->
  (status c' = READY <-> p ∈ q1) -> (forall i, p ∈ w1 i -> status c' = BLOCKED) ->
  (forall i m, sem_table s1 !! i = Some m -> ifuse m = 0 \/ 0 < value m -> w1 i = []) ->
  sched_inv s1 (<[h := None]> run) q1 w1.
Proof.
  intros Hi Hh Hc Hcs Hl Hcu Hcr Htf Hpar Hst Hq Hw Hr Hb Hsem.
  pose proof (si_run_ok _ _ _ _ Hi) as Hro.
  assert (Hrun : status c = RUNNING) by (apply (si_run _ _ _ _ Hi p); [done|by exists h]).
  eapply restatus; eauto.
  - eapply run_ok_stop, run_ok_same; eauto.
  - rewrite Htf. apply (si_frame _ _ _ _ Hi p); [done|by rewrite Hrun].
  - intros r Hne. rewrite (runs_stop _ _ _ _ _ Hro Hh). naive_solver.
  - rewrite (runs_stop _ _ _ _ _ Hro Hh). naive_solver.
Qed.

Lemma running s run q w h p :
  sched_inv s run q w -> run !! h = Some (Some p) ->
  exists x, procs s !! p = Some x /\ status x = RUNNING /\ self h s = Ret p s /\
    cores s !! p = Some (core x) /\ p ∉ q /\ (forall i, p ∉ w i).
Proof.
  intros Hi Hh. destruct (si_exists _ _ _ _ Hi p) as [c Hc]; [by exists h|].
  pose proof Hc as Hc'. unfold cores in Hc'. rewrite list_lookup_fmap in Hc'.
  destruct (procs s !! p) as [x|] eqn:Hx; [|done]. cbn in Hc'. simplify_eq.
  assert (Hrun : status (core x) = RUNNING) by (apply (si_run _ _ _ _ Hi p); [done|by exists h]).
  exists x. split; [done|]. split; [done|]. split; [|split; [done|split]].
  - unfold self, get_current, bind. by rewrite (ro_cur _ _ (si_run_ok _ _ _ _ Hi) _ _ Hh).
  - intros Hq. apply (si_ready _ _ _ _ Hi p) in Hc. apply Hc in Hq. congruence.
  - intros i Hw. apply (si_wait _ _ _ _ Hi p _ i Hc) in Hw. congruence.
Qed.

(** A status change of the running process that keeps the queues. *)
Lemma upd_status_cores s p x f :
  procs s !! p = Some x -> (forall y, core (f y) = f (core y)) ->
  cores (set_procs (<[p := f x]> (procs s)) s) = <[p := f (core x)]> (cores s).
Proof. intros Hx Hf. unfold cores. cbn. by rewrite list_fmap_insert, Hf. Qed.

(** [current[tp]->status = READY; insert_to_ready_queue(current[tp]);] *)
Lemma requeue_run s run q w h p x f :
  sched_inv s run q w -> run !! h = Some (Some p) -> procs s !! p = Some x ->
  status (f x) = READY -> queue_next (f x) = queue_next x ->
  trapframe (f x) = trapframe x -> parent (f x) = parent x ->
  exists s1, insert_to_ready_queue p (set_procs (<[p := f x]> (procs s)) s) = Ret tt s1 /\
    sched_inv s1 (<[h := None]> run) (q ++ [p]) w /\ sem_table s1 = sem_table s.
Proof.
  intros Hi Hh Hx Hst Hqn Htf Hpar. destruct (running _ _ _ _ _ _ Hi Hh) as (x' & ? & _ & _ & Hc & Hq & Hw).
  simplify_eq. pose proof (si_links _ _ _ _ Hi) as Hl.
  set (s0 := set_procs (<[p := f x]> (procs s)) s).
  assert (Hx0 : procs s0 !! p = Some (f x)).
  { cbn. apply list_lookup_insert_eq. by eapply lookup_lt_Some. }
  destruct (insert_run s0 q w p (f x)) as (s1 & E & Hl1 & Hc1 & []); auto.
  { by eapply links_upd. } { by rewrite Hst. } { by rewrite Hst. }
  exists s1. split; [done|]. split; [|done].
  assert (Hcs : cores s1 = <[p := core (set_status READY (f x))]> (cores s)).
  { rewrite Hc1. unfold cores, s0. cbn. by rewrite list_fmap_insert, list_insert_insert_eq. }
  eapply park; eauto; cbn; try done.
  - by rewrite sr_csrs0.
  - intros r Hr. rewrite elem_of_app, list_elem_of_singleton. naive_solver.
  - rewrite elem_of_app, list_elem_of_singleton. naive_solver.
  - intros i Hi'. by apply Hw in Hi'.
  - rewrite sr_sem0. apply Hi.
Qed.

(** Ending in [schedule] after the running process was parked. *)
Lemma then_schedule {A} s run q w h p (k : M kstate A) :
  sched_inv s (<[h := None]> run) q w -> run !! h = Some (Some p) ->
  exists e s', (schedule h ;;; k) s = Stop e s' /\ scheduled h (<[h := None]> run) q w e s' /\
    sem_table s' = sem_table s.
Proof.
  intros Hi Hh. destruct (schedule_inv s (<[h := None]> run) q w h Hi) as (e & s' & E & Hs & Hm).
  { apply list_lookup_insert_eq. by eapply lookup_lt_Some. }
  exists e, s'. split; [|done]. by apply bind_Stop.
Qed.

Lemma schedule_stops h s run q w :
  sched_inv s run q w -> run !! h = Some None -> exists e s', schedule h s = Stop e s'.
Proof. intros Hi Hh. destruct (schedule_inv s run q w h Hi Hh) as (e & s' & E & _). eauto. Qed.

Lemma schedule_unit s h : (schedule h ;;; ret tt) s = schedule h s.
Proof. unfold bind. by destruct (schedule h s) as [[] ?|]. Qed.

Lemma yield_run s run q w h p :
  sched_inv s run q w -> run !! h = Some (Some p) ->
  exists e s', sys_user_yield h s = Stop e s' /\
    scheduled h (<[h := None]> run) (q ++ [p]) w e s' /\ sem_table s' = sem_table s.
Proof.
  intros Hi Hh. destruct (running _ _ _ _ _ _ Hi Hh) as (x & Hx & _ & Hself & _).
  unfold sys_user_yield. step_by ltac:(exact Hself). step_upd Hx.
  destruct (requeue_run s run q w h p x (set_status READY)) as (s1 & E & Hi1 & Hm); auto.
  step_by ltac:(exact E). rewrite <- Hm. by eapply then_schedule.
Qed.

(** Ticking without using up the slice changes nothing but the counter. *)
Lemma sched_inv_keep s s' run q w p x y :
  sched_inv s run q w -> procs s !! p = Some x ->
  s' = set_procs (<[p := y]> (procs s)) s -> queue_next y = queue_next x ->
  status y = status x -> trapframe y = trapframe x -> parent y = parent x -> sched_inv s' run q w.
Proof.
  intros Hi Hx -> Hq Hs Ht Hp. pose proof (cores_lookup _ _ _ Hx) as Hc.
  assert (Hcs : cores (set_procs (<[p := y]> (procs s)) s) = <[p := core y]> (cores s))
    by (unfold cores; cbn; by rewrite list_fmap_insert).
  assert (Hv : forall r d, cores (set_procs (<[p := y]> (procs s)) s) !! r = Some d ->
    exists d', cores s !! r = Some d' /\ status d = status d' /\ trapframe d = trapframe d' /\
      parent d = parent d').
  { intros r d. rewrite Hcs. intros [(<- & <- & _)|(_ & Hd)]%list_lookup_insert_Some; [|eauto].
    exists (core x). cbn. by rewrite Hs, Ht, Hp. }
  destruct Hi. split; auto.
  - by eapply links_upd.
  - by eapply run_ok_same.
  - intros r Hr. rewrite Hcs. destruct (si_exists0 _ Hr) as [d Hd].
    apply lookup_lt_is_Some. rewrite length_insert. by eapply lookup_lt_Some.
  - intros r d Hd. destruct (Hv _ _ Hd) as (d' & Hd' & -> & _). by apply si_ready0.
  - intros r d Hd. destruct (Hv _ _ Hd) as (d' & Hd' & -> & _). by eapply si_run0.
  - intros r d i Hd. destruct (Hv _ _ Hd) as (d' & Hd' & -> & _). by eapply si_wait0.
  - intros r d Hd. destruct (Hv _ _ Hd) as (d' & Hd' & -> & -> & _). by eapply si_frame0.
  - intros r d k Hd. destruct (Hv _ _ Hd) as (d' & Hd' & _ & _ & ->). by eapply si_parent0.
Qed.

Lemma rrsched_run s run q w h p x :
  sched_inv s run q w -> run !! h = Some (Some p) -> procs s !! p = Some x ->
  if TIME_SLICE_LEN <=? tick_count x + 1
  then exists e s', rrsched h s = Stop e s' /\
         scheduled h (<[h := None]> run) (q ++ [p]) w e s' /\ sem_table s' = sem_table s
  else exists s', rrsched h s = Ret tt s' /\ sched_inv s' run q w /\ sem_table s' = sem_table s /\
         procs s' = <[p := set_tick_count (tick_count x + 1) x]> (procs s).
Proof.
  intros Hi Hh Hx. destruct (running _ _ _ _ _ _ Hi Hh) as (x' & Hx' & _ & Hself & _).
  rewrite Hx in Hx'. injection Hx' as <-. unfold rrsched. destruct (TIME_SLICE_LEN <=? tick_count x + 1) eqn:E.
  - step_by ltac:(exact Hself). step_upd Hx.
    assert (Hlt : (p < length (procs s))%nat) by by eapply lookup_lt_Some.
    step_by ltac:(apply get_proc_run; cbn; by apply list_lookup_insert_eq).
    cbn [tick_count set_tick_count]. rewrite E. unfold when.
    step_by ltac:(apply upd_proc_run; cbn; by apply list_lookup_insert_eq).
    step_by ltac:(apply upd_proc_run; cbn; apply list_lookup_insert_eq; by rewrite length_insert).
    cbn [procs set_procs]. rewrite !list_insert_insert_eq.
    destruct (requeue_run s run q w h p x (fun x => set_status READY (set_tick_count 0
                (set_tick_count (tick_count x + 1) x)))) as (s1 & E1 & Hi1 & Hm); auto.
    step_by ltac:(exact E1). rewrite <- Hm, <- schedule_unit. by eapply then_schedule.
  - eexists. split; [|split; [|split]].
    + step_by ltac:(exact Hself). step_upd Hx.
      step_by ltac:(apply get_proc_run; cbn; apply list_lookup_insert_eq; by eapply lookup_lt_Some).
      cbn [tick_count set_tick_count]. rewrite E. reflexivity.
    + by eapply sched_inv_keep.
    + done.
    + done.
Qed.

(** Waking a blocked process: it leaves the wait queue it was in, if any. *)
Lemma wake s s1 run q w w1 r c :
  sched_inv s run q w -> cores s !! r = Some c -> status c = BLOCKED ->
  cores s1 = <[r := set_status READY c]> (cores s) -> links s1 (q ++ [r]) w1 ->
  current s1 = current s -> length (csrs s1) = length (csrs s) ->
  (forall p i, p ∈ w1 i -> p <> r /\ p ∈ w i) ->
  (forall i m, sem_table s1 !! i = Some m -> ifuse m = 0 \/ 0 < value m -> w1 i = []) ->
  sched_inv s1 run (q ++ [r]) w1.
Proof.
  intros Hi Hc Hb Hcs Hl Hcu Hcr Hw Hsem. eapply restatus; eauto.
  - eapply run_ok_same; eauto. apply Hi.
  - cbn. apply (si_frame _ _ _ _ Hi r); [done|by rewrite Hb].
  - intros p Hp. rewrite elem_of_app, list_elem_of_singleton. naive_solver.
  - intros p i Hp Hpw. by apply Hw in Hpw as [_ ?].
  - split; [|done]. intros _. apply elem_of_app. right. by apply list_elem_of_singleton.
  - intros i Hr. by apply Hw in Hr as [? _].
  - split; [done|]. intros Hr. apply (si_run _ _ _ _ Hi r c) in Hr; [congruence|done].
Qed.

(** The list of processes that [wake_parent] appends to the ready queue. *)
Definition woken (s : kstate) (par : option nat) : list nat :=
  match par with
  | Some r => match procs s !! r with
              | Some y => if bool_decide (status y = BLOCKED) then [r] else []
              | None => []
              end
  | None => []
  end.

Lemma wake_parent_run s run q w par :
  sched_inv s run q w -> (forall r, par = Some r -> (r < NPROC)%nat) ->
  (forall r i, r ∈ woken s par -> r ∉ w i) ->
  exists s', wake_parent par s = Ret tt s' /\ sched_inv s' run (q ++ woken s par) w /\
    sem_table s' = sem_table s /\ forall r, r ∉ woken s par -> cores s' !! r = cores s !! r.
Proof.
  intros Hi Hlt Hw. destruct par as [r|]; cbn [wake_parent woken] in *.
  2:{ exists s. by rewrite app_nil_r. }
  pose proof (si_links _ _ _ _ Hi) as Hl. specialize (Hlt r eq_refl).
  destruct (lookup_lt_is_Some_2 (procs s) r) as [y Hy]; [by rewrite (lk_np _ _ _ Hl)|].
  rewrite Hy in *. step_get Hy. case_bool_decide as Hb; cbn [when].
  2:{ exists s. by rewrite app_nil_r. }
  pose proof (cores_lookup _ _ _ Hy) as Hc. step_upd Hy.
  set (s0 := set_procs (<[r := set_status READY y]> (procs s)) s).
  assert (Hq : r ∉ q).
  { intros Hq. apply (si_ready _ _ _ _ Hi r) in Hc. apply Hc in Hq. cbn in Hq. congruence. }
  destruct (insert_run s0 q w r (set_status READY y)) as (s1 & E & Hl1 & Hc1 & []); auto.
  { by eapply links_upd. } { cbn. apply list_lookup_insert_eq. by eapply lookup_lt_Some. }
  { intros i. apply Hw. by apply list_elem_of_singleton. }
  assert (Hcs : cores s1 = <[r := set_status READY (core y)]> (cores s)).
  { rewrite Hc1. unfold cores, s0. cbn. by rewrite list_fmap_insert, list_insert_insert_eq. }
  exists s1. split; [done|]. split; [|split; [done|]].
  2:{ intros r' Hr'. rewrite Hcs, list_lookup_insert_ne; [done|]. intros ->. apply Hr'. by apply list_elem_of_singleton. }
  eapply wake; eauto.
  - by rewrite sr_csrs0.
  - intros p i Hp. split; [|done]. intros ->. apply (Hw r i); [by apply list_elem_of_singleton|done].
  - rewrite sr_sem0. apply Hi.
Qed.

Lemma not_woken s p x par : procs s !! p = Some x -> status x = RUNNING -> p ∉ woken s par.
Proof.
  intros Hx Hr Hw. unfold woken in Hw. destruct par as [r|]; [|by apply not_elem_of_nil in Hw].
  destruct (procs s !! r) as [y|] eqn:Hy; [|by apply not_elem_of_nil in Hw]. case_bool_decide; [|by apply not_elem_of_nil in Hw].
  apply list_elem_of_singleton in Hw as ->. congruence.
Qed.

(** [free_process(self)] on the running process, then waking its parent. *)
Lemma die_run s run q w h p x :
  sched_inv s run q w -> run !! h = Some (Some p) -> procs s !! p = Some x ->
  (forall r i, r ∈ woken s (parent x) -> r ∉ w i) ->
  exists s1, wake_parent (parent x) (set_procs (<[p := set_status ZOMBIE x]> (procs s)) s) = Ret tt s1 /\
    sched_inv s1 (<[h := None]> run) (q ++ woken s (parent x)) w /\ sem_table s1 = sem_table s /\
    cores s1 !! p = Some (set_status ZOMBIE (core x)).
Proof.
  intros Hi Hh Hx Hw. destruct (running _ _ _ _ _ _ Hi Hh) as (x' & Hx' & Hr & _ & Hc & Hq & Hpw).
  rewrite Hx in Hx'. injection Hx' as <-.
  set (s0 := set_procs (<[p := set_status ZOMBIE x]> (procs s)) s).
  assert (Hi0 : sched_inv s0 (<[h := None]> run) q w).
  { pose proof (upd_status_cores s p x (set_status ZOMBIE) Hx (fun _ => eq_refl)) as Hcs.
    eapply park; [exact Hi|exact Hh|exact Hc|exact Hcs|by eapply links_upd; [apply Hi| |]|done..| | |];
      cbn; try done.
    - intros i Hp. by apply Hpw in Hp.
    - apply Hi. }
  assert (Hwk : woken s0 (parent x) = woken s (parent x)).
  { unfold woken, s0. destruct (parent x) as [r|]; [|done]. cbn.
    destruct (decide (r = p)) as [->|Hne].
    - rewrite list_lookup_insert_eq by by eapply lookup_lt_Some. rewrite Hx. cbn. by rewrite Hr.
    - by rewrite list_lookup_insert_ne. }
  rewrite <- Hwk in *. change (sem_table s) with (sem_table s0).
  destruct (wake_parent_run s0 (<[h := None]> run) q w (parent x) Hi0) as (s1 & E & Hi1 & Hm & Hk); [|done|].
  { intros r Hpar. eapply (si_parent _ _ _ _ Hi p); eauto. }
  exists s1. split; [done|]. split; [done|]. split; [done|]. rewrite Hk.
  - unfold cores, s0. cbn. rewrite list_fmap_insert, list_lookup_insert_eq; [done|]. rewrite length_fmap. by eapply lookup_lt_Some.
  - rewrite Hwk. by apply (not_woken s p x).
Qed.

Lemma exit_run s run q w h p x code :
  sched_inv s run q w -> run !! h = Some (Some p) -> procs s !! p = Some x ->
  (forall r i, r ∈ woken s (parent x) -> r ∉ w i) ->
  exists e s', sys_user_exit h code s = Stop e s' /\
    scheduled h (<[h := None]> run) (q ++ woken s (parent x)) w e s' /\ sem_table s' = sem_table s.
Proof.
  intros Hi Hh Hx Hw. destruct (running _ _ _ _ _ _ Hi Hh) as (x' & Hx' & _ & Hself & _).
  destruct (die_run s run q w h p x) as (s1 & E & Hi1 & Hm & _); auto.
  unfold sys_user_exit. step_by ltac:(exact Hself). step_get Hx.
  step_by ltac:(unfold free_process; step_upd Hx; reflexivity).
  step_by ltac:(exact E). rewrite <- Hm. by eapply then_schedule.
Qed.

Lemma kill_run s run q w h p x reason code :
  sched_inv s run q w -> run !! h = Some (Some p) -> procs s !! p = Some x ->
  (forall r i, r ∈ woken s (parent x) -> r ∉ w i) ->
  exists e s', kill_current_process h reason code s = Stop e s' /\
    scheduled h (<[h := None]> run) (q ++ woken s (parent x)) w e s' /\ sem_table s' = sem_table s.
Proof.
  intros Hi Hh Hx Hw. destruct (running _ _ _ _ _ _ Hi Hh) as (x' & Hx' & _ & Hself & _).
  destruct (die_run s run q w h p x) as (s1 & E & Hi1 & Hm & _); auto.
  unfold kill_current_process. step_by ltac:(exact Hself). step_get Hx.
  step_by ltac:(unfold free_process; step_upd Hx; reflexivity).
  step_by ltac:(exact E). rewrite <- Hm, <- schedule_unit. by eapply then_schedule.
Qed.

(** ** Semaphores *)

(** [upd_at w i l]: the wait queue of semaphore [i] becomes [l]. *)
Definition upd_at (w : nat -> list nat) (i : nat) (l : list nat) : nat -> list nat :=
  fun j => if decide (j = i) then l else w j.

Lemma upd_at_eq w i l : upd_at w i l i = l.
Proof. unfold upd_at. by rewrite decide_True. Qed.

Lemma upd_at_ne w i j l : j <> i -> upd_at w i l j = w j.
Proof. intros. unfold upd_at. by rewrite decide_False. Qed.

(** The process [p] has queued itself on semaphore [i]. *)
Definition waiting (s : kstate) (i : nat) (m : semaphore) (l : list nat) (p : nat) (x : process) :=
  set_sem_table (<[i := mkSem (ifuse m) (value m)
                    (match l with [] => Some p | _ => wait_queue m end)]> (sem_table s))
    (set_procs (linked (procs s) l p (set_status BLOCKED (set_queue_next None x))) s).

Lemma waiting_links s q w i m p x :
  links s q w -> sem_table s !! i = Some m -> procs s !! p = Some x -> p ∉ q ->
  (forall j, p ∉ w j) -> links (waiting s i m (w i) p x) q (upd_at w i (w i ++ [p])).
Proof.
  intros Hl Hm Hx Hq Hw. assert (Hlt : (i < length (sem_table s))%nat) by by eapply lookup_lt_Some.
  pose proof (linked_chain _ _ _ _ _ (set_status BLOCKED (set_queue_next None x))
    (lk_wq _ _ _ Hl _ _ Hm) (lk_wnodup _ _ _ Hl i) Hx eq_refl (Hw i)) as Hc.
  assert (Hin : forall j r, r ∈ upd_at w i (w i ++ [p]) j -> r ∈ w j \/ (r = p /\ j = i)).
  { intros j r. destruct (decide (j = i)) as [->|Hne]; [|rewrite upd_at_ne by done; auto].
    rewrite upd_at_eq, elem_of_app, list_elem_of_singleton. naive_solver. }
  split; cbn [waiting procs sem_table rq_lock ready_queue_head set_sem_table set_procs];
    try apply Hl.
  - rewrite linked_length. apply Hl.
  - rewrite length_insert. apply Hl.
  - apply linked_out; [done| |apply Hl]. intros r Hr Hri. by apply (lk_disj _ _ _ Hl i r).
  - intros j m'. intros [(<- & <- & _)|(Hne & Hm')]%list_lookup_insert_Some.
    + by rewrite upd_at_eq.
    + rewrite upd_at_ne by done. apply linked_out; [done| |by apply Hl].
      intros r Hr Hri. by apply (lk_wdisj _ _ _ Hl i j r).
  - intros j Hj. apply lookup_ge_None in Hj. rewrite length_insert in Hj. rewrite upd_at_ne by lia. apply Hl. by apply lookup_ge_None.
  - intros j. destruct (decide (j = i)) as [->|Hne]; [|rewrite upd_at_ne by done; apply Hl].
    rewrite upd_at_eq. apply list.NoDup_app. split; [apply Hl|]. split; [|apply list.NoDup_singleton].
    intros r Hr ->%list_elem_of_singleton. by apply (Hw i).
  - intros j r Hr [Hj|[-> _]]%Hin; [by apply (lk_disj _ _ _ Hl j r)|done].
  - intros j k r Hjk [Hj|[-> ->]]%Hin [Hk|[? ->]]%Hin; subst; try done; try by eapply Hw.
    by apply (lk_wdisj _ _ _ Hl j k r).
Qed.

Lemma valid_sid s q w sid m :
  links s q w -> 0 <= sid -> sem_table s !! Z.to_nat sid = Some m -> ifuse m <> 0 ->
  bad_sid s sid = false /\ (Z.to_nat sid < NSEM)%nat.
Proof.
  intros Hl H0 Hm Hu. assert (Hlt : (Z.to_nat sid < NSEM)%nat).
  { rewrite <- (lk_ns _ _ _ Hl). by eapply lookup_lt_Some. }
  split; [|done]. unfold bad_sid. rewrite Hm. apply orb_false_iff. split.
  - apply Z.leb_gt. lia.
  - by apply Z.eqb_neq.
Qed.

Lemma get_sem_run s i m : sem_table s !! i = Some m -> get_sem i s = Ret m s.
Proof. intros Hm. unfold get_sem. by rewrite Hm. Qed.

Lemma sem_enqueue_run s q w i m p x :
  links s q w -> sem_table s !! i = Some m -> procs s !! p = Some x -> p ∉ w i ->
  sem_enqueue i m p s = Ret tt (waiting s i m (w i) p x).
Proof.
  intros Hl Hm Hx Hw. assert (Hlt : (p < length (procs s))%nat) by by eapply lookup_lt_Some.
  pose proof (lk_wq _ _ _ Hl _ _ Hm) as Hc.
  pose proof (chain_length _ _ _ Hc (lk_wnodup _ _ _ Hl i)) as Hn. rewrite (lk_np _ _ _ Hl) in Hn.
  unfold sem_enqueue, waiting, linked. step_upd Hx.
  destruct (list.last (w i)) as [e|] eqn:El.
  - apply last_Some in El as [l El]. rewrite El in *. rewrite length_app in Hn; cbn in Hn.
    destruct (chain_last _ _ _ _ Hc) as (z & Hz & _). rewrite Hz.
    assert (Hne : p <> e).
    { intros ->. apply Hw, elem_of_app. right. by apply list_elem_of_singleton. }
    destruct (wait_queue m) as [h|] eqn:Eh; [|by destruct l; destruct Hc].
    set (s1 := set_procs (<[p := set_queue_next None x]> (procs s)) s).
    step_by ltac:(step_by ltac:(apply (queue_end_run s1 h l e); [by apply chain_insert_out|lia]);
      apply upd_proc_run; cbn; rewrite list_lookup_insert_ne by done; exact Hz).
    erewrite upd_proc_run by (cbn; rewrite list_lookup_insert_ne by done; by apply list_lookup_insert_eq).
    f_equal. subst s1. cbn [procs set_procs].
    rewrite (list_insert_insert_ne _ p e), list_insert_insert_eq by done.
    replace (match l ++ [e] with [] => Some p | _ => Some h end)
      with (Some h) by (clear; destruct l; reflexivity).
    rewrite (list_insert_id (sem_table s) i); [by destruct s|].
    rewrite Hm. by destruct m; cbn in *; subst.
  - apply last_None in El. rewrite El in *. cbn in Hc. rewrite Hc.
    step_by ltac:(reflexivity).
    erewrite upd_proc_run by (cbn; by apply list_lookup_insert_eq).
    f_equal. cbn. rewrite list_insert_insert_eq. by destruct s.
Qed.

Lemma waiting_inv s run q w h p x i m :
  sched_inv s run q w -> run !! h = Some (Some p) -> procs s !! p = Some x ->
  sem_table s !! i = Some m -> ifuse m <> 0 -> value m <= 0 ->
  sched_inv (waiting s i m (w i) p x) (<[h := None]> run) q (upd_at w i (w i ++ [p])).
Proof.
  intros Hi Hh Hx Hm Hu Hv. destruct (running _ _ _ _ _ _ Hi Hh) as (x' & Hx' & _ & _ & Hc & Hq & Hw).
  rewrite Hx in Hx'. injection Hx' as <-. pose proof (si_links _ _ _ _ Hi) as Hl.
  assert (Hcs : cores (waiting s i m (w i) p x) = <[p := core (set_status BLOCKED x)]> (cores s)).
  { unfold cores at 1. cbn. by rewrite linked_cores by done. }
  eapply park; [exact Hi|exact Hh|exact Hc|exact Hcs|by apply waiting_links|done..| | | |]; cbn.
  - intros r j Hr. destruct (decide (j = i)) as [->|Hne]; [|by rewrite upd_at_ne].
    rewrite upd_at_eq, elem_of_app, list_elem_of_singleton. naive_solver.
  - done.
  - done.
  - intros j m' [(<- & <- & _)|(Hne & Hm')]%list_lookup_insert_Some; cbn; [lia|].
    rewrite upd_at_ne by done. by apply Hi.
Qed.

(** Replacing the value of a semaphore that nobody waits for. *)
Lemma set_value_inv s run q w i m u v :
  sched_inv s run q w -> sem_table s !! i = Some m -> w i = [] ->
  sched_inv (set_sem_table (<[i := mkSem u v None]> (sem_table s)) s) run q w.
Proof.
  intros Hi Hm Hw. destruct Hi. split; auto.
  - destruct si_links0. split; cbn; auto.
    + by rewrite length_insert.
    + intros j m' [(<- & <- & _)|(Hne & Hm')]%list_lookup_insert_Some; cbn; [by rewrite Hw|auto].
    + intros j Hj. apply lk_wout0. apply lookup_ge_None in Hj. rewrite length_insert in Hj.
      by apply lookup_ge_None.
  - by eapply run_ok_same.
  - cbn. intros j m' [(<- & <- & _)|(Hne & Hm')]%list_lookup_insert_Some; cbn; [done|].
    by eapply si_sem0.
Qed.

(** What the semaphores count, without their queues. *)
Definition counts (s : kstate) : list (Z * Z) := (fun m => (ifuse m, value m)) <$> sem_table s.

Lemma counts_same (l : list semaphore) (i : nat) m r :
  l !! i = Some m ->
  (fun m => (ifuse m, value m)) <$> (<[i := mkSem (ifuse m) (value m) r]> l) = (fun m => (ifuse m, value m)) <$> l.
Proof. intros Hm. rewrite list_fmap_insert. cbn. apply list_insert_id. by rewrite list_lookup_fmap, Hm. Qed.

Lemma semP_run s run q w h (p : nat) (x : process) sid m :
  sched_inv s run q w -> run !! h = Some (Some p) -> procs s !! p = Some x -> 0 <= sid ->
  sem_table s !! Z.to_nat sid = Some m -> ifuse m <> 0 ->
  if 0 <? value m
  then exists s', do_semP h sid s = Ret tt s' /\ sched_inv s' run q w /\
    sem_table s' = <[Z.to_nat sid := mkSem (ifuse m) (value m - 1) None]> (sem_table s)
  else exists e s', do_semP h sid s = Stop e s' /\
    scheduled h (<[h := None]> run) q (upd_at w (Z.to_nat sid) (w (Z.to_nat sid) ++ [p])) e s' /\
    counts s' = counts s.
Proof.
  intros Hi Hh Hx H0 Hm Hu. pose proof (si_links _ _ _ _ Hi) as Hl.
  destruct (valid_sid _ _ _ _ _ Hl H0 Hm Hu) as [Hb Hlt].
  destruct (running _ _ _ _ _ _ Hi Hh) as (x' & Hx' & _ & Hself & Hc & Hq & Hw).
  destruct (0 <? value m) eqn:Ev.
  - assert (Hv : 0 < value m) by by apply Z.ltb_lt.
    assert (Hwn : w (Z.to_nat sid) = []) by (eapply (si_sem _ _ _ _ Hi); eauto).
    pose proof (lk_wq _ _ _ Hl _ _ Hm) as Hch. rewrite Hwn in Hch. cbn in Hch.
    eexists. split; [|split; [by eapply set_value_inv|done]].
    unfold do_semP. step_by ltac:(reflexivity). rewrite Hb.
    step_by ltac:(apply get_sem_run; exact Hm). rewrite Ev, Hch. reflexivity.
  - assert (Hv : value m <= 0) by by apply Z.ltb_ge. rewrite Hx in Hx'. injection Hx' as <-.
    destruct (then_schedule (waiting s (Z.to_nat sid) m (w (Z.to_nat sid)) p x) run q
      (upd_at w (Z.to_nat sid) (w (Z.to_nat sid) ++ [p])) h p (ret tt)) as (e & s' & E & Hs & Hsem);
      [by apply waiting_inv|done|].
    exists e, s'. split; [|split; [done|unfold counts; rewrite Hsem; by apply counts_same]]. unfold do_semP. step_by ltac:(reflexivity). rewrite Hb.
    step_by ltac:(apply get_sem_run; exact Hm). rewrite Ev. step_by ltac:(exact Hself).
    step_by ltac:(by apply (sem_enqueue_run s q w)). by rewrite <- schedule_unit.
Qed.

(** The first waiter has been taken off semaphore [i]. *)
Definition unwaited (s : kstate) (i : nat) (m : semaphore) (r : nat) (x : process) : kstate :=
  set_sem_table (<[i := mkSem (ifuse m) (value m) (queue_next x)]> (sem_table s))
    (set_procs (<[r := set_queue_next None x]> (procs s)) s).

Lemma unwaited_links s q w i m r x l :
  links s q w -> sem_table s !! i = Some m -> procs s !! r = Some x -> w i = r :: l ->
  links (unwaited s i m r x) q (upd_at w i l).
Proof.
  intros Hl Hm Hx Hw. assert (Hlt : (i < length (sem_table s))%nat) by by eapply lookup_lt_Some.
  pose proof (lk_wq _ _ _ Hl _ _ Hm) as Hc. pose proof (lk_wnodup _ _ _ Hl i) as Hn.
  rewrite Hw in Hc, Hn. destruct Hc as (Hh & x' & Hx' & Hc). simplify_eq.
  apply list.NoDup_cons in Hn as [Hr Hn].
  assert (Hri : r ∈ w i) by (rewrite Hw; apply list_elem_of_here).
  assert (Hin : forall j p, p ∈ upd_at w i l j -> p ∈ w j).
  { intros j p. destruct (decide (j = i)) as [->|Hne]; [|by rewrite upd_at_ne].
    rewrite upd_at_eq, Hw. intros. by apply elem_of_cons; right. }
  split; cbn; try apply Hl.
  - rewrite length_insert. apply Hl.
  - rewrite length_insert. apply Hl.
  - apply chain_insert_out; [|apply Hl]. intros Hq. by apply (lk_disj _ _ _ Hl i r).
  - intros j m' [(<- & <- & _)|(Hne & Hm')]%list_lookup_insert_Some; cbn.
    + rewrite upd_at_eq. by apply chain_insert_out.
    + rewrite upd_at_ne by done. apply chain_insert_out; [|by apply Hl].
      intros Hj. by apply (lk_wdisj _ _ _ Hl i j r).
  - intros j Hj. apply lookup_ge_None in Hj. rewrite length_insert in Hj.
    rewrite upd_at_ne by lia. apply Hl. by apply lookup_ge_None.
  - intros j. destruct (decide (j = i)) as [->|Hne]; [by rewrite upd_at_eq|].
    rewrite upd_at_ne by done. apply Hl.
  - intros j p Hp Hj%Hin. by apply (lk_disj _ _ _ Hl j p).
  - intros j k p Hjk Hj%Hin Hk%Hin. by apply (lk_wdisj _ _ _ Hl j k p).
Qed.

Lemma semV_wake s run q w h sid m r l :
  sched_inv s run q w -> 0 <= sid -> sem_table s !! Z.to_nat sid = Some m -> ifuse m <> 0 ->
  w (Z.to_nat sid) = r :: l ->
  exists s', do_semV h sid s = Ret tt s' /\
    sched_inv s' run (q ++ [r]) (upd_at w (Z.to_nat sid) l) /\
    counts s' = counts s.
Proof.
  intros Hi H0 Hm Hu Hw. set (i := Z.to_nat sid) in *. pose proof (si_links _ _ _ _ Hi) as Hl.
  destruct (valid_sid _ _ _ _ _ Hl H0 Hm Hu) as [Hb Hlt].
  assert (Hri : r ∈ w i) by (rewrite Hw; apply list_elem_of_here).
  destruct (chain_elem _ _ _ r (lk_wq _ _ _ Hl _ _ Hm) Hri) as [x Hx].
  pose proof (cores_lookup _ _ _ Hx) as Hc. pose proof (si_wait _ _ _ _ Hi r _ i Hc Hri) as Hbl.
  assert (Hv : value m <= 0).
  { destruct (decide (value m <= 0)); [done|]. rewrite (si_sem _ _ _ _ Hi i m Hm) in Hw; [done|lia]. }
  pose proof (lk_wq _ _ _ Hl _ _ Hm) as Hch. rewrite Hw in Hch. destruct Hch as (Hh & _).
  assert (Hq : r ∉ q) by (intros Hq; by apply (lk_disj _ _ _ Hl i r)).
  assert (Hout : forall j p, p ∈ upd_at w i l j -> p <> r /\ p ∈ w j).
  { intros j p. pose proof (lk_wnodup _ _ _ Hl i) as Hn. rewrite Hw in Hn.
    apply list.NoDup_cons in Hn as [Hn _].
    destruct (decide (j = i)) as [->|Hne].
    - rewrite upd_at_eq, Hw. intros Hp. split; [by intros ->|by apply elem_of_cons; right].
    - rewrite upd_at_ne by done. intros Hp. split; [|done]. intros ->.
      by apply (lk_wdisj _ _ _ Hl j i r). }
  destruct (insert_run (unwaited s i m r x) q (upd_at w i l) r (set_queue_next None x))
    as (s1 & E & Hl1 & Hc1 & []).
  { by apply unwaited_links. } { cbn. apply list_lookup_insert_eq. by eapply lookup_lt_Some. }
  { cbn in *. by rewrite Hbl. } { cbn in *. by rewrite Hbl. } { done. }
  { intros j Hj. by apply Hout in Hj as [? _]. }
  exists s1. split; [|split].
  - unfold do_semV. step_by ltac:(reflexivity). rewrite Hb. fold i.
    step_by ltac:(apply get_sem_run; exact Hm).
    unfold check. rewrite (proj2 (Z.eqb_neq _ _)) by lia. step_by ltac:(reflexivity).
    step_by ltac:(reflexivity). rewrite Hh. step_get Hx. step_by ltac:(reflexivity).
    step_upd Hx. step_by ltac:(reflexivity). rewrite <- E. f_equal. unfold unwaited. cbn.
    by rewrite !list_insert_insert_eq.
  - eapply wake; eauto; cbn in *.
    + rewrite Hc1. unfold cores. cbn. by rewrite list_fmap_insert, list_insert_insert_eq.
    + by rewrite sr_csrs0.
    + rewrite sr_sem0. cbn.
      intros j m' [(<- & <- & _)|(Hne & Hm')]%list_lookup_insert_Some; cbn; [lia|].
      rewrite upd_at_ne by done. by apply Hi.
  - unfold counts. rewrite sr_sem0. by apply counts_same.
Qed.

Lemma semV_free s run q w h sid m :
  sched_inv s run q w -> 0 <= sid -> sem_table s !! Z.to_nat sid = Some m -> ifuse m <> 0 ->
  w (Z.to_nat sid) = [] -> value m <> 2147483647 ->
  exists s', do_semV h sid s = Ret tt s' /\ sched_inv s' run q w /\
    sem_table s' = <[Z.to_nat sid := mkSem (ifuse m) (value m + 1) None]> (sem_table s).
Proof.
  intros Hi H0 Hm Hu Hw Hv. pose proof (si_links _ _ _ _ Hi) as Hl.
  destruct (valid_sid _ _ _ _ _ Hl H0 Hm Hu) as [Hb Hlt].
  pose proof (lk_wq _ _ _ Hl _ _ Hm) as Hch. rewrite Hw in Hch. cbn in Hch.
  eexists. split; [|split; [by eapply set_value_inv|done]].
  unfold do_semV. step_by ltac:(reflexivity). rewrite Hb. step_by ltac:(apply get_sem_run; exact Hm).
  unfold check. rewrite (proj2 (Z.eqb_neq _ _)) by done. step_by ltac:(reflexivity).
  step_by ltac:(reflexivity). rewrite Hch. reflexivity.
Qed.

Lemma first_unused_Some l k i :
  first_unused l k = Some i -> exists m, l !! (i - k)%nat = Some m /\ ifuse m = 0 /\ (k <= i)%nat.
Proof.
  revert k. induction l as [|m l IH]; intros k Hi; cbn in Hi; [done|].
  destruct (ifuse m =? 0) eqn:E; bsplit.
  - injection Hi as <-. exists m. rewrite Nat.sub_diag. auto.
  - apply IH in Hi as (m' & Hm & Hu & Hle). exists m'.
    replace (i - k)%nat with (S (i - S k)) by lia. auto with lia.
Qed.

Lemma semNew_run s run q w v :
  sched_inv s run q w ->
  exists s', do_semNew v s = Ret (match first_unused (sem_table s) 0 with
                                  | Some i => Z.of_nat i | None => -1 end) s' /\
    sched_inv s' run q w /\
    forall i, first_unused (sem_table s) 0 = Some i ->
      sem_table s' = <[i := mkSem 1 (i32 v) None]> (sem_table s).
Proof.
  intros Hi. unfold do_semNew. destruct (first_unused (sem_table s) 0) as [i|] eqn:E.
  - destruct (first_unused_Some _ _ _ E) as (m & Hm & Hu & _). rewrite Nat.sub_0_r in Hm.
    eexists. split; [step_by ltac:(reflexivity); rewrite E; reflexivity|].
    split; [eapply set_value_inv; eauto; eapply (si_sem _ _ _ _ Hi); eauto|].
    intros j [= <-]. done.
  - exists s. split; [step_by ltac:(reflexivity); by rewrite E|done].
Qed.

(** ** Waiting for a child *)

Lemma set_status_same x : status x = ZOMBIE -> set_status ZOMBIE x = x.
Proof. destruct x. cbn. by intros ->. Qed.

Lemma free_zombie s p x :
  procs s !! p = Some x -> status x = ZOMBIE -> free_process p s = Ret 0 s.
Proof.
  intros Hx Hz. unfold free_process. step_upd Hx. unfold ret. f_equal.
  rewrite set_status_same, list_insert_id by done. by destruct s.
Qed.

(** The scan finds the first terminated child. *)
Lemma find_zombie_Some ps : forall k c i, find_zombie ps k c = Some i ->
  exists x, (k <= i)%nat /\ ps !! (i - k)%nat = Some x /\ parent x = c /\ status x = ZOMBIE /\
    forall j y, (j < i - k)%nat -> ps !! j = Some y -> parent y = c -> status y <> ZOMBIE.
Proof.
  induction ps as [|x ps IH]; intros k c i Hi; cbn in Hi; [done|]. destruct (_ && _) eqn:E.
  - injection Hi as <-. apply andb_true_iff in E as [E1 E2]. apply bool_decide_eq_true in E1, E2.
    exists x. rewrite Nat.sub_diag. split; [done|]. split; [done|]. split; [done|]. split; [done|]. intros j y Hj. lia.
  - destruct (IH _ _ _ Hi) as (y & Hle & Hy & Hp & Hz & Hf). exists y. replace (i - k)%nat with (S (i - S k)) by lia.
    split; [lia|]. split; [done|]. split; [done|]. split; [done|]. intros [|j] z Hj Hjz Hpz; [|by apply (Hf j z); [lia|..]].
    injection Hjz as <-. rewrite bool_decide_eq_true_2 in E by done. by apply bool_decide_eq_false in E.
Qed.

Lemma find_zombie_None ps : forall k c j y, find_zombie ps k c = None -> ps !! j = Some y -> parent y = c -> status y <> ZOMBIE.
Proof.
  induction ps as [|x ps IH]; intros k c j y Hn Hy Hp; cbn in Hn; [done|]. destruct (_ && _) eqn:E; [done|].
  destruct j as [|j]; [|by apply (IH (S k) c j)]. injection Hy as <-. rewrite bool_decide_eq_true_2 in E by done. by apply bool_decide_eq_false in E.
Qed.

(** [schedule] leaves a process alone that is not in the ready queue. *)
Lemma schedule_others s run q w h e s' p :
  sched_inv s run q w -> run !! h = Some None -> schedule h s = Stop e s' -> p ∉ q -> procs s' !! p = procs s !! p.
Proof.
  intros Hi Hh E Hp. destruct (inited_view s) as (Hps & _). destruct q as [|r q'].
  - rewrite (schedule_empty s w h (si_links _ _ _ _ Hi)) in E. injection E as _ <-. by rewrite Hps.
  - destruct (lk_rq _ _ _ (si_links _ _ _ _ Hi)) as (_ & x & Hx & _). pose proof (si_run_ok _ _ _ _ Hi) as Hro.
    destruct (lookup_lt_is_Some_2 (csrs s) h) as [c Hcr].
    { rewrite (ro_ncsr _ _ Hro), <- (ro_len _ _ Hro). by eapply lookup_lt_Some. }
    assert (Htf : table_page (trapframe x)).
    { pose proof (cores_lookup _ _ _ Hx) as Hc. apply (si_frame _ _ _ _ Hi r (core x) Hc).
      assert (Hs : status (core x) = READY) by (apply (si_ready _ _ _ _ Hi r _ Hc); by apply list_elem_of_here). by rewrite Hs. }
    rewrite (schedule_pop s q' w r x c h (si_links _ _ _ _ Hi) Hx Htf Hcr) in E. injection E as _ <-.
    cbn. rewrite list_lookup_insert_ne; [by rewrite Hps|]. intros ->. apply Hp. by apply list_elem_of_here.
Qed.

(** A process that is killed stays a zombie. *)
Lemma kill_zombie s run q w h p x reason code e s' :
  sched_inv s run q w -> run !! h = Some (Some p) -> procs s !! p = Some x -> (forall r i, r ∈ woken s (parent x) -> r ∉ w i) ->
  kill_current_process h reason code s = Stop e s' -> exists y, procs s' !! p = Some y /\ status y = ZOMBIE.
Proof.
  intros Hi Hh Hx Hw E. destruct (running _ _ _ _ _ _ Hi Hh) as (x' & Hx' & Hr & Hself & _ & Hq & _).
  rewrite Hx in Hx'. injection Hx' as <-. destruct (die_run s run q w h p x) as (s1 & E1 & Hi1 & _ & Hz); auto.
  assert (Hn : <[h := None]> run !! h = Some (None (A := nat))) by (apply list_lookup_insert_eq; by eapply lookup_lt_Some).
  assert (Es : schedule h s1 = Stop e s').
  { rewrite <- E. unfold kill_current_process. step_by ltac:(exact Hself). step_get Hx.
    step_by ltac:(unfold free_process; step_upd Hx; reflexivity). by step_by ltac:(exact E1). }
  pose proof (schedule_others s1 _ _ w h e s' p Hi1 Hn Es) as Hp. unfold cores in Hz. rewrite list_lookup_fmap in Hz.
  destruct (procs s1 !! p) as [y|]; [|done]. cbn in Hz. apply (inj Some) in Hz. exists y. split.
  - apply Hp. rewrite elem_of_app. intros [?|Hw']; [done|]. by apply (not_woken s p x (parent x)).
  - exact (f_equal status Hz).
Qed.

Lemma block_run s run q w h p x :
  sched_inv s run q w -> run !! h = Some (Some p) -> procs s !! p = Some x ->
  exists e s', block_and_schedule h s = Stop e s' /\
    scheduled h (<[h := None]> run) q w e s' /\ sem_table s' = sem_table s /\ procs s' !! p = Some (set_status BLOCKED x).
Proof.
  intros Hi Hh Hx. destruct (running _ _ _ _ _ _ Hi Hh) as (x' & Hx' & _ & Hself & Hc & Hq & Hw).
  rewrite Hx in Hx'. injection Hx' as <-.
  set (s0 := set_procs (<[p := set_status BLOCKED x]> (procs s)) s).
  assert (Hi0 : sched_inv s0 (<[h := None]> run) q w).
  { pose proof (upd_status_cores s p x (set_status BLOCKED) Hx (fun _ => eq_refl)) as Hcs.
    eapply park; [exact Hi|exact Hh|exact Hc|exact Hcs|by eapply links_upd; [apply Hi| |]|done..| | |];
      cbn; try done. apply Hi. }
  assert (Hn : <[h := None]> run !! h = Some (None (A := nat))) by (apply list_lookup_insert_eq; by eapply lookup_lt_Some).
  destruct (schedule_inv s0 _ q w h Hi0 Hn) as (e & s' & E & Hs & Hm). exists e, s'. split; [|split; [done|split; [done|]]].
  - unfold block_and_schedule. step_by ltac:(exact Hself). step_upd Hx. exact E.
  - rewrite (schedule_others s0 _ q w h e s' p Hi0 Hn E Hq). cbn. apply list_lookup_insert_eq. by eapply lookup_lt_Some.
Qed.

(** ** Waiting for a child *)

(** Slot [i] holds a terminated child of [p]. *)
Definition zombie_child (s : kstate) (p i : nat) (x : process) : Prop :=
  procs s !! i = Some x /\ parent x = Some p /\ status x = ZOMBIE.

(** What [wait(n)] of process [p] is to answer; [None]: the child is still at work. *)
Inductive wait_result (s : kstate) (p : nat) : Z -> option Z -> Prop :=
| wr_first i x : zombie_child s p i x -> (forall j y, (j < i)%nat -> ~ zombie_child s p j y) -> wait_result s p (-1) (Some (i32 (pid x)))
| wr_nobody : (forall i x, ~ zombie_child s p i x) -> wait_result s p (-1) None
| wr_no_slot n : n <> -1 -> ~ 0 <= n < Z.of_nat NPROC -> wait_result s p n (Some (-1))
| wr_stranger n x : 0 <= n < Z.of_nat NPROC -> procs s !! Z.to_nat n = Some x -> parent x <> Some p -> wait_result s p n (Some (-1))
| wr_over n x : 0 <= n < Z.of_nat NPROC -> zombie_child s p (Z.to_nat n) x -> wait_result s p n (Some n)
| wr_at_work n x : 0 <= n < Z.of_nat NPROC -> procs s !! Z.to_nat n = Some x -> parent x = Some p -> status x <> ZOMBIE -> wait_result s p n None.

(** The caller is blocked and the hart has scheduled. *)
Definition waits (s : kstate) (run : list (option nat)) (q : list nat) (w : nat -> list nat) (h p : nat) (o : outcome kstate Z) : Prop :=
  exists e s' y, o = Stop e s' /\ scheduled h (<[h := None]> run) q w e s' /\ sem_table s' = sem_table s /\
    procs s' !! p = Some y /\ status y = BLOCKED.

Section Wait.
Variables (s : kstate) (run : list (option nat)) (q : list nat) (w : nat -> list nat) (h p : nat).
Hypothesis Hi : sched_inv s run q w.
Hypothesis Hh : run !! h = Some (Some p).

Lemma caller_current : get_current h s = Ret (Some p) s.
Proof. unfold get_current. by rewrite (ro_cur _ _ (si_run_ok _ _ _ _ Hi) _ _ Hh). Qed.

Lemma blocked_waits (k : M kstate Z) : waits s run q w h p ((block_and_schedule h ;;; k) s).
Proof.
  destruct (running _ _ _ _ _ _ Hi Hh) as (x & Hx & _). destruct (block_run s run q w h p x Hi Hh Hx) as (e & s' & E & Hs & Hm & Hp).
  exists e, s', (set_status BLOCKED x). split; [by apply bind_Stop|done].
Qed.

Lemma wait_outcome n o : wait_result s p n o -> match o with Some v => sys_user_wait h n s = Ret v s | None => waits s run q w h p (sys_user_wait h n s) end.
Proof.
  intros Hw. unfold sys_user_wait. destruct Hw as [i x (Hx & Hp & Hz) Hfirst|Hno|n Hn Hr|n x Hr Hx Hp|n x Hr (Hx & Hp & Hz)|n x Hr Hx Hp Hz].
  - cbn [Z.eqb Pos.eqb wait_any]. step_by ltac:(reflexivity). step_by ltac:(exact caller_current).
    destruct (find_zombie (procs s) 0 (Some p)) as [j|] eqn:Ez; [|by destruct (find_zombie_None _ _ _ _ _ Ez Hx Hp)].
    destruct (find_zombie_Some _ _ _ _ Ez) as (y & _ & Hy & Hyp & Hyz & Hmin). rewrite Nat.sub_0_r in Hy, Hmin.
    assert (j = i) as -> by (destruct (lt_eq_lt_dec j i) as [[Hlt| ->]|Hlt]; [by destruct (Hfirst j y Hlt)|done|by destruct (Hmin i x Hlt Hx Hp)]).
    rewrite Hx in Hy. injection Hy as <-. step_get Hx. by step_by ltac:(by eapply free_zombie).
  - cbn [Z.eqb Pos.eqb]. cbn [wait_any]. assert (Ez : find_zombie (procs s) 0 (Some p) = None).
    { destruct (find_zombie (procs s) 0 (Some p)) as [j|] eqn:Ez; [|done]. destruct (find_zombie_Some _ _ _ _ Ez) as (y & _ & Hy & Hyp & Hyz & _).
      rewrite Nat.sub_0_r in Hy. by destruct (Hno j y). }
    rewrite (bind_Ret _ _ s s s) by done. rewrite (bind_Ret _ _ _ _ _ caller_current), Ez. apply blocked_waits.
  - rewrite (proj2 (Z.eqb_neq n (-1))) by done. by replace ((n <? 0) || _) with true by (symmetry; apply orb_true_iff; rewrite Z.ltb_lt, Z.leb_le; lia).
  - rewrite (proj2 (Z.eqb_neq n (-1))) by lia. replace ((n <? 0) || _) with false by (symmetry; apply orb_false_iff; rewrite Z.ltb_ge, Z.leb_gt; lia).
    step_get Hx. step_by ltac:(exact caller_current). by rewrite bool_decide_eq_false_2.
  - rewrite (proj2 (Z.eqb_neq n (-1))) by lia. replace ((n <? 0) || _) with false by (symmetry; apply orb_false_iff; rewrite Z.ltb_ge, Z.leb_gt; lia).
    step_get Hx. step_by ltac:(exact caller_current). rewrite bool_decide_eq_true_2 by done. cbn [negb wait_pid]. step_get Hx.
    rewrite bool_decide_eq_true_2 by done. step_by ltac:(by eapply free_zombie). unfold ret. by rewrite Z2Nat.id by lia.
  - rewrite (proj2 (Z.eqb_neq n (-1))) by lia. replace ((n <? 0) || _) with false by (symmetry; apply orb_false_iff; rewrite Z.ltb_ge, Z.leb_gt; lia).
    rewrite (bind_Ret _ _ _ _ _ (get_proc_run _ _ _ Hx)), (bind_Ret _ _ _ _ _ caller_current), bool_decide_eq_true_2 by done. cbn [negb wait_pid].
    rewrite (bind_Ret _ _ _ _ _ (get_proc_run _ _ _ Hx)), bool_decide_eq_false_2 by done. apply blocked_waits.
Qed.

Lemma wait_total n : exists o, wait_result s p n o.
Proof.
  destruct (decide (n = -1)) as [->|Hn].
  - destruct (find_zombie (procs s) 0 (Some p)) as [j|] eqn:Ez.
    + destruct (find_zombie_Some _ _ _ _ Ez) as (y & _ & Hy & Hyp & Hyz & Hmin). rewrite Nat.sub_0_r in Hy, Hmin.
      eexists. apply (wr_first s p j y); [done|]. intros i x Hij (Hx & Hp & Hz). by apply (Hmin i x).
    + eexists. apply wr_nobody. intros i x (Hx & Hp & Hz). by apply (find_zombie_None _ _ _ _ _ Ez Hx).
  - destruct (decide (0 <= n < Z.of_nat NPROC)) as [Hr|Hr]; [|eexists; by apply wr_no_slot].
    destruct (lookup_lt_is_Some_2 (procs s) (Z.to_nat n)) as [y Hy]; [rewrite (lk_np _ _ _ (si_links _ _ _ _ Hi)); lia|].
    destruct (decide (parent y = Some p)); [|eexists; by eapply wr_stranger].
    destruct (decide (status y = ZOMBIE)); eexists; [by eapply wr_over|by eapply wr_at_work].
Qed.

Lemma wait_run n : (exists v, sys_user_wait h n s = Ret v s) \/
  exists e s', sys_user_wait h n s = Stop e s' /\ scheduled h (<[h := None]> run) q w e s' /\ sem_table s' = sem_table s.
Proof.
  destruct (wait_total n) as [o Ho]. pose proof (wait_outcome n o Ho) as Hw. destruct o as [v|]; [by left; exists v|].
  right. destruct Hw as (e & s' & y & E & Hs & Hm & _). by exists e, s'.
Qed.
End Wait.

(** ** The machine: harts that take traps one after the other *)

(** The end of [smode_trap_handler]: back to the current process. *)
Definition resume_current (h : nat) : M kstate unit :=
  let* c := get_current h in switch_to h c.

Lemma resume_run s run q w h p :
  sched_inv s run q w -> run !! h = Some (Some p) ->
  exists s', resume_current h s = Stop (Resume p) s' /\ sched_inv s' run q w /\
    sem_table s' = sem_table s.
Proof.
  intros Hi Hh. destruct (running _ _ _ _ _ _ Hi Hh) as (x & Hx & Hr & _ & Hc & _).
  pose proof (si_run_ok _ _ _ _ Hi) as Hro. pose proof (ro_cur _ _ Hro _ _ Hh) as Hcu.
  destruct (lookup_lt_is_Some_2 (csrs s) h) as [c Hcr].
  { rewrite (ro_ncsr _ _ Hro), <- (ro_len _ _ Hro). by eapply lookup_lt_Some. }
  exists (switched h p x c s). split; [|split; [|done]].
  - unfold resume_current. step_by ltac:(unfold get_current; rewrite Hcu; reflexivity).
    apply switch_to_run; [done| |done].
    apply (si_frame _ _ _ _ Hi p (core x)); [done|]. cbn. by rewrite Hr.
  - destruct Hi. split; auto.
    + by eapply links_view.
    + eapply run_ok_same; [done| |by cbn; rewrite length_insert]. cbn. by apply list_insert_id.
Qed.

(** The queues do not depend on the contents of memory. *)
Lemma sched_inv_pm s t run q w : sched_inv s run q w -> sched_inv (set_pm t s) run q w.
Proof. intros [[] [] ? ? ? ? ? ? ?]. split; try done; by split. Qed.

(** The traps that involve the scheduler: the timer interrupt and six system calls. *)
Inductive request : Type :=
| RYield | RTick | RExit (code : Z) | RWait (n : Z)
| RSemNew (v : Z) | RSemP (sid : Z) | RSemV (sid : Z).

Definition call_of (h : nat) (r : request) : M kstate Z :=
  match r with
  | RYield => sys_user_yield h
  | RTick => rrsched h ;;; ret 0
  | RExit code => sys_user_exit h code
  | RWait n => sys_user_wait h n
  | RSemNew v => sys_user_semNew v
  | RSemP sid => sys_user_semP h sid
  | RSemV sid => sys_user_semV h sid
  end.

(** [current[tp]->trapframe->epc = read_csr(sepc)] *)
Definition trap_entry (h : nat) : M kstate Z :=
  let* p := self h in
  let* x := get_proc p in
  let* c := get_csr h in
  on_pm (store (trapframe x + TF_epc) (sepc c)) ;;;
  ret (trapframe x).

(** [handle_syscall] around the system call [call]: it steps over the [ecall] and
    stores the result in [a0] of the trapframe, if the call comes back. *)
Definition answer_call (tf : Z) (call : M kstate Z) : M kstate unit :=
  let* epc := on_pm (load (tf + TF_epc)) in
  on_pm (store (tf + TF_epc) (u64 (epc + 4))) ;;;
  let* r := call in
  on_pm (store (tf + TF_a 0) (u64 r)).

(** [smode_trap_handler] for a request, from user mode; the tick counters of
    [handle_mtimer_trap] and the argument registers are in Strap.v. *)
Definition serve_request (h : nat) (r : request) : M kstate unit :=
  let* tf := trap_entry h in
  match r with
  | RTick => rrsched h
  | _ => answer_call tf (call_of h r)
  end ;;;
  resume_current h.

(** The trap is its call on a state that differs in memory; when the call comes
    back, the hart goes on with the current process. *)
Lemma serve_cases s run q w h p r :
  sched_inv s run q w -> run !! h = Some (Some p) ->
  exists t, match call_of h r (set_pm t s) with
            | Ret _ s1 => exists t', serve_request h r s = resume_current h (set_pm t' s1)
            | Stop e s1 => serve_request h r s = Stop e s1
            end.
Proof.
  intros Hi Hh. destruct (running _ _ _ _ _ _ Hi Hh) as (x & Hx & Hr & Hself & Hc & _).
  pose proof (si_run_ok _ _ _ _ Hi) as Hro.
  destruct (lookup_lt_is_Some_2 (csrs s) h) as [c Hcr].
  { rewrite (ro_ncsr _ _ Hro), <- (ro_len _ _ Hro). by eapply lookup_lt_Some. }
  assert (Htf : table_page (trapframe x)) by (apply (si_frame _ _ _ _ Hi p (core x)); [done|]; cbn; by rewrite Hr).
  assert (Hok : forall o, 0 <= o < PGSIZE -> o mod 8 = 0 -> addr_ok (trapframe x + o) = true) by (intros; by apply table_page_word).
  set (t1 := set_mem (<[trapframe x + TF_epc := sepc c]> (mem (pm s))) (pm s)).
  assert (Hent : trap_entry h s = Ret (trapframe x) (set_pm t1 s)).
  { unfold trap_entry. step_by ltac:(exact Hself). step_get Hx. step_by ltac:(apply get_csr_run; exact Hcr).
    by step_by ltac:(apply on_pm_store, Hok; [cbv; split; congruence|reflexivity]). }
  set (t2 := set_mem (<[trapframe x + TF_epc := u64 (sepc c + 4)]> (mem t1)) t1).
  assert (Hans : forall call : M kstate Z, (answer_call (trapframe x) call ;;; resume_current h) (set_pm t1 s) =
    match call (set_pm t2 s) with
    | Ret v s1 => resume_current h (set_pm (set_mem (<[trapframe x + TF_a 0 := u64 v]> (mem (pm s1))) (pm s1)) s1)
    | Stop e s1 => Stop e s1
    end).
  { intros call. unfold answer_call. rewrite bind_assoc.
    step_by ltac:(apply on_pm_load, Hok; [cbv; split; congruence|reflexivity]).
    rewrite bind_assoc. step_by ltac:(apply on_pm_store, Hok; [cbv; split; congruence|reflexivity]).
    cbn [pm set_pm]. unfold t1 at 1. cbn [mem set_mem]. rewrite rd_insert_eq.
    change (set_pm _ (set_pm t1 (set_pm t1 s))) with (set_pm t2 s).
    rewrite bind_assoc. unfold bind at 1. destruct (call (set_pm t2 s)) as [v s1|e s1]; [|done].
    by step_by ltac:(apply on_pm_store, Hok; [cbv; split; congruence|reflexivity]). }
  exists (match r with RTick => t1 | _ => t2 end). unfold serve_request. rewrite (bind_Ret _ _ _ _ _ Hent).
  destruct r; cbn [call_of]; rewrite ?Hans.
  2:{ unfold bind. destruct (rrsched h (set_pm t1 s)) as [[] s1|e s1]; [|done]. exists (pm s1). by destruct s1. }
  all: match goal with |- match ?o with Ret _ _ => _ | Stop _ _ => _ end => destruct o; [by eexists|done] end.
Qed.

(** What a request needs: a process does not end (by exiting, or by naming a
    semaphore that does not exist) while its parent waits on a semaphore, and a
    counter does not overflow. *)
Definition may_end (s : kstate) (w : nat -> list nat) (p : nat) : Prop :=
  forall x, procs s !! p = Some x -> forall r i, r ∈ woken s (parent x) -> r ∉ w i.

Definition polite (s : kstate) (w : nat -> list nat) (p : nat) (r : request) : Prop :=
  match r with
  | RExit _ => may_end s w p
  | RSemP sid => 0 <= sid /\ (bad_sid s sid = true -> may_end s w p)
  | RSemV sid => 0 <= sid /\ (bad_sid s sid = true -> may_end s w p) /\
      forall m, sem_table s !! Z.to_nat sid = Some m -> value m <> 2147483647
  | _ => True
  end.

(** What hart [h] does after a handler that ended with [e]. *)
Definition after (h : nat) (run : list (option nat)) (e : stop) : list (option nat) :=
  match e with Resume p => <[h := Some p]> run | _ => <[h := None]> run end.

Definition leaves_kernel (e : stop) : Prop :=
  (exists p, e = Resume p) \/ e = Wfi \/ e = Shutdown 0.

Lemma scheduled_after h run q w e s' :
  scheduled h (<[h := None]> run) q w e s' ->
  leaves_kernel e /\ exists q' w', sched_inv s' (after h run e) q' w'.
Proof.
  intros [p q' s1 -> Hi|s1 -> Hi].
  - split; [left; eauto|]. exists q', w. by rewrite list_insert_insert_eq in Hi.
  - split.
    + destruct (_ && _); [right; right|right; left]; done.
    + exists [], w. by destruct (_ && _).
Qed.

Lemma after_same s run q w h p :
  sched_inv s run q w -> run !! h = Some (Some p) -> after h run (Resume p) = run.
Proof. intros _ Hh. cbn. by apply list_insert_id. Qed.

(** A call that comes back keeps the queues; one that does not has scheduled. *)
Definition served (h : nat) (run : list (option nat)) {A} (o : outcome kstate A) : Prop :=
  match o with
  | Ret _ s' => exists q w, sched_inv s' run q w
  | Stop e s' => leaves_kernel e /\ exists q w, sched_inv s' (after h run e) q w
  end.

Lemma served_stop {A} h run q w e s' : scheduled h (<[h := None]> run) q w e s' -> served h run (Stop (A := A) e s').
Proof. apply scheduled_after. Qed.

Lemma good_sid s sid :
  bad_sid s sid = false -> exists m, sem_table s !! Z.to_nat sid = Some m /\ ifuse m <> 0.
Proof.
  unfold bad_sid. intros [_ Hb]%orb_false_iff.
  destruct (sem_table s !! Z.to_nat sid) as [m|]; [|done]. exists m. by apply Z.eqb_neq in Hb.
Qed.

Lemma served_bind {A B} h run (c : M kstate A) (f : A -> B) s : served h run (c s) -> served h run ((let* a := c in ret (f a)) s).
Proof. unfold bind. by destruct (c s). Qed.

Lemma semP_served s run q w h p x sid :
  sched_inv s run q w -> run !! h = Some (Some p) -> procs s !! p = Some x -> polite s w p (RSemP sid) ->
  served h run (sys_user_semP h sid s).
Proof.
  intros Hi Hh Hx [H0 Hend]. apply served_bind. destruct (bad_sid s sid) eqn:Hb.
  - destruct (kill_run s run q w h p x "do_semP: invalid sid" (-1) Hi Hh Hx) as (e & s' & E & Hs & _); [by apply Hend|].
    unfold do_semP. rewrite (bind_Ret _ _ s s s) by done. rewrite Hb, E. by eapply served_stop.
  - destruct (good_sid _ _ Hb) as (m & Hm & Hu). pose proof (semP_run s run q w h p x sid m Hi Hh Hx H0 Hm Hu) as HP.
    destruct (0 <? value m); [destruct HP as (s' & -> & Hi' & _); by exists q, w|].
    destruct HP as (e & s' & -> & Hs & _). by eapply served_stop.
Qed.

Lemma semV_served s run q w h p x sid :
  sched_inv s run q w -> run !! h = Some (Some p) -> procs s !! p = Some x -> polite s w p (RSemV sid) ->
  served h run (sys_user_semV h sid s).
Proof.
  intros Hi Hh Hx (H0 & Hend & Hov). apply served_bind. destruct (bad_sid s sid) eqn:Hb.
  - destruct (kill_run s run q w h p x "do_semV: invalid sid" (-1) Hi Hh Hx) as (e & s' & E & Hs & _); [by apply Hend|].
    unfold do_semV. rewrite (bind_Ret _ _ s s s) by done. rewrite Hb, E. by eapply served_stop.
  - destruct (good_sid _ _ Hb) as (m & Hm & Hu). destruct (w (Z.to_nat sid)) as [|r l] eqn:Hw.
    + destruct (semV_free s run q w h sid m) as (s' & -> & Hi' & _); auto. by exists q, w.
    + destruct (semV_wake s run q w h sid m r l) as (s' & -> & Hi' & _); auto. by eexists _, _.
Qed.

Lemma call_served s run q w h p r :
  sched_inv s run q w -> run !! h = Some (Some p) -> polite s w p r -> served h run (call_of h r s).
Proof.
  intros Hi Hh Hp. destruct (running _ _ _ _ _ _ Hi Hh) as (x & Hx & _). destruct r; cbn [call_of].
  - destruct (yield_run s run q w h p Hi Hh) as (e & s' & -> & Hs & _). by eapply served_stop.
  - apply served_bind. pose proof (rrsched_run s run q w h p x Hi Hh Hx) as HR.
    destruct (TIME_SLICE_LEN <=? tick_count x + 1).
    + destruct HR as (e & s' & -> & Hs & _). by eapply served_stop.
    + destruct HR as (s' & -> & Hi' & _). by exists q, w.
  - destruct (exit_run s run q w h p x code Hi Hh Hx) as (e & s' & -> & Hs & _); [by apply Hp|]. by eapply served_stop.
  - destruct (wait_run s run q w h p Hi Hh n) as [[v ->]|(e & s' & -> & Hs & _)]; [by exists q, w|by eapply served_stop].
  - destruct (semNew_run s run q w v Hi) as (s' & E & Hi' & _). unfold sys_user_semNew. rewrite (bind_Ret _ _ _ _ _ E). by exists q, w.
  - by eapply semP_served.
  - by eapply semV_served.
Qed.

Lemma serve_request_inv s run q w h p r :
  sched_inv s run q w -> run !! h = Some (Some p) -> polite s w p r ->
  exists e s', serve_request h r s = Stop e s' /\ leaves_kernel e /\
    exists q' w', sched_inv s' (after h run e) q' w'.
Proof.
  intros Hi Hh Hp. destruct (serve_cases s run q w h p r Hi Hh) as [t Ht].
  pose proof (call_served (set_pm t s) run q w h p r (sched_inv_pm _ _ _ _ _ Hi) Hh Hp) as Hs.
  destruct (call_of h r (set_pm t s)) as [v s1|e s1].
  - destruct Ht as [t' ->], Hs as (q1 & w1 & Hi1).
    destruct (resume_run (set_pm t' s1) run q1 w1 h p (sched_inv_pm _ _ _ _ _ Hi1) Hh) as (s' & E & Hi' & _).
    exists (Resume p), s'. split; [done|]. split; [left; eauto|]. exists q1, w1. by erewrite after_same.
  - exists e, s1. by rewrite Ht.
Qed.

(** ** Boot and new processes *)

(** A slot that is free becomes a ready process, as [alloc_process] and
    [do_fork] (or [load_user_program]) leave it, and is queued. *)
Record fresh_process (s : kstate) (i : nat) (x : process) : Prop := {
  fp_slot : exists y, procs s !! i = Some y /\ status y = FREE;
  fp_ready : status x = READY;
  fp_frame : table_page (trapframe x);
  fp_parent : forall r, parent x = Some r -> (r < NPROC)%nat
}.

Lemma spawn_run s run q w i x :
  sched_inv s run q w -> fresh_process s i x ->
  exists s', insert_to_ready_queue i (set_procs (<[i := x]> (procs s)) s) = Ret tt s' /\
    sched_inv s' run (q ++ [i]) w /\ sem_table s' = sem_table s /\
    cores s' = <[i := core (set_status READY x)]> (cores s) /\ pm s' = pm s /\ current s' = current s.
Proof.
  intros Hi [(y & Hy & Hf) Hr Htf Hpar]. pose proof (cores_lookup _ _ _ Hy) as Hc.
  pose proof (si_links _ _ _ _ Hi) as Hl. assert (Hlt : (i < length (procs s))%nat) by by eapply lookup_lt_Some.
  assert (Hq : i ∉ q).
  { intros Hq. apply (si_ready _ _ _ _ Hi i) in Hc. apply Hc in Hq. cbn in Hq. congruence. }
  assert (Hw : forall j, i ∉ w j).
  { intros j Hw. apply (si_wait _ _ _ _ Hi i _ j Hc) in Hw. cbn in Hw. congruence. }
  assert (Hnr : ~ runs run i).
  { intros Hn. apply (si_run _ _ _ _ Hi i _ Hc) in Hn. cbn in Hn. congruence. }
  set (s0 := set_procs (<[i := x]> (procs s)) s).
  assert (Hl0 : links s0 q w).
  { destruct Hl. split; cbn; auto using chain_insert_out. by rewrite length_insert. }
  destruct (insert_run s0 q w i x) as (s1 & E & Hl1 & Hc1 & []); auto; try (by rewrite Hr).
  { cbn. by apply list_lookup_insert_eq. }
  assert (Hcs : cores s1 = <[i := core (set_status READY x)]> (cores s)).
  { rewrite Hc1. unfold cores, s0. cbn. by rewrite list_fmap_insert, list_insert_insert_eq. }
  exists s1. split; [done|]. split; [|by rewrite sr_sem0, sr_pm0, sr_current0].
  assert (Hv : forall r d, r <> i -> cores s1 !! r = Some d -> cores s !! r = Some d).
  { intros r d Hne. rewrite Hcs. by rewrite list_lookup_insert_ne. }
  assert (Hvi : forall d, cores s1 !! i = Some d -> d = core (set_status READY x)).
  { intros d. rewrite Hcs, list_lookup_insert_eq; [by intros [= ->]|by eapply lookup_lt_Some]. }
  assert (Hmem : i ∈ q ++ [i]) by (apply elem_of_app; right; by apply list_elem_of_singleton).
  split; auto.
  - eapply run_ok_same; [apply Hi|done|by rewrite sr_csrs0].
  - intros r Hn. rewrite Hcs. apply lookup_lt_is_Some. rewrite length_insert.
    apply (lookup_lt_is_Some (cores s)). by apply (si_exists _ _ _ _ Hi).
  - intros r d Hd. destruct (decide (r = i)) as [->|Hne]; [by rewrite (Hvi d Hd)|].
    rewrite elem_of_app, list_elem_of_singleton.
    rewrite (si_ready _ _ _ _ Hi r d (Hv r d Hne Hd)). naive_solver.
  - intros r d Hd. destruct (decide (r = i)) as [->|Hne]; [by rewrite (Hvi d Hd)|].
    exact (si_run _ _ _ _ Hi r d (Hv r d Hne Hd)).
  - intros r d j Hd Hj. destruct (decide (r = i)) as [->|Hne]; [by apply Hw in Hj|].
    exact (si_wait _ _ _ _ Hi r d j (Hv r d Hne Hd) Hj).
  - rewrite sr_sem0. apply Hi.
  - intros r d Hd Hs. destruct (decide (r = i)) as [->|Hne]; [by rewrite (Hvi d Hd)|].
    exact (si_frame _ _ _ _ Hi r d (Hv r d Hne Hd) Hs).
  - intros r d k Hd Hk. destruct (decide (r = i)) as [->|Hne].
    + rewrite (Hvi d Hd) in Hk. by apply Hpar.
    + exact (si_parent _ _ _ _ Hi r d k (Hv r d Hne Hd) Hk).
Qed.

(** The static data before [s_start] runs: everything is zero. *)
Record kernel_boot (s : kstate) : Prop := {
  kb_rq : ready_queue_head s = None;
  kb_lock : rq_lock s = SPIN_LOCK_FREE;
  kb_current : length (current s) = NCPU;
  kb_csrs : length (csrs s) = NCPU
}.

Lemma init_proc_pool_inv s :
  kernel_boot s ->
  exists s', init_proc_pool s = Ret tt s' /\ sched_inv s' (replicate NCPU None) [] (fun _ => []) /\
    all_process_done s' = true.
Proof.
  intros []. eexists. split; [reflexivity|]. split; [|reflexivity].
  assert (Hz : forall p c, cores (set_proc_alloc_lock SPIN_LOCK_FREE (set_sem_table
      (replicate NSEM (mkSem 0 0 None)) (set_procs (zero_proc <$> seq 0 NPROC) s))) !! p = Some c ->
      c = zero_proc p).
  { intros p c. unfold cores. cbn [procs set_proc_alloc_lock set_sem_table set_procs].
    rewrite !list_lookup_fmap. destruct (seq 0 NPROC !! p) as [k|] eqn:Ek; [|done].
    apply lookup_seq in Ek as [-> _]. cbn. by intros [= <-]. }
  assert (Hno : forall p, ~ runs (replicate NCPU None) p).
  { intros p [h Hh]. by apply lookup_replicate in Hh as [? _]. }
  split; try done.
  - split; cbn [procs sem_table rq_lock ready_queue_head set_proc_alloc_lock set_sem_table set_procs];
      try done.
    + intros i x [-> _]%lookup_replicate. done.
    + apply base.NoDup_nil_2.
    + intros. apply base.NoDup_nil_2.
    + intros i p Hp. by apply not_elem_of_nil in Hp.
    + intros i j p _ Hp. by apply not_elem_of_nil in Hp.
  - split; cbn; try done.
    + intros h p Hh. destruct (Hno p). by exists h.
    + intros h h' p Hh. destruct (Hno p). by exists h.
  - intros p Hp. by destruct (Hno p).
  - intros p c ->%Hz. split; [done|]. intros Hp. by apply not_elem_of_nil in Hp.
  - intros p c ->%Hz. split; [done|]. intros Hp. by destruct (Hno p).
  - intros p c i ->%Hz Hp. by apply not_elem_of_nil in Hp.
  - intros p c ->%Hz. done.
  - intros p c r ->%Hz. done.
Qed.

(** A configuration: the shared state and what each hart runs. *)
Definition config : Type := kstate * list (option nat).

Inductive mstep : config -> config -> Prop :=
| ms_trap s run h p r e s' :
    run !! h = Some (Some p) -> (forall q w, sched_inv s run q w -> polite s w p r) ->
    serve_request h r s = Stop e s' -> mstep (s, run) (s', after h run e)
| ms_idle s run h e s' :
    run !! h = Some None -> schedule h s = Stop e s' -> mstep (s, run) (s', after h run e)
| ms_spawn s run i x s' :
    fresh_process s i x ->
    insert_to_ready_queue i (set_procs (<[i := x]> (procs s)) s) = Ret tt s' ->
    mstep (s, run) (s', run).

Lemma mstep_inv s run s' run' q w :
  sched_inv s run q w -> mstep (s, run) (s', run') -> exists q' w', sched_inv s' run' q' w'.
Proof.
  intros Hi Hs. inversion Hs as [? ? h p r e ? Hh Hp E|? ? h e ? Hh E|? ? i x ? Hf E]; subst.
  - destruct (serve_request_inv s run q w h p r Hi Hh (Hp q w Hi)) as (e1 & s1 & E1 & _ & Hq).
    rewrite E1 in E. injection E as <- <-. exact Hq.
  - destruct (schedule_inv s run q w h Hi Hh) as (e1 & s1 & E1 & Hs1 & _).
    rewrite E1 in E. injection E as <- <-. eapply (scheduled_after h run q w). by rewrite list_insert_id.
  - destruct (spawn_run s run' q w i x Hi Hf) as (s1 & E1 & Hi1 & _).
    rewrite E1 in E. injection E as <-. eauto.
Qed.

(** C3: the scheduler invariant under the traps that involve the scheduler.  From the boot of the kernel, let
    the two harts take, in any order and each to its end before the next, timer interrupts and the calls yield, exit, wait, semNew, semP and semV,
    poll the ready queue when idle, and let new processes be queued.  If every trap is [polite] (no process ends while its parent waits on a
    semaphore, no counter overflows), then always: the ready queue is an acyclic list of exactly the [READY]
    processes, every wait queue holds [BLOCKED] processes and is disjoint from
    the others, and the [RUNNING] processes are the ones the harts execute, one
    each.  Other traps (fork itself, file calls, page faults) are not among the steps. *)
Theorem reachable_sched_inv s0 s1 s run :
  kernel_boot s0 -> init_proc_pool s0 = Ret tt s1 ->
  rtc mstep (s1, replicate NCPU None) (s, run) ->
  exists q w, sched_inv s run q w.
Proof.
  intros Hb Hi Hr. destruct (init_proc_pool_inv s0 Hb) as (s2 & E & Hinv & _).
  rewrite E in Hi. injection Hi as ->.
  remember (s1, replicate NCPU None) as c0 eqn:E0. remember (s, run) as c1 eqn:E1.
  assert (Hgen : exists q w, sched_inv (fst c0) (snd c0) q w) by (subst; eauto).
  clear E E0 Hinv Hb. revert s run E1. induction Hr as [c|[sa ra] [sb rb] c Hab _ IH]; intros s run E1.
  - subst. exact Hgen.
  - destruct Hgen as (q & w & Hi). eapply IH; [|exact E1]. by eapply mstep_inv.
Qed.

(** C14: a trap that involves the scheduler is answered.  In a state that satisfies the invariant, a timer interrupt or a
    polite call of yield, exit, wait, semNew, semP or semV by the process that a hart runs is served to the end (no loop of
    the kernel runs forever on a corrupted queue, no lock stays taken, no null
    pointer is followed), and the hart then runs a process, waits for an
    interrupt or shuts the machine down, in a state that satisfies the
    invariant again. *)
Theorem trap_is_served s run q w h p r :
  sched_inv s run q w -> run !! h = Some (Some p) -> polite s w p r ->
  exists e s', serve_request h r s = Stop e s' /\ leaves_kernel e /\
    exists q' w', sched_inv s' (after h run e) q' w'.
Proof. apply serve_request_inv. Qed.

(** C24: [schedule] is first-in first-out and never comes back to its caller.
    With a ready process it resumes the one at the head; with none it shuts the
    machine down on hart 0 exactly when every process is [FREE] or [ZOMBIE],
    and waits for an interrupt otherwise. *)
Theorem schedule_correct s run q w h :
  sched_inv s run q w -> run !! h = Some None ->
  match q with
  | p :: q' => exists s', schedule h s = Stop (Resume p) s' /\
                 sched_inv s' (<[h := Some p]> run) q' w /\ current s' !! h = Some (Some p)
  | [] => exists s', schedule h s =
            Stop (if all_process_done s && bool_decide (h = 0%nat) then Shutdown 0 else Wfi) s' /\
            sched_inv s' run [] w
  end.
Proof.
  intros Hi Hh. destruct q as [|p q'].
  - exists (inited s). split; [|by apply sched_inv_inited].
    eapply schedule_empty. apply Hi.
  - destruct (schedule_inv s run _ w h Hi Hh) as (e & s' & E & Hs & _).
    inversion Hs as [p1 q1 s1 Hq Hi1|]; subst; [|done]. injection Hq as <- <-. exists s'. split; [done|]. split; [done|].
    apply (ro_cur _ _ (si_run_ok _ _ _ _ Hi1)). apply list_lookup_insert_eq. by eapply lookup_lt_Some.
Qed.

(** [n] yields in a row on hart [h], each by the process that runs then. *)
Fixpoint yields (n : nat) (h : nat) (s : kstate) : option kstate :=
  match n with
  | O => Some s
  | S n' => match serve_request h RYield s with
            | Stop (Resume _) s' => yields n' h s'
            | _ => None
            end
  end.

Lemma yield_served s run q w h p :
  sched_inv s run q w -> run !! h = Some (Some p) ->
  exists e s', serve_request h RYield s = Stop e s' /\ scheduled h (<[h := None]> run) (q ++ [p]) w e s'.
Proof.
  intros Hi Hh. destruct (serve_cases s run q w h p RYield Hi Hh) as [t Ht]. cbn [call_of] in Ht.
  destruct (yield_run (set_pm t s) run q w h p (sched_inv_pm _ _ _ _ _ Hi) Hh) as (e & s' & E & Hs & _).
  rewrite E in Ht. by exists e, s'.
Qed.

Lemma yields_rotate q1 r : forall q2 s run w h p,
  sched_inv s run (q1 ++ r :: q2) w -> run !! h = Some (Some p) ->
  exists s' q', yields (S (length q1)) h s = Some s' /\
    sched_inv s' (<[h := Some r]> run) q' w.
Proof.
  induction q1 as [|a q1 IH]; intros q2 s run w h p Hi Hh;
    destruct (yield_served s run _ w h p Hi Hh) as (e & s2 & E & Hs);
    inversion Hs as [b q' s3 Hq Hi2 He Hs3|s3 Hq]; subst; try done; cbn [app length] in *.
  - injection Hq as <- <-. rewrite list_insert_insert_eq in Hi2. exists s2. eexists. split; [|exact Hi2].
    cbn [yields]. by rewrite E.
  - injection Hq as <- <-. rewrite list_insert_insert_eq, <- app_assoc in Hi2.
    destruct (IH (q2 ++ [p]) s2 (<[h := Some a]> run) w h a) as (s3 & q3 & E3 & Hi3).
    { exact Hi2. } { apply list_lookup_insert_eq. by eapply lookup_lt_Some. }
    rewrite list_insert_insert_eq in Hi3. exists s3, q3. split; [|done].
    rewrite <- E3. change (yields (S (S (length q1))) h s) with
      (match serve_request h RYield s with Stop (Resume _) s' => yields (S (length q1)) h s' | _ => None end).
    by rewrite E.
Qed.

End Scheduling.

(** ** The theorems on queues, fairness, semaphores and wait *)

(** [insert_to_ready_queue] on every branch. A finished or unused process
    and a process that is queued already are left alone; any other process that
    is in no queue becomes [READY] and the last of the ready queue, and no
    other process, queue or register changes. The search through the queue
    always ends. *)
Theorem insert_to_ready_queue_correct s q w p x :
  links s q w -> procs s !! p = Some x -> (forall i, p ∉ w i) ->
  exists s', insert_to_ready_queue p s = Ret tt s' /\ same_rest s s' /\
    if decide (status x = ZOMBIE \/ status x = FREE \/ p ∈ q)
    then links s' q w /\ procs s' = procs s
    else links s' (q ++ [p]) w /\ cores s' = <[p := core (set_status READY x)]> (cores s).
Proof.
  intros Hl Hx Hw. destruct (decide (_ \/ _)) as [Hd|Hd].
  - exists (inited s). destruct (inited_view s) as (Hps & _ & Hr).
    split; [eapply insert_idle; eauto; tauto|]. split; [done|]. by split; [apply links_inited|].
  - destruct (insert_run s q w p x) as (s' & E & Hl' & Hc & Hr); auto; try tauto. eauto.
Qed.

(** C15: bounded waiting. When the process [r] has [k] processes before it in
    the ready queue, the hart [h] runs it after [k + 1] yields: whoever runs in
    between goes behind it. *)
Theorem yield_bounded_waiting `{Linker} s run q1 r q2 w h p :
  sched_inv s run (q1 ++ r :: q2) w -> run !! h = Some (Some p) ->
  exists s', yields (S (length q1)) h s = Some s' /\ current s' !! h = Some (Some r).
Proof.
  intros Hi Hh. destruct (yields_rotate q1 r q2 s run w h p Hi Hh) as (s' & q' & E & Hi').
  exists s'. split; [done|]. apply (ro_cur _ _ (si_run_ok _ _ _ _ Hi')).
  apply list_lookup_insert_eq. by eapply lookup_lt_Some.
Qed.

(** C10: the semaphores count and hand over in order. [do_semP] on a positive
    semaphore takes one and goes on; otherwise the process is blocked behind
    those that wait already, the values stay, and the hart schedules. [do_semV] gives to the
    first process that waits, which becomes the last of the ready queue while
    the value stays; when nobody waits the value grows by one. The invariant is
    kept, so a positive semaphore never has waiters. *)
Theorem semaphore_correct `{Linker} s run q w h p x sid m :
  sched_inv s run q w -> run !! h = Some (Some p) -> procs s !! p = Some x -> 0 <= sid ->
  sem_table s !! Z.to_nat sid = Some m -> ifuse m <> 0 -> value m <> 2147483647 ->
  let i := Z.to_nat sid in
  (if 0 <? value m
   then exists s', do_semP h sid s = Ret tt s' /\ sched_inv s' run q w /\
          sem_table s' = <[i := mkSem (ifuse m) (value m - 1) None]> (sem_table s)
   else exists e s', do_semP h sid s = Stop e s' /\
          scheduled h (<[h := None]> run) q (upd_at w i (w i ++ [p])) e s' /\ counts s' = counts s) /\
  match w i with
  | [] => exists s', do_semV h sid s = Ret tt s' /\ sched_inv s' run q w /\
            sem_table s' = <[i := mkSem (ifuse m) (value m + 1) None]> (sem_table s)
  | r :: l => exists s', do_semV h sid s = Ret tt s' /\
            sched_inv s' run (q ++ [r]) (upd_at w i l) /\
            counts s' = counts s
  end.
Proof.
  intros Hi Hh Hx H0 Hm Hu Hv i. split; [by eapply semP_run|].
  subst i. destruct (w (Z.to_nat sid)) as [|r l] eqn:Hw.
  - by eapply semV_free.
  - by eapply semV_wake.
Qed.

(** C27: [sys_user_wait] of the process that hart [h] runs.  [wait(-1)] returns the pid of the terminated
    child in the lowest slot; [wait(n)] returns -1 for a number that is no slot or whose process is no child of the caller, and [n] for a
    terminated child; in these cases it changes nothing at all, so that the slot of the child is not released and the same child is reported again.
    In all others (no terminated child, or the child [n] is still at work) the caller becomes [BLOCKED], the hart
    schedules, and the call does not return.  One of the cases always applies. *)
Theorem sys_user_wait_correct `{Linker} s run q w h p n :
  sched_inv s run q w -> run !! h = Some (Some p) ->
  (exists o, wait_result s p n o) /\
  forall o, wait_result s p n o ->
  match o with
  | Some v => sys_user_wait h n s = Ret v s
  | None => waits s run q w h p (sys_user_wait h n s)
  end.
Proof. intros Hi Hh. split; [by eapply wait_total|]. by apply wait_outcome. Qed.

(** ** A small machine on which the theorems apply *)

Module Demo.

#[local] Instance linker0 : Linker := {|
  trap_sec_start := 2147487744; smode_trap_vector := 2147487752;
  smode_trap_handler_addr := 2147491840 |}.

Definition csr0 : csr := mkCsr 0 0 0 0 0 0 0.
Definition k0 : kstate := mkK boot16 [] [] [None; None] None 0 0 0 [0; 0] [csr0; csr0].

Definition proc_at (i : nat) (par : option nat) : process :=
  set_parent par (set_trapframe (2147483648 + 4096 * Z.of_nat i) (set_status READY (zero_proc i))).

Definition spawn (i : nat) (par : option nat) (s : kstate) : kstate :=
  final (insert_to_ready_queue i (set_procs (<[i := proc_at i par]> (procs s)) s)).

Definition d1 : kstate := final (init_proc_pool k0).
Definition d2 : kstate := spawn 0 None d1.
Definition d3 : kstate := spawn 1 (Some 0%nat) d2.
Definition d4 : kstate := final (schedule 0 d3).
Definition d5 : kstate := final (do_semNew 0 d4).

Definition idle : list (option nat) := [None; None].
Definition run0 : list (option nat) := [Some 0%nat; None].

Lemma k0_boot : kernel_boot k0.
Proof. by split. Qed.

Lemma d1_inv : sched_inv d1 idle [] (fun _ => []).
Proof.
  destruct (init_proc_pool_inv k0 k0_boot) as (s & E & Hi & _).
  unfold d1. rewrite E. exact Hi.
Qed.

Lemma spawn_inv s run q w i par :
  sched_inv s run q w -> (exists y, procs s !! i = Some y /\ status y = FREE) -> (i < 4)%nat ->
  (forall r, par = Some r -> (r < NPROC)%nat) -> sched_inv (spawn i par s) run (q ++ [i]) w.
Proof.
  intros Hi Hf Hlt Hp. destruct (spawn_run s run q w i (proc_at i par) Hi) as (s' & E & Hi' & _).
  { split; [done|done| |done]. cbn. repeat split; klia. }
  unfold spawn. rewrite E. exact Hi'.
Qed.

Lemma d2_inv : sched_inv d2 idle [0%nat] (fun _ => []).
Proof. apply (spawn_inv d1 idle []); [apply d1_inv|eexists; split; reflexivity|lia|done]. Qed.

Lemma d3_inv : sched_inv d3 idle [0%nat; 1%nat] (fun _ => []).
Proof.
  apply (spawn_inv d2 idle [0%nat]); [apply d2_inv|eexists; split; reflexivity|lia|].
  intros r [= <-]. unfold NPROC. lia.
Qed.

Lemma d4_inv : sched_inv d4 run0 [1%nat] (fun _ => []).
Proof.
  destruct (schedule_inv d3 idle _ _ 0 d3_inv eq_refl) as (e & s & E & Hs & _).
  unfold d4. rewrite E. inversion Hs as [p q' s' Hq Hi|? Hq]; [|done]. subst.
  injection Hq as <- <-. exact Hi.
Qed.

Lemma d5_inv : sched_inv d5 run0 [1%nat] (fun _ => []).
Proof.
  destruct (semNew_run d4 run0 _ _ 0 d4_inv) as (s & E & Hi & _). unfold d5. rewrite E. exact Hi.
Qed.

End Demo.

(** Two processes are queued, hart 0 takes the first, which yields to the second. *)
Lemma reachable_sched_inv_witness :
  exists q w, sched_inv (final (@serve_request Demo.linker0 0 RYield Demo.d4)) [Some 1%nat; None] q w.
Proof.
  eapply (@reachable_sched_inv Demo.linker0 Demo.k0 Demo.d1).
  - exact Demo.k0_boot.
  - reflexivity.
  - eapply rtc_l; [|eapply rtc_l; [|eapply rtc_l; [|eapply rtc_l; [|apply rtc_refl]]]].
    + apply (@ms_spawn Demo.linker0 Demo.d1 _ 0%nat (Demo.proc_at 0 None) Demo.d2).
      * split; [eexists; split; reflexivity|reflexivity|repeat split; cbv; congruence|done].
      * vm_compute; reflexivity.
    + apply (@ms_spawn Demo.linker0 Demo.d2 _ 1%nat (Demo.proc_at 1 (Some 0%nat)) Demo.d3).
      * split; [eexists; split; reflexivity|reflexivity|repeat split; cbv; congruence|]. intros r [= <-]. unfold NPROC; lia.
      * vm_compute; reflexivity.
    + apply (@ms_idle Demo.linker0 Demo.d3 _ 0%nat (Resume 0) Demo.d4); [reflexivity|vm_compute; reflexivity].
    + change (after 0 (replicate NCPU None) (Resume 0)) with Demo.run0. change [Some 1%nat; None] with (after 0 Demo.run0 (Resume 1)).
      apply (@ms_trap Demo.linker0 Demo.d4 Demo.run0 0%nat 0%nat RYield (Resume 1)); [reflexivity|intros q w _; exact I|vm_compute; reflexivity].
Defined.

Lemma trap_is_served_witness :
  exists e s', @serve_request Demo.linker0 0 RYield Demo.d4 = Stop e s' /\ leaves_kernel e /\
    exists q' w', sched_inv s' (after 0 Demo.run0 e) q' w'.
Proof.
  apply (@trap_is_served Demo.linker0 Demo.d4 Demo.run0 [1%nat] (fun _ => []) 0%nat 0%nat RYield).
  - exact Demo.d4_inv.
  - reflexivity.
  - exact I.
Defined.

Lemma schedule_correct_witness :
  exists s', @schedule Demo.linker0 0 Demo.d3 = Stop (Resume 0) s' /\
    sched_inv s' [Some 0%nat; None] [1%nat] (fun _ => []) /\ current s' !! 0%nat = Some (Some 0%nat).
Proof.
  exact (@schedule_correct Demo.linker0 Demo.d3 Demo.idle [0%nat; 1%nat] (fun _ => []) 0%nat
           Demo.d3_inv eq_refl).
Defined.

Lemma insert_to_ready_queue_correct_witness :
  exists s', insert_to_ready_queue 0 Demo.d4 = Ret tt s' /\ links s' [1%nat; 0%nat] (fun _ => []).
Proof.
  destruct (insert_to_ready_queue_correct Demo.d4 [1%nat] (fun _ => []) 0%nat
    (set_status RUNNING (Demo.proc_at 0 None))) as (s' & E & _ & H).
  - exact (si_links _ _ _ _ Demo.d4_inv).
  - reflexivity.
  - intros i Hi. by apply not_elem_of_nil in Hi.
  - exists s'. split; [exact E|]. rewrite decide_False in H; [exact (proj1 H)|].
    cbn. rewrite list_elem_of_singleton. intros [?|[?|?]]; congruence.
Defined.

Lemma yield_bounded_waiting_witness :
  exists s', @yields Demo.linker0 1 0 Demo.d4 = Some s' /\ current s' !! 0%nat = Some (Some 1%nat).
Proof.
  exact (@yield_bounded_waiting Demo.linker0 Demo.d4 Demo.run0 [] 1%nat [] (fun _ => []) 0%nat 0%nat
           Demo.d4_inv eq_refl).
Defined.

Lemma semaphore_correct_witness :
  (exists e s', @do_semP Demo.linker0 0 0 Demo.d5 = Stop e s') /\
  (exists s', @do_semV Demo.linker0 0 0 Demo.d5 = Ret tt s').
Proof.
  destruct (@semaphore_correct Demo.linker0 Demo.d5 Demo.run0 [1%nat] (fun _ => []) 0%nat 0%nat
    (set_status RUNNING (Demo.proc_at 0 None)) 0 (mkSem 1 0 None)) as [HP HV].
  - exact Demo.d5_inv.
  - reflexivity.
  - reflexivity.
  - lia.
  - reflexivity.
  - discriminate.
  - discriminate.
  - split; [destruct HP as (e & s' & E & _)|destruct HV as (s' & E & _)]; eauto.
Defined.

Lemma sys_user_wait_correct_witness :
  (exists e s', @sys_user_wait Demo.linker0 0 1 Demo.d4 = Stop e s') /\ @sys_user_wait Demo.linker0 0 7 Demo.d4 = Ret (-1) Demo.d4.
Proof.
  destruct (@sys_user_wait_correct Demo.linker0 Demo.d4 Demo.run0 [1%nat] (fun _ => []) 0%nat 0%nat 1 Demo.d4_inv eq_refl) as [_ H1].
  destruct (@sys_user_wait_correct Demo.linker0 Demo.d4 Demo.run0 [1%nat] (fun _ => []) 0%nat 0%nat 7 Demo.d4_inv eq_refl) as [_ H7].
  split.
  - destruct (H1 None) as (e & s' & _ & E & _); [|by exists e, s'].
    eapply wr_at_work; [unfold NPROC; lia|vm_compute; reflexivity|reflexivity|discriminate].
  - apply (H7 (Some (-1))). eapply wr_stranger; [unfold NPROC; lia|vm_compute; reflexivity|discriminate].
Defined.

(** The parent, process 0, is blocked on semaphore 0 and its child runs. *)
Definition parent_in_P : kstate := final (@do_semP Demo.linker0 0 0 Demo.d5).

Lemma parent_in_P_inv :
  sched_inv parent_in_P [Some 1%nat; None] [] (upd_at (fun _ => []) 0 [0%nat]).
Proof.
  pose proof (@semP_run Demo.linker0 Demo.d5 Demo.run0 [1%nat] (fun _ => []) 0 0
    (set_status RUNNING (Demo.proc_at 0 None)) 0 (mkSem 1 0 None)
    Demo.d5_inv eq_refl eq_refl ltac:(lia) eq_refl ltac:(discriminate)) as (e & s & E & Hs & _).
  unfold parent_in_P. rewrite E. inversion Hs as [p q' s' Hq Hi|? Hq]; [|done]. subst.
  injection Hq as <- <-. exact Hi.
Qed.

(** the wake-up in [sys_user_exit] does not ask what its parent waits for.
    From a state that satisfies the invariant, in which process 0 waits on
    semaphore 0, the exit of its child puts process 0 back to work while the
    semaphore still lists it: the invariant is lost for good, whatever the
    queues are taken to be. *)
Theorem exit_corrupts_wait_queue :
  (exists run q w, sched_inv parent_in_P run q w) /\
  exists s', @sys_user_exit Demo.linker0 0 0 parent_in_P = Stop (Resume 0) s' /\
    forall run q w, ~ sched_inv s' run q w.
Proof.
  split; [do 3 eexists; exact parent_in_P_inv|].
  exists (final (@sys_user_exit Demo.linker0 0 0 parent_in_P)). split; [vm_compute; reflexivity|].
  intros run q w Hi.
  set (s := final _) in Hi.
  assert (Hm : sem_table s !! 0%nat = Some (mkSem 1 0 (Some 0%nat))) by (vm_compute; reflexivity).
  assert (Hc : status <$> cores s !! 0%nat = Some RUNNING) by (vm_compute; reflexivity).
  clearbody s. destruct (cores s !! 0%nat) as [c|] eqn:E; [|done]. injection Hc as Hc.
  pose proof (lk_wq _ _ _ (si_links _ _ _ _ Hi) _ _ Hm) as Hw. cbn in Hw.
  destruct (w 0%nat) as [|a l] eqn:Ew; [done|]. destruct Hw as ([= <-] & _).
  assert (Hin : 0%nat ∈ w 0%nat) by (rewrite Ew; apply list_elem_of_here).
  pose proof (si_wait _ _ _ _ Hi 0%nat c 0%nat E Hin). congruence.
Qed.

(** ** What the locks do not cover

    [do_semP] and [do_semV] take no lock.  [do_semP] in two parts, between which
    another hart may run: the test of the value, and the wait. *)
Section Race.
Context `{Linker}.

Definition semP_test (sid : nat) : M kstate bool :=
  let* sem := get_sem sid in
  if 0 <? value sem then put_sem sid (mkSem (ifuse sem) (value sem - 1) (wait_queue sem)) ;;; ret true else ret false.
Definition semP_wait (tp sid : nat) : M kstate unit :=
  let* p := self tp in
  let* sem := get_sem sid in
  sem_enqueue sid sem p ;;;
  schedule tp.

Lemma do_semP_parts tp sid s :
  bad_sid s sid = false -> is_Some (current s !! tp ≫= id) ->
  do_semP tp sid s = (let* taken := semP_test (Z.to_nat sid) in if taken then ret tt else semP_wait tp (Z.to_nat sid)) s.
Proof.
  intros Hb [p Hp]. destruct (good_sid _ _ Hb) as (m & Hm & _). pose proof (get_sem_run _ _ _ Hm) as Hg.
  destruct (current s !! tp) as [[p'|]|] eqn:Hc; cbn in Hp; try done. injection Hp as ->.
  unfold do_semP, semP_test. rewrite (bind_Ret _ _ s s s) by done. rewrite Hb, (bind_Ret _ _ _ _ _ Hg), bind_assoc, (bind_Ret _ _ _ _ _ Hg).
  destruct (0 <? value m); [done|]. rewrite bind_ret_l. unfold semP_wait.
  assert (Hs : self tp s = Ret p s) by (unfold self, get_current, bind; by rewrite Hc).
  by rewrite !(bind_Ret _ _ _ _ _ Hs), (bind_Ret _ _ _ _ _ Hg).
Qed.
End Race.

(** Process 0 runs on hart 0 and process 1 on hart 1; semaphore 0 is 0. *)
Definition both_run : kstate := final (@schedule Demo.linker0 1 Demo.d5).

(** a wake-up is lost when a whole [do_semV] falls between the two parts of a [do_semP]: the process
    goes to sleep on a semaphore whose value is 1, and no queues satisfy the invariant any more. *)
Theorem semaphore_race :
  exists s1 s2 e s3 m, semP_test 0 both_run = Ret false s1 /\ @do_semV Demo.linker0 1 0 s1 = Ret tt s2 /\
    @semP_wait Demo.linker0 0 0 s2 = Stop e s3 /\
    sem_table s3 !! 0%nat = Some m /\ value m = 1 /\ wait_queue m = Some 0%nat /\ forall run q w, ~ sched_inv s3 run q w.
Proof.
  set (s2 := final (@do_semV Demo.linker0 1 0 both_run)). set (s3 := final (@semP_wait Demo.linker0 0 0 s2)).
  exists both_run, s2, Wfi, s3, (mkSem 1 1 (Some 0%nat)). do 3 (split; [vm_compute; reflexivity|]).
  assert (Hm : sem_table s3 !! 0%nat = Some (mkSem 1 1 (Some 0%nat))) by (vm_compute; reflexivity).
  split; [exact Hm|]. split; [done|]. split; [done|]. intros run q w Hi. clearbody s3.
  pose proof (lk_wq _ _ _ (si_links _ _ _ _ Hi) _ _ Hm) as Hw. cbn in Hw.
  rewrite (si_sem _ _ _ _ Hi _ _ Hm) in Hw; [done|]. right. cbn. lia.
Qed.
