(* ===== verification/Fork.v ===== *)
(** * Creating processes: [alloc_process], [clr_proc] and [do_fork]
      (kernel/process.c), [init_proc_file_management] (kernel/proc_file.c)

    The address space of a new process is built in the words of physical
    memory; [do_fork] copies the trapframe, the stack and the data, shares the
    code, and shares the heap copy-on-write. *)
From S2P Require Import Prelude Pmm Vmm Process Sched.

Definition MAX_FILES : nat := 128.
Definition FD_NONE : Z := 0.
Definition FD_OPENED : Z := 1.

(** Offsets in [proc_file_management] and [struct file]. *)
Definition PF_cwd : Z := 0.
Definition PF_file (fd : nat) : Z := 8 + 24 * Z.of_nat fd.
Definition PF_nfiles : Z := 8 + 24 * Z.of_nat MAX_FILES.

(** Entry [i] of [mapped_info]. *)
Definition region (base i : Z) : Z := base + 16 * i.
Definition set_region (base i va npages seg : Z) : M pstate unit :=
  store (region base i) va ;;;
  store32 (region base i + 8) npages ;;;
  store32 (region base i + 12) seg.

(** [for (fd = 0; fd < MAX_FILES; ++fd) pfiles->opened_files[fd].status = FD_NONE;] *)
Fixpoint clear_files (n : nat) (pf : Z) (fd : nat) : M pstate unit :=
  match n with
  | O => ret tt
  | S n' => store32 (pf + PF_file fd) FD_NONE ;;; clear_files n' pf (S fd)
  end.

(** [root] is the value of the global [vfs_root_dentry]. *)
Definition init_proc_file_management (root : Z) : M pstate Z :=
  let* pf := alloc_page in
  store (pf + PF_cwd) root ;;;
  store32 (pf + PF_nfiles) 0 ;;;
  clear_files MAX_FILES pf 0 ;;;
  ret pf.

Definition reclaim_proc_file_management (pf : Z) : M pstate unit := free_page pf.

Section Fork.
Context `{Linker}.

Fixpoint first_free (ps : list process) (i : nat) : option nat :=
  match ps with
  | [] => None
  | x :: ps' => if bool_decide (status x = FREE) then Some i else first_free ps' (S i)
  end.

(** The segments that [alloc_process] and [clr_proc] both set up, once the
    trapframe, the page directory and the kernel stack are there: the user
    stack, the region table, and the mappings of stack, trapframe and trap code. *)
Definition map_basic_segments (tp : nat) (i : nat) : M kstate unit :=
  let* user_stack := on_pm alloc_page in
  let* x := get_proc i in
  on_pm (store (trapframe x + TF_sp) USER_STACK_TOP) ;;;
  let* mi := on_pm alloc_page in
  upd_proc i (set_mapped_info mi) ;;;
  on_pm (memset_words 512 mi 0) ;;;
  vm_call tp tt (user_vm_map (pagetable x) (USER_STACK_TOP - PGSIZE) PGSIZE user_stack
                   (prot_to_type (PROT_WRITE .| PROT_READ) 1)) ;;;
  on_pm (set_region mi STACK_SEGMENT (USER_STACK_TOP - PGSIZE) 1 STACK_SEGMENT) ;;;
  vm_call tp tt (user_vm_map (pagetable x) (trapframe x) PGSIZE (trapframe x)
                   (prot_to_type (PROT_WRITE .| PROT_READ) 0)) ;;;
  on_pm (set_region mi CONTEXT_SEGMENT (trapframe x) 1 CONTEXT_SEGMENT) ;;;
  vm_call tp tt (user_vm_map (pagetable x) trap_sec_start PGSIZE trap_sec_start
                   (prot_to_type (PROT_READ .| PROT_EXEC) 0)) ;;;
  on_pm (set_region mi SYSTEM_SEGMENT trap_sec_start 1 SYSTEM_SEGMENT) ;;;
  upd_proc i (fun x => set_user_heap (mkHeap USER_FREE_ADDRESS_START USER_FREE_ADDRESS_START
                         (free_pages_address (user_heap x)) 0) x) ;;;
  on_pm (set_region mi HEAP_SEGMENT USER_FREE_ADDRESS_START 0 HEAP_SEGMENT) ;;;
  upd_proc i (set_total_mapped_region 4).

Definition alloc_process (tp : nat) (root : Z) : M kstate nat :=
  let* s := get in
  match first_free (procs s) 0 with
  | None => halt (Panic "cannot find any free process structure.")
  | Some i =>
      upd_proc i (set_status READY) ;;;
      let* tf := on_pm alloc_page in
      upd_proc i (set_trapframe tf) ;;;
      on_pm (memset_words 35 tf 0) ;;;
      on_pm (store (tf + TF_tp) (Z.of_nat tp)) ;;;
      let* pt := on_pm alloc_page in
      upd_proc i (set_pagetable pt) ;;;
      on_pm (memset_words 35 tf 0) ;;;
      on_pm (store (tf + TF_tp) (Z.of_nat tp)) ;;;
      on_pm (memset_words 512 pt 0) ;;;
      let* ks := on_pm alloc_page in
      upd_proc i (set_kstack (u64 (ks + PGSIZE))) ;;;
      map_basic_segments tp i ;;;
      let* pf := on_pm (init_proc_file_management root) in
      upd_proc i (set_pfiles pf) ;;;
      ret i
  end.

Definition clr_proc (tp : nat) (root : Z) (i : nat) : M kstate unit :=
  let* tf := on_pm alloc_page in
  upd_proc i (set_trapframe tf) ;;;
  on_pm (memset_words 35 tf 0) ;;;
  let* pt := on_pm alloc_page in
  upd_proc i (set_pagetable pt) ;;;
  on_pm (memset_words 512 pt 0) ;;;
  let* ks := on_pm alloc_page in
  upd_proc i (set_kstack (u64 (ks + PGSIZE))) ;;;
  map_basic_segments tp i ;;;
  let* pf := on_pm (init_proc_file_management root) in
  upd_proc i (set_pfiles pf) ;;;
  upd_proc i (set_status READY).

(** ** [do_fork] *)

(** The local array [free_block_filter]: [memset] clears [MAX_HEAP_PAGES]
    bytes, that is its first 8 entries; [stale] is what the stack held. *)
Definition filter_init (stale : list Z) : list Z := replicate 8 0 ++ drop 8 stale.

Definition filter_set (f : list Z) (i : Z) : M kstate (list Z) :=
  if (0 <=? i) && (i <? Z.of_nat MAX_HEAP_PAGES)
  then ret (<[Z.to_nat i := 1]> f)
  else halt (UB "free_block_filter out of range").

Fixpoint mark_free (l : list Z) (bottom : Z) (f : list Z) : M kstate (list Z) :=
  match l with
  | [] => ret f
  | a :: l' =>
      let* f' := filter_set f (i32 (u64 (a - bottom) / PGSIZE)) in
      mark_free l' bottom f'
  end.

(** One page of the heap is shared between parent and child. *)
Definition share_page (tp : nat) (ppt cpt blk : Z) : M kstate unit :=
  let* pa := on_pm (lookup_pa ppt blk) in
  if pa =? 0 then ret tt else
  vm_call tp tt (user_vm_map_cow cpt blk PGSIZE pa) ;;;
  vm_call tp tt (user_vm_set_cow ppt blk) ;;;
  on_pm (inc_page_ref pa).

Fixpoint share_heap (n : nat) (tp : nat) (ppt cpt blk bottom : Z) (f : list Z) : M kstate unit :=
  match n with
  | O => ret tt
  | S n' =>
      let i := u64 (blk - bottom) / PGSIZE in
      match f !! Z.to_nat i with
      | None => halt (UB "free_block_filter out of range")
      | Some b =>
          (if negb (b =? 0) then ret tt else share_page tp ppt cpt blk) ;;;
          share_heap n' tp ppt cpt (u64 (blk + PGSIZE)) bottom f
      end
  end.

(** Iterations of [for (b = bottom; b < top; b += PGSIZE)]. *)
Definition heap_pages (bottom top : Z) : nat := Z.to_nat ((top - bottom + PGSIZE - 1) / PGSIZE).

Definition fork_heap (tp : nat) (stale : list Z) (par chd : nat) : M kstate unit :=
  let* x := get_proc par in
  let* y := get_proc chd in
  let hm := user_heap x in
  check (Z.of_nat MAX_HEAP_PAGES <? free_pages_count hm) (UB "free_pages_address out of range") ;;;
  let* f := mark_free (take (Z.to_nat (free_pages_count hm)) (free_pages_address hm))
              (heap_bottom hm) (filter_init stale) in
  let* c := self tp in
  let* z := get_proc c in
  share_heap (heap_pages (heap_bottom (user_heap z)) (heap_top (user_heap z))) tp
    (pagetable x) (pagetable y) (heap_bottom (user_heap z)) (heap_bottom hm) f ;;;
  let* np := on_pm (load32 (region (mapped_info x) HEAP_SEGMENT + 8)) in
  on_pm (store32 (region (mapped_info y) HEAP_SEGMENT + 8) np) ;;;
  let* x1 := get_proc par in
  upd_proc chd (set_user_heap (user_heap x1)).

(** [child->mapped_info[child->total_mapped_region] = ...; total_mapped_region++] *)
Definition register_region (chd : nat) (va np seg : Z) : M kstate unit :=
  let* y := get_proc chd in
  on_pm (set_region (mapped_info y) (total_mapped_region y) va np seg) ;;;
  upd_proc chd (fun y => set_total_mapped_region (total_mapped_region y + 1) y).

Fixpoint copy_data (n : nat) (tp : nat) (ppt cpt va : Z) : M kstate unit :=
  match n with
  | O => ret tt
  | S n' =>
      let* page_pa := on_pm (lookup_pa ppt va) in
      let* new_pa := on_pm alloc_page in
      on_pm (memcpy_words 512 new_pa page_pa) ;;;
      vm_call tp tt (user_vm_map cpt va PGSIZE new_pa (prot_to_type (PROT_WRITE .| PROT_READ) 1)) ;;;
      copy_data n' tp ppt cpt (u64 (va + PGSIZE))
  end.

Definition fork_region (tp : nat) (stale : list Z) (par chd : nat) (i : nat) : M kstate unit :=
  let* x := get_proc par in
  let* y := get_proc chd in
  let r := region (mapped_info x) (Z.of_nat i) in
  let* seg := on_pm (load32 (r + 12)) in
  if seg =? CONTEXT_SEGMENT then on_pm (memcpy_words 35 (trapframe y) (trapframe x))
  else if seg =? STACK_SEGMENT then
    let* cva := on_pm (load (region (mapped_info y) STACK_SEGMENT)) in
    let* dst := on_pm (lookup_pa (pagetable y) cva) in
    let* pva := on_pm (load r) in
    let* src := on_pm (lookup_pa (pagetable x) pva) in
    on_pm (memcpy_words 512 dst src)
  else if seg =? HEAP_SEGMENT then fork_heap tp stale par chd
  else if seg =? CODE_SEGMENT then
    let* va := on_pm (load r) in
    let* pa := on_pm (lookup_pa (pagetable x) va) in
    let* np := on_pm (load32 (r + 8)) in
    vm_call tp tt (user_vm_map (pagetable y) va (u32 (np * PGSIZE)) pa
                     (prot_to_type (PROT_READ .| PROT_EXEC) 1)) ;;;
    register_region chd va np CODE_SEGMENT
  else if seg =? DATA_SEGMENT then
    let* va := on_pm (load r) in
    let* np := on_pm (load32 (r + 8)) in
    copy_data (Z.to_nat np) tp (pagetable x) (pagetable y) va ;;;
    register_region chd va np DATA_SEGMENT
  else ret tt.

Fixpoint fork_regions (n : nat) (tp : nat) (stale : list Z) (par chd i : nat) : M kstate unit :=
  match n with
  | O => ret tt
  | S n' => fork_region tp stale par chd i ;;; fork_regions n' tp stale par chd (S i)
  end.

Definition do_fork (tp : nat) (root : Z) (stale : list Z) (par : nat) : M kstate Z :=
  let* chd := alloc_process tp root in
  let* x := get_proc par in
  fork_regions (Z.to_nat (total_mapped_region x)) tp stale par chd 0 ;;;
  upd_proc chd (set_status READY) ;;;
  let* y := get_proc chd in
  on_pm (store (trapframe y + TF_a 0) 0) ;;;
  upd_proc chd (set_parent (Some par)) ;;;
  insert_to_ready_queue chd ;;;
  let* y1 := get_proc chd in
  ret (i32 (pid y1)).

Definition sys_user_fork (tp : nat) (root : Z) (stale : list Z) : M kstate Z :=
  let* p := self tp in do_fork tp root stale p.

End Fork.
