(* ===== verification/Strap.v ===== *)
(** * Traps from user mode (kernel/strap.c)

    The timer, the page faults (growing stack and heap on demand, copying a
    page that is shared copy-on-write) and the dispatch of
    [smode_trap_handler]. *)
From S2P Require Import Prelude Pmm Vmm Process Sched Fork.

Definition CAUSE_ILLEGAL_INSTRUCTION : Z := 2.
Definition CAUSE_USER_ECALL : Z := 8.
Definition CAUSE_LOAD_PAGE_FAULT : Z := 13.
Definition CAUSE_STORE_PAGE_FAULT : Z := 15.
Definition CAUSE_MTIMER_S_TRAP : Z := 9223372036854775809.

(** [va & ~(PGSIZE - 1)] *)
Definition page_of (va : Z) : Z := Z.ldiff va 4095.

Section Traps.
Context `{Linker}.

Definition handle_mtimer_trap (tp : nat) : M kstate unit :=
  let* s := get in
  match g_ticks s !! tp with
  | None => halt (UB "g_ticks out of range")
  | Some t =>
      modify (fun s => set_g_ticks (<[tp := u64 (t + 1)]> (g_ticks s)) s) ;;;
      upd_csr tp (fun c => set_sip (Z.ldiff (sip c) SIP_SSIP) c)
  end.

(** [alloc_page] and [user_vm_map] of one page with read and write access. *)
Definition map_new_page (tp : nat) (root va : Z) : M kstate unit :=
  let* pa := on_pm alloc_page in
  vm_call tp tt (user_vm_map root va PGSIZE pa (prot_to_type (PROT_WRITE .| PROT_READ) 1)).

Definition handle_user_page_fault (tp : nat) (mcause sepc stval : Z) : M kstate unit :=
  if mcause =? CAUSE_STORE_PAGE_FAULT then
    when (USER_STACK_TOP <? stval)
      (kill_current_process tp "invalid memory access at address" 1) ;;;
    let* p := self tp in
    let* x := get_proc p in
    let low := u64 (USER_STACK_TOP - proc_size x) in
    if (stval <=? USER_STACK_TOP) && (low <? stval) then
      map_new_page tp (pagetable x) (page_of stval)
    else if (stval <=? low) && (heap_top (user_heap x) <=? stval) then
      kill_current_process tp "this address is not available!" 1
    else ret tt
  else ret tt.

(** A store to a page that is shared copy-on-write, whose entry is at [pte] and
    reads [w]. *)
Definition cow_fault (pte w : Z) : M pstate unit :=
  let pa := PTE2PA w in
  let* r := get_page_ref pa in
  if 1 <? r then
    let* new_pa := alloc_page in
    memcpy_words 512 new_pa pa ;;;
    store pte (PA2PTE new_pa .| prot_to_type (PROT_READ .| PROT_WRITE) 1 .| PTE_V) ;;;
    dec_page_ref pa
  else store pte (Z.ldiff (w .| PTE_W .| PTE_D) PTE_COW).

(** The case [CAUSE_STORE_PAGE_FAULT] of [smode_trap_handler]. *)
Definition store_page_fault (tp : nat) (fault_va : Z) : M kstate unit :=
  let va_page := page_of fault_va in
  let* p := self tp in
  let* x := get_proc p in
  let* pte := vm_call tp 0 (user_vm_get_pte (pagetable x) va_page) in
  let* w := if pte =? 0 then ret 0 else on_pm (load pte) in
  if negb (pte =? 0) && has w PTE_V && has w PTE_COW then on_pm (cow_fault pte w)
  else
    when (USER_STACK_TOP <? fault_va)
      (kill_current_process tp "invalid memory access at address 0x%lx" (i32 fault_va)) ;;;
    let low := u64 (USER_STACK_TOP - proc_size x) in
    if (fault_va <=? USER_STACK_TOP) && (low <? fault_va) then
      map_new_page tp (pagetable x) va_page
    else if (fault_va <=? low) && (heap_top (user_heap x) <=? fault_va) then
      kill_current_process tp "this address is not available!" 1
    else map_new_page tp (pagetable x) va_page.

(** [handle_syscall]: step over the [ecall], run the system call on the
    argument registers and store its result. *)
Definition handle_syscall (do_syscall : nat -> list Z -> M kstate Z) (tp : nat) (tf : Z)
  : M kstate unit :=
  let* epc := on_pm (load (tf + TF_epc)) in
  on_pm (store (tf + TF_epc) (u64 (epc + 4))) ;;;
  let* a0 := on_pm (load (tf + TF_a 0)) in
  let* a1 := on_pm (load (tf + TF_a 1)) in
  let* a2 := on_pm (load (tf + TF_a 2)) in
  let* a3 := on_pm (load (tf + TF_a 3)) in
  let* a4 := on_pm (load (tf + TF_a 4)) in
  let* a5 := on_pm (load (tf + TF_a 5)) in
  let* a6 := on_pm (load (tf + TF_a 6)) in
  let* a7 := on_pm (load (tf + TF_a 7)) in
  let* r := do_syscall tp [a0; a1; a2; a3; a4; a5; a6; a7] in
  on_pm (store (tf + TF_a 0) (u64 r)).

Definition smode_trap_handler (do_syscall : nat -> list Z -> M kstate Z) (tp : nat)
  : M kstate unit :=
  let* c := get_csr tp in
  when (has (sstatus c) SSTATUS_SPP) (kill_current_process tp "usertrap: not from user mode" (-1)) ;;;
  let* cur := get_current tp in
  check (bool_decide (cur = None)) (Panic "assert(current[tp])") ;;;
  let* p := deref cur in
  let* x := get_proc p in
  let* c := get_csr tp in
  on_pm (store (trapframe x + TF_epc) (sepc c)) ;;;
  let cause := scause c in
  (if cause =? CAUSE_USER_ECALL then handle_syscall do_syscall tp (trapframe x)
   else if cause =? CAUSE_MTIMER_S_TRAP then handle_mtimer_trap tp ;;; rrsched tp
   else if cause =? CAUSE_STORE_PAGE_FAULT then store_page_fault tp (stval c)
   else if cause =? CAUSE_LOAD_PAGE_FAULT then handle_user_page_fault tp cause (sepc c) (stval c)
   else if cause =? CAUSE_ILLEGAL_INSTRUCTION then kill_current_process tp "" (-1)
   else kill_current_process tp "unexpected exception happened." (-1)) ;;;
  resume_current tp.

End Traps.
