(* ===== verification/Cow.v ===== *)
(** * Copy-on-write: sharing a page in [do_fork] (kernel/process.c) and copying
      it on the first store (kernel/strap.c)

    Two page tables live in the same physical memory.  The lemmas say that an
    operation on one of them leaves the other alone; the theorems follow a heap
    page from [share_page] to [cow_fault]. *)
From S2P Require Import Prelude Pmm Vmm Process Sched Fork Strap.

(** ** Copying a page *)

(** Effect of the word loop of memcpy. *)
Fixpoint copied (n : nat) (d src : Z) (m : gmap Z Z) : gmap Z Z :=
  match n with O => m | S n' => copied n' (d + 8) (src + 8) (<[d := rd m src]> m) end.

Lemma memcpy_words_run n d src s :
  (forall i, 0 <= i < Z.of_nat n -> addr_ok (d + 8 * i) = true) ->
  (forall i, 0 <= i < Z.of_nat n -> addr_ok (src + 8 * i) = true) ->
  memcpy_words n d src s = Ret tt (set_mem (copied n d src (mem s)) s).
Proof.
  revert d src s. induction n as [|n IH]; intros d src s Hd Hs; cbn [memcpy_words copied].
  { by destruct s. }
  unfold bind, store, load. pose proof (Hd 0 ltac:(lia)) as H0. pose proof (Hs 0 ltac:(lia)) as H1.
  rewrite Z.mul_0_r, Z.add_0_r in H0, H1. rewrite H0, H1, IH; [done| |].
  - intros i Hi. replace (d + 8 + 8 * i) with (d + 8 * (i + 1)) by lia. apply Hd. lia.
  - intros i Hi. replace (src + 8 + 8 * i) with (src + 8 * (i + 1)) by lia. apply Hs. lia.
Qed.

Lemma rd_copied_out n d src m a :
  (a < d \/ d + 8 * Z.of_nat n <= a) -> rd (copied n d src m) a = rd m a.
Proof.
  revert d src m. induction n as [|n IH]; intros d src m H; cbn [copied]; [done|].
  rewrite IH by lia. apply rd_insert_ne. lia.
Qed.

Lemma rd_copied_in n d src m i :
  0 <= i < Z.of_nat n -> (src + 8 * Z.of_nat n <= d \/ d + 8 * Z.of_nat n <= src) ->
  rd (copied n d src m) (d + 8 * i) = rd m (src + 8 * i).
Proof.
  revert d src m i. induction n as [|n IH]; intros d src m i Hi Hdis; cbn [copied]; [lia|].
  destruct (decide (i = 0)) as [->|].
  - rewrite rd_copied_out by lia. rewrite !Z.mul_0_r, !Z.add_0_r. apply rd_insert_eq.
  - replace (d + 8 * i) with (d + 8 + 8 * (i - 1)) by lia. rewrite IH by lia.
    rewrite rd_insert_ne by lia. f_equal. lia.
Qed.

#[local] Opaque copied.

Lemma managed_words s p i : geometry s -> managed s p -> 0 <= i < 512 -> addr_ok (p + 8 * i) = true.
Proof.
  intros Hg Hm Hi. apply table_page_word; [by apply (managed_table s)|klia|].
  rewrite Z.mul_comm. apply Z.mod_mul. lia.
Qed.

(** ** Two address spaces *)

Definition tables_of (m : gmap Z Z) (root t : Z) : Prop := exists π, path_ok π /\ tbl m root π = Some t.

Definition separate (m : gmap Z Z) (r1 r2 : Z) : Prop :=
  forall t, tables_of m r1 t -> tables_of m r2 t -> False.

(** An operation on the tables of [r1] does not touch the space of [r2]. *)
Lemma frame_agree s l s' l' r1 r2 :
  vm_frame s l s' l' r1 -> vm_inv s l r2 -> pt_wf (mem s) r1 -> separate (mem s) r1 r2 ->
  pmm_inv s l -> tables_agree (mem s) (mem s') r2.
Proof.
  intros Hf Hi2 Hwf1 Hsep Hpm π t k Hok Ht Hk.
  pose proof (pt_page _ _ (vm_pt _ _ _ Hi2) π t Hok Ht) as (Ha & _).
  apply (vf_mem _ _ _ _ _ Hf).
  - intros p Hp Hin. assert (t = p) as ->; [|by apply (vm_sep _ _ _ Hi2 π p)].
    apply (page_neq_in_page t p (t + 8 * k)); auto using slot_in_page.
    apply (inv_free _ _ Hpm) in Hp as [(? & _) _]. done.
  - intros π' t' Hok' Ht' Hin. apply (Hsep t); [|by exists π].
    exists π'. split; [done|]. rewrite Ht'. f_equal. symmetry.
    apply (page_neq_in_page t t' (t + 8 * k)); auto using slot_in_page.
    by apply (pt_page _ _ Hwf1 π' t').
Qed.

Lemma frame_other s l s' l' r1 r2 :
  vm_frame s l s' l' r1 -> vm_inv s l r1 -> vm_inv s l r2 -> separate (mem s) r1 r2 ->
  vm_inv s' l' r2 /\ separate (mem s') r1 r2 /\
  (forall va, xlate (mem s') r2 va = xlate (mem s) r2 va).
Proof.
  intros Hf Hi1 Hi2 Hsep. pose proof (vm_pmm _ _ _ Hi1) as Hpm.
  pose proof (frame_agree _ _ _ _ _ _ Hf Hi2 (vm_pt _ _ _ Hi1) Hsep Hpm) as Hag.
  destruct (vf_suffix _ _ _ _ _ Hf) as [k Hk].
  split; [|split].
  - eapply agree_vm_inv; [exact Hi2|exact Hag|apply (vf_inv _ _ _ _ _ Hf)|].
    intros p Hp. left. rewrite Hk. apply elem_of_app. by right.
  - intros t (π & Hok & Ht) (π' & Hok' & Ht'). rewrite (agree_tbl (mem s)) in Ht' by done.
    apply (vf_new _ _ _ _ _ Hf) in Ht as [Ht|Ht]; [|by apply (vm_sep _ _ _ Hi2 π' t)|done].
    apply (Hsep t); [by exists π|by exists π'].
  - intros va. by apply agree_xlate.
Qed.

(** ** The first store to a shared page *)

(** Changing the allocator's part only keeps the translations. *)
Lemma vm_inv_counts s l s' l' root :
  vm_inv s l root -> mem s' = mem s -> pmm_inv s' l' -> (forall p, p ∈ l' -> p ∈ l) ->
  vm_inv s' l' root.
Proof.
  intros Hi Hm Hp Hl. eapply agree_vm_inv; [exact Hi| |done|].
  - intros π t k _ _ _. by rewrite Hm.
  - intros p Hin. left. auto.
Qed.

(** Writing a whole page that is neither free nor a table. *)
Lemma vm_inv_copied s l root q src :
  vm_inv s l root -> q mod PGSIZE = 0 -> q ∉ l -> ~ tables_of (mem s) root q ->
  let s' := set_mem (copied 512 q src (mem s)) s in
  vm_inv s' l root /\ tables_agree (mem s) (mem s') root.
Proof.
  intros Hi Hq Hql Hqt s'.
  assert (Ho : forall t k, t mod PGSIZE = 0 -> t <> q -> 0 <= k < 512 ->
    rd (copied 512 q src (mem s)) (t + 8 * k) = rd (mem s) (t + 8 * k)).
  { intros t k Ht Hne Hk. apply rd_copied_out. klia. }
  assert (Hag : tables_agree (mem s) (mem s') root).
  { intros π t k Hok Ht Hk. apply Ho; [by apply (pt_page _ _ (vm_pt _ _ _ Hi) π t)| |done].
    intros ->. apply Hqt. by exists π. }
  split; [|done]. eapply agree_vm_inv; [exact Hi|exact Hag| |by left].
  apply pmm_inv_set_mem; [apply Hi|]. intros x Hx.
  pose proof (proj1 (inv_free _ _ (vm_pmm _ _ _ Hi) x) Hx) as [(Hxa & _) _].
  replace x with (x + 8 * 0) by lia. apply Ho; [done| |lia]. by intros ->.
Qed.

Definition cow_private (q : Z) : Z := PA2PTE q .| prot_to_type (PROT_READ .| PROT_WRITE) 1 .| PTE_V.

(** The entry of an address lies in a table. *)
Lemma leaf_table s root va a :
  0 <= va < MAXVA -> pt_wf (mem s) root -> leaf (mem s) root va = Some a ->
  exists π t, path_ok π /\ tbl (mem s) root π = Some t /\ in_page a t.
Proof.
  intros Hva Hwf Ha. unfold leaf in Ha. destruct (tbl (mem s) root _) as [t|] eqn:Et; [|done].
  cbn in Ha. injection Ha as <-. exists (P2 (PX 2 va) (PX 1 va)), t.
  split; [split; apply PX_range; lia|]. split; [done|]. apply slot_in_page, PX_range. lia.
Qed.

(** The page just allocated, filled with the words of [pa], and mapped at [va]. *)
Definition copied_state (s : pstate) (q pa a v : Z) : pstate :=
  let s2 := set_mem (copied 512 q pa (mem s)) (alloc_result s q) in set_mem (<[a := v]> (mem s2)) s2.

Section CopyFault.
Context (s : pstate) (q : Z) (l : list Z) (root va a pa v : Z).
Hypothesis Hi : vm_inv s (q :: l) root.
Hypothesis Hva : 0 <= va < MAXVA.
Hypothesis Ha : leaf (mem s) root va = Some a.
Hypothesis Hm : managed s pa.
Hypothesis Hr : 0 < page_ref s pa.
Hypothesis Hnt : ~ tables_of (mem s) root pa.

Let s3 := copied_state s q pa a v.

Lemma fresh_facts :
  managed s q /\ pa <> q /\ q ∉ l /\ ~ tables_of (mem s) root q /\
  pmm_inv (alloc_result s q) l /\ vm_inv (alloc_result s q) l root.
Proof.
  pose proof (vm_pmm _ _ _ Hi) as Hpm. assert (Hin : q ∈ q :: l) by by left.
  pose proof (alloc_result_inv s (q :: l) Hpm q l eq_refl) as Hpm1.
  pose proof (proj1 (inv_free _ _ Hpm q) Hin) as [Hqm Hq0].
  split; [done|]. split; [intros ->; lia|]. split; [|split; [|split; [done|]]].
  - pose proof (inv_nodup _ _ Hpm) as Hn. by apply list.NoDup_cons in Hn as [? _].
  - intros (π & Hok & Ht). by apply (vm_sep _ _ _ Hi π q Hok Ht).
  - eapply vm_inv_counts; [exact Hi|done|done|]. intros p Hp. by right.
Qed.

Lemma copied_inv :
  vm_frame (set_mem (copied 512 q pa (mem s)) (alloc_result s q)) l s3 l root /\
  (forall x, 0 <= x < MAXVA -> xlate (mem s3) root x =
     if decide (x / PGSIZE = va / PGSIZE)
     then (if has v PTE_V then Some v else None) else xlate (mem s) root x).
Proof.
  destruct fresh_facts as (Hqm & Hne & Hql & Hqt & Hpm1 & Hi1).
  destruct (vm_inv_copied _ l root q pa Hi1 (proj1 Hqm) Hql Hqt) as [Hi2 Hag].
  assert (Ha2 : leaf (copied 512 q pa (mem s)) root va = Some a)
    by exact (eq_trans (agree_leaf _ _ _ va Hag) Ha).
  destruct (leaf_store _ l root va a v Hi2 Hva Ha2) as (_ & Hf & Hx). split; [exact Hf|].
  intros x Hxr. specialize (Hx x Hxr). destruct (decide _); [exact Hx|].
  exact (eq_trans Hx (agree_xlate _ _ _ x Hag)).
Qed.

Lemma copied_run (f : Z -> Z) (k : M pstate unit) :
  f q = v ->
  (let* new_pa := alloc_page in memcpy_words 512 new_pa pa ;;; store a (f new_pa) ;;; k) s = k s3.
Proof.
  intros Hfq. destruct fresh_facts as (Hqm & Hne & Hql & Hqt & Hpm1 & Hi1).
  pose proof (inv_geo _ _ (vm_pmm _ _ _ Hi)) as Hg.
  step_by ltac:(by apply (alloc_page_run s (q :: l) (vm_pmm _ _ _ Hi) q l)).
  step_by ltac:(apply memcpy_words_run; intros i Hir; by apply (managed_words s)).
  destruct (leaf_page _ _ _ Hva (vm_pt _ _ _ Hi) _ Ha) as [Hok _].
  step_by ltac:(unfold store; rewrite Hok; reflexivity). rewrite Hfq. reflexivity.
Qed.

(** The store of the page table entry does not touch a page that is no table. *)
Lemma copied_content p k :
  p mod PGSIZE = 0 -> ~ tables_of (mem s) root p -> 0 <= k < 512 ->
  rd (mem s3) (p + 8 * k) = if decide (p = q) then rd (mem s) (pa + 8 * k) else rd (mem s) (p + 8 * k).
Proof.
  destruct fresh_facts as (Hqm & Hne & _). intros Hp Hpt Hk.
  assert (Hpa : pa mod PGSIZE = 0) by apply Hm. assert (Hqa : q mod PGSIZE = 0) by apply Hqm.
  unfold s3, copied_state. cbn. rewrite rd_insert_ne.
  - destruct (decide (p = q)) as [->|Hpq]; [apply rd_copied_in; klia|apply rd_copied_out; klia].
  - intros Haa. unfold leaf in Ha. destruct (tbl (mem s) root _) as [t|] eqn:Et; [|done].
    cbn in Ha. injection Ha as Ha'. apply Hpt. exists (P2 (PX 2 va) (PX 1 va)).
    assert (Hok : path_ok (P2 (PX 2 va) (PX 1 va))) by (split; apply PX_range; lia).
    split; [done|]. rewrite Et. f_equal.
    apply (page_neq_in_page t p a); [by apply (pt_page _ _ (vm_pt _ _ _ Hi) _ _ Hok Et)|done| |].
    + rewrite <- Ha'. apply slot_in_page, PX_range. lia.
    + rewrite Haa. by apply slot_in_page.
Qed.

(** Outside of the fresh page and the entry nothing changes. *)
Lemma copied_outside y : ~ in_page y q -> y <> a -> rd (mem s3) y = rd (mem s) y.
Proof.
  intros Hy Hya. unfold s3, copied_state. cbn. rewrite rd_insert_ne by congruence. apply rd_copied_out. unfold in_page in Hy. kconst. lia.
Qed.

(** Tables that are not shared do not change. *)
Lemma copied_other other : vm_inv s (q :: l) other -> separate (mem s) root other -> tables_agree (mem s) (mem s3) other.
Proof.
  destruct fresh_facts as (Hqm & _). intros Ho Hsep π t k Hok Ht Hk.
  pose proof (pt_page _ _ (vm_pt _ _ _ Ho) π t Hok Ht) as (Hta & _). apply copied_outside.
  - intros Hin. assert (t = q) as ->; [|apply (vm_sep _ _ _ Ho π q Hok Ht); by left].
    apply (page_neq_in_page t q (t + 8 * k)); [done|apply Hqm|by apply slot_in_page|done].
  - intros Eq. apply (Hsep t); [|by exists π]. destruct (leaf_table s root va a Hva (vm_pt _ _ _ Hi) Ha) as (π' & t' & Hok' & Ht' & Hin).
    exists π'. split; [done|]. rewrite Ht'. f_equal. symmetry.
    apply (page_neq_in_page t t' a); [done|by apply (pt_page _ _ (vm_pt _ _ _ Hi) π' t')| |done].
    rewrite <- Eq. by apply slot_in_page.
Qed.

End CopyFault.

(** C8: the store fault on a shared copy-on-write page. The faulting process
    gets a fresh page with the same 512 words, mapped readable and writable at
    the address that faulted; the shared page keeps its content and loses one
    reference, the fresh one has one, and no other page has a different count; no other translation of the process changes.  No word of memory changes
    but those of the fresh page and the page table entry; every other address space whose tables
    are not shared with this one stays well formed and keeps all its translations. *)
Theorem cow_fault_copies s q l root va w a :
  vm_inv s (q :: l) root -> 0 <= va < MAXVA -> leaf (mem s) root va = Some a ->
  let pa := PTE2PA w in
  managed s pa -> 1 < page_ref s pa -> ~ tables_of (mem s) root pa ->
  exists s', cow_fault a w s = Ret tt s' /\ vm_inv s' l root /\
    (forall k, 0 <= k < 512 -> rd (mem s') (q + 8 * k) = rd (mem s) (pa + 8 * k)) /\
    (forall k, 0 <= k < 512 -> rd (mem s') (pa + 8 * k) = rd (mem s) (pa + 8 * k)) /\
    page_ref s' pa = page_ref s pa - 1 /\
    (forall x, 0 <= x < MAXVA -> xlate (mem s') root x =
       if decide (x / PGSIZE = va / PGSIZE) then Some (cow_private q) else xlate (mem s) root x) /\
    page_ref s' q = 1 /\ (forall p, managed s p -> p <> pa -> p <> q -> page_ref s' p = page_ref s p) /\
    (forall y, ~ in_page y q -> y <> a -> rd (mem s') y = rd (mem s) y) /\
    (forall other, vm_inv s (q :: l) other -> separate (mem s) root other ->
       vm_inv s' l other /\ forall x, xlate (mem s') other x = xlate (mem s) other x).
Proof.
  intros Hi Hva Ha pa Hm Hr Hnt. pose proof (vm_pmm _ _ _ Hi) as Hpm.
  assert (Hr0 : 0 < page_ref s pa) by lia.
  destruct (fresh_facts s q l root a pa 0 Hi Hm Hr0 Hnt) as (Hqm & Hne & Hql & Hqt & Hpm1 & _).
  destruct (copied_inv s q l root va a pa (cow_private q) Hi Hva Ha Hm Hr0 Hnt) as [Hf Hx].
  pose proof (copied_run s q l root va a pa (cow_private q) Hi Hva Ha Hm Hr0 Hnt) as Erun.
  set (s3 := copied_state s q pa a (cow_private q)) in *.
  assert (Hr3 : forall p, managed s p -> page_ref s3 p = if decide (p = q) then 1 else page_ref s p).
  { intros p Hp. change (page_ref (alloc_result s q) p = if decide (p = q) then 1 else page_ref s p).
    by rewrite (page_ref_alloc s (q :: l)). }
  assert (Hm3 : managed s3 pa) by done. pose proof (vm_pmm _ _ _ (vf_inv _ _ _ _ _ Hf)) as Hpm3.
  assert (Hrpa : page_ref s3 pa = page_ref s pa) by (rewrite Hr3 by done; by rewrite decide_False).
  assert (Hinv : vm_inv (unref_result s3 pa) l root).
  { eapply vm_inv_counts; [exact (vf_inv _ _ _ _ _ Hf)|done| |done]. apply unref_result_inv; [done|done|]. by rewrite Hrpa. }
  pose proof (copied_outside s q a pa (cow_private q)) as Hmem. fold s3 in Hmem.
  assert (Hms : mem (unref_result s3 pa) = mem s3) by reflexivity.
  exists (unref_result s3 pa). rewrite Hms. split; [|split; [exact Hinv|split; [|split; [|split; [|split; [|split; [|split; [|split; [exact Hmem|]]]]]]]]].
  - unfold cow_fault. step_by ltac:(by apply (get_page_ref_run s (q :: l))).
    fold pa. rewrite (proj2 (Z.ltb_lt 1 _)) by done.
    rewrite (Erun (fun q => PA2PTE q .| prot_to_type (PROT_READ .| PROT_WRITE) 1 .| PTE_V)) by done.
    unfold dec_page_ref. rewrite (free_page_run s3 l Hpm3 pa Hm3) by lia.
    rewrite (proj2 (Z.eqb_neq (page_ref s3 pa) 1)) by lia. done.
  - intros k Hk. unfold s3.
    rewrite (copied_content s q l root va a pa) by (auto; apply Hqm).
    by rewrite decide_True.
  - intros k Hk. unfold s3.
    rewrite (copied_content s q l root va a pa) by (auto; apply Hm).
    by rewrite decide_False.
  - rewrite (page_ref_unref s3 l) by done. by rewrite decide_True, Hrpa.
  - intros x Hxr. rewrite (Hx x Hxr).
    assert (Hv : has (cow_private q) PTE_V = true).
    { unfold cow_private. rewrite has_V, <- Z.bit0_odd, Z.lor_spec. by rewrite orb_true_r. }
    by rewrite Hv.
  - rewrite (page_ref_unref s3 l) by done. rewrite decide_False by done. rewrite Hr3 by done. by rewrite decide_True.
  - intros p Hp Hppa Hpq. rewrite (page_ref_unref s3 l) by done. rewrite decide_False by done. rewrite Hr3 by done. by rewrite decide_False.
  - intros other Ho Hsep. pose proof (copied_other s q l root va a pa (cow_private q) Hi Hva Ha Hm Hr0 Hnt other Ho Hsep) as Hag.
    split; [|intros x; exact (agree_xlate _ _ _ x Hag)].
    apply (vm_inv_counts s3 l); [|exact Hms|exact (vm_pmm _ _ _ Hinv)|done].
    apply (agree_vm_inv s (q :: l)); [exact Ho|exact Hag|exact Hpm3|]. intros p Hp. left. by right.
Qed.

(** ** Sharing a page *)

Definition cow_perm : Z := PTE_R .| PTE_A .| PTE_U .| PTE_COW .| PTE_V.

Lemma cow_valid pa : has (PA2PTE pa .| cow_perm) PTE_V = true.
Proof. rewrite has_V, <- Z.bit0_odd, Z.lor_spec. apply orb_true_r. Qed.

Lemma map_cow_one s l root blk pa :
  vm_inv s l root -> blk mod PGSIZE = 0 -> 0 <= blk -> blk + PGSIZE <= MAXVA ->
  (2 <= length l)%nat -> xlate (mem s) root blk = None ->
  exists s' l', user_vm_map_cow root blk PGSIZE pa s = Ret tt s' /\ vm_frame s l s' l' root /\
    (length l <= length l' + 2)%nat /\
    (forall x, 0 <= x < MAXVA -> xlate (mem s') root x =
       if decide (x / PGSIZE = blk / PGSIZE) then Some (PA2PTE pa .| cow_perm)
       else xlate (mem s) root x).
Proof.
  intros Hi Ha H0 Hmax Hlen Hun.
  assert (Hr1 : ROUNDDOWN blk PGSIZE = blk) by (apply rounddown_id; [unfold MAXVA in *; klia|done]).
  assert (Hr2 : ROUNDDOWN (u64 (blk + PGSIZE - 1)) PGSIZE = blk)
    by (unfold ROUNDDOWN, MAXVA in *; klia).
  assert (Hpc : page_count blk blk = 1%nat).
  { unfold page_count. rewrite Z.leb_refl. replace (blk - blk) with 0 by lia. reflexivity. }
  unfold user_vm_map_cow. rewrite Hr1, Hr2, Hpc. cbn [map_cow_loop]. change (_ .| PTE_V) with cow_perm.
  assert (Hva : 0 <= blk < MAXVA) by klia.
  destruct (page_walk_alloc s l root blk Hi Hva) as [(a & s1 & l1 & E & X & La & Hl1)|(s1 & _ & _ & ?)]; [|lia].
  pose proof (vf_inv _ _ _ _ _ (ve_frame _ _ _ _ _ X)) as Hi1.
  destruct (leaf_page _ _ _ Hva (vm_pt _ _ _ Hi1) _ La) as [Hok Hnz].
  destruct (leaf_store s1 l1 root blk a (PA2PTE pa .| cow_perm) Hi1 Hva La) as (Est & Hf & Hx).
  do 2 eexists. split; [|split; [|split; [exact Hl1|]]].
  - step_by ltac:(exact E). rewrite (proj2 (Z.eqb_neq a 0)) by done.
    step_by ltac:(unfold load; rewrite Hok; reflexivity).
    pose proof (ve_xlate _ _ _ _ _ X blk Hva) as Hxb. rewrite Hun in Hxb. unfold xlate in Hxb.
    rewrite La in Hxb. cbn in Hxb. destruct (has (rd (mem s1) a) PTE_V) eqn:Hv; [done|].
    cbn [check]. step_by ltac:(reflexivity). by step_by ltac:(exact Est).
  - eapply vm_frame_trans; [apply X|exact Hf].
  - intros x Hxr. rewrite (Hx x Hxr), cow_valid. destruct (decide _); [done|].
    by apply (ve_xlate _ _ _ _ _ X).
Qed.

Lemma vm_call_ret `{Linker} {A} tp (d : A) c s a t :
  c (pm s) = Ret a t -> vm_call tp d c s = Ret a (set_pm t s).
Proof. intros E. unfold vm_call, on_pm, zoom. by rewrite E. Qed.

Lemma on_pm_ret {A} (c : M pstate A) s a t : c (pm s) = Ret a t -> on_pm c s = Ret a (set_pm t s).
Proof. intros E. unfold on_pm, zoom. by rewrite E. Qed.

(** The three steps of [share_page] on physical memory. *)
Lemma share_pm s l ppt cpt blk w :
  vm_inv s l ppt -> vm_inv s l cpt -> separate (mem s) cpt ppt ->
  blk mod PGSIZE = 0 -> 0 <= blk -> blk + PGSIZE <= MAXVA -> (2 <= length l)%nat ->
  xlate (mem s) ppt blk = Some w -> xlate (mem s) cpt blk = None ->
  let pa := PTE2PA w in
  managed s pa -> 0 < page_ref s pa < 65535 ->
  exists t1 t2 l', user_vm_map_cow cpt blk PGSIZE pa s = Ret tt t1 /\
    user_vm_set_cow ppt blk t1 = Ret tt t2 /\ inc_page_ref pa t2 = Ret tt (inc_result t2 pa) /\
    vm_inv (inc_result t2 pa) l' ppt /\ vm_inv (inc_result t2 pa) l' cpt /\
    page_ref (inc_result t2 pa) pa = page_ref s pa + 1 /\
    (forall x, 0 <= x < MAXVA -> xlate (mem t2) cpt x =
       if decide (x / PGSIZE = blk / PGSIZE) then Some (PA2PTE pa .| cow_perm)
       else xlate (mem s) cpt x) /\
    (forall x, 0 <= x < MAXVA -> xlate (mem t2) ppt x =
       if decide (x / PGSIZE = blk / PGSIZE) then Some (Z.ldiff w PTE_W .| PTE_COW)
       else xlate (mem s) ppt x).
Proof.
  intros Hp Hc Hsep Ha H0 Hmax Hlen Hxp Hxc pa Hm Href.
  assert (Hva : 0 <= blk < MAXVA) by klia.
  destruct (map_cow_one s l cpt blk pa Hc Ha H0 Hmax Hlen Hxc) as (t1 & l1 & E1 & F1 & _ & X1).
  destruct (frame_other _ _ _ _ _ _ F1 Hc Hp Hsep) as (Hp1 & Hsep1 & Xp1).
  assert (Hxp1 : xlate (mem t1) ppt blk = Some w) by by rewrite Xp1.
  destruct (user_vm_set_cow_run t1 l1 ppt blk w Hp1 Hva Hxp1) as (t2 & E2 & F2 & X2).
  assert (Hsep1' : separate (mem t1) ppt cpt) by (intros t ??; by apply (Hsep1 t)).
  destruct (frame_other _ _ _ _ _ _ F2 Hp1 (vf_inv _ _ _ _ _ F1) Hsep1') as (Hc2 & _ & Xc2).
  assert (Hpl : pa ∉ l) by (intros Hin; apply (inv_free _ _ (vm_pmm _ _ _ Hp)) in Hin; lia).
  assert (Hm1 : managed t1 pa) by (unfold managed; by rewrite (vf_start _ _ _ _ _ F1), (vf_end _ _ _ _ _ F1)).
  assert (Hm2 : managed t2 pa) by (unfold managed; by rewrite (vf_start _ _ _ _ _ F2), (vf_end _ _ _ _ _ F2)).
  assert (Hr2 : page_ref t2 pa = page_ref s pa).
  { destruct (vf_suffix _ _ _ _ _ F1) as [k Hk].
    rewrite (vf_ref _ _ _ _ _ F2 pa Hm1); [by apply (vf_ref _ _ _ _ _ F1)|].
    intros Hin. apply Hpl. rewrite Hk. apply elem_of_app. by right. }
  pose proof (vm_pmm _ _ _ Hc2) as Hpm2.
  assert (Hpm3 : pmm_inv (inc_result t2 pa) l1) by (apply inc_result_inv; [done|done|lia]).
  exists t1, t2, l1. split; [done|]. split; [done|].
  split; [apply (inc_page_ref_run t2 l1 Hpm2); [done|lia]|].
  split; [eapply vm_inv_counts; [exact (vf_inv _ _ _ _ _ F2)|done|done|done]|].
  split; [eapply vm_inv_counts; [exact Hc2|done|done|done]|].
  split; [rewrite (page_ref_inc t2 l1) by done; rewrite decide_True by done; lia|].
  split; intros x Hx; [by rewrite Xc2, X1|by rewrite X2, Xp1].
Qed.

(** C7: forking shares a heap page without copying it. After [share_page] the
    parent and the child translate the address to the same physical page,
    neither of them may write it and both entries carry the copy-on-write mark,
    the page has one more reference, and every other translation of either
    process is what it was: the next store by either takes the path of
    [cow_fault]. *)
Theorem share_page_shares `{Linker} tp s l ppt cpt blk w :
  vm_inv (pm s) l ppt -> vm_inv (pm s) l cpt -> separate (mem (pm s)) cpt ppt ->
  blk mod PGSIZE = 0 -> 0 <= blk -> blk + PGSIZE <= MAXVA -> (2 <= length l)%nat ->
  xlate (mem (pm s)) ppt blk = Some w -> has w PTE_R = true ->
  xlate (mem (pm s)) cpt blk = None ->
  let pa := PTE2PA w in
  managed (pm s) pa -> 0 < page_ref (pm s) pa < 65535 -> pa <> 0 ->
  exists s' l', share_page tp ppt cpt blk s = Ret tt s' /\
    vm_inv (pm s') l' ppt /\ vm_inv (pm s') l' cpt /\
    page_ref (pm s') pa = page_ref (pm s) pa + 1 /\
    (forall x, 0 <= x < MAXVA -> xlate (mem (pm s')) cpt x =
       if decide (x / PGSIZE = blk / PGSIZE) then Some (PA2PTE pa .| cow_perm)
       else xlate (mem (pm s)) cpt x) /\
    (forall x, 0 <= x < MAXVA -> xlate (mem (pm s')) ppt x =
       if decide (x / PGSIZE = blk / PGSIZE) then Some (Z.ldiff w PTE_W .| PTE_COW)
       else xlate (mem (pm s)) ppt x).
Proof.
  intros Hp Hc Hsep Ha H0 Hmax Hlen Hxp HR Hxc pa Hm Href Hnz.
  destruct (share_pm (pm s) l ppt cpt blk w Hp Hc Hsep Ha H0 Hmax Hlen Hxp Hxc Hm Href)
    as (t1 & t2 & l' & E1 & E2 & E3 & Hp' & Hc' & Hr & Xc & Xp).
  exists (set_pm (inc_result t2 pa) s), l'. split; [|exact (conj Hp' (conj Hc' (conj Hr (conj Xc Xp))))].
  unfold share_page. step_by ltac:(apply on_pm_ret, lookup_pa_run; [apply Hp|done]).
  rewrite (proj2 (Z.leb_gt MAXVA blk)) by klia. rewrite Hxp, HR. cbn [orb]. fold pa.
  rewrite (proj2 (Z.eqb_neq pa 0)) by done.
  step_by ltac:(by apply vm_call_ret). step_by ltac:(by apply vm_call_ret).
  erewrite on_pm_ret by exact E3. reflexivity.
Qed.

(** ** Concrete spaces

    The tables and the user page of [Vmm.one], with more managed pages above:
    in [one2] the page is shared and one page is free, in [one3] two pages are
    free and a second, empty page table stands at [root2]. *)
Definition one2 : pstate :=
  mkP one_mem 2147500032 {[ 0 := 2 ]} one_page (one_page + 12288) 24576 0.
Definition one3 : pstate :=
  mkP (<[ 2147504128 := 2147500032 ]> one_mem) 2147504128 {[ 0 := 1 ]} one_page
      (one_page + 16384) 28672 0.
Definition root2 : Z := 2147745792.

Lemma one_ref_cases p n e :
  let s := mkP one_mem 0 {[ 0 := n ]} one_page e 0 0 in
  managed s p -> page_ref s p = if decide (p = one_page) then n else 0.
Proof.
  intros s (Ha & Hlo & _). unfold page_ref, ref_at, s in *. cbn in *.
  destruct (decide (p = one_page)) as [->|Hne]; [done|].
  rewrite lookup_singleton_ne; [done|]. unfold one_page in *. klia.
Qed.

Lemma one_counts n i : 0 <= n < 65536 -> 0 <= default 0 (({[ 0 := n ]} : gmap Z Z) !! i) < 65536.
Proof.
  intros Hn. destruct (decide (i = 0)) as [->|]; [by rewrite lookup_singleton_eq|].
  rewrite lookup_singleton_ne by done. cbn. lia.
Qed.

Lemma one2_pmm : pmm_inv one2 [2147500032].
Proof.
  split.
  - split; cbv; congruence.
  - done.
  - apply list.NoDup_singleton.
  - intros p. rewrite list_elem_of_singleton. split.
    + intros ->. split; [repeat split; cbv; congruence|done].
    + intros [Hm Hr]. pose proof (one_ref_cases p 2 (one_page + 12288) Hm) as Hc.
      change (page_ref one2 p) with (page_ref (mkP one_mem 0 {[ 0 := 2 ]} one_page (one_page + 12288) 0 0) p) in Hr.
      rewrite Hr in Hc. destruct Hm as (? & ? & ?). unfold one2, one_page in *. cbn in *.
      destruct (decide _); [done|]. klia.
  - intros i. apply one_counts. lia.
  - done.
Qed.

Lemma one2_inv : vm_inv one2 [2147500032] 2147483648.
Proof.
  pose proof (vm_pt _ _ _ one_inv) as Hwf. split; [apply one2_pmm|exact Hwf|].
  intros π t Hok Ht Hin%list_elem_of_singleton. apply one_tbl in Ht; [|done].
  destruct Ht as [[_ ->]|[[_ ->]|[_ ->]]]; done.
Qed.

Lemma cow_fault_copies_witness :
  exists s', cow_fault 2147491840 (PA2PTE one_page .| cow_perm) one2 = Ret tt s' /\
    vm_inv s' [] 2147483648 /\ page_ref s' one_page = 1 /\
    xlate (mem s') 2147483648 4194304 = Some (cow_private 2147500032).
Proof.
  destruct (cow_fault_copies one2 2147500032 [] 2147483648 4194304 (PA2PTE one_page .| cow_perm)
              2147491840 one2_inv) as (s' & E & Hi & _ & _ & Hr & Hx & _).
  - split; [lia|reflexivity].
  - reflexivity.
  - repeat split; cbv; congruence.
  - reflexivity.
  - intros (π & Hok & Ht). apply one_tbl in Ht; [|exact Hok].
    destruct Ht as [[_ Ht]|[[_ Ht]|[_ Ht]]]; revert Ht; cbv; congruence.
  - exists s'. split; [exact E|]. split; [exact Hi|]. split.
    + change (PTE2PA (PA2PTE one_page .| cow_perm)) with one_page in Hr. rewrite Hr. reflexivity.
    + rewrite Hx; [reflexivity|cbv; split; congruence].
Defined.

Lemma one3_pmm : pmm_inv one3 [2147504128; 2147500032].
Proof.
  split.
  - split; cbv; congruence.
  - done.
  - repeat (apply list.NoDup_cons; split; [rewrite ?elem_of_cons, ?elem_of_nil; lia|]). constructor.
  - intros p. rewrite !elem_of_cons, elem_of_nil. split.
    + intros [->|[->|[]]]; (split; [repeat split; cbv; congruence|done]).
    + intros [Hm Hr]. pose proof (one_ref_cases p 1 (one_page + 16384) Hm) as Hc.
      change (page_ref one3 p) with (page_ref (mkP one_mem 0 {[ 0 := 1 ]} one_page (one_page + 16384) 0 0) p) in Hr.
      rewrite Hr in Hc. destruct Hm as (? & ? & ?). unfold one3, one_page in *. cbn in *.
      destruct (decide _); [done|]. klia.
  - intros i. apply one_counts. lia.
  - done.
Qed.

Lemma one3_agree : tables_agree one_mem (mem one3) 2147483648.
Proof.
  intros π t k Hok Ht Hk. apply rd_insert_ne. apply one_tbl in Ht; [|done]. unfold idx_ok in Hk.
  destruct Ht as [[_ ->]|[[_ ->]|[_ ->]]]; lia.
Qed.

Lemma one3_inv : vm_inv one3 [2147504128; 2147500032] 2147483648.
Proof.
  split; [apply one3_pmm| |].
  - apply (pt_wf_ext one_mem); [apply agree_tbl, one3_agree|apply (vm_pt _ _ _ one_inv)].
  - intros π t Hok Ht. rewrite (agree_tbl _ _ _ one3_agree) in Ht by done.
    apply one_tbl in Ht; [|done]. rewrite !elem_of_cons, elem_of_nil.
    destruct Ht as [[_ ->]|[[_ ->]|[_ ->]]]; lia.
Qed.

Lemma one3_zero k : idx_ok k -> rd (mem one3) (root2 + 8 * k) = 0.
Proof.
  intros []. unfold one3, root2. cbn [mem]. rewrite rd_insert_ne by lia. rewrite one_rd.
  by rewrite !decide_False by lia.
Qed.

Lemma root2_tbl π t : path_ok π -> tbl (mem one3) root2 π = Some t -> t = root2.
Proof.
  assert (Hc : forall k, idx_ok k -> child (mem one3) root2 k = None)
    by (intros k Hk; unfold child; by rewrite one3_zero).
  destruct π as [|i|i j]; intros Hok; cbn [tbl].
  - by intros [= <-].
  - by rewrite Hc.
  - destruct Hok. by rewrite Hc.
Qed.

Lemma root2_inv : vm_inv one3 [2147504128; 2147500032] root2.
Proof.
  apply fresh_root; [apply one3_pmm|repeat split; cbv; congruence| |apply one3_zero].
  unfold root2. rewrite !elem_of_cons, elem_of_nil. lia.
Qed.

Definition cow_demo : kstate := set_pm one3 Demo.d4.

Lemma share_page_shares_witness :
  exists s' l', @share_page Demo.linker0 0 2147483648 root2 4194304 cow_demo = Ret tt s' /\
    vm_inv (pm s') l' 2147483648 /\ vm_inv (pm s') l' root2 /\ page_ref (pm s') one_page = 2.
Proof.
  destruct (@share_page_shares Demo.linker0 0 cow_demo [2147504128; 2147500032] 2147483648 root2 4194304
              (PA2PTE one_page .| prot_to_type 3 1 .| PTE_V)) as (s' & l' & E & H1 & H2 & H3 & _).
  - exact one3_inv.
  - exact root2_inv.
  - intros t (π & Hok & Ht) (π' & Hok' & Ht'). apply root2_tbl in Ht; [|exact Hok].
    cbn [mem] in Ht'. rewrite (agree_tbl _ _ _ one3_agree) in Ht' by exact Hok'.
    apply one_tbl in Ht'; [|exact Hok']. unfold root2 in Ht.
    destruct Ht' as [[_ H]|[[_ H]|[_ H]]]; lia.
  - reflexivity.
  - lia.
  - cbv; congruence.
  - cbn; lia.
  - reflexivity.
  - reflexivity.
  - apply fresh_root_xlate. exact one3_zero.
  - repeat split; cbv; congruence.
  - split; reflexivity.
  - cbv; congruence.
  - exists s', l'. split; [exact E|]. split; [exact H1|]. split; [exact H2|]. exact H3.
Defined.
