(* ===== verification/Heap.v ===== *)
(** * The user heap (kernel/process.c, kernel/syscall.c)

    Two allocators share the heap area of a process: the page allocator of
    [sys_user_allocate_page] and [sys_user_free_page], and the allocator of
    [user_better_malloc], whose bookkeeping nodes ([malloc] structures) live in
    kernel pages linked into two doubly linked lists. *)
From S2P Require Import Prelude Pmm Vmm Process Sched Fork Strap Cow.

(** Fields of a [malloc] node. *)
Definition N_va : Z := 0.
Definition N_size : Z := 8.
Definition N_next : Z := 16.
Definition N_prev : Z := 24.

(** More nodes than memory has pages: the bound on list traversals. *)
Definition MAX_NODES : nat := Z.to_nat 65536.

Section Heap.
Context `{Linker}.

(** ** Whole pages *)

(** [mapped_info[HEAP_SEGMENT].npages++] *)
Definition bump_npages (mi : Z) : M pstate unit :=
  let* n := load32 (region mi HEAP_SEGMENT + 8) in
  store32 (region mi HEAP_SEGMENT + 8) (n + 1).

Definition sys_user_allocate_page (tp : nat) : M kstate Z :=
  let* pa := on_pm alloc_page in
  let* p := self tp in
  let* x := get_proc p in
  let hm := user_heap x in
  let* va :=
    if 0 <? free_pages_count hm then
      let n := free_pages_count hm - 1 in
      match free_pages_address hm !! Z.to_nat n with
      | None => halt (UB "free_pages_address out of range")
      | Some va =>
          upd_proc p (set_user_heap (set_free_pages_count n hm)) ;;;
          check (heap_top hm <=? va) (Panic "assert(va < heap_top)") ;;;
          ret va
      end
    else
      upd_proc p (set_user_heap (set_heap_top (u64 (heap_top hm + PGSIZE)) hm)) ;;;
      on_pm (bump_npages (mapped_info x)) ;;;
      ret (heap_top hm) in
  vm_call tp tt (user_vm_map (pagetable x) va PGSIZE pa (prot_to_type (PROT_WRITE .| PROT_READ) 1)) ;;;
  ret va.

Definition sys_user_free_page (tp : nat) (va : Z) : M kstate Z :=
  let* p := self tp in
  let* x := get_proc p in
  vm_call tp tt (user_vm_unmap (pagetable x) va PGSIZE true) ;;;
  let* p1 := self tp in
  let* x1 := get_proc p1 in
  let hm := user_heap x1 in
  check (Z.of_nat MAX_HEAP_PAGES <=? free_pages_count hm) (UB "free_pages_address out of range") ;;;
  upd_proc p1 (set_user_heap (set_free_pages
    (<[Z.to_nat (free_pages_count hm) := va]> (free_pages_address hm))
    (free_pages_count hm + 1) hm)) ;;;
  ret 0.

(** ** Blocks of any size *)

(** The search for a free block of at least [size] bytes. *)
Fixpoint find_fit (fuel : nat) (n size : Z) : M pstate Z :=
  match fuel with
  | O => halt OutOfFuel
  | S f =>
      if n =? 0 then ret 0 else
      let* sz := load (n + N_size) in
      if size <=? sz then ret n else
      let* nx := load (n + N_next) in find_fit f nx size
  end.

(** The search for the node of the block at [va]. *)
Fixpoint find_node (fuel : nat) (n va : Z) : M pstate Z :=
  match fuel with
  | O => halt OutOfFuel
  | S f =>
      if n =? 0 then ret 0 else
      let* v := load (n + N_va) in
      if v =? va then ret n else
      let* nx := load (n + N_next) in find_node f nx va
  end.

(** Insertion at the head of the list that starts at [head]: the stores. *)
Definition link_head (n head : Z) : M pstate unit :=
  store (n + N_next) head ;;;
  when (negb (head =? 0)) (store (head + N_prev) n).

Definition push_free (p : nat) (n : Z) : M kstate unit :=
  let* x := get_proc p in
  on_pm (link_head n (malloc_free_list x)) ;;;
  upd_proc p (set_malloc_free_list n).

(** [node->va = va; node->size = size;] and insertion into [malloc_list]. *)
Definition push_used (p : nat) (n va size : Z) : M kstate unit :=
  on_pm (store (n + N_va) va ;;; store (n + N_size) size ;;; store (n + N_prev) 0) ;;;
  let* x := get_proc p in
  on_pm (link_head n (malloc_list x)) ;;;
  upd_proc p (set_malloc_list n).

(** Taking the first node of [malloc_free_list], if there is one. *)
Definition pop_free_node (p : nat) : M kstate (option Z) :=
  let* x := get_proc p in
  let n := malloc_free_list x in
  if n =? 0 then ret None else
  let* nx := on_pm (load (n + N_next)) in
  upd_proc p (set_malloc_free_list nx) ;;;
  when (negb (nx =? 0)) (on_pm (store (nx + N_prev) 0)) ;;;
  ret (Some n).

(** Map the pages from [page_va] up to [limit] that are not mapped yet; [false]
    when memory runs out. *)
Fixpoint ensure_mapped (n : nat) (tp : nat) (pt page_va : Z) : M kstate bool :=
  match n with
  | O => ret true
  | S n' =>
      let* old := on_pm (lookup_pa pt page_va) in
      if old =? 0 then
        let* pa := on_pm alloc_page in
        if pa =? 0 then ret false else
        vm_call tp tt (user_vm_map pt page_va PGSIZE pa (prot_to_type (PROT_READ .| PROT_WRITE) 1)) ;;;
        ensure_mapped n' tp pt (u64 (page_va + PGSIZE))
      else ensure_mapped n' tp pt (u64 (page_va + PGSIZE))
  end.

(** The rest of the block [reuse] of [rsize] bytes at [va], of which [size] are
    handed out, becomes a free block; [false] when there is no node for it. *)
Definition split_block (p : nat) (reuse va rsize size : Z) : M kstate bool :=
  if size <? rsize then
    let* o := pop_free_node p in
    let* rem := match o with Some n => ret n | None => on_pm alloc_page end in
    if rem =? 0 then push_free p reuse ;;; ret false
    else
      on_pm (store (rem + N_va) (u64 (va + size)) ;;; store (rem + N_size) (rsize - size) ;;;
             store (rem + N_prev) 0) ;;;
      push_free p rem ;;;
      ret true
  else ret true.

(** Reuse of the free block [reuse], which has at least [size] bytes. *)
Definition reuse_block (tp p : nat) (pt reuse size : Z) : M kstate Z :=
  let* va := on_pm (load (reuse + N_va)) in
  let* rsize := on_pm (load (reuse + N_size)) in
  let* prev := on_pm (load (reuse + N_prev)) in
  let* next := on_pm (load (reuse + N_next)) in
  (if negb (prev =? 0) then on_pm (store (prev + N_next) next)
   else upd_proc p (set_malloc_free_list next)) ;;;
  when (negb (next =? 0)) (on_pm (store (next + N_prev) prev)) ;;;
  on_pm (store (reuse + N_next) 0 ;;; store (reuse + N_prev) 0) ;;;
  let first := ROUNDDOWN va PGSIZE in
  let* ok := ensure_mapped (Z.to_nat ((u64 (va + size) - first + PGSIZE - 1) / PGSIZE)) tp pt first in
  if negb ok then push_free p reuse ;;; ret 0 else
  let* split_ok := split_block p reuse va rsize size in
  if negb split_ok then ret 0 else
  push_used p reuse va size ;;;
  ret va.

(** Give back a bookkeeping node that was not used. *)
Definition drop_node (p : nat) (from_free_list : bool) (n : Z) : M kstate unit :=
  if from_free_list then push_free p n else on_pm (free_page n).

(** [for (j = 0; j < i; j++) user_vm_unmap(pt, map_va + j * PGSIZE, PGSIZE, 1);] *)
Fixpoint unmap_new (i : nat) (tp : nat) (pt va : Z) : M kstate unit :=
  match i with
  | O => ret tt
  | S i' => vm_call tp tt (user_vm_unmap pt va PGSIZE true) ;;; unmap_new i' tp pt (u64 (va + PGSIZE))
  end.

(** Map [n] new pages from [map_va + i * PGSIZE]; on failure undo and return [false]. *)
Fixpoint extend_heap (n : nat) (tp : nat) (pt map_va : Z) (i : nat) (first_va : option Z) : M kstate bool :=
  match n with
  | O => ret true
  | S n' =>
      let* pa := on_pm alloc_page in
      if pa =? 0 then
        match first_va with
        | Some v => vm_call tp tt (user_vm_unmap pt v PGSIZE true)
        | None => ret tt
        end ;;;
        unmap_new i tp pt map_va ;;;
        ret false
      else
        vm_call tp tt (user_vm_map pt (u64 (map_va + Z.of_nat i * PGSIZE)) PGSIZE pa
                         (prot_to_type (PROT_READ .| PROT_WRITE) 1)) ;;;
        extend_heap n' tp pt map_va (S i) first_va
  end.

(** Growing the heap from [va], with a node for the block at hand. *)
Definition grow_with_node (tp p : nat) (pt size va : Z) (from_free_list : bool) (node : Z) : M kstate Z :=
  let page_start := ROUNDDOWN va PGSIZE in
  let* mapped := on_pm (lookup_pa pt page_start) in
  let* ok :=
    if mapped =? 0 then
      let* pa := on_pm alloc_page in
      if pa =? 0 then drop_node p from_free_list node ;;; ret false
      else
        vm_call tp tt (user_vm_map pt page_start PGSIZE pa (prot_to_type (PROT_READ .| PROT_WRITE) 1)) ;;;
        ret true
    else ret true in
  if negb ok then ret 0 else
  let remaining := u64 (page_start + PGSIZE - va) in
  let finish :=
    upd_proc p (fun x => set_user_heap (set_heap_top (u64 (va + size)) (user_heap x)) x) ;;;
    push_used p node va size ;;;
    ret va in
  if size <=? remaining then finish else
  let need := size - remaining in
  let n_pages := Z.to_nat (u64 (need + PGSIZE - 1) / PGSIZE) in
  let* ok2 := extend_heap n_pages tp pt (u64 (page_start + PGSIZE)) 0
                (if mapped =? 0 then Some page_start else None) in
  if ok2 then finish
  else (when from_free_list (on_pm (store (node + N_prev) 0))) ;;;
       drop_node p from_free_list node ;;; ret 0.

(** Growing the heap: no free block is large enough. *)
Definition grow_block (tp p : nat) (pt size : Z) : M kstate Z :=
  let* x := get_proc p in
  let va := heap_top (user_heap x) in
  let* o := pop_free_node p in
  match o with
  | Some n =>
      on_pm (store (n + N_prev) 0 ;;; store (n + N_next) 0) ;;;
      grow_with_node tp p pt size va true n
  | None =>
      let* n := on_pm alloc_page in
      if n =? 0 then ret 0 else grow_with_node tp p pt size va false n
  end.

Definition user_better_malloc (tp : nat) (size : Z) : M kstate Z :=
  let* c := get_current tp in
  match c with
  | None => ret 0
  | Some p =>
      if size =? 0 then ret 0 else
      let* x := get_proc p in
      let* reuse := on_pm (find_fit MAX_NODES (malloc_free_list x) size) in
      if negb (reuse =? 0) then reuse_block tp p (pagetable x) reuse size
      else grow_block tp p (pagetable x) size
  end.

(** Does a block of [malloc_list] overlap the page at [page_va]? *)
Fixpoint page_has_other_allocation (fuel : nat) (m page_va : Z) : M pstate bool :=
  match fuel with
  | O => halt OutOfFuel
  | S f =>
      if m =? 0 then ret false else
      let* v := load (m + N_va) in
      let* sz := load (m + N_size) in
      if (page_va <? u64 (v + sz)) && (v <? u64 (page_va + PGSIZE)) then ret true else
      let* nx := load (m + N_next) in page_has_other_allocation f nx page_va
  end.

Fixpoint release_pages (n : nat) (tp p : nat) (pt page_va : Z) : M kstate unit :=
  match n with
  | O => ret tt
  | S n' =>
      let* x := get_proc p in
      let* used := on_pm (page_has_other_allocation MAX_NODES (malloc_list x) page_va) in
      (if used then ret tt else vm_call tp tt (user_vm_unmap pt page_va PGSIZE true)) ;;;
      release_pages n' tp p pt (u64 (page_va + PGSIZE))
  end.

Definition user_better_free (tp : nat) (va : Z) : M kstate unit :=
  let* c := get_current tp in
  match c with
  | None => ret tt
  | Some p =>
      let* x := get_proc p in
      let* cur := on_pm (find_node MAX_NODES (malloc_list x) va) in
      if cur =? 0 then ret tt else
      let* size := on_pm (load (cur + N_size)) in
      let* prev := on_pm (load (cur + N_prev)) in
      let* next := on_pm (load (cur + N_next)) in
      (if negb (prev =? 0) then on_pm (store (prev + N_next) next)
       else upd_proc p (set_malloc_list next)) ;;;
      when (negb (next =? 0)) (on_pm (store (next + N_prev) prev)) ;;;
      on_pm (store (cur + N_prev) 0) ;;;
      push_free p cur ;;;
      let first := ROUNDDOWN va PGSIZE in
      release_pages (Z.to_nat ((u64 (va + size) - first + PGSIZE - 1) / PGSIZE)) tp p
        (pagetable x) first
  end.

Definition sys_user_better_allocate_page (tp : nat) (n : Z) : M kstate Z := user_better_malloc tp n.
Definition sys_user_better_free_page (tp : nat) (va : Z) : M kstate Z :=
  user_better_free tp va ;;; ret 0.

End Heap.

(** ** The page heap *)

(** Process [p] runs on hart [tp], and its region table is a page that is
    neither free nor one of its page tables. *)
Record heap_ready (s : kstate) (tp p : nat) (x : process) (l : list Z) : Prop := {
  hr_cur : current s !! tp = Some (Some p);
  hr_proc : procs s !! p = Some x;
  hr_vm : vm_inv (pm s) l (pagetable x);
  hr_mi : table_page (mapped_info x);
  hr_mi_used : mapped_info x ∉ l;
  hr_mi_not_table : ~ tables_of (mem (pm s)) (pagetable x) (mapped_info x)
}.

Lemma self_run s tp p : current s !! tp = Some (Some p) -> self tp s = Ret p s.
Proof. intros E. unfold self, get_current, bind. by rewrite E. Qed.

(** A store into a page that is neither free nor a table. *)
Lemma vm_inv_store s l root p o v :
  vm_inv s l root -> p mod PGSIZE = 0 -> 0 <= o < PGSIZE -> p ∉ l -> ~ tables_of (mem s) root p ->
  vm_inv (set_mem (<[p + o := v]> (mem s)) s) l root /\
  tables_agree (mem s) (<[p + o := v]> (mem s)) root.
Proof.
  intros Hi Hp Ho Hl Ht.
  assert (Hag : tables_agree (mem s) (<[p + o := v]> (mem s)) root).
  { apply (agree_insert (mem s) root (p + o) p v); [apply Hi|done|unfold in_page; lia|].
    intros π t Hok Htb ->. apply Ht. by exists π. }
  split; [|done]. eapply agree_vm_inv; [exact Hi|exact Hag| |by left].
  apply pmm_inv_set_mem; [apply Hi|]. intros x Hx. apply rd_insert_ne. intros <-.
  pose proof (proj1 (inv_free _ _ (vm_pmm _ _ _ Hi) _) Hx) as [(Hxa & _) _].
  assert (o = 0) as -> by klia. rewrite Z.add_0_r in Hx. done.
Qed.

Lemma bump_npages_run mi s :
  table_page mi -> exists v, bump_npages mi s = Ret tt (set_mem (<[mi + 56 := v]> (mem s)) s).
Proof.
  intros Hmi. assert (Hok : addr_ok (mi + 56) = true) by (apply table_page_word; [done|klia|done]).
  assert (Hm8 : (mi + 56) mod 8 = 0) by (destruct Hmi as (? & _); klia).
  assert (Hr : region mi HEAP_SEGMENT + 8 = mi + 56) by (unfold region, HEAP_SEGMENT; lia).
  assert (Hld : load (mi + 56) s = Ret (rd (mem s) (mi + 56)) s) by (unfold load; by rewrite Hok).
  unfold bump_npages, load32, store32. rewrite Hr, Hm8. cbn [Z.eqb]. eexists.
  step_by ltac:(step_by ltac:(exact Hld); reflexivity).
  step_by ltac:(exact Hld). unfold store. rewrite Hok. reflexivity.
Qed.

Definition user_rw (pa : Z) : Z := PA2PTE pa .| prot_to_type (PROT_WRITE .| PROT_READ) 1 .| PTE_V.

(** [sys_user_allocate_page] of a process that has given back no page
    returns the top of the heap, moves the top up by a page, and maps the page
    that the allocator hands out there, readable and writable by the user;
    nothing else of the address space changes. *)
Theorem allocate_page_grows `{Linker} s tp p x q l :
  heap_ready s tp p x (q :: l) -> free_pages_count (user_heap x) = 0 ->
  let va := heap_top (user_heap x) in
  va mod PGSIZE = 0 -> 0 <= va -> va + PGSIZE <= MAXVA -> (2 <= length l)%nat ->
  xlate (mem (pm s)) (pagetable x) va = None ->
  exists s' l', sys_user_allocate_page tp s = Ret va s' /\ vm_inv (pm s') l' (pagetable x) /\
    procs s' !! p = Some (set_user_heap (set_heap_top (va + PGSIZE) (user_heap x)) x) /\
    (forall y, 0 <= y < MAXVA -> xlate (mem (pm s')) (pagetable x) y =
       if decide (y / PGSIZE = va / PGSIZE) then Some (user_rw q)
       else xlate (mem (pm s)) (pagetable x) y).
Proof.
  intros [Hcur Hx Hvm Hmi Hmiu Hmit] Hcnt va Ha H0 Hmax Hlen Hun.
  pose proof (vm_pmm _ _ _ Hvm) as Hpm. assert (Hin : q ∈ q :: l) by by left.
  pose proof (proj1 (inv_free _ _ Hpm q) Hin) as [Hqm _].
  assert (Hi1 : vm_inv (alloc_result (pm s) q) l (pagetable x)).
  { eapply vm_inv_counts; [exact Hvm|done|by apply (alloc_result_inv _ (q :: l))|]. by right. }
  destruct (bump_npages_run (mapped_info x) (alloc_result (pm s) q) Hmi) as [v Ev].
  destruct (vm_inv_store (alloc_result (pm s) q) l (pagetable x) (mapped_info x) 56 v Hi1) as [Hi2 Hag].
  { apply Hmi. } { klia. } { intros ?. apply Hmiu. by right. } { done. }
  set (t2 := set_mem (<[mapped_info x + 56 := v]> (mem (alloc_result (pm s) q))) (alloc_result (pm s) q)) in *.
  destruct (map_one t2 l (pagetable x) va q (prot_to_type (PROT_WRITE .| PROT_READ) 1) Hi2)
    as (t3 & l' & E3 & F3 & _ & X3); auto.
  { pose proof (inv_geo _ _ Hpm) as []. destruct Hqm as (? & ? & ?). klia. }
  { exact (eq_trans (agree_xlate _ _ _ va Hag) Hun). }
  set (hm := set_heap_top (va + PGSIZE) (user_heap x)).
  exists (set_pm t3 (set_procs (<[p := set_user_heap hm x]> (procs s)) s)), l'.
  split; [|split; [apply F3|split]].
  - unfold sys_user_allocate_page.
    step_by ltac:(apply on_pm_ret, (alloc_page_run (pm s) (q :: l) Hpm q l eq_refl)).
    step_by ltac:(by apply self_run). step_get Hx. rewrite Hcnt. cbn [Z.ltb Z.compare].
    step_by ltac:(step_upd Hx; step_by ltac:(apply on_pm_ret; exact Ev); reflexivity).
    step_by ltac:(apply vm_call_ret; exact E3).
    replace (u64 (heap_top (user_heap x) + PGSIZE)) with (va + PGSIZE) by (unfold va, MAXVA in *; klia).
    reflexivity.
  - cbn. apply list_lookup_insert_eq. by eapply lookup_lt_Some.
  - intros y Hy. cbn [pm set_pm]. rewrite (X3 y Hy). destruct (decide _); [done|].
    by apply agree_xlate.
Qed.

(** A process with an empty address space and three free pages. *)
Definition heap_proc : process :=
  set_mapped_info 2147745792 (set_pagetable 2147483648
    (set_user_heap (mkHeap 4194304 4194304 (replicate MAX_HEAP_PAGES 0) 0)
       (set_status RUNNING (Demo.proc_at 0 None)))).
Definition heap_demo : kstate := set_pm vm3 (set_procs (<[0%nat := heap_proc]> (procs Demo.d4)) Demo.d4).

Lemma heap_demo_ready : heap_ready heap_demo 0 0 heap_proc [2147495936; 2147491840; 2147487744].
Proof.
  split.
  - reflexivity.
  - reflexivity.
  - exact vm3_inv.
  - repeat split; cbv; congruence.
  - cbn. rewrite !elem_of_cons, elem_of_nil. lia.
  - intros (π & Hok & Ht). cbn [heap_demo pm set_pm pagetable heap_proc mapped_info] in Ht.
    assert (Hc : forall k, idx_ok k -> child (mem vm3) 2147483648 k = None)
      by (intros k Hk; unfold child; by rewrite vm3_zero).
    destruct π as [|i|i j]; cbn [tbl] in Ht.
    + done.
    + by rewrite Hc in Ht.
    + destruct Hok. by rewrite Hc in Ht.
Qed.

Lemma allocate_page_grows_witness :
  exists s' l', @sys_user_allocate_page Demo.linker0 0 heap_demo = Ret 4194304 s' /\
    vm_inv (pm s') l' 2147483648 /\ xlate (mem (pm s')) 2147483648 4194304 = Some (user_rw 2147495936).
Proof.
  destruct (@allocate_page_grows Demo.linker0 heap_demo 0 0 heap_proc 2147495936
    [2147491840; 2147487744] heap_demo_ready) as (s' & l' & E & Hi & _ & Hx).
  - reflexivity.
  - reflexivity.
  - cbv; congruence.
  - cbv; congruence.
  - cbn; lia.
  - apply fresh_root_xlate. exact vm3_zero.
  - exists s', l'. split; [exact E|]. split; [exact Hi|].
    cbn [pagetable heap_proc set_mapped_info set_pagetable] in Hx.
    rewrite Hx; [reflexivity|cbv; split; congruence].
Defined.

Lemma tables_shrink m m' root t : tables_agree m m' root -> tables_of m' root t <-> tables_of m root t.
Proof.
  intros Hag. split; intros (π & Hok & Ht); exists π; (split; [done|]).
  - by rewrite <- (agree_tbl _ _ _ Hag).
  - by rewrite (agree_tbl _ _ _ Hag).
Qed.

(** giving a heap page back and asking for one again. After
    [sys_user_free_page] of a page that only this process uses,
    [sys_user_allocate_page] returns the same address, backed by the same
    physical page, and the heap manager is what it was before but for the slot
    that recorded the page. *)
Theorem free_then_allocate `{Linker} s tp p x l va w :
  heap_ready s tp p x l -> va mod PGSIZE = 0 -> 0 <= va -> va + PGSIZE <= MAXVA ->
  va < heap_top (user_heap x) -> 0 <= free_pages_count (user_heap x) < Z.of_nat MAX_HEAP_PAGES ->
  length (free_pages_address (user_heap x)) = MAX_HEAP_PAGES -> (2 <= length l)%nat ->
  xlate (mem (pm s)) (pagetable x) va = Some w -> PTE_FLAGS w <> PTE_V ->
  let pa := PTE2PA w in
  managed (pm s) pa -> page_ref (pm s) pa = 1 -> ~ tables_of (mem (pm s)) (pagetable x) pa ->
  exists s1 s2, sys_user_free_page tp va s = Ret 0 s1 /\ sys_user_allocate_page tp s1 = Ret va s2 /\
    xlate (mem (pm s1)) (pagetable x) va = None /\
    xlate (mem (pm s2)) (pagetable x) va = Some (user_rw pa) /\
    (exists x2, procs s2 !! p = Some x2 /\
       heap_top (user_heap x2) = heap_top (user_heap x) /\
       free_pages_count (user_heap x2) = free_pages_count (user_heap x)).
Proof.
  intros [Hcur Hx Hvm Hmi Hmiu Hmit] Ha H0 Hmax Htop Hcnt Hfl Hlen Hxl Hflg pa Hm Hr Hnt.
  pose proof (vm_pmm _ _ _ Hvm) as Hpm. assert (Hva : 0 <= va < MAXVA) by klia.
  destruct (user_vm_unmap_run (pm s) l (pagetable x) va w) as (t1 & E1 & Hi1 & Hr1 & X1); auto.
  { fold pa. lia. } { intros π t Hok Ht ->. apply Hnt. by exists π. }
  fold pa in Hi1, Hr1. rewrite Hr in Hi1. cbn [Z.eqb Pos.eqb] in Hi1.
  set (hm1 := set_free_pages (<[Z.to_nat (free_pages_count (user_heap x)) := va]>
      (free_pages_address (user_heap x))) (free_pages_count (user_heap x) + 1) (user_heap x)).
  set (s1 := set_procs (<[p := set_user_heap hm1 x]> (procs s)) (set_pm t1 s)).
  assert (Hx1 : procs s1 !! p = Some (set_user_heap hm1 x)).
  { cbn. apply list_lookup_insert_eq. by eapply lookup_lt_Some. }
  assert (Ef : sys_user_free_page tp va s = Ret 0 s1).
  { unfold sys_user_free_page. step_by ltac:(by apply self_run). step_get Hx.
    step_by ltac:(apply vm_call_ret; exact E1). step_by ltac:(by apply self_run). step_get Hx.
    cbn [check]. rewrite (proj2 (Z.leb_gt _ _)) by lia. step_by ltac:(reflexivity).
    by step_upd Hx. }
  pose proof (vm_pmm _ _ _ Hi1) as Hpm1. assert (Hin : pa ∈ pa :: l) by by left.
  assert (Hi2 : vm_inv (alloc_result t1 pa) l (pagetable x)).
  { eapply vm_inv_counts; [exact Hi1|done|by apply (alloc_result_inv _ (pa :: l))|]. by right. }
  assert (Xn : xlate (mem t1) (pagetable x) va = None) by (rewrite X1 by done; by rewrite decide_True).
  destruct (map_one (alloc_result t1 pa) l (pagetable x) va pa (prot_to_type (PROT_WRITE .| PROT_READ) 1) Hi2)
    as (t3 & l' & E3 & F3 & _ & X3); auto.
  { pose proof (inv_geo _ _ Hpm) as []. destruct Hm as (? & ? & ?). klia. }
  assert (Hlk : free_pages_address hm1 !! Z.to_nat (free_pages_count hm1 - 1) = Some va).
  { cbn. replace (free_pages_count (user_heap x) + 1 - 1) with (free_pages_count (user_heap x)) by lia.
    apply list_lookup_insert_eq. rewrite Hfl. lia. }
  eexists s1, _. split; [exact Ef|]. split; [|split; [exact Xn|split]].
  - unfold sys_user_allocate_page.
    step_by ltac:(apply on_pm_ret, (alloc_page_run t1 (pa :: l) Hpm1 pa l eq_refl)).
    step_by ltac:(by apply self_run). step_get Hx1. cbn [user_heap set_user_heap].
    rewrite (proj2 (Z.ltb_lt 0 _)) by (cbn; lia). rewrite Hlk.
    step_by ltac:(step_upd Hx1; cbn [check]; rewrite (proj2 (Z.leb_gt _ _)) by done;
      step_by ltac:(reflexivity); reflexivity).
    step_by ltac:(apply vm_call_ret; exact E3). reflexivity.
  - cbn [pm set_pm]. rewrite X3 by done. by rewrite decide_True.
  - eexists. split; [cbn; apply list_lookup_insert_eq; rewrite length_insert; by eapply lookup_lt_Some|].
    cbn. split; [done|lia].
Qed.

(** The process of [heap_demo] with one heap page mapped ([Cow.one3]). *)
Definition heap_proc1 : process :=
  set_user_heap (mkHeap 4198400 4194304 (replicate MAX_HEAP_PAGES 0) 0) heap_proc.
Definition heap_demo1 : kstate := set_pm one3 (set_procs (<[0%nat := heap_proc1]> (procs Demo.d4)) Demo.d4).

Lemma one3_tables t :
  tables_of (mem one3) 2147483648 t -> t = 2147483648 \/ t = 2147487744 \/ t = 2147491840.
Proof.
  intros (π & Hok & Ht). rewrite (agree_tbl _ _ _ one3_agree) in Ht by done.
  apply one_tbl in Ht; [|done]. tauto.
Qed.

Lemma heap_demo1_ready : heap_ready heap_demo1 0 0 heap_proc1 [2147504128; 2147500032].
Proof.
  split.
  - reflexivity.
  - reflexivity.
  - exact one3_inv.
  - repeat split; cbv; congruence.
  - cbn. rewrite !elem_of_cons, elem_of_nil. lia.
  - intros Ht%one3_tables. cbn in Ht. lia.
Qed.

Lemma free_then_allocate_witness :
  exists s1 s2, @sys_user_free_page Demo.linker0 0 4194304 heap_demo1 = Ret 0 s1 /\
    @sys_user_allocate_page Demo.linker0 0 s1 = Ret 4194304 s2 /\
    xlate (mem (pm s2)) 2147483648 4194304 = Some (user_rw one_page).
Proof.
  destruct (@free_then_allocate Demo.linker0 heap_demo1 0 0 heap_proc1 [2147504128; 2147500032] 4194304
    (PA2PTE one_page .| prot_to_type 3 1 .| PTE_V) heap_demo1_ready) as (s1 & s2 & E1 & E2 & _ & Hx & _).
  - reflexivity.
  - lia.
  - cbv; congruence.
  - reflexivity.
  - split; reflexivity || (cbv; congruence).
  - reflexivity.
  - cbn; lia.
  - reflexivity.
  - cbv; congruence.
  - repeat split; cbv; congruence.
  - reflexivity.
  - intros Ht%one3_tables. change (PTE2PA (PA2PTE one_page .| prot_to_type 3 1 .| PTE_V)) with one_page in Ht.
    unfold one_page in Ht. lia.
  - exists s1, s2. split; [exact E1|]. split; [exact E2|exact Hx].
Defined.
