(* ===== verification/Faults.v ===== *)
(** * Page faults of user programs (kernel/strap.c)

    What [store_page_fault] does with an address that has no mapping, and what
    [smode_trap_handler] does with a load fault. *)
From S2P Require Import Prelude Pmm Vmm Process Sched Fork Strap Cow Heap.






(** a load fault is never repaired. [smode_trap_handler] passes it to
    [handle_user_page_fault], which only knows store faults: the handler goes
    back to the same instruction of the same process, and has changed no word
    of memory outside the trapframe, so that the load faults again, forever. *)
Theorem load_fault_makes_no_progress `{Linker} ds s tp p x c :
  csrs s !! tp = Some c -> has (sstatus c) SSTATUS_SPP = false -> scause c = CAUSE_LOAD_PAGE_FAULT ->
  current s !! tp = Some (Some p) -> procs s !! p = Some x -> table_page (trapframe x) ->
  exists s' c', smode_trap_handler ds tp s = Stop (Resume p) s' /\
    csrs s' !! tp = Some c' /\ sepc c' = sepc c /\ procs s' = procs s /\
    (forall a, ~ in_page a (trapframe x) -> rd (mem (pm s')) a = rd (mem (pm s)) a).
Proof.
  intros Hc Hspp Hcause Hcur Hx Htf.
  assert (Hok : addr_ok (trapframe x + TF_epc) = true)
    by (apply table_page_word; [done|cbv; split; congruence|reflexivity]).
  set (s1 := set_pm (set_mem (<[trapframe x + TF_epc := sepc c]> (mem (pm s))) (pm s)) s).
  exists (switched tp p x c s1). eexists. split; [|split; [|split; [|split; [done|]]]].
  - unfold smode_trap_handler. step_by ltac:(apply get_csr_run; exact Hc). rewrite Hspp. cbn [when].
    step_by ltac:(reflexivity).
    step_by ltac:(unfold get_current; rewrite Hcur; reflexivity). step_by ltac:(reflexivity).
    step_by ltac:(reflexivity). step_get Hx. step_by ltac:(apply get_csr_run; exact Hc).
    step_by ltac:(apply on_pm_store; exact Hok). fold s1. rewrite Hcause. cbn [Z.eqb Pos.eqb].
    step_by ltac:(reflexivity). unfold resume_current.
    step_by ltac:(unfold get_current; cbn; rewrite Hcur; reflexivity).
    by apply switch_to_run.
  - cbn. apply list_lookup_insert_eq. by eapply lookup_lt_Some.
  - cbn. apply rd_insert_eq.
  - intros a Ha. unfold switched, s1. cbn [mem pm set_mem set_pm set_csrs set_current].
    unfold in_page in Ha. rewrite !rd_insert_ne; [done|intros <-; apply Ha..]; cbv [TF_epc TF_tp TF_kernel_trap
      TF_kernel_satp TF_kernel_sp]; klia.
Qed.

(** ** Witnesses *)




Definition load_fault_csr : csr := mkCsr 0 32 4096 0 CAUSE_LOAD_PAGE_FAULT 12288 0.
Definition load_fault_demo : kstate := set_csrs [load_fault_csr; Demo.csr0] heap_demo.

Lemma load_fault_makes_no_progress_witness :
  exists s' c', @smode_trap_handler Demo.linker0 (fun _ _ => ret 0) 0 load_fault_demo = Stop (Resume 0) s' /\
    csrs s' !! 0%nat = Some c' /\ sepc c' = 4096.
Proof.
  destruct (@load_fault_makes_no_progress Demo.linker0 (fun _ _ => ret 0) load_fault_demo 0 0 heap_proc
    load_fault_csr) as (s' & c' & E & Hc & He & _).
  - reflexivity.
  - reflexivity.
  - reflexivity.
  - reflexivity.
  - reflexivity.
  - repeat split; cbv; congruence.
  - exists s', c'. split; [exact E|]. split; [exact Hc|exact He].
Defined.
