(* ===== verification/CString.v ===== *)
(** * The C string and memory routines (util/string.c)

    Memory is a function from addresses to bytes.  [char] is unsigned on RISC-V.
    A [while] loop takes a bound on its iterations; the theorems give bounds
    that are enough. *)
From S2P Require Import Prelude.

Definition bmem : Type := Z -> Z.
Definition upd (m : bmem) (a v : Z) : bmem := fun x => if x =? a then u8 v else m x.

(** 64-bit accesses, little endian. *)
Fixpoint load_le (n : nat) (m : bmem) (a : Z) : Z :=
  match n with O => 0 | S n' => m a + 256 * load_le n' m (a + 1) end.
Fixpoint store_le (n : nat) (m : bmem) (a w : Z) : bmem :=
  match n with O => m | S n' => store_le n' (upd m a w) (a + 1) (w / 256) end.
Definition load64 : bmem -> Z -> Z := load_le 8.
Definition store64 : bmem -> Z -> Z -> bmem := store_le 8.

(** The bytes of a literal. *)
Definition txt (s : string) : list Z := (fun c => Z.of_N (Ascii.N_of_ascii c)) <$> String.list_ascii_of_string s.

(** ** Operations *)

(** The two loops of [memcpy]. *)
Fixpoint copy_words (fuel : nat) (m : bmem) (d s lim : Z) : bmem * Z * Z :=
  match fuel with
  | O => (m, d, s)
  | S f => if d <? lim then copy_words f (store64 m d (load64 m s)) (d + 8) (s + 8) lim
           else (m, d, s)
  end.
Fixpoint copy_bytes (fuel : nat) (m : bmem) (d s lim : Z) : bmem :=
  match fuel with
  | O => m
  | S f => if d <? lim then copy_bytes f (upd m d (m s)) (d + 1) (s + 1) lim else m
  end.

Definition memcpy (m : bmem) (dest src len : Z) : bmem :=
  let '(m1, d, s) :=
    if Z.land (Z.lor dest src) 7 =? 0
    then copy_words (Z.to_nat len) m dest src (dest + len - 7)
    else (m, dest, src) in
  copy_bytes (Z.to_nat len) m1 d s (dest + len).

Fixpoint set_words (fuel : nat) (m : bmem) (d w lim : Z) : bmem :=
  match fuel with
  | O => m
  | S f => if d <? lim then set_words f (store64 m d w) (d + 8) w lim else m
  end.
Fixpoint set_bytes (fuel : nat) (m : bmem) (d b lim : Z) : bmem :=
  match fuel with
  | O => m
  | S f => if d <? lim then set_bytes f (upd m d b) (d + 1) b lim else m
  end.

Definition memset (m : bmem) (dest byte len : Z) : bmem :=
  if Z.land (Z.lor dest len) 7 =? 0 then
    let word := Z.land byte 255 in
    let word := Z.lor word (Z.shiftl word 8) in
    let word := Z.lor word (Z.shiftl word 16) in
    let word := Z.lor word (Z.shiftl (Z.shiftl word 16) 16) in
    set_words (Z.to_nat len) m dest word (dest + len)
  else set_bytes (Z.to_nat len) m dest byte (dest + len).

(** [while (n-- > 0) *--d = *--s;] and [while (n-- > 0) *d++ = *s++;] *)
Fixpoint move_down (n : nat) (m : bmem) (d s : Z) : bmem :=
  match n with O => m | S n' => move_down n' (upd m (d - 1) (m (s - 1))) (d - 1) (s - 1) end.
Fixpoint move_up (n : nat) (m : bmem) (d s : Z) : bmem :=
  match n with O => m | S n' => move_up n' (upd m d (m s)) (d + 1) (s + 1) end.

Definition memmove (m : bmem) (dst src n : Z) : bmem :=
  if (src <? dst) && (dst <? src + n)
  then move_down (Z.to_nat n) m (dst + n) (src + n)
  else move_up (Z.to_nat n) m dst src.

Fixpoint strlen_from (fuel : nat) (m : bmem) (s p : Z) : option Z :=
  match fuel with
  | O => None
  | S f => if m p =? 0 then Some (p - s) else strlen_from f m s (p + 1)
  end.
Definition strlen (fuel : nat) (m : bmem) (s : Z) : option Z := strlen_from fuel m s s.

Fixpoint strcmp (fuel : nat) (m : bmem) (s1 s2 : Z) : option Z :=
  match fuel with
  | O => None
  | S f =>
      let c1 := m s1 in let c2 := m s2 in
      if negb (c1 =? 0) && (c1 =? c2) then strcmp f m (s1 + 1) (s2 + 1) else Some (c1 - c2)
  end.

Fixpoint strcpy (fuel : nat) (m : bmem) (d s : Z) : option bmem :=
  match fuel with
  | O => None
  | S f => let c := m s in let m' := upd m d c in
           if c =? 0 then Some m' else strcpy f m' (d + 1) (s + 1)
  end.

Definition strcat (fuel : nat) (m : bmem) (dst src : Z) : option bmem :=
  n ← strlen fuel m dst; strcpy fuel m (dst + n) src.

Fixpoint strchr (fuel : nat) (m : bmem) (p ch : Z) : option (option Z) :=
  match fuel with
  | O => None
  | S f => if m p =? u8 ch then Some (Some p)
           else if m p =? 0 then Some None else strchr f m (p + 1) ch
  end.

(** Skip the bytes that are ([want = true]) or are not in [delim]. *)
Fixpoint skip_delim (fuel : nat) (m : bmem) (delim p : Z) (want : bool) : option Z :=
  match fuel with
  | O => None
  | S f =>
      if m p =? 0 then Some p else
      r ← strchr fuel m delim (m p);
      if bool_decide (is_Some r) then (if want then skip_delim f m delim (p + 1) want else Some p)
      else (if want then Some p else skip_delim f m delim (p + 1) want)
  end.

(** [strtok]: the memory, the static variable [current] and the token; 0 is
    [NULL]. *)
Definition strtok (fuel : nat) (m : bmem) (current str delim : Z) : option (bmem * Z * Z) :=
  let current := if negb (str =? 0) then str else current in
  if current =? 0 then Some (m, 0, 0) else
  start ← skip_delim fuel m delim current true;
  if m start =? 0 then Some (m, 0, 0) else
  end_ ← skip_delim fuel m delim start false;
  if negb (m end_ =? 0) then Some (upd m end_ 0, end_ + 1, start) else Some (m, 0, start).

Fixpoint skip_spaces (fuel : nat) (m : bmem) (p : Z) : option Z :=
  match fuel with
  | O => None
  | S f => if m p =? 32 then skip_spaces f m (p + 1) else Some p
  end.
Fixpoint digits_from (fuel : nat) (m : bmem) (p res : Z) : option Z :=
  match fuel with
  | O => None
  | S f => if m p =? 0 then Some res else digits_from f m (p + 1) (i64 (i64 (res * 10) + (m p - 48)))
  end.
Definition atol (fuel : nat) (m : bmem) (str : Z) : option Z :=
  p ← skip_spaces fuel m str;
  let signed := (m p =? 45) || (m p =? 43) in
  let sign := m p =? 45 in
  res ← digits_from fuel m (if signed then p + 1 else p) 0;
  Some (if sign then i64 (- res) else res).

(** [while (--n > 0 && ( *s++ = *t++) != 0);  *s = 0;] *)
Fixpoint safe_loop (n : nat) (m : bmem) (s t : Z) : bmem * Z :=
  match n with
  | O => (m, s)
  | S n' => let m' := upd m s (m t) in
            if m t =? 0 then (m', s + 1) else safe_loop n' m' (s + 1) (t + 1)
  end.
Definition safestrcpy (m : bmem) (s t n : Z) : bmem :=
  if n <=? 0 then m else
  let '(m1, s1) := safe_loop (Z.to_nat (n - 1)) m s t in upd m1 s1 0.

(** ** Copying and filling *)

Definition bytes_ok (m : bmem) : Prop := forall a, 0 <= m a < 256.

(** [m'] is [m] with the [n] bytes at [s] copied to [d]. *)
Definition copied_range (m m' : bmem) (d s n : Z) : Prop :=
  forall x, m' x = if decide (d <= x < d + n) then m (s + (x - d)) else m x.

Lemma upd_eq m a v : 0 <= v < 256 -> upd m a v a = v.
Proof. intros. unfold upd. rewrite Z.eqb_refl. by apply Z.mod_small. Qed.

Lemma upd_ne m a v x : x <> a -> upd m a v x = m x.
Proof. intros. unfold upd. by rewrite (proj2 (Z.eqb_neq x a)). Qed.

Lemma upd_ok m a v : bytes_ok m -> bytes_ok (upd m a v).
Proof. intros H x. unfold upd. destruct (x =? a); [apply Z.mod_pos_bound; lia|apply H]. Qed.

Lemma store_le_out n m a w x : x < a \/ a + Z.of_nat n <= x -> store_le n m a w x = m x.
Proof.
  revert m a w. induction n as [|n IH]; intros m a w H; cbn [store_le]; [done|].
  rewrite IH by lia. apply upd_ne. lia.
Qed.

Lemma load_le_ext n m m' a :
  (forall x, a <= x < a + Z.of_nat n -> m' x = m x) -> load_le n m' a = load_le n m a.
Proof.
  revert a. induction n as [|n IH]; intros a He; [done|]. cbn [load_le].
  rewrite (He a) by lia. rewrite (IH (a + 1)); [done|]. intros x Hx. apply He. lia.
Qed.

Lemma load_store_le n m a w : load_le n (store_le n m a w) a = w mod 256 ^ Z.of_nat n.
Proof.
  revert m a w. induction n as [|n IH]; intros m a w; [cbn; by rewrite Z.mod_1_r|].
  cbn [load_le]. rewrite (load_le_ext n (store_le n (upd m a w) (a + 1) (w / 256))); [|done].
  cbn [store_le]. rewrite IH, store_le_out by lia. unfold upd. rewrite Z.eqb_refl. unfold u8.
  rewrite Nat2Z.inj_succ, Z.pow_succ_r, Z.rem_mul_r by lia. lia.
Qed.

Lemma load_store64 m a v : 0 <= v < 18446744073709551616 -> load64 (store64 m a v) a = v.
Proof. intros Hv. unfold load64, store64. rewrite load_store_le. by apply Z.mod_small. Qed.

Lemma store64_out m a v x : x < a \/ a + 8 <= x -> store64 m a v x = m x.
Proof. apply (store_le_out 8). Qed.

Lemma load64_ext m m' a : (forall x, a <= x < a + 8 -> m' x = m x) -> load64 m' a = load64 m a.
Proof. apply (load_le_ext 8). Qed.

Lemma load_store64_ne m a b v : b + 8 <= a \/ a + 8 <= b -> load64 (store64 m a v) b = load64 m b.
Proof. intros Hd. apply load64_ext. intros x Hx. apply store64_out. lia. Qed.

Lemma store_load_le n m m' d s i :
  bytes_ok m' -> 0 <= i < Z.of_nat n -> store_le n m d (load_le n m' s) (d + i) = m' (s + i).
Proof.
  intros Hb. revert m d s i. induction n as [|n IH]; intros m d s i Hi; [lia|].
  cbn [store_le load_le]. pose proof (Hb s) as Hs. set (r := load_le n m' (s + 1)) in *.
  assert (Hd : (m' s + 256 * r) / 256 = r) by (Z.to_euclidean_division_equations; lia).
  rewrite Hd. destruct (decide (i = 0)) as [->|Hne].
  - rewrite store_le_out by lia. rewrite !Z.add_0_r. unfold upd. rewrite Z.eqb_refl. unfold u8.
    Z.to_euclidean_division_equations; lia.
  - unfold r. replace (d + i) with (d + 1 + (i - 1)) by lia. rewrite IH by lia. f_equal. lia.
Qed.

Lemma store_le_ok n m a w : bytes_ok m -> bytes_ok (store_le n m a w).
Proof. revert m a w. induction n as [|n IH]; intros; cbn; [done|]. by apply IH, upd_ok. Qed.

Lemma store64_copy m d s : bytes_ok m -> copied_range m (store64 m d (load64 m s)) d s 8.
Proof.
  intros Hb x. unfold store64, load64. destruct (decide _) as [Hx|Hx].
  - replace x with (d + (x - d)) at 1 by lia. apply store_load_le; [done|lia].
  - apply store_le_out. lia.
Qed.

Definition apart (d s n : Z) : Prop := d + n <= s \/ s + n <= d.

Lemma copied_range_step m m1 m2 d s k n :
  copied_range m m1 d s k -> copied_range m1 m2 (d + k) (s + k) n -> 0 <= k -> 0 <= n ->
  apart d s (k + n) -> copied_range m m2 d s (k + n).
Proof.
  intros H1 H2 Hk Hn Ha x. rewrite H2. unfold apart in Ha.
  repeat case_decide; rewrite ?H1; repeat case_decide; try lia; try (f_equal; lia).
Qed.

Lemma copied_range_0 m d s : copied_range m m d s 0.
Proof. intros x. by rewrite decide_False by lia. Qed.

Lemma copy_bytes_run n m d s lim fuel :
  bytes_ok m -> lim = d + Z.of_nat n -> (n <= fuel)%nat -> apart d s (Z.of_nat n) ->
  copied_range m (copy_bytes fuel m d s lim) d s (Z.of_nat n).
Proof.
  revert m d s fuel. induction n as [|n IH]; intros m d s fuel Hb Hl Hf Ha.
  - destruct fuel; cbn [copy_bytes]; [apply copied_range_0|].
    rewrite (proj2 (Z.ltb_ge d lim)) by lia. apply copied_range_0.
  - destruct fuel as [|fuel]; [lia|]. cbn [copy_bytes]. rewrite (proj2 (Z.ltb_lt d lim)) by lia.
    replace (Z.of_nat (S n)) with (1 + Z.of_nat n) in * by lia. unfold apart in Ha.
    apply (copied_range_step m (upd m d (m s))); unfold apart; try lia.
    + intros x. destruct (decide _).
      * assert (x = d) as -> by lia. rewrite upd_eq by apply Hb. f_equal. lia.
      * apply upd_ne. lia.
    + apply IH; [by apply upd_ok|lia|lia|unfold apart; lia].
Qed.

Lemma copy_words_run k m d s lim fuel :
  bytes_ok m -> d + 8 * Z.of_nat k - 8 < lim <= d + 8 * Z.of_nat k -> (k <= fuel)%nat ->
  apart d s (8 * Z.of_nat k) ->
  exists m', copy_words fuel m d s lim = (m', d + 8 * Z.of_nat k, s + 8 * Z.of_nat k) /\
    bytes_ok m' /\ copied_range m m' d s (8 * Z.of_nat k).
Proof.
  revert m d s fuel. induction k as [|k IH]; intros m d s fuel Hb Hl Hf Ha.
  - exists m. rewrite !Z.add_0_r. split; [|split; [done|apply copied_range_0]].
    destruct fuel; cbn [copy_words]; [done|]. by rewrite (proj2 (Z.ltb_ge d lim)) by lia.
  - destruct fuel as [|fuel]; [lia|]. cbn [copy_words]. rewrite (proj2 (Z.ltb_lt d lim)) by lia.
    unfold apart in Ha.
    destruct (IH (store64 m d (load64 m s)) (d + 8) (s + 8) fuel) as (m' & E & Hb' & Hc);
      [by apply store_le_ok|lia|lia|unfold apart; lia|].
    exists m'. split; [rewrite E; apply f_equal2; [apply f_equal2; [done|lia]|lia]|]. split; [done|].
    replace (8 * Z.of_nat (S k)) with (8 + 8 * Z.of_nat k) by lia.
    eapply copied_range_step; [by apply store64_copy|exact Hc|lia|lia|unfold apart; lia].
Qed.

(** C36: [memcpy] copies. Whether or not the addresses are aligned (so that the
    loop by words runs first), the [len] bytes at [src] end up at [dest] and no
    other byte changes, when the two ranges do not overlap. *)
Theorem memcpy_correct m dest src len :
  bytes_ok m -> 0 <= len -> 0 <= dest -> 0 <= src -> apart dest src len ->
  copied_range m (memcpy m dest src len) dest src len.
Proof.
  intros Hb Hl Hd Hs Ha. unfold memcpy, apart in *. destruct (_ =? 0).
  - set (k := Z.to_nat (len / 8)).
    assert (Hk : Z.of_nat k = len / 8) by (unfold k; rewrite Z2Nat.id; [done|apply Z.div_pos; lia]).
    destruct (copy_words_run k m dest src (dest + len - 7) (Z.to_nat len)) as (m' & E & Hb' & Hc);
      [done|Z.to_euclidean_division_equations; lia|apply Nat2Z.inj_le; Z.to_euclidean_division_equations; lia
      |unfold apart; Z.to_euclidean_division_equations; lia|].
    rewrite E. set (n := Z.to_nat (len - 8 * (len / 8))).
    assert (Hn : Z.of_nat n = len - 8 * (len / 8)) by (unfold n; Z.to_euclidean_division_equations; lia).
    replace len with (8 * Z.of_nat k + Z.of_nat n) at 3 by lia.
    eapply copied_range_step; [exact Hc| |lia|lia|unfold apart; lia].
    apply copy_bytes_run; [done|lia|lia|unfold apart; lia].
  - replace len with (Z.of_nat (Z.to_nat len)) at 3 by lia.
    apply copy_bytes_run; [done|lia|lia|unfold apart; lia].
Qed.

Lemma memcpy_correct_witness : memcpy (fun a => if a =? 17 then 5 else 0) 40 16 9 41 = 5.
Proof.
  rewrite (memcpy_correct (fun a => if a =? 17 then 5 else 0) 40 16 9).
  - reflexivity.
  - intros a. destruct (a =? 17); lia.
  - lia.
  - lia.
  - lia.
  - unfold apart. lia.
Defined.

(** [m'] is [m] with [n] bytes equal to [b] from [d] on. *)
Definition filled_range (m m' : bmem) (d b n : Z) : Prop :=
  forall x, m' x = if decide (d <= x < d + n) then u8 b else m x.

Lemma filled_range_step m m1 m2 d b k n :
  filled_range m m1 d b k -> filled_range m1 m2 (d + k) b n -> 0 <= k -> 0 <= n ->
  filled_range m m2 d b (k + n).
Proof. intros H1 H2 Hk Hn x. rewrite H2, H1. repeat case_decide; lia || done. Qed.

Lemma filled_range_0 m d b : filled_range m m d b 0.
Proof. intros x. by rewrite decide_False by lia. Qed.

Lemma set_bytes_run n m d b lim fuel :
  lim = d + Z.of_nat n -> (n <= fuel)%nat ->
  filled_range m (set_bytes fuel m d b lim) d b (Z.of_nat n).
Proof.
  revert m d fuel. induction n as [|n IH]; intros m d fuel Hl Hf.
  - destruct fuel; cbn [set_bytes]; [apply filled_range_0|].
    rewrite (proj2 (Z.ltb_ge d lim)) by lia. apply filled_range_0.
  - destruct fuel as [|fuel]; [lia|]. cbn [set_bytes]. rewrite (proj2 (Z.ltb_lt d lim)) by lia.
    replace (Z.of_nat (S n)) with (1 + Z.of_nat n) by lia.
    eapply filled_range_step; [|apply IH; lia|lia|lia].
    intros x. unfold upd. destruct (x =? d) eqn:E; bsplit; case_decide; lia || done.
Qed.

(** The word that [memset] builds repeats its byte. *)
Definition splat (b : Z) : Z :=
  let word := b in
  let word := Z.lor word (Z.shiftl word 8) in
  let word := Z.lor word (Z.shiftl word 16) in
  Z.lor word (Z.shiftl (Z.shiftl word 16) 16).

Lemma splat_mul b : 0 <= b < 256 -> splat b = b * 72340172838076673.
Proof.
  intros Hb.
  assert (Hall : forallb (fun b => splat b =? b * 72340172838076673) (seqZ 0 256) = true)
    by (vm_compute; reflexivity).
  rewrite List.forallb_forall in Hall. apply Z.eqb_eq, Hall, list_elem_of_In, elem_of_seqZ. lia.
Qed.

Lemma store_le_byte n m a w i :
  0 <= i < Z.of_nat n -> store_le n m a w (a + i) = u8 (w / 256 ^ i).
Proof.
  revert m a w i. induction n as [|n IH]; intros m a w i Hi; [lia|]. cbn [store_le].
  destruct (decide (i = 0)) as [->|Hne].
  - rewrite store_le_out by lia. rewrite Z.add_0_r. unfold upd. rewrite Z.eqb_refl.
    by rewrite Z.pow_0_r, Z.div_1_r.
  - replace (a + i) with (a + 1 + (i - 1)) by lia. rewrite IH by lia. f_equal.
    rewrite Z.div_div by (try apply Z.pow_pos_nonneg; lia). f_equal.
    rewrite <- Z.pow_succ_r by lia. f_equal. lia.
Qed.

Lemma store64_splat m d b : 0 <= b < 256 -> filled_range m (store64 m d (splat b)) d b 8.
Proof.
  intros Hb x. unfold store64. destruct (decide _) as [Hx|Hx]; [|apply store_le_out; lia].
  replace x with (d + (x - d)) by lia. rewrite store_le_byte by lia. rewrite splat_mul by done.
  assert (Hi : 0 <= x - d < 8) by lia. generalize (x - d) Hi. clear -Hb. intros i Hi. unfold u8.
  assert (i = 0 \/ i = 1 \/ i = 2 \/ i = 3 \/ i = 4 \/ i = 5 \/ i = 6 \/ i = 7) as Hc by lia.
  destruct Hc as [->|[->|[->|[->|[->|[->|[->| ->]]]]]]]; cbn;
    Z.to_euclidean_division_equations; lia.
Qed.

Lemma set_words_run k m d b lim fuel :
  0 <= b < 256 -> lim = d + 8 * Z.of_nat k -> (k <= fuel)%nat ->
  filled_range m (set_words fuel m d (splat b) lim) d b (8 * Z.of_nat k).
Proof.
  intros Hb. revert m d fuel. induction k as [|k IH]; intros m d fuel Hl Hf.
  - destruct fuel; cbn [set_words]; [apply filled_range_0|].
    rewrite (proj2 (Z.ltb_ge d lim)) by lia. apply filled_range_0.
  - destruct fuel as [|fuel]; [lia|]. cbn [set_words]. rewrite (proj2 (Z.ltb_lt d lim)) by lia.
    replace (8 * Z.of_nat (S k)) with (8 + 8 * Z.of_nat k) by lia.
    eapply filled_range_step; [by apply store64_splat|apply IH; lia|lia|lia].
Qed.

Lemma land_or_7 a b : 0 <= a -> 0 <= b -> Z.land (Z.lor a b) 7 = 0 -> a mod 8 = 0 /\ b mod 8 = 0.
Proof.
  intros Ha Hb. change 7 with (Z.ones 3). rewrite Z.land_lor_distr_l, !Z.land_ones by lia.
  intros H. apply Z.lor_eq_0_iff in H. exact H.
Qed.

(** [memset] fills. The word loop and the byte loop write the same thing:
    the [len] bytes from [dest] on become the low byte of the argument and no
    other byte changes. *)
Theorem memset_correct m dest byte len :
  0 <= len -> 0 <= dest -> filled_range m (memset m dest byte len) dest byte len.
Proof.
  intros Hl Hd. unfold memset. destruct (_ =? 0) eqn:E.
  - apply Z.eqb_eq in E. apply land_or_7 in E as [_ Hlen]; [|done|done].
    assert (Hb : Z.land byte 255 = u8 byte).
    { change 255 with (Z.ones 8). by rewrite Z.land_ones by lia. }
    change (Z.lor _ (Z.shiftl (Z.shiftl _ 16) 16)) with (splat (Z.land byte 255)). rewrite Hb.
    assert (Hr : 0 <= u8 byte < 256) by (apply Z.mod_pos_bound; lia).
    intros x. pose proof (set_words_run (Z.to_nat (len / 8)) m dest (u8 byte) (dest + len) (Z.to_nat len) Hr) as H.
    assert (Hk : 8 * Z.of_nat (Z.to_nat (len / 8)) = len) by (Z.to_euclidean_division_equations; lia).
    rewrite Hk in H. rewrite H.
    + case_decide; [|done]. unfold u8. by rewrite Z.mod_mod by lia.
    + done.
    + apply Nat2Z.inj_le. Z.to_euclidean_division_equations; lia.
  - replace len with (Z.of_nat (Z.to_nat len)) at 3 by lia. apply set_bytes_run; lia.
Qed.

Lemma memset_correct_witness : memset (fun _ => 7) 64 300 16 79 = 44 /\ memset (fun _ => 7) 64 300 16 80 = 7.
Proof.
  rewrite !(memset_correct (fun _ => 7) 64 300 16).
  - split; reflexivity.
  - lia.
  - lia.
  - lia.
  - lia.
Defined.

(** ** Overlapping moves *)

Lemma move_up_run n m d s :
  bytes_ok m -> d <= s \/ s + Z.of_nat n <= d -> copied_range m (move_up n m d s) d s (Z.of_nat n).
Proof.
  revert m d s. induction n as [|n IH]; intros m d s Hb Hd; cbn [move_up]; [apply copied_range_0|].
  intros x. rewrite (IH (upd m d (m s)) (d + 1) (s + 1)); [|by apply upd_ok|lia].
  destruct (decide (d + 1 <= x < d + 1 + Z.of_nat n)).
  - rewrite decide_True by lia. rewrite upd_ne by lia. f_equal. lia.
  - destruct (decide (x = d)) as [->|].
    + rewrite upd_eq by apply Hb. rewrite decide_True by lia. f_equal. lia.
    + rewrite upd_ne by done. by rewrite decide_False by lia.
Qed.

Lemma move_down_run n m d s :
  bytes_ok m -> s <= d ->
  copied_range m (move_down n m d s) (d - Z.of_nat n) (s - Z.of_nat n) (Z.of_nat n).
Proof.
  revert m d s. induction n as [|n IH]; intros m d s Hb Hd; cbn [move_down].
  { rewrite !Z.sub_0_r. apply copied_range_0. }
  intros x. rewrite (IH (upd m (d - 1) (m (s - 1))) (d - 1) (s - 1)); [|by apply upd_ok|lia].
  destruct (decide (d - 1 - Z.of_nat n <= x < d - 1 - Z.of_nat n + Z.of_nat n)).
  - rewrite decide_True by lia. rewrite upd_ne by lia. f_equal. lia.
  - destruct (decide (x = d - 1)) as [->|].
    + rewrite upd_eq by apply Hb. rewrite decide_True by lia. f_equal. lia.
    + rewrite upd_ne by done. by rewrite decide_False by lia.
Qed.

(** [memmove] copies even when the ranges overlap, in either direction:
    afterwards [dst] holds what [src] held before. *)
Theorem memmove_correct m dst src n :
  bytes_ok m -> 0 <= n -> copied_range m (memmove m dst src n) dst src n.
Proof.
  intros Hb Hn. assert (Hz : Z.of_nat (Z.to_nat n) = n) by lia. unfold memmove.
  destruct ((src <? dst) && (dst <? src + n)) eqn:E.
  - pose proof (move_down_run (Z.to_nat n) m (dst + n) (src + n) Hb) as H. rewrite Hz in H.
    replace (dst + n - n) with dst in H by lia. replace (src + n - n) with src in H by lia.
    apply H. bsplit. lia.
  - pose proof (move_up_run (Z.to_nat n) m dst src Hb) as H. rewrite Hz in H. apply H.
    apply andb_false_iff in E as [E|E]; bsplit; lia.
Qed.

Lemma memmove_correct_witness : memmove (fun a => u8 a) 12 10 8 19 = 17.
Proof.
  rewrite (memmove_correct (fun a => u8 a) 12 10 8).
  - reflexivity.
  - intros a. apply Z.mod_pos_bound. lia.
  - lia.
Defined.

(** ** Strings *)

(** The C string at [p] is [l]. *)
Fixpoint cstr (m : bmem) (p : Z) (l : list Z) : Prop :=
  match l with
  | [] => m p = 0
  | c :: l' => m p = c /\ c <> 0 /\ cstr m (p + 1) l'
  end.

Lemma cstr_ext m m' p l :
  (forall x, p <= x <= p + Z.of_nat (length l) -> m' x = m x) -> cstr m p l -> cstr m' p l.
Proof.
  revert p. induction l as [|c l IH]; intros p Hx Hc; cbn in *; [rewrite Hx; [done|lia]|].
  destruct Hc as (H1 & H2 & H3). rewrite Hx by lia. split; [done|]. split; [done|].
  apply IH; [|done]. intros. apply Hx. lia.
Qed.

Lemma strlen_from_run m s0 s l fuel :
  cstr m s l -> (length l < fuel)%nat ->
  strlen_from fuel m s0 s = Some (s + Z.of_nat (length l) - s0).
Proof.
  revert s fuel. induction l as [|c l IH]; intros s fuel Hc Hf;
    (destruct fuel as [|fuel]; [cbn in Hf; lia|]); cbn in *.
  - rewrite Hc. cbn. f_equal. lia.
  - destruct Hc as (H1 & H2 & H3). rewrite H1, (proj2 (Z.eqb_neq c 0)) by done.
    rewrite IH by (done || lia). f_equal. lia.
Qed.

(** [strcmp] returns zero exactly on equal strings, and otherwise the sign
    of the first difference; it ends within the shorter string. *)
Theorem strcmp_correct m p1 l1 p2 l2 fuel :
  bytes_ok m -> cstr m p1 l1 -> cstr m p2 l2 -> (length l1 < fuel)%nat ->
  exists r, strcmp fuel m p1 p2 = Some r /\ (r = 0 <-> l1 = l2) /\
    (forall k a l1' b l2', l1 = k ++ a :: l1' -> l2 = k ++ b :: l2' -> a <> b -> r = a - b).
Proof.
  intros Hb. revert p1 p2 l2 fuel. induction l1 as [|c l1 IH]; intros p1 p2 l2 fuel H1 H2 Hf;
    (destruct fuel as [|fuel]; [cbn in Hf; lia|]); cbn [strcmp cstr length] in *.
  - exists (0 - m p2). rewrite H1. cbn [Z.eqb negb andb]. split; [done|]. split.
    + destruct l2 as [|d l2]; cbn in H2; [by rewrite H2|]. destruct H2 as (? & ? & _).
      split; [lia|done].
    + intros k a l1' b l2' Eq. by destruct k.
  - destruct H1 as (E1 & Hc & H1). rewrite E1, (proj2 (Z.eqb_neq c 0)) by done. cbn [negb andb].
    destruct l2 as [|d l2]; cbn in H2.
    + exists (c - 0). rewrite H2, (proj2 (Z.eqb_neq c 0)) by done. split; [done|]. split.
      * split; [lia|done].
      * intros k a l1' b l2' _ Eq. by destruct k.
    + destruct H2 as (E2 & Hd & H2). rewrite E2. destruct (c =? d) eqn:E; bsplit.
      * subst d. destruct (IH (p1 + 1) (p2 + 1) l2 fuel) as (r & Er & Hz & Hs); [done..|lia|].
        exists r. split; [done|]. split.
        -- rewrite Hz. split; [intros ->; by rewrite E|by intros [= _ ->]].
        -- intros [|k0 k] a l1' b l2' Ea Eb Hne; injection Ea as ? ?; injection Eb as ? ?;
           [congruence|]. by apply (Hs k a l1' b l2').
      * exists (c - d). split; [done|]. split.
        -- split; [lia|]. intros [= ? ?]. done.
        -- intros [|k0 k] a l1' b l2' Ea Eb Hne; injection Ea as ? ?; injection Eb as ? ?; congruence.
Qed.

(** A memory with the strings "ab" at 10, "ac" at 20, "/" at 30 and
    "//usr/bin" at 40. *)
Definition demo_bytes : bmem := fun a =>
  match a with
  | 10 => 97 | 11 => 98 | 20 => 97 | 21 => 99 | 30 => 47
  | 40 => 47 | 41 => 47 | 42 => 117 | 43 => 115 | 44 => 114
  | 45 => 47 | 46 => 98 | 47 => 105 | 48 => 110 | _ => 0
  end.

Lemma demo_bytes_ok : bytes_ok demo_bytes.
Proof.
  intros a. unfold demo_bytes. repeat match goal with |- context [match ?x with _ => _ end] => destruct x end; lia.
Qed.

Lemma strcmp_correct_witness : strcmp 9 demo_bytes 10 20 = Some (-1).
Proof.
  destruct (strcmp_correct demo_bytes 10 [97; 98] 20 [97; 99] 9) as (r & E & _ & H).
  - exact demo_bytes_ok.
  - repeat split; reflexivity || discriminate.
  - repeat split; reflexivity || discriminate.
  - cbn; lia.
  - rewrite E. f_equal. apply (H [97] 98 [] 99 []); [reflexivity|reflexivity|lia].
Defined.

(** ** Splitting *)

Lemma strchr_run m p ds c fuel :
  cstr m p ds -> c <> 0 -> 0 <= c < 256 -> (length ds < fuel)%nat ->
  exists r, strchr fuel m p c = Some r /\ (is_Some r <-> c ∈ ds).
Proof.
  intros Hc Hnz Hr. assert (Hu : u8 c = c) by by apply Z.mod_small.
  revert p fuel Hc. induction ds as [|d ds IH]; intros p fuel Hc Hf;
    (destruct fuel as [|fuel]; [cbn in Hf; lia|]); cbn [strchr cstr length] in *; rewrite Hu.
  - rewrite Hc. rewrite (proj2 (Z.eqb_neq 0 c)) by lia. exists None. split; [done|].
    split; [by intros [? ?]|by intros ?%elem_of_nil].
  - destruct Hc as (E & Hd & Hc). rewrite E. destruct (d =? c) eqn:Edc; bsplit.
    + subst. exists (Some p). split; [done|]. split; [intros _; left|eauto].
    + rewrite (proj2 (Z.eqb_neq d 0)) by done. destruct (IH (p + 1) fuel Hc) as (r & Er & Hin); [lia|].
      exists r. split; [done|]. rewrite Hin, elem_of_cons. naive_solver.
Qed.

(** Skipping stops after the longest prefix whose members all are, or all are
    not, delimiters. *)
Lemma skip_run m delim ds (want : bool) a b p fuel :
  bytes_ok m -> cstr m delim ds -> cstr m p (a ++ b) ->
  Forall (fun c => if want then c ∈ ds else c ∉ ds) a ->
  match b with [] => True | c :: _ => if want then c ∉ ds else c ∈ ds end ->
  (length a + length ds + 1 < fuel)%nat ->
  skip_delim fuel m delim p want = Some (p + Z.of_nat (length a)).
Proof.
  intros Hb Hd. revert p fuel. induction a as [|c a IH]; intros p fuel Hc Hall Hnext Hf;
    (destruct fuel as [|fuel]; [cbn in Hf; lia|]); cbn [app length] in *; cbn [skip_delim].
  - destruct b as [|c b]; cbn in Hc.
    + rewrite Hc. cbn. f_equal. lia.
    + destruct Hc as (E & Hnz & Hc). rewrite E, (proj2 (Z.eqb_neq c 0)) by done.
      destruct (strchr_run m delim ds c (S fuel)) as (r & Er & Hin); [done|done|by rewrite <- E|lia|].
      rewrite Er. cbn [mbind option_bind].
      destruct want; [rewrite bool_decide_eq_false_2 by (rewrite Hin; assumption)
                     |rewrite bool_decide_eq_true_2 by exact (proj2 Hin ltac:(assumption))]; f_equal; lia.
  - destruct Hc as (E & Hnz & Hc). apply list.Forall_cons in Hall as [Hca Hall].
    rewrite E, (proj2 (Z.eqb_neq c 0)) by done.
    destruct (strchr_run m delim ds c (S fuel)) as (r & Er & Hin); [done|done|by rewrite <- E|lia|].
    rewrite Er. cbn [mbind option_bind].
    destruct want; [rewrite bool_decide_eq_true_2 by exact (proj2 Hin ltac:(assumption))
                   |rewrite bool_decide_eq_false_2 by (rewrite Hin; assumption)];
      rewrite (IH _ fuel Hc Hall Hnext) by lia; f_equal; lia.
Qed.

Lemma cstr_app m p a b : cstr m p (a ++ b) -> cstr m (p + Z.of_nat (length a)) b.
Proof.
  revert p. induction a as [|c a IH]; intros p; cbn; [by rewrite Z.add_0_r|].
  intros (_ & _ & Hc). apply IH in Hc. by replace (p + Z.of_nat (S (length a))) with (p + 1 + Z.of_nat (length a)) by lia.
Qed.

Lemma cstr_cut m p a c b : cstr m p (a ++ c :: b) -> cstr (upd m (p + Z.of_nat (length a)) 0) p a.
Proof.
  revert p. induction a as [|d a IH]; intros p Hc; cbn in *.
  - by rewrite Z.add_0_r, upd_eq by lia.
  - destruct Hc as (E & Hd & Hc). rewrite upd_ne by lia. split; [done|]. split; [done|].
    apply IH in Hc. by replace (p + Z.of_nat (S (length a))) with (p + 1 + Z.of_nat (length a)) by lia.
Qed.

(** [strtok] splits. When the string at [current] is delimiters [a], a
    non-empty word [t] without delimiters and a rest [b] that is empty or starts
    with a delimiter, the call returns a pointer to [t] as a string of its own,
    and leaves the rest, without that delimiter, for the next call. *)
Theorem strtok_correct m cur delim ds a t b fuel :
  bytes_ok m -> cstr m delim ds -> cur <> 0 -> cstr m cur (a ++ t ++ b) -> t <> [] ->
  Forall (fun c => c ∈ ds) a -> Forall (fun c => c ∉ ds) t ->
  match b with [] => True | c :: _ => c ∈ ds end ->
  (length a + length t + length ds + 1 < fuel)%nat ->
  exists m' cur', strtok fuel m cur 0 delim = Some (m', cur', cur + Z.of_nat (length a)) /\
    cstr m' (cur + Z.of_nat (length a)) t /\
    match b with
    | [] => cur' = 0 /\ m' = m
    | _ :: b' => cur' = cur + Z.of_nat (length a + length t + 1) /\ cstr m' cur' b'
    end.
Proof.
  intros Hb Hd Hcur Hc Ht Ha Htt Hbb Hf. unfold strtok. cbn [Z.eqb negb].
  rewrite (proj2 (Z.eqb_neq cur 0)) by done.
  assert (Hs : skip_delim fuel m delim cur true = Some (cur + Z.of_nat (length a))).
  { apply (skip_run m delim ds true a (t ++ b)); auto; [|lia].
    destruct t as [|c t]; [done|]. by apply list.Forall_cons in Htt as [? _]. }
  rewrite Hs. cbn [mbind option_bind]. apply cstr_app in Hc. set (st := cur + Z.of_nat (length a)) in *.
  assert (He : skip_delim fuel m delim st false = Some (st + Z.of_nat (length t))).
  { apply (skip_run m delim ds false t b); auto. lia. }
  assert (Hst : m st <> 0).
  { destruct t as [|c t]; [done|]. cbn in Hc. destruct Hc as (-> & ? & _). done. }
  rewrite (proj2 (Z.eqb_neq _ _) Hst), He. cbn [mbind option_bind].
  destruct b as [|c b].
  - rewrite app_nil_r in Hc. pose proof (cstr_app m st t [] ltac:(by rewrite app_nil_r)) as Hz.
    cbn in Hz. rewrite Hz. cbn. by exists m, 0.
  - pose proof (cstr_app m st t (c :: b) Hc) as (E & Hnz & Hrest). rewrite E, (proj2 (Z.eqb_neq c 0)) by done.
    cbn [negb]. do 2 eexists. split; [done|]. split; [by eapply cstr_cut|].
    split; [unfold st; lia|]. eapply cstr_ext; [|exact Hrest]. intros x Hx. apply upd_ne. lia.
Qed.

Lemma strtok_correct_witness :
  exists m', strtok 20 demo_bytes 40 0 30 = Some (m', 46, 42) /\ cstr m' 42 [117; 115; 114].
Proof.
  destruct (strtok_correct demo_bytes 40 30 [47] [47; 47] [117; 115; 114] [47; 98; 105; 110] 20)
    as (m' & cur' & E & Hc & Hb & _).
  - exact demo_bytes_ok.
  - repeat split; reflexivity || discriminate.
  - lia.
  - repeat split; reflexivity || discriminate.
  - discriminate.
  - repeat constructor.
  - repeat constructor; rewrite list_elem_of_singleton; lia.
  - left.
  - cbn; lia.
  - exists m'. rewrite E, Hb. split; [reflexivity|exact Hc].
Defined.

(** ** Copying strings *)

Lemma cstr_upd m p l a v : a < p \/ p + Z.of_nat (length l) < a -> cstr m p l -> cstr (upd m a v) p l.
Proof. intros Ha. apply cstr_ext. intros x Hx. apply upd_ne. lia. Qed.

Lemma cstr_byte m p c l : bytes_ok m -> cstr m p (c :: l) -> 0 <= c < 256.
Proof. intros Hb (<- & _). apply Hb. Qed.

(** The loop of [safestrcpy] copies a prefix, or the whole string with its
    terminator. *)
Lemma safe_loop_run n m s t l :
  bytes_ok m -> cstr m t l -> s + Z.of_nat n < t \/ t + Z.of_nat (length l) < s ->
  exists m' s', safe_loop n m s t = (m', s') /\ bytes_ok m' /\
    s' = s + Z.min (Z.of_nat n) (Z.of_nat (length l) + 1) /\
    (forall x, ~ s <= x < s' -> m' x = m x) /\
    (forall i c, l !! i = Some c -> (i < n)%nat -> m' (s + Z.of_nat i) = c) /\
    ((length l < n)%nat -> m' (s + Z.of_nat (length l)) = 0).
Proof.
  revert m s t l. induction n as [|n IH]; intros m s t l Hb Hc Ha; cbn [safe_loop].
  { exists m, s. split; [done|]. split; [done|]. split; [lia|]. split; [done|]. split; intros; lia. }
  destruct l as [|c l]; cbn [cstr length] in Hc, Ha.
  - rewrite Hc. cbn [Z.eqb]. exists (upd m s 0), (s + 1). split; [done|]. split; [by apply upd_ok|].
    split; [cbn [length]; lia|]. split; [intros; apply upd_ne; lia|]. split; [done|].
    intros _. rewrite Z.add_0_r. by apply upd_eq.
  - destruct Hc as (E & Hnz & Hc). rewrite E, (proj2 (Z.eqb_neq c 0)) by done.
    assert (Hcr : 0 <= c < 256) by (rewrite <- E; apply Hb).
    destruct (IH (upd m s c) (s + 1) (t + 1) l) as (m' & s' & E' & Hb' & Hs' & Hout & Hin & Hz);
      [by apply upd_ok| |lia|].
    { eapply cstr_ext; [|exact Hc]. intros x Hx. apply upd_ne. lia. }
    exists m', s'. split; [done|]. split; [done|]. split; [cbn [length]; lia|]. split; [|split].
    + intros x Hx. rewrite Hout by lia. apply upd_ne. lia.
    + intros [|i] d Hd Hi; cbn in Hd.
      * injection Hd as <-. rewrite Hout by lia. rewrite Z.add_0_r. by apply upd_eq.
      * replace (s + Z.of_nat (S i)) with (s + 1 + Z.of_nat i) by lia. apply Hin; [done|lia].
    + cbn [length]. intros Hl. replace (s + Z.of_nat (S (length l))) with (s + 1 + Z.of_nat (length l)) by lia.
      apply Hz. lia.
Qed.

Lemma cstr_of_bytes m p l :
  Forall (fun c => c <> 0) l -> (forall i c, l !! i = Some c -> m (p + Z.of_nat i) = c) ->
  m (p + Z.of_nat (length l)) = 0 -> cstr m p l.
Proof.
  revert p. induction l as [|c l IH]; intros p Hnz Hin Hz; cbn in *; [by rewrite Z.add_0_r in Hz|].
  apply list.Forall_cons in Hnz as [Hc Hnz].
  split; [by rewrite <- (Hin 0%nat c eq_refl), Z.add_0_r|]. split; [done|].
  apply IH; [done| |by rewrite <- Hz; f_equal; lia].
  intros i d Hd. rewrite <- (Hin (S i) d Hd). f_equal. lia.
Qed.

Lemma cstr_nz m p l : cstr m p l -> Forall (fun c => c <> 0) l.
Proof. revert p. induction l as [|c l IH]; intros p; cbn; [done|]. intros (_ & Hc & H). eauto. Qed.

(** [safestrcpy] always leaves a terminated string: the longest prefix of
    the source that fits into [n] bytes with its terminator, and not a byte
    outside the [n] bytes of the destination is written. *)
Theorem safestrcpy_correct m s t n l :
  bytes_ok m -> cstr m t l -> 0 < n -> s + n <= t \/ t + Z.of_nat (length l) < s ->
  cstr (safestrcpy m s t n) s (take (Z.to_nat (n - 1)) l) /\
  (forall x, ~ s <= x < s + n -> safestrcpy m s t n x = m x).
Proof.
  intros Hb Hc Hn Ha. unfold safestrcpy. rewrite (proj2 (Z.leb_gt n 0)) by lia.
  destruct (safe_loop_run (Z.to_nat (n - 1)) m s t l) as (m' & s' & E & Hb' & Hs' & Hout & Hin & Hz);
    [done|done|lia|].
  rewrite E. split; [|intros x Hx; rewrite upd_ne by lia; apply Hout; lia].
  apply cstr_of_bytes.
  - apply Forall_take. by eapply cstr_nz.
  - intros i c Hi. apply lookup_take_Some in Hi as [Hi Hlt]. pose proof (lookup_lt_Some _ _ _ Hi).
    rewrite upd_ne by lia. by apply Hin.
  - rewrite length_take. destruct (decide (length l < Z.to_nat (n - 1))%nat) as [Hl|Hl].
    + rewrite Nat.min_r, upd_ne by lia. by apply Hz.
    + rewrite Nat.min_l by lia. replace (s + _) with s' by lia. by apply upd_eq.
Qed.

Lemma safestrcpy_correct_witness : cstr (safestrcpy demo_bytes 200 40 4) 200 [47; 47; 117].
Proof.
  refine (proj1 (safestrcpy_correct demo_bytes 200 40 4 [47; 47; 117; 115; 114; 47; 98; 105; 110] _ _ _ _)).
  - exact demo_bytes_ok.
  - repeat split; reflexivity || discriminate.
  - lia.
  - right; cbn; lia.
Defined.
