(* ===== verification/Snprintf.v ===== *)
(** * Formatted output (util/snprintf.c)

    [vsnprintf] on a byte memory: the format and the strings it prints are read
    from memory, the text is stored into a buffer of [n] bytes.  The variable
    arguments are the 64-bit slots that [va_arg] takes one after the other.  The
    theorem compares it with [render], which computes the whole text as a list. *)
From S2P Require Import Prelude CString.

#[local] Notation BM := (M bmem).

Definition LONG_MIN : Z := -9223372036854775808.

(** The variables of the loop: [pos], [format], [longarg] and the arguments left. *)
Record vstate : Type := mkV { pos : Z; format : bool; longarg : bool; vl : list Z }.

(** [if (++pos < n) out[pos - 1] = c;] *)
Definition emit (out n p c : Z) : BM Z :=
  let p := u64 (p + 1) in
  when (p <? n) (modify (fun m => upd m (out + p - 1) c)) ;;;
  ret p.

Definition va_arg (l : list Z) : BM (Z * list Z) :=
  match l with a :: l' => ret (a, l') | [] => halt (UB "va_arg") end.

(** [longarg ? va_arg(vl, long) : va_arg(vl, int)] *)
Definition num_arg (long : bool) (l : list Z) : BM (Z * list Z) :=
  let* '(a, l) := va_arg l in
  ret (if long then i64 a else i32 a, l).

Definition hex_digit (d : Z) : Z := if d <? 10 then 48 + d else 97 + d - 10.

(** The digits [k - 1] to 0 of [num] in base 16. *)
Fixpoint hex_loop (k : nat) (out n num p : Z) : BM Z :=
  match k with
  | O => ret p
  | S i =>
      let d := Z.land (Z.shiftr num (4 * Z.of_nat i)) 15 in
      let* p := emit out n p (hex_digit d) in
      hex_loop i out n num p
  end.

Definition hex_width (long : bool) : nat := if long then 16 else 8.

Definition print_x (long : bool) (out n p : Z) (l : list Z) : BM vstate :=
  let* '(num, l) := num_arg long l in
  let* p := hex_loop (hex_width long) out n num p in
  ret (mkV p false false l).

(** [for (long nn = num; nn /= 10; digits++);]  A [long] has at most 19 digits. *)
Fixpoint count_digits (fuel : nat) (nn : Z) : nat :=
  match fuel with
  | O => 1
  | S f => if Z.quot nn 10 =? 0 then 1 else S (count_digits f (Z.quot nn 10))
  end.

(** The digits [k - 1] to 0 of [num] are stored from the last one on. *)
Fixpoint dec_loop (k : nat) (out n p num : Z) : BM unit :=
  match k with
  | O => ret tt
  | S i =>
      when (p + Z.of_nat i + 1 <? n)
        (modify (fun m => upd m (out + p + Z.of_nat i) (48 + Z.rem num 10))) ;;;
      dec_loop i out n p (Z.quot num 10)
  end.

Definition print_d (long : bool) (out n p : Z) (l : list Z) : BM vstate :=
  let* '(num, l) := num_arg long l in
  check (num =? LONG_MIN) (UB "overflow of -num") ;;;
  let* p := if num <? 0 then emit out n p 45 else ret p in
  let num := Z.abs num in
  let digits := count_digits 19 num in
  dec_loop digits out n p num ;;;
  ret (mkV (u64 (p + Z.of_nat digits)) false false l).

(** [while ( *s2) { ... s2++; }] *)
Fixpoint str_loop (fuel : nat) (out n s2 p : Z) : BM Z :=
  match fuel with
  | O => halt OutOfFuel
  | S f =>
      let* m := get in
      if m s2 =? 0 then ret p else
      let* p := emit out n p (m s2) in
      str_loop f out n (s2 + 1) p
  end.

Definition print_s (fuel : nat) (out n p : Z) (l : list Z) : BM vstate :=
  let* '(s2, l) := va_arg l in
  let* p := str_loop fuel out n s2 p in
  ret (mkV p false false l).

(** [if (++pos < n) out[pos - 1] = (char)va_arg(vl, int);]: the argument is taken
    only when there is room for it. *)
Definition print_c (out n p : Z) (l : list Z) : BM vstate :=
  let p := u64 (p + 1) in
  if p <? n then
    let* '(a, l) := num_arg false l in
    modify (fun m => upd m (out + p - 1) a) ;;;
    ret (mkV p false false l)
  else ret (mkV p false false l).

(** The switch on a character [c] in format mode. *)
Definition conversion (fuel : nat) (out n c : Z) (v : vstate) : BM vstate :=
  if c =? 108 then ret (mkV (pos v) true true (vl v))
  else if c =? 112 then
    let* p := emit out n (pos v) 48 in
    let* p := emit out n p 120 in
    print_x true out n p (vl v)
  else if c =? 120 then print_x (longarg v) out n (pos v) (vl v)
  else if c =? 100 then print_d (longarg v) out n (pos v) (vl v)
  else if c =? 115 then print_s fuel out n (pos v) (vl v)
  else if c =? 99 then print_c out n (pos v) (vl v)
  else ret v.

(** [for (; *s; s++)] with a bound on the length of the format; [sf] bounds the
    length of the strings printed. *)
Fixpoint print_loop (fuel sf : nat) (out n s : Z) (v : vstate) : BM vstate :=
  match fuel with
  | O => halt OutOfFuel
  | S f =>
      let* m := get in
      let c := m s in
      if c =? 0 then ret v else
      let* v :=
        if format v then conversion sf out n c v
        else if c =? 37 then ret (mkV (pos v) true (longarg v) (vl v))
        else let* p := emit out n (pos v) c in ret (mkV p false (longarg v) (vl v)) in
      print_loop f sf out n (s + 1) v
  end.

Definition vsnprintf (fuel sf : nat) (out n s : Z) (args : list Z) : BM Z :=
  let* v := print_loop fuel sf out n s (mkV 0 false false args) in
  (if pos v <? n then modify (fun m => upd m (out + pos v) 0)
   else when (negb (n =? 0)) (modify (fun m => upd m (out + n - 1) 0))) ;;;
  ret (i32 (pos v)).

(** ** The text that a format denotes *)

Definition show_hex (k : nat) (num : Z) : list Z :=
  (fun i => hex_digit (num / 16 ^ Z.of_nat i mod 16)) <$> reverse (seq 0 k).

(** Decimal digits; [19] is enough for a [long]. *)
Fixpoint decimal (fuel : nat) (num : Z) : list Z :=
  match fuel with
  | O => [48 + num mod 10]
  | S f => if num <? 10 then [48 + num] else decimal f (num / 10) ++ [48 + num mod 10]
  end.

Definition show_dec (num : Z) : list Z :=
  if num <? 0 then 45 :: decimal 19 (- num) else decimal 19 num.

Section Render.
(** The strings that the pointers among the arguments point to. *)
Variable str : Z -> option (list Z).

Definition arg_text (c : Z) (long : bool) (a : Z) : option (list Z) :=
  let num := if long then i64 a else i32 a in
  if c =? 112 then Some (48 :: 120 :: show_hex 16 (i64 a))
  else if c =? 120 then Some (show_hex (hex_width long) num)
  else if c =? 100 then if num =? LONG_MIN then None else Some (show_dec num)
  else if c =? 115 then str a
  else Some [u8 a].

Definition is_conversion (c : Z) : bool :=
  (c =? 112) || (c =? 120) || (c =? 100) || (c =? 115) || (c =? 99).

(** [%] starts a conversion that ends with the first of the letters above; an
    [l] in it makes the argument [long], any other character is skipped. *)
Fixpoint render (fmt : list Z) (conv long : bool) (args : list Z) : option (list Z) :=
  match fmt with
  | [] => Some []
  | c :: fmt' =>
      if conv then
        if c =? 108 then render fmt' true true args
        else if is_conversion c then
          match args with
          | a :: args' => t ← arg_text c long a; r ← render fmt' false false args'; Some (t ++ r)
          | [] => None
          end
        else render fmt' true long args
      else if c =? 37 then render fmt' true long args
      else r ← render fmt' false long args; Some (c :: r)
  end.
End Render.

(** Values: a decimal text denotes its number. *)
Definition dec_value (l : list Z) : Z := foldl (fun v c => 10 * v + (c - 48)) 0 l.

Lemma decimal_value fuel num :
  0 <= num < 10 ^ (Z.of_nat fuel + 1) -> dec_value (decimal fuel num) = num.
Proof.
  revert num. induction fuel as [|f IH]; intros num Hn; cbn [decimal].
  - cbn in Hn. cbn. rewrite Z.mod_small by lia. lia.
  - destruct (num <? 10) eqn:E; bsplit; [cbn; lia|].
    unfold dec_value in *. rewrite foldl_app. cbn [foldl]. rewrite IH; [klia|].
    replace (Z.of_nat (S f) + 1) with (Z.of_nat f + 1 + 1) in Hn by lia.
    rewrite Z.pow_add_r, Z.pow_1_r in Hn by lia. klia.
Qed.

(** ** The text written so far *)

Section Buffer.
Context (m0 : bmem) (out n : Z).

(** [m] is [m0] with the text [t] in the buffer, as far as it fits. *)
Definition has_text (t : list Z) (m : bmem) : Prop :=
  forall a, m a = if decide (0 <= a - out < n - 1) then default (m0 a) (t !! Z.to_nat (a - out)) else m0 a.

Definition byte (c : Z) : Prop := 0 <= c < 256.

Lemma text_nil m : m = m0 -> has_text [] m.
Proof. intros -> a. by destruct (decide _). Qed.

Lemma text_snoc t m c :
  has_text t m -> byte c ->
  has_text (t ++ [c]) (if Z.of_nat (length t) + 1 <? n then upd m (out + Z.of_nat (length t)) c else m).
Proof.
  intros Hw Hc a. assert (Hu : u8 c = c) by (apply Z.mod_small; exact Hc).
  destruct (_ <? n) eqn:E; bsplit; unfold upd; rewrite ?Hu.
  - destruct (a =? out + Z.of_nat (length t)) eqn:Ea; bsplit.
    + subst a. rewrite decide_True by lia.
      replace (Z.to_nat _) with (length t) by lia. by rewrite list_lookup_middle.
    + rewrite (Hw a). destruct (decide _) as [Hr|Hr]; [|done]. f_equal.
      destruct (decide (Z.to_nat (a - out) < length t)%nat).
      * by rewrite lookup_app_l.
      * rewrite !lookup_ge_None_2; [done| |lia]. rewrite length_app. cbn. lia.
  - rewrite (Hw a). destruct (decide _) as [Hr|Hr]; [|done]. by rewrite lookup_app_l by lia.
Qed.

Lemma emit_run t m c :
  has_text t m -> byte c -> Z.of_nat (length t) + 1 < 2 ^ 31 ->
  exists m', emit out n (Z.of_nat (length t)) c m = Ret (Z.of_nat (length (t ++ [c]))) m' /\
    has_text (t ++ [c]) m'.
Proof.
  intros Hw Hc Hl. pose proof (text_snoc t m c Hw Hc) as Hw'. eexists. split; [|exact Hw'].
  unfold emit. rewrite u64_small by lia. replace (out + _ - 1) with (out + Z.of_nat (length t)) by lia.
  rewrite length_app, Nat2Z.inj_add. unfold bind, when, modify, ret. by destruct (_ <? n).
Qed.

(** [prints c t txt]: with [t] in the buffer, [c] appends [txt]; [k] tells what
    it returns from the new position. *)
Definition prints {A} (c : Z -> BM A) (k : Z -> A) (t txt : list Z) (m : bmem) : Prop :=
  exists m', c (Z.of_nat (length t)) m = Ret (k (Z.of_nat (length (t ++ txt)))) m' /\ has_text (t ++ txt) m'.

Lemma show_hex_S k num :
  show_hex (S k) num = hex_digit (num / 16 ^ Z.of_nat k mod 16) :: show_hex k num.
Proof. unfold show_hex. by rewrite seq_S, reverse_snoc. Qed.

Lemma show_hex_length k num : length (show_hex k num) = k.
Proof. unfold show_hex. by rewrite length_fmap, length_reverse, length_seq. Qed.

Lemma nibble num k : Z.land (Z.shiftr num (4 * Z.of_nat k)) 15 = num / 16 ^ Z.of_nat k mod 16.
Proof.
  change 15 with (Z.ones 4). rewrite Z.land_ones, Z.shiftr_div_pow2 by lia.
  by rewrite Z.pow_mul_r by lia.
Qed.

Lemma hex_digit_byte d : 0 <= d < 16 -> byte (hex_digit d).
Proof. intros H. unfold hex_digit, byte. destruct (d <? 10) eqn:E; bsplit; lia. Qed.

Lemma hex_loop_run k num t m :
  has_text t m -> Z.of_nat (length t + k) < 2 ^ 31 ->
  prints (fun p => hex_loop k out n num p) id t (show_hex k num) m.
Proof.
  revert t m. induction k as [|k IH]; intros t m Hw Hl; cbn [hex_loop].
  - exists m. cbn. rewrite app_nil_r. done.
  - rewrite nibble, show_hex_S. set (d := num / _ mod 16).
    destruct (emit_run t m (hex_digit d) Hw) as (m1 & E1 & Hw1).
    { apply hex_digit_byte, Z.mod_pos_bound. lia. }
    { lia. }
    destruct (IH (t ++ [hex_digit d]) m1 Hw1) as (m2 & E2 & Hw2); [rewrite length_app; cbn; lia|].
    exists m2. rewrite (bind_Ret _ _ _ _ _ E1), E2. by rewrite <- !app_assoc in *.
Qed.

(** The last [k] decimal digits of [num]. *)
Fixpoint digits_of (k : nat) (num : Z) : list Z :=
  match k with O => [] | S i => digits_of i (num / 10) ++ [48 + num mod 10] end.

Lemma digits_of_length k num : length (digits_of k num) = k.
Proof. revert num. induction k as [|k IH]; intros num; [done|]. cbn. rewrite length_app, IH. cbn. lia. Qed.

Lemma decimal_digits fuel num :
  0 <= num < 10 ^ (Z.of_nat fuel + 1) -> decimal fuel num = digits_of (count_digits fuel num) num.
Proof.
  revert num. induction fuel as [|f IH]; intros num Hnum; [done|].
  cbn [decimal count_digits]. rewrite Z.quot_div_nonneg by lia.
  destruct (num <? 10) eqn:E; bsplit.
  - rewrite Z.div_small by lia. cbn. by rewrite Z.mod_small by lia.
  - rewrite (proj2 (Z.eqb_neq (num / 10) 0)) by klia. cbn [digits_of]. rewrite IH; [done|].
    replace (Z.of_nat (S f) + 1) with (Z.of_nat f + 1 + 1) in Hnum by lia.
    rewrite Z.pow_add_r, Z.pow_1_r in Hnum by lia. klia.
Qed.

Lemma dec_loop_run k p num m :
  0 <= p -> 0 <= num ->
  exists m', dec_loop k out n p num m = Ret tt m' /\
    forall a, m' a = if decide (0 <= a - out < n - 1 /\ p <= a - out)
                     then default (m a) (digits_of k num !! Z.to_nat (a - out - p)) else m a.
Proof.
  intros Hp. revert num m. induction k as [|k IH]; intros num m Hnum; cbn [dec_loop digits_of].
  { exists m. split; [done|]. intros a. by destruct (decide _). }
  rewrite Z.quot_div_nonneg, Z.rem_mod_nonneg by lia.
  set (d := 48 + num mod 10). assert (Hd : u8 d = d) by (unfold d; klia).
  set (m1 := if p + Z.of_nat k + 1 <? n then upd m (out + p + Z.of_nat k) d else m).
  destruct (IH (num / 10) m1) as (m2 & E & Hm2); [klia|]. exists m2. split.
  { unfold m1, bind, when, modify, ret in *. by destruct (_ <? n). }
  intros a. rewrite Hm2. pose proof (digits_of_length k (num / 10)) as Hlen.
  assert (Hm1 : m1 a = if decide (a - out - p = Z.of_nat k /\ p + Z.of_nat k + 1 < n) then d else m a).
  { unfold m1, upd. destruct (_ <? n) eqn:E1; bsplit; [|by rewrite decide_False by lia].
    destruct (a =? _) eqn:E2; bsplit; [by rewrite decide_True by lia|by rewrite decide_False by lia]. }
  destruct (decide (0 <= a - out < n - 1 /\ p <= a - out)) as [Hr|Hr].
  - destruct (Nat.lt_trichotomy (Z.to_nat (a - out - p)) k) as [Hlt|[Heq|Hgt]].
    + rewrite lookup_app_l by lia. destruct (lookup_lt_is_Some_2 (digits_of k (num / 10)) (Z.to_nat (a - out - p))) as [c ->]; [lia|done].
    + rewrite Heq, lookup_ge_None_2 by lia. cbn [default].
      rewrite list_lookup_middle by lia.
      rewrite Hm1, decide_True by lia. done.
    + rewrite !lookup_ge_None_2 by (rewrite ?length_app; cbn; lia). cbn [default].
      rewrite Hm1, decide_False by lia. done.
  - rewrite Hm1, decide_False by lia. done.
Qed.

Lemma dec_loop_prints num t m :
  has_text t m -> 0 <= num < 2 ^ 63 ->
  exists m', dec_loop (count_digits 19 num) out n (Z.of_nat (length t)) num m = Ret tt m' /\
    has_text (t ++ decimal 19 num) m' /\ length (decimal 19 num) = count_digits 19 num.
Proof.
  intros Hw Hnum. rewrite (decimal_digits 19) by (cbn in *; lia).
  destruct (dec_loop_run (count_digits 19 num) (Z.of_nat (length t)) num m) as (m' & E & Hm); [lia..|].
  exists m'. split; [done|]. split; [|apply digits_of_length].
  intros a. rewrite Hm, (Hw a).
  destruct (decide (0 <= a - out < n - 1)) as [Hr|Hr]; [|by rewrite decide_False by lia].
  destruct (decide (Z.of_nat (length t) <= a - out)) as [Hge|Hlt].
  - rewrite decide_True by lia. rewrite lookup_app_r, (lookup_ge_None_2 t) by lia.
    by replace (Z.to_nat (a - out - _)) with (Z.to_nat (a - out) - length t)%nat by lia.
  - rewrite decide_False by lia. by rewrite lookup_app_l by lia.
Qed.

Lemma str_loop_run l s2 fuel t m :
  has_text t m -> bytes_ok m0 -> cstr m0 s2 l -> (length l < fuel)%nat ->
  out + n <= s2 \/ s2 + Z.of_nat (length l) < out ->
  Z.of_nat (length t + length l) < 2 ^ 31 -> prints (str_loop fuel out n s2) id t l m.
Proof.
  revert s2 fuel t m. induction l as [|c l IH]; intros s2 [|fuel] t m Hw Hb Hc Hf Hd Hl; cbn in Hf; try lia;
    unfold prints; cbn [str_loop]; unfold bind at 1, get.
  - exists m. rewrite app_nil_r. rewrite (Hw s2), decide_False by (cbn in Hd; lia).
    cbn in Hc. by rewrite Hc.
  - cbn [length] in *. rewrite (Hw s2), decide_False by lia. destruct Hc as (Ec & Hnz & Hc).
    pose proof (Hb s2) as Hbc. rewrite Ec in *. rewrite (proj2 (Z.eqb_neq c 0)) by done.
    destruct (emit_run t m c Hw) as (m1 & E1 & Hw1); [done|lia|].
    destruct (IH (s2 + 1) fuel (t ++ [c]) m1 Hw1 Hb Hc) as (m2 & E2 & Hw2); try lia.
    { rewrite length_app. cbn. lia. }
    exists m2. rewrite (bind_Ret _ _ _ _ _ E1), E2. by rewrite <- !app_assoc in *.
Qed.

Lemma u8_i32 z : u8 (i32 z) = u8 z.
Proof. unfold u8, i32. destruct (_ <? _); klia. Qed.

Lemma upd_i32 m a v : upd m a (i32 v) = upd m a (u8 v).
Proof. unfold upd. rewrite u8_i32. unfold u8. by rewrite Z.mod_mod. Qed.

Lemma i64_range z : -9223372036854775808 <= i64 z < 9223372036854775808.
Proof. unfold i64. pose proof (Z.mod_pos_bound z 18446744073709551616). destruct (_ <? _) eqn:E; bsplit; lia. Qed.

Lemma num_range (long : bool) a : LONG_MIN <= (if long then i64 a else i32 a) < 2 ^ 63.
Proof. destruct long; [apply i64_range|]. pose proof (i32_range a). unfold LONG_MIN. lia. Qed.

Lemma print_d_run (long : bool) a args t m :
  let num := if long then i64 a else i32 a in
  has_text t m -> num <> LONG_MIN -> Z.of_nat (length (t ++ show_dec num)) < 2 ^ 31 ->
  prints (fun p => print_d long out n p (a :: args)) (fun p => mkV p false false args) t (show_dec num) m.
Proof.
  intros num Hw Hmin Hl. pose proof (num_range long a) as Hr. fold num in Hr. unfold LONG_MIN in *.
  unfold prints, print_d, num_arg, va_arg. rewrite bind_assoc, bind_ret_l. cbn beta iota. rewrite bind_ret_l.
  fold num. rewrite (proj2 (Z.eqb_neq num _)) by done. cbn [check]. rewrite bind_ret_l.
  unfold show_dec in *. destruct (num <? 0) eqn:E; bsplit.
  - rewrite length_app in Hl. cbn [length] in Hl.
    destruct (emit_run t m 45 Hw) as (m1 & E1 & Hw1); [by vm_compute|lia|].
    rewrite (bind_Ret _ _ _ _ _ E1). rewrite Z.abs_neq by lia.
    destruct (dec_loop_prints (- num) (t ++ [45]) m1 Hw1) as (m2 & E2 & Hw2 & Hlen); [lia|].
    exists m2. rewrite (bind_Ret _ _ _ _ _ E2). rewrite <- app_assoc in Hw2. split; [|done].
    unfold ret. rewrite <- Hlen, u64_small by (rewrite ?length_app; cbn [length]; lia).
    do 2 f_equal. rewrite !length_app. cbn [length]. lia.
  - rewrite length_app in Hl. rewrite bind_ret_l, Z.abs_eq by lia.
    destruct (dec_loop_prints num t m Hw) as (m2 & E2 & Hw2 & Hlen); [lia|].
    exists m2. rewrite (bind_Ret _ _ _ _ _ E2). split; [|done].
    unfold ret. rewrite <- Hlen, u64_small by lia. do 2 f_equal. rewrite length_app. lia.
Qed.

(** ** The loop over the format *)

Context (Hb : bytes_ok m0) (str : Z -> option (list Z)) (sf : nat).

(** Strings lie outside the buffer and are shorter than the bound. *)
Definition apart_from_buffer (a : Z) (l : list Z) : Prop :=
  cstr m0 a l /\ (out + n <= a \/ a + Z.of_nat (length l) < out).

Context (Hstr : forall a l, str a = Some l -> apart_from_buffer a l /\ (length l < sf)%nat).

Lemma conversion_run c (long : bool) a args t txt m :
  is_conversion c = true -> arg_text str c long a = Some txt -> has_text t m ->
  Z.of_nat (length (t ++ txt)) < 2 ^ 31 -> (c = 99 -> Z.of_nat (length t) + 1 < n) ->
  prints (fun p => conversion sf out n c (mkV p true long (a :: args))) (fun p => mkV p false false args) t txt m.
Proof.
  intros Hc Ht Hw Hl H99. unfold prints, conversion. unfold arg_text in Ht. rewrite length_app in Hl.
  destruct (c =? 108) eqn:El; bsplit; [subst; discriminate|].
  cbn [pos longarg vl]. unfold print_x, print_s, print_c, num_arg, va_arg.
  destruct (c =? 112) eqn:Ep; [|destruct (c =? 120) eqn:Ex; [|destruct (c =? 100) eqn:Ed;
    [|destruct (c =? 115) eqn:Es]]]; simplify_eq.
  - cbn [length] in Hl. rewrite show_hex_length in Hl.
    destruct (emit_run t m 48 Hw) as (m1 & E1 & Hw1); [by vm_compute|lia|].
    rewrite (bind_Ret _ _ _ _ _ E1).
    destruct (emit_run (t ++ [48]) m1 120 Hw1) as (m2 & E2 & Hw2);
      [by vm_compute|rewrite length_app; cbn [length]; lia|].
    rewrite (bind_Ret _ _ _ _ _ E2), bind_assoc, bind_ret_l. cbn beta iota. rewrite bind_ret_l.
    destruct (hex_loop_run 16 (i64 a) ((t ++ [48]) ++ [120]) m2 Hw2) as (m3 & E3 & Hw3);
      [rewrite !length_app; cbn [length]; lia|].
    exists m3. unfold hex_width. rewrite (bind_Ret _ _ _ _ _ E3). rewrite <- !app_assoc in *. done.
  - rewrite show_hex_length in Hl. rewrite bind_assoc, bind_ret_l. cbn beta iota. rewrite bind_ret_l.
    destruct (hex_loop_run (hex_width long) (if long then i64 a else i32 a) t m Hw) as (m1 & E1 & Hw1); [lia|].
    exists m1. by rewrite (bind_Ret _ _ _ _ _ E1).
  - destruct (_ =? LONG_MIN) eqn:Emin; simplify_eq; bsplit.
    apply (print_d_run long a args t m Hw Emin). by rewrite length_app.
  - destruct (Hstr _ _ Ht) as [[Hcs Hap] Hf]. rewrite bind_ret_l.
    destruct (str_loop_run txt a sf t m Hw Hb Hcs Hf Hap) as (m1 & E1 & Hw1); [lia|].
    exists m1. by rewrite (bind_Ret _ _ _ _ _ E1).
  - assert (Hc99 : c = 99).
    { unfold is_conversion in Hc. rewrite Ep, Ex, Ed, Es in Hc. cbn in Hc. by apply Z.eqb_eq. }
    specialize (H99 Hc99). rewrite (proj2 (Z.eqb_eq c 99) Hc99).
    rewrite u64_small by (cbn [length] in Hl; lia). rewrite (proj2 (Z.ltb_lt _ n)) by done.
    rewrite bind_assoc, bind_ret_l. cbn beta iota. rewrite bind_ret_l.
    pose proof (text_snoc t m (u8 a) Hw) as Hw'. rewrite (proj2 (Z.ltb_lt _ n)) in Hw' by done.
    exists (upd m (out + Z.of_nat (length t)) (u8 a)). split; [|apply Hw', Z.mod_pos_bound; lia].
    unfold bind, modify, ret. rewrite length_app, Nat2Z.inj_add.
    replace (out + _ - 1) with (out + Z.of_nat (length t)) by lia. by rewrite upd_i32.
Qed.

Lemma print_loop_run fmt s fuel (conv long : bool) args t txt m :
  apart_from_buffer s fmt -> (length fmt < fuel)%nat -> render str fmt conv long args = Some txt ->
  has_text t m -> Z.of_nat (length (t ++ txt)) < 2 ^ 31 ->
  Z.of_nat (length (t ++ txt)) < n \/ 99 ∉ fmt ->
  exists v m', print_loop fuel sf out n s (mkV (Z.of_nat (length t)) conv long args) m = Ret v m' /\
    pos v = Z.of_nat (length (t ++ txt)) /\ has_text (t ++ txt) m'.
Proof.
  revert s fuel conv long args t txt m.
  induction fmt as [|c fmt IH]; intros s [|fuel] conv long args t txt m [Hc Hap] Hf Hr Hw Hl H99;
    cbn in Hf; try lia; cbn [print_loop]; unfold bind at 1, get; rewrite (Hw s), decide_False by (cbn in Hap; lia).
  { cbn in Hc, Hr. rewrite Hc. simplify_eq. eexists _, m. rewrite app_nil_r. done. }
  destruct Hc as (Ec & Hnz & Hc). pose proof (Hb s) as Hbc. rewrite Ec in *.
  clear Ec. rewrite (proj2 (Z.eqb_neq c 0)) by done. cbn [format pos longarg vl]. cbn [length] in Hap.
  assert (Hs : apart_from_buffer (s + 1) fmt) by (split; [done|lia]).
  assert (H99' : forall t' r, t ++ txt = t' ++ r -> Z.of_nat (length (t' ++ r)) < n \/ 99 ∉ fmt).
  { intros t' r <-. destruct H99 as [?|Hn99]; [by left|]. right. intros Hin. apply Hn99. by right. }
  cbn [render] in Hr. destruct conv.
  - destruct (c =? 108) eqn:El.
    { unfold conversion. rewrite El, bind_ret_l. eapply IH; eauto. lia. }
    destruct (is_conversion c) eqn:Ei.
    + destruct args as [|a args]; [done|]. destruct (arg_text str c long a) as [t1|] eqn:Et; [|done].
      cbn in Hr. destruct (render str fmt false false args) as [r|] eqn:Er; [|done]. cbn in Hr. simplify_eq.
      rewrite app_assoc in *.
      destruct (conversion_run c long a args t t1 m Ei Et Hw) as (m1 & E1 & Hw1).
      { rewrite length_app in Hl. lia. }
      { intros ->. destruct H99 as [Hlt|Hin]; [|exfalso; apply Hin; by left].
        unfold arg_text in Et. cbn in Et. simplify_eq. rewrite !length_app in Hlt. cbn [length] in Hlt. lia. }
      rewrite (bind_Ret _ _ _ _ _ E1). eapply IH; eauto. lia.
    + assert (E1 : conversion sf out n c (mkV (Z.of_nat (length t)) true long args) m
                   = Ret (mkV (Z.of_nat (length t)) true long args) m).
      { unfold conversion. rewrite El. unfold is_conversion in Ei.
        apply orb_false_iff in Ei as [Ei ->]. apply orb_false_iff in Ei as [Ei ->].
        apply orb_false_iff in Ei as [Ei ->]. by apply orb_false_iff in Ei as [-> ->]. }
      rewrite (bind_Ret _ _ _ _ _ E1). eapply IH; eauto. lia.
  - destruct (c =? 37).
    { rewrite bind_ret_l. eapply IH; eauto. lia. }
    destruct (render str fmt false long args) as [r|] eqn:Er; [|done]. cbn in Hr. simplify_eq.
    rewrite (cons_middle c t r), app_assoc in *.
    destruct (emit_run t m c Hw) as (m1 & E1 & Hw1); [done|rewrite !length_app in Hl; cbn [length] in Hl; lia|].
    rewrite bind_assoc, (bind_Ret _ _ _ _ _ E1), bind_ret_l. eapply IH; eauto. lia.
Qed.

End Buffer.

Lemma vsnprintf_run m out n s fmt args str txt fuel sf :
  bytes_ok m -> 0 <= n -> apart_from_buffer m out n s fmt -> (length fmt < fuel)%nat ->
  (forall a l, str a = Some l -> apart_from_buffer m out n a l /\ (length l < sf)%nat) ->
  render str fmt false false args = Some txt -> Z.of_nat (length txt) < 2 ^ 31 ->
  Z.of_nat (length txt) < n \/ 99 ∉ fmt ->
  exists m', vsnprintf fuel sf out n s args m = Ret (Z.of_nat (length txt)) m' /\
    (0 < n -> (forall i c, take (Z.to_nat (n - 1)) txt !! i = Some c -> m' (out + Z.of_nat i) = c) /\
              m' (out + Z.min (Z.of_nat (length txt)) (n - 1)) = 0) /\
    (forall a, ~ out <= a < out + n -> m' a = m a).
Proof.
  intros Hb Hn Hs Hf Hstr Hr Hl H99.
  destruct (print_loop_run m out n Hb str sf Hstr fmt s fuel false false args [] txt m)
    as (v & m1 & E & Hp & Hw); auto using text_nil.
  cbn [app length] in *. set (len := Z.of_nat (length txt)) in *. assert (Hlen : 0 <= len) by (unfold len; lia).
  set (m2 := if 0 <? n then upd m1 (out + Z.min len (n - 1)) 0 else m1).
  exists m2. split; [|split].
  - unfold vsnprintf. change (mkV 0) with (mkV (Z.of_nat 0)). rewrite (bind_Ret _ _ _ _ _ E), Hp.
    rewrite i32_small by lia. unfold m2, bind, when, modify, ret.
    destruct (len <? n) eqn:E1, (0 <? n) eqn:E2, (n =? 0) eqn:E3; bsplit; cbn [negb]; try lia; try done;
      (rewrite Z.min_l by lia; done) || (rewrite Z.min_r, Z.add_sub_assoc by lia; done).
  - intros H0. unfold m2. rewrite (proj2 (Z.ltb_lt 0 n)) by done. split; [|by rewrite upd_eq].
    intros i c Hi. apply lookup_take_Some in Hi as [Hi Hlt]. pose proof (lookup_lt_Some _ _ _ Hi).
    rewrite upd_ne, (Hw (out + Z.of_nat i)), decide_True by lia.
    replace (Z.to_nat _) with i by lia. by rewrite Hi.
  - intros a Ha. unfold m2. destruct (0 <? n) eqn:E1; bsplit; rewrite ?upd_ne by lia;
      rewrite (Hw a), decide_False by lia; done.
Qed.

(** C37: [vsnprintf] prints the text its format denotes. It returns the length of
    that text, the buffer holds as much of it as fits in [n - 1] bytes followed by
    a NUL, and no byte outside the buffer changes, whatever its size. The format
    and the strings lie outside the buffer; a format with [%c] needs a buffer that
    is large enough for the text. *)
Theorem vsnprintf_correct m out n s fmt args str txt fuel sf :
  bytes_ok m -> 0 <= n -> apart_from_buffer m out n s fmt -> (length fmt < fuel)%nat ->
  (forall a l, str a = Some l -> apart_from_buffer m out n a l /\ (length l < sf)%nat) ->
  render str fmt false false args = Some txt -> Z.of_nat (length txt) < 2 ^ 31 ->
  Z.of_nat (length txt) < n \/ 99 ∉ fmt ->
  exists m', vsnprintf fuel sf out n s args m = Ret (Z.of_nat (length txt)) m' /\
    (0 < n -> (forall i c, take (Z.to_nat (n - 1)) txt !! i = Some c -> m' (out + Z.of_nat i) = c) /\
              m' (out + Z.min (Z.of_nat (length txt)) (n - 1)) = 0) /\
    (forall a, ~ out <= a < out + n -> m' a = m a).
Proof. apply vsnprintf_run. Qed.

(** Text of the example: the format at 100, a string at 200, the buffer at 300. *)
Definition fmt1 : list Z := [110; 61; 37; 100; 32; 37; 108; 120; 37; 115; 37; 99].
Definition snp_mem : bmem := fun a =>
  if (100 <=? a) && (a <? 112) then default 0 (fmt1 !! Z.to_nat (a - 100))
  else if a =? 200 then 104 else if a =? 201 then 105 else 0.
Definition str1 (a : Z) : option (list Z) := if a =? 200 then Some [104; 105] else None.

Lemma snp_mem_ok : bytes_ok snp_mem.
Proof.
  intros a. unfold snp_mem. destruct (_ && _) eqn:E.
  - assert (Hf : Forall (fun c => 0 <= c < 256) fmt1) by (repeat constructor; lia).
    destruct (fmt1 !! _) eqn:El; [|cbn; lia]. cbn. eapply (Forall_lookup_1 _ _ _ _ Hf El).
  - destruct (a =? 200); [lia|]. destruct (a =? 201); lia.
Qed.

(** printf "n=%d %lx%s%c" -42 255 "hi" 33 *)
Lemma vsnprintf_correct_witness :
  exists m', vsnprintf 20 20 300 64 100 [-42; 255; 200; 33] snp_mem = Ret 25 m' /\
    m' (300 + 2) = 45 /\ m' (300 + 24) = 33 /\ m' (300 + 25) = 0.
Proof.
  destruct (vsnprintf_correct snp_mem 300 64 100 fmt1 [-42; 255; 200; 33] str1
    [110; 61; 45; 52; 50; 32; 48; 48; 48; 48; 48; 48; 48; 48; 48; 48; 48; 48; 48; 48; 102; 102; 104; 105; 33] 20 20)
    as (m' & E & Ht & _).
  - exact snp_mem_ok.
  - lia.
  - split; [repeat split; discriminate|right; cbn; lia].
  - cbn; lia.
  - intros a l. unfold str1. destruct (a =? 200) eqn:Ea; [|done]. intros [= <-]. apply Z.eqb_eq in Ea as ->.
    split; [|cbn; lia]. split; [repeat split; discriminate|right; cbn; lia].
  - reflexivity.
  - cbn; lia.
  - left; cbn; lia.
  - exists m'. destruct Ht as [Ht Hz]; [lia|]. split; [exact E|].
    split; [exact (Ht 2%nat 45 eq_refl)|]. split; [exact (Ht 24%nat 33 eq_refl)|exact Hz].
Defined.

(** With a full buffer [%c] does not take its argument: the next [%s] takes the
    character 33 for a pointer, and the returned length is not that of the text. *)
Definition fmt2 : list Z := [37; 99; 37; 115].
Definition snp_mem2 : bmem := fun a =>
  if (100 <=? a) && (a <? 104) then default 0 (fmt2 !! Z.to_nat (a - 100))
  else if a =? 200 then 104 else if a =? 201 then 105 else 0.

Example full_buffer_misaligns :
  render str1 fmt2 false false [33; 200] = Some [33; 104; 105] /\
  vsnprintf 20 20 300 1 100 [33; 200] snp_mem2 = Ret 1 (upd snp_mem2 300 0).
Proof. split; reflexivity. Qed.
