(* ===== verification/Bytes.v ===== *)
(** * Bytes of physical memory

    The physical memory of Pmm.v consists of words.  User buffers, path names and
    segments of executables are bytes of it: the accesses below read and write
    single bytes, and [view] is the memory as the string routines see it. *)
From S2P Require Import Prelude Pmm CString.

Definition word_of (a : Z) : Z := a - a mod 8.
Definition byte_in (w k : Z) : Z := w / 256 ^ k mod 256.
Definition set_byte_in (w k b : Z) : Z := w + (u8 b - byte_in w k) * 256 ^ k.

Definition view (m : gmap Z Z) : bmem := fun a => byte_in (rd m (word_of a)) (a mod 8).

Definition load8 (a : Z) : M pstate Z := let* w := load (word_of a) in ret (byte_in w (a mod 8)).
Definition store8 (a b : Z) : M pstate unit :=
  let* w := load (word_of a) in store (word_of a) (set_byte_in w (a mod 8) b).

Fixpoint load_bytes (n : nat) (a : Z) : M pstate (list Z) :=
  match n with
  | O => ret []
  | S n' => let* c := load8 a in let* l := load_bytes n' (a + 1) in ret (c :: l)
  end.
Fixpoint store_bytes (a : Z) (l : list Z) : M pstate unit :=
  match l with
  | [] => ret tt
  | c :: l' => store8 a c ;;; store_bytes (a + 1) l'
  end.

(** The bytes from [a] up to a zero byte, and whether there was one, within
    [2 ^ k] bytes. *)
Fixpoint scan_str (k : nat) (a : Z) : M pstate (list Z * bool) :=
  match k with
  | O => let* c := load8 a in ret (if c =? 0 then ([], true) else ([c], false))
  | S k' =>
      let* '(l, e) := scan_str k' a in
      if e : bool then ret (l, true) else
      let* '(l', e') := scan_str k' (a + 2 ^ Z.of_nat k') in
      ret (l ++ l', e')
  end.

(** The string at [a]: [2 ^ 27] bytes are the whole memory, behind which the scan
    faults. *)
Definition load_str (a : Z) : M pstate (list Z) :=
  let* '(l, e) := scan_str 27 a in
  if e : bool then ret l else halt OutOfFuel.

(** [strcmp(a, lit)] for a string literal. *)
Fixpoint strcmp_lit (m : bmem) (a : Z) (lit : list Z) : Z :=
  match lit with
  | [] => m a
  | c :: lit' => if negb (m a =? 0) && (m a =? c) then strcmp_lit m (a + 1) lit' else m a - c
  end.

(** ** The bytes of a word *)

Lemma byte_range w k : 0 <= byte_in w k < 256.
Proof. unfold byte_in. apply Z.mod_pos_bound. lia. Qed.

Lemma set_byte_same w k b : 0 <= k -> byte_in (set_byte_in w k b) k = u8 b.
Proof.
  intros Hk. unfold set_byte_in, byte_in. assert (0 < 256 ^ k) by (apply Z.pow_pos_nonneg; lia).
  rewrite Z.div_add by lia. klia.
Qed.

Lemma set_byte_other w k j b : 0 <= k -> 0 <= j -> j <> k -> byte_in (set_byte_in w k b) j = byte_in w j.
Proof.
  intros Hk Hj Hne. unfold set_byte_in. set (d := u8 b - byte_in w k).
  assert (0 < 256 ^ k) by (apply Z.pow_pos_nonneg; lia). assert (0 < 256 ^ j) by (apply Z.pow_pos_nonneg; lia).
  unfold byte_in. destruct (decide (j < k)).
  - replace (256 ^ k) with (256 ^ (k - j - 1) * 256 * 256 ^ j)
      by (rewrite <- Z.mul_assoc, <- Z.pow_succ_r, <- Z.pow_add_r by lia; f_equal; lia).
    rewrite Z.mul_assoc, Z.div_add, Z.mul_assoc, Z.mod_add by lia. done.
  - replace (256 ^ j) with (256 ^ k * 256 * 256 ^ (j - k - 1))
      by (rewrite <- Z.mul_assoc, <- Z.pow_succ_r, <- Z.pow_add_r by lia; f_equal; lia).
    rewrite <- !(Z.div_div _ (256 ^ k * 256)), <- !(Z.div_div _ (256 ^ k)) by (try lia; apply Z.pow_nonneg; lia).
    rewrite Z.div_add by lia. do 2 f_equal. unfold d, byte_in. pose proof (Z.mod_pos_bound (w / 256 ^ k) 256).
    unfold u8. Z.to_euclidean_division_equations. lia.
Qed.

Lemma view_range m a : 0 <= view m a < 256.
Proof. apply byte_range. Qed.

(** ** What an access does *)

Definition in_ram (a n : Z) : Prop := DRAM_BASE <= a /\ a + n <= PHYS_TOP.

Lemma word_ok a : in_ram a 1 -> addr_ok (word_of a) = true.
Proof. intros [Hl Hh]. unfold addr_ok, word_of. rewrite !andb_true_iff, !Z.leb_le, Z.eqb_eq. klia. Qed.

Lemma load8_run a s : in_ram a 1 -> load8 a s = Ret (view (mem s) a) s.
Proof. intros Ha. unfold load8, bind, load. by rewrite word_ok. Qed.

Lemma store8_run a b s :
  in_ram a 1 -> exists m, store8 a b s = Ret tt (set_mem m s) /\
    (forall x, view m x = if x =? a then u8 b else view (mem s) x) /\
    (forall x, x <> word_of a -> rd m x = rd (mem s) x).
Proof.
  intros Ha. eexists. split; [unfold store8, bind, load, store; by rewrite word_ok|].
  split; [|intros x Hx; by rewrite rd_insert_ne].
  intros x. unfold view. destruct (decide (word_of x = word_of a)) as [E|E].
  - rewrite E, rd_insert_eq. destruct (Z.eqb_spec x a) as [->|Hne].
    + apply set_byte_same. klia.
    + apply set_byte_other; [klia|klia|]. unfold word_of in E. intros Hm. apply Hne. lia.
  - rewrite rd_insert_ne by done. destruct (Z.eqb_spec x a) as [->|Hne]; [done|reflexivity].
Qed.

(** Bytes [l] stored at [a]. *)
Definition put (m : bmem) (a : Z) (l : list Z) : bmem :=
  fun x => if (a <=? x) && (x <? a + Z.of_nat (length l)) then u8 (default 0 (l !! Z.to_nat (x - a))) else m x.

Lemma in_ram_le a n k : in_ram a n -> 0 <= k <= n -> in_ram a k.
Proof. unfold in_ram. lia. Qed.
Lemma in_ram_off a n k : in_ram a n -> 0 <= k <= n -> in_ram (a + k) (n - k).
Proof. unfold in_ram. lia. Qed.

(** [store_bytes] changes exactly the bytes it names, and no word that holds none of them. *)
Lemma store_bytes_run l a s :
  in_ram a (Z.of_nat (length l)) -> exists m, store_bytes a l s = Ret tt (set_mem m s) /\
    (forall x, view m x = put (view (mem s)) a l x) /\
    (forall x, x mod 8 = 0 -> x + 8 <= a \/ a + Z.of_nat (length l) <= x -> rd m x = rd (mem s) x).
Proof.
  revert a s. induction l as [|c l IH]; intros a s Ha; cbn [store_bytes length] in *.
  - exists (mem s). split; [by destruct s|]. split; [|done]. intros x. unfold put. cbn [length].
    by destruct (Z.leb_spec a x), (Z.ltb_spec x (a + Z.of_nat 0)); try lia.
  - destruct (store8_run a c s) as (m1 & E1 & Hv1 & Hr1); [eapply in_ram_le; [done|lia]|].
    destruct (IH (a + 1) (set_mem m1 s)) as (m & E & Hv & Hr).
    { replace (Z.of_nat (length l)) with (Z.of_nat (S (length l)) - 1) by lia. apply in_ram_off; [done|lia]. }
    exists m. split; [rewrite (bind_Ret _ _ _ _ _ E1), E; by destruct s|]. split.
    + intros x. rewrite Hv. unfold put. cbn [mem set_mem]. rewrite Hv1. cbn [length].
      destruct (Z.eqb_spec x a) as [->|Hne].
      * rewrite (proj2 (Z.leb_gt (a + 1) a)), (proj2 (Z.leb_le a a)), (proj2 (Z.ltb_lt a (a + Z.of_nat (S (length l))))) by lia.
        cbn [andb]. by rewrite Z.sub_diag.
      * destruct (Z.leb_spec (a + 1) x), (Z.leb_spec a x); try lia; cbn [andb]; [|done].
        replace (a + 1 + Z.of_nat (length l)) with (a + Z.of_nat (S (length l))) by lia.
        destruct (Z.ltb_spec x (a + Z.of_nat (S (length l)))); [|done].
        replace (Z.to_nat (x - a)) with (S (Z.to_nat (x - (a + 1)))) by lia. done.
    + intros x Hx Hd. rewrite Hr, Hr1 by (done || lia || (unfold word_of; klia)). done.
Qed.

(** The bytes of the range, in order. *)
Fixpoint bytes_from (m : bmem) (n : nat) (a : Z) : list Z :=
  match n with O => [] | S n' => m a :: bytes_from m n' (a + 1) end.

Lemma load_bytes_run n a s :
  in_ram a (Z.of_nat n) -> load_bytes n a s = Ret (bytes_from (view (mem s)) n a) s.
Proof.
  revert a. induction n as [|n IH]; intros a Ha; [done|]. cbn [load_bytes bytes_from].
  rewrite (bind_Ret _ _ _ _ _ (load8_run a s (in_ram_le _ _ 1 Ha ltac:(lia)))).
  assert (Hr : in_ram (a + 1) (Z.of_nat n)) by (destruct Ha; split; lia).
  by rewrite (bind_Ret _ _ _ _ _ (IH _ Hr)).
Qed.

Lemma length_bytes_from m n a : length (bytes_from m n a) = n.
Proof. revert a. induction n as [|n IH]; intros a; cbn; [done|by rewrite IH]. Qed.

Lemma bytes_from_app m n k a : bytes_from m (n + k) a = bytes_from m n a ++ bytes_from m k (a + Z.of_nat n).
Proof.
  revert a. induction n as [|n IH]; intros a; cbn [Nat.add bytes_from app]; [by rewrite Z.add_0_r|].
  rewrite IH. by replace (a + 1 + Z.of_nat n) with (a + Z.of_nat (S n)) by lia.
Qed.

Lemma bytes_from_ext m m' n a :
  (forall x, a <= x < a + Z.of_nat n -> m' x = m x) -> bytes_from m' n a = bytes_from m n a.
Proof.
  revert a. induction n as [|n IH]; intros a Hx; [done|]. cbn [bytes_from]. rewrite Hx, IH by (intros; apply Hx || idtac; lia).
  done.
Qed.

Definition is_byte (c : Z) : Prop := 0 <= c < 256.

(** What was stored is what is there. *)
Lemma bytes_from_put m a l : Forall is_byte l -> bytes_from (put m a l) (length l) a = l.
Proof.
  intros Hb. apply list_eq. intros i. destruct (decide (i < length l)%nat) as [Hi|Hi].
  - assert (Hg : forall n j b, (j < n)%nat -> bytes_from (put m a l) n b !! j = Some (put m a l (b + Z.of_nat j))).
    { clear. induction n as [|n IH]; intros [|j] b Hj; cbn; try lia; [by rewrite Z.add_0_r|].
      rewrite IH by lia. do 2 f_equal. lia. }
    rewrite Hg by done. destruct (lookup_lt_is_Some_2 _ _ Hi) as [c Hc]. rewrite Hc. f_equal. unfold put.
    rewrite (proj2 (Z.leb_le _ _)), (proj2 (Z.ltb_lt _ _)) by lia. cbn [andb].
    replace (Z.to_nat (a + Z.of_nat i - a)) with i by lia. rewrite Hc. cbn [default from_option id].
    assert (is_byte c) by (eapply (list.Forall_forall is_byte l); [done|by eapply list_elem_of_lookup_2]).
    unfold is_byte in *. unfold u8. by apply Z.mod_small.
  - rewrite !lookup_ge_None_2; rewrite ?length_bytes_from; try lia; done.
Qed.

(** A string in memory is read back. *)
Lemma scan_str_run k l a s :
  in_ram a (Z.of_nat (S (length l))) -> cstr (view (mem s)) a l ->
  scan_str k a s = Ret (take (2 ^ k) l, bool_decide (length l < 2 ^ k)%nat) s.
Proof.
  revert l a. induction k as [|k IH]; intros l a Ha Hc.
  - cbn [scan_str]. rewrite (bind_Ret _ _ _ _ _ (load8_run a s (in_ram_le _ _ 1 Ha ltac:(lia)))).
    destruct l as [|c l]; cbn [cstr] in Hc.
    + by rewrite Hc.
    + destruct Hc as (-> & Hz & _). rewrite (proj2 (Z.eqb_neq c 0)) by done. cbn. rewrite bool_decide_eq_false_2 by lia.
      by rewrite take_0.
  - cbn [scan_str]. rewrite (bind_Ret _ _ _ _ _ (IH l a Ha Hc)). rewrite Nat.pow_succ_r'.
    destruct (decide (length l < 2 ^ k)%nat) as [Hl|Hl].
    + rewrite !bool_decide_eq_true_2 by lia. by rewrite !take_ge by lia.
    + rewrite (bool_decide_eq_false_2 (length l < 2 ^ k)%nat) by done.
      assert (Hn : 2 ^ Z.of_nat k = Z.of_nat (2 ^ k)) by (rewrite Nat2Z.inj_pow; done).
      pose proof (take_drop (2 ^ k) l) as Htd.
      assert (Hlt : length (take (2 ^ k) l) = (2 ^ k)%nat) by (rewrite length_take; lia).
      assert (Hd : cstr (view (mem s)) (a + 2 ^ Z.of_nat k) (drop (2 ^ k) l)).
      { rewrite <- Htd in Hc. apply cstr_app in Hc. by rewrite Hlt, <- Hn in Hc. }
      assert (Hr : in_ram (a + 2 ^ Z.of_nat k) (Z.of_nat (S (length (drop (2 ^ k) l)))))
        by (rewrite length_drop; destruct Ha; split; lia).
      rewrite (bind_Ret _ _ _ _ _ (IH _ _ Hr Hd)). unfold ret. do 2 f_equal.
      * replace (2 * 2 ^ k)%nat with (2 ^ k + 2 ^ k)%nat by lia. by rewrite take_take_drop.
      * rewrite length_drop. apply bool_decide_ext. lia.
Qed.

Lemma load_str_run l a s :
  in_ram a (Z.of_nat (S (length l))) -> cstr (view (mem s)) a l -> load_str a s = Ret l s.
Proof.
  intros Ha Hc. unfold load_str. rewrite (bind_Ret _ _ _ _ _ (scan_str_run 27 l a s Ha Hc)).
  assert (Hl : (length l < 2 ^ 27)%nat).
  { apply Nat2Z.inj_lt. rewrite Nat2Z.inj_pow. change (Z.of_nat 2 ^ Z.of_nat 27) with 134217728.
    destruct Ha as [Hlo Hhi]. kconst. lia. }
  rewrite bool_decide_eq_true_2 by exact Hl. rewrite take_ge by (apply Nat.lt_le_incl, Hl). done.
Qed.
