(* ===== verification/LineTable.v ===== *)
(** * What the line table means

    The line number program of a compilation unit as a list of operations, its
    encoding as it stands in the .debug_line section, and the rows it denotes.
    [make_addr_line] on an encoded section builds the table of these rows. *)
From S2P Require Import Prelude CString DebugLine.

#[local] Notation BM := (M bmem).

(** ** Line number programs *)

Inductive line_op : Type :=
| SetAddress (a : Z)
| SetDiscriminator (d : Z)
| Copy
| AdvancePc (d : Z)
| AdvanceLine (d : Z)
| SetFile (f : Z)
| SetColumn (c : Z)
| NegateStmt
| BasicBlock
| ConstAddPc
| FixedAdvancePc (d : Z)
| Special (op : Z).

(** The parameters of a program: fields of the header of its unit. *)
Record line_params : Type := mkParams { p_min : Z; p_base : Z; p_range : Z; p_opbase : Z }.

Record line_unit : Type := mkUnit {
  u_header : list Z;
  u_dirs : list (list Z);
  u_files : list (list Z * Z * Z * Z);
  u_ops : list line_op
}.

Definition hdr (u : line_unit) (k : nat) : Z := default 0 (u_header u !! k).
Definition params (u : line_unit) : line_params :=
  mkParams (hdr u 10) (i8 (hdr u 12)) (hdr u 13) (hdr u 14).

(** ** Encoding *)

Fixpoint le_bytes (k : nat) (v : Z) : list Z :=
  match k with O => [] | S k' => v mod 256 :: le_bytes k' (v / 256) end.

Definition encode_op (o : line_op) : list Z :=
  match o with
  | SetAddress a => 0 :: uleb 10 9 ++ 2 :: le_bytes 8 a
  | SetDiscriminator d => 0 :: uleb 10 (1 + Z.of_nat (length (uleb 10 d))) ++ 4 :: uleb 10 d
  | Copy => [1]
  | AdvancePc d => 2 :: uleb 10 d
  | AdvanceLine d => 3 :: sleb 8 d
  | SetFile f => 4 :: uleb 10 f
  | SetColumn c => 5 :: uleb 10 c
  | NegateStmt => [6]
  | BasicBlock => [7]
  | ConstAddPc => [8]
  | FixedAdvancePc d => 9 :: le_bytes 2 d
  | Special op => [op]
  end.

Definition end_sequence : list Z := 0 :: uleb 10 1 ++ [1].

Definition encode_ops (l : list line_op) : list Z := concat (encode_op <$> l) ++ end_sequence.
Definition encode_str (s : list Z) : list Z := s ++ [0].
Definition encode_file (f : list Z * Z * Z * Z) : list Z :=
  let '(name, d, mtime, len) := f in encode_str name ++ uleb 10 d ++ uleb 10 mtime ++ uleb 10 len.
Definition encode_unit (u : line_unit) : list Z :=
  u_header u ++ concat (encode_str <$> u_dirs u) ++ 0 :: concat (encode_file <$> u_files u) ++ 0 :: encode_ops (u_ops u).
Definition encode_section (us : list line_unit) : list Z := concat (encode_unit <$> us).

(** ** Denotation *)

(** Adding a row; [base] is the number of files of the units before. *)
Definition push_row (base : Z) (r : addr_line) (rows : list addr_line) : list addr_line :=
  let row := mkLine (l_addr r) (l_line r) (u64 (l_file r + (base - 1))) in
  match rows !! pred (length rows) with
  | Some x => if l_addr x =? l_addr r then take (pred (length rows)) rows ++ [row] else rows ++ [row]
  | None => [row]
  end.

Definition exec_op (h : line_params) (base : Z) (o : line_op) (c : addr_line * list addr_line) : addr_line * list addr_line :=
  let '(r, rows) := c in
  match o with
  | SetAddress a => (mkLine a (l_line r) (l_file r), rows)
  | SetDiscriminator _ | SetColumn _ | NegateStmt | BasicBlock => (r, rows)
  | Copy => (r, push_row base r rows)
  | AdvancePc d => (advance (d * p_min h) r, rows)
  | AdvanceLine d => (add_to_line d r, rows)
  | SetFile f => (mkLine (l_addr r) (l_line r) f, rows)
  | ConstAddPc => (advance ((255 - p_opbase h) / p_range h * p_min h) r, rows)
  | FixedAdvancePc d => (advance d r, rows)
  | Special op =>
      let k := op - p_opbase h in
      let r := add_to_line (p_base h + k mod p_range h) (advance (k / p_range h * p_min h) r) in
      (r, push_row base r rows)
  end.

Definition run_program (h : line_params) (base : Z) (ops : list line_op) (r : addr_line) (rows : list addr_line) :
  list addr_line :=
  let '(r, rows) := fold_left (fun c o => exec_op h base o c) ops (r, rows) in
  push_row base r rows.

(** The directories and files of the section at [a]: addresses of their names. *)
Fixpoint dirs_at (a : Z) (ds : list (list Z)) : list Z :=
  match ds with [] => [] | d :: ds' => a :: dirs_at (a + Z.of_nat (length (encode_str d))) ds' end.
Fixpoint files_at (a base : Z) (fs : list (list Z * Z * Z * Z)) : list (Z * Z) :=
  match fs with
  | [] => []
  | f :: fs' => let '(name, d, _, _) := f in
                (u64 (d - 1 + base), a) :: files_at (a + Z.of_nat (length (encode_file f))) base fs'
  end.

Record tables : Type := mkTables { t_dirs : list Z; t_files : list (Z * Z); t_rows : list addr_line }.

Definition add_unit (a : Z) (u : line_unit) (t : tables) : tables :=
  let ndirs := Z.of_nat (length (t_dirs t)) in
  let nfiles := Z.of_nat (length (t_files t)) in
  let a1 := a + 27 in
  let a2 := a1 + Z.of_nat (length (concat (encode_str <$> u_dirs u))) + 1 in
  mkTables (t_dirs t ++ dirs_at a1 (u_dirs u)) (t_files t ++ files_at a2 ndirs (u_files u))
    (run_program (params u) nfiles (u_ops u) (mkLine 0 1 1) (t_rows t)).

Fixpoint section_tables (a : Z) (us : list line_unit) (t : tables) : tables :=
  match us with
  | [] => t
  | u :: us' => section_tables (a + Z.of_nat (length (encode_unit u))) us' (add_unit a u t)
  end.

(** ** Well-formed units *)

Definition is_byte (c : Z) : Prop := 0 <= c < 256.
Definition small (v : Z) : Prop := 0 <= v < 2 ^ 63.
Definition is_str (s : list Z) : Prop := s <> [] /\ Forall (fun c => 0 < c < 256) s.

Definition wf_file (f : list Z * Z * Z * Z) : Prop :=
  let '(name, d, mtime, len) := f in is_str name /\ small d /\ small mtime /\ small len.

Definition wf_op (h : line_params) (o : line_op) : Prop :=
  match o with
  | SetAddress a => 0 <= a < 2 ^ 64
  | SetDiscriminator d | AdvancePc d | SetFile d | SetColumn d => small d
  | AdvanceLine d => - 2 ^ 27 <= d < 2 ^ 55
  | FixedAdvancePc d => 0 <= d < 65536
  | Special op => 10 <= op < 256 /\ p_opbase h <= op
  | Copy | NegateStmt | BasicBlock | ConstAddPc => True
  end.

Record wf_unit (u : line_unit) : Prop := {
  wf_header : length (u_header u) = 27%nat /\ Forall is_byte (u_header u);
  wf_range : hdr u 13 <> 0;
  wf_dirs : Forall is_str (u_dirs u);
  wf_files : Forall wf_file (u_files u);
  wf_ops : Forall (wf_op (params u)) (u_ops u)
}.

(** ** The tables in memory *)

Section Tables.
(** [m0] is the memory with the section, which ends at [e]; the arrays start at [T]. *)
Context (m0 : bmem) (e T : Z) (HeT : e <= T).

Definition FILES : Z := T + 512.
Definition LINES : Z := T + 1536.

Definition row_in (m : bmem) (i : nat) (r : addr_line) : Prop :=
  load64 m (LINES + 24 * Z.of_nat i) = l_addr r /\ load64 m (LINES + 24 * Z.of_nat i + 8) = l_line r /\
  load64 m (LINES + 24 * Z.of_nat i + 16) = l_file r.

Record in_memory (t : tables) (m : bmem) : Prop := {
  im_section x : x < e -> m x = m0 x;
  im_dirs i d : t_dirs t !! i = Some d -> load64 m (T + 8 * Z.of_nat i) = d;
  im_files i d a : t_files t !! i = Some (d, a) ->
    load64 m (FILES + 16 * Z.of_nat i) = d /\ load64 m (FILES + 16 * Z.of_nat i + 8) = a;
  im_rows i r : t_rows t !! i = Some r -> row_in m i r;
  im_room : (length (t_dirs t) <= 64)%nat /\ (length (t_files t) <= 64)%nat
}.

Definition u64_row (r : addr_line) : Prop :=
  0 <= l_addr r < 2 ^ 64 /\ 0 <= l_line r < 2 ^ 64 /\ 0 <= l_file r < 2 ^ 64.

(** Steps of the readers on bytes that are in memory. *)
Lemma byte_run m a c l : holds m a (c :: l) -> byte_at a m = Ret c m.
Proof. intros [Hc _]. unfold byte_at, bind, get, ret. by rewrite Hc. Qed.

Lemma same_holds t m a l :
  in_memory t m -> a + Z.of_nat (length l) <= e -> holds m0 a l -> holds m a l.
Proof. intros Hi He. apply holds_ext. intros x Hx. apply (im_section _ _ Hi). lia. Qed.

Lemma read_bytes_run k v i out off m :
  0 <= i -> 0 <= out < 256 ^ i -> holds m off (le_bytes k v) ->
  read_bytes k i out off m = Ret (out + v mod 256 ^ Z.of_nat k * 256 ^ i, off + Z.of_nat k) m.
Proof.
  revert v i out off. induction k as [|k IH]; intros v i out off Hi Ho Hm; cbn [read_bytes].
  - rewrite Z.mod_1_r, Z.mul_0_l, !Z.add_0_r. done.
  - cbn [le_bytes] in Hm. rewrite (bind_Ret _ _ _ _ _ (byte_run _ _ _ _ Hm)). destruct Hm as [_ Hm].
    rewrite (Z.shiftl_mul_pow2 i 3) by lia. change (2 ^ 3) with 8.
    assert (E : 256 ^ i = 2 ^ (i * 8)) by (change 256 with (2 ^ 8); rewrite <- Z.pow_mul_r by lia; f_equal; lia).
    rewrite lor_shift by lia. rewrite <- E. assert (H256 : 0 < 256 ^ i) by (apply Z.pow_pos_nonneg; lia).
    pose proof (Z.mod_pos_bound v 256 eq_refl) as Hb.
    assert (E1 : 256 ^ (i + 1) = 256 ^ i * 256) by (rewrite Z.pow_add_r by lia; done).
    rewrite (IH (v / 256) (i + 1)); [|lia|rewrite E1; nia|done].
    rewrite E1, (Nat2Z.inj_succ k), (Z.pow_succ_r 256 (Z.of_nat k)), Z.rem_mul_r by lia.
    f_equal. f_equal; [ring|lia].
Qed.

(** ** Adding a row *)

Definition row_of (base : Z) (r : addr_line) : addr_line :=
  mkLine (l_addr r) (l_line r) (u64 (l_file r + (base - 1))).

Definition store_row (a base : Z) (r : addr_line) (m : bmem) : bmem :=
  store64 (store64 (store64 (store64 m a (l_addr r)) (a + 8) (l_line r)) (a + 16) (l_file r))
    (a + 16) (u64 (l_file r + (base - 1))).

Lemma store_row_out a base r m x : x < a \/ a + 24 <= x -> store_row a base r m x = m x.
Proof. intros Hx. unfold store_row. by rewrite !store64_out by lia. Qed.

Lemma store_row_in i base r m :
  u64_row r -> row_in (store_row (LINES + 24 * Z.of_nat i) base r m) i (row_of base r).
Proof.
  intros (Ha & Hl & Hf). unfold row_in, store_row, row_of. cbn [l_addr l_line l_file].
  pose proof (u64_range (l_file r + (base - 1))) as Hu.
  repeat split; rewrite ?load_store64_ne by lia; by rewrite load_store64 by lia.
Qed.

Lemma row_ext m m' i r :
  (forall x, LINES + 24 * Z.of_nat i <= x < LINES + 24 * Z.of_nat i + 24 -> m' x = m x) ->
  row_in m i r -> row_in m' i r.
Proof.
  intros He (Ha & Hl & Hf). unfold row_in.
  rewrite !(load64_ext m m') by (intros x Hx; apply He; lia). done.
Qed.

(** A row stored at index [i] of the table that keeps its first [i] rows. *)
Lemma in_memory_row t m i base r :
  in_memory t m -> (i <= length (t_rows t))%nat -> u64_row r ->
  in_memory (mkTables (t_dirs t) (t_files t) (take i (t_rows t) ++ [row_of base r]))
    (store_row (LINES + 24 * Z.of_nat i) base r m).
Proof.
  intros [Hs Hd Hf Hr [Hrd Hrf]] Hi Hu.
  assert (Hout : forall b, b + 8 <= T + 1536 ->
    load64 (store_row (LINES + 24 * Z.of_nat i) base r m) b = load64 m b).
  { intros b Hb. apply load64_ext. intros x Hx. apply store_row_out. unfold LINES. lia. }
  split; cbn [t_dirs t_files t_rows]; unfold FILES in *.
  - intros x Hx. rewrite store_row_out by (unfold LINES; lia). by apply Hs.
  - intros j d Hj. pose proof (lookup_lt_Some _ _ _ Hj). rewrite Hout by lia. by apply Hd.
  - intros j d a Hj. pose proof (lookup_lt_Some _ _ _ Hj). rewrite !Hout by lia. by apply Hf.
  - intros j x Hj. destruct (decide (j < i)%nat).
    + rewrite lookup_app_l, lookup_take_lt in Hj by (rewrite ?length_take; lia).
      eapply row_ext; [|by apply Hr]. intros y Hy. apply store_row_out. lia.
    + rewrite lookup_app_r, length_take, Nat.min_l in Hj by (rewrite ?length_take; lia).
      destruct (j - i)%nat as [|k] eqn:Ek; [|done]. cbn in Hj. simplify_eq.
      replace j with i by lia. by apply store_row_in.
  - done.
Qed.

Lemma get64_run a m : get64 a m = Ret (load64 m a) m.
Proof. done. Qed.

Lemma add_line_run t m base r :
  in_memory t m -> u64_row r ->
  exists m', add_line LINES base r (Z.of_nat (length (t_rows t))) m =
      Ret (Z.of_nat (length (push_row base r (t_rows t)))) m' /\
    in_memory (mkTables (t_dirs t) (t_files t) (push_row base r (t_rows t))) m'.
Proof.
  intros Hi Hu. set (rows := t_rows t).
  assert (Hw : forall i : nat, (put64 (LINES + 24 * Z.of_nat i) (l_addr r) ;;;
      put64 (LINES + 24 * Z.of_nat i + 8) (l_line r) ;;; put64 (LINES + 24 * Z.of_nat i + 16) (l_file r) ;;;
      let* v := get64 (LINES + 24 * Z.of_nat i + 16) in
      put64 (LINES + 24 * Z.of_nat i + 16) (u64 (v + (base - 1))) ;;; ret (Z.of_nat i + 1)) m =
    Ret (Z.of_nat i + 1) (store_row (LINES + 24 * Z.of_nat i) base r m)).
  { intros i. unfold put64, get64, bind, modify, get, ret, store_row.
    rewrite load_store64 by apply Hu. done. }
  assert (Hgo : exists i, (i <= length rows)%nat /\ push_row base r rows = take i rows ++ [row_of base r] /\
    add_line LINES base r (Z.of_nat (length rows)) m = Ret (Z.of_nat i + 1) (store_row (LINES + 24 * Z.of_nat i) base r m)).
  { unfold add_line, push_row. fold (row_of base r). destruct (rows !! pred (length rows)) as [x|] eqn:Ex.
    - pose proof (lookup_lt_Some _ _ _ Ex). pose proof (im_rows _ _ Hi _ _ Ex) as (Hx & _).
      rewrite (proj2 (Z.ltb_lt 0 _)) by lia.
      replace (Z.of_nat (length rows) - 1) with (Z.of_nat (pred (length rows))) by lia.
      rewrite bind_assoc, (bind_Ret _ _ _ _ _ (get64_run _ _)), bind_ret_l, Hx.
      destruct (l_addr x =? l_addr r); eexists; (split; [|split; [|apply Hw]]); try done; try lia.
      by rewrite firstn_all.
    - apply lookup_ge_None in Ex. destruct rows as [|x rows']; [|cbn in Ex; lia].
      exists 0%nat. split; [cbn; lia|]. split; [done|]. apply (Hw 0%nat). }
  destruct Hgo as (i & Hle & Hp & Ha). exists (store_row (LINES + 24 * Z.of_nat i) base r m).
  rewrite Ha, Hp. split; [|by apply in_memory_row].
  rewrite length_app, length_take. cbn [length]. rewrite Nat.min_l by done. f_equal. lia.
Qed.

(** ** The state machine *)

Section Program.
Context (u : line_unit) (dh base : Z) (Hwf : wf_unit u).
Context (Hdr : holds m0 dh (u_header u)) (Hdh : dh + 27 <= e).

Definition with_rows (rows : list addr_line) (t : tables) : tables := mkTables (t_dirs t) (t_files t) rows.

Lemma holds_lookup m a l k c : holds m a l -> l !! k = Some c -> m (a + Z.of_nat k) = c.
Proof.
  revert a k. induction l as [|x l IH]; intros a [|k]; cbn; try done.
  - intros [Hx _] [= <-]. by rewrite Z.add_0_r.
  - intros [_ Hl] Hk. replace (a + _) with (a + 1 + Z.of_nat k) by lia. by apply IH.
Qed.

Lemma header_run t m k : in_memory t m -> (k < 27)%nat -> byte_at (dh + Z.of_nat k) m = Ret (hdr u k) m.
Proof.
  intros Hi Hk. unfold byte_at, bind, get, ret, hdr. rewrite (im_section _ _ Hi) by lia.
  destruct (wf_header _ Hwf) as [Hl _]. destruct (lookup_lt_is_Some_2 (u_header u) k) as [c Hc]; [lia|].
  by rewrite (holds_lookup _ _ _ _ _ Hdr Hc), Hc.
Qed.

Lemma hdr_byte k : is_byte (hdr u k).
Proof.
  unfold hdr. destruct (u_header u !! k) eqn:E; [|unfold is_byte; cbn; lia].
  destruct (wf_header _ Hwf) as [_ Hf]. by apply (Forall_lookup_1 _ _ _ _ Hf E).
Qed.

Lemma adjusted_run t m k :
  in_memory t m -> 0 <= k ->
  adjusted dh k m = Ret (k / p_range (params u) * p_min (params u), k mod p_range (params u)) m.
Proof.
  intros Hi Hk. unfold adjusted. pose proof (hdr_byte 13) as Hb. pose proof (wf_range _ Hwf) as Hr. unfold is_byte in Hb.
  change (dh + DH_line_range) with (dh + Z.of_nat 13). change (dh + DH_min_instruction_length) with (dh + Z.of_nat 10).
  rewrite (bind_Ret _ _ _ _ _ (header_run t m 13 Hi ltac:(lia))).
  rewrite (bind_Ret _ _ _ _ _ (header_run t m 10 Hi ltac:(lia))).
  rewrite (proj2 (Z.eqb_neq (hdr u 13) 0)) by done. cbn [check]. rewrite bind_ret_l. cbn [params p_range p_min].
  by rewrite Z.quot_div_nonneg, Z.rem_mod_nonneg by lia.
Qed.

Lemma advance_row d r : u64_row r -> u64_row (advance d r).
Proof. intros (Ha & Hl & Hf). split; [apply u64_range|done]. Qed.
Lemma add_to_line_row d r : u64_row r -> u64_row (add_to_line d r).
Proof. intros (Ha & Hl & Hf). split; [done|split; [apply u64_range|done]]. Qed.

(** *** Extended opcodes *)

Lemma uleb_length k v : (length (uleb k v) <= k)%nat.
Proof. revert v. induction k as [|k IH]; intros v; cbn [uleb]; [done|]. destruct (v <? 128); cbn; [lia|]. specialize (IH (v / 128)). lia. Qed.

Lemma ext_address a r off m :
  0 <= a < 2 ^ 64 -> holds m off (uleb 10 9 ++ 2 :: le_bytes 8 a) ->
  extended_op r off m = Ret (Some (mkLine a (l_line r) (l_file r)), off + 10) m.
Proof.
  intros Ha [H1 H2]%holds_app. unfold extended_op.
  rewrite (bind_Ret _ _ _ _ _ (read_uleb_run 9 off m ltac:(cbn; lia) H1)).
  rewrite (bind_Ret _ _ _ _ _ (byte_run _ _ _ _ H2)). destruct H2 as [_ H2]. cbn [Z.eqb Pos.eqb].
  unfold read_uint64. rewrite (bind_Ret _ _ _ _ _ (read_bytes_run 8 a 0 0 _ m ltac:(lia) ltac:(cbn; lia) H2)).
  rewrite Z.mod_small by (cbn in *; lia). unfold ret. rewrite Z.add_0_l, Z.mul_1_r.
  cbn [length uleb Z.ltb Z.compare Pos.compare Pos.compare_cont]. do 2 f_equal. lia.
Qed.

Lemma ext_discriminator d r off m :
  small d -> holds m off (uleb 10 (1 + Z.of_nat (length (uleb 10 d))) ++ 4 :: uleb 10 d) ->
  extended_op r off m =
    Ret (Some r, off + Z.of_nat (length (uleb 10 (1 + Z.of_nat (length (uleb 10 d))) ++ 4 :: uleb 10 d))) m.
Proof.
  intros Hd Hm. pose proof Hm as [H1 H2]%holds_app. unfold extended_op.
  assert (Hn : small (1 + Z.of_nat (length (uleb 10 d)))) by (pose proof (uleb_length 10 d); unfold small; lia).
  rewrite (bind_Ret _ _ _ _ _ (read_uleb_run _ off m Hn H1)).
  rewrite (bind_Ret _ _ _ _ _ (byte_run _ _ _ _ H2)). destruct H2 as [_ H2]. cbn [Z.eqb Pos.eqb].
  rewrite (bind_Ret _ _ _ _ _ (read_uleb_run d _ m Hd H2)). unfold ret.
  rewrite length_app. cbn [length]. do 2 f_equal. lia.
Qed.

Lemma ext_end r off m :
  holds m off (uleb 10 1 ++ [1]) -> extended_op r off m = Ret (None, off + 2) m.
Proof.
  intros [H1 H2]%holds_app. unfold extended_op.
  rewrite (bind_Ret _ _ _ _ _ (read_uleb_run 1 off m ltac:(cbn; lia) H1)).
  rewrite (bind_Ret _ _ _ _ _ (byte_run _ _ _ _ H2)). cbn [Z.eqb Pos.eqb]. unfold ret.
  cbn [length uleb Z.ltb Z.compare Pos.compare Pos.compare_cont]. do 2 f_equal. lia.
Qed.

(** One operation: the loop goes on behind it in the state that it denotes. *)
Lemma op_step o f t m r off :
  in_memory t m -> u64_row r -> wf_op (params u) o -> holds m off (encode_op o) ->
  let '(r', rows') := exec_op (params u) base o (r, t_rows t) in
  u64_row r' /\ exists m', in_memory (with_rows rows' t) m' /\
    run_ops (S f) dh LINES base r off (Z.of_nat (length (t_rows t))) m =
    run_ops f dh LINES base r' (off + Z.of_nat (length (encode_op o))) (Z.of_nat (length rows')) m'.
Proof.
  intros Hi Hu Hw Hm. assert (Ht : with_rows (t_rows t) t = t) by by destruct t.
  pose proof (hdr_byte 14) as Hob. unfold is_byte in Hob.
  assert (Hk : forall r' off', u64_row r' -> off' = off + Z.of_nat (length (encode_op o)) ->
    u64_row r' /\ exists m', in_memory (with_rows (t_rows t) t) m' /\
      run_ops f dh LINES base r' off' (Z.of_nat (length (t_rows t))) m =
      run_ops f dh LINES base r' (off + Z.of_nat (length (encode_op o))) (Z.of_nat (length (t_rows t))) m').
  { intros r' off' Hr' ->. split; [done|]. exists m. by rewrite Ht. }
  destruct o; cbn [exec_op encode_op wf_op] in *; cbn [run_ops];
    rewrite (bind_Ret _ _ _ _ _ (byte_run _ _ _ _ Hm)); destruct Hm as [_ Hm]; cbn [Z.eqb Pos.eqb orb].
  - rewrite (bind_Ret _ _ _ _ _ (ext_address _ r _ _ Hw Hm)). apply Hk; [|cbn; lia].
    destruct Hu as (_ & Hl & Hf). done.
  - rewrite (bind_Ret _ _ _ _ _ (ext_discriminator _ r _ _ Hw Hm)). apply Hk; [done|cbn [length]; lia].
  - destruct (add_line_run t m base r Hi Hu) as (m' & E & Hi'). split; [done|]. exists m'. split; [done|].
    by rewrite (bind_Ret _ _ _ _ _ E).
  - rewrite (bind_Ret _ _ _ _ _ (read_uleb_run _ _ _ Hw Hm)).
    change (dh + DH_min_instruction_length) with (dh + Z.of_nat 10).
    rewrite (bind_Ret _ _ _ _ _ (header_run t m 10 Hi ltac:(lia))).
    apply Hk; [by apply advance_row|cbn [length]; lia].
  - rewrite (bind_Ret _ _ _ _ _ (read_sleb_run _ _ _ Hw Hm)).
    apply Hk; [by apply add_to_line_row|cbn [length]; lia].
  - rewrite (bind_Ret _ _ _ _ _ (read_uleb_run _ _ _ Hw Hm)). apply Hk; [|cbn [length]; lia].
    destruct Hu as (Ha & Hl & _). split; [done|]. split; [done|]. unfold small in Hw. cbn. lia.
  - rewrite (bind_Ret _ _ _ _ _ (read_uleb_run _ _ _ Hw Hm)). apply Hk; [done|cbn [length]; lia].
  - apply Hk; [done|cbn; lia].
  - apply Hk; [done|cbn; lia].
  - change (dh + DH_opcode_base) with (dh + Z.of_nat 14).
    rewrite (bind_Ret _ _ _ _ _ (header_run t m 14 Hi ltac:(lia))).
    rewrite (bind_Ret _ _ _ _ _ (adjusted_run t m (255 - hdr u 14) Hi ltac:(lia))).
    apply Hk; [by apply advance_row|cbn; lia].
  - unfold read_uint16. rewrite (bind_Ret _ _ _ _ _ (read_bytes_run 2 d 0 0 _ m ltac:(lia) ltac:(cbn; lia) Hm)).
    rewrite Z.mod_small by (cbn; lia). rewrite Z.add_0_l, Z.mul_1_r. apply Hk; [by apply advance_row|cbn; lia].
  - destruct Hw as [Hop Hge]. cbn [params p_opbase] in Hge.
    repeat (rewrite (proj2 (Z.eqb_neq op _)) by lia). cbn [orb].
    change (dh + DH_opcode_base) with (dh + Z.of_nat 14). change (dh + DH_line_base) with (dh + Z.of_nat 12).
    rewrite (bind_Ret _ _ _ _ _ (header_run t m 14 Hi ltac:(lia))).
    rewrite (bind_Ret _ _ _ _ _ (adjusted_run t m (op - hdr u 14) Hi ltac:(lia))).
    rewrite (bind_Ret _ _ _ _ _ (header_run t m 12 Hi ltac:(lia))). cbn [params p_opbase p_base].
    set (r' := add_to_line _ _).
    assert (Hu' : u64_row r') by by apply add_to_line_row, advance_row.
    destruct (add_line_run t m base r' Hi Hu') as (m' & E & Hi'). split; [done|]. exists m'. split; [done|].
    by rewrite (bind_Ret _ _ _ _ _ E).
Qed.

Lemma run_ops_run ops fuel t m r off :
  in_memory t m -> u64_row r -> Forall (wf_op (params u)) ops ->
  holds m0 off (encode_ops ops) -> off + Z.of_nat (length (encode_ops ops)) <= e -> (length ops < fuel)%nat ->
  let rows' := run_program (params u) base ops r (t_rows t) in
  exists m', run_ops fuel dh LINES base r off (Z.of_nat (length (t_rows t))) m =
      Ret (off + Z.of_nat (length (encode_ops ops)), Z.of_nat (length rows')) m' /\
    in_memory (with_rows rows' t) m'.
Proof.
  revert fuel t m r off. induction ops as [|o ops IH]; intros [|fuel] t m r off Hi Hu Hw Hm He Hf; cbn in Hf; try lia.
  - apply (same_holds t m) in Hm; [|done|done]. unfold encode_ops in *. cbn [fmap list_fmap concat app] in *.
    unfold end_sequence in *. destruct (add_line_run t m base r Hi Hu) as (m' & E & Hi').
    exists m'. split; [|exact Hi']. cbn [run_ops]. rewrite (bind_Ret _ _ _ _ _ (byte_run _ _ _ _ Hm)).
    destruct Hm as [_ Hm]. cbn [Z.eqb]. rewrite (bind_Ret _ _ _ _ _ (ext_end r _ _ Hm)).
    rewrite (bind_Ret _ _ _ _ _ E). unfold ret. do 2 f_equal. cbn. lia.
  - apply list.Forall_cons in Hw as [Ho Hw]. unfold encode_ops in Hm, He. cbn [fmap list_fmap concat] in Hm, He.
    rewrite <- app_assoc in Hm, He. fold (encode_ops ops) in Hm, He. rewrite length_app in He.
    apply holds_app in Hm as [Hm1 Hm2]. apply (same_holds t m) in Hm1; [|done|lia].
    pose proof (op_step o fuel t m r off Hi Hu Ho Hm1) as Hstep. unfold run_program. cbn [fold_left].
    destruct (exec_op (params u) base o (r, t_rows t)) as [r' rows'] eqn:Eo.
    destruct Hstep as (Hu' & m1 & Hi1 & ->).
    destruct (IH fuel (with_rows rows' t) m1 r' (off + Z.of_nat (length (encode_op o)))) as (m2 & E2 & Hi2);
      [done|done|done|done|lia|lia|].
    exists m2. cbn [with_rows t_rows t_dirs t_files] in E2, Hi2. rewrite E2. unfold run_program in *.
    split; [|exact Hi2]. do 2 f_equal. unfold encode_ops. cbn [fmap list_fmap concat].
    rewrite <- app_assoc, (length_app (encode_op o)). lia.
Qed.
End Program.

(** ** Directories and files *)

Context (He64 : e <= 2 ^ 64).

Lemma skip_str_run s fuel off m :
  Forall (fun c => 0 < c < 256) s -> holds m off (encode_str s) -> (length s < fuel)%nat ->
  skip_str fuel off m = Ret (off + Z.of_nat (length s)) m.
Proof.
  intros Hs. revert fuel off. induction Hs as [|c s Hc Hs IH]; intros [|fuel] off Hm Hf; cbn in Hf; try lia;
    cbn [skip_str]; rewrite (bind_Ret _ _ _ _ _ (byte_run _ _ _ _ Hm)).
  - cbn. by rewrite Z.add_0_r.
  - rewrite (proj2 (Z.eqb_neq c 0)) by lia. destruct Hm as [_ Hm]. rewrite (IH fuel (off + 1) Hm) by lia.
    f_equal. cbn [length]. lia.
Qed.

Lemma in_memory_dir t m d :
  in_memory t m -> (length (t_dirs t) < 64)%nat -> 0 <= d < 2 ^ 64 ->
  in_memory (mkTables (t_dirs t ++ [d]) (t_files t) (t_rows t)) (store64 m (T + 8 * Z.of_nat (length (t_dirs t))) d).
Proof.
  intros [Hs Hd Hf Hr [Hrd Hrf]] Hl H64. split; cbn [t_dirs t_files t_rows]; unfold FILES, row_in, LINES in *.
  - intros x Hx. rewrite store64_out by lia. by apply Hs.
  - intros i x Hx. apply lookup_app_Some in Hx as [Hx|[Hge Hx]].
    + pose proof (lookup_lt_Some _ _ _ Hx). rewrite load_store64_ne by lia. by apply Hd.
    + destruct (i - length (t_dirs t))%nat eqn:Ei; [|done]. cbn in Hx. simplify_eq.
      replace i with (length (t_dirs t)) by lia. by apply load_store64.
  - intros i x a Hx. rewrite !load_store64_ne by lia. by apply Hf.
  - intros i x Hx. rewrite !load_store64_ne by lia. by apply Hr.
  - rewrite length_app. cbn. lia.
Qed.

Lemma read_dirs_run ds fuel sf t m off rest :
  in_memory t m -> Forall is_str ds -> (length (t_dirs t) + length ds <= 64)%nat -> 0 <= off ->
  holds m0 off (concat (encode_str <$> ds) ++ 0 :: rest) ->
  off + Z.of_nat (length (concat (encode_str <$> ds))) < e ->
  (length ds < fuel)%nat -> (length (concat (encode_str <$> ds)) < sf)%nat ->
  exists m', read_dirs fuel sf T off (Z.of_nat (length (t_dirs t))) m =
      Ret (off + Z.of_nat (length (concat (encode_str <$> ds))), Z.of_nat (length (t_dirs t) + length ds)) m' /\
    in_memory (mkTables (t_dirs t ++ dirs_at off ds) (t_files t) (t_rows t)) m'.
Proof.
  intros Hi Hds. revert fuel t m off Hi. induction Hds as [|d ds [Hne Hd] Hds IH];
    intros [|fuel] t m off Hi Hl H0 Hm He Hf Hsf; cbn in Hf; try lia; cbn [read_dirs].
  - cbn in Hm, He. assert (Hm0 : holds m off [0]) by (apply (same_holds t m off [0] Hi); [cbn; lia|by split; [apply Hm|]]).
    rewrite (bind_Ret _ _ _ _ _ (byte_run _ _ _ _ Hm0)). cbn [Z.eqb]. exists m. unfold ret. cbn.
    rewrite app_nil_r, Nat.add_0_r, Z.add_0_r. split; [done|]. by destruct t.
  - cbn [fmap list_fmap concat length] in *. rewrite <- app_assoc in Hm. rewrite length_app in He, Hsf.
    apply holds_app in Hm as [Hm1 Hm2]. destruct d as [|c d]; [done|].
    assert (Hstr : holds m off (encode_str (c :: d))) by (apply (same_holds t); [done|lia|done]).
    rewrite (bind_Ret _ _ _ _ _ (byte_run _ _ _ _ Hstr)). pose proof (Forall_inv Hd) as Hc. cbn in Hc.
    rewrite (proj2 (Z.eqb_neq c 0)) by lia.
    pose proof (in_memory_dir t m off Hi ltac:(lia) ltac:(lia)) as Hi1.
    set (m1 := store64 m _ off) in *. unfold put64 at 1. unfold bind at 1, modify. fold m1.
    assert (Hstr1 : holds m1 off (encode_str (c :: d))) by (apply (same_holds _ m1 _ _ Hi1); [lia|done]).
    rewrite (bind_Ret _ _ _ _ _ (skip_str_run _ sf off m1 Hd Hstr1 ltac:(unfold encode_str in Hsf; rewrite length_app in Hsf; cbn [length] in *; lia))).
    destruct (IH fuel (mkTables (t_dirs t ++ [off]) (t_files t) (t_rows t)) m1 (off + Z.of_nat (length (encode_str (c :: d)))))
      as (m2 & E2 & Hi2); try done; try lia.
    { cbn [t_dirs]. rewrite length_app. cbn [length]. lia. }
    exists m2. cbn [t_dirs t_files t_rows] in E2, Hi2. rewrite length_app in E2. cbn [length] in E2.
    replace (Z.of_nat (length (t_dirs t)) + 1) with (Z.of_nat (length (t_dirs t) + 1)) by lia.
    replace (off + Z.of_nat (length (c :: d)) + 1) with (off + Z.of_nat (length (encode_str (c :: d))))
      by (unfold encode_str; rewrite length_app; cbn [length]; lia).
    rewrite E2. cbn [dirs_at]. rewrite <- app_assoc in Hi2. split; [|exact Hi2].
    rewrite length_app. f_equal. f_equal; lia.
Qed.

Definition store_file (a d name : Z) (m : bmem) : bmem := store64 (store64 m (a + 8) name) a d.

Lemma in_memory_file t m d a :
  in_memory t m -> (length (t_files t) < 64)%nat -> 0 <= a < 2 ^ 64 -> 0 <= d < 2 ^ 64 ->
  in_memory (mkTables (t_dirs t) (t_files t ++ [(d, a)]) (t_rows t))
    (store_file (FILES + 16 * Z.of_nat (length (t_files t))) d a m).
Proof.
  intros [Hs Hd Hf Hr [Hrd Hrf]] Hl Ha64 Hd64.
  split; cbn [t_dirs t_files t_rows]; unfold FILES, row_in, LINES, store_file in *.
  - intros x Hx. rewrite !store64_out by lia. by apply Hs.
  - intros i x Hx. pose proof (lookup_lt_Some _ _ _ Hx). rewrite !load_store64_ne by lia. by apply Hd.
  - intros i x y Hx. apply lookup_app_Some in Hx as [Hx|[Hge Hx]].
    + pose proof (lookup_lt_Some _ _ _ Hx). rewrite !load_store64_ne by lia. by apply Hf.
    + destruct (i - length (t_files t))%nat eqn:Ei; [|done]. cbn in Hx. simplify_eq.
      replace i with (length (t_files t)) by lia. rewrite load_store64 by done.
      rewrite load_store64_ne, load_store64 by (done || lia). done.
  - intros i x Hx. rewrite !load_store64_ne by lia. by apply Hr.
  - rewrite length_app. cbn. lia.
Qed.

(** The three numbers behind a file name. *)
Lemma read_three a b d off m :
  small a -> small b -> small d -> holds m off (uleb 10 a ++ uleb 10 b ++ uleb 10 d) ->
  exists k1 k2, read_uleb128 off m = Ret (a, k1) m /\ read_uleb128 k1 m = Ret (b, k2) m /\
    read_uleb128 k2 m = Ret (d, off + Z.of_nat (length (uleb 10 a ++ uleb 10 b ++ uleb 10 d))) m /\
    k1 = off + Z.of_nat (length (uleb 10 a)).
Proof.
  intros Ha Hb Hd [H1 [H2 H3]%holds_app]%holds_app. do 2 eexists.
  split; [by apply read_uleb_run|]. split; [by apply read_uleb_run|]. split; [|done].
  rewrite (read_uleb_run d) by done. rewrite !length_app. do 2 f_equal. lia.
Qed.

(** One file: the loop goes on behind it with an entry more. *)
Lemma file_step name d mtime len fuel sf t m base off :
  in_memory t m -> wf_file (name, d, mtime, len) -> (length (t_files t) < 64)%nat -> 0 <= off ->
  holds m0 off (encode_file (name, d, mtime, len)) ->
  off + Z.of_nat (length (encode_file (name, d, mtime, len))) <= e ->
  (length (encode_file (name, d, mtime, len)) < sf)%nat ->
  exists m', in_memory (mkTables (t_dirs t) (t_files t ++ [(u64 (d - 1 + base), off)]) (t_rows t)) m' /\
    read_files (S fuel) sf FILES base off (Z.of_nat (length (t_files t))) m =
    read_files fuel sf FILES base (off + Z.of_nat (length (encode_file (name, d, mtime, len))))
      (Z.of_nat (length (t_files t)) + 1) m'.
Proof.
  intros Hi ((Hne & Hn) & Hd & Hmt & Hlen) Hl H0 Hm He Hsf. destruct name as [|c name]; [done|].
  set (nums := uleb 10 d ++ uleb 10 mtime ++ uleb 10 len) in *.
  assert (Hlf : length (encode_file (c :: name, d, mtime, len)) = (length (c :: name) + 1 + length nums)%nat).
  { unfold encode_file, encode_str. fold nums. by rewrite !length_app. }
  unfold encode_file at 1 in Hm. fold nums in Hm. apply holds_app in Hm as [Hs0 Hn0].
  assert (Hle : Z.of_nat (length (encode_str (c :: name))) = Z.of_nat (length (c :: name)) + 1)
    by (unfold encode_str; rewrite length_app; cbn [length]; lia). rewrite Hle, Z.add_assoc in Hn0.
  set (a := FILES + 16 * Z.of_nat (length (t_files t))). set (m1 := store64 m (a + 8) off).
  assert (Hh1 : forall b l, b + Z.of_nat (length l) <= e -> holds m0 b l -> holds m1 b l).
  { intros b l Hb Hh. apply (holds_ext m); [|by apply (same_holds t)].
    intros x Hx. apply store64_out. unfold a, FILES. lia. }
  set (m2 := store64 m1 a (u64 (d - 1 + base))).
  assert (Hi2 : in_memory (mkTables (t_dirs t) (t_files t ++ [(u64 (d - 1 + base), off)]) (t_rows t)) m2).
  { apply in_memory_file; [done|lia|lia|apply u64_range]. }
  destruct (read_three d mtime len (off + Z.of_nat (length (c :: name)) + 1) m1 Hd Hmt Hlen)
    as (k1 & k2 & E1 & _ & _ & ->); [apply Hh1; [fold nums; lia|done]|].
  destruct (read_three d mtime len (off + Z.of_nat (length (c :: name)) + 1) m2 Hd Hmt Hlen)
    as (k1' & k2' & _ & E2 & E3 & ->); [apply (same_holds _ m2 _ _ Hi2); [fold nums; lia|done]|].
  assert (Hstr : holds m off (encode_str (c :: name))) by (apply (same_holds t m _ _ Hi); [lia|done]).
  assert (Hstr1 : holds m1 off (encode_str (c :: name))) by (apply Hh1; [lia|done]).
  pose proof (Forall_inv Hn) as Hc. cbn beta in Hc. exists m2. split; [done|]. cbn [read_files].
  rewrite (bind_Ret _ _ _ _ _ (byte_run _ _ _ _ Hstr)), (proj2 (Z.eqb_neq c 0)) by lia.
  unfold put64 at 1. unfold bind at 1, modify at 1. fold a m1.
  rewrite (bind_Ret _ _ _ _ _ (skip_str_run _ sf off m1 Hn Hstr1 ltac:(cbn [length] in *; lia))), (bind_Ret _ _ _ _ _ E1).
  unfold put64 at 1. unfold bind at 1, modify at 1. fold m2.
  rewrite (bind_Ret _ _ _ _ _ E2), (bind_Ret _ _ _ _ _ E3). fold nums. rewrite Hlf. f_equal. lia.
Qed.

Lemma read_files_run fs fuel sf t m base off rest :
  in_memory t m -> Forall wf_file fs -> (length (t_files t) + length fs <= 64)%nat -> 0 <= off ->
  holds m0 off (concat (encode_file <$> fs) ++ 0 :: rest) ->
  off + Z.of_nat (length (concat (encode_file <$> fs))) < e ->
  (length fs < fuel)%nat -> (length (concat (encode_file <$> fs)) < sf)%nat ->
  exists m', read_files fuel sf FILES base off (Z.of_nat (length (t_files t))) m =
      Ret (off + Z.of_nat (length (concat (encode_file <$> fs))), Z.of_nat (length (t_files t) + length fs)) m' /\
    in_memory (mkTables (t_dirs t) (t_files t ++ files_at off base fs) (t_rows t)) m'.
Proof.
  intros Hi Hfs. revert fuel t m off Hi. induction Hfs as [|f fs Hw Hfs IH];
    intros [|fuel] t m off Hi Hl H0 Hm He Hf Hsf; cbn in Hf; try lia.
  - cbn in Hm, He. assert (Hm0 : holds m off [0]) by (apply (same_holds t m off [0] Hi); [cbn; lia|by split; [apply Hm|]]).
    cbn [read_files]. rewrite (bind_Ret _ _ _ _ _ (byte_run _ _ _ _ Hm0)). cbn [Z.eqb]. exists m. unfold ret. cbn.
    rewrite app_nil_r, Nat.add_0_r, Z.add_0_r. split; [done|]. by destruct t.
  - cbn [fmap list_fmap concat length] in *. rewrite <- app_assoc in Hm. rewrite length_app in He, Hsf.
    apply holds_app in Hm as [Hm1 Hm2]. destruct f as [[[name d] mtime] len].
    destruct (file_step name d mtime len fuel sf t m base off Hi Hw) as (m1 & Hi1 & ->); [lia|lia|done|lia|lia|].
    destruct (IH fuel _ m1 (off + Z.of_nat (length (encode_file (name, d, mtime, len)))) Hi1)
      as (m3 & E4 & Hi3); try done; try lia.
    { cbn [t_files]. rewrite length_app. cbn [length]. lia. }
    exists m3. cbn [t_dirs t_files t_rows] in E4, Hi3. rewrite length_app in E4. cbn [length] in E4.
    replace (Z.of_nat (length (t_files t)) + 1) with (Z.of_nat (length (t_files t) + 1)) by lia.
    rewrite E4. cbn [files_at]. rewrite <- app_assoc in Hi3. split; [|exact Hi3].
    rewrite length_app. f_equal. f_equal; lia.
Qed.

(** ** Units *)

Lemma concat_length {A B} (f : A -> list B) l :
  (forall x, f x <> []) -> (length l <= length (concat (f <$> l)))%nat.
Proof.
  intros Hf. induction l as [|x l IH]; [done|]. cbn [fmap list_fmap concat]. rewrite length_app.
  specialize (Hf x). destruct (f x); [done|]. cbn [length]. lia.
Qed.

Lemma encode_nonempty o f s : encode_op o <> [] /\ encode_file f <> [] /\ encode_str s <> [].
Proof. split; [by destruct o|]. destruct f as [[[name d] mt] len]. split; [by destruct name|by destruct s]. Qed.

Lemma dirs_at_length a ds : length (dirs_at a ds) = length ds.
Proof. revert a. induction ds as [|d ds IH]; intros a; cbn; [done|]. by rewrite IH. Qed.
Lemma files_at_length a b fs : length (files_at a b fs) = length fs.
Proof. revert a. induction fs as [|[[[n d] x] y] fs IH]; intros a; cbn; [done|]. by rewrite IH. Qed.

Lemma unit_step u fuel sf t m off :
  in_memory t m -> wf_unit u -> 0 <= off ->
  (length (t_dirs t) + length (u_dirs u) <= 64)%nat -> (length (t_files t) + length (u_files u) <= 64)%nat ->
  holds m0 off (encode_unit u) -> off + Z.of_nat (length (encode_unit u)) <= e ->
  (length (encode_unit u) < sf)%nat ->
  exists m', in_memory (add_unit off u t) m' /\
    read_units (S fuel) sf e T FILES LINES off (Z.of_nat (length (t_dirs t))) (Z.of_nat (length (t_files t)))
      (Z.of_nat (length (t_rows t))) m =
    (let t' := add_unit off u t in
     read_units fuel sf e T FILES LINES (off + Z.of_nat (length (encode_unit u))) (Z.of_nat (length (t_dirs t')))
       (Z.of_nat (length (t_files t'))) (Z.of_nat (length (t_rows t'))) m').
Proof.
  intros Hi Hw H0 Hrd Hrf Hm He Hsf. destruct (wf_header _ Hw) as [Hhl _].
  pose proof (concat_length encode_str (u_dirs u) (fun s => proj2 (proj2 (encode_nonempty Copy ([], 0, 0, 0) s)))) as Hdl.
  pose proof (concat_length encode_file (u_files u) (fun f => proj1 (proj2 (encode_nonempty Copy f [])))) as Hfl.
  pose proof (concat_length encode_op (u_ops u) (fun o => proj1 (encode_nonempty o ([], 0, 0, 0) []))) as Hol.
  set (D := concat (encode_str <$> u_dirs u)) in *. set (F := concat (encode_file <$> u_files u)) in *.
  assert (Hlen : length (encode_unit u) = (27 + length D + 1 + length F + 1 + length (encode_ops (u_ops u)))%nat).
  { unfold encode_unit. rewrite length_app, Hhl, length_app. cbn [length]. rewrite length_app. cbn [length]. unfold D, F. lia. }
  assert (Hops : length (encode_ops (u_ops u)) = (length (concat (encode_op <$> u_ops u)) + 3)%nat).
  { unfold encode_ops. by rewrite length_app. }
  unfold encode_unit in Hm. apply holds_app in Hm as [Hh Hm]. rewrite Hhl in Hm. fold D F in Hm. pose proof Hm as Hmd.
  apply holds_app in Hm as [_ [_ Hm]]. pose proof Hm as Hmf. apply holds_app in Hm as [_ [_ Hmo]].
  destruct (read_dirs_run (u_dirs u) sf sf t m (off + 27) _ Hi (wf_dirs _ Hw) Hrd ltac:(lia) Hmd)
    as (m1 & E1 & Hi1); [fold D; lia..|]. fold D in E1.
  set (t1 := mkTables (t_dirs t ++ dirs_at (off + 27) (u_dirs u)) (t_files t) (t_rows t)) in Hi1.
  replace (off + Z.of_nat 27 + Z.of_nat (length D) + 1) with (off + 27 + Z.of_nat (length D) + 1) in * by lia.
  destruct (read_files_run (u_files u) sf sf t1 m1 (Z.of_nat (length (t_dirs t)))
      (off + 27 + Z.of_nat (length D) + 1) _ Hi1 (wf_files _ Hw) Hrf ltac:(lia) Hmf)
    as (m2 & E2 & Hi2); [fold F; lia..|]. fold F in E2.
  set (t2 := mkTables (t_dirs t1) _ (t_rows t1)) in Hi2.
  assert (Hu0 : u64_row (mkLine 0 1 1)) by (repeat split; cbn; lia).
  destruct (run_ops_run u off (Z.of_nat (length (t_files t))) Hw Hh ltac:(lia) (u_ops u) sf t2 m2 (mkLine 0 1 1) _
    Hi2 Hu0 (wf_ops _ Hw) Hmo) as (m3 & E3 & Hi3); [lia|lia|].
  exists m3. split; [exact Hi3|]. cbn [read_units]. rewrite (proj2 (Z.ltb_lt off e)) by lia.
  unfold sizeof_debug_header. rewrite (bind_Ret _ _ _ _ _ E1), (bind_Ret _ _ _ _ _ E2), (bind_Ret _ _ _ _ _ E3).
  cbn [add_unit t_dirs t_files t_rows t1 t2]. rewrite !length_app, dirs_at_length, files_at_length.
  f_equal. rewrite Hlen. lia.
Qed.

Lemma section_grows us a t :
  (length (t_dirs t) <= length (t_dirs (section_tables a us t)))%nat /\
  (length (t_files t) <= length (t_files (section_tables a us t)))%nat.
Proof.
  revert a t. induction us as [|u us IH]; intros a t; cbn [section_tables]; [done|].
  destruct (IH (a + Z.of_nat (length (encode_unit u))) (add_unit a u t)) as [H1 H2].
  unfold add_unit at 1 in H1. unfold add_unit at 1 in H2. cbn [t_dirs t_files] in H1, H2.
  rewrite length_app in H1, H2. lia.
Qed.

Lemma read_units_run us fuel sf t m off :
  in_memory t m -> Forall wf_unit us -> 0 <= off ->
  (length (t_dirs (section_tables off us t)) <= 64)%nat -> (length (t_files (section_tables off us t)) <= 64)%nat ->
  holds m0 off (encode_section us) -> off + Z.of_nat (length (encode_section us)) = e ->
  (length us < fuel)%nat -> Forall (fun u => length (encode_unit u) < sf)%nat us ->
  exists m', read_units fuel sf e T FILES LINES off (Z.of_nat (length (t_dirs t))) (Z.of_nat (length (t_files t)))
      (Z.of_nat (length (t_rows t))) m = Ret (Z.of_nat (length (t_rows (section_tables off us t)))) m' /\
    in_memory (section_tables off us t) m'.
Proof.
  revert fuel t m off. induction us as [|u us IH]; intros [|fuel] t m off Hi Hw H0 Hd Hf Hm He Hfu Hsf; cbn in Hfu; try lia.
  - cbn in He. exists m. split; [|done]. cbn [read_units section_tables]. by rewrite (proj2 (Z.ltb_ge off e)) by lia.
  - cbn [section_tables] in *. apply list.Forall_cons in Hw as [Hw Hws]. apply list.Forall_cons in Hsf as [Hsf Hsfs].
    unfold encode_section in Hm, He. cbn [fmap list_fmap concat] in Hm, He. fold (encode_section us) in Hm, He.
    rewrite length_app in He. apply holds_app in Hm as [Hm1 Hm2].
    destruct (section_grows us (off + Z.of_nat (length (encode_unit u))) (add_unit off u t)) as [Hg1 Hg2].
    pose proof Hg1 as Hg1'. pose proof Hg2 as Hg2'. unfold add_unit at 1 in Hg1'. unfold add_unit at 1 in Hg2'.
    cbn [t_dirs t_files] in Hg1', Hg2'. rewrite length_app, dirs_at_length in Hg1'. rewrite length_app, files_at_length in Hg2'.
    destruct (unit_step u fuel sf t m off Hi Hw H0) as (m1 & Hi1 & ->); [lia|lia|done|lia|done|].
    destruct (IH fuel (add_unit off u t) m1 (off + Z.of_nat (length (encode_unit u)))) as (m2 & E2 & Hi2);
      try done; try lia.
    by exists m2.
Qed.
End Tables.

(** C35: the line table. On a section that encodes a list of compilation units,
    [make_addr_line] returns and leaves behind the section the directories, the
    files and the rows that the units denote; the section itself, where the names
    are, keeps its bytes. The arrays have room for 64 directories and 64 files. *)
Theorem make_addr_line_correct m dl us fuel sf :
  0 <= dl -> dl + Z.of_nat (length (encode_section us)) + 7 < 2 ^ 64 -> holds m dl (encode_section us) ->
  Forall wf_unit us -> Forall (fun u => length (encode_unit u) < sf)%nat us -> (length us < fuel)%nat ->
  let t := section_tables dl us (mkTables [] [] []) in
  (length (t_dirs t) <= 64)%nat -> (length (t_files t) <= 64)%nat ->
  exists info m', make_addr_line fuel sf dl (Z.of_nat (length (encode_section us))) m = Ret info m' /\
    i_line_ind info = Z.of_nat (length (t_rows t)) /\
    i_file info = FILES (i_dir info) /\ i_line info = LINES (i_dir info) /\
    in_memory m (dl + Z.of_nat (length (encode_section us))) (i_dir info) t m'.
Proof.
  intros H0 H64 Hm Hw Hsf Hf t Hd Hfi. set (len := Z.of_nat (length (encode_section us))) in *.
  set (T := Z.shiftl (Z.shiftr (u64 (dl + len + 7)) 3) 3).
  assert (HT : dl + len <= T).
  { unfold T. rewrite Z.shiftl_mul_pow2, Z.shiftr_div_pow2, u64_small by lia. change (2 ^ 3) with 8. klia. }
  assert (Hi : in_memory m (dl + len) T (mkTables [] [] []) m) by (split; cbn; intros; done || lia).
  destruct (read_units_run m (dl + len) T HT ltac:(lia) us fuel sf _ m dl Hi Hw H0 Hd Hfi Hm eq_refl Hf Hsf)
    as (m' & E & Hi').
  cbn [t_dirs t_files t_rows length] in E. change (Z.of_nat 0) with 0 in E. change (FILES T) with (T + 8 * 64) in E.
  replace (LINES T) with (T + 8 * 64 + 16 * 64) in E by (unfold LINES; lia).
  eexists _, m'. split; [unfold make_addr_line; fold T; rewrite (bind_Ret _ _ _ _ _ E); reflexivity|].
  cbn [i_line_ind i_file i_line i_dir]. split; [done|]. split; [done|].
  split; [unfold LINES; lia|exact Hi'].
Qed.

(** A unit with the directory "s", the file "a.c" in it and three rows. *)
Definition unit1 : line_unit :=
  mkUnit [0; 0; 0; 0; 3; 0; 0; 0; 0; 0; 1; 1; 251; 14; 13; 0; 1; 1; 1; 1; 0; 0; 0; 1; 0; 0; 1]
    [[115]] [([97; 46; 99], 1, 0, 0)]
    [SetAddress 65536; AdvanceLine 4; Copy; Special 90; AdvancePc 200; AdvanceLine (-2); Copy; AdvancePc 4].
Definition line_mem : bmem := fun a => default 0 (encode_section [unit1] !! Z.to_nat (a - 4096)).

Lemma unit1_wf : wf_unit unit1.
Proof.
  split.
  - split; [reflexivity|]. repeat constructor; lia.
  - discriminate.
  - repeat constructor; [discriminate|lia..].
  - repeat constructor; try discriminate; cbn; lia.
  - repeat constructor; cbn; lia.
Qed.

Lemma make_addr_line_correct_witness :
  exists info m', make_addr_line 3 200 4096 64 line_mem = Ret info m' /\ i_line_ind info = 4 /\
    row_in (i_dir info) m' 0 (mkLine 65536 5 0) /\ row_in (i_dir info) m' 1 (mkLine 65541 7 0).
Proof.
  destruct (make_addr_line_correct line_mem 4096 [unit1] 3 200) as (info & m' & E & Hn & _ & _ & Hi).
  - lia.
  - vm_compute; reflexivity.
  - vm_compute; repeat split; reflexivity.
  - exact (Forall_cons _ _ _ unit1_wf (Forall_nil _)).
  - constructor; [vm_compute; lia|constructor].
  - cbn; lia.
  - vm_compute; lia.
  - vm_compute; lia.
  - exists info, m'. split; [exact E|]. split; [exact Hn|].
    split; [apply (im_rows _ _ _ _ _ Hi 0%nat)|apply (im_rows _ _ _ _ _ Hi 1%nat)]; vm_compute; reflexivity.
Defined.
