(* ===== verification/Pages.v ===== *)
(** * What the file systems rely on from the page allocator

    Hash nodes, directory entries, inodes and open files each live in a page of
    their own, taken with [alloc_page] and given back with [free_page].  The
    class says what their code needs from the allocator: a page handed out was
    in nobody's possession, and a page in one's possession can be given back.
    Pmm.v discharges it; the models of the clients are written against it. *)
From S2P Require Import Prelude Pmm.

(** [pg_ok s own n]: in state [s] the client possesses the pages [own], and [n]
    pages are free. *)
Class PageSource (S : Type) : Type := {
  pg_alloc : M S Z;
  pg_free : Z -> M S unit;
  pg_ok : S -> gset Z -> nat -> Prop;
  pg_own_nonzero s own n : pg_ok s own n -> 0 ∉ own;
  pg_alloc_some s own n :
    pg_ok s own (Datatypes.S n) ->
    exists p s', pg_alloc s = Ret p s' /\ p <> 0 /\ p ∉ own /\ pg_ok s' ({[p]} ∪ own) n;
  pg_alloc_none s own : pg_ok s own 0 -> pg_alloc s = Ret 0 s;
  pg_free_own s own n p :
    pg_ok s own n -> p ∈ own ->
    exists s', pg_free p s = Ret tt s' /\ pg_ok s' (own ∖ {[p]}) (Datatypes.S n)
}.

(** The allocator of kernel/pmm.c: a page in one's possession is one whose only
    reference is one's own. *)
Definition pmm_ok (s : pstate) (own : gset Z) (n : nat) : Prop :=
  exists l, pmm_inv s l /\ length l = n /\ forall p, p ∈ own -> managed s p /\ page_ref s p = 1.

Lemma pmm_ok_alloc s own n :
  pmm_ok s own (S n) ->
  exists p s', alloc_page s = Ret p s' /\ p <> 0 /\ p ∉ own /\ pmm_ok s' ({[p]} ∪ own) n.
Proof.
  intros ([|p l] & Hinv & Hlen & Hown); [done|]. injection Hlen as Hlen.
  pose proof (inv_managed _ _ Hinv p ltac:(by left)) as Hm.
  pose proof (proj1 (inv_free _ _ Hinv p) ltac:(by left)) as [_ H0].
  exists p, (alloc_result s p). split; [by eapply alloc_page_run|].
  split; [eapply managed_nonzero; [apply Hinv|done]|].
  split; [intros Hin; apply Hown in Hin as [_ ?]; lia|].
  exists l. split; [by eapply alloc_result_inv|]. split; [done|].
  intros q Hq. change (managed (alloc_result s p) q) with (managed s q).
  apply elem_of_union in Hq as [Hq|Hq].
  - apply elem_of_singleton in Hq as ->. split; [done|].
    rewrite (page_ref_alloc s (p :: l)) by done. by rewrite decide_True.
  - destruct (Hown q Hq) as [Hqm Hq1]. split; [done|].
    rewrite (page_ref_alloc s (p :: l)) by done. rewrite decide_False; [done|]. intros ->. lia.
Qed.

Lemma pmm_ok_free s own n p :
  pmm_ok s own n -> p ∈ own ->
  exists s', free_page p s = Ret tt s' /\ pmm_ok s' (own ∖ {[p]}) (S n).
Proof.
  intros (l & Hinv & Hlen & Hown) Hp. destruct (Hown p Hp) as [Hm H1].
  exists (free_result s p). split.
  { rewrite (free_page_run s l) by (done || lia). by rewrite H1. }
  exists (p :: l). split; [by apply free_result_inv|]. split; [cbn; lia|].
  intros q Hq. apply elem_of_difference in Hq as [Hq Hne]. destruct (Hown q Hq) as [Hqm Hq1].
  split; [exact Hqm|]. change (page_ref (free_result s p) q) with (page_ref (unref_result s p) q).
  rewrite (page_ref_unref s l) by done. rewrite decide_False; [done|]. intros ->. set_solver.
Qed.

#[global] Instance pmm_pages : PageSource pstate.
Proof.
  refine {| pg_alloc := alloc_page; pg_free := free_page; pg_ok := pmm_ok |}.
  - intros s own n (l & Hinv & _ & Hown) H0. apply Hown in H0 as [Hm _].
    eapply managed_nonzero in Hm; [done|apply Hinv].
  - exact pmm_ok_alloc.
  - intros s own ([|p l] & Hinv & Hlen & _); [|done]. by eapply alloc_page_empty.
  - exact pmm_ok_free.
Defined.

(** A free list without memory behind it, the smallest page source; the
    concrete examples run on it. *)
Definition stack_ok (s : list Z) (own : gset Z) (n : nat) : Prop :=
  NoDup s /\ length s = n /\ 0 ∉ s /\ 0 ∉ own /\ forall p, p ∈ own -> p ∉ s.
Definition stack_alloc : M (list Z) Z :=
  fun s => match s with [] => Ret 0 [] | p :: s' => Ret p s' end.
Definition stack_free (p : Z) : M (list Z) unit := modify (cons p).

#[global] Instance stack_pages : PageSource (list Z).
Proof.
  refine {| pg_alloc := stack_alloc; pg_free := stack_free; pg_ok := stack_ok |}.
  - by intros s own n (_ & _ & _ & H & _).
  - intros [|p s] own n (Hnd & Hlen & H0 & Ho & Hd); [done|]. injection Hlen as Hlen.
    apply list.NoDup_cons in Hnd as [Hp Hnd]. rewrite elem_of_cons in H0.
    exists p, s. split; [done|]. split; [intros ->; tauto|].
    split; [intros Hin; apply (Hd p Hin); left|].
    repeat split; [done|done|tauto|set_solver|].
    intros q Hq. apply elem_of_union in Hq as [Hq|Hq]; [set_solver|].
    intros Hs. apply (Hd q Hq). by right.
  - by intros [|p s] own (_ & Hlen & _).
  - intros s own n p (Hnd & Hlen & H0 & Ho & Hd) Hp. exists (p :: s). split; [done|].
    repeat split; [constructor; auto|cbn; lia| |set_solver|set_solver].
    rewrite elem_of_cons. intros [<-|?]; auto.
Defined.

(** A page source with something else beside it. *)
Definition on_left {S T A} (c : M S A) : M (S * T) A := zoom fst (fun v p => (v, snd p)) c.

#[global] Instance pair_pages {S T} `{PageSource S} : PageSource (S * T).
Proof.
  refine {| pg_alloc := on_left pg_alloc; pg_free p := on_left (pg_free p); pg_ok s := pg_ok (fst s) |}.
  - intros s own n. apply pg_own_nonzero.
  - intros [s t] own n Hok. destruct (pg_alloc_some s own n Hok) as (p & s' & E & Hp). exists p, (s', t).
    unfold on_left, zoom. cbn. by rewrite E.
  - intros [s t] own Hok. unfold on_left, zoom. cbn in *. by rewrite (pg_alloc_none s own Hok).
  - intros [s t] own n p Hok Hp. destruct (pg_free_own s own n p Hok Hp) as (s' & E & Hs). exists (s', t).
    unfold on_left, zoom. cbn. by rewrite E.
Defined.
