(* ===== verification/HashTable.v ===== *)
(** * The chained hash table (util/hash_table.c)

    A table has [HASH_TABLE_SIZE] chains of nodes, a node to a page.  The
    functions follow the [next] pointers as the C code does, with a bound on
    the steps that is larger than any chain.  The theorem says that the table
    is a finite map whose keys are compared with [virtual_hash_equal]. *)
From S2P Require Import Prelude Pages.

Definition HASH_TABLE_SIZE : nat := 128.

Record hash_node (K : Type) : Type := mkNode { next : Z; key : K; hvalue : Z }.
Arguments mkNode {K}. Arguments next {K}. Arguments key {K}. Arguments hvalue {K}.

(** [head] holds the [next] fields of the array of list heads. *)
Record hash_table (K : Type) : Type := mkTable { head : list Z; nodes : gmap Z (hash_node K) }.
Arguments mkTable {K}. Arguments head {K}. Arguments nodes {K}.

(** The table with the allocator its nodes come from. *)
Record hstate (PS K : Type) : Type := mkH { hpages : PS; table : hash_table K }.
Arguments mkH {PS K}. Arguments hpages {PS K}. Arguments table {PS K}.

(** What [hash_table_init] is given: [virtual_hash_equal] and
    [virtual_hash_func], and what the table relies on. *)
Class HashKey (K : Type) : Type := {
  hash_equal : K -> K -> bool;
  hash_func : K -> Z;
  hash_equal_refl k : hash_equal k k = true;
  hash_equal_sym j k : hash_equal j k = true -> hash_equal k j = true;
  hash_equal_trans j k l : hash_equal j k = true -> hash_equal k l = true -> hash_equal j l = true;
  hash_func_equal j k : hash_equal j k = true -> hash_func j = hash_func k
}.

Section HashTable.
Context {PS : Type} `{PageSource PS} {K : Type} `{HashKey K}.

#[local] Notation HM := (M (hstate PS K)).

Definition set_table (t : hash_table K) (s : hstate PS K) : hstate PS K := mkH (hpages s) t.
Definition on_pages {A} (c : M PS A) : HM A :=
  zoom hpages (fun p s => mkH p (table s)) c.

Definition get_node (p : Z) : HM (hash_node K) :=
  fun s => match nodes (table s) !! p with Some n => Ret n s | None => Stop (Fault p) s end.
Definition put_node (p : Z) (n : hash_node K) : HM unit :=
  if p =? 0 then halt (Fault 0)
  else modify (fun s => set_table (mkTable (head (table s)) (<[p := n]> (nodes (table s)))) s).

(** A place that holds a [next] pointer: the head of a chain or a node. *)
Inductive link : Type := Head (index : nat) | Node (p : Z).

Definition get_next (l : link) : HM Z :=
  match l with
  | Head i => fun s => match head (table s) !! i with
                       | Some p => Ret p s
                       | None => Stop (UB "hash_table->head out of range") s
                       end
  | Node p => let* n := get_node p in ret (next n)
  end.
Definition set_next (l : link) (v : Z) : HM unit :=
  match l with
  | Head i => modify (fun s => set_table (mkTable (<[i := v]> (head (table s))) (nodes (table s))) s)
  | Node p => let* n := get_node p in put_node p (mkNode v (key n) (hvalue n))
  end.

(** ** Operations *)

Definition chain_bound : HM nat := let* s := get in ret (S (size (nodes (table s)))).

(** [while (node) { ... }] of [defalut_get]. *)
Fixpoint get_loop (fuel : nat) (node : Z) (k : K) : HM Z :=
  match fuel with
  | O => halt OutOfFuel
  | S f =>
      if node =? 0 then ret 0 else
      let* n := get_node node in
      if hash_equal (key n) k then ret (hvalue n) else get_loop f (next n) k
  end.

Definition defalut_get (k : K) : HM Z :=
  let index := Z.to_nat (hash_func k) in
  let* node := get_next (Head index) in
  let* fuel := chain_bound in
  get_loop fuel node k.

Definition default_put (k : K) (v : Z) : HM Z :=
  let* node := on_pages pg_alloc in
  let* old := defalut_get k in
  if negb (old =? 0) then ret (-1) else
  let index := Z.to_nat (hash_func k) in
  let* nx := get_next (Head index) in
  put_node node (mkNode nx k v) ;;;
  set_next (Head index) node ;;;
  ret 0.

(** [while (head->next && !equal(head->next->key, key)) head = head->next;]:
    the place that holds the pointer to the node, or to nothing. *)
Fixpoint erase_loop (fuel : nat) (hd : link) (k : K) : HM link :=
  match fuel with
  | O => halt OutOfFuel
  | S f =>
      let* p := get_next hd in
      if p =? 0 then ret hd else
      let* n := get_node p in
      if hash_equal (key n) k then ret hd else erase_loop f (Node p) k
  end.

Definition default_erase (k : K) : HM Z :=
  let index := Z.to_nat (hash_func k) in
  let* fuel := chain_bound in
  let* hd := erase_loop fuel (Head index) k in
  let* node := get_next hd in
  if negb (node =? 0) then
    let* n := get_node node in
    set_next hd (next n) ;;;
    on_pages (pg_free node) ;;;
    modify (fun s => set_table (mkTable (head (table s)) (delete node (nodes (table s)))) s) ;;;
    ret 0
  else ret (-1).

Definition hash_table_init : HM Z :=
  modify (fun s => set_table (mkTable (replicate HASH_TABLE_SIZE 0) (nodes (table s))) s) ;;;
  ret 0.

(** ** The chains *)

Definition cell : Type := Z * K * Z.
Definition c_addr (c : cell) : Z := c.1.1.
Definition c_key (c : cell) : K := c.1.2.
Definition c_val (c : cell) : Z := c.2.

Fixpoint chain (ns : gmap Z (hash_node K)) (p : Z) (l : list cell) : Prop :=
  match l with
  | [] => p = 0
  | c :: l' => p = c_addr c /\ p <> 0 /\
      exists nx, ns !! p = Some (mkNode nx (c_key c) (c_val c)) /\ chain ns nx l'
  end.

Definition find_cell (k : K) (l : list cell) : option cell :=
  List.find (fun c => hash_equal (c_key c) k) l.

(** The chains [b] that the table represents. *)
Record represents (t : hash_table K) (b : nat -> list cell) : Prop := {
  rep_len : length (head t) = HASH_TABLE_SIZE;
  rep_chain i : (i < HASH_TABLE_SIZE)%nat -> exists p, head t !! i = Some p /\ chain (nodes t) p (b i);
  rep_empty i : (HASH_TABLE_SIZE <= i)%nat -> b i = [];
  rep_nodup i : NoDup (c_addr <$> b i);
  rep_disj i j a : a ∈ c_addr <$> b i -> a ∈ c_addr <$> b j -> i = j;
  rep_hash i c : c ∈ b i -> Z.to_nat (hash_func (c_key c)) = i;
  rep_value i c : c ∈ b i -> c_val c <> 0
}.

(** The map the table stands for. *)
Definition content (b : nat -> list cell) (k : K) : option Z :=
  c_val <$> find_cell k (b (Z.to_nat (hash_func k))).

(** No two cells of a chain have equal keys. *)
Definition unique_keys (b : nat -> list cell) : Prop :=
  forall i, ForallOrdPairs (fun c d => hash_equal (c_key c) (c_key d) = false) (b i).

(** Table and allocator together: the client possesses the pages [own], the
    nodes among them, and [n] pages are free. *)
Record hash_ok (s : hstate PS K) (b : nat -> list cell) (own : gset Z) (n : nat) : Prop := {
  ok_pages : pg_ok (hpages s) own n;
  ok_rep : represents (table s) b;
  ok_unique : unique_keys b;
  ok_own i a : a ∈ c_addr <$> b i -> a ∈ own
}.

Lemma chain_in ns p l c :
  chain ns p l -> c ∈ l -> exists nx, ns !! c_addr c = Some (mkNode nx (c_key c) (c_val c)).
Proof.
  revert p. induction l as [|d l IH]; intros p; [by intros _ ?%not_elem_of_nil|].
  intros (-> & _ & nx & Hn & Hc) [->|Hin]%elem_of_cons; eauto.
Qed.

(** A chain without repetitions is no longer than the heap of nodes. *)
Lemma chain_size ns p l : chain ns p l -> NoDup (c_addr <$> l) -> (length l <= size ns)%nat.
Proof.
  intros Hc Hnd. rewrite <- (length_fmap c_addr). rewrite <- (size_list_to_set (C := gset Z)) by done.
  rewrite <- size_dom. apply subseteq_size. intros a.
  rewrite elem_of_list_to_set, list_elem_of_fmap. intros (c & -> & Hin).
  apply elem_of_dom. destruct (chain_in ns p l c Hc Hin) as (n & ->). done.
Qed.

(** Changes outside the chain do not matter. *)
Lemma chain_ext ns ns' p l :
  (forall a, a ∈ c_addr <$> l -> ns' !! a = ns !! a) -> chain ns p l -> chain ns' p l.
Proof.
  revert p. induction l as [|c l IH]; intros p He; [done|].
  intros (-> & Hnz & nx & Hn & Hc). split; [done|]. split; [done|]. exists nx.
  split; [rewrite He; [done|left]|]. apply IH; [|done]. intros a Ha. apply He. by right.
Qed.

Lemma get_loop_run s p l k fuel :
  chain (nodes (table s)) p l -> (length l < fuel)%nat ->
  get_loop fuel p k s = Ret (default 0 (c_val <$> find_cell k l)) s.
Proof.
  revert p fuel. induction l as [|c l IH]; intros p [|fuel] Hc Hf; cbn in Hf; try lia; cbn [get_loop].
  - cbn in Hc. by subst.
  - destruct Hc as (Hp & Hnz & nx & Hn & Hc). rewrite (proj2 (Z.eqb_neq p 0)) by done.
    unfold bind, get_node. rewrite Hn. cbn [key hvalue next]. unfold find_cell. cbn [List.find].
    destruct (hash_equal (c_key c) k); [done|]. apply IH; [done|lia].
Qed.

Lemma bucket_at t b i : represents t b -> (i < HASH_TABLE_SIZE)%nat ->
  exists p, head t !! i = Some p /\ chain (nodes t) p (b i) /\ (length (b i) < S (size (nodes t)))%nat.
Proof.
  intros Hr Hi. destruct (rep_chain _ _ Hr i Hi) as (p & Hp & Hc). exists p. split; [done|].
  split; [done|]. apply Nat.lt_succ_r. eapply chain_size; [done|apply Hr].
Qed.

Lemma get_run s b k :
  represents (table s) b -> (Z.to_nat (hash_func k) < HASH_TABLE_SIZE)%nat ->
  defalut_get k s = Ret (default 0 (content b k)) s.
Proof.
  intros Hr Hk. destruct (bucket_at _ _ _ Hr Hk) as (p & Hp & Hc & Hl).
  unfold defalut_get, chain_bound, bind, get_next. rewrite Hp.
  by apply (get_loop_run s p (b (Z.to_nat (hash_func k)))).
Qed.

Lemma content_value b t k v : represents t b -> content b k = Some v -> v <> 0.
Proof.
  unfold content. intros Hr. destruct (find_cell k _) as [c|] eqn:E; [|done].
  cbn. intros [= <-]. apply List.find_some in E as [Hin _]. eapply rep_value; [done|].
  by apply list_elem_of_In.
Qed.

(** ** Insertion *)

Definition pushed (b : nat -> list cell) (i : nat) (c : cell) : nat -> list cell :=
  fun j => if decide (j = i) then c :: b i else b j.

Lemma pushed_eq b i c : pushed b i c i = c :: b i.
Proof. unfold pushed. by rewrite decide_True. Qed.

Lemma pushed_addr b i c j a :
  a ∈ c_addr <$> pushed b i c j -> (a = c_addr c /\ j = i) \/ a ∈ c_addr <$> b j.
Proof.
  unfold pushed. case_decide; subst; [|by right].
  rewrite fmap_cons, elem_of_cons. intros [->|?]; auto.
Qed.

Lemma pushed_rep t b i c p :
  represents t b -> (i < HASH_TABLE_SIZE)%nat -> head t !! i = Some p ->
  (forall j, c_addr c ∉ c_addr <$> b j) -> c_addr c <> 0 -> c_val c <> 0 ->
  Z.to_nat (hash_func (c_key c)) = i ->
  represents (mkTable (<[i := c_addr c]> (head t))
                      (<[c_addr c := mkNode p (c_key c) (c_val c)]> (nodes t))) (pushed b i c).
Proof.
  intros Hr Hi Hp Hfresh Hnz Hv Hh. split; cbn [head nodes].
  - rewrite length_insert. apply Hr.
  - intros j Hj. destruct (rep_chain _ _ Hr j Hj) as (q & Hq & Hc). unfold pushed.
    assert (Hc' : chain (<[c_addr c := mkNode p (c_key c) (c_val c)]> (nodes t)) q (b j)).
    { eapply chain_ext; [|exact Hc]. intros a Ha. apply lookup_insert_ne. intros <-. by apply (Hfresh j). }
    case_decide as Hji; subst.
    + exists (c_addr c). split; [apply list_lookup_insert_eq; by rewrite (rep_len _ _ Hr)|].
      cbn. split; [done|]. split; [done|]. exists p. split; [apply lookup_insert_eq|]. by simplify_eq.
    + exists q. by rewrite list_lookup_insert_ne.
  - intros j Hj. unfold pushed. rewrite decide_False by lia. by apply Hr.
  - intros j. unfold pushed. case_decide; [|apply Hr]. cbn. constructor; [apply Hfresh|apply Hr].
  - intros j1 j2 a [[Ha1 ->]|H1]%pushed_addr [[Ha2 ->]|H2]%pushed_addr; subst; try done.
    + by apply Hfresh in H2.
    + by apply Hfresh in H1.
    + by eapply rep_disj.
  - intros j d. unfold pushed. case_decide; subst; [|apply Hr].
    intros [->|?]%elem_of_cons; [done|by eapply rep_hash].
  - intros j d. unfold pushed. case_decide; subst; [|apply Hr].
    intros [->|?]%elem_of_cons; [done|by eapply rep_value].
Qed.

Lemma content_pushed b c k :
  content (pushed b (Z.to_nat (hash_func (c_key c))) c) k =
    if hash_equal (c_key c) k then Some (c_val c) else content b k.
Proof.
  unfold content, pushed. case_decide as Hi.
  - unfold find_cell. cbn [List.find]. destruct (hash_equal (c_key c) k); [done|]. by rewrite Hi.
  - destruct (hash_equal (c_key c) k) eqn:E; [|done]. apply hash_func_equal in E. by rewrite E in Hi.
Qed.

(** ** Removal *)

Definition holds (t : hash_table K) (hd : link) (p : Z) : Prop :=
  match hd with
  | Head i => head t !! i = Some p
  | Node q => exists n, nodes t !! q = Some n /\ next n = p
  end.

Lemma get_node_run s p n : nodes (table s) !! p = Some n -> get_node p s = Ret n s.
Proof. intros Hn. unfold get_node. by rewrite Hn. Qed.

Lemma get_next_run s hd p : holds (table s) hd p -> get_next hd s = Ret p s.
Proof.
  destruct hd as [i|q]; cbn; [by intros ->|]. intros (n & Hn & <-). unfold bind, get_node. by rewrite Hn.
Qed.

(** The link in front of a cell: the last one of the cells before it. *)
Definition link_to (hd : link) (l1 : list cell) : link :=
  match list.last l1 with Some d => Node (c_addr d) | None => hd end.

Lemma erase_loop_run s hd p l k fuel :
  chain (nodes (table s)) p l -> holds (table s) hd p -> (length l < fuel)%nat ->
  match find_cell k l with
  | None => exists hd', erase_loop fuel hd k s = Ret hd' s /\ holds (table s) hd' 0
  | Some c => exists l1 l2, l = l1 ++ c :: l2 /\ find_cell k l1 = None /\
                erase_loop fuel hd k s = Ret (link_to hd l1) s /\ holds (table s) (link_to hd l1) (c_addr c)
  end.
Proof.
  revert hd p fuel. induction l as [|c l IH]; intros hd p [|fuel] Hc Hh Hf; cbn in Hf; try lia.
  - cbn in Hc. subst. cbn [find_cell List.find erase_loop]. exists hd. split; [|done].
    by rewrite (bind_Ret _ _ _ _ _ (get_next_run _ _ _ Hh)).
  - destruct Hc as (-> & Hnz & nx & Hn & Hc). cbn [erase_loop].
    rewrite (bind_Ret _ _ _ _ _ (get_next_run _ _ _ Hh)). rewrite (proj2 (Z.eqb_neq _ 0)) by done.
    rewrite (bind_Ret _ _ _ _ _ (get_node_run _ _ _ Hn)). cbn [key]. unfold find_cell. cbn [List.find].
    destruct (hash_equal (c_key c) k) eqn:E; [by exists [], l|].
    specialize (IH (Node (c_addr c)) nx fuel Hc ltac:(by eexists) ltac:(lia)).
    change (List.find _ l) with (find_cell k l).
    destruct (find_cell k l) as [d|].
    + destruct IH as (l1 & l2 & -> & Hno & Hrun & Hhd). exists (c :: l1), l2.
      split; [done|]. split; [by unfold find_cell; cbn [List.find]; rewrite E|].
      assert (Hlink : link_to hd (c :: l1) = link_to (Node (c_addr c)) l1).
      { unfold link_to. rewrite last_cons. by destruct (list.last l1). }
      by rewrite Hlink.
    + destruct IH as (hd' & Hrun & Hhd). by exists hd'.
Qed.

Definition erased (b : nat -> list cell) (i : nat) (l : list cell) : nat -> list cell :=
  fun j => if decide (j = i) then l else b j.

(** Taking a cell out of the middle of a chain. *)
Lemma chain_unlink ns p l1 d c l2 nx :
  chain ns p (l1 ++ d :: c :: l2) -> NoDup (c_addr <$> l1 ++ d :: c :: l2) ->
  ns !! c_addr c = Some (mkNode nx (c_key c) (c_val c)) ->
  chain (<[c_addr d := mkNode nx (c_key d) (c_val d)]> ns) p (l1 ++ d :: l2).
Proof.
  revert p. induction l1 as [|e l1 IH]; intros p Hc Hnd Hn; cbn [app] in *.
  - destruct Hc as (-> & Hz & nd & Hd & -> & Hz' & nx' & Hn' & Hc). simplify_eq.
    split; [done|]. split; [done|]. exists nx'. split; [apply lookup_insert_eq|].
    eapply chain_ext; [|exact Hc]. intros a Ha. apply lookup_insert_ne. intros <-.
    rewrite !fmap_cons, !list.NoDup_cons, elem_of_cons in Hnd. tauto.
  - destruct Hc as (-> & Hz & ne & He & Hc). rewrite fmap_cons, list.NoDup_cons in Hnd.
    destruct Hnd as [Hni Hnd]. split; [done|]. split; [done|]. exists ne. split; [|by apply IH].
    rewrite lookup_insert_ne; [done|]. intros Hed. apply Hni. rewrite <- Hed.
    apply list_elem_of_fmap_2. set_solver.
Qed.

(** The table after the cell [c] at [l1 ++ c :: l2] of chain [i] is gone. *)
Definition unlinked (t : hash_table K) (i : nat) (l1 : list cell) (c : cell) (nx : Z) : hash_table K :=
  match list.last l1 with
  | None => mkTable (<[i := nx]> (head t)) (delete (c_addr c) (nodes t))
  | Some d => mkTable (head t) (delete (c_addr c) (<[c_addr d := mkNode nx (c_key d) (c_val d)]> (nodes t)))
  end.

Lemma unlinked_chain t b i l1 c l2 nx p :
  represents t b -> b i = l1 ++ c :: l2 -> head t !! i = Some p -> chain (nodes t) p (b i) ->
  nodes t !! c_addr c = Some (mkNode nx (c_key c) (c_val c)) ->
  exists q, head (unlinked t i l1 c nx) !! i = Some q /\
            chain (nodes (unlinked t i l1 c nx)) q (l1 ++ l2).
Proof.
  intros Hr Hb Hp Hc Hn. pose proof (rep_nodup _ _ Hr i) as Hnd. rewrite Hb in Hc, Hnd.
  assert (Hnotin : c_addr c ∉ c_addr <$> l1 ++ l2).
  { rewrite fmap_app, fmap_cons in Hnd. apply list.NoDup_app in Hnd as (_ & Hd & Hnd).
    apply list.NoDup_cons in Hnd as [Hc2 _]. rewrite fmap_app, elem_of_app. intros [?|?]; [|done].
    eapply Hd; [done|left]. }
  unfold unlinked. destruct l1 as [|l1 d] using rev_ind.
  - exists nx. cbn. split.
    + apply list_lookup_insert_eq. by eapply lookup_lt_Some.
    + destruct Hc as (-> & _ & nx' & Hn' & Hc). simplify_eq. eapply chain_ext; [|exact Hc].
      intros a Ha. apply lookup_delete_ne. intros <-. done.
  - rewrite last_snoc. exists p. split; [done|]. cbn [nodes].
    rewrite <- app_assoc in Hc, Hnd. cbn [app] in Hc, Hnd.
    eapply chain_ext; [|rewrite <- app_assoc; exact (chain_unlink _ _ _ _ _ _ _ Hc Hnd Hn)].
    intros a Ha. apply lookup_delete_ne. intros <-. apply Hnotin. by rewrite <- app_assoc.
Qed.

Lemma erased_sub b i l1 c l2 j d :
  b i = l1 ++ c :: l2 -> d ∈ erased b i (l1 ++ l2) j -> d ∈ b j.
Proof.
  intros Hb. unfold erased. case_decide; subst; [|done]. rewrite Hb. set_solver.
Qed.

Lemma erased_addr b i l1 c l2 j a :
  b i = l1 ++ c :: l2 -> a ∈ c_addr <$> erased b i (l1 ++ l2) j -> a ∈ c_addr <$> b j.
Proof.
  intros Hb (d & -> & Hd)%list_elem_of_fmap. apply list_elem_of_fmap_2. by eapply erased_sub.
Qed.

Lemma last_in {A} (l : list A) x : list.last l = Some x -> x ∈ l.
Proof. rewrite last_Some. intros (l' & ->). set_solver. Qed.

Lemma unlinked_other t b i l1 c l2 nx j q :
  represents t b -> b i = l1 ++ c :: l2 -> j <> i -> head t !! j = Some q -> chain (nodes t) q (b j) ->
  head (unlinked t i l1 c nx) !! j = Some q /\ chain (nodes (unlinked t i l1 c nx)) q (b j).
Proof.
  intros Hr Hb Hji Hq Hc.
  assert (Hne : forall d a, d ∈ l1 ++ c :: l2 -> a ∈ c_addr <$> b j -> c_addr d <> a).
  { intros d a Hd Ha <-. apply Hji. eapply rep_disj; [done|done|]. rewrite Hb. by apply list_elem_of_fmap_2. }
  unfold unlinked. destruct (list.last l1) as [d|] eqn:El; cbn.
  - apply last_in in El. split; [done|]. eapply chain_ext; [|exact Hc]. intros a Ha.
    rewrite lookup_delete_ne by (apply Hne; set_solver). apply lookup_insert_ne, Hne; set_solver.
  - split; [by rewrite list_lookup_insert_ne|]. eapply chain_ext; [|exact Hc]. intros a Ha.
    apply lookup_delete_ne, Hne; set_solver.
Qed.

Lemma unlinked_rep t b i l1 c l2 nx :
  represents t b -> (i < HASH_TABLE_SIZE)%nat -> b i = l1 ++ c :: l2 ->
  nodes t !! c_addr c = Some (mkNode nx (c_key c) (c_val c)) ->
  represents (unlinked t i l1 c nx) (erased b i (l1 ++ l2)).
Proof.
  intros Hr Hi Hb Hn. split.
  - unfold unlinked. destruct (list.last l1); cbn; [apply Hr|]. rewrite length_insert. apply Hr.
  - intros j Hj. destruct (rep_chain _ _ Hr j Hj) as (q & Hq & Hc). unfold erased.
    case_decide as Hji; subst; [by eapply unlinked_chain|]. exists q. by eapply unlinked_other.
  - intros j Hj. unfold erased. rewrite decide_False by lia. by apply Hr.
  - intros j. unfold erased. case_decide; [|apply Hr]. pose proof (rep_nodup _ _ Hr i) as Hnd.
    rewrite Hb, fmap_app, fmap_cons in Hnd. rewrite fmap_app. apply list.NoDup_app in Hnd as (Hn1 & Hn2 & Hn3).
    apply list.NoDup_cons in Hn3 as [_ Hn3]. apply list.NoDup_app. split; [done|]. split; [|done].
    intros a Ha Ha'. eapply Hn2; [done|by right].
  - intros j1 j2 a H1 H2. eapply rep_disj; [done|by eapply erased_addr|by eapply erased_addr].
  - intros j d Hd. eapply rep_hash; [done|by eapply erased_sub].
  - intros j d Hd. eapply rep_value; [done|by eapply erased_sub].
Qed.

Lemma find_none k l : find_cell k l = None -> forall c, c ∈ l -> hash_equal (c_key c) k = false.
Proof. intros Hf c Hc. apply (List.find_none _ _ Hf). by apply list_elem_of_In. Qed.

Lemma find_app k l1 l2 : find_cell k (l1 ++ l2) =
  match find_cell k l1 with Some c => Some c | None => find_cell k l2 end.
Proof. unfold find_cell. induction l1 as [|c l1 IH]; [done|]. cbn. by destruct (hash_equal _ _). Qed.

Lemma hash_equal_cong j k c :
  hash_equal j k = true -> hash_equal c j = false -> hash_equal c k = false.
Proof.
  intros Hjk Hc. destruct (hash_equal c k) eqn:E; [|done].
  rewrite (hash_equal_trans c k j E (hash_equal_sym _ _ Hjk)) in Hc. done.
Qed.

Lemma find_absent k l : (forall c, c ∈ l -> hash_equal (c_key c) k = false) -> find_cell k l = None.
Proof.
  unfold find_cell. induction l as [|c l IH]; intros Hl; [done|]. cbn. rewrite Hl by left.
  apply IH. intros d Hd. apply Hl. by right.
Qed.

Lemma fop_app_inv {A} (R : A -> A -> Prop) l1 c l2 :
  ForallOrdPairs R (l1 ++ c :: l2) -> Forall (R c) l2 /\ ForallOrdPairs R (l1 ++ l2).
Proof.
  induction l1 as [|a l1 IH]; cbn; inversion 1 as [|? ? Ha Hl]; subst; [done|].
  apply IH in Hl as [Hl1 Hl2]. split; [done|]. constructor; [|done].
  rewrite Forall_app, list.Forall_cons in Ha. apply Forall_app. tauto.
Qed.

Lemma content_erased b k0 k l1 c l2 :
  b (Z.to_nat (hash_func k0)) = l1 ++ c :: l2 -> unique_keys b ->
  find_cell k0 l1 = None -> hash_equal (c_key c) k0 = true ->
  content (erased b (Z.to_nat (hash_func k0)) (l1 ++ l2)) k =
    if hash_equal k0 k then None else content b k.
Proof.
  intros Hb Hu Hno Hc. unfold content, erased. case_decide as Hi.
  - rewrite Hi, Hb, !find_app. destruct (hash_equal k0 k) eqn:E.
    + rewrite find_absent; [rewrite find_absent; [done|]|].
      * intros d Hd. pose proof (Hu (Z.to_nat (hash_func k0))) as Hp. rewrite Hb in Hp.
        apply fop_app_inv in Hp as [Hp _]. rewrite list.Forall_forall in Hp. specialize (Hp d Hd).
        apply (hash_equal_cong k0 k); [done|]. destruct (hash_equal (c_key d) k0) eqn:E2; [|done].
        by rewrite (hash_equal_trans _ _ _ Hc (hash_equal_sym _ _ E2)) in Hp.
      * intros d Hd. apply (hash_equal_cong k0 k); [done|]. by eapply find_none.
    + destruct (find_cell k l1); [done|]. unfold find_cell at 2. cbn [List.find].
      destruct (hash_equal (c_key c) k) eqn:E2; [|done].
      by rewrite (hash_equal_trans _ _ _ (hash_equal_sym _ _ Hc) E2) in E.
  - destruct (hash_equal k0 k) eqn:E; [|done]. apply hash_func_equal in E. by rewrite E in Hi.
Qed.

(** ** The operations on a table that represents chains *)

Section Run.
Context (s : hstate PS K) (b : nat -> list cell) (own : gset Z) (n : nat).
Context (Hok : hash_ok s b own n) (k : K).
Context (Hk : 0 <= hash_func k < Z.of_nat HASH_TABLE_SIZE).
Let i : nat := Z.to_nat (hash_func k).

Lemma index_ok : (i < HASH_TABLE_SIZE)%nat.
Proof. unfold i. lia. Qed.

Lemma put_run v m :
  v <> 0 -> n = S m ->
  exists s' b' p, default_put k v s = Ret (match content b k with Some _ => -1 | None => 0 end) s' /\
    hash_ok s' b' ({[p]} ∪ own) m /\
    forall j, content b' j = match content b k with
                             | Some _ => content b j
                             | None => if hash_equal k j then Some v else content b j
                             end.
Proof.
  intros Hv ->. pose proof index_ok as Hi.
  destruct (pg_alloc_some _ _ _ (ok_pages _ _ _ _ Hok)) as (p & ps & Ha & Hp0 & Hpo & Hps).
  destruct (bucket_at _ _ _ (ok_rep _ _ _ _ Hok) Hi) as (h & Hh & Hc & Hl).
  unfold default_put, on_pages, zoom, bind at 1. rewrite Ha.
  rewrite (bind_Ret _ _ _ _ _ (get_run (mkH ps (table s)) b k (ok_rep _ _ _ _ Hok) Hi)).
  destruct (content b k) as [old|] eqn:Eold; cbn [default].
  - pose proof (content_value _ _ _ _ (ok_rep _ _ _ _ Hok) Eold).
    change (id old) with old. rewrite (proj2 (Z.eqb_neq old 0)) by done. cbn [negb].
    exists (mkH ps (table s)), b, p. split; [done|]. split; [|done].
    destruct Hok as [_ Hr Hu Ho]. split; try done. intros j a Ha'. apply elem_of_union_r. eauto.
  - cbn [Z.eqb negb].
    set (c := (p, k, v) : cell).
    exists (mkH ps (mkTable (<[i := p]> (head (table s))) (<[p := mkNode h k v]> (nodes (table s))))),
      (pushed b i c), p.
    split.
    { rewrite (bind_Ret _ _ _ _ _ (get_next_run (mkH ps (table s)) (Head i) h Hh)).
      unfold put_node, bind. rewrite (proj2 (Z.eqb_neq p 0)) by done. done. }
    split; [|intros j; apply (content_pushed b c j)].
    destruct Hok as [_ Hr Hu Ho]. split; cbn [hpages table].
    + exact Hps.
    + refine (pushed_rep (table s) b i c h Hr Hi Hh _ Hp0 Hv eq_refl). intros j Hj. by apply Ho in Hj.
    + intros j. unfold pushed. case_decide; [|apply Hu]. constructor; [|apply Hu].
      rewrite list.Forall_forall. intros d Hd. unfold content in Eold.
      destruct (find_cell k (b (Z.to_nat (hash_func k)))) eqn:Ef; [done|].
      destruct (hash_equal (c_key c) (c_key d)) eqn:E; [|done].
      apply hash_equal_sym in E. change (hash_equal (c_key d) k = true) in E.
      by rewrite (find_none _ _ Ef d Hd) in E.
    + intros j a [[-> _]|Hin]%pushed_addr; [set_solver|]. apply elem_of_union_r. by eapply Ho.
Qed.

Lemma unlink_stores l1 c l2 nx h ps :
  head (table s) !! i = Some h -> chain (nodes (table s)) h (b i) -> b i = l1 ++ c :: l2 ->
  pg_free (c_addr c) (hpages s) = Ret tt ps ->
  (set_next (link_to (Head i) l1) nx ;;;
   on_pages (pg_free (c_addr c)) ;;;
   modify (fun s => set_table (mkTable (head (table s)) (delete (c_addr c) (nodes (table s)))) s) ;;;
   ret 0) s = Ret 0 (mkH ps (unlinked (table s) i l1 c nx)).
Proof.
  intros Hh Hc Hb Hf. unfold link_to, unlinked. destruct (list.last l1) as [d|] eqn:El.
  - apply last_in in El. assert (Hd : d ∈ b i) by (rewrite Hb; set_solver).
    destruct (chain_in _ _ _ _ Hc Hd) as (nd & Hnd).
    assert (Hz : c_addr d <> 0).
    { intros Hz. apply (pg_own_nonzero _ _ _ (ok_pages _ _ _ _ Hok)). rewrite <- Hz.
      eapply ok_own; [done|]. by apply list_elem_of_fmap_2. }
    unfold set_next, put_node, on_pages, zoom, bind. rewrite (get_node_run _ _ _ Hnd).
    rewrite (proj2 (Z.eqb_neq _ 0)) by done. cbn. by rewrite Hf.
  - unfold set_next, on_pages, zoom, bind. cbn. by rewrite Hf.
Qed.

Lemma erased_gone l1 c l2 j :
  represents (table s) b -> b i = l1 ++ c :: l2 -> c_addr c ∉ c_addr <$> erased b i (l1 ++ l2) j.
Proof.
  intros Hr Hb Hin. pose proof (rep_nodup _ _ Hr i) as Hnd.
  assert (Hji : j = i).
  { eapply rep_disj; [exact Hr|by eapply erased_addr|]. rewrite Hb. apply list_elem_of_fmap_2. set_solver. }
  subst j. unfold erased in Hin. rewrite decide_True in Hin by done.
  rewrite Hb, fmap_app, fmap_cons in Hnd. apply list.NoDup_app in Hnd as (_ & Hn1 & Hn2).
  apply list.NoDup_cons in Hn2 as [Hn2 _]. rewrite fmap_app, elem_of_app in Hin.
  destruct Hin as [Hin|Hin]; [|done]. eapply Hn1; [done|left].
Qed.

Lemma erase_run :
  exists s' b' own', default_erase k s = Ret (match content b k with Some _ => 0 | None => -1 end) s' /\
    hash_ok s' b' own' (match content b k with Some _ => S n | None => n end) /\
    (forall q, q ∈ own -> (forall j, q ∉ c_addr <$> b j) -> q ∈ own') /\
    (forall j a, a ∈ c_addr <$> b' j -> a ∈ c_addr <$> b j) /\
    forall j, content b' j = if hash_equal k j then None else content b j.
Proof.
  pose proof index_ok as Hi. destruct (bucket_at _ _ _ (ok_rep _ _ _ _ Hok) Hi) as (h & Hh & Hc & Hl).
  pose proof (erase_loop_run s (Head i) h (b i) k _ Hc Hh Hl) as Hrun.
  unfold default_erase, chain_bound. rewrite bind_assoc. unfold get, bind at 1. cbn [bind ret].
  unfold content at 1 2. fold i.
  destruct (find_cell k (b i)) as [c|] eqn:Ef; cbn [fmap option_fmap option_map].
  - destruct Hrun as (l1 & l2 & Hb & Hno & Hrun & Hhd).
    assert (Hcb : c ∈ b i) by (rewrite Hb; set_solver).
    assert (Hck : hash_equal (c_key c) k = true) by (by apply List.find_some in Ef as [_ ?]).
    destruct (chain_in _ _ _ _ Hc Hcb) as (nx & Hn).
    assert (Hz : c_addr c <> 0).
    { intros Hz. apply (pg_own_nonzero _ _ _ (ok_pages _ _ _ _ Hok)). rewrite <- Hz.
      eapply ok_own; [done|]. by apply list_elem_of_fmap_2. }
    destruct (pg_free_own _ _ _ (c_addr c) (ok_pages _ _ _ _ Hok)) as (ps & Hfree & Hps).
    { eapply ok_own; [done|]. by apply list_elem_of_fmap_2. }
    exists (mkH ps (unlinked (table s) i l1 c nx)), (erased b i (l1 ++ l2)), (own ∖ {[c_addr c]}).
    split; [|split; [|split; [|split]]].
    + rewrite (bind_Ret _ _ _ _ _ Hrun), (bind_Ret _ _ _ _ _ (get_next_run _ _ _ Hhd)).
      rewrite (proj2 (Z.eqb_neq _ 0)) by done. cbn [negb].
      rewrite (bind_Ret _ _ _ _ _ (get_node_run _ _ _ Hn)). cbn [next].
      by apply (unlink_stores l1 c l2 nx h).
    + destruct Hok as [_ Hr Hu Ho]. split; cbn [hpages table].
      * exact Hps.
      * by apply (unlinked_rep _ _ _ _ _ l2).
      * intros j. unfold erased. case_decide; [|apply Hu].
        pose proof (Hu i) as Hui. rewrite Hb in Hui. by apply fop_app_inv in Hui as [_ ?].
      * intros j a Ha. apply elem_of_difference. split; [eapply Ho; by eapply erased_addr|].
        intros ->%elem_of_singleton. eapply erased_gone; [exact Hr|exact Hb|exact Ha].
    + intros q Hq Hnq. apply elem_of_difference. split; [done|]. intros ->%elem_of_singleton.
      apply (Hnq i). by apply list_elem_of_fmap_2.
    + intros j a. by eapply erased_addr.
    + intros j. exact (content_erased b k j l1 c l2 Hb (ok_unique _ _ _ _ Hok) Hno Hck).
  - destruct Hrun as (hd & Hrun & Hhd). exists s, b, own.
    rewrite (bind_Ret _ _ _ _ _ Hrun), (bind_Ret _ _ _ _ _ (get_next_run _ _ _ Hhd)).
    split; [done|]. split; [done|]. split; [done|]. split; [done|]. intros j.
    destruct (hash_equal k j) eqn:E; [|done]. unfold content. rewrite <- (hash_func_equal _ _ E). fold i.
    rewrite find_absent; [done|]. intros c Hc'. apply (hash_equal_cong k j); [done|]. by eapply find_none.
Qed.

End Run.

(** C16: The hash table is a finite map.  On a table that represents the chains
    [b], [get] returns the value bound to the key (0 when there is none),
    [put] binds the key when it has no value and otherwise fails with -1 and
    changes nothing the map shows, and [erase] removes the binding, or fails
    with -1 when there is none; every other key keeps its value. *)
Theorem hash_table_is_map s b own n k v :
  hash_ok s b own (S n) -> 0 <= hash_func k < Z.of_nat HASH_TABLE_SIZE -> v <> 0 ->
  defalut_get k s = Ret (default 0 (content b k)) s /\
  (exists s' b' own', default_put k v s = Ret (match content b k with Some _ => -1 | None => 0 end) s' /\
     hash_ok s' b' own' n /\
     forall j, content b' j = match content b k with
                              | Some _ => content b j
                              | None => if hash_equal k j then Some v else content b j
                              end) /\
  (exists s' b' own' n', default_erase k s = Ret (match content b k with Some _ => 0 | None => -1 end) s' /\
     hash_ok s' b' own' n' /\
     forall j, content b' j = if hash_equal k j then None else content b j).
Proof.
  intros Hok Hk Hv. split; [|split].
  - apply get_run; [apply Hok|lia].
  - destruct (put_run _ _ _ _ Hok k Hk v n Hv eq_refl) as (s' & b' & p & H1 & H2 & H3). by exists s', b', ({[p]} ∪ own).
  - destruct (erase_run _ _ _ _ Hok k Hk) as (s' & b' & own' & H1 & H2 & _ & _ & H3). exists s', b', own'. eauto.
Qed.

(** An empty table, as [hash_table_init] leaves it. *)
Lemma init_represents ns : represents (mkTable (replicate HASH_TABLE_SIZE 0) ns) (fun _ => []).
Proof.
  split; cbn [head nodes]; try done.
  - intros i Hi. exists 0. split; [by apply lookup_replicate_2|done].
  - intros i. constructor.
  - by intros i j a ?%not_elem_of_nil.
  - by intros i c ?%not_elem_of_nil.
  - by intros i c ?%not_elem_of_nil.
Qed.

End HashTable.

(** Integers as keys, with the hash function of kernel/vfs.c on inode numbers. *)
#[local] Instance int_key : HashKey Z.
Proof.
  refine {| hash_equal := Z.eqb; hash_func := fun k => k mod 128 |}.
  - apply Z.eqb_refl.
  - intros j k. rewrite !Z.eqb_eq. congruence.
  - intros j k l. rewrite !Z.eqb_eq. congruence.
  - intros j k. rewrite !Z.eqb_eq. congruence.
Defined.

Definition empty_table : hstate (list Z) Z :=
  mkH [4096; 8192] (mkTable (replicate HASH_TABLE_SIZE 0) ∅).

Lemma empty_table_ok : hash_ok empty_table (fun _ => []) ∅ 2.
Proof.
  split.
  - repeat split; [repeat constructor; set_solver|set_solver..].
  - apply init_represents.
  - constructor.
  - by intros i a ?%not_elem_of_nil.
Qed.

Lemma hash_table_is_map_witness :
  defalut_get 130 empty_table = Ret 0 empty_table /\
  exists s' b', default_put 130 77 empty_table = Ret 0 s' /\ content b' 130 = Some 77 /\ content b' 2 = None.
Proof.
  destruct (hash_table_is_map empty_table (fun _ => []) ∅ 1 130 77) as (H1 & (s' & b' & own' & H2 & _ & H3) & _).
  - exact empty_table_ok.
  - split; [vm_compute; discriminate|vm_compute; reflexivity].
  - lia.
  - split; [exact H1|]. exists s', b'. split; [exact H2|].
    split; [rewrite H3; reflexivity|rewrite H3; reflexivity].
Defined.
