(* ===== verification/VfsData.v ===== *)
(** * Data of the file systems (kernel/vfs.h) and what every file system shares
      (the constructors and hash tables of kernel/vfs.c)

    A [struct dentry], [struct vinode], [struct super_block] or [struct device]
    lives in a page of its own; the state has a typed heap for each, indexed by
    the address of the page, so that aliasing is as in the code.  An object
    whose page is freed is gone: using it is a fault.  A C string is the list
    of its bytes.  Fields that the code leaves unset when it fills a new page
    are 0. *)
From S2P Require Import Prelude Pages HashTable CString.

Definition MAX_VFS_DEV : nat := 10.
Definition MAX_DENTRY_NAME_LEN : nat := 30.
Definition MAX_MOUNTS : nat := 10.
Definition MAX_PATH_LEN : nat := 30.
Definition MAX_SUPPORTED_FS : nat := 10.
Definition DIRECT_BLKNUM : nat := 10.
Definition FILE_I : Z := 0.
Definition DIR_I : Z := 1.
Definition O_RDONLY : Z := 0.
Definition O_WRONLY : Z := 1.
Definition O_RDWR : Z := 2.
Definition O_CREAT : Z := 64.
Definition MASK_FILEMODE : Z := 3.
Definition LSEEK_SET : Z := 0.
Definition LSEEK_CUR : Z := 1.
Definition MOUNT_DEFAULT : Z := 0.
Definition MOUNT_AS_ROOT : Z := 1.

(** Which file system an inode belongs to: the value of its [i_ops]. *)
Inductive fs_kind : Type := RFS | HOSTFS.
#[global] Instance fs_kind_eq_dec : EqDecision fs_kind.
Proof. solve_decision. Defined.

Record dentry : Type := mkDentry {
  d_name : list Z;
  d_ref : Z;
  dentry_inode : Z;
  d_parent : Z
}.

Record file : Type := mkFile {
  f_status : Z;
  readable : Z;
  writable : Z;
  f_offset : Z;
  f_dentry : Z
}.

Record device : Type := mkDevice { dev_name : list Z; dev_id : Z; dev_fs : fs_kind }.

(** [s_fs_info] is the page of the free map of rfs. *)
Record super_block : Type := mkSuper {
  sb_magic : Z;
  sb_size : Z;
  sb_nblocks : Z;
  sb_ninodes : Z;
  s_root : Z;
  s_dev : Z;
  s_fs_info : bmem
}.

Record vinode : Type := mkVinode {
  inum : Z;
  vref : Z;
  vsize : Z;
  vtype : Z;
  nlinks : Z;
  nblk : Z;
  addrs : list Z;
  i_fs_info : Z;
  vsb : Z;
  i_ops : fs_kind
}.

Definition set_d_ref (v : Z) (d : dentry) : dentry := mkDentry (d_name d) v (dentry_inode d) (d_parent d).
Definition set_d_inode (v : Z) (d : dentry) : dentry := mkDentry (d_name d) (d_ref d) v (d_parent d).
Definition set_d_place (n : list Z) (p : Z) (d : dentry) : dentry := mkDentry n (d_ref d) (dentry_inode d) p.
Definition set_f_offset (v : Z) (f : file) : file :=
  mkFile (f_status f) (readable f) (writable f) v (f_dentry f).
Definition set_f_status (v : Z) (f : file) : file :=
  mkFile v (readable f) (writable f) (f_offset f) (f_dentry f).
Definition set_s_root (v : Z) (s : super_block) : super_block :=
  mkSuper (sb_magic s) (sb_size s) (sb_nblocks s) (sb_ninodes s) v (s_dev s) (s_fs_info s).
Definition set_s_fs_info (v : bmem) (s : super_block) : super_block :=
  mkSuper (sb_magic s) (sb_size s) (sb_nblocks s) (sb_ninodes s) (s_root s) (s_dev s) v.
Definition set_inum (v : Z) (n : vinode) : vinode :=
  mkVinode v (vref n) (vsize n) (vtype n) (nlinks n) (nblk n) (addrs n) (i_fs_info n) (vsb n) (i_ops n).
Definition set_vref (v : Z) (n : vinode) : vinode :=
  mkVinode (inum n) v (vsize n) (vtype n) (nlinks n) (nblk n) (addrs n) (i_fs_info n) (vsb n) (i_ops n).
Definition set_vsize (v : Z) (n : vinode) : vinode :=
  mkVinode (inum n) (vref n) v (vtype n) (nlinks n) (nblk n) (addrs n) (i_fs_info n) (vsb n) (i_ops n).
Definition set_vtype (v : Z) (n : vinode) : vinode :=
  mkVinode (inum n) (vref n) (vsize n) v (nlinks n) (nblk n) (addrs n) (i_fs_info n) (vsb n) (i_ops n).
Definition set_nlinks (v : Z) (n : vinode) : vinode :=
  mkVinode (inum n) (vref n) (vsize n) (vtype n) v (nblk n) (addrs n) (i_fs_info n) (vsb n) (i_ops n).
Definition set_blocks (k : Z) (a : list Z) (n : vinode) : vinode :=
  mkVinode (inum n) (vref n) (vsize n) (vtype n) (nlinks n) k a (i_fs_info n) (vsb n) (i_ops n).
Definition set_i_fs_info (v : Z) (n : vinode) : vinode :=
  mkVinode (inum n) (vref n) (vsize n) (vtype n) (nlinks n) (nblk n) (addrs n) v (vsb n) (i_ops n).
Definition set_i_ops (v : fs_kind) (n : vinode) : vinode :=
  mkVinode (inum n) (vref n) (vsize n) (vtype n) (nlinks n) (nblk n) (addrs n) (i_fs_info n) (vsb n) v.

(** ** The keys of the two hash tables *)

Record dentry_key : Type := mkDKey { dk_parent : Z; dk_name : list Z }.
Record vinode_key : Type := mkVKey { vk_inum : Z; vk_sb : Z }.

Definition dentry_hash_equal (k1 k2 : dentry_key) : bool :=
  bool_decide (dk_name k1 = dk_name k2) && (dk_parent k1 =? dk_parent k2).

(** [hash = hash * 33 + c] over the bytes of the name, then the parent. *)
Definition hash_step (hash c : Z) : Z := u64 (u64 (u64 (Z.shiftl hash 5) + hash) + c).
Definition dentry_hash_func (k : dentry_key) : Z :=
  hash_step (fold_left hash_step (dk_name k) 5381) (dk_parent k) mod Z.of_nat HASH_TABLE_SIZE.

Definition vinode_hash_equal (k1 k2 : vinode_key) : bool :=
  (vk_inum k1 =? vk_inum k2) && (vk_sb k1 =? vk_sb k2).
Definition vinode_hash_func (k : vinode_key) : Z := u64 (Z.rem (vk_inum k) (Z.of_nat HASH_TABLE_SIZE)).

Lemma dentry_hash_equal_eq k1 k2 : dentry_hash_equal k1 k2 = true <-> k1 = k2.
Proof.
  destruct k1, k2. unfold dentry_hash_equal. cbn. rewrite andb_true_iff, bool_decide_eq_true, Z.eqb_eq.
  split; [by intros [-> ->]|by intros [= -> ->]].
Qed.

Lemma vinode_hash_equal_eq k1 k2 : vinode_hash_equal k1 k2 = true <-> k1 = k2.
Proof.
  destruct k1, k2. unfold vinode_hash_equal. cbn. rewrite andb_true_iff, !Z.eqb_eq.
  split; [by intros [-> ->]|by intros [= -> ->]].
Qed.

#[global] Instance dentry_hash_key : HashKey dentry_key.
Proof.
  refine {| hash_equal := dentry_hash_equal; hash_func := dentry_hash_func |};
    intros *; rewrite !dentry_hash_equal_eq; congruence.
Defined.
#[global] Instance vinode_hash_key : HashKey vinode_key.
Proof.
  refine {| hash_equal := vinode_hash_equal; hash_func := vinode_hash_func |};
    intros *; rewrite !vinode_hash_equal_eq; congruence.
Defined.

(** A RAM disk: its blocks, and the page through which they are read and written. *)
Record rfs_device : Type := mkRdev {
  d_address : Z;
  d_blocks : Z;
  d_blocksize : Z;
  iobuffer : bmem;
  disk : Z -> bmem
}.

(** The copy of a directory that [rfs_hook_opendir] keeps in memory. *)
Record rfs_dir_cache : Type := mkCache { block_count : Z; dir_base_addr : Z; dir_bytes : bmem }.

Record fstate (PS : Type) : Type := mkF {
  fpages : PS;
  rfs_device_list : list (option rfs_device);
  supers : gmap Z super_block;
  vinodes : gmap Z vinode;
  dentries : gmap Z dentry;
  dir_caches : gmap Z rfs_dir_cache;
  devices : gmap Z device;
  dentry_hash_table : hash_table dentry_key;
  vinode_hash_table : hash_table vinode_key;
  vfs_root_dentry : Z;
  vfs_sb_list : list Z;
  vfs_dev_list : list Z;
  fs_list : list (option fs_kind)
}.
Arguments mkF {PS}. Arguments fpages {PS}. Arguments rfs_device_list {PS}. Arguments supers {PS}.
Arguments vinodes {PS}. Arguments dentries {PS}. Arguments dir_caches {PS}. Arguments devices {PS}.
Arguments dentry_hash_table {PS}. Arguments vinode_hash_table {PS}. Arguments vfs_root_dentry {PS}.
Arguments vfs_sb_list {PS}. Arguments vfs_dev_list {PS}. Arguments fs_list {PS}.

Section State.
Context {PS : Type}.
Definition set_fpages (v : PS) (s : fstate PS) : fstate PS :=
  mkF v (rfs_device_list s) (supers s) (vinodes s) (dentries s) (dir_caches s) (devices s)
    (dentry_hash_table s) (vinode_hash_table s) (vfs_root_dentry s) (vfs_sb_list s)
    (vfs_dev_list s) (fs_list s).
Definition set_rfs_device_list (v : list (option rfs_device)) (s : fstate PS) : fstate PS :=
  mkF (fpages s) v (supers s) (vinodes s) (dentries s) (dir_caches s) (devices s)
    (dentry_hash_table s) (vinode_hash_table s) (vfs_root_dentry s) (vfs_sb_list s)
    (vfs_dev_list s) (fs_list s).
Definition set_supers (v : gmap Z super_block) (s : fstate PS) : fstate PS :=
  mkF (fpages s) (rfs_device_list s) v (vinodes s) (dentries s) (dir_caches s) (devices s)
    (dentry_hash_table s) (vinode_hash_table s) (vfs_root_dentry s) (vfs_sb_list s)
    (vfs_dev_list s) (fs_list s).
Definition set_vinodes (v : gmap Z vinode) (s : fstate PS) : fstate PS :=
  mkF (fpages s) (rfs_device_list s) (supers s) v (dentries s) (dir_caches s) (devices s)
    (dentry_hash_table s) (vinode_hash_table s) (vfs_root_dentry s) (vfs_sb_list s)
    (vfs_dev_list s) (fs_list s).
Definition set_dentries (v : gmap Z dentry) (s : fstate PS) : fstate PS :=
  mkF (fpages s) (rfs_device_list s) (supers s) (vinodes s) v (dir_caches s) (devices s)
    (dentry_hash_table s) (vinode_hash_table s) (vfs_root_dentry s) (vfs_sb_list s)
    (vfs_dev_list s) (fs_list s).
Definition set_dir_caches (v : gmap Z rfs_dir_cache) (s : fstate PS) : fstate PS :=
  mkF (fpages s) (rfs_device_list s) (supers s) (vinodes s) (dentries s) v (devices s)
    (dentry_hash_table s) (vinode_hash_table s) (vfs_root_dentry s) (vfs_sb_list s)
    (vfs_dev_list s) (fs_list s).
Definition set_devices (v : gmap Z device) (s : fstate PS) : fstate PS :=
  mkF (fpages s) (rfs_device_list s) (supers s) (vinodes s) (dentries s) (dir_caches s) v
    (dentry_hash_table s) (vinode_hash_table s) (vfs_root_dentry s) (vfs_sb_list s)
    (vfs_dev_list s) (fs_list s).
Definition set_dentry_hash_table (v : hash_table dentry_key) (s : fstate PS) : fstate PS :=
  mkF (fpages s) (rfs_device_list s) (supers s) (vinodes s) (dentries s) (dir_caches s) (devices
    s) v (vinode_hash_table s) (vfs_root_dentry s) (vfs_sb_list s) (vfs_dev_list s) (fs_list s).
Definition set_vinode_hash_table (v : hash_table vinode_key) (s : fstate PS) : fstate PS :=
  mkF (fpages s) (rfs_device_list s) (supers s) (vinodes s) (dentries s) (dir_caches s) (devices
    s) (dentry_hash_table s) v (vfs_root_dentry s) (vfs_sb_list s) (vfs_dev_list s) (fs_list s).
Definition set_vfs_root_dentry (v : Z) (s : fstate PS) : fstate PS :=
  mkF (fpages s) (rfs_device_list s) (supers s) (vinodes s) (dentries s) (dir_caches s) (devices
    s) (dentry_hash_table s) (vinode_hash_table s) v (vfs_sb_list s) (vfs_dev_list s) (fs_list
    s).
Definition set_vfs_sb_list (v : list Z) (s : fstate PS) : fstate PS :=
  mkF (fpages s) (rfs_device_list s) (supers s) (vinodes s) (dentries s) (dir_caches s) (devices
    s) (dentry_hash_table s) (vinode_hash_table s) (vfs_root_dentry s) v (vfs_dev_list s)
    (fs_list s).
Definition set_vfs_dev_list (v : list Z) (s : fstate PS) : fstate PS :=
  mkF (fpages s) (rfs_device_list s) (supers s) (vinodes s) (dentries s) (dir_caches s) (devices
    s) (dentry_hash_table s) (vinode_hash_table s) (vfs_root_dentry s) (vfs_sb_list s) v
    (fs_list s).
Definition set_fs_list (v : list (option fs_kind)) (s : fstate PS) : fstate PS :=
  mkF (fpages s) (rfs_device_list s) (supers s) (vinodes s) (dentries s) (dir_caches s) (devices
    s) (dentry_hash_table s) (vinode_hash_table s) (vfs_root_dentry s) (vfs_sb_list s)
    (vfs_dev_list s) v.
End State.

(** ** Accesses and constructors *)

Section Objects.
Context {PS : Type} `{PageSource PS}.
#[local] Notation FM := (M (fstate PS)).

Definition page_op {A} (c : M PS A) : FM A := zoom fpages set_fpages c.

(** A new page; the caller stores into it at once, which faults at address 0. *)
Definition new_page : FM Z :=
  let* p := page_op pg_alloc in
  check (p =? 0) (Fault 0) ;;;
  ret p.

(** Reading and writing an object of one of the heaps. *)
Definition obj {A} (heap : fstate PS -> gmap Z A) (p : Z) : FM A :=
  fun s => match heap s !! p with Some x => Ret x s | None => Stop (Fault p) s end.
Definition get_vinode : Z -> FM vinode := obj vinodes.
Definition get_dentry : Z -> FM dentry := obj dentries.
Definition get_super : Z -> FM super_block := obj supers.
Definition get_device : Z -> FM device := obj devices.
Definition put_vinode (p : Z) (x : vinode) : FM unit :=
  modify (fun s => set_vinodes (<[p := x]> (vinodes s)) s).
Definition put_dentry (p : Z) (x : dentry) : FM unit :=
  modify (fun s => set_dentries (<[p := x]> (dentries s)) s).
Definition put_super (p : Z) (x : super_block) : FM unit :=
  modify (fun s => set_supers (<[p := x]> (supers s)) s).
Definition upd_vinode (p : Z) (f : vinode -> vinode) : FM unit :=
  let* x := get_vinode p in put_vinode p (f x).
Definition upd_dentry (p : Z) (f : dentry -> dentry) : FM unit :=
  let* x := get_dentry p in put_dentry p (f x).

(** [free_page] of a page that holds an object. *)
Definition free_vinode (p : Z) : FM unit :=
  page_op (pg_free p) ;;; modify (fun s => set_vinodes (delete p (vinodes s)) s).
Definition free_dentry (p : Z) : FM unit :=
  page_op (pg_free p) ;;; modify (fun s => set_dentries (delete p (dentries s)) s).

(** [strcpy] into an array of [n] bytes. *)
Definition fits (n : nat) (str : list Z) : FM unit :=
  check (Nat.leb n (length str)) (UB "strcpy beyond the end of an array").

Definition alloc_vfs_file (file_dentry : Z) (rd wr : Z) : FM file :=
  let* p := new_page in
  upd_dentry file_dentry (fun d => set_d_ref (d_ref d + 1) d) ;;;
  ret (mkFile 1 rd wr 0 file_dentry).

Definition alloc_vfs_dentry (name : list Z) (inode parent : Z) : FM Z :=
  let* p := new_page in
  fits MAX_DENTRY_NAME_LEN name ;;;
  when (negb (inode =? 0)) (upd_vinode inode (fun n => set_vref (vref n + 1) n)) ;;;
  put_dentry p (mkDentry name 0 inode parent) ;;;
  ret p.

Definition free_vfs_dentry (p : Z) : FM Z :=
  let* d := get_dentry p in
  if 0 <? d_ref d then ret (-1) else free_dentry p ;;; ret 0.

(** [ops] is what the only two callers, [rfs_alloc_vinode] and
    [hostfs_alloc_vinode], store into [i_ops] next. *)
Definition default_alloc_vinode (sb : Z) (ops : fs_kind) : FM Z :=
  let* p := new_page in
  put_vinode p (mkVinode 0 0 0 0 0 0 (replicate DIRECT_BLKNUM 0) 0 sb ops) ;;;
  ret p.

(** ** The hash tables of directory entries and inodes *)

Definition on_dentries {A} (c : M (hstate PS dentry_key) A) : FM A :=
  zoom (fun s => mkH (fpages s) (dentry_hash_table s))
       (fun h s => set_dentry_hash_table (table h) (set_fpages (hpages h) s)) c.
Definition on_vinodes {A} (c : M (hstate PS vinode_key) A) : FM A :=
  zoom (fun s => mkH (fpages s) (vinode_hash_table s))
       (fun h s => set_vinode_hash_table (table h) (set_fpages (hpages h) s)) c.

Definition hash_get_dentry (parent : Z) (name : list Z) : FM Z :=
  on_dentries (defalut_get (mkDKey parent name)).

(** The key of a new entry has a page of its own, given back when the insertion fails. *)
Definition hash_put_dentry (p : Z) : FM Z :=
  let* key := new_page in
  let* d := get_dentry p in
  let* r := on_dentries (default_put (mkDKey (d_parent d) (d_name d)) p) in
  when (negb (r =? 0)) (page_op (pg_free key)) ;;;
  ret r.

Definition hash_erase_dentry (p : Z) : FM Z :=
  let* d := get_dentry p in
  on_dentries (default_erase (mkDKey (d_parent d) (d_name d))).

Definition hash_get_vinode (sb inum : Z) : FM Z :=
  if inum <? 0 then ret 0 else on_vinodes (defalut_get (mkVKey inum sb)).

Definition hash_put_vinode (p : Z) : FM Z :=
  let* n := get_vinode p in
  if inum n <? 0 then ret (-1) else
  let* key := new_page in
  let* r := on_vinodes (default_put (mkVKey (inum n) (vsb n)) p) in
  when (negb (r =? 0)) (page_op (pg_free key)) ;;;
  ret r.

Definition hash_erase_vinode (p : Z) : FM Z :=
  let* n := get_vinode p in
  if inum n <? 0 then ret (-1) else on_vinodes (default_erase (mkVKey (inum n) (vsb n))).

End Objects.
