(* ===== verification/Rfs.v ===== *)
(** * The RAM disk file system (kernel/ramdev.c, kernel/rfs.c)

    A disk is [RAMDISK_BLOCK_COUNT] blocks of bytes: the super block, ten
    blocks of inodes, the block of the free map and the data blocks.  All
    traffic goes through the one [iobuffer] of the device, as in the code. *)
From S2P Require Import Prelude Pages HashTable CString VfsData.

Definition RAMDISK_BLOCK_COUNT : Z := 128.
Definition MAX_RAMDISK_COUNT : nat := 10.
Definition RFS_TYPE : Z := 0.
Definition RFS_MAGIC : Z := 48815.
Definition RFS_BLKSIZE : Z := 4096.
Definition RFS_INODESIZE : Z := 128.
Definition RFS_MAX_INODE_BLKNUM : Z := 10.
Definition RFS_MAX_FILE_NAME_LEN : Z := 28.
Definition RFS_BLK_OFFSET_SUPER : Z := 0.
Definition RFS_BLK_OFFSET_INODE : Z := 1.
Definition RFS_BLK_OFFSET_BITMAP : Z := 11.
Definition RFS_BLK_OFFSET_FREE : Z := 12.
Definition R_FILE : Z := FILE_I.
Definition R_DIR : Z := DIR_I.
Definition R_FREE : Z := 2.
Definition INODES_PER_BLOCK : Z := RFS_BLKSIZE / RFS_INODESIZE.
Definition DIRENTRY_SIZE : Z := 32.
Definition DIRENTRIES_PER_BLOCK : Z := RFS_BLKSIZE / DIRENTRY_SIZE.

(** ** Structures in bytes *)

(** An [int] at offset [a]. *)
Definition ld_int (m : bmem) (a : Z) : Z := i32 (load_le 4 m a).
Definition st_int (m : bmem) (a v : Z) : bmem := store_le 4 m a v.

Fixpoint st_ints (m : bmem) (a : Z) (l : list Z) : bmem :=
  match l with [] => m | v :: l' => st_ints (st_int m a v) (a + 4) l' end.
Definition ld_ints (n : nat) (m : bmem) (a : Z) : list Z :=
  (fun i => ld_int m (a + 4 * Z.of_nat i)) <$> seq 0 n.

(** [n] bytes from offset [a], and storing a list of bytes. *)
Definition bytes_at (m : bmem) (a : Z) (n : nat) : list Z :=
  (fun i => m (a + Z.of_nat i)) <$> seq 0 n.
Fixpoint put_bytes (m : bmem) (a : Z) (l : list Z) : bmem :=
  match l with [] => m | c :: l' => put_bytes (upd m a c) (a + 1) l' end.

(** [strcmp(m + a, name) == 0] *)
Fixpoint str_at (m : bmem) (a : Z) (name : list Z) : bool :=
  match name with
  | [] => m a =? 0
  | c :: name' => (m a =? c) && str_at m (a + 1) name'
  end.

(** The bytes of a buffer before the first NUL: what [strcpy] copies of it. *)
Fixpoint until_nul (l : list Z) : list Z :=
  match l with [] => [] | c :: l' => if c =? 0 then [] else c :: until_nul l' end.

(** [struct rfs_dinode] *)
Record rfs_dinode : Type := mkDinode {
  di_size : Z;
  di_type : Z;
  di_nlinks : Z;
  di_blocks : Z;
  di_addrs : list Z
}.

Definition dinode_ints (d : rfs_dinode) : list Z :=
  di_size d :: di_type d :: di_nlinks d :: di_blocks d :: di_addrs d.
Definition ld_dinode (m : bmem) (a : Z) : rfs_dinode :=
  mkDinode (ld_int m a) (ld_int m (a + 4)) (ld_int m (a + 8)) (ld_int m (a + 12))
           (ld_ints DIRECT_BLKNUM m (a + 16)).
Definition st_dinode (m : bmem) (a : Z) (d : rfs_dinode) : bmem := st_ints m a (dinode_ints d).

Section Rfs.
Context {PS : Type} `{PageSource PS}.
#[local] Notation FM := (M (fstate PS)).

(** ** kernel/ramdev.c *)

Definition get_rdev (i : Z) : FM rfs_device :=
  fun s => match rfs_device_list s !! Z.to_nat i with
           | Some (Some r) => if i <? 0 then Stop (UB "rfs_device_list out of range") s else Ret r s
           | Some None => Stop (Fault 0) s
           | None => Stop (UB "rfs_device_list out of range") s
           end.
Definition put_rdev (i : Z) (r : rfs_device) : FM unit :=
  modify (fun s => set_rfs_device_list (<[Z.to_nat i := Some r]> (rfs_device_list s)) s).
Definition set_iobuffer (i : Z) (f : bmem -> bmem) : FM unit :=
  let* r := get_rdev i in
  put_rdev i (mkRdev (d_address r) (d_blocks r) (d_blocksize r) (f (iobuffer r)) (disk r)).
Definition get_iobuffer (i : Z) : FM bmem := let* r := get_rdev i in ret (iobuffer r).

Definition bad_block (blkno : Z) : bool := (blkno <? 0) || (RAMDISK_BLOCK_COUNT <=? blkno).

Definition ramdisk_write (i blkno : Z) : FM Z :=
  check (bad_block blkno) (Kill "ramdisk_write: write block out of range!" (-1)) ;;;
  let* r := get_rdev i in
  put_rdev i (mkRdev (d_address r) (d_blocks r) (d_blocksize r) (iobuffer r)
                     (fun b => if b =? blkno then iobuffer r else disk r b)) ;;;
  ret 0.

Definition ramdisk_read (i blkno : Z) : FM Z :=
  check (bad_block blkno) (Kill "ramdisk_read: read block No out of range!" (-1)) ;;;
  let* r := get_rdev i in
  put_rdev i (mkRdev (d_address r) (d_blocks r) (d_blocksize r) (disk r blkno) (disk r)) ;;;
  ret 0.

Definition rfs_r1block : Z -> Z -> FM Z := ramdisk_read.
Definition rfs_w1block : Z -> Z -> FM Z := ramdisk_write.

(** [rfs_device_list[sb->s_dev->dev_id]] *)
Definition rdev_of (sb : Z) : FM Z :=
  let* s := get_super sb in
  let* d := get_device (s_dev s) in
  ret (dev_id d).

(** ** Inodes on disk *)

Definition inode_block (n_inode : Z) : Z := Z.quot n_inode INODES_PER_BLOCK + RFS_BLK_OFFSET_INODE.
Definition inode_offset (n_inode : Z) : Z := Z.rem n_inode INODES_PER_BLOCK * RFS_INODESIZE.

(** The disk inode is copied to a page of its own, whose address is returned too. *)
Definition rfs_read_dinode (i n_inode : Z) : FM (Z * rfs_dinode) :=
  let* _ := ramdisk_read i (inode_block n_inode) in
  let* page := new_page in
  let* buf := get_iobuffer i in
  ret (page, ld_dinode buf (inode_offset n_inode)).

Definition rfs_write_dinode (i : Z) (d : rfs_dinode) (n_inode : Z) : FM Z :=
  let* _ := ramdisk_read i (inode_block n_inode) in
  set_iobuffer i (fun m => st_dinode m (inode_offset n_inode) d) ;;;
  ramdisk_write i (inode_block n_inode).

(** ** The free map *)

(** The scan of [rfs_alloc_block] for a zero entry, from [block]. *)
Fixpoint first_zero (n : nat) (freemap : bmem) (block : Z) : option Z :=
  match n with
  | O => None
  | S n' => if ld_int freemap (4 * block) =? 0 then Some block else first_zero n' freemap (block + 1)
  end.

Definition rfs_alloc_block (sb : Z) : FM Z :=
  let* s := get_super sb in
  check (1024 <? sb_nblocks s) (UB "freemap out of range") ;;;
  match first_zero (Z.to_nat (sb_nblocks s)) (s_fs_info s) 0 with
  | None => halt (Kill "rfs_alloc_block: no more free block!" (-1))
  | Some block =>
      put_super sb (set_s_fs_info (st_int (s_fs_info s) (4 * block) 1) s) ;;;
      ret (RFS_BLK_OFFSET_FREE + block)
  end.

Definition rfs_free_block (sb block_num : Z) : FM Z :=
  let* s := get_super sb in
  let b := block_num - RFS_BLK_OFFSET_FREE in
  check ((b <? 0) || (1024 <=? b)) (UB "freemap out of range") ;;;
  put_super sb (set_s_fs_info (st_int (s_fs_info s) (4 * b) 0) s) ;;;
  ret 0.

(** ** Inodes in memory *)

Definition dinode_of (n : vinode) : rfs_dinode :=
  mkDinode (vsize n) (vtype n) (nlinks n) (nblk n) (addrs n).
Definition of_dinode (d : rfs_dinode) (n : vinode) : vinode :=
  mkVinode (inum n) (vref n) (di_size d) (di_type d) (di_nlinks d) (di_blocks d) (di_addrs d)
           (i_fs_info n) (vsb n) (i_ops n).

Definition rfs_alloc_vinode (sb : Z) : FM Z := default_alloc_vinode sb RFS.

Definition rfs_write_back_vinode (p : Z) : FM Z :=
  let* n := get_vinode p in
  let* i := rdev_of (vsb n) in
  let* r := rfs_write_dinode i (dinode_of n) (inum n) in
  ret (if r =? 0 then 0 else -1).

Definition rfs_update_vinode (p : Z) : FM Z :=
  let* n := get_vinode p in
  let* i := rdev_of (vsb n) in
  let* '(page, d) := rfs_read_dinode i (inum n) in
  upd_vinode p (of_dinode d) ;;;
  page_op (pg_free page) ;;;
  ret 0.

(** [addrs[k]] of an inode. *)
Definition addr_of (n : vinode) (k : Z) : FM Z :=
  match addrs n !! Z.to_nat k with
  | Some a => if k <? 0 then halt (UB "addrs out of range") else ret a
  | None => halt (UB "addrs out of range")
  end.

Definition rfs_add_direntry (dir : Z) (name : list Z) (ino : Z) : FM Z :=
  let* n := get_vinode dir in
  if negb (vtype n =? DIR_I) then ret (-1) else
  let* i := rdev_of (vsb n) in
  let* n_block := addr_of n (Z.quot (vsize n) RFS_BLKSIZE) in
  let* _ := rfs_r1block i n_block in
  let a := Z.rem (vsize n) RFS_BLKSIZE in
  check (RFS_BLKSIZE <? a + 4 + Z.of_nat (length name) + 1) (UB "strcpy beyond the iobuffer") ;;;
  set_iobuffer i (fun m => put_bytes (st_int m a ino) (a + 4) (name ++ [0])) ;;;
  let* _ := rfs_w1block i n_block in
  upd_vinode dir (fun n => set_vsize (vsize n + DIRENTRY_SIZE) n) ;;;
  let* r := rfs_write_back_vinode dir in
  ret (if r =? 0 then 0 else -1).

(** ** Files *)

(** Whole blocks from [block_offset] on, appended to what was read. *)
Fixpoint read_blocks (times : nat) (i : Z) (n : vinode) (block_offset : Z) (buf : list Z) : FM (list Z) :=
  match times with
  | O => ret buf
  | S t =>
      let* b := addr_of n block_offset in
      let* _ := rfs_r1block i b in
      let* io := get_iobuffer i in
      read_blocks t i n (block_offset + 1) (buf ++ bytes_at io 0 4096)
  end.

(** The result is the length, the bytes stored into [r_buf] (a string with its
    NUL), and the new offset. *)
Definition rfs_read (p : Z) (len offset : Z) : FM (Z * list Z * Z) :=
  let* n := get_vinode p in
  check (vsize n <? offset) (Kill "rfs_read:offset should less than file size!" (-1)) ;;;
  let len := if vsize n <? offset + len then vsize n - offset else len in
  check ((len <? 0) || (offset <? 0)) (UB "char buffer[len + 1]") ;;;
  let align := Z.rem offset RFS_BLKSIZE in
  let block_offset := Z.quot offset RFS_BLKSIZE in
  let readtimes := Z.quot (align + len) RFS_BLKSIZE in
  let remain := Z.rem (align + len) RFS_BLKSIZE in
  let* i := rdev_of (vsb n) in
  let* b := addr_of n block_offset in
  let* _ := rfs_r1block i b in
  let* io := get_iobuffer i in
  let first_block_len := if readtimes =? 0 then len else RFS_BLKSIZE - align in
  let buf := bytes_at io align (Z.to_nat first_block_len) in
  let* buf :=
    if 0 <=? readtimes - 1 then
      let* buf := read_blocks (Z.to_nat (readtimes - 1)) i n (block_offset + 1) buf in
      if 0 <? remain then
        let* b := addr_of n (block_offset + readtimes) in
        let* _ := rfs_r1block i b in
        let* io := get_iobuffer i in
        ret (buf ++ bytes_at io 0 (Z.to_nat remain))
      else ret buf
    else ret buf in
  ret (len, until_nul buf ++ [0], offset + len).

(** The test for a new block and its allocation. *)
Definition extend_file (p : Z) (block_offset : Z) : FM unit :=
  let* n := get_vinode p in
  when (block_offset =? nblk n)
    (check (Z.of_nat DIRECT_BLKNUM <=? block_offset) (UB "addrs out of range") ;;;
     let* b := rfs_alloc_block (vsb n) in
     put_vinode p (set_blocks (nblk n + 1) (<[Z.to_nat block_offset := b]> (addrs n)) n)).

(** Put [l] at the front of the iobuffer and write it to block [block_offset]
    of the file. *)
Definition write_block (p i : Z) (block_offset : Z) (l : list Z) : FM unit :=
  extend_file p block_offset ;;;
  set_iobuffer i (fun m => put_bytes m 0 l) ;;;
  let* n := get_vinode p in
  let* b := addr_of n block_offset in
  let* _ := rfs_w1block i b in
  ret tt.

Fixpoint write_blocks (times : nat) (p i : Z) (block_offset : Z) (w_buf : list Z) : FM unit :=
  match times with
  | O => ret tt
  | S t =>
      write_block p i block_offset (take 4096 w_buf) ;;;
      write_blocks t p i (block_offset + 1) (drop 4096 w_buf)
  end.

(** [w_buf] holds the [len] bytes to be written. *)
Definition rfs_write (p : Z) (w_buf : list Z) (offset : Z) : FM (Z * Z) :=
  let len := Z.of_nat (length w_buf) in
  let* n := get_vinode p in
  check (vsize n <? offset) (Kill "rfs_write:offset should less than file size!" (-1)) ;;;
  check (offset <? 0) (UB "addrs out of range") ;;;
  let align := Z.rem offset RFS_BLKSIZE in
  let writetimes := Z.quot (len + align) RFS_BLKSIZE in
  let remain := Z.rem (len + align) RFS_BLKSIZE in
  let block_offset := Z.quot offset RFS_BLKSIZE in
  let* i := rdev_of (vsb n) in
  let* '(block_offset, writetimes, w_buf) :=
    if negb (align =? 0) then
      let* b := addr_of n block_offset in
      let* _ := rfs_r1block i b in
      let first_block_len := if writetimes =? 0 then len else RFS_BLKSIZE - align in
      set_iobuffer i (fun m => put_bytes m align (take (Z.to_nat first_block_len) w_buf)) ;;;
      let* _ := rfs_w1block i b in
      ret (block_offset + 1, writetimes - 1, drop (Z.to_nat first_block_len) w_buf)
    else ret (block_offset, writetimes, w_buf) in
  when (0 <=? writetimes)
    (write_blocks (Z.to_nat writetimes) p i block_offset w_buf ;;;
     when (0 <? remain)
       (write_block p i (block_offset + writetimes)
          (take (Z.to_nat remain) (drop (Z.to_nat (4096 * writetimes)) w_buf)))) ;;;
  upd_vinode p (fun n => set_vsize (if vsize n <? offset + len then offset + len else vsize n) n) ;;;
  ret (len, offset + len).

Definition rfs_lseek (p : Z) (new_offset whence offset : Z) : FM (Z * Z) :=
  let* n := get_vinode p in
  if whence =? LSEEK_SET then
    if (new_offset <? 0) || (vsize n <? new_offset) then ret (-1, offset) else ret (0, new_offset)
  else if whence =? LSEEK_CUR then
    if (offset + new_offset <? 0) || (vsize n <? offset + new_offset) then ret (-1, offset)
    else ret (0, offset + new_offset)
  else ret (-1, offset).

(** ** Directories *)

(** The entry with this name among [n] entries from index [i] on: its index and
    inode number.  A block is read in at its first entry. *)
Fixpoint find_direntry (fuel : nat) (dv : Z) (n : vinode) (name : list Z) (i total : Z) : FM (option (Z * Z)) :=
  match fuel with
  | O => ret None
  | S f =>
      if total <=? i then ret None else
      let k := Z.rem i DIRENTRIES_PER_BLOCK in
      (if k =? 0 then
         let* b := addr_of n (Z.quot i DIRENTRIES_PER_BLOCK) in
         let* _ := rfs_r1block dv b in ret tt
       else ret tt) ;;;
      let* io := get_iobuffer dv in
      if str_at io (DIRENTRY_SIZE * k + 4) name then ret (Some (i, ld_int io (DIRENTRY_SIZE * k)))
      else find_direntry f dv n name (i + 1) total
  end.

Definition rfs_lookup (parent : Z) (name : list Z) : FM Z :=
  let* n := get_vinode parent in
  let total := vsize n / DIRENTRY_SIZE in
  let* dv := rdev_of (vsb n) in
  let* o := find_direntry (Z.to_nat total) dv n name 0 total in
  match o with
  | None => ret 0
  | Some (_, ino) =>
      let* c := rfs_alloc_vinode (vsb n) in
      upd_vinode c (set_inum ino) ;;;
      let* _ := rfs_update_vinode c in
      ret c
  end.

(** The scan for a free disk inode.  When there is none the last inode read,
    whose page is already given back, is used with number 0. *)
Fixpoint find_free_inode (fuel : nat) (dv : Z) (i : Z) (last : Z * rfs_dinode) : FM (Z * rfs_dinode * Z) :=
  match fuel with
  | O => ret (last, 0)
  | S f =>
      let* pd := rfs_read_dinode dv i in
      if di_type (snd pd) =? R_FREE then ret (pd, i)
      else page_op (pg_free (fst pd)) ;;; find_free_inode f dv (i + 1) pd
  end.

Definition MAX_INODES : Z := INODES_PER_BLOCK * RFS_MAX_INODE_BLKNUM.

(** What [rfs_create] and [rfs_mkdir] share: a disk inode of the given type and
    block count, with a data block. *)
Definition new_dinode (msg : string) (parent type nblocks : Z) : FM Z :=
  let* n := get_vinode parent in
  let* dv := rdev_of (vsb n) in
  let* '(page, d, ino) := find_free_inode (Z.to_nat MAX_INODES) dv 0 (0, mkDinode 0 0 0 0 []) in
  check (page =? 0) (Kill msg (-1)) ;;;
  let* b := rfs_alloc_block (vsb n) in
  let* _ := rfs_write_dinode dv (mkDinode 0 type 1 nblocks (<[0%nat := b]> (di_addrs d))) ino in
  page_op (pg_free page) ;;;
  ret ino.

Definition new_vinode (sb ino : Z) : FM Z :=
  let* c := rfs_alloc_vinode sb in
  upd_vinode c (set_inum ino) ;;;
  let* _ := rfs_update_vinode c in
  ret c.

Definition rfs_create (parent : Z) (name : list Z) : FM Z :=
  let* n := get_vinode parent in
  let* ino := new_dinode "rfs_create: no more free disk inode, we cannot create file." parent R_FILE 0 in
  let* c := new_vinode (vsb n) ino in
  let* r := rfs_add_direntry parent name ino in
  ret (if r =? -1 then 0 else c).

Definition rfs_mkdir (parent : Z) (name : list Z) : FM Z :=
  let* n := get_vinode parent in
  let* ino := new_dinode "rfs_mkdir: no more free disk inode, we cannot create directory." parent R_DIR 1 in
  let* r := rfs_add_direntry parent name ino in
  if r =? -1 then ret 0 else new_vinode (vsb n) ino.

(** [struct istat] *)
Record istat : Type := mkStat { st_inum : Z; st_size : Z; st_type : Z; st_nlinks : Z; st_blocks : Z }.

Definition rfs_disk_stat (p : Z) : FM (Z * istat) :=
  let* n := get_vinode p in
  let* i := rdev_of (vsb n) in
  let* '(page, d) := rfs_read_dinode i (inum n) in
  page_op (pg_free page) ;;;
  ret (0, mkStat (inum n) (di_size d) (di_type d) (di_nlinks d) (di_blocks d)).

Definition rfs_link (parent : Z) (name : list Z) (link_node : Z) : FM Z :=
  upd_vinode link_node (fun n => set_nlinks (nlinks n + 1) n) ;;;
  let* n := get_vinode link_node in
  let* _ := rfs_add_direntry parent name (inum n) in
  let* _ := rfs_write_back_vinode link_node in
  ret 0.

Fixpoint free_blocks (sb : Z) (l : list Z) : FM unit :=
  match l with [] => ret tt | b :: l' => let* _ := rfs_free_block sb b in free_blocks sb l' end.

(** Shifting the entries of the blocks after the one that lost an entry: the
    first entry of each moves to the end of the block before. *)
Fixpoint shift_blocks (fuel : nat) (dv : Z) (n : vinode) (i : Z) (prev : Z * bmem) : FM (Z * bmem) :=
  match fuel with
  | O => ret prev
  | S f =>
      let* b := addr_of n i in
      let* _ := rfs_r1block dv b in
      let* page := new_page in
      let* io := get_iobuffer dv in
      let prev_block := put_bytes (snd prev) (DIRENTRY_SIZE * (DIRENTRIES_PER_BLOCK - 1))
                          (bytes_at io 0 32) in
      let this_block := memmove io 0 DIRENTRY_SIZE (DIRENTRY_SIZE * (DIRENTRIES_PER_BLOCK - 1)) in
      set_iobuffer dv (fun _ => prev_block) ;;;
      let* a := addr_of n (i - 1) in
      let* _ := rfs_w1block dv a in
      page_op (pg_free (fst prev)) ;;;
      shift_blocks f dv n (i + 1) (page, this_block)
  end.

(** The directory entry at [index] is taken out of the directory file. *)
Definition remove_direntry (parent dv : Z) (n : vinode) (index : Z) : FM unit :=
  let blk := Z.quot index DIRENTRIES_PER_BLOCK in
  let off := Z.rem index DIRENTRIES_PER_BLOCK in
  let* b := addr_of n blk in
  let* _ := rfs_r1block dv b in
  set_iobuffer dv (fun m => memmove m (DIRENTRY_SIZE * off) (DIRENTRY_SIZE * (off + 1))
                                    (DIRENTRY_SIZE * (DIRENTRIES_PER_BLOCK - off - 1))) ;;;
  let* page := new_page in
  let* io := get_iobuffer dv in
  let* '(page, last) := shift_blocks (Z.to_nat (nblk n - (blk + 1))) dv n (blk + 1) (page, io) in
  set_iobuffer dv (fun _ => last) ;;;
  let* a := addr_of n (nblk n - 1) in
  let* _ := rfs_w1block dv a in
  page_op (pg_free page).

Definition rfs_unlink (parent : Z) (name : list Z) (unlink_vinode : Z) : FM Z :=
  let* n := get_vinode parent in
  let* dv := rdev_of (vsb n) in
  let total := vsize n / DIRENTRY_SIZE in
  check (total <=? 0) (Fault 0) ;;;
  let* o := find_direntry (Z.to_nat total) dv n name 0 total in
  match o with
  | None => ret (-1)
  | Some (index, ino) =>
      let* '(page, d) := rfs_read_dinode dv ino in
      let* u := get_vinode unlink_vinode in
      check (negb (nlinks u =? di_nlinks d)) (Panic "assert(unlink_vinode->nlinks == unlink_dinode->nlinks)") ;;;
      put_vinode unlink_vinode (set_nlinks (nlinks u - 1) u) ;;;
      let dead := nlinks u - 1 =? 0 in
      when dead (check (Z.of_nat DIRECT_BLKNUM <? di_blocks d) (UB "addrs out of range") ;;;
                 free_blocks (vsb n) (take (Z.to_nat (di_blocks d)) (di_addrs d))) ;;;
      let* _ := rfs_write_dinode dv (mkDinode (di_size d) (if dead then R_FREE else di_type d)
                                       (nlinks u - 1) (di_blocks d) (di_addrs d)) ino in
      page_op (pg_free page) ;;;
      remove_direntry parent dv n index ;;;
      (if (Z.rem (total - 1) DIRENTRIES_PER_BLOCK =? 0) && (1 <? nblk n) then
         let* a := addr_of n (nblk n - 1) in
         let* _ := rfs_free_block (vsb n) a in
         upd_vinode parent (fun n => set_blocks (nblk n - 1) (addrs n) n)
       else ret tt) ;;;
      upd_vinode parent (fun n => set_vsize (vsize n - DIRENTRY_SIZE) n) ;;;
      let* r := rfs_write_back_vinode parent in
      ret (if r =? 0 then 0 else -1)
  end.

(** ** Reading directories *)

(** The blocks from [i] down to 0 are read into pages that follow each other in
    memory; [pdire] is the page taken last. *)
Fixpoint cache_blocks (k : nat) (dv : Z) (n : vinode) (pdire : Z) (bytes : bmem) : FM (Z * bmem) :=
  match k with
  | O => ret (pdire, bytes)
  | S i =>
      let* page := new_page in
      check (negb (pdire =? 0) && negb (pdire - page =? RFS_BLKSIZE))
            (Kill "rfs_hook_opendir: memory discontinuity" (-1)) ;;;
      let* b := addr_of n (Z.of_nat i) in
      let* _ := rfs_r1block dv b in
      let* io := get_iobuffer dv in
      cache_blocks i dv n page
        (fun a => if (RFS_BLKSIZE * Z.of_nat i <=? a) && (a <? RFS_BLKSIZE * (Z.of_nat i + 1))
                  then io (a - RFS_BLKSIZE * Z.of_nat i) else bytes a)
  end.

Definition rfs_hook_opendir (p : Z) : FM Z :=
  let* n := get_vinode p in
  let* dv := rdev_of (vsb n) in
  let* '(pdire, bytes) := cache_blocks (Z.to_nat (nblk n)) dv n 0 (fun _ => 0) in
  let* c := new_page in
  modify (fun s => set_dir_caches (<[c := mkCache (nblk n) pdire bytes]> (dir_caches s)) s) ;;;
  upd_vinode p (set_i_fs_info c) ;;;
  ret 0.

Fixpoint free_range (k : nat) (base : Z) : FM unit :=
  match k with O => ret tt | S k' => page_op (pg_free base) ;;; free_range k' (base + RFS_BLKSIZE) end.

Definition rfs_hook_closedir (p : Z) : FM Z :=
  let* n := get_vinode p in
  let* c := obj dir_caches (i_fs_info n) in
  free_range (Z.to_nat (block_count c)) (dir_base_addr c) ;;;
  ret 0.

(** [struct dir]: the result is the bytes stored into [dir->name], and [dir->inum]. *)
Definition rfs_readdir (p : Z) (offset : Z) : FM (Z * option (list Z * Z) * Z) :=
  let* n := get_vinode p in
  let total := vsize n / DIRENTRY_SIZE in
  if total <=? offset then ret (-1, None, offset) else
  let* c := obj dir_caches (i_fs_info n) in
  let a := DIRENTRY_SIZE * offset in
  ret (0, Some (bytes_at (dir_bytes c) (a + 4) (Z.to_nat (RFS_MAX_FILE_NAME_LEN + 1)), ld_int (dir_bytes c) a),
       offset + 1).

(** ** Devices and mounting *)

Fixpoint first_empty {A} (empty : A -> bool) (l : list A) (i : nat) : option nat :=
  match l with [] => None | x :: l' => if empty x then Some i else first_empty empty l' (S i) end.
Definition is_none {A} (o : option A) : bool := match o with None => true | Some _ => false end.

Definition register_rfs : FM Z :=
  let* _ := new_page in
  let* s := get in
  match first_empty is_none (fs_list s) 0 with
  | Some i => modify (fun s => set_fs_list (<[i := Some RFS]> (fs_list s)) s) ;;; ret 0
  | None => ret (-1)
  end.

(** [RAMDISK_BLOCK_COUNT] pages that follow each other in memory. *)
Fixpoint alloc_ramdisk (k : nat) (curr : Z) : FM Z :=
  match k with
  | O => ret curr
  | S k' =>
      let* p := page_op pg_alloc in
      check (negb (curr =? 0) && negb (curr - p =? PGSIZE)) (Kill "RAM Disk0: address is discontinuous!" (-1)) ;;;
      alloc_ramdisk k' p
  end.

(** [garbage] is what the pages of the disk and of the iobuffer hold. *)
Definition init_rfs_device (garbage : Z -> bmem) (name : list Z) : FM Z :=
  let* s := get in
  check (negb (existsb (fun o => bool_decide (o = Some RFS)) (fs_list s)))
        (Kill "No RFS file system found!" 1) ;;;
  let* base := alloc_ramdisk (Z.to_nat RAMDISK_BLOCK_COUNT) 0 in
  let* s := get in
  match first_empty is_none (rfs_device_list s) 0 with
  | None => halt (Kill "RAM Disk0: no free device!" (-1))
  | Some id =>
      let* _ := new_page in
      let* buf := page_op pg_alloc in
      put_rdev (Z.of_nat id) (mkRdev base RAMDISK_BLOCK_COUNT RFS_BLKSIZE (garbage (-1)) garbage) ;;;
      let* dev := new_page in
      fits 30 name ;;;
      modify (fun s => set_devices (<[dev := mkDevice name (Z.of_nat id) RFS]> (devices s)) s) ;;;
      let* s := get in
      match first_empty (Z.eqb 0) (vfs_dev_list s) 0 with
      | Some i => modify (fun s => set_vfs_dev_list (<[i := dev]> (vfs_dev_list s)) s)
      | None => ret tt
      end ;;;
      ret dev
  end.

(** An empty disk inode at each of the [k] places from offset [a] on. *)
Fixpoint format_inodes (k : nat) (m : bmem) (a : Z) : bmem :=
  match k with O => m | S k' => format_inodes k' (st_ints m a [0; R_FREE; 0; 0]) (a + RFS_INODESIZE) end.

Fixpoint write_inode_blocks (k : nat) (i b : Z) : FM unit :=
  match k with O => ret tt | S k' => let* _ := rfs_w1block i b in write_inode_blocks k' i (b + 1) end.

(** [stale] is what the stack holds at [root_dinode.addrs[1]] and after. *)
Definition rfs_format_dev (stale : list Z) (dev : Z) : FM Z :=
  let* d := get_device dev in
  let i := dev_id d in
  set_iobuffer i (fun m => st_ints m 0
    [RFS_MAGIC; 1 + RFS_MAX_INODE_BLKNUM + 1 + RFS_MAX_INODE_BLKNUM * Z.of_nat DIRECT_BLKNUM;
     RFS_MAX_INODE_BLKNUM * Z.of_nat DIRECT_BLKNUM; INODES_PER_BLOCK * RFS_MAX_INODE_BLKNUM]) ;;;
  let* _ := rfs_w1block i RFS_BLK_OFFSET_SUPER in
  set_iobuffer i (fun m => format_inodes (Z.to_nat INODES_PER_BLOCK) m 0) ;;;
  write_inode_blocks (Z.to_nat RFS_MAX_INODE_BLKNUM) i RFS_BLK_OFFSET_INODE ;;;
  let* _ := rfs_write_dinode i (mkDinode 0 R_DIR 1 1 (RFS_BLK_OFFSET_FREE :: stale)) 0 in
  set_iobuffer i (fun m => st_int (memset m 0 0 RFS_BLKSIZE) 0 1) ;;;
  let* _ := rfs_w1block i RFS_BLK_OFFSET_BITMAP in
  ret 0.

Definition slash : list Z := [47].

Definition rfs_get_superblock (dev : Z) : FM Z :=
  let* d := get_device dev in
  let i := dev_id d in
  let* _ := rfs_r1block i RFS_BLK_OFFSET_SUPER in
  let* io := get_iobuffer i in
  let* sb := new_page in
  put_super sb (mkSuper (ld_int io 0) (ld_int io 4) (ld_int io 8) (ld_int io 12) 0 dev (fun _ => 0)) ;;;
  check (negb (ld_int io 0 =? RFS_MAGIC)) (Kill "rfs_get_superblock: wrong ramdisk device!" (-1)) ;;;
  let* root_inode := new_vinode sb 0 in
  let* root_dentry := alloc_vfs_dentry slash root_inode 0 in
  let* s := get_super sb in
  put_super sb (set_s_root root_dentry s) ;;;
  let* _ := rfs_r1block i RFS_BLK_OFFSET_BITMAP in
  let* _ := new_page in
  let* io := get_iobuffer i in
  let* s := get_super sb in
  put_super sb (set_s_fs_info io s) ;;;
  ret sb.

End Rfs.
