(* ===== verification/RfsDisk.v ===== *)
(** * What the RAM disk stores: inodes and the free map

    Integers and inodes written to a block are read back; inodes do not
    disturb each other; the free map hands out each block once. *)
From S2P Require Import Prelude Pages HashTable CString VfsData Rfs.

(** ** Bytes *)

Lemma ld_st_int_eq m a v : ld_int (st_int m a v) a = i32 v.
Proof.
  unfold ld_int, st_int. rewrite load_store_le. change (256 ^ Z.of_nat 4) with 4294967296.
  unfold i32. by rewrite Z.mod_mod by lia.
Qed.

Lemma ld_int_ext m m' a : (forall x, a <= x < a + 4 -> m' x = m x) -> ld_int m' a = ld_int m a.
Proof. intros He. unfold ld_int. by rewrite (load_le_ext 4 m m' a) by (cbn; intros; apply He; lia). Qed.

Lemma st_int_out m a v x : x < a \/ a + 4 <= x -> st_int m a v x = m x.
Proof. apply (store_le_out 4). Qed.

Lemma ld_st_int_ne m a b v : b + 4 <= a \/ a + 4 <= b -> ld_int (st_int m a v) b = ld_int m b.
Proof. intros Hd. apply ld_int_ext. intros x Hx. apply st_int_out. lia. Qed.

Lemma st_ints_out m a l x :
  x < a \/ a + 4 * Z.of_nat (length l) <= x -> st_ints m a l x = m x.
Proof.
  revert m a. induction l as [|v l IH]; intros m a Hx; cbn [st_ints length] in *; [done|].
  rewrite IH by lia. apply st_int_out. lia.
Qed.

Lemma ld_st_ints m a l k v :
  l !! k = Some v -> ld_int (st_ints m a l) (a + 4 * Z.of_nat k) = i32 v.
Proof.
  revert m a k. induction l as [|w l IH]; intros m a k Hk; [done|]. cbn [st_ints].
  destruct k as [|k]; cbn in Hk.
  - injection Hk as ->. rewrite Z.mul_0_r, Z.add_0_r. erewrite ld_int_ext; [apply ld_st_int_eq|].
    intros x Hx. apply st_ints_out. lia.
  - replace (a + 4 * Z.of_nat (S k)) with (a + 4 + 4 * Z.of_nat k) by lia. by apply IH.
Qed.

Definition is_int (v : Z) : Prop := -2147483648 <= v < 2147483648.

(** A disk inode whose fields are [int]s. *)
Definition dinode_ok (d : rfs_dinode) : Prop :=
  length (di_addrs d) = DIRECT_BLKNUM /\ Forall is_int (dinode_ints d).

Lemma dinode_ints_length d : length (di_addrs d) = DIRECT_BLKNUM -> length (dinode_ints d) = 14%nat.
Proof. intros E. unfold dinode_ints. cbn. by rewrite E. Qed.

Lemma ld_st_dinode m a d : dinode_ok d -> ld_dinode (st_dinode m a d) a = d.
Proof.
  intros [Hlen Hr]. unfold ld_dinode, st_dinode.
  assert (Hget : forall k v, dinode_ints d !! k = Some v ->
            ld_int (st_ints m a (dinode_ints d)) (a + 4 * Z.of_nat k) = v).
  { intros k v Hk. rewrite (ld_st_ints _ _ _ _ _ Hk). apply i32_small.
    rewrite Forall_lookup in Hr. by eapply Hr. }
  pose proof (Hget 0%nat _ eq_refl) as E0. rewrite Z.mul_0_r, Z.add_0_r in E0. rewrite E0.
  rewrite (Hget 1%nat _ eq_refl : ld_int _ (a + 4) = _), (Hget 2%nat _ eq_refl : ld_int _ (a + 8) = _),
    (Hget 3%nat _ eq_refl : ld_int _ (a + 12) = _). destruct d as [z t nl nb l]. f_equal. cbn [di_addrs] in *.
  apply list_eq. intros k. unfold ld_ints. rewrite list_lookup_fmap.
  destruct (decide (k < 10)%nat) as [Hk|Hk].
  - rewrite lookup_seq_lt by done. cbn [fmap option_fmap option_map].
    destruct (lookup_lt_is_Some_2 l k) as [v Hv]; [by rewrite Hlen|]. rewrite Hv. f_equal.
    replace (a + 16 + 4 * Z.of_nat (0 + k)) with (a + 4 * Z.of_nat (4 + k)) by lia. by apply Hget.
  - rewrite lookup_seq_ge by (unfold DIRECT_BLKNUM; lia). rewrite lookup_ge_None_2; [done|].
    rewrite Hlen. unfold DIRECT_BLKNUM. lia.
Qed.

Lemma ld_dinode_ext m m' a :
  (forall x, a <= x < a + 56 -> m' x = m x) -> ld_dinode m' a = ld_dinode m a.
Proof.
  intros He. unfold ld_dinode.
  f_equal; try (apply ld_int_ext; intros; apply He; lia).
  unfold ld_ints. apply list_fmap_ext. intros k i Hk. apply lookup_seq in Hk as [-> Hk].
  apply ld_int_ext. intros x Hx. apply He. unfold DIRECT_BLKNUM in Hk. lia.
Qed.

(** ** The device *)

Definition set_io (m : bmem) (r : rfs_device) : rfs_device :=
  mkRdev (d_address r) (d_blocks r) (d_blocksize r) m (disk r).
Definition set_block (b : Z) (m : bmem) (r : rfs_device) : rfs_device :=
  mkRdev (d_address r) (d_blocks r) (d_blocksize r) (iobuffer r) (fun c => if c =? b then m else disk r c).

(** Inode [k] as the disk stores it. *)
Definition disk_inode (r : rfs_device) (k : Z) : rfs_dinode :=
  ld_dinode (disk r (inode_block k)) (inode_offset k).

Section Device.
Context {PS : Type} `{PageSource PS}.

Definition dev_at (s : fstate PS) (i : Z) (r : rfs_device) : Prop :=
  0 <= i /\ rfs_device_list s !! Z.to_nat i = Some (Some r).
Definition with_rdev (i : Z) (r : rfs_device) (s : fstate PS) : fstate PS :=
  set_rfs_device_list (<[Z.to_nat i := Some r]> (rfs_device_list s)) s.

Lemma dev_at_with s i r r' : dev_at s i r -> dev_at (with_rdev i r' s) i r'.
Proof. intros [Hi Hr]. split; [done|]. cbn. apply list_lookup_insert_eq. by eapply lookup_lt_Some. Qed.

Lemma with_rdev_twice i r r' s : with_rdev i r (with_rdev i r' s) = with_rdev i r s.
Proof. unfold with_rdev, set_rfs_device_list. cbn. by rewrite list_insert_insert_eq. Qed.

Lemma get_rdev_run s i r : dev_at s i r -> get_rdev i s = Ret r s.
Proof. intros [Hi Hr]. unfold get_rdev. rewrite Hr. by rewrite (proj2 (Z.ltb_ge i 0)). Qed.

Lemma set_iobuffer_run s i r f :
  dev_at s i r -> set_iobuffer i f s = Ret tt (with_rdev i (set_io (f (iobuffer r)) r) s).
Proof. intros Hd. unfold set_iobuffer. by rewrite (bind_Ret _ _ _ _ _ (get_rdev_run _ _ _ Hd)). Qed.

Lemma get_iobuffer_run s i r : dev_at s i r -> get_iobuffer i s = Ret (iobuffer r) s.
Proof. intros Hd. unfold get_iobuffer. by rewrite (bind_Ret _ _ _ _ _ (get_rdev_run _ _ _ Hd)). Qed.

Lemma bad_block_false b : 0 <= b < RAMDISK_BLOCK_COUNT -> bad_block b = false.
Proof. unfold bad_block. lia. Qed.

Lemma ramdisk_read_run s i r b :
  dev_at s i r -> 0 <= b < RAMDISK_BLOCK_COUNT ->
  ramdisk_read i b s = Ret 0 (with_rdev i (set_io (disk r b) r) s).
Proof.
  intros Hd Hb. unfold ramdisk_read, check. rewrite bad_block_false by done. rewrite bind_ret_l.
  by rewrite (bind_Ret _ _ _ _ _ (get_rdev_run _ _ _ Hd)).
Qed.

Lemma ramdisk_write_run s i r b :
  dev_at s i r -> 0 <= b < RAMDISK_BLOCK_COUNT ->
  ramdisk_write i b s = Ret 0 (with_rdev i (set_block b (iobuffer r) r) s).
Proof.
  intros Hd Hb. unfold ramdisk_write, check. rewrite bad_block_false by done. rewrite bind_ret_l.
  by rewrite (bind_Ret _ _ _ _ _ (get_rdev_run _ _ _ Hd)).
Qed.

(** A page taken, in the terms of [page_op]. *)
Lemma new_page_run s own n :
  pg_ok (fpages s) own (S n) ->
  exists p ps, new_page s = Ret p (set_fpages ps s) /\ p <> 0 /\ p ∉ own /\ pg_ok ps ({[p]} ∪ own) n.
Proof.
  intros Hp. destruct (pg_alloc_some _ _ _ Hp) as (p & ps & Ha & Hz & Ho & Hp').
  exists p, ps. split; [|done]. unfold new_page, page_op, zoom, bind, check. rewrite Ha. cbn.
  by rewrite (proj2 (Z.eqb_neq p 0)).
Qed.

Lemma inode_block_range k : 0 <= k < MAX_INODES -> 1 <= inode_block k <= 10.
Proof.
  unfold MAX_INODES, INODES_PER_BLOCK, RFS_BLKSIZE, RFS_INODESIZE, RFS_MAX_INODE_BLKNUM, inode_block.
  unfold INODES_PER_BLOCK, RFS_BLKSIZE, RFS_INODESIZE, RFS_BLK_OFFSET_INODE.
  change (4096 / 128) with 32. intros Hk. rewrite Z.quot_div_nonneg by lia.
  Z.to_euclidean_division_equations; lia.
Qed.

(** Where two inodes lie. *)
Lemma inode_places j k :
  0 <= j -> 0 <= k -> j <> k ->
  inode_block j <> inode_block k \/
  inode_offset j + 128 <= inode_offset k \/ inode_offset k + 128 <= inode_offset j.
Proof.
  unfold inode_block, inode_offset, INODES_PER_BLOCK, RFS_BLKSIZE, RFS_INODESIZE, RFS_BLK_OFFSET_INODE.
  change (4096 / 128) with 32. intros Hj Hk Hne.
  rewrite !Z.quot_div_nonneg, !Z.rem_mod_nonneg by lia. Z.to_euclidean_division_equations; lia.
Qed.

Lemma write_dinode_run s i r d k :
  dev_at s i r -> 0 <= k < MAX_INODES ->
  rfs_write_dinode i d k s = Ret 0 (with_rdev i
    (let m := st_dinode (disk r (inode_block k)) (inode_offset k) d in
     set_block (inode_block k) m (set_io m r)) s).
Proof.
  intros Hd Hk. pose proof (inode_block_range k Hk). unfold rfs_write_dinode.
  rewrite (bind_Ret _ _ _ _ _ (ramdisk_read_run _ _ _ (inode_block k) Hd ltac:(unfold RAMDISK_BLOCK_COUNT; lia))).
  rewrite (bind_Ret _ _ _ _ _ (set_iobuffer_run _ _ _ _ (dev_at_with _ _ _ _ Hd))).
  rewrite (ramdisk_write_run _ _ (set_io (st_dinode (disk r (inode_block k)) (inode_offset k) d) r)).
  - by rewrite !with_rdev_twice.
  - rewrite with_rdev_twice. by eapply dev_at_with.
  - unfold RAMDISK_BLOCK_COUNT. lia.
Qed.

Lemma disk_inode_written r d j k :
  0 <= j -> 0 <= k -> dinode_ok d ->
  disk_inode (let m := st_dinode (disk r (inode_block k)) (inode_offset k) d in
              set_block (inode_block k) m (set_io m r)) j =
    if decide (j = k) then d else disk_inode r j.
Proof.
  intros Hj Hk Hd. unfold disk_inode, set_block, set_io. cbn [disk]. destruct (decide (j = k)) as [->|Hne].
  - rewrite Z.eqb_refl. by apply ld_st_dinode.
  - destruct (Z.eqb_spec (inode_block j) (inode_block k)) as [E|E]; [|done]. rewrite E.
    apply ld_dinode_ext. intros x Hx. apply st_ints_out.
    rewrite dinode_ints_length by apply Hd. destruct (inode_places j k Hj Hk Hne) as [?|?]; lia.
Qed.

Lemma read_dinode_run s i r k own n :
  dev_at s i r -> 0 <= k < MAX_INODES -> pg_ok (fpages s) own (S n) ->
  exists p ps, rfs_read_dinode i k s =
      Ret (p, disk_inode r k) (set_fpages ps (with_rdev i (set_io (disk r (inode_block k)) r) s)) /\
    p <> 0 /\ p ∉ own /\ pg_ok ps ({[p]} ∪ own) n.
Proof.
  intros Hd Hk Hp. pose proof (inode_block_range k Hk). unfold rfs_read_dinode.
  rewrite (bind_Ret _ _ _ _ _ (ramdisk_read_run _ _ _ (inode_block k) Hd ltac:(unfold RAMDISK_BLOCK_COUNT; lia))).
  destruct (new_page_run (with_rdev i (set_io (disk r (inode_block k)) r) s) own n Hp)
    as (p & ps & Ha & Hrest).
  exists p, ps. split; [|done]. rewrite (bind_Ret _ _ _ _ _ Ha).
  rewrite (bind_Ret _ _ _ _ _ (get_iobuffer_run (set_fpages ps (with_rdev i (set_io (disk r (inode_block k)) r) s))
    i (set_io (disk r (inode_block k)) r) (dev_at_with s i r _ Hd))).
  done.
Qed.

(** Disk inodes are stored and found again.  [rfs_write_dinode] changes the
    one inode it is given and no other, on a disk whose other blocks stay as
    they are, and [rfs_read_dinode] of any inode number then returns the inode
    written last under that number. *)
Theorem dinode_roundtrip s i r d k j own n :
  dev_at s i r -> 0 <= k < MAX_INODES -> 0 <= j < MAX_INODES -> dinode_ok d ->
  pg_ok (fpages s) own (S n) ->
  exists s1 r1 p s2, rfs_write_dinode i d k s = Ret 0 s1 /\ dev_at s1 i r1 /\
    (forall b, b <> inode_block k -> disk r1 b = disk r b) /\
    rfs_read_dinode i j s1 = Ret (p, if decide (j = k) then d else disk_inode r j) s2.
Proof.
  intros Hd Hk Hj Hok Hp.
  pose proof (disk_inode_written r d j k ltac:(lia) ltac:(lia) Hok) as Hw.
  pose proof (write_dinode_run s i r d k Hd Hk) as Hrun.
  set (r1 := let m := _ in set_block _ m _) in Hw, Hrun.
  destruct (read_dinode_run (with_rdev i r1 s) i r1 j own n (dev_at_with _ _ _ _ Hd) Hj Hp) as (p & ps & Hread & _).
  exists (with_rdev i r1 s), r1, p. eexists. split; [done|]. split; [by eapply dev_at_with|]. split.
  - intros b Hb. cbn. by rewrite (proj2 (Z.eqb_neq _ _) Hb).
  - by rewrite Hread, Hw.
Qed.

End Device.

(** ** The free map *)

(** The free ones among the [n] data blocks from [b] on. *)
Fixpoint free_from (n : nat) (fm : bmem) (b : Z) : list Z :=
  match n with
  | O => []
  | S n' => if ld_int fm (4 * b) =? 0 then b :: free_from n' fm (b + 1) else free_from n' fm (b + 1)
  end.

(** The free data blocks of a file system, in order. *)
Definition free_list (x : super_block) : list Z := free_from (Z.to_nat (sb_nblocks x)) (s_fs_info x) 0.

Lemma first_zero_head n fm b : first_zero n fm b = hd_error (free_from n fm b).
Proof. revert b. induction n as [|n IH]; intros b; [done|]. cbn. by destruct (_ =? 0). Qed.

Lemma elem_free_from n fm b c :
  c ∈ free_from n fm b <-> b <= c < b + Z.of_nat n /\ ld_int fm (4 * c) = 0.
Proof.
  revert b. induction n as [|n IH]; intros b; cbn [free_from]; [rewrite elem_of_nil; lia|].
  destruct (Z.eqb_spec (ld_int fm (4 * b)) 0) as [E|E].
  - rewrite elem_of_cons, IH. split; [intros [->|?]; [|lia]; split; [lia|done]|].
    intros [Hc H0]. destruct (decide (c = b)); [by left|right; lia].
  - rewrite IH. split; [lia|]. intros [Hc H0]. split; [|done].
    destruct (decide (c = b)) as [->|]; [done|lia].
Qed.

Lemma free_from_ext n fm fm' b :
  (forall c, b <= c < b + Z.of_nat n -> ld_int fm' (4 * c) = ld_int fm (4 * c)) ->
  free_from n fm' b = free_from n fm b.
Proof.
  revert b. induction n as [|n IH]; intros b He; [done|]. cbn [free_from]. rewrite He by lia.
  rewrite IH; [done|]. intros c Hc. apply He. lia.
Qed.

Lemma ld_mark fm b v c :
  -2147483648 <= v < 2147483648 ->
  ld_int (st_int fm (4 * b) v) (4 * c) = if decide (c = b) then v else ld_int fm (4 * c).
Proof.
  intros Hv. destruct (decide (c = b)) as [->|Hne].
  - rewrite ld_st_int_eq. by apply i32_small.
  - apply ld_st_int_ne. lia.
Qed.

(** Marking the first free block leaves the others. *)
Lemma free_from_mark n fm b c l :
  free_from n fm b = c :: l -> free_from n (st_int fm (4 * c) 1) b = l.
Proof.
  revert b. induction n as [|n IH]; intros b; [done|]. cbn [free_from]. rewrite ld_mark by lia.
  destruct (Z.eqb_spec (ld_int fm (4 * b)) 0) as [E|E].
  - intros [= -> <-]. rewrite decide_True by done. change (1 =? 0) with false. cbv iota. apply free_from_ext. intros x Hx.
    rewrite ld_mark by lia. by rewrite decide_False by lia.
  - intros Hl. assert (Hc : c ∈ free_from n fm (b + 1)) by (rewrite Hl; left).
    apply elem_free_from in Hc as [Hc _]. rewrite decide_False by lia.
    rewrite (proj2 (Z.eqb_neq _ _) E). by apply IH.
Qed.

Section FreeMap.
Context {PS : Type} `{PageSource PS}.

Definition with_super (p : Z) (x : super_block) (s : fstate PS) : fstate PS :=
  set_supers (<[p := x]> (supers s)) s.
Definition marked (b v : Z) (x : super_block) : super_block :=
  set_s_fs_info (st_int (s_fs_info x) (4 * b) v) x.

Lemma get_super_run (s : fstate PS) p x : supers s !! p = Some x -> get_super p s = Ret x s.
Proof. intros Hx. unfold get_super, obj. by rewrite Hx. Qed.

Lemma alloc_block_run (s : fstate PS) sb x b l :
  supers s !! sb = Some x -> sb_nblocks x <= 1024 -> free_list x = b :: l ->
  rfs_alloc_block sb s = Ret (RFS_BLK_OFFSET_FREE + b) (with_super sb (marked b 1 x) s) /\
  free_list (marked b 1 x) = l.
Proof.
  intros Hx Hn Hl. split; [|by apply free_from_mark].
  unfold rfs_alloc_block. rewrite (bind_Ret _ _ _ _ _ (get_super_run _ _ _ Hx)).
  unfold check. rewrite (proj2 (Z.ltb_ge _ _) Hn). rewrite bind_ret_l, first_zero_head.
  unfold free_list in Hl. by rewrite Hl.
Qed.

Lemma free_block_run (s : fstate PS) sb x b :
  supers s !! sb = Some x -> 0 <= b < 1024 ->
  rfs_free_block sb (RFS_BLK_OFFSET_FREE + b) s = Ret 0 (with_super sb (marked b 0 x) s).
Proof.
  intros Hx Hb. unfold rfs_free_block. rewrite (bind_Ret _ _ _ _ _ (get_super_run _ _ _ Hx)).
  unfold check. replace (RFS_BLK_OFFSET_FREE + b - RFS_BLK_OFFSET_FREE) with b by lia.
  replace ((b <? 0) || (1024 <=? b)) with false by lia. by rewrite bind_ret_l.
Qed.

(** The block allocator of rfs.  [rfs_alloc_block] returns the first block
    that the map shows free, which is a data block of the disk, and takes
    exactly it out of the free ones; when no block is free the process is
    killed and nothing changes; [rfs_free_block] of the block makes the map
    show every block as it did before the allocation. *)
Theorem block_allocator_correct (s : fstate PS) sb x :
  supers s !! sb = Some x -> 0 <= sb_nblocks x <= RAMDISK_BLOCK_COUNT - RFS_BLK_OFFSET_FREE ->
  match free_list x with
  | [] => rfs_alloc_block sb s = Stop (Kill "rfs_alloc_block: no more free block!" (-1)) s
  | b :: l => exists s1 x1 s2 x2,
      rfs_alloc_block sb s = Ret (RFS_BLK_OFFSET_FREE + b) s1 /\ supers s1 !! sb = Some x1 /\
      RFS_BLK_OFFSET_FREE <= RFS_BLK_OFFSET_FREE + b < RAMDISK_BLOCK_COUNT /\ free_list x1 = l /\ b ∉ l /\
      rfs_free_block sb (RFS_BLK_OFFSET_FREE + b) s1 = Ret 0 s2 /\ supers s2 !! sb = Some x2 /\
      free_list x2 = free_list x
  end.
Proof.
  intros Hx Hn. unfold RAMDISK_BLOCK_COUNT, RFS_BLK_OFFSET_FREE in Hn.
  destruct (free_list x) as [|b l] eqn:El.
  - unfold rfs_alloc_block. rewrite (bind_Ret _ _ _ _ _ (get_super_run _ _ _ Hx)).
    unfold check. rewrite (proj2 (Z.ltb_ge _ _)) by lia. rewrite bind_ret_l, first_zero_head.
    unfold free_list in El. by rewrite El.
  - destruct (alloc_block_run s sb x b l Hx ltac:(lia) El) as [Hrun Hl].
    assert (Hb : b ∈ free_list x) by (rewrite El; left).
    apply elem_free_from in Hb as [Hb Hb0]. rewrite Z2Nat.id in Hb by lia.
    exists (with_super sb (marked b 1 x) s), (marked b 1 x). do 2 eexists.
    split; [done|]. split; [by apply lookup_insert_eq|].
    split; [unfold RAMDISK_BLOCK_COUNT, RFS_BLK_OFFSET_FREE; lia|]. split; [done|]. split.
    { rewrite <- Hl. unfold free_list. rewrite elem_free_from. cbn [marked set_s_fs_info s_fs_info].
      rewrite ld_mark by lia. rewrite decide_True by done. lia. }
    split; [apply free_block_run; [by apply lookup_insert_eq|lia]|]. split; [by apply lookup_insert_eq|].
    rewrite <- El. apply free_from_ext. intros c Hc. cbn [marked set_s_fs_info s_fs_info].
    rewrite !ld_mark by lia. destruct (decide (c = b)) as [->|]; done.
Qed.

End FreeMap.

(** A small file system: an empty disk, its super block at page 8192, and four
    free pages. *)
Definition rdev0 : rfs_device := mkRdev 0 128 4096 (fun _ => 0) (fun _ _ => 0).
Definition super0 : super_block := mkSuper RFS_MAGIC 112 100 320 0 4096 (fun _ => 0).
Definition fs0 : fstate (list Z) :=
  mkF [40960; 45056; 49152; 53248] (Some rdev0 :: replicate 9 None) {[ 8192 := super0 ]} ∅ ∅ ∅
      {[ 4096 := mkDevice [82] 0 RFS ]} (mkTable (replicate 128 0) ∅) (mkTable (replicate 128 0) ∅)
      0 (replicate 10 0) (4096 :: replicate 9 0) (Some RFS :: replicate 9 None).

Lemma fs0_pages : pg_ok (fpages fs0) ∅ 4.
Proof. repeat split; [repeat constructor; set_solver|set_solver..]. Qed.

Lemma fs0_dev : dev_at fs0 0 rdev0.
Proof. done. Qed.

Lemma dinode_roundtrip_witness :
  exists s1 p s2, rfs_write_dinode 0 (mkDinode 5 R_FILE 1 1 (replicate 10 13)) 7 fs0 = Ret 0 s1 /\
    rfs_read_dinode 0 7 s1 = Ret (p, mkDinode 5 R_FILE 1 1 (replicate 10 13)) s2.
Proof.
  destruct (dinode_roundtrip fs0 0 rdev0 (mkDinode 5 R_FILE 1 1 (replicate 10 13)) 7 7 ∅ 3)
    as (s1 & r1 & p & s2 & H1 & _ & _ & H2).
  - exact fs0_dev.
  - vm_compute; split; congruence.
  - vm_compute; split; congruence.
  - split; [reflexivity|]. unfold dinode_ints; cbn; repeat (apply Forall_cons_2; [split; vm_compute; congruence|]); apply Forall_nil_2.
  - exact fs0_pages.
  - exists s1, p, s2. split; [exact H1|exact H2].
Defined.

Lemma block_allocator_correct_witness :
  exists s1, rfs_alloc_block 8192 fs0 = Ret 12 s1.
Proof.
  pose proof (block_allocator_correct fs0 8192 super0 eq_refl ltac:(vm_compute; split; congruence)) as Hb.
  change (free_list super0) with (0 :: (Z.of_nat <$> seq 1 99)) in Hb.
  destruct Hb as (s1 & x1 & s2 & x2 & H1 & _). exists s1. exact H1.
Defined.
