(* ===== verification/RfsFile.v ===== *)
(** * Reading and writing files of rfs

    A file is the bytes of its data blocks, in the order of [addrs].  The
    lemmas follow [rfs_write] block by block; every block it touches is either
    one of the file or was free before. *)
From S2P Require Import Prelude Pages HashTable CString VfsData Rfs RfsDisk.

(** Block [k] of a file, and its byte [k]. *)
Definition addr (n : vinode) (k : Z) : Z := default 0 (addrs n !! Z.to_nat k).
Definition fbyte (r : rfs_device) (n : vinode) (k : Z) : Z := disk r (addr n (k / 4096)) (k mod 4096).
Definition slice (r : rfs_device) (n : vinode) (off : Z) (len : nat) : list Z :=
  (fun j => fbyte r n (off + Z.of_nat j)) <$> seq 0 len.

(** The block pointers of a file: data blocks of the disk, marked as used, each
    once. *)
Record file_ok (n : vinode) (x : super_block) : Prop := {
  fo_len : length (addrs n) = DIRECT_BLKNUM;
  fo_blocks : 0 <= nblk n <= 10;
  fo_nblocks : 0 <= sb_nblocks x <= RAMDISK_BLOCK_COUNT - RFS_BLK_OFFSET_FREE;
  fo_used k : 0 <= k < nblk n ->
    RFS_BLK_OFFSET_FREE <= addr n k < RFS_BLK_OFFSET_FREE + sb_nblocks x /\
    ld_int (s_fs_info x) (4 * (addr n k - RFS_BLK_OFFSET_FREE)) <> 0;
  fo_inj j k : 0 <= j < nblk n -> 0 <= k < nblk n -> addr n j = addr n k -> j = k
}.

(** A block that is none of the file's, and either holds no data or is in use
    by somebody else. *)
Definition foreign (n : vinode) (x : super_block) (c : Z) : Prop :=
  (forall k, 0 <= k < nblk n -> addr n k <> c) /\
  (c < RFS_BLK_OFFSET_FREE \/ ld_int (s_fs_info x) (4 * (c - RFS_BLK_OFFSET_FREE)) <> 0).

Definition ceil_blocks (k : Z) : Z := (k + 4095) / 4096.

Lemma put_bytes_out m a l x : x < a \/ a + Z.of_nat (length l) <= x -> put_bytes m a l x = m x.
Proof.
  revert m a. induction l as [|c l IH]; intros m a Hx; cbn [put_bytes length] in *; [done|].
  rewrite IH by lia. apply upd_ne. lia.
Qed.

Lemma put_bytes_in m a l k c :
  l !! k = Some c -> 0 <= c < 256 -> put_bytes m a l (a + Z.of_nat k) = c.
Proof.
  revert m a k. induction l as [|d l IH]; intros m a k Hk Hc; [done|]. cbn [put_bytes].
  destruct k as [|k]; cbn in Hk.
  - injection Hk as ->. rewrite put_bytes_out by lia. rewrite Z.add_0_r. by apply upd_eq.
  - replace (a + Z.of_nat (S k)) with (a + 1 + Z.of_nat k) by lia. by apply IH.
Qed.

Definition is_byte (c : Z) : Prop := 0 <= c < 256.

Section Files.
Context {PS : Type} `{PageSource PS}.

(** What the code reaches from an inode [p]: its super block and its device. *)
Record fview (s : fstate PS) (p : Z) (n : vinode) (x : super_block) (i : Z) (r : rfs_device) : Prop := {
  fv_vinode : vinodes s !! p = Some n;
  fv_super : supers s !! vsb n = Some x;
  fv_device : exists d, devices s !! s_dev x = Some d /\ dev_id d = i;
  fv_rdev : dev_at s i r
}.

Lemma get_vinode_run s p n : vinodes s !! p = Some n -> get_vinode (PS := PS) p s = Ret n s.
Proof. intros Hn. unfold get_vinode, obj. by rewrite Hn. Qed.

Lemma rdev_of_run s p n x i r : fview s p n x i r -> rdev_of (vsb n) s = Ret i s.
Proof.
  intros [_ Hx (d & Hd & <-) _]. unfold rdev_of.
  rewrite (bind_Ret _ _ _ _ _ (get_super_run _ _ _ Hx)). unfold bind, get_device, obj. by rewrite Hd.
Qed.

Lemma addr_of_run (s : fstate PS) n k :
  length (addrs n) = DIRECT_BLKNUM -> 0 <= k < 10 -> addr_of n k s = Ret (addr n k) s.
Proof.
  intros Hlen Hk. unfold addr_of, addr.
  destruct (lookup_lt_is_Some_2 (addrs n) (Z.to_nat k)) as [a Ha]; [rewrite Hlen; unfold DIRECT_BLKNUM; lia|].
  rewrite Ha. by rewrite (proj2 (Z.ltb_ge k 0)) by lia.
Qed.

Lemma fview_rdev s p n x i r r' : fview s p n x i r -> fview (with_rdev i r' s) p n x i r'.
Proof. intros [? ? ? Hd]. split; try done. by eapply dev_at_with. Qed.

Lemma file_block_range n x k : file_ok n x -> 0 <= k < nblk n -> 0 <= addr n k < RAMDISK_BLOCK_COUNT.
Proof.
  intros Hf Hk. destruct (fo_used _ _ Hf k Hk) as [Ha _]. pose proof (fo_nblocks _ _ Hf).
  unfold RAMDISK_BLOCK_COUNT, RFS_BLK_OFFSET_FREE in *. lia.
Qed.

(** ** Growing a file by a block *)

Definition with_vinode (p : Z) (n : vinode) (s : fstate PS) : fstate PS :=
  set_vinodes (<[p := n]> (vinodes s)) s.

Definition grown (n : vinode) (a : Z) : vinode :=
  set_blocks (nblk n + 1) (<[Z.to_nat (nblk n) := a]> (addrs n)) n.

Lemma addr_grown n a k :
  length (addrs n) = DIRECT_BLKNUM -> 0 <= k -> 0 <= nblk n < 10 ->
  addr (grown n a) k = if decide (k = nblk n) then a else addr n k.
Proof.
  intros Hlen Hk Hn. unfold addr, grown. cbn [addrs set_blocks]. destruct (decide (k = nblk n)) as [->|Hne].
  - rewrite list_lookup_insert_eq; [done|]. rewrite Hlen. unfold DIRECT_BLKNUM. lia.
  - rewrite list_lookup_insert_ne; [done|]. lia.
Qed.

Lemma file_ok_grown n x b l :
  file_ok n x -> nblk n < 10 -> free_list x = b :: l ->
  file_ok (grown n (RFS_BLK_OFFSET_FREE + b)) (marked b 1 x).
Proof.
  intros Hf Hn Hl. pose proof (fo_blocks _ _ Hf) as Hb. pose proof (fo_nblocks _ _ Hf) as Hnb.
  assert (Hfree : b ∈ free_list x) by (rewrite Hl; left).
  apply elem_free_from in Hfree as [Hr H0]. rewrite Z2Nat.id in Hr by lia.
  assert (Hused : forall k, 0 <= k < nblk n -> addr n k <> RFS_BLK_OFFSET_FREE + b).
  { intros k Hk E. destruct (fo_used _ _ Hf k Hk) as [_ Hu]. apply Hu. rewrite E.
    by replace (RFS_BLK_OFFSET_FREE + b - RFS_BLK_OFFSET_FREE) with b by lia. }
  split; cbn [grown set_blocks nblk addrs marked set_s_fs_info sb_nblocks s_fs_info].
  - rewrite length_insert. apply Hf.
  - lia.
  - done.
  - intros k Hk. rewrite addr_grown by (apply Hf || lia). rewrite ld_mark by lia.
    destruct (decide (k = nblk n)) as [->|Hne].
    + split; [lia|]. rewrite decide_True by lia. done.
    + destruct (fo_used _ _ Hf k ltac:(lia)) as [Ha Hu]. split; [done|]. by destruct (decide _).
  - intros j k Hj Hk. rewrite !addr_grown by (apply Hf || lia).
    destruct (decide (j = nblk n)), (decide (k = nblk n)); intros E; try lia.
    + symmetry in E. by apply Hused in E; [|lia].
    + by apply Hused in E; [|lia].
    + apply (fo_inj _ _ Hf); lia || done.
Qed.

Lemma extend_old s p n x i r bo :
  fview s p n x i r -> bo < nblk n -> extend_file p bo s = Ret tt s.
Proof.
  intros Hv Hb. unfold extend_file. rewrite (bind_Ret _ _ _ _ _ (get_vinode_run _ _ _ (fv_vinode _ _ _ _ _ _ Hv))).
  by rewrite (proj2 (Z.eqb_neq _ _)) by lia.
Qed.

Lemma extend_new s p n x i r b l :
  fview s p n x i r -> file_ok n x -> nblk n < 10 -> free_list x = b :: l ->
  extend_file p (nblk n) s =
    Ret tt (with_vinode p (grown n (RFS_BLK_OFFSET_FREE + b)) (with_super (vsb n) (marked b 1 x) s)) /\
  fview (with_vinode p (grown n (RFS_BLK_OFFSET_FREE + b)) (with_super (vsb n) (marked b 1 x) s))
        p (grown n (RFS_BLK_OFFSET_FREE + b)) (marked b 1 x) i r.
Proof.
  intros Hv Hf Hn Hl. pose proof (fo_nblocks _ _ Hf) as Hnb.
  unfold RAMDISK_BLOCK_COUNT, RFS_BLK_OFFSET_FREE in Hnb.
  destruct (alloc_block_run s (vsb n) x b l (fv_super _ _ _ _ _ _ Hv) ltac:(lia) Hl) as [Hrun _].
  split.
  - unfold extend_file. rewrite (bind_Ret _ _ _ _ _ (get_vinode_run _ _ _ (fv_vinode _ _ _ _ _ _ Hv))).
    rewrite Z.eqb_refl. unfold when, check.
    rewrite (proj2 (Z.leb_gt _ _)) by (unfold DIRECT_BLKNUM; lia). rewrite bind_ret_l.
    by rewrite (bind_Ret _ _ _ _ _ Hrun).
  - destruct Hv as [Hvn Hx Hd Hr]. split; cbn; [apply lookup_insert_eq|apply lookup_insert_eq|done|done].
Qed.

(** ** Writing *)

(** The parts of an inode that a write does not change, and addresses that stay [int]s. *)
Definition inode_kept (n n' : vinode) : Prop :=
  inum n' = inum n /\ vsb n' = vsb n /\ vtype n' = vtype n /\ nlinks n' = nlinks n /\
  (Forall is_int (addrs n) -> Forall is_int (addrs n')) /\ i_ops n' = i_ops n.

Lemma inode_kept_trans n1 n2 n3 : inode_kept n1 n2 -> inode_kept n2 n3 -> inode_kept n1 n3.
Proof. intros (A1 & A2 & A3 & A4 & A5 & A6) (B1 & B2 & B3 & B4 & B5 & B6). unfold inode_kept. rewrite B1, B2, B3, B4, B6. do 4 (split; [done|]). auto. Qed.

Lemma inode_kept_grown n x b l : file_ok n x -> free_list x = b :: l -> inode_kept n (grown n (RFS_BLK_OFFSET_FREE + b)).
Proof.
  intros Hf Hl. do 4 (split; [done|]). split; [|done]. intros Ha. cbn [grown set_blocks addrs]. apply Forall_insert; [done|].
  assert (Hfree : b ∈ free_list x) by (rewrite Hl; left). apply elem_free_from in Hfree as [Hr _].
  pose proof (fo_nblocks _ _ Hf) as Hn. unfold is_int, RAMDISK_BLOCK_COUNT, RFS_BLK_OFFSET_FREE in *. lia.
Qed.

(** What a part of a write that stores [f] into the bytes [lo, hi) of the file
    has done: bytes before [lo] and blocks after [hi] are as they were, the file
    has grown to the blocks it needs, blocks of others are untouched. *)
Record wrote (s s' : fstate PS) (p : Z) (n n' : vinode) (x x' : super_block) (i : Z) (r r' : rfs_device)
    (lo hi : Z) (f : Z -> Z) : Prop := {
  w_view : fview s' p n' x' i r';
  w_ok : file_ok n' x';
  w_size : vsize n' = vsize n;
  w_kept : inode_kept n n';
  w_nblk : nblk n' = Z.max (nblk n) (ceil_blocks hi);
  w_before k : 0 <= k < lo -> k < 4096 * nblk n -> fbyte r' n' k = fbyte r n k;
  w_in k : lo <= k < hi -> fbyte r' n' k = f k;
  w_after k : 4096 * ceil_blocks hi <= k < 4096 * nblk n -> fbyte r' n' k = fbyte r n k;
  w_foreign c : foreign n x c -> disk r' c = disk r c /\ foreign n' x' c;
  w_free : Z.of_nat (length (free_list x')) + nblk n' = Z.of_nat (length (free_list x)) + nblk n;
  w_others q : q <> p -> vinodes s' !! q = vinodes s !! q;
  w_dentries : dentries s' = dentries s;
  w_pages : fpages s' = fpages s
}.

Lemma wrote_nil s p n x i r lo f :
  fview s p n x i r -> file_ok n x -> 0 <= lo <= 4096 * nblk n -> lo mod 4096 = 0 ->
  wrote s s p n n x x i r r lo lo f.
Proof.
  intros Hv Hf Hlo Hm. split; try done; unfold ceil_blocks; try lia.
  Z.to_euclidean_division_equations; lia.
Qed.

Lemma wrote_trans s1 s2 s3 p n1 n2 n3 x1 x2 x3 i r1 r2 r3 lo mid hi f :
  0 <= lo <= mid -> mid <= hi -> mid mod 4096 = 0 ->
  wrote s1 s2 p n1 n2 x1 x2 i r1 r2 lo mid f -> wrote s2 s3 p n2 n3 x2 x3 i r2 r3 mid hi f ->
  wrote s1 s3 p n1 n3 x1 x3 i r1 r3 lo hi f.
Proof.
  intros Hlo Hmid Hm H1 H2. pose proof (w_nblk _ _ _ _ _ _ _ _ _ _ _ _ _ H1) as E1.
  pose proof (w_nblk _ _ _ _ _ _ _ _ _ _ _ _ _ H2) as E2.
  assert (Hc : 4096 * ceil_blocks mid = mid) by (unfold ceil_blocks; Z.to_euclidean_division_equations; lia).
  assert (Hc2 : mid <= hi <= 4096 * ceil_blocks hi)
    by (unfold ceil_blocks; Z.to_euclidean_division_equations; lia).
  destruct H1 as [V1 O1 S1 I1 _ B1 N1 A1 F1 L1 Q1 D1 P1], H2 as [V2 O2 S2 I2 _ B2 N2 A2 F2 L2 Q2 D2 P2].
  split; try done; try congruence; try lia.
  - by apply (inode_kept_trans n1 n2 n3).
  - intros k Hk Hkn. rewrite B2 by lia. by apply B1.
  - intros k Hk. destruct (decide (k < mid)); [rewrite B2 by lia; apply N1; lia|apply N2; lia].
  - intros k Hk. rewrite A2 by lia. apply A1. lia.
  - intros c Hc'. destruct (F1 c Hc') as [E1' Hc1]. destruct (F2 c Hc1) as [E2' Hc3]. by rewrite E2'.
  - intros q Hq. by rewrite Q2, Q1.
Qed.

(** A block [bo] of the file, at the old place or at a new one. *)
Lemma block_written r n x bo m k :
  file_ok n x -> 0 <= bo < nblk n -> 0 <= k < 4096 * nblk n ->
  fbyte (set_block (addr n bo) m r) n k = if decide (k / 4096 = bo) then m (k mod 4096) else fbyte r n k.
Proof.
  intros Hf Hbo Hk. unfold fbyte, set_block. cbn [disk].
  destruct (decide (k / 4096 = bo)) as [->|Hne]; [by rewrite Z.eqb_refl|].
  rewrite (proj2 (Z.eqb_neq _ _)); [done|]. intros E. apply Hne.
  apply (fo_inj _ _ Hf); [Z.to_euclidean_division_equations; lia|done|done].
Qed.

(** The last part of [write_block]: the iobuffer goes to a block of the file. *)
Lemma store_block s p n x i r bo l :
  fview s p n x i r -> file_ok n x -> 0 <= bo < nblk n -> Forall is_byte l ->
  (0 < length l <= 4096)%nat ->
  exists s' r', (set_iobuffer i (fun m => put_bytes m 0 l) ;;;
           let* n0 := get_vinode p in let* b := addr_of n0 bo in let* _ := rfs_w1block i b in ret tt) s
    = Ret tt s' /\
    wrote s s' p n n x x i r r' (4096 * bo) (4096 * bo + Z.of_nat (length l))
          (fun k => default 0 (l !! Z.to_nat (k - 4096 * bo))).
Proof.
  intros Hv Hf Hbo Hby Hl. pose proof (fo_blocks _ _ Hf) as Hnb.
  rewrite (bind_Ret _ _ _ _ _ (set_iobuffer_run _ _ _ _ (fv_rdev _ _ _ _ _ _ Hv))).
  set (m := put_bytes (iobuffer r) 0 l). set (s1 := with_rdev i (set_io m r) s).
  assert (Hv1 : fview s1 p n x i (set_io m r)) by (by eapply fview_rdev).
  rewrite (bind_Ret _ _ _ _ _ (get_vinode_run _ _ _ (fv_vinode _ _ _ _ _ _ Hv1))).
  rewrite (bind_Ret _ _ _ _ _ (addr_of_run s1 n bo (fo_len _ _ Hf) ltac:(lia))).
  unfold rfs_w1block. rewrite (bind_Ret _ _ _ _ _ (ramdisk_write_run s1 i _ (addr n bo) (fv_rdev _ _ _ _ _ _ Hv1)
    (file_block_range n x bo Hf Hbo))).
  do 2 eexists. split; [done|].
  assert (Hin : forall k, 4096 * bo <= k < 4096 * bo + Z.of_nat (length l) ->
            m (k mod 4096) = default 0 (l !! Z.to_nat (k - 4096 * bo))).
  { intros k Hk. destruct (lookup_lt_is_Some_2 l (Z.to_nat (k - 4096 * bo))) as [c Hc]; [lia|].
    rewrite Hc. cbn [default]. rewrite Forall_lookup in Hby. specialize (Hby _ _ Hc).
    pose proof (put_bytes_in (iobuffer r) 0 l _ c Hc Hby) as E. rewrite Z2Nat.id in E by lia.
    unfold m. replace (k mod 4096) with (0 + (k - 4096 * bo)) by (Z.to_euclidean_division_equations; lia).
    exact E. }
  split.
  - by eapply fview_rdev.
  - done.
  - done.
  - done.
  - unfold ceil_blocks. Z.to_euclidean_division_equations; lia.
  - intros k Hk Hkn. rewrite (block_written (set_io m r) n x) by (done || lia).
    rewrite decide_False; [done|]. Z.to_euclidean_division_equations; lia.
  - intros k Hk. rewrite (block_written (set_io m r) n x) by (done || lia).
    rewrite decide_True by (Z.to_euclidean_division_equations; lia). by apply Hin.
  - intros k Hk. rewrite (block_written (set_io m r) n x) by (done || (unfold ceil_blocks in Hk; Z.to_euclidean_division_equations; lia)).
    rewrite decide_False; [done|]. unfold ceil_blocks in Hk. Z.to_euclidean_division_equations; lia.
  - intros c Hc. split; [|done]. cbn [set_block disk]. destruct Hc as [Hc _].
    rewrite (proj2 (Z.eqb_neq _ _)); [done|]. intros ->. by apply (Hc bo Hbo).
  - done.
  - done.
  - done.
  - done.
Qed.

Lemma foreign_grown n x b l c :
  file_ok n x -> nblk n < 10 -> free_list x = b :: l -> foreign n x c ->
  foreign (grown n (RFS_BLK_OFFSET_FREE + b)) (marked b 1 x) c.
Proof.
  intros Hf Hn Hl [Hc Hu]. pose proof (fo_blocks _ _ Hf) as Hb.
  assert (Hfree : b ∈ free_list x) by (rewrite Hl; left). apply elem_free_from in Hfree as [Hr H0].
  split; cbn [grown set_blocks nblk].
  - intros k Hk. rewrite addr_grown by (apply Hf || lia). destruct (decide (k = nblk n)); [|apply Hc; lia].
    intros <-. destruct Hu as [Hu|Hu]; [lia|]. apply Hu.
    by replace (RFS_BLK_OFFSET_FREE + b - RFS_BLK_OFFSET_FREE) with b by lia.
  - destruct Hu as [Hu|Hu]; [by left|right]. cbn [marked set_s_fs_info s_fs_info]. rewrite ld_mark by lia.
    by destruct (decide _).
Qed.

(** Storing a block right behind the end of the file. *)
Lemma wrote_grow s s' p n n' x x' i r r' b l hi f :
  fview s p n x i r -> file_ok n x -> nblk n < 10 -> free_list x = b :: l ->
  4096 * nblk n < hi <= 4096 * (nblk n + 1) ->
  wrote (with_vinode p (grown n (RFS_BLK_OFFSET_FREE + b)) (with_super (vsb n) (marked b 1 x) s)) s' p
        (grown n (RFS_BLK_OFFSET_FREE + b)) n' (marked b 1 x) x' i r r' (4096 * nblk n) hi f ->
  wrote s s' p n n' x x' i r r' (4096 * nblk n) hi f.
Proof.
  intros Hv Hf Hn Hl Hhi Hw. pose proof (fo_blocks _ _ Hf) as Hb.
  assert (Hce : ceil_blocks hi = nblk n + 1) by (unfold ceil_blocks; Z.to_euclidean_division_equations; lia).
  assert (Hfl : free_list (marked b 1 x) = l) by (by apply free_from_mark).
  destruct Hw as [V O S I N B I' A F L Q D P].
  split; try done.
  - eapply inode_kept_trans; [by eapply inode_kept_grown|exact I].
  - rewrite N, Hce. cbn [grown set_blocks nblk]. lia.
  - intros k Hk Hkn. rewrite B by (cbn [grown set_blocks nblk]; lia).
    unfold fbyte. rewrite addr_grown by (apply Hf || (Z.to_euclidean_division_equations; lia)).
    rewrite decide_False; [done|]. Z.to_euclidean_division_equations; lia.
  - intros k Hk. rewrite Hce in Hk. lia.
  - intros c Hc. apply F. by eapply foreign_grown.
  - rewrite Hl, L, Hfl. cbn [grown set_blocks nblk length]. lia.
  - intros q Hq. rewrite Q by done. cbn. by rewrite lookup_insert_ne.
Qed.

Lemma write_block_run s p n x i r bo l :
  fview s p n x i r -> file_ok n x -> 0 <= bo <= nblk n -> bo < 10 -> Forall is_byte l ->
  (0 < length l <= 4096)%nat -> (bo = nblk n -> free_list x <> []) ->
  exists s' n' x' r', write_block p i bo l s = Ret tt s' /\
    wrote s s' p n n' x x' i r r' (4096 * bo) (4096 * bo + Z.of_nat (length l))
          (fun k => default 0 (l !! Z.to_nat (k - 4096 * bo))).
Proof.
  intros Hv Hf Hbo Hb10 Hby Hl Hfree. unfold write_block.
  destruct (decide (bo = nblk n)) as [->|Hne].
  - destruct (free_list x) as [|b fl] eqn:El; [by destruct Hfree|].
    destruct (extend_new s p n x i r b fl Hv Hf Hb10 El) as [Hrun Hv'].
    rewrite (bind_Ret _ _ _ _ _ Hrun).
    destruct (store_block _ p _ _ i r (nblk n) l Hv' (file_ok_grown n x b fl Hf Hb10 El)) as (s' & r' & Hrun' & Hw);
      [cbn [grown set_blocks nblk]; lia|done|done|].
    exists s', (grown n (RFS_BLK_OFFSET_FREE + b)), (marked b 1 x), r'. split; [done|].
    eapply wrote_grow; eauto. lia.
  - rewrite (bind_Ret _ _ _ _ _ (extend_old s p n x i r bo Hv ltac:(lia))).
    destruct (store_block s p n x i r bo l Hv Hf ltac:(lia) Hby Hl) as (s' & r' & Hrun & Hw).
    by exists s', n, x, r'.
Qed.

Lemma wrote_ext s s' p n n' x x' i r r' lo hi f g :
  (forall k, lo <= k < hi -> f k = g k) ->
  wrote s s' p n n' x x' i r r' lo hi f -> wrote s s' p n n' x x' i r r' lo hi g.
Proof. intros He [V O S I N B I' A F L Q D P]. split; try done. intros k Hk. rewrite I' by done. by apply He. Qed.

(** [t] whole blocks. *)
Lemma write_blocks_run t s p n x i r bo w :
  fview s p n x i r -> file_ok n x -> 0 <= bo <= nblk n -> bo + Z.of_nat t <= 10 -> Forall is_byte w ->
  (4096 * t <= length w)%nat -> bo + Z.of_nat t - nblk n <= Z.of_nat (length (free_list x)) ->
  exists s' n' x' r', write_blocks t p i bo w s = Ret tt s' /\
    wrote s s' p n n' x x' i r r' (4096 * bo) (4096 * (bo + Z.of_nat t))
          (fun k => default 0 (w !! Z.to_nat (k - 4096 * bo))).
Proof.
  revert s n x r bo w. induction t as [|t IH]; intros s n x r bo w Hv Hf Hbo H10 Hby Hl Hfree; cbn [write_blocks].
  { exists s, n, x, r. split; [done|]. replace (bo + Z.of_nat 0) with bo by lia. apply wrote_nil; try done; [lia|].
    Z.to_euclidean_division_equations; lia. }
  assert (Hlen : length (take 4096 w) = 4096%nat) by (rewrite length_take; lia).
  destruct (write_block_run s p n x i r bo (take 4096 w)) as (s1 & n1 & x1 & r1 & Hrun & Hw); try done.
  { lia. } { by apply Forall_take. } { rewrite Hlen. lia. }
  { intros -> Hnil. rewrite Hnil in Hfree. cbn in Hfree. lia. }
  rewrite Hlen in Hw. rewrite (bind_Ret _ _ _ _ _ Hrun).
  pose proof (w_nblk _ _ _ _ _ _ _ _ _ _ _ _ _ Hw) as En. pose proof (w_free _ _ _ _ _ _ _ _ _ _ _ _ _ Hw) as El.
  assert (Hce : ceil_blocks (4096 * bo + Z.of_nat 4096) = bo + 1)
    by (unfold ceil_blocks; Z.to_euclidean_division_equations; lia).
  destruct (IH s1 n1 x1 r1 (bo + 1) (drop 4096 w)) as (s2 & n2 & x2 & r2 & Hrun2 & Hw2);
    [apply Hw|apply Hw|lia|lia|by apply Forall_drop|rewrite length_drop; lia|lia|].
  exists s2, n2, x2, r2. split; [done|].
  replace (4096 * (bo + 1 + Z.of_nat t)) with (4096 * (bo + Z.of_nat (S t))) in Hw2 by lia.
  replace (4096 * (bo + 1)) with (4096 * bo + Z.of_nat 4096) in Hw2 by lia.
  eapply wrote_trans; [..|eapply wrote_ext; [|exact Hw]|eapply wrote_ext; [|exact Hw2]]; cbn beta; try lia.
  - Z.to_euclidean_division_equations; lia.
  - intros k Hk. by rewrite lookup_take_lt by lia.
  - intros k Hk. rewrite lookup_drop. do 2 f_equal. lia.
Qed.

(** Everything from a block boundary on. *)
Lemma write_tail_run s p n x i r bo w :
  fview s p n x i r -> file_ok n x -> 0 <= bo <= nblk n -> Forall is_byte w ->
  ceil_blocks (4096 * bo + Z.of_nat (length w)) <= 10 ->
  ceil_blocks (4096 * bo + Z.of_nat (length w)) - nblk n <= Z.of_nat (length (free_list x)) ->
  let t := Z.of_nat (length w) / 4096 in
  let rem := Z.of_nat (length w) mod 4096 in
  exists s' n' x' r',
    (write_blocks (Z.to_nat t) p i bo w ;;;
     when (0 <? rem) (write_block p i (bo + t) (take (Z.to_nat rem) (drop (Z.to_nat (4096 * t)) w)))) s = Ret tt s' /\
    wrote s s' p n n' x x' i r r' (4096 * bo) (4096 * bo + Z.of_nat (length w))
          (fun k => default 0 (w !! Z.to_nat (k - 4096 * bo))).
Proof.
  intros Hv Hf Hbo Hby H10 Hfree t rem.
  assert (Hdm : Z.of_nat (length w) = 4096 * t + rem /\ 0 <= rem < 4096 /\ 0 <= t)
    by (unfold t, rem; Z.to_euclidean_division_equations; lia).
  clearbody t rem. destruct Hdm as (Hdm & Hrem & Ht).
  assert (Hce : ceil_blocks (4096 * bo + Z.of_nat (length w)) = bo + t + (if decide (rem = 0) then 0 else 1)).
  { unfold ceil_blocks. rewrite Hdm. destruct (decide (rem = 0)); Z.to_euclidean_division_equations; lia. }
  rewrite Hce in H10, Hfree.
  destruct (write_blocks_run (Z.to_nat t) s p n x i r bo w) as (s1 & n1 & x1 & r1 & Hrun & Hw); try done;
    [destruct (decide (rem = 0)); lia|lia|destruct (decide (rem = 0)); lia|].
  rewrite (bind_Ret _ _ _ _ _ Hrun). rewrite Z2Nat.id in Hw by lia.
  pose proof (w_nblk _ _ _ _ _ _ _ _ _ _ _ _ _ Hw) as En. pose proof (w_free _ _ _ _ _ _ _ _ _ _ _ _ _ Hw) as El.
  replace (ceil_blocks (4096 * (bo + t))) with (bo + t) in En
    by (unfold ceil_blocks; Z.to_euclidean_division_equations; lia).
  destruct (Z.ltb_spec 0 rem) as [Hr|Hr]; cbn [when].
  - rewrite decide_False in H10, Hfree by lia.
    assert (Hlen : length (take (Z.to_nat rem) (drop (Z.to_nat (4096 * t)) w)) = Z.to_nat rem)
      by (rewrite length_take, length_drop; lia).
    destruct (write_block_run s1 p n1 x1 i r1 (bo + t) (take (Z.to_nat rem) (drop (Z.to_nat (4096 * t)) w)))
      as (s2 & n2 & x2 & r2 & Hrun2 & Hw2); [apply Hw|apply Hw|lia|lia|by apply Forall_take, Forall_drop|lia| |].
    { intros E Hnil. rewrite Hnil in El. cbn in El. lia. }
    exists s2, n2, x2, r2. split; [done|]. rewrite Hlen, Z2Nat.id in Hw2 by lia.
    replace (4096 * (bo + t) + rem) with (4096 * bo + Z.of_nat (length w)) in Hw2 by lia.
    eapply wrote_trans; [..|exact Hw|eapply wrote_ext; [|exact Hw2]]; cbn beta; try lia.
    + Z.to_euclidean_division_equations; lia.
    + intros k Hk. rewrite lookup_take_lt by lia. rewrite lookup_drop. do 2 f_equal. lia.
  - exists s1, n1, x1, r1. split; [done|]. by replace (4096 * bo + Z.of_nat (length w)) with (4096 * (bo + t)) by lia.
Qed.

(** The first block, when the write starts inside it. *)
Lemma first_block_run s p n x i r off w :
  fview s p n x i r -> file_ok n x -> 0 <= off -> off / 4096 < nblk n -> Forall is_byte w ->
  0 < off mod 4096 -> off mod 4096 + Z.of_nat (length w) <= 4096 ->
  exists s' r',
    (let* b := addr_of n (off / 4096) in
     let* _ := rfs_r1block i b in
     set_iobuffer i (fun m => put_bytes m (off mod 4096) w) ;;;
     rfs_w1block i b) s = Ret 0 s' /\
    wrote s s' p n n x x i r r' off (off + Z.of_nat (length w)) (fun k => default 0 (w !! Z.to_nat (k - off))).
Proof.
  intros Hv Hf Hoff Hb Hby Hal Hlen. pose proof (fo_blocks _ _ Hf) as Hnb.
  assert (Hbo : 0 <= off / 4096 < nblk n) by (Z.to_euclidean_division_equations; lia).
  rewrite (bind_Ret _ _ _ _ _ (addr_of_run s n (off / 4096) (fo_len _ _ Hf) ltac:(lia))).
  pose proof (file_block_range n x _ Hf Hbo) as Hrange. set (a := addr n (off / 4096)) in *.
  unfold rfs_r1block, rfs_w1block.
  rewrite (bind_Ret _ _ _ _ _ (ramdisk_read_run s i r a (fv_rdev _ _ _ _ _ _ Hv) Hrange)).
  pose proof (fview_rdev _ _ _ _ _ _ (set_io (disk r a) r) Hv) as Hv1.
  rewrite (bind_Ret _ _ _ _ _ (set_iobuffer_run _ _ _ _ (fv_rdev _ _ _ _ _ _ Hv1))).
  cbn [iobuffer set_io]. set (m := put_bytes (disk r a) (off mod 4096) w).
  pose proof (fview_rdev _ _ _ _ _ _ (set_io m (set_io (disk r a) r)) Hv1) as Hv2.
  rewrite (ramdisk_write_run _ i _ a (fv_rdev _ _ _ _ _ _ Hv2) Hrange).
  eexists. exists (set_block a m (set_io m (set_io (disk r a) r))). split; [done|].
  assert (Hin : forall k, off <= k < off + Z.of_nat (length w) -> m (k mod 4096) = default 0 (w !! Z.to_nat (k - off))).
  { intros k Hk. destruct (lookup_lt_is_Some_2 w (Z.to_nat (k - off))) as [c Hc]; [lia|].
    rewrite Hc. cbn [default]. rewrite Forall_lookup in Hby. specialize (Hby _ _ Hc).
    pose proof (put_bytes_in (disk r a) (off mod 4096) w _ c Hc Hby) as E. rewrite Z2Nat.id in E by lia.
    unfold m. replace (k mod 4096) with (off mod 4096 + (k - off)) by (Z.to_euclidean_division_equations; lia).
    exact E. }
  assert (Hfb : forall k, 0 <= k < 4096 * nblk n ->
    fbyte (set_block a m (set_io m (set_io (disk r a) r))) n k =
      if decide (k / 4096 = off / 4096) then m (k mod 4096) else fbyte r n k).
  { intros k Hk. exact (block_written (set_io m (set_io (disk r a) r)) n x (off / 4096) m k Hf Hbo Hk). }
  split; try done.
  - exact (fview_rdev _ _ _ _ _ _ _ Hv2).
  - unfold ceil_blocks. Z.to_euclidean_division_equations; lia.
  - intros k Hk Hkn. rewrite Hfb by lia. destruct (decide _) as [E|]; [|done].
    unfold m. rewrite put_bytes_out by (Z.to_euclidean_division_equations; lia). unfold fbyte. by rewrite E.
  - intros k Hk. rewrite Hfb by (Z.to_euclidean_division_equations; lia).
    rewrite decide_True by (Z.to_euclidean_division_equations; lia). by apply Hin.
  - intros k Hk. unfold ceil_blocks in Hk. rewrite Hfb by (Z.to_euclidean_division_equations; lia).
    rewrite decide_False; [done|]. Z.to_euclidean_division_equations; lia.
  - intros c Hc. split; [|done]. cbn [set_block disk set_io]. destruct Hc as [Hc _].
    rewrite (proj2 (Z.eqb_neq _ _)); [done|]. intros ->. by apply (Hc (off / 4096) Hbo).
Qed.

(** The two parts of [rfs_write] that store: the first block when the write
    starts inside it, then the rest. *)
Lemma write_parts_run s p n x i r off w :
  let len := Z.of_nat (length w) in
  fview s p n x i r -> file_ok n x -> 0 <= off <= 4096 * nblk n -> Forall is_byte w ->
  ceil_blocks (off + len) <= 10 -> ceil_blocks (off + len) - nblk n <= Z.of_nat (length (free_list x)) ->
  let align := off mod 4096 in
  let wt := (len + align) / 4096 in
  let remain := (len + align) mod 4096 in
  exists s' n' x' r',
  (let* '(bo, wt, w1) :=
    if negb (align =? 0) then
      let* b := addr_of n (off / 4096) in
      let* _ := rfs_r1block i b in
      let fl := if wt =? 0 then len else 4096 - align in
      set_iobuffer i (fun m => put_bytes m align (take (Z.to_nat fl) w)) ;;;
      let* _ := rfs_w1block i b in
      ret (off / 4096 + 1, wt - 1, drop (Z.to_nat fl) w)
    else ret (off / 4096, wt, w) in
   when (0 <=? wt)
    (write_blocks (Z.to_nat wt) p i bo w1 ;;;
     when (0 <? remain)
       (write_block p i (bo + wt) (take (Z.to_nat remain) (drop (Z.to_nat (4096 * wt)) w1))))) s = Ret tt s' /\
  wrote s s' p n n' x x' i r r' off (off + len) (fun k => default 0 (w !! Z.to_nat (k - off))).
Proof.
  intros len Hv Hf Hoff Hby H10 Hfree align wt remain.
  destruct (Z.eqb_spec align 0) as [Hal|Hal]; cbn [negb].
  - rewrite bind_ret_l. assert (E : 4096 * (off / 4096) = off) by (unfold align in Hal; Z.to_euclidean_division_equations; lia).
    assert (Ewt : wt = len / 4096) by (unfold wt; by rewrite Hal, Z.add_0_r).
    assert (Erm : remain = len mod 4096) by (unfold remain; by rewrite Hal, Z.add_0_r).
    rewrite (proj2 (Z.leb_le 0 wt)) by (rewrite Ewt; apply Z.div_pos; unfold len; lia). cbn [when].
    pose proof (write_tail_run s p n x i r (off / 4096) w Hv Hf ltac:(lia) Hby) as Ht. fold len in Ht. rewrite !E in Ht.
    rewrite Ewt, Erm. by apply Ht.
  - assert (Hb : off / 4096 < nblk n) by (unfold align in Hal; Z.to_euclidean_division_equations; lia).
    assert (Halr : 0 < align < 4096) by (unfold align in *; Z.to_euclidean_division_equations; lia).
    assert (Eoff : off = 4096 * (off / 4096) + align) by (unfold align; Z.to_euclidean_division_equations; lia).
    assert (Ewt : len + align = 4096 * wt + remain /\ 0 <= remain < 4096 /\ 0 <= wt)
      by (unfold wt, remain; clear -Halr; Z.to_euclidean_division_equations; lia).
    set (fl := if wt =? 0 then len else 4096 - align).
    assert (Hfl : 0 <= fl <= len /\ align + fl <= 4096 /\ (wt <> 0 -> align + fl = 4096) /\ (wt = 0 -> fl = len)).
    { unfold fl. destruct (Z.eqb_spec wt 0); lia. }
    assert (Hlt : length (take (Z.to_nat fl) w) = Z.to_nat fl) by (rewrite length_take; unfold len in *; lia).
    destruct (first_block_run s p n x i r off (take (Z.to_nat fl) w)) as (s1 & r1 & Hrun & Hw1); try done.
    { lia. } { by apply Forall_take. } { fold align. lia. } { fold align. rewrite Hlt. lia. }
    rewrite Hlt, Z2Nat.id in Hw1 by lia. fold align in Hrun.
    assert (Hfirst : (let* b := addr_of n (off / 4096) in
      let* _ := rfs_r1block i b in
      set_iobuffer i (fun m => put_bytes m align (take (Z.to_nat fl) w)) ;;;
      let* _ := rfs_w1block i b in
      ret (off / 4096 + 1, wt - 1, drop (Z.to_nat fl) w)) s =
      Ret (off / 4096 + 1, wt - 1, drop (Z.to_nat fl) w) s1).
    { revert Hrun. clear. unfold bind. destruct (addr_of _ _ s) as [b s2|]; [|done].
      destruct (rfs_r1block i b s2) as [? s3|]; [|done]. destruct (set_iobuffer _ _ s3) as [? s4|]; [|done].
      by intros ->. }
    rewrite (bind_Ret _ _ _ _ _ Hfirst). clear Hfirst Hrun.
    assert (Hw1' : wrote s s1 p n n x x i r r1 off (off + fl) (fun k => default 0 (w !! Z.to_nat (k - off)))).
    { eapply wrote_ext; [|exact Hw1]. intros k Hk. cbn beta. by rewrite lookup_take_lt by lia. }
    destruct (Z.leb_spec 0 (wt - 1)) as [Hwt|Hwt]; cbn [when].
    + pose proof (write_tail_run s1 p n x i r1 (off / 4096 + 1) (drop (Z.to_nat fl) w) (w_view _ _ _ _ _ _ _ _ _ _ _ _ _ Hw1) Hf
        ltac:(lia) ltac:(by apply Forall_drop)) as Ht.
      assert (Hld : Z.of_nat (length (drop (Z.to_nat fl) w)) = 4096 * (wt - 1) + remain)
        by (rewrite length_drop; unfold len in *; lia).
      rewrite Hld in Ht.
      replace ((4096 * (wt - 1) + remain) / 4096) with (wt - 1) in Ht by (clear -Ewt; Z.to_euclidean_division_equations; lia).
      replace ((4096 * (wt - 1) + remain) mod 4096) with remain in Ht by (clear -Ewt; Z.to_euclidean_division_equations; lia).
      replace (4096 * (off / 4096 + 1) + (4096 * (wt - 1) + remain)) with (off + len) in Ht by lia.
      destruct (Ht H10 Hfree) as (s2 & n2 & x2 & r2 & Hrun2 & Hw2).
      exists s2, n2, x2, r2. split; [exact Hrun2|].
      replace (4096 * (off / 4096 + 1)) with (off + fl) in Hw2 by lia.
      eapply wrote_trans; [..|exact Hw1'|eapply wrote_ext; [|exact Hw2]]; cbn beta; try lia.
      * clear -Eoff Hfl Hwt. Z.to_euclidean_division_equations; lia.
      * intros k Hk. rewrite lookup_drop. do 2 f_equal. lia.
    + exists s1, n, x, r1. split; [done|]. by replace (off + len) with (off + fl) by lia.
Qed.

(** Running on after a part that returns. *)
Lemma bind_split3 {A B C D} (c : M (fstate PS) (A * B * C)) (k : A -> B -> C -> M (fstate PS) unit)
    (rest : M (fstate PS) D) s s' :
  bind c (fun t => let '(a, b, d) := t in k a b d) s = Ret tt s' ->
  bind c (fun t => let '(a, b, d) := t in (k a b d ;;; rest)) s = rest s'.
Proof. unfold bind. destruct (c s) as [[[a b] d] s1|]; [|done]. by intros ->. Qed.

Lemma rfs_write_run s p n x i r off w :
  let len := Z.of_nat (length w) in
  fview s p n x i r -> file_ok n x -> 0 <= off <= vsize n -> vsize n <= 4096 * nblk n -> Forall is_byte w ->
  ceil_blocks (off + len) <= 10 -> ceil_blocks (off + len) - nblk n <= Z.of_nat (length (free_list x)) ->
  exists s' n' x' r',
    wrote s s' p n n' x x' i r r' off (off + len) (fun k => default 0 (w !! Z.to_nat (k - off))) /\
    rfs_write p w off s = Ret (len, off + len) (with_vinode p (set_vsize (Z.max (vsize n) (off + len)) n') s').
Proof.
  intros len Hv Hf Hoff Hsz Hby H10 Hfree.
  destruct (write_parts_run s p n x i r off w Hv Hf ltac:(lia) Hby H10 Hfree) as (s' & n' & x' & r' & Hrun & Hw).
  exists s', n', x', r'. split; [done|]. unfold rfs_write. fold len.
  rewrite (bind_Ret _ _ _ _ _ (get_vinode_run _ _ _ (fv_vinode _ _ _ _ _ _ Hv))).
  unfold check. rewrite (proj2 (Z.ltb_ge _ _)) by lia. rewrite bind_ret_l.
  rewrite (proj2 (Z.ltb_ge off 0)) by lia. rewrite bind_ret_l.
  unfold RFS_BLKSIZE. rewrite (Z.rem_mod_nonneg off), (Z.quot_div_nonneg off) by lia.
  pose proof (Z.mod_pos_bound off 4096 ltac:(lia)) as Hm.
  rewrite (Z.quot_div_nonneg (len + _)), (Z.rem_mod_nonneg (len + _)) by (unfold len; lia).
  rewrite (bind_Ret _ _ _ _ _ (rdev_of_run _ _ _ _ _ _ Hv)).
  etransitivity; [exact (bind_split3 _ _ _ s s' Hrun)|].
  unfold upd_vinode. rewrite bind_assoc.
  rewrite (bind_Ret _ _ _ _ _ (get_vinode_run _ _ _ (fv_vinode _ _ _ _ _ _ (w_view _ _ _ _ _ _ _ _ _ _ _ _ _ Hw)))).
  rewrite (w_size _ _ _ _ _ _ _ _ _ _ _ _ _ Hw).
  replace (if vsize n <? off + len then off + len else vsize n) with (Z.max (vsize n) (off + len))
    by (destruct (Z.ltb_spec (vsize n) (off + len)); lia).
  done.
Qed.

(** ** Reading *)

Lemma slice_app r n off a b : slice r n off (a + b) = slice r n off a ++ slice r n (off + Z.of_nat a) b.
Proof.
  unfold slice. rewrite seq_app, fmap_app. f_equal. rewrite Nat.add_0_l, <- (Nat.add_0_r a) at 1.
  rewrite <- fmap_add_seq, <- list_fmap_compose. apply list_fmap_ext. intros k j _. cbn. f_equal. lia.
Qed.

Lemma bytes_at_slice r n bo al len :
  0 <= bo -> 0 <= al -> al + Z.of_nat len <= 4096 ->
  bytes_at (disk r (addr n bo)) al len = slice r n (4096 * bo + al) len.
Proof.
  intros Hbo Hal Hlen. unfold bytes_at, slice. apply list_fmap_ext. intros k j Hj.
  apply lookup_seq in Hj as [-> Hj]. unfold fbyte.
  replace ((4096 * bo + al + Z.of_nat (0 + k)) / 4096) with bo by (Z.to_euclidean_division_equations; lia).
  f_equal. Z.to_euclidean_division_equations; lia.
Qed.

(** The state of the reader: only the iobuffer changes. *)
Definition reading (i : Z) (r : rfs_device) (s : fstate PS) (m : bmem) : fstate PS := with_rdev i (set_io m r) s.

Lemma reading_block s i r m b :
  dev_at s i r -> 0 <= b < RAMDISK_BLOCK_COUNT ->
  rfs_r1block i b (reading i r s m) = Ret 0 (reading i r s (disk r b)).
Proof.
  intros Hd Hb. unfold rfs_r1block, reading. rewrite (ramdisk_read_run _ i (set_io m r)) by (done || by eapply dev_at_with).
  by rewrite with_rdev_twice.
Qed.

Lemma reading_iobuffer s i r m : dev_at s i r -> get_iobuffer i (reading i r s m) = Ret m (reading i r s m).
Proof. intros Hd. apply (get_iobuffer_run _ i (set_io m r)). by eapply dev_at_with. Qed.

(** Reading [k] bytes at [al] of block [bo] of the file. *)
Lemma read_at_run s i r m n x bo al k {A} (cont : list Z -> M (fstate PS) A) :
  dev_at s i r -> file_ok n x -> 0 <= bo < nblk n -> 0 <= al -> al + Z.of_nat k <= 4096 ->
  (let* b := addr_of n bo in
   let* _ := rfs_r1block i b in
   let* io := get_iobuffer i in
   cont (bytes_at io al k)) (reading i r s m) =
  cont (slice r n (4096 * bo + al) k) (reading i r s (disk r (addr n bo))).
Proof.
  intros Hd Hf Hbo Hal Hk. pose proof (fo_blocks _ _ Hf).
  rewrite (bind_Ret _ _ _ _ _ (addr_of_run (reading i r s m) n bo (fo_len _ _ Hf) ltac:(lia))).
  rewrite (bind_Ret _ _ _ _ _ (reading_block s i r m (addr n bo) Hd (file_block_range n x bo Hf Hbo))).
  rewrite (bind_Ret _ _ _ _ _ (reading_iobuffer s i r _ Hd)). by rewrite bytes_at_slice by lia.
Qed.

Lemma read_blocks_run t s i r m n x bo buf :
  dev_at s i r -> file_ok n x -> 0 <= bo -> bo + Z.of_nat t <= nblk n ->
  exists m', read_blocks t i n bo buf (reading i r s m) =
    Ret (buf ++ slice r n (4096 * bo) (4096 * t)) (reading i r s m').
Proof.
  intros Hd Hf. revert m bo buf. induction t as [|t IH]; intros m bo buf Hbo Ht; cbn [read_blocks].
  { exists m. by rewrite Nat.mul_0_r, app_nil_r. }
  rewrite (read_at_run s i r m n x bo 0 4096 (fun l => read_blocks t i n (bo + 1) (buf ++ l))) by (done || lia).
  destruct (IH (disk r (addr n bo)) (bo + 1) (buf ++ slice r n (4096 * bo + 0) 4096)) as (m' & Hrun); [lia|lia|].
  exists m'. rewrite Hrun. f_equal. rewrite Z.add_0_r, <- app_assoc. f_equal.
  replace (4096 * S t)%nat with (4096 + 4096 * t)%nat by lia. rewrite slice_app. do 2 f_equal. lia.
Qed.

Lemma reading_start s i r : dev_at s i r -> s = reading i r s (iobuffer r).
Proof.
  intros [Hi Hd]. unfold reading, with_rdev. destruct s, r; cbn in *. unfold set_rfs_device_list, set_io. cbn.
  by rewrite list_insert_id.
Qed.

Lemma read_at_start s i r n x bo al k {A} (cont : list Z -> M (fstate PS) A) :
  dev_at s i r -> file_ok n x -> 0 <= bo < nblk n -> 0 <= al -> al + Z.of_nat k <= 4096 ->
  (let* b := addr_of n bo in
   let* _ := rfs_r1block i b in
   let* io := get_iobuffer i in
   cont (bytes_at io al k)) s = cont (slice r n (4096 * bo + al) k) (reading i r s (disk r (addr n bo))).
Proof.
  intros Hd Hf Hbo Hal Hk. etransitivity; [|exact (read_at_run s i r (iobuffer r) n x bo al k cont Hd Hf Hbo Hal Hk)].
  by rewrite <- reading_start.
Qed.

Lemma rfs_read_run s p n x i r off len :
  fview s p n x i r -> file_ok n x -> 0 <= off < vsize n -> vsize n <= 4096 * nblk n -> 0 <= len ->
  let k := Z.min len (vsize n - off) in
  exists m, rfs_read p len off s = Ret (k, until_nul (slice r n off (Z.to_nat k)) ++ [0], off + k) (reading i r s m).
Proof.
  intros Hv Hf Hoff Hsz Hlen k. pose proof (fo_blocks _ _ Hf) as Hnb. unfold rfs_read.
  rewrite (bind_Ret _ _ _ _ _ (get_vinode_run _ _ _ (fv_vinode _ _ _ _ _ _ Hv))).
  unfold check. rewrite (proj2 (Z.ltb_ge _ _)) by lia. rewrite bind_ret_l.
  replace (if vsize n <? off + len then vsize n - off else len) with k
    by (unfold k; destruct (Z.ltb_spec (vsize n) (off + len)); lia).
  assert (Hk : 0 <= k /\ off + k <= vsize n) by (unfold k; lia). clearbody k.
  replace ((k <? 0) || (off <? 0)) with false by lia. rewrite bind_ret_l.
  unfold RFS_BLKSIZE. rewrite (Z.rem_mod_nonneg off), (Z.quot_div_nonneg off) by lia.
  pose proof (Z.mod_pos_bound off 4096 ltac:(lia)) as Hm.
  rewrite (Z.quot_div_nonneg (_ + k)), (Z.rem_mod_nonneg (_ + k)) by lia.
  rewrite (bind_Ret _ _ _ _ _ (rdev_of_run _ _ _ _ _ _ Hv)). pose proof (fv_rdev _ _ _ _ _ _ Hv) as Hd.
  assert (Hbo : 0 <= off / 4096 < nblk n) by (Z.to_euclidean_division_equations; lia).
  assert (Eoff : off = 4096 * (off / 4096) + off mod 4096) by (Z.to_euclidean_division_equations; lia).
  set (al := off mod 4096) in *. set (bo := off / 4096) in *.
  assert (Ert : al + k = 4096 * ((al + k) / 4096) + (al + k) mod 4096 /\ 0 <= (al + k) mod 4096 < 4096 /\
                0 <= (al + k) / 4096) by (clear -Hm Hk; Z.to_euclidean_division_equations; lia).
  set (rt := (al + k) / 4096) in *. set (rm := (al + k) mod 4096) in *. clearbody al bo rt rm.
  set (fl := if rt =? 0 then k else 4096 - al).
  assert (Hfl : 0 <= fl /\ al + fl <= 4096 /\ (rt = 0 -> fl = k) /\ (rt <> 0 -> al + fl = 4096)).
  { unfold fl. destruct (Z.eqb_spec rt 0); lia. }
  rewrite (read_at_start s i r n x bo al (Z.to_nat fl) (fun buf => bind
    (if 0 <=? rt - 1 then
      let* buf := read_blocks (Z.to_nat (rt - 1)) i n (bo + 1) buf in
      if 0 <? rm then
        let* b := addr_of n (bo + rt) in
        let* _ := rfs_r1block i b in
        let* io := get_iobuffer i in
        ret (buf ++ bytes_at io 0 (Z.to_nat rm))
      else ret buf
    else ret buf) (fun buf => ret (k, until_nul buf ++ [0], off + k)))) by (done || lia).
  rewrite <- Eoff.
  destruct (Z.leb_spec 0 (rt - 1)) as [Hrt|Hrt].
  - rewrite bind_assoc.
    destruct (read_blocks_run (Z.to_nat (rt - 1)) s i r (disk r (addr n bo)) n x (bo + 1) (slice r n off (Z.to_nat fl)) Hd Hf)
      as (m & Hrun); [lia|lia|].
    rewrite (bind_Ret _ _ _ _ _ Hrun). replace (4096 * (bo + 1)) with (off + Z.of_nat (Z.to_nat fl)) by lia.
    rewrite <- slice_app. destruct (Z.ltb_spec 0 rm) as [Hr|Hr].
    + exists (disk r (addr n (bo + rt))). unfold bind at 1.
      rewrite (read_at_run s i r m n x (bo + rt) 0 (Z.to_nat rm)
        (fun l => ret (slice r n off (Z.to_nat fl + 4096 * Z.to_nat (rt - 1)) ++ l))) by (done || lia).
      unfold ret. cbn beta iota.
      replace (4096 * (bo + rt) + 0) with (off + Z.of_nat (Z.to_nat fl + 4096 * Z.to_nat (rt - 1))) by lia.
      rewrite <- slice_app. by replace (_ + Z.to_nat rm)%nat with (Z.to_nat k) by lia.
    + exists m. rewrite bind_ret_l. unfold ret. by replace (_ + _)%nat with (Z.to_nat k) by lia.
  - eexists. rewrite bind_ret_l. unfold ret. by replace fl with k by lia.
Qed.

(** The invariant of an open file: its blocks are its own and hold its size. *)
Definition file_inv (s : fstate PS) (p : Z) (n : vinode) (x : super_block) (i : Z) (r : rfs_device) : Prop :=
  fview s p n x i r /\ file_ok n x /\ 0 <= vsize n <= 4096 * nblk n.

Lemma file_inv_sized s p n x i r v :
  fview s p n x i r -> file_ok n x -> 0 <= v <= 4096 * nblk n ->
  file_inv (with_vinode p (set_vsize v n) s) p (set_vsize v n) x i r.
Proof.
  intros [Hn Hx Hd Hr] [H1 H2 H3 H4 H5] Hv. split; [|split]; [|by split|done].
  split; [apply lookup_insert_eq|done|done|done].
Qed.

(** C4: [rfs_write] stores what it is given.  A write of [w] at an offset up to
    the end of the file, for which the file has room (ten blocks) and the disk
    has free blocks, returns its length; bytes before the offset keep their
    values, the bytes of [w] follow, the size grows to the end of the write, and
    the invariant of the file is kept; no inode block and no block of another
    file is changed, and no other inode. *)
Theorem rfs_write_correct s p n x i r off w :
  file_inv s p n x i r -> 0 <= off <= vsize n -> Forall is_byte w ->
  off + Z.of_nat (length w) <= 4096 * 10 ->
  ceil_blocks (off + Z.of_nat (length w)) - nblk n <= Z.of_nat (length (free_list x)) ->
  exists s' n' x' r', rfs_write p w off s = Ret (Z.of_nat (length w), off + Z.of_nat (length w)) s' /\
    file_inv s' p n' x' i r' /\ vsize n' = Z.max (vsize n) (off + Z.of_nat (length w)) /\
    (forall k, 0 <= k < off -> fbyte r' n' k = fbyte r n k) /\
    slice r' n' off (length w) = w /\
    (forall c, foreign n x c -> disk r' c = disk r c) /\
    (forall q, q <> p -> vinodes s' !! q = vinodes s !! q).
Proof.
  intros (Hv & Hf & Hsz) Hoff Hby H10 Hfree.
  assert (Hc : ceil_blocks (off + Z.of_nat (length w)) <= 10)
    by (unfold ceil_blocks; Z.to_euclidean_division_equations; lia).
  destruct (rfs_write_run s p n x i r off w Hv Hf Hoff ltac:(lia) Hby Hc Hfree) as (s' & n' & x' & r' & Hw & Hrun).
  pose proof (w_nblk _ _ _ _ _ _ _ _ _ _ _ _ _ Hw) as En.
  assert (Hle : off + Z.of_nat (length w) <= 4096 * ceil_blocks (off + Z.of_nat (length w)))
    by (unfold ceil_blocks; Z.to_euclidean_division_equations; lia).
  exists (with_vinode p (set_vsize (Z.max (vsize n) (off + Z.of_nat (length w))) n') s').
  exists (set_vsize (Z.max (vsize n) (off + Z.of_nat (length w))) n'), x', r'.
  split; [exact Hrun|]. split; [apply file_inv_sized; [apply Hw|apply Hw|lia]|]. split; [done|].
  split; [intros k Hk; apply (w_before _ _ _ _ _ _ _ _ _ _ _ _ _ Hw); lia|]. split; [|split].
  - apply list_eq. intros j. unfold slice. rewrite list_lookup_fmap.
    destruct (decide (j < length w)%nat) as [Hj|Hj].
    + rewrite lookup_seq_lt by done. cbn [fmap option_fmap option_map].
      destruct (lookup_lt_is_Some_2 w j Hj) as [c Hc']. rewrite Hc'. f_equal.
      change (fbyte r' n' (off + Z.of_nat (0 + j)) = c). rewrite (w_in _ _ _ _ _ _ _ _ _ _ _ _ _ Hw) by lia.
      replace (Z.to_nat (off + Z.of_nat (0 + j) - off)) with j by lia. by rewrite Hc'.
    + by rewrite lookup_seq_ge, lookup_ge_None_2 by lia.
  - intros c Hc'. by apply Hw.
  - intros q Hq. cbn. rewrite lookup_insert_ne by done. by apply Hw.
Qed.

(** C18: [rfs_read] returns what the file holds.  From an offset inside the file
    it reads as many bytes as asked for, up to the end of the file, moves the
    offset by as much, and stores the file's bytes up to the first NUL and a NUL; the
    disk and all inodes stay as they are. *)
Theorem rfs_read_correct s p n x i r off len :
  file_inv s p n x i r -> 0 <= off < vsize n -> 0 <= len ->
  let k := Z.min len (vsize n - off) in
  exists s' r', rfs_read p len off s = Ret (k, until_nul (slice r n off (Z.to_nat k)) ++ [0], off + k) s' /\
    dev_at s' i r' /\ disk r' = disk r /\ vinodes s' = vinodes s /\ supers s' = supers s.
Proof.
  intros (Hv & Hf & Hsz) Hoff Hlen k.
  destruct (rfs_read_run s p n x i r off len Hv Hf Hoff ltac:(lia) Hlen) as (m & Hrun).
  exists (reading i r s m), (set_io m r). split; [exact Hrun|].
  split; [eapply dev_at_with; apply Hv|]. done.
Qed.

Lemma until_nul_id l : Forall (fun c => c <> 0) l -> until_nul l = l.
Proof.
  induction l as [|c l IH]; intros Hl; [done|]. apply list.Forall_cons in Hl as [Hc Hl]. cbn.
  rewrite (proj2 (Z.eqb_neq c 0)) by done. by rewrite IH.
Qed.

End Files.

(** A file of five bytes in block 12, of which a write at offset 3 replaces the
    last two and appends more. *)
Definition hello : bmem := put_bytes (fun _ => 0) 0 [104; 101; 108; 108; 111].
Definition rdev1 : rfs_device := mkRdev 0 128 4096 (fun _ => 0) (fun b => if b =? 12 then hello else fun _ => 0).
Definition super1 : super_block :=
  mkSuper RFS_MAGIC 112 100 320 0 4096 (fun a => if a =? 0 then 1 else 0).
Definition inode1 : vinode := mkVinode 1 1 5 FILE_I 1 1 (12 :: replicate 9 0) 0 8192 RFS.
Definition fs1 : fstate (list Z) :=
  set_vinodes {[ 12288 := inode1 ]} (set_supers {[ 8192 := super1 ]} (with_rdev 0 rdev1 fs0)).

Lemma file1_inv : file_inv fs1 12288 inode1 super1 0 rdev1.
Proof.
  split; [|split].
  - split; [reflexivity|reflexivity|eexists; split; reflexivity|done].
  - split; [reflexivity|vm_compute; split; congruence|vm_compute; split; congruence| |].
    + intros k Hk. cbn in Hk. assert (k = 0) as -> by lia. vm_compute. intuition congruence.
    + intros j k Hj Hk _. cbn in *. lia.
  - vm_compute; split; congruence.
Qed.

Lemma rfs_write_correct_witness :
  exists s' n' x' r', rfs_write 12288 [112; 33; 33] 3 fs1 = Ret (3, 6) s' /\
    file_inv s' 12288 n' x' 0 r' /\ vsize n' = 6 /\ slice r' n' 3 3 = [112; 33; 33].
Proof.
  destruct (rfs_write_correct fs1 12288 inode1 super1 0 rdev1 3 [112; 33; 33])
    as (s' & n' & x' & r' & H1 & H2 & H3 & _ & H4 & _).
  - exact file1_inv.
  - cbn; lia.
  - repeat (apply Forall_cons_2; [unfold is_byte; lia|]); apply Forall_nil_2.
  - cbn; lia.
  - vm_compute; congruence.
  - exists s', n', x', r'. split; [exact H1|]. split; [exact H2|]. split; [exact H3|exact H4].
Defined.

Lemma rfs_read_correct_witness :
  exists s', rfs_read 12288 100 1 fs1 = Ret (4, [101; 108; 108; 111; 0], 5) s'.
Proof.
  destruct (rfs_read_correct fs1 12288 inode1 super1 0 rdev1 1 100) as (s' & r' & H1 & _).
  - exact file1_inv.
  - cbn; lia.
  - lia.
  - exists s'. exact H1.
Defined.

(** Overwriting the beginning of a block loses the rest of it.  Of the
    file of five bytes "hello", a write of one byte at offset 0 leaves only
    that byte: the code fills the block from an iobuffer into which it did not
    read the block first. *)
Theorem rfs_overwrite_clobbers :
  match (let* _ := rfs_write 12288 [72] 0 in rfs_read 12288 5 0) fs1 with
  | Ret (k, l, off) _ => k = 5 /\ l = [72; 0] /\ off = 5
  | Stop _ _ => False
  end.
Proof. vm_compute. repeat split. Qed.
