(* ===== verification/RfsDir.v ===== *)
(** * Directories of rfs

    A directory is a file of entries of 32 bytes, an inode number and a name.
    The code keeps the entries of a directory in its first block (it never
    gives a directory a second one), so a directory has at most 128 entries. *)
From S2P Require Import Prelude Pages HashTable CString VfsData Rfs RfsDisk RfsFile.

(** A NUL among the 28 bytes of a name. *)
Definition terminated (m : bmem) (a : Z) : Prop := exists k, 0 <= k < 28 /\ m (a + k) = 0.

Definition is_name (l : list Z) : Prop := Forall (fun c => 0 < c < 256) l.

(** The first of the [total] entries of block [m] from [j] on with this name:
    its index and inode number. *)
Fixpoint dir_find (fuel : nat) (m : bmem) (j : Z) (name : list Z) : option (Z * Z) :=
  match fuel with
  | O => None
  | S f => if str_at m (32 * j + 4) name then Some (j, ld_int m (32 * j)) else dir_find f m (j + 1) name
  end.

Lemma str_at_ext m m' a k name :
  is_name name -> 0 <= k -> m (a + k) = 0 -> (forall x, a <= x <= a + k -> m' x = m x) ->
  str_at m' a name = str_at m a name.
Proof.
  revert a k. induction name as [|c name IH]; intros a k Hn Hk Hz He; cbn [str_at]; [by rewrite He by lia|].
  apply list.Forall_cons in Hn as [Hc Hn]. rewrite (He a) by lia.
  destruct (Z.eqb_spec (m a) c) as [E|E]; [|done]. cbn [andb].
  destruct (decide (k = 0)) as [->|Hne]; [rewrite Z.add_0_r in Hz; lia|].
  apply (IH (a + 1) (k - 1)); [done|lia|by replace (a + 1 + (k - 1)) with (a + k) by lia|].
  intros x Hx. apply He. lia.
Qed.

Lemma str_at_put m a name nm :
  is_name name -> is_name nm -> str_at (put_bytes m a (name ++ [0])) a nm = bool_decide (nm = name).
Proof.
  intros Hname. revert m a nm. induction name as [|c name IH]; intros m a nm Hnm.
  - cbn [app put_bytes]. destruct nm as [|d nm]; cbn [str_at]; rewrite upd_eq by lia; [done|].
    apply list.Forall_cons in Hnm as [Hd _]. rewrite (proj2 (Z.eqb_neq 0 d)) by lia. done.
  - apply list.Forall_cons in Hname as [Hc Hname]. cbn [app put_bytes].
    destruct nm as [|d nm]; cbn [str_at]; rewrite (put_bytes_out _ (a + 1)), upd_eq by lia.
    + by rewrite (proj2 (Z.eqb_neq c 0)) by lia.
    + apply list.Forall_cons in Hnm as [Hd Hnm]. rewrite IH by done.
      destruct (Z.eqb_spec c d) as [->|Hne]; cbn [andb].
      * apply bool_decide_ext. split; [by intros ->|by intros [= ->]].
      * symmetry. apply bool_decide_eq_false. congruence.
Qed.

Lemma put_terminated m a name : (length name <= 27)%nat -> terminated (put_bytes m a (name ++ [0])) a.
Proof.
  intros Hl. exists (Z.of_nat (length name)). split; [lia|].
  apply (put_bytes_in _ _ _ (length name) 0); [|lia].
  rewrite lookup_app_r by lia. by rewrite Nat.sub_diag.
Qed.

(** An entry depends on its own 32 bytes only. *)
Lemma dir_find_ext fuel m m' j name :
  is_name name -> (forall t, j <= t < j + Z.of_nat fuel -> terminated m (32 * t + 4)) ->
  (forall x, 32 * j <= x < 32 * (j + Z.of_nat fuel) -> m' x = m x) ->
  dir_find fuel m' j name = dir_find fuel m j name.
Proof.
  intros Hn. revert j. induction fuel as [|f IH]; intros j Ht He; [done|]. cbn [dir_find].
  destruct (Ht j ltac:(lia)) as (k & Hk & Hz).
  rewrite (str_at_ext m m' (32 * j + 4) k name) by (done || lia || (intros; apply He; lia)).
  rewrite (ld_int_ext m m') by (intros; apply He; lia).
  rewrite IH; [done| |]; intros; [apply Ht|apply He]; lia.
Qed.

Lemma dir_find_snoc fuel m j name :
  dir_find (S fuel) m j name =
    match dir_find fuel m j name with
    | Some r => Some r
    | None => if str_at m (32 * (j + Z.of_nat fuel) + 4) name
              then Some (j + Z.of_nat fuel, ld_int m (32 * (j + Z.of_nat fuel))) else None
    end.
Proof.
  revert j. induction fuel as [|f IH]; intros j; [cbn; by rewrite Z.add_0_r|].
  cbn [dir_find] in IH |- *. destruct (str_at m (32 * j + 4) name); [done|]. rewrite IH.
  by replace (j + 1 + Z.of_nat f) with (j + Z.of_nat (S f)) by lia.
Qed.

Section Dirs.
Context {PS : Type} `{PageSource PS}.

(** A directory at inode [p] with [total] entries, in block [addr n 0]. *)
Record dir_inv (s : fstate PS) (p : Z) (n : vinode) (x : super_block) (i : Z) (r : rfs_device) (total : nat) : Prop := {
  di_view : fview s p n x i r;
  di_dinode : dinode_ok (dinode_of n);
  di_isdir : vtype n = DIR_I;
  di_inum : 0 <= inum n < MAX_INODES;
  di_total : vsize n = 32 * Z.of_nat total;
  di_room : (total <= 128)%nat;
  di_block : RFS_BLK_OFFSET_FREE <= addr n 0 < RAMDISK_BLOCK_COUNT;
  di_names t : 0 <= t < Z.of_nat total -> terminated (disk r (addr n 0)) (32 * t + 4)
}.

(** What the directory binds a name to. *)
Definition dir_lookup (r : rfs_device) (n : vinode) (name : list Z) : option Z :=
  snd <$> dir_find (Z.to_nat (vsize n / 32)) (disk r (addr n 0)) 0 name.

Lemma find_step_run (s : fstate PS) i r n name fuel j total :
  dev_at s i r -> 1 <= j -> j + Z.of_nat fuel = total -> total <= 128 ->
  let D := disk r (addr n 0) in
  find_direntry fuel i n name j total (reading i r s D) = Ret (dir_find fuel D j name) (reading i r s D).
Proof.
  intros Hd Hj Ht H128 D. revert j Hj Ht. induction fuel as [|f IH]; intros j Hj Ht; [done|].
  cbn [find_direntry dir_find]. rewrite (proj2 (Z.leb_gt _ _)) by lia.
  assert (Hk : Z.rem j DIRENTRIES_PER_BLOCK = j) by (change DIRENTRIES_PER_BLOCK with 128; apply Z.rem_small; lia).
  rewrite Hk. rewrite (proj2 (Z.eqb_neq j 0)) by lia. rewrite bind_ret_l.
  rewrite (bind_Ret _ _ _ _ _ (reading_iobuffer s i r D Hd)). unfold DIRENTRY_SIZE.
  destruct (str_at D (32 * j + 4) name); [done|]. apply IH; lia.
Qed.

Lemma find_direntry_run (s : fstate PS) p n x i r total name :
  dir_inv s p n x i r total ->
  exists m, find_direntry total i n name 0 (Z.of_nat total) s =
    Ret (dir_find total (disk r (addr n 0)) 0 name) (reading i r s m).
Proof.
  intros Hdir. pose proof (fv_rdev _ _ _ _ _ _ (di_view _ _ _ _ _ _ _ Hdir)) as Hd.
  pose proof (di_room _ _ _ _ _ _ _ Hdir) as Hr. pose proof (di_block _ _ _ _ _ _ _ Hdir) as Hb.
  destruct total as [|f]; [by exists (iobuffer r); rewrite <- reading_start|].
  exists (disk r (addr n 0)). cbn [find_direntry dir_find]. rewrite (proj2 (Z.leb_gt _ _)) by lia.
  change (Z.rem 0 DIRENTRIES_PER_BLOCK) with 0. change (Z.quot 0 DIRENTRIES_PER_BLOCK) with 0. rewrite Z.eqb_refl.
  rewrite bind_assoc.
  rewrite (bind_Ret _ _ _ _ _ (addr_of_run s n 0 (proj1 (di_dinode _ _ _ _ _ _ _ Hdir)) ltac:(lia))).
  rewrite bind_assoc. unfold rfs_r1block.
  rewrite (bind_Ret _ _ _ _ _ (ramdisk_read_run s i r (addr n 0) Hd ltac:(unfold RFS_BLK_OFFSET_FREE in Hb; lia))).
  fold (reading i r s (disk r (addr n 0))). rewrite bind_ret_l.
  rewrite (bind_Ret _ _ _ _ _ (reading_iobuffer s i r _ Hd)). unfold DIRENTRY_SIZE.
  destruct (str_at _ (32 * 0 + 4) name); [done|]. apply find_step_run; [done|lia|lia|lia].
Qed.

(** ** Adding an entry *)

Definition entry_block (m : bmem) (total : nat) (name : list Z) (ino : Z) : bmem :=
  put_bytes (st_int m (32 * Z.of_nat total) ino) (32 * Z.of_nat total + 4) (name ++ [0]).

Definition longer (n : vinode) : vinode := set_vsize (vsize n + 32) n.

(** The device after the entry and the inode of the directory are written. *)
Definition added (r : rfs_device) (n : vinode) (total : nat) (name : list Z) (ino : Z) : rfs_device :=
  let r1 := set_block (addr n 0) (entry_block (disk r (addr n 0)) total name ino)
              (set_io (entry_block (disk r (addr n 0)) total name ino) r) in
  let m := st_dinode (disk r1 (inode_block (inum n))) (inode_offset (inum n)) (dinode_of (longer n)) in
  set_block (inode_block (inum n)) m (set_io m r1).

Lemma write_back_run (s : fstate PS) p n x i r :
  fview s p n x i r -> 0 <= inum n < MAX_INODES ->
  rfs_write_back_vinode p s = Ret 0 (with_rdev i
    (let m := st_dinode (disk r (inode_block (inum n))) (inode_offset (inum n)) (dinode_of n) in
     set_block (inode_block (inum n)) m (set_io m r)) s).
Proof.
  intros Hv Hn. unfold rfs_write_back_vinode.
  rewrite (bind_Ret _ _ _ _ _ (get_vinode_run _ _ _ (fv_vinode _ _ _ _ _ _ Hv))).
  rewrite (bind_Ret _ _ _ _ _ (rdev_of_run _ _ _ _ _ _ Hv)).
  by rewrite (bind_Ret _ _ _ _ _ (write_dinode_run s i r (dinode_of n) (inum n) (fv_rdev _ _ _ _ _ _ Hv) Hn)).
Qed.

Lemma add_direntry_run (s : fstate PS) p n x i r total name ino :
  dir_inv s p n x i r total -> (total < 128)%nat -> (length name <= 27)%nat ->
  rfs_add_direntry p name ino s = Ret 0 (with_rdev i (added r n total name ino) (with_vinode p (longer n) s)).
Proof.
  intros Hdir Ht Hl. destruct Hdir as [Hv Hdi Hty Hin Htot Hroom Hb _]. pose proof (fv_rdev _ _ _ _ _ _ Hv) as Hd.
  unfold RFS_BLK_OFFSET_FREE in Hb.
  unfold rfs_add_direntry. rewrite (bind_Ret _ _ _ _ _ (get_vinode_run _ _ _ (fv_vinode _ _ _ _ _ _ Hv))).
  rewrite Hty, Z.eqb_refl. cbn [negb]. rewrite (bind_Ret _ _ _ _ _ (rdev_of_run _ _ _ _ _ _ Hv)).
  unfold RFS_BLKSIZE. rewrite Htot. rewrite Z.quot_small, Z.rem_small by lia.
  rewrite (bind_Ret _ _ _ _ _ (addr_of_run s n 0 (proj1 Hdi) ltac:(lia))). unfold rfs_r1block, rfs_w1block.
  rewrite (bind_Ret _ _ _ _ _ (ramdisk_read_run s i r (addr n 0) Hd ltac:(lia))).
  unfold check. rewrite (proj2 (Z.ltb_ge _ _)) by lia. rewrite bind_ret_l.
  pose proof (fview_rdev _ _ _ _ _ _ (set_io (disk r (addr n 0)) r) Hv) as Hv1.
  rewrite (bind_Ret _ _ _ _ _ (set_iobuffer_run _ _ _ _ (fv_rdev _ _ _ _ _ _ Hv1))). rewrite with_rdev_twice.
  set (E := entry_block (disk r (addr n 0)) total name ino).
  change (with_rdev i (set_io _ _) s) with (with_rdev i (set_io E r) s). set (r1 := set_io E r).
  pose proof (fview_rdev _ _ _ _ _ _ r1 Hv) as Hv2.
  rewrite (bind_Ret _ _ _ _ _ (ramdisk_write_run _ i r1 (addr n 0) (fv_rdev _ _ _ _ _ _ Hv2) ltac:(lia))).
  rewrite with_rdev_twice. set (r2 := set_block _ _ r1). pose proof (fview_rdev _ _ _ _ _ _ r2 Hv) as Hv3.
  unfold upd_vinode. rewrite bind_assoc.
  rewrite (bind_Ret _ _ _ _ _ (get_vinode_run _ _ _ (fv_vinode _ _ _ _ _ _ Hv3))).
  unfold put_vinode at 1, modify at 1. unfold bind at 1. fold (with_vinode p (longer n) (with_rdev i r2 s)).
  assert (Hv4 : fview (with_vinode p (longer n) (with_rdev i r2 s)) p (longer n) x i r2).
  { destruct Hv3 as [? ? ? ?]. split; try done. apply lookup_insert_eq. }
  rewrite (bind_Ret _ _ _ _ _ (write_back_run _ p (longer n) x i r2 Hv4 Hin)). cbn [Z.eqb ret].
  unfold ret. f_equal. unfold with_rdev, with_vinode, added, set_rfs_device_list, set_vinodes. cbn.
  by rewrite list_insert_insert_eq.
Qed.

Lemma added_block r n total name ino c :
  0 <= inum n < MAX_INODES -> RFS_BLK_OFFSET_FREE <= addr n 0 -> c <> inode_block (inum n) ->
  disk (added r n total name ino) c =
    if decide (c = addr n 0) then entry_block (disk r (addr n 0)) total name ino else disk r c.
Proof.
  intros Hn Hb Hc. unfold added, set_block, set_io. cbn [disk]. rewrite (proj2 (Z.eqb_neq _ _) Hc).
  destruct (Z.eqb_spec c (addr n 0)) as [->|Hne]; [by rewrite decide_True|by rewrite decide_False].
Qed.

Lemma entry_block_out m total name ino x :
  x < 32 * Z.of_nat total -> entry_block m total name ino x = m x.
Proof. intros Hx. unfold entry_block. rewrite put_bytes_out by lia. apply st_int_out. lia. Qed.

Lemma find_added m total name ino nm :
  is_name name -> is_name nm -> is_int ino ->
  (forall t, 0 <= t < Z.of_nat total -> terminated m (32 * t + 4)) ->
  dir_find (S total) (entry_block m total name ino) 0 nm =
    match dir_find total m 0 nm with
    | Some r => Some r
    | None => if bool_decide (nm = name) then Some (Z.of_nat total, ino) else None
    end.
Proof.
  intros Hname Hnm Hino Ht. rewrite dir_find_snoc.
  rewrite (dir_find_ext total m) by (done || (intros; apply entry_block_out; lia)).
  destruct (dir_find total m 0 nm); [done|]. rewrite !Z.add_0_l. unfold entry_block.
  rewrite str_at_put by done. destruct (bool_decide (nm = name)); [|done]. do 2 f_equal.
  erewrite ld_int_ext; [rewrite ld_st_int_eq; by apply i32_small|]. intros x Hx. apply put_bytes_out. lia.
Qed.

(** The directory after the entry was added. *)
Lemma added_dir (s : fstate PS) p n x i r total name ino :
  dir_inv s p n x i r total -> (total < 128)%nat -> (length name <= 27)%nat -> is_name name -> is_int ino ->
  let r' := added r n total name ino in
  dir_inv (with_rdev i r' (with_vinode p (longer n) s)) p (longer n) x i r' (S total) /\
  (forall nm, is_name nm ->
     dir_lookup r' (longer n) nm = match dir_lookup r n nm with
                                   | Some v => Some v
                                   | None => if bool_decide (nm = name) then Some ino else None
                                   end) /\
  (forall j, 0 <= j < MAX_INODES -> disk_inode r' j = if decide (j = inum n) then dinode_of (longer n) else disk_inode r j) /\
  (forall c, c <> addr n 0 -> c <> inode_block (inum n) -> disk r' c = disk r c).
Proof.
  intros Hdir Ht Hl Hname Hino r'. destruct Hdir as [Hv Hdi Hty Hin Htot Hroom Hb Hnm].
  assert (Hblk : forall j, 0 <= j < MAX_INODES -> addr n 0 <> inode_block j).
  { intros j Hj. pose proof (inode_block_range _ Hj). unfold RFS_BLK_OFFSET_FREE in Hb. lia. }
  assert (Hd0 : disk r' (addr n 0) = entry_block (disk r (addr n 0)) total name ino).
  { unfold r'. rewrite added_block by (auto || lia). by rewrite decide_True. }
  assert (Hdi' : dinode_ok (dinode_of (longer n))).
  { destruct Hdi as [Hlen Hr]. split; [exact Hlen|]. unfold dinode_ints in *. cbn in Hr |- *.
    apply list.Forall_cons in Hr as [_ Hr]. apply Forall_cons_2; [unfold is_int; rewrite Htot; lia|done]. }
  split; [|split; [|split]].
  - split; try done; try lia.
    + destruct Hv as [H1 H2 H3 H4]. split; [apply lookup_insert_eq|done|done|by eapply dev_at_with].
    + cbn [longer set_vsize vsize]. lia.
    + intros t Ht'. change (addr (longer n) 0) with (addr n 0). rewrite Hd0.
      destruct (decide (t = Z.of_nat total)) as [->|Hne]; [by apply put_terminated|].
      destruct (Hnm t ltac:(lia)) as (k & Hk & Hz). exists k. split; [done|]. rewrite entry_block_out by lia. done.
  - intros nm Hnm'. unfold dir_lookup. change (addr (longer n) 0) with (addr n 0). rewrite Hd0.
    cbn [longer set_vsize vsize]. rewrite Htot.
    replace (Z.to_nat ((32 * Z.of_nat total + 32) / 32)) with (S total) by (Z.to_euclidean_division_equations; lia).
    replace (Z.to_nat (32 * Z.of_nat total / 32)) with total by (Z.to_euclidean_division_equations; lia).
    rewrite find_added by done. destruct (dir_find total (disk r (addr n 0)) 0 nm); [done|].
    by destruct (bool_decide (nm = name)).
  - intros j Hj. unfold r', added. rewrite disk_inode_written by (done || lia). destruct (decide (j = inum n)); [done|].
    unfold disk_inode, set_block, set_io. cbn [disk]. by rewrite (proj2 (Z.eqb_neq _ _)) by (intros E; by apply (Hblk j)).
  - intros c Hc Hc'. unfold r'. rewrite added_block by (done || lia). by rewrite decide_False.
Qed.

(** C40: adding an entry to a directory that has room (fewer than 128 entries)
    and a name that fits: afterwards every name that was bound keeps its inode,
    the new name, if it was not bound, is bound to the new inode, and no other
    name is; the inode of the directory on disk shows the new size, and all
    other blocks of the disk are unchanged. *)
Theorem rfs_add_direntry_correct (s : fstate PS) p n x i r total name ino :
  dir_inv s p n x i r total -> (total < 128)%nat -> (length name <= 27)%nat -> is_name name -> is_int ino ->
  exists s' n' r', rfs_add_direntry p name ino s = Ret 0 s' /\ dir_inv s' p n' x i r' (S total) /\
    (forall nm, is_name nm ->
       dir_lookup r' n' nm = match dir_lookup r n nm with
                             | Some v => Some v
                             | None => if bool_decide (nm = name) then Some ino else None
                             end) /\
    disk_inode r' (inum n) = dinode_of n' /\
    (forall c, c <> addr n 0 -> c <> inode_block (inum n) -> disk r' c = disk r c).
Proof.
  intros Hdir Ht Hl Hname Hino. pose proof (add_direntry_run s p n x i r total name ino Hdir Ht Hl) as Hrun.
  destruct (added_dir s p n x i r total name ino Hdir Ht Hl Hname Hino) as (H1 & H2 & H3 & H4).
  exists (with_rdev i (added r n total name ino) (with_vinode p (longer n) s)), (longer n), (added r n total name ino).
  split; [exact Hrun|]. split; [exact H1|]. split; [exact H2|]. split; [|exact H4].
  rewrite H3 by apply Hdir. by rewrite decide_True.
Qed.

(** ** Looking an entry up *)

(** A new inode in memory, read from the disk. *)
Definition loaded (sb ino : Z) (r : rfs_device) : vinode :=
  of_dinode (disk_inode r ino) (mkVinode ino 0 0 0 0 0 (replicate DIRECT_BLKNUM 0) 0 sb RFS).

Lemma new_vinode_run (s : fstate PS) sb x i r ino own k :
  supers s !! sb = Some x -> (exists d, devices s !! s_dev x = Some d /\ dev_id d = i) -> dev_at s i r ->
  0 <= ino < MAX_INODES -> pg_ok (fpages s) own (S (S k)) ->
  exists c ps m, new_vinode sb ino s =
      Ret c (set_fpages ps (with_vinode c (loaded sb ino r) (reading i r s m))) /\
    c <> 0 /\ c ∉ own /\ pg_ok ps ({[c]} ∪ own) (S k).
Proof.
  intros Hx Hdev Hd Hino Hp. unfold new_vinode, rfs_alloc_vinode, default_alloc_vinode.
  destruct (new_page_run s own (S k) Hp) as (c & ps & Ha & Hz & Hc & Hp1).
  rewrite bind_assoc, (bind_Ret _ _ _ _ _ Ha), bind_assoc. unfold put_vinode at 1, modify at 1, bind at 1.
  rewrite bind_ret_l. set (s1 := set_vinodes _ _).
  assert (Hg : get_vinode c s1 = Ret (mkVinode 0 0 0 0 0 0 (replicate DIRECT_BLKNUM 0) 0 sb RFS) s1)
    by (apply get_vinode_run; apply lookup_insert_eq).
  unfold upd_vinode at 1. rewrite bind_assoc, (bind_Ret _ _ _ _ _ Hg). unfold put_vinode at 1, modify at 1, bind at 1.
  set (v := set_inum ino _). set (s2 := set_vinodes _ _).
  assert (Hv2 : fview s2 c v x i r) by (split; [apply lookup_insert_eq|done|done|done]).
  unfold rfs_update_vinode.
  rewrite bind_assoc, (bind_Ret _ _ _ _ _ (get_vinode_run _ _ _ (fv_vinode _ _ _ _ _ _ Hv2))), bind_assoc.
  rewrite (bind_Ret _ _ _ _ _ (rdev_of_run _ _ _ _ _ _ Hv2)), bind_assoc.
  destruct (read_dinode_run s2 i r ino ({[c]} ∪ own) k (fv_rdev _ _ _ _ _ _ Hv2) Hino Hp1)
    as (p2 & ps2 & Hread & _ & Hp2 & Hps2).
  change (inum v) with ino. rewrite (bind_Ret _ _ _ _ _ Hread). unfold upd_vinode.
  set (s3 := set_fpages ps2 _).
  assert (Hg3 : get_vinode c s3 = Ret v s3) by (apply get_vinode_run; apply lookup_insert_eq).
  rewrite !bind_assoc, (bind_Ret _ _ _ _ _ Hg3). unfold put_vinode at 1, modify at 1, bind at 1.
  destruct (pg_free_own ps2 _ _ p2 Hps2 ltac:(set_solver)) as (ps3 & Hfree & Hps3).
  unfold page_op at 1, zoom, bind. cbn [fpages set_vinodes s3 set_fpages]. rewrite Hfree.
  exists c, ps3, (disk r (inode_block ino)). split.
  - unfold ret. f_equal. unfold set_fpages, with_vinode, reading, with_rdev, set_vinodes, set_rfs_device_list. cbn.
    by rewrite !insert_insert_eq.
  - split; [done|]. split; [done|]. by replace ({[c]} ∪ own) with (({[p2]} ∪ ({[c]} ∪ own)) ∖ {[p2]}) by set_solver.
Qed.

(** The search of [rfs_lookup]. *)
Lemma lookup_search (s : fstate PS) p n x i r total name :
  dir_inv s p n x i r total ->
  exists m, rfs_lookup p name s = (match dir_lookup r n name with None => ret 0 | Some ino => new_vinode (vsb n) ino end) (reading i r s m).
Proof.
  intros Hdir. destruct (find_direntry_run s p n x i r total name Hdir) as (m & Hrun). exists m.
  pose proof (di_total _ _ _ _ _ _ _ Hdir) as Htot. pose proof (di_view _ _ _ _ _ _ _ Hdir) as Hv.
  unfold rfs_lookup, dir_lookup. rewrite (bind_Ret _ _ _ _ _ (get_vinode_run _ _ _ (fv_vinode _ _ _ _ _ _ Hv))).
  rewrite (bind_Ret _ _ _ _ _ (rdev_of_run _ _ _ _ _ _ Hv)). unfold DIRENTRY_SIZE.
  replace (vsize n / 32) with (Z.of_nat total) by (rewrite Htot; Z.to_euclidean_division_equations; lia).
  rewrite Nat2Z.id. rewrite (bind_Ret _ _ _ _ _ Hrun).
  by destruct (dir_find total (disk r (addr n 0)) 0 name) as [[j ino]|].
Qed.

Lemma lookup_found (s : fstate PS) p n x i r total name own k ino :
  dir_inv s p n x i r total -> pg_ok (fpages s) own (S (S k)) -> dir_lookup r n name = Some ino -> 0 <= ino < MAX_INODES ->
  exists c ps m, rfs_lookup p name s = Ret c (set_fpages ps (with_vinode c (loaded (vsb n) ino r) (reading i r s m))) /\
    c <> 0 /\ c ∉ own /\ pg_ok ps ({[c]} ∪ own) (S k).
Proof.
  intros Hdir Hp Hl Hino. destruct (lookup_search s p n x i r total name Hdir) as (m & E). rewrite Hl in E.
  pose proof (fview_rdev _ _ _ _ _ _ (set_io m r) (di_view _ _ _ _ _ _ _ Hdir)) as Hv1. fold (reading i r s m) in Hv1.
  destruct (new_vinode_run (reading i r s m) (vsb n) x i (set_io m r) ino own k (fv_super _ _ _ _ _ _ Hv1)
    (fv_device _ _ _ _ _ _ Hv1) (fv_rdev _ _ _ _ _ _ Hv1) Hino Hp) as (c & ps & m' & Hnew & Hrest).
  exists c, ps, m'. split; [|done]. rewrite E, Hnew. f_equal. unfold reading. by rewrite with_rdev_twice.
Qed.

(** [rfs_lookup] finds what the directory binds.  A name without an entry
    gives NULL and leaves inodes and pages alone; a name bound to inode [ino]
    gives a new inode in a page nobody possessed, with the number [ino] and the
    data of the disk inode. *)
Theorem rfs_lookup_correct (s : fstate PS) p n x i r total name own k :
  dir_inv s p n x i r total -> pg_ok (fpages s) own (S (S k)) ->
  match dir_lookup r n name with
  | None => exists s', rfs_lookup p name s = Ret 0 s' /\ vinodes s' = vinodes s /\ fpages s' = fpages s
  | Some ino => 0 <= ino < MAX_INODES -> exists c s', rfs_lookup p name s = Ret c s' /\ c <> 0 /\ c ∉ own /\
      (exists v, vinodes s' = <[c := v]> (vinodes s) /\ inum v = ino /\ dinode_of v = disk_inode r ino) /\
      pg_ok (fpages s') ({[c]} ∪ own) (S k)
  end.
Proof.
  intros Hdir Hp. destruct (dir_lookup r n name) as [ino|] eqn:Hl.
  - intros Hino. destruct (lookup_found s p n x i r total name own k ino Hdir Hp Hl Hino) as (c & ps & m & E & Hz & Hc & Hps).
    exists c. eexists. split; [exact E|]. split; [done|]. split; [done|]. split; [|exact Hps]. by exists (loaded (vsb n) ino r).
  - destruct (lookup_search s p n x i r total name Hdir) as (m & E). rewrite Hl in E. by eexists.
Qed.

End Dirs.

(** A directory with the one entry "ab" for inode 5. *)
Definition rdev2 : rfs_device :=
  mkRdev 0 128 4096 (fun _ => 0) (fun b => if b =? 12 then entry_block (fun _ => 0) 0 [97; 98] 5 else fun _ => 0).
Definition dir1 : vinode := mkVinode 0 1 32 DIR_I 1 1 (12 :: replicate 9 0) 0 8192 RFS.
Definition fs2 : fstate (list Z) :=
  set_vinodes {[ 12288 := dir1 ]} (set_supers {[ 8192 := super1 ]} (with_rdev 0 rdev2 fs0)).

Lemma dir1_inv : dir_inv fs2 12288 dir1 super1 0 rdev2 1.
Proof.
  split.
  - split; [reflexivity|reflexivity|eexists; split; reflexivity|done].
  - split; [reflexivity|]. unfold dinode_ints; cbn.
    repeat (apply Forall_cons_2; [split; vm_compute; congruence|]); apply Forall_nil_2.
  - reflexivity.
  - vm_compute; split; congruence.
  - reflexivity.
  - lia.
  - vm_compute; split; congruence.
  - intros t Ht. assert (t = 0) as -> by lia. exists 2. split; [lia|]. vm_compute. reflexivity.
Qed.

Lemma rfs_add_direntry_correct_witness :
  exists s' n' r', rfs_add_direntry 12288 [99] 7 fs2 = Ret 0 s' /\ dir_inv s' 12288 n' super1 0 r' 2 /\
    dir_lookup r' n' [99] = Some 7 /\ dir_lookup r' n' [97; 98] = Some 5.
Proof.
  destruct (rfs_add_direntry_correct fs2 12288 dir1 super1 0 rdev2 1 [99] 7) as (s' & n' & r' & H1 & H2 & H3 & _).
  - exact dir1_inv.
  - lia.
  - cbn; lia.
  - apply Forall_cons_2; [lia|apply Forall_nil_2].
  - split; vm_compute; congruence.
  - exists s', n', r'. split; [exact H1|]. split; [exact H2|].
    split; rewrite H3 by (repeat (apply Forall_cons_2; [lia|]); apply Forall_nil_2); reflexivity.
Defined.

Lemma rfs_lookup_correct_witness :
  exists c s' v, rfs_lookup 12288 [97; 98] fs2 = Ret c s' /\ vinodes s' = <[c := v]> (vinodes fs2) /\ inum v = 5.
Proof.
  pose proof (rfs_lookup_correct fs2 12288 dir1 super1 0 rdev2 1 [97; 98] ∅ 2 dir1_inv fs0_pages) as Hl.
  change (dir_lookup rdev2 dir1 [97; 98]) with (Some 5) in Hl.
  destruct Hl as (c & s' & H1 & _ & _ & (v & H2 & H3 & _) & _).
  - vm_compute; split; congruence.
  - exists c, s', v. split; [exact H1|]. split; [exact H2|exact H3].
Defined.
