(* ===== verification/RfsLife.v ===== *)
(** * The life of a file: formatting, mounting, creating, storing, finding again

    The operations of Rfs.v composed: a formatted disk, its mount, a new file in the
    root directory, a write, and the lookup and read that find the bytes again. *)
From S2P Require Import Prelude Pages HashTable CString VfsData Rfs RfsDisk RfsFile RfsDir.

Section Life.
Context {PS : Type} `{PageSource PS}.
Implicit Types (s : fstate PS).

(** ** Creating a file *)

Lemma ld_int_range m a : is_int (ld_int m a).
Proof. unfold ld_int, i32, is_int. destruct (_ <? _) eqn:E; [|apply Z.ltb_ge in E]; pose proof (Z.mod_pos_bound (load_le 4 m a) 4294967296 ltac:(lia)); lia. Qed.

Lemma disk_inode_ok r k : dinode_ok (disk_inode r k).
Proof.
  split; [reflexivity|].
  unfold disk_inode, ld_dinode, dinode_ints. cbn [di_size di_type di_nlinks di_blocks di_addrs].
  do 4 (apply Forall_cons_2; [apply ld_int_range|]). unfold ld_ints. apply list.Forall_fmap, list.Forall_forall. intros j _. apply ld_int_range.
Qed.

Lemma pages_back s own n p : p ∉ own -> pg_ok (fpages s) ({[p]} ∪ own) n -> exists ps, page_op (pg_free p) s = Ret tt (set_fpages ps s) /\ pg_ok ps own (S n).
Proof.
  intros Hp Hk. destruct (pg_free_own _ _ _ p Hk ltac:(set_solver)) as (ps & E & Hps). exists ps.
  split; [unfold page_op, zoom; by rewrite E|]. by replace own with (({[p]} ∪ own) ∖ {[p]}) by set_solver.
Qed.

(** The scan stops at the first free inode. *)
Lemma find_free_run i ino own k : forall fuel s r j last,
  dev_at s i r -> 0 <= j <= ino -> ino < j + Z.of_nat fuel -> ino < MAX_INODES ->
  (forall c, j <= c < ino -> di_type (disk_inode r c) <> R_FREE) -> di_type (disk_inode r ino) = R_FREE -> pg_ok (fpages s) own (S k) ->
  exists p ps m, find_free_inode fuel i j last s = Ret ((p, disk_inode r ino), ino) (set_fpages ps (reading i r s m)) /\
    p <> 0 /\ p ∉ own /\ pg_ok ps ({[p]} ∪ own) k.
Proof.
  induction fuel as [|f IH]; intros s r j last Hd Hj Hlt Hmax Hused Hfree Hp; [lia|]. cbn [find_free_inode].
  destruct (read_dinode_run s i r j own k Hd ltac:(lia) Hp) as (p & ps & E & Hz & Ho & Hps).
  rewrite (bind_Ret _ _ _ _ _ E). cbn [snd fst]. destruct (decide (j = ino)) as [->|Hne].
  - rewrite Hfree, Z.eqb_refl. by exists p, ps, (disk r (inode_block ino)).
  - rewrite (proj2 (Z.eqb_neq _ _)) by (apply Hused; lia). set (s1 := set_fpages ps _).
    destruct (pages_back s1 own k p Ho Hps) as (ps1 & E1 & Hps1). rewrite (bind_Ret _ _ _ _ _ E1).
    destruct (IH (set_fpages ps1 s1) (set_io (disk r (inode_block j)) r) (j + 1) (p, disk_inode r j)) as (p2 & ps2 & m2 & E2 & Hr2).
    + by apply (dev_at_with s i r).
    + lia.
    + lia.
    + done.
    + intros c Hc. apply Hused. lia.
    + done.
    + done.
    + exists p2, ps2, m2. split; [|done]. rewrite E2. f_equal. unfold reading, with_rdev, set_fpages, set_rfs_device_list, s1. cbn.
      unfold with_rdev, set_rfs_device_list. cbn. by rewrite list_insert_insert_eq.
Qed.

(** The inode of a new file of [type], whose first block is [b]. *)
Definition fresh_dinode (type nblocks b : Z) (d : rfs_dinode) : rfs_dinode := mkDinode 0 type 1 nblocks (<[0%nat := b]> (di_addrs d)).

Lemma fresh_dinode_ok type nblocks b r k : is_int type -> is_int nblocks -> is_int b -> dinode_ok (fresh_dinode type nblocks b (disk_inode r k)).
Proof.
  intros Ht Hn Hb. destruct (disk_inode_ok r k) as [Hl Hi]. split; [unfold fresh_dinode; cbn [di_addrs]; by rewrite length_insert|].
  unfold dinode_ints in *. cbn [fresh_dinode di_size di_type di_nlinks di_blocks di_addrs].
  apply Forall_cons_2; [done|]. apply Forall_cons_2; [done|]. apply Forall_cons_2; [done|]. apply Forall_cons_2; [done|].
  apply Forall_insert; [|done]. by do 4 apply list.Forall_cons in Hi as [_ Hi].
Qed.

(** What is on the disk after [d] was stored as inode [k]. *)
Record stored (r r' : rfs_device) (k : Z) (d : rfs_dinode) : Prop := {
  st_inode : forall j, 0 <= j -> disk_inode r' j = if decide (j = k) then d else disk_inode r j;
  st_block : forall c, c <> inode_block k -> disk r' c = disk r c
}.

Lemma stored_run s i r d k :
  dev_at s i r -> 0 <= k < MAX_INODES -> dinode_ok d -> exists r', rfs_write_dinode i d k s = Ret 0 (with_rdev i r' s) /\ stored r r' k d.
Proof.
  intros Hd Hk Hok. eexists. split; [by apply write_dinode_run|]. split.
  - intros j Hj. by apply disk_inode_written; [done|lia|].
  - intros c Hc. cbn. by rewrite (proj2 (Z.eqb_neq _ _) Hc).
Qed.

Section Create.
Variables (s : fstate PS) (p : Z) (n : vinode) (x : super_block) (i : Z) (r : rfs_device) (ino b : Z) (l : list Z) (own : gset Z) (k : nat).
Hypothesis Hv : fview s p n x i r.
Hypothesis Hino : 0 <= ino < MAX_INODES.
Hypothesis Hused : forall c, 0 <= c < ino -> di_type (disk_inode r c) <> R_FREE.
Hypothesis Hfree : di_type (disk_inode r ino) = R_FREE.
Hypothesis Hnb : 0 <= sb_nblocks x <= RAMDISK_BLOCK_COUNT - RFS_BLK_OFFSET_FREE.
Hypothesis Hl : free_list x = b :: l.
Hypothesis Hp : pg_ok (fpages s) own (S k).

Lemma first_block_range : RFS_BLK_OFFSET_FREE <= RFS_BLK_OFFSET_FREE + b < RAMDISK_BLOCK_COUNT.
Proof.
  assert (Hb : b ∈ free_list x) by (rewrite Hl; left). apply elem_free_from in Hb as [Hb _]. rewrite Z2Nat.id in Hb by lia.
  unfold RAMDISK_BLOCK_COUNT, RFS_BLK_OFFSET_FREE in *. lia.
Qed.

Lemma new_dinode_run msg type nblocks :
  is_int type -> is_int nblocks ->
  exists ps r', new_dinode msg p type nblocks s = Ret ino (set_fpages ps (with_rdev i r' (with_super (vsb n) (marked b 1 x) s))) /\
    stored r r' ino (fresh_dinode type nblocks (RFS_BLK_OFFSET_FREE + b) (disk_inode r ino)) /\ pg_ok ps own (S k).
Proof.
  intros Ht Hn. pose proof first_block_range as Hb. unfold RAMDISK_BLOCK_COUNT, RFS_BLK_OFFSET_FREE in Hb, Hnb. pose proof (fv_rdev _ _ _ _ _ _ Hv) as Hd.
  unfold new_dinode. rewrite (bind_Ret _ _ _ _ _ (get_vinode_run _ _ _ (fv_vinode _ _ _ _ _ _ Hv))).
  rewrite (bind_Ret _ _ _ _ _ (rdev_of_run _ _ _ _ _ _ Hv)).
  destruct (find_free_run i ino own k (Z.to_nat MAX_INODES) s r 0 (0, mkDinode 0 0 0 0 [])) as (pg & ps & m & E & Hz & Ho & Hps); try done; [lia|lia|lia|].
  rewrite (bind_Ret _ _ _ _ _ E). set (s1 := set_fpages ps (reading i r s m)).
  unfold check. rewrite (proj2 (Z.eqb_neq pg 0)) by done. rewrite bind_ret_l.
  destruct (alloc_block_run s1 (vsb n) x b l (fv_super _ _ _ _ _ _ Hv) ltac:(lia) Hl) as [Ea _]. rewrite (bind_Ret _ _ _ _ _ Ea).
  assert (Hd1 : dev_at (with_super (vsb n) (marked b 1 x) s1) i (set_io m r)) by (by apply (dev_at_with s i r)).
  destruct (stored_run _ i (set_io m r) (fresh_dinode type nblocks (RFS_BLK_OFFSET_FREE + b) (disk_inode r ino)) ino Hd1 Hino) as (r' & Ew & Hst).
  { apply fresh_dinode_ok; [done|done|]. unfold is_int, RFS_BLK_OFFSET_FREE. lia. }
  rewrite (bind_Ret _ _ _ _ _ Ew). set (s2 := with_rdev i r' _).
  destruct (pages_back s2 own k pg Ho Hps) as (ps2 & Ef & Hps2). rewrite (bind_Ret _ _ _ _ _ Ef).
  exists ps2, r'. split; [|split; [|done]].
  - unfold ret. f_equal. unfold s2, s1, with_rdev, with_super, reading, set_fpages, set_supers, set_rfs_device_list. cbn.
    unfold with_rdev, set_rfs_device_list. cbn. by rewrite list_insert_insert_eq.
  - by split; apply Hst.
Qed.
End Create.

(** A directory in memory that is the same on disk. *)
Record folder (s : fstate PS) (p : Z) (n : vinode) (x : super_block) (i : Z) (r : rfs_device) (total : nat) : Prop := {
  fl_dir : dir_inv s p n x i r total;
  fl_file : file_ok n x;
  fl_blocks : 0 < nblk n;
  fl_disk : disk_inode r (inum n) = dinode_of n
}.

(** The directory seen from another state. *)
Lemma dir_move s s' p n x x' i r r' total :
  dir_inv s p n x i r total -> vinodes s' !! p = Some n -> supers s' !! vsb n = Some x' -> (exists d, devices s' !! s_dev x' = Some d /\ dev_id d = i) ->
  dev_at s' i r' -> disk r' (addr n 0) = disk r (addr n 0) -> dir_inv s' p n x' i r' total.
Proof. intros [Hv ? ? ? ? ? ? Hn] H1 H2 H3 H4 Hd. split; try done. by rewrite Hd. Qed.

Lemma file_ok_marked n x b : file_ok n x -> file_ok n (marked b 1 x).
Proof.
  intros [H1 H2 H3 H4 H5]. split; try done. intros k Hk. destruct (H4 k Hk) as [Ha Hu]. split; [done|]. cbn [marked set_s_fs_info s_fs_info].
  rewrite ld_mark by lia. by destruct (decide _).
Qed.

(** A file without blocks. *)
Lemma file_ok_empty n x : length (addrs n) = DIRECT_BLKNUM -> nblk n = 0 -> 0 <= sb_nblocks x <= RAMDISK_BLOCK_COUNT - RFS_BLK_OFFSET_FREE -> file_ok n x.
Proof. intros Hl Hn Hb. split; try done; rewrite ?Hn; intros; lia. Qed.

(** The inode of the new file. *)
Definition new_file (sb ino b : Z) (r : rfs_device) : vinode :=
  of_dinode (fresh_dinode R_FILE 0 b (disk_inode r ino)) (mkVinode ino 0 0 0 0 0 (replicate DIRECT_BLKNUM 0) 0 sb RFS).

Lemma new_file_addr sb ino b r : addr (new_file sb ino b r) 0 = b.
Proof.
  unfold addr. change (addrs (new_file sb ino b r)) with (<[0%nat := b]> (di_addrs (disk_inode r ino))).
  rewrite list_lookup_insert_eq; [done|]. rewrite (proj1 (disk_inode_ok r ino)). unfold DIRECT_BLKNUM. lia.
Qed.

Section CreateFile.
Variables (s : fstate PS) (p : Z) (n : vinode) (x : super_block) (i : Z) (r : rfs_device) (total : nat) (ino b : Z) (l : list Z) (own : gset Z) (k : nat) (name : list Z).
Hypothesis Hfl : folder s p n x i r total.
Hypothesis Hroom : (total < 128)%nat.
Hypothesis Hname : is_name name /\ (length name <= 27)%nat /\ dir_lookup r n name = None.
Hypothesis Hino : 0 <= ino < MAX_INODES.
Hypothesis Hused : forall c, 0 <= c < ino -> di_type (disk_inode r c) <> R_FREE.
Hypothesis Hfree : di_type (disk_inode r ino) = R_FREE.
Hypothesis Hl : free_list x = b :: l.
Hypothesis Hpo : p ∈ own.
Hypothesis Hp : pg_ok (fpages s) own (S (S k)).
Notation file := (new_file (vsb n) ino (RFS_BLK_OFFSET_FREE + b) r).

Lemma create_run :
  exists c s' r', rfs_create p name s = Ret c s' /\ c <> 0 /\ c ∉ own /\ pg_ok (fpages s') ({[c]} ∪ own) (S k) /\
    folder s' p (longer n) (marked b 1 x) i r' (S total) /\ file_inv s' c file (marked b 1 x) i r' /\
    (forall nm, is_name nm -> dir_lookup r' (longer n) nm = if bool_decide (nm = name) then Some ino else dir_lookup r n nm) /\
    (forall j, 0 <= j < MAX_INODES -> disk_inode r' j = if decide (j = inum n) then dinode_of (longer n) else
       if decide (j = ino) then dinode_of file else disk_inode r j) /\
    (forall d, RFS_BLK_OFFSET_FREE <= d -> d <> addr n 0 -> disk r' d = disk r d) /\
    (forall q, q <> c -> q <> p -> vinodes s' !! q = vinodes s !! q) /\ dentries s' = dentries s.
Proof.
  destruct Hfl as [Hdir Hfo Hblk Hsync]. destruct Hname as (Hnm & Hlen & Hnew). pose proof (di_view _ _ _ _ _ _ _ Hdir) as Hv.
  pose proof (di_inum _ _ _ _ _ _ _ Hdir) as Hinum. pose proof (di_block _ _ _ _ _ _ _ Hdir) as Hb0.
  assert (Hne : inum n <> ino).
  { intros E. rewrite <- E, Hsync in Hfree. cbn in Hfree. rewrite (di_isdir _ _ _ _ _ _ _ Hdir) in Hfree. done. }
  destruct (new_dinode_run s p n x i r ino b l own (S k) Hv Hino Hused Hfree (fo_nblocks _ _ Hfo) Hl Hp
    "rfs_create: no more free disk inode, we cannot create file." R_FILE 0) as (ps & r1 & E1 & [Hin1 Hbl1] & Hps); [done|done|].
  set (s1 := set_fpages ps (with_rdev i r1 (with_super (vsb n) (marked b 1 x) s))) in *.
  assert (Hx1 : supers s1 !! vsb n = Some (marked b 1 x)) by apply lookup_insert_eq.
  assert (Hd1 : dev_at s1 i r1) by (eapply (dev_at_with s); apply Hv).
  destruct (new_vinode_run s1 (vsb n) (marked b 1 x) i r1 ino own k Hx1 (fv_device _ _ _ _ _ _ Hv) Hd1 Hino Hps) as (c & ps2 & m & E2 & Hc0 & Hco & Hps2).
  assert (Hload : loaded (vsb n) ino r1 = file) by (unfold loaded; rewrite Hin1 by lia; by rewrite decide_True). rewrite Hload in E2.
  set (s2 := set_fpages ps2 (with_vinode c file (reading i r1 s1 m))) in *.
  assert (Hcp : c <> p) by (intros ->; done).
  assert (Hib : forall d, RFS_BLK_OFFSET_FREE <= d -> disk (set_io m r1) d = disk r d).
  { intros d Hd. apply Hbl1. pose proof (inode_block_range _ Hino). unfold RFS_BLK_OFFSET_FREE in Hd. lia. }
  assert (Hdir2 : dir_inv s2 p n (marked b 1 x) i (set_io m r1) total).
  { eapply dir_move; [exact Hdir|cbn; rewrite lookup_insert_ne by done; apply Hv|exact Hx1|apply Hv|by apply (dev_at_with s1 i r1)|apply Hib; lia]. }
  pose proof (add_direntry_run s2 p n (marked b 1 x) i (set_io m r1) total name ino Hdir2 Hroom Hlen) as E3.
  assert (Hint : is_int ino) by (unfold is_int; change MAX_INODES with 320 in Hino; lia).
  destruct (added_dir s2 p n (marked b 1 x) i (set_io m r1) total name ino Hdir2 Hroom Hlen Hnm Hint) as (D1 & D2 & D3 & D4).
  set (r3 := added (set_io m r1) n total name ino) in *.
  exists c, (with_rdev i r3 (with_vinode p (longer n) s2)), r3.
  assert (Hr3 : forall j, 0 <= j < MAX_INODES -> disk_inode r3 j = if decide (j = inum n) then dinode_of (longer n) else
       if decide (j = ino) then dinode_of file else disk_inode r j).
  { intros j Hj. rewrite D3 by done. destruct (decide (j = inum n)); [done|]. change (disk_inode (set_io m r1) j) with (disk_inode r1 j).
    rewrite Hin1 by lia. by destruct (decide (j = ino)). }
  split; [|split; [done|split; [done|split; [exact Hps2|split; [|split; [|split; [|split; [exact Hr3|split; [|split; [|done]]]]]]]]]].
  - unfold rfs_create. rewrite (bind_Ret _ _ _ _ _ (get_vinode_run _ _ _ (fv_vinode _ _ _ _ _ _ Hv))).
    rewrite (bind_Ret _ _ _ _ _ E1), (bind_Ret _ _ _ _ _ E2), (bind_Ret _ _ _ _ _ E3). done.
  - split; [exact D1| |exact Hblk|rewrite Hr3 by done; by rewrite decide_True]. by destruct (file_ok_marked n x b Hfo); split.
  - split; [|split; [|done]].
    + split; [cbn; rewrite lookup_insert_ne by done; apply lookup_insert_eq|exact Hx1|apply Hv|by apply (dev_at_with s2 i (set_io m r1)), (dev_at_with s1 i r1)].
    + apply file_ok_empty; [|done|exact (fo_nblocks _ _ Hfo)]. unfold new_file, of_dinode, fresh_dinode. cbn [addrs di_addrs]. rewrite length_insert. apply disk_inode_ok.
  - intros nm Hn'. rewrite D2 by done. unfold dir_lookup at 1. rewrite Hib by lia. fold (dir_lookup r n nm). case_bool_decide as E; [|by destruct (dir_lookup r n nm)].
    subst nm. by rewrite Hnew.
  - intros d Hd Hda. rewrite D4; [by apply Hib|done|]. pose proof (inode_block_range _ Hinum). unfold RFS_BLK_OFFSET_FREE in Hd. lia.
  - intros q Hqc Hqp. cbn. by rewrite !lookup_insert_ne.
Qed.
End CreateFile.

(** ** Formatting *)

(** The bytes of the empty inodes. *)
Lemma format_inodes_out k : forall m a y, y < a \/ a + 128 * Z.of_nat k <= y -> format_inodes k m a y = m y.
Proof.
  induction k as [|k IH]; intros m a y Hy; [done|]. cbn [format_inodes]. unfold RFS_INODESIZE. rewrite IH by lia. apply st_ints_out. cbn [length]. lia.
Qed.

Lemma format_inodes_in k : forall m a j, 0 <= j < Z.of_nat k -> di_type (ld_dinode (format_inodes k m a) (a + 128 * j)) = R_FREE.
Proof.
  induction k as [|k IH]; intros m a j Hj; [lia|]. cbn [format_inodes]. unfold RFS_INODESIZE. destruct (decide (j = 0)) as [->|Hne].
  - unfold ld_dinode. cbn [di_type]. erewrite ld_int_ext; [|intros y Hy; apply format_inodes_out; lia].
    rewrite Z.add_0_r. pose proof (ld_st_ints m a [0; R_FREE; 0; 0] 1 R_FREE eq_refl) as E. exact E.
  - replace (a + 128 * j) with (a + 128 + 128 * (j - 1)) by lia. apply IH. lia.
Qed.

Lemma write_inode_blocks_run k : forall s i r b0,
  dev_at s i r -> 0 <= b0 -> b0 + Z.of_nat k <= RAMDISK_BLOCK_COUNT ->
  exists r', write_inode_blocks k i b0 s = Ret tt (with_rdev i r' s) /\ iobuffer r' = iobuffer r /\
    forall c, disk r' c = if decide (b0 <= c < b0 + Z.of_nat k) then iobuffer r else disk r c.
Proof.
  induction k as [|k IH]; intros s i r b0 Hd Hb Hk; cbn [write_inode_blocks].
  - exists r. split; [|split; [done|intros c; by rewrite decide_False by lia]]. unfold ret. f_equal. destruct Hd as [_ Hd]. unfold with_rdev. destruct s; cbn in *.
    unfold set_rfs_device_list. cbn. by rewrite list_insert_id.
  - unfold rfs_w1block. rewrite (bind_Ret _ _ _ _ _ (ramdisk_write_run s i r b0 Hd ltac:(lia))).
    destruct (IH (with_rdev i (set_block b0 (iobuffer r) r) s) i (set_block b0 (iobuffer r) r) (b0 + 1)) as (r' & E & Hio & Hdk); [by eapply dev_at_with|lia|lia|].
    exists r'. rewrite E, with_rdev_twice. split; [done|]. split; [exact Hio|]. intros c. rewrite Hdk. cbn [set_block iobuffer disk].
    destruct (decide (c = b0)) as [->|Hne].
    + rewrite decide_False by lia. rewrite Z.eqb_refl. by rewrite decide_True by lia.
    + rewrite (proj2 (Z.eqb_neq _ _) Hne). destruct (decide (b0 + 1 <= c < _)), (decide (b0 <= c < _)); try done; lia.
Qed.

Definition root_dinode (stale : list Z) : rfs_dinode := mkDinode 0 R_DIR 1 1 (RFS_BLK_OFFSET_FREE :: stale).

(** What a formatted disk holds. *)
Record formatted (r r' : rfs_device) (stale : list Z) : Prop := {
  fm_super : ld_int (disk r' RFS_BLK_OFFSET_SUPER) 0 = RFS_MAGIC /\ ld_int (disk r' RFS_BLK_OFFSET_SUPER) 4 = 112 /\
    ld_int (disk r' RFS_BLK_OFFSET_SUPER) 8 = 100 /\ ld_int (disk r' RFS_BLK_OFFSET_SUPER) 12 = MAX_INODES;
  fm_root : disk_inode r' 0 = root_dinode stale;
  fm_inodes : forall k, 0 < k < MAX_INODES -> di_type (disk_inode r' k) = R_FREE;
  fm_map : forall c, 0 <= c < 1024 -> ld_int (disk r' RFS_BLK_OFFSET_BITMAP) (4 * c) = if decide (c = 0) then 1 else 0;
  fm_data : forall c, RFS_BLK_OFFSET_FREE <= c -> disk r' c = disk r c
}.

Lemma inode_place k : 0 <= k < MAX_INODES -> inode_offset k = 128 * (k mod 32) /\ 1 <= inode_block k < 11.
Proof.
  intros Hk. pose proof (inode_block_range k Hk). split; [|lia]. unfold inode_offset, INODES_PER_BLOCK, RFS_BLKSIZE, RFS_INODESIZE. change (4096 / 128) with 32.
  rewrite Z.rem_mod_nonneg by lia. lia.
Qed.

Lemma format_run s dev d0 i r stale :
  devices s !! dev = Some d0 -> dev_id d0 = i -> dev_at s i r -> length stale = 9%nat -> Forall is_int stale ->
  exists r', rfs_format_dev stale dev s = Ret 0 (with_rdev i r' s) /\ formatted r r' stale.
Proof.
  intros Hdev Hid Hd Hlen Hst. unfold rfs_format_dev.
  assert (Eg : get_device dev s = Ret d0 s) by (unfold get_device, obj; by rewrite Hdev). rewrite (bind_Ret _ _ _ _ _ Eg), Hid. cbv zeta.
  rewrite (bind_Ret _ _ _ _ _ (set_iobuffer_run s i r _ Hd)). set (M0 := st_ints (iobuffer r) 0 _).
  pose proof (dev_at_with s i r (set_io M0 r) Hd) as Hd1. unfold rfs_w1block.
  rewrite (bind_Ret _ _ _ _ _ (ramdisk_write_run _ i _ RFS_BLK_OFFSET_SUPER Hd1 ltac:(by vm_compute))), with_rdev_twice. cbn [iobuffer set_io].
  set (r2 := set_block RFS_BLK_OFFSET_SUPER M0 (set_io M0 r)). pose proof (dev_at_with s i r r2 Hd) as Hd2.
  rewrite (bind_Ret _ _ _ _ _ (set_iobuffer_run _ i r2 _ Hd2)), with_rdev_twice. set (F := format_inodes _ _ 0).
  pose proof (dev_at_with s i r (set_io F r2) Hd) as Hd3.
  destruct (write_inode_blocks_run (Z.to_nat RFS_MAX_INODE_BLKNUM) _ i _ RFS_BLK_OFFSET_INODE Hd3) as (r4 & E4 & _ & Hk4); [done|by vm_compute|].
  rewrite (bind_Ret _ _ _ _ _ E4), with_rdev_twice. cbn [iobuffer set_io disk] in Hk4. pose proof (dev_at_with s i r r4 Hd) as Hd4.
  assert (Hrok : dinode_ok (root_dinode stale)).
  { split; [cbn; by rewrite Hlen|]. unfold dinode_ints, root_dinode. cbn. by repeat (apply Forall_cons_2; [done|]). }
  destruct (stored_run _ i r4 (root_dinode stale) 0 Hd4) as (r5 & E5 & [Hin5 Hbl5]); [by vm_compute|done|].
  unfold root_dinode in E5. rewrite (bind_Ret _ _ _ _ _ E5), with_rdev_twice. pose proof (dev_at_with s i r r5 Hd) as Hd5.
  rewrite (bind_Ret _ _ _ _ _ (set_iobuffer_run _ i r5 _ Hd5)), with_rdev_twice. set (B := st_int _ 0 1).
  pose proof (dev_at_with s i r (set_io B r5) Hd) as Hd6.
  rewrite (bind_Ret _ _ _ _ _ (ramdisk_write_run _ i _ RFS_BLK_OFFSET_BITMAP Hd6 ltac:(by vm_compute))), with_rdev_twice. cbn [iobuffer set_io].
  set (r6 := set_block RFS_BLK_OFFSET_BITMAP B (set_io B r5)). exists r6. split; [done|].
  assert (Hk6 : forall c, c <> RFS_BLK_OFFSET_BITMAP -> disk r6 c = disk r5 c) by (intros c Hc; cbn; by rewrite (proj2 (Z.eqb_neq _ _) Hc)).
  assert (Hi6 : forall k, 0 <= k < MAX_INODES -> disk_inode r6 k = disk_inode r5 k).
  { intros k Hk. unfold disk_inode. rewrite Hk6; [done|]. destruct (inode_place k Hk). unfold RFS_BLK_OFFSET_BITMAP. lia. }
  split.
  - rewrite Hk6, Hbl5 by done. rewrite Hk4. rewrite decide_False by (unfold RFS_BLK_OFFSET_SUPER, RFS_BLK_OFFSET_INODE; lia).
    change (disk r2 RFS_BLK_OFFSET_SUPER) with M0. unfold M0.
    match goal with |- context [st_ints _ 0 ?sl] => pose proof (fun j v => ld_st_ints (iobuffer r) 0 sl j v) as G end.
    split; [exact (G 0%nat _ eq_refl)|]. split; [exact (G 1%nat _ eq_refl)|]. split; [exact (G 2%nat _ eq_refl)|exact (G 3%nat _ eq_refl)].
  - rewrite Hi6 by (by vm_compute). rewrite Hin5 by lia. by rewrite decide_True.
  - intros k Hk. rewrite Hi6 by lia. rewrite Hin5 by lia. rewrite decide_False by lia. destruct (inode_place k ltac:(lia)) as [Ho Hb].
    unfold disk_inode. rewrite Hk4. rewrite decide_True by (change (Z.to_nat RFS_MAX_INODE_BLKNUM) with 10%nat; unfold RFS_BLK_OFFSET_INODE; lia).
    rewrite Ho. unfold F. change (128 * (k mod 32)) with (0 + 128 * (k mod 32)). apply format_inodes_in.
    change (Z.of_nat (Z.to_nat INODES_PER_BLOCK)) with 32. apply Z.mod_pos_bound. lia.
  - intros c Hc. change (disk r6 RFS_BLK_OFFSET_BITMAP) with B. unfold B. change (st_int ?m 0 1) with (st_int m (4 * 0) 1).
    rewrite ld_mark by lia. destruct (decide (c = 0)); [done|]. unfold ld_int.
    rewrite (load_le_ext 4 (fun _ => 0)); [by vm_compute|]. intros y Hy. rewrite (memset_correct (iobuffer r5) 0 0 RFS_BLKSIZE) by (by vm_compute).
    rewrite decide_True by (unfold RFS_BLKSIZE; lia). done.
  - intros c Hc. unfold RFS_BLK_OFFSET_FREE in Hc. rewrite Hk6 by (unfold RFS_BLK_OFFSET_BITMAP; lia).
    rewrite Hbl5 by (pose proof (inode_place 0 ltac:(by vm_compute)); lia). rewrite Hk4.
    rewrite decide_False by (change (Z.to_nat RFS_MAX_INODE_BLKNUM) with 10%nat; unfold RFS_BLK_OFFSET_INODE; lia).
    cbn. unfold RFS_BLK_OFFSET_SUPER. by rewrite (proj2 (Z.eqb_neq _ _)) by lia.
Qed.

(** ** Mounting *)

Lemma root_dentry_run s own k c v :
  pg_ok (fpages s) own (S k) -> c <> 0 -> vinodes s !! c = Some v ->
  exists p ps, alloc_vfs_dentry slash c 0 s =
      Ret p (set_dentries (<[p := mkDentry slash 0 c 0]> (dentries s)) (with_vinode c (set_vref (vref v + 1) v) (set_fpages ps s))) /\
    p <> 0 /\ p ∉ own /\ pg_ok ps ({[p]} ∪ own) k.
Proof.
  intros Hp Hc Hv. destruct (new_page_run s own k Hp) as (p & ps & E & Hz & Ho & Hps). exists p, ps. split; [|done].
  unfold alloc_vfs_dentry. rewrite (bind_Ret _ _ _ _ _ E). unfold fits, check. cbn [Nat.leb length slash MAX_DENTRY_NAME_LEN]. rewrite bind_ret_l.
  rewrite (proj2 (Z.eqb_neq c 0) Hc). cbn [negb when]. unfold upd_vinode. rewrite bind_assoc.
  rewrite (bind_Ret _ _ _ _ _ (get_vinode_run (set_fpages ps s) c v Hv)). done.
Qed.

Definition root_vinode (sb : Z) (stale : list Z) : vinode :=
  set_vref 1 (of_dinode (root_dinode stale) (mkVinode 0 0 0 0 0 0 (replicate DIRECT_BLKNUM 0) 0 sb RFS)).

(** The super block in memory. *)
Definition mounted_super (dev root : Z) (r : rfs_device) : super_block :=
  mkSuper RFS_MAGIC 112 100 MAX_INODES root dev (disk r RFS_BLK_OFFSET_BITMAP).

Lemma root_folder s sb c dev d0 root i r r0 r' stale :
  formatted r0 r stale -> length stale = 9%nat -> Forall is_int stale -> disk r' = disk r ->
  vinodes s !! c = Some (root_vinode sb stale) -> supers s !! sb = Some (mounted_super dev root r) -> devices s !! dev = Some d0 -> dev_id d0 = i -> dev_at s i r' ->
  folder s c (root_vinode sb stale) (mounted_super dev root r) i r' 0.
Proof.
  intros Hf Hlen Hst Hdk Hc Hx Hdev Hid Hd. split.
  - split.
    + split; [done|done|by exists d0|done].
    + split; [cbn; by rewrite Hlen|]. unfold dinode_ints. cbn. by repeat (apply Forall_cons_2; [done|]).
    + done.
    + by vm_compute.
    + done.
    + lia.
    + by vm_compute.
    + intros t Ht. lia.
  - split; [cbn; by rewrite Hlen|by vm_compute|by vm_compute| |].
    + intros k Hk. change (nblk (root_vinode sb stale)) with 1 in Hk. assert (k = 0) as -> by lia. change (addr (root_vinode sb stale) 0) with RFS_BLK_OFFSET_FREE.
      split; [by vm_compute|]. rewrite Z.sub_diag. cbn [mounted_super s_fs_info]. rewrite (fm_map _ _ _ Hf) by lia. by rewrite decide_True.
    + intros j k Hj Hk _. change (nblk (root_vinode sb stale)) with 1 in *. lia.
  - by vm_compute.
  - unfold disk_inode. rewrite Hdk. exact (fm_root _ _ _ Hf).
Qed.

Lemma free_from_seq n : forall fm b, (forall c, b <= c < b + Z.of_nat n -> ld_int fm (4 * c) = 0) -> free_from n fm b = seqZ b (Z.of_nat n).
Proof.
  induction n as [|n IH]; intros fm b Hz; [done|]. cbn [free_from]. rewrite Hz by lia. rewrite Z.eqb_refl, IH by (intros; apply Hz; lia).
  rewrite (seqZ_cons b) by lia. replace (Z.succ b) with (b + 1) by lia. by replace (Z.pred (Z.of_nat (S n))) with (Z.of_nat n) by lia.
Qed.

Lemma free_from_S n fm b : free_from (S n) fm b = if ld_int fm (4 * b) =? 0 then b :: free_from n fm (b + 1) else free_from n fm (b + 1).
Proof. done. Qed.

Lemma mounted_free dev root r0 r stale : formatted r0 r stale -> free_list (mounted_super dev root r) = seqZ 1 99.
Proof.
  intros Hf. unfold free_list. cbn [mounted_super sb_nblocks s_fs_info]. change (Z.to_nat 100) with (S 99). rewrite free_from_S.
  rewrite (fm_map _ _ _ Hf) by lia. rewrite decide_True by done. change (1 =? 0) with false. cbv iota.
  apply (free_from_seq 99). intros c Hc. rewrite (fm_map _ _ _ Hf) by lia. by rewrite decide_False by lia.
Qed.

Lemma mount_run s dev d0 i r r0 stale own k :
  devices s !! dev = Some d0 -> dev_id d0 = i -> dev_at s i r -> formatted r0 r stale -> length stale = 9%nat -> Forall is_int stale ->
  pg_ok (fpages s) own (4 + k) ->
  exists sb c rd s' r' own', rfs_get_superblock dev s = Ret sb s' /\ disk r' = disk r /\ supers s' !! sb = Some (mounted_super dev rd r) /\
    dentries s' !! rd = Some (mkDentry slash 0 c 0) /\ folder s' c (root_vinode sb stale) (mounted_super dev rd r) i r' 0 /\
    c ∈ own' /\ own ⊆ own' /\ pg_ok (fpages s') own' k.
Proof.
  intros Hdev Hid Hd Hf Hlen Hst Hp. unfold rfs_get_superblock, rfs_r1block.
  assert (Eg : get_device dev s = Ret d0 s) by (unfold get_device, obj; by rewrite Hdev). rewrite (bind_Ret _ _ _ _ _ Eg), Hid. cbv zeta.
  rewrite (bind_Ret _ _ _ _ _ (ramdisk_read_run s i r RFS_BLK_OFFSET_SUPER Hd ltac:(by vm_compute))). fold (reading i r s (disk r RFS_BLK_OFFSET_SUPER)).
  rewrite (bind_Ret _ _ _ _ _ (reading_iobuffer s i r _ Hd)). destruct (fm_super _ _ _ Hf) as (-> & -> & -> & ->).
  destruct (new_page_run (reading i r s (disk r RFS_BLK_OFFSET_SUPER)) own _ Hp) as (sb & ps & E1 & Hsb0 & Hsbo & Hps). rewrite (bind_Ret _ _ _ _ _ E1).
  unfold put_super at 1, modify at 1, bind at 1. set (x0 := mkSuper RFS_MAGIC 112 100 MAX_INODES 0 dev (fun _ => 0)). set (s1 := set_supers _ _).
  unfold check at 1. rewrite Z.eqb_refl. cbn [negb]. rewrite bind_ret_l. set (r1 := set_io (disk r RFS_BLK_OFFSET_SUPER) r).
  assert (Hx1 : supers s1 !! sb = Some x0) by apply lookup_insert_eq. assert (Hd1 : dev_at s1 i r1) by (by apply (dev_at_with s i r)).
  assert (Hv1 : devices s1 !! dev = Some d0) by exact Hdev. change ps with (fpages s1) in Hps. clearbody s1.
  destruct (new_vinode_run s1 sb x0 i r1 0 ({[sb]} ∪ own) (S k) Hx1) as (c & ps2 & m2 & E2 & Hc0 & Hco & Hps2); [by exists d0|exact Hd1|by vm_compute|exact Hps|].
  rewrite (bind_Ret _ _ _ _ _ E2). unfold loaded. change (disk_inode r1 0) with (disk_inode r 0). rewrite (fm_root _ _ _ Hf).
  set (v0 := of_dinode (root_dinode stale) _). set (s2 := set_fpages ps2 _).
  assert (Hx2 : supers s2 !! sb = Some x0) by exact Hx1. assert (Hd2 : dev_at s2 i (set_io m2 r1)) by (by apply (dev_at_with s1 i r1)).
  assert (Hv2 : devices s2 !! dev = Some d0) by exact Hv1. assert (Hc2 : vinodes s2 !! c = Some v0) by apply lookup_insert_eq.
  change ps2 with (fpages s2) in Hps2. clearbody s2.
  destruct (root_dentry_run s2 ({[c]} ∪ ({[sb]} ∪ own)) (S k) c v0 Hps2 Hc0 Hc2) as (rd & ps3 & E3 & _ & _ & Hps3).
  rewrite (bind_Ret _ _ _ _ _ E3). change (set_vref (vref v0 + 1) v0) with (root_vinode sb stale). set (s3 := set_dentries _ _).
  assert (Hx3 : supers s3 !! sb = Some x0) by exact Hx2. assert (Hd3 : dev_at s3 i (set_io m2 r1)) by exact Hd2.
  assert (Hv3 : devices s3 !! dev = Some d0) by exact Hv2. assert (Hc3 : vinodes s3 !! c = Some (root_vinode sb stale)) by apply lookup_insert_eq.
  assert (He3 : dentries s3 !! rd = Some (mkDentry slash 0 c 0)) by apply lookup_insert_eq. change ps3 with (fpages s3) in Hps3. clearbody s3.
  rewrite (bind_Ret _ _ _ _ _ (get_super_run _ _ _ Hx3)). unfold put_super at 1, modify at 1, bind at 1. set (s4 := set_supers _ _).
  assert (Hd4 : dev_at s4 i (set_io m2 r1)) by exact Hd3.
  rewrite (bind_Ret _ _ _ _ _ (ramdisk_read_run s4 i (set_io m2 r1) RFS_BLK_OFFSET_BITMAP Hd4 ltac:(by vm_compute))).
  change (disk (set_io m2 r1) RFS_BLK_OFFSET_BITMAP) with (disk r RFS_BLK_OFFSET_BITMAP). set (r5 := set_io (disk r RFS_BLK_OFFSET_BITMAP) (set_io m2 r1)).
  destruct (new_page_run (with_rdev i r5 s4) ({[rd]} ∪ ({[c]} ∪ ({[sb]} ∪ own))) k Hps3) as (pg & ps5 & E5 & _ & _ & Hps5). rewrite (bind_Ret _ _ _ _ _ E5).
  set (s5 := set_fpages ps5 _). assert (Hd5 : dev_at s5 i r5) by (by apply (dev_at_with s4 i (set_io m2 r1))).
  assert (Hx5 : supers s5 !! sb = Some (set_s_root rd x0)) by apply lookup_insert_eq.
  assert (Hv5 : devices s5 !! dev = Some d0) by exact Hv3. assert (Hc5 : vinodes s5 !! c = Some (root_vinode sb stale)) by exact Hc3.
  assert (He5 : dentries s5 !! rd = Some (mkDentry slash 0 c 0)) by exact He3. change ps5 with (fpages s5) in Hps5. clearbody s5 s4.
  rewrite (bind_Ret _ _ _ _ _ (get_iobuffer_run s5 i r5 Hd5)), (bind_Ret _ _ _ _ _ (get_super_run _ _ _ Hx5)).
  exists sb, c, rd, (set_supers (<[sb := mounted_super dev rd r]> (supers s5)) s5), r5, ({[pg]} ∪ ({[rd]} ∪ ({[c]} ∪ ({[sb]} ∪ own)))).
  split; [reflexivity|]. split; [reflexivity|]. split; [apply lookup_insert_eq|]. split; [exact He5|]. split; [|split; [set_solver|split; [set_solver|exact Hps5]]].
  eapply root_folder; [exact Hf|exact Hlen|exact Hst|reflexivity|exact Hc5|apply lookup_insert_eq|exact Hv5|exact Hid|exact Hd5].
Qed.

(** ** Storing and finding again *)

Lemma file_ok_same n n' x : addrs n' = addrs n -> nblk n' = nblk n -> file_ok n x -> file_ok n' x.
Proof.
  intros Ha Hn [H1 H2 H3 H4 H5]. assert (Hk : forall k, addr n' k = addr n k) by (intros k; unfold addr; by rewrite Ha).
  split; rewrite ?Ha, ?Hn; try done; [intros k; rewrite Hk; apply H4|intros j k; rewrite !Hk; apply H5].
Qed.

Lemma slice_same r r' n n' off len :
  (forall k, off <= k < off + Z.of_nat len -> fbyte r' n' k = fbyte r n k) -> slice r' n' off len = slice r n off len.
Proof. intros Hk. unfold slice. apply list_fmap_ext. intros j a Ha. apply lookup_seq in Ha as [-> Ha]. apply Hk. lia. Qed.

Lemma slice_list r n off w : (forall k, off <= k < off + Z.of_nat (length w) -> fbyte r n k = default 0 (w !! Z.to_nat (k - off))) -> slice r n off (length w) = w.
Proof.
  intros Hk. apply list_eq. intros j. unfold slice. rewrite list_lookup_fmap. destruct (decide (j < length w)%nat) as [Hj|Hj].
  - rewrite lookup_seq_lt by done. cbn [fmap option_fmap option_map]. destruct (lookup_lt_is_Some_2 w j Hj) as [c Hc]. rewrite Hc. f_equal.
    change (fbyte r n (off + Z.of_nat (0 + j)) = c). rewrite Hk by lia. replace (Z.to_nat (off + Z.of_nat (0 + j) - off)) with j by lia. by rewrite Hc.
  - by rewrite lookup_seq_ge, lookup_ge_None_2 by lia.
Qed.

Lemma until_nul_spec (w : list Z) :
  until_nul w `prefix_of` w /\ 0 ∉ until_nul w /\ (until_nul w = w \/ w !! length (until_nul w) = Some 0).
Proof.
  induction w as [|c w (IH1 & IH2 & IH3)]; cbn; [split; [done|]; split; [apply not_elem_of_nil|by left]|].
  destruct (Z.eqb_spec c 0) as [->|Hc]; [split; [apply prefix_nil|]; split; [apply not_elem_of_nil|by right]|].
  split; [by apply prefix_cons|]. split; [rewrite not_elem_of_cons; done|].
  destruct IH3 as [->|IH3]; [by left|by right].
Qed.

Section Store.
Variables (s : fstate PS) (p : Z) (n : vinode) (x : super_block) (i : Z) (r : rfs_device) (total : nat) (c : Z) (f : vinode) (name : list Z) (own : gset Z) (k : nat) (w : list Z).
Notation len := (Z.of_nat (length w)).
Hypothesis Hfl : folder s p n x i r total.
Hypothesis Hfile : file_inv s c f x i r.
Hypothesis Hempty : vsize f = 0 /\ nblk f = 0.
Hypothesis Hsame : c <> p /\ vsb f = vsb n.
Hypothesis Hino : 0 <= inum f < MAX_INODES.
Hypothesis Hok : dinode_ok (dinode_of f).
Hypothesis Hbound : dir_lookup r n name = Some (inum f).
Hypothesis Hw : Forall is_byte w /\ 0 < len <= 40960.
Hypothesis Hroom : ceil_blocks len <= Z.of_nat (length (free_list x)).
Hypothesis Hp : pg_ok (fpages s) own (S (S k)).

(** What is there after the write and the write back. *)
Lemma store_run :
  exists s' f' x' r', (let* _ := rfs_write c w 0 in rfs_write_back_vinode c) s = Ret 0 s' /\
    dir_inv s' p n x' i r' total /\ dir_lookup r' n name = Some (inum f) /\ file_ok f' x' /\ dinode_of f' = disk_inode r' (inum f) /\
    vsize f' = len /\ len <= 4096 * nblk f' /\ slice r' f' 0 (length w) = w /\ fpages s' = fpages s.
Proof.
  destruct Hfile as (Hv & Hfo & _), Hempty as [Hs0 Hn0], Hsame as [Hcp Hvsb], Hw as [Hby Hlen], Hfl as [Hdir Hdo Hdb _].
  assert (Hcl : 1 <= ceil_blocks len <= 10 /\ len <= 4096 * ceil_blocks len) by (unfold ceil_blocks; Z.to_euclidean_division_equations; lia).
  destruct (rfs_write_run s c f x i r 0 w Hv Hfo) as (s1 & f1 & x1 & r1 & Hwr & E1); [lia|lia|done|rewrite Z.add_0_l; lia|rewrite Z.add_0_l; lia|].
  rewrite Z.add_0_l, Hs0 in E1. rewrite Z.add_0_l in Hwr. replace (Z.max 0 len) with len in E1 by lia.
  destruct (w_kept _ _ _ _ _ _ _ _ _ _ _ _ _ Hwr) as (K1 & K2 & K3 & K4 & K5 & _). pose proof (w_view _ _ _ _ _ _ _ _ _ _ _ _ _ Hwr) as [V1 V2 V3 V4].
  pose proof (w_nblk _ _ _ _ _ _ _ _ _ _ _ _ _ Hwr) as Hnb. pose proof (w_ok _ _ _ _ _ _ _ _ _ _ _ _ _ Hwr) as Hok1. rewrite Hn0 in Hnb.
  set (f2 := set_vsize len f1). set (s2 := with_vinode c f2 s1).
  assert (Hv2 : fview s2 c f2 x1 i r1) by (split; [apply lookup_insert_eq|done|done|done]).
  pose proof (write_back_run s2 c f2 x1 i r1 Hv2 ltac:(change (inum f2) with (inum f1); by rewrite K1)) as E2.
  assert (Hok2 : dinode_ok (dinode_of f2)).
  { destruct Hok as [L1 L2]. split; [apply Hok1|]. unfold dinode_ints in *. cbn in L2 |- *. apply list.Forall_cons in L2 as [_ L2].
    apply list.Forall_cons in L2 as [L3 L2]. apply list.Forall_cons in L2 as [L4 L2]. apply list.Forall_cons in L2 as [_ L5].
    rewrite K3, K4. apply Forall_cons_2; [unfold is_int; lia|]. apply Forall_cons_2; [done|]. apply Forall_cons_2; [done|].
    apply Forall_cons_2; [unfold is_int; lia|]. by apply K5. }
  pose proof (disk_inode_written r1 (dinode_of f2) (inum f) (inum f2) ltac:(lia) ltac:(change (inum f2) with (inum f1); lia) Hok2) as Hdi.
  rewrite decide_True in Hdi by (by change (inum f2) with (inum f1)). set (r2 := let m := _ in set_block _ m _) in *.
  assert (Hr2 : forall d, RFS_BLK_OFFSET_FREE <= d -> disk r2 d = disk r1 d).
  { intros d Hd. pose proof (inode_block_range _ Hino). cbn. change (inum f2) with (inum f1). rewrite (proj2 (Z.eqb_neq _ _)); [done|]. rewrite K1. unfold RFS_BLK_OFFSET_FREE in Hd. lia. }
  pose proof (di_block _ _ _ _ _ _ _ Hdir) as Hb0.
  assert (Hd0 : disk r2 (addr n 0) = disk r (addr n 0)).
  { rewrite Hr2 by lia. apply (w_foreign _ _ _ _ _ _ _ _ _ _ _ _ _ Hwr). split; [intros; lia|]. right. apply (fo_used _ _ Hdo). lia. }
  exists (with_rdev i r2 s2), f2, x1, r2. split; [rewrite (bind_Ret _ _ _ _ _ E1); exact E2|]. split; [|split; [|split; [|split; [|split; [done|split; [|split]]]]]].
  - eapply dir_move; [exact Hdir| | |exact V3|by apply (dev_at_with s2 i r1)|exact Hd0].
    + cbn. rewrite lookup_insert_ne by done. rewrite (w_others _ _ _ _ _ _ _ _ _ _ _ _ _ Hwr) by done. apply Hdir.
    + rewrite <- Hvsb, <- K2. exact V2.
  - rewrite <- Hbound. unfold dir_lookup. by rewrite Hd0.
  - by apply (file_ok_same f1).
  - by rewrite Hdi.
  - change (nblk f2) with (nblk f1). lia.
  - apply slice_list. intros j Hj. unfold fbyte. change (addr f2 (j / 4096)) with (addr f1 (j / 4096)). rewrite Hr2.
    + exact (w_in _ _ _ _ _ _ _ _ _ _ _ _ _ Hwr j Hj).
    + apply (fo_used _ _ Hok1). Z.to_euclidean_division_equations; lia.
  - exact (w_pages _ _ _ _ _ _ _ _ _ _ _ _ _ Hwr).
Qed.

Lemma store_and_find :
  exists s', (let* _ := rfs_write c w 0 in let* _ := rfs_write_back_vinode c in let* g := rfs_lookup p name in rfs_read g len 0) s = Ret (len, until_nul w ++ [0], len) s'.
Proof.
  destruct store_run as (s1 & f1 & x1 & r1 & E1 & Hdir & Hl & Hfo & Hdi & Hsz & Hblk & Hsl & Hpg). destruct Hw as [_ Hlen].
  destruct (lookup_found s1 p n x1 i r1 total name own k (inum f) Hdir ltac:(by rewrite Hpg) Hl Hino) as (g & ps & m & E2 & _).
  set (s2 := set_fpages ps _) in E2. set (g0 := loaded (vsb n) (inum f) r1) in *.
  assert (Hg : addrs g0 = addrs f1 /\ nblk g0 = nblk f1 /\ vsize g0 = vsize f1).
  { unfold g0, loaded. rewrite <- Hdi. done. } destruct Hg as (G1 & G2 & G3).
  pose proof (di_view _ _ _ _ _ _ _ Hdir) as [_ V2 V3 V4].
  assert (Hv2 : fview s2 g g0 x1 i (set_io m r1)) by (split; [apply lookup_insert_eq|exact V2|exact V3|by apply (dev_at_with s1 i r1)]).
  destruct (rfs_read_run s2 g g0 x1 i (set_io m r1) 0 len Hv2) as (m2 & E3); [by apply (file_ok_same f1)|rewrite G3; lia|rewrite G3, G2; lia|lia|].
  rewrite G3, Hsz in E3. replace (Z.min len (len - 0)) with len in E3 by lia. rewrite Nat2Z.id, Z.add_0_l in E3.
  rewrite (slice_same r1 (set_io m r1) f1 g0) in E3 by (intros j _; unfold fbyte, addr; by rewrite G1).
  rewrite Hsl in E3. eexists. revert E1. unfold bind. destruct (rfs_write c w 0 s) as [u t|]; [|done]. intros ->. rewrite E2. exact E3.
Qed.
End Store.

(** C19: [rfs_create] makes an empty file.  In a directory with room where the name is not bound, with
    [ino] the first free inode and [b] the first free block, it returns an inode in a page nobody
    possessed, which has the invariant of an open file; the directory binds the name to [ino] and keeps its other bindings;
    on disk exactly the inodes of the directory and of the file change, and no data block but that of the
    directory; [b] is taken from the free blocks and is the file's first block. *)
Theorem rfs_create_correct s p n x i r total ino b l own k name :
  folder s p n x i r total -> (total < 128)%nat -> is_name name /\ (length name <= 27)%nat /\ dir_lookup r n name = None ->
  0 <= ino < MAX_INODES -> (forall c, 0 <= c < ino -> di_type (disk_inode r c) <> R_FREE) -> di_type (disk_inode r ino) = R_FREE ->
  free_list x = b :: l -> p ∈ own -> pg_ok (fpages s) own (S (S k)) ->
  exists c s' n' x' r' f, rfs_create p name s = Ret c s' /\ c <> 0 /\ c ∉ own /\ pg_ok (fpages s') ({[c]} ∪ own) (S k) /\
    folder s' p n' x' i r' (S total) /\ file_inv s' c f x' i r' /\ vsize f = 0 /\ vtype f = R_FILE /\ inum f = ino /\ nblk f = 0 /\ addr f 0 = RFS_BLK_OFFSET_FREE + b /\ free_list x' = l /\
    (forall nm, is_name nm -> dir_lookup r' n' nm = if bool_decide (nm = name) then Some ino else dir_lookup r n nm) /\
    disk_inode r' ino = dinode_of f /\
    (forall j, 0 <= j < MAX_INODES -> j <> inum n -> j <> ino -> disk_inode r' j = disk_inode r j) /\
    (forall d, RFS_BLK_OFFSET_FREE <= d -> d <> addr n 0 -> disk r' d = disk r d) /\
    (forall q, q <> c -> q <> p -> vinodes s' !! q = vinodes s !! q).
Proof.
  intros Hfl Hroom Hname Hino Hused Hfree Hl Hpo Hp.
  destruct (create_run s p n x i r total ino b l own k name Hfl Hroom Hname Hino Hused Hfree Hl Hpo Hp)
    as (c & s' & r' & E & Hc0 & Hco & Hps & Hfl' & Hfi & Hlk & Hdi & Hdk & Hvn & _).
  assert (Hne : ino <> inum n).
  { intros ->. rewrite (fl_disk _ _ _ _ _ _ _ Hfl) in Hfree. cbn in Hfree. rewrite (di_isdir _ _ _ _ _ _ _ (fl_dir _ _ _ _ _ _ _ Hfl)) in Hfree. done. }
  exists c, s', (longer n), (marked b 1 x), r', (new_file (vsb n) ino (RFS_BLK_OFFSET_FREE + b) r).
  do 10 (split; [done|]). split; [apply new_file_addr|]. split; [by apply free_from_mark|]. split; [exact Hlk|]. split; [|split; [|split; [exact Hdk|exact Hvn]]].
  - rewrite Hdi by done. rewrite decide_False by done. by rewrite decide_True.
  - intros j Hj Hjn Hji. rewrite Hdi by done. by rewrite !decide_False.
Qed.

(** C5: a file survives.  Format a disk, mount it, create a file in its root directory, write up to ten blocks of
    bytes to it, write its inode back, look the name up again, and read from the inode that the lookup made: the read returns the
    length of what was written and delivers the bytes written, from the first on, and a NUL.  It delivers all of them when none is 0;
    [rfs_read] copies with [strcpy], so that the first zero byte among them ends what is delivered. *)
Theorem file_survives s dev d0 r stale name w own k :
  devices s !! dev = Some d0 -> dev_at s (dev_id d0) r -> length stale = 9%nat /\ Forall is_int stale ->
  is_name name -> (length name <= 27)%nat -> Forall is_byte w -> 0 < Z.of_nat (length w) <= 40960 -> pg_ok (fpages s) own (7 + k) ->
  exists s' out, (let* _ := rfs_format_dev stale dev in
      let* sb := rfs_get_superblock dev in
      let* x := get_super sb in
      let* root := get_dentry (s_root x) in
      let* f := rfs_create (dentry_inode root) name in
      let* _ := rfs_write f w 0 in
      let* _ := rfs_write_back_vinode f in
      let* g := rfs_lookup (dentry_inode root) name in
      rfs_read g (Z.of_nat (length w)) 0) s = Ret (Z.of_nat (length w), out ++ [0], Z.of_nat (length w)) s' /\
    out `prefix_of` w /\ 0 ∉ out /\ (out = w \/ w !! length out = Some 0).
Proof.
  intros Hdev Hd [Hlen Hst] Hname Hnl Hby Hw Hp.
  destruct (format_run s dev d0 _ r stale Hdev eq_refl Hd Hlen Hst) as (r1 & E1 & Hf). set (s1 := with_rdev _ r1 s) in *.
  destruct (mount_run s1 dev d0 _ r1 r stale own (3 + k) Hdev eq_refl (dev_at_with _ _ _ _ Hd) Hf Hlen Hst Hp)
    as (sb & p & rd & s2 & r2 & own2 & E2 & Hdk & Hx & Hrd & Hfl & Hpo & _ & Hps).
  assert (Hdi : forall j, disk_inode r2 j = disk_inode r1 j) by (intros j; unfold disk_inode; by rewrite Hdk).
  pose proof (mounted_free dev rd r r1 stale Hf) as Hfree. rewrite seqZ_cons in Hfree by lia.
  destruct (create_run s2 p (root_vinode sb stale) (mounted_super dev rd r1) _ r2 0 1 1 (seqZ (Z.succ 1) (Z.pred 99)) own2 (S k) name Hfl) as (c & s3 & r3 & E3 & Hc0 & Hco & Hps3 & Hfl3 & Hfi & Hlk & Hdi3 & _);
    [lia|done|by vm_compute| |rewrite Hdi; by apply (fm_inodes _ _ _ Hf)|exact Hfree|done|exact Hps|].
  { intros j Hj. assert (j = 0) as -> by lia. rewrite Hdi, (fm_root _ _ _ Hf). done. }
  set (f := new_file _ _ _ _) in *.
  destruct (store_and_find s3 p (longer (root_vinode sb stale)) (marked 1 1 (mounted_super dev rd r1)) _ r3 1 c f name ({[c]} ∪ own2) k w Hfl3 Hfi) as (s4 & E4).
  - done.
  - split; [by intros ->|done].
  - by vm_compute.
  - replace (dinode_of f) with (disk_inode r3 1); [apply disk_inode_ok|]. rewrite Hdi3 by (by vm_compute). done.
  - rewrite Hlk by done. by rewrite bool_decide_true.
  - done.
  - rewrite (free_from_mark _ _ _ _ _ Hfree : free_list (marked 1 1 _) = _). rewrite length_seqZ. unfold ceil_blocks. Z.to_euclidean_division_equations; lia.
  - exact Hps3.
  - exists s4, (until_nul w). split; [|apply until_nul_spec]. rewrite (bind_Ret _ _ _ _ _ E1), (bind_Ret _ _ _ _ _ E2), (bind_Ret _ _ _ _ _ (get_super_run _ _ _ Hx)).
    assert (Eg : get_dentry rd s2 = Ret (mkDentry slash 0 p 0) s2) by (unfold get_dentry, obj; by rewrite Hrd).
    rewrite (bind_Ret _ _ _ _ _ Eg), (bind_Ret _ _ _ _ _ E3). exact E4.
Qed.
End Life.

(** ** A fresh disk *)

Definition fresh_fs : fstate (list Z) := set_fpages [40960; 45056; 49152; 53248; 57344; 61440; 65536] fs0.

Lemma fresh_pages : pg_ok (fpages fresh_fs) ∅ 7.
Proof. repeat split; [repeat constructor; set_solver|set_solver..]. Qed.

Lemma stale_ints : length (replicate 9 7) = 9%nat /\ Forall is_int (replicate 9 7).
Proof. split; [done|]. by apply Forall_replicate. Qed.

Lemma file_survives_witness :
  exists s' out, (let* _ := rfs_format_dev (replicate 9 7) 4096 in
      let* sb := rfs_get_superblock 4096 in
      let* x := get_super sb in
      let* root := get_dentry (s_root x) in
      let* f := rfs_create (dentry_inode root) [97; 98] in
      let* _ := rfs_write f [104; 105; 0; 33] 0 in
      let* _ := rfs_write_back_vinode f in
      let* g := rfs_lookup (dentry_inode root) [97; 98] in
      rfs_read g 4 0) fresh_fs = Ret (4, out ++ [0], 4) s' /\
    out `prefix_of` [104; 105; 0; 33] /\ 0 ∉ out /\ (out = [104; 105; 0; 33] \/ [104; 105; 0; 33] !! length out = Some 0).
Proof.
  apply (file_survives fresh_fs 4096 (mkDevice [82] 0 RFS) rdev0 (replicate 9 7) [97; 98] [104; 105; 0; 33] ∅ 0).
  - reflexivity.
  - exact fs0_dev.
  - exact stale_ints.
  - repeat (apply Forall_cons_2; [lia|]); apply Forall_nil_2.
  - cbn; lia.
  - repeat (apply Forall_cons_2; [unfold is_byte; lia|]); apply Forall_nil_2.
  - cbn; lia.
  - exact fresh_pages.
Defined.

Lemma rfs_create_correct_witness :
  exists s sb p c s' n' x' r' f, rfs_get_superblock 4096 s = Ret sb s' /\
    (exists s2, rfs_create p [97; 98] s' = Ret c s2 /\ folder s2 p n' x' 0 r' 1 /\ file_inv s2 c f x' 0 r' /\ dir_lookup r' n' [97; 98] = Some 1).
Proof.
  destruct stale_ints as [Hlen Hst].
  destruct (format_run fresh_fs 4096 (mkDevice [82] 0 RFS) 0 rdev0 (replicate 9 7) eq_refl eq_refl fs0_dev Hlen Hst) as (r1 & _ & Hf).
  destruct (mount_run (with_rdev 0 r1 fresh_fs) 4096 (mkDevice [82] 0 RFS) 0 r1 rdev0 (replicate 9 7) ∅ 3 eq_refl eq_refl (dev_at_with _ _ _ _ fs0_dev) Hf Hlen Hst fresh_pages)
    as (sb & p & rd & s2 & r2 & own2 & E2 & Hdk & _ & _ & Hfl & Hpo & _ & Hps).
  assert (Hdi : forall j, disk_inode r2 j = disk_inode r1 j) by (intros j; unfold disk_inode; by rewrite Hdk).
  pose proof (mounted_free 4096 rd rdev0 r1 _ Hf) as Hfree. rewrite seqZ_cons in Hfree by lia.
  assert (Hn : is_name [97; 98]) by (repeat (apply Forall_cons_2; [lia|]); apply Forall_nil_2).
  destruct (rfs_create_correct s2 p (root_vinode sb (replicate 9 7)) (mounted_super 4096 rd r1) 0 r2 0 1 1 (seqZ (Z.succ 1) (Z.pred 99)) own2 1 [97; 98] Hfl)
    as (c & s3 & n' & x' & r' & f & E & _ & _ & _ & H1 & H2 & _ & _ & _ & _ & _ & _ & H3 & _).
  - lia.
  - split; [exact Hn|]. split; [cbn; lia|reflexivity].
  - vm_compute; split; congruence.
  - intros j Hj. assert (j = 0) as -> by lia. rewrite Hdi, (fm_root _ _ _ Hf). cbn. discriminate.
  - rewrite Hdi. apply (fm_inodes _ _ _ Hf). vm_compute; split; congruence.
  - exact Hfree.
  - exact Hpo.
  - exact Hps.
  - exists (with_rdev 0 r1 fresh_fs), sb, p, c, s2, n', x', r', f. split; [exact E2|]. exists s3. split; [exact E|]. split; [exact H1|]. split; [exact H2|].
    rewrite H3 by exact Hn. by rewrite bool_decide_true.
Defined.
