(* ===== verification/RfsUnlink.v ===== *)
(** * Removing a name: [rfs_unlink]

    The entry of the name is taken out of the directory by moving the later ones
    forward; the inode loses a link, and with the last one its blocks and its
    place on the disk. *)
From S2P Require Import Prelude Pages HashTable CString VfsData Rfs RfsDisk RfsFile RfsDir RfsLife.

(** ** Entries that move *)

Lemma str_at_inj m a n1 : forall n2, is_name n1 -> is_name n2 -> str_at m a n1 = true -> str_at m a n2 = true -> n1 = n2.
Proof.
  revert a. induction n1 as [|c n1 IH]; intros a [|d n2] H1 H2 E1 E2; cbn [str_at] in *; [done| | |].
  - apply Z.eqb_eq in E1. apply andb_true_iff in E2 as [E2 _]. apply Z.eqb_eq in E2. apply list.Forall_cons in H2 as [H2 _]. lia.
  - apply Z.eqb_eq in E2. apply andb_true_iff in E1 as [E1 _]. apply Z.eqb_eq in E1. apply list.Forall_cons in H1 as [H1 _]. lia.
  - apply andb_true_iff in E1 as [E1 F1]. apply andb_true_iff in E2 as [E2 F2]. apply Z.eqb_eq in E1, E2. apply list.Forall_cons in H1 as [_ H1], H2 as [_ H2].
    f_equal; [congruence|]. by apply (IH (a + 1)).
Qed.

Lemma str_at_shift m e name : forall a, str_at (fun y => m (y + e)) a name = str_at m (a + e) name.
Proof. induction name as [|c name IH]; intros a; cbn [str_at]; [done|]. rewrite IH. by replace (a + 1 + e) with (a + e + 1) by lia. Qed.

Lemma load_le_shift m e k : forall a, load_le k (fun y => m (y + e)) a = load_le k m (a + e).
Proof. induction k as [|k IH]; intros a; cbn [load_le]; [done|]. rewrite IH. by replace (a + 1 + e) with (a + e + 1) by lia. Qed.

Lemma dir_find_app a b m name : forall j, dir_find (a + b) m j name =
  match dir_find a m j name with Some r => Some r | None => dir_find b m (j + Z.of_nat a) name end.
Proof.
  induction a as [|a IH]; intros j; cbn [Nat.add dir_find]; [by rewrite Z.add_0_r|]. destruct (str_at _ _ _); [done|]. rewrite IH.
  by replace (j + 1 + Z.of_nat a) with (j + Z.of_nat (S a)) by lia.
Qed.

Lemma dir_find_first f m name : forall j t v, dir_find f m j name = Some (t, v) ->
  j <= t < j + Z.of_nat f /\ str_at m (32 * t + 4) name = true /\ v = ld_int m (32 * t) /\ forall u, j <= u < t -> str_at m (32 * u + 4) name = false.
Proof.
  induction f as [|f IH]; intros j t v Hf; [done|]. cbn [dir_find] in Hf. destruct (str_at m (32 * j + 4) name) eqn:E.
  - injection Hf as <- <-. split; [lia|]. split; [done|]. split; [done|]. intros u Hu. lia.
  - destruct (IH _ _ _ Hf) as (H1 & H2 & H3 & H4). split; [lia|]. split; [done|]. split; [done|]. intros u Hu.
    destruct (decide (u = j)) as [->|]; [done|]. apply H4. lia.
Qed.

Lemma dir_find_none f m name : forall j, (forall t, j <= t < j + Z.of_nat f -> str_at m (32 * t + 4) name = false) -> dir_find f m j name = None.
Proof. induction f as [|f IH]; intros j Hf; [done|]. cbn [dir_find]. rewrite Hf by lia. apply IH. intros t Ht. apply Hf. lia. Qed.

Section Removed.
Variables (m m' : bmem) (idx : Z) (total : nat).
Hypothesis Hidx : 0 <= idx < Z.of_nat total.
Hypothesis Htot : (total <= 128)%nat.
Hypothesis Hcopy : copied_range m m' (32 * idx) (32 * (idx + 1)) (32 * (127 - idx)).
Hypothesis Hterm : forall t, 0 <= t < Z.of_nat total -> terminated m (32 * t + 4).

Lemma removed_before y : y < 32 * idx -> m' y = m y.
Proof. intros Hy. rewrite Hcopy. by rewrite decide_False by lia. Qed.
Lemma removed_after y : 32 * idx <= y < 32 * 127 -> m' y = m (y + 32).
Proof. intros Hy. rewrite Hcopy. rewrite decide_True by lia. f_equal. lia. Qed.

Lemma removed_terminated t : 0 <= t < Z.of_nat total - 1 -> terminated m' (32 * t + 4).
Proof.
  intros Ht. destruct (decide (t < idx)) as [Hlt|Hge].
  - destruct (Hterm t ltac:(lia)) as (k & Hk & Hz). exists k. split; [done|]. by rewrite removed_before by lia.
  - destruct (Hterm (t + 1) ltac:(lia)) as (k & Hk & Hz). exists k. split; [done|]. rewrite removed_after by lia. rewrite <- Hz. f_equal. lia.
Qed.

(** The entries behind the removed one are found one place earlier. *)
Lemma removed_tail nm : is_name nm -> forall f j, idx <= j -> j + Z.of_nat f <= Z.of_nat total - 1 ->
  snd <$> dir_find f m' j nm = snd <$> dir_find f m (j + 1) nm.
Proof.
  intros Hnm. induction f as [|f IH]; intros j Hj Hf; [done|]. cbn [dir_find].
  destruct (Hterm (j + 1) ltac:(lia)) as (k & Hk & Hz).
  assert (Es : str_at m' (32 * j + 4) nm = str_at m (32 * (j + 1) + 4) nm).
  { rewrite (str_at_ext (fun y => m (y + 32)) m' (32 * j + 4) k nm); [rewrite str_at_shift; f_equal; lia|done|lia|cbv beta; rewrite <- Hz; f_equal; lia|].
    intros y Hy. apply removed_after. lia. }
  assert (El : ld_int m' (32 * j) = ld_int m (32 * (j + 1))).
  { unfold ld_int. f_equal. rewrite (load_le_ext 4 (fun y => m (y + 32)) m') by (intros y Hy; apply removed_after; cbn in Hy; lia).
    rewrite load_le_shift. f_equal. lia. }
  rewrite Es, El. destruct (str_at m (32 * (j + 1) + 4) nm); [done|]. apply IH; lia.
Qed.

Lemma removed_lookup name nm :
  is_name name -> is_name nm -> str_at m (32 * idx + 4) name = true ->
  (forall t, 0 <= t < Z.of_nat total -> str_at m (32 * t + 4) name = true -> t = idx) ->
  snd <$> dir_find (total - 1) m' 0 nm = if bool_decide (nm = name) then None else snd <$> dir_find total m 0 nm.
Proof.
  intros Hname Hnm Hat Huniq. set (a := Z.to_nat idx). set (b := (total - 1 - a)%nat).
  replace (total - 1)%nat with (a + b)%nat by (unfold b, a; lia). rewrite dir_find_app.
  rewrite (dir_find_ext a m m') by (done || (intros; apply Hterm || apply removed_before; lia)).
  replace total with (a + S b)%nat at 1 by (unfold b, a; lia). rewrite dir_find_app, !Z.add_0_l. replace (Z.of_nat a) with idx by (unfold a; lia).
  cbn [dir_find]. case_bool_decide as E.
  - subst nm. rewrite dir_find_none.
    + rewrite removed_tail by (done || (unfold a, b; lia)). rewrite dir_find_none; [done|]. intros t Ht.
      destruct (str_at m (32 * t + 4) name) eqn:Et; [|done]. apply Huniq in Et; unfold a, b in *; lia.
    + intros t Ht. destruct (str_at m (32 * t + 4) name) eqn:Et; [|done]. apply Huniq in Et; unfold a in *; lia.
  - destruct (str_at m (32 * idx + 4) nm) eqn:Ei; [by destruct E; apply (str_at_inj m (32 * idx + 4))|].
    destruct (dir_find a m 0 nm); [done|]. apply removed_tail; [done|lia|unfold a, b; lia].
Qed.
End Removed.

(** ** Blocks that are given back *)

Fixpoint freed (l : list Z) (x : super_block) : super_block :=
  match l with [] => x | a :: l' => freed l' (marked (a - RFS_BLK_OFFSET_FREE) 0 x) end.

Lemma freed_keeps l : forall x, sb_nblocks (freed l x) = sb_nblocks x /\ s_dev (freed l x) = s_dev x.
Proof. induction l as [|a l IH]; intros x; [done|]. apply (IH (marked _ 0 x)). Qed.

Lemma freed_map l : forall x c, ld_int (s_fs_info (freed l x)) (4 * c) = if decide (RFS_BLK_OFFSET_FREE + c ∈ l) then 0 else ld_int (s_fs_info x) (4 * c).
Proof.
  induction l as [|a l IH]; intros x c; cbn [freed]; [by rewrite decide_False by apply not_elem_of_nil|]. rewrite IH. cbn [marked set_s_fs_info s_fs_info].
  rewrite ld_mark by lia. destruct (decide (RFS_BLK_OFFSET_FREE + c ∈ l)) as [Hin|Hin]; [by rewrite decide_True by (by right)|].
  destruct (decide (c = a - RFS_BLK_OFFSET_FREE)) as [->|Hne].
  - rewrite decide_True; [done|]. replace (RFS_BLK_OFFSET_FREE + (a - RFS_BLK_OFFSET_FREE)) with a by lia. by left.
  - rewrite decide_False; [done|]. intros [E|?]%elem_of_cons; [|done]. apply Hne. lia.
Qed.

Lemma file_ok_freed n x l : file_ok n x -> (forall k, 0 <= k < nblk n -> addr n k ∉ l) -> file_ok n (freed l x).
Proof.
  intros [H1 H2 H3 H4 H5] Hl. destruct (freed_keeps l x) as [E _]. split; try done; rewrite ?E; try done. intros k Hk. destruct (H4 k Hk) as [Ha Hu]. split; [done|].
  rewrite freed_map. replace (RFS_BLK_OFFSET_FREE + (addr n k - RFS_BLK_OFFSET_FREE)) with (addr n k) by lia. by rewrite decide_False by (by apply Hl).
Qed.

Section Unlink.
Context {PS : Type} `{PageSource PS}.
Implicit Types (s : fstate PS).

Lemma free_blocks_run sb l : forall s x,
  supers s !! sb = Some x -> Forall (fun a => RFS_BLK_OFFSET_FREE <= a < RFS_BLK_OFFSET_FREE + 1024) l ->
  free_blocks sb l s = Ret tt (with_super sb (freed l x) s).
Proof.
  induction l as [|a l IH]; intros s x Hx Hl; cbn [free_blocks freed].
  - unfold ret, with_super. f_equal. destruct s; cbn in *. unfold set_supers. cbn. by rewrite insert_id.
  - apply list.Forall_cons in Hl as [Ha Hl].
    pose proof (free_block_run s sb x (a - RFS_BLK_OFFSET_FREE) Hx ltac:(lia)) as E. replace (RFS_BLK_OFFSET_FREE + (a - RFS_BLK_OFFSET_FREE)) with a in E by lia.
    rewrite (bind_Ret _ _ _ _ _ E). rewrite (IH _ (marked (a - RFS_BLK_OFFSET_FREE) 0 x)); [|apply lookup_insert_eq|done].
    unfold with_super, set_supers. cbn. by rewrite insert_insert_eq.
Qed.

(** The block of the directory without the entry. *)
Definition without (m : bmem) (idx : Z) : bmem := memmove m (32 * idx) (32 * (idx + 1)) (32 * (127 - idx)).

Lemma remove_run s p i r n x idx own k :
  dev_at s i r -> file_ok n x -> nblk n = 1 -> 0 <= idx < 128 -> pg_ok (fpages s) own (S k) ->
  exists ps, remove_direntry p i n idx s =
      Ret tt (set_fpages ps (with_rdev i (set_block (addr n 0) (without (disk r (addr n 0)) idx) (set_io (without (disk r (addr n 0)) idx) r)) s)) /\
    pg_ok ps own (S k).
Proof.
  intros Hd Hf Hn Hidx Hp. pose proof (file_block_range n x 0 Hf ltac:(lia)) as Hb. unfold remove_direntry, rfs_r1block, rfs_w1block.
  change DIRENTRIES_PER_BLOCK with 128. change DIRENTRY_SIZE with 32. rewrite Z.quot_small, Z.rem_small by lia.
  rewrite (bind_Ret _ _ _ _ _ (addr_of_run s n 0 (fo_len _ _ Hf) ltac:(lia))), (bind_Ret _ _ _ _ _ (ramdisk_read_run s i r (addr n 0) Hd Hb)).
  set (D := disk r (addr n 0)). pose proof (dev_at_with s i r (set_io D r) Hd) as Hd1.
  rewrite (bind_Ret _ _ _ _ _ (set_iobuffer_run _ i _ _ Hd1)), with_rdev_twice. replace (128 - idx - 1) with (127 - idx) by lia.
  cbn [iobuffer set_io]. fold (without D idx). set (r2 := set_io (without D idx) (set_io D r)).
  pose proof (dev_at_with s i r r2 Hd) as Hd2. set (s2 := with_rdev i r2 s) in *.
  destruct (new_page_run s2 own k Hp) as (pg & ps & E & _ & Ho & Hps). rewrite (bind_Ret _ _ _ _ _ E).
  assert (Hd3 : dev_at (set_fpages ps s2) i r2) by exact Hd2.
  rewrite (bind_Ret _ _ _ _ _ (get_iobuffer_run _ i r2 Hd3)). rewrite Hn. change (Z.to_nat (1 - (0 + 1))) with 0%nat. change (1 - 1) with 0. cbn [shift_blocks]. rewrite bind_ret_l.
  rewrite (bind_Ret _ _ _ _ _ (set_iobuffer_run _ i r2 _ Hd3)). cbn [iobuffer r2 set_io].
  set (s4 := with_rdev i _ _). assert (Hd4 : dev_at s4 i (set_io (without D idx) r2)) by (by eapply dev_at_with).
  rewrite (bind_Ret _ _ _ _ _ (addr_of_run s4 n 0 (fo_len _ _ Hf) ltac:(lia))), (bind_Ret _ _ _ _ _ (ramdisk_write_run s4 i _ (addr n 0) Hd4 Hb)).
  set (s5 := with_rdev i _ s4). destruct (pages_back s5 own k pg Ho Hps) as (ps2 & E2 & Hps2). exists ps2. split; [|exact Hps2]. rewrite E2. f_equal.
  unfold s5, s4, s2, with_rdev, set_fpages, set_rfs_device_list. cbn. by rewrite !list_insert_insert_eq.
Qed.

(** ** The whole of [rfs_unlink] *)

Section Run.
Variables (s : fstate PS) (p : Z) (n : vinode) (x : super_block) (i : Z) (r : rfs_device) (total : nat) (u : Z) (un : vinode) (name : list Z) (idx ino : Z) (own : gset Z) (k : nat).
Hypothesis Hfl : folder s p n x i r total.
Hypothesis Hone : nblk n = 1.
Hypothesis Hfind : dir_find total (disk r (addr n 0)) 0 name = Some (idx, ino).
Hypothesis Hino : 0 <= ino < MAX_INODES /\ ino <> inum n.
Hypothesis Hup : u <> p /\ vinodes s !! u = Some un.
Let d := disk_inode r ino.
Hypothesis Hlinks : nlinks un = di_nlinks d /\ is_int (nlinks un - 1).
Let blocks := take (Z.to_nat (di_blocks d)) (di_addrs d).
Hypothesis Hblocks : di_blocks d <= 10 /\ Forall (fun a => RFS_BLK_OFFSET_FREE <= a < RFS_BLK_OFFSET_FREE + 1024) blocks.
Hypothesis Hp : pg_ok (fpages s) own (S k).

Let dead := nlinks un - 1 =? 0.
Let un' := set_nlinks (nlinks un - 1) un.
Let x' := if dead then freed blocks x else x.
Let d' := mkDinode (di_size d) (if dead then R_FREE else di_type d) (nlinks un - 1) (di_blocks d) (di_addrs d).
Let n' := set_vsize (vsize n - 32) n.

(** A state on the way, with inode [v] at [u], super block [y], device [e] and inode [w] of the directory. *)
Record on_way (t : fstate PS) (w v : vinode) (y : super_block) (e : rfs_device) (own' : gset Z) (k' : nat) : Prop := {
  ow_view : fview t p w y i e;
  ow_u : vinodes t !! u = Some v;
  ow_pages : pg_ok (fpages t) own' k';
  ow_others : forall q, q <> p -> q <> u -> vinodes t !! q = vinodes s !! q
}.

Lemma ow_rdev t w v y e own' k' e' : on_way t w v y e own' k' -> on_way (with_rdev i e' t) w v y e' own' k'.
Proof. intros [Hv Hu Hpg Ho]. split; try done. by apply (fview_rdev _ _ _ _ _ e). Qed.

Lemma ow_set_pages t w v y e own' k' ps own2 k2 : on_way t w v y e own' k' -> pg_ok ps own2 k2 -> on_way (set_fpages ps t) w v y e own2 k2.
Proof. intros [Hv Hu Hpg Ho] Hps. split; try done. by destruct Hv; split. Qed.

Lemma ow_unlinked t y e own' k' : on_way t n un y e own' k' -> on_way (with_vinode u un' t) n un' y e own' k'.
Proof.
  intros [[H1 H2 H3 H4] Hu Hpg Ho]. destruct Hup as [Hne _]. split; [split; try done| |done|].
  - cbn. by rewrite lookup_insert_ne.
  - apply lookup_insert_eq.
  - intros q Hq Hq'. cbn. rewrite lookup_insert_ne by done. by apply Ho.
Qed.

(** The links of the inode, its blocks and its place on the disk. *)
Lemma unlink_inode t e :
  on_way t n un x e own (S k) -> disk e = disk r ->
  exists t' e', (forall A (c : M (fstate PS) A),
    (let* '(page, d) := rfs_read_dinode i ino in
     let* v := get_vinode u in
     check (negb (nlinks v =? di_nlinks d)) (Panic "assert(unlink_vinode->nlinks == unlink_dinode->nlinks)") ;;;
     put_vinode u (set_nlinks (nlinks v - 1) v) ;;;
     let dead := nlinks v - 1 =? 0 in
     when dead (check (Z.of_nat DIRECT_BLKNUM <? di_blocks d) (UB "addrs out of range") ;;;
                free_blocks (vsb n) (take (Z.to_nat (di_blocks d)) (di_addrs d))) ;;;
     let* _ := rfs_write_dinode i (mkDinode (di_size d) (if dead then R_FREE else di_type d) (nlinks v - 1) (di_blocks d) (di_addrs d)) ino in
     page_op (pg_free page) ;;; c) t = c t') /\
    on_way t' n un' x' e' own (S k) /\ stored r e' ino d'.
Proof.
  intros Ht He. destruct Hlinks as [Hln Hint], Hblocks as [Hb10 Hbl], Hino as [Hi _].
  assert (Hde : disk_inode e ino = d) by (unfold d, disk_inode; by rewrite He).
  destruct (read_dinode_run t i e ino own k (fv_rdev _ _ _ _ _ _ (ow_view _ _ _ _ _ _ _ Ht)) Hi (ow_pages _ _ _ _ _ _ _ Ht)) as (pg & ps & E1 & _ & Ho & Hps).
  rewrite Hde in E1. set (e1 := set_io _ e) in *. set (t1 := set_fpages ps _) in *.
  assert (Ht1 : on_way t1 n un x e1 ({[pg]} ∪ own) k) by (eapply ow_set_pages; [by eapply ow_rdev|done]). assert (He1 : disk e1 = disk r) by exact He. clearbody t1 e1.
  pose proof (ow_unlinked _ _ _ _ _ Ht1) as Ht2. set (t2 := with_vinode u un' t1) in *. assert (Et2 : t2 = set_vinodes (<[u := un']> (vinodes t1)) t1) by done.
  assert (E3 : when dead (check (Z.of_nat DIRECT_BLKNUM <? di_blocks d) (UB "addrs out of range") ;;; free_blocks (vsb n) blocks) t2 =
    Ret tt (with_super (vsb n) x' t2)).
  { unfold x'. pose proof (fv_super _ _ _ _ _ _ (ow_view _ _ _ _ _ _ _ Ht2)) as Hx2. destruct dead; cbn [when].
    - unfold check. rewrite (proj2 (Z.ltb_ge _ _)) by (unfold DIRECT_BLKNUM; lia). rewrite bind_ret_l. by apply free_blocks_run.
    - unfold ret, with_super. f_equal. clearbody t2. destruct t2; cbn in *. unfold set_supers. cbn. by rewrite insert_id. }
  assert (Ht3 : on_way (with_super (vsb n) x' t2) n un' x' e1 ({[pg]} ∪ own) k).
  { destruct Ht2 as [[H1 H2 (dd & H3 & H4) H5] Hu Hpg Hot]. split; try done. split; [done|apply lookup_insert_eq| |done]. exists dd. split; [|done]. rewrite <- H3.
    unfold x'. destruct dead; [|done]. cbn. by destruct (freed_keeps blocks x) as [_ ->]. }
  set (t3 := with_super (vsb n) x' t2) in *. clearbody t3.
  destruct (stored_run t3 i e1 d' ino (fv_rdev _ _ _ _ _ _ (ow_view _ _ _ _ _ _ _ Ht3)) Hi) as (e4 & E4 & Hst).
  { destruct (disk_inode_ok r ino) as [L1 L2]. split; [exact L1|]. unfold dinode_ints in *. fold d in L2. cbn in L2 |- *. apply list.Forall_cons in L2 as [L3 L2].
    apply list.Forall_cons in L2 as [L4 L2]. apply list.Forall_cons in L2 as [_ L2]. apply Forall_cons_2; [done|]. apply Forall_cons_2; [by destruct dead|]. by apply Forall_cons_2. }
  pose proof (ow_rdev _ _ _ _ _ _ _ e4 Ht3) as Ht4. set (t4 := with_rdev i e4 t3) in *. clearbody t4.
  destruct (pages_back t4 own k pg Ho (ow_pages _ _ _ _ _ _ _ Ht4)) as (ps5 & E5 & Hps5).
  exists (set_fpages ps5 t4), e4. split; [|split].
  - intros A c. rewrite (bind_Ret _ _ _ _ _ E1). rewrite (bind_Ret _ _ _ _ _ (get_vinode_run _ _ _ (ow_u _ _ _ _ _ _ _ Ht1))).
    unfold check at 1. rewrite Hln, Z.eqb_refl. cbn [negb]. rewrite bind_ret_l. rewrite <- Hln.
    assert (Ep : put_vinode u (set_nlinks (nlinks un - 1) un) t1 = Ret tt t2) by (rewrite Et2; done). rewrite (bind_Ret _ _ _ _ _ Ep).
    cbv zeta. fold dead blocks. rewrite (bind_Ret _ _ _ _ _ E3). fold d'. rewrite (bind_Ret _ _ _ _ _ E4). by rewrite (bind_Ret _ _ _ _ _ E5).
  - by eapply ow_set_pages.
  - destruct Hst as [H1 H2]. split; [|by rewrite <- He1]. intros j Hj. rewrite H1 by done. unfold disk_inode. by rewrite He1.
Qed.

Lemma rfs_unlink_run :
  exists t e, rfs_unlink p name u s = Ret 0 t /\ on_way t n' un' x' e own (S k) /\
    (forall j, 0 <= j < MAX_INODES -> disk_inode e j = if decide (j = inum n) then dinode_of n' else if decide (j = ino) then d' else disk_inode r j) /\
    (forall c, RFS_BLK_OFFSET_FREE <= c -> disk e c = if decide (c = addr n 0) then without (disk r c) idx else disk r c).
Proof.
  destruct Hfl as [Hdir Hfo _ _]. destruct Hup as [Hune Hu], Hino as [Hi Hii]. pose proof Hdir as [Hv Hdok Hty Hinum Htot Hroom Hb0 _].
  destruct (dir_find_first _ _ _ _ _ _ Hfind) as (Hidx & _).
  destruct (find_direntry_run s p n x i r total name Hdir) as (m & Ef). rewrite Hfind in Ef.
  assert (Hw1 : on_way (reading i r s m) n un x (set_io m r) own (S k)).
  { apply (ow_rdev s n un x r). by split. }
  destruct (unlink_inode _ _ Hw1 eq_refl) as (t2 & e2 & E2 & Hw2 & [Hin2 Hbl2]).
  assert (Hib : forall j c, 0 <= j < MAX_INODES -> RFS_BLK_OFFSET_FREE <= c -> c <> inode_block j).
  { intros j c Hj Hc. pose proof (inode_block_range _ Hj). unfold RFS_BLK_OFFSET_FREE in Hc. lia. }
  destruct (remove_run t2 p i e2 n x idx own k (fv_rdev _ _ _ _ _ _ (ow_view _ _ _ _ _ _ _ Hw2)) Hfo Hone ltac:(lia) (ow_pages _ _ _ _ _ _ _ Hw2)) as (ps3 & E3 & Hps3).
  rewrite (Hbl2 (addr n 0)) in E3 by (apply Hib; [done|lia]). set (e3 := set_block _ _ _) in *. set (t3 := set_fpages ps3 _) in *.
  assert (Hw3 : on_way t3 n un' x' e3 own (S k)) by (eapply ow_set_pages; [by eapply ow_rdev|done]).
  assert (He3 : forall c, disk e3 c = if c =? addr n 0 then without (disk r (addr n 0)) idx else disk e2 c) by done. clearbody t3 e3.
  set (t4 := with_vinode p n' t3). assert (Hw4 : on_way t4 n' un' x' e3 own (S k)).
  { destruct Hw3 as [[H1 H2 H3 H4] Hu3 Hpg Ho]. split; [split; [apply lookup_insert_eq|done|done|done]|cbn; by rewrite lookup_insert_ne|done|].
    intros q Hq Hq'. cbn. rewrite lookup_insert_ne by done. by apply Ho. }
  pose proof (write_back_run t4 p n' x' i e3 (ow_view _ _ _ _ _ _ _ Hw4) Hinum) as E5. set (e5 := let m := _ in set_block _ m _) in *.
  assert (Hok' : dinode_ok (dinode_of n')).
  { destruct Hdok as [L1 L2]. split; [exact L1|]. unfold dinode_ints in *. cbn in L2 |- *. apply list.Forall_cons in L2 as [_ L2]. apply Forall_cons_2; [unfold is_int; lia|done]. }
  exists (with_rdev i e5 t4), e5. split; [|split; [by apply (ow_rdev t4 n' un' x' e3)|split]].
  - unfold rfs_unlink. rewrite (bind_Ret _ _ _ _ _ (get_vinode_run _ _ _ (fv_vinode _ _ _ _ _ _ Hv))), (bind_Ret _ _ _ _ _ (rdev_of_run _ _ _ _ _ _ Hv)).
    unfold DIRENTRY_SIZE. replace (vsize n / 32) with (Z.of_nat total) by (rewrite Htot; Z.to_euclidean_division_equations; lia).
    unfold check at 1. rewrite (proj2 (Z.leb_gt _ _)) by lia. rewrite bind_ret_l. rewrite Nat2Z.id, (bind_Ret _ _ _ _ _ Ef). cbv iota beta.
    etransitivity; [apply E2|]. rewrite (bind_Ret _ _ _ _ _ E3). rewrite Hone. change (1 <? 1) with false. rewrite andb_false_r, bind_ret_l.
    unfold upd_vinode. rewrite bind_assoc, (bind_Ret _ _ _ _ _ (get_vinode_run _ _ _ (fv_vinode _ _ _ _ _ _ (ow_view _ _ _ _ _ _ _ Hw3)))).
    assert (Ep : put_vinode p (set_vsize (vsize n - 32) n) t3 = Ret tt t4) by done. rewrite (bind_Ret _ _ _ _ _ Ep). by rewrite (bind_Ret _ _ _ _ _ E5).
  - intros j Hj. etransitivity; [apply (disk_inode_written e3 (dinode_of n') j (inum n') ltac:(lia) (proj1 Hinum) Hok')|]. change (inum n') with (inum n). destruct (decide (j = inum n)); [done|].
    transitivity (disk_inode e2 j); [|apply Hin2; lia]. unfold disk_inode. rewrite He3. rewrite (proj2 (Z.eqb_neq _ _)); [done|]. intros E. by apply (Hib j (addr n 0)); [|lia|].
  - intros c Hc. unfold e5. cbn [disk set_block set_io]. change (inum n') with (inum n). rewrite (proj2 (Z.eqb_neq _ _)) by (by apply Hib). rewrite He3.
    destruct (decide (c = addr n 0)) as [->|Hne]; [by rewrite Z.eqb_refl|]. rewrite (proj2 (Z.eqb_neq _ _) Hne). apply Hbl2. by apply Hib.
Qed.
End Run.

(** C20: [rfs_unlink] removes a name.  In a directory of one block where one entry has the name, whose inode [ino] has the links
    that the inode [u] in memory shows, it returns 0.  The directory is a directory still, with one entry less, and binds what it bound but this
    name; the inode loses a link in memory and on disk; with the last link it becomes a free inode and exactly
    its blocks become free; every other inode on disk and in memory, every data block but that of the directory, and the pages
    in use are as before. *)
Theorem rfs_unlink_correct s p n x i r total u un name idx ino own k :
  let d := disk_inode r ino in let blocks := take (Z.to_nat (di_blocks d)) (di_addrs d) in let D := disk r (addr n 0) in
  folder s p n x i r total -> nblk n = 1 -> bytes_ok D -> is_name name ->
  dir_find total D 0 name = Some (idx, ino) -> (forall t, 0 <= t < Z.of_nat total -> str_at D (32 * t + 4) name = true -> t = idx) ->
  0 <= ino < MAX_INODES /\ ino <> inum n -> u <> p /\ vinodes s !! u = Some un -> nlinks un = di_nlinks d /\ is_int (nlinks un - 1) ->
  di_blocks d <= 10 /\ Forall (fun a => RFS_BLK_OFFSET_FREE <= a < RFS_BLK_OFFSET_FREE + 1024) blocks -> addr n 0 ∉ blocks -> pg_ok (fpages s) own (S k) ->
  exists s' n' x' r', rfs_unlink p name u s = Ret 0 s' /\ folder s' p n' x' i r' (total - 1) /\
    (forall nm, is_name nm -> dir_lookup r' n' nm = if bool_decide (nm = name) then None else dir_lookup r n nm) /\
    vinodes s' !! u = Some (set_nlinks (nlinks un - 1) un) /\
    disk_inode r' ino = mkDinode (di_size d) (if nlinks un =? 1 then R_FREE else di_type d) (nlinks un - 1) (di_blocks d) (di_addrs d) /\
    (forall c, ld_int (s_fs_info x') (4 * c) = if decide (nlinks un = 1 /\ RFS_BLK_OFFSET_FREE + c ∈ blocks) then 0 else ld_int (s_fs_info x) (4 * c)) /\
    (forall j, 0 <= j < MAX_INODES -> j <> inum n -> j <> ino -> disk_inode r' j = disk_inode r j) /\
    (forall c, RFS_BLK_OFFSET_FREE <= c -> c <> addr n 0 -> disk r' c = disk r c) /\
    (forall q, q <> p -> q <> u -> vinodes s' !! q = vinodes s !! q) /\ pg_ok (fpages s') own (S k).
Proof.
  intros d blocks D Hfl Hone Hby Hname Hfind Huniq Hino Hup Hlinks Hblocks Hown Hp.
  destruct (rfs_unlink_run s p n x i r total u un name idx ino own k Hfl Hone Hfind Hino Hup Hlinks Hblocks Hp) as (t & e & E & [Hv Hu Hpg Ho] & Hdi & Hdk).
  fold d blocks in Hv, Hdi. set (dead := nlinks un - 1 =? 0) in *.
  assert (Hdead : dead = (nlinks un =? 1)) by (unfold dead; destruct (Z.eqb_spec (nlinks un - 1) 0), (Z.eqb_spec (nlinks un) 1); lia).
  set (x' := if dead then freed blocks x else x) in *. set (n' := set_vsize (vsize n - 32) n) in *.
  destruct Hfl as [[_ Hdok Hty Hinum Htot Hroom Hb0 Hterm] Hfo _ _]. destruct Hino as [Hi Hii].
  destruct (dir_find_first _ _ _ _ _ _ Hfind) as (Hidx & Hat & _).
  assert (He0 : disk e (addr n 0) = without D idx) by (rewrite Hdk by lia; by rewrite decide_True).
  pose proof (memmove_correct D (32 * idx) (32 * (idx + 1)) (32 * (127 - idx)) Hby ltac:(lia)) as Hcopy. fold (without D idx) in Hcopy.
  assert (Hbl : 0 <= idx < Z.of_nat total) by lia.
  assert (Hn' : Z.to_nat (vsize n' / 32) = (total - 1)%nat) by (unfold n'; cbn [vsize set_vsize]; rewrite Htot; Z.to_euclidean_division_equations; lia).
  exists t, n', x', e. split; [exact E|]. split; [|split; [|split; [exact Hu|split; [|split; [|split; [|split; [|split; [exact Ho|exact Hpg]]]]]]]].
  - split; [split|..]; try done.
    + destruct Hdok as [L1 L2]. split; [exact L1|]. unfold dinode_ints in *. cbn in L2 |- *. apply list.Forall_cons in L2 as [_ L2]. apply Forall_cons_2; [unfold is_int; lia|done].
    + unfold n'. cbn [vsize set_vsize]. lia.
    + lia.
    + intros y Hy. change (addr n' 0) with (addr n 0). rewrite He0. apply (removed_terminated D _ idx total Hroom Hcopy Hterm). lia.
    + apply (file_ok_same n); try done. unfold x'. destruct dead; [|done]. apply file_ok_freed; [done|]. intros j Hj. by replace j with 0 by lia.
    + change (nblk n') with (nblk n). lia.
    + rewrite Hdi by done. by rewrite decide_True.
  - intros nm Hnm. unfold dir_lookup. change (addr n' 0) with (addr n 0). rewrite He0, Hn'.
    replace (Z.to_nat (vsize n / 32)) with total by (rewrite Htot; Z.to_euclidean_division_equations; lia).
    by apply (removed_lookup D _ idx total Hbl Hroom Hcopy Hterm).
  - rewrite Hdi by done. rewrite decide_False by done. rewrite decide_True by done. by rewrite Hdead.
  - intros c. unfold x'. rewrite Hdead. destruct (Z.eqb_spec (nlinks un) 1) as [E1|E1]; [|by rewrite decide_False by (intros [? _]; done)].
    rewrite freed_map. apply decide_ext. tauto.
  - intros j Hj Hjn Hji. rewrite Hdi by done. by rewrite !decide_False.
  - intros c Hc Hca. rewrite Hdk by done. by rewrite decide_False.
Qed.
End Unlink.

(** ** A directory with two entries *)

Lemma put_bytes_ok l : forall m a, bytes_ok m -> bytes_ok (put_bytes m a l).
Proof. induction l as [|c l IH]; intros m a Hm; [done|]. cbn [put_bytes]. by apply IH, upd_ok. Qed.

Lemma entry_block_ok m total name ino : bytes_ok m -> bytes_ok (entry_block m total name ino).
Proof. intros Hm. unfold entry_block. by apply put_bytes_ok, store_le_ok. Qed.

(** Entries "ab" for inode 5, a file of one block with one link, and "c" for inode 7. *)
Definition dir2 : vinode := mkVinode 0 1 64 DIR_I 1 1 (12 :: replicate 9 0) 0 8192 RFS.
Definition file5 : vinode := mkVinode 5 1 3 FILE_I 1 1 (13 :: replicate 9 0) 0 8192 RFS.
Definition super3 : super_block := mkSuper RFS_MAGIC 112 100 320 0 4096 (fun a => if (a =? 0) || (a =? 4) then 1 else 0).
Definition rdev3 : rfs_device :=
  mkRdev 0 128 4096 (fun _ => 0) (fun b =>
    if b =? 12 then entry_block (entry_block (fun _ => 0) 0 [97; 98] 5) 1 [99] 7
    else if b =? 1 then st_dinode (st_dinode (fun _ => 0) 0 (dinode_of dir2)) 640 (dinode_of file5) else fun _ => 0).
Definition fs3 : fstate (list Z) :=
  set_vinodes {[ 12288 := dir2; 16384 := file5 ]} (set_supers {[ 8192 := super3 ]} (with_rdev 0 rdev3 fs0)).

Lemma dir2_folder : folder fs3 12288 dir2 super3 0 rdev3 2.
Proof.
  split.
  - split.
    + split; [reflexivity|reflexivity|eexists; split; reflexivity|done].
    + split; [reflexivity|]. unfold dinode_ints; cbn. repeat (apply Forall_cons_2; [split; vm_compute; congruence|]); apply Forall_nil_2.
    + reflexivity.
    + vm_compute; split; congruence.
    + reflexivity.
    + lia.
    + vm_compute; split; congruence.
    + intros t Ht. assert (t = 0 \/ t = 1) as [->| ->] by lia; [exists 2|exists 1]; (split; [lia|]); vm_compute; reflexivity.
  - split; [reflexivity|vm_compute; split; congruence|vm_compute; split; congruence| |].
    + intros k Hk. cbn in Hk. assert (k = 0) as -> by lia. vm_compute. intuition congruence.
    + intros j k Hj Hk _. cbn in *. lia.
  - reflexivity.
  - vm_compute. reflexivity.
Qed.

Lemma rfs_unlink_correct_witness :
  exists s' n' x' r', rfs_unlink 12288 [97; 98] 16384 fs3 = Ret 0 s' /\ folder s' 12288 n' x' 0 r' 1 /\
    dir_lookup r' n' [97; 98] = None /\ dir_lookup r' n' [99] = Some 7 /\
    di_type (disk_inode r' 5) = R_FREE /\ ld_int (s_fs_info x') 4 = 0 /\ ld_int (s_fs_info x') 0 = 1.
Proof.
  destruct (rfs_unlink_correct fs3 12288 dir2 super3 0 rdev3 2 16384 file5 [97; 98] 0 5 ∅ 3)
    as (s' & n' & x' & r' & H1 & H2 & H3 & _ & H4 & H5 & _).
  - exact dir2_folder.
  - reflexivity.
  - apply entry_block_ok, entry_block_ok. intros a. lia.
  - repeat (apply Forall_cons_2; [lia|]); apply Forall_nil_2.
  - vm_compute. reflexivity.
  - intros t Ht. assert (t = 0 \/ t = 1) as [->| ->] by lia; vm_compute; congruence.
  - vm_compute. intuition congruence.
  - split; [lia|reflexivity].
  - split; [vm_compute; reflexivity|vm_compute; split; congruence].
  - split; [vm_compute; congruence|]. apply (bool_decide_unpack _). vm_compute. exact I.
  - apply (bool_decide_unpack _). vm_compute. exact I.
  - exact fs0_pages.
  - exists s', n', x', r'. split; [exact H1|]. split; [exact H2|].
    split; [rewrite H3 by (repeat (apply Forall_cons_2; [lia|]); apply Forall_nil_2); reflexivity|].
    split; [rewrite H3 by (repeat (apply Forall_cons_2; [lia|]); apply Forall_nil_2); vm_compute; reflexivity|].
    split; [rewrite H4; reflexivity|].
    split; [exact (H5 1)|exact (H5 0)].
Defined.
