(* ===== verification/Vfs.v ===== *)
(** * The virtual file system (kernel/vfs.c)

    Path lookup through the cache of directory entries, opening, reading,
    closing, linking and unlinking, written against the table of operations
    ([struct vinode_ops]) of the file systems.  A [struct file] that a function
    changes is passed and returned; [cwd] is the working directory of the
    current process. *)
From S2P Require Import Prelude Pages HashTable CString VfsData Rfs.

(** [struct vinode_ops]: the file system's own functions.  An offset that the C
    function updates through a pointer is returned. *)
Record vinode_ops (PS : Type) : Type := mkOps {
  viop_read : Z -> Z -> Z -> M (fstate PS) (Z * list Z * Z);
  viop_write : Z -> list Z -> Z -> M (fstate PS) (Z * Z);
  viop_create : Z -> Z -> M (fstate PS) Z;
  viop_lseek : Z -> Z -> Z -> Z -> M (fstate PS) (Z * Z);
  viop_disk_stat : Z -> M (fstate PS) (Z * istat);
  viop_link : Z -> Z -> Z -> M (fstate PS) Z;
  viop_unlink : Z -> Z -> Z -> M (fstate PS) Z;
  viop_lookup : Z -> Z -> M (fstate PS) Z;
  viop_readdir : Z -> Z -> M (fstate PS) (Z * option (list Z * Z) * Z);
  viop_mkdir : Z -> Z -> M (fstate PS) Z;
  viop_write_back_vinode : Z -> M (fstate PS) Z;
  viop_hook_open : option (Z -> Z -> M (fstate PS) Z);
  viop_hook_close : option (Z -> Z -> M (fstate PS) Z);
  viop_hook_opendir : option (Z -> Z -> M (fstate PS) Z);
  viop_hook_closedir : option (Z -> Z -> M (fstate PS) Z)
}.
Arguments viop_read {PS}. Arguments viop_write {PS}. Arguments viop_create {PS}. Arguments viop_lseek {PS}.
Arguments viop_disk_stat {PS}. Arguments viop_link {PS}. Arguments viop_unlink {PS}. Arguments viop_lookup {PS}.
Arguments viop_readdir {PS}. Arguments viop_mkdir {PS}. Arguments viop_write_back_vinode {PS}.
Arguments viop_hook_open {PS}. Arguments viop_hook_close {PS}. Arguments viop_hook_opendir {PS}.
Arguments viop_hook_closedir {PS}. Arguments mkOps {PS}.

(** The operations of rfs; they use of a directory entry its name. *)
Definition rfs_i_ops {PS : Type} `{PageSource PS} : vinode_ops PS :=
  let named {A} (f : list Z -> M (fstate PS) A) (d : Z) : M (fstate PS) A :=
    let* x := get_dentry d in f (d_name x) in
  mkOps rfs_read rfs_write (fun p => named (rfs_create p)) rfs_lseek rfs_disk_stat
    (fun p d v => named (fun nm => rfs_link p nm v) d) (fun p d v => named (fun nm => rfs_unlink p nm v) d)
    (fun p => named (rfs_lookup p)) rfs_readdir (fun p => named (rfs_mkdir p)) rfs_write_back_vinode
    None None (Some (fun v _ => rfs_hook_opendir v)) (Some (fun v _ => rfs_hook_closedir v)).

(** The file systems that are registered: the tables of operations and the
    functions [get_superblock]. *)
Class FileSystems (PS : Type) : Type := {
  ops_of : fs_kind -> vinode_ops PS;
  get_superblock : fs_kind -> Z -> M (fstate PS) Z
}.

(** ** Paths *)

Definition SLASH : Z := 47.
Definition DOT : Z := 46.

(** The words of a path that [strtok(path, "/")] and the calls
    [strtok(NULL, "/")] after it return. *)
Fixpoint tokens_from (l word : list Z) : list (list Z) :=
  match l with
  | [] => if decide (word = []) then [] else [word]
  | c :: l' =>
      if c =? SLASH then (if decide (word = []) then [] else [word]) ++ tokens_from l' []
      else tokens_from l' (word ++ [c])
  end.
Definition tokens (path : list Z) : list (list Z) := tokens_from path [].

(** [path[0] == '.' && path[1] == '/'] and the like: the rest of the path. *)
Definition strip (prefix path : list Z) : option (list Z) :=
  if decide (take (length prefix) path = prefix) then Some (drop (length prefix) path) else None.
Definition here : list Z := [DOT; SLASH].
Definition up : list Z := [DOT; DOT; SLASH].

Section Vfs.
Context {PS : Type} `{PageSource PS} `{FileSystems PS}.
#[local] Notation FM := (M (fstate PS)).

(** The operations of an inode. *)
Definition ops (inode : Z) : FM (vinode_ops PS) := let* n := get_vinode inode in ret (ops_of (i_ops n)).

Definition parent_of (d : Z) : FM Z := let* x := get_dentry d in ret (d_parent x).

(** Where the lookup of a path starts: the root, or relative to [cwd]. *)
Definition start_of (cwd : Z) (path : list Z) : FM (Z * list Z) :=
  let* s := get in
  let '(parent, path) := match strip here path with
                         | Some rest => (cwd, rest)
                         | None => (vfs_root_dentry s, path)
                         end in
  match strip up path with
  | Some rest => let* p := parent_of cwd in ret (p, rest)
  | None => ret (parent, path)
  end.

(** An entry that is not cached: look it up in its directory and cache it. *)
Definition load_dentry (parent : Z) (token : list Z) : FM Z :=
  let* this := alloc_vfs_dentry token 0 parent in
  let* pd := get_dentry parent in
  let* o := ops (dentry_inode pd) in
  let* found := viop_lookup o (dentry_inode pd) this in
  if found =? 0 then free_dentry this ;;; ret 0 else
  let* n := get_vinode found in
  let* same := hash_get_vinode (vsb n) (inum n) in
  (if negb (same =? 0) then
     upd_dentry this (set_d_inode same) ;;;
     upd_vinode same (fun n => set_vref (vref n + 1) n) ;;;
     free_vinode found
   else
     upd_dentry this (set_d_inode found) ;;;
     upd_vinode found (fun n => set_vref (vref n + 1) n) ;;;
     let* _ := hash_put_vinode found in ret tt) ;;;
  let* _ := hash_put_dentry this in
  ret this.

(** The walk over the words of the path: the entry (0 when one is missing), the
    last directory and the missing word. *)
Fixpoint walk (words : list (list Z)) (this parent : Z) : FM (Z * Z * list Z) :=
  match words with
  | [] => ret (this, parent, [])
  | token :: rest =>
      let* d := hash_get_dentry this token in
      let* d := if d =? 0 then load_dentry this token else ret d in
      if d =? 0 then ret (0, this, token) else walk rest d this
  end.

Definition lookup_final_dentry (path : list Z) (parent : Z) : FM (Z * Z * list Z) :=
  let path := match strip here path with Some rest => rest | None => path end in
  let* '(parent, path) := match strip up path with
                          | Some rest => let* p := parent_of parent in ret (p, rest)
                          | None => ret (parent, path)
                          end in
  if decide (path = [DOT]) then ret (parent, parent, []) else
  if decide (path = [DOT; DOT]) then let* p := parent_of parent in ret (p, p, []) else
  fits MAX_PATH_LEN path ;;;
  walk (tokens path) parent parent.

Definition get_base_name (path : list Z) : FM (list Z) :=
  fits MAX_PATH_LEN path ;;;
  match list.last (tokens path) with
  | Some w => ret w
  | None => halt (Fault 0)
  end.

(** ** Files *)

(** [flags & MASK_FILEMODE]: writable and readable. *)
Definition file_mode (flags : Z) : FM (Z * Z) :=
  let m := Z.land flags MASK_FILEMODE in
  if m =? O_RDONLY then ret (0, 1)
  else if m =? O_WRONLY then ret (1, 0)
  else if m =? O_RDWR then ret (1, 1)
  else halt (Kill "fs_open: invalid open flags!" (-1)).

(** The creation of a file that does not exist; 0 when a directory on the way
    is missing. *)
Definition create_file (path : list Z) (parent : Z) (miss_name : list Z) : FM Z :=
  let* basename := get_base_name path in
  if negb (bool_decide (miss_name = basename)) then ret 0 else
  let* d := alloc_vfs_dentry basename 0 parent in
  let* pd := get_dentry parent in
  let* o := ops (dentry_inode pd) in
  let* new_inode := viop_create o (dentry_inode pd) d in
  check (new_inode =? 0) (Kill "vfs_open: cannot create file!" (-1)) ;;;
  upd_dentry d (set_d_inode new_inode) ;;;
  upd_vinode new_inode (fun n => set_vref (vref n + 1) n) ;;;
  let* _ := hash_put_dentry d in
  let* _ := hash_put_vinode new_inode in
  ret d.

Definition hook (h : option (Z -> Z -> FM Z)) (inode d : Z) : FM unit :=
  match h with Some f => let* _ := f inode d in ret tt | None => ret tt end.

(** [None] stands for the NULL that is returned. *)
Definition vfs_open (cwd : Z) (path : list Z) (flags : Z) : FM (option file) :=
  let* '(parent, path) := start_of cwd path in
  let* '(d, parent, miss_name) := lookup_final_dentry path parent in
  let* d := if d =? 0 then
              if negb (Z.land flags O_CREAT =? 0) then create_file path parent miss_name else ret 0
            else ret d in
  if d =? 0 then ret None else
  let* x := get_dentry d in
  let* n := get_vinode (dentry_inode x) in
  if negb (vtype n =? FILE_I) then ret None else
  let* '(wr, rd) := file_mode flags in
  let* f := alloc_vfs_file d rd wr in
  let* o := ops (dentry_inode x) in
  hook (viop_hook_open o) (dentry_inode x) d ;;;
  ret (Some f).

(** [file->f_dentry->dentry_inode] *)
Definition inode_of (f : file) : FM Z := let* d := get_dentry (f_dentry f) in ret (dentry_inode d).

(** The result, what is stored into [buf], and the file. *)
Definition vfs_read (f : file) (count : Z) : FM (Z * list Z * file) :=
  if readable f =? 0 then ret (-1, [], f) else
  let* i := inode_of f in
  let* n := get_vinode i in
  if negb (vtype n =? FILE_I) then ret (-1, [], f) else
  let* '(len, buf, off) := viop_read (ops_of (i_ops n)) i count (f_offset f) in
  ret (len, buf, set_f_offset off f).

Definition vfs_write (f : file) (buf : list Z) : FM (Z * file) :=
  if writable f =? 0 then ret (-1, f) else
  let* i := inode_of f in
  let* n := get_vinode i in
  if negb (vtype n =? FILE_I) then ret (-1, f) else
  let* '(len, off) := viop_write (ops_of (i_ops n)) i buf (f_offset f) in
  ret (len, set_f_offset off f).

Definition vfs_lseek (f : file) (offset whence : Z) : FM (Z * file) :=
  let* i := inode_of f in
  let* n := get_vinode i in
  if negb (vtype n =? FILE_I) then ret (-1, f) else
  let* '(r, off) := viop_lseek (ops_of (i_ops n)) i offset whence (f_offset f) in
  if negb (r =? 0) then ret (-1, set_f_offset off f) else ret (off, set_f_offset off f).

Definition vfs_stat (f : file) : FM (Z * istat) :=
  let* i := inode_of f in
  let* n := get_vinode i in
  ret (0, mkStat (inum n) (vsize n) (vtype n) (nlinks n) (nblk n)).

Definition vfs_disk_stat (f : file) : FM (Z * istat) :=
  let* i := inode_of f in
  let* o := ops i in
  viop_disk_stat o i.

Definition vfs_link (cwd : Z) (oldpath newpath : list Z) : FM Z :=
  let* '(parent, oldpath) := start_of cwd oldpath in
  let* '(old, _, _) := lookup_final_dentry oldpath parent in
  if old =? 0 then ret (-1) else
  let* od := get_dentry old in
  let* n := get_vinode (dentry_inode od) in
  if negb (vtype n =? FILE_I) then ret (-1) else
  let* s := get in
  let* '(new, parent, miss_name) := lookup_final_dentry newpath (vfs_root_dentry s) in
  if negb (new =? 0) then ret (-1) else
  let* basename := get_base_name newpath in
  if negb (bool_decide (miss_name = basename)) then ret (-1) else
  let* d := alloc_vfs_dentry basename (dentry_inode od) parent in
  let* pd := get_dentry parent in
  let* o := ops (dentry_inode pd) in
  let* err := viop_link o (dentry_inode pd) d (dentry_inode od) in
  if negb (err =? 0) then ret (-1) else
  let* _ := hash_put_dentry d in
  ret 0.

Definition vfs_unlink (cwd : Z) (path : list Z) : FM Z :=
  let* '(parent, path) := start_of cwd path in
  let* '(d, parent, _) := lookup_final_dentry path parent in
  if d =? 0 then ret (-1) else
  let* x := get_dentry d in
  let inode := dentry_inode x in
  let* n := get_vinode inode in
  if negb (vtype n =? FILE_I) then ret (-1) else
  if 0 <? d_ref x then ret (-1) else
  let* pd := get_dentry parent in
  let* o := ops (dentry_inode pd) in
  let* err := viop_unlink o (dentry_inode pd) d inode in
  if negb (err =? 0) then ret (-1) else
  let* _ := hash_erase_dentry d in
  let* _ := free_vfs_dentry d in
  upd_vinode inode (fun n => set_vref (vref n - 1) n) ;;;
  let* n := get_vinode inode in
  (if nlinks n =? 0 then
     check (negb (vref n =? 0)) (Panic "assert(unlinked_vinode->ref == 0)") ;;;
     let* _ := hash_erase_vinode inode in
     free_vinode inode
   else ret tt) ;;;
  ret 0.

(** ** Closing *)

(** The last reference to an inode is gone: write it back and free it. *)
Definition release_inode (inode : Z) : FM unit :=
  let* n := get_vinode inode in
  let* r := viop_write_back_vinode (ops_of (i_ops n)) inode in
  check (negb (r =? 0)) (Kill "vfs_close: free inode failed!" (-1)) ;;;
  let* _ := hash_erase_vinode inode in
  free_vinode inode.

Definition vfs_close (f : file) : FM (Z * file) :=
  let d := f_dentry f in
  let* x := get_dentry d in
  let inode := dentry_inode x in
  let* n := get_vinode inode in
  if negb (vtype n =? FILE_I) then ret (-1, f) else
  hook (viop_hook_close (ops_of (i_ops n))) inode d ;;;
  upd_dentry d (fun x => set_d_ref (d_ref x - 1) x) ;;;
  let* x := get_dentry d in
  (if d_ref x =? 0 then
     let* _ := hash_erase_dentry d in
     let* _ := free_vfs_dentry d in
     upd_vinode inode (fun n => set_vref (vref n - 1) n) ;;;
     let* n := get_vinode inode in
     when (vref n =? 0) (release_inode inode)
   else ret tt) ;;;
  ret (0, set_f_status 0 f).

(** ** Directories *)

Definition vfs_opendir (cwd : Z) (path : list Z) : FM (option file) :=
  let* '(parent, path) := start_of cwd path in
  let* '(d, _, _) := lookup_final_dentry path parent in
  if d =? 0 then ret None else
  let* x := get_dentry d in
  let* n := get_vinode (dentry_inode x) in
  if negb (vtype n =? DIR_I) then ret None else
  let* f := alloc_vfs_file d 1 0 in
  hook (viop_hook_opendir (ops_of (i_ops n))) (dentry_inode x) d ;;;
  ret (Some f).

Definition vfs_readdir (f : file) : FM (Z * option (list Z * Z) * file) :=
  let* i := inode_of f in
  let* n := get_vinode i in
  if negb (vtype n =? DIR_I) then ret (-1, None, f) else
  let* '(r, e, off) := viop_readdir (ops_of (i_ops n)) i (f_offset f) in
  ret (r, e, set_f_offset off f).

Definition vfs_mkdir (cwd : Z) (path : list Z) : FM Z :=
  let* '(parent, path) := start_of cwd path in
  let* '(d, parent, miss_name) := lookup_final_dentry path parent in
  if negb (d =? 0) then ret (-1) else
  let* basename := get_base_name path in
  if negb (bool_decide (miss_name = basename)) then ret (-1) else
  let* d := alloc_vfs_dentry basename 0 parent in
  let* pd := get_dentry parent in
  let* o := ops (dentry_inode pd) in
  let* inode := viop_mkdir o (dentry_inode pd) d in
  if inode =? 0 then free_dentry d ;;; ret (-1) else
  upd_dentry d (set_d_inode inode) ;;;
  upd_vinode inode (fun n => set_vref (vref n + 1) n) ;;;
  let* _ := hash_put_dentry d in
  let* _ := hash_put_vinode inode in
  ret 0.

Definition vfs_closedir (f : file) : FM (Z * file) :=
  let* i := inode_of f in
  let* n := get_vinode i in
  if negb (vtype n =? DIR_I) then ret (-1, f) else
  upd_dentry (f_dentry f) (fun x => set_d_ref (d_ref x - 1) x) ;;;
  hook (viop_hook_closedir (ops_of (i_ops n))) i (f_dentry f) ;;;
  ret (0, set_f_status 0 f).

(** The path of a directory, built from its end; the buffers have
    [MAX_PATH_LEN] bytes. *)
Fixpoint path_up (fuel : nat) (cur : Z) (path : list Z) : FM (list Z) :=
  match fuel with
  | O => halt OutOfFuel
  | S f =>
      let* s := get in
      if cur =? vfs_root_dentry s then ret path else
      let* d := get_dentry cur in
      let path := SLASH :: d_name d ++ path in
      fits MAX_PATH_LEN path ;;;
      path_up f (d_parent d) path
  end.

(** [pathbuf] is not NULL here; each name takes at least the byte of its slash,
    so [MAX_PATH_LEN] steps are enough. *)
Definition vfs_rcwd (cwd : Z) : FM (Z * list Z) :=
  if cwd =? 0 then ret (-1, []) else
  let* s := get in
  if cwd =? vfs_root_dentry s then ret (0, [SLASH]) else
  let* p := path_up (S MAX_PATH_LEN) cwd [] in
  ret (0, p).

(** The result and the new working directory. *)
Definition vfs_ccwd (cwd : Z) (pathbuf : list Z) : FM (Z * Z) :=
  if cwd =? 0 then ret (-1, cwd) else
  let* s := get in
  let parent := match pathbuf with c :: _ => if c =? SLASH then vfs_root_dentry s else cwd | [] => cwd end in
  let* '(d, _, _) := lookup_final_dentry pathbuf parent in
  if d =? 0 then ret (-1, cwd) else
  let* x := get_dentry d in
  let* n := get_vinode (dentry_inode x) in
  if negb (vtype n =? DIR_I) then ret (-1, cwd) else ret (0, d).

(** ** Mounting *)

Definition vfs_init : FM Z :=
  let* r := on_dentries hash_table_init in
  if negb (r =? 0) then ret r else
  on_vinodes hash_table_init.

(** The device with this name: the loop leaves the last entry of the list when
    there is none. *)
Fixpoint find_device (l : list Z) (name : list Z) (p : Z) : FM Z :=
  match l with
  | [] => ret p
  | d :: l' =>
      if d =? 0 then find_device l' name 0 else
      let* x := get_device d in
      if bool_decide (dev_name x = name) then ret d else find_device l' name d
  end.

Definition vfs_mount (name : list Z) (mnt_type : Z) : FM Z :=
  let* s := get in
  let* dev := find_device (vfs_dev_list s) name 0 in
  check (dev =? 0) (Kill "vfs_mount: cannot find the device entry!" (-1)) ;;;
  let* d := get_device dev in
  let* sb := get_superblock (dev_fs d) dev in
  let* x := get_super sb in
  let* rd := get_dentry (s_root x) in
  let* _ := hash_put_vinode (dentry_inode rd) in
  let* s := get in
  match first_empty (Z.eqb 0) (vfs_sb_list s) 0 with
  | None => halt (Kill "vfs_mount: too many mounts!" (-1))
  | Some i =>
      modify (fun s => set_vfs_sb_list (<[i := sb]> (vfs_sb_list s)) s) ;;;
      (if mnt_type =? MOUNT_AS_ROOT then
         modify (set_vfs_root_dentry (s_root x)) ;;;
         let* _ := hash_put_dentry (s_root x) in ret tt
       else if mnt_type =? MOUNT_DEFAULT then
         let* s := get in
         check (vfs_root_dentry s =? 0)
               (Kill "vfs_mount: root dentry not found, please mount the root device first!" (-1)) ;;;
         fits MAX_DENTRY_NAME_LEN (dev_name d) ;;;
         upd_dentry (s_root x) (set_d_place (dev_name d) (vfs_root_dentry s)) ;;;
         let* _ := hash_put_dentry (s_root x) in ret tt
       else halt (Kill "vfs_mount: unknown mount type!" (-1))) ;;;
      ret sb
  end.

End Vfs.
