(* ===== verification/VfsRefs.v ===== *)
(** * Path lookup and reference counts of the virtual file system

    The caches of directory entries and inodes are hash tables that stand for
    finite maps (HashTable.v).  The lookup of a cached path follows these maps;
    closing a file takes the reference it held and frees the entry and the
    inode with the last one. *)
From S2P Require Import Prelude Pages HashTable CString VfsData Rfs RfsDisk RfsFile RfsDir Vfs.

Notation dcells := (nat -> list (cell (K := dentry_key))).
Notation vcells := (nat -> list (cell (K := vinode_key))).

Lemma dentry_hash_range k : 0 <= dentry_hash_func k < Z.of_nat HASH_TABLE_SIZE.
Proof. apply Z.mod_pos_bound. done. Qed.

Lemma vinode_hash_range k : 0 <= vk_inum k -> 0 <= vinode_hash_func k < Z.of_nat HASH_TABLE_SIZE.
Proof.
  intros Hk. unfold vinode_hash_func. change (Z.of_nat HASH_TABLE_SIZE) with 128.
  rewrite Z.rem_mod_nonneg by lia. pose proof (Z.mod_pos_bound (vk_inum k) 128 ltac:(lia)).
  rewrite u64_small; lia.
Qed.

Section Refs.
Context {PS : Type} `{PageSource PS} `{FileSystems PS}.

(** ** Lookup in the cache *)

(** The entry that the cached words lead to. *)
Fixpoint resolve (bd : dcells) (this : Z) (words : list (list Z)) : option Z :=
  match words with
  | [] => Some this
  | w :: ws => match content bd (mkDKey this w) with Some d => resolve bd d ws | None => None end
  end.

(** The directory of the last word. *)
Fixpoint resolve_parent (bd : dcells) (this parent : Z) (words : list (list Z)) : Z :=
  match words with
  | [] => parent
  | w :: ws => match content bd (mkDKey this w) with Some d => resolve_parent bd d this ws | None => parent end
  end.

Lemma hash_get_dentry_run (s : fstate PS) bd parent name :
  represents (dentry_hash_table s) bd ->
  hash_get_dentry parent name s = Ret (default 0 (content bd (mkDKey parent name))) s.
Proof.
  intros Hr. unfold hash_get_dentry, on_dentries, zoom.
  rewrite (get_run (mkH (fpages s) (dentry_hash_table s)) bd); [by destruct s|done|].
  change (hash_func (mkDKey parent name)) with (dentry_hash_func (mkDKey parent name)).
  pose proof (dentry_hash_range (mkDKey parent name)). lia.
Qed.

Lemma walk_run (s : fstate PS) bd words this parent d :
  represents (dentry_hash_table s) bd -> resolve bd this words = Some d ->
  walk words this parent s = Ret (d, resolve_parent bd this parent words, []) s.
Proof.
  intros Hr. revert this parent. induction words as [|w ws IH]; intros this parent; cbn [resolve resolve_parent walk].
  - by intros [= ->].
  - rewrite (bind_Ret _ _ _ _ _ (hash_get_dentry_run s bd this w Hr)).
    destruct (content bd (mkDKey this w)) as [e|] eqn:E; [|done]. cbn [default].
    pose proof (content_value _ _ _ _ Hr E) as He. change (id e) with e.
    rewrite (proj2 (Z.eqb_neq e 0)) by done. rewrite bind_ret_l. rewrite (proj2 (Z.eqb_neq e 0)) by done. apply IH.
Qed.

(** Path lookup.  When the cache of directory entries resolves every word of
    a path (that does not start with a dot and fits the buffer), the lookup from
    a directory returns the entry the words lead to, with the directory of the
    last word, and changes nothing. *)
Theorem lookup_cached_path (s : fstate PS) bd path parent d :
  represents (dentry_hash_table s) bd -> hd_error path <> Some DOT -> (length path < MAX_PATH_LEN)%nat ->
  resolve bd parent (tokens path) = Some d ->
  lookup_final_dentry path parent s = Ret (d, resolve_parent bd parent parent (tokens path), []) s.
Proof.
  intros Hr Hdot Hlen Hres. unfold lookup_final_dentry.
  assert (Hs : forall pre, hd_error pre = Some DOT -> strip pre path = None).
  { intros [|c pre] Hp; [done|]. injection Hp as ->. unfold strip. cbn [length].
    destruct path as [|e path]; [done|]. cbn [take]. rewrite decide_False; [done|]. intros [= -> _]. by apply Hdot. }
  rewrite (Hs here eq_refl), (Hs up eq_refl), bind_ret_l.
  rewrite decide_False by (intros ->; by apply Hdot). rewrite decide_False by (intros ->; by apply Hdot).
  unfold fits, check. rewrite (proj2 (Nat.leb_gt _ _) Hlen), bind_ret_l. by apply walk_run.
Qed.

(** ** The objects and the caches together *)

Record vfs_ok (s : fstate PS) (bd : dcells) (bv : vcells) (own : gset Z) (k : nat) : Prop := {
  vk_pages : pg_ok (fpages s) own k;
  vk_d : represents (dentry_hash_table s) bd;
  vk_du : unique_keys bd;
  vk_v : represents (vinode_hash_table s) bv;
  vk_vu : unique_keys bv;
  vk_dn i a : a ∈ c_addr <$> bd i ->
    a ∈ own /\ dentries s !! a = None /\ vinodes s !! a = None /\ forall j, a ∉ c_addr <$> bv j;
  vk_vn i a : a ∈ c_addr <$> bv i -> a ∈ own /\ dentries s !! a = None /\ vinodes s !! a = None;
  vk_dent p d : dentries s !! p = Some d -> p ∈ own /\ vinodes s !! p = None;
  vk_vin p n : vinodes s !! p = Some n -> p ∈ own
}.

Lemma erase_dentry_run s bd bv own k d x :
  vfs_ok s bd bv own k -> dentries s !! d = Some x -> content bd (mkDKey (d_parent x) (d_name x)) = Some d ->
  exists ps t bd' own', hash_erase_dentry d s = Ret 0 (set_dentry_hash_table t (set_fpages ps s)) /\
    vfs_ok (set_dentry_hash_table t (set_fpages ps s)) bd' bv own' (S k) /\
    forall j, content bd' j = if dentry_hash_equal (mkDKey (d_parent x) (d_name x)) j then None else content bd j.
Proof.
  intros [Hp Hd Hdu Hv Hvu Hdn Hvn Hde Hvi] Hx Hc. set (key := mkDKey (d_parent x) (d_name x)) in *.
  assert (Hok : hash_ok (mkH (fpages s) (dentry_hash_table s)) bd own k).
  { split; [done|done|done|]. intros i a Ha. by apply Hdn in Ha as (? & _). }
  destruct (erase_run _ _ _ _ Hok key (dentry_hash_range key)) as ([ps t] & bd' & own' & Hrun & Hok' & Hown & Hsub & Hcont).
  rewrite Hc in Hrun, Hok'. exists ps, t, bd', own'. split; [|split; [|done]].
  - unfold hash_erase_dentry, bind, get_dentry, obj. rewrite Hx. unfold on_dentries, zoom. fold key. by rewrite Hrun.
  - destruct Hok' as [Hp' Hr' Hu' Ho']. split; cbn; try done.
    + intros i a Ha. pose proof (Ho' i a Ha) as Hao. apply Hsub in Ha. apply Hdn in Ha as (_ & ? & ? & ?). done.
    + intros i a Ha. destruct (Hvn i a Ha) as (Hao & Ha1 & Ha2). split; [|done]. apply Hown; [done|].
      intros j Hj. apply Hdn in Hj as (_ & _ & _ & Hj). by apply (Hj i).
    + intros p y Hy. destruct (Hde p y Hy) as [Hpo Hpv]. split; [|done]. apply Hown; [done|].
      intros j Hj. apply Hdn in Hj as (_ & Hj & _). by rewrite Hj in Hy.
    + intros p n Hn. apply Hown; [by eapply Hvi|]. intros j Hj. apply Hdn in Hj as (_ & _ & Hj & _). by rewrite Hj in Hn.
Qed.

Lemma erase_vinode_run s bd bv own k p n :
  vfs_ok s bd bv own k -> vinodes s !! p = Some n -> 0 <= inum n -> content bv (mkVKey (inum n) (vsb n)) = Some p ->
  exists ps t bv' own', hash_erase_vinode p s = Ret 0 (set_vinode_hash_table t (set_fpages ps s)) /\
    vfs_ok (set_vinode_hash_table t (set_fpages ps s)) bd bv' own' (S k) /\
    forall j, content bv' j = if vinode_hash_equal (mkVKey (inum n) (vsb n)) j then None else content bv j.
Proof.
  intros [Hp Hd Hdu Hv Hvu Hdn Hvn Hde Hvi] Hn Hin Hc. set (key := mkVKey (inum n) (vsb n)) in *.
  assert (Hok : hash_ok (mkH (fpages s) (vinode_hash_table s)) bv own k).
  { split; [done|done|done|]. intros i a Ha. by apply Hvn in Ha as (? & _). }
  destruct (erase_run _ _ _ _ Hok key (vinode_hash_range key Hin)) as ([ps t] & bv' & own' & Hrun & Hok' & Hown & Hsub & Hcont).
  rewrite Hc in Hrun, Hok'. exists ps, t, bv', own'. split; [|split; [|done]].
  - unfold hash_erase_vinode, bind, get_vinode, obj. rewrite Hn. rewrite (proj2 (Z.ltb_ge _ _) Hin).
    unfold on_vinodes, zoom. fold key. by rewrite Hrun.
  - destruct Hok' as [Hp' Hr' Hu' Ho']. split; cbn; try done.
    + intros i a Ha. destruct (Hdn i a Ha) as (Hao & Ha1 & Ha2 & Ha3).
      split; [by apply Hown|]. split; [done|]. split; [done|]. intros j Hj. apply Hsub in Hj. by apply (Ha3 j).
    + intros i a Ha. pose proof (Ho' i a Ha) as Hao. apply Hsub in Ha. apply Hvn in Ha as (_ & ? & ?). done.
    + intros q y Hy. destruct (Hde q y Hy) as [Hqo Hqv]. split; [|done]. apply Hown; [done|].
      intros j Hj. apply Hvn in Hj as (_ & Hj & _). by rewrite Hj in Hy.
    + intros q m Hm. apply Hown; [by eapply Hvi|]. intros j Hj. apply Hvn in Hj as (_ & _ & Hj). by rewrite Hj in Hm.
Qed.

Definition with_dentry (p : Z) (x : dentry) (s : fstate PS) : fstate PS := set_dentries (<[p := x]> (dentries s)) s.

Lemma vfs_ok_dentry s bd bv own k p x x' :
  vfs_ok s bd bv own k -> dentries s !! p = Some x -> vfs_ok (with_dentry p x' s) bd bv own k.
Proof.
  intros [Hp Hd Hdu Hv Hvu Hdn Hvn Hde Hvi] Hx.
  assert (Hne : forall a, dentries s !! a = None -> <[p := x']> (dentries s) !! a = None).
  { intros a Ha. rewrite lookup_insert_ne; [done|]. intros <-. by rewrite Hx in Ha. }
  split; cbn; try done.
  - intros i a Ha. apply Hdn in Ha as (? & ? & ? & ?). auto.
  - intros i a Ha. apply Hvn in Ha as (? & ? & ?). auto.
  - intros q y. rewrite lookup_insert_Some. intros [[<- _]|[_ Hy]]; [by eapply Hde|by eapply Hde].
Qed.

Lemma vfs_ok_vinode s bd bv own k p n n' :
  vfs_ok s bd bv own k -> vinodes s !! p = Some n -> vfs_ok (with_vinode p n' s) bd bv own k.
Proof.
  intros [Hp Hd Hdu Hv Hvu Hdn Hvn Hde Hvi] Hn.
  assert (Hne : forall a, vinodes s !! a = None -> <[p := n']> (vinodes s) !! a = None).
  { intros a Ha. rewrite lookup_insert_ne; [done|]. intros <-. by rewrite Hn in Ha. }
  split; cbn; try done.
  - intros i a Ha. apply Hdn in Ha as (? & ? & ? & ?). auto.
  - intros i a Ha. apply Hvn in Ha as (? & ? & ?). auto.
  - intros q y Hy. apply Hde in Hy as [? ?]. auto.
  - intros q y. rewrite lookup_insert_Some. intros [[<- _]|[_ Hy]]; by eapply Hvi.
Qed.

Lemma vfs_ok_disk s bd bv own k l : vfs_ok s bd bv own k -> vfs_ok (set_rfs_device_list l s) bd bv own k.
Proof. intros [? ? ? ? ? ? ? ? ?]. by split. Qed.

Lemma free_dentry_run s bd bv own k p x :
  vfs_ok s bd bv own k -> dentries s !! p = Some x ->
  exists ps, free_dentry p s = Ret tt (set_dentries (delete p (dentries s)) (set_fpages ps s)) /\
    vfs_ok (set_dentries (delete p (dentries s)) (set_fpages ps s)) bd bv (own ∖ {[p]}) (S k).
Proof.
  intros [Hp Hd Hdu Hv Hvu Hdn Hvn Hde Hvi] Hx. destruct (Hde _ _ Hx) as [Hpo Hpv].
  destruct (pg_free_own _ _ _ p Hp Hpo) as (ps & Hfree & Hps). exists ps. split.
  { unfold free_dentry, page_op, zoom, bind. by rewrite Hfree. }
  split; cbn; try done.
  - intros i a Ha. apply Hdn in Ha as (Ha & Ha1 & Ha2 & Ha3). assert (a <> p) by (intros ->; by rewrite Hx in Ha1).
    split; [set_solver|]. by rewrite lookup_delete_ne.
  - intros i a Ha. apply Hvn in Ha as (Ha & Ha1 & Ha2). assert (a <> p) by (intros ->; by rewrite Hx in Ha1).
    split; [set_solver|]. by rewrite lookup_delete_ne.
  - intros q y. rewrite lookup_delete_Some. intros [Hne Hy]. apply Hde in Hy as [? ?]. split; [set_solver|done].
  - intros q n Hn. pose proof (Hvi q n Hn). assert (q <> p) by (intros ->; by rewrite Hpv in Hn). set_solver.
Qed.

Lemma free_vinode_run s bd bv own k p n :
  vfs_ok s bd bv own k -> vinodes s !! p = Some n ->
  exists ps, free_vinode p s = Ret tt (set_vinodes (delete p (vinodes s)) (set_fpages ps s)) /\
    vfs_ok (set_vinodes (delete p (vinodes s)) (set_fpages ps s)) bd bv (own ∖ {[p]}) (S k).
Proof.
  intros [Hp Hd Hdu Hv Hvu Hdn Hvn Hde Hvi] Hn. pose proof (Hvi _ _ Hn) as Hpo.
  destruct (pg_free_own _ _ _ p Hp Hpo) as (ps & Hfree & Hps). exists ps. split.
  { unfold free_vinode, page_op, zoom, bind. by rewrite Hfree. }
  split; cbn; try done.
  - intros i a Ha. apply Hdn in Ha as (Ha & Ha1 & Ha2 & Ha3). assert (a <> p) by (intros ->; by rewrite Hn in Ha2).
    split; [set_solver|]. by rewrite lookup_delete_ne.
  - intros i a Ha. apply Hvn in Ha as (Ha & Ha1 & Ha2). assert (a <> p) by (intros ->; by rewrite Hn in Ha2).
    split; [set_solver|]. by rewrite lookup_delete_ne.
  - intros q y Hy. apply Hde in Hy as [? Hq]. assert (q <> p) by (intros ->; by rewrite Hn in Hq).
    split; [set_solver|]. by rewrite lookup_delete_ne.
  - intros q y. rewrite lookup_delete_Some. intros [Hne Hy]. apply Hvi in Hy. set_solver.
Qed.

End Refs.

(** What closing needs from a file system: writing an inode back touches the
    disk only, and the inode is stored there afterwards ([wb_stored], between
    the states before and after). *)
Class WritesBack (PS : Type) `{FileSystems PS} : Type := {
  wb_ready : fstate PS -> vinode -> Prop;
  wb_stored : fstate PS -> fstate PS -> vinode -> Prop;
  write_back_law s p n :
    vinodes s !! p = Some n -> wb_ready s n ->
    exists l, viop_write_back_vinode (ops_of (i_ops n)) p s = Ret 0 (set_rfs_device_list l s) /\
      wb_stored s (set_rfs_device_list l s) n;
  wb_ready_stable s s' n n' :
    supers s' = supers s -> devices s' = devices s -> rfs_device_list s' = rfs_device_list s ->
    inum n' = inum n -> vsb n' = vsb n -> i_ops n' = i_ops n -> dinode_of n' = dinode_of n ->
    wb_ready s n -> wb_ready s' n';
  wb_stored_stable s s' t t' n n' :
    supers s' = supers s -> devices s' = devices s -> rfs_device_list s' = rfs_device_list s ->
    rfs_device_list t' = rfs_device_list t ->
    inum n' = inum n -> vsb n' = vsb n -> dinode_of n' = dinode_of n ->
    wb_stored s t n -> wb_stored s' t' n'
}.

(** rfs can write back when the super block and the device of the inode are
    there and its fields are C ints. *)
Definition rfs_wb_ready {PS} (s : fstate PS) (n : vinode) : Prop :=
  i_ops n = RFS /\ 0 <= inum n < MAX_INODES /\ dinode_ok (dinode_of n) /\
  exists x d r, supers s !! vsb n = Some x /\ devices s !! s_dev x = Some d /\ dev_at s (dev_id d) r.

(** Between [s] and [s'] the inode [n] has reached its place on the disk; all
    other inodes and all data blocks there are what they were. *)
Definition rfs_stored {PS} (s s' : fstate PS) (n : vinode) : Prop :=
  exists x d r r', supers s !! vsb n = Some x /\ devices s !! s_dev x = Some d /\
    dev_at s (dev_id d) r /\ dev_at s' (dev_id d) r' /\ disk_inode r' (inum n) = dinode_of n /\
    (forall j, 0 <= j < MAX_INODES -> j <> inum n -> disk_inode r' j = disk_inode r j) /\
    (forall b, RFS_BLK_OFFSET_FREE <= b -> disk r' b = disk r b).

Lemma rfs_writes_back {PS} `{PageSource PS} (s : fstate PS) p n :
  vinodes s !! p = Some n -> rfs_wb_ready s n ->
  exists l, rfs_write_back_vinode p s = Ret 0 (set_rfs_device_list l s) /\ rfs_stored s (set_rfs_device_list l s) n.
Proof.
  intros Hn (_ & Hin & Hdok & x & d & r & Hx & Hd & Hr).
  assert (Hv : fview s p n x (dev_id d) r) by (split; [done|done|by exists d|done]).
  pose proof (write_back_run s p n x (dev_id d) r Hv Hin) as E. match type of E with _ = Ret _ (with_rdev _ ?r1 _) => pose (r' := r1) end. change (rfs_write_back_vinode p s = Ret 0 (with_rdev (dev_id d) r' s)) in E.
  exists (rfs_device_list (with_rdev (dev_id d) r' s)). split; [exact E|].
  exists x, d, r, r'. split; [done|]. split; [done|]. split; [done|]. split; [exact (dev_at_with s (dev_id d) r r' Hr)|].
  assert (Hw : forall j, 0 <= j < MAX_INODES -> disk_inode r' j = if decide (j = inum n) then dinode_of n else disk_inode r j)
    by (intros j Hj; apply disk_inode_written; [unfold MAX_INODES in *; lia|unfold MAX_INODES in *; lia|done]).
  split; [rewrite Hw by done; by rewrite decide_True|]. split.
  - intros j Hj Hne. rewrite Hw by done. by rewrite decide_False.
  - intros b Hb. pose proof (inode_block_range _ Hin) as Hbr. unfold r'. cbn [disk set_block set_io].
    rewrite (proj2 (Z.eqb_neq _ _)); [done|]. unfold RFS_BLK_OFFSET_FREE in Hb. lia.
Qed.

Section Close.
Context {PS : Type} `{PageSource PS} `{FileSystems PS} `{!WritesBack PS}.

(** The last reference to an inode. *)
Lemma release_run (s : fstate PS) bd bv own k p n :
  vfs_ok s bd bv own k -> vinodes s !! p = Some n -> wb_ready s n -> 0 <= inum n ->
  content bv (mkVKey (inum n) (vsb n)) = Some p ->
  exists s' bv' own', release_inode p s = Ret tt s' /\ vfs_ok s' bd bv' own' (S (S k)) /\
    vinodes s' = delete p (vinodes s) /\ dentries s' = dentries s /\
    content bv' (mkVKey (inum n) (vsb n)) = None /\ wb_stored s s' n.
Proof.
  intros Hok Hn Hwb Hin Hc. unfold release_inode. rewrite (bind_Ret _ _ _ _ _ (get_vinode_run _ _ _ Hn)).
  destruct (write_back_law s p n Hn Hwb) as (l & Hrun & Hst). rewrite (bind_Ret _ _ _ _ _ Hrun).
  unfold check. cbn [Z.eqb negb]. rewrite bind_ret_l. set (s1 := set_rfs_device_list l s).
  destruct (erase_vinode_run s1 bd bv own k p n (vfs_ok_disk _ _ _ _ _ l Hok) Hn Hin Hc)
    as (ps & t & bv' & own' & Her & Hok2 & Hcont).
  rewrite (bind_Ret _ _ _ _ _ Her). set (s2 := set_vinode_hash_table t (set_fpages ps s1)) in *.
  destruct (free_vinode_run s2 bd bv' own' (S k) p n Hok2 Hn) as (ps' & Hfr & Hok3).
  exists (set_vinodes (delete p (vinodes s2)) (set_fpages ps' s2)), bv', (own' ∖ {[p]}).
  split; [done|]. split; [done|]. split; [done|]. split; [done|].
  split; [rewrite Hcont; by rewrite (proj2 (vinode_hash_equal_eq _ _))|by eapply wb_stored_stable; [..|exact Hst]].
Qed.

(** The last file on a directory entry. *)
Lemma drop_dentry_run (s : fstate PS) bd bv own k d x p n :
  vfs_ok s bd bv own k -> dentries s !! d = Some x -> d_ref x = 0 -> vinodes s !! p = Some n ->
  content bd (mkDKey (d_parent x) (d_name x)) = Some d ->
  exists s' bd' own',
    (let* _ := hash_erase_dentry d in let* _ := free_vfs_dentry d in
     upd_vinode p (fun n => set_vref (vref n - 1) n)) s = Ret tt s' /\
    vfs_ok s' bd' bv own' (S (S k)) /\ dentries s' = delete d (dentries s) /\
    vinodes s' = <[p := set_vref (vref n - 1) n]> (vinodes s) /\
    content bd' (mkDKey (d_parent x) (d_name x)) = None /\
    supers s' = supers s /\ devices s' = devices s /\ rfs_device_list s' = rfs_device_list s.
Proof.
  intros Hok Hx Hr0 Hn Hc. destruct (erase_dentry_run s bd bv own k d x Hok Hx Hc) as (ps & t & bd' & own' & Her & Hok1 & Hcont).
  rewrite (bind_Ret _ _ _ _ _ Her). set (s1 := set_dentry_hash_table t (set_fpages ps s)) in *.
  destruct (free_dentry_run s1 bd' bv own' (S k) d x Hok1 Hx) as (ps' & Hfr & Hok2).
  set (s2 := set_dentries (delete d (dentries s1)) (set_fpages ps' s1)) in *.
  assert (Hfv : free_vfs_dentry d s1 = Ret 0 s2).
  { unfold free_vfs_dentry, bind at 1, get_dentry, obj. change (dentries s1) with (dentries s). rewrite Hx, Hr0. cbn [Z.ltb Z.compare].
    by rewrite (bind_Ret _ _ _ _ _ Hfr). }
  rewrite (bind_Ret _ _ _ _ _ Hfv). unfold upd_vinode.
  rewrite (bind_Ret _ _ _ _ _ (get_vinode_run s2 p n Hn)).
  exists (with_vinode p (set_vref (vref n - 1) n) s2), bd', (own' ∖ {[d]}).
  split; [done|]. split; [by eapply vfs_ok_vinode|]. split; [done|]. split; [done|]. split; [|done].
  rewrite Hcont. by rewrite (proj2 (dentry_hash_equal_eq _ _)).
Qed.

(** Closing a file, for any file systems that write back as they should. *)
Lemma close_run (s : fstate PS) bd bv own k f x n :
  vfs_ok s bd bv own k ->
  dentries s !! f_dentry f = Some x -> vinodes s !! dentry_inode x = Some n -> vtype n = FILE_I ->
  viop_hook_close (ops_of (i_ops n)) = None -> wb_ready s n -> 0 <= inum n ->
  content bd (mkDKey (d_parent x) (d_name x)) = Some (f_dentry f) ->
  content bv (mkVKey (inum n) (vsb n)) = Some (dentry_inode x) ->
  0 < d_ref x -> 0 < vref n ->
  exists s' bd' bv' own' k', vfs_close f s = Ret (0, set_f_status 0 f) s' /\ vfs_ok s' bd' bv' own' k' /\
    (1 < d_ref x -> dentries s' = <[f_dentry f := set_d_ref (d_ref x - 1) x]> (dentries s) /\
                    vinodes s' = vinodes s /\ k' = k) /\
    (d_ref x = 1 -> dentries s' = delete (f_dentry f) (dentries s) /\
                    content bd' (mkDKey (d_parent x) (d_name x)) = None /\
       (1 < vref n -> vinodes s' = <[dentry_inode x := set_vref (vref n - 1) n]> (vinodes s) /\ k' = (k + 2)%nat) /\
       (vref n = 1 -> vinodes s' = delete (dentry_inode x) (vinodes s) /\
                      content bv' (mkVKey (inum n) (vsb n)) = None /\ k' = (k + 4)%nat /\
                      wb_stored s s' n)).
Proof.
  intros Hok Hx Hn Hty Hhook Hwb Hin Hcd Hcv Hdr Hvr. unfold vfs_close.
  assert (Hg : forall (s : fstate PS) p y, dentries s !! p = Some y -> get_dentry p s = Ret y s).
  { intros s0 p y Hy. unfold get_dentry, obj. by rewrite Hy. }
  rewrite (bind_Ret _ _ _ _ _ (Hg _ _ _ Hx)), (bind_Ret _ _ _ _ _ (get_vinode_run _ _ _ Hn)).
  rewrite Hty, Z.eqb_refl. cbn [negb]. rewrite Hhook. cbn [hook]. rewrite bind_ret_l.
  unfold upd_dentry. rewrite bind_assoc, (bind_Ret _ _ _ _ _ (Hg _ _ _ Hx)).
  unfold put_dentry at 1, modify at 1, bind at 1. fold (with_dentry (f_dentry f) (set_d_ref (d_ref x - 1) x) s).
  set (x1 := set_d_ref (d_ref x - 1) x). set (s1 := with_dentry (f_dentry f) x1 s).
  assert (Hx1 : dentries s1 !! f_dentry f = Some x1) by apply lookup_insert_eq.
  assert (Hok1 : vfs_ok s1 bd bv own k) by (by eapply vfs_ok_dentry).
  rewrite (bind_Ret _ _ _ _ _ (Hg _ _ _ Hx1)). change (d_ref x1) with (d_ref x - 1).
  destruct (Z.eqb_spec (d_ref x - 1) 0) as [E|E].
  - destruct (drop_dentry_run s1 bd bv own k (f_dentry f) x1 (dentry_inode x) n Hok1 Hx1 E Hn Hcd)
      as (s2 & bd' & own2 & Hrun & Hok2 & Hd2 & Hv2 & Hcd' & Hs & Hdv & Hrd).
    assert (Hd3 : dentries s2 = delete (f_dentry f) (dentries s)).
    { rewrite Hd2. cbn. apply delete_insert_eq. }
    assert (Hn2 : vinodes s2 !! dentry_inode x = Some (set_vref (vref n - 1) n)) by (rewrite Hv2; apply lookup_insert_eq).
    unfold bind in Hrun. unfold bind.
    destruct (hash_erase_dentry (f_dentry f) s1) as [? sa|]; [|done].
    destruct (free_vfs_dentry (f_dentry f) sa) as [? sb|]; [|done]. rewrite Hrun.
    rewrite (get_vinode_run _ _ _ Hn2). cbn [vref set_vref].
    destruct (Z.eqb_spec (vref n - 1) 0) as [Ev|Ev]; cbn [when].
    + assert (Hwb2 : wb_ready s2 (set_vref (vref n - 1) n)) by (eapply wb_ready_stable; [..|exact Hwb]; done).
      destruct (release_run s2 bd' bv own2 (S (S k)) (dentry_inode x) _ Hok2 Hn2 Hwb2 Hin Hcv)
        as (s3 & bv' & own3 & Hrel & Hok3 & Hv3 & Hd4 & Hc3 & Hst).
      rewrite Hrel. exists s3, bd', bv', own3, (S (S (S (S k)))). split; [done|]. split; [done|].
      split; [lia|]. intros _. rewrite Hd4. split; [done|]. split; [done|]. split; [lia|]. intros _.
      rewrite Hv3, Hv2. split; [apply delete_insert_eq|]. split; [done|]. split; [lia|].
      eapply wb_stored_stable; [..|exact Hst]; done.
    + exists s2, bd', bv, own2, (S (S k)). split; [done|]. split; [done|]. split; [lia|]. intros _.
      split; [done|]. split; [done|]. split; [|lia]. intros _. split; [by rewrite Hv2|lia].
  - exists s1, bd, bv, own, k. rewrite bind_ret_l. split; [done|]. split; [done|]. split; [done|lia].
Qed.

End Close.

(** A kernel whose other file system is [host]. *)
Definition file_systems {PS} `{PageSource PS} (host : vinode_ops PS) (host_sb : Z -> M (fstate PS) Z) : FileSystems PS :=
  {| ops_of := fun k => match k with RFS => rfs_i_ops | HOSTFS => host end;
     get_superblock := fun k => match k with RFS => rfs_get_superblock | HOSTFS => host_sb end |}.

#[local] Instance rfs_wb {PS} `{PageSource PS} host host_sb : @WritesBack PS (file_systems host host_sb).
Proof.
  refine {| wb_ready := rfs_wb_ready; wb_stored := rfs_stored |}.
  - intros s p n Hn Hr. destruct Hr as (Hk & Hr). rewrite Hk. by apply (rfs_writes_back s p n).
  - intros s s' n n' Hs Hd Hl Hi Hv Ho Hdi (Hk & Hin & Hdok & x & d & r & Hx & Hdd & Hr). split; [congruence|]. rewrite Hi, Hv, Hdi.
    split; [done|]. split; [done|]. exists x, d, r. rewrite Hs, Hd. split; [done|]. split; [done|]. destruct Hr as [? Hr]. split; [done|]. by rewrite Hl.
  - intros s s' t t' n n' Hs Hd Hl Hl' Hi Hv Hdi (x & d & r & r' & Hx & Hdd & [Hr0 Hr] & [Hr0' Hr'] & Hrest). exists x, d, r, r'.
    rewrite Hs, Hd, Hi, Hv, Hdi. split; [done|]. split; [done|]. split; [split; [done|by rewrite Hl]|]. split; [split; [done|by rewrite Hl']|done].
Defined.

(** C17: closing an rfs file, whatever the other file system is.  Closing drops
    the reference the file held, and frees what nobody refers to any more.
    While other files are open on the entry, only its count changes; with the
    last of them the entry leaves the cache and its two pages are given back;
    when it was the last entry of the inode, the inode leaves the cache and its pages are given back
    too, and it has been stored on the disk: the disk inode has its size, type,
    links, blocks and addresses, and every other disk inode and every data block is
    what it was.  In every case the caches and the objects stay consistent. *)
Theorem vfs_close_correct {PS} `{PageSource PS} host host_sb (s : fstate PS) bd bv own k f x n :
  vfs_ok s bd bv own k ->
  dentries s !! f_dentry f = Some x -> vinodes s !! dentry_inode x = Some n -> vtype n = FILE_I ->
  rfs_wb_ready s n ->
  content bd (mkDKey (d_parent x) (d_name x)) = Some (f_dentry f) ->
  content bv (mkVKey (inum n) (vsb n)) = Some (dentry_inode x) ->
  0 < d_ref x -> 0 < vref n ->
  exists s' bd' bv' own' k', @vfs_close PS _ (file_systems host host_sb) f s = Ret (0, set_f_status 0 f) s' /\ vfs_ok s' bd' bv' own' k' /\
    (1 < d_ref x -> dentries s' = <[f_dentry f := set_d_ref (d_ref x - 1) x]> (dentries s) /\
                    vinodes s' = vinodes s /\ k' = k) /\
    (d_ref x = 1 -> dentries s' = delete (f_dentry f) (dentries s) /\
                    content bd' (mkDKey (d_parent x) (d_name x)) = None /\
       (1 < vref n -> vinodes s' = <[dentry_inode x := set_vref (vref n - 1) n]> (vinodes s) /\ k' = (k + 2)%nat) /\
       (vref n = 1 -> vinodes s' = delete (dentry_inode x) (vinodes s) /\
                      content bv' (mkVKey (inum n) (vsb n)) = None /\ k' = (k + 4)%nat /\
                      rfs_stored s s' n)).
Proof.
  intros Hok Hx Hn Hty Hwb Hcd Hcv Hdr Hvr. destruct Hwb as (Hk & Hin & Hwb).
  apply (@close_run PS _ (file_systems host host_sb) (rfs_wb host host_sb) s bd bv own k f x n); try done; [by rewrite Hk|lia].
Qed.

#[local] Instance demo_fs : FileSystems (list Z) := file_systems rfs_i_ops rfs_get_superblock.

(** The file of [fs1], open once under the name "a" in the directory at 20480. *)
Definition dkey : dentry_key := mkDKey 20480 [97].
Definition vkey : vinode_key := mkVKey 1 8192.
Definition dindex : nat := Z.to_nat (dentry_hash_func dkey).
Definition vindex : nat := Z.to_nat (vinode_hash_func vkey).
Definition fs3 : fstate (list Z) :=
  set_dentries {[ 16384 := mkDentry [97] 1 12288 20480 ]}
  (set_dentry_hash_table (mkTable (<[dindex := 24576]> (replicate 128 0)) (<[24576 := mkNode 0 dkey 16384]> ∅))
  (set_vinode_hash_table (mkTable (<[vindex := 28672]> (replicate 128 0)) (<[28672 := mkNode 0 vkey 12288]> ∅)) fs1)).
Definition dcell : cell (K := dentry_key) := (24576, dkey, 16384).
Definition vcell : cell (K := vinode_key) := (28672, vkey, 12288).
Definition bd3 : dcells := pushed (fun _ => []) dindex dcell.
Definition bv3 : vcells := pushed (fun _ => []) vindex vcell.

Lemma pushed_one {K} `{HashKey K} i (c : cell (K := K)) p v :
  (i < HASH_TABLE_SIZE)%nat -> c_addr c <> 0 -> c_val c <> 0 -> Z.to_nat (hash_func (c_key c)) = i ->
  c_addr c = p -> c_val c = v ->
  represents (mkTable (<[i := p]> (replicate HASH_TABLE_SIZE 0)) (<[p := mkNode 0 (c_key c) v]> ∅)) (pushed (fun _ => []) i c).
Proof.
  intros Hi Hz Hv Hh <- <-. refine (pushed_rep _ _ i c 0 (init_represents ∅) Hi _ _ Hz Hv Hh).
  - by apply lookup_replicate_2.
  - intros j. apply not_elem_of_nil.
Qed.

Lemma pushed_unique {K} `{HashKey K} i (c : cell (K := K)) : unique_keys (pushed (fun _ => []) i c).
Proof. intros j. unfold pushed. case_decide; repeat constructor. Qed.

Lemma fs3_ok : vfs_ok fs3 bd3 bv3 {[12288; 16384; 24576; 28672]} 4.
Proof.
  assert (Hd : forall j a, a ∈ c_addr <$> bd3 j -> a = 24576).
  { intros j a Ha. apply pushed_addr in Ha as [[-> _]|Ha]; [done|by apply not_elem_of_nil in Ha]. }
  assert (Hv : forall j a, a ∈ c_addr <$> bv3 j -> a = 28672).
  { intros j a Ha. apply pushed_addr in Ha as [[-> _]|Ha]; [done|by apply not_elem_of_nil in Ha]. }
  split.
  - repeat split; [repeat constructor; set_solver|set_solver..].
  - apply (pushed_one dindex dcell); (vm_compute; congruence) || (vm_compute; lia).
  - apply pushed_unique.
  - apply (pushed_one vindex vcell); (vm_compute; congruence) || (vm_compute; lia).
  - apply pushed_unique.
  - intros i a ->%Hd. split; [set_solver|]. split; [reflexivity|]. split; [reflexivity|]. intros j ?%Hv. done.
  - intros i a ->%Hv. split; [set_solver|]. split; reflexivity.
  - intros p d Hp. change (({[ 16384 := mkDentry [97] 1 12288 20480 ]} : gmap Z dentry) !! p = Some d) in Hp.
    apply lookup_singleton_Some in Hp as [<- _]. split; [set_solver|reflexivity].
  - intros p n Hp. change (({[ 12288 := inode1 ]} : gmap Z vinode) !! p = Some n) in Hp.
    apply lookup_singleton_Some in Hp as [<- _]. set_solver.
Qed.

Lemma fs3_content : content bd3 dkey = Some 16384 /\ content bv3 vkey = Some 12288.
Proof. split; vm_compute; reflexivity. Qed.

Lemma lookup_cached_path_witness : lookup_final_dentry [97] 20480 fs3 = Ret (16384, 20480, []) fs3.
Proof.
  rewrite (lookup_cached_path fs3 bd3 [97] 20480 16384).
  - reflexivity.
  - apply (pushed_one dindex dcell); (vm_compute; congruence) || (vm_compute; lia).
  - discriminate.
  - unfold MAX_PATH_LEN; cbn; lia.
  - vm_compute. reflexivity.
Defined.

Lemma vfs_close_correct_witness :
  exists s', vfs_close (mkFile 1 1 1 5 16384) fs3 = Ret (0, mkFile 0 1 1 5 16384) s' /\
    vinodes s' = delete 12288 (vinodes fs3) /\ rfs_stored fs3 s' inode1.
Proof.
  destruct (vfs_close_correct rfs_i_ops rfs_get_superblock fs3 bd3 bv3 {[12288; 16384; 24576; 28672]} 4 (mkFile 1 1 1 5 16384)
              (mkDentry [97] 1 12288 20480) inode1) as (s' & bd' & bv' & own' & k' & H1 & _ & _ & H2).
  - exact fs3_ok.
  - reflexivity.
  - reflexivity.
  - reflexivity.
  - split; [reflexivity|]. split; [vm_compute; split; congruence|]. split.
    { split; [reflexivity|]. unfold dinode_ints, is_int. cbn. unfold FILE_I. repeat (apply Forall_cons_2; [lia|]). apply Forall_nil_2. }
    exists super1, (mkDevice [82] 0 RFS), rdev1. split; [reflexivity|]. split; [reflexivity|]. split; [cbn; lia|reflexivity].
  - exact (proj1 fs3_content).
  - exact (proj2 fs3_content).
  - cbn; lia.
  - cbn; lia.
  - exists s'. split; [exact H1|]. destruct (H2 eq_refl) as (_ & _ & _ & H3). destruct (H3 eq_refl) as (H4 & _ & _ & H5).
    split; [exact H4|exact H5].
Defined.
