(* ===== verification/ProcFile.v ===== *)
(** * The open files of a process (kernel/proc_file.c)

    The functions behind the file system calls: the table of open files of the
    current process in front of the virtual file system. *)
From S2P Require Import Prelude Pages HashTable CString VfsData Rfs RfsDisk RfsFile RfsDir Vfs VfsRefs.

Definition MAX_FILES : nat := 128.
Definition FD_NONE : Z := 0.

Record proc_file_management : Type := mkPF {
  pf_cwd : Z;
  opened_files : list file;
  nfiles : Z
}.

(** The file systems and the files of the process that runs. *)
Record fproc (PS : Type) : Type := mkFP { fsys : fstate PS; pfiles : proc_file_management }.
Arguments mkFP {PS}. Arguments fsys {PS}. Arguments pfiles {PS}.

Section ProcFile.
Context {PS : Type} `{PageSource PS} `{FileSystems PS}.
#[local] Notation PM := (M (fproc PS)).

Definition on_fs {A} (c : M (fstate PS) A) : PM A := zoom fsys (fun s p => mkFP s (pfiles p)) c.
Definition set_pfiles (pf : proc_file_management) (p : fproc PS) : fproc PS := mkFP (fsys p) pf.
Definition cwd : PM Z := let* p := get in ret (pf_cwd (pfiles p)).

(** The loop of [get_opened_file] stops at entry [fd], or at the last entry
    when there is no such one. *)
Definition file_index (fd : Z) : nat :=
  if (0 <=? fd) && (fd <? Z.of_nat MAX_FILES) then Z.to_nat fd else (MAX_FILES - 1)%nat.

Definition get_opened_file (fd : Z) : PM file :=
  fun p => match opened_files (pfiles p) !! file_index fd with
           | Some f => Ret f p
           | None => Stop (UB "opened_files out of range") p
           end.
Definition put_opened_file (i : nat) (f : file) : PM unit :=
  modify (fun p => set_pfiles (mkPF (pf_cwd (pfiles p)) (<[i := f]> (opened_files (pfiles p))) (nfiles (pfiles p))) p).
Definition count_file : PM unit :=
  modify (fun p => set_pfiles (mkPF (pf_cwd (pfiles p)) (opened_files (pfiles p)) (nfiles (pfiles p) + 1)) p).

Fixpoint first_none (l : list file) (i : nat) : nat :=
  match l with [] => i | f :: l' => if f_status f =? FD_NONE then i else first_none l' (S i) end.

(** When no entry is free the loop leaves the pointer at the last entry and
    [fd] behind it. *)
Definition do_open (pathname : list Z) (flags : Z) : PM Z :=
  let* c := cwd in
  let* o := on_fs (vfs_open c pathname flags) in
  match o with
  | None => ret (-1)
  | Some f =>
      let* p := get in
      check (Z.of_nat MAX_FILES <=? nfiles (pfiles p)) (Panic "do_open: no file entry for current process!") ;;;
      let fd := first_none (opened_files (pfiles p)) 0 in
      put_opened_file (Nat.min fd (MAX_FILES - 1)) f ;;;
      count_file ;;;
      ret (Z.of_nat fd)
  end.

(** A file that an operation of the virtual file system has changed goes back
    into the table. *)
Definition with_file {A} (fd : Z) (c : file -> M (fstate PS) (A * file)) : PM A :=
  let* f := get_opened_file fd in
  let* '(a, f') := on_fs (c f) in
  put_opened_file (file_index fd) f' ;;;
  ret a.

(** The result and the string that [buf] receives; [stale] is what the stack
    holds in the local buffer, of which [vfs_read] overwrites the beginning. *)
Definition do_read (stale : list Z) (fd count : Z) : PM (Z * list Z) :=
  let* f := get_opened_file fd in
  check (readable f =? 0) (Panic "do_read: no readable file!") ;;;
  let* '(len, l) := with_file fd (fun f => let* '(len, l, f') := vfs_read f count in ret ((len, l), f')) in
  ret (i32 len, until_nul (take (Z.to_nat count) (l ++ drop (length l) stale))).

Definition do_write (fd : Z) (buf : list Z) : PM Z :=
  let* f := get_opened_file fd in
  check (writable f =? 0) (Panic "do_write: cannot write file!") ;;;
  let* len := with_file fd (fun f => vfs_write f buf) in
  ret (i32 len).

Definition do_lseek (fd offset whence : Z) : PM Z :=
  let* r := with_file fd (fun f => vfs_lseek f offset whence) in ret (i32 r).

Definition do_stat (fd : Z) : PM (Z * istat) := let* f := get_opened_file fd in on_fs (vfs_stat f).
Definition do_disk_stat (fd : Z) : PM (Z * istat) := let* f := get_opened_file fd in on_fs (vfs_disk_stat f).
Definition do_close (fd : Z) : PM Z := with_file fd vfs_close.

Definition do_opendir (pathname : list Z) : PM Z :=
  let* c := cwd in
  let* o := on_fs (vfs_opendir c pathname) in
  match o with
  | None => ret (-1)
  | Some f =>
      let* p := get in
      let fd := first_none (opened_files (pfiles p)) 0 in
      check (Nat.leb MAX_FILES fd) (Panic "do_opendir: no file entry for current process!") ;;;
      put_opened_file fd f ;;;
      count_file ;;;
      ret (Z.of_nat fd)
  end.

Definition do_readdir (fd : Z) : PM (Z * option (list Z * Z)) :=
  with_file fd (fun f => let* '(r, e, f') := vfs_readdir f in ret ((r, e), f')).
Definition do_mkdir (pathname : list Z) : PM Z := let* c := cwd in on_fs (vfs_mkdir c pathname).
Definition do_closedir (fd : Z) : PM Z := with_file fd vfs_closedir.
Definition do_link (oldpath newpath : list Z) : PM Z := let* c := cwd in on_fs (vfs_link c oldpath newpath).
Definition do_unlink (path : list Z) : PM Z := let* c := cwd in on_fs (vfs_unlink c path).
Definition do_rcwd : PM (Z * list Z) := let* c := cwd in on_fs (vfs_rcwd c).
Definition do_ccwd (pathbuf : list Z) : PM Z :=
  let* c := cwd in
  let* '(r, c') := on_fs (vfs_ccwd c pathbuf) in
  modify (fun p => set_pfiles (mkPF c' (opened_files (pfiles p)) (nfiles (pfiles p))) p) ;;;
  ret r.

(** ** File descriptors *)

Lemma first_none_spec l i :
  (exists j f, first_none l i = (i + j)%nat /\ l !! j = Some f /\ f_status f = FD_NONE /\
     forall k g, (k < j)%nat -> l !! k = Some g -> f_status g <> FD_NONE) \/
  (first_none l i = (i + length l)%nat /\ forall k g, l !! k = Some g -> f_status g <> FD_NONE).
Proof.
  revert i. induction l as [|f l IH]; intros i; cbn [first_none length]; [right; split; [lia|done]|].
  destruct (Z.eqb_spec (f_status f) FD_NONE) as [E|E].
  - left. exists 0%nat, f. split; [lia|]. split; [done|]. split; [done|]. lia.
  - destruct (IH (S i)) as [(j & g & -> & Hg & Hn & Hlt)|(-> & Hall)].
    + left. exists (S j), g. split; [lia|]. split; [done|]. split; [done|].
      intros [|k] h Hk Hh; cbn in Hh; [by simplify_eq|]. apply (Hlt k); [lia|done].
    + right. split; [lia|]. intros [|k] h Hh; cbn in Hh; [by simplify_eq|]. by eapply Hall.
Qed.

(** Opening a file gives the lowest free descriptor.  When the virtual file
    system opens the path, the process has opened fewer than 128 files so far
    and an entry is free, [do_open] returns the index of the first free entry,
    which then holds the file; the other entries stay, and the count goes up. *)
Theorem do_open_lowest_fd (p : fproc PS) path flags f s' i :
  vfs_open (pf_cwd (pfiles p)) path flags (fsys p) = Ret (Some f) s' ->
  nfiles (pfiles p) < Z.of_nat MAX_FILES -> length (opened_files (pfiles p)) = MAX_FILES ->
  (exists g, opened_files (pfiles p) !! i = Some g /\ f_status g = FD_NONE) ->
  (forall k g, (k < i)%nat -> opened_files (pfiles p) !! k = Some g -> f_status g <> FD_NONE) ->
  exists p', do_open path flags p = Ret (Z.of_nat i) p' /\ fsys p' = s' /\
    get_opened_file (Z.of_nat i) p' = Ret f p' /\
    (forall k, k <> i -> opened_files (pfiles p') !! k = opened_files (pfiles p) !! k) /\
    nfiles (pfiles p') = nfiles (pfiles p) + 1.
Proof.
  intros Hopen Hn Hlen (g & Hg & Hg0) Hlow. unfold do_open, cwd. rewrite bind_assoc. unfold get at 1, bind at 1.
  rewrite bind_ret_l. unfold on_fs, zoom, bind at 1. rewrite Hopen. unfold get, bind at 1. cbn [pfiles].
  unfold check. rewrite (proj2 (Z.leb_gt _ _)) by lia. rewrite bind_ret_l.
  pose proof (lookup_lt_Some _ _ _ Hg) as Hi. rewrite Hlen in Hi.
  assert (Hfd : first_none (opened_files (pfiles p)) 0 = i).
  { destruct (first_none_spec (opened_files (pfiles p)) 0) as [(j & h & -> & Hh & Hh0 & Hlt)|(_ & Hall)].
    - cbn. destruct (decide (j < i)%nat); [by exfalso; eapply Hlow|].
      destruct (decide (i < j)%nat); [by exfalso; eapply Hlt|lia].
    - by exfalso; eapply Hall. }
  rewrite Hfd. rewrite Nat.min_l by lia. eexists. split; [done|]. split; [done|]. cbn.
  assert (Hidx : file_index (Z.of_nat i) = i).
  { unfold file_index. replace ((0 <=? Z.of_nat i) && (Z.of_nat i <? Z.of_nat MAX_FILES)) with true by lia. lia. }
  split; [|split; [|done]].
  - unfold get_opened_file. cbn [pfiles opened_files set_pfiles]. rewrite Hidx.
    by rewrite list_lookup_insert_eq by (rewrite Hlen; lia).
  - intros k Hk. by rewrite list_lookup_insert_ne.
Qed.

(** The count of open files never goes down.  [do_close] leaves [nfiles] as
    it is, so that after 128 calls of [do_open] every further one panics, even
    when all files are closed; and a descriptor outside the table names its
    last entry instead of failing. *)
Theorem nfiles_never_decreases (p : fproc PS) fd r p' :
  do_close fd p = Ret r p' ->
  nfiles (pfiles p') = nfiles (pfiles p) /\
  (forall path flags f s', Z.of_nat MAX_FILES <= nfiles (pfiles p') ->
     vfs_open (pf_cwd (pfiles p')) path flags (fsys p') = Ret (Some f) s' ->
     exists p'', do_open path flags p' = Stop (Panic "do_open: no file entry for current process!") p'') /\
  (Z.of_nat MAX_FILES <= fd -> get_opened_file fd p = get_opened_file 127 p).
Proof.
  intros Hclose. split; [|split].
  - unfold do_close, with_file in Hclose. apply bind_Ret_inv in Hclose as (f & p1 & Hf & Hclose).
    assert (p1 = p) as -> by (unfold get_opened_file in Hf; case_match; by simplify_eq).
    apply bind_Ret_inv in Hclose as ([a f'] & p2 & Hc & Hclose).
    unfold on_fs, zoom in Hc. destruct (vfs_close f (fsys p)) as [[a' f''] s2|]; [|done]. simplify_eq.
    by inversion Hclose.
  - intros path flags f s' Hn Hopen. unfold do_open, cwd. rewrite bind_assoc. unfold get at 1, bind at 1.
    rewrite bind_ret_l. unfold on_fs, zoom, bind at 1. rewrite Hopen. unfold get, bind at 1. cbn [pfiles].
    unfold check. rewrite (proj2 (Z.leb_le _ _) Hn). by eexists.
  - intros Hfd. unfold get_opened_file. replace (file_index fd) with (file_index 127); [done|].
    unfold file_index. replace ((0 <=? fd) && (fd <? Z.of_nat MAX_FILES)) with false by lia. done.
Qed.

End ProcFile.

#[local] Existing Instance demo_fs.

(** A process in the directory at 20480, with no open files but one on the file
    "a" of [fs3]. *)
Definition closed_file : file := mkFile 0 0 0 0 0.
Definition proc3 : fproc (list Z) :=
  mkFP fs3 (mkPF 20480 (mkFile 1 1 1 5 16384 :: replicate 127 closed_file) 1).
Definition opened3 : fstate (list Z) := final (vfs_open 20480 [46; 47; 97] 2 fs3).

Lemma do_open_lowest_fd_witness :
  exists p', do_open [46; 47; 97] 2 proc3 = Ret 1 p' /\ get_opened_file 1 p' = Ret (mkFile 1 1 1 0 16384) p'.
Proof.
  destruct (do_open_lowest_fd proc3 [46; 47; 97] 2 (mkFile 1 1 1 0 16384) opened3 1) as (p' & H1 & _ & H2 & _).
  - vm_compute. reflexivity.
  - vm_compute. reflexivity.
  - reflexivity.
  - exists closed_file. split; reflexivity.
  - intros [|k] g Hk Hg; [injection Hg as <-; discriminate|lia].
  - exists p'. split; [exact H1|exact H2].
Defined.

Lemma nfiles_never_decreases_witness :
  exists p', do_close 0 proc3 = Ret 0 p' /\ nfiles (pfiles p') = 1.
Proof.
  assert (Hc : do_close 0 proc3 = Ret 0 (final (do_close 0 proc3))) by (vm_compute; reflexivity).
  exists (final (do_close 0 proc3)). split; [exact Hc|].
  exact (proj1 (nfiles_never_decreases proc3 0 0 _ Hc)).
Defined.
