(* ===== verification/SpikeFile.v ===== *)
(** * Files of the host (spike_interface/spike_file.c)

    The table of host files with its reference counters.  The emulator behind
    [frontend_syscall] is the class [Frontend]: what each call returns, what it
    stores, and how it changes the state [H] of the host.  A pointer to entry [i]
    of [spike_files] is the number [i + 1]; NULL is 0, and the error pointers
    [ERR_PTR(e)] are the negative numbers [e]. *)
From S2P Require Import Prelude.

Definition MAX_SPIKE_FILES : nat := 128.
Definition MAX_FDS : nat := 128.
Definition ENOMEM : Z := 12.
Definition INIT_FILE_REF : Z := 3.
Definition AT_FDCWD : Z := -100.
Definition SEEK_SET : Z := 0.
Definition SEEK_CUR : Z := 1.

Record spike_file : Type := mkSpikeFile { kfd : Z; refcnt : Z }.

(** The fields of [struct stat] that the kernel uses. *)
Record stat : Type := mkHostStat { st_ino : Z; st_mode : Z; st_nlink : Z; st_size : Z; st_blocks : Z }.

Class Frontend (H : Type) : Type := {
  host_openat : Z -> list Z -> Z -> Z -> H -> Z * H;
  host_close : Z -> H -> H;
  host_read : Z -> Z -> H -> Z * list Z * H;
  host_pread : Z -> Z -> Z -> H -> Z * list Z * H;
  host_write : Z -> list Z -> H -> Z * H;
  host_lseek : Z -> Z -> Z -> H -> Z * H;
  host_fstat : Z -> H -> Z * stat * H;
  host_getmainvars : Z -> H -> Z * list Z * H
}.

Record spike (H : Type) : Type := mkSp { spike_files : list spike_file; spike_fds : list Z; host : H }.
Arguments mkSp {H}. Arguments spike_files {H}. Arguments spike_fds {H}. Arguments host {H}.

Section SpikeFile.
Context {H : Type} `{Frontend H}.
#[local] Notation SM := (M (spike H)).

Definition set_files (v : list spike_file) (s : spike H) : spike H := mkSp v (spike_fds s) (host s).
Definition set_fds (v : list Z) (s : spike H) : spike H := mkSp (spike_files s) v (host s).
Definition set_host (v : H) (s : spike H) : spike H := mkSp (spike_files s) (spike_fds s) v.

(** A call of the host. *)
Definition call {A} (f : H -> A * H) : SM A := fun s => let '(a, h) := f (host s) in Ret a (set_host h s).

(** Dereferencing a [spike_file_t *]. *)
Definition get_file (f : Z) : SM spike_file :=
  fun s => if f <=? 0 then Stop (Fault f) s else
           match spike_files s !! Z.to_nat (f - 1) with
           | Some x => Ret x s
           | None => Stop (Fault f) s
           end.
Definition put_file (f : Z) (x : spike_file) : SM unit :=
  modify (fun s => set_files (<[Z.to_nat (f - 1) := x]> (spike_files s)) s).

Definition spike_file_stat (f : Z) : SM (Z * stat) := let* x := get_file f in call (host_fstat (kfd x)).

(** [refcnt] is a [uint32]. *)
Definition spike_file_decref (f : Z) : SM unit :=
  let* x := get_file f in
  put_file f (mkSpikeFile (kfd x) (u32 (refcnt x - 1))) ;;;
  when (refcnt x =? 2)
    (put_file f (mkSpikeFile (kfd x) 0) ;;;
     call (fun h => (tt, host_close (kfd x) h))).

Definition spike_file_incref (f : Z) : SM unit :=
  let* x := get_file f in
  put_file f (mkSpikeFile (kfd x) (u32 (refcnt x + 1))) ;;;
  check (refcnt x <=? 0) (Panic "kassert(prev > 0)").

(** [spike_fds[kfd]] *)
Definition get_fd (i : Z) : SM Z :=
  fun s => if i <? 0 then Stop (UB "spike_fds out of range") s else
           match spike_fds s !! Z.to_nat i with
           | Some f => Ret f s
           | None => Stop (UB "spike_fds out of range") s
           end.
Definition put_fd (i f : Z) : SM unit := modify (fun s => set_fds (<[Z.to_nat i := f]> (spike_fds s)) s).

Definition spike_file_close (f : Z) : SM Z :=
  if f =? 0 then ret (-1) else
  let* x := get_file f in
  let* old := get_fd (kfd x) in
  when (old =? f) (put_fd (kfd x) 0) ;;;
  spike_file_decref f ;;;
  if negb (old =? f) then ret (-1) else
  spike_file_decref f ;;;
  ret 0.

Definition spike_file_write (f : Z) (buf : list Z) : SM Z := let* x := get_file f in call (host_write (kfd x) buf).

Fixpoint first_free (l : list spike_file) (i : nat) : option nat :=
  match l with [] => None | x :: l' => if refcnt x =? 0 then Some i else first_free l' (S i) end.

Definition spike_file_get_free : SM Z :=
  let* s := get in
  match first_free (spike_files s) 0 with
  | Some i =>
      let f := Z.of_nat i + 1 in
      let* x := get_file f in
      put_file f (mkSpikeFile (kfd x) INIT_FILE_REF) ;;;
      ret f
  | None => ret 0
  end.

Fixpoint first_null (l : list Z) (i : nat) : option nat :=
  match l with [] => None | f :: l' => if f =? 0 then Some i else first_null l' (S i) end.

Definition spike_file_dup (f : Z) : SM Z :=
  let* s := get in
  match first_null (spike_fds s) 0 with
  | Some i => put_fd (Z.of_nat i) f ;;; spike_file_incref f ;;; ret (Z.of_nat i)
  | None => ret (-1)
  end.

(** stdin, stdout and stderr. *)
Definition init_std (i : Z) : SM unit :=
  let* f := spike_file_get_free in
  let* x := get_file f in
  put_file f (mkSpikeFile i (refcnt x)) ;;;
  let* _ := spike_file_dup f in
  ret tt.
Definition spike_file_init : SM unit := init_std 0 ;;; init_std 1 ;;; init_std 2.

Definition spike_file_openat (dirfd : Z) (fn : list Z) (flags mode : Z) : SM Z :=
  let* f := spike_file_get_free in
  if f =? 0 then ret (- ENOMEM) else
  let* r := call (host_openat dirfd fn flags mode) in
  if 0 <=? r then
    let* x := get_file f in
    put_file f (mkSpikeFile (i32 r) (refcnt x)) ;;;
    ret f
  else spike_file_decref f ;;; ret r.

Definition spike_file_open (fn : list Z) (flags mode : Z) : SM Z := spike_file_openat AT_FDCWD fn flags mode.

Definition spike_file_pread (f size offset : Z) : SM (Z * list Z) :=
  let* x := get_file f in call (host_pread (kfd x) size offset).
Definition spike_file_read (f size : Z) : SM (Z * list Z) := let* x := get_file f in call (host_read (kfd x) size).
Definition spike_file_lseek (f ptr dir : Z) : SM Z := let* x := get_file f in call (host_lseek (kfd x) ptr dir).

(** The retry loop of the compare-and-swap succeeds at once on one hart. *)
Definition spike_file_get (fd : Z) : SM Z :=
  if (fd <? 0) || (Z.of_nat MAX_FDS <=? fd) then ret 0 else
  let* f := get_fd fd in
  if f =? 0 then ret 0 else
  let* x := get_file f in
  if refcnt x =? 0 then ret 0 else
  put_file f (mkSpikeFile (kfd x) (u32 (refcnt x + 1))) ;;;
  ret f.

(** ** What opening and closing do to the table *)

Definition free_files (l : list spike_file) : nat := length (filter (fun x => refcnt x = 0) l).

Lemma first_free_spec l i j :
  first_free l i = Some j ->
  exists x, (i <= j)%nat /\ l !! (j - i)%nat = Some x /\ refcnt x = 0.
Proof.
  revert i. induction l as [|x l IH]; intros i Hf; cbn in Hf; [done|].
  destruct (Z.eqb_spec (refcnt x) 0) as [E|E].
  - simplify_eq. exists x. rewrite Nat.sub_diag. done.
  - destruct (IH _ Hf) as (y & Hle & Hy & Hz). exists y. split; [lia|].
    replace (j - i)%nat with (S (j - S i)) by lia. done.
Qed.

Lemma free_files_take l i x y :
  l !! i = Some x -> refcnt x = 0 -> refcnt y <> 0 -> S (free_files (<[i := y]> l)) = free_files l.
Proof.
  unfold free_files. revert i. induction l as [|z l IH]; intros [|i] Hl Hx Hy; cbn in Hl; try done; cbn [insert list_insert].
  - simplify_eq. rewrite !filter_cons. by rewrite decide_False, decide_True.
  - specialize (IH i Hl Hx Hy). rewrite !filter_cons. destruct (decide (refcnt z = 0)); [cbn [length]; f_equal|]; exact IH.
Qed.

(** a host file is never given back. Opening a file that the host has takes
    a free entry of the table; closing it again returns -1, does not close the
    file on the host and leaves the entry taken: every open and close costs one
    of the 128 entries. *)
Theorem spike_close_leaks (s : spike H) fn flags mode i fd h :
  first_free (spike_files s) 0 = Some i -> host_openat AT_FDCWD fn flags mode (host s) = (fd, h) ->
  0 <= fd < 2 ^ 31 -> (exists g, spike_fds s !! Z.to_nat fd = Some g /\ g <> Z.of_nat i + 1) ->
  exists s1 s2, spike_file_open fn flags mode s = Ret (Z.of_nat i + 1) s1 /\
    spike_file_close (Z.of_nat i + 1) s1 = Ret (-1) s2 /\ host s2 = h /\
    S (free_files (spike_files s2)) = free_files (spike_files s) /\
    spike_files s2 !! i = Some (mkSpikeFile fd 2).
Proof.
  intros Hf Ho [Hfd Hm] (g & Hg & Hne). destruct (first_free_spec _ _ _ Hf) as (x & _ & Hx & Hr).
  rewrite Nat.sub_0_r in Hx. pose proof (lookup_lt_Some _ _ _ Hx) as Hlt.
  set (f := Z.of_nat i + 1). assert (Hi : Z.to_nat (f - 1) = i) by lia.
  assert (Hf0 : (f <=? 0) = false) by lia. assert (Hf1 : (f =? 0) = false) by lia.
  assert (Hget : forall l y (s' : spike H), spike_files s' = <[i := y]> l -> (i < length l)%nat -> get_file f s' = Ret y s').
  { intros l y s' El Hil. unfold get_file. rewrite Hf0, Hi, El. by rewrite list_lookup_insert_eq. }
  set (s1 := set_host h (set_files (<[i := mkSpikeFile fd 3]> (<[i := mkSpikeFile (kfd x) 3]> (spike_files s))) s)).
  set (s2 := set_files (<[i := mkSpikeFile fd 2]> (spike_files s1)) s1).
  exists s1, s2.
  assert (El : forall a b l, <[i:=a]> (<[i:=b]> l) = <[i:=a]> (l : list spike_file)) by (intros; apply list_insert_insert_eq).
  split; [|split; [|split; [done|split]]].
  - unfold spike_file_open, spike_file_openat, spike_file_get_free, bind, get, get_file, put_file, modify, ret, call.
    rewrite Hf. fold f. rewrite Hf0, Hi, Hx. cbn [kfd]. rewrite Hf1. cbn [host set_files]. rewrite Ho.
    rewrite (proj2 (Z.leb_le 0 fd) Hfd), i32_small by lia. cbn [spike_files set_host set_files]. by rewrite Hf0, Hi, list_lookup_insert_eq by done.
  - unfold spike_file_close. rewrite Hf1. unfold bind at 1.
    rewrite (Hget (<[i := mkSpikeFile (kfd x) 3]> (spike_files s)) (mkSpikeFile fd 3)) by (done || rewrite length_insert; done).
    unfold bind at 1, get_fd. cbn [kfd]. rewrite (proj2 (Z.ltb_ge fd 0) Hfd). cbn [spike_fds s1 set_host set_files]. rewrite Hg.
    rewrite (proj2 (Z.eqb_neq g f)) by done. cbn [when negb]. unfold bind at 1, ret at 1. unfold bind at 1, spike_file_decref.
    unfold bind at 1. rewrite (Hget (<[i := mkSpikeFile (kfd x) 3]> (spike_files s)) (mkSpikeFile fd 3)) by (done || rewrite length_insert; done).
    unfold bind, put_file, modify. cbn [refcnt kfd Z.eqb Pos.eqb when]. rewrite Hi. done.
  - cbn [spike_files s2 s1 set_files set_host]. rewrite !El. by apply (free_files_take _ _ x).
  - cbn [spike_files s2 s1 set_files set_host]. by rewrite list_lookup_insert_eq by (rewrite !length_insert; done).
Qed.

End SpikeFile.

(** A host with one file: every open of it yields descriptor 7. *)
#[local] Instance tiny_host : Frontend (list Z) := {|
  host_openat _ _ _ _ h := (7, h);
  host_close fd h := fd :: h;
  host_read _ _ h := (0, [], h);
  host_pread _ _ _ h := (0, [], h);
  host_write _ l h := (Z.of_nat (length l), h);
  host_lseek _ _ _ h := (0, h);
  host_fstat _ h := (0, mkHostStat 1 32768 1 0 0, h);
  host_getmainvars _ h := (0, [], h)
|}.
Definition spike0 : spike (list Z) :=
  mkSp (replicate MAX_SPIKE_FILES (mkSpikeFile (-1) 0)) (replicate MAX_FDS 0) [].
Definition spike1 : spike (list Z) := final (spike_file_init spike0).

Lemma spike_close_leaks_witness :
  exists s1 s2, spike_file_open [97] 2 0 spike1 = Ret 4 s1 /\ spike_file_close 4 s1 = Ret (-1) s2 /\ host s2 = [] /\
    free_files (spike_files s2) = 124%nat.
Proof.
  destruct (spike_close_leaks spike1 [97] 2 0 3 7 []) as (s1 & s2 & E1 & E2 & Hh & Hn & _).
  - reflexivity.
  - reflexivity.
  - lia.
  - exists 0. split; [reflexivity|lia].
  - exists s1, s2. split; [exact E1|]. split; [exact E2|]. split; [exact Hh|]. apply eq_add_S. rewrite Hn. reflexivity.
Defined.
