(* ===== verification/Hostfs.v ===== *)
(** * The host file system (kernel/hostfs.c) and the start of the file systems
      ([fs_init] of kernel/proc_file.c)

    The inodes of the host file system hold in [i_fs_info] the pointer that
    [spike_file_open] returned, an error pointer included.  The table of host
    files is part of the state [PS] behind the pages (class [HostPages]). *)
From S2P Require Import Prelude Pages HashTable CString VfsData Rfs RfsDisk Vfs SpikeFile.

(** "./hostfs_root" *)
Definition H_ROOT_DIR : list Z := [46; 47; 104; 111; 115; 116; 102; 115; 95; 114; 111; 111; 116].
Definition H_FILE : Z := FILE_I.
Definition H_DIR : Z := DIR_I.
(** [S_IRUSR | S_IWUSR], and the file types of [st_mode]. *)
Definition MODE_RW : Z := 384.
Definition S_IFMT : Z := 61440.
Definition S_IFDIR : Z := 16384.
Definition S_IFREG : Z := 32768.

Class HostPages (PS H : Type) `{PageSource PS} : Type := {
  spike_of : PS -> spike H;
  set_spike : spike H -> PS -> PS;
  spike_of_set v p : spike_of (set_spike v p) = v;
  set_spike_ok v p own n : pg_ok p own n -> pg_ok (set_spike v p) own n
}.

Section Hostfs.
Context {PS H : Type} `{Frontend H} `{HostPages PS H}.
#[local] Notation FM := (M (fstate PS)).

Definition on_spike {A} (c : M (spike H) A) : FM A :=
  zoom (fun s => spike_of (fpages s)) (fun v s => set_fpages (set_spike v (fpages s)) s) c.

Definition register_hostfs : FM Z :=
  let* _ := new_page in
  let* s := get in
  match first_empty is_none (fs_list s) 0 with
  | Some i => modify (fun s => set_fs_list (<[i := Some HOSTFS]> (fs_list s)) s) ;;; ret 0
  | None => ret (-1)
  end.

Definition init_host_device (name : list Z) : FM Z :=
  let* s := get in
  check (negb (existsb (fun o => bool_decide (o = Some HOSTFS)) (fs_list s)))
        (Kill "init_host_device: No HOSTFS file system found!" (-1)) ;;;
  let* dev := new_page in
  fits 30 name ;;;
  modify (fun s => set_devices (<[dev := mkDevice name 0 HOSTFS]> (devices s)) s) ;;;
  let* s := get in
  match first_empty (Z.eqb 0) (vfs_dev_list s) 0 with
  | Some i => modify (fun s => set_vfs_dev_list (<[i := dev]> (vfs_dev_list s)) s)
  | None => ret tt
  end ;;;
  ret dev.

(** The path below the root; [fuel] bounds the depth. *)
Fixpoint path_backtrack (fuel : nat) (d : Z) : FM (list Z) :=
  match fuel with
  | O => halt OutOfFuel
  | S f =>
      let* x := get_dentry d in
      if d_parent x =? 0 then ret [] else
      let* p := path_backtrack f (d_parent x) in
      ret (p ++ [SLASH] ++ d_name x)
  end.

(** Into an array of [MAX_PATH_LEN] bytes. *)
Definition get_path_string (d : Z) : FM (list Z) :=
  let* s := get in
  let* p := path_backtrack (S (size (dentries s))) d in
  fits MAX_PATH_LEN (H_ROOT_DIR ++ p) ;;;
  ret (H_ROOT_DIR ++ p).

Definition hostfs_alloc_vinode (sb : Z) : FM Z :=
  let* v := default_alloc_vinode sb HOSTFS in
  upd_vinode v (set_inum (-1)) ;;;
  upd_vinode v (set_i_fs_info 0) ;;;
  ret v.

Definition hostfs_write_back_vinode (v : Z) : FM Z := ret 0.

(** What the stats of a file say; [int] fields. *)
Definition of_stat (x : stat) (n : vinode) : vinode :=
  mkVinode (i32 (st_ino x)) (vref n) (i32 (st_size x)) (vtype n) (i32 (st_nlink x)) (i32 (st_blocks x)) (addrs n)
           (i_fs_info n) (vsb n) (i_ops n).

Definition hostfs_update_vinode (v : Z) : FM Z :=
  let* n := get_vinode v in
  if i_fs_info n <? 0 then upd_vinode v (set_vtype H_DIR) ;;; ret (-1) else
  let* '(_, x) := on_spike (spike_file_stat (i_fs_info n)) in
  upd_vinode v (of_stat x) ;;;
  let fmt := Z.land (st_mode x) S_IFMT in
  if fmt =? S_IFDIR then upd_vinode v (set_vtype H_DIR) ;;; ret 0
  else if fmt =? S_IFREG then upd_vinode v (set_vtype H_FILE) ;;; ret 0
  else ret (-1).

(** The test [pf < 0] of a pointer never holds. *)
Definition hostfs_read (v : Z) (len offset : Z) : FM (Z * list Z * Z) :=
  let* n := get_vinode v in
  let pf := i_fs_info n in
  let* '(r, l) := on_spike (spike_file_read pf len) in
  let* off := on_spike (spike_file_lseek pf 0 SEEK_CUR) in
  ret (i32 r, l, i32 off).

Definition hostfs_write (v : Z) (w_buf : list Z) (offset : Z) : FM (Z * Z) :=
  let* n := get_vinode v in
  let pf := i_fs_info n in
  let* r := on_spike (spike_file_write pf w_buf) in
  let* off := on_spike (spike_file_lseek pf 0 SEEK_CUR) in
  ret (i32 r, i32 off).

Definition hostfs_lookup (parent sub_dentry : Z) : FM Z :=
  let* path := get_path_string sub_dentry in
  let* f := on_spike (spike_file_open path O_RDWR 0) in
  let* pn := get_vinode parent in
  let* child := hostfs_alloc_vinode (vsb pn) in
  upd_vinode child (set_i_fs_info f) ;;;
  let* _ := hostfs_update_vinode child in
  upd_vinode child (set_vref 0) ;;;
  ret child.

Definition hostfs_create (parent sub_dentry : Z) : FM Z :=
  let* path := get_path_string sub_dentry in
  let* f := on_spike (spike_file_open path (Z.lor O_RDWR O_CREAT) MODE_RW) in
  if f <? 0 then ret 0 else
  let* pn := get_vinode parent in
  let* new_inode := hostfs_alloc_vinode (vsb pn) in
  upd_vinode new_inode (set_i_fs_info f) ;;;
  let* r := hostfs_update_vinode new_inode in
  if negb (r =? 0) then ret 0 else
  upd_vinode new_inode (set_vref 0) ;;;
  ret new_inode.

Definition hostfs_lseek (v : Z) (new_offset whence offset : Z) : FM (Z * Z) :=
  let* n := get_vinode v in
  let* r := on_spike (spike_file_lseek (i_fs_info n) new_offset whence) in
  let off := i32 r in
  ret (if 0 <=? off then 0 else -1, off).

Definition hostfs_link (parent sub_dentry link_node : Z) : FM Z := halt (Kill "hostfs_link not implemented!" (-1)).
Definition hostfs_unlink (parent sub_dentry unlink_node : Z) : FM Z := halt (Kill "hostfs_unlink not implemented!" (-1)).
Definition hostfs_readdir (v offset : Z) : FM (Z * option (list Z * Z) * Z) :=
  halt (Kill "hostfs_readdir not implemented!" (-1)).
Definition hostfs_mkdir (parent sub_dentry : Z) : FM Z := halt (Kill "hostfs_mkdir not implemented!" (-1)).

Definition hostfs_hook_open (v d : Z) : FM Z :=
  let* n := get_vinode v in
  if negb (i_fs_info n =? 0) then ret 0 else
  let* path := get_path_string d in
  let* f := on_spike (spike_file_open path O_RDWR 0) in
  if f <? 0 then ret (-1) else
  upd_vinode v (set_i_fs_info f) ;;;
  ret 0.

Definition hostfs_hook_close (v d : Z) : FM Z :=
  let* n := get_vinode v in
  let* _ := on_spike (spike_file_close (i_fs_info n)) in
  ret 0.

Definition hostfs_get_superblock (dev : Z) : FM Z :=
  let* sb := new_page in
  put_super sb (mkSuper 0 0 0 0 0 dev (fun _ => 0)) ;;;
  let* root_inode := hostfs_alloc_vinode sb in
  upd_vinode root_inode (set_vtype H_DIR) ;;;
  let* root_dentry := alloc_vfs_dentry slash root_inode 0 in
  let* s := get_super sb in
  put_super sb (set_s_root root_dentry s) ;;;
  ret sb.

(** The table leaves [viop_disk_stat] and the hooks of directories out; calling a
    null pointer faults. *)
Definition hostfs_i_ops : vinode_ops PS :=
  mkOps hostfs_read hostfs_write hostfs_create hostfs_lseek (fun _ => halt (Fault 0)) hostfs_link hostfs_unlink
    hostfs_lookup hostfs_readdir hostfs_mkdir hostfs_write_back_vinode
    (Some hostfs_hook_open) (Some hostfs_hook_close) None None.

#[local] Instance kernel_fs : FileSystems PS := {|
  ops_of k := match k with RFS => rfs_i_ops | HOSTFS => hostfs_i_ops end;
  get_superblock k := match k with RFS => rfs_get_superblock | HOSTFS => hostfs_get_superblock end
|}.

(** "HOSTDEV" and "RAMDISK0" *)
Definition HOSTDEV : list Z := [72; 79; 83; 84; 68; 69; 86].
Definition RAMDISK0 : list Z := [82; 65; 77; 68; 73; 83; 75; 48].

(** [garbage] and [stale] are what the pages of the disk and the stack hold. *)
Definition fs_init (garbage : Z -> bmem) (stale : list Z) : FM unit :=
  let* _ := vfs_init in
  let* r := register_hostfs in
  check (r <? 0) (Panic "fs_init: cannot register hostfs.") ;;;
  let* _ := init_host_device HOSTDEV in
  let* _ := vfs_mount HOSTDEV MOUNT_AS_ROOT in
  let* r := register_rfs in
  check (r <? 0) (Panic "fs_init: cannot register rfs.") ;;;
  let* ramdisk0 := init_rfs_device garbage RAMDISK0 in
  let* _ := rfs_format_dev stale ramdisk0 in
  let* _ := vfs_mount RAMDISK0 MOUNT_DEFAULT in
  ret tt.

(** ** A file that the host does not have *)

Lemma on_spike_run {A} (c : M (spike H) A) (s : fstate PS) a v :
  c (spike_of (fpages s)) = Ret a v -> on_spike c s = Ret a (set_fpages (set_spike v (fpages s)) s).
Proof. intros E. unfold on_spike, zoom. by rewrite E. Qed.

Lemma open_fails (s : spike H) fn flags mode i e h :
  first_free (spike_files s) 0 = Some i -> host_openat AT_FDCWD fn flags mode (host s) = (e, h) -> e < 0 ->
  exists s', spike_file_open fn flags mode s = Ret e s'.
Proof.
  intros Hf Ho He. destruct (first_free_spec _ _ _ Hf) as (x & _ & Hx & Hr). rewrite Nat.sub_0_r in Hx.
  pose proof (lookup_lt_Some _ _ _ Hx) as Hlt.
  unfold spike_file_open, spike_file_openat, spike_file_get_free, spike_file_decref, bind, get, get_file, put_file, modify, ret, call.
  rewrite Hf, (proj2 (Z.leb_gt (Z.of_nat i + 1) 0)) by lia. replace (Z.to_nat (Z.of_nat i + 1 - 1)) with i by lia.
  rewrite Hx. cbn [kfd]. rewrite (proj2 (Z.eqb_neq (Z.of_nat i + 1) 0)) by lia. cbn [host set_files]. rewrite Ho.
  rewrite (proj2 (Z.leb_gt 0 e)) by lia. rewrite (proj2 (Z.leb_gt (Z.of_nat i + 1) 0)) by lia.
  cbn [spike_files set_host set_files]. replace (Z.to_nat (Z.of_nat i + 1 - 1)) with i by lia.
  rewrite list_lookup_insert_eq by done. by eexists.
Qed.

(** the host file system never says that a file does not exist. When the host
    refuses to open the path, [hostfs_lookup] still returns an inode, and its
    type is that of a directory: the virtual file system, which creates a file
    only when its lookup returns NULL, neither creates nor opens it. *)
Theorem hostfs_missing_is_directory (s : fstate PS) parent pn d path own k i e h :
  get_path_string d s = Ret path s -> vinodes s !! parent = Some pn -> pg_ok (fpages s) own (S k) ->
  first_free (spike_files (spike_of (fpages s))) 0 = Some i ->
  host_openat AT_FDCWD path O_RDWR 0 (host (spike_of (fpages s))) = (e, h) -> e < 0 ->
  exists v n s', hostfs_lookup parent d s = Ret v s' /\ v <> 0 /\ vinodes s' !! v = Some n /\
    vtype n = DIR_I /\ i_ops n = HOSTFS /\ i_fs_info n = e.
Proof.
  intros Hp Hv Hok Hf Ho He. unfold hostfs_lookup. rewrite (bind_Ret _ _ _ _ _ Hp).
  destruct (open_fails _ _ _ _ _ _ _ Hf Ho He) as (sp & Hopen).
  rewrite (bind_Ret _ _ _ _ _ (on_spike_run _ s e sp Hopen)). set (s1 := set_fpages _ s).
  unfold get_vinode, obj. unfold bind at 1. cbn [vinodes s1 set_fpages]. rewrite Hv.
  unfold hostfs_alloc_vinode, default_alloc_vinode.
  destruct (new_page_run s1 own k (set_spike_ok _ _ _ _ Hok)) as (v & ps & Ea & Hnz & Hno & _).
  rewrite !bind_assoc, (bind_Ret _ _ _ _ _ Ea). exists v. eexists _, _.
  split; [|split; [done|]].
  { unfold put_vinode, upd_vinode, get_vinode, obj, put_vinode, hostfs_update_vinode, get_vinode, obj, bind, modify, ret.
    repeat (cbn [vinodes set_vinodes set_fpages]; rewrite lookup_insert_eq).
    cbn [i_fs_info set_i_fs_info set_inum]. rewrite (proj2 (Z.ltb_lt e 0) He).
    unfold upd_vinode, get_vinode, obj, put_vinode, bind, modify.
    repeat (cbn [vinodes set_vinodes set_fpages]; rewrite lookup_insert_eq). reflexivity. }
  cbn [vinodes set_vinodes set_fpages]. rewrite lookup_insert_eq. done.
Qed.
End Hostfs.

(** The table of host files beside the pages. *)
#[global] Instance pair_host {S H} `{PageSource S} : HostPages (S * spike H) H.
Proof. by refine {| spike_of := snd; set_spike v p := (fst p, v) |}. Defined.

(** A host without files; its state counts the calls that would create one. *)
#[local] Instance empty_host : Frontend nat := {|
  host_openat _ _ flags _ h := (-2, if Z.land flags O_CREAT =? 0 then h else S h);
  host_close _ h := h;
  host_read _ _ h := (0, [], h);
  host_pread _ _ _ h := (0, [], h);
  host_write _ l h := (-1, h);
  host_lseek _ _ _ h := (0, h);
  host_fstat _ h := (-1, mkHostStat 0 0 0 0 0, h);
  host_getmainvars _ h := (0, [], h)
|}.

#[local] Existing Instance kernel_fs.

Definition host_sp : spike nat :=
  mkSp (mkSpikeFile 0 4 :: mkSpikeFile 1 4 :: mkSpikeFile 2 4 :: replicate 125 (mkSpikeFile (-1) 0))
    (1 :: 2 :: 3 :: replicate 125 0) 0%nat.
(** Before the start, with [n] free pages. *)
Definition fs_empty (n : nat) : fstate (list Z * spike nat) :=
  mkF ((fun k => 4096 * Z.of_nat k) <$> reverse (seq 1 n), host_sp) (replicate MAX_RAMDISK_COUNT None) ∅ ∅ ∅ ∅ ∅
    (mkTable (replicate HASH_TABLE_SIZE 0) ∅) (mkTable (replicate HASH_TABLE_SIZE 0) ∅) 0
    (replicate MAX_MOUNTS 0) (replicate MAX_VFS_DEV 0) (replicate MAX_SUPPORTED_FS None).

(** The host as the root, and an entry "x" below it. *)
Definition fs_host : fstate (list Z * spike nat) :=
  final ((let* _ := vfs_init in let* _ := register_hostfs in
          let* _ := init_host_device HOSTDEV in vfs_mount HOSTDEV MOUNT_AS_ROOT) (fs_empty 20)).
Definition fs_lookup : fstate (list Z * spike nat) :=
  final (alloc_vfs_dentry [120] 0 (vfs_root_dentry fs_host) fs_host).
Definition x_dentry : Z := 53248.
Definition root_inode : Z := 69632.

(** [fs_init] returns, the host is the root and the RAM disk is mounted below it. *)
Example fs_init_runs :
  match (fs_init (fun _ _ => 0) (replicate 9 0) ;;;
         let* s := get in
         let* '(d, _, _) := lookup_final_dentry RAMDISK0 (vfs_root_dentry s) in
         let* x := get_dentry d in
         let* n := get_vinode (dentry_inode x) in
         ret (vtype n, i_ops n, vsize n, nblk n)) (fs_empty 200) with
  | Ret r _ => r = (DIR_I, RFS, 0, 1)
  | Stop _ _ => False
  end.
Proof. vm_compute. reflexivity. Qed.


(** "./hostfs_root/x" does not exist on the host: the lookup gives a directory. *)
Lemma hostfs_missing_is_directory_witness :
  exists v n s', hostfs_lookup root_inode x_dentry fs_lookup = Ret v s' /\ vinodes s' !! v = Some n /\
    vtype n = DIR_I /\ i_fs_info n = -2.
Proof.
  destruct (vinodes fs_lookup !! root_inode) as [pn|] eqn:Ep; [|vm_compute in Ep; discriminate].
  destruct (hostfs_missing_is_directory fs_lookup root_inode pn x_dentry (H_ROOT_DIR ++ [SLASH; 120]) ∅ 11 3 (-2) 0%nat)
    as (v & n & s' & E & _ & Hn & Ht & _ & Hi); [vm_compute; reflexivity|exact Ep| |vm_compute; reflexivity..|].
  - split; [apply (bool_decide_unpack _); vm_compute; exact I|]. split; [vm_compute; reflexivity|].
    split; [apply (bool_decide_unpack _); vm_compute; exact I|]. split; [apply not_elem_of_empty|].
    intros p Hp. by apply elem_of_empty in Hp.
  - exists v, n, s'. repeat split; assumption.
Defined.

(** Opening it with [O_CREAT] creates nothing: the host never saw the flag. *)
Example hostfs_create_unreachable :
  match vfs_open (vfs_root_dentry fs_host) [47; 120] (Z.lor O_RDWR O_CREAT) fs_host with
  | Ret f s => host (spike_of (fpages s)) = 0%nat
  | Stop _ _ => False
  end.
Proof. vm_compute. reflexivity. Qed.
