(* ===== verification/Machine.v ===== *)
(** * The whole machine

    The state that a system call works on: the file systems (VfsData.v) over the
    kernel proper (Process.v), the table of host files (SpikeFile.v), the static
    buffers of kernel/elf.c and what uninitialised stack memory holds.  The
    kernel pages behind the file systems are those of Pmm.v.

    The table of open files of a process is a structure in a page of physical
    memory; [with_pfiles] runs a function of kernel/proc_file.c on it.  The
    console is entry 2 of the table of host files (spike_utils.c). *)
From S2P Require Import Prelude Pmm Vmm Process Sched Fork Pages HashTable CString Snprintf Bytes.
From S2P Require Import VfsData Rfs RfsDisk RfsFile RfsDir Vfs VfsRefs ProcFile SpikeFile Hostfs.

(** [statics]: the static buffers of elf.c; [elfloader]: the bytes of
    [elfloader[tp].ehdr]; [junk]: the contents of the stack that uninitialised
    variables see, one after the other. *)
Record machine (H : Type) : Type := mkMachine {
  kern : kstate;
  spk : spike H;
  statics : bmem;
  elfloader : list (list Z);
  junk : nat -> list Z
}.
Arguments mkMachine {H}. Arguments kern {H}. Arguments spk {H}. Arguments statics {H}. Arguments elfloader {H}. Arguments junk {H}.

Definition set_kern {H} (v : kstate) (m : machine H) : machine H :=
  mkMachine v (spk m) (statics m) (elfloader m) (junk m).
Definition set_spk {H} (v : spike H) (m : machine H) : machine H :=
  mkMachine (kern m) v (statics m) (elfloader m) (junk m).
Definition set_statics {H} (v : bmem) (m : machine H) : machine H :=
  mkMachine (kern m) (spk m) v (elfloader m) (junk m).
Definition set_elfloader {H} (v : list (list Z)) (m : machine H) : machine H :=
  mkMachine (kern m) (spk m) (statics m) v (junk m).
Definition set_junk {H} (v : nat -> list Z) (m : machine H) : machine H :=
  mkMachine (kern m) (spk m) (statics m) (elfloader m) v.

(** The pages of the machine are those of kernel/pmm.c. *)
Definition on_pages {H A} (c : M pstate A) : M (machine H) A := zoom kern set_kern (on_pm c).

Lemma on_pages_run {H A} (c : M pstate A) (m : machine H) a p :
  c (pm (kern m)) = Ret a p -> on_pages c m = Ret a (set_kern (set_pm p (kern m)) m).
Proof. intros E. unfold on_pages, on_pm, zoom. by rewrite E. Qed.

#[global] Instance machine_pages {H} : PageSource (machine H).
Proof.
  refine {| pg_alloc := on_pages alloc_page; pg_free p := on_pages (free_page p);
            pg_ok m := pmm_ok (pm (kern m)) |}.
  - intros m own n. exact (pg_own_nonzero (pm (kern m)) own n).
  - intros m own n Hok. destruct (pmm_ok_alloc _ _ _ Hok) as (p & s' & E & Hp). exists p. eexists.
    split; [by apply on_pages_run|exact Hp].
  - intros m own Hok. rewrite (on_pages_run _ m 0 (pm (kern m))) by exact (pg_alloc_none (pm (kern m)) own Hok).
    by destruct m as [[] ? ? ? ?].
  - intros m own n p Hok Hp. destruct (pmm_ok_free _ _ _ _ Hok Hp) as (s' & E & Hs). eexists.
    split; [by apply on_pages_run|exact Hs].
Defined.

#[global] Instance machine_host {H} : HostPages (machine H) H.
Proof. by refine {| spike_of := spk; set_spike := set_spk |}. Defined.

(** Where kernel buffers lie, and bounds for two loops that the code does not
    bound: the strings that [vsnprintf] prints and the steps of a line number
    program. *)
Class Buffers : Type := {
  fuel_str : nat;
  fuel_line : nat;
  out_buf : Z;
  shstrtab_buf : Z;
  debug_line_buf : Z;
  func_name_buf : Z;
  shdr_buf : Z;
  ffn_shstrtab_buf : Z;
  strtab_buf : Z;
  symtab_buf : Z
}.

Section Machine.
Context {H : Type} `{Frontend H} `{Linker} `{Buffers}.
#[global] Instance machine_fs : FileSystems (machine H) := kernel_fs.

Definition sys : Type := fstate (machine H).
#[local] Notation SM := (M sys).

Definition on_machine {A} (c : M (machine H) A) : SM A := zoom fpages set_fpages c.
Definition on_kern {A} (c : M kstate A) : SM A := on_machine (zoom kern set_kern c).
Definition on_mem {A} (c : M pstate A) : SM A := on_kern (on_pm c).
Definition on_host {A} (c : M (spike H) A) : SM A := on_machine (zoom spk set_spk c).
Definition on_statics {A} (c : M bmem A) : SM A := on_machine (zoom statics set_statics c).

(** The contents of an uninitialised variable of [n] bytes. *)
Definition stack_bytes (n : nat) : SM (list Z) :=
  on_machine (fun m => Ret (take n (junk m 0%nat ++ replicate n 0)) (set_junk (fun n => junk m (S n)) m)).

(** A function that may call [kill_current_process] on hart [tp]. *)
Definition fs_call {A} (tp : nat) (dflt : A) (c : SM A) : SM A :=
  fun s => match c s with
           | Stop (Kill r code) s' => (on_kern (kill_current_process tp r code) ;;; ret dflt) s'
           | o => o
           end.

(** ** The table of open files in its page *)

Definition load_file (a : Z) : M pstate VfsData.file :=
  let* st := load32 a in
  let* r := load32 (a + 4) in
  let* w := load32 (a + 8) in
  let* off := load32 (a + 12) in
  let* d := load (a + 16) in
  ret (mkFile (i32 st) (i32 r) (i32 w) (i32 off) d).
Definition store_file (a : Z) (f : VfsData.file) : M pstate unit :=
  store32 a (f_status f) ;;;
  store32 (a + 4) (readable f) ;;;
  store32 (a + 8) (writable f) ;;;
  store32 (a + 12) (f_offset f) ;;;
  store (a + 16) (f_dentry f).

Fixpoint load_files (n : nat) (a : Z) : M pstate (list VfsData.file) :=
  match n with
  | O => ret []
  | S n' => let* f := load_file a in let* l := load_files n' (a + 24) in ret (f :: l)
  end.
Fixpoint store_files (a : Z) (l : list VfsData.file) : M pstate unit :=
  match l with
  | [] => ret tt
  | f :: l' => store_file a f ;;; store_files (a + 24) l'
  end.

Definition load_pfiles (pf : Z) : M pstate proc_file_management :=
  let* c := load (pf + PF_cwd) in
  let* l := load_files ProcFile.MAX_FILES (pf + PF_file 0) in
  let* n := load32 (pf + PF_nfiles) in
  ret (mkPF c l (i32 n)).
Definition store_pfiles (pf : Z) (v : proc_file_management) : M pstate unit :=
  store (pf + PF_cwd) (pf_cwd v) ;;;
  store_files (pf + PF_file 0) (opened_files v) ;;;
  store32 (pf + PF_nfiles) (nfiles v).

(** A function of kernel/proc_file.c on the table of the current process. *)
Definition with_pfiles {A} (tp : nat) (c : M (fproc (machine H)) A) : SM A :=
  let* p := on_kern (self tp) in
  let* x := on_kern (get_proc p) in
  let* v := on_mem (load_pfiles (Process.pfiles x)) in
  fun s =>
    match c (mkFP s v) with
    | Ret a q => (on_mem (store_pfiles (Process.pfiles x) (ProcFile.pfiles q)) ;;; ret a) (fsys q)
    | Stop e q => (on_mem (store_pfiles (Process.pfiles x) (ProcFile.pfiles q)) ;;; halt e) (fsys q)
    end.

Definition file_call {A} (tp : nat) (dflt : A) (c : M (fproc (machine H)) A) : SM A :=
  fs_call tp dflt (with_pfiles tp c).

(** ** The console *)

(** [stderr] is [spike_files + 2]. *)
Definition stderr : Z := 3.

(** [vprintk] on a format in physical memory with the arguments [args]. *)
Definition vprintk (fmt : Z) (args : list Z) : SM unit :=
  let* l := on_mem (load_str fmt) in
  let* k := on_kern get in
  match vsnprintf (S (length l)) fuel_str out_buf 256 fmt args (view (mem (pm k))) with
  | Ret res m =>
      let n := if u64 res <? 256 then res else 256 in
      let* _ := on_host (spike_file_write stderr (bytes_from m (Z.to_nat n) out_buf)) in
      ret tt
  | Stop e _ => halt e
  end.
Definition sprint (fmt : Z) (args : list Z) : SM unit := vprintk fmt args.

(** What [vprintk] writes for a format that denotes the text [l]. *)
Definition printed (l : list Z) : list Z :=
  if Nat.ltb (length l) 256 then l else take 255 l ++ [0].
Definition print_text (l : list Z) : SM unit :=
  let* _ := on_host (spike_file_write stderr (printed l)) in ret tt.

End Machine.
Arguments sys : clear implicits.

(** ** Sample surroundings, for the concrete runs of the files that follow

    A host that keeps what is written, addresses of kernel buffers and symbols. *)
Definition sample_host : Frontend (list Z) := {|
  host_openat _ _ _ _ h := (3, h);
  host_close _ h := h;
  host_read _ nb h := (0, [], h);
  host_pread _ nb off h := (2, [120; 10], h);
  host_write _ l h := (Z.of_nat (length l), h ++ l);
  host_lseek _ off whence h := (0, h);
  host_fstat _ h := (0, mkHostStat 1 S_IFREG 1 60 1, h);
  host_getmainvars _ h := (0, [], h)
|}.
Definition sample_linker : Linker :=
  {| trap_sec_start := 2147483648; smode_trap_vector := 2147483712; smode_trap_handler_addr := 0 |}.
Definition sample_buffers : Buffers := {|
  fuel_str := 100; fuel_line := 100; out_buf := 0; shstrtab_buf := 1000; debug_line_buf := 100000; func_name_buf := 2000;
  shdr_buf := 10000; ffn_shstrtab_buf := 30000; strtab_buf := 40000; symtab_buf := 50000 |}.
