(* ===== verification/Elf.v ===== *)
(** * Loading executables (kernel/elf.c)

    Headers are read through the virtual file system into byte buffers and
    decoded at their C offsets; segments go to pages of physical memory that are
    mapped into the address space of the process; section names, symbols and the
    line table go to the static buffers.  [kill_current_process] is [halt (Kill
    ...)] here: the callers run these functions under [fs_call]. *)
From S2P Require Import Prelude Pmm Vmm Process Sched Fork Heap Pages HashTable CString Bytes DebugLine.
From S2P Require Import VfsData Rfs RfsDisk RfsFile RfsDir Vfs VfsRefs ProcFile SpikeFile Hostfs Machine.

Definition ELF_MAGIC : Z := 1179403647.
Definition ELF_PROG_LOAD : Z := 1.
Definition SEGMENT_READABLE : Z := 4.
Definition SEGMENT_EXECUTABLE : Z := 1.
Definition SEGMENT_WRITABLE : Z := 2.
Definition MAX_ARGV_LEN : nat := 256.
Definition MAX_SECTIONS : Z := 256.
Definition MAX_STRTAB_SIZE : Z := 65536.
Definition MAX_SYMTAB_SIZE : Z := 1048576.
Definition MAX_SHSTRTAB_SIZE : Z := 65536.
Definition MAX_DEBUG_LINE_SIZE : Z := 1048576.
Definition STT_FUNC : Z := 2.

Inductive elf_status : Type := EL_OK | EL_EIO | EL_ENOMEM | EL_NOTELF | EL_ERR.
#[global] Instance elf_status_eq_dec : EqDecision elf_status.
Proof. solve_decision. Defined.

(** The [n] bytes at [off] of a structure, little endian. *)
Definition field (n : nat) (off : Z) (l : list Z) : Z :=
  load_le n (fun i => default 0 (l !! Z.to_nat i)) off.

Record elf_header : Type := mkEhdr {
  magic : Z; entry : Z; phoff : Z; shoff : Z; phnum : Z; shnum : Z; shstrndx : Z
}.
Definition ehdr_of (l : list Z) : elf_header :=
  mkEhdr (field 4 0 l) (field 8 24 l) (field 8 32 l) (field 8 40 l) (field 2 56 l) (field 2 60 l) (field 2 62 l).
Definition sizeof_ehdr : nat := 64.

Record elf_prog_header : Type := mkPhdr {
  p_type : Z; p_flags : Z; p_off : Z; p_vaddr : Z; p_filesz : Z; p_memsz : Z
}.
Definition phdr_of (l : list Z) : elf_prog_header :=
  mkPhdr (field 4 0 l) (field 4 4 l) (field 8 8 l) (field 8 16 l) (field 8 32 l) (field 8 40 l).
Definition sizeof_phdr : nat := 56.

(** [elf_sect_header], and [Elf64_Shdr], which has the same layout. *)
Record elf_sect_header : Type := mkShdr { sh_name : Z; sh_offset : Z; sh_size : Z }.
Definition shdr_of (l : list Z) : elf_sect_header := mkShdr (field 4 0 l) (field 8 24 l) (field 8 32 l).
Definition sizeof_shdr : nat := 64.

Record Elf64_Sym : Type := mkSym { st_name : Z; st_info : Z; st_value : Z; st_size : Z }.
Definition sym_of (l : list Z) : Elf64_Sym := mkSym (field 4 0 l) (field 1 4 l) (field 8 8 l) (field 8 16 l).
Definition sizeof_sym : nat := 24.
Definition ELF64_ST_TYPE (info : Z) : Z := Z.land info 15.

(** Bytes [l] read into a buffer that held [old]. *)
Definition overlay (old l : list Z) : list Z := l ++ drop (length l) old.

(** ".debug_line", ".symtab", ".strtab" *)
Definition s_debug_line : list Z := [46; 100; 101; 98; 117; 103; 95; 108; 105; 110; 101].
Definition s_symtab : list Z := [46; 115; 121; 109; 116; 97; 98].
Definition s_strtab : list Z := [46; 115; 116; 114; 116; 97; 98].

Definition set_debug (d : debug_info) (x : process) : process :=
  mkProc (kstack x) (pagetable x) (trapframe x) (proc_size x) (malloc_list x) (malloc_free_list x)
    (mapped_info x) (total_mapped_region x) (user_heap x) (pid x) (status x) (parent x)
    (queue_next x) (tick_count x) (Process.pfiles x) (i_debugline d) (i_dir d) (i_file d) (i_line d) (i_line_ind d).

Section Elf.
Context {H : Type} `{Frontend H} `{Linker} `{Buffers}.
#[local] Notation SM := (M (sys H)).

(** A local structure of [n] bytes that receives [l]. *)
Definition into_local (n : nat) (old l : list Z) : SM (list Z) :=
  check (Nat.ltb n (length l)) (UB "buffer too small") ;;;
  ret (overlay old l).

(** [current[tp]->pfiles->cwd]; a null pointer when no process runs. *)
Definition cwd_of (tp : nat) : SM Z :=
  let* c := on_kern (get_current tp) in
  match c with
  | None => ret 0
  | Some p => let* x := on_kern (get_proc p) in on_mem (load (Process.pfiles x + PF_cwd))
  end.

(** [vfs_open] on the path [path]; the null pointer faults at its first use. *)
Definition open_exec (tp : nat) (path : list Z) : SM VfsData.file :=
  let* c := cwd_of tp in
  let* o := vfs_open c path O_RDONLY in
  match o with Some f => ret f | None => halt (Fault 0) end.

Definition elf_fpread (f : VfsData.file) (nb offset : Z) : SM (Z * list Z * VfsData.file) :=
  let* '(_, f) := vfs_lseek f offset SEEK_SET in
  vfs_read f nb.

(** [elfloader[tp].ehdr] *)
Definition ehdr (tp : nat) : SM elf_header :=
  fun s => match elfloader (fpages s) !! tp with
           | Some l => Ret (ehdr_of l) s
           | None => Stop (UB "elfloader out of range") s
           end.

Definition elf_init (tp : nat) (f : VfsData.file) : SM (elf_status * VfsData.file) :=
  let* '(r, l, f) := elf_fpread f (Z.of_nat sizeof_ehdr) 0 in
  let* s := get in
  let* b := into_local sizeof_ehdr (default [] (elfloader (fpages s) !! tp)) l in
  on_machine (modify (fun m => set_elfloader (<[tp := b]> (elfloader m)) m)) ;;;
  if negb (u64 r =? Z.of_nat sizeof_ehdr) then ret (EL_EIO, f) else
  let* h := ehdr tp in
  if negb (magic h =? ELF_MAGIC) then ret (EL_NOTELF, f) else
  ret (EL_OK, f).

Definition elf_alloc_mb (p : nat) (elf_va size : Z) : SM Z :=
  check (PGSIZE <=? size) (Panic "kassert(size < PGSIZE)") ;;;
  let* pa := on_mem alloc_page in
  check (pa =? 0) (Kill "uvmalloc mem alloc falied" (-1)) ;;;
  on_mem (memset_words 512 pa 0) ;;;
  let* x := on_kern (get_proc p) in
  on_mem (user_vm_map (pagetable x) elf_va PGSIZE pa
            (prot_to_type (PROT_WRITE .| PROT_READ .| PROT_EXEC) 1)) ;;;
  ret pa.

(** The first entry of [mapped_info] whose [va] is 0, or the one behind the last. *)
Fixpoint seek_region (n : nat) (mi j : Z) : M pstate Z :=
  match n with
  | O => ret j
  | S n' => let* va := load (region mi j) in if va =? 0 then ret j else seek_region n' mi (j + 1)
  end.

Definition record_region (p : nat) (va flags : Z) : SM unit :=
  let* x := on_kern (get_proc p) in
  let mi := mapped_info x in
  let* j := on_mem (seek_region 256 mi 0) in
  on_mem (store (region mi j) va) ;;;
  on_mem (store32 (region mi j + 8) 1) ;;;
  (if flags =? (SEGMENT_READABLE .| SEGMENT_EXECUTABLE) then on_mem (store32 (region mi j + 12) CODE_SEGMENT)
   else if flags =? (SEGMENT_READABLE .| SEGMENT_WRITABLE) then on_mem (store32 (region mi j + 12) DATA_SEGMENT)
   else halt (Kill "unknown program segment encountered, segment flag:%d." (i32 flags))) ;;;
  on_kern (upd_proc p (fun x => set_total_mapped_region (total_mapped_region x + 1) x)).

(** A segment: [None] when it was loaded. The whole [memsz] bytes are read. *)
Definition load_segment (p : nat) (ph : elf_prog_header) (f : VfsData.file) : SM (option elf_status * VfsData.file) :=
  if p_memsz ph <? p_filesz ph then ret (Some EL_ERR, f) else
  if u64 (p_vaddr ph + p_memsz ph) <? p_vaddr ph then ret (Some EL_ERR, f) else
  let* dest := elf_alloc_mb p (p_vaddr ph) (p_memsz ph) in
  let* '(r, l, f) := elf_fpread f (p_memsz ph) (p_off ph) in
  on_mem (store_bytes dest l) ;;;
  if negb (u64 r =? p_memsz ph) then ret (Some EL_EIO, f) else
  record_region p (p_vaddr ph) (p_flags ph) ;;;
  ret (None, f).

(** The loop over [n] program headers from the [int] offset [off]; [b] holds the
    bytes of [ph_addr]. *)
Fixpoint load_segments (n : nat) (p : nat) (off : Z) (b : list Z) (f : VfsData.file)
  : SM (elf_status * VfsData.file) :=
  match n with
  | O => ret (EL_OK, f)
  | S n' =>
      let* '(r, l, f) := elf_fpread f (Z.of_nat sizeof_phdr) (u64 off) in
      let* b := into_local sizeof_phdr b l in
      if negb (u64 r =? Z.of_nat sizeof_phdr) then ret (EL_EIO, f) else
      let ph := phdr_of b in
      let next := i32 (off + Z.of_nat sizeof_phdr) in
      if negb (p_type ph =? ELF_PROG_LOAD) then load_segments n' p next b f else
      let* '(o, f) := load_segment p ph f in
      match o with
      | Some e => ret (e, f)
      | None => load_segments n' p next b f
      end
  end.

Definition elf_load (tp p : nat) (f : VfsData.file) : SM (elf_status * VfsData.file) :=
  let* h := ehdr tp in
  let* b := stack_bytes sizeof_phdr in
  load_segments (Z.to_nat (phnum h)) p (i32 (phoff h)) b f.

(** ** The line table *)

(** Bytes read into a static buffer. *)
Definition into_static (a : Z) (l : list Z) : SM unit := on_statics (modify (fun m => put m a l)).

(** The loop that looks for ".debug_line" from section [i] on: its header, or
    [Some None] when a header cannot be read. *)
Fixpoint find_debug_line (n : nat) (tp : nat) (i : Z) (f : VfsData.file)
  : SM (option (option (list Z)) * VfsData.file) :=
  match n with
  | O => ret (None, f)
  | S n' =>
      let* b := stack_bytes sizeof_shdr in
      let* h := ehdr tp in
      let* '(r, l, f) := elf_fpread f (Z.of_nat sizeof_shdr) (u64 (shoff h + i * Z.of_nat sizeof_shdr)) in
      let* b := into_local sizeof_shdr b l in
      if negb (u64 r =? Z.of_nat sizeof_shdr) then ret (Some None, f) else
      let* m := on_statics get in
      if strcmp_lit m (shstrtab_buf + sh_name (shdr_of b)) s_debug_line =? 0 then ret (Some (Some b), f)
      else find_debug_line n' tp (i + 1) f
  end.

Definition load_debug_line (tp p : nat) (f : VfsData.file) : SM (elf_status * VfsData.file) :=
  let* h := ehdr tp in
  let* b := stack_bytes sizeof_shdr in
  let* '(r, l, f) := elf_fpread f (Z.of_nat sizeof_shdr) (u64 (shoff h + shstrndx h * Z.of_nat sizeof_shdr)) in
  let* b := into_local sizeof_shdr b l in
  if negb (u64 r =? Z.of_nat sizeof_shdr) then ret (EL_ERR, f) else
  let shstr_hdr := shdr_of b in
  if MAX_SHSTRTAB_SIZE <? sh_size shstr_hdr then ret (EL_ERR, f) else
  let* '(r, l, f) := elf_fpread f (sh_size shstr_hdr) (sh_offset shstr_hdr) in
  into_static shstrtab_buf l ;;;
  if negb (u64 r =? sh_size shstr_hdr) then ret (EL_ERR, f) else
  let* uninit := stack_bytes sizeof_shdr in
  let* '(o, f) := find_debug_line (Z.to_nat (shnum h)) tp 0 f in
  match o with
  | Some None => ret (EL_ERR, f)
  | _ =>
      let debug_hdr := shdr_of (match o with Some (Some b) => b | _ => uninit end) in
      if MAX_DEBUG_LINE_SIZE <? sh_size debug_hdr then ret (EL_ERR, f) else
      let* '(r, l, f) := elf_fpread f (sh_size debug_hdr) (sh_offset debug_hdr) in
      into_static debug_line_buf l ;;;
      if negb (u64 r =? sh_size debug_hdr) then ret (EL_ERR, f) else
      let* d := on_statics (make_addr_line fuel_line fuel_line debug_line_buf (sh_size debug_hdr)) in
      on_kern (upd_proc p (set_debug d)) ;;;
      ret (EL_OK, f)
  end.

(** ** Loading a program *)

(** What [load_bincode_from_host_elf] and [do_exec] share. *)
Definition load_elf (tp p : nat) (path : list Z) : SM unit :=
  let* f := open_exec tp path in
  let* '(e, f) := elf_init tp f in
  check (negb (bool_decide (e = EL_OK))) (Kill "fail to init elfloader." (-1)) ;;;
  let* '(e, f) := elf_load tp p f in
  check (negb (bool_decide (e = EL_OK))) (Kill "Fail on loading elf." (-1)) ;;;
  let* '(e, f) := load_debug_line tp p f in
  check (negb (bool_decide (e = EL_OK))) (Kill "Fail on loading .debug_line." (-1)) ;;;
  let* h := ehdr tp in
  let* x := on_kern (get_proc p) in
  on_mem (store (trapframe x + TF_epc) (entry h)) ;;;
  let* _ := vfs_close f in
  ret tt.

Definition load_bincode_from_host_elf (tp p : nat) (filename : list Z) : SM unit := load_elf tp p filename.

(** [while (len < MAX_ARGV_LEN - 1 && argv[len] != 0) len++;] *)
Fixpoint argv_len (n : nat) (argv : Z) : M pstate nat :=
  match n with
  | O => ret O
  | S n' => let* c := load8 argv in
            if c =? 0 then ret O else let* k := argv_len n' (argv + 1) in ret (S k)
  end.

Definition copy_argv (argv : Z) : SM (list Z) :=
  let* buf := stack_bytes MAX_ARGV_LEN in
  if argv =? 0 then ret (<[0%nat := 0]> buf) else
  let* len := on_mem (argv_len (MAX_ARGV_LEN - 1) argv) in
  let* l := on_mem (load_bytes (S len) argv) in
  ret (<[(MAX_ARGV_LEN - 1)%nat := 0]> (overlay buf l)).

(** A new page at the top of the heap: its virtual and its physical address. *)
Definition push_heap_page (p : nat) : SM (Z * Z) :=
  let* x := on_kern (get_proc p) in
  let va := heap_top (user_heap x) in
  let* pa := on_mem alloc_page in
  on_kern (upd_proc p (fun x => set_user_heap (set_heap_top (u64 (va + PGSIZE)) (user_heap x)) x)) ;;;
  on_mem (bump_npages (mapped_info x)) ;;;
  ret (va, pa).

Definition map_heap_page (p : nat) (va pa : Z) : SM unit :=
  let* x := on_kern (get_proc p) in
  on_mem (user_vm_map (pagetable x) va PGSIZE pa (prot_to_type (PROT_WRITE .| PROT_READ) 1)).

Definition do_exec (tp p : nat) (path : list Z) (argv : Z) : SM Z :=
  let* argv_buf := copy_argv argv in
  let* s := get in
  on_kern (clr_proc tp (vfs_root_dentry s) p) ;;;
  load_elf tp p path ;;;
  let* '(va, pa) := push_heap_page p in
  map_heap_page p va pa ;;;
  let* x := on_kern (get_proc p) in
  on_mem (store (trapframe x + TF_a 0) 1) ;;;
  on_mem (store (trapframe x + TF_a 1) va) ;;;
  on_mem (store (trapframe x + TF_tp) (Z.of_nat tp)) ;;;
  let* '(va_str, pa_str) := push_heap_page p in
  on_mem (memset_words 512 pa_str 0) ;;;
  on_mem (store_bytes pa_str argv_buf) ;;;
  map_heap_page p va_str pa_str ;;;
  on_mem (store pa va_str) ;;;
  ret 0.

(** ** The function that contains an address *)

(** Entry [i] of an array of structures of [n] bytes at [a]. *)
Definition entry_at (m : bmem) (a : Z) (n : nat) (i : Z) : list Z := bytes_from m n (a + Z.of_nat n * i).

(** [&shdr_buf[i]] of the last section of each name; the addresses. *)
Fixpoint find_tables (n : nat) (i : Z) (m : bmem) (symtab strtab : option Z) : option Z * option Z :=
  match n with
  | O => (symtab, strtab)
  | S n' =>
      let name := ffn_shstrtab_buf + sh_name (shdr_of (entry_at m shdr_buf sizeof_shdr i)) in
      if strcmp_lit m name s_symtab =? 0 then find_tables n' (i + 1) m (Some i) strtab
      else if strcmp_lit m name s_strtab =? 0 then find_tables n' (i + 1) m symtab (Some i)
      else find_tables n' (i + 1) m symtab strtab
  end.

(** [if (!best_match || sym->st_value > best_match->st_value)] *)
Definition better (x : Elf64_Sym) (best : option Elf64_Sym) : option Elf64_Sym :=
  match best with
  | None => Some x
  | Some y => if st_value y <? st_value x then Some x else best
  end.

Definition match_symbol (ra : Z) (best : option Elf64_Sym) (x : Elf64_Sym) : option Elf64_Sym :=
  if negb (ELF64_ST_TYPE (st_info x) =? STT_FUNC) then best
  else if st_value x =? 0 then best
  else if st_value x <=? ra then
    if st_size x =? 0 then (if st_value x =? ra then better x best else best)
    else if ra <? u64 (st_value x + st_size x) then better x best else best
  else best.

(** The loop over the [n] symbols. *)
Definition best_symbol (n : nat) (ra : Z) (m : bmem) : option Elf64_Sym :=
  fold_left (match_symbol ra) ((fun i => sym_of (entry_at m symtab_buf sizeof_sym (Z.of_nat i))) <$> seq 0 n) None.

(** The loop that copies the name, at most [n] bytes, and terminates it. *)
Fixpoint copy_name (n : nat) (src dest : Z) (m : bmem) : bmem :=
  match n with
  | O => upd m dest 0
  | S n' => if m src =? 0 then upd m dest 0 else copy_name n' (src + 1) (dest + 1) (upd m dest (m src))
  end.

(** Reading a table into a static buffer: [false] when it is not read in full. *)
Definition read_table (f : VfsData.file) (buf nb offset : Z) : SM (bool * VfsData.file) :=
  let* '(r, l, f) := elf_fpread f nb offset in
  into_static buf l ;;;
  ret (r =? nb, f).

(** [find_func_name] between opening and closing the file; 0 is NULL. *)
Definition lookup_func_name (f : VfsData.file) (ra : Z) : SM (Z * VfsData.file) :=
  let* b := stack_bytes sizeof_ehdr in
  let* '(r, l, f) := elf_fpread f (Z.of_nat sizeof_ehdr) 0 in
  let* b := into_local sizeof_ehdr b l in
  if negb (u64 r =? Z.of_nat sizeof_ehdr) then ret (0, f) else
  let h := ehdr_of b in
  if negb (magic h =? ELF_MAGIC) then ret (0, f) else
  if MAX_SECTIONS <? shnum h then ret (0, f) else
  let* '(ok, f) := read_table f shdr_buf (shnum h * Z.of_nat sizeof_shdr) (shoff h) in
  if negb ok then ret (0, f) else
  let* m := on_statics get in
  let shstrtab := shdr_of (entry_at m shdr_buf sizeof_shdr (shstrndx h)) in
  if MAX_STRTAB_SIZE <? sh_size shstrtab then ret (0, f) else
  let* '(ok, f) := read_table f ffn_shstrtab_buf (sh_size shstrtab) (sh_offset shstrtab) in
  if negb ok then ret (0, f) else
  let* m := on_statics get in
  match find_tables (Z.to_nat (shnum h)) 0 m None None with
  | (Some i, Some j) =>
      let symtab := shdr_of (entry_at m shdr_buf sizeof_shdr i) in
      let strtab := shdr_of (entry_at m shdr_buf sizeof_shdr j) in
      if (MAX_STRTAB_SIZE <? sh_size strtab) || (MAX_SYMTAB_SIZE <? sh_size symtab) then ret (0, f) else
      let* '(ok, f) := read_table f strtab_buf (sh_size strtab) (sh_offset strtab) in
      if negb ok then ret (0, f) else
      let num_symbols := sh_size symtab / Z.of_nat sizeof_sym in
      if MAX_SYMTAB_SIZE / Z.of_nat sizeof_sym <? num_symbols then ret (0, f) else
      let* '(ok, f) := read_table f symtab_buf (sh_size symtab) (sh_offset symtab) in
      if negb ok then ret (0, f) else
      let* m := on_statics get in
      match best_symbol (Z.to_nat num_symbols) ra m with
      | Some x => on_statics (modify (copy_name 255 (strtab_buf + st_name x) func_name_buf)) ;;; ret (func_name_buf, f)
      | None => ret (0, f)
      end
  | _ => ret (0, f)
  end.

Definition find_func_name (tp : nat) (path : list Z) (return_address : Z) : SM Z :=
  let* c := cwd_of tp in
  let* o := vfs_open c path O_RDONLY in
  match o with
  | None => ret 0
  | Some f =>
      let* '(r, f) := lookup_func_name f return_address in
      let* _ := vfs_close f in
      ret r
  end.
End Elf.
