(* ===== verification/ElfLoad.v ===== *)
(** * Loading a segment: from the file on the host to the address space

    [HostFiles] states what the loader needs of the host: an open file has
    contents and a position, which [lseek] sets and [read] advances.  On such a
    file [elf_fpread] delivers the bytes of the file, and [load_segment] maps a
    fresh frame that holds them. *)
From S2P Require Import Prelude Pmm Vmm Process Sched Fork Cow Heap Pages HashTable CString Bytes DebugLine.
From S2P Require Import VfsData Rfs RfsDisk RfsFile RfsDir Vfs VfsRefs ProcFile SpikeFile Hostfs Machine Elf.

Definition slice (off nb : Z) (l : list Z) : list Z := take (Z.to_nat nb) (drop (Z.to_nat off) l).

Lemma length_slice off nb l :
  0 <= off -> 0 <= nb -> off + nb <= Z.of_nat (length l) -> length (slice off nb l) = Z.to_nat nb.
Proof. intros. unfold slice. rewrite length_take, length_drop. lia. Qed.

(** [at_pos h fd img pos]: descriptor [fd] is a file with contents [img] at position [pos]. *)
Class HostFiles (H : Type) `{Frontend H} : Type := {
  at_pos : H -> Z -> list Z -> Z -> Prop;
  host_seek h fd img pos off :
    at_pos h fd img pos -> 0 <= off <= Z.of_nat (length img) ->
    exists h', host_lseek fd off SEEK_SET h = (off, h') /\ at_pos h' fd img off;
  host_tell h fd img pos :
    at_pos h fd img pos -> exists h', host_lseek fd 0 SEEK_CUR h = (pos, h') /\ at_pos h' fd img pos;
  host_reads h fd img pos nb :
    at_pos h fd img pos -> 0 <= pos -> 0 <= nb -> pos + nb <= Z.of_nat (length img) ->
    exists h', host_read fd nb h = (nb, slice pos nb img, h') /\ at_pos h' fd img (pos + nb)
}.

(** ** Stores into one page *)

(** Words outside page [q] are those of [m]. *)
Definition within (q : Z) (m m' : gmap Z Z) : Prop := forall a, a mod 8 = 0 -> ~ in_page a q -> rd m' a = rd m a.

Lemma within_trans q m m1 m2 : within q m m1 -> within q m1 m2 -> within q m m2.
Proof. intros W1 W2 a Ha Hq. by rewrite W2, W1. Qed.

Lemma within_insert q a v m : in_page a q -> within q m (<[a := v]> m).
Proof. intros Ha b _ Hb. apply rd_insert_ne. by intros ->. Qed.

Lemma within_fill q m : within q m (fill 512 q 0 m).
Proof. intros a Ha Hq. apply rd_fill_out. unfold in_page in Hq. klia. Qed.

(** Such stores concern neither the free list nor the tables. *)
Lemma vm_inv_within s l root q m :
  vm_inv s l root -> q mod PGSIZE = 0 -> q ∉ l -> ~ tables_of (mem s) root q -> within q (mem s) m ->
  vm_inv (set_mem m s) l root /\ tables_agree (mem s) m root.
Proof.
  intros Hi Hq Hql Hqt Hw.
  assert (Hag : tables_agree (mem s) m root).
  { intros π t k Hok Ht Hk. pose proof (pt_page _ _ (vm_pt _ _ _ Hi) π t Hok Ht) as (Ha & _).
    apply Hw; [destruct Hk; klia|]. intros Hin. apply Hqt. exists π. split; [done|].
    by rewrite <- (page_neq_in_page t q (t + 8 * k)) by (done || by apply slot_in_page). }
  split; [|done]. eapply agree_vm_inv; [exact Hi|exact Hag| |by left].
  apply pmm_inv_set_mem; [apply Hi|]. intros x Hx.
  pose proof (proj1 (inv_free _ _ (vm_pmm _ _ _ Hi) x) Hx) as [(Hxa & _) _].
  apply Hw; [klia|]. intros Hin. apply Hql.
  by rewrite <- (page_neq_in_page x q x) by (done || unfold in_page; klia).
Qed.

(** ** A fresh frame in an address space *)

Definition PROT_RWX : Z := PROT_WRITE .| PROT_READ .| PROT_EXEC.
Definition user_rwx (pa : Z) : Z := PA2PTE pa .| prot_to_type PROT_RWX 1 .| PTE_V.

Section Frame.
Context (s : pstate) (q : Z) (l : list Z) (root va : Z).
Hypothesis Hi : vm_inv s (q :: l) root.
Hypothesis Hlen : (2 <= length l)%nat.
Hypothesis Ha : va mod PGSIZE = 0.
Hypothesis Hva : 0 <= va.
Hypothesis Hmax : va + PGSIZE <= MAXVA.
Hypothesis Hun : xlate (mem s) root va = None.

Lemma fresh_page : managed s q /\ q ∉ l /\ ~ tables_of (mem s) root q /\ table_page q.
Proof.
  pose proof (vm_pmm _ _ _ Hi) as Hpm. assert (Hin : q ∈ q :: l) by by left.
  pose proof (proj1 (inv_free _ _ Hpm q) Hin) as [Hqm _]. split; [done|]. split; [|split].
  - pose proof (inv_nodup _ _ Hpm) as Hn. by apply list.NoDup_cons in Hn as [? _].
  - intros (π & Hok & Ht). by apply (vm_sep _ _ _ Hi π q Hok Ht).
  - eapply managed_table; [apply Hpm|done].
Qed.

(** [alloc_page], [memset] and [user_vm_map] in turn: [q] is mapped at [va],
    is full of zeros, and is neither free nor a table; memory outside the tables
    and the pages that were free is as before. *)
Lemma map_zeroed :
  exists t l', memset_words 512 q 0 (alloc_result s q) = Ret tt (set_mem (fill 512 q 0 (mem s)) (alloc_result s q)) /\
    user_vm_map root va PGSIZE q (prot_to_type PROT_RWX 1) (set_mem (fill 512 q 0 (mem s)) (alloc_result s q)) = Ret tt t /\
    vm_inv t l' root /\ (exists k, l = k ++ l') /\ (length l <= length l' + 2)%nat /\ ~ tables_of (mem t) root q /\
    (forall π u, path_ok π -> tbl (mem t) root π = Some u -> tbl (mem s) root π = Some u \/ u ∈ l) /\
    (forall a, a mod 8 = 0 -> in_page a q -> rd (mem t) a = 0) /\
    (forall a, a mod 8 = 0 -> (forall p, p ∈ q :: l -> ~ in_page a p) -> (forall u, tables_of (mem s) root u -> ~ in_page a u) ->
       rd (mem t) a = rd (mem s) a) /\
    (forall x, 0 <= x < MAXVA -> xlate (mem t) root x =
       if decide (x / PGSIZE = va / PGSIZE) then Some (user_rwx q) else xlate (mem s) root x).
Proof.
  destruct fresh_page as (Hqm & Hql & Hqt & Hqa & Hq0 & Hq1).
  pose proof (vm_pmm _ _ _ Hi) as Hpm.
  assert (Hi1 : vm_inv (alloc_result s q) l root).
  { eapply vm_inv_counts; [exact Hi|done|by apply (alloc_result_inv _ (q :: l))|]. by right. }
  set (m2 := fill 512 q 0 (mem s)). set (s2 := set_mem m2 (alloc_result s q)).
  destruct (vm_inv_within (alloc_result s q) l root q m2 Hi1 Hqa Hql Hqt (within_fill q (mem s))) as [Hi2 Hag2].
  fold s2 in Hi2. cbn [alloc_result mem] in Hag2.
  destruct (map_one s2 l root va q (prot_to_type PROT_RWX 1) Hi2 Ha Hva Hmax) as (t & l' & E & F & Hl' & X).
  { klia. } { done. } { etransitivity; [by apply agree_xlate|exact Hun]. }
  assert (Htb : forall π u, path_ok π -> tbl m2 root π = Some u -> tbl (mem s) root π = Some u)
    by (intros π u Hok Hu; by rewrite (agree_tbl (mem s) m2 root Hag2) in Hu).
  assert (Hnew : forall π u, path_ok π -> tbl (mem t) root π = Some u -> tbl (mem s) root π = Some u \/ u ∈ l).
  { intros π u Hok Hu. destruct (vf_new _ _ _ _ _ F π u Hok Hu) as [Hu'|Hu']; [left|by right]. by apply Htb. }
  exists t, l'. split; [|split; [exact E|split; [apply F|split; [apply F|split; [done|split; [|split; [done|split; [|split]]]]]]]].
  - rewrite memset_words_run; [done|]. intros i Hi'. unfold addr_ok. rewrite !andb_true_iff, !Z.leb_le, Z.eqb_eq. klia.
  - intros (π & Hok & Hu). destruct (Hnew π q Hok Hu); [|done]. apply Hqt. by exists π.
  - intros a Ha8 Hin. rewrite (vf_mem _ _ _ _ _ F a).
    + cbn [s2 mem set_mem]. replace a with (q + 8 * ((a - q) / 8)) by (unfold in_page in Hin; klia).
      apply rd_fill_in. unfold in_page in Hin. klia.
    + intros p Hp Hin'. apply Hql. pose proof (proj1 (inv_free _ _ Hpm p) ltac:(by right)) as [(Hpa & _) _].
      by rewrite <- (page_neq_in_page p q a).
    + intros π u Hok Hu Hin'. apply Hqt. exists π. split; [done|]. apply Htb in Hu; [|done].
      rewrite <- (page_neq_in_page u q a); [done| |done|done|done]. by apply (pt_page _ _ (vm_pt _ _ _ Hi) π u Hok Hu).
  - intros a Ha8 Hf Ht. rewrite (vf_mem _ _ _ _ _ F a).
    + cbn [s2 mem set_mem]. apply within_fill; [done|]. apply Hf. by left.
    + intros p Hp. apply Hf. by right.
    + intros π u Hok Hu. apply Ht. exists π. split; [done|]. by apply Htb.
  - intros x Hx. rewrite X by done. case_decide; [done|]. by apply agree_xlate.
Qed.
End Frame.

(** The bytes of a segment in a page of zeros. *)
Lemma fill_page t q bs :
  table_page q -> Forall is_byte bs -> (length bs <= 4096)%nat ->
  (forall a, a mod 8 = 0 -> in_page a q -> rd (mem t) a = 0) ->
  exists m, store_bytes q bs t = Ret tt (set_mem m t) /\ within q (mem t) m /\
    bytes_from (view m) 4096 q = bs ++ replicate (4096 - length bs) 0.
Proof.
  intros (Hqa & Hq0 & Hq1) Hb Hlen Hz.
  destruct (store_bytes_run bs q t) as (m & E & Hv & Hr); [split; klia|].
  exists m. split; [done|]. split; [intros a Ha Hq; apply Hr; [done|]; unfold in_page in Hq; klia|].
  replace 4096%nat with (length bs + (4096 - length bs))%nat at 1 by lia. rewrite bytes_from_app. f_equal.
  - rewrite (bytes_from_ext (put (view (mem t)) q bs)) by (intros; apply Hv). by apply bytes_from_put.
  - assert (Hw : forall n a, q + Z.of_nat (length bs) <= a -> a + Z.of_nat n <= q + 4096 -> bytes_from (view m) n a = replicate n 0).
    { induction n as [|n IH]; intros a Hlo Hhi; cbn [bytes_from replicate]; [done|]. rewrite IH by lia. f_equal.
      rewrite Hv. unfold put. rewrite (proj2 (Z.ltb_ge a _)), andb_false_r by lia.
      unfold view. rewrite Hz; [done|unfold word_of; klia|unfold in_page, word_of; klia]. }
    apply Hw; lia.
Qed.

(** ** The table of regions *)

Lemma seek_region_run n mi i j t :
  table_page mi -> 0 <= i <= j -> j < i + Z.of_nat n -> j < 256 ->
  (forall k, i <= k < j -> rd (mem t) (region mi k) <> 0) -> rd (mem t) (region mi j) = 0 ->
  seek_region n mi i t = Ret j t.
Proof.
  intros Hmi. revert i. induction n as [|n IH]; intros i Hi Hn Hj Hnz Hz; [lia|]. cbn [seek_region].
  assert (Hok : addr_ok (region mi i) = true).
  { unfold addr_ok, region. destruct Hmi as (? & ? & ?). rewrite !andb_true_iff, !Z.leb_le, Z.eqb_eq. klia. }
  rewrite (bind_Ret _ _ t (rd (mem t) (region mi i)) t) by (unfold load; by rewrite Hok).
  destruct (decide (i = j)) as [->|Hne].
  - by rewrite Hz.
  - rewrite (proj2 (Z.eqb_neq _ 0)) by (apply Hnz; lia). apply IH; [lia|lia|lia| |done]. intros. apply Hnz. lia.
Qed.

(** The stores that enter a region: [va], one page, its type. *)
Lemma enter_region_run mi j va seg t :
  table_page mi -> 0 <= j < 256 -> 0 <= seg < 4294967296 ->
  exists m0 m1 m2, store (region mi j) va t = Ret tt (set_mem m0 t) /\
    store32 (region mi j + 8) 1 (set_mem m0 t) = Ret tt (set_mem m1 t) /\
    store32 (region mi j + 12) seg (set_mem m1 t) = Ret tt (set_mem m2 t) /\
    rd m2 (region mi j) = va /\ rd m2 (region mi j + 8) = seg * 4294967296 + 1 /\
    (forall a, a <> region mi j -> a <> region mi j + 8 -> rd m2 a = rd (mem t) a).
Proof.
  intros (Ha & H0 & H1) Hj Hseg. set (r := region mi j).
  assert (Hr : r mod 8 = 0 /\ DRAM_BASE <= r /\ r + 16 <= PHYS_TOP) by (unfold r, region; klia).
  assert (Hok : addr_ok r = true) by (unfold addr_ok; rewrite !andb_true_iff, !Z.leb_le, Z.eqb_eq; lia).
  assert (Hok8 : addr_ok (r + 8) = true) by (unfold addr_ok; rewrite !andb_true_iff, !Z.leb_le, Z.eqb_eq; klia).
  eexists _, _, _. split; [unfold store; by rewrite Hok|].
  split; [|split].
  - unfold store32. replace ((r + 8) mod 8 =? 0) with true by klia.
    unfold bind, load. rewrite Hok8. unfold store. by rewrite Hok8.
  - unfold store32. replace ((r + 12) mod 8 =? 0) with false by klia. replace (r + 12 - 4) with (r + 8) by lia.
    unfold bind, load. rewrite Hok8. unfold store. by rewrite Hok8.
  - cbn [mem set_mem]. rewrite !rd_insert_eq. split; [|split].
    + rewrite !rd_insert_ne by lia. apply rd_insert_eq.
    + klia.
    + intros a Hn0 Hn8. by rewrite !rd_insert_ne by lia.
Qed.

(** Run the first step of a computation by the equation [E]. *)
Ltac run E := rewrite ?bind_assoc; rewrite (bind_Ret _ _ _ _ _ E); rewrite ?bind_ret_l.

Section ElfLoad.
Context {H : Type} `{HF : HostFiles H} `{Linker} `{Buffers}.
#[local] Notation SM := (M (sys H)).

(** ** Parts of the state *)

Definition pmem (s : sys H) : pstate := pm (kern (fpages s)).
Definition set_pmem (p : pstate) (s : sys H) : sys H :=
  set_fpages (set_kern (set_pm p (kern (fpages s))) (fpages s)) s.
Definition set_khost (h : H) (s : sys H) : sys H :=
  set_fpages (set_spk (set_host h (spk (fpages s))) (fpages s)) s.

Lemma set_pmem_twice p p' s : set_pmem p (set_pmem p' s) = set_pmem p s.
Proof. by destruct s as [[[]] ? ? ? ? ? ? ? ? ? ? ? ?]. Qed.
Lemma set_pmem_khost p h s : set_pmem p (set_khost h s) = set_khost h (set_pmem p s).
Proof. by destruct s as [[[]] ? ? ? ? ? ? ? ? ? ? ? ?]. Qed.
Lemma pmem_set_pmem p s : pmem (set_pmem p s) = p.
Proof. done. Qed.
Lemma pmem_set_khost h s : pmem (set_khost h s) = pmem s.
Proof. done. Qed.

Lemma on_mem_run {A} (c : M pstate A) (s : sys H) t a p :
  pmem s = t -> c t = Ret a p -> on_mem c s = Ret a (set_pmem p s).
Proof. intros <- E. unfold on_mem, on_kern, on_machine, on_pm, zoom, pmem in *. by rewrite E. Qed.

Lemma on_kern_run {A} (c : M kstate A) (s : sys H) a :
  c (kern (fpages s)) = Ret a (kern (fpages s)) -> on_kern c s = Ret a s.
Proof. intros E. unfold on_kern, on_machine, zoom. rewrite E. by destruct s as [[]]. Qed.

Lemma sys_get_proc_run p x (s : sys H) : procs (kern (fpages s)) !! p = Some x -> on_kern (get_proc p) s = Ret x s.
Proof. intros E. apply on_kern_run. unfold get_proc. by rewrite E. Qed.

Definition set_proc (p : nat) (y : process) (s : sys H) : sys H :=
  set_fpages (set_kern (set_procs (<[p := y]> (procs (kern (fpages s)))) (kern (fpages s))) (fpages s)) s.

Lemma sys_upd_proc_run p x g (s : sys H) :
  procs (kern (fpages s)) !! p = Some x -> on_kern (upd_proc p g) s = Ret tt (set_proc p (g x) s).
Proof. intros E. unfold on_kern, on_machine, zoom, upd_proc. by rewrite E. Qed.

Lemma on_mem_pmem {A} (c : M pstate A) (s : sys H) t a p :
  c t = Ret a p -> on_mem c (set_pmem t s) = Ret a (set_pmem p s).
Proof. intros E. rewrite (on_mem_run c (set_pmem t s) t a p eq_refl E). by rewrite set_pmem_twice. Qed.

Lemma on_mem_khost {A} (c : M pstate A) (s : sys H) h t a p :
  c t = Ret a p -> on_mem c (set_khost h (set_pmem t s)) = Ret a (set_khost h (set_pmem p s)).
Proof. intros E. rewrite (on_mem_run c (set_khost h (set_pmem t s)) t a p eq_refl E). by rewrite set_pmem_khost, set_pmem_twice. Qed.

(** ** A file of the host that is open for reading *)

Definition file_open (s : sys H) (f : VfsData.file) (fd : Z) (img : list Z) : Prop :=
  exists x n e pos, readable f <> 0 /\ dentries s !! f_dentry f = Some x /\ vinodes s !! dentry_inode x = Some n /\
    vtype n = FILE_I /\ i_ops n = HOSTFS /\ 0 < i_fs_info n /\
    spike_files (spk (fpages s)) !! Z.to_nat (i_fs_info n - 1) = Some e /\ kfd e = fd /\
    at_pos (host (spk (fpages s))) fd img pos.

Lemma file_open_pmem s f fd img p : file_open s f fd img -> file_open (set_pmem p s) f fd img.
Proof. done. Qed.

Lemma on_spike_call {A} (s : sys H) pf e (g : Z -> H -> A * H) a h :
  0 < pf -> spike_files (spk (fpages s)) !! Z.to_nat (pf - 1) = Some e ->
  g (kfd e) (host (spk (fpages s))) = (a, h) ->
  on_spike (let* x := get_file pf in call (g (kfd x))) s = Ret a (set_khost h s).
Proof.
  intros Hp He Hg. rewrite (on_spike_run _ s a (set_host h (spk (fpages s)))); [done|].
  unfold bind, get_file, call. cbn [spike_of machine_host]. rewrite (proj2 (Z.leb_gt pf 0)) by lia.
  rewrite He, Hg. done.
Qed.

Lemma elf_fpread_run s f fd img nb off :
  file_open s f fd img -> 0 <= off -> 0 <= nb -> off + nb <= Z.of_nat (length img) ->
  Z.of_nat (length img) < 2147483648 ->
  exists f' h, elf_fpread f nb off s = Ret (nb, slice off nb img, f') (set_khost h s) /\
    file_open (set_khost h s) f' fd img.
Proof.
  intros (x & n & e & pos & Hr & Hx & Hn & Ht & Ho & Hp & He & Hk & Hat) Hoff Hnb Hle Hmax.
  destruct (host_seek _ _ _ _ off Hat ltac:(lia)) as (h1 & E1 & Hat1).
  destruct (host_reads _ _ _ _ nb Hat1 Hoff Hnb Hle) as (h2 & E2 & Hat2).
  destruct (host_tell _ _ _ _ Hat2) as (h3 & E3 & Hat3).
  exists (set_f_offset (off + nb) (set_f_offset off f)), h3. split.
  - unfold elf_fpread, vfs_lseek, inode_of.
    assert (Hobj : forall s' : sys H, dentries s' = dentries s -> get_dentry (f_dentry f) s' = Ret x s')
      by (intros s' Es; unfold get_dentry, obj; by rewrite Es, Hx).
    assert (Hino : forall s' : sys H, vinodes s' = vinodes s -> get_vinode (dentry_inode x) s' = Ret n s')
      by (intros s' Es; unfold get_vinode, obj; by rewrite Es, Hn).
    run (Hobj s eq_refl). run (Hino s eq_refl). rewrite Ht, Ho. change (negb (FILE_I =? FILE_I)) with false. cbv iota.
    cbn [ops_of machine_fs kernel_fs viop_lseek hostfs_i_ops]. unfold hostfs_lseek.
    run (Hino s eq_refl). subst fd.
    run (on_spike_call s (i_fs_info n) e (fun k => host_lseek k off SEEK_SET) off h1 Hp He E1).
    rewrite i32_small, (proj2 (Z.leb_le 0 off)) by lia. cbn [negb Z.eqb].
    rewrite ?bind_ret_l. unfold vfs_read. cbn [readable set_f_offset f_offset].
    rewrite (proj2 (Z.eqb_neq (readable f) 0)) by done. unfold inode_of. cbn [f_dentry].
    set (s1 := set_khost h1 s). run (Hobj s1 eq_refl). run (Hino s1 eq_refl). rewrite Ht, Ho.
    change (negb (FILE_I =? FILE_I)) with false. cbv iota. cbn [ops_of machine_fs kernel_fs viop_read hostfs_i_ops].
    unfold hostfs_read. run (Hino s1 eq_refl).
    run (on_spike_call s1 (i_fs_info n) e (fun k => host_read k nb) (nb, slice off nb img) h2 Hp He E2).
    set (s2 := set_khost h2 s1).
    run (on_spike_call s2 (i_fs_info n) e (fun k => host_lseek k 0 SEEK_CUR) (off + nb) h3 Hp He E3).
    rewrite !i32_small by lia. reflexivity.
  - exists x, n, e, (off + nb). cbn. done.
Qed.
(** ** Segments *)

Record segment_ok (ph : elf_prog_header) (img : list Z) : Prop := {
  so_size : 0 <= p_filesz ph <= p_memsz ph /\ p_memsz ph < PGSIZE;
  so_off : 0 <= p_off ph /\ p_off ph + p_memsz ph <= Z.of_nat (length img);
  so_va : 0 < p_vaddr ph /\ p_vaddr ph mod PGSIZE = 0 /\ p_vaddr ph + PGSIZE <= MAXVA;
  so_flags : p_flags ph = (SEGMENT_READABLE .| SEGMENT_EXECUTABLE) \/ p_flags ph = (SEGMENT_READABLE .| SEGMENT_WRITABLE)
}.

Definition seg_type (ph : elf_prog_header) : Z :=
  if p_flags ph =? (SEGMENT_READABLE .| SEGMENT_EXECUTABLE) then CODE_SEGMENT else DATA_SEGMENT.

(** Process [p] with free pages [l], [j] regions, and the pages [own], its region
    table among them, that are neither free nor tables. *)
Record ready (s : sys H) (p : nat) (x : process) (l : list Z) (j : Z) (own : Z -> Prop) : Prop := {
  re_proc : procs (kern (fpages s)) !! p = Some x;
  re_vm : vm_inv (pmem s) l (pagetable x);
  re_own : forall o, own o -> table_page o /\ o ∉ l /\ ~ tables_of (mem (pmem s)) (pagetable x) o;
  re_mi : own (mapped_info x);
  re_j : 0 <= j <= 256;
  re_used : forall k, 0 <= k < j -> rd (mem (pmem s)) (region (mapped_info x) k) <> 0;
  re_free : forall k, j <= k < 256 -> rd (mem (pmem s)) (region (mapped_info x) k) = 0
}.

Definition one_more (x : process) : process := set_total_mapped_region (total_mapped_region x + 1) x.

(** The segment is mapped to frame [q], which holds its bytes of the file. *)
Definition seg_in (m : gmap Z Z) (root : Z) (img : list Z) (ph : elf_prog_header) (q : Z) : Prop :=
  xlate m root (p_vaddr ph) = Some (user_rwx q) /\
  bytes_from (view m) 4096 q = slice (p_off ph) (p_memsz ph) img ++ replicate (4096 - Z.to_nat (p_memsz ph)) 0.

(** Memory and translations of [s] and [s'] apart from what was added. *)
Record added (s s' : sys H) (x : process) (j : Z) (own : Z -> Prop) (mapped : Z -> Prop) : Prop := {
  ad_own : forall a o, a mod 8 = 0 -> own o -> o <> mapped_info x -> in_page a o -> rd (mem (pmem s')) a = rd (mem (pmem s)) a;
  ad_regions : forall k, 0 <= k < j -> rd (mem (pmem s')) (region (mapped_info x) k) = rd (mem (pmem s)) (region (mapped_info x) k) /\
    rd (mem (pmem s')) (region (mapped_info x) k + 8) = rd (mem (pmem s)) (region (mapped_info x) k + 8);
  ad_xlate : forall va, 0 <= va < MAXVA -> ~ mapped va -> xlate (mem (pmem s')) (pagetable x) va = xlate (mem (pmem s)) (pagetable x) va
}.

(** What the steps of [load_segment] do to physical memory. *)
Lemma segment_memory s p x q l j own ph img :
  ready s p x (q :: l) j own -> (2 <= length l)%nat -> j < 256 -> segment_ok ph img -> Forall is_byte img ->
  xlate (mem (pmem s)) (pagetable x) (p_vaddr ph) = None ->
  let bs := slice (p_off ph) (p_memsz ph) img in
  let root := pagetable x in let mi := mapped_info x in
  exists t l' m4 m5 m6 m7,
    memset_words 512 q 0 (alloc_result (pmem s) q) = Ret tt (set_mem (fill 512 q 0 (mem (pmem s))) (alloc_result (pmem s) q)) /\
    user_vm_map root (p_vaddr ph) PGSIZE q (prot_to_type PROT_RWX 1)
      (set_mem (fill 512 q 0 (mem (pmem s))) (alloc_result (pmem s) q)) = Ret tt t /\
    store_bytes q bs t = Ret tt (set_mem m4 t) /\
    seek_region 256 mi 0 (set_mem m4 t) = Ret j (set_mem m4 t) /\
    store (region mi j) (p_vaddr ph) (set_mem m4 t) = Ret tt (set_mem m5 t) /\
    store32 (region mi j + 8) 1 (set_mem m5 t) = Ret tt (set_mem m6 t) /\
    store32 (region mi j + 12) (seg_type ph) (set_mem m6 t) = Ret tt (set_mem m7 t) /\
    vm_inv (set_mem m7 t) l' root /\ (exists k, l = k ++ l') /\ (length l <= length l' + 2)%nat /\ ~ own q /\
    (forall o, own o \/ o = q -> table_page o /\ o ∉ l' /\ ~ tables_of m7 root o) /\
    seg_in m7 root img ph q /\
    rd m7 (region mi j) = p_vaddr ph /\ rd m7 (region mi j + 8) = seg_type ph * 4294967296 + 1 /\
    (forall a o, a mod 8 = 0 -> own o -> in_page a o -> a <> region mi j -> a <> region mi j + 8 -> rd m7 a = rd (mem (pmem s)) a) /\
    (forall va, 0 <= va < MAXVA -> va / PGSIZE <> p_vaddr ph / PGSIZE -> xlate m7 root va = xlate (mem (pmem s)) root va).
Proof.
  intros [Hp Hvm Hown Hmi Hj Hused Hfree] Hlen Hj' [[Hfs Hms] [Hof0 Hof1] (Hv0 & Hva & Hvm1) Hfl] Hb Hun bs root mi.
  destruct (map_zeroed (pmem s) q l root (p_vaddr ph) Hvm Hlen Hva ltac:(lia) Hvm1 Hun)
    as (t & l' & Ems & Emap & Hvt & Hsuf & Hll & Hqt & Hnew & Hzero & Hframe & Hx).
  destruct (fresh_page (pmem s) q l root Hvm) as (Hqm & Hql & Hqt0 & Hqp).
  assert (Hsub : forall o, o ∈ l' -> o ∈ l) by (destruct Hsuf as [k ->]; intros o Ho; apply elem_of_app; by right).
  assert (Hnq : forall o, own o -> o <> q) by (intros o Ho ->; apply Hown in Ho as (_ & Hq & _); apply Hq; by left).
  assert (Hot : forall o, own o \/ o = q -> table_page o /\ o ∉ l' /\ ~ tables_of (mem t) root o).
  { intros o [Ho| ->]; [|split; [done|split; [auto|done]]]. destruct (Hown o Ho) as (Hop & Hol & Hor). split; [done|].
    split; [intros Hin; apply Hol; right; auto|]. intros (π & Hok & Hu).
    destruct (Hnew π o Hok Hu); [apply Hor; by exists π|apply Hol; by right]. }
  assert (Hkeep : forall a o, a mod 8 = 0 -> own o -> in_page a o -> rd (mem t) a = rd (mem (pmem s)) a).
  { intros a o Ha Ho Hin. destruct (Hown o Ho) as ((Hoa & _) & Hol & Hor). apply Hframe; [done| |].
    - intros r Hr Hin'. apply Hol. pose proof (proj1 (inv_free _ _ (vm_pmm _ _ _ Hvm) r) Hr) as [(Hra & _) _].
      by rewrite (page_neq_in_page o r a).
    - intros u (π & Hok & Hu) Hin'. apply Hor. exists π. split; [done|].
      rewrite (page_neq_in_page o u a); [done|done| |done|done]. by apply (pt_page _ _ (vm_pt _ _ _ Hvm) π u Hok Hu). }
  assert (Hbl : length bs = Z.to_nat (p_memsz ph)) by (apply length_slice; lia).
  destruct (fill_page t q bs Hqp) as (m4 & E4 & W4 & B4); [by apply Forall_take, Forall_drop|rewrite Hbl; klia|done|].
  destruct (vm_inv_within t l' root q m4 Hvt ltac:(apply Hqp) ltac:(auto) Hqt W4) as [Hv4 Hag4].
  destruct (Hown mi Hmi) as (Hmip & Hmil & Hmit). destruct (Hot mi ltac:(auto)) as (_ & Hmil' & Hmit').
  assert (Hmq : mi <> q) by auto.
  assert (Hne : forall a o, table_page o -> in_page a o -> o <> q -> ~ in_page a q).
  { intros a o (Hoa & _) Hin Hoq Hinq. apply Hoq, (page_neq_in_page o q a); [done|apply Hqp|done|done]. }
  assert (Hrk : forall k, 0 <= k < 256 -> rd m4 (region mi k) = rd (mem (pmem s)) (region mi k)).
  { intros k Hk. assert (Hin : in_page (region mi k) mi) by (unfold in_page, region; klia).
    assert (Ha8 : region mi k mod 8 = 0) by (destruct Hmip; unfold region; klia).
    rewrite W4 by (done || by eapply Hne). by apply (Hkeep _ mi). }
  assert (E5 : seek_region 256 mi 0 (set_mem m4 t) = Ret j (set_mem m4 t)).
  { apply seek_region_run; [done|lia|lia|done| |]; cbn [mem set_mem].
    - intros k Hk. rewrite Hrk by lia. by apply Hused.
    - rewrite Hrk by lia. apply Hfree. lia. }
  assert (Hst : 0 <= seg_type ph < 4294967296) by (unfold seg_type; destruct (_ =? _); cbv; split; congruence).
  destruct (enter_region_run mi j (p_vaddr ph) (seg_type ph) (set_mem m4 t) Hmip ltac:(lia) Hst)
    as (m5 & m6 & m7 & E6 & E7 & E8 & R0 & R8 & Rk).
  assert (W7 : within mi m4 m7).
  { intros a Ha Hin. apply Rk; intros ->; apply Hin; unfold in_page, region; klia. }
  destruct (vm_inv_within (set_mem m4 t) l' root mi m7 Hv4) as [Hv7 Hag7]; cbn [mem set_mem]; auto.
  { apply Hmip. }
  { intros (π & Hok & Hu). apply Hmit'. exists π. split; [done|]. by rewrite (agree_tbl (mem t) m4 root Hag4) in Hu. }
  exists t, l', m4, m5, m6, m7.
  refine (conj Ems (conj Emap (conj E4 (conj E5 (conj E6 (conj E7 (conj E8 (conj Hv7 (conj Hsuf (conj Hll
    (conj _ (conj _ (conj _ (conj R0 (conj R8 (conj _ _)))))))))))))))).
  { intros Ho. by apply (Hnq q). }
  { intros o Ho. destruct (Hot o Ho) as (Hop & Hol & Hor). split; [done|]. split; [done|]. intros (π & Hok & Hu). apply Hor.
    exists π. split; [done|]. rewrite (agree_tbl m4 m7 root Hag7), (agree_tbl (mem t) m4 root Hag4) in Hu by done. done. }
  { split.
    - rewrite (agree_xlate m4 m7), (agree_xlate (mem t) m4), Hx by (done || lia). by rewrite decide_True.
    - rewrite <- Hbl. fold bs. rewrite <- B4. apply bytes_from_ext. intros a Ha. unfold view. f_equal.
      apply W7; [unfold word_of; klia|]. intros Hin. apply Hmq. destruct Hmip as (Hma & _), Hqp as (Hqa & _).
      apply (page_neq_in_page mi q (word_of a)); [done|done|done|]. unfold in_page, word_of. klia. }
  { intros a o Ha Ho Hin Hn0 Hn8. rewrite Rk by done. cbn [mem set_mem]. destruct (Hown o Ho) as (Hop & _).
    rewrite W4 by (done || eapply Hne; eauto). by apply (Hkeep a o). }
  { intros va Hvr Hnv. rewrite (agree_xlate m4 m7), (agree_xlate (mem t) m4), Hx by done. by rewrite decide_False. }
Qed.

Lemma elf_alloc_mb_run s p x q l va size t :
  procs (kern (fpages s)) !! p = Some x -> pmm_inv (pmem s) (q :: l) -> size < PGSIZE ->
  memset_words 512 q 0 (alloc_result (pmem s) q) = Ret tt (set_mem (fill 512 q 0 (mem (pmem s))) (alloc_result (pmem s) q)) ->
  user_vm_map (pagetable x) va PGSIZE q (prot_to_type PROT_RWX 1)
      (set_mem (fill 512 q 0 (mem (pmem s))) (alloc_result (pmem s) q)) = Ret tt t ->
  elf_alloc_mb p va size s = Ret q (set_pmem t s).
Proof.
  intros Hp Hpm Hms Ems Emap. unfold elf_alloc_mb. rewrite (proj2 (Z.leb_gt PGSIZE size)) by done. unfold check at 1.
  rewrite bind_ret_l. run (on_mem_run _ s _ _ _ eq_refl (alloc_page_run (pmem s) (q :: l) Hpm q l eq_refl)).
  assert (Hq0 : (q =? 0) = false).
  { apply Z.eqb_neq. eapply managed_nonzero; [apply Hpm|]. apply (inv_free _ _ Hpm q). by left. }
  rewrite Hq0. unfold check. rewrite bind_ret_l. run (on_mem_pmem _ s _ _ _ Ems).
  set (s2 := set_mem _ _) in *. run (sys_get_proc_run p x (set_pmem s2 s) Hp).
  by run (on_mem_pmem _ s _ _ _ Emap).
Qed.

Lemma record_region_run s p x j ph h t m4 m5 m6 m7 :
  procs (kern (fpages s)) !! p = Some x ->
  p_flags ph = (SEGMENT_READABLE .| SEGMENT_EXECUTABLE) \/ p_flags ph = (SEGMENT_READABLE .| SEGMENT_WRITABLE) ->
  seek_region 256 (mapped_info x) 0 (set_mem m4 t) = Ret j (set_mem m4 t) ->
  store (region (mapped_info x) j) (p_vaddr ph) (set_mem m4 t) = Ret tt (set_mem m5 t) ->
  store32 (region (mapped_info x) j + 8) 1 (set_mem m5 t) = Ret tt (set_mem m6 t) ->
  store32 (region (mapped_info x) j + 12) (seg_type ph) (set_mem m6 t) = Ret tt (set_mem m7 t) ->
  record_region p (p_vaddr ph) (p_flags ph) (set_khost h (set_pmem (set_mem m4 t) s)) =
    Ret tt (set_proc p (one_more x) (set_khost h (set_pmem (set_mem m7 t) s))).
Proof.
  intros Hp Hfl E5 E6 E7 E8. unfold record_region.
  run (sys_get_proc_run p x (set_khost h (set_pmem (set_mem m4 t) s)) Hp).
  run (on_mem_khost _ s h _ _ _ E5). run (on_mem_khost _ s h _ _ _ E6). run (on_mem_khost _ s h _ _ _ E7).
  set (s7 := set_khost h (set_pmem (set_mem m7 t) s)).
  rewrite (bind_Ret _ _ _ tt s7); [by apply (sys_upd_proc_run p x one_more s7 Hp)|]. unfold seg_type in E8.
  destruct (_ =? _) eqn:Ef; [exact (on_mem_khost _ s h _ _ _ E8)|].
  destruct Hfl as [Hfl|Hfl]; [by rewrite Hfl, Z.eqb_refl in Ef|]. rewrite Hfl, Z.eqb_refl.
  exact (on_mem_khost _ s h _ _ _ E8).
Qed.

Lemma load_segment_run s p x q l j own ph f fd img :
  ready s p x (q :: l) j own -> (2 <= length l)%nat -> j < 256 -> segment_ok ph img ->
  file_open s f fd img -> Forall is_byte img -> Z.of_nat (length img) < 2147483648 ->
  xlate (mem (pmem s)) (pagetable x) (p_vaddr ph) = None ->
  exists s' f' l', load_segment p ph f s = Ret (None, f') s' /\ file_open s' f' fd img /\
    ready s' p (one_more x) l' (j + 1) (fun o => own o \/ o = q) /\ (exists k, l = k ++ l') /\ (length l <= length l' + 2)%nat /\ ~ own q /\
    seg_in (mem (pmem s')) (pagetable x) img ph q /\
    rd (mem (pmem s')) (region (mapped_info x) j) = p_vaddr ph /\
    rd (mem (pmem s')) (region (mapped_info x) j + 8) = seg_type ph * 4294967296 + 1 /\
    added s s' x j own (fun va => va / PGSIZE = p_vaddr ph / PGSIZE).
Proof.
  intros Hr Hlen Hj' Hso Hf Hb Hmax Hun.
  destruct (segment_memory s p x q l j own ph img Hr Hlen Hj' Hso Hb Hun)
    as (t & l' & m4 & m5 & m6 & m7 & Ems & Emap & E4 & E5 & E6 & E7 & E8 & Hv & Hsuf & Hll & Hnq & Hown & Hseg & R0 & R8 & Hkeep & Hx).
  destruct Hr as [Hp Hvm _ Hmi Hj Hused Hfree]. destruct Hso as [[Hfs Hms] [Hof0 Hof1] (Hv0 & Hva & Hvm1) Hfl].
  pose proof (vm_pmm _ _ _ Hvm) as Hpm. pose proof (fresh_page _ _ _ _ Hvm) as (Hqm & _).
  pose proof (managed_nonzero _ _ (inv_geo _ _ Hpm) Hqm) as Hq0.
  set (s3 := set_pmem t s).
  destruct (elf_fpread_run s3 f fd img (p_memsz ph) (p_off ph) Hf Hof0 ltac:(lia) Hof1 Hmax) as (f' & h & Efp & Hf').
  set (s4 := set_khost h s3) in *.
  set (s7 := set_khost h (set_pmem (set_mem m7 t) s)).
  exists (set_proc p (one_more x) s7), f', l'.
  destruct (Hown (mapped_info x) ltac:(by left)) as (Hmp & _ & _).
  assert (Hj8 : forall k d, 0 <= k < 256 -> 0 <= d < 16 -> in_page (region (mapped_info x) k + d) (mapped_info x))
    by (intros k d ? ?; unfold in_page, region; klia).
  assert (Hreg : forall k, 0 <= k < 256 -> k <> j -> rd m7 (region (mapped_info x) k) = rd (mem (pmem s)) (region (mapped_info x) k)).
  { intros k Hk Hne. apply (Hkeep _ (mapped_info x)); [|done| | |]; unfold in_page, region in *; destruct Hmp; klia. }
  split; [|refine (conj Hf' (conj _ (conj Hsuf (conj Hll (conj Hnq (conj Hseg (conj R0 (conj R8 _))))))))].
  - unfold load_segment. rewrite (proj2 (Z.ltb_ge (p_memsz ph) (p_filesz ph))) by lia.
    rewrite u64_small, (proj2 (Z.ltb_ge (p_vaddr ph + p_memsz ph) (p_vaddr ph))) by (unfold MAXVA in *; klia).
    run (elf_alloc_mb_run s p x q l (p_vaddr ph) (p_memsz ph) t Hp Hpm Hms Ems Emap). run Efp.
    run (on_mem_khost _ s h _ _ _ E4). rewrite u64_small, Z.eqb_refl by klia. cbn [negb].
    by run (record_region_run s p x j ph h t m4 m5 m6 m7 Hp Hfl E5 E6 E7 E8).
  - split.
    + apply list_lookup_insert_eq. by eapply lookup_lt_Some.
    + exact Hv.
    + exact Hown.
    + by left.
    + lia.
    + intros k Hk. change (rd m7 (region (mapped_info x) k) <> 0). destruct (decide (k = j)) as [->|Hne]; [rewrite R0; lia|]. rewrite Hreg by lia. apply Hused. lia.
    + intros k Hk. change (rd m7 (region (mapped_info x) k) = 0). rewrite Hreg by lia. apply Hfree. lia.
  - split.
    + intros a o Ha Ho Hne Hin. apply (Hkeep a o Ha Ho Hin); intros ->; apply Hne; symmetry;
        [apply (page_neq_in_page (mapped_info x) o (region (mapped_info x) j + 0))|
         apply (page_neq_in_page (mapped_info x) o (region (mapped_info x) j + 8))]; rewrite ?Z.add_0_r in *; try done;
        solve [apply Hmp|by apply Hown; left|apply Hj8; lia|rewrite <- (Z.add_0_r (region _ _)); apply Hj8; lia].
    + intros k Hk. split; [apply Hreg; lia|]. apply (Hkeep _ (mapped_info x)); [|done|apply Hj8; lia| |]; unfold region in *;
        destruct Hmp; klia.
    + intros va Hvr Hnv. by apply Hx.
Qed.
(** ** All segments *)

Definition loadable (hs : list elf_prog_header) : list elf_prog_header := filter (fun h => p_type h = ELF_PROG_LOAD) hs.

(** The program headers of the file at [off]. *)
Definition headers_at (img : list Z) (off : Z) (hs : list elf_prog_header) : Prop :=
  off + 56 * Z.of_nat (length hs) <= Z.of_nat (length img) /\
  forall i h, hs !! i = Some h -> phdr_of (slice (off + 56 * Z.of_nat i) 56 img) = h.

Definition region_of (m : gmap Z Z) (mi k : Z) (ph : elf_prog_header) : Prop :=
  rd m (region mi k) = p_vaddr ph /\ rd m (region mi k + 8) = seg_type ph * 4294967296 + 1.

Definition same_page_of (ls : list elf_prog_header) (va : Z) : Prop :=
  exists ph, ph ∈ ls /\ va / PGSIZE = p_vaddr ph / PGSIZE.

(** The segments [ls] can be loaded: they fit, their pages are distinct and free,
    and there are frames, tables and regions enough. *)
Record loads_ok (s : sys H) (x : process) (l : list Z) (j : Z) (img : list Z) (ls : list elf_prog_header) : Prop := {
  lo_seg : forall ph, ph ∈ ls -> segment_ok ph img;
  lo_distinct : NoDup (p_vaddr <$> ls);
  lo_unmapped : forall ph, ph ∈ ls -> xlate (mem (pmem s)) (pagetable x) (p_vaddr ph) = None;
  lo_pages : (3 * length ls <= length l)%nat;
  lo_regions : j + Z.of_nat (length ls) <= 256
}.

(** The segments [ls] have been loaded into the frames [qs]. *)
Record loaded (s s' : sys H) (x : process) (j : Z) (own : Z -> Prop) (img : list Z) (ls : list elf_prog_header) (qs : list Z) : Prop := {
  ld_seg : Forall2 (seg_in (mem (pmem s')) (pagetable x) img) ls qs;
  ld_distinct : NoDup qs;
  ld_fresh : forall q, q ∈ qs -> ~ own q;
  ld_regions : forall i ph, ls !! i = Some ph -> region_of (mem (pmem s')) (mapped_info x) (j + Z.of_nat i) ph;
  ld_added : added s s' x j own (same_page_of ls)
}.

Lemma seg_in_kept s s' x j own img ph q mapped :
  seg_in (mem (pmem s)) (pagetable x) img ph q -> added s s' x j own mapped -> own q -> q <> mapped_info x ->
  table_page q -> 0 <= p_vaddr ph < MAXVA -> ~ mapped (p_vaddr ph) -> seg_in (mem (pmem s')) (pagetable x) img ph q.
Proof.
  intros [Hx Hb] [Ao _ Ax] Hq Hne (Hqa & _) Hva Hm. split; [by rewrite Ax|]. rewrite <- Hb. apply bytes_from_ext.
  intros a Ha. unfold view. f_equal. apply (Ao _ q); [unfold word_of; klia|done|done|unfold in_page, word_of; klia].
Qed.

(** One segment, then the others. *)
Lemma loaded_cons s s1 s2 x j own img ph ls q qs :
  seg_in (mem (pmem s1)) (pagetable x) img ph q -> region_of (mem (pmem s1)) (mapped_info x) j ph ->
  added s s1 x j own (fun va => va / PGSIZE = p_vaddr ph / PGSIZE) ->
  loaded s1 s2 (one_more x) (j + 1) (fun o => own o \/ o = q) img ls qs ->
  ~ own q -> own (mapped_info x) -> table_page q -> 0 <= j < 256 -> 0 <= p_vaddr ph < MAXVA ->
  ~ same_page_of ls (p_vaddr ph) ->
  loaded s s2 x j own img (ph :: ls) (q :: qs).
Proof.
  intros Hseg [R0 R8] [Ao Ar Ax] [Ls Ld Lf Lr [Bo Br Bx]] Hnq Hmi Hqp Hj Hva Hnp.
  assert (Hqm : q <> mapped_info x) by (intros ->; done). split.
  - constructor; [|exact Ls]. eapply (seg_in_kept s1 s2 x); [exact Hseg|split; [exact Bo|exact Br|exact Bx]|by right|done..].
  - constructor; [|done]. intros Hin. apply (Lf q Hin). by right.
  - intros r Hr Ho. apply elem_of_cons in Hr as [->|Hr]; [done|]. apply (Lf r Hr). by left.
  - intros [|i] h Hh; cbn in Hh.
    + simplify_eq. rewrite Z.add_0_r. destruct (Br j ltac:(lia)) as [E0 E8]. split; [by rewrite <- R0|by rewrite <- R8].
    + replace (j + Z.of_nat (S i)) with (j + 1 + Z.of_nat i) by lia. by apply Lr.
  - split.
    + intros a o Ha Ho Hne Hin. rewrite (Bo a o Ha (or_introl Ho) Hne Hin). by apply (Ao a o).
    + intros k Hk. destruct (Ar k Hk) as [<- <-]. apply Br. lia.
    + intros va Hvr Hn. etransitivity; [apply Bx; [done|]|apply Ax; [done|]].
      * intros (h & Hh & E). apply Hn. exists h. split; [by right|done].
      * intros E. apply Hn. exists ph. split; [by left|done].
Qed.

Lemma loaded_nil s x j own img : loaded s s x j own img [] [].
Proof. split; [constructor|constructor|intros q Hq; by apply not_elem_of_nil in Hq|done|split; done]. Qed.

(** The start only matters through its physical memory. *)
Lemma loaded_khost k s s' x j own img ls qs : loaded (set_khost k s) s' x j own img ls qs -> loaded s s' x j own img ls qs.
Proof. by intros [? ? ? ? []]. Qed.

Lemma headers_tail img off h hs : headers_at img off (h :: hs) -> headers_at img (off + 56) hs.
Proof.
  intros [Hl Hh]. cbn [length] in Hl. split; [lia|]. intros i h' Hi.
  rewrite <- (Hh (S i) h' Hi). do 2 f_equal. lia.
Qed.
Lemma overlay_full b l : length b = length l -> overlay b l = l.
Proof. intros E. unfold overlay. by rewrite drop_ge, app_nil_r by lia. Qed.

(** The next header is read; [b] is the buffer that receives it. *)
Lemma read_header_run s f fd img off h hs b :
  file_open s f fd img -> headers_at img off (h :: hs) -> 0 <= off -> length b = sizeof_phdr ->
  Z.of_nat (length img) < 2147483648 ->
  exists f' k b', length b' = sizeof_phdr /\ phdr_of b' = h /\ file_open (set_khost k s) f' fd img /\
    forall A (c : Z -> list Z -> VfsData.file -> SM A),
    (let* '(r, l, f) := elf_fpread f (Z.of_nat sizeof_phdr) (u64 off) in
     let* b := into_local sizeof_phdr b l in c r b f) s = c (Z.of_nat sizeof_phdr) b' f' (set_khost k s).
Proof.
  intros Hf [Hl Hh] Hoff Hb Hmax. cbn [length] in Hl.
  destruct (elf_fpread_run s f fd img 56 off Hf Hoff ltac:(lia) ltac:(lia) Hmax) as (f' & k & E & Hf').
  assert (Hsl : length (slice off 56 img) = 56%nat) by (apply length_slice; lia).
  exists f', k, (slice off 56 img). split; [exact Hsl|]. split.
  { rewrite <- (Hh 0%nat h eq_refl). do 2 f_equal. lia. }
  split; [done|]. intros A c. rewrite u64_small by lia. run E. unfold into_local. rewrite Hsl. cbn [Nat.ltb Nat.leb check sizeof_phdr].
  rewrite ?bind_assoc, ?bind_ret_l, overlay_full by (by rewrite Hb, Hsl). reflexivity.
Qed.

Lemma load_segments_run hs : forall s p x l j own off b f fd img,
  ready s p x l j own -> length b = sizeof_phdr -> file_open s f fd img -> Forall is_byte img ->
  Z.of_nat (length img) < 2147483648 -> 0 <= off -> headers_at img off hs -> loads_ok s x l j img (loadable hs) ->
  exists s' f' l' qs, load_segments (length hs) p off b f s = Ret (EL_OK, f') s' /\ file_open s' f' fd img /\
    ready s' p (Nat.iter (length (loadable hs)) one_more x) l' (j + Z.of_nat (length (loadable hs))) (fun o => own o \/ o ∈ qs) /\
    loaded s s' x j own img (loadable hs) qs.
Proof.
  induction hs as [|h hs IH]; intros s p x l j own off b f fd img Hr Hb Hf Hby Hmax Hoff Hat Hok.
  { exists s, f, l, []. split; [done|]. split; [done|]. split; [|apply loaded_nil]. cbn. rewrite Z.add_0_r.
    destruct Hr as [Hp Hv Ho Hm Hj Hu Hfr]. split; auto. intros o [Ho'|Ho']; [auto|by apply not_elem_of_nil in Ho']. }
  destruct (read_header_run s f fd img off h hs b Hf Hat Hoff Hb Hmax) as (f1 & k & b1 & Hb1 & Hh & Hf1 & Erun).
  set (s1 := set_khost k s) in *. assert (Hr1 : ready s1 p x l j own) by (by destruct Hr).
  assert (Hnext : i32 (off + Z.of_nat sizeof_phdr) = off + 56).
  { destruct Hat as [Hl _]. cbn [length] in Hl. change (Z.of_nat sizeof_phdr) with 56. apply i32_small. lia. }
  cbn [length load_segments]. rewrite Erun, u64_small, Z.eqb_refl by (change (Z.of_nat sizeof_phdr) with 56; lia). cbn [negb]. rewrite Hh, Hnext.
  unfold loadable. rewrite filter_cons. destruct (decide (p_type h = ELF_PROG_LOAD)) as [Hload|Hload]; fold (loadable hs).
  - rewrite Hload, Z.eqb_refl. cbn [negb]. unfold loadable in Hok. rewrite filter_cons, decide_True in Hok by done.
    fold (loadable hs) in Hok. destruct Hok as [Lseg Ldis Lun Lpg Lreg]. cbn [length fmap list_fmap] in *.
    destruct l as [|q l]; [cbn in Lpg; lia|]. cbn [length] in Lpg.
    assert (Hin : h ∈ h :: loadable hs) by by left.
    destruct (load_segment_run s1 p x q l j own h f1 fd img Hr1 ltac:(lia) ltac:(lia) (Lseg h Hin) Hf1 Hby Hmax (Lun h Hin))
      as (s2 & f2 & l2 & E2 & Hf2 & Hr2 & Hsuf & Hl2 & Hnq & Hseg & R0 & R8 & Hadd).
    destruct (so_va _ _ (Lseg h Hin)) as (Hv0 & Hva & Hvm).
    assert (Hnp : ~ same_page_of (loadable hs) (p_vaddr h)).
    { intros (ph & Hph & E). apply list.NoDup_cons in Ldis as [Hnin _]. apply Hnin. apply list_elem_of_fmap. exists ph. split; [|done].
      destruct (so_va _ _ (Lseg ph ltac:(by right))) as (? & ? & ?). klia. }
    destruct (IH s2 p (one_more x) l2 (j + 1) (fun o => own o \/ o = q) (off + 56) b1 f2 fd img)
      as (s3 & f3 & l3 & qs & E3 & Hf3 & Hr3 & Hld); auto.
    { lia. } { by eapply headers_tail. }
    { split.
      - intros ph Hph. apply Lseg. by right.
      - by apply list.NoDup_cons in Ldis as [_ ?].
      - intros ph Hph. destruct (so_va _ _ (Lseg ph ltac:(by right))) as (? & ? & ?).
        etransitivity; [apply (ad_xlate _ _ _ _ _ _ Hadd); [klia|]|apply Lun; by right].
        intros E. apply Hnp. by exists ph.
      - lia.
      - lia. }
    exists s3, f3, l3, (q :: qs). split; [|split; [done|split]].
    + run E2. exact E3.
    + rewrite Nat.iter_succ_r. replace (j + Z.of_nat (S (length (loadable hs)))) with (j + 1 + Z.of_nat (length (loadable hs))) by lia.
      destruct Hr3 as [Hp Hv Ho Hm Hj Hu Hfr]. split; auto.
      * intros o [Hoo|Hoo]; [apply Ho; by left; left|]. apply elem_of_cons in Hoo as [->|Hoo]; apply Ho; [by left; right|by right].
      * destruct Hm as [[Hm|Hm]|Hm]; [by left|right; rewrite Hm; by left|right; by right].
    + apply (loaded_khost k). eapply (loaded_cons s1 s2 s3); [exact Hseg|by split|exact Hadd|exact Hld|done|apply Hr| | |klia|done].
      * apply (re_own _ _ _ _ _ _ Hr2). by right.
      * pose proof (re_j _ _ _ _ _ _ Hr) as [? _]. lia.
  - rewrite (proj2 (Z.eqb_neq _ _)) by done. cbn [negb].
    unfold loadable in Hok. rewrite filter_cons, decide_False in Hok by done. fold (loadable hs) in Hok.
    destruct (IH s1 p x l j own (off + 56) b1 f1 fd img) as (s3 & f3 & l3 & qs & E3 & Hf3 & Hr3 & Hld); auto.
    { lia. } { by eapply headers_tail. } { by destruct Hok. }
    exists s3, f3, l3, qs. split; [exact E3|]. split; [done|]. split; [done|]. by apply (loaded_khost k).
Qed.
Lemma stack_bytes_run n (s : sys H) :
  exists b j, stack_bytes n s = Ret b (set_fpages (set_junk j (fpages s)) s) /\ length b = n.
Proof.
  eexists _, _. split; [reflexivity|]. rewrite length_take, length_app, length_replicate. lia.
Qed.

(** C6: [elf_load] of a file whose program headers describe page aligned segments that
    are shorter than a page, at distinct pages that are not mapped yet, with frames and region
    entries enough. It returns [EL_OK]; every loadable segment is then mapped to a
    frame of its own, which was free before and now holds the bytes of the file
    followed by zeros; a region of the right type is entered for each, in order;
    translations of other pages, earlier regions and the other pages of the
    process are unchanged. *)
Theorem elf_load_correct s tp p x l j own f fd img hb hs :
  ready s p x l j own -> file_open s f fd img -> Forall is_byte img -> Z.of_nat (length img) < 2147483648 ->
  elfloader (fpages s) !! tp = Some hb -> 0 <= phoff (ehdr_of hb) -> phnum (ehdr_of hb) = Z.of_nat (length hs) ->
  headers_at img (phoff (ehdr_of hb)) hs -> loads_ok s x l j img (loadable hs) ->
  exists s' f' l' qs, elf_load tp p f s = Ret (EL_OK, f') s' /\ file_open s' f' fd img /\
    ready s' p (Nat.iter (length (loadable hs)) one_more x) l' (j + Z.of_nat (length (loadable hs))) (fun o => own o \/ o ∈ qs) /\
    loaded s s' x j own img (loadable hs) qs.
Proof.
  intros Hr Hf Hby Hmax Hhb Hoff Hn Hat Hok. unfold elf_load.
  assert (Eh : ehdr tp s = Ret (ehdr_of hb) s) by (unfold ehdr; by rewrite Hhb). run Eh.
  destruct (stack_bytes_run sizeof_phdr s) as (b & jk & Eb & Hb). run Eb. set (s1 := set_fpages _ s).
  rewrite Hn, Nat2Z.id, i32_small by (destruct Hat; lia).
  destruct (load_segments_run hs s1 p x l j own (phoff (ehdr_of hb)) b f fd img) as (s2 & f2 & l2 & qs & E & Hf2 & Hr2 & Hld);
    auto; [by destruct Hr|by destruct Hok|].
  exists s2, f2, l2, qs. split; [done|]. split; [done|]. split; [done|]. by destruct Hld as [? ? ? ? []].
Qed.
End ElfLoad.

(** ** A concrete program *)

(** A host with one file; its state is the position in it. *)
Definition demo_img : list Z :=
  [1; 0; 0; 0; 5; 0; 0; 0; 56; 0; 0; 0; 0; 0; 0; 0; 0; 0; 1; 0; 0; 0; 0; 0; 0; 0; 0; 0; 0; 0; 0; 0;
   4; 0; 0; 0; 0; 0; 0; 0; 4; 0; 0; 0; 0; 0; 0; 0; 0; 0; 0; 0; 0; 0; 0; 0; 19; 0; 80; 0].
#[local] Instance img_host : Frontend Z := {|
  host_openat _ _ _ _ h := (5, h);
  host_close _ h := h;
  host_read _ nb pos := (Z.min nb (Z.of_nat (length demo_img) - pos), slice pos nb demo_img, pos + Z.min nb (Z.of_nat (length demo_img) - pos));
  host_pread _ nb off pos := (Z.min nb (Z.of_nat (length demo_img) - off), slice off nb demo_img, pos);
  host_write _ l h := (-1, h);
  host_lseek _ off whence pos := if whence =? SEEK_SET then (off, off) else (pos + off, pos + off);
  host_fstat _ h := (0, mkHostStat 1 S_IFREG 1 60 1, h);
  host_getmainvars _ h := (0, [], h)
|}.
#[local] Instance img_host_files : HostFiles Z.
Proof.
  refine {| at_pos h fd img pos := img = demo_img /\ h = pos |}.
  - intros h fd img pos off [-> ->] _. by exists off.
  - intros h fd img pos [-> ->]. exists pos. cbn. by rewrite Z.add_0_r.
  - intros h fd img pos nb [-> ->] Hp Hnb Hle. exists (pos + nb). cbn [host_read img_host].
    rewrite Z.min_l by lia. done.
Defined.

#[local] Existing Instances sample_linker sample_buffers.

Definition demo_mi : Z := 2147500032.
Definition demo_proc : process :=
  mkProc 0 2147483648 0 0 0 0 demo_mi 4 (mkHeap 0 0 [] 0) 0 READY None None 0 0 0 0 0 0 0.
Definition demo_kern : kstate := mkK vm3 [demo_proc] [] [None; None] None 0 0 0 [0; 0] [].
Definition demo_sys : sys Z :=
  mkF (mkMachine demo_kern (mkSp [mkSpikeFile 5 3] [0] 0) (fun _ => 0) [replicate 56 0 ++ [1; 0; 0; 0; 0; 0; 0; 0]] (fun _ => []))
    [] ∅ {[ 16 := mkVinode 1 1 60 FILE_I 1 1 [] 1 0 HOSTFS ]} {[ 8 := mkDentry [97] 1 16 0 ]} ∅ ∅
    (mkTable [] ∅) (mkTable [] ∅) 0 [] [] [].
Definition demo_file : VfsData.file := mkFile 1 1 0 0 8.
Definition demo_ph : elf_prog_header := phdr_of (take 56 demo_img).

Lemma vm3_tables t : tables_of (mem vm3) 2147483648 t -> t = 2147483648.
Proof.
  intros ([|i|i k] & Hok & Ht); cbn [tbl] in Ht; [by simplify_eq| |]; unfold child in Ht; rewrite vm3_zero in Ht; try done;
    apply Hok.
Qed.

Lemma demo_ready : ready demo_sys 0 demo_proc [2147495936; 2147491840; 2147487744] 0 (fun o => o = demo_mi).
Proof.
  split; [done|exact vm3_inv| |done|lia|lia|].
  - intros o ->. split; [repeat split; vm_compute; congruence|]. split; [apply (bool_decide_unpack _); vm_compute; exact I|].
    intros Ht. apply vm3_tables in Ht. discriminate.
  - intros k Hk. change (rd (mem vm3) (demo_mi + 16 * k) = 0). unfold rd, demo_mi. cbn.
    rewrite lookup_insert_ne, lookup_singleton_ne by lia. done.
Qed.

Lemma elf_load_correct_witness :
  exists s' f' q, elf_load 0 0 demo_file demo_sys = Ret (EL_OK, f') s' /\
    xlate (mem (pmem s')) 2147483648 65536 = Some (user_rwx q) /\
    bytes_from (view (mem (pmem s'))) 4096 q = [19; 0; 80; 0] ++ replicate 4092 0.
Proof.
  destruct (elf_load_correct demo_sys 0 0 demo_proc [2147495936; 2147491840; 2147487744] 0 (fun o => o = demo_mi) demo_file 5
              demo_img (replicate 56 0 ++ [1; 0; 0; 0; 0; 0; 0; 0]) [demo_ph])
    as (s' & f' & l' & qs & E & _ & _ & Hld).
  - exact demo_ready.
  - exists (mkDentry [97] 1 16 0), (mkVinode 1 1 60 FILE_I 1 1 [] 1 0 HOSTFS), (mkSpikeFile 5 3), 0. repeat split; discriminate.
  - apply (bool_decide_unpack _). vm_compute. exact I.
  - reflexivity.
  - reflexivity.
  - discriminate.
  - reflexivity.
  - split; [discriminate|]. intros [|i] h Hh; [injection Hh as <-; reflexivity|discriminate].
  - change (loadable [demo_ph]) with [demo_ph]. split.
    + intros ph Hph. apply list_elem_of_singleton in Hph as ->. repeat split; try discriminate. left. reflexivity.
    + apply NoDup_singleton.
    + intros ph Hph. apply fresh_root_xlate, vm3_zero.
    + cbn. lia.
    + discriminate.
  - exists s', f'. destruct Hld as [Hs _ _ _ _]. change (loadable [demo_ph]) with [demo_ph] in Hs.
    apply Forall2_cons_inv_l in Hs as (q & qs' & [Hx Hb] & _ & _). exists q. split; [exact E|]. split; [exact Hx|exact Hb].
Defined.
