(* ===== verification/ElfSym.v ===== *)
(** * The function that contains an address ([find_func_name] of kernel/elf.c)

    The loop over the symbol table and the copy of the name. *)
From S2P Require Import Prelude CString Bytes Machine Elf.

(** Function symbol [x] contains the address [ra]; one without size only its start. *)
Definition covers (ra : Z) (x : Elf64_Sym) : Prop :=
  ELF64_ST_TYPE (st_info x) = STT_FUNC /\ st_value x <> 0 /\ st_value x <= ra /\
  (st_size x = 0 -> ra = st_value x) /\ (st_size x <> 0 -> ra < u64 (st_value x + st_size x)).

#[global] Instance covers_dec ra x : Decision (covers ra x).
Proof. unfold covers. apply _. Defined.

Lemma match_symbol_covers ra best x :
  match_symbol ra best x = if decide (covers ra x) then better x best else best.
Proof.
  unfold match_symbol, covers.
  destruct (Z.eqb_spec (ELF64_ST_TYPE (st_info x)) STT_FUNC), (Z.eqb_spec (st_value x) 0), (Z.leb_spec (st_value x) ra),
    (Z.eqb_spec (st_size x) 0), (Z.eqb_spec (st_value x) ra), (Z.ltb_spec ra (u64 (st_value x + st_size x)));
    cbn [negb]; case_decide as Hd; try reflexivity; exfalso;
    first [destruct Hd as (? & ? & ? & ? & ?); lia | apply Hd; repeat split; lia].
Qed.

(** The best of the symbols seen so far, the first among equals. *)
Definition is_best (ra : Z) (l : list Elf64_Sym) (best : option Elf64_Sym) : Prop :=
  match best with
  | None => forall y, y ∈ l -> ~ covers ra y
  | Some x => exists l1 l2, l = l1 ++ x :: l2 /\ covers ra x /\
      (forall y, y ∈ l1 -> covers ra y -> st_value y < st_value x) /\
      (forall y, y ∈ l2 -> covers ra y -> st_value y <= st_value x)
  end.

Lemma is_best_step ra l best x : is_best ra l best -> is_best ra (l ++ [x]) (match_symbol ra best x).
Proof.
  intros Hb. rewrite match_symbol_covers. case_decide as Hc.
  - destruct best as [y|]; cbn [better].
    + destruct Hb as (l1 & l2 & -> & Hy & H1 & H2). destruct (Z.ltb_spec (st_value y) (st_value x)) as [Hlt|Hge].
      * exists (l1 ++ y :: l2), []. split; [done|]. split; [done|]. split; [|intros z Hz; by apply not_elem_of_nil in Hz].
        intros z Hz Hcz. apply elem_of_app in Hz as [Hz|Hz]; [specialize (H1 z Hz Hcz); lia|].
        apply elem_of_cons in Hz as [->|Hz]; [done|]. specialize (H2 z Hz Hcz). lia.
      * exists l1, (l2 ++ [x]). split; [by rewrite <- app_assoc|]. split; [done|]. split; [done|].
        intros z Hz Hcz. apply elem_of_app in Hz as [Hz|Hz]; [auto|]. apply list_elem_of_singleton in Hz as ->. done.
    + exists l, []. split; [done|]. split; [done|]. split; [intros y Hy Hcy; by destruct (Hb y Hy)|].
      intros y Hy. by apply not_elem_of_nil in Hy.
  - destruct best as [y|].
    + destruct Hb as (l1 & l2 & -> & Hy & H1 & H2). exists l1, (l2 ++ [x]). split; [by rewrite <- app_assoc|].
      split; [done|]. split; [done|]. intros z Hz Hcz. apply elem_of_app in Hz as [Hz|Hz]; [auto|].
      apply list_elem_of_singleton in Hz as ->. done.
    + intros y Hy. apply elem_of_app in Hy as [Hy|Hy]; [auto|]. by apply list_elem_of_singleton in Hy as ->.
Qed.

Lemma fold_best ra l : is_best ra l (fold_left (match_symbol ra) l None).
Proof.
  induction l as [|x l IH] using rev_ind; [intros y Hy; by apply not_elem_of_nil in Hy|].
  rewrite fold_left_app. cbn [fold_left]. by apply is_best_step.
Qed.

(** The name is copied up to 255 bytes. *)
Lemma copy_name_run n m src dest l :
  bytes_ok m -> cstr m src l -> (dest + Z.of_nat n < src \/ src + Z.of_nat (length l) < dest) ->
  cstr (copy_name n src dest m) dest (take n l) /\
  (forall a, a < dest \/ dest + Z.of_nat n < a -> copy_name n src dest m a = m a).
Proof.
  revert m src dest l. induction n as [|n IH]; intros m src dest l Hm Hc Hd; cbn [copy_name].
  - split; [cbn; by apply upd_eq|]. intros a Ha. apply upd_ne. lia.
  - destruct l as [|c l]; cbn [cstr take length] in *.
    + rewrite Hc. cbn [Z.eqb]. split; [by apply upd_eq|]. intros a Ha. apply upd_ne. lia.
    + destruct Hc as (Hs & Hz & Hc). rewrite Hs, (proj2 (Z.eqb_neq c 0)) by done. set (m1 := upd m dest c).
      assert (Hm1 : bytes_ok m1) by (by apply upd_ok).
      destruct (IH m1 (src + 1) (dest + 1) l Hm1) as [E1 E2].
      { eapply cstr_ext; [|exact Hc]. intros a Ha. apply upd_ne. lia. }
      { lia. }
      split; [split; [|split; [done|done]]|].
      * rewrite E2 by lia. apply upd_eq. rewrite <- Hs. apply Hm.
      * intros a Ha. rewrite E2 by lia. apply upd_ne. lia.
Qed.

Section FuncName.
Context `{Buffers}.

(** The symbols in the static buffer. *)
Definition symbols (n : nat) (m : bmem) : list Elf64_Sym :=
  (fun i => sym_of (entry_at m symtab_buf sizeof_sym (Z.of_nat i))) <$> seq 0 n.

(** what [find_func_name] answers once the tables are in its buffers. When no
    function symbol contains the address there is no answer; otherwise the symbol
    chosen contains it, none that does starts later, and it is the first of those
    that start there; [func_name_buf] then holds its name, cut after 255 bytes,
    and nothing else has changed. *)
Theorem func_name_correct n ra m :
  bytes_ok m ->
  match best_symbol n ra m with
  | None => forall y, y ∈ symbols n m -> ~ covers ra y
  | Some x =>
      (exists l1 l2, symbols n m = l1 ++ x :: l2 /\ covers ra x /\
         (forall y, y ∈ l1 -> covers ra y -> st_value y < st_value x) /\
         (forall y, y ∈ l2 -> covers ra y -> st_value y <= st_value x)) /\
      forall name, cstr m (strtab_buf + st_name x) name ->
        func_name_buf + 255 < strtab_buf + st_name x \/ strtab_buf + st_name x + Z.of_nat (length name) < func_name_buf ->
        let m' := copy_name 255 (strtab_buf + st_name x) func_name_buf m in
        cstr m' func_name_buf (take 255 name) /\
        forall a, a < func_name_buf \/ func_name_buf + 255 < a -> m' a = m a
  end.
Proof.
  intros Hm. assert (Hb : is_best ra (symbols n m) (best_symbol n ra m)) by apply fold_best.
  destruct (best_symbol n ra m) as [x|]; [|exact Hb]. split; [exact Hb|].
  intros name Hc Hd. by apply copy_name_run.
Qed.
End FuncName.

(** Two functions, "f" at 64 and "main" at 96; the address 100 is in the second. *)
#[local] Instance sym_buffers : Buffers := {|
  fuel_str := 100; fuel_line := 100; out_buf := 0; shstrtab_buf := 1000; debug_line_buf := 100000; func_name_buf := 2000;
  shdr_buf := 10000; ffn_shstrtab_buf := 30000; strtab_buf := 40000; symtab_buf := 50000 |}.
Definition sym_mem : bmem :=
  put (put (fun _ => 0) 40000 [0; 102; 0; 109; 97; 105; 110; 0]) 50000
    ([1; 0; 0; 0; 2; 0; 0; 0; 64; 0; 0; 0; 0; 0; 0; 0; 32; 0; 0; 0; 0; 0; 0; 0] ++
     [3; 0; 0; 0; 2; 0; 0; 0; 96; 0; 0; 0; 0; 0; 0; 0; 16; 0; 0; 0; 0; 0; 0; 0]).

Lemma sym_mem_ok : bytes_ok sym_mem.
Proof. intros a. unfold sym_mem, put. repeat destruct (_ && _); unfold u8; try (apply Z.mod_pos_bound; lia). lia. Qed.

Lemma func_name_correct_witness :
  cstr (copy_name 255 40003 2000 sym_mem) 2000 [109; 97; 105; 110].
Proof.
  pose proof (func_name_correct 2 100 sym_mem sym_mem_ok) as Hf.
  change (best_symbol 2 100 sym_mem) with (Some (mkSym 3 2 96 16)) in Hf. cbv iota in Hf.
  destruct Hf as [_ Hf]. apply (Hf [109; 97; 105; 110]).
  - vm_compute. repeat split; discriminate.
  - left. vm_compute. reflexivity.
Defined.
