(* ===== verification/Syscall.v ===== *)
(** * System calls (kernel/syscall.c) and the trap that makes them

    The calls that work on files, the console and the program image, and the
    dispatch [do_syscall] over all of them.  User buffers are bytes of physical
    memory behind the page table of the process. *)
From S2P Require Import Prelude Pmm Vmm Process Sched Fork Heap Strap Pages HashTable CString Snprintf Bytes DebugLine.
From S2P Require Import VfsData Rfs RfsDisk RfsFile RfsDir Vfs VfsRefs ProcFile SpikeFile Hostfs Machine Elf.

Definition SYS_user_base : Z := 64.
Definition SYS_user_print : Z := SYS_user_base + 0.
Definition SYS_user_exit : Z := SYS_user_base + 1.
Definition SYS_user_allocate_page : Z := SYS_user_base + 2.
Definition SYS_user_free_page : Z := SYS_user_base + 3.
Definition SYS_user_fork : Z := SYS_user_base + 4.
Definition SYS_user_yield : Z := SYS_user_base + 5.
Definition SYS_user_open : Z := SYS_user_base + 17.
Definition SYS_user_read : Z := SYS_user_base + 18.
Definition SYS_user_write : Z := SYS_user_base + 19.
Definition SYS_user_lseek : Z := SYS_user_base + 20.
Definition SYS_user_stat : Z := SYS_user_base + 21.
Definition SYS_user_disk_stat : Z := SYS_user_base + 22.
Definition SYS_user_close : Z := SYS_user_base + 23.
Definition SYS_user_opendir : Z := SYS_user_base + 24.
Definition SYS_user_readdir : Z := SYS_user_base + 25.
Definition SYS_user_mkdir : Z := SYS_user_base + 26.
Definition SYS_user_closedir : Z := SYS_user_base + 27.
Definition SYS_user_link : Z := SYS_user_base + 28.
Definition SYS_user_unlink : Z := SYS_user_base + 29.
Definition SYS_user_exec : Z := SYS_user_base + 30.
Definition SYS_user_wait : Z := SYS_user_base + 31.
Definition SYS_user_semNew : Z := SYS_user_base + 32.
Definition SYS_user_semP : Z := SYS_user_base + 33.
Definition SYS_user_semV : Z := SYS_user_base + 34.
Definition SYS_user_printpa : Z := SYS_user_base + 35.
Definition SYS_user_better_allocate_page : Z := SYS_user_base + 36.
Definition SYS_user_better_free_page : Z := SYS_user_base + 37.
Definition SYS_user_print_backtrace : Z := SYS_user_base + 38.
Definition SYS_user_scanf : Z := SYS_user_base + 39.
Definition SYS_user_rcwd : Z := SYS_user_base + 40.
Definition SYS_user_ccwd : Z := SYS_user_base + 41.

(** The [n] bytes of a number, little endian. *)
Fixpoint le_bytes (n : nat) (v : Z) : list Z :=
  match n with O => [] | S n' => v mod 256 :: le_bytes n' (v / 256) end.

(** Numbers of [k] bytes each in uninitialised memory. *)
Definition numbers (k n : nat) (b : list Z) : list Z :=
  (fun i => field k (Z.of_nat (k * i)) b) <$> seq 0 n.

Definition MAX_FILE_NAME_LEN : Z := 32.

(** "main" and "bin/app_print_backtrace" *)
Definition s_main : list Z := [109; 97; 105; 110].
Definition s_backtrace : list Z :=
  [98; 105; 110; 47; 97; 112; 112; 95; 112; 114; 105; 110; 116; 95; 98; 97; 99; 107; 116; 114; 97; 99; 101].

(** The string at [a], of at most [n] bytes. *)
Fixpoint str_at_most (n : nat) (m : bmem) (a : Z) : list Z :=
  match n with O => [] | S n' => if m a =? 0 then [] else m a :: str_at_most n' m (a + 1) end.

Section Syscall.
Context {H : Type} `{Frontend H} `{Linker} `{Buffers}.
#[local] Notation SM := (M (sys H)).

(** [current[tp]->pagetable] *)
Definition user_pagetable (tp : nat) : SM Z :=
  let* p := on_kern (self tp) in
  let* x := on_kern (get_proc p) in
  ret (pagetable x).
Definition user_pa (tp : nat) (va : Z) : SM Z :=
  let* pt := user_pagetable tp in on_mem (user_va_to_pa pt va).

(** A string of the user, as the kernel reads it: from its first physical byte on. *)
Definition user_str (tp : nat) (va : Z) : SM (list Z) :=
  let* pa := user_pa tp va in on_mem (load_str pa).

(** ** The console *)

Definition sys_user_print (tp : nat) (buf n : Z) : SM Z :=
  let* c := on_kern (get_current tp) in
  check (bool_decide (c = None)) (Panic "assert(current[tp])") ;;;
  let* pa := user_pa tp buf in
  let* b := stack_bytes 256 in
  sprint pa (numbers 8 32 b) ;;;
  ret 0.

Definition sys_user_scanf (tp : nat) (buf : Z) : SM Z :=
  let* c := on_kern (get_current tp) in
  check (bool_decide (c = None)) (Panic "assert(current[tp])") ;;;
  let* pa := user_pa tp buf in
  let* '(_, l) := on_host (spike_file_read stderr 256) in
  on_mem (store_bytes pa l) ;;;
  ret 0.

Definition sys_user_printpa (tp : nat) (va : Z) : SM Z :=
  let* pa := user_pa tp va in
  print_text (show_hex 16 pa ++ [10]) ;;;
  ret 0.

(** ** Files *)

Definition sys_user_open (tp : nat) (pathva flags : Z) : SM Z :=
  let* path := user_str tp pathva in
  file_call tp (-1) (do_open path flags).

(** The loop that [sys_user_read] and [sys_user_write] share: [op pa len] moves
    [len] bytes at the physical address [pa] and returns the [int] result as [uint64]. *)
Fixpoint transfer (fuel : nat) (tp : nat) (op : Z -> Z -> SM Z) (bufva count i : Z) : SM Z :=
  match fuel with
  | O => halt OutOfFuel
  | S f =>
      if u64 i <? count then
        let addr := u64 (bufva + u64 i) in
        let* pt := user_pagetable tp in
        let* pa := on_mem (lookup_pa pt addr) in
        let off := addr - ROUNDDOWN addr PGSIZE in
        let left := u64 (count - u64 i) in
        let len := if left <? PGSIZE - off then left else PGSIZE - off in
        let* r := op (u64 (pa + off)) len in
        let i := i32 (i + r) in
        if r <? len then ret i else transfer f tp op bufva count i
      else ret (i64 count)
  end.

(** [do_read(fd, pa, len)]: the string read goes to [pa] with its terminating zero. *)
Definition read_to (tp : nat) (fd pa len : Z) : SM Z :=
  let* b := stack_bytes (Z.to_nat len) in
  let* '(r, l) := file_call tp (-1, []) (do_read b fd len) in
  on_mem (store_bytes pa (l ++ [0])) ;;;
  ret (u64 r).
Definition write_from (tp : nat) (fd pa len : Z) : SM Z :=
  let* l := on_mem (load_bytes (Z.to_nat len) pa) in
  let* r := file_call tp (-1) (do_write fd l) in
  ret (u64 r).

(** [count + 2] steps are enough for every call that makes progress. *)
Definition sys_user_read (tp : nat) (fd bufva count : Z) : SM Z :=
  transfer (Z.to_nat count + 2) tp (read_to tp fd) bufva count 0.
Definition sys_user_write (tp : nat) (fd bufva count : Z) : SM Z :=
  transfer (Z.to_nat count + 2) tp (write_from tp fd) bufva count 0.

Definition sys_user_lseek (tp : nat) (fd offset whence : Z) : SM Z := file_call tp (-1) (do_lseek fd offset whence).

Definition istat_bytes (x : istat) : list Z :=
  le_bytes 4 (Rfs.st_inum x) ++ le_bytes 4 (Rfs.st_size x) ++ le_bytes 4 (Rfs.st_type x) ++ le_bytes 4 (Rfs.st_nlinks x) ++ le_bytes 4 (Rfs.st_blocks x).

Definition sys_user_stat (tp : nat) (fd istat : Z) : SM Z :=
  let* pa := user_pa tp istat in
  let* '(r, x) := file_call tp (-1, mkStat 0 0 0 0 0) (do_stat fd) in
  on_mem (store_bytes pa (istat_bytes x)) ;;;
  ret r.
Definition sys_user_disk_stat (tp : nat) (fd istat : Z) : SM Z :=
  let* pa := user_pa tp istat in
  let* '(r, x) := file_call tp (-1, mkStat 0 0 0 0 0) (do_disk_stat fd) in
  on_mem (store_bytes pa (istat_bytes x)) ;;;
  ret r.

Definition sys_user_close (tp : nat) (fd : Z) : SM Z := file_call tp (-1) (do_close fd).

Definition sys_user_opendir (tp : nat) (pathva : Z) : SM Z :=
  let* path := user_str tp pathva in
  file_call tp (-1) (do_opendir path).

(** [struct dir]: the name, then the inode number. *)
Definition sys_user_readdir (tp : nat) (fd vdir : Z) : SM Z :=
  let* pa := user_pa tp vdir in
  let* '(r, e) := file_call tp (-1, None) (do_readdir fd) in
  match e with
  | Some (name, ino) => on_mem (store_bytes pa name) ;;; on_mem (store_bytes (pa + MAX_FILE_NAME_LEN) (le_bytes 4 ino))
  | None => ret tt
  end ;;;
  ret r.

Definition sys_user_mkdir (tp : nat) (pathva : Z) : SM Z :=
  let* path := user_str tp pathva in
  file_call tp (-1) (do_mkdir path).
Definition sys_user_closedir (tp : nat) (fd : Z) : SM Z := file_call tp (-1) (do_closedir fd).

Definition sys_user_link (tp : nat) (vfn1 vfn2 : Z) : SM Z :=
  let* f1 := user_str tp vfn1 in
  let* f2 := user_str tp vfn2 in
  file_call tp (-1) (do_link f1 f2).
Definition sys_user_unlink (tp : nat) (vfn : Z) : SM Z :=
  let* f := user_str tp vfn in
  file_call tp (-1) (do_unlink f).

Definition sys_user_read_cwd (tp : nat) (pathva : Z) : SM Z :=
  let* pa := user_pa tp pathva in
  let* '(r, l) := file_call tp (-1, []) do_rcwd in
  when (r =? 0) (on_mem (store_bytes pa (l ++ [0]))) ;;;
  ret r.
Definition sys_user_change_cwd (tp : nat) (pathva : Z) : SM Z :=
  let* path := user_str tp pathva in
  file_call tp (-1) (do_ccwd path).

(** ** Programs *)

Definition sys_user_exec (tp : nat) (pathva argv : Z) : SM Z :=
  let* path := user_str tp pathva in
  let* argvpa := user_pa tp argv in
  let* p := on_kern (self tp) in
  fs_call tp (-1) (do_exec tp p path argvpa).

(** One frame: its name is printed; [None] ends the loop, [Some fp] goes on. *)
Definition backtrace_frame (tp : nat) (pt fp : Z) : SM (option Z) :=
  let* pa := on_mem (user_va_to_pa pt (u64 (fp - 8))) in
  if pa =? 0 then ret None else
  let* return_address := on_mem (load pa) in
  let* name := fs_call tp 0 (find_func_name tp s_backtrace return_address) in
  check (name =? 0) (Fault 0) ;;;
  let* m := on_statics get in
  print_text (str_at_most 255 m name ++ [10]) ;;;
  if strcmp_lit m name s_main =? 0 then ret None else
  let* pa := on_mem (user_va_to_pa pt (u64 (fp - 16))) in
  if pa =? 0 then ret None else
  let* next := on_mem (load pa) in
  ret (Some next).

Fixpoint backtrace (n : nat) (tp : nat) (pt fp : Z) : SM unit :=
  match n with
  | O => ret tt
  | S n' =>
      if fp =? 0 then ret tt else
      let* o := backtrace_frame tp pt fp in
      match o with None => ret tt | Some next => backtrace n' tp pt next end
  end.

Definition sys_user_print_backtrace (tp : nat) (depth : Z) : SM Z :=
  let* p := on_kern (self tp) in
  let* x := on_kern (get_proc p) in
  let* user_fp := on_mem (load (trapframe x + TF_s0)) in
  if user_fp =? 0 then ret 0 else
  let* pa := on_mem (user_va_to_pa (pagetable x) (u64 (user_fp - 8))) in
  if pa =? 0 then ret 0 else
  let* next := on_mem (load pa) in
  backtrace (Z.to_nat depth) tp (pagetable x) next ;;;
  ret 0.

(** ** Dispatch *)

Definition do_syscall (tp : nat) (a : list Z) : SM Z :=
  let a0 := nth 0 a 0 in let a1 := nth 1 a 0 in let a2 := nth 2 a 0 in let a3 := nth 3 a 0 in
  if a0 =? SYS_user_print then sys_user_print tp a1 a2
  else if a0 =? SYS_user_scanf then sys_user_scanf tp a1
  else if a0 =? SYS_user_printpa then sys_user_printpa tp a1
  else if a0 =? SYS_user_exit then on_kern (sys_user_exit tp a1)
  else if a0 =? SYS_user_allocate_page then on_kern (sys_user_allocate_page tp)
  else if a0 =? SYS_user_free_page then on_kern (sys_user_free_page tp a1)
  else if a0 =? SYS_user_better_allocate_page then on_kern (sys_user_better_allocate_page tp a1)
  else if a0 =? SYS_user_better_free_page then on_kern (sys_user_better_free_page tp a1)
  else if a0 =? SYS_user_fork then
    let* s := get in
    let* b := stack_bytes 128 in
    on_kern (sys_user_fork tp (vfs_root_dentry s) (i32 <$> numbers 4 32 b))
  else if a0 =? SYS_user_yield then on_kern (sys_user_yield tp)
  else if a0 =? SYS_user_open then sys_user_open tp a1 (i32 a2)
  else if a0 =? SYS_user_read then sys_user_read tp (i32 a1) a2 a3
  else if a0 =? SYS_user_write then sys_user_write tp (i32 a1) a2 a3
  else if a0 =? SYS_user_lseek then sys_user_lseek tp (i32 a1) (i32 a2) (i32 a3)
  else if a0 =? SYS_user_stat then sys_user_stat tp (i32 a1) a2
  else if a0 =? SYS_user_disk_stat then sys_user_disk_stat tp (i32 a1) a2
  else if a0 =? SYS_user_close then sys_user_close tp (i32 a1)
  else if a0 =? SYS_user_opendir then sys_user_opendir tp a1
  else if a0 =? SYS_user_readdir then sys_user_readdir tp (i32 a1) a2
  else if a0 =? SYS_user_mkdir then sys_user_mkdir tp a1
  else if a0 =? SYS_user_closedir then sys_user_closedir tp (i32 a1)
  else if a0 =? SYS_user_link then sys_user_link tp a1 a2
  else if a0 =? SYS_user_unlink then sys_user_unlink tp a1
  else if a0 =? SYS_user_exec then sys_user_exec tp a1 a2
  else if a0 =? SYS_user_wait then on_kern (sys_user_wait tp (i32 a1))
  else if a0 =? SYS_user_semNew then on_kern (sys_user_semNew a1)
  else if a0 =? SYS_user_semP then on_kern (sys_user_semP tp a1)
  else if a0 =? SYS_user_semV then on_kern (sys_user_semV tp a1)
  else if a0 =? SYS_user_print_backtrace then sys_user_print_backtrace tp (i32 a1)
  else if a0 =? SYS_user_rcwd then sys_user_read_cwd tp a1
  else if a0 =? SYS_user_ccwd then sys_user_change_cwd tp a1
  else halt (Panic "Unknown syscall %ld").

(** The argument registers of a trapframe. *)
Fixpoint load_args (n : nat) (tf i : Z) : SM (list Z) :=
  match n with
  | O => ret []
  | S n' => let* a := on_mem (load (tf + TF_a i)) in let* l := load_args n' tf (i + 1) in ret (a :: l)
  end.

(** [handle_syscall] of kernel/strap.c *)
Definition syscall_trap (tp : nat) (tf : Z) : SM unit :=
  let* epc := on_mem (load (tf + TF_epc)) in
  on_mem (store (tf + TF_epc) (u64 (epc + 4))) ;;;
  let* a := load_args 8 tf 0 in
  let* r := do_syscall tp a in
  on_mem (store (tf + TF_a 0) (u64 r)).

(** [smode_trap_handler] on the whole machine: a system call runs [do_syscall],
    every other trap concerns the kernel proper. *)
Definition smode_trap (tp : nat) : SM unit :=
  let* c := on_kern (get_csr tp) in
  if negb (scause c =? CAUSE_USER_ECALL)
  then on_kern (smode_trap_handler (fun _ _ => halt OutOfFuel) tp)
  else
    when (has (sstatus c) SSTATUS_SPP) (on_kern (kill_current_process tp "usertrap: not from user mode" (-1))) ;;;
    let* cur := on_kern (get_current tp) in
    check (bool_decide (cur = None)) (Panic "assert(current[tp])") ;;;
    let* p := on_kern (deref cur) in
    let* x := on_kern (get_proc p) in
    let* c := on_kern (get_csr tp) in
    on_mem (store (trapframe x + TF_epc) (sepc c)) ;;;
    syscall_trap tp (trapframe x) ;;;
    on_kern (resume_current tp).
End Syscall.
