(* ===== verification/UserIO.v ===== *)
(** * User buffers of the file system calls

    [sys_user_read] and [sys_user_write] (kernel/syscall.c) split a buffer of
    the user at page boundaries, because its pages lie anywhere in physical
    memory.  The loop over the pages of a write, against what it needs of a file
    ([stores]; UserWrite.v has the file of rfs), and what goes wrong in a read. *)
From S2P Require Import Prelude Pmm Vmm Process Sched Fork Heap Strap Pages HashTable CString Snprintf Bytes DebugLine.
From S2P Require Import VfsData Rfs RfsDisk RfsFile RfsDir Vfs VfsRefs ProcFile SpikeFile Hostfs Machine Elf ElfLoad Syscall.

Lemma bytes_from_at m k a i : bytes_from m k a !! i = if decide (i < k)%nat then Some (m (a + Z.of_nat i)) else None.
Proof.
  revert a i. induction k as [|k IH]; intros a i; [done|]. destruct i as [|i]; cbn [bytes_from lookup list_lookup].
  - rewrite decide_True by lia. by rewrite Z.add_0_r.
  - rewrite IH. destruct (decide (i < k)%nat), (decide (S i < S k)%nat); try lia; [|done]. do 2 f_equal. lia.
Qed.

Lemma bytes_from_lookup m k a i : (i < k)%nat -> bytes_from m k a !! i = Some (m (a + Z.of_nat i)).
Proof. intros Hi. rewrite bytes_from_at. by rewrite decide_True. Qed.

Section UserIO.
Context {H : Type} `{Frontend H} `{Linker} `{Buffers}.
#[local] Notation SM := (M (sys H)).

(** The running process of hart [tp] has the bytes [u] at the addresses
    [lo .. lo + n), in the frames [fr] of its page table. *)
Record resident (s : sys H) (tp : nat) (fr : Z -> Z) (u : bmem) (lo n : Z) : Prop := {
  res_proc : exists p x, Process.current (kern (fpages s)) !! tp = Some (Some p) /\ procs (kern (fpages s)) !! p = Some x /\
    pt_wf (mem (pmem s)) (pagetable x) /\
    (forall va, lo <= va < lo + n -> exists w, xlate (mem (pmem s)) (pagetable x) va = Some w /\
      has w PTE_R || has w PTE_W = true /\ PTE2PA w = fr (va / PGSIZE));
  res_ram : forall va, lo <= va < lo + n -> in_ram (fr (va / PGSIZE)) PGSIZE;
  res_bytes : forall va, lo <= va < lo + n -> view (mem (pmem s)) (fr (va / PGSIZE) + va mod PGSIZE) = u va
}.

Lemma user_pagetable_run (s : sys H) tp p x :
  Process.current (kern (fpages s)) !! tp = Some (Some p) -> procs (kern (fpages s)) !! p = Some x ->
  user_pagetable tp s = Ret (pagetable x) s.
Proof.
  intros Hc Hp. unfold user_pagetable. rewrite (bind_Ret _ _ s p s).
  - by rewrite (bind_Ret _ _ _ _ _ (sys_get_proc_run p x s Hp)).
  - apply on_kern_run. unfold self, get_current, bind, deref. by rewrite Hc.
Qed.

Lemma resident_page s tp fr u lo n va :
  resident s tp fr u lo n -> 0 <= lo -> lo + n <= MAXVA -> lo <= va < lo + n ->
  (let* pt := user_pagetable tp in on_mem (lookup_pa pt va)) s = Ret (fr (va / PGSIZE)) s.
Proof.
  intros [(p & x & Hc & Hp & Hwf & Hx) _ _] Hlo Hhi Hva.
  rewrite (bind_Ret _ _ _ _ _ (user_pagetable_run s tp p x Hc Hp)). destruct (Hx va Hva) as (w & Hw & Hrw & <-).
  rewrite (on_mem_run _ s (pmem s) (PTE2PA w) (pmem s) eq_refl).
  - f_equal. by destruct s as [[[]] ? ? ? ? ? ? ? ? ? ? ? ?].
  - rewrite lookup_pa_run by (done || lia). rewrite (proj2 (Z.leb_gt _ _)) by lia. by rewrite Hw, Hrw.
Qed.

Lemma resident_load s tp fr u lo n va len :
  resident s tp fr u lo n -> lo <= va -> va + len <= lo + n -> 0 < len <= PGSIZE - va mod PGSIZE ->
  on_mem (load_bytes (Z.to_nat len) (fr (va / PGSIZE) + va mod PGSIZE)) s = Ret (bytes_from u (Z.to_nat len) va) s.
Proof.
  intros [_ Hram Hb] Hlo Hhi Hlen.
  assert (Hoff : 0 <= va mod PGSIZE < PGSIZE) by klia.
  rewrite (on_mem_run _ s (pmem s) (bytes_from u (Z.to_nat len) va) (pmem s) eq_refl).
  - f_equal. by destruct s as [[[]] ? ? ? ? ? ? ? ? ? ? ? ?].
  - rewrite load_bytes_run.
    2:{ specialize (Hram va ltac:(lia)). unfold in_ram in *. lia. }
    f_equal. apply list_eq. intros j.
    rewrite !bytes_from_at. destruct (decide (j < Z.to_nat len)%nat); [|done]. f_equal.
    rewrite <- (Hb (va + Z.of_nat j)) by lia.
    replace ((va + Z.of_nat j) / PGSIZE) with (va / PGSIZE) by klia.
    f_equal. klia.
Qed.

(** ** Writing *)

Section Write.
Variables (tp : nat) (fd bufva count : Z) (fr : Z -> Z) (u : bmem).

(** What the loop needs of the open file [fd]: a write of the next [len] bytes of the buffer,
    when [k] of them are written, takes them all, and the buffer stays as it is. *)
Record stores (sink : Z -> sys H -> Prop) : Prop := {
  sink_user : forall k s, sink k s -> resident s tp fr u bufva count;
  sink_write : forall k s len, sink k s -> 0 <= k -> k + len <= count -> 0 < len <= PGSIZE ->
    exists s', file_call tp (-1) (do_write fd (bytes_from u (Z.to_nat len) (bufva + k))) s = Ret len s' /\ sink (k + len) s'
}.
Variable sink : Z -> sys H -> Prop.
Hypothesis Hsink : stores sink.
Hypothesis Hva : 0 <= bufva.
Hypothesis Hend : bufva + count <= MAXVA.
Hypothesis Hcount : 0 <= count < 2147483648.

Lemma transfer_write_run fuel : forall i s,
  sink i s -> 0 <= i <= count -> (Z.to_nat (count - i) < fuel)%nat ->
  exists s', transfer fuel tp (write_from tp fd) bufva count i s = Ret count s' /\ sink count s'.
Proof.
  induction fuel as [|fuel IH]; intros i s Hs Hi Hf; [lia|].
  cbn [transfer]. unfold MAXVA in Hend. rewrite (u64_small i) by lia.
  destruct (Z.ltb_spec i count) as [Hlt|Hge].
  2:{ exists s. replace i with count in Hs by lia. split; [|done]. unfold ret. f_equal. rewrite i64_small; lia. }
  rewrite (u64_small (bufva + i)), (u64_small (count - i)) by lia.
  pose proof (resident_page s tp fr u bufva count (bufva + i) (sink_user _ Hsink _ _ Hs) Hva Hend ltac:(lia)) as Hpage.
  rewrite <- bind_assoc, (bind_Ret _ _ _ _ _ Hpage).
  pose proof (res_ram _ _ _ _ _ _ (sink_user _ Hsink _ _ Hs) (bufva + i) ltac:(lia)) as Hram.
  set (va := bufva + i) in *.
  replace (va - ROUNDDOWN va PGSIZE) with (va mod PGSIZE) by (unfold ROUNDDOWN; klia).
  set (len := if count - i <? PGSIZE - va mod PGSIZE then count - i else PGSIZE - va mod PGSIZE).
  assert (Hlen : 0 < len <= PGSIZE - va mod PGSIZE /\ len <= count - i).
  { subst len. assert (0 <= va mod PGSIZE < PGSIZE) by klia.
    destruct (Z.ltb_spec (count - i) (PGSIZE - va mod PGSIZE)); lia. }
  assert (Hoff : 0 <= va mod PGSIZE < PGSIZE) by klia.
  rewrite u64_small by (unfold in_ram in Hram; klia).
  unfold write_from at 1. rewrite !bind_assoc.
  rewrite (bind_Ret _ _ _ _ _ (resident_load s tp fr u bufva count va len (sink_user _ Hsink _ _ Hs) ltac:(lia) ltac:(lia) ltac:(lia))).
  destruct (sink_write _ Hsink i s len Hs ltac:(lia) ltac:(lia) ltac:(kconst; lia)) as (s1 & E1 & Hs1). fold va in E1.
  rewrite !bind_assoc, (bind_Ret _ _ _ _ _ E1), bind_ret_l.
  rewrite (u64_small len) by lia. rewrite i32_small by lia. rewrite Z.ltb_irrefl.
  apply (IH (i + len) s1 Hs1); lia.
Qed.

(** The whole buffer reaches the file, chunk after chunk. *)
Lemma user_write_run s : sink 0 s -> exists s', sys_user_write tp fd bufva count s = Ret count s' /\ sink count s'.
Proof. intros Hs. apply (transfer_write_run (Z.to_nat count + 2) 0 s Hs); lia. Qed.
End Write.

(** ** Reading *)

(** A negative result [e], as [uint64], is not smaller than the length that was
    asked for, and the position it leads to is not smaller than [count]. *)
Lemma transfer_error_run fuel tp (op : Z -> Z -> SM Z) bufva count fr u (s s2 : sys H) (e : Z) :
  resident s tp fr u bufva count -> 0 < count < 2147483648 -> 0 <= bufva -> bufva + count <= MAXVA ->
  -2147483648 <= e < 0 ->
  op (fr (bufva / PGSIZE) + bufva mod PGSIZE) (Z.min count (PGSIZE - bufva mod PGSIZE)) s = Ret (u64 e) s2 ->
  transfer (S (S fuel)) tp op bufva count 0 s = Ret count s2.
Proof.
  intros Hr Hc Hva Hend He Eop. cbn [transfer].
  pose proof (resident_page s tp fr u bufva count bufva Hr Hva Hend ltac:(lia)) as Hpage.
  pose proof (res_ram _ _ _ _ _ _ Hr bufva ltac:(lia)) as Hram. unfold MAXVA in Hend.
  rewrite (u64_small 0), (proj2 (Z.ltb_lt _ _)), Z.add_0_r, Z.sub_0_r by lia.
  rewrite (u64_small bufva), (u64_small count) by lia.
  rewrite <- bind_assoc, (bind_Ret _ _ _ _ _ Hpage).
  replace (bufva - ROUNDDOWN bufva PGSIZE) with (bufva mod PGSIZE) by (unfold ROUNDDOWN; klia).
  assert (Hoff : 0 <= bufva mod PGSIZE < PGSIZE) by klia.
  replace (if count <? PGSIZE - bufva mod PGSIZE then count else PGSIZE - bufva mod PGSIZE)
    with (Z.min count (PGSIZE - bufva mod PGSIZE)) by (destruct (Z.ltb_spec count (PGSIZE - bufva mod PGSIZE)); lia).
  rewrite (u64_small (fr _ + _)) by (unfold in_ram in Hram; klia). rewrite (bind_Ret _ _ _ _ _ Eop).
  assert (Eu : u64 e = e + 18446744073709551616) by klia.
  assert (Ei : i32 (0 + u64 e) = e)
    by (rewrite Eu; unfold i32; destruct (Z.ltb_spec ((0 + (e + 18446744073709551616)) mod 4294967296) 2147483648); klia).
  rewrite Ei, (proj2 (Z.ltb_ge _ _)) by (kconst; lia).
  rewrite (proj2 (Z.ltb_ge (u64 e) count)) by klia. unfold ret. rewrite i64_small by lia. done.
Qed.

(** an error of the file system is reported as success: when [do_read] fails
    with a negative result, [sys_user_read] returns the full [count]. *)
Theorem read_error_is_success tp fd bufva count fr u (s s1 s2 : sys H) b e l :
  resident s tp fr u bufva count -> 0 < count < 2147483648 -> 0 <= bufva -> bufva + count <= MAXVA ->
  let len := Z.min count (PGSIZE - bufva mod PGSIZE) in
  stack_bytes (Z.to_nat len) s = Ret b s1 ->
  file_call tp (-1, []) (do_read b fd len) s1 = Ret (e, l) s2 -> -2147483648 <= e < 0 ->
  in_ram (fr (bufva / PGSIZE) + bufva mod PGSIZE) (Z.of_nat (length l + 1)) ->
  exists s3, sys_user_read tp fd bufva count s = Ret count s3.
Proof.
  intros Hr Hc Hva Hend len Eb Ef He Hram. set (pa := fr (bufva / PGSIZE) + bufva mod PGSIZE) in *.
  destruct (store_bytes_run (l ++ [0]) pa (pmem s2)) as (m & E & _); [by rewrite length_app|].
  exists (set_pmem (set_mem m (pmem s2)) s2). unfold sys_user_read.
  replace (Z.to_nat count + 2)%nat with (S (S (Z.to_nat count))) by lia.
  eapply transfer_error_run; [done..|exact He|]. fold pa len. unfold read_to.
  rewrite (bind_Ret _ _ _ _ _ Eb), (bind_Ret _ _ _ _ _ Ef).
  by rewrite (bind_Ret _ _ _ _ _ (on_mem_run _ s2 (pmem s2) tt _ eq_refl E)).
Qed.

(** [do_read] copies with [strcpy], so a zero byte follows what was read: when
    a page of the user is filled up to its end by bytes that are not zero, the
    first byte of the frame behind it is cleared, whoever owns that frame. *)
Theorem read_clears_next_frame tp fd pa len (s s1 s2 : sys H) b r l :
  0 <= pa -> stack_bytes (Z.to_nat len) s = Ret b s1 ->
  file_call tp (-1, []) (do_read b fd len) s1 = Ret (r, l) s2 ->
  Z.of_nat (length l) = PGSIZE - pa mod PGSIZE -> in_ram pa (Z.of_nat (length l + 1)) ->
  let next := (pa / PGSIZE + 1) * PGSIZE in
  exists s3, read_to tp fd pa len s = Ret (u64 r) s3 /\ view (mem (pmem s3)) next = 0 /\
    forall a, next < a -> view (mem (pmem s3)) a = view (mem (pmem s2)) a.
Proof.
  intros Hpa Eb Ef Hl Hram next.
  destruct (store_bytes_run (l ++ [0]) pa (pmem s2)) as (m & E & Hv & _); [by rewrite length_app|].
  exists (set_pmem (set_mem m (pmem s2)) s2). unfold read_to. rewrite (bind_Ret _ _ _ _ _ Eb), (bind_Ret _ _ _ _ _ Ef).
  rewrite (bind_Ret _ _ _ _ _ (on_mem_run _ s2 (pmem s2) tt _ eq_refl E)). split; [done|].
  assert (Hn : next = pa + Z.of_nat (length l)) by (subst next; klia).
  rewrite pmem_set_pmem. cbn [mem set_mem]. split.
  - rewrite Hv. unfold put. rewrite length_app. cbn [length].
    rewrite (proj2 (Z.leb_le _ _)), (proj2 (Z.ltb_lt _ _)) by lia. cbn [andb].
    replace (Z.to_nat (next - pa)) with (length l) by lia. by rewrite list_lookup_middle.
  - intros a Ha. rewrite Hv. unfold put. rewrite length_app. cbn [length].
    by rewrite (proj2 (Z.ltb_ge a _)), andb_false_r by lia.
Qed.
End UserIO.

(** ** A concrete process

    One page of the user at 4 MB (Vmm.v); descriptor 0 is a file of the host that
    appends what is written and reads as "A"s, descriptor 1 a directory. *)
#[local] Instance io_host : Frontend (list Z) := {|
  host_openat _ _ _ _ h := (5, h);
  host_close _ h := h;
  host_read _ nb h := (nb, replicate (Z.to_nat nb) 65, h);
  host_pread _ nb off h := (0, [], h);
  host_write _ l h := (Z.of_nat (length (take (8 - length h) l)), h ++ take (8 - length h) l);
  host_lseek _ off whence h := (0, h);
  host_fstat _ h := (0, mkHostStat 1 S_IFREG 1 60 1, h);
  host_getmainvars _ h := (0, [], h)
|}.
#[local] Existing Instances sample_linker sample_buffers.

Definition io_pfiles : Z := 2147500032.
Definition io_files : proc_file_management :=
  mkPF 9 (mkFile FD_OPENED 1 1 0 8 :: mkFile FD_OPENED 1 0 0 9 :: replicate 126 (mkFile 0 0 0 0 0)) 2.
(** "hi!" and a zero in the page of the user. *)
Definition io_mem : gmap Z Z :=
  match (store_pfiles io_pfiles io_files ;;; store one_page 2189672) one with Ret _ p => mem p | Stop _ _ => ∅ end.
Definition io_proc : process := mkProc 0 2147483648 0 0 0 0 0 4 (mkHeap 0 0 [] 0) 0 RUNNING None None 0 io_pfiles 0 0 0 0 0.
Definition io_kern : kstate := mkK (set_mem io_mem one) [io_proc] [] [Some 0%nat; None] None 0 0 0 [0; 0] [].
Definition io_sys (h : list Z) : sys (list Z) :=
  mkF (mkMachine io_kern (mkSp [mkSpikeFile 5 3] [0] h) (fun _ => 0) [] (fun _ => []))
    [] ∅ {[ 16 := mkVinode 1 1 60 FILE_I 1 1 [] 1 0 HOSTFS; 17 := mkVinode 2 1 60 DIR_I 1 1 [] 1 0 HOSTFS ]}
    {[ 8 := mkDentry [97] 1 16 0; 9 := mkDentry [98] 1 17 0 ]} ∅ ∅
    (mkTable [] ∅) (mkTable [] ∅) 0 [] [] [].

#[local] Instance pstate_eq_dec : EqDecision pstate.
Proof. solve_decision. Defined.
#[local] Instance file_eq_dec : EqDecision VfsData.file.
Proof. solve_decision. Defined.
#[local] Instance pfm_eq_dec : EqDecision proc_file_management.
Proof. solve_decision. Defined.

Lemma outcome_is {S A} `{EqDecision S} `{EqDecision A} (o : outcome S A) a p :
  match o with Ret b q => bool_decide (b = a) && bool_decide (q = p) | Stop _ _ => false end = true -> o = Ret a p.
Proof. destruct o as [b q|]; [|done]. intros [->%bool_decide_eq_true ->%bool_decide_eq_true]%andb_true_iff. done. Qed.

Lemma io_load : load_pfiles io_pfiles (set_mem io_mem one) = Ret io_files (set_mem io_mem one).
Proof. apply outcome_is. vm_compute. reflexivity. Qed.
Lemma io_store : store_pfiles io_pfiles io_files (set_mem io_mem one) = Ret tt (set_mem io_mem one).
Proof. apply outcome_is. vm_compute. reflexivity. Qed.

Lemma io_call {A} dflt (c : M (fproc (machine (list Z))) A) d d' a :
  c (mkFP (io_sys d) io_files) = Ret a (mkFP (io_sys d') io_files) -> file_call 0 dflt c (io_sys d) = Ret a (io_sys d').
Proof.
  intros E. unfold file_call, fs_call, with_pfiles.
  rewrite (bind_Ret _ _ _ 0%nat (io_sys d)) by reflexivity.
  rewrite (bind_Ret _ _ _ io_proc (io_sys d)) by reflexivity.
  change (Process.pfiles io_proc) with io_pfiles.
  rewrite (bind_Ret _ _ _ io_files (io_sys d)) by exact (on_mem_run _ (io_sys d) _ _ _ eq_refl io_load).
  rewrite E. cbn [fsys ProcFile.pfiles].
  by rewrite (bind_Ret _ _ _ tt (io_sys d')) by exact (on_mem_run _ (io_sys d') _ _ _ eq_refl io_store).
Qed.

(** The tables are those of the address space with one page. *)
Lemma io_tables : tables_agree one_mem io_mem 2147483648.
Proof.
  assert (Hall : forallb (fun t => forallb (fun k => rd io_mem (t + 8 * k) =? rd one_mem (t + 8 * k)) (seqZ 0 512))
                   [2147483648; 2147487744; 2147491840] = true) by (vm_compute; reflexivity).
  intros π t k Hok Ht Hk. rewrite forallb_forall in Hall. apply Z.eqb_eq. revert k Hk.
  assert (Hin : In t [2147483648; 2147487744; 2147491840])
    by (apply one_tbl in Ht as [[_ ->]|[[_ ->]|[_ ->]]]; cbn; auto).
  intros k Hk. specialize (Hall t Hin). rewrite forallb_forall in Hall. apply Hall.
  apply list_elem_of_In, elem_of_seqZ. destruct Hk. lia.
Qed.

Lemma io_resident_in (s : sys (list Z)) n :
  kern (fpages s) = io_kern -> n <= PGSIZE ->
  resident s 0 (fun _ => one_page) (fun va => view io_mem (one_page + va mod PGSIZE)) 4194304 n.
Proof.
  intros Hk Hn. assert (Hm : mem (pmem s) = io_mem) by (unfold pmem; by rewrite Hk). split.
  - exists 0%nat, io_proc. rewrite Hk, Hm. split; [done|]. split; [done|]. split.
    + exact (pt_wf_ext one_mem io_mem 2147483648 (agree_tbl _ _ _ io_tables) (vm_pt _ _ _ one_inv)).
    + intros va Hva. exists (PA2PTE one_page .| prot_to_type 3 1 .| PTE_V). split; [|split; reflexivity].
      change (pagetable io_proc) with 2147483648. rewrite (agree_xlate one_mem io_mem) by exact io_tables.
      unfold xlate. rewrite (leaf_same_page _ _ va 4194304) by klia. reflexivity.
  - intros va _. split; vm_compute; congruence.
  - intros va _. by rewrite Hm.
Qed.
Lemma io_resident d : resident (io_sys d) 0 (fun _ => one_page) (fun va => view io_mem (one_page + va mod PGSIZE)) 4194304 3.
Proof. apply io_resident_in; [done|klia]. Qed.

(** Reading a directory fails, and is reported as three bytes read. *)
Lemma read_error_is_success_witness : exists s3, sys_user_read 0 1 4194304 3 (io_sys []) = Ret 3 s3.
Proof.
  apply (read_error_is_success 0 1 4194304 3 (fun _ => one_page) (fun va => view io_mem (one_page + va mod PGSIZE))
           (io_sys []) (io_sys []) (io_sys []) [0; 0; 0] (-1) []).
  - apply io_resident.
  - lia.
  - lia.
  - vm_compute. congruence.
  - reflexivity.
  - apply (io_call (-1, []) (do_read [0; 0; 0] 1 3)). reflexivity.
  - lia.
  - vm_compute. split; congruence.
Defined.

Lemma read_clears_next_frame_witness :
  exists s3, read_to 0 0 (one_page + 4093) 3 (io_sys []) = Ret 3 s3 /\ view (mem (pmem s3)) (one_page + 4096) = 0.
Proof.
  destruct (read_clears_next_frame 0 0 (one_page + 4093) 3 (io_sys []) (io_sys []) (io_sys []) [0; 0; 0] 3 [65; 65; 65])
    as (s3 & E & Hz & _).
  - vm_compute. congruence.
  - reflexivity.
  - apply (io_call (-1, []) (do_read [0; 0; 0] 0 3)). reflexivity.
  - reflexivity.
  - vm_compute. split; congruence.
  - exists s3. split; [exact E|exact Hz].
Defined.
