(* ===== verification/Dts.v ===== *)
(** * The device tree (spike_interface/dts_parse.c, spike_memory.c, spike_htif.c)

    At start the kernel asks the flattened device tree of the emulator for the
    size of memory and for the host interface.  [fdt_scan] walks the tokens of
    the blob and calls back on nodes and properties; its reference is the
    preorder visit of the tree that the blob denotes. *)
From S2P Require Import Prelude Pmm CString Bytes.

Definition FDT_MAGIC : Z := 3490578157.
Definition FDT_VERSION : Z := 17.
Definition FDT_BEGIN_NODE : Z := 1.
Definition FDT_END_NODE : Z := 2.
Definition FDT_PROP : Z := 3.
Definition FDT_NOP : Z := 4.
Definition FDT_END : Z := 9.

Definition bswap (x : Z) : Z :=
  let y := Z.lor (u32 (Z.shiftl (Z.land x 16711935) 8)) (Z.shiftr (Z.land x 4278255360) 8) in
  Z.lor (u32 (Z.shiftl (Z.land y 65535) 16)) (Z.shiftr (Z.land y 4294901760) 16).

(** The big-endian word at [p], as [bswap] reads it. *)
Definition be32 (m : bmem) (p : Z) : Z := bswap (load_le 4 m p).

(** Names and values are pointers into the blob. *)
Inductive fdt_scan_node : Type :=
  mkNode (parent : option fdt_scan_node) (name address_cells size_cells : Z).
Definition parent (n : fdt_scan_node) : option fdt_scan_node := let 'mkNode p _ _ _ := n in p.
Definition address_cells (n : fdt_scan_node) : Z := let 'mkNode _ _ a _ := n in a.
Definition size_cells (n : fdt_scan_node) : Z := let 'mkNode _ _ _ c := n in c.
Definition set_address_cells (v : Z) (n : fdt_scan_node) : fdt_scan_node := let 'mkNode p x _ c := n in mkNode p x v c.
Definition set_size_cells (v : Z) (n : fdt_scan_node) : fdt_scan_node := let 'mkNode p x a _ := n in mkNode p x a v.

Record fdt_scan_prop : Type := mkProp {
  prop_node : option fdt_scan_node;
  prop_name : Z;
  prop_value : Z;
  prop_len : Z
}.

(** The blob and what the callbacks keep in [extra]. *)
Record scan (E : Type) : Type := mkScan { blob : bmem; extra : E }.
Arguments mkScan {E}. Arguments blob {E}. Arguments extra {E}.

(** A null pointer for [prop] is not tested by the code. *)
Record fdt_cb (E : Type) : Type := mkCb {
  cb_open : option (bmem -> fdt_scan_node -> M E unit);
  cb_prop : option (bmem -> fdt_scan_prop -> M E unit);
  cb_done : option (bmem -> fdt_scan_node -> M E unit);
  cb_close : option (bmem -> fdt_scan_node -> M E Z)
}.
Arguments mkCb {E}. Arguments cb_open {E}. Arguments cb_prop {E}. Arguments cb_done {E}. Arguments cb_close {E}.

(** "#address-cells" and "#size-cells" *)
Definition s_address_cells : list Z := [35; 97; 100; 100; 114; 101; 115; 115; 45; 99; 101; 108; 108; 115].
Definition s_size_cells : list Z := [35; 115; 105; 122; 101; 45; 99; 101; 108; 108; 115].

Section Scan.
Context {E : Type} (cb : fdt_cb E).
#[local] Notation SC := (M (scan E)).

Definition on_extra {A} (c : M E A) : SC A := zoom extra (fun e s => mkScan (blob s) e) c.

(** [if (!last && node && cb->done) cb->done(node, cb->extra)] *)
Definition call_done (last : bool) (node : option fdt_scan_node) : SC unit :=
  match last, node, cb_done cb with
  | false, Some n, Some f => let* s := get in on_extra (f (blob s) n)
  | _, _, _ => ret tt
  end.

(** [while (lex != lex_next)]: overwrite the tokens by [FDT_NOP]. *)
Fixpoint delete_node (fuel : nat) (lex lex_next : Z) : SC unit :=
  if lex =? lex_next then ret tt else
  match fuel with
  | O => halt OutOfFuel
  | S f => modify (fun s => mkScan (store_le 4 (blob s) lex (bswap FDT_NOP)) (extra s)) ;;; delete_node f (lex + 4) lex_next
  end.

(** The loop of [fdt_scan_helper]: [ac] and [sc] are the cell counts of the local
    [child], which keeps them from one child to the next.  The result has the node
    at the end as well. *)
Fixpoint scan_loop (fuel : nat) (lex strings : Z) (node : option fdt_scan_node) (ac sc : Z) (last : bool)
  : SC (Z * option fdt_scan_node) :=
  match fuel with
  | O => halt OutOfFuel
  | S f =>
      let* s := get in
      let m := blob s in
      let tok := be32 m lex in
      if tok =? FDT_NOP then scan_loop f (lex + 4) strings node ac sc last
      else if tok =? FDT_PROP then
        check last (Panic "assert(!last)") ;;;
        let name := strings + be32 m (lex + 8) in
        let len := i32 (be32 m (lex + 4)) in
        let cells := i32 (be32 m (lex + 12)) in
        let node := if strcmp_lit m name s_address_cells =? 0 then set_address_cells cells <$> node else node in
        let node := if strcmp_lit m name s_size_cells =? 0 then set_size_cells cells <$> node else node in
        match cb_prop cb with
        | None => halt (Fault 0)
        | Some g => on_extra (g m (mkProp node name (lex + 12) len))
        end ;;;
        scan_loop f (lex + 4 * (3 + Z.quot (len + 3) 4)) strings node ac sc last
      else if tok =? FDT_BEGIN_NODE then
        call_done last node ;;;
        let child := mkNode node (lex + 4) ac sc in
        match cb_open cb with None => ret tt | Some g => on_extra (g m child) end ;;;
        match strlen f m (lex + 4) with
        | None => halt OutOfFuel
        | Some n =>
            let* '(lex_next, c) := scan_loop f (lex + 4 * (2 + n / 4)) strings (Some child) 2 1 false in
            let child := default child c in
            match cb_close cb with
            | None => ret tt
            | Some g => let* r := on_extra (g m child) in when (r =? -1) (delete_node f lex lex_next)
            end ;;;
            scan_loop f lex_next strings node (address_cells child) (size_cells child) true
        end
      else if tok =? FDT_END_NODE then call_done last node ;;; ret (lex + 4, node)
      else call_done last node ;;; ret (lex, node)
  end.

Definition fdt_scan_helper (fuel : nat) (lex strings : Z) (node : option fdt_scan_node) : SC (Z * option fdt_scan_node) :=
  scan_loop fuel lex strings node 2 1 false.

Definition fdt_scan (fuel : nat) (fdt : Z) : SC unit :=
  let* s := get in
  let m := blob s in
  if negb (be32 m fdt =? FDT_MAGIC) || (FDT_VERSION <? be32 m (fdt + 24)) then ret tt else
  let* _ := fdt_scan_helper fuel (fdt + be32 m (fdt + 8)) (fdt + be32 m (fdt + 12)) None in
  ret tt.
End Scan.

(** A number of [n] cells: [fdt_get_address] and [fdt_get_size] read as many as
    the node says and return the pointer behind them. *)
Fixpoint get_cells (n : nat) (m : bmem) (value result : Z) : Z * Z :=
  match n with
  | O => (value, result)
  | S n' => get_cells n' m (value + 4) (u64 (u64 (Z.shiftl result 32) + be32 m value))
  end.
Definition fdt_get_address (m : bmem) (n : fdt_scan_node) (value : Z) : Z * Z := get_cells (Z.to_nat (address_cells n)) m value 0.
Definition fdt_get_size (m : bmem) (n : fdt_scan_node) (value : Z) : Z * Z := get_cells (Z.to_nat (size_cells n)) m value 0.

(** ** Memory (spike_memory.c) *)

Record mem_scan : Type := mkMemScan { memory : Z; reg_value : Z; reg_len : Z }.
(** The local [scan] and the global [g_mem_size]. *)
Record mem_query : Type := mkMemQuery { m_scan : mem_scan; q_mem_size : Z }.
Definition set_scan (v : mem_scan) (q : mem_query) : mem_query := mkMemQuery v (q_mem_size q).

(** "device_type", "memory", "reg", "compatible", "ucb,htif0" *)
Definition s_device_type : list Z := [100; 101; 118; 105; 99; 101; 95; 116; 121; 112; 101].
Definition s_memory : list Z := [109; 101; 109; 111; 114; 121].
Definition s_reg : list Z := [114; 101; 103].
Definition s_compatible : list Z := [99; 111; 109; 112; 97; 116; 105; 98; 108; 101].
Definition s_htif0 : list Z := [117; 99; 98; 44; 104; 116; 105; 102; 48].

Definition mem_open (m : bmem) (n : fdt_scan_node) : M mem_query unit := modify (set_scan (mkMemScan 0 0 0)).
Definition mem_prop (m : bmem) (p : fdt_scan_prop) : M mem_query unit :=
  if (strcmp_lit m (prop_name p) s_device_type =? 0) && (strcmp_lit m (prop_value p) s_memory =? 0)
  then modify (fun q => set_scan (mkMemScan 1 (reg_value (m_scan q)) (reg_len (m_scan q))) q)
  else if strcmp_lit m (prop_name p) s_reg =? 0
  then modify (fun q => set_scan (mkMemScan (memory (m_scan q)) (prop_value p) (prop_len p)) q)
  else ret tt.

(** [self] is the address of [mem_done]; [par] the node above.  The loop does not
    end when a region takes no cells. *)
Fixpoint mem_regions (fuel : nat) (self : Z) (m : bmem) (par : fdt_scan_node) (value end_ : Z) : M mem_query Z :=
  if end_ - value <=? 0 then ret value else
  match fuel with
  | O => halt OutOfFuel
  | S f =>
      let '(value, base) := fdt_get_address m par value in
      let '(value, size) := fdt_get_size m par value in
      when ((base <=? self) && (self <=? u64 (base + size))) (modify (fun q => mkMemQuery (m_scan q) size)) ;;;
      mem_regions f self m par value end_
  end.

Definition mem_done (self : Z) (m : bmem) (n : fdt_scan_node) : M mem_query unit :=
  let* q := get in
  let s := m_scan q in
  let value := reg_value s in
  let end_ := value + 4 * Z.quot (reg_len s) 4 in
  if memory s =? 0 then ret tt else
  check ((value =? 0) || negb (Z.rem (reg_len s) 4 =? 0)) (Panic "assert(scan->reg_value && scan->reg_len % 4 == 0)") ;;;
  match parent n with
  | None => if end_ - value <=? 0 then check (negb (value =? end_)) (Panic "assert(end == value)") else halt (Fault 0)
  | Some par =>
      let* v := mem_regions (Z.to_nat (end_ - value)) self m par value end_ in
      check (negb (v =? end_)) (Panic "assert(end == value)")
  end.

Definition mem_cb (self : Z) : fdt_cb mem_query := mkCb (Some mem_open) (Some mem_prop) (Some (mem_done self)) None.

(** [stale] is what the stack holds in [scan]. *)
Definition query_mem (fuel : nat) (self : Z) (stale : mem_scan) (fdt : Z) : M (scan mem_query) unit :=
  modify (fun s => mkScan (blob s) (mkMemQuery stale 0)) ;;;
  fdt_scan (mem_cb self) fuel fdt ;;;
  let* s := get in
  check (negb (0 <? q_mem_size (extra s))) (Panic "assert(g_mem_size > 0)").

(** ** The host interface (spike_htif.c) *)

Record htif_query : Type := mkHtifQuery { compat : Z; htif : Z }.

Definition htif_open (m : bmem) (n : fdt_scan_node) : M htif_query unit := modify (fun q => mkHtifQuery 0 (htif q)).
Definition htif_prop (m : bmem) (p : fdt_scan_prop) : M htif_query unit :=
  when ((strcmp_lit m (prop_name p) s_compatible =? 0) && (strcmp_lit m (prop_value p) s_htif0 =? 0))
    (modify (fun q => mkHtifQuery 1 (htif q))).
Definition htif_done (m : bmem) (n : fdt_scan_node) : M htif_query unit :=
  let* q := get in
  if compat q =? 0 then ret tt else modify (fun q => mkHtifQuery (compat q) 1).
Definition htif_cb : fdt_cb htif_query := mkCb (Some htif_open) (Some htif_prop) (Some htif_done) None.

Definition query_htif (fuel : nat) (fdt : Z) : M (scan htif_query) unit := fdt_scan htif_cb fuel fdt.
