(* ===== verification/DtsTree.v ===== *)
(** * What the scan of a device tree computes

    A blob that holds a tree is visited in preorder: every node is opened, its
    properties are shown, it is done, then its children follow.  From this the
    size of memory that [query_mem] finds. *)
From S2P Require Import Prelude Pmm CString Bytes Dts.

(** ** Trees in a blob *)

(** A property (pointers to its name and value, its length) and a node (its name). *)
Record dprop : Type := mkDProp { p_name : Z; p_value : Z; p_len : Z }.
Inductive dnode : Type := DNode (nm : Z) (props : list dprop) (kids : list dnode).

Lemma dnode_induction (P : dnode -> Prop) :
  (forall nm props kids, Forall P kids -> P (DNode nm props kids)) -> forall t, P t.
Proof.
  intros Hstep. fix IH 1. intros [nm props kids]. apply Hstep.
  induction kids as [|t kids IHk]; constructor; [apply IH|exact IHk].
Qed.

Section Layout.
Variables (m : bmem) (strings : Z).

(** The tokens from [a] to [b] are the properties [ps], with padding. *)
Inductive props_at : Z -> list dprop -> Z -> Prop :=
| props_nil a : props_at a [] a
| props_nop a ps b : be32 m a = FDT_NOP -> props_at (a + 4) ps b -> props_at a ps b
| props_cons a len off ps b :
    be32 m a = FDT_PROP -> be32 m (a + 4) = len -> be32 m (a + 8) = off -> 0 <= len < 2147483645 ->
    props_at (a + 4 * (3 + (len + 3) / 4)) ps b ->
    props_at a (mkDProp (strings + off) (a + 12) len :: ps) b.

(** The tokens from [a] to [b] are the node [t], or the nodes [ts]. *)
Inductive node_at : Z -> dnode -> Z -> Prop :=
| node_intro a nm ps ks b c :
    be32 m a = FDT_BEGIN_NODE -> cstr m (a + 4) nm -> props_at (a + 4 * (2 + Z.of_nat (length nm) / 4)) ps b ->
    nodes_at b ks c -> be32 m c = FDT_END_NODE -> node_at a (DNode (a + 4) ps ks) (c + 4)
with nodes_at : Z -> list dnode -> Z -> Prop :=
| nodes_nil a : nodes_at a [] a
| nodes_nop a ks b : be32 m a = FDT_NOP -> nodes_at (a + 4) ks b -> nodes_at a ks b
| nodes_cons a t b ks c : node_at a t b -> nodes_at b ks c -> nodes_at a (t :: ks) c.
End Layout.

Scheme node_at_mut := Induction for node_at Sort Prop
with nodes_at_mut := Induction for nodes_at Sort Prop.
Combined Scheme node_nodes_at_ind from node_at_mut, nodes_at_mut.

(** ** The preorder visit *)

Section Visit.
Context {E : Type} (m : bmem).
Variables (f_open : bmem -> fdt_scan_node -> M E unit) (f_prop : bmem -> fdt_scan_prop -> M E unit)
          (f_done : bmem -> fdt_scan_node -> M E unit).

(** A property may set the cell counts of its node. *)
Definition see_prop (p : dprop) (n : fdt_scan_node) : fdt_scan_node :=
  let cells := i32 (be32 m (p_value p)) in
  let n := if strcmp_lit m (p_name p) s_address_cells =? 0 then set_address_cells cells n else n in
  if strcmp_lit m (p_name p) s_size_cells =? 0 then set_size_cells cells n else n.

Fixpoint visit_props (n : fdt_scan_node) (ps : list dprop) : M E fdt_scan_node :=
  match ps with
  | [] => ret n
  | p :: ps' =>
      let n := see_prop p n in
      f_prop m (mkProp (Some n) (p_name p) (p_value p) (p_len p)) ;;;
      visit_props n ps'
  end.

(** Siblings: each starts with the cell counts that the one before it ended with. *)
Definition siblings (v : Z * Z -> dnode -> M E (Z * Z)) : Z * Z -> list dnode -> M E (Z * Z) :=
  fix go cells l := match l with [] => ret cells | t :: l' => let* cells := v cells t in go cells l' end.

(** The node starts with the cell counts [cells]; the result is what it ends with. *)
Fixpoint visit (above : option fdt_scan_node) (cells : Z * Z) (t : dnode) : M E (Z * Z) :=
  let 'DNode nm ps ks := t in
  let n := mkNode above nm (fst cells) (snd cells) in
  f_open m n ;;;
  let* n := visit_props n ps in
  f_done m n ;;;
  siblings (visit (Some n)) (2, 1) ks ;;;
  ret (address_cells n, size_cells n).
End Visit.

(** ** The scan is the visit *)

Section ScanVisit.
Context {E : Type} (m : bmem) (strings : Z).
Variables (f_open : bmem -> fdt_scan_node -> M E unit) (f_prop : bmem -> fdt_scan_prop -> M E unit)
          (f_done : bmem -> fdt_scan_node -> M E unit).
#[local] Notation cb := (mkCb (Some f_open) (Some f_prop) (Some f_done) None).
#[local] Notation vis := (visit m f_open f_prop f_done).

Lemma on_extra_seq {A B C} (c : M E A) (k : A -> M E B) (h : B -> M (scan E) C) (e : E) :
  bind (on_extra (bind c k)) h (mkScan m e) = bind (on_extra c) (fun a => bind (on_extra (k a)) h) (mkScan m e).
Proof. unfold on_extra, zoom, bind. cbn [extra blob]. by destruct (c e). Qed.

(** Two continuations need only agree on this blob. *)
Lemma on_extra_ext {A B} (c : M E A) (k k' : A -> M (scan E) B) (e : E) :
  (forall a e', k a (mkScan m e') = k' a (mkScan m e')) -> bind (on_extra c) k (mkScan m e) = bind (on_extra c) k' (mkScan m e).
Proof. intros Hk. unfold on_extra, zoom, bind. cbn [extra blob]. by destruct (c e). Qed.

Lemma call_done_ext {B} last node (k k' : unit -> M (scan E) B) e :
  (forall a e', k a (mkScan m e') = k' a (mkScan m e')) ->
  bind (call_done cb last node) k (mkScan m e) = bind (call_done cb last node) k' (mkScan m e).
Proof.
  intros Hk. destruct last, node; cbn [call_done cb_done]; try by apply Hk.
  unfold bind at 2 4, get. cbn. by apply (on_extra_ext (f_done m f) k k').
Qed.

Lemma props_run a ps b :
  props_at m strings a ps b -> a <= b /\
  forall f, b - a <= Z.of_nat f -> exists f', Z.of_nat f - (b - a) <= Z.of_nat f' /\ forall n ac sc e,
    scan_loop cb f a strings (Some n) ac sc false (mkScan m e) =
    (let* n' := on_extra (visit_props m f_prop n ps) in scan_loop cb f' b strings (Some n') ac sc false) (mkScan m e).
Proof.
  induction 1 as [a|a ps b Ht _ [Hle IH]|a len off ps b Ht Hl Ho Hlen _ [Hle IH]].
  - split; [lia|]. intros f _. exists f. split; [lia|done].
  - split; [lia|]. intros [|f] Hf; [lia|]. destruct (IH f) as (f' & Hf' & Er); [lia|]. exists f'. split; [lia|].
    intros n ac sc e. cbn [scan_loop]. unfold bind at 1, get. cbn [blob]. rewrite Ht. cbn. apply Er.
  - assert (Hq : 0 <= (len + 3) / 4) by (apply Z.div_pos; lia).
    split; [lia|]. intros [|f] Hf; [lia|]. destruct (IH f) as (f' & Hf' & Er); [lia|]. exists f'. split; [lia|].
    intros n ac sc e. cbn [scan_loop visit_props]. unfold bind at 1, get. cbn [blob]. rewrite Ht. cbn [Z.eqb FDT_PROP FDT_NOP Pos.eqb].
    unfold check. rewrite bind_ret_l. rewrite Hl, Ho, (i32_small len) by lia. rewrite Z.quot_div_nonneg by lia.
    cbn [cb_prop]. set (n1 := see_prop m _ n).
    replace (if strcmp_lit m (strings + off) s_size_cells =? 0 then _ else _) with (Some n1)
      by (subst n1; unfold see_prop; cbn [p_name p_value]; by repeat destruct (_ =? 0)).
    cbn [p_name p_value p_len]. rewrite on_extra_seq.
    apply on_extra_ext. intros [] e'. by rewrite Er.
Qed.

Lemma bind_cong {S A B} (c c' : M S A) (k : A -> M S B) s : c s = c' s -> bind c k s = bind c' k s.
Proof. unfold bind. by intros ->. Qed.

Lemma nodes_run :
  (forall a t b, node_at m strings a t b -> a + 8 <= b /\
     forall f above ac sc last e, b - a <= Z.of_nat f ->
       scan_loop cb (S f) a strings above ac sc last (mkScan m e) =
       (call_done cb last above ;;;
        let* cells := on_extra (vis above (ac, sc) t) in
        scan_loop cb f b strings above (fst cells) (snd cells) true) (mkScan m e)) /\
  (forall b ks c, nodes_at m strings b ks c -> b <= c /\ (be32 m c = FDT_END_NODE ->
     forall f n ac sc last e, c - b < Z.of_nat f ->
       scan_loop cb f b strings (Some n) ac sc last (mkScan m e) =
       (call_done cb last (Some n) ;;;
        on_extra (siblings (vis (Some n)) (ac, sc) ks) ;;;
        ret (c + 4, Some n)) (mkScan m e))).
Proof.
  apply node_nodes_at_ind.
  - intros a nm ps ks b c Ht Hnm Hps Hks [Hbc IH] Hend. destruct (props_run _ _ _ Hps) as [Hab Hp].
    assert (Hq : 0 <= Z.of_nat (length nm) / 4 /\ Z.of_nat (length nm) < 4 * (Z.of_nat (length nm) / 4) + 4) by klia.
    split; [lia|]. intros f above ac sc last e Hf.
    destruct (Hp f) as (f' & Hf' & Er); [lia|].
    cbn [scan_loop]. unfold bind at 1, get. cbn [blob]. rewrite Ht. cbn [Z.eqb FDT_BEGIN_NODE FDT_PROP FDT_NOP Pos.eqb].
    apply call_done_ext. intros [] e1. cbn [cb_open cb_close].
    cbn [visit fst snd]. rewrite on_extra_seq. apply on_extra_ext. intros [] e2.
    unfold strlen. rewrite (strlen_from_run m (a + 4) (a + 4) nm f Hnm) by lia.
    replace (a + 4 + Z.of_nat (length nm) - (a + 4)) with (Z.of_nat (length nm)) by lia.
    rewrite (bind_cong _ _ _ _ (Er _ _ _ _)), bind_assoc, on_extra_seq. apply on_extra_ext. intros n1 e3.
    rewrite (bind_cong _ _ _ _ (IH Hend f' n1 2 1 false e3 ltac:(lia))), bind_assoc.
    cbn [call_done cb_done]. unfold bind at 2, get. cbn [blob].
    rewrite on_extra_seq. apply on_extra_ext. intros [] e4. rewrite bind_assoc, on_extra_seq. apply on_extra_ext. done.
  - intros a. split; [lia|]. intros Hend [|f] n ac sc last e Hf; [lia|]. cbn [scan_loop siblings].
    unfold bind at 1, get. cbn [blob]. rewrite Hend. cbn. apply call_done_ext. by intros [] e'.
  - intros a ks b Ht _ [Hle IH]. split; [lia|]. intros Hend [|f] n ac sc last e Hf; [lia|]. cbn [scan_loop].
    unfold bind at 1, get. cbn [blob]. rewrite Ht. cbn. apply IH; [done|lia].
  - intros a t b ks c _ [Hab IHt] _ [Hbc IHk]. split; [lia|]. intros Hend [|f] n ac sc last e Hf; [lia|].
    rewrite IHt by lia. apply call_done_ext. intros [] e1. cbn [siblings].
    rewrite on_extra_seq. apply on_extra_ext. intros [ac' sc'] e2. cbn [fst snd].
    rewrite IHk by (done || lia). done.
Qed.

Lemma fdt_scan_run fdt t b fuel e :
  be32 m fdt = FDT_MAGIC -> be32 m (fdt + 24) <= FDT_VERSION -> strings = fdt + be32 m (fdt + 12) ->
  let lex := fdt + be32 m (fdt + 8) in
  node_at m strings lex t b -> be32 m b = FDT_END -> b - lex + 2 <= Z.of_nat fuel ->
  fdt_scan cb fuel fdt (mkScan m e) = (let* _ := on_extra (vis None (2, 1) t) in ret tt) (mkScan m e).
Proof.
  intros Hm Hv Hs lex Ht Hend Hf. unfold fdt_scan, fdt_scan_helper. unfold bind at 1, get. cbn [blob].
  rewrite Hm, Z.eqb_refl, (proj2 (Z.ltb_ge _ _)) by done. cbn [negb orb]. fold lex. rewrite <- Hs.
  destruct (proj1 nodes_run _ _ _ Ht) as [Hlb Er]. destruct fuel as [|[|f]]; [lia|lia|].
  rewrite (bind_cong _ _ _ _ (Er (S f) None 2 1 false e ltac:(lia))), bind_assoc. cbn [call_done]. rewrite bind_ret_l, bind_assoc.
  apply on_extra_ext. intros cells e'. cbn [scan_loop]. unfold bind, get. cbn [blob]. by rewrite Hend.
Qed.

(** [fdt_scan] calls back on the device tree in preorder: for a blob that holds
    the tree [t], opening, properties and completion of every node come as in the
    visit of [t], whatever padding the blob has; a bound of one step per byte
    is enough. *)
Theorem fdt_scan_correct fdt t b fuel e :
  be32 m fdt = FDT_MAGIC -> be32 m (fdt + 24) <= FDT_VERSION -> strings = fdt + be32 m (fdt + 12) ->
  let lex := fdt + be32 m (fdt + 8) in
  node_at m strings lex t b -> be32 m b = FDT_END -> b - lex + 2 <= Z.of_nat fuel ->
  fdt_scan cb fuel fdt (mkScan m e) = (let* _ := on_extra (vis None (2, 1) t) in ret tt) (mkScan m e).
Proof. apply fdt_scan_run. Qed.
End ScanVisit.

(** ** The size of memory *)

Section Memory.
Variables (m : bmem) (self : Z).

Definition str_is (p : Z) (lit : list Z) : bool := strcmp_lit m p lit =? 0.
Definition marks_memory (p : dprop) : bool := str_is (p_name p) s_device_type && str_is (p_value p) s_memory.
Definition gives_reg (p : dprop) : bool := negb (marks_memory p) && str_is (p_name p) s_reg.

(** The node after its properties, and the property "reg" that counts. *)
Definition seen (ps : list dprop) (n : fdt_scan_node) : fdt_scan_node := fold_left (fun n p => see_prop m p n) ps n.
Definition reg_of (ps : list dprop) : option dprop := list.last (filter gives_reg ps).

(** The regions (base and size) in [k] entries of "reg" under the node [par]. *)
Fixpoint regions (k : nat) (par : fdt_scan_node) (v : Z) : list (Z * Z) :=
  match k with
  | O => []
  | S k' =>
      let '(v, base) := fdt_get_address m par v in
      let '(v, size) := fdt_get_size m par v in
      (base, size) :: regions k' par v
  end.

(** The regions that a node describes; [None] when it is not as the format demands. *)
Definition node_regions (above : option fdt_scan_node) (ps : list dprop) : option (list (Z * Z)) :=
  if negb (existsb marks_memory ps) then Some [] else
  match reg_of ps, above with
  | Some r, Some par =>
      let w := 4 * (address_cells par + size_cells par) in
      if (0 <=? address_cells par) && (0 <=? size_cells par) && (0 <? w) && negb (p_value r =? 0) &&
         (0 <=? p_len r) && (p_len r mod w =? 0)
      then Some (regions (Z.to_nat (p_len r / w)) par (p_value r)) else None
  | _, _ => None
  end.

Definition cells_after (cells : Z * Z) (t : dnode) : Z * Z :=
  let 'DNode nm ps _ := t in
  let n := seen ps (mkNode None nm (fst cells) (snd cells)) in (address_cells n, size_cells n).

Definition kids_regions (v : Z * Z -> dnode -> option (list (Z * Z))) : Z * Z -> list dnode -> option (list (Z * Z)) :=
  fix go cells l :=
    match l with
    | [] => Some []
    | t :: l' => r ← v cells t; rs ← go (cells_after cells t) l'; Some (r ++ rs)
    end.
Fixpoint tree_regions (above : option fdt_scan_node) (cells : Z * Z) (t : dnode) : option (list (Z * Z)) :=
  let 'DNode nm ps ks := t in
  let n := seen ps (mkNode above nm (fst cells) (snd cells)) in
  r ← node_regions above ps; rs ← kids_regions (tree_regions (Some n)) (2, 1) ks; Some (r ++ rs).

(** The size of the last region that holds the kernel. *)
Definition own_size (rs : list (Z * Z)) (g : Z) : Z :=
  fold_left (fun g r => if (fst r <=? self) && (self <=? u64 (fst r + snd r)) then snd r else g) rs g.

Lemma seen_node above nm ac sc ps :
  exists ac' sc', seen ps (mkNode above nm ac sc) = mkNode above nm ac' sc' /\ cells_after (ac, sc) (DNode nm ps []) = (ac', sc').
Proof.
  unfold cells_after, seen. cbn [fst snd]. generalize (@None fdt_scan_node). intros o. revert ac sc.
  induction ps as [|p ps IH]; intros ac sc; [by exists ac, sc|]. cbn [fold_left].
  assert (Hp : exists a1 c1, forall o', see_prop m p (mkNode o' nm ac sc) = mkNode o' nm a1 c1)
    by (unfold see_prop; destruct (_ =? 0), (_ =? 0); by eexists _, _).
  destruct Hp as (a1 & c1 & Hp). rewrite !Hp. apply IH.
Qed.

Lemma visit_props_mem ps : forall n q,
  visit_props m mem_prop n ps q =
    Ret (seen ps n)
      (set_scan (mkMemScan (if existsb marks_memory ps then 1 else memory (m_scan q))
                           (from_option p_value (reg_value (m_scan q)) (reg_of ps))
                           (from_option p_len (reg_len (m_scan q)) (reg_of ps))) q).
Proof.
  induction ps as [|p ps IH]; intros n q; [by destruct q as [[]]|]. cbn [visit_props].
  assert (Ep : mem_prop m (mkProp (Some (see_prop m p n)) (p_name p) (p_value p) (p_len p)) q =
    Ret tt (if marks_memory p then set_scan (mkMemScan 1 (reg_value (m_scan q)) (reg_len (m_scan q))) q
            else if gives_reg p then set_scan (mkMemScan (memory (m_scan q)) (p_value p) (p_len p)) q else q)).
  { unfold mem_prop, gives_reg, marks_memory, str_is. cbn [prop_name prop_value prop_len].
    by destruct (strcmp_lit m (p_name p) s_device_type =? 0), (strcmp_lit m (p_value p) s_memory =? 0),
      (strcmp_lit m (p_name p) s_reg =? 0). }
  rewrite (bind_Ret _ _ _ _ _ Ep), IH. unfold reg_of. cbn [existsb fold_left seen]. rewrite filter_cons.
  destruct (marks_memory p) eqn:Em.
  - rewrite decide_False by (unfold gives_reg; rewrite Em; by intros []). cbn [orb m_scan set_scan memory reg_value reg_len].
    by destruct (existsb marks_memory ps).
  - cbn [orb]. destruct (gives_reg p) eqn:Eg; [rewrite decide_True by done|rewrite decide_False by (by intros [])];
      [|done]. rewrite last_cons. cbn [m_scan set_scan memory reg_value reg_len].
    by destruct (list.last (filter gives_reg ps)).
Qed.

Lemma get_cells_end n v r : fst (get_cells n m v r) = v + 4 * Z.of_nat n.
Proof. revert v r. induction n as [|n IH]; intros v r; cbn [get_cells fst]; [lia|]. rewrite IH. lia. Qed.

Lemma mem_regions_run k : forall fuel par v q,
  0 <= address_cells par -> 0 <= size_cells par -> 0 < address_cells par + size_cells par -> (k <= fuel)%nat ->
  let e := v + Z.of_nat k * (4 * (address_cells par + size_cells par)) in
  mem_regions fuel self m par v e q = Ret e (mkMemQuery (m_scan q) (own_size (regions k par v) (q_mem_size q))).
Proof.
  induction k as [|k IH]; intros fuel par v q Ha Hs Hw Hf e.
  - destruct fuel; cbn [mem_regions]; rewrite (proj2 (Z.leb_le _ _)) by (subst e; lia); unfold ret; f_equal; [subst e; lia|by destruct q|subst e; lia|by destruct q].
  - destruct fuel as [|fuel]; [lia|]. cbn [mem_regions regions]. rewrite (proj2 (Z.leb_gt _ _)) by (subst e; nia).
    unfold fdt_get_address, fdt_get_size.
    pose proof (get_cells_end (Z.to_nat (address_cells par)) v 0) as E1.
    destruct (get_cells (Z.to_nat (address_cells par)) m v 0) as [v1 base]. cbn [fst] in E1.
    pose proof (get_cells_end (Z.to_nat (size_cells par)) v1 0) as E2.
    destruct (get_cells (Z.to_nat (size_cells par)) m v1 0) as [v2 size]. cbn [fst] in E2.
    replace e with (v2 + Z.of_nat k * (4 * (address_cells par + size_cells par))) by (subst e; lia).
    unfold own_size. cbn [fold_left fst snd]. unfold when.
    destruct ((base <=? self) && (self <=? u64 (base + size))).
    + rewrite (bind_Ret _ _ q tt (mkMemQuery (m_scan q) size)) by done. by rewrite IH by (done || lia).
    + rewrite bind_ret_l. by rewrite IH by (done || lia).
Qed.

Lemma mem_done_run above ps rs n q :
  node_regions above ps = Some rs -> parent n = above ->
  m_scan q = mkMemScan (if existsb marks_memory ps then 1 else 0) (from_option p_value 0 (reg_of ps)) (from_option p_len 0 (reg_of ps)) ->
  mem_done self m n q = Ret tt (mkMemQuery (m_scan q) (own_size rs (q_mem_size q))).
Proof.
  unfold node_regions, mem_done. intros Hr <- Hq. unfold bind at 1, get. rewrite Hq. cbn [memory reg_value reg_len].
  destruct (existsb marks_memory ps); cbn [negb Z.eqb] in *; [|simplify_eq; rewrite <- Hq; by destruct q].
  destruct (reg_of ps) as [r|]; [|done]. destruct (parent n) as [par|]; [|done]. cbn [from_option] in *.
  set (w := 4 * (address_cells par + size_cells par)) in *.
  destruct (_ && _) eqn:Ec in Hr; [|done]. simplify_eq. bsplit.
  assert (Hdiv : p_len r = w * (p_len r / w)) by (pose proof (Z.div_mod (p_len r) w); lia).
  assert (Hk : 0 <= p_len r / w) by (apply Z.div_pos; lia).
  rewrite Z.quot_div_nonneg, Z.rem_mod_nonneg by lia.
  assert (Hm4 : p_len r mod 4 = 0) by (rewrite Hdiv; subst w; rewrite <- Z.mul_assoc, Z.mul_comm; apply Z_mod_mult).
  rewrite Hm4, (proj2 (Z.eqb_neq _ 0)) by done. cbn [Z.eqb negb orb check]. rewrite bind_ret_l.
  replace (p_value r + 4 * (p_len r / 4)) with (p_value r + Z.of_nat (Z.to_nat (p_len r / w)) * w)
    by (rewrite Z2Nat.id by done; pose proof (Z.div_mod (p_len r) 4); lia).
  set (k := Z.to_nat (p_len r / w)). assert (Hf : (k <= Z.to_nat (p_value r + Z.of_nat k * w - p_value r))%nat) by nia.
  rewrite (bind_Ret _ _ _ _ _ (mem_regions_run k _ par (p_value r) q ltac:(lia) ltac:(lia) ltac:(lia) Hf)).
  by rewrite Z.eqb_refl, Hq.
Qed.

(** The visit of [t] finds its regions. *)
Definition mem_visited (t : dnode) : Prop := forall above cells rs q,
  tree_regions above cells t = Some rs -> exists sc,
  visit m mem_open mem_prop (mem_done self) above cells t q =
    Ret (cells_after cells t) (mkMemQuery sc (own_size rs (q_mem_size q))).

Lemma siblings_mem n l : forall cells rl g,
  Forall mem_visited l -> kids_regions (tree_regions (Some n)) cells l = Some rl ->
  exists c s, siblings (visit m mem_open mem_prop (mem_done self) (Some n)) cells l g =
    Ret c (mkMemQuery s (own_size rl (q_mem_size g))).
Proof.
  induction l as [|t l IHl]; intros cells rl g Hall Hrl; cbn [kids_regions siblings] in *.
  - simplify_eq. exists cells, (m_scan g). by destruct g.
  - apply list.Forall_cons in Hall as [Ht Hl]. destruct (tree_regions _ cells t) as [r1|] eqn:E1; [|done]. cbn [mbind option_bind] in Hrl.
    destruct (kids_regions _ _ l) as [r2|] eqn:E2; [|done]. cbn [mbind option_bind] in Hrl. simplify_eq.
    destruct (Ht _ _ _ g E1) as [s1 Ev]. rewrite (bind_Ret _ _ _ _ _ Ev).
    destruct (IHl _ _ (mkMemQuery s1 (own_size r1 (q_mem_size g))) Hl E2) as (c & s2 & Es). exists c, s2. rewrite Es. cbn [q_mem_size].
    unfold own_size. by rewrite fold_left_app.
Qed.

Lemma visit_mem t : mem_visited t.
Proof.
  induction t as [nm ps ks IH] using dnode_induction. intros above [ac sc] rs q Hr. cbn [tree_regions fst snd] in Hr.
  destruct (node_regions above ps) as [r|] eqn:En; [|done]. cbn [mbind option_bind] in Hr.
  destruct (kids_regions _ (2, 1) ks) as [rk|] eqn:Ek; [|done]. cbn [mbind option_bind] in Hr. simplify_eq.
  destruct (seen_node above nm ac sc ps) as (ac' & sc' & Hs & Ha). rewrite Hs in Ek.
  cbn [visit fst snd]. rewrite (bind_Ret _ _ q tt (set_scan (mkMemScan 0 0 0) q)) by done.
  rewrite (bind_Ret _ _ _ _ _ (visit_props_mem ps _ _)), Hs. cbn [m_scan set_scan memory reg_value reg_len].
  rewrite (bind_Ret _ _ _ _ _ (mem_done_run above ps r (mkNode above nm ac' sc') (mkMemQuery _ (q_mem_size q)) En eq_refl eq_refl)).
  cbn [q_mem_size m_scan].
  edestruct (siblings_mem (mkNode above nm ac' sc') ks (2, 1) rk) as (c & s & Es); [exact IH|exact Ek|].
  exists s. cbn [q_mem_size] in Es. rewrite (bind_Ret _ _ _ _ _ Es). cbn [address_cells size_cells].
  unfold own_size. rewrite fold_left_app. unfold ret. f_equal. symmetry. exact Ha.
Qed.

(** ** What the format says of memory

    As the specification of the format has it: a node without "#address-cells"
    has two, one without "#size-cells" has one, and "reg" of a node is read in
    the counts of its parent.  Numbers are big-endian. *)

Definition declared (lit : list Z) (ps : list dprop) : option Z :=
  (fun p => i32 (be32 m (p_value p))) <$> list.last (filter (fun p => str_is (p_name p) lit) ps).

Definition cell_counts (ps : list dprop) : Z * Z :=
  (default 2 (declared s_address_cells ps), default 1 (declared s_size_cells ps)).

(** The number in [n] cells, and the regions in [k] entries of "reg". *)
Fixpoint number (n : nat) (v : Z) : Z :=
  match n with O => 0 | S n' => be32 m v * 2 ^ (32 * Z.of_nat n') + number n' (v + 4) end.

Fixpoint reg_entries (k : nat) (ac sc v : Z) : list (Z * Z) :=
  match k with
  | O => []
  | S k' => (u64 (number (Z.to_nat ac) v), u64 (number (Z.to_nat sc) (v + 4 * ac))) ::
            reg_entries k' ac sc (v + 4 * (ac + sc))
  end.

Definition memory_entries (above : option (Z * Z)) (ps : list dprop) : option (list (Z * Z)) :=
  if negb (existsb marks_memory ps) then Some [] else
  match reg_of ps, above with
  | Some r, Some (ac, sc) =>
      let w := 4 * (ac + sc) in
      if (0 <=? ac) && (0 <=? sc) && (0 <? w) && negb (p_value r =? 0) && (0 <=? p_len r) && (p_len r mod w =? 0)
      then Some (reg_entries (Z.to_nat (p_len r / w)) ac sc (p_value r)) else None
  | _, _ => None
  end.

(** The memory that the tree [t] describes, in the order of its nodes. *)
Fixpoint fdt_memory (above : option (Z * Z)) (t : dnode) : option (list (Z * Z)) :=
  let 'DNode nm ps ks := t in
  r ← memory_entries above ps;
  rs ← mapM (fdt_memory (Some (cell_counts ps))) ks;
  Some (r ++ concat rs).

(** A node with memory among its children gives its cell counts. *)
Definition is_memory (t : dnode) : bool := let 'DNode _ ps _ := t in existsb marks_memory ps.

Fixpoint counted (t : dnode) : bool :=
  let 'DNode _ ps ks := t in
  (negb (existsb is_memory ks) ||
   (bool_decide (is_Some (declared s_address_cells ps)) && bool_decide (is_Some (declared s_size_cells ps)))) &&
  forallb counted ks.

Lemma get_cells_number n : forall v r, 0 <= r < 18446744073709551616 ->
  get_cells n m v r = (v + 4 * Z.of_nat n, u64 (r * 2 ^ (32 * Z.of_nat n) + number n v)).
Proof.
  induction n as [|n IH]; intros v r Hr; cbn [get_cells number].
  - change (2 ^ (32 * Z.of_nat 0)) with 1. rewrite u64_small by lia. f_equal; lia.
  - rewrite IH by apply u64_range. f_equal; [lia|]. rewrite Z.shiftl_mul_pow2 by lia.
    replace (32 * Z.of_nat (S n)) with (32 + 32 * Z.of_nat n) by lia. rewrite Z.pow_add_r by lia.
    unfold u64. rewrite (Z.add_mod_idemp_l (r * 2 ^ 32)) by lia.
    rewrite <- (Z.add_mod_idemp_l (_ * _)), Z.mul_mod_idemp_l, Z.add_mod_idemp_l by lia. f_equal. lia.
Qed.

Lemma regions_entries k : forall par v,
  0 <= address_cells par -> 0 <= size_cells par ->
  regions k par v = reg_entries k (address_cells par) (size_cells par) v.
Proof.
  induction k as [|k IH]; intros par v Ha Hs; cbn [regions reg_entries]; [done|].
  unfold fdt_get_address, fdt_get_size. rewrite !get_cells_number by lia. rewrite !Z2Nat.id by done.
  rewrite !Z.mul_0_l, !Z.add_0_l, IH by done. do 2 f_equal. lia.
Qed.

Lemma node_entries above ps :
  node_regions above ps = memory_entries ((fun n => (address_cells n, size_cells n)) <$> above) ps.
Proof.
  unfold node_regions, memory_entries. destruct (existsb marks_memory ps); [|done]. cbn [negb].
  destruct (reg_of ps) as [r|]; [|done]. destruct above as [par|]; [|done]. cbn [fmap option_fmap option_map].
  destruct (_ && _) eqn:E; [|done]. bsplit. by rewrite regions_entries.
Qed.

Lemma seen_counts ps : forall above nm ac sc,
  let n := seen ps (mkNode above nm ac sc) in
  (address_cells n, size_cells n) = (default ac (declared s_address_cells ps), default sc (declared s_size_cells ps)).
Proof.
  induction ps as [|p ps IH]; intros above nm ac sc; [done|]. cbn [seen fold_left].
  unfold declared, see_prop. cbn [p_value]. rewrite !filter_cons. fold (str_is (p_name p) s_address_cells) (str_is (p_name p) s_size_cells).
  destruct (str_is (p_name p) s_address_cells), (str_is (p_name p) s_size_cells); cbn [set_address_cells set_size_cells];
    (etransitivity; [apply IH|]); unfold declared; repeat ((rewrite decide_True by done) || (rewrite decide_False by (by intros [])));
    rewrite ?last_cons; by repeat destruct (list.last (filter _ ps)).
Qed.

(** What the scan finds is what the format says, where the counts are given. *)
Lemma tree_memory t : forall above above' cells, counted t = true ->
  (is_memory t = true -> (fun n => (address_cells n, size_cells n)) <$> above = above') ->
  tree_regions above cells t = fdt_memory above' t.
Proof.
  induction t as [nm ps ks IH] using dnode_induction. intros above above' [ac sc] Hc Hab. cbn [tree_regions fdt_memory counted is_memory fst snd] in *.
  apply andb_true_iff in Hc as [Hdecl Hks].
  assert (En : node_regions above ps = memory_entries above' ps).
  { rewrite node_entries. destruct (existsb marks_memory ps) eqn:Em; [by rewrite Hab|]. unfold memory_entries. by rewrite Em. }
  rewrite En. destruct (memory_entries above' ps) as [r|]; [|done]. cbn [mbind option_bind].
  set (n := seen ps (mkNode above nm ac sc)). pose proof (seen_counts ps above nm ac sc) as Hn. cbn zeta in Hn. fold n in Hn.
  assert (Hkid : forall t, t ∈ ks -> is_memory t = true -> (address_cells n, size_cells n) = cell_counts ps).
  { intros t Ht Hm. assert (Hex : existsb is_memory ks = true) by (apply existsb_exists; exists t; split; [by apply list_elem_of_In|done]).
    rewrite Hex in Hdecl. cbn [negb orb] in Hdecl. apply andb_true_iff in Hdecl as [Ha%bool_decide_eq_true_1 Hs%bool_decide_eq_true_1].
    destruct Ha as [a Ea], Hs as [c Ec].
    rewrite Hn. unfold cell_counts. by rewrite Ea, Ec. }
  clearbody n. clear Hdecl Hab En Hn.
  assert (Ek : forall cells, kids_regions (tree_regions (Some n)) cells ks = (fun rs => concat rs) <$> mapM (fdt_memory (Some (cell_counts ps))) ks).
  { induction ks as [|t ks IHk]; intros cells; [done|]. cbn [kids_regions mapM]. apply list.Forall_cons in IH as [IHt IHks].
    cbn [forallb] in Hks. apply andb_true_iff in Hks as [Ht Hks].
    rewrite (IHt (Some n) (Some (cell_counts ps)) cells Ht) by (intros Hm; cbn; f_equal; apply (Hkid t); [by left|done]).
    destruct (fdt_memory _ t); [|done]. cbn [mbind option_bind].
    rewrite IHk by (try done; intros t' Hin; apply Hkid; by right). by destruct (mapM _ ks). }
  rewrite Ek. by destruct (mapM _ ks).
Qed.

(** C23: [query_mem] finds the size of memory.  For a blob that holds the tree
    [t], in which a node with memory among its children gives its two cell
    counts, and whose memory nodes describe the regions [rs] as the format
    defines them, it is the size of the region that the kernel lies in (of the
    last one, if there are several), and without such a region the kernel
    panics.  (Where a node does not give its counts the code takes those of the
    sibling before it, and not the defaults 2 and 1 of the format.) *)
Theorem query_mem_correct fdt t b fuel stale e rs :
  be32 m fdt = FDT_MAGIC -> be32 m (fdt + 24) <= FDT_VERSION ->
  let lex := fdt + be32 m (fdt + 8) in
  node_at m (fdt + be32 m (fdt + 12)) lex t b -> be32 m b = FDT_END -> b - lex + 2 <= Z.of_nat fuel ->
  counted t = true -> fdt_memory None t = Some rs ->
  exists sc, query_mem fuel self stale fdt (mkScan m e) =
    let s := mkScan m (mkMemQuery sc (own_size rs 0)) in
    if 0 <? own_size rs 0 then Ret tt s else Stop (Panic "assert(g_mem_size > 0)") s.
Proof.
  intros Hm Hv lex Ht Hend Hf Hcnt Hr. rewrite <- (tree_memory t None None (2, 1) Hcnt ltac:(done)) in Hr.
  destruct (visit_mem t None (2, 1) rs (mkMemQuery stale 0) Hr) as [sc Ev]. exists sc.
  unfold query_mem. rewrite (bind_Ret _ _ _ tt (mkScan m (mkMemQuery stale 0))) by done.
  rewrite (bind_cong _ _ _ _ (fdt_scan_run m _ mem_open mem_prop (mem_done self) fdt t b fuel (mkMemQuery stale 0) Hm Hv eq_refl Ht Hend Hf)).
  rewrite bind_assoc. rewrite (bind_Ret _ _ _ (cells_after (2, 1) t) (mkScan m (mkMemQuery sc (own_size rs 0))))
    by (unfold on_extra, zoom; cbn [extra]; by rewrite Ev).
  rewrite bind_ret_l. unfold bind, get. cbn [extra q_mem_size]. by destruct (0 <? own_size rs 0).
Qed.
End Memory.

(** ** A concrete device tree

    A root with two cells for addresses and sizes, 128 MB of memory at 2 GB, and
    the host interface. *)
Definition demo_dtb : list Z :=
  [208; 13; 254; 237; 0; 0; 0; 0; 0; 0; 0; 40; 0; 0; 0; 204; 0; 0; 0; 40; 0; 0; 0; 17; 0; 0; 0; 16; 0; 0; 0; 0; 0; 0; 0;
   54; 0; 0; 0; 164; 0; 0; 0; 1; 0; 0; 0; 0; 0; 0; 0; 3; 0; 0; 0; 4; 0; 0; 0; 27; 0; 0; 0; 2; 0; 0; 0; 3; 0; 0; 0; 4; 0;
   0; 0; 42; 0; 0; 0; 2; 0; 0; 0; 4; 0; 0; 0; 1; 109; 101; 109; 111; 114; 121; 64; 56; 48; 48; 48; 48; 48; 48; 48; 0; 0;
   0; 0; 3; 0; 0; 0; 7; 0; 0; 0; 0; 109; 101; 109; 111; 114; 121; 0; 0; 0; 0; 0; 3; 0; 0; 0; 16; 0; 0; 0; 12; 0; 0; 0; 0;
   128; 0; 0; 0; 0; 0; 0; 0; 8; 0; 0; 0; 0; 0; 0; 2; 0; 0; 0; 1; 104; 116; 105; 102; 0; 0; 0; 0; 0; 0; 0; 3; 0; 0; 0; 10;
   0; 0; 0; 16; 117; 99; 98; 44; 104; 116; 105; 102; 48; 0; 0; 0; 0; 0; 0; 2; 0; 0; 0; 2; 0; 0; 0; 9; 100; 101; 118; 105;
   99; 101; 95; 116; 121; 112; 101; 0; 114; 101; 103; 0; 99; 111; 109; 112; 97; 116; 105; 98; 108; 101; 0; 35; 97; 100;
   100; 114; 101; 115; 115; 45; 99; 101; 108; 108; 115; 0; 35; 115; 105; 122; 101; 45; 99; 101; 108; 108; 115; 0].
Definition demo_blob : bmem := fun a => default 0 (demo_dtb !! Z.to_nat (a - 4096)).
Definition demo_tree : dnode :=
  DNode 4140 [mkDProp 4327 4156 4; mkDProp 4342 4172 4]
    [DNode 4184 [mkDProp 4300 4212 7; mkDProp 4312 4232 16] [];
     DNode 4256 [mkDProp 4316 4276 10] []].

Lemma demo_tree_at : node_at demo_blob 4300 4136 demo_tree 4296.
Proof.
  apply (node_intro demo_blob 4300 4136 [] _ _ 4176 4292); [vm_compute; reflexivity..| | |vm_compute; reflexivity].
  - apply (props_cons demo_blob 4300 4144 4 27); [vm_compute; reflexivity..|lia|].
    apply (props_cons demo_blob 4300 4160 4 42); [vm_compute; reflexivity..|lia|apply props_nil].
  - apply nodes_nop; [vm_compute; reflexivity|]. apply (nodes_cons _ _ _ _ 4252); [|apply (nodes_cons _ _ _ _ 4292); [|apply nodes_nil]].
    + apply (node_intro demo_blob 4300 4180 [109; 101; 109; 111; 114; 121; 64; 56; 48; 48; 48; 48; 48; 48; 48] _ _ 4248 4248);
        [vm_compute; reflexivity|vm_compute; intuition congruence| |apply nodes_nil|vm_compute; reflexivity].
      apply (props_cons demo_blob 4300 4200 7 0); [vm_compute; reflexivity..|lia|].
      apply (props_cons demo_blob 4300 4220 16 12); [vm_compute; reflexivity..|lia|apply props_nil].
    + apply (node_intro demo_blob 4300 4252 [104; 116; 105; 102] _ _ 4288 4288);
        [vm_compute; reflexivity|vm_compute; intuition congruence| |apply nodes_nil|vm_compute; reflexivity].
      apply (props_cons demo_blob 4300 4264 10 16); [vm_compute; reflexivity..|lia|apply props_nil].
Qed.

(** The kernel at 2147487744 finds 128 MB. *)
Lemma query_mem_correct_witness :
  exists sc, query_mem 200 2147487744 (mkMemScan 5 6 7) 4096 (mkScan demo_blob (mkMemQuery (mkMemScan 0 0 0) 0)) =
    Ret tt (mkScan demo_blob (mkMemQuery sc 134217728)).
Proof.
  destruct (query_mem_correct demo_blob 2147487744 4096 demo_tree 4296 200 (mkMemScan 5 6 7) (mkMemQuery (mkMemScan 0 0 0) 0)
              [(2147483648, 134217728)]) as [sc E].
  - vm_compute. reflexivity.
  - vm_compute. discriminate.
  - exact demo_tree_at.
  - vm_compute. reflexivity.
  - vm_compute. discriminate.
  - vm_compute. reflexivity.
  - vm_compute. reflexivity.
  - exists sc. exact E.
Defined.

(** The same scan finds the host interface. *)
Lemma fdt_scan_correct_witness :
  fdt_scan htif_cb 200 4096 (mkScan demo_blob (mkHtifQuery 0 0)) = Ret tt (mkScan demo_blob (mkHtifQuery 1 1)).
Proof.
  unfold htif_cb. rewrite (fdt_scan_correct demo_blob 4300 htif_open htif_prop htif_done 4096 demo_tree 4296 200 (mkHtifQuery 0 0)).
  - reflexivity.
  - vm_compute. reflexivity.
  - vm_compute. discriminate.
  - vm_compute. reflexivity.
  - exact demo_tree_at.
  - vm_compute. reflexivity.
  - vm_compute. discriminate.
Defined.
