(* ===== verification/Mtrap.v ===== *)
(** * Machine mode: start and traps (kernel/machine/minit.c, mtrap.c, mtrap_vector.S)

    Each hart has its machine mode registers; the timer and the values that an
    illegal instruction is forwarded with are shared.  [mtrap_enter] is the call
    of [handle_mtrap], [mtrap_leave] the code of mtrap_vector.S behind it, so that
    the traps of two harts can interleave. *)
From S2P Require Import Prelude Pmm Vmm Process Sched Fork Heap Strap Pages HashTable CString Snprintf Bytes DebugLine.
From S2P Require Import VfsData Rfs RfsDisk RfsFile RfsDir Vfs VfsRefs ProcFile SpikeFile Hostfs Machine Elf Syscall.

Definition MSTATUS_MPP_MASK : Z := 6144.
Definition MSTATUS_MPP_S : Z := 2048.
Definition MSTATUS_MPP_U : Z := 0.
Definition MSTATUS_MIE : Z := 8.
Definition MIP_SEIP : Z := Z.shiftl 1 9.
Definition MIP_SSIP : Z := Z.shiftl 1 1.
Definition MIP_STIP : Z := Z.shiftl 1 5.
Definition CAUSE_MISALIGNED_FETCH : Z := 0.
Definition CAUSE_FETCH_ACCESS : Z := 1.
Definition CAUSE_BREAKPOINT : Z := 3.
Definition CAUSE_MISALIGNED_LOAD : Z := 4.
Definition CAUSE_LOAD_ACCESS : Z := 5.
Definition CAUSE_MISALIGNED_STORE : Z := 6.
Definition CAUSE_STORE_ACCESS : Z := 7.
Definition CAUSE_FETCH_PAGE_FAULT : Z := 12.
Definition CAUSE_MTIMER : Z := 9223372036854775815.
Definition SIE_SEIE : Z := 512.
Definition SIE_STIE : Z := 32.
Definition SIE_SSIE : Z := 2.
Definition MIE_MTIE : Z := 128.
Definition TIMER_INTERVAL : Z := 1000000.

Record mcsr : Type := mkMcsr {
  mstatus : Z; mepc : Z; mcause : Z; mtval : Z; mtvec : Z; mscratch : Z;
  mideleg : Z; medeleg : Z; mie : Z; sie : Z; sscratch : Z
}.
Definition set_mstatus (v : Z) (r : mcsr) : mcsr :=
  mkMcsr v (mepc r) (mcause r) (mtval r) (mtvec r) (mscratch r) (mideleg r) (medeleg r) (mie r) (sie r) (sscratch r).
Definition set_mepc (v : Z) (r : mcsr) : mcsr :=
  mkMcsr (mstatus r) v (mcause r) (mtval r) (mtvec r) (mscratch r) (mideleg r) (medeleg r) (mie r) (sie r) (sscratch r).
Definition set_mtvec (v : Z) (r : mcsr) : mcsr :=
  mkMcsr (mstatus r) (mepc r) (mcause r) (mtval r) v (mscratch r) (mideleg r) (medeleg r) (mie r) (sie r) (sscratch r).
Definition set_mscratch (v : Z) (r : mcsr) : mcsr :=
  mkMcsr (mstatus r) (mepc r) (mcause r) (mtval r) (mtvec r) v (mideleg r) (medeleg r) (mie r) (sie r) (sscratch r).
Definition set_deleg (i e : Z) (r : mcsr) : mcsr :=
  mkMcsr (mstatus r) (mepc r) (mcause r) (mtval r) (mtvec r) (mscratch r) i e (mie r) (sie r) (sscratch r).
Definition set_mie (v : Z) (r : mcsr) : mcsr :=
  mkMcsr (mstatus r) (mepc r) (mcause r) (mtval r) (mtvec r) (mscratch r) (mideleg r) (medeleg r) v (sie r) (sscratch r).
Definition set_sie (v : Z) (r : mcsr) : mcsr :=
  mkMcsr (mstatus r) (mepc r) (mcause r) (mtval r) (mtvec r) (mscratch r) (mideleg r) (medeleg r) (mie r) v (sscratch r).
Definition set_sscratch (v : Z) (r : mcsr) : mcsr :=
  mkMcsr (mstatus r) (mepc r) (mcause r) (mtval r) (mtvec r) (mscratch r) (mideleg r) (medeleg r) (mie r) (sie r) v.

(** The globals [m_forward_*]. *)
Record forward : Type := mkFwd {
  to_s : Z; fwd_sepc : Z; fwd_scause : Z; fwd_stval : Z; fwd_sscratch : Z; fwd_sstatus : Z
}.
Definition set_to_s (v : Z) (f : forward) : forward :=
  mkFwd v (fwd_sepc f) (fwd_scause f) (fwd_stval f) (fwd_sscratch f) (fwd_sstatus f).

(** [board]: what is outside the harts, [low] the machine that S-mode works on. *)
Record board (H : Type) : Type := mkBoard {
  harts : list mcsr;
  mtimecmp : list Z;
  mtime : Z;
  m_forward : forward;
  low : sys H
}.
Arguments mkBoard {H}. Arguments harts {H}. Arguments mtimecmp {H}. Arguments mtime {H}. Arguments m_forward {H}. Arguments low {H}.

Definition set_harts {H} (v : list mcsr) (b : board H) : board H := mkBoard v (mtimecmp b) (mtime b) (m_forward b) (low b).
Definition set_mtimecmp {H} (v : list Z) (b : board H) : board H := mkBoard (harts b) v (mtime b) (m_forward b) (low b).
Definition set_forward {H} (v : forward) (b : board H) : board H := mkBoard (harts b) (mtimecmp b) (mtime b) v (low b).
Definition set_low {H} (v : sys H) (b : board H) : board H := mkBoard (harts b) (mtimecmp b) (mtime b) (m_forward b) v.

(** What the hart decides: its extensions ([misa]) and which bits of the
    delegation registers can be set; the addresses of [s_start], [mtrapvec] and
    [g_itrframe] come from the linker. *)
Class Hart : Type := {
  misa : Z;
  keep_mideleg : Z -> Z;
  keep_medeleg : Z -> Z;
  s_start_addr : Z;
  mtrapvec : Z;
  g_itrframe : nat -> Z
}.

Section Mtrap.
Context {H : Type} `{Frontend H} `{Linker} `{Buffers} `{Hart}.
#[local] Notation BM := (M (board H)).

Definition on_sys {A} (c : M (sys H) A) : BM A := zoom low set_low c.

Definition get_hart (tp : nat) : BM mcsr :=
  fun b => match harts b !! tp with Some r => Ret r b | None => Stop (UB "no such hart") b end.
Definition upd_hart (tp : nat) (f : mcsr -> mcsr) : BM unit :=
  fun b => match harts b !! tp with
           | Some r => Ret tt (set_harts (<[tp := f r]> (harts b)) b)
           | None => Stop (UB "no such hart") b
           end.

(** ** Illegal instructions *)

(** The first row of [proc->line] that is not before [epc]; the guard against
    [min] excludes the address [2 ^ 64 - 1]. *)
Fixpoint error_row (n : nat) (m : bmem) (p epc : Z) : option Z :=
  match n with
  | O => None
  | S n' => if (epc <=? load64 m p) && (load64 m p <? 18446744073709551615) then Some p else error_row n' m (p + 24) epc
  end.

(** [while (file_content[code_start] != '\n') code_start++; code_start++], [n] times;
    outside of the array the behaviour is undefined. *)
Fixpoint skip_line (l : list Z) : option (list Z) :=
  match l with [] => None | c :: l' => if c =? 10 then Some l' else skip_line l' end.
Fixpoint skip_lines (n : nat) (l : list Z) : option (list Z) :=
  match n with O => Some l | S n' => l' ← skip_line l; skip_lines n' l' end.
Fixpoint until_newline (n : nat) (l : list Z) : option (list Z) :=
  match n, l with
  | O, _ => Some []
  | S _, [] => None
  | S n', c :: l' => if c =? 10 then Some [] else r ← until_newline n' l'; Some (c :: r)
  end.

Definition max_content : Z := 1024 * 1024.
Definition max_code : nat := 1024.

(** The part of [stack0] (minit.c) that a hart has in machine mode.  A local
    array that is larger reaches below it, into what lies in front of [stack0]. *)
Definition STACKSIZE : Z := 4096.
Definition mstack_bytes (n : nat) : M (sys H) (list Z) :=
  check (STACKSIZE <? Z.of_nat n) (UB "stack0") ;;; stack_bytes n.

Definition print_errorline (tp : nat) (epc : Z) : M (sys H) unit :=
  let* p := on_kern (self tp) in
  let* x := on_kern (get_proc p) in
  let* m := on_statics get in
  match error_row (Z.to_nat (Process.line_ind x)) m (Process.line x) epc with
  | None => halt (Fault 16)
  | Some row =>
      let errorfile := Process.file x + 16 * load64 m (row + 16) in
      let d := str_at_most 100 m (load64 m (Process.dir x + 8 * load64 m errorfile)) in
      let f := str_at_most 100 m (load64 m (errorfile + 8)) in
      check (Nat.leb 100 (length d + 1 + length f)) (UB "errorpath") ;;;
      let errorpath := d ++ 47 :: f in
      let nr := load64 m (row + 8) in
      print_text (txt "Runtime error at " ++ errorpath ++ 58 :: show_dec (i32 nr) ++ [10]) ;;;
      let* open_errorfile := on_host (spike_file_open errorpath O_RDONLY 0) in
      let* b := mstack_bytes (Z.to_nat max_content) in
      let* '(_, l) := on_host (spike_file_pread open_errorfile max_content 0) in
      match skip_lines (Z.to_nat (u64 (nr - 1))) (overlay b l) with
      | None => halt (UB "file_content")
      | Some rest =>
          match until_newline max_code rest with
          | None => halt (UB "file_content")
          | Some errorcontent =>
              let* junk := mstack_bytes max_code in
              let* _ := on_host (spike_file_close open_errorfile) in
              print_text (until_nul (overlay junk errorcontent)) ;;;
              print_text [10]
          end
      end
  end.

Definition handle_illegal_instruction (tp : nat) : BM unit :=
  let* r := get_hart tp in
  let mpp := Z.land (mstatus r) MSTATUS_MPP_MASK in
  if negb (mpp =? MSTATUS_MPP_U) && negb (mpp =? MSTATUS_MPP_S) then
    on_sys (print_errorline tp (mepc r)) ;;; halt (Panic "Illegal instruction (from M-mode)!")
  else
    let* c := on_sys (on_kern (get_current tp)) in
    check (bool_decide (c = None)) (Panic "Illegal instruction: no current process") ;;;
    on_sys (print_errorline tp (mepc r)) ;;;
    on_sys (print_text (txt "Illegal instruction!" ++ [10])) ;;;
    let* p := on_sys (on_kern (self tp)) in
    let* x := on_sys (on_kern (get_proc p)) in
    let* s := on_sys (on_kern (get_csr tp)) in
    modify (set_forward (mkFwd 1 (mepc r) (mcause r) (mtval r) (trapframe x) (Z.ldiff (sstatus s) SSTATUS_SPP .| SSTATUS_SPIE))).

(** ** Traps *)

(** [cpuid] is [mhartid], the number of the hart. *)
Definition handle_timer (cpuid : nat) : BM unit :=
  fun b => match mtimecmp b !! cpuid with
           | None => Stop (UB "CLINT_MTIMECMP") b
           | Some t =>
               (modify (set_mtimecmp (<[cpuid := u64 (t + TIMER_INTERVAL)]> (mtimecmp b))) ;;;
                on_sys (on_kern (upd_csr cpuid (set_sip SIP_SSIP)))) b
           end.

(** [case CAUSE_LOAD_ACCESS] has no [break], but the call before does not return. *)
Definition handle_mtrap (tp : nat) : BM unit :=
  modify (fun b => set_forward (set_to_s 0 (m_forward b)) b) ;;;
  let* r := get_hart tp in
  let cause := mcause r in
  if cause =? CAUSE_MTIMER then handle_timer tp
  else if cause =? CAUSE_FETCH_ACCESS then halt (Panic "Instruction access fault!")
  else if cause =? CAUSE_LOAD_ACCESS then halt (Panic "Load access fault!")
  else if cause =? CAUSE_STORE_ACCESS then halt (Panic "Store/AMO access fault!")
  else if cause =? CAUSE_ILLEGAL_INSTRUCTION then handle_illegal_instruction tp
  else if cause =? CAUSE_MISALIGNED_LOAD then halt (Panic "Misaligned Load!")
  else if cause =? CAUSE_MISALIGNED_STORE then halt (Panic "Misaligned AMO!")
  else halt (Panic "unexpected exception happened in M-mode.").

Definition mtrap_enter (tp : nat) : BM unit := handle_mtrap tp.

(** The code behind the call: the values to forward go to the S-mode registers,
    and [mret] leaves for [smode_trap_vector] in S-mode.  The result is the address
    and the mode ([mstatus.MPP]) that [mret] goes to. *)
Definition mtrap_leave (tp : nat) : BM (Z * Z) :=
  let* b := get in
  let f := m_forward b in
  when (negb (to_s f =? 0))
    (on_sys (on_kern (upd_csr tp (fun c => mkCsr (stvec c) (fwd_sstatus f) (fwd_sepc f) (satp c) (fwd_scause f) (fwd_stval f) (sip c)))) ;;;
     upd_hart tp (set_sscratch (fwd_sscratch f)) ;;;
     upd_hart tp (set_mepc smode_trap_vector) ;;;
     upd_hart tp (fun r => set_mstatus (Z.ldiff (mstatus r) MSTATUS_MPP_MASK .| MSTATUS_MPP_S) r)) ;;;
  let* r := get_hart tp in
  ret (mepc r, Z.land (mstatus r) MSTATUS_MPP_MASK).

(** ** Start of a hart *)

(** [supports_extension('S')] *)
Definition supports_S : bool := has misa (Z.shiftl 1 18).

Definition interrupts : Z := MIP_SSIP .| MIP_STIP .| MIP_SEIP.
Definition exceptions : Z :=
  Z.shiftl 1 CAUSE_MISALIGNED_FETCH .| Z.shiftl 1 CAUSE_FETCH_PAGE_FAULT .| Z.shiftl 1 CAUSE_BREAKPOINT .|
  Z.shiftl 1 CAUSE_LOAD_PAGE_FAULT .| Z.shiftl 1 CAUSE_STORE_PAGE_FAULT .| Z.shiftl 1 CAUSE_USER_ECALL.

Definition delegate_traps (tp : nat) : BM unit :=
  if negb supports_S then on_sys (print_text (txt "S mode is not supported." ++ [10])) else
  upd_hart tp (set_deleg (keep_mideleg interrupts) (keep_medeleg exceptions)) ;;;
  let* r := get_hart tp in
  check (negb (mideleg r =? interrupts)) (Panic "assert(read_csr(mideleg) == interrupts)") ;;;
  check (negb (medeleg r =? exceptions)) (Panic "assert(read_csr(medeleg) == exceptions)").

Definition timerinit (hartid : nat) : BM unit :=
  fun b => match mtimecmp b !! hartid with
           | None => Stop (UB "CLINT_MTIMECMP") b
           | Some _ =>
               (modify (set_mtimecmp (<[hartid := u64 (mtime b + TIMER_INTERVAL)]> (mtimecmp b))) ;;;
                upd_hart hartid (fun r => set_mie (mie r .| MIE_MTIE) r)) b
           end.

(** [m_start] behind its barrier; the result is where [mret] goes. *)
Definition m_start_hart (hartid : nat) : BM (Z * Z) :=
  on_sys (print_text (txt "In m_start, hartid:" ++ show_dec (Z.of_nat hartid) ++ [10])) ;;;
  upd_hart hartid (set_mscratch (g_itrframe hartid)) ;;;
  upd_hart hartid (fun r => set_mstatus (Z.ldiff (mstatus r) MSTATUS_MPP_MASK .| MSTATUS_MPP_S) r) ;;;
  upd_hart hartid (set_mepc s_start_addr) ;;;
  upd_hart hartid (set_mtvec mtrapvec) ;;;
  upd_hart hartid (fun r => set_mstatus (mstatus r .| MSTATUS_MIE) r) ;;;
  delegate_traps hartid ;;;
  upd_hart hartid (fun r => set_sie (sie r .| SIE_SEIE .| SIE_STIE .| SIE_SSIE) r) ;;;
  timerinit hartid ;;;
  let* r := get_hart hartid in
  ret (mepc r, Z.land (mstatus r) MSTATUS_MPP_MASK).
End Mtrap.
