(* ===== verification/MtrapProps.v ===== *)
(** * What machine mode guarantees

    The registers a hart has when it leaves for S-mode, which exceptions reach
    the supervisor, the timer interrupt, and why an illegal instruction never
    gets there. *)
From S2P Require Import Prelude Pmm Vmm Process Sched Fork Heap Strap Pages HashTable CString Snprintf Bytes DebugLine.
From S2P Require Import VfsData Rfs RfsDisk RfsFile RfsDir Vfs VfsRefs ProcFile SpikeFile Hostfs Machine Elf Syscall Mtrap.

Section MtrapProps.
Context {H : Type} `{Frontend H} `{Linker} `{Buffers} `{Hart}.
#[local] Notation BM := (M (board H)).

(** ** Frames *)

(** The console is open. *)
Definition console_ok (s : sys H) : Prop := exists e, spike_files (spk (fpages s)) !! 2%nat = Some e.

Lemma print_run l s : console_ok s -> exists s', print_text l s = Ret tt s' /\ kern (fpages s') = kern (fpages s) /\ console_ok s'.
Proof.
  intros [e He]. unfold print_text.
  destruct (host_write (kfd e) (printed l) (host (spk (fpages s)))) as [r h] eqn:Ew.
  eexists. split.
  - rewrite (bind_Ret _ _ s r (set_fpages (set_spk (set_host h (spk (fpages s))) (fpages s)) s)); [done|].
    unfold on_host, on_machine, zoom, spike_file_write. unfold bind, get_file. change (stderr =? 0) with false.
    change (Z.to_nat (stderr - 1)) with 2%nat. cbn -[lookup]. rewrite He. unfold call. by rewrite Ew.
  - split; [done|]. by exists e.
Qed.

Lemma upd_hart_run tp f (b : board H) r :
  harts b !! tp = Some r -> upd_hart tp f b = Ret tt (set_harts (<[tp := f r]> (harts b)) b).
Proof. intros E. unfold upd_hart. by rewrite E. Qed.
Lemma get_hart_run tp (b : board H) r : harts b !! tp = Some r -> get_hart tp b = Ret r b.
Proof. intros E. unfold get_hart. by rewrite E. Qed.
Lemma hart_set tp (b : board H) r r' :
  harts b !! tp = Some r -> harts (set_harts (<[tp := r']> (harts b)) b) !! tp = Some r'.
Proof. intros E. cbn. apply list_lookup_insert_eq. by eapply lookup_lt_Some. Qed.
Lemma set_harts_twice tp r1 r2 (b : board H) :
  set_harts (<[tp := r2]> (harts (set_harts (<[tp := r1]> (harts b)) b))) (set_harts (<[tp := r1]> (harts b)) b)
  = set_harts (<[tp := r2]> (harts b)) b.
Proof. unfold set_harts. cbn. by rewrite list_insert_insert_eq. Qed.

(** Consecutive updates of one hart are one update. *)
Lemma upd_hart_seq {A} tp f g (k : BM A) (b : board H) :
  (upd_hart tp f ;;; upd_hart tp g ;;; k) b = (upd_hart tp (fun r => g (f r)) ;;; k) b.
Proof.
  unfold upd_hart, bind. destruct (harts b !! tp) as [r|] eqn:E; [|done].
  rewrite (hart_set tp b r (f r) E). by rewrite set_harts_twice.
Qed.

(** ** Leaving for S-mode *)

Lemma mpp_supervisor ms extra :
  Z.land extra MSTATUS_MPP_MASK = 0 ->
  Z.land (Z.ldiff ms MSTATUS_MPP_MASK .| MSTATUS_MPP_S .| extra) MSTATUS_MPP_MASK = MSTATUS_MPP_S.
Proof.
  intros He. rewrite !Z.land_lor_distr_l, Z.ldiff_land, <- Z.land_assoc, (Z.land_comm (Z.lnot _)), Z.land_lnot_diag, Z.land_0_r, He. done.
Qed.

Lemma has_lor_r a m : m <> 0 -> has (a .| m) m = true.
Proof.
  intros Hm. unfold has. rewrite Z.land_lor_distr_l, Z.land_diag. apply negb_true_iff, Z.eqb_neq. intros E.
  apply Z.lor_eq_0_iff in E as [_ ?]. done.
Qed.

Lemma exceptions_bits c : 0 <= c < 64 -> Z.testbit exceptions c = bool_decide (c ∈ [0; 3; 8; 12; 13; 15]).
Proof.
  intros Hc. assert (Hall : forallb (fun c => Bool.eqb (Z.testbit exceptions c) (bool_decide (c ∈ [0; 3; 8; 12; 13; 15]))) (seqZ 0 64) = true)
    by (vm_compute; reflexivity).
  rewrite forallb_forall in Hall. apply Bool.eqb_prop, Hall, list_elem_of_In, elem_of_seqZ. lia.
Qed.

Lemma delegate_run tp (b : board H) r :
  supports_S = true -> keep_mideleg interrupts = interrupts -> keep_medeleg exceptions = exceptions -> harts b !! tp = Some r ->
  delegate_traps tp b = Ret tt (set_harts (<[tp := set_deleg interrupts exceptions r]> (harts b)) b).
Proof.
  intros HS Hki Hke Hr. unfold delegate_traps. rewrite HS, Hki, Hke. cbn [negb].
  rewrite (bind_Ret _ _ _ _ _ (upd_hart_run tp _ b r Hr)), (bind_Ret _ _ _ _ _ (get_hart_run tp _ _ (hart_set tp b r _ Hr))).
  cbn [mideleg medeleg set_deleg]. by rewrite !Z.eqb_refl.
Qed.

Lemma timerinit_run tp (b : board H) r t :
  harts b !! tp = Some r -> mtimecmp b !! tp = Some t -> exists b', timerinit tp b = Ret tt b' /\
    harts b' !! tp = Some (set_mie (mie r .| MIE_MTIE) r) /\ mtimecmp b' !! tp = Some (u64 (mtime b + TIMER_INTERVAL)) /\
    forall i, i <> tp -> harts b' !! i = harts b !! i.
Proof.
  intros Hr Ht. unfold timerinit. rewrite Ht.
  rewrite (bind_Ret _ _ b tt (set_mtimecmp (<[tp := u64 (mtime b + TIMER_INTERVAL)]> (mtimecmp b)) b)) by done.
  rewrite (upd_hart_run tp _ (set_mtimecmp (<[tp := u64 (mtime b + TIMER_INTERVAL)]> (mtimecmp b)) b) r Hr). eexists. split; [done|].
  split; [by apply (hart_set tp (set_mtimecmp (<[tp := u64 (mtime b + TIMER_INTERVAL)]> (mtimecmp b)) b) r)|].
  split; [cbn; apply list_lookup_insert_eq; by eapply lookup_lt_Some|]. intros i Hi. cbn. by rewrite list_lookup_insert_ne.
Qed.

(** when a hart leaves [m_start], [mret] enters [s_start] in S-mode; machine
    traps go to [mtrapvec] with [mscratch] at the hart's frame, the timer is armed
    and enabled, and of the exceptions exactly misaligned and missing
    instructions, breakpoints, load and store page faults and system calls are
    delegated to S-mode. *)
Theorem m_start_hart_correct tp (b : board H) r t :
  harts b !! tp = Some r -> mtimecmp b !! tp = Some t -> console_ok (low b) -> supports_S = true ->
  keep_mideleg interrupts = interrupts -> keep_medeleg exceptions = exceptions ->
  exists b' r', m_start_hart tp b = Ret (s_start_addr, MSTATUS_MPP_S) b' /\ harts b' !! tp = Some r' /\
    mtvec r' = mtrapvec /\ mscratch r' = g_itrframe tp /\ has (mstatus r') MSTATUS_MIE = true /\ has (mie r') MIE_MTIE = true /\
    mtimecmp b' !! tp = Some (u64 (mtime b + TIMER_INTERVAL)) /\
    (forall c, 0 <= c < 64 -> Z.testbit (medeleg r') c = bool_decide (c ∈ [0; 3; 8; 12; 13; 15])) /\
    (forall i, i <> tp -> harts b' !! i = harts b !! i).
Proof.
  intros Hr Ht Hc HS Hki Hke. unfold m_start_hart.
  match goal with |- context [print_text ?l] => destruct (print_run l (low b) Hc) as (s1 & Ep & _ & _) end.
  rewrite (bind_Ret _ _ b tt (set_low s1 b)) by (unfold on_sys, zoom; by rewrite Ep).
  rewrite !upd_hart_seq. rewrite (bind_Ret _ _ _ _ _ (upd_hart_run tp _ (set_low s1 b) r Hr)).
  match goal with |- context [set_harts (<[tp := ?v]> _) _] => set (r1 := v) end.
  rewrite (bind_Ret _ _ _ _ _ (delegate_run tp _ r1 HS Hki Hke (hart_set tp (set_low s1 b) r r1 Hr))), set_harts_twice.
  rewrite (bind_Ret _ _ _ _ _ (upd_hart_run tp _ _ _ (hart_set tp (set_low s1 b) r _ Hr))), set_harts_twice.
  match goal with |- context [set_harts (<[tp := ?v]> _) _] => set (r2 := v) end.
  set (b2 := set_harts (<[tp := r2]> (harts (set_low s1 b))) (set_low s1 b)).
  assert (Hr2 : harts b2 !! tp = Some r2) by exact (hart_set tp (set_low s1 b) r r2 Hr).
  assert (Ht2 : mtimecmp b2 !! tp = Some t) by exact Ht.
  destruct (timerinit_run tp b2 r2 t Hr2 Ht2) as (b3 & Et & Hr3 & Hcmp & Hoth). rewrite (bind_Ret _ _ _ _ _ Et).
  rewrite (bind_Ret _ _ _ _ _ (get_hart_run tp b3 _ Hr3)).
  exists b3, (set_mie (mie r2 .| MIE_MTIE) r2). split; [|split; [exact Hr3|]].
  - unfold ret. f_equal. f_equal. cbn [mepc mstatus set_mie r2 r1]. by apply mpp_supervisor.
  - split; [done|]. split; [done|]. split; [apply has_lor_r; done|]. split; [apply has_lor_r; done|].
    split; [exact Hcmp|]. split; [intros c Hc2; apply exceptions_bits, Hc2|].
    intros i Hi. rewrite Hoth by done. cbn. by rewrite list_lookup_insert_ne.
Qed.

(** ** Traps *)

(** The S-mode registers of a hart. *)
Definition s_csr (b : board H) (tp : nat) : option csr := csrs (kern (fpages (low b))) !! tp.

Lemma board_csr_run tp f (b : board H) c :
  s_csr b tp = Some c -> exists b', on_sys (on_kern (upd_csr tp f)) b = Ret tt b' /\ s_csr b' tp = Some (f c) /\
    (forall i, i <> tp -> s_csr b' i = s_csr b i) /\ harts b' = harts b /\ mtimecmp b' = mtimecmp b /\ m_forward b' = m_forward b.
Proof.
  intros E. unfold s_csr in *. eexists. split; [unfold on_sys, on_kern, on_machine, zoom, upd_csr, bind, get_csr; rewrite E; done|].
  cbn. split; [apply list_lookup_insert_eq; by eapply lookup_lt_Some|].
  split; [intros i Hi; by rewrite list_lookup_insert_ne|done].
Qed.

(** Nothing to forward: [mret] goes back to where the trap came from. *)
Lemma leave_back tp (b : board H) r :
  harts b !! tp = Some r -> to_s (m_forward b) = 0 -> mtrap_leave tp b = Ret (mepc r, Z.land (mstatus r) MSTATUS_MPP_MASK) b.
Proof.
  intros Hr Hf. unfold mtrap_leave. unfold bind at 1, get. rewrite Hf. cbn [Z.eqb negb when]. rewrite bind_ret_l.
  by rewrite (bind_Ret _ _ _ _ _ (get_hart_run tp b r Hr)).
Qed.

(** Something to forward: S-mode is entered with the forwarded values. *)
Lemma leave_forward tp (b : board H) r c :
  harts b !! tp = Some r -> s_csr b tp = Some c -> to_s (m_forward b) <> 0 ->
  exists b', mtrap_leave tp b = Ret (smode_trap_vector, MSTATUS_MPP_S) b' /\
    s_csr b' tp = Some (mkCsr (stvec c) (fwd_sstatus (m_forward b)) (fwd_sepc (m_forward b)) (satp c)
                              (fwd_scause (m_forward b)) (fwd_stval (m_forward b)) (sip c)) /\
    (exists r', harts b' !! tp = Some r' /\ sscratch r' = fwd_sscratch (m_forward b) /\ mepc r' = smode_trap_vector /\
       mstatus r' = Z.ldiff (mstatus r) MSTATUS_MPP_MASK .| MSTATUS_MPP_S) /\
    forall i, i <> tp -> s_csr b' i = s_csr b i /\ harts b' !! i = harts b !! i.
Proof.
  intros Hr Hc Hf. unfold mtrap_leave. unfold bind at 1, get. rewrite (proj2 (Z.eqb_neq _ 0)) by done. cbn [negb when].
  set (f := m_forward b).
  destruct (board_csr_run tp (fun c => mkCsr (stvec c) (fwd_sstatus f) (fwd_sepc f) (satp c) (fwd_scause f) (fwd_stval f) (sip c)) b c Hc)
    as (b1 & E1 & Hc1 & Ho1 & Hh1 & _ & _).
  rewrite bind_assoc, (bind_Ret _ _ _ _ _ E1), !bind_assoc.
  assert (Hr1 : harts b1 !! tp = Some r) by (by rewrite Hh1).
  rewrite (bind_Ret _ _ _ _ _ (upd_hart_run tp _ b1 r Hr1)), bind_assoc.
  rewrite (bind_Ret _ _ _ _ _ (upd_hart_run tp _ _ _ (hart_set tp b1 r _ Hr1))), set_harts_twice.
  rewrite (bind_Ret _ _ _ _ _ (upd_hart_run tp _ _ _ (hart_set tp b1 r _ Hr1))), set_harts_twice.
  rewrite (bind_Ret _ _ _ _ _ (get_hart_run tp _ _ (hart_set tp b1 r _ Hr1))).
  eexists. split; [unfold ret; f_equal; f_equal|].
  - cbn [mstatus set_mstatus]. rewrite <- (Z.lor_0_r (_ .| MSTATUS_MPP_S)). by apply mpp_supervisor.
  - split; [exact Hc1|]. split; [eexists; split; [exact (hart_set tp b1 r _ Hr1)|done]|].
    intros i Hi. split; [exact (Ho1 i Hi)|]. cbn. by rewrite list_lookup_insert_ne, Hh1.
Qed.

Lemma enter_timer tp (b : board H) r t c :
  harts b !! tp = Some r -> mcause r = CAUSE_MTIMER -> mtimecmp b !! tp = Some t -> s_csr b tp = Some c ->
  exists b1, mtrap_enter tp b = Ret tt b1 /\ harts b1 = harts b /\ to_s (m_forward b1) = 0 /\
    mtimecmp b1 = <[tp := u64 (t + TIMER_INTERVAL)]> (mtimecmp b) /\ s_csr b1 tp = Some (set_sip SIP_SSIP c) /\
    forall i, i <> tp -> s_csr b1 i = s_csr b i.
Proof.
  intros Hr Hm Ht Hc. unfold mtrap_enter, handle_mtrap.
  set (b0 := set_forward (set_to_s 0 (m_forward b)) b). rewrite (bind_Ret _ _ b tt b0) by done.
  rewrite (bind_Ret _ _ _ _ _ (get_hart_run tp b0 r Hr)), Hm. cbn [Z.eqb CAUSE_MTIMER Pos.eqb].
  unfold handle_timer. change (mtimecmp b0) with (mtimecmp b). rewrite Ht.
  rewrite (bind_Ret _ _ b0 tt (set_mtimecmp (<[tp := u64 (t + TIMER_INTERVAL)]> (mtimecmp b)) b0)) by done.
  destruct (board_csr_run tp (set_sip SIP_SSIP) (set_mtimecmp (<[tp := u64 (t + TIMER_INTERVAL)]> (mtimecmp b)) b0) c Hc)
    as (b1 & E1 & Hc1 & Ho1 & Hh1 & Ht1 & Hf1).
  exists b1. rewrite E1, Hh1, Ht1, Hf1. done.
Qed.

(** A timer interrupt in machine mode arms the timer for the next interval,
    raises the software interrupt by which S-mode sees the tick, and returns to
    the interrupted code; other harts keep their registers. *)
Theorem timer_trap_correct tp (b : board H) r t c :
  harts b !! tp = Some r -> mcause r = CAUSE_MTIMER -> mtimecmp b !! tp = Some t -> s_csr b tp = Some c ->
  exists b1, (mtrap_enter tp ;;; mtrap_leave tp) b = Ret (mepc r, Z.land (mstatus r) MSTATUS_MPP_MASK) b1 /\
    harts b1 = harts b /\ mtimecmp b1 = <[tp := u64 (t + TIMER_INTERVAL)]> (mtimecmp b) /\
    s_csr b1 tp = Some (set_sip SIP_SSIP c) /\ forall i, i <> tp -> s_csr b1 i = s_csr b i.
Proof.
  intros Hr Hm Ht Hc. destruct (enter_timer tp b r t c Hr Hm Ht Hc) as (b1 & E & Hh & Hf & Ht1 & Hc1 & Ho).
  exists b1. rewrite (bind_Ret _ _ _ _ _ E). rewrite (leave_back tp b1 r) by (done || by rewrite Hh). done.
Qed.

(** Every exception that a user program can raise is either delegated to
    S-mode, or is an illegal instruction, or stops the whole machine. *)
Theorem user_exceptions_routed tp cause :
  cause ∈ [0; 1; 2; 3; 4; 5; 6; 7; 8; 12; 13; 15] ->
  Z.testbit exceptions cause = true \/ cause = CAUSE_ILLEGAL_INSTRUCTION \/
  forall (b : board H) r, harts b !! tp = Some r -> mcause r = cause -> exists msg b', mtrap_enter tp b = Stop (Panic msg) b'.
Proof.
  assert (Hp : cause ∈ [1; 4; 5; 6; 7] -> forall (b : board H) r, harts b !! tp = Some r -> mcause r = cause ->
            exists msg b', mtrap_enter tp b = Stop (Panic msg) b').
  { intros Hc b r Hr <-. unfold mtrap_enter, handle_mtrap.
    rewrite (bind_Ret _ _ b tt (set_forward (set_to_s 0 (m_forward b)) b)) by done.
    rewrite (bind_Ret _ _ _ _ _ (get_hart_run tp (set_forward (set_to_s 0 (m_forward b)) b) r Hr)).
    rewrite !elem_of_cons, elem_of_nil in Hc. destruct Hc as [->|[->|[->|[->|[->|[]]]]]]; by eexists _, _. }
  rewrite !elem_of_cons, elem_of_nil in *.
  intros Hc. repeat (destruct Hc as [->|Hc]; [first [left; reflexivity | right; left; reflexivity | right; right; apply Hp; auto 10]|]).
  destruct Hc.
Qed.

(** ** Illegal instructions *)

Lemma mstack_overflow (s : sys H) : mstack_bytes (Z.to_nat max_content) s = Stop (UB "stack0") s.
Proof. unfold mstack_bytes. rewrite Z2Nat.id by done. done. Qed.

Lemma bind_never {S A B} (c : M S A) (k : A -> M S B) s : (forall a s', exists e s2, k a s' = Stop e s2) -> exists e s2, bind c k s = Stop e s2.
Proof. intros Hk. unfold bind. destruct (c s) as [a s1|e s1]; [apply Hk|by exists e, s1]. Qed.

(** The array of one megabyte does not fit the stack of the hart. *)
Lemma errorline_never_returns tp epc (s : sys H) : exists e s', print_errorline tp epc s = Stop e s'.
Proof.
  unfold print_errorline. do 3 (apply bind_never; intros). destruct (error_row _ _ _ _); [|by eexists _, _].
  do 3 (apply bind_never; intros). exists (UB "stack0"). eexists. apply bind_Stop, mstack_overflow.
Qed.

(** An illegal instruction is never forwarded: whatever the mode, the process and
    its line table, [handle_illegal_instruction] does not return, since
    [print_errorline] has an array of one megabyte on the 4096 bytes of machine
    mode stack of the hart. *)
Theorem illegal_instruction_never_forwarded tp (b : board H) r :
  harts b !! tp = Some r -> mcause r = CAUSE_ILLEGAL_INSTRUCTION -> exists e b', mtrap_enter tp b = Stop e b'.
Proof.
  intros Hr Hm. unfold mtrap_enter, handle_mtrap.
  set (b0 := set_forward (set_to_s 0 (m_forward b)) b). rewrite (bind_Ret _ _ b tt b0) by done.
  rewrite (bind_Ret _ _ _ _ _ (get_hart_run tp b0 r Hr)), Hm. cbn [Z.eqb CAUSE_MTIMER CAUSE_FETCH_ACCESS CAUSE_LOAD_ACCESS
    CAUSE_STORE_ACCESS CAUSE_ILLEGAL_INSTRUCTION Pos.eqb].
  unfold handle_illegal_instruction. rewrite (bind_Ret _ _ _ _ _ (get_hart_run tp b0 r Hr)).
  assert (Hl : forall (b1 : board H) A (k : unit -> BM A), exists e b', bind (on_sys (print_errorline tp (mepc r))) k b1 = Stop e b').
  { intros b1 A k. destruct (errorline_never_returns tp (mepc r) (low b1)) as (e & s' & E). exists e, (set_low s' b1).
    unfold bind, on_sys, zoom. by rewrite E. }
  destruct (negb _ && negb _); [apply Hl|]. do 2 (apply bind_never; intros). apply Hl.
Qed.
End MtrapProps.

(** ** A concrete board

    Hart 0 takes a timer interrupt, hart 1 runs a process that meets an illegal
    instruction at 65536, line 1 of "d/a". *)
#[local] Existing Instances sample_host sample_linker sample_buffers.
#[local] Instance board_hart : Hart := {|
  misa := Z.shiftl 1 18; keep_mideleg v := v; keep_medeleg v := v; s_start_addr := 2147487744; mtrapvec := 2147491840;
  g_itrframe i := 2147500032 + 256 * Z.of_nat i |}.

(** The row (65536, line 1, file 0), the file (directory 0, "a"), the directory "d". *)
Definition board_statics : bmem :=
  store64 (store64 (store64 (store64 (store64 (store64 (fun a => if a =? 3000 then 97 else if a =? 3100 then 100 else 0)
    1000 65536) 1008 1) 2008 3000) 2500 3100) 2000 0) 1016 0.
Definition board_proc : process :=
  mkProc 0 2147483648 2147495936 0 0 0 0 4 (mkHeap 0 0 [] 0) 0 RUNNING None None 0 0 0 2500 2000 1000 1.
Definition board_csr : csr := mkCsr 0 32 0 0 0 0 0.
Definition board_kern : kstate := mkK one [board_proc] [] [None; Some 0%nat] None 0 0 0 [0; 0] [board_csr; board_csr].
Definition board_sys : sys (list Z) :=
  mkF (mkMachine board_kern (mkSp [mkSpikeFile 0 4; mkSpikeFile 1 4; mkSpikeFile 2 4; mkSpikeFile 0 0] [1; 2; 3; 0] [])
         board_statics [] (fun _ => []))
    [] ∅ ∅ ∅ ∅ ∅ (mkTable [] ∅) (mkTable [] ∅) 0 [] [] [].
Definition timer_hart : mcsr := mkMcsr 0 70000 CAUSE_MTIMER 0 0 0 0 0 0 0 0.
Definition illegal_hart : mcsr := mkMcsr 0 65536 CAUSE_ILLEGAL_INSTRUCTION 7 0 0 0 0 0 0 0.
Definition demo_board : board (list Z) := mkBoard [timer_hart; illegal_hart] [100; 200] 50 (mkFwd 0 0 0 0 0 0) board_sys.

Lemma m_start_hart_correct_witness :
  exists b', m_start_hart 1 demo_board = Ret (2147487744, MSTATUS_MPP_S) b' /\ mtimecmp b' !! 1%nat = Some 1000050.
Proof.
  destruct (m_start_hart_correct 1 demo_board illegal_hart 200) as (b' & r' & E & _ & _ & _ & _ & _ & Ht & _).
  - reflexivity.
  - reflexivity.
  - exists (mkSpikeFile 2 4). reflexivity.
  - reflexivity.
  - reflexivity.
  - reflexivity.
  - exists b'. split; [exact E|exact Ht].
Defined.

Lemma timer_trap_correct_witness :
  exists b1, (mtrap_enter 0 ;;; mtrap_leave 0) demo_board = Ret (70000, 0) b1 /\ mtimecmp b1 = [1000100; 200].
Proof.
  destruct (timer_trap_correct 0 demo_board timer_hart 100 board_csr) as (b1 & E & _ & Ht & _).
  - reflexivity.
  - reflexivity.
  - reflexivity.
  - reflexivity.
  - exists b1. split; [exact E|exact Ht].
Defined.

Lemma user_exceptions_routed_witness :
  exists msg b', mtrap_enter 1 (mkBoard [timer_hart; mkMcsr 0 65536 4 7 0 0 0 0 0 0 0] [100; 200] 50 (mkFwd 0 0 0 0 0 0) board_sys)
    = Stop (Panic msg) b'.
Proof.
  destruct (user_exceptions_routed (H := list Z) 1 4) as [E|[E|E]].
  - apply (bool_decide_unpack _). vm_compute. exact I.
  - discriminate E.
  - discriminate E.
  - apply (E _ (mkMcsr 0 65536 4 7 0 0 0 0 0 0 0)); reflexivity.
Defined.

(** The line table names line 1 of "d/a": the position is printed and the file
    opened before the array is allocated. *)
Lemma illegal_instruction_never_forwarded_witness :
  exists e b', mtrap_enter 1 demo_board = Stop e b' /\ e = UB "stack0".
Proof.
  destruct (illegal_instruction_never_forwarded 1 demo_board illegal_hart) as (e & b' & E).
  - reflexivity.
  - reflexivity.
  - exists e, b'. split; [exact E|].
    assert (Ev : match mtrap_enter 1 demo_board with Stop e' _ => e' | Ret _ _ => Resume 0 end = UB "stack0") by (vm_compute; reflexivity).
    rewrite E in Ev. exact Ev.
Defined.
