(* ===== verification/Boot.v ===== *)
(** * Kernel start (kernel/kernel.c) and the barriers of the harts

    Every hart runs [m_start] and then [s_start]; hart 0 alone initialises the host
    interface, the memory and the file systems, and the barriers
    (kernel/sync_utils.h) keep the other hart behind it.  The code between two
    barriers is a phase; the harts take steps in any order. *)
From S2P Require Import Prelude Pmm Vmm Process Sched Fork Heap Strap Pages HashTable CString Snprintf Bytes DebugLine Dts.
From S2P Require Import VfsData Rfs RfsDisk RfsFile RfsDir Vfs VfsRefs ProcFile SpikeFile Hostfs Machine Elf Syscall Mtrap.

(** What the board and the linker fix: the device tree (and a bound for its scan),
    the address of [mem_done], the symbols [_end] and [_etext], what memory and the
    stack hold before they are written, the address of [arg_bug_msg]. *)
Class Platform : Type := {
  dtb : Z;
  dtb_blob : bmem;
  fdt_fuel : nat;
  mem_done_addr : Z;
  stale_scan : mem_scan;
  stale_compat : Z;
  kernel_end : Z;
  etext : Z;
  disk_garbage : Z -> bmem;
  disk_stale : list Z;
  arg_buf_addr : Z
}.

Definition MAX_CMDLINE_ARGS : nat := 64.

(** The board, [g_kernel_pagetable] and [htif]. *)
Record kinit (H : Type) : Type := mkInit { brd : board H; g_kernel_pagetable : Z; htif_found : Z }.
Arguments mkInit {H}. Arguments brd {H}. Arguments g_kernel_pagetable {H}. Arguments htif_found {H}.
Definition set_brd {H} (v : board H) (k : kinit H) : kinit H := mkInit v (g_kernel_pagetable k) (htif_found k).

(** ** Phases *)

Inductive phase : Type := Host | Memory | Files | Run.
#[global] Instance phase_eq_dec : EqDecision phase.
Proof. solve_decision. Defined.

(** A hart before a phase, in the loop of the barrier behind it, or running programs. *)
Inductive place : Type := At (p : phase) | Waiting (p : phase) | Running.
Definition behind (p : phase) : place :=
  match p with Host => At Memory | Memory => At Files | Files => At Run | Run => Running end.

Section Boot.
Context {H : Type} `{Frontend H} `{Linker} `{Buffers} `{Hart} `{Platform}.
#[local] Notation KM := (M (kinit H)).
#[local] Notation SM := (M (sys H)).

Definition on_board {A} (c : M (board H) A) : KM A := zoom brd set_brd c.
Definition on_low {A} (c : SM A) : KM A := on_board (on_sys c).

(** ** Machine mode *)

(** A query of the device tree, whose result is in [extra]. *)
Definition run_scan {E} (c : M (scan E) unit) (e : E) : KM E :=
  fun k => match c (mkScan dtb_blob e) with Ret _ s => Ret (extra s) k | Stop e _ => Stop e k end.

Definition init_dtb : KM unit :=
  let* k := get in
  let* q := run_scan (query_htif fdt_fuel dtb) (mkHtifQuery stale_compat (htif_found k)) in
  modify (fun k => mkInit (brd k) (g_kernel_pagetable k) (htif q)) ;;;
  when (negb (htif q =? 0)) (on_low (print_text (txt "HTIF is available!" ++ [13; 10]))) ;;;
  let* q := run_scan (query_mem fdt_fuel mem_done_addr stale_scan dtb) (mkMemQuery stale_scan 0) in
  let size := q_mem_size q in
  on_low (on_mem (modify (fun p => set_bounds (free_mem_start_addr p) (free_mem_end_addr p) size p))) ;;;
  on_low (print_text (txt "(Emulated) memory size: " ++ show_dec (Z.shiftr size 20) ++ txt " MB" ++ [10])).

(** [m_start] before its barrier. *)
Definition m_start_init (hartid : nat) : KM unit :=
  if Nat.eqb hartid 0 then on_low (on_host spike_file_init) ;;; init_dtb else ret tt.

(** ** Supervisor mode *)

Definition write_satp (tp : nat) (v : Z) : KM unit :=
  on_low (on_kern (upd_csr tp (set_satp v))).

Definition enable_paging (tp : nat) : KM unit := let* k := get in write_satp tp (MAKE_SATP (g_kernel_pagetable k)).

(** [for (i = 0; arg + i < pk_argc; i++) argv[i] = pk_argv[arg + i]] on the union
    of [buf] and [argv]. *)
Fixpoint shift_args (n i : nat) (buf : list Z) : option (list Z) :=
  match n with O => Some buf | S n' => v ← buf !! (i + 2)%nat; shift_args n' (S i) (<[i := v]> buf) end.

(** The number of arguments behind the kernel and the words of [arg_bug_msg]. *)
Definition parse_args : SM (Z * list Z) :=
  let* b := stack_bytes (8 * MAX_CMDLINE_ARGS) in
  let* '(r, l) := on_host (call (host_getmainvars (Z.of_nat (8 * MAX_CMDLINE_ARGS)))) in
  check (negb (r =? 0)) (Panic "kassert(r == 0)") ;;;
  let buf := numbers 8 MAX_CMDLINE_ARGS (overlay b l) in
  let pk_argc := default 0 (buf !! 0%nat) in
  match shift_args (Z.to_nat (pk_argc - 1)) 0 buf with
  | None => halt (UB "arg_bug_msg")
  | Some argv => ret (u64 (pk_argc - 1), argv)
  end.

(** The string at the pointer [p] into [arg_bug_msg]. *)
Definition arg_string (argv : list Z) (p : Z) : SM (list Z) :=
  let off := p - arg_buf_addr in
  if (off <? 0) || (Z.of_nat (8 * MAX_CMDLINE_ARGS) <=? off) then halt (UB "argv") else
  ret (until_nul (drop (Z.to_nat off) (concat (le_bytes 8 <$> argv)))).

Definition load_user_program (tp : nat) : SM nat :=
  let* s := get in
  let* proc := on_kern (alloc_process tp (vfs_root_dentry s)) in
  print_text (txt "User application is loading." ++ [10]) ;;;
  let* '(argc, argv) := parse_args in
  when (argc =? 0) (on_kern (kill_current_process tp "You need to specify the application program!" (-1))) ;;;
  let ptr := default 0 (argv !! (if Z.of_nat tp <? argc then tp else 0%nat)) in
  let* app_path := arg_string argv ptr in
  fs_call tp tt (load_bincode_from_host_elf tp proc app_path) ;;;
  on_kern (upd_proc proc (set_proc_size (20 * PGSIZE))) ;;;
  ret proc.

(** [s_start] before its first barrier, ... *)
Definition s_start_mem (tp : nat) : KM unit :=
  on_low (print_text (txt "hartid = " ++ show_dec (Z.of_nat tp) ++ txt ": Enter supervisor mode..." ++ [10])) ;;;
  write_satp tp 0 ;;;
  if Nat.eqb tp 0 then
    on_low (on_mem (pmm_init kernel_end)) ;;;
    let* root := on_low (on_mem (kern_vm_init etext)) in
    modify (fun k => mkInit (brd k) root (htif_found k))
  else ret tt.
(** ... before its second, ... *)
Definition s_start_fs (tp : nat) : KM unit :=
  enable_paging tp ;;;
  on_low (print_text (txt "kernel page table is on " ++ [10])) ;;;
  if Nat.eqb tp 0 then on_low (on_kern init_proc_pool) ;;; on_low (fs_init disk_garbage disk_stale) else ret tt.
(** ... and behind it. *)
Definition s_start_run (tp : nat) : KM unit :=
  on_low (print_text (txt "Switch to user mode..." ++ [10])) ;;;
  let* '(argc, _) := on_low parse_args in
  when (argc =? 0) (on_low (on_kern (kill_current_process tp "You need to specify the application program!" (-1)))) ;;;
  when (Z.of_nat tp <? argc)
    (let* pr := on_low (load_user_program tp) in on_low (on_kern (insert_to_ready_queue pr))) ;;;
  on_low (on_kern (schedule tp)).

(** ** The harts *)

Definition run_phase (p : phase) (i : nat) : KM unit :=
  match p with
  | Host => m_start_init i
  | Memory => let* _ := on_board (m_start_hart i) in s_start_mem i
  | Files => s_start_fs i
  | Run => s_start_run i
  end.

(** The barrier counters ([counter], [mem_counter], [fs_counter]) and which phases
    were run, the latest first. *)
Record world : Type := mkWorld {
  st : kinit H;
  counters : phase -> Z;
  places : list place;
  log : list (nat * phase)
}.

(** [sync_barrier]: the atomic increment; the last hart goes on at once. *)
Definition arrive (p : phase) (i : nat) (w : world) : world :=
  let local := counters w p in
  mkWorld (st w) (fun q => if bool_decide (q = p) then i32 (local + 1) else counters w q)
    (<[i := if local + 1 <? Z.of_nat NCPU then Waiting p else behind p]> (places w)) (log w).

(** One step of hart [i]; [None] if it spins or has stopped. *)
Definition boot_step (i : nat) (w : world) : option world :=
  match places w !! i with
  | Some (At p) =>
      match run_phase p i (st w) with
      | Ret _ s =>
          let w := mkWorld s (counters w) (places w) ((i, p) :: log w) in
          Some (match p with Run => mkWorld s (counters w) (<[i := Running]> (places w)) (log w) | _ => arrive p i w end)
      | Stop (Resume _) s | Stop Wfi s =>
          match p with
          | Run => Some (mkWorld s (counters w) (<[i := Running]> (places w)) ((i, p) :: log w))
          | _ => None
          end
      | Stop _ _ => None
      end
  | Some (Waiting p) =>
      if counters w p <? Z.of_nat NCPU then None
      else Some (mkWorld (st w) (counters w) (<[i := behind p]> (places w)) (log w))
  | _ => None
  end.
End Boot.
