(* ===== verification/BootOrder.v ===== *)
(** * The order of kernel start

    Whatever the order in which the harts take steps, no hart begins a phase
    before every hart has finished the phases before it, and the barriers do not
    block for ever. *)
From S2P Require Import Prelude Pmm Vmm Process Sched Fork Heap Strap Pages HashTable CString Snprintf Bytes DebugLine Dts.
From S2P Require Import VfsData Rfs RfsDisk RfsFile RfsDir Vfs VfsRefs ProcFile SpikeFile Hostfs Machine Elf Syscall Mtrap Boot DtsTree.

Definition idx (p : phase) : nat := match p with Host => 0 | Memory => 1 | Files => 2 | Run => 3 end.
(** How far a hart is: [At p] even, [Waiting p] odd. *)
Definition stage (x : place) : nat := match x with At p => 2 * idx p | Waiting p => 2 * idx p + 1 | Running => 7 end.
(** The hart has run phase [p]. *)
Definition ran (p : phase) (x : place) : bool := Nat.ltb (2 * idx p) (stage x).
Definition count (p : phase) (l : list place) : nat := length (filter (fun x => ran p x) l).

Lemma idx_inj p q : idx p = idx q -> p = q.
Proof. by destruct p, q. Qed.

Lemma count_insert p l : forall i x y, l !! i = Some x ->
  (count p (<[i := y]> l) + Nat.b2n (ran p x) = count p l + Nat.b2n (ran p y))%nat.
Proof.
  unfold count. induction l as [|z l IH]; intros [|i] x y Hx; try done.
  - cbn in Hx. simplify_eq. change (<[0%nat:=y]> (x :: l)) with (y :: l). rewrite !filter_cons.
    destruct (ran p x), (ran p y); cbn [Nat.b2n]; repeat case_decide; cbn [length]; (done || lia).
  - specialize (IH i x y Hx). change (<[S i:=y]> (z :: l)) with (z :: <[i:=y]> l). rewrite !filter_cons. destruct (ran p z);
      [rewrite !decide_True by done|rewrite !decide_False by (by intros [])]; cbn [length]; lia.
Qed.

Lemma count_le p l : (count p l <= length l)%nat.
Proof. apply length_filter. Qed.

Lemma count_all p l : count p l = length l -> forall i x, l !! i = Some x -> ran p x = true.
Proof.
  unfold count. induction l as [|z l IH]; intros Hc i x Hx; [done|]. rewrite filter_cons in Hc.
  destruct (ran p z) eqn:Ez.
  - rewrite decide_True in Hc by done. cbn [length] in Hc. destruct i as [|i]; cbn in Hx; [by simplify_eq|]. apply (IH ltac:(lia) i x Hx).
  - rewrite decide_False in Hc by (by intros []). cbn [length] in Hc. pose proof (count_le p l). unfold count in *. lia.
Qed.

Lemma count_full p l : (forall i x, l !! i = Some x -> ran p x = true) -> count p l = length l.
Proof.
  unfold count. induction l as [|z l IH]; intros Hall; [done|]. rewrite filter_cons, decide_True by (by rewrite (Hall 0%nat z)).
  cbn [length]. rewrite IH; [done|]. intros i x Hx. by apply (Hall (S i)).
Qed.

Section BootOrder.
Context {H : Type} `{Frontend H} `{Linker} `{Buffers} `{Hart} `{Platform}.
#[local] Notation world := (world (H := H)).

(** Power on, and steps of any harts. *)
Definition powered (k : kinit H) : world := mkWorld k (fun _ => 0) (replicate NCPU (At Host)) [].
Inductive booting (k : kinit H) : world -> Prop :=
| boot_start : booting k (powered k)
| boot_next i w w' : booting k w -> boot_step i w = Some w' -> booting k w'.

(** Phases are separated: what [log] has before a phase includes the earlier
    phases of all harts. *)
Definition separated (l : list (nat * phase)) : Prop :=
  forall l1 i p l2, l = l1 ++ (i, p) :: l2 -> forall q j, (idx q < idx p)%nat -> (j < NCPU)%nat -> (j, q) ∈ l2.

Record boot_inv (w : world) : Prop := {
  bi_len : length (places w) = NCPU;
  bi_count : forall p, p <> Run -> counters w p = Z.of_nat (count p (places w));
  bi_log : forall j p, (j, p) ∈ log w <-> exists x, places w !! j = Some x /\ ran p x = true;
  bi_bar : forall i x j y p, places w !! i = Some x -> places w !! j = Some y ->
    (2 * idx p + 2 <= stage x)%nat -> ran p y = true;
  bi_order : separated (log w);
  bi_run : forall i, places w !! i <> Some (Waiting Run)
}.

Lemma powered_inv k : boot_inv (powered k).
Proof.
  assert (Hat : forall i x, places (powered k) !! i = Some x -> x = At Host)
    by (intros i x Hx; cbn [places powered] in Hx; by apply lookup_replicate in Hx as [-> _]).
  split; [done|by intros []| | | |].
  - intros j p. split; [by intros ?%elem_of_nil|]. intros (x & Hx & Hr). rewrite (Hat _ _ Hx) in Hr. by destruct p.
  - intros i x j y p Hx _ Hs. rewrite (Hat _ _ Hx) in Hs. cbn in Hs. lia.
  - intros [|] ? ? ? Hl; discriminate Hl.
  - intros i Hi. discriminate (Hat i _ Hi).
Qed.

(** A hart finishes phase [p] and moves to [y]. *)
Lemma move_inv w i p y s c :
  boot_inv w -> places w !! i = Some (At p) -> (2 * idx p < stage y <= 2 * idx p + 2)%nat ->
  (forall q, q <> Run -> c q = Z.of_nat (count q (<[i := y]> (places w)))) ->
  ((2 * idx p + 2 <= stage y)%nat -> forall j x, j <> i -> places w !! j = Some x -> ran p x = true) -> y <> Waiting Run ->
  boot_inv (mkWorld s c (<[i := y]> (places w)) ((i, p) :: log w)).
Proof.
  intros [Hlen _ Hlog Hbar Hord Hwr] Hi Hy Hc Hall Hyr. pose proof (lookup_lt_Some _ _ _ Hi) as Hlt.
  assert (Hran : forall q, ran q y = true <-> (idx q <= idx p)%nat) by (intros q; unfold ran; rewrite Nat.ltb_lt; lia).
  assert (Hold : forall q, ran q (At p) = true <-> (idx q < idx p)%nat) by (intros q; unfold ran; cbn [stage]; rewrite Nat.ltb_lt; lia).
  split; cbn [places counters log].
  - by rewrite length_insert.
  - exact Hc.
  - intros j q. rewrite elem_of_cons, Hlog. destruct (decide (j = i)) as [->|Hj].
    + rewrite list_lookup_insert_eq by done. split.
      * intros [[= ->]|(x & Hx & Hr)]; exists y; split; try done; apply Hran; [lia|]. simplify_eq. apply Hold in Hr. lia.
      * intros (x & [= <-] & Hr). apply Hran in Hr. destruct (decide (idx q = idx p)) as [E|E]; [left; by rewrite (idx_inj _ _ E)|].
        right. exists (At p). split; [done|]. apply Hold. lia.
    + rewrite list_lookup_insert_ne by done. split; [intros [[= -> _]|Hx]; done|by right].
  - intros a x b z q Ha Hb Hs.
    assert (Hge : b = i -> (idx q <= idx p)%nat -> ran q z = true).
    { intros -> Hq. rewrite list_lookup_insert_eq in Hb by done. simplify_eq. by apply Hran. }
    destruct (decide (a = i)) as [->|Ha'].
    + rewrite list_lookup_insert_eq in Ha by done. simplify_eq. destruct (decide (b = i)) as [Hb'|Hb']; [apply Hge; [done|lia]|].
      rewrite list_lookup_insert_ne in Hb by done. destruct (decide (idx q = idx p)) as [E|E].
      * apply idx_inj in E as ->. by apply (Hall Hs b).
      * apply (Hbar i (At p) b z q Hi Hb). cbn [stage]. lia.
    + rewrite list_lookup_insert_ne in Ha by done. destruct (decide (b = i)) as [Hb'|Hb'].
      * apply Hge; [done|]. pose proof (Hbar a x i (At p) q Ha Hi Hs) as Hr. apply Hold in Hr. lia.
      * rewrite list_lookup_insert_ne in Hb by done. by apply (Hbar a x b z q).
  - intros [|e l1] j q l2 Hl r k Hr Hk; cbn in Hl; [injection Hl as <- <- <-|injection Hl as _ Hl; by apply (Hord l1 j q l2)].
    apply Hlog. destruct (lookup_lt_is_Some_2 (places w) k) as [x Hx]; [by rewrite Hlen|]. exists x. split; [done|].
    apply (Hbar i (At p) k x r Hi Hx). cbn [stage]. lia.
  - intros j. destruct (decide (j = i)) as [->|Hj]; [rewrite list_lookup_insert_eq by done; congruence|].
    rewrite list_lookup_insert_ne by done. apply Hwr.
Qed.

(** A hart leaves the loop of the barrier of [p]. *)
Lemma leave_inv w i p :
  boot_inv w -> places w !! i = Some (Waiting p) -> Z.of_nat NCPU <= counters w p ->
  boot_inv (mkWorld (st w) (counters w) (<[i := behind p]> (places w)) (log w)).
Proof.
  intros [Hlen Hcnt Hlog Hbar Hord Hwr] Hi Hn. pose proof (lookup_lt_Some _ _ _ Hi) as Hlt.
  assert (Hp : p <> Run) by (intros ->; by apply (Hwr i)).
  assert (Hsame : forall q, ran q (behind p) = ran q (Waiting p)) by (intros q; by destruct p, q).
  assert (Hall : forall j x, places w !! j = Some x -> ran p x = true).
  { apply count_all. rewrite Hcnt in Hn by done. pose proof (count_le p (places w)). lia. }
  assert (Hget : forall j x, <[i := behind p]> (places w) !! j = Some x -> exists x', places w !! j = Some x' /\
            (forall q, ran q x = ran q x') /\ ((stage x <= stage x')%nat \/ x = behind p)).
  { intros j x Hx. destruct (decide (j = i)) as [->|Hj].
    - rewrite list_lookup_insert_eq in Hx by done. simplify_eq. exists (Waiting p). auto.
    - rewrite list_lookup_insert_ne in Hx by done. exists x. auto. }
  split; cbn [places counters log].
  - by rewrite length_insert.
  - intros q Hq. rewrite Hcnt by done. pose proof (count_insert q (places w) i _ (behind p) Hi) as Hc. rewrite Hsame in Hc. lia.
  - intros j q. rewrite Hlog. split.
    + intros (x & Hx & Hr). destruct (decide (j = i)) as [->|Hj].
      * simplify_eq. exists (behind p). rewrite list_lookup_insert_eq by done. by rewrite Hsame.
      * exists x. by rewrite list_lookup_insert_ne.
    + intros (x & Hx & Hr). destruct (Hget j x Hx) as (x' & Hx' & Hr' & _). exists x'. by rewrite <- Hr'.
  - intros a x b y q Ha Hb Hs. destruct (Hget a x Ha) as (x' & Hx' & _ & Hst), (Hget b y Hb) as (y' & Hy' & Hry & _). rewrite Hry.
    destruct Hst as [Hst|Hx].
    + apply (Hbar a x' b y' q Hx' Hy'). lia.
    + subst x. assert (Hq : (idx q <= idx p)%nat) by (destruct p; cbn in *; (done || lia)).
      pose proof (Hall b y' Hy') as Hr. unfold ran in *. apply Nat.ltb_lt in Hr. apply Nat.ltb_lt. lia.
  - exact Hord.
  - intros j. destruct (decide (j = i)) as [->|Hj]; [rewrite list_lookup_insert_eq by done; by destruct p|].
    rewrite list_lookup_insert_ne by done. apply Hwr.
Qed.

Lemma run_inv w i p s :
  boot_inv w -> places w !! i = Some (At p) -> p <> Run ->
  boot_inv (arrive p i (mkWorld s (counters w) (places w) ((i, p) :: log w))).
Proof.
  intros Hinv Hi Hp. destruct Hinv as [Hlen Hcnt Hlog Hbar Hord Hwr] eqn:Einv. unfold arrive. cbn [counters places st log].
  set (y := if counters w p + 1 <? Z.of_nat NCPU then Waiting p else behind p).
  assert (Hy : (2 * idx p < stage y <= 2 * idx p + 2)%nat) by (subst y; destruct (_ <? _), p; cbn; (done || lia)).
  assert (Hci : forall q, q <> Run -> (count q (<[i:=y]> (places w)) = count q (places w) + (if decide (q = p) then 1 else 0))%nat).
  { intros q Hq. pose proof (count_insert q (places w) i (At p) y Hi) as Hc. unfold ran in Hc. cbn [stage] in Hc.
    destruct (decide (q = p)) as [->|Hne].
    - rewrite (proj2 (Nat.ltb_ge _ _)), (proj2 (Nat.ltb_lt _ _)) in Hc by lia. cbn [Nat.b2n] in Hc. lia.
    - assert (idx q <> idx p) by (intros E; by apply Hne, idx_inj).
      destruct (Nat.ltb_spec (2 * idx q) (2 * idx p)), (Nat.ltb_spec (2 * idx q) (stage y)); cbn [Nat.b2n] in Hc; lia. }
  pose proof (count_le p (<[i:=y]> (places w))) as Hle. rewrite length_insert, Hlen in Hle.
  rewrite (Hci p Hp), decide_True in Hle by done.
  apply move_inv; [exact Hinv|exact Hi|exact Hy| | |subst y; by destruct (_ <? _), p].
  - intros q Hq. rewrite Hci by done. destruct (decide (q = p)) as [->|Hne].
    + rewrite bool_decide_eq_true_2, Hcnt by done. unfold NCPU in Hle. rewrite i32_small; lia.
    + rewrite bool_decide_eq_false_2, Hcnt by done. lia.
  - intros Hs j x Hj Hx. subst y. rewrite Hcnt in Hs by done.
    destruct (Z.ltb_spec (Z.of_nat (count p (places w)) + 1) (Z.of_nat NCPU)) as [Hlt|Hge]; [cbn [stage] in Hs; lia|].
    pose proof (count_all p (<[i:=behind p]> (places w))) as Hca. rewrite length_insert, Hlen in Hca.
    rewrite (proj2 (Z.ltb_ge _ _)) in Hci by (rewrite Hcnt by done; lia).
    apply (Hca ltac:(rewrite (Hci p Hp), decide_True by done; lia) j). by rewrite list_lookup_insert_ne.
Qed.

Lemma step_inv i w w' : boot_inv w -> boot_step i w = Some w' -> boot_inv w'.
Proof.
  intros Hinv Hs. unfold boot_step in Hs. destruct (places w !! i) as [[p|p|]|] eqn:Hi; [| |done..].
  - assert (Hrun : forall s, p = Run -> boot_inv (mkWorld s (counters w) (<[i := Running]> (places w)) ((i, p) :: log w))).
    { intros s ->. apply move_inv; [exact Hinv|exact Hi|cbn; lia| |cbn; lia|done].
      intros q Hq. rewrite (bi_count _ Hinv q Hq). pose proof (count_insert q (places w) i _ Running Hi) as Hc. by destruct q; cbn in Hc; [lia..|]. }
    destruct (run_phase p i (st w)) as [[] s|e s].
    + destruct p; simplify_eq/=; [by apply run_inv..|by apply Hrun].
    + destruct e, p; simplify_eq/=; by apply Hrun.
  - destruct (Z.ltb_spec (counters w p) (Z.of_nat NCPU)) as [Hlt|Hge]; [done|]. simplify_eq.
    by apply leave_inv.
Qed.

Lemma booting_inv k w : booting k w -> boot_inv w.
Proof. induction 1 as [|i w w' _ IH Hs]; [apply powered_inv|by apply (step_inv i w)]. Qed.

(** C22: in every interleaving of the harts, whenever a hart has run a phase, all
    harts had run all earlier phases before: no hart turns paging on before hart 0
    built the page table, and none loads a program before the file systems are up. *)
Theorem boot_order k w : booting k w -> separated (log w).
Proof. intros Hb. apply bi_order, (booting_inv k w Hb). Qed.

Lemma all_arrived w p : boot_inv w -> p <> Run -> (forall i x, places w !! i = Some x -> ran p x = true) -> Z.of_nat NCPU <= counters w p.
Proof.
  intros Hi Hp Hall. rewrite (bi_count _ Hi p Hp), <- (bi_len _ Hi), (count_full p _ Hall). lia.
Qed.

(** the barriers do not deadlock: as long as some hart does not run programs
    yet, some hart can take a step, unless a phase itself stops (a panic, a fault). *)
Theorem boot_progress k w :
  booting k w -> (exists i w', boot_step i w = Some w') \/ (forall i x, places w !! i = Some x -> x = Running) \/
    exists i p e s, places w !! i = Some (At p) /\ run_phase p i (st w) = Stop e s.
Proof.
  intros Hb. pose proof (booting_inv k w Hb) as Hi.
  assert (Hat : forall i p, places w !! i = Some (At p) -> (exists i w', boot_step i w = Some w') \/
            exists i p e s, places w !! i = Some (At p) /\ run_phase p i (st w) = Stop e s).
  { intros i p Hp. destruct (run_phase p i (st w)) as [[] s|e s] eqn:E; [left|right; by exists i, p, e, s].
    exists i. unfold boot_step. rewrite Hp, E. by eexists. }
  assert (Hwait : forall i p, places w !! i = Some (Waiting p) -> (forall j x, places w !! j = Some x -> (2 * idx p < stage x)%nat) ->
            exists i w', boot_step i w = Some w').
  { intros i p Hp Hall. exists i. unfold boot_step. rewrite Hp.
    rewrite (proj2 (Z.ltb_ge _ _)); [by eexists|]. apply all_arrived; [done|intros ->; by apply (bi_run _ Hi i)|].
    intros j x Hx. apply Nat.ltb_lt. by apply (Hall j). }
  pose proof (bi_len _ Hi) as Hlen. destruct (places w) as [|x [|y [|z l]]] eqn:El; try discriminate Hlen.
  assert (Hxy : forall j v, [x; y] !! j = Some v -> v = x \/ v = y) by (intros [|[|]] v Hv; cbn in Hv; simplify_eq; auto).
  destruct x as [p|p|].
  - destruct (Hat 0%nat p eq_refl); auto.
  - destruct y as [q|q|].
    + destruct (Hat 1%nat q eq_refl); auto.
    + left. destruct (decide (idx p <= idx q)%nat).
      * apply (Hwait 0%nat p eq_refl). intros j v [-> | ->]%Hxy; cbn [stage]; lia.
      * apply (Hwait 1%nat q eq_refl). intros j v [-> | ->]%Hxy; cbn [stage]; lia.
    + left. apply (Hwait 0%nat p eq_refl). intros j v [-> | ->]%Hxy; cbn [stage]; destruct p; cbn; lia.
  - destruct y as [q|q|].
    + destruct (Hat 1%nat q eq_refl); auto.
    + left. apply (Hwait 1%nat q eq_refl). intros j v [-> | ->]%Hxy; cbn [stage]; destruct q; cbn; lia.
    + right. left. by intros j v [-> | ->]%Hxy.
Qed.
End BootOrder.

(** ** A concrete start: hart 1 is first at the barrier *)
#[local] Existing Instances sample_host sample_linker sample_buffers.
#[local] Instance start_hart : Hart := {|
  misa := Z.shiftl 1 18; keep_mideleg v := v; keep_medeleg v := v; s_start_addr := 2147487744; mtrapvec := 2147491840;
  g_itrframe i := 2147500032 + 256 * Z.of_nat i |}.
#[local] Instance start_platform : Platform := {|
  dtb := 4096; dtb_blob := demo_blob; fdt_fuel := 200; mem_done_addr := 2147487744; stale_scan := mkMemScan 0 0 0; stale_compat := 0;
  kernel_end := 2147500032; etext := 2147491840; disk_garbage _ _ := 0; disk_stale := []; arg_buf_addr := 0 |}.
Definition start_kern : kstate :=
  mkK (mkP ∅ 0 ∅ 0 0 0 0) [] [] [None; None] None 0 0 0 [0; 0] [mkCsr 0 0 0 0 0 0 0; mkCsr 0 0 0 0 0 0 0].
Definition start_sys : sys (list Z) :=
  mkF (mkMachine start_kern (mkSp (replicate 8 (mkSpikeFile 0 0)) (replicate 8 0) []) (fun _ => 0) [] (fun _ => []))
    [] ∅ ∅ ∅ ∅ ∅ (mkTable [] ∅) (mkTable [] ∅) 0 [] [] [].
Definition start_init : kinit (list Z) :=
  mkInit (mkBoard [mkMcsr 0 0 0 0 0 0 0 0 0 0 0; mkMcsr 0 0 0 0 0 0 0 0 0 0 0] [0; 0] 50 (mkFwd 0 0 0 0 0 0) start_sys) 0 0.
Definition after (i : nat) (w : world) : world := default w (boot_step i w).

Lemma after_step k i w : booting k w -> match boot_step i w with Some _ => true | None => false end = true -> booting k (after i w).
Proof. intros Hb Hs. unfold after. destruct (boot_step i w) as [w'|] eqn:E; [|done]. by apply (boot_next k i w). Qed.

(** Hart 1 arrives, hart 0 initialises, hart 1 leaves the barrier and runs on. *)
Definition started : world := after 1 (after 1 (after 0 (after 1 (powered start_init)))).
Lemma started_booting : booting start_init started.
Proof. repeat (apply after_step; [|vm_compute; reflexivity]). apply boot_start. Qed.

Lemma boot_order_witness : log started = [(1%nat, Memory); (0%nat, Host); (1%nat, Host)] /\ separated (log started).
Proof. split; [vm_compute; reflexivity|]. exact (boot_order start_init started started_booting). Defined.

Lemma boot_progress_witness :
  (exists i w', boot_step i started = Some w') \/ (forall i x, places started !! i = Some x -> x = Running) \/
    exists i p e s, places started !! i = Some (At p) /\ run_phase p i (st started) = Stop e s.
Proof. exact (boot_progress start_init started started_booting). Defined.
