(* ===== verification/UserLib.v ===== *)
(** * The library of user programs (user/user_lib.c)

    A library call puts its arguments in the registers a0 to a7 and executes an
    [ecall]; [do_user_call] keeps 32 bits of the result.  Each call below is its
    registers; with [do_syscall] they reach the kernel function that is meant. *)
From S2P Require Import Prelude Pmm Vmm Process Sched Fork Heap Strap Pages HashTable CString Snprintf Bytes DebugLine.
From S2P Require Import VfsData Rfs RfsDisk RfsFile RfsDir Vfs VfsRefs ProcFile SpikeFile Hostfs Machine Elf Syscall.

(** An argument of type [int] is sign extended to its register. *)
Definition int_arg (z : Z) : Z := u64 (i32 z).
Definition regs (n a1 a2 a3 : Z) : list Z := [n; u64 a1; u64 a2; u64 a3; 0; 0; 0; 0].

(** [do_user_call]: "sw a0" keeps the low 32 bits of the result, as an [int] that is
    widened again. *)
Definition do_user_call (result : Z) : Z := u64 (i32 result).

Definition printpa (va : Z) : list Z := regs SYS_user_printpa va 0 0.
Definition exit (code : Z) : list Z := regs SYS_user_exit (int_arg code) 0 0.
Definition naive_malloc : list Z := regs SYS_user_allocate_page 0 0 0.
Definition naive_free (va : Z) : list Z := regs SYS_user_free_page va 0 0.
Definition better_malloc (n : Z) : list Z := regs SYS_user_better_allocate_page (int_arg n) 0 0.
Definition better_free (va : Z) : list Z := regs SYS_user_better_free_page va 0 0.
Definition fork : list Z := regs SYS_user_fork 0 0 0.
Definition yield : list Z := regs SYS_user_yield 0 0 0.
Definition open (pathname flags : Z) : list Z := regs SYS_user_open pathname (int_arg flags) 0.
Definition read_u (fd buf count : Z) : list Z := regs SYS_user_read (int_arg fd) buf count.
Definition write_u (fd buf count : Z) : list Z := regs SYS_user_write (int_arg fd) buf count.
Definition lseek_u (fd offset whence : Z) : list Z := regs SYS_user_lseek (int_arg fd) (int_arg offset) (int_arg whence).
Definition stat_u (fd istat : Z) : list Z := regs SYS_user_stat (int_arg fd) istat 0.
Definition disk_stat_u (fd istat : Z) : list Z := regs SYS_user_disk_stat (int_arg fd) istat 0.
Definition opendir_u (dirname : Z) : list Z := regs SYS_user_opendir dirname 0 0.
Definition readdir_u (fd dir : Z) : list Z := regs SYS_user_readdir (int_arg fd) dir 0.
Definition mkdir_u (pathname : Z) : list Z := regs SYS_user_mkdir pathname 0 0.
Definition closedir_u (fd : Z) : list Z := regs SYS_user_closedir (int_arg fd) 0 0.
Definition link_u (fn1 fn2 : Z) : list Z := regs SYS_user_link fn1 fn2 0.
Definition unlink_u (fn : Z) : list Z := regs SYS_user_unlink fn 0 0.
Definition close (fd : Z) : list Z := regs SYS_user_close (int_arg fd) 0 0.
Definition exec (pathname argv : Z) : list Z := regs SYS_user_exec pathname argv 0.
Definition wait (pid : Z) : list Z := regs SYS_user_wait (int_arg pid) 0 0.
Definition sem_new (init_val : Z) : list Z := regs SYS_user_semNew (int_arg init_val) 0 0.
Definition sem_P (sid : Z) : list Z := regs SYS_user_semP (int_arg sid) 0 0.
Definition sem_V (sid : Z) : list Z := regs SYS_user_semV (int_arg sid) 0 0.
Definition print_backtrace (depth : Z) : list Z := regs SYS_user_print_backtrace (int_arg depth) 0 0.
Definition read_cwd (path : Z) : list Z := regs SYS_user_rcwd path 0 0.
Definition change_cwd (path : Z) : list Z := regs SYS_user_ccwd path 0 0.

(** [printu]: the text is formatted into [out], 256 bytes of the user's stack, and
    the kernel is called on it.  The result is the registers and the memory. *)
Definition printu (fuel sf : nat) (out fmt : Z) (args : list Z) : M bmem (list Z) :=
  let* res := vsnprintf fuel sf out 256 fmt args in
  let n := if u64 res <? 256 then u64 res else 256 in
  ret (regs SYS_user_print out n 0).

(** [scanfu] around its system call: the format is tested, and behind the call the
    first word of [inp] goes to [out]. *)
Definition scanfu_call (inp : Z) : list Z := regs SYS_user_scanf inp 0 0.
Definition scanfu_ok (m : bmem) (fmt : Z) : bool :=
  negb (fmt =? 0) && (m fmt =? 37) && (m (fmt + 1) =? 115) && (m (fmt + 2) =? 0).
Definition is_blank (c : Z) : bool := (c =? 32) || (c =? 10) || (c =? 9).
(** The copying loop; the bound is that of [char in[256]]. *)
Fixpoint scanfu_copy (n : nat) (m : bmem) (out inp : Z) : option bmem :=
  match n with
  | O => None
  | S n' =>
      let c := m inp in
      if (c =? 0) || is_blank c then Some (upd m out 0)
      else scanfu_copy n' (upd m out c) (out + 1) (inp + 1)
  end.

(** ** The kernel gets what the program passed *)

Lemma int_arg_kept z : -2147483648 <= z < 2147483648 -> i32 (u64 (int_arg z)) = z.
Proof.
  intros Hz. unfold int_arg. rewrite (i32_small z) by done.
  unfold i32. destruct (Z.ltb_spec (u64 (u64 z) mod 4294967296) 2147483648); klia.
Qed.

Lemma int_kept z : -2147483648 <= z < 2147483648 -> i32 (do_user_call z) = z.
Proof.
  intros Hz. unfold do_user_call. rewrite (i32_small z) by done.
  unfold i32. destruct (Z.ltb_spec (u64 z mod 4294967296) 2147483648); klia.
Qed.

Section UserLib.
Context {H : Type} `{Frontend H} `{Linker} `{Buffers}.
#[local] Notation SM := (M (sys H)).

Definition is_u64 (z : Z) : Prop := 0 <= z < 18446744073709551616.

(** C32: user library and kernel agree on the calls: number, order and width of the
    arguments.  Each library call reaches the kernel function of its name with the
    [int] and pointer arguments that the program passed; negative [int]s included.
    [fork] passes nothing on (the kernel's array of 32 counters is what its stack
    holds); [scanfu] hands over its buffer; [printu] hands over its buffer and the
    number of characters that [vsnprintf] gives, at most 256 (the kernel does not look at it). *)
Theorem calls_reach_kernel (tp : nat) (a b c p q : Z) :
  is_int a -> is_int b -> is_int c -> is_u64 p -> is_u64 q ->
  let s := do_syscall (H := H) tp in
  (s (open p b) = sys_user_open tp p b /\ s (read_u a p q) = sys_user_read tp a p q /\
   s (write_u a p q) = sys_user_write tp a p q /\ s (lseek_u a b c) = sys_user_lseek tp a b c /\
   s (stat_u a p) = sys_user_stat tp a p /\ s (disk_stat_u a p) = sys_user_disk_stat tp a p /\
   s (close a) = sys_user_close tp a) /\
  (s (opendir_u p) = sys_user_opendir tp p /\ s (readdir_u a p) = sys_user_readdir tp a p /\
   s (mkdir_u p) = sys_user_mkdir tp p /\ s (closedir_u a) = sys_user_closedir tp a /\
   s (link_u p q) = sys_user_link tp p q /\ s (unlink_u p) = sys_user_unlink tp p /\
   s (read_cwd p) = sys_user_read_cwd tp p /\ s (change_cwd p) = sys_user_change_cwd tp p) /\
  (s (exec p q) = sys_user_exec tp p q /\ s (wait a) = on_kern (sys_user_wait tp a) /\
   s yield = on_kern (sys_user_yield tp) /\ s (exit a) = on_kern (sys_user_exit tp (int_arg a)) /\
   s (print_backtrace a) = sys_user_print_backtrace tp a) /\
  (s naive_malloc = on_kern (sys_user_allocate_page tp) /\ s (naive_free p) = on_kern (sys_user_free_page tp p) /\
   s (better_malloc a) = on_kern (sys_user_better_allocate_page tp (int_arg a)) /\
   s (better_free p) = on_kern (sys_user_better_free_page tp p) /\ s (printpa p) = sys_user_printpa tp p) /\
  (s (sem_new a) = on_kern (sys_user_semNew (int_arg a)) /\ s (sem_P a) = on_kern (sys_user_semP tp (int_arg a)) /\
   s (sem_V a) = on_kern (sys_user_semV tp (int_arg a))) /\
  (s fork = (let* st := get in let* b := stack_bytes 128 in
             on_kern (sys_user_fork tp (vfs_root_dentry st) (i32 <$> numbers 4 32 b))) /\
   s (scanfu_call p) = sys_user_scanf tp p /\
   forall fuel sf fmt args m l m', printu fuel sf p fmt args m = Ret l m' ->
     exists res, vsnprintf fuel sf p 256 fmt args m = Ret res m' /\ l = regs SYS_user_print p (Z.min (u64 res) 256) 0 /\
       s l = sys_user_print tp p (Z.min (u64 res) 256)).
Proof.
  intros Ha Hb Hc Hp Hq s. subst s.
  assert (Ei : forall z, u64 (int_arg z) = int_arg z) by (intros z; unfold int_arg; apply u64_small, u64_range).
  assert (Ep : u64 p = p /\ u64 q = q) by (split; apply u64_small; done). destruct Ep as [Ep Eq].
  unfold open, read_u, write_u, lseek_u, stat_u, disk_stat_u, close, opendir_u, readdir_u, mkdir_u, closedir_u, link_u, unlink_u,
    read_cwd, change_cwd, exec, wait, yield, exit, print_backtrace, naive_malloc, naive_free, better_malloc, better_free, printpa,
    sem_new, sem_P, sem_V, fork, scanfu_call, regs, do_syscall.
  cbn [nth]. rewrite ?int_arg_kept, ?Ep, ?Eq, ?Ei by done. do 4 (split; [repeat split; reflexivity|]).
  split; [repeat split; reflexivity|]. split; [reflexivity|]. split; [reflexivity|].
  intros fuel sf fmt args m l m' E. unfold printu, bind in E. destruct (vsnprintf fuel sf p 256 fmt args m) as [res m1|]; [|done].
  injection E as <- <-. exists res. split; [done|].
  assert (En : (if u64 res <? 256 then u64 res else 256) = Z.min (u64 res) 256) by (destruct (Z.ltb_spec (u64 res) 256); lia).
  split; [unfold regs; by rewrite Ep, En|]. unfold regs. cbn [nth]. rewrite Ep. reflexivity.
Qed.

Lemma scanfu_copy_run c n : forall m out inp w,
  (forall i d, w !! i = Some d -> m (inp + Z.of_nat i) = d /\ 0 < d < 256 /\ is_blank d = false) ->
  m (inp + Z.of_nat (length w)) = c -> c = 0 \/ is_blank c = true -> (length w < n)%nat ->
  out + Z.of_nat (length w) < inp \/ inp + Z.of_nat (length w) < out ->
  exists m', scanfu_copy n m out inp = Some m' /\ cstr m' out w /\
    forall x, x < out \/ out + Z.of_nat (length w) < x -> m' x = m x.
Proof.
  induction n as [|n IH]; intros m out inp w Hw Hc Hb Hn Hd; [lia|]. cbn [scanfu_copy].
  destruct w as [|d w]; cbn [length] in *.
  - rewrite Z.add_0_r in Hc. rewrite Hc.
    replace ((c =? 0) || is_blank c) with true by (destruct Hb as [-> | ->]; [done|by rewrite orb_true_r]).
    eexists. split; [done|]. split; [cbn; by rewrite upd_eq by lia|]. intros x Hx. rewrite upd_ne by lia. done.
  - destruct (Hw 0%nat d eq_refl) as (Hm & Hdr & Hbl). rewrite Z.add_0_r in Hm. rewrite Hm, Hbl, (proj2 (Z.eqb_neq d 0)) by lia.
    cbn [orb]. destruct (IH (upd m out d) (out + 1) (inp + 1) w) as (m' & E & Hs & Ho).
    + intros i e Hi. destruct (Hw (S i) e Hi) as (Hme & ?). split; [|done].
      pose proof (lookup_lt_Some _ _ _ Hi). rewrite upd_ne by lia. rewrite <- Hme. f_equal. lia.
    + rewrite upd_ne by lia. rewrite <- Hc. f_equal. lia.
    + done.
    + lia.
    + lia.
    + exists m'. split; [done|]. split.
      * cbn [cstr]. split; [rewrite Ho by lia; apply upd_eq; lia|]. split; [lia|done].
      * intros x Hx. rewrite Ho by lia. apply upd_ne. lia.
Qed.

(** [scanfu] stores the first word of the line and a zero, however long the word
    is; it stops at the first blank or at the end of the line. *)
Theorem scanfu_word m out inp w c :
  (forall i d, w !! i = Some d -> m (inp + Z.of_nat i) = d /\ 0 < d < 256 /\ is_blank d = false) ->
  m (inp + Z.of_nat (length w)) = c -> c = 0 \/ is_blank c = true -> (length w < 256)%nat ->
  out + Z.of_nat (length w) < inp \/ inp + Z.of_nat (length w) < out ->
  exists m', scanfu_copy 256 m out inp = Some m' /\ cstr m' out w /\
    forall x, x < out \/ out + Z.of_nat (length w) < x -> m' x = m x.
Proof. intros Hw Hc Hb Hn Hd. by apply (scanfu_copy_run c). Qed.
End UserLib.

#[local] Existing Instances sample_host sample_linker sample_buffers.

Lemma calls_reach_kernel_witness :
  do_syscall 0 (lseek_u 3 (-1) 0) = sys_user_lseek 0 3 (-1) 0 /\ do_syscall 0 (wait (-1)) = on_kern (sys_user_wait 0 (-1)).
Proof.
  destruct (calls_reach_kernel (H := list Z) 0 3 (-1) 0 0 0) as ((_ & _ & _ & E1 & _) & _); [unfold is_int, is_u64; lia..|].
  destruct (calls_reach_kernel (H := list Z) 0 (-1) 0 0 0 0) as (_ & _ & (_ & E2 & _) & _); [unfold is_int, is_u64; lia..|].
  split; [exact E1|exact E2].
Defined.

(** "ls" and a newline at 100. *)
Definition typed_line : bmem := fun a => if a =? 100 then 108 else if a =? 101 then 115 else if a =? 102 then 10 else 0.
Lemma scanfu_word_witness : exists m', scanfu_copy 256 typed_line 500 100 = Some m' /\ cstr m' 500 [108; 115].
Proof.
  destruct (scanfu_word typed_line 500 100 [108; 115] 10) as (m' & E & Hs & _).
  - intros [|[|i]] d Hd; [injection Hd as <-|injection Hd as <-|discriminate Hd]; (split; [reflexivity|split; [lia|reflexivity]]).
  - reflexivity.
  - right. reflexivity.
  - cbn. lia.
  - cbn. lia.
  - exists m'. split; [exact E|exact Hs].
Defined.
