(* ===== verification/Spinlock.v ===== *)
(** * The two spinlocks

    [spinlock_amo_t] (kernel/riscv.h) swaps with one atomic instruction;
    [spinlock_t] (spike_interface/atomic.h) swaps by a load and a store.  Each
    is a step function over the harts; the first excludes, the second
    does not on two harts. *)
From S2P Require Import Prelude Pmm.

(** The lock word and where each hart is. *)
Record lock_state (P : Type) : Type := mkL { word : Z; at_ : list P }.
Arguments mkL {P}. Arguments word {P}. Arguments at_ {P}.

Section Steps.
Context {P : Type}.
(** What a hart does next: the new place and the new value of the word. *)
Variable next : P -> Z -> P * Z.

Definition lock_step (i : nat) (s : lock_state P) : option (lock_state P) :=
  match at_ s !! i with
  | None => None
  | Some p => let '(p', w) := next p (word s) in Some (mkL w (<[i := p']> (at_ s)))
  end.

Inductive reachable (s0 : lock_state P) : lock_state P -> Prop :=
| reach_start : reachable s0 s0
| reach_step i s s' : reachable s0 s -> lock_step i s = Some s' -> reachable s0 s'.

(** A run given by the harts that take the steps. *)
Fixpoint run_steps (hs : list nat) (s : lock_state P) : option (lock_state P) :=
  match hs with [] => Some s | i :: hs' => s' ← lock_step i s; run_steps hs' s' end.

Lemma run_reachable s0 hs : forall s s', reachable s0 s -> run_steps hs s = Some s' -> reachable s0 s'.
Proof.
  induction hs as [|i hs IH]; intros s s' Hr Hs; cbn in Hs; [by simplify_eq|].
  destruct (lock_step i s) as [s1|] eqn:E; [|done]. apply (IH s1 s'); [by apply (reach_step s0 i s)|done].
Qed.
End Steps.

(** ** [spinlock_amo_lock] and [spinlock_amo_unlock] *)

Inductive amo_place : Type := AmoOut | AmoSpin | AmoIn.
#[global] Instance amo_place_eq_dec : EqDecision amo_place.
Proof. solve_decision. Defined.
(** [SPIN_LOCK_FREE] and [SPIN_LOCK_HELD] *)
Definition LOCK_FREE : Z := 0.
Definition LOCK_HELD : Z := 1.

Definition amo_next (p : amo_place) (w : Z) : amo_place * Z :=
  match p with
  | AmoOut => (AmoSpin, w)
  | AmoSpin => (if negb (w =? LOCK_FREE) then AmoSpin else AmoIn, LOCK_HELD)
  | AmoIn => (AmoOut, LOCK_FREE)
  end.
Definition amo_start (n : nat) : lock_state amo_place := mkL LOCK_FREE (replicate n AmoOut).

(** The word says whether a hart is inside, and at most one is. *)
Definition amo_inv (s : lock_state amo_place) : Prop :=
  (word s = LOCK_FREE /\ forall i, at_ s !! i <> Some AmoIn) \/
  (word s = LOCK_HELD /\ exists i, at_ s !! i = Some AmoIn /\ forall j, at_ s !! j = Some AmoIn -> j = i).

Lemma amo_step_inv i s s' : amo_inv s -> lock_step amo_next i s = Some s' -> amo_inv s'.
Proof.
  unfold lock_step. intros Hinv Hs. destruct (at_ s !! i) as [p|] eqn:Ep; [|done].
  pose proof (lookup_lt_Some _ _ _ Ep) as Hlt.
  assert (Hget : forall q j, <[i := q]> (at_ s) !! j = if decide (j = i) then Some q else at_ s !! j).
  { intros q j. destruct (decide (j = i)) as [->|Hj]; [by apply list_lookup_insert_eq|by apply list_lookup_insert_ne]. }
  destruct p; cbn [amo_next] in Hs; simplify_eq; unfold amo_inv; cbn [word at_] in *.
  - destruct Hinv as [[Hw Hn]|(Hw & k & Hk & Hu)]; [left|right]; (split; [done|]).
    + intros j. rewrite Hget. case_decide; [done|apply Hn].
    + assert (k <> i) by (intros ->; congruence). exists k. rewrite Hget, decide_False by done. split; [done|].
      intros j. rewrite Hget. case_decide; [done|apply Hu].
  - destruct Hinv as [[Hw Hn]|(Hw & k & Hk & Hu)]; right; rewrite Hw; (split; [done|]); cbn [Z.eqb negb].
    + exists i. rewrite Hget, decide_True by done. split; [done|]. intros j. rewrite Hget. case_decide; [done|]. intros Hj. by destruct (Hn j).
    + assert (k <> i) by (intros ->; congruence). exists k. rewrite Hget, decide_False by done. split; [done|].
      intros j. rewrite Hget. case_decide; [done|apply Hu].
  - left. split; [done|]. intros j. rewrite Hget. case_decide as Hj; [done|]. intros Hin.
    destruct Hinv as [[_ Hn]|(_ & k & _ & Hu)]; [by apply (Hn j)|]. apply Hj. by rewrite (Hu j Hin), (Hu i Ep).
Qed.

Lemma amo_reach_inv n s : reachable amo_next (amo_start n) s -> amo_inv s.
Proof.
  induction 1 as [|i s s' _ IH Hs]; [|by apply (amo_step_inv i s)].
  left. split; [done|]. intros i Hi. by apply lookup_replicate in Hi as [? _].
Qed.

(** C33: mutual exclusion of [spinlock_amo_t]: in every interleaving of any number of
    harts at most one is between lock and unlock. *)
Theorem spinlock_amo_excludes n s i j :
  reachable amo_next (amo_start n) s -> at_ s !! i = Some AmoIn -> at_ s !! j = Some AmoIn -> i = j.
Proof.
  intros Hr Hi Hj. destruct (amo_reach_inv n s Hr) as [[_ Hn]|(_ & k & _ & Hu)]; [by destruct (Hn i)|].
  by rewrite (Hu i Hi), (Hu j Hj).
Qed.

Lemma spinlock_amo_excludes_witness :
  exists s, run_steps amo_next [0; 1; 0; 1]%nat (amo_start 2) = Some s /\ at_ s = [AmoIn; AmoSpin] /\
    forall j, at_ s !! j = Some AmoIn -> j = 0%nat.
Proof.
  eexists. split; [reflexivity|]. split; [reflexivity|]. intros j Hj.
  refine (spinlock_amo_excludes 2 _ j 0%nat _ Hj eq_refl).
  apply (run_reachable amo_next (amo_start 2) [0; 1; 0; 1]%nat (amo_start 2)); [apply reach_start|reflexivity].
Defined.

(** ** [spinlock_lock] and [spinlock_unlock] *)

(** [Swapping]: in [atomic_swap] before its load; [Loaded res]: between load and store. *)
Inductive soft_place : Type := SoftOut | SoftSpin | Swapping | Loaded (res : Z) | SoftIn.

Definition soft_next (p : soft_place) (w : Z) : soft_place * Z :=
  match p with
  | SoftOut => (SoftSpin, w)
  | SoftSpin => (if negb (w =? 0) then SoftSpin else Swapping, w)
  | Swapping => (Loaded w, w)
  | Loaded res => (if negb (res =? 0) then SoftSpin else SoftIn, -1)
  | SoftIn => (SoftOut, 0)
  end.
Definition soft_start (n : nat) : lock_state soft_place := mkL 0 (replicate n SoftOut).

(** On one hart the lock excludes nothing but itself: it is taken at once. *)
Lemma spinlock_alone : run_steps soft_next [0; 0; 0; 0]%nat (soft_start 1) = Some (mkL (-1) [SoftIn]).
Proof. reflexivity. Qed.

(** [spinlock_t] does not exclude: [atomic_swap] is a load and a store, so two
    harts can both see the lock free and enter. *)
Theorem spinlock_not_exclusive : exists s,
  reachable soft_next (soft_start NCPU) s /\ at_ s !! 0%nat = Some SoftIn /\ at_ s !! 1%nat = Some SoftIn.
Proof.
  eexists. split; [|split].
  - apply (run_reachable soft_next (soft_start NCPU) [0; 1; 0; 1; 0; 1; 0; 1]%nat (soft_start NCPU)); [apply reach_start|reflexivity].
  - reflexivity.
  - reflexivity.
Qed.
