(* ===== verification/Htif.v ===== *)
(** * The host-target interface (spike_htif.c, [frontend_syscall] of spike_utils.c)

    The kernel and the emulator talk through the words [tohost] and [fromhost]; a
    system call of the host is eight words of memory.  The emulator is a
    parameter that may act before every read of a volatile word. *)
From S2P Require Import Prelude.

Definition HTIFSYS_exit : Z := 93.

Definition TOHOST_CMD (dev cmd payload : Z) : Z :=
  Z.lor (Z.lor (u64 (Z.shiftl dev 56)) (u64 (Z.shiftl cmd 48))) payload.
Definition FROMHOST_DEV (v : Z) : Z := Z.shiftr v 56.
Definition FROMHOST_CMD (v : Z) : Z := Z.shiftr (u64 (Z.shiftl v 8)) 56.
Definition FROMHOST_DATA (v : Z) : Z := Z.shiftr (u64 (Z.shiftl v 16)) 16.

(** The words that the emulator reads and writes. *)
Record wires : Type := mkWires { tohost : Z; fromhost : Z; magic_mem : list Z }.

(** What the emulator does when the kernel looks at a word. *)
Class Emulator (D : Type) : Type := { acts : D -> wires -> D * wires }.

Record htif_state (D : Type) : Type := mkHtif {
  device : D;
  wire : wires;
  htif_console_buf : Z;
  htif_lock : Z;
  call_lock : Z
}.
Arguments mkHtif {D}. Arguments device {D}. Arguments wire {D}. Arguments htif_console_buf {D}. Arguments htif_lock {D}. Arguments call_lock {D}.

Section Htif.
Context {D : Type} `{Emulator D}.
#[local] Notation HM := (M (htif_state D)).

Definition set_wire (v : wires) (s : htif_state D) : htif_state D := mkHtif (device s) v (htif_console_buf s) (htif_lock s) (call_lock s).
Definition set_console_buf (v : Z) (s : htif_state D) : htif_state D := mkHtif (device s) (wire s) v (htif_lock s) (call_lock s).
Definition set_htif_lock (v : Z) (s : htif_state D) : htif_state D := mkHtif (device s) (wire s) (htif_console_buf s) v (call_lock s).
Definition set_call_lock (v : Z) (s : htif_state D) : htif_state D := mkHtif (device s) (wire s) (htif_console_buf s) (htif_lock s) v.

(** A read of a volatile word: the emulator acts first. *)
Definition look : HM wires :=
  fun s => let '(d, w) := acts (device s) (wire s) in Ret w (mkHtif d w (htif_console_buf s) (htif_lock s) (call_lock s)).
Definition put_fromhost (v : Z) : HM unit := modify (fun s => set_wire (mkWires (tohost (wire s)) v (magic_mem (wire s))) s).
Definition put_tohost (v : Z) : HM unit := modify (fun s => set_wire (mkWires v (fromhost (wire s)) (magic_mem (wire s))) s).

(** A [spinlock_t] that another hart holds spins. *)
Definition lock_htif : HM unit :=
  let* s := get in check (negb (htif_lock s =? 0)) Spin ;;; modify (set_htif_lock (-1)).
Definition unlock_htif : HM unit := modify (set_htif_lock 0).
Definition lock_call : HM unit :=
  let* s := get in check (negb (call_lock s =? 0)) Spin ;;; modify (set_call_lock (-1)).
Definition unlock_call : HM unit := modify (set_call_lock 0).

(** Behind the read of [fromhost]: input of the console is kept, its
    acknowledgements are dropped. *)
Definition take_fromhost (fh : Z) : HM unit :=
  if fh =? 0 then ret tt else
  put_fromhost 0 ;;;
  check (negb (FROMHOST_DEV fh =? 1)) (Panic "assert(FROMHOST_DEV(fh) == 1)") ;;;
  if FROMHOST_CMD fh =? 0 then modify (set_console_buf (1 + u8 (FROMHOST_DATA fh)))
  else if FROMHOST_CMD fh =? 1 then ret tt
  else halt (Panic "assert(0)").
Definition check_fromhost : HM unit := let* w := look in take_fromhost (fromhost w).

Fixpoint set_tohost (fuel : nat) (dev cmd data : Z) : HM unit :=
  match fuel with
  | O => halt OutOfFuel
  | S f =>
      let* w := look in
      if tohost w =? 0 then put_tohost (TOHOST_CMD dev cmd data)
      else check_fromhost ;;; set_tohost f dev cmd data
  end.

(** [while (1)] of [do_tohost_fromhost]; [__check_fromhost] reads [fromhost] again. *)
Fixpoint await (fuel : nat) (dev cmd : Z) : HM unit :=
  match fuel with
  | O => halt OutOfFuel
  | S f =>
      let* w := look in
      let fh := fromhost w in
      if fh =? 0 then await f dev cmd
      else if (FROMHOST_DEV fh =? dev) && (FROMHOST_CMD fh =? cmd) then put_fromhost 0
      else check_fromhost ;;; await f dev cmd
  end.

Definition do_tohost_fromhost (fuel : nat) (dev cmd data : Z) : HM unit :=
  lock_htif ;;;
  set_tohost fuel dev cmd data ;;;
  await fuel dev cmd ;;;
  unlock_htif.

Definition htif_syscall (fuel : nat) (arg : Z) : HM unit := do_tohost_fromhost fuel 0 0 arg.

Definition htif_console_putchar (fuel : nat) (ch : Z) : HM unit :=
  lock_htif ;;; set_tohost fuel 1 1 ch ;;; unlock_htif.

Definition htif_console_getchar (fuel : nat) : HM Z :=
  lock_htif ;;;
  check_fromhost ;;;
  let* s := get in
  let ch := htif_console_buf s in
  when (0 <=? ch) (modify (set_console_buf (-1)) ;;; set_tohost fuel 1 0 0) ;;;
  unlock_htif ;;;
  ret (ch - 1).

(** The loop that tells the emulator to stop does not end. *)
Definition htif_poweroff : HM unit := put_fromhost 0 ;;; put_tohost 1 ;;; halt (Shutdown 0).

(** [magic] is the address of [magic_mem]. *)
Definition frontend_syscall (fuel : nat) (magic n a0 a1 a2 a3 a4 a5 a6 : Z) : HM Z :=
  lock_call ;;;
  modify (fun s => set_wire (mkWires (tohost (wire s)) (fromhost (wire s)) [u64 n; a0; a1; a2; a3; a4; a5; a6]) s) ;;;
  htif_syscall fuel magic ;;;
  let* w := look in
  let ret_ := i64 (default 0 (magic_mem w !! 0%nat)) in
  unlock_call ;;;
  ret ret_.

(** [shutdown] behind its message: the host ends the emulation. *)
Definition shutdown (fuel : nat) (magic code : Z) : HM unit :=
  let* _ := frontend_syscall fuel magic HTIFSYS_exit (u64 (i32 code)) 0 0 0 0 0 0 in
  halt (Shutdown code).

(** ** A call is answered *)

Definition cleared (w : wires) : wires := mkWires (tohost w) 0 (magic_mem w).

(** With nothing in [fromhost], the emulator comes to answer a system call; on the
    way it may wait, deliver the characters [l] of the console and acknowledge
    output.  It leaves a message in [fromhost] alone until it is taken. *)
Inductive answers : D -> wires -> list Z -> D -> wires -> Prop :=
| answer_wait d w d1 w1 l d' w' :
    acts d w = (d1, w1) -> fromhost w1 = 0 -> answers d1 w1 l d' w' -> answers d w l d' w'
| answer_char d w d1 w1 fh d2 w2 l d' w' :
    acts d w = (d1, w1) -> fromhost w1 = fh -> fh <> 0 -> FROMHOST_DEV fh = 1 -> FROMHOST_CMD fh = 0 ->
    acts d1 w1 = (d2, w2) -> fromhost w2 = fh -> answers d2 (cleared w2) l d' w' ->
    answers d w (u8 (FROMHOST_DATA fh) :: l) d' w'
| answer_ack d w d1 w1 fh d2 w2 l d' w' :
    acts d w = (d1, w1) -> fromhost w1 = fh -> fh <> 0 -> FROMHOST_DEV fh = 1 -> FROMHOST_CMD fh = 1 ->
    acts d1 w1 = (d2, w2) -> fromhost w2 = fh -> answers d2 (cleared w2) l d' w' -> answers d w l d' w'
| answer_now d w d1 w1 fh :
    acts d w = (d1, w1) -> fromhost w1 = fh -> fh <> 0 -> FROMHOST_DEV fh = 0 -> FROMHOST_CMD fh = 0 ->
    answers d w [] d1 (cleared w1).

(** The console buffer behind the characters [l]. *)
Definition typed (l : list Z) (buf : Z) : Z := fold_left (fun _ c => 1 + c) l buf.

Lemma look_run d w d1 w1 buf hl cl : acts d w = (d1, w1) -> look (mkHtif d w buf hl cl) = Ret w1 (mkHtif d1 w1 buf hl cl).
Proof. intros E. unfold look. cbn. by rewrite E. Qed.

Lemma await_run d w l d' w' :
  answers d w l d' w' -> exists n, forall fuel buf hl cl, (n <= fuel)%nat ->
    await fuel 0 0 (mkHtif d w buf hl cl) = Ret tt (mkHtif d' w' (typed l buf) hl cl).
Proof.
  induction 1 as [d w d1 w1 l d' w' E1 Hf _ [n IH]|d w d1 w1 fh d2 w2 l d' w' E1 Hf Hnz Hdev Hcmd E2 Hf2 _ [n IH]
                 |d w d1 w1 fh d2 w2 l d' w' E1 Hf Hnz Hdev Hcmd E2 Hf2 _ [n IH]|d w d1 w1 fh E1 Hf Hnz Hdev Hcmd].
  - exists (S n). intros [|fuel] buf hl cl Hn; [lia|]. cbn [await]. rewrite (bind_Ret _ _ _ _ _ (look_run d w d1 w1 buf hl cl E1)), Hf.
    cbn [Z.eqb]. apply IH. lia.
  - exists (S n). intros [|fuel] buf hl cl Hn; [lia|]. cbn [await]. rewrite (bind_Ret _ _ _ _ _ (look_run d w d1 w1 buf hl cl E1)), Hf, Hdev.
    rewrite (proj2 (Z.eqb_neq fh 0)) by done. cbn [Z.eqb andb]. unfold check_fromhost.
    rewrite bind_assoc, (bind_Ret _ _ _ _ _ (look_run d1 w1 d2 w2 buf hl cl E2)), Hf2. unfold take_fromhost.
    rewrite (proj2 (Z.eqb_neq fh 0)), Hdev, Hcmd by done. cbn [Z.eqb negb check typed fold_left].
    apply (IH fuel (1 + u8 (FROMHOST_DATA fh)) hl cl). lia.
  - exists (S n). intros [|fuel] buf hl cl Hn; [lia|]. cbn [await]. rewrite (bind_Ret _ _ _ _ _ (look_run d w d1 w1 buf hl cl E1)), Hf, Hdev.
    rewrite (proj2 (Z.eqb_neq fh 0)) by done. cbn [Z.eqb andb]. unfold check_fromhost.
    rewrite bind_assoc, (bind_Ret _ _ _ _ _ (look_run d1 w1 d2 w2 buf hl cl E2)), Hf2. unfold take_fromhost.
    rewrite (proj2 (Z.eqb_neq fh 0)), Hdev, Hcmd by done. cbn [Z.eqb negb check].
    apply (IH fuel buf hl cl). lia.
  - exists 1%nat. intros [|fuel] buf hl cl Hn; [lia|]. cbn [await]. rewrite (bind_Ret _ _ _ _ _ (look_run d w d1 w1 buf hl cl E1)), Hf, Hdev, Hcmd.
    rewrite (proj2 (Z.eqb_neq fh 0)) by done. done.
Qed.

(** A system call of the host returns what the host stored in its first word:
    the emulator is asked once it is idle, its answer is awaited and consumed, the
    locks are free again, and characters typed meanwhile are kept for the console. *)
Theorem frontend_syscall_correct magic n a0 a1 a2 a3 a4 a5 a6 s d0 w0 l d1 w1 d2 w2 res :
  htif_lock s = 0 -> call_lock s = 0 ->
  let args := [u64 n; a0; a1; a2; a3; a4; a5; a6] in
  acts (device s) (mkWires (tohost (wire s)) (fromhost (wire s)) args) = (d0, w0) -> tohost w0 = 0 ->
  answers d0 (mkWires (TOHOST_CMD 0 0 magic) (fromhost w0) (magic_mem w0)) l d1 w1 ->
  acts d1 w1 = (d2, w2) -> magic_mem w2 !! 0%nat = Some res ->
  exists k, forall fuel, (k <= fuel)%nat ->
    frontend_syscall fuel magic n a0 a1 a2 a3 a4 a5 a6 s = Ret (i64 res) (mkHtif d2 w2 (typed l (htif_console_buf s)) 0 0).
Proof.
  intros Hl Hc args E0 Ht Hans E2 Hres. destruct (await_run _ _ _ _ _ Hans) as [k Hk]. exists (S k). intros [|fuel] Hf; [lia|].
  destruct s as [d w buf hl cl]. cbn in Hl, Hc, E0. subst hl cl.
  unfold frontend_syscall, lock_call, htif_syscall, do_tohost_fromhost, lock_htif.
  rewrite !bind_assoc. unfold bind at 1, get. cbn [call_lock Z.eqb negb]. unfold check. rewrite !bind_assoc, bind_ret_l.
  rewrite (bind_Ret _ _ _ tt (mkHtif d w buf 0 (-1))) by done.
  rewrite (bind_Ret _ _ _ tt (mkHtif d (mkWires (tohost w) (fromhost w) args) buf 0 (-1))) by done.
  rewrite !bind_assoc. unfold bind at 1. cbn [htif_lock Z.eqb negb]. rewrite !bind_assoc, bind_ret_l.
  rewrite (bind_Ret _ _ _ tt (mkHtif d (mkWires (tohost w) (fromhost w) args) buf (-1) (-1))) by done.
  rewrite !bind_assoc. cbn [set_tohost]. rewrite !bind_assoc, (bind_Ret _ _ _ _ _ (look_run _ _ _ _ buf (-1) (-1) E0)), Ht. cbn [Z.eqb].
  rewrite (bind_Ret _ _ _ tt (mkHtif d0 (mkWires (TOHOST_CMD 0 0 magic) (fromhost w0) (magic_mem w0)) buf (-1) (-1))) by done.
  rewrite !bind_assoc, (bind_Ret _ _ _ _ _ (Hk (S fuel) buf (-1) (-1) ltac:(lia))).
  rewrite (bind_Ret _ _ _ tt (mkHtif d1 w1 (typed l buf) 0 (-1))) by done.
  rewrite (bind_Ret _ _ _ _ _ (look_run _ _ _ _ (typed l buf) 0 (-1) E2)), Hres. done.
Qed.
End Htif.

(** ** An emulator that delivers one character and then answers

    Its state counts its steps; it takes a command when it sees one. *)
#[local] Instance sample_emulator : Emulator nat := {|
  acts d w :=
    match d, tohost w =? 0 with
    | 0%nat, true => (0%nat, w)
    | 0%nat, false => (1%nat, mkWires 0 (fromhost w) (magic_mem w))
    | 1%nat, _ => (2%nat, mkWires (tohost w) (TOHOST_CMD 1 0 65) (magic_mem w))
    | 2%nat, _ => (3%nat, w)
    | 3%nat, _ => (4%nat, mkWires (tohost w) 1 [42; 0; 0; 0; 0; 0; 0; 0])
    | _, _ => (d, w)
    end
|}.

Lemma frontend_syscall_correct_witness : exists k, forall fuel, (k <= fuel)%nat ->
  frontend_syscall fuel 4096 64 1 2 3 0 0 0 0 (mkHtif 0%nat (mkWires 0 0 []) (-1) 0 0) =
    Ret 42 (mkHtif 4%nat (mkWires 0 0 [42; 0; 0; 0; 0; 0; 0; 0]) 66 0 0).
Proof.
  apply (frontend_syscall_correct 4096 64 1 2 3 0 0 0 0 (mkHtif 0%nat (mkWires 0 0 []) (-1) 0 0)
           0%nat (mkWires 0 0 [64; 1; 2; 3; 0; 0; 0; 0]) [65] 4%nat (mkWires 0 0 [42; 0; 0; 0; 0; 0; 0; 0])
           4%nat (mkWires 0 0 [42; 0; 0; 0; 0; 0; 0; 0]) 42).
  - reflexivity.
  - reflexivity.
  - reflexivity.
  - reflexivity.
  - eapply answer_wait; [reflexivity|reflexivity|].
    eapply (answer_char _ _ _ _ (TOHOST_CMD 1 0 65)); [reflexivity|reflexivity|discriminate|reflexivity|reflexivity|reflexivity|reflexivity|].
    refine (answer_now _ _ 4%nat (mkWires 0 1 [42; 0; 0; 0; 0; 0; 0; 0]) 1 _ _ _ _ _); [reflexivity|reflexivity|discriminate|reflexivity|reflexivity].
  - reflexivity.
  - reflexivity.
Defined.
