(* ===== verification/UserProg.v ===== *)
(** * The user programs (user/start.c, user/app_*.c)

    A program is an interaction tree: it computes in its own memory and asks the
    kernel through the calls of user_lib.c.  A call is an event whose answer is
    what the call returns or leaves in the buffer of the program; loads and stores
    of memory that the kernel gave out are events too, since they can trap.  Local
    arrays are lists of bytes; going past their end is the event [Smash].  [main]
    never returns: its last call is [exit]. *)
From ITree Require Import ITree.
From S2P Require Import Prelude CString Snprintf VfsData Rfs.

Variant userE : Type -> Type :=
| Print (text : list Z) : userE unit
| Printpa (va : Z) : userE unit
| Scan : userE (list Z)
| Exit (code : Z) : userE Empty_set
| Malloc : userE Z
| Free (va : Z) : userE unit
| BetterMalloc (n : Z) : userE Z
| BetterFree (va : Z) : userE unit
| Fork : userE Z
| Exec (path arg : list Z) : userE Z
| Wait (pid : Z) : userE Z
| SemNew (init_val : Z) : userE Z
| SemP (sid : Z) : userE unit
| SemV (sid : Z) : userE unit
| Open (path : list Z) (flags : Z) : userE Z
| Read (fd : Z) (buf : list Z) : userE (list Z)
| Write (fd : Z) (bytes : list Z) : userE unit
| Close (fd : Z) : userE unit
| Opendir (path : list Z) : userE Z
| Readdir (fd : Z) : userE (Z * (list Z * Z))
| Closedir (fd : Z) : userE unit
| Mkdir (path : list Z) : userE unit
| ReadCwd : userE (list Z)
| ChangeCwd (path : list Z) : userE Z
| Backtrace (depth : Z) : userE unit
| Stack (n : nat) : userE (list Z)
| Load32 (va : Z) : userE Z
| Store32 (va v : Z) : userE unit
| LoadStr (va : Z) : userE (list Z)
| StoreStr (va : Z) (s : list Z) : userE unit
| IllegalInstruction : userE unit
| Smash : userE Empty_set
| NullDeref : userE Empty_set.

#[global] Notation program := (itree userE Empty_set).
#[local] Notation code := (itree userE).
#[local] Notation call := ITree.trigger.
Declare Scope user_scope.
Delimit Scope user_scope with user.
Notation "'let!' x ':=' c 'in' k" := (ITree.bind c (fun x => k))
  (at level 10, x name, c at level 100, k at level 200, format "'let!'  x  ':='  c  'in' '//' k") : user_scope.
Notation "c1 ;! c2" := (ITree.bind c1 (fun _ => c2))
  (at level 199, right associativity, format "c1  ;! '//' c2") : user_scope.
#[local] Open Scope user_scope.
#[local] Notation return_ x := (go (RetF x)).

(** An event that does not come back. *)
Definition never {A} (e : userE Empty_set) : code A := ITree.bind (call e) (fun x : Empty_set => match x with end).
Definition exit_ (n : Z) : program := call (Exit n).

(** ** Output and input *)

(** An argument of [printu]: a number or a pointer to a string. *)
Inductive arg : Type := Num (z : Z) | Str (s : list Z).
Definition slots (args : list arg) : list Z := imap (fun i a => match a with Num z => z | Str _ => Z.of_nat i end) args.
Definition strings (args : list arg) (a : Z) : option (list Z) :=
  match args !! Z.to_nat a with Some (Str s) => Some s | _ => None end.
(** What [vsnprintf] leaves in [char out[256]]. *)
Definition printu_text (fmt : list Z) (args : list arg) : option (list Z) :=
  take 255 <$> render (strings args) fmt false false (slots args).
Definition printu (fmt : list Z) (args : list arg) : code unit :=
  match printu_text fmt args with Some t => call (Print t) | None => never Smash end.
Definition puts (s : list Z) : code unit := printu s [].
Definition nl : list Z := [10].

(** [scanfu("%s", buf)] with [char buf[size]]: the line up to the first blank. *)
Definition blank (c : Z) : bool := (c =? 0) || (c =? 32) || (c =? 10) || (c =? 9).
Fixpoint word_of (line : list Z) : list Z :=
  match line with [] => [] | c :: l => if blank c then [] else c :: word_of l end.
Definition scanfu (size : nat) : code (list Z) :=
  let! line := call Scan in
  if Nat.ltb (length (word_of line)) size then return_ (word_of line) else never Smash.

(** The string in an array. *)
Definition string_in (buf : list Z) : code (list Z) :=
  if bool_decide (0 ∈ buf) then return_ (until_nul buf) else never Smash.
(** [cmd[i]] of the string in [cmd]. *)
Definition chr (s : list Z) (i : nat) : Z := nth i s 0.

(** ** The shell (start.c) *)

Definition execu (path arg : list Z) : code unit :=
  let! pid := call Fork in
  if negb (pid =? 0) then call (Wait pid) ;! return_ tt
  else call (Exec path arg) ;! return_ tt.

(** The branches [test1] and [test4]: two programs at a time. *)
Definition exec_both (path0 path1 : list Z) : code unit :=
  let! pid0 := call Fork in
  if pid0 =? 0 then call (Exec path0 []) ;! return_ tt else
  let! pid1 := call Fork in
  if pid1 =? 0 then call (Exec path1 []) ;! return_ tt else
  call (Wait pid0) ;! call (Wait pid1) ;! return_ tt.

(** [p = cmd + 4] *)
Definition run_test (cmd p : list Z) : code unit :=
  if (chr p 0 =? 50) && (chr p 1 =? 0) then execu (txt "/bin/app_errorline") []
  else if (chr p 0 =? 51) && (chr p 1 =? 0) then execu (txt "/bin/app_sum_sequence") []
  else if (chr p 0 =? 49) && (chr p 1 =? 0) then exec_both (txt "/bin/app_alloc0") (txt "/bin/app_alloc1")
  else if (chr p 0 =? 52) && (chr p 1 =? 0) then exec_both (txt "/bin/app0") (txt "/bin/app1")
  else if (chr p 0 =? 48) && (chr p 1 =? 0) then execu (txt "/bin/app_shell") []
  else printu (txt "Error command: %s" ++ nl) [Str cmd].

(** [char path[30]; read_cwd(path); printu("cwd:%s\n", path);] *)
Definition pwd : code unit :=
  let! path := call ReadCwd in
  if Nat.ltb (length path) 30 then printu (txt "cwd:%s" ++ nl) [Str path] else never Smash.

(** [printu(">"); scanfu("%s", arg);] *)
Definition ask_arg : code (list Z) := puts (txt ">") ;! scanfu 20.
Definition with_arg (path : list Z) : code unit := let! arg := ask_arg in execu path arg.

(** A turn of the loop: [inl tt] goes round again, [inr tt] is the [break]. *)
Definition dispatch (cmd : list Z) : code (unit + unit) :=
  if (chr cmd 0 =? 113) && (chr cmd 1 =? 0) then puts (txt "Exit." ++ nl) ;! return_ (inr tt)
  else if chr cmd 0 =? 0 then return_ (inl tt)
  else
    (if (chr cmd 0 =? 116) && (chr cmd 1 =? 101) && (chr cmd 2 =? 115) && (chr cmd 3 =? 116) then run_test cmd (drop 4 cmd)
     else if (chr cmd 0 =? 112) && (chr cmd 1 =? 119) && (chr cmd 2 =? 100) && (chr cmd 3 =? 0) then pwd
     else if (chr cmd 0 =? 99) && (chr cmd 1 =? 100) && (chr cmd 2 =? 0) then
       let! arg := ask_arg in call (ChangeCwd arg) ;! return_ tt
     else if (chr cmd 0 =? 99) && (chr cmd 1 =? 97) && (chr cmd 2 =? 116) && (chr cmd 3 =? 0) then with_arg (txt "/bin/app_cat")
     else if (chr cmd 0 =? 101) && (chr cmd 1 =? 99) && (chr cmd 2 =? 104) && (chr cmd 3 =? 111) && (chr cmd 4 =? 0)
       then with_arg (txt "/bin/app_echo")
     else if (chr cmd 0 =? 108) && (chr cmd 1 =? 115) && (chr cmd 2 =? 0) then with_arg (txt "/bin/app_ls")
     else if (chr cmd 0 =? 109) && (chr cmd 1 =? 107) && (chr cmd 2 =? 100) && (chr cmd 3 =? 105) && (chr cmd 4 =? 114) && (chr cmd 5 =? 0)
       then with_arg (txt "/bin/app_mkdir")
     else if (chr cmd 0 =? 116) && (chr cmd 1 =? 111) && (chr cmd 2 =? 117) && (chr cmd 3 =? 99) && (chr cmd 4 =? 104) && (chr cmd 5 =? 0)
       then with_arg (txt "/bin/app_touch")
     else printu (txt "Error command: %s" ++ nl) [Str cmd]) ;!
    return_ (inl tt).
Definition start_loop : code (unit + unit) := puts (txt "$ ") ;! (let! cmd := scanfu 24 in dispatch cmd).

Definition start : program :=
  puts (nl ++ txt "============================START============================" ++ nl ++ nl) ;!
  ITree.iter (fun _ => start_loop) tt ;!
  exit_ 0.

(** ** Programs that print *)

Definition app0 : program := puts (txt ">>> app0 is expected to be executed by hart0" ++ nl) ;! exit_ 0.
Definition app1 : program := puts (txt ">>> app1 is expected to be executed by hart1" ++ nl) ;! exit_ 0.

Definition app_errorline : program :=
  puts (txt "Going to hack the system by running privilege instructions." ++ nl) ;!
  call IllegalInstruction ;!
  exit_ 0.

Definition f8 : code unit := call (Backtrace 7).
Definition f7 : code unit := f8.
Definition f6 : code unit := f7.
Definition f5 : code unit := f6.
Definition f4 : code unit := f5.
Definition f3 : code unit := f4.
Definition f2 : code unit := f3.
Definition f1 : code unit := f2.
Definition app_print_backtrace : program :=
  puts (txt "back trace the user app in the following:" ++ nl) ;!
  f1 ;!
  exit_ 0.

(** ** Programs that work on files; [arg] is [argv[0]] *)

Definition app_cat (arg : list Z) : program :=
  let! buf := call (Stack 512) in
  let! fd := call (Open arg O_RDWR) in
  let! buf := call (Read fd buf) in
  let! s := string_in buf in
  printu (txt "read content: " ++ nl ++ txt "%s" ++ nl) [Str s] ;!
  call (Close fd) ;!
  exit_ 0.

Definition hello : list Z := txt "hello world".

Definition app_echo (arg : list Z) : program :=
  let! fd := call (Open arg (Z.lor O_RDWR O_CREAT)) in
  call (Write fd hello) ;!
  printu (txt "write content: " ++ nl ++ txt "%s" ++ nl) [Str hello] ;!
  call (Close fd) ;!
  exit_ 0.

Definition app_touch (arg : list Z) : program :=
  let! fd := call (Open arg O_CREAT) in
  call (Close fd) ;!
  exit_ 0.

Definition app_mkdir (arg : list Z) : program :=
  call (Mkdir arg) ;!
  printu (txt "mkdir: %s" ++ nl) [Str arg] ;!
  exit_ 0.

(** [char name[width + 1]] of app_ls: blanks, then the name without its zero. *)
Definition width : nat := 20.
Definition strcpy_into (dest s : list Z) : list Z := s ++ [0] ++ drop (S (length s)) dest.
Definition padded (dirname : list Z) : list Z :=
  let name := replicate (S width) 32 in
  let name := <[width := 0]> name in
  let name := strcpy_into name dirname in
  <[length dirname := 32]> name.

(** [dir.name] is an array of the answer; the loop ends when [readdir_u] does not
    return 0. *)
Definition ls_loop (dir_fd : Z) : code (unit + unit) :=
  let! d := call (Readdir dir_fd) in
  let '(r, (dir_name, inum)) := d in
  if negb (r =? 0) then return_ (inr tt) else
  let! dirname := string_in dir_name in
  (if Nat.ltb (length dirname) width then
     let! name := string_in (padded dirname) in printu (txt "%s %d" ++ nl) [Str name; Num inum]
   else printu (txt "%s %d" ++ nl) [Str dirname; Num inum]) ;!
  return_ (inl tt).

Definition app_ls (arg : list Z) : program :=
  let! dir_fd := call (Opendir arg) in
  puts (txt "[name]               [inode_num]" ++ nl) ;!
  ITree.iter (fun _ => ls_loop dir_fd) tt ;!
  call (Closedir dir_fd) ;!
  exit_ 0.

Definition cd (path : list Z) : code unit :=
  let! r := call (ChangeCwd path) in
  if negb (r =? 0) then puts (txt "cd failed" ++ nl) else return_ tt.

Definition print_fd (fd : Z) : code unit := printu (txt "file descriptor fd: %d" ++ nl) [Num fd].
(** [read_u(fd, buf, MAXBUF); printu("read content: \n%s\n", buf);] *)
Definition read_and_print (fd : Z) (buf : list Z) : code (list Z) :=
  let! buf := call (Read fd buf) in
  let! s := string_in buf in
  printu (txt "read content: " ++ nl ++ txt "%s" ++ nl) [Str s] ;!
  return_ buf.

Definition app_relativepath : program :=
  let! buf := call (Stack 512) in
  puts (nl ++ txt "======== Test 1: change current directory  ========" ++ nl) ;!
  pwd ;!
  cd (txt "./RAMDISK0") ;!
  puts (txt "change current directory to ./RAMDISK0" ++ nl) ;!
  pwd ;!
  puts (nl ++ txt "======== Test 2: write/read file by relative path  ========" ++ nl) ;!
  puts (txt "write: ./ramfile" ++ nl) ;!
  let! fd := call (Open (txt "./ramfile") (Z.lor O_RDWR O_CREAT)) in
  print_fd fd ;!
  call (Write fd hello) ;!
  printu (txt "write content: " ++ nl ++ txt "%s" ++ nl) [Str hello] ;!
  call (Close fd) ;!
  let! fd := call (Open (txt "./ramfile") O_RDWR) in
  puts (txt "read: ./ramfile" ++ nl) ;!
  let! buf := read_and_print fd buf in
  call (Close fd) ;!
  puts (nl ++ txt "======== Test 3: Go to parent directory  ========" ++ nl) ;!
  pwd ;!
  cd (txt "..") ;!
  puts (txt "change current directory to .." ++ nl) ;!
  pwd ;!
  puts (txt "read: ./hostfile.txt" ++ nl) ;!
  let! fd := call (Open (txt "./hostfile.txt") O_RDONLY) in
  print_fd fd ;!
  let! buf := read_and_print fd buf in
  call (Close fd) ;!
  puts (nl ++ txt "All tests passed!" ++ nl ++ nl) ;!
  exit_ 0.

(** ** Programs that run programs *)

Definition app_exec : program :=
  puts (nl ++ txt "======== exec /bin/app_ls in app_exec ========" ++ nl) ;!
  let! r := call (Exec (txt "/bin/app_ls") (txt "/RAMDISK0")) in
  (if r =? -1 then puts (txt "exec failed!" ++ nl) else return_ tt) ;!
  exit_ 0.

(** [strtok] with the delimiters blank and newline on what is left of the buffer:
    the token and what follows it ([None]: the string is used up). *)
Definition delim (c : Z) : bool := (c =? 32) || (c =? 10).
Fixpoint skip_delims (l : list Z) : list Z :=
  match l with [] => [] | c :: l' => if delim c then skip_delims l' else l end.
Fixpoint cut_token (l : list Z) : list Z * option (list Z) :=
  match l with
  | [] => ([], None)
  | c :: l' => if delim c then ([], Some l') else let '(t, r) := cut_token l' in (c :: t, r)
  end.
Definition next_token (rest : option (list Z)) : option (list Z * option (list Z)) :=
  l ← rest; match skip_delims l with [] => None | l' => Some (cut_token l') end.
(** [token = strtok(...); strcpy(dst, token);] *)
Definition take_token (dst : Z) (rest : option (list Z)) : code (option (list Z)) :=
  match next_token rest with
  | None => never NullDeref
  | Some (t, rest) => call (StoreStr dst t) ;! return_ rest
  end.

Definition shell_loop (command para : Z) (rest : option (list Z)) : code (option (list Z) + unit) :=
  let! rest := take_token command rest in
  let! rest := take_token para rest in
  let! c := call (LoadStr command) in
  let! p := call (LoadStr para) in
  if bool_decide (c = txt "END") && bool_decide (p = txt "END") then return_ (inr tt) else
  printu (txt "Next command: %s %s" ++ nl ++ nl) [Str c; Str p] ;!
  puts (txt "==========Command Start============" ++ nl ++ nl) ;!
  let! pid := call Fork in
  (if pid =? 0 then
     let! r := call (Exec c p) in
     (if r =? -1 then puts (txt "exec failed!" ++ nl) else return_ tt)
   else
     call (Wait pid) ;!
     puts (txt "==========Command End============" ++ nl ++ nl)) ;!
  return_ (inl rest).

Definition app_shell : program :=
  puts (nl ++ txt "======== Shell Start ========" ++ nl ++ nl) ;!
  let! buf := call (Stack 1024) in
  let! fd := call (Open (txt "/shellrc") O_RDONLY) in
  let! buf := call (Read fd buf) in
  call (Close fd) ;!
  let! command := call Malloc in
  let! para := call Malloc in
  let! s := string_in buf in
  ITree.iter (shell_loop command para) (Some s) ;!
  exit_ 0.

(** [int flag] is a global variable: each process has its own. *)
Definition app_wait : program :=
  let! pid := call Fork in
  if pid =? 0 then
    let! pid := call Fork in
    (if pid =? 0 then
       let flag := 2 in printu (txt "Grandchild process end, flag = %d." ++ nl) [Num flag]
     else
       let flag := 1 in call (Wait pid) ;! printu (txt "Child process end, flag = %d." ++ nl) [Num flag]) ;!
    exit_ 0
  else
    let flag := 0 in call (Wait (-1)) ;! printu (txt "Parent process end, flag = %d." ++ nl) [Num flag] ;!
    exit_ 0.

(** ** Programs that synchronise *)

(** [for (int i = a; i < a + n; i++) body]. *)
Fixpoint for_ (n : nat) (i : Z) (body : Z -> code unit) (next : program) : program :=
  match n with O => next | S n' => body i ;! for_ n' (i + 1) body next end.

Definition child_body (main_sem s0 s1 pid : Z) (i : Z) : code unit :=
  call (SemP (if pid =? 0 then s1 else s0)) ;!
  printu (txt "Child%d print %d" ++ nl) [Num (if pid =? 0 then 1 else 0); Num i] ;!
  if negb (pid =? 0) then call (SemV s1) else call (SemV main_sem).
Definition parent_body (main_sem s0 : Z) (i : Z) : code unit :=
  call (SemP main_sem) ;!
  printu (txt "Parent print %d" ++ nl) [Num i] ;!
  call (SemV s0).

Definition app_semaphore : program :=
  let! main_sem := call (SemNew 1) in
  let! s0 := call (SemNew 0) in
  let! s1 := call (SemNew 0) in
  let! pid := call Fork in
  if pid =? 0 then
    let! pid := call Fork in
    for_ 10 0 (child_body main_sem s0 s1 pid) (exit_ 0)
  else for_ 10 0 (parent_body main_sem s0) (exit_ 0).

(** ** Programs that use memory of the kernel *)

Definition app_cow : program :=
  let! heap_data := call Malloc in
  puts (txt "the physical address of parent process heap is: ") ;!
  call (Printpa heap_data) ;!
  let! pid := call Fork in
  (if pid =? 0 then
     puts (txt "the physical address of child process heap before copy on write is: ") ;!
     call (Printpa heap_data) ;!
     call (Store32 heap_data 0) ;!
     puts (txt "the physical address of child process heap after copy on write is: ") ;!
     call (Printpa heap_data)
   else return_ tt) ;!
  exit_ 0.

Fixpoint alloc_loop (n : nat) (i base : Z) (fmt : list Z) : code (list Z) :=
  match n with
  | O => return_ []
  | S n' =>
      let! p := call Malloc in
      call (Store32 p (base + i)) ;!
      printu fmt [Num p] ;!
      let! ps := alloc_loop n' (i + 1) base fmt in
      return_ (p :: ps)
  end.
Fixpoint free_loop (ps : list Z) (fmt : list Z) : code unit :=
  match ps with
  | [] => return_ tt
  | p :: ps =>
      let! v := call (Load32 p) in
      printu fmt [Num v] ;!
      call (Free p) ;!
      free_loop ps fmt
  end.
Definition app_alloc0 : program :=
  let! p := alloc_loop 5 0 0 (txt "=== user alloc 0 @ vaddr 0x%x" ++ nl) in
  free_loop p (txt "=== user 0: %d" ++ nl) ;!
  exit_ 0.
Definition app_alloc1 : program :=
  let! p := alloc_loop 5 0 5 (txt ">>> user alloc 1 @ vaddr 0x%x" ++ nl) in
  free_loop p (txt ">>> user 1: %d" ++ nl) ;!
  exit_ 0.

(** [return *p = sum_sequence(n - 1, p + 1) + n;]: the value of an assignment to an
    [int] is an [int]. *)
Fixpoint sum_sequence (n : nat) (p : Z) : code Z :=
  match n with
  | O => return_ 0
  | S n' =>
      let! r := sum_sequence n' (p + 4) in
      call (Store32 p (i32 (u64 (r + Z.of_nat n)))) ;!
      return_ (u64 (i32 (u64 (r + Z.of_nat n))))
  end.
Definition app_sum_sequence : program :=
  let! ans := call Malloc in
  let! r := sum_sequence 1025 ans in
  printu (txt "Summation of an arithmetic sequence from 0 to %ld is: %ld " ++ nl) [Num 1024; Num r] ;!
  exit_ 0.

Definition page_of (va : Z) : Z := Z.land va (Z.lnot 4095).
Definition app_singlepageheap : program :=
  let! m := call (BetterMalloc 100) in
  let! p := call (BetterMalloc 50) in
  printu (txt "va1=%p page=%p" ++ nl) [Num m; Num (page_of m)] ;!
  printu (txt "va2=%p page=%p" ++ nl) [Num p; Num (page_of p)] ;!
  if 512 <? u64 (p - m) then
    puts (txt "you need to manage the vm space precisely!") ;! exit_ (-1)
  else
  call (BetterFree m) ;!
  call (StoreStr p (txt "hello, world!!!")) ;!
  let! s := call (LoadStr p) in
  printu (txt "%s" ++ nl) [Str s] ;!
  let! n := call (BetterMalloc 50) in
  if negb (m =? n) then
    puts (txt "your malloc is not complete." ++ nl) ;! exit_ (-1)
  else exit_ 0.
