(* ===== verification/UserRun.v ===== *)
(** * User programs on the scheduler

    The machine of Sched.v with the programs its processes execute: a hart runs a
    process up to its next call, takes the trap of that call or of the timer, or
    polls the ready queue.  The steps of all harts interleave in any order.  What
    the calls do to the queues, the counters and the family of the processes. *)
From ITree Require Import ITree.
From S2P Require Import Prelude Pmm Vmm Process Sched CString UserProg.

(** ** Facts that every function of the scheduler keeps *)

(** Parents never change, and a slot that is taken stays taken. *)
Definition kept (s s' : kstate) : Prop :=
  parent <$> procs s' = parent <$> procs s /\
  forall i x, procs s !! i = Some x -> status x <> FREE -> exists x', procs s' !! i = Some x' /\ status x' <> FREE.

#[global] Instance kept_preorder : PreOrder kept.
Proof.
  split; [split; eauto|]. intros s1 s2 s3 [H1 H2] [H3 H4]. split; [congruence|].
  intros i x Hx Hs. destruct (H2 i x Hx Hs) as (y & Hy & Hys). eauto.
Qed.

Definition keeps {A} (c : M kstate A) : Prop :=
  forall s, match c s with Ret _ s' | Stop _ s' => kept s s' end.

Lemma holds_ret {A} (a : A) : keeps (ret a).
Proof. intros s. cbn. reflexivity. Qed.
Lemma holds_halt {A} e : keeps (halt (A := A) e).
Proof. intros s. cbn. reflexivity. Qed.
Lemma holds_get : keeps get.
Proof. intros s. cbn. reflexivity. Qed.
Lemma holds_bind {A B} (c : M kstate A) (k : A -> M kstate B) : keeps c -> (forall a, keeps (k a)) -> keeps (bind c k).
Proof.
  intros Hc Hk s. specialize (Hc s). unfold bind. destruct (c s) as [a s1|e s1]; [|done].
  specialize (Hk a s1). destruct (k a s1); by etrans.
Qed.
Lemma holds_when b c : keeps c -> keeps (when b c).
Proof. intros Hc. destruct b; [done|apply holds_ret]. Qed.
Lemma holds_check b e : keeps (check b e).
Proof. destruct b; [apply holds_halt|apply holds_ret]. Qed.
Lemma holds_modify f : (forall s, procs (f s) = procs s) -> keeps (modify f).
Proof. intros Hf s. unfold modify, kept. rewrite Hf. eauto. Qed.
Lemma holds_read {A} (f : kstate -> option A) e : keeps (fun s => match f s with Some x => Ret x s | None => Stop e s end).
Proof. intros s. destruct (f s); reflexivity. Qed.
Lemma holds_upd_proc p f :
  (forall x, parent (f x) = parent x /\ (status x <> FREE -> status (f x) <> FREE)) -> keeps (upd_proc p f).
Proof.
  intros Hf s. unfold upd_proc. destruct (procs s !! p) as [x|] eqn:Hx; [|reflexivity]. destruct (Hf x) as [Hp Hs]. split; cbn.
  - rewrite list_fmap_insert, Hp. apply list_insert_id. by rewrite list_lookup_fmap, Hx.
  - intros i y Hy Hst. destruct (decide (i = p)) as [->|Hne].
    + simplify_eq. exists (f x). split; [|auto]. apply list_lookup_insert_eq. by eapply lookup_lt_Some.
    + rewrite list_lookup_insert_ne by done. eauto.
Qed.
Lemma holds_on_pm {A} (c : M pstate A) : keeps (on_pm c).
Proof. intros s. unfold on_pm, zoom. destruct (c (pm s)); split; cbn; eauto. Qed.

Create HintDb keeping discriminated.
#[export] Hint Resolve holds_ret holds_halt holds_get holds_when holds_check holds_on_pm : keeping.
#[export] Hint Resolve holds_read : keeping.
#[export] Hint Extern 1 (keeps (bind _ _)) => apply holds_bind; [|intros ?] : keeping.
#[export] Hint Extern 2 (keeps (upd_proc _ _)) => apply holds_upd_proc; done : keeping.
#[export] Hint Extern 2 (keeps (modify _)) => apply holds_modify; done : keeping.
#[export] Hint Extern 3 (keeps (if ?b then _ else _)) => destruct b : keeping.
#[export] Hint Extern 3 (keeps (match ?b with Some _ => _ | None => _ end)) => destruct b : keeping.
Ltac keeping := solve [auto 20 with keeping nocore | eauto 30 with keeping].

Section Keeps.
Context `{Linker}.

Lemma holds_get_proc p : keeps (get_proc p).
Proof. intros s. unfold get_proc. destruct (procs s !! p); reflexivity. Qed.
Lemma holds_get_current tp : keeps (get_current tp).
Proof. intros s. unfold get_current. destruct (current s !! tp); reflexivity. Qed.
Lemma holds_get_sem i : keeps (get_sem i).
Proof. intros s. unfold get_sem. destruct (sem_table s !! i); reflexivity. Qed.
Lemma holds_get_csr i : keeps (get_csr i).
Proof. intros s. unfold get_csr. destruct (csrs s !! i); reflexivity. Qed.
Hint Resolve holds_get_proc holds_get_current holds_get_sem holds_get_csr : keeping.
Lemma holds_deref o : keeps (deref o).
Proof. destruct o; keeping. Qed.
Hint Resolve holds_deref : keeping.
Lemma holds_self tp : keeps (self tp).
Proof. unfold self. keeping. Qed.
Lemma holds_upd_csr tp f : keeps (upd_csr tp f).
Proof. unfold upd_csr. keeping. Qed.
Lemma holds_put_sem i x : keeps (put_sem i x).
Proof. unfold put_sem. keeping. Qed.
Lemma holds_acquire : keeps rq_acquire.
Proof. intros s. unfold rq_acquire. destruct (_ =? _); [split; eauto|reflexivity]. Qed.
Lemma holds_release : keeps rq_release.
Proof. unfold rq_release. keeping. Qed.
Lemma holds_init_once : keeps rq_init_once.
Proof. unfold rq_init_once. keeping. Qed.
Lemma holds_rq_last f : forall p r, keeps (rq_last f p r).
Proof. induction f as [|f IH]; intros p r; cbn [rq_last]; keeping. Qed.
Lemma holds_queue_end f : forall p, keeps (queue_end f p).
Proof. induction f as [|f IH]; intros p; cbn [queue_end]; keeping. Qed.
Hint Resolve holds_self holds_upd_csr holds_put_sem holds_acquire holds_release holds_init_once holds_rq_last holds_queue_end : keeping.
Lemma holds_switch tp o : keeps (switch_to tp o).
Proof. unfold switch_to, set_current_at. keeping. Qed.
Lemma holds_insert p : keeps (insert_to_ready_queue p).
Proof. unfold insert_to_ready_queue. keeping. Qed.
Hint Resolve holds_switch holds_insert : keeping.
Lemma holds_schedule tp : keeps (schedule tp).
Proof. unfold schedule, set_current_at. keeping. Qed.
Hint Resolve holds_schedule : keeping.
Lemma holds_wake o : keeps (wake_parent o).
Proof. unfold wake_parent. keeping. Qed.
Lemma holds_free p : keeps (free_process p).
Proof. unfold free_process. keeping. Qed.
Hint Resolve holds_wake holds_free : keeping.
Lemma holds_kill tp r n : keeps (kill_current_process tp r n).
Proof. unfold kill_current_process. keeping. Qed.
Hint Resolve holds_kill : keeping.
Lemma holds_rrsched tp : keeps (rrsched tp).
Proof. unfold rrsched. keeping. Qed.
Lemma holds_exit tp n : keeps (sys_user_exit tp n).
Proof. unfold sys_user_exit. keeping. Qed.
Lemma holds_enqueue i m p : keeps (sem_enqueue i m p).
Proof. unfold sem_enqueue. keeping. Qed.
Hint Resolve holds_enqueue : keeping.
Lemma holds_semP tp i : keeps (do_semP tp i).
Proof. unfold do_semP. keeping. Qed.
Lemma holds_semV tp i : keeps (do_semV tp i).
Proof. unfold do_semV. keeping. Qed.
Lemma holds_semNew v : keeps (do_semNew v).
Proof. unfold do_semNew. keeping. Qed.
Lemma holds_resume tp : keeps (resume_current tp).
Proof. unfold resume_current. keeping. Qed.
End Keeps.

#[export] Hint Resolve holds_rrsched holds_exit holds_semP holds_semV holds_semNew holds_resume holds_schedule : keeping.

(** ** The machine with its programs *)

(** What the harts run, what is left of the program of each process, and the
    lines printed so far. *)
Record ucfg : Type := mkU { uk : kstate; urun : list (option nat); progs : nat -> program; out : list (list Z) }.

Definition set_prog (p : nat) (t : program) (pr : nat -> program) : nat -> program :=
  fun r => if decide (r = p) then t else pr r.

Section Machine.
Context `{Linker}.

(** The call [e] of process [p] on hart [h]; [k] is what the program does with the
    answer.  Calls that do not concern the scheduler but printing are outside this
    machine.  Of [fork] it has the effect on the scheduler: a process in a free slot,
    queued (ForkProps.v has the whole of it); the child starts behind its [fork] with
    the answer 0. *)
Definition event_step {X} (h p : nat) (e : userE X) (k : X -> program) (c c' : ucfg) : Prop :=
  let trap r t := exists st s', serve_request h r (uk c) = Stop st s' /\
                    c' = mkU s' (after h (urun c) st) (set_prog p t (progs c)) (out c) in
  match e in userE X return (X -> program) -> Prop with
  | Print l => fun k => c' = mkU (uk c) (urun c) (set_prog p (k tt) (progs c)) (out c ++ [l])
  | SemP sid => fun k => trap (RSemP sid) (k tt)
  | SemV sid => fun k => trap (RSemV sid) (k tt)
  | Exit n => fun _ => trap (RExit n) (progs c p)
  | SemNew v => fun k =>
      exists sid s1, sys_user_semNew v (uk c) = Ret sid s1 /\ trap (RSemNew v) (k (i32 sid))
  | Fork => fun k =>
      exists i x s1 st s', fresh_process (uk c) i x /\ parent x = Some p /\
        insert_to_ready_queue i (set_procs (<[i := x]> (procs (uk c))) (uk c)) = Ret tt s1 /\
        resume_current h s1 = Stop st s' /\
        c' = mkU s' (after h (urun c) st) (set_prog i (k 0) (set_prog p (k (Z.of_nat i)) (progs c))) (out c)
  | _ => fun _ => False
  end k.

Definition own_step (h p : nat) (c c' : ucfg) : Prop :=
  match observe (progs c p) with
  | RetF x => match x with end
  | TauF t => c' = mkU (uk c) (urun c) (set_prog p t (progs c)) (out c)
  | VisF e k => event_step h p e k c c'
  end.

Inductive ustep : ucfg -> ucfg -> Prop :=
| us_own h p c c' : urun c !! h = Some (Some p) -> own_step h p c c' -> ustep c c'
| us_tick h p c st s' :
    urun c !! h = Some (Some p) -> serve_request h RTick (uk c) = Stop st s' ->
    ustep c (mkU s' (after h (urun c) st) (progs c) (out c))
| us_idle h c st s' :
    urun c !! h = Some None -> schedule h (uk c) = Stop st s' ->
    ustep c (mkU s' (after h (urun c) st) (progs c) (out c)).

(** The kernel has started and [main] is its only process, in slot 0. *)
Record booted (main : program) (c : ucfg) : Prop := {
  bo_kernel : exists s0 s1 x, kernel_boot s0 /\ init_proc_pool s0 = Ret tt s1 /\ fresh_process s1 0 x /\
    parent x = None /\ insert_to_ready_queue 0 (set_procs (<[0%nat := x]> (procs s1)) s1) = Ret tt (uk c);
  bo_run : urun c = replicate NCPU None;
  bo_main : progs c 0%nat = main;
  bo_out : out c = []
}.

(** ** Effects of the calls *)

(** The processes that the scheduler has or a hart runs. *)
Definition busy (q : list nat) (run : list (option nat)) (r : nat) : Prop := r ∈ q \/ runs run r.

(** The hart left its process and scheduled. *)
Lemma scheduled_busy h run q w e s' :
  (h < length run)%nat -> scheduled h (<[h := None]> run) q w e s' ->
  exists q', sched_inv s' (after h run e) q' w /\ forall r, busy q' (after h run e) r <-> busy q (<[h := None]> run) r.
Proof.
  intros Hlt Hs. assert (Hn : <[h := None]> run !! h = Some (None (A := nat))) by (by apply list_lookup_insert_eq).
  destruct Hs as [p q' s1 -> Hi|s1 -> Hi].
  - exists q'. cbn [after]. rewrite list_insert_insert_eq in Hi. split; [done|]. intros r.
    pose proof (runs_start _ h p r Hn) as Hr. rewrite list_insert_insert_eq in Hr. unfold busy.
    rewrite Hr, elem_of_cons. naive_solver.
  - exists []. by destruct (_ && _).
Qed.

(** The same for a hart that was idle. *)
Lemma idle_busy s run q w h e s' :
  sched_inv s run q w -> run !! h = Some None -> schedule h s = Stop e s' ->
  exists q', sched_inv s' (after h run e) q' w /\ (forall r, busy q' (after h run e) r <-> busy q run r) /\
    sem_table s' = sem_table s /\ kept s s'.
Proof.
  intros Hi Hh E. pose proof (holds_schedule h s) as Hk. rewrite E in Hk.
  destruct (schedule_inv s run q w h Hi Hh) as (e1 & s1 & E1 & Hs & Hm). rewrite E1 in E. injection E as <- <-.
  rewrite <- (list_insert_id run h None Hh) in Hs.
  destruct (scheduled_busy h run q w e1 s1) as (q' & Hi' & Hb); [by eapply lookup_lt_Some|done|].
  exists q'. split; [done|]. split; [|done]. rewrite (list_insert_id run h None Hh) in Hb. done.
Qed.

(** A trap of the process [p] of hart [h] with what it does to the processes the
    scheduler knows ([B]), to the queues and to the counters. *)
Record trapped (s s' : kstate) (run run' : list (option nat)) (w' : nat -> list nat) (B : nat -> Prop) (n : list (Z * Z)) : Prop := {
  tr_q : exists q', sched_inv s' run' q' w' /\ forall r, busy q' run' r <-> B r;
  tr_counts : counts s' = n;
  tr_kept : kept s s'
}.

Section Trap.
Context (s : kstate) (run : list (option nat)) (q : list nat) (w : nat -> list nat) (h p : nat).
Context (Hinv : sched_inv s run q w) (Hh : run !! h = Some (Some p)).

Lemma running_lookup : exists x, procs s !! p = Some x.
Proof. destruct (running _ _ _ _ _ _ Hinv Hh) as (x & Hx & _). eauto. Qed.

Lemma hart_bound : (h < length run)%nat.
Proof. by eapply lookup_lt_Some. Qed.

Lemma busy_parked r : busy q (<[h := None]> run) r <-> busy q run r /\ r <> p.
Proof.
  unfold busy. rewrite (runs_stop s) by (done || apply Hinv). split; [|naive_solver].
  intros [Hr|[Hp Hr]]; [|naive_solver]. split; [auto|]. intros ->.
  destruct (running _ _ _ _ _ _ Hinv Hh) as (x & _ & _ & _ & _ & Hq & _). done.
Qed.

(** The state in which the call of request [r] runs: the memory of [s] has changed. *)
Lemma served_at r e s' : serve_request h r s = Stop e s' -> exists t,
  match call_of h r (set_pm t s) with
  | Ret _ s1 => exists t', resume_current h (set_pm t' s1) = Stop e s'
  | Stop e1 s1 => e = e1 /\ s' = s1
  end.
Proof.
  intros E. destruct (serve_cases s run q w h p r Hinv Hh) as [t Ht]. exists t. rewrite E in Ht.
  destruct (call_of h r (set_pm t s)); [|by injection Ht]. destruct Ht as [t' Ht]. by exists t'.
Qed.

(** A request that returns, and one that schedules. *)
Lemma trap_returns r t t' a s1 q1 w1 e s' :
  call_of h r (set_pm t s) = Ret a s1 -> keeps (call_of h r) -> sched_inv s1 run q1 w1 -> resume_current h (set_pm t' s1) = Stop e s' ->
  trapped s s' run (after h run e) w1 (busy q1 run) (counts s1).
Proof.
  intros Ec Hk Hi1 E. destruct (resume_run (set_pm t' s1) run q1 w1 h p (sched_inv_pm _ _ _ _ _ Hi1) Hh) as (s2 & E2 & Hi2 & Hm2).
  pose proof (holds_resume h (set_pm t' s1)) as Hk'. rewrite E2 in Hk'. rewrite E2 in E. injection E as <- <-.
  rewrite (after_same _ _ _ _ _ _ Hi2 Hh). split; [by exists q1|unfold counts; by rewrite Hm2|].
  specialize (Hk (set_pm t s)). rewrite Ec in Hk. exact (transitivity (R := kept) (x := s) (y := s1) Hk Hk').
Qed.

Lemma trap_schedules r t e1 s1 q1 w1 :
  call_of h r (set_pm t s) = Stop e1 s1 -> keeps (call_of h r) -> scheduled h (<[h := None]> run) q1 w1 e1 s1 ->
  trapped s s1 run (after h run e1) w1 (busy q1 (<[h := None]> run)) (counts s1).
Proof.
  intros Ec Hk Hs. destruct (scheduled_busy h run q1 w1 e1 s1 hart_bound Hs) as (q' & Hi' & Hb).
  split; [by exists q'|done|]. specialize (Hk (set_pm t s)). by rewrite Ec in Hk.
Qed.

Lemma trapped_iff s' run' w' (B B' : nat -> Prop) n n' :
  trapped s s' run run' w' B n -> (forall r, B r <-> B' r) -> n = n' -> trapped s s' run run' w' B' n'.
Proof.
  intros [(q' & Hi & Hb) Hn Hk] HB <-. split; [|done|done]. exists q'. split; [done|]. intros r. by rewrite Hb.
Qed.

Lemma busy_requeued r : busy (q ++ [p]) (<[h := None]> run) r <-> busy q run r.
Proof.
  unfold busy. rewrite (runs_stop s) by (done || apply Hinv). rewrite elem_of_app, list_elem_of_singleton. split.
  - intros [[Hr| ->]|[_ Hr]]; [auto| |auto]. right. by exists h.
  - intros [Hr|Hr]; [auto|]. destruct (decide (r = p)); auto.
Qed.

Lemma inv_at t : sched_inv (set_pm t s) run q w.
Proof. by apply sched_inv_pm. Qed.

Lemma tick_effect e s' :
  serve_request h RTick s = Stop e s' -> trapped s s' run (after h run e) w (busy q run) (counts s).
Proof.
  intros E. destruct running_lookup as [x Hx]. destruct (served_at RTick e s' E) as [t Ht]. assert (Hk : keeps (call_of h RTick)) by (cbn [call_of]; keeping).
  pose proof (rrsched_run (set_pm t s) run q w h p x (inv_at t) Hh Hx) as HR.
  destruct (TIME_SLICE_LEN <=? tick_count x + 1).
  - destruct HR as (e1 & s1 & E1 & Hs & Hm). assert (Ec : call_of h RTick (set_pm t s) = Stop e1 s1) by (by apply bind_Stop).
    rewrite Ec in Ht. destruct Ht as [-> ->]. eapply trapped_iff; [eapply trap_schedules; [exact Ec|exact Hk|exact Hs]|apply busy_requeued|].
    unfold counts. by rewrite Hm.
  - destruct HR as (s1 & E1 & Hi1 & Hm & _). assert (Ec : call_of h RTick (set_pm t s) = Ret 0 s1) by (cbn [call_of]; by rewrite (bind_Ret _ _ _ _ _ E1)).
    rewrite Ec in Ht. destruct Ht as [t' Ht]. eapply trapped_iff; [eapply trap_returns; [exact Ec|exact Hk|exact Hi1|exact Ht]|done|].
    unfold counts. by rewrite Hm.
Qed.

Lemma counts_lookup i u v : counts s !! i = Some (u, v) -> exists m, sem_table s !! i = Some m /\ ifuse m = u /\ value m = v.
Proof.
  unfold counts. rewrite list_lookup_fmap. destruct (sem_table s !! i) as [m|]; [|done]. cbn. intros [= <- <-]. eauto.
Qed.

Lemma holds_semP' i : keeps (sys_user_semP h i).
Proof. unfold sys_user_semP. keeping. Qed.
Lemma holds_semV' i : keeps (sys_user_semV h i).
Proof. unfold sys_user_semV. keeping. Qed.

Lemma semP_effect i u v e s' :
  counts s !! i = Some (u, v) -> u <> 0 -> serve_request h (RSemP (Z.of_nat i)) s = Stop e s' ->
  if 0 <? v then trapped s s' run (after h run e) w (busy q run) (<[i := (u, v - 1)]> (counts s))
  else trapped s s' run (after h run e) (upd_at w i (w i ++ [p])) (fun r => busy q run r /\ r <> p) (counts s).
Proof.
  intros Hn Hu E. destruct running_lookup as [x Hx]. destruct (counts_lookup i u v Hn) as (m & Hm & <- & <-).
  destruct (served_at _ e s' E) as [t Ht]. pose proof (semP_run (set_pm t s) run q w h p x (Z.of_nat i) m (inv_at t) Hh Hx) as HP. rewrite Nat2Z.id in HP.
  specialize (HP ltac:(lia) Hm Hu). destruct (0 <? value m).
  - destruct HP as (s1 & E1 & Hi1 & Hm1). assert (Ec : call_of h (RSemP (Z.of_nat i)) (set_pm t s) = Ret 0 s1)
      by (cbn [call_of]; unfold sys_user_semP; by rewrite (bind_Ret _ _ _ _ _ E1)). rewrite Ec in Ht. destruct Ht as [t' Ht].
    eapply trapped_iff; [eapply trap_returns; [exact Ec|apply holds_semP'|exact Hi1|exact Ht]|done|].
    unfold counts. rewrite Hm1. by rewrite list_fmap_insert.
  - destruct HP as (e1 & s1 & E1 & Hs1 & Hm1).
    assert (Ec : call_of h (RSemP (Z.of_nat i)) (set_pm t s) = Stop e1 s1) by (cbn [call_of]; unfold sys_user_semP; by apply bind_Stop).
    rewrite Ec in Ht. destruct Ht as [-> ->].
    eapply trapped_iff; [eapply trap_schedules; [exact Ec|apply holds_semP'|exact Hs1]|exact busy_parked|done].
Qed.

Lemma semV_effect i u v e s' :
  counts s !! i = Some (u, v) -> u <> 0 -> v <> 2147483647 -> serve_request h (RSemV (Z.of_nat i)) s = Stop e s' ->
  match w i with
  | [] => trapped s s' run (after h run e) w (busy q run) (<[i := (u, v + 1)]> (counts s))
  | r0 :: l => trapped s s' run (after h run e) (upd_at w i l) (fun r => busy q run r \/ r = r0) (counts s)
  end.
Proof.
  intros Hn Hu Hv E. destruct (counts_lookup i u v Hn) as (m & Hm & <- & <-). destruct (served_at _ e s' E) as [t Ht].
  assert (Ec : forall s1, do_semV h (Z.of_nat i) (set_pm t s) = Ret tt s1 -> call_of h (RSemV (Z.of_nat i)) (set_pm t s) = Ret 0 s1)
    by (intros s1 E1; cbn [call_of]; unfold sys_user_semV; by rewrite (bind_Ret _ _ _ _ _ E1)).
  destruct (w i) as [|r0 l] eqn:Hw.
  - destruct (semV_free (set_pm t s) run q w h (Z.of_nat i) m (inv_at t)) as (s1 & E1 & Hi1 & Hm1); rewrite ?Nat2Z.id; auto with lia.
    rewrite (Ec _ E1) in Ht. destruct Ht as [t' Ht].
    eapply trapped_iff; [eapply trap_returns; [exact (Ec _ E1)|apply holds_semV'|exact Hi1|exact Ht]|done|].
    unfold counts. rewrite Hm1, Nat2Z.id. by rewrite list_fmap_insert.
  - destruct (semV_wake (set_pm t s) run q w h (Z.of_nat i) m r0 l (inv_at t)) as (s1 & E1 & Hi1 & Hm1); rewrite ?Nat2Z.id; auto with lia.
    rewrite Nat2Z.id in Hi1. rewrite (Ec _ E1) in Ht. destruct Ht as [t' Ht].
    eapply trapped_iff; [eapply trap_returns; [exact (Ec _ E1)|apply holds_semV'|exact Hi1|exact Ht]| |done].
    intros r. unfold busy. rewrite elem_of_app, list_elem_of_singleton. naive_solver.
Qed.

Lemma exit_effect x n e s' :
  procs s !! p = Some x -> (forall r i, parent x = Some r -> r ∉ w i) -> serve_request h (RExit n) s = Stop e s' ->
  trapped s s' run (after h run e) w (fun r => (busy q run r /\ r <> p) \/ r ∈ woken s (parent x)) (counts s).
Proof.
  intros Hx Hpar E. destruct (served_at _ e s' E) as [t Ht].
  destruct (exit_run (set_pm t s) run q w h p x n (inv_at t) Hh Hx) as (e1 & s1 & E1 & Hs1 & Hm1).
  { intros r i Hr. apply Hpar. unfold woken in Hr. destruct (parent x) as [y|]; [|by apply not_elem_of_nil in Hr].
    cbn [procs set_pm] in Hr. destruct (procs s !! y) as [z|]; [|by apply not_elem_of_nil in Hr].
    case_bool_decide; [|by apply not_elem_of_nil in Hr]. apply list_elem_of_singleton in Hr. by subst. }
  assert (Ec : call_of h (RExit n) (set_pm t s) = Stop e1 s1) by exact E1. rewrite Ec in Ht. destruct Ht as [-> ->].
  eapply trapped_iff; [eapply trap_schedules; [exact Ec|cbn [call_of]; keeping|exact Hs1]| |].
  - intros r. rewrite <- busy_parked. unfold busy. rewrite elem_of_app. change (woken (set_pm t s)) with (woken s). naive_solver.
  - unfold counts. by rewrite Hm1.
Qed.

Lemma semNew_effect v i sid s1 e s' :
  first_unused (sem_table s) 0 = Some i -> sys_user_semNew v s = Ret sid s1 -> serve_request h (RSemNew v) s = Stop e s' ->
  sid = Z.of_nat i mod 18446744073709551616 /\
  trapped s s' run (after h run e) w (busy q run) (<[i := (1, i32 v)]> (counts s)).
Proof.
  intros Hf E E2. split.
  - destruct (semNew_run s run q w v Hinv) as (s2 & E1 & _). rewrite Hf in E1.
    unfold sys_user_semNew in E. rewrite (bind_Ret _ _ _ _ _ E1) in E. by injection E.
  - destruct (served_at _ e s' E2) as [t Ht]. destruct (semNew_run (set_pm t s) run q w v (inv_at t)) as (s2 & E1 & Hi1 & Hm1).
    assert (Ec : exists a, call_of h (RSemNew v) (set_pm t s) = Ret a s2).
    { eexists. cbn [call_of]. unfold sys_user_semNew. by rewrite (bind_Ret _ _ _ _ _ E1). }
    destruct Ec as [a Ec]. rewrite Ec in Ht. destruct Ht as [t' Ht].
    eapply trapped_iff; [eapply trap_returns; [exact Ec|cbn [call_of]; unfold sys_user_semNew; keeping|exact Hi1|exact Ht]|done|].
    unfold counts. rewrite (Hm1 i Hf). by rewrite list_fmap_insert.
Qed.

(** After [fork] the child is queued behind the others, and [p] is its parent. *)
Lemma fork_effect i x s1 e s' :
  fresh_process s i x -> insert_to_ready_queue i (set_procs (<[i := x]> (procs s)) s) = Ret tt s1 ->
  resume_current h s1 = Stop e s' ->
  trapped (set_procs (<[i := x]> (procs s)) s) s' run (after h run e) w (fun r => busy q run r \/ r = i) (counts s).
Proof.
  intros Hf E E2. destruct (spawn_run s run q w i x Hinv Hf) as (s2 & E1 & Hi1 & Hm1 & _). rewrite E1 in E. injection E as <-.
  pose proof (holds_insert i (set_procs (<[i := x]> (procs s)) s)) as Hk. rewrite E1 in Hk.
  destruct (resume_run s2 run _ w h p Hi1 Hh) as (s3 & E3 & Hi3 & Hm3). rewrite E3 in E2. injection E2 as <- <-.
  pose proof (holds_resume h s2) as Hk2. rewrite E3 in Hk2.
  rewrite (after_same _ _ _ _ _ _ Hi1 Hh). split; [|unfold counts; by rewrite Hm3, Hm1|by etrans].
    exists (q ++ [i]). split; [done|]. intros r. unfold busy. rewrite elem_of_app, list_elem_of_singleton. naive_solver.
Qed.
End Trap.
End Machine.
