(* ===== verification/AppSem.v ===== *)
(** * app_semaphore prints in turn

    The program of user/app_semaphore.c on the scheduler and the semaphores of the
    kernel: three processes, two harts and the timer in any order.  A trap is one step:
    it is served to its end before the other hart enters the kernel.  With one hart
    this is always so; with two the kernel does not enforce it (Sched.semaphore_race). *)
From Stdlib Require Import ZifyNat.
From ITree Require Import ITree.
From S2P Require Import Prelude Pmm Vmm Process Sched CString Snprintf UserProg UserRun.

(** ** What the three processes do *)

(** Process [j]: 0 the parent, 1 the child, 2 the grandchild.  [line j i] is what it
    prints in round [i]. *)
Definition line (j i : nat) : list Z :=
  txt (match j with O => "Parent print " | S O => "Child0 print " | _ => "Child1 print " end) ++ show_dec (Z.of_nat i) ++ nl.
Definition all_lines : list (list Z) := (fun n => line (n mod 3) (n / 3))%nat <$> seq 0 30.
Definition next (j : nat) : nat := (S j mod 3)%nat.

(** The program [t] of process [j]: at the V of a round, at its print, at its P. *)
Definition at_V (L : program -> Prop) (j : nat) (t : program) : Prop :=
  exists k, observe t = VisF (SemV (Z.of_nat (next j))) k /\ L (k tt).
Definition at_print (L : program -> Prop) (j i : nat) (t : program) : Prop :=
  exists k, observe t = VisF (Print (line j i)) k /\ at_V L j (k tt).
Fixpoint at_P (n j i : nat) (t : program) : Prop :=
  match n with
  | O => exists k, observe t = VisF (Exit 0) k
  | S n' => exists k, observe t = VisF (SemP (Z.of_nat j)) k /\ at_print (at_P n' j (S i)) j i (k tt)
  end.
Definition at_fork2 (t : program) : Prop :=
  exists k, observe t = VisF Fork k /\ at_P 10 2 0 (k 0) /\ forall v, v <> 0 -> at_P 10 1 0 (k v).
Definition at_fork1 (t : program) : Prop :=
  exists k, observe t = VisF Fork k /\ at_fork2 (k 0) /\ forall v, v <> 0 -> at_P 10 0 0 (k v).
(** [d] semaphores are there. *)
Fixpoint at_sems (n d : nat) (t : program) : Prop :=
  match n with
  | O => at_fork1 t
  | S n' => exists k, observe t = VisF (SemNew (match d with O => 1 | _ => 0 end)) k /\ at_sems n' (S d) (k (Z.of_nat d))
  end.

Lemma parent_text i : (i < 10)%nat -> printu (txt "Parent print %d" ++ nl) [Num (Z.of_nat i)] = ITree.trigger (Print (line 0 i)).
Proof. revert i. do 10 (intros [|i]; [reflexivity|revert i]). lia. Qed.
Lemma child_text (b : bool) i : (i < 10)%nat ->
  printu (txt "Child%d print %d" ++ nl) [Num (if b then 1 else 0); Num (Z.of_nat i)] = ITree.trigger (Print (line (if b then 2 else 1) i)).
Proof. revert i. do 10 (intros [|i]; [destruct b; reflexivity|revert i]). lia. Qed.

#[local] Arguments line : simpl never.
#[local] Arguments for_ : simpl never.
#[local] Arguments exit_ : simpl never.
(** The next call of a program. *)
Ltac next_call := unfold at_print, at_V, at_fork1, at_fork2; cbn; eexists; split; [reflexivity|].

Lemma at_P_observe n j i t t' : observe t = observe t' -> at_P n j i t -> at_P n j i t'.
Proof. intros E. destruct n; cbn [at_P]; by rewrite E. Qed.

Lemma for_S n i body next : for_ (S n) i body next = ITree.bind (body i) (fun _ => for_ n (i + 1) body next).
Proof. reflexivity. Qed.

Lemma parent_at n : forall i, (i + n = 10)%nat -> at_P n 0 i (for_ n (Z.of_nat i) (parent_body 0 1) (exit_ 0)).
Proof.
  induction n as [|n IH]; intros i Hi; cbn [at_P]; [eexists; reflexivity|].
  rewrite for_S. unfold parent_body at 1. rewrite parent_text by lia. do 3 next_call.
  eapply at_P_observe; [|apply IH; lia]. cbn. by replace (Z.of_nat i + 1) with (Z.of_nat (S i)) by lia.
Qed.

Lemma child_at pid n : forall i, (i + n = 10)%nat ->
  at_P n (if pid =? 0 then 2 else 1) i (for_ n (Z.of_nat i) (child_body 0 1 2 pid) (exit_ 0)).
Proof.
  induction n as [|n IH]; intros i Hi; cbn [at_P]; [eexists; reflexivity|].
  rewrite for_S. unfold child_body at 1. rewrite child_text by lia. destruct (pid =? 0); do 3 next_call.
  all: eapply at_P_observe; [|apply IH; lia]; cbn; by replace (Z.of_nat i + 1) with (Z.of_nat (S i)) by lia.
Qed.

#[local] Arguments at_P : simpl never.
Lemma app_semaphore_at : at_sems 3 0 app_semaphore.
Proof.
  do 3 next_call. next_call. split.
  - next_call. split.
    + eapply at_P_observe; [|apply (child_at 0 10 0); lia]. reflexivity.
    + intros v Hv. pose proof (child_at v 10 0) as Hc. rewrite (proj2 (Z.eqb_neq v 0) Hv) in Hc.
      eapply at_P_observe; [|apply Hc; lia]. reflexivity.
  - intros v Hv. eapply at_P_observe; [|apply (parent_at 10 0); lia]. unfold observe at 2. cbn. by rewrite (proj2 (Z.eqb_neq v 0) Hv).
Qed.

(** ** The invariant *)

(** The processes by age: slot 0, the child, the grandchild. *)
Record kernel_ok (fs : list nat) (s : kstate) (run : list (option nat)) (q : list nat) (w : nat -> list nat) : Prop := {
  ko_sched : sched_inv s run q w;
  ko_busy : forall r, busy q run r -> r ∈ fs;
  ko_wait : forall a r, r ∈ w a -> fs !! a = Some r;
  ko_slot : forall j p, fs !! j = Some p -> exists x, procs s !! p = Some x /\ status x <> FREE /\
              parent x = match j with O => None | S j' => fs !! j' end;
  ko_nodup : NoDup fs;
  ko_first : fs !! 0%nat = Some 0%nat
}.

Inductive stage : Type := InSem | Holding | Printed.

(** [n] turns are over: the token is in the semaphore of process [n mod 3], or that
    process has it and is about to print, or has printed. *)
Definition turn (n : nat) : nat := (n mod 3)%nat.
(** How many turns process [j] has had. *)
Definition rounds (n j : nat) : nat := ((n + 2 - j) / 3)%nat.
Definition nowhere (w : nat -> list nat) (p : nat) : Prop := forall a, p ∉ w a.

Definition resting (t : program) (w : nat -> list nat) (i j p : nat) : Prop :=
  (at_P (10 - i) j i t /\ nowhere w p) \/ ((i < 10)%nat /\ at_print (at_P (10 - S i) j (S i)) j i t /\ p ∈ w j).
Definition has_token (t : program) (w : nat -> list nat) (st : stage) (i j p : nat) : Prop :=
  match st with
  | InSem => resting t w i j p
  | Holding => at_print (at_P (10 - S i) j (S i)) j i t /\ nowhere w p
  | Printed => at_V (at_P (10 - S i) j (S i)) j t /\ nowhere w p
  end.
Definition playing (t : program) (w : nat -> list nat) (n : nat) (st : stage) (j p : nat) : Prop :=
  if decide (j = turn n) then has_token t w st (rounds n j) j p else resting t w (rounds n j) j p.
(** The youngest process until it has forked. *)
Definition forking (l : nat) (t : program) (w : nat -> list nat) (n : nat) (st : stage) (j p : nat) : Prop :=
  (if decide (l = 1%nat) then at_fork1 t else at_fork2 t) /\ nowhere w p /\ rounds n j = 0%nat /\ (j = turn n -> st = InSem).
Definition member (l : nat) (t : program) (w : nat -> list nat) (n : nat) (st : stage) (j p : nat) : Prop :=
  if decide (S j = l /\ (l < 3)%nat) then forking l t w n st j p else playing t w n st j p.

Definition sem_tokens (n : nat) (st : stage) (j : nat) : Z :=
  match st with InSem => if decide (j = turn n) then 1 else 0 | _ => 0 end.

Record active (fs : list nat) (n : nat) (st : stage) (c : ucfg) (q : list nat) (w : nat -> list nat) : Prop := {
  ac_out : out c = take (match st with Printed => S n | _ => n end) all_lines;
  ac_n : (n <= 30)%nat /\ (st <> InSem -> n < 30)%nat;
  ac_counts : forall j, (j < 3)%nat -> counts (uk c) !! j = Some (1, sem_tokens n st j);
  ac_len : (length fs <= 3)%nat;
  ac_member : forall j p, fs !! j = Some p -> member (length fs) (progs c p) w n st j p;
  ac_live : forall j p, fs !! j = Some p -> busy q (urun c) p \/ p ∈ w j \/ rounds n j = 10%nat
}.

(** Before the first fork: [d] semaphores are made. *)
Record making (d : nat) (c : ucfg) (q : list nat) (w : nat -> list nat) : Prop := {
  ma_out : out c = [];
  ma_d : (d < 3)%nat;
  ma_prog : at_sems (3 - d) d (progs c 0%nat);
  ma_counts : counts (uk c) = take d [(1, 1); (1, 0); (1, 0)] ++ replicate (NSEM - d) (0, 0);
  ma_wait : nowhere w 0%nat;
  ma_live : busy q (urun c) 0%nat
}.

Definition app_inv (c : ucfg) : Prop :=
  exists fs q w, kernel_ok fs (uk c) (urun c) q w /\
    ((fs = [0%nat] /\ exists d, making d c q w) \/ exists n st, active fs n st c q w).

(** *** Arithmetic of turns *)

Ltac turns := unfold rounds, turn, next in *; zify; Z.to_euclidean_division_equations; lia.

Lemma rounds_turn n : rounds n (turn n) = (n / 3)%nat.
Proof. turns. Qed.
Lemma turn_lt n : (turn n < 3)%nat.
Proof. turns. Qed.
Lemma turn_S n : turn (S n) = next (turn n).
Proof. turns. Qed.
Lemma rounds_own n : rounds (S n) (turn n) = S (rounds n (turn n)).
Proof. turns. Qed.
Lemma rounds_other n j : (j < 3)%nat -> j <> turn n -> rounds (S n) j = rounds n j.
Proof. turns. Qed.
Lemma rounds_le n j : (n <= 30)%nat -> (j < 3)%nat -> (rounds n j <= 10)%nat.
Proof. turns. Qed.
Lemma rounds_lt n : (n < 30)%nat -> (rounds n (turn n) < 10)%nat.
Proof. turns. Qed.
Lemma rounds_open n : (rounds n (turn n) < 10)%nat -> (n < 30)%nat.
Proof. turns. Qed.
Lemma next_ne n : next (turn n) <> turn n.
Proof. turns. Qed.
Lemma rounds_mono n j : (rounds n (S j) <= rounds n j)%nat.
Proof. turns. Qed.

(** *** What does not change *)

Lemma kernel_after fs s s' run run' q w w' B n :
  kernel_ok fs s run q w -> trapped s s' run run' w' B n -> (forall r, B r -> r ∈ fs) ->
  (forall a r, r ∈ w' a -> fs !! a = Some r) ->
  exists q', kernel_ok fs s' run' q' w' /\ forall r, busy q' run' r <-> B r.
Proof.
  intros [] [(q' & Hi & Hb) _ [Hp Hf]] HB Hw. exists q'. split; [|done]. split; try done.
  - intros r Hr. by apply HB, Hb.
  - intros j p Hj. destruct (ko_slot0 j p Hj) as (x & Hx & Hs & Hpar). destruct (Hf p x Hx Hs) as (x' & Hx' & Hs').
    exists x'. split; [done|]. split; [done|]. rewrite <- Hpar.
    apply (f_equal (fun l => l !! p)) in Hp. rewrite !list_lookup_fmap, Hx, Hx' in Hp. by injection Hp.
Qed.

Lemma kernel_spawn fs s s1 s' run run' q w i x p :
  kernel_ok fs s run q w -> fresh_process s i x -> parent x = Some p -> list.last fs = Some p ->
  trapped (set_procs (<[i := x]> (procs s)) s) s' run run' w (fun r => busy q run r \/ r = i) s1 ->
  i ∉ fs /\ exists q', kernel_ok (fs ++ [i]) s' run' q' w /\ forall r, busy q' run' r <-> busy q run r \/ r = i.
Proof.
  intros [] [(y & Hy & Hfree) Hrdy _ _] Hpar Hlast [(q' & Hi & Hb) _ [Hp Hf]].
  assert (Hout : i ∉ fs).
  { intros Hin. apply list_elem_of_lookup in Hin as [j Hj]. destruct (ko_slot0 j i Hj) as (z & Hz & Hs & _). congruence. }
  split; [done|]. exists q'. split; [|done]. cbn [procs set_procs] in *.
  assert (Hlt : (i < length (procs s))%nat) by by eapply lookup_lt_Some.
  split; try done.
  - intros r [Hr| ->]%Hb; apply elem_of_app; [auto|right; by apply list_elem_of_singleton].
  - intros a r Hr. apply ko_wait0 in Hr. by apply lookup_app_l_Some.
  - assert (Hnew : forall r z, <[i := x]> (procs s) !! r = Some z -> status z <> FREE ->
      exists x', procs s' !! r = Some x' /\ status x' <> FREE /\ parent x' = parent z).
    { intros r z Hz Hs. destruct (Hf r z Hz Hs) as (x' & Hx' & Hs'). exists x'. split; [done|]. split; [done|].
      apply (f_equal (fun l => l !! r)) in Hp. rewrite !list_lookup_fmap, Hz, Hx' in Hp. by injection Hp. }
    intros j r Hj. apply lookup_app_Some in Hj as [Hj|[Hle Hj]].
    + destruct (ko_slot0 j r Hj) as (z & Hz & Hs & Hparz).
      destruct (Hnew r z) as (x' & Hx' & Hs' & E); [|done|].
      { rewrite list_lookup_insert_ne; [done|]. intros ->. apply Hout. by eapply list_elem_of_lookup_2. }
      exists x'. split; [done|]. split; [done|]. rewrite E, Hparz. destruct j as [|j]; [done|].
      apply lookup_lt_Some in Hj. by rewrite lookup_app_l by lia.
    + apply list_lookup_singleton_Some in Hj as [Hj <-]. destruct (Hnew i x) as (x' & Hx' & Hs' & E).
      { by apply list_lookup_insert_eq. } { by rewrite Hrdy. }
      exists x'. split; [done|]. split; [done|]. rewrite E, Hpar.
      rewrite last_lookup in Hlast. destruct j as [|j]; [destruct fs; [done|cbn in Hle; lia]|].
      replace (Init.Nat.pred (length fs)) with j in Hlast by lia. rewrite lookup_app_l; [done|]. by eapply lookup_lt_Some.
  - apply list.NoDup_app. split; [done|]. split; [|apply list.NoDup_singleton].
    intros r Hr ->%list_elem_of_singleton. done.
  - by apply lookup_app_l_Some.
Qed.

Lemma resting_frame t w w' i j p : resting t w i j p -> (forall a, p ∈ w' a <-> p ∈ w a) -> resting t w' i j p.
Proof. intros [[Ht Hn]|(Hi & Ht & Hp)] Hw; [left|right]; unfold nowhere in *; by setoid_rewrite Hw. Qed.

Lemma member_frame l t w w' n st j p : member l t w n st j p -> (forall a, p ∈ w' a <-> p ∈ w a) -> member l t w' n st j p.
Proof.
  unfold member, forking, playing, has_token. intros Hm Hw. assert (Hn : nowhere w p -> nowhere w' p) by (unfold nowhere; by setoid_rewrite Hw).
  case_decide; [naive_solver|]. case_decide; [|by eapply resting_frame]. destruct st; [by eapply resting_frame|naive_solver..].
Qed.

(** A process whose turn it is not does not notice the stage. *)
Lemma member_stage l t w n st st' j p : member l t w n st j p -> j <> turn n -> member l t w n st' j p.
Proof.
  unfold member, forking, playing. intros Hm Hj. case_decide; [naive_solver|]. by rewrite decide_False in * by done.
Qed.

(** *** One step of a process *)

Section Steps.
Context `{Linker} (fs : list nat) (n : nat) (st : stage) (c : ucfg) (q : list nat) (w : nat -> list nat) (h p j : nat).
Context (Hk : kernel_ok fs (uk c) (urun c) q w) (Ha : active fs n st c q w).
Context (Hh : urun c !! h = Some (Some p)) (Hj : fs !! j = Some p).

Lemma running_nowhere : nowhere w p.
Proof. intros a. destruct (running _ _ _ _ _ _ (ko_sched _ _ _ _ _ Hk) Hh) as (x & _ & _ & _ & _ & _ & Hw). apply Hw. Qed.
Lemma index_lt : (j < 3)%nat.
Proof. pose proof (ac_len _ _ _ _ _ _ Ha). apply lookup_lt_Some in Hj. lia. Qed.
Lemma same_index j' : fs !! j' = Some p -> j' = j.
Proof. intros Hj'. by eapply (list.NoDup_lookup fs); [apply Hk|..]. Qed.
Lemma running_busy : busy q (urun c) p.
Proof. right. by exists h. Qed.

Lemma members_after st' t w' :
  (forall r a, r <> p -> r ∈ w' a <-> r ∈ w a) -> j = turn n \/ st' = st -> member (length fs) t w' n st' j p ->
  forall j' r, fs !! j' = Some r -> member (length fs) (set_prog p t (progs c) r) w' n st' j' r.
Proof.
  intros Hw Hst Hm j' r Hr. unfold set_prog. case_decide as Hp.
  - subst r. by rewrite (same_index j' Hr).
  - eapply member_frame; [|intros a; by apply Hw]. pose proof (ac_member _ _ _ _ _ _ Ha j' r Hr) as Hm'.
    destruct Hst as [Hst| ->]; [|done]. eapply member_stage; [exact Hm'|]. intros ->. rewrite <- Hst, Hj in Hr. congruence.
Qed.

Lemma playing_member t w' n' st' : member (length fs) (progs c p) w n st j p -> (forall l, forking l (progs c p) w n st j p -> False) ->
  playing t w' n' st' j p -> member (length fs) t w' n' st' j p.
Proof. unfold member. intros Hm Hf Hp. case_decide; [by destruct (Hf _ Hm)|done]. Qed.

Lemma all_lines_lookup m : (m < 30)%nat -> all_lines !! m = Some (line (turn m) (rounds m (turn m))).
Proof.
  intros Hm. unfold all_lines. rewrite list_lookup_fmap, lookup_seq_lt by done. cbn [fmap option_fmap option_map]. rewrite rounds_turn. done.
Qed.

(** The members see the token leave the semaphore or not. *)
Lemma step_print k :
  j = turn n -> st = Holding -> ~ (S j = length fs /\ length fs < 3)%nat ->
  observe (progs c p) = VisF (Print (line j (rounds n j))) k -> at_V (at_P (10 - S (rounds n j)) j (S (rounds n j))) j (k tt) ->
  app_inv (mkU (uk c) (urun c) (set_prog p (k tt) (progs c)) (out c ++ [line j (rounds n j)])).
Proof.
  intros Et Est Hl Ho HV. exists fs, q, w. split; [done|]. right. exists n, Printed. pose proof Ha as [Hout [Hn Hn'] Hc Hlen Hm Hlive].
  assert (Hlt : (n < 30)%nat) by (apply Hn'; by rewrite Est). split; cbn [uk urun progs out]; try done.
  - rewrite Hout, Est, (take_S_r _ _ _ (all_lines_lookup n Hlt)). by rewrite Et.
  - intros j' Hj'. rewrite (Hc j' Hj'), Est. done.
  - apply members_after; [done|auto|]. unfold member. rewrite decide_False by done. unfold playing. rewrite decide_True by done.
    split; [done|apply running_nowhere].
Qed.

Lemma step_P k e s' :
  (j = turn n -> st = InSem) -> (rounds n j < 10)%nat -> ~ (S j = length fs /\ length fs < 3)%nat ->
  at_print (at_P (10 - S (rounds n j)) j (S (rounds n j))) j (rounds n j) (k tt) ->
  serve_request h (RSemP (Z.of_nat j)) (uk c) = Stop e s' ->
  app_inv (mkU s' (after h (urun c) e) (set_prog p (k tt) (progs c)) (out c)).
Proof.
  intros Hst Hi Hl Hp E. pose proof index_lt as Hj3. pose proof Ha as [Hout [Hn Hn'] Hc Hlen Hm Hlive].
  pose proof (semP_effect _ _ _ _ _ _ (ko_sched _ _ _ _ _ Hk) Hh j 1 (sem_tokens n st j) e s' (Hc j Hj3) ltac:(lia) E) as Hs.
  destruct (decide (j = turn n)) as [Et|Et].
  - specialize (Hst Et). rewrite Hst in Hs, Hc, Hout. unfold sem_tokens in Hs. rewrite decide_True in Hs by done. change (0 <? 1) with true in Hs. cbn iota in Hs.
    destruct (kernel_after fs _ _ _ _ _ _ _ _ _ Hk Hs) as (q' & Hk' & Hb); [apply Hk..|].
    exists fs, q', w. split; [done|]. right. exists n, Holding.
    assert (Hlt : (n < 30)%nat) by (apply rounds_open; by rewrite <- Et).
    split; cbn [uk urun progs out]; try done.
    + intros j' Hj'. rewrite (tr_counts _ _ _ _ _ _ _ Hs). destruct (decide (j' = j)) as [->|Hne].
      * rewrite list_lookup_insert_eq; [done|]. apply Hc, lookup_lt_Some in Hj3. done.
      * rewrite list_lookup_insert_ne by done. rewrite (Hc j' Hj'). unfold sem_tokens. rewrite decide_False by congruence. done.
    + apply members_after; [done|auto|]. unfold member. rewrite decide_False by done. unfold playing. rewrite decide_True by done.
      split; [done|apply running_nowhere].
    + intros j' r Hr. rewrite Hb. by apply Hlive.
  - assert (Htk : sem_tokens n st j = 0) by (unfold sem_tokens; destruct st; [by rewrite decide_False|done..]).
    rewrite Htk in Hs. change (0 <? 0) with false in Hs. cbn iota in Hs.
    assert (Hw' : forall r a, r ∈ upd_at w j (w j ++ [p]) a <-> r ∈ w a \/ (r = p /\ a = j)).
    { intros r a. destruct (decide (a = j)) as [->|Hne]; [|rewrite upd_at_ne by done; naive_solver].
      rewrite upd_at_eq, elem_of_app, list_elem_of_singleton. naive_solver. }
    destruct (kernel_after fs _ _ _ _ _ _ _ _ _ Hk Hs) as (q' & Hk' & Hb).
    { intros r [Hr _]. by apply Hk. } { intros a r [Hr|[-> ->]]%Hw'; [by apply Hk|done]. }
    exists fs, q', (upd_at w j (w j ++ [p])). split; [done|]. right. exists n, st. split; cbn [uk urun progs out]; try done.
    + intros j' Hj'. rewrite (tr_counts _ _ _ _ _ _ _ Hs). by apply Hc.
    + apply members_after; [intros r a Hr; rewrite Hw'; naive_solver|auto|].
      unfold member. rewrite decide_False by done. unfold playing. rewrite decide_False by done.
      right. split; [done|]. split; [done|]. apply Hw'. auto.
    + intros j' r Hr. rewrite Hb, Hw'. destruct (decide (r = p)) as [->|Hne].
      * right; left; right. split; [done|]. by apply same_index.
      * destruct (Hlive j' r Hr) as [Hb'|[Hb'|Hb']]; auto.
Qed.

(** The turn is over: process [j] is at its next round. *)
Lemma members_next st' t w' :
  j = turn n -> ~ (S j = length fs /\ length fs < 3)%nat ->
  (forall r a, fs !! turn (S n) = Some r \/ (r ∈ w' a <-> r ∈ w a)) ->
  resting t w' (S (rounds n j)) j p ->
  (st' = InSem /\ w' = w \/ forall r, fs !! turn (S n) = Some r -> r <> p -> member (length fs) (progs c r) w' (S n) st' (turn (S n)) r) ->
  forall j' r, fs !! j' = Some r -> member (length fs) (set_prog p t (progs c) r) w' (S n) st' j' r.
Proof.
  intros Et Hl Hw Hr Hst j' r Hj'. unfold set_prog. case_decide as Hp.
  - subst r. rewrite (same_index j' Hj'). unfold member, playing. rewrite decide_False by done.
    rewrite decide_False by (rewrite turn_S, Et; intros E; by apply (next_ne n)). by rewrite Et, rounds_own, <- Et.
  - assert (Hne : j' <> turn n) by (intros ->; rewrite <- Et, Hj in Hj'; congruence).
    assert (Hj3 : (j' < 3)%nat) by (apply lookup_lt_Some in Hj'; pose proof (ac_len _ _ _ _ _ _ Ha); lia).
    pose proof (ac_member _ _ _ _ _ _ Ha j' r Hj') as Hm.
    destruct (decide (j' = turn (S n))) as [->|Hne2].
    + destruct Hst as [[-> ->]|Hst]; [|by apply Hst]. unfold member, forking, playing, has_token in *.
      rewrite (rounds_other n (turn (S n)) Hj3 Hne). rewrite (decide_True (P := turn (S n) = turn (S n))) by done.
      rewrite (decide_False (P := turn (S n) = turn n)) in Hm by done. case_decide; [naive_solver|done].
    + eapply member_frame; [|intros a; destruct (Hw r a) as [Hw'|Hw']; [|exact Hw']].
      2:{ destruct Hne2. by eapply (list.NoDup_lookup fs); [apply Hk|..]. }
      unfold member, forking, playing in *. rewrite (rounds_other n j' Hj3 Hne).
      rewrite (decide_False (P := j' = turn (S n))) by done. rewrite (decide_False (P := j' = turn n)) in Hm by done.
      case_decide; [naive_solver|done].
Qed.

Lemma live_next (w' : nat -> list nat) (B : nat -> Prop) :
  j = turn n -> B p -> (forall r, busy q (urun c) r -> B r) -> (forall j' r, fs !! j' = Some r -> r ∈ w j' -> B r \/ r ∈ w' j') ->
  forall j' r, fs !! j' = Some r -> B r \/ r ∈ w' j' \/ rounds (S n) j' = 10%nat.
Proof.
  intros Et Hp HB Hw j' r Hr. destruct (decide (r = p)) as [->|Hne]; [auto|].
  assert (Hne' : j' <> turn n) by (intros ->; rewrite <- Et, Hj in Hr; congruence).
  assert (Hj3 : (j' < 3)%nat) by (apply lookup_lt_Some in Hr; pose proof (ac_len _ _ _ _ _ _ Ha); lia).
  rewrite (rounds_other n j' Hj3 Hne').
  destruct (ac_live _ _ _ _ _ _ Ha j' r Hr) as [Hb|[Hb|Hb]]; [auto| |auto]. destruct (Hw j' r Hr Hb); auto.
Qed.

Lemma step_V k e s' :
  j = turn n -> st = Printed -> ~ (S j = length fs /\ length fs < 3)%nat ->
  at_P (10 - S (rounds n j)) j (S (rounds n j)) (k tt) ->
  serve_request h (RSemV (Z.of_nat (next j))) (uk c) = Stop e s' ->
  app_inv (mkU s' (after h (urun c) e) (set_prog p (k tt) (progs c)) (out c)).
Proof.
  intros Et Est Hl Hp E. pose proof Ha as [Hout [Hn Hn'] Hc Hlen Hm Hlive]. rewrite Est in Hout, Hn'. specialize (Hn' ltac:(done)).
  rewrite Et, <- turn_S in E. pose proof (turn_lt (S n)) as Ht3. pose proof (ko_sched _ _ _ _ _ Hk) as Hi.
  assert (Hc0 : forall j', (j' < 3)%nat -> counts (uk c) !! j' = Some (1, 0)) by (intros j' Hj'; rewrite (Hc j' Hj'), Est; done).
  pose proof (semV_effect _ _ _ _ _ _ Hi Hh (turn (S n)) 1 0 e s' (Hc0 _ Ht3) ltac:(lia) ltac:(lia) E) as Hs.
  destruct (w (turn (S n))) as [|r0 l] eqn:Hw.
  - destruct (kernel_after fs _ _ _ _ _ _ _ _ _ Hk Hs) as (q' & Hk' & Hb); [apply Hk..|].
    exists fs, q', w. split; [done|]. right. exists (S n), InSem. split; cbn [uk urun progs out]; try done.
    + intros j' Hj'. rewrite (tr_counts _ _ _ _ _ _ _ Hs). unfold sem_tokens. case_decide as Hd.
      * subst j'. apply list_lookup_insert_eq. by eapply lookup_lt_Some, Hc0.
      * rewrite list_lookup_insert_ne by done. by apply Hc0.
    + apply members_next; auto. left. split; [done|apply running_nowhere].
    + setoid_rewrite Hb. apply live_next; auto. apply running_busy.
  - assert (Hr0 : r0 ∈ w (turn (S n))) by (rewrite Hw; apply list_elem_of_here).
    pose proof (ko_wait _ _ _ _ _ Hk _ _ Hr0) as Hf0. assert (Hne : r0 <> p) by (intros ->; by apply (running_nowhere (turn (S n)))).
    assert (Hne' : turn (S n) <> turn n) by (rewrite turn_S; apply next_ne).
    pose proof (lk_wnodup _ _ _ (si_links _ _ _ _ Hi) (turn (S n))) as Hnd. rewrite Hw in Hnd. apply list.NoDup_cons in Hnd as [Hnd _].
    assert (Hl0 : l = []).
    { destruct l as [|r1 l]; [done|]. assert (Hr1 : r1 ∈ w (turn (S n))) by (rewrite Hw; apply list_elem_of_further, list_elem_of_here).
      apply (ko_wait _ _ _ _ _ Hk) in Hr1. assert (r1 = r0) by congruence. subst. by destruct Hnd; apply list_elem_of_here. }
    subst l. set (w' := upd_at w (turn (S n)) []) in *.
    assert (Hw' : forall r a, r ∈ w' a <-> r ∈ w a /\ a <> turn (S n)).
    { intros r a. unfold w'. destruct (decide (a = turn (S n))) as [->|Ha']; [rewrite upd_at_eq|rewrite upd_at_ne by done]; [|naive_solver].
      split; [intros Hr; by apply not_elem_of_nil in Hr|naive_solver]. }
    destruct (kernel_after fs _ _ _ _ _ _ _ _ _ Hk Hs) as (q' & Hk' & Hb).
    { intros r [Hr| ->]; [by apply Hk|by eapply list_elem_of_lookup_2]. } { intros a r [Hr _]%Hw'. by apply Hk. }
    pose proof (ac_member _ _ _ _ _ _ Ha _ _ Hf0) as Hm0. unfold member, forking, playing in Hm0.
    rewrite (decide_False (P := turn (S n) = turn n)) in Hm0 by done.
    case_decide as Hfk; [destruct Hm0 as (_ & Hno & _); by destruct (Hno (turn (S n)))|].
    destruct Hm0 as [[_ Hno]|(Hlt & Hpr & _)]; [by destruct (Hno (turn (S n)))|].
    exists fs, q', w'. split; [done|]. right. exists (S n), Holding.
    rewrite <- (rounds_other n (turn (S n)) Ht3 Hne') in Hlt, Hpr.
    split; cbn [uk urun progs out]; try done; [split; [lia|intros _; by apply rounds_open]|..].
    + intros j' Hj'. rewrite (tr_counts _ _ _ _ _ _ _ Hs). by apply Hc0.
    + apply members_next; auto.
      * intros r a. rewrite Hw'. destruct (decide (a = turn (S n))) as [->|Ha']; [|right; naive_solver].
        destruct (decide (r ∈ w (turn (S n)))) as [Hr|Hr]; [left; by apply Hk|right; naive_solver].
      * left. split; [done|]. intros a [Hr _]%Hw'. by apply (running_nowhere a).
      * right. intros r Hr _. assert (r = r0) by congruence. subst r. unfold member, playing. rewrite decide_False by done.
        rewrite decide_True by done. split; [done|]. intros a [Hra Ha']%Hw'. apply (ko_wait _ _ _ _ _ Hk) in Hra.
        apply Ha'. by eapply (list.NoDup_lookup fs); [apply Hk|..].
    + setoid_rewrite Hb. apply live_next; [done|left; apply running_busy|auto|]. intros j' r Hr Hrw.
      destruct (decide (j' = turn (S n))) as [->|Hne2]; [left; right; congruence|right; by apply Hw'].
Qed.

(** A process that is through waits for nothing. *)
Lemma through_nowhere j' r : fs !! j' = Some r -> rounds n j' = 10%nat -> nowhere w r.
Proof.
  intros Hr H10. pose proof (ac_member _ _ _ _ _ _ Ha j' r Hr) as Hm. unfold member, forking, playing, has_token, resting in Hm.
  rewrite H10 in Hm. case_decide; [naive_solver|]. case_decide; [destruct st; naive_solver lia|naive_solver lia].
Qed.

Lemma step_exit e s' :
  rounds n j = 10%nat -> serve_request h (RExit 0) (uk c) = Stop e s' ->
  app_inv (mkU s' (after h (urun c) e) (set_prog p (progs c p) (progs c)) (out c)).
Proof.
  intros H10 E. pose proof Ha as [Hout [Hn Hn'] Hc Hlen Hm Hlive].
  destruct (ko_slot _ _ _ _ _ Hk j p Hj) as (x & Hx & _ & Hpar).
  assert (Hpw : forall r, parent x = Some r -> r ∈ fs /\ nowhere w r).
  { intros r Hr. rewrite Hpar in Hr. destruct j as [|j'] eqn:Ej; [done|]. split; [by eapply list_elem_of_lookup_2|].
    apply (through_nowhere j'); [done|]. pose proof (rounds_mono n j'). pose proof (rounds_le n j' Hn).
    apply lookup_lt_Some in Hr. lia. }
  pose proof (exit_effect _ _ _ _ _ _ (ko_sched _ _ _ _ _ Hk) Hh x 0 e s' Hx (fun r i Hr => proj2 (Hpw r Hr) i) E) as Hs.
  destruct (kernel_after fs _ _ _ _ _ _ _ _ _ Hk Hs) as (q' & Hk' & Hb).
  { intros r [[Hr _]|Hr]; [by apply Hk|]. apply Hpw. unfold woken in Hr. destruct (parent x) as [y|]; [|by apply not_elem_of_nil in Hr].
    destruct (procs (uk c) !! y) as [z|]; [|by apply not_elem_of_nil in Hr].
    case_bool_decide; [|by apply not_elem_of_nil in Hr]. apply list_elem_of_singleton in Hr. by subst. }
  { apply Hk. }
  exists fs, q', w. split; [done|]. right. exists n, st. split; cbn [uk urun progs out]; try done.
  - intros j' Hj'. rewrite (tr_counts _ _ _ _ _ _ _ Hs). by apply Hc.
  - apply members_after; [done|auto|by apply Hm].
  - intros j' r Hr. rewrite Hb. destruct (decide (r = p)) as [->|Hne]; [right; right; by rewrite (same_index j' Hr)|].
    destruct (Hlive j' r Hr) as [?|[?|?]]; auto.
Qed.

Lemma forking_fresh j' : forking (length fs) (progs c p) w n st j p -> (j <= j')%nat -> rounds n j' = 0%nat /\ (j' = turn n -> st = InSem).
Proof.
  intros (_ & _ & H0 & Hst) Hle. split; [revert H0; turns|]. intros ->. destruct (decide (j = turn n)) as [?|Hne]; [auto|].
  exfalso. revert H0 Hle Hne. turns.
Qed.

Lemma step_fork k i x s1 e s' :
  S j = length fs -> (length fs < 3)%nat -> forking (length fs) (progs c p) w n st j p ->
  (if decide (length fs = 1%nat) then at_fork2 (k 0) /\ (forall v, v <> 0 -> at_P 10 0 0 (k v))
   else at_P 10 2 0 (k 0) /\ (forall v, v <> 0 -> at_P 10 1 0 (k v))) ->
  fresh_process (uk c) i x -> parent x = Some p ->
  insert_to_ready_queue i (set_procs (<[i := x]> (procs (uk c))) (uk c)) = Ret tt s1 -> resume_current h s1 = Stop e s' ->
  app_inv (mkU s' (after h (urun c) e) (set_prog i (k 0) (set_prog p (k (Z.of_nat i)) (progs c))) (out c)).
Proof.
  intros Hl Hl3 Hfk Hk0 Hf Hpar E E2. pose proof Ha as [Hout [Hn Hn'] Hc Hlen Hm Hlive].
  pose proof (fork_effect _ _ _ _ _ _ (ko_sched _ _ _ _ _ Hk) Hh i x s1 e s' Hf E E2) as Hs.
  assert (Hlast : list.last fs = Some p) by (rewrite last_lookup; by replace (Init.Nat.pred (length fs)) with j by lia).
  destruct (kernel_spawn fs _ _ _ _ _ _ _ _ _ p Hk Hf Hpar Hlast Hs) as (Hout' & q' & Hk' & Hb).
  exists (fs ++ [i]), q', w. split; [done|]. right. exists n, st.
  assert (Hi0 : Z.of_nat i <> 0).
  { intros E0. apply Hout'. replace i with 0%nat by lia. eapply list_elem_of_lookup_2, (ko_first _ _ _ _ _ Hk). }
  assert (Hiw : nowhere w i) by (intros a Hr; apply Hout'; by eapply list_elem_of_lookup_2, (ko_wait _ _ _ _ _ Hk)).
  assert (Hip : i <> p) by (intros ->; apply Hout'; by eapply list_elem_of_lookup_2).
  split; cbn [uk urun progs out]; rewrite ?length_app; cbn [length]; try done.
  - intros j' Hj'. rewrite (tr_counts _ _ _ _ _ _ _ Hs). by apply Hc.
  - lia.
  - intros j' r Hr. apply lookup_app_Some in Hr as [Hr|[Hle Hr]].
    + assert (Hri : r <> i) by (intros ->; apply Hout'; by eapply list_elem_of_lookup_2).
      unfold set_prog. rewrite decide_False by done. pose proof (lookup_lt_Some _ _ _ Hr) as Hjl.
      unfold member. rewrite decide_False by lia. destruct (decide (r = p)) as [Hrp|Hrp].
      * subst r. rewrite (same_index j' Hr). destruct Hfk as (_ & Hno & H0 & Hst).
        assert (Hrest : resting (k (Z.of_nat i)) w (rounds n j) j p).
        { left. split; [|done]. rewrite H0. change (10 - 0)%nat with 10%nat. case_decide; destruct Hk0 as [_ Hk0].
          - replace j with 0%nat by lia. by apply Hk0.
          - replace j with 1%nat by lia. by apply Hk0. }
        unfold playing. destruct (decide (j = turn n)) as [Ht|Ht]; [|done]. by rewrite (Hst Ht).
      * pose proof (Hm j' r Hr) as Hmr. unfold member in Hmr. rewrite decide_False in Hmr; [done|].
        intros [Hj' _]. assert (j' = j) by lia. subst. congruence.
    + apply list_lookup_singleton_Some in Hr as [Hj' <-]. unfold set_prog. rewrite decide_True by done.
      destruct (forking_fresh j' Hfk ltac:(lia)) as [H0 Hst]. unfold member. destruct (decide (S j' = (length fs + 1)%nat /\ (length fs + 1 < 3)%nat)) as [Hd|Hd].
      * assert (Hl1 : length fs = 1%nat) by lia. rewrite Hl1 in *. rewrite decide_True in Hk0 by done.
        unfold forking. rewrite decide_False by done. naive_solver.
      * assert (Hl2 : length fs = 2%nat) by lia. rewrite Hl2 in *. rewrite decide_False in Hk0 by done. destruct Hk0 as [Hk0 _].
        assert (j' = 2%nat) by lia. subst j'.
        assert (Hrest : resting (k 0) w (rounds n 2) 2 i) by (left; rewrite H0; done).
        unfold playing. destruct (decide (2%nat = turn n)) as [Ht|Ht]; [by rewrite (Hst Ht)|done].
  - intros j' r Hr. rewrite Hb. apply lookup_app_Some in Hr as [Hr|[_ Hr]].
    + destruct (Hlive j' r Hr) as [?|[?|?]]; auto.
    + apply list_lookup_singleton_Some in Hr as [_ <-]. auto.
Qed.

Lemma active_own c' : own_step h p c c' -> app_inv c'.
Proof.
  intros Hs. pose proof (ac_member _ _ _ _ _ _ Ha j p Hj) as Hm. unfold own_step in Hs.
  unfold member in Hm. case_decide as Hd.
  - destruct Hd as [Hl Hl3]. pose proof Hm as (Hf & _).
    assert (exists k, observe (progs c p) = VisF Fork k /\
      if decide (length fs = 1%nat) then at_fork2 (k 0) /\ (forall v, v <> 0 -> at_P 10 0 0 (k v))
      else at_P 10 2 0 (k 0) /\ (forall v, v <> 0 -> at_P 10 1 0 (k v))) as (k & Ho & Hk0).
    { case_decide; destruct Hf as (k & Ho & Hk0); by exists k. }
    rewrite Ho in Hs. destruct Hs as (i & x & s1 & e & s' & Hfp & Hpar & E & E2 & ->). by eapply step_fork.
  - assert (Hrest : resting (progs c p) w (rounds n j) j p -> (j = turn n -> st = InSem) -> app_inv c').
    { intros [[Ht _]|(_ & _ & Hw)] Hst; [|by apply running_nowhere in Hw].
      pose proof (rounds_le n j (proj1 (ac_n _ _ _ _ _ _ Ha)) index_lt) as Hle.
      destruct (decide (rounds n j = 10)%nat) as [H10|H10].
      - rewrite H10 in Ht. destruct Ht as (k & Ho). rewrite Ho in Hs. destruct Hs as (e & s' & E & ->). by apply step_exit.
      - replace (10 - rounds n j)%nat with (S (10 - S (rounds n j))) in Ht by lia. destruct Ht as (k & Ho & Hp).
        rewrite Ho in Hs. destruct Hs as (e & s' & E & ->). apply step_P; auto. lia. }
    unfold playing in Hm. case_decide as Et; [|by apply Hrest].
    assert (st = InSem \/ st = Holding \/ st = Printed) as [Est|[Est|Est]] by (clear; destruct st; auto); rewrite Est in Hm; cbn [has_token] in Hm;
      [by apply Hrest|..].
    + destruct Hm as [(k & Ho & HV) _]. rewrite Ho in Hs. cbn in Hs. subst c'. by apply step_print.
    + destruct Hm as [(k & Ho & HV) _]. rewrite Ho in Hs. destruct Hs as (e & s' & E & ->). by apply step_V.
Qed.
End Steps.

(** *** The machine *)

Section App.
Context `{Linker}.

(** A trap that the programs do not see. *)
Lemma app_quiet fs c q w s' run' :
  kernel_ok fs (uk c) (urun c) q w -> trapped (uk c) s' (urun c) run' w (busy q (urun c)) (counts (uk c)) ->
  ((fs = [0%nat] /\ exists d, making d c q w) \/ exists n st, active fs n st c q w) ->
  app_inv (mkU s' run' (progs c) (out c)).
Proof.
  intros Hk Hs Hc. destruct (kernel_after fs _ _ _ _ _ _ _ _ _ Hk Hs) as (q' & Hk' & Hb); [apply Hk..|].
  pose proof (tr_counts _ _ _ _ _ _ _ Hs) as Hn.
  exists fs, q', w. split; [done|]. destruct Hc as [[Hf (d & [])]|(n & st & [])]; [left|right].
  - split; [done|]. exists d. split; cbn [uk urun progs out]; try done; [by rewrite Hn|by apply Hb].
  - exists n, st. split; cbn [uk urun progs out]; try done; [by rewrite Hn|]. intros j p Hp. rewrite Hb. eauto.
Qed.

Lemma first_unused_counts l : forall k pre v post,
  (fun m => (ifuse m, value m)) <$> l = pre ++ (0, v) :: post -> Forall (fun x => x.1 <> 0) pre ->
  first_unused l k = Some (k + length pre)%nat.
Proof.
  induction l as [|m l IH]; intros k pre v post E Hp; [by destruct pre|]. cbn [first_unused]. destruct pre as [|x pre].
  - injection E as E0 _ _. rewrite E0. cbn. f_equal. lia.
  - injection E as Ex E. apply list.Forall_cons in Hp as [Hx Hp]. subst x. cbn in Hx. rewrite (proj2 (Z.eqb_neq _ _) Hx).
    rewrite (IH (S k) pre v post E Hp). cbn [length]. f_equal. lia.
Qed.

Lemma making_own d c q w h c' :
  kernel_ok [0%nat] (uk c) (urun c) q w -> making d c q w -> urun c !! h = Some (Some 0%nat) -> own_step h 0 c c' -> app_inv c'.
Proof.
  intros Hk [Hout Hd Hp Hc Hw Hl] Hh Hs. unfold own_step in Hs.
  assert (Hf : first_unused (sem_table (uk c)) 0 = Some d).
  { pose proof (first_unused_counts (sem_table (uk c)) 0 (take d [(1, 1); (1, 0); (1, 0)]) 0 (replicate (NSEM - d - 1) (0, 0))) as Hf.
    rewrite length_take_le in Hf by (cbn; lia). apply Hf; [|apply Forall_take; by repeat constructor].
    unfold counts in Hc. rewrite Hc. f_equal. by destruct d as [|[|[|]]]; [..|lia]. }
  replace (3 - d)%nat with (S (2 - d)) in Hp by lia. destruct Hp as (k & Ho & Hp). rewrite Ho in Hs.
  destruct Hs as (sid & s1 & E & e & s' & E2 & ->).
  destruct (semNew_effect _ _ _ _ _ _ (ko_sched _ _ _ _ _ Hk) Hh _ d sid s1 e s' Hf E E2) as [-> Ht].
  destruct (kernel_after [0%nat] _ _ _ _ _ _ _ _ _ Hk Ht) as (q' & Hk' & Hb); [apply Hk..|].
  pose proof (tr_counts _ _ _ _ _ _ _ Ht) as Hn. rewrite Hc in Hn.
  exists [0%nat], q', w. split; [done|]. destruct (decide (d = 2%nat)) as [->|Hd2].
  - right. exists 0%nat, InSem. split; cbn [uk urun progs out]; try done.
    + split; [lia|done].
    + intros j Hj. rewrite Hn. by destruct j as [|[|[|]]]; [..|lia].
    + cbn. lia.
    + intros [|j] p Hj; [|done]. injection Hj as <-. split; [exact Hp|]. split; [done|]. by split.
    + intros [|j] p Hj; [|done]. injection Hj as <-. left. by apply Hb.
  - left. split; [done|]. exists (S d). split; cbn [uk urun progs out]; try done; [lia| | |by apply Hb].
    + replace (3 - S d)%nat with (2 - d)%nat by lia. by destruct d as [|[|[|]]]; [..|lia].
    + rewrite Hn. by destruct d as [|[|[|]]]; [..|lia].
Qed.

Lemma app_step c c' : app_inv c -> ustep c c' -> app_inv c'.
Proof.
  intros (fs & q & w & Hk & Hc) Hs. pose proof (ko_sched _ _ _ _ _ Hk) as Hi. destruct Hs as [h p c c' Hh Hs|h p c st s' Hh E|h c st s' Hh E].
  - assert (Hp : p ∈ fs) by (apply Hk; right; by exists h). destruct Hc as [[-> (d & Hm)]|(n & st & Ha)].
    + apply list_elem_of_singleton in Hp. subst p. by eapply making_own.
    + apply list_elem_of_lookup in Hp as [j Hj]. by eapply active_own.
  - eapply app_quiet; [exact Hk|by eapply tick_effect|exact Hc].
  - destruct (idle_busy _ _ _ _ _ _ _ Hi Hh E) as (q' & Hi' & Hb & Hm & Hkp).
    eapply app_quiet; [exact Hk| |exact Hc]. split; [by exists q'|unfold counts; by rewrite Hm|done].
Qed.

Lemma booted_inv c : booted app_semaphore c -> app_inv c.
Proof.
  intros [(s0 & s1 & x & Hkb & Hip & Hf & Hpar & E) Hrun Hmain Hout].
  destruct (init_proc_pool_inv s0 Hkb) as (s2 & E2 & Hi & _). rewrite E2 in Hip. injection Hip as ->.
  destruct (spawn_run s1 _ _ _ 0 x Hi Hf) as (s3 & E3 & Hi3 & Hm3 & _). rewrite E3 in E. injection E as ->.
  pose proof (holds_insert 0 (set_procs (<[0%nat := x]> (procs s1)) s1)) as Hkp. rewrite E3 in Hkp. destruct Hkp as [Hpr Hfr].
  cbn [procs set_procs app] in *. rewrite <- Hrun in Hi3.
  assert (Hnr : forall r, ~ runs (urun c) r) by (intros r [h Hh]; rewrite Hrun in Hh; by apply lookup_replicate in Hh as [? _]).
  exists [0%nat], [0%nat], (fun _ => []). split; [split; try done|left; split; [done|exists 0%nat; split; try done]].
  - intros r [Hr|Hr]; [done|by destruct (Hnr r)].
  - intros a r Hr. by apply not_elem_of_nil in Hr.
  - intros [|j] p Hj; [|done]. injection Hj as <-. destruct Hf as [(y & Hy & _) Hrdy _ _].
    assert (Hx : <[0%nat := x]> (procs s1) !! 0%nat = Some x) by (apply list_lookup_insert_eq; by eapply lookup_lt_Some).
    destruct (Hfr 0%nat x Hx ltac:(by rewrite Hrdy)) as (x' & Hx' & Hs'). exists x'. split; [done|]. split; [done|].
    apply (f_equal (fun l => l !! 0%nat)) in Hpr. rewrite !list_lookup_fmap, Hx, Hx' in Hpr. injection Hpr as ->. done.
  - apply list.NoDup_singleton.
  - lia.
  - rewrite Hmain. apply app_semaphore_at.
  - unfold counts. rewrite Hm3. unfold init_proc_pool in E2. by injection E2 as <-.
  - intros a Hr. by apply not_elem_of_nil in Hr.
  - left. by apply list_elem_of_singleton.
Qed.

Lemma reachable_app c0 c : booted app_semaphore c0 -> rtc ustep c0 c -> app_inv c.
Proof.
  intros Hb%booted_inv Hr. induction Hr as [c|c1 c2 c3 Hs _ IH]; [done|]. apply IH. by eapply app_step.
Qed.

(** Nobody is ready or runs. *)
Lemma idle_not_busy s run q w r :
  sched_inv s run q w -> (forall p x, procs s !! p = Some x -> status x <> READY /\ status x <> RUNNING) -> ~ busy q run r.
Proof.
  intros Hi Hidle Hb. assert (exists x, procs s !! r = Some x) as [x Hx].
  { destruct Hb as [Hq|Hr]; [by eapply chain_elem; [apply (lk_rq _ _ _ (si_links _ _ _ _ Hi))|]|].
    destruct (si_exists _ _ _ _ Hi r Hr) as [c Hc]. unfold cores in Hc. rewrite list_lookup_fmap in Hc.
    destruct (procs s !! r); [eauto|done]. }
  destruct (Hidle r x Hx) as [H1 H2]. pose proof (cores_lookup _ _ _ Hx) as Hc.
  destruct Hb as [Hq|Hr]; [apply H1; by apply (si_ready _ _ _ _ Hi r _ Hc)|apply H2; by apply (si_run _ _ _ _ Hi r _ Hc)].
Qed.

(** At a rest all turns are over. *)
Lemma rest_is_end fs n st c q w :
  kernel_ok fs (uk c) (urun c) q w -> active fs n st c q w -> (forall r, ~ busy q (urun c) r) -> n = 30%nat /\ st = InSem.
Proof.
  intros Hk [Hout [Hn Hn'] Hc Hlen Hm Hlive] Hidle.
  assert (Hn30 : ~ (n < 30)%nat); [intros Hlt|split; [lia|destruct st; [done|exfalso; apply Hn30, Hn'; done..]]].
  pose proof (turn_lt n) as Ht. destruct (decide (turn n < length fs)%nat) as [Hl|Hl].
  - apply lookup_lt_is_Some in Hl as [p Hp]. pose proof (Hm _ _ Hp) as Hmp. pose proof (rounds_lt n Hlt).
    destruct (Hlive _ _ Hp) as [Hb|[Hw|H10]]; [by apply (Hidle p)| |lia].
    unfold member, forking, playing in Hmp. rewrite (decide_True (P := turn n = turn n)) in Hmp by done.
    case_decide; [destruct Hmp as (_ & Hno & _); by apply (Hno (turn n))|]. destruct st; cbn [has_token] in Hmp.
    + pose proof (Hc (turn n) Ht) as Hct. unfold counts, sem_tokens in Hct. rewrite decide_True, list_lookup_fmap in Hct by done.
      destruct (sem_table (uk c) !! turn n) as [m|] eqn:Em; [|done]. injection Hct as Hu Hv.
      rewrite (si_sem _ _ _ _ (ko_sched _ _ _ _ _ Hk) _ m Em) in Hw by lia. by apply not_elem_of_nil in Hw.
    + destruct Hmp as [_ Hno]. by apply (Hno (turn n)).
    + destruct Hmp as [_ Hno]. by apply (Hno (turn n)).
  - assert (Hpos : (0 < length fs)%nat) by (by eapply lookup_lt_Some, (ko_first _ _ _ _ _ Hk)).
    destruct (lookup_lt_is_Some_2 fs (length fs - 1)) as [p Hp]; [lia|]. pose proof (Hm _ _ Hp) as Hmp.
    unfold member in Hmp. rewrite decide_True in Hmp by lia. destruct Hmp as (_ & Hno & H0 & _).
    destruct (Hlive _ _ Hp) as [Hb|[Hw|H10]]; [by apply (Hidle p)|by apply (Hno (length fs - 1)%nat)|lia].
Qed.

(** C11: app_semaphore on the kernel: when every trap is served to its end before
    another one enters the kernel, then whatever the order of the two harts and of
    the timer, the lines come in turn (parent, child, grandchild, ten rounds), and
    the kernel does not come to a rest before all thirty are printed. *)
Theorem app_semaphore_in_turn c0 c :
  booted app_semaphore c0 -> rtc ustep c0 c ->
  (exists n, out c = take n all_lines) /\
  ((forall p x, procs (uk c) !! p = Some x -> status x <> READY /\ status x <> RUNNING) -> out c = all_lines).
Proof.
  intros Hb Hr. destruct (reachable_app c0 c Hb Hr) as (fs & q & w & Hk & Hc). split.
  - destruct Hc as [(_ & d & Hm)|(n & st & Ha)]; [exists 0%nat; apply Hm|]. eexists. apply Ha.
  - intros Hidle. pose proof (fun r => idle_not_busy _ _ _ _ r (ko_sched _ _ _ _ _ Hk) Hidle) as Hn.
    destruct Hc as [(_ & d & Hm)|(n & st & Ha)]; [exfalso; apply (Hn 0%nat), (ma_live _ _ _ _ Hm)|].
    destruct (rest_is_end _ _ _ _ _ _ Hk Ha Hn) as [-> ->]. rewrite (ac_out _ _ _ _ _ _ Ha). reflexivity.
Qed.
End App.

(** ** A run: the harts take turns *)

Module SemDemo.
#[local] Existing Instance Demo.linker0.

Definition free_slot (s : kstate) (i : nat) : bool :=
  Nat.ltb i 4 && match procs s !! i with Some y => bool_decide (status y = FREE) | None => false end.

(** The step of process [p] on hart [h]; a child gets slot [i]. *)
Definition exec_event {X} (h p i : nat) (e : userE X) (k : X -> program) (c : ucfg) : option ucfg :=
  let trap r t := match serve_request h r (uk c) with
                  | Stop st s' => Some (mkU s' (after h (urun c) st) (set_prog p t (progs c)) (out c))
                  | _ => None
                  end in
  match e in userE X return (X -> program) -> option ucfg with
  | Print l => fun k => Some (mkU (uk c) (urun c) (set_prog p (k tt) (progs c)) (out c ++ [l]))
  | SemP sid => fun k => trap (RSemP sid) (k tt)
  | SemV sid => fun k => trap (RSemV sid) (k tt)
  | Exit n => fun _ => trap (RExit n) (progs c p)
  | SemNew v => fun k =>
      match sys_user_semNew v (uk c) with
      | Ret sid _ => trap (RSemNew v) (k (i32 sid))
      | _ => None
      end
  | Fork => fun k =>
      if free_slot (uk c) i && Nat.ltb p NPROC then
        match insert_to_ready_queue i (set_procs (<[i := Demo.proc_at i (Some p)]> (procs (uk c))) (uk c)) with
        | Ret tt s1 => match resume_current h s1 with
                       | Stop st s' => Some (mkU s' (after h (urun c) st)
                           (set_prog i (k 0) (set_prog p (k (Z.of_nat i)) (progs c))) (out c))
                       | _ => None
                       end
        | _ => None
        end
      else None
  | _ => fun _ => None
  end k.

Definition exec_step (h i : nat) (c : ucfg) : option ucfg :=
  match urun c !! h with
  | Some (Some p) =>
      match observe (progs c p) with
      | VisF e k => exec_event h p i e k c
      | _ => None
      end
  | Some None =>
      match schedule h (uk c) with
      | Stop st s' => Some (mkU s' (after h (urun c) st) (progs c) (out c))
      | _ => None
      end
  | None => None
  end.

Lemma proc_at_fresh s i p : free_slot s i = true -> (p < NPROC)%nat -> fresh_process s i (Demo.proc_at i (Some p)).
Proof.
  unfold free_slot. intros [Hi Hs]%andb_prop Hp. apply Nat.ltb_lt in Hi. destruct (procs s !! i) as [y|] eqn:E; [|done].
  apply bool_decide_eq_true in Hs. split; [eauto|done| |].
  - cbn. repeat split; klia.
  - intros r [= <-]. done.
Qed.

Lemma exec_ustep h i c c' : exec_step h i c = Some c' -> ustep c c'.
Proof.
  unfold exec_step. intros E. destruct (urun c !! h) as [[p|]|] eqn:Hh; [| |done].
  - apply (us_own h p); [done|]. unfold own_step. destruct (observe (progs c p)) as [r|t|X e k]; [done..|].
    destruct e; try discriminate E; cbn [exec_event event_step] in *.
    + by injection E as <-.
    + destruct (serve_request _ _ _) as [|st s']; [done|]. injection E as <-. by exists st, s'.
    + destruct (free_slot (uk c) i) eqn:Ef; [|done]. destruct (Nat.ltb p NPROC) eqn:Ep; [|done]. cbn [andb] in E. apply Nat.ltb_lt in Ep.
      destruct (insert_to_ready_queue i _) as [[] s1|] eqn:E1; [|done]. destruct (resume_current h s1) as [|st s'] eqn:E2; [done|].
      injection E as <-. exists i, (Demo.proc_at i (Some p)), s1, st, s'. split; [by apply proc_at_fresh|done].
    + destruct (sys_user_semNew _ _) as [sid s1|] eqn:E1; [|done]. destruct (serve_request _ _ _) as [|st s'] eqn:E2; [done|].
      injection E as <-. exists sid, s1. split; [done|]. by exists st, s'.
    + destruct (serve_request _ _ _) as [|st s']; [done|]. injection E as <-. by exists st, s'.
    + destruct (serve_request _ _ _) as [|st s']; [done|]. injection E as <-. by exists st, s'.
  - destruct (schedule h (uk c)) as [|st s'] eqn:E1; [done|]. injection E as <-. by apply (us_idle h c st s').
Qed.

(** The harts alternate; the child gets slot 1, the grandchild slot 2. *)
Fixpoint drive (n h : nat) (c : ucfg) : ucfg :=
  match n with
  | O => c
  | S n' => drive n' (1 - h) (default c (exec_step h (if free_slot (uk c) 1 then 1 else 2) c))
  end.
Lemma drive_reach n : forall h c, rtc ustep c (drive n h c).
Proof.
  induction n as [|n IH]; intros h c; cbn [drive]; [apply rtc_refl|]. destruct (exec_step h _ c) as [c'|] eqn:E; [|apply IH].
  eapply rtc_l; [by eapply exec_ustep|apply IH].
Qed.

Definition c0 : ucfg := mkU Demo.d2 [None; None] (fun _ => app_semaphore) [].
Lemma c0_booted : booted app_semaphore c0.
Proof.
  split; [|done..]. exists Demo.k0, Demo.d1, (Demo.proc_at 0 None). split; [exact Demo.k0_boot|]. split; [reflexivity|].
  split; [|split; [reflexivity|]].
  - split; [eexists; split; reflexivity|reflexivity| |done]. cbn. repeat split; klia.
  - vm_compute. reflexivity.
Qed.
End SemDemo.

Lemma done_idle s : forallb is_done (procs s) = true -> forall p x, procs s !! p = Some x -> status x <> READY /\ status x <> RUNNING.
Proof.
  intros Hd p x Hx. rewrite forallb_forall in Hd. specialize (Hd x (proj1 (list_elem_of_In _ _) (list_elem_of_lookup_2 _ _ _ Hx))).
  unfold is_done in Hd. by destruct (status x).
Qed.

(** All three processes have ended and the thirty lines are there. *)
Lemma app_semaphore_in_turn_witness : out (SemDemo.drive 200 0 SemDemo.c0) = all_lines.
Proof.
  apply (@app_semaphore_in_turn Demo.linker0 SemDemo.c0 _ SemDemo.c0_booted (SemDemo.drive_reach 200 0 SemDemo.c0)).
  apply done_idle. vm_compute. reflexivity.
Defined.
