(* ===== verification/Shell.v ===== *)
(** * The command loop of the shell

    The chain of character tests of user/start.c against a table of commands. *)
From ITree Require Import ITree ITreeFacts.
From S2P Require Import Prelude CString UserProg.
#[local] Open Scope user_scope.

Inductive action : Type :=
| Quit | Skip | ShowCwd | ChangeDir | Unknown
| Run (path : string) | RunBoth (path0 path1 : string) | RunWith (path : string).

Definition commands : list (string * action) :=
  [("q", Quit); ("", Skip);
   ("test0", Run "/bin/app_shell"); ("test1", RunBoth "/bin/app_alloc0" "/bin/app_alloc1");
   ("test2", Run "/bin/app_errorline"); ("test3", Run "/bin/app_sum_sequence"); ("test4", RunBoth "/bin/app0" "/bin/app1");
   ("pwd", ShowCwd); ("cd", ChangeDir);
   ("cat", RunWith "/bin/app_cat"); ("echo", RunWith "/bin/app_echo"); ("ls", RunWith "/bin/app_ls");
   ("mkdir", RunWith "/bin/app_mkdir"); ("touch", RunWith "/bin/app_touch")]%string.

Fixpoint action_in (t : list (string * action)) (cmd : list Z) : action :=
  match t with
  | [] => Unknown
  | (name, a) :: t' => if decide (cmd = txt name) then a else action_in t' cmd
  end.

Definition perform (cmd : list Z) (a : action) : itree userE (unit + unit) :=
  match a with
  | Quit => puts (txt "Exit." ++ nl) ;! go (RetF (inr tt))
  | Skip => go (RetF (inl tt))
  | ShowCwd => pwd ;! go (RetF (inl tt))
  | ChangeDir => (let! arg := ask_arg in ITree.trigger (ChangeCwd arg) ;! go (RetF tt)) ;! go (RetF (inl tt))
  | Unknown => printu (txt "Error command: %s" ++ nl) [Str cmd] ;! go (RetF (inl tt))
  | Run path => execu (txt path) [] ;! go (RetF (inl tt))
  | RunBoth path0 path1 => exec_both (txt path0) (txt path1) ;! go (RetF (inl tt))
  | RunWith path => with_arg (txt path) ;! go (RetF (inl tt))
  end.

Definition shell_spec : program :=
  puts (nl ++ txt "============================START============================" ++ nl ++ nl) ;!
  ITree.iter (fun _ =>
    puts (txt "$ ") ;!
    (let! cmd := scanfu 24 in perform cmd (action_in commands cmd))) tt ;!
  exit_ 0.

(** ** Words *)

Definition word (w : list Z) : Prop := Forall (fun c => c <> 0) w.

Lemma word_of_word l : word (word_of l).
Proof.
  induction l as [|c l IH]; [constructor|]. cbn [word_of]. destruct (blank c) eqn:E; [constructor|]. constructor; [|done].
  intros ->. discriminate.
Qed.

(** [cmd[0] == l[0] && ... && cmd[n] == 0] *)
Fixpoint spelled (l w : list Z) : bool :=
  match l with [] => chr w 0 =? 0 | c :: l' => (chr w 0 =? c) && spelled l' (tail w) end.

Lemma spelled_iff l : forall w, word l -> word w -> spelled l w = true <-> w = l.
Proof.
  induction l as [|c l IH]; intros w Hl Hw; cbn [spelled].
  - rewrite Z.eqb_eq. destruct w as [|d w]; [done|]. apply list.Forall_cons in Hw as [Hd _]. by cbn.
  - apply list.Forall_cons in Hl as [Hc Hl]. rewrite andb_true_iff, Z.eqb_eq. destruct w as [|d w]; cbn.
    + split; [by intros [<- _]|done].
    + apply list.Forall_cons in Hw as [_ Hw]. rewrite (IH w Hl Hw). split; [by intros [-> ->]|by intros [= -> ->]].
Qed.

Lemma chr_tail w i : chr w (S i) = chr (tail w) i.
Proof. destruct w as [|c w]; [by destruct i|done]. Qed.
Lemma chr_drop4 w i : chr (drop 4 w) i = chr w (4 + i).
Proof. unfold chr. destruct w as [|a [|b [|c [|d w]]]]; cbn [drop nth Nat.add]; [by destruct i..|done]. Qed.

Lemma not_spelled l w : word l -> word w -> w <> l -> spelled l w = false.
Proof. intros Hl Hw Hne. destruct (spelled l w) eqn:E; [|done]. by apply spelled_iff in E. Qed.

(** The test for a command name fails; [E] is the test as the loop has it. *)
Ltac other name E :=
  let lit := eval vm_compute in (txt name) in
  assert (E : spelled lit _ = false) by (apply not_spelled; [by repeat constructor|eassumption|assumption]);
  cbn [spelled] in E; rewrite ?andb_assoc, <- ?chr_tail in E.
Ltac skip name := let E := fresh in other name E; rewrite E; clear E.

Lemma run_test_unknown cmd :
  word cmd -> (chr cmd 0 =? 116) && (chr cmd 1 =? 101) && (chr cmd 2 =? 115) && (chr cmd 3 =? 116) = true ->
  cmd <> txt "test0" -> cmd <> txt "test1" -> cmd <> txt "test2" -> cmd <> txt "test3" -> cmd <> txt "test4" ->
  run_test cmd (drop 4 cmd) = printu (txt "Error command: %s" ++ nl) [Str cmd].
Proof.
  intros Hw Hp N0 N1 N2 N3 N4. unfold run_test. rewrite !chr_drop4.
  other "test0"%string E0. other "test1"%string E1. other "test2"%string E2. other "test3"%string E3. other "test4"%string E4.
  rewrite Hp in E0, E1, E2, E3, E4. cbn [andb Nat.add] in *. by rewrite E0, E1, E2, E3, E4.
Qed.

Lemma dispatch_correct cmd : word cmd -> dispatch cmd = perform cmd (action_in commands cmd).
Proof.
  intros Hw. unfold commands. cbn [action_in].
  repeat match goal with |- context [decide (cmd = txt ?s)] => destruct (decide (cmd = txt s)) as [->|?]; [reflexivity|] end.
  unfold dispatch. skip "q"%string. skip ""%string. skip "pwd"%string. skip "cd"%string. skip "cat"%string. skip "echo"%string.
  skip "ls"%string. skip "mkdir"%string. skip "touch"%string.
  destruct (_ && _) eqn:Hp; [by rewrite run_test_unknown|done].
Qed.

(** C29: the shell does what its table of commands says: for every input, and whatever
    the kernel answers, the chain of character tests of start.c selects the command
    whose name the word is, and reports any other word. *)
Theorem start_correct : eutt eq start shell_spec.
Proof.
  unfold start, shell_spec. apply eutt_clo_bind with (UU := eq); [reflexivity|intros _ _ _].
  apply eutt_clo_bind with (UU := eq); [|intros _ _ _; reflexivity].
  apply eutt_iter' with (RI := eq); [|done]. intros _ _ _. unfold start_loop.
  apply eutt_clo_bind with (UU := eq); [reflexivity|intros _ _ _].
  apply eutt_clo_bind with (UU := fun a b => a = b /\ word a).
  - unfold scanfu. apply eutt_clo_bind with (UU := eq); [reflexivity|]. intros l _ <-.
    destruct (Nat.ltb _ _); [apply eutt_Ret; split; [done|apply word_of_word]|].
    unfold never. apply eutt_clo_bind with (UU := eq); [reflexivity|]. intros [].
  - intros a _ [<- Ha]. rewrite (dispatch_correct a Ha).
    apply eqit_mon with (RR := eq) (b1 := true) (b2 := true); [done|done| |reflexivity]. intros x _ <-. destruct x; by constructor.
Qed.
