(* ===== verification/Asm.v ===== *)
(** * Registers across traps (strap_vector.S, mtrap_vector.S, mentry.S, load_store.S)

    The assembly that saves the registers of the code that a trap interrupts, and
    that brings them back.  A piece of code is the list of its instructions, run on
    the registers of one hart and on the words of physical memory; in S-mode a data
    access goes through the page table in [satp]. *)
From S2P Require Import Prelude Pmm Vmm Process Sched.

Inductive reg : Type :=
| zero | ra | sp | gp | tp | t0 | t1 | t2 | s0 | s1 | a0 | a1 | a2 | a3 | a4 | a5 | a6 | a7
| s2 | s3 | s4 | s5 | s6 | s7 | s8 | s9 | s10 | s11 | t3 | t4 | t5 | t6.
#[global] Instance reg_eq_dec : EqDecision reg.
Proof. solve_decision. Defined.

Inductive ctrl : Type :=
| Sscratch | Satp | Sepc | Scause | Stval | Sstatus | Mscratch | Mepc | Mstatus | Mhartid.
#[global] Instance ctrl_eq_dec : EqDecision ctrl.
Proof. solve_decision. Defined.

(** Loads and stores name the register, the offset and the base. *)
Inductive instr : Type :=
| Sd (s : reg) (off : Z) (b : reg)
| Ld (d : reg) (off : Z) (b : reg)
| Lw (d : reg) (off : Z) (b : reg)
| Addi (d s : reg) (imm : Z)
| Add (d x y : reg)
| Mul (d x y : reg)
| And (d x y : reg)
| Or (d x y : reg)
| Not (d s : reg)
| Li (d : reg) (imm : Z)
| La (d : reg) (symbol : Z)
| Csrr (d : reg) (c : ctrl)
| Csrw (c : ctrl) (s : reg)
| Csrrw (d : reg) (c : ctrl) (s : reg)
| Sfence
| Beqz (s : reg) (skip : nat)
| Jr (s : reg)
| Call (symbol : Z)
| Sret
| Mret.

Record core : Type := mkCore { regs : reg -> Z; ctl : ctrl -> Z; words : gmap Z Z }.

Inductive mode : Type := Supervisor | Machine.
(** How a piece of code ends. *)
Inductive leaving : Type := Jumps (a : Z) | Calls (a : Z) | Srets | Mrets.
Inductive result : Type :=
| Next (c : core)
| Skips (n : nat) (c : core)
| Leaves (how : leaving) (c : core)
| Faults (va : Z).

Definition set {K} `{EqDecision K} (k : K) (v : Z) (f : K -> Z) : K -> Z := fun x => if decide (x = k) then v else f x.

(** The physical address of a data access: Sv39 with a leaf entry that S-mode may
    read (write), or none. *)
Definition translate (md : mode) (satp : Z) (m : gmap Z Z) (write : bool) (va : Z) : option Z :=
  match md with
  | Machine => Some va
  | Supervisor =>
      if satp =? 0 then Some va
      else if negb (Z.shiftr satp 60 =? 8) || (va <? 0) || (MAXVA <=? va) then None
      else
        w ← xlate m (Z.shiftl (Z.land satp (Z.ones 44)) 12) va;
        if (if write then has w PTE_W && has w PTE_D else has w PTE_R && has w PTE_A) && negb (has w PTE_U)
        then Some (PTE2PA w + va mod PGSIZE) else None
  end.

Section Step.
Variable md : mode.

Definition read (c : core) (r : reg) : Z := match r with zero => 0 | _ => regs c r end.
Definition write (r : reg) (v : Z) (c : core) : core := mkCore (set r v (regs c)) (ctl c) (words c).
Definition write_ctl (k : ctrl) (v : Z) (c : core) : core := mkCore (regs c) (set k v (ctl c)) (words c).

Definition access (c : core) (w : bool) (va : Z) (k : Z -> result) : result :=
  match translate md (ctl c Satp) (words c) w va with
  | Some a => if addr_ok a then k a else Faults va
  | None => Faults va
  end.

Definition step (i : instr) (c : core) : result :=
  match i with
  | Sd s o b => access c true (u64 (read c b + o)) (fun a => Next (mkCore (regs c) (ctl c) (<[a := read c s]> (words c))))
  | Ld d o b => access c false (u64 (read c b + o)) (fun a => Next (write d (rd (words c) a) c))
  | Lw d o b =>
      let va := u64 (read c b + o) in
      access c false (va - va mod 8) (fun a =>
        let w := rd (words c) a in
        Next (write d (u64 (i32 (if va mod 8 =? 0 then w mod 4294967296 else w / 4294967296))) c))
  | Addi d s n => Next (write d (u64 (read c s + n)) c)
  | Add d x y => Next (write d (u64 (read c x + read c y)) c)
  | Mul d x y => Next (write d (u64 (read c x * read c y)) c)
  | And d x y => Next (write d (Z.land (read c x) (read c y)) c)
  | Or d x y => Next (write d (Z.lor (read c x) (read c y)) c)
  | Not d s => Next (write d (u64 (Z.lnot (read c s))) c)
  | Li d n => Next (write d (u64 n) c)
  | La d a => Next (write d a c)
  | Csrr d k => Next (write d (ctl c k) c)
  | Csrw k s => Next (write_ctl k (read c s) c)
  | Csrrw d k s => Next (write d (ctl c k) (write_ctl k (read c s) c))
  | Sfence => Next c
  | Beqz s n => if read c s =? 0 then Skips n c else Next c
  | Jr s => Leaves (Jumps (read c s)) c
  | Call f => Leaves (Calls f) c
  | Sret => Leaves Srets c
  | Mret => Leaves Mrets c
  end.

Fixpoint run (fuel : nat) (code : list instr) (c : core) : result :=
  match fuel, code with
  | S f, i :: code' =>
      match step i c with
      | Next c' => run f code' c'
      | Skips n c' => run f (drop n code') c'
      | r => r
      end
  | _, _ => Next c
  end.
(** A branch goes forward: a run takes at most as many steps as there are
    instructions. *)
Definition exec_code (code : list instr) (c : core) : result := run (length code) code c.
End Step.

(** ** util/load_store.S *)

Definition store_all_registers : list instr :=
  [ Sd ra 0 t6; Sd sp 8 t6; Sd gp 16 t6; Sd tp 24 t6; Sd t0 32 t6; Sd t1 40 t6; Sd t2 48 t6; Sd s0 56 t6;
    Sd s1 64 t6; Sd a0 72 t6; Sd a1 80 t6; Sd a2 88 t6; Sd a3 96 t6; Sd a4 104 t6; Sd a5 112 t6; Sd a6 120 t6;
    Sd a7 128 t6; Sd s2 136 t6; Sd s3 144 t6; Sd s4 152 t6; Sd s5 160 t6; Sd s6 168 t6; Sd s7 176 t6; Sd s8 184 t6;
    Sd s9 192 t6; Sd s10 200 t6; Sd s11 208 t6; Sd t3 216 t6; Sd t4 224 t6; Sd t5 232 t6; Sd t6 240 t6 ].

Definition restore_all_registers : list instr :=
  [ Ld ra 0 t6; Ld sp 8 t6; Ld gp 16 t6; Ld tp 24 t6; Ld t0 32 t6; Ld t1 40 t6; Ld t2 48 t6; Ld s0 56 t6;
    Ld s1 64 t6; Ld a0 72 t6; Ld a1 80 t6; Ld a2 88 t6; Ld a3 96 t6; Ld a4 104 t6; Ld a5 112 t6; Ld a6 120 t6;
    Ld a7 128 t6; Ld s2 136 t6; Ld s3 144 t6; Ld s4 152 t6; Ld s5 160 t6; Ld s6 168 t6; Ld s7 176 t6; Ld s8 184 t6;
    Ld s9 192 t6; Ld s10 200 t6; Ld s11 208 t6; Ld t3 216 t6; Ld t4 224 t6; Ld t5 232 t6; Ld t6 240 t6 ].

(** ** kernel/strap_vector.S *)

Definition smode_trap_code : list instr :=
  [ Csrrw a0 Sscratch a0; Addi t6 a0 0 ] ++ store_all_registers ++
  [ Csrr t0 Sscratch; Sd t0 72 a0; Ld sp 248 a0; Ld t0 256 a0; Ld t1 272 a0; Csrw Satp t1; Sfence; Jr t0 ].

Definition return_to_user : list instr :=
  [ Csrw Satp a1; Sfence; Csrw Sscratch a0; Addi t6 a0 0 ] ++ restore_all_registers ++ [ Sret ].

(** ** kernel/machine *)

(** Addresses of the kernel image. *)
Class Image : Type := {
  stack0 : Z;
  m_start_addr : Z;
  handle_mtrap_addr : Z;
  m_forward_to_s : Z;
  m_forward_sepc : Z;
  m_forward_scause : Z;
  m_forward_stval : Z;
  m_forward_sscratch : Z;
  m_forward_sstatus : Z
}.

Section Machine.
Context `{Linker} `{Image}.

Definition mentry : list instr :=
  [ Csrw Mscratch zero; La sp stack0; Li a3 4096; Csrr a4 Mhartid; Addi a4 a4 1; Mul a3 a3 a4; Add sp sp a3;
    Call m_start_addr ].

(** [mtrapvec] up to the call of [handle_mtrap] ... *)
Definition mtrap_entry : list instr :=
  [ Csrrw a0 Mscratch a0; Addi t6 a0 0 ] ++ store_all_registers ++
  [ Csrr t0 Mscratch; Sd t0 72 a0;
    La sp stack0; Li a3 4096; Csrr a4 Mhartid; Addi a4 a4 1; Mul a3 a3 a4; Add sp sp a3;
    Csrw Mscratch a0; Call handle_mtrap_addr ].

(** ... and behind it. *)
Definition mtrap_forward : list instr :=
  [ La t0 m_forward_sepc; Ld t2 0 t0; Csrw Sepc t2;
    La t0 m_forward_scause; Ld t2 0 t0; Csrw Scause t2;
    La t0 m_forward_stval; Ld t2 0 t0; Csrw Stval t2;
    La t0 m_forward_sscratch; Ld t2 0 t0; Csrw Sscratch t2;
    La t0 m_forward_sstatus; Ld t2 0 t0; Csrw Sstatus t2;
    La t2 smode_trap_vector; Csrw Mepc t2;
    Csrr t2 Mstatus; Li t3 6144; Not t3 t3; And t2 t2 t3; Li t3 2048; Or t2 t2 t3; Csrw Mstatus t2;
    Csrr t6 Mscratch ] ++ restore_all_registers ++ [ Mret ].
Definition mtrap_exit : list instr :=
  [ La t0 m_forward_to_s; Lw t1 0 t0; Beqz t1 (length mtrap_forward) ] ++ mtrap_forward ++
  [ Csrr t6 Mscratch ] ++ restore_all_registers ++ [ Mret ].
End Machine.

(** ** Saving and restoring *)

(** The registers in the order of [riscv_regs], each with its offset. *)
Definition layout : list (reg * Z) :=
  imap (fun i r => (r, 8 * Z.of_nat i))
    [ ra; sp; gp; tp; t0; t1; t2; s0; s1; a0; a1; a2; a3; a4; a5; a6; a7;
      s2; s3; s4; s5; s6; s7; s8; s9; s10; s11; t3; t4; t5 ].
Definition full_layout : list (reg * Z) := layout ++ [(t6, 240)].
Definition offset (r : reg) : Z := from_option (fun p => snd (snd p)) 0 (list_find (fun p : reg * Z => fst p = r) full_layout).

Definition saved (f : Z) (g : reg -> Z) (l : list (reg * Z)) (m : gmap Z Z) : gmap Z Z :=
  foldl (fun m p => <[f + snd p := g (fst p)]> m) m l.
Definition loaded (f : Z) (m : gmap Z Z) (l : list (reg * Z)) (g : reg -> Z) : reg -> Z :=
  foldl (fun g p => set (fst p) (rd m (f + snd p)) g) g l.

Lemma set_eq {K} `{EqDecision K} (k : K) v f : set k v f k = v.
Proof. unfold set. by rewrite decide_True. Qed.
Lemma set_ne {K} `{EqDecision K} (k x : K) v f : x <> k -> set k v f x = f x.
Proof. intros. unfold set. by rewrite decide_False. Qed.

Lemma saved_other f g l : forall m a, (forall p, p ∈ l -> a <> f + snd p) -> rd (saved f g l m) a = rd m a.
Proof.
  induction l as [|q l IH]; intros m a Ha; [done|]. cbn [saved foldl]. fold (saved f g l (<[f + snd q := g (fst q)]> m)).
  rewrite IH by (intros p Hp; apply Ha; by right). apply rd_insert_ne. intros E. by apply (Ha q); [left|].
Qed.
Lemma saved_lookup f g l r o : NoDup (snd <$> l) -> (r, o) ∈ l -> forall m, rd (saved f g l m) (f + o) = g r.
Proof.
  induction l as [|q l IH]; intros Hnd Hin m; [by apply not_elem_of_nil in Hin|].
  cbn [fmap list_fmap] in Hnd. apply list.NoDup_cons in Hnd as [Hq Hnd]. cbn [saved foldl].
  fold (saved f g l (<[f + snd q := g (fst q)]> m)). apply elem_of_cons in Hin as [<-|Hin]; [|by apply IH].
  cbn [fst snd] in *. rewrite saved_other; [apply rd_insert_eq|].
  intros p Hp E. apply Hq, list_elem_of_fmap. exists p. split; [lia|done].
Qed.
Lemma loaded_other f m l r : (forall o, (r, o) ∉ l) -> forall g, loaded f m l g r = g r.
Proof.
  induction l as [|q l IH]; intros Hr g; [done|]. cbn [loaded foldl].
  fold (loaded f m l (set (fst q) (rd m (f + snd q)) g)).
  rewrite IH by (intros o Ho; apply (Hr o); by right). apply set_ne. intros ->. apply (Hr (snd q)). destruct q. by left.
Qed.
Lemma loaded_lookup f m l r o : NoDup (fst <$> l) -> (r, o) ∈ l -> forall g, loaded f m l g r = rd m (f + o).
Proof.
  induction l as [|q l IH]; intros Hnd Hin g; [by apply not_elem_of_nil in Hin|].
  cbn [fmap list_fmap] in Hnd. apply list.NoDup_cons in Hnd as [Hq Hnd]. cbn [loaded foldl].
  fold (loaded f m l (set (fst q) (rd m (f + snd q)) g)). apply elem_of_cons in Hin as [<-|Hin]; [|by apply IH].
  cbn [fst snd] in *. rewrite loaded_other; [apply set_eq|].
  intros o' Ho'. apply Hq, list_elem_of_fmap. by exists (r, o').
Qed.

Lemma layout_regs : NoDup (fst <$> full_layout).
Proof. apply (bool_decide_unpack _). vm_compute. exact I. Qed.
Lemma layout_offsets : NoDup (snd <$> full_layout).
Proof. apply (bool_decide_unpack _). vm_compute. exact I. Qed.
Lemma in_layout r : r <> zero -> (r, offset r) ∈ full_layout.
Proof. intros Hr. destruct r; try done; apply (bool_decide_unpack _); vm_compute; exact I. Qed.
Lemma layout_bounds : Forall (fun p : reg * Z => fst p <> zero /\ 0 <= snd p <= 240 /\ snd p mod 8 = 0) full_layout.
Proof. unfold full_layout, layout. cbn. repeat constructor; done. Qed.
Lemma layout_no_t6 : Forall (fun p : reg * Z => fst p <> t6) layout.
Proof. unfold layout. cbn. repeat constructor; done. Qed.

(** ** Memory that is mapped to itself *)

Definition outside (f n : Z) (m m' : gmap Z Z) : Prop := forall a, ~ (f <= a < f + n) -> rd m' a = rd m a.

(** The words from [f] on, [n] bytes, are physical memory that the code reaches at
    its own address, whatever it writes there. *)
Record window (md : mode) (satp : Z) (m : gmap Z Z) (f n : Z) : Prop := {
  win_align : f mod 8 = 0;
  win_low : DRAM_BASE <= f;
  win_high : f + n <= PHYS_TOP;
  win_map : forall m' w o, outside f n m m' -> 0 <= o < n -> translate md satp m' w (f + o) = Some (f + o)
}.

Lemma window_machine satp m f n : f mod 8 = 0 -> DRAM_BASE <= f -> f + n <= PHYS_TOP -> window Machine satp m f n.
Proof. by split. Qed.

Lemma outside_trans f n m1 m2 m3 : outside f n m1 m2 -> outside f n m2 m3 -> outside f n m1 m3.
Proof. intros H1 H2 a Ha. by rewrite H2, H1. Qed.
Lemma outside_insert f n m a v : f <= a < f + n -> outside f n m (<[a := v]> m).
Proof. intros Ha b Hb. apply rd_insert_ne. intros ->. done. Qed.
Lemma outside_saved f n g l m : Forall (fun p : reg * Z => 0 <= snd p < n) l -> outside f n m (saved f g l m).
Proof.
  intros Hl a Ha. apply saved_other. intros p Hp ->. rewrite list.Forall_forall in Hl. specialize (Hl p Hp). lia.
Qed.

Section Window.
Variables (md : mode) (satp : Z) (m : gmap Z Z) (f n : Z).
Hypothesis Hw : window md satp m f n.

Lemma access_ok c w o k :
  outside f n m (words c) -> ctl c Satp = satp -> 0 <= o -> o + 8 <= n -> o mod 8 = 0 ->
  access md c w (u64 (f + o)) k = k (f + o).
Proof.
  intros Ho Hs H1 H2 H3. pose proof Hw as [Ha Hl Hh Hm].
  replace (u64 (f + o)) with (f + o) by klia. unfold access. rewrite Hs, (Hm _ w o Ho) by lia.
  replace (addr_ok (f + o)) with true; [done|]. symmetry. unfold addr_ok. kconst.
  rewrite !andb_true_iff, !Z.leb_le, Z.eqb_eq. repeat split; klia.
Qed.

Lemma stores_run l : forall c k rest,
  Forall (fun p : reg * Z => fst p <> zero /\ 0 <= snd p <= 240 /\ snd p mod 8 = 0) l -> 248 <= n ->
  outside f n m (words c) -> ctl c Satp = satp -> regs c t6 = f ->
  run md (length l + k) (((fun p => Sd (fst p) (snd p) t6) <$> l) ++ rest) c =
    run md k rest (mkCore (regs c) (ctl c) (saved f (regs c) l (words c))).
Proof.
  induction l as [|[r o] l IH]; intros c k rest Hl Hn Ho Hs Ht; [by destruct c|].
  apply list.Forall_cons in Hl as [(Hr & Hb & Hm) Hl]. cbn [fst snd] in *. cbn [length Nat.add fmap list_fmap app run step].
  cbn [read fst snd]. rewrite Ht, access_ok by (done || lia).
  replace (read c r) with (regs c r) by by destruct r.
  rewrite IH; [done|done|done| |done|done]. eapply outside_trans; [exact Ho|]. apply outside_insert. lia.
Qed.

Lemma loads_run l : forall c k rest,
  Forall (fun p : reg * Z => fst p <> zero /\ 0 <= snd p <= 240 /\ snd p mod 8 = 0) l -> 248 <= n ->
  Forall (fun p : reg * Z => fst p <> t6) l ->
  outside f n m (words c) -> ctl c Satp = satp -> regs c t6 = f ->
  run md (length l + k) (((fun p => Ld (fst p) (snd p) t6) <$> l) ++ rest) c =
    run md k rest (mkCore (loaded f (words c) l (regs c)) (ctl c) (words c)).
Proof.
  induction l as [|[r o] l IH]; intros c k rest Hl Hn H6 Ho Hs Ht; [by destruct c|].
  apply list.Forall_cons in Hl as [(Hr & Hb & Hm) Hl]. apply list.Forall_cons in H6 as [H6 Hl6]. cbn [fst snd] in *.
  cbn [length Nat.add fmap list_fmap app run step]. cbn [read fst snd]. rewrite Ht, access_ok by (done || lia).
  rewrite IH; try done. cbn [write regs]. by rewrite set_ne.
Qed.
End Window.

(** The page table in [satp]. *)
Lemma satp_root root :
  root mod PGSIZE = 0 -> 0 <= root < PHYS_TOP ->
  Z.shiftr (MAKE_SATP root) 60 = 8 /\ Z.shiftl (Z.land (MAKE_SATP root) (Z.ones 44)) 12 = root /\ MAKE_SATP root <> 0.
Proof.
  intros Ha Hr. unfold MAKE_SATP. rewrite Z.shiftr_lor, Z.land_lor_distr_l.
  change (Z.shiftr SATP_SV39 60) with 8. change (Z.land SATP_SV39 (Z.ones 44)) with 0. rewrite Z.lor_0_l.
  rewrite !Z.shiftr_div_pow2, Z.land_ones, Z.shiftl_mul_pow2 by lia. change (2 ^ 12) with 4096. change (2 ^ 60) with 1152921504606846976.
  change (2 ^ 44) with 17592186044416. split; [|split; [klia|]].
  - replace (root / 4096 / 1152921504606846976) with 0 by klia. reflexivity.
  - intros E. apply Z.lor_eq_0_iff in E as [E _]. done.
Qed.

(** The trapframe of process [x] as the assembly sees it: a page that the page table
    of the process maps to itself, for S-mode only. *)
Record frame_mapped (m : gmap Z Z) (x : process) : Prop := {
  fm_wf : pt_wf m (pagetable x);
  fm_page : table_page (trapframe x);
  fm_sep : forall π t, path_ok π -> tbl m (pagetable x) π = Some t -> t <> trapframe x;
  fm_entry : exists w, xlate m (pagetable x) (trapframe x) = Some w /\ PTE2PA w = trapframe x /\
               has w PTE_R = true /\ has w PTE_A = true /\ has w PTE_W = true /\ has w PTE_D = true /\ has w PTE_U = false
}.

Lemma outside_agree m m' root f :
  pt_wf m root -> f mod PGSIZE = 0 -> (forall π t, path_ok π -> tbl m root π = Some t -> t <> f) ->
  outside f PGSIZE m m' -> tables_agree m m' root.
Proof.
  intros Hwf Hf Hne Ho π t k Hok Ht Hk. apply Ho. intros Hin. apply (Hne π t Hok Ht).
  apply (page_neq_in_page t f (t + 8 * k)); auto using slot_in_page. by apply (pt_page _ _ Hwf π t).
Qed.

Lemma frame_window m x : frame_mapped m x -> window Supervisor (MAKE_SATP (pagetable x)) m (trapframe x) PGSIZE.
Proof.
  intros [Hwf Hp Hne (w & Hx & Hpa & HR & HA & HW & HD & HU)]. pose proof Hp as (Hal & Hlo & Hhi).
  destruct (pt_page _ _ Hwf P0 (pagetable x) I eq_refl) as (Hra & Hrl & Hrh).
  destruct (satp_root (pagetable x)) as (E1 & E2 & E3); [done|klia|].
  split; [klia|done|done|]. intros m' b o Ho Hb. unfold translate.
  rewrite (proj2 (Z.eqb_neq _ _) E3), E1, E2. cbn [Z.eqb Pos.eqb negb orb].
  rewrite (proj2 (Z.ltb_ge _ _)), (proj2 (Z.leb_gt _ _)) by (unfold MAXVA; klia). cbn [orb].
  assert (Hag := outside_agree m m' _ _ Hwf Hal Hne Ho).
  assert (Hs : (trapframe x + o) / PGSIZE = trapframe x / PGSIZE) by klia.
  rewrite (agree_xlate m m' _ _ Hag). unfold xlate in *. rewrite (leaf_same_page _ _ _ _ Hs), Hx. cbn.
  rewrite HR, HA, HW, HD, HU, Hpa. replace ((trapframe x + o) mod PGSIZE) with o by klia. by destruct b.
Qed.

(** ** What the vectors do *)

(** What the vector leaves in the frame: every register but [t6], which holds the
    address of the frame when it is stored. *)
Definition frame_of (f : Z) (g : reg -> Z) (m : gmap Z Z) : Prop :=
  forall r, r <> zero -> rd m (f + offset r) = if decide (r = t6) then f else g r.

Lemma frame_saved f g m :
  frame_of f g (<[f + 72 := g a0]> (saved f (set t6 f (set a0 f g)) full_layout m)).
Proof.
  intros r Hr. destruct (decide (r = a0)) as [->|Ha].
  - change (offset a0) with 72. by rewrite rd_insert_eq.
  - rewrite rd_insert_ne.
    + rewrite (saved_lookup _ _ _ r (offset r) layout_offsets (in_layout r Hr)).
      destruct (decide (r = t6)) as [->|Ht]; [apply set_eq|]. by rewrite !set_ne.
    + intros E. assert (offset r = 72) by lia. by destruct r.
Qed.

Lemma bounds_small : Forall (fun p : reg * Z => 0 <= snd p < 248) full_layout.
Proof. eapply list.Forall_impl; [exact layout_bounds|]. cbn. lia. Qed.
Lemma layout_bounds' : Forall (fun p : reg * Z => fst p <> zero /\ 0 <= snd p <= 240 /\ snd p mod 8 = 0) layout.
Proof. pose proof layout_bounds as Hb. by apply list.Forall_app in Hb as [? _]. Qed.

Lemma offset_bounds r : r <> zero -> 0 <= offset r < 248.
Proof. intros Hr. pose proof bounds_small as Hb. rewrite list.Forall_forall in Hb. by apply (Hb _ (in_layout r Hr)). Qed.

Lemma run_next md i code j c c' : step md i c = Next c' -> run md (S j) (i :: code) c = run md j code c'.
Proof. intros E. cbn [run]. by rewrite E. Qed.
Lemma exec_next md i code c c' : step md i c = Next c' -> exec_code md (i :: code) c = exec_code md code c'.
Proof. apply run_next. Qed.

(** More fuel than instructions makes no difference. *)
Lemma run_enough md f1 : forall f2 code c, (length code <= f1)%nat -> (length code <= f2)%nat -> run md f1 code c = run md f2 code c.
Proof.
  induction f1 as [|f1 IH]; intros f2 [|i code] c H1 H2; cbn [length] in *; try lia; try by destruct f2.
  destruct f2 as [|f2]; [lia|]. cbn [run]. destruct (step md i c) as [c'|n c'| |]; [| |done|done].
  - apply IH; lia.
  - apply IH; rewrite length_drop; lia.
Qed.
Lemma exec_skip md i n code c c' : step md i c = Skips n c' -> exec_code md (i :: code) c = exec_code md (drop n code) c'.
Proof. intros E. unfold exec_code. cbn [length run]. rewrite E. apply run_enough; rewrite ?length_drop; lia. Qed.

Section Vectors.
Variables (md : mode) (f n : Z).
Hypothesis Hn : 248 <= n.

(** The common start of the two vectors; [K] is the scratch register. *)
Definition entry_code (K : ctrl) (rest : list instr) : list instr :=
  [ Csrrw a0 K a0; Addi t6 a0 0 ] ++ store_all_registers ++ [ Csrr t0 K; Sd t0 72 a0 ] ++ rest.
Definition entered (K : ctrl) (c : core) : core :=
  mkCore (set t0 (regs c a0) (set t6 f (set a0 f (regs c)))) (set K (regs c a0) (ctl c))
    (<[f + 72 := regs c a0]> (saved f (set t6 f (set a0 f (regs c))) full_layout (words c))).

Lemma entry_split K rest :
  entry_code K rest =
    Csrrw a0 K a0 :: Addi t6 a0 0 :: ((fun p => Sd (fst p) (snd p) t6) <$> full_layout) ++ Csrr t0 K :: Sd t0 72 a0 :: rest.
Proof. reflexivity. Qed.
Lemma restore_split rest :
  restore_all_registers ++ rest = ((fun p => Ld (fst p) (snd p) t6) <$> layout) ++ Ld t6 240 t6 :: rest.
Proof. reflexivity. Qed.

Lemma entry_run K c rest :
  K <> Satp -> ctl c K = f -> window md (ctl c Satp) (words c) f n ->
  exec_code md (entry_code K rest) c = exec_code md rest (entered K c).
Proof.
  intros HK Hf Hw. pose proof (win_low _ _ _ _ _ Hw) as Hlo. pose proof (win_high _ _ _ _ _ Hw) as Hhi.
  unfold exec_code. rewrite entry_split. cbn [length]. rewrite length_app, length_fmap. cbn [length].
  set (g := set t6 f (set a0 f (regs c))). set (k := set K (regs c a0) (ctl c)).
  assert (HS : k Satp = ctl c Satp) by (apply set_ne; congruence).
  assert (Hg : g a0 = f) by (unfold g; rewrite set_ne by done; apply set_eq).
  rewrite (run_next md _ _ _ _ (mkCore (set a0 f (regs c)) k (words c))) by (by rewrite <- Hf).
  rewrite (run_next md _ _ _ _ (mkCore g k (words c))).
  2: { cbn [step read regs]. rewrite set_eq. by replace (u64 (f + 0)) with f by klia. }
  rewrite (stores_run md (ctl c Satp) (words c) f n Hw);
    [|apply layout_bounds|done|done|exact HS|apply set_eq].
  cbn [regs ctl words]. rewrite (run_next md _ _ _ _ (mkCore (set t0 (regs c a0) g) k (saved f g full_layout (words c)))).
  2: { cbn [step ctl]. unfold k at 1. by rewrite set_eq. }
  apply run_next. cbn [step read regs]. rewrite (set_ne t0), Hg, set_eq by done.
  rewrite (access_ok md (ctl c Satp) (words c) f n Hw); [done| |exact HS|lia|lia|done].
  apply outside_saved. eapply list.Forall_impl; [exact bounds_small|]. cbn. lia.
Qed.

Lemma entered_outside K c : outside f n (words c) (words (entered K c)).
Proof.
  eapply outside_trans; [|apply outside_insert; lia]. apply outside_saved.
  eapply list.Forall_impl; [exact bounds_small|]. cbn. lia.
Qed.
Lemma entered_other K c o : 248 <= o -> rd (words (entered K c)) (f + o) = rd (words c) (f + o).
Proof.
  intros Ho. cbn [entered words]. rewrite rd_insert_ne by lia. apply saved_other. intros p Hp.
  pose proof bounds_small as Hb. rewrite list.Forall_forall in Hb. specialize (Hb p Hp). lia.
Qed.

(** The end of a trap: the registers come from the frame. *)
Lemma restore_run c m rest :
  regs c t6 = f -> window md (ctl c Satp) m f n -> outside f n m (words c) ->
  exists g, exec_code md (restore_all_registers ++ rest) c = exec_code md rest (mkCore g (ctl c) (words c)) /\
    forall r, r <> zero -> g r = rd (words c) (f + offset r).
Proof.
  intros Hf Hw Ho. exists (set t6 (rd (words c) (f + 240)) (loaded f (words c) layout (regs c))). split.
  - unfold exec_code. rewrite restore_split, length_app, length_fmap. cbn [length].
    rewrite (loads_run md (ctl c Satp) m f n Hw) by (done || apply layout_bounds' || apply layout_no_t6).
    apply run_next. cbn [step read regs]. rewrite loaded_other, Hf.
    + by rewrite (access_ok md (ctl c Satp) m f n Hw) by (done || lia).
    + intros o Hin. pose proof layout_no_t6 as H6. rewrite list.Forall_forall in H6. by apply (H6 _ Hin).
  - intros r Hr. destruct (decide (r = t6)) as [->|Ht]; [apply set_eq|]. rewrite set_ne by done.
    apply loaded_lookup.
    + pose proof layout_regs as Hnd. unfold full_layout in Hnd. rewrite fmap_app in Hnd. by apply list.NoDup_app in Hnd as [? _].
    + pose proof (in_layout r Hr) as Hin. unfold full_layout in Hin. apply elem_of_app in Hin as [?|Hin]; [done|].
      apply list_elem_of_singleton in Hin. congruence.
Qed.
End Vectors.

(** ** A trap of a process and back *)

Lemma entered_frame f K c : frame_of f (regs c) (words (entered f K c)).
Proof. apply frame_saved. Qed.

(** [smode_trap_vector]: the registers are in the frame, and the handler runs on the
    stack and the page table of the kernel. *)
Lemma smode_trap_run c x :
  ctl c Sscratch = trapframe x -> ctl c Satp = MAKE_SATP (pagetable x) -> frame_mapped (words c) x ->
  let f := trapframe x in let m := words c in
  exists c1, exec_code Supervisor smode_trap_code c = Leaves (Jumps (rd m (f + TF_kernel_trap))) c1 /\
    regs c1 sp = rd m (f + TF_kernel_sp) /\ ctl c1 Satp = rd m (f + TF_kernel_satp) /\
    frame_of f (regs c) (words c1) /\ (forall a, ~ (f <= a < f + TF_kernel_sp) -> rd (words c1) a = rd m a).
Proof.
  intros Hsc Hsa Hfm f m. pose proof (frame_window _ _ Hfm) as Hw. rewrite <- Hsa in Hw. fold f in Hw, Hsc.
  set (e := entered f Sscratch c).
  assert (He : forall o, 248 <= o -> rd (words e) (f + o) = rd m (f + o)) by (intros; by apply entered_other).
  assert (Ha : forall c' w o k, words c' = words e -> ctl c' Satp = ctl c Satp -> 248 <= o <= 272 -> o mod 8 = 0 ->
            access Supervisor c' w (u64 (f + o)) k = k (f + o)).
  { intros c' w o k Ew Es Ho Hm. apply (access_ok _ _ _ _ _ Hw); [|done|lia|klia|done]. rewrite Ew.
    apply entered_outside. klia. }
  exists (mkCore (set t1 (rd m (f + 272)) (set t0 (rd m (f + 256)) (set sp (rd m (f + 248)) (regs e))))
           (set Satp (rd m (f + 272)) (ctl e)) (words e)).
  split; [|split; [|split; [|split]]].
  - change smode_trap_code with (entry_code Sscratch [Ld sp 248 a0; Ld t0 256 a0; Ld t1 272 a0; Csrw Satp t1; Sfence; Jr t0]).
    rewrite (entry_run Supervisor f PGSIZE); [|klia|done|done|done]. fold e. unfold exec_code. cbn [length].
    erewrite run_next; [|cbn [step read]; change (regs e a0) with f; rewrite Ha, He by (done || lia); reflexivity].
    erewrite run_next; [|cbn [step read]; change (regs (write _ _ _) a0) with f; rewrite Ha by (done || lia);
      cbn [write words]; rewrite He by lia; reflexivity].
    erewrite run_next; [|cbn [step read]; change (regs (write _ _ _) a0) with f; rewrite Ha by (done || lia);
      cbn [write words]; rewrite He by lia; reflexivity].
    reflexivity.
  - reflexivity.
  - reflexivity.
  - apply entered_frame.
  - intros a Hout. apply (entered_outside f 248); [lia|done].
Qed.

Lemma return_split :
  return_to_user = Csrw Satp a1 :: Sfence :: Csrw Sscratch a0 :: Addi t6 a0 0 :: restore_all_registers ++ [Sret].
Proof. reflexivity. Qed.

(** [return_to_user]: the registers come from the frame. *)
Lemma return_run g k m x :
  g a0 = trapframe x -> g a1 = MAKE_SATP (pagetable x) -> frame_mapped m x ->
  exists g' k', exec_code Supervisor return_to_user (mkCore g k m) = Leaves Srets (mkCore g' k' m) /\
    k' Satp = MAKE_SATP (pagetable x) /\ k' Sscratch = trapframe x /\
    (forall r, r <> zero -> g' r = rd m (trapframe x + offset r)).
Proof.
  intros H0 H1 Hfm. pose proof (frame_window _ _ Hfm) as Hw. pose proof (fm_page _ _ Hfm) as (Hal & Hlo & Hhi).
  set (k' := set Sscratch (g a0) (set Satp (g a1) k)).
  destruct (restore_run Supervisor (trapframe x) PGSIZE ltac:(klia) (mkCore (set t6 (trapframe x) g) k' m) m [Sret])
    as (g' & E & Hg).
  - apply set_eq.
  - cbn [ctl]. unfold k'. by rewrite set_ne, set_eq, H1.
  - done.
  - exists g', k'. split; [|split; [|split; [|exact Hg]]].
    + rewrite return_split. do 3 (erewrite exec_next by reflexivity). erewrite exec_next by reflexivity.
      unfold write, write_ctl. cbn [read regs ctl words]. rewrite H0. replace (u64 (trapframe x + 0)) with (trapframe x) by klia.
      unfold k' in *. rewrite H0 in *. rewrite E. reflexivity.
    + unfold k'. by rewrite set_ne, set_eq.
    + unfold k'. by rewrite set_eq.
Qed.

Lemma frame_mapped_outside m m' x : frame_mapped m x -> outside (trapframe x) PGSIZE m m' -> frame_mapped m' x.
Proof.
  intros [Hwf Hp Hne (w & Hx & Hr)] Ho. assert (Hag := outside_agree _ _ _ _ Hwf (proj1 Hp) Hne Ho). split.
  - apply (pt_wf_ext m); [by apply agree_tbl|done].
  - done.
  - intros π t Hok. rewrite (agree_tbl m) by done. by apply Hne.
  - exists w. by rewrite (agree_xlate m).
Qed.

(** C13: the registers of a process across a trap.  The vector saves them in the
    trapframe and enters the handler on the kernel stack and page table; when the
    handler leaves them there and [switch_to] resumes the process, on whatever hart,
    [return_to_user] gives every register back but [tp], which is the number of the
    hart, and [t6], which holds the address of the trapframe; and the registers that
    the next trap needs are set. *)
Theorem trap_keeps_registers `{Linker} c x :
  ctl c Sscratch = trapframe x -> ctl c Satp = MAKE_SATP (pagetable x) -> frame_mapped (words c) x ->
  let f := trapframe x in
  exists c1, exec_code Supervisor smode_trap_code c = Leaves (Jumps (rd (words c) (f + TF_kernel_trap))) c1 /\
    regs c1 sp = rd (words c) (f + TF_kernel_sp) /\ ctl c1 Satp = rd (words c) (f + TF_kernel_satp) /\
    (forall a, ~ (f <= a < f + TF_kernel_sp) -> rd (words c1) a = rd (words c) a) /\
    forall s h p cs,
      procs s !! p = Some x -> csrs s !! h = Some cs -> frame_mapped (mem (pm s)) x ->
      (forall o, 0 <= o < TF_kernel_sp -> rd (mem (pm s)) (f + o) = rd (words c1) (f + o)) ->
      exists s', switch_to h (Some p) s = Stop (Resume p) s' /\
        forall g k, g a0 = f -> g a1 = MAKE_SATP (pagetable x) ->
        exists c2, exec_code Supervisor return_to_user (mkCore g k (mem (pm s'))) = Leaves Srets c2 /\
          words c2 = mem (pm s') /\ regs c2 tp = Z.of_nat h /\ regs c2 t6 = f /\
          (forall r, r <> zero -> r <> tp -> r <> t6 -> regs c2 r = regs c r) /\
          ctl c2 Sscratch = f /\ ctl c2 Satp = MAKE_SATP (pagetable x) /\
          rd (words c2) (f + TF_kernel_sp) = kstack x /\ rd (words c2) (f + TF_kernel_trap) = smode_trap_handler_addr /\
          rd (words c2) (f + TF_kernel_satp) = satp cs.
Proof.
  intros Hsc Hsa Hfm f. destruct (smode_trap_run c x Hsc Hsa Hfm) as (c1 & E1 & Hsp & Hsat & Hfr & Hout). fold f in Hsp, Hsat, Hfr, Hout, E1.
  exists c1. do 4 (split; [done|]). intros s h p cs Hx Hc Hfm' Hkeep.
  exists (switched h p x cs s). split; [apply switch_to_run; [done|apply Hfm'|done]|]. intros g k Hg0 Hg1.
  set (m2 := mem (pm (switched h p x cs s))).
  assert (Hm2 : outside f PGSIZE (mem (pm s)) m2).
  { do 4 (eapply outside_trans; [|apply outside_insert; unfold TF_tp, TF_kernel_trap, TF_kernel_satp, TF_kernel_sp, f; klia]). done. }
  destruct (return_run g k m2 x Hg0 Hg1 (frame_mapped_outside _ _ _ Hfm' Hm2)) as (g' & k' & E2 & Hs2 & Hk2 & Hg').
  fold f in Hg', Hk2. exists (mkCore g' k' m2). split; [exact E2|]. cbn [words regs ctl].
  assert (Hrd : forall r, r <> zero -> r <> tp -> rd m2 (f + offset r) = if decide (r = t6) then f else regs c r).
  { intros r Hz Ht. pose proof (offset_bounds r Hz) as Hb. assert (offset r <> 24) by (destruct r; done).
    rewrite <- (Hfr r Hz), <- (Hkeep (offset r)) by (unfold TF_kernel_sp; lia). unfold m2. cbn [switched pm mem set_pm set_csrs set_mem]. fold f.
    rewrite !rd_insert_ne by (unfold TF_kernel_sp, TF_kernel_satp, TF_kernel_trap, TF_tp; lia). done. }
  split; [done|]. split; [|split; [|split; [|split; [done|split; [done|]]]]].
  - rewrite Hg' by done. apply rd_insert_eq.
  - rewrite Hg', Hrd by done. by rewrite decide_True.
  - intros r Hz Ht H6. rewrite Hg', Hrd by done. by rewrite decide_False.
  - unfold m2. cbn [switched pm mem set_pm set_csrs set_mem]. fold f.
    unfold TF_kernel_sp, TF_kernel_satp, TF_kernel_trap, TF_tp.
    repeat split; repeat (first [rewrite rd_insert_eq; done | rewrite rd_insert_ne by lia]).
Qed.

(** ** A run *)

Module AsmDemo.
(** The trapframe at 2147745792, mapped to itself for S-mode in the address space of
    [vm3]. *)
Definition frame_perm : Z := prot_to_type (PROT_WRITE .| PROT_READ) 0.
Definition mapped : pstate :=
  match user_vm_map 2147483648 2147745792 PGSIZE 2147745792 frame_perm vm3 with Ret _ s => s | Stop _ s => s end.
Definition demo_proc : process := set_trapframe 2147745792 (set_pagetable 2147483648 (set_kstack 7777 (Demo.proc_at 0 None))).

Lemma demo_frame : frame_mapped (mem mapped) demo_proc.
Proof.
  destruct (map_one vm3 _ 2147483648 2147745792 2147745792 frame_perm vm3_inv) as (s' & l' & E & [Hi _ _ Hnew _ _] & _ & Hx);
    [reflexivity|lia|cbv; congruence|lia|cbn; lia|apply fresh_root_xlate, vm3_zero|].
  assert (mapped = s') as -> by (unfold mapped; by rewrite E). split.
  - apply Hi.
  - repeat split; cbv; congruence.
  - intros π t Hok Ht. apply (Hnew π t Hok) in Ht as [Ht|Ht].
    + destruct π as [|i|i j]; cbn [tbl] in Ht; unfold child in Ht; cbn [pagetable demo_proc set_trapframe set_pagetable] in Ht.
      * injection Ht as <-. cbn. lia.
      * by rewrite vm3_zero in Ht.
      * destruct Hok. by rewrite vm3_zero in Ht.
    + rewrite !elem_of_cons, elem_of_nil in Ht. cbn. lia.
  - exists (PA2PTE 2147745792 .| frame_perm .| PTE_V). split; [|repeat split; reflexivity].
    cbn [pagetable trapframe demo_proc set_trapframe set_pagetable]. rewrite Hx; [|cbv; split; congruence]. by rewrite decide_True.
Qed.

(** A program with register [s3] = 33, [a0] = 10 traps. *)
Definition user_core : core :=
  mkCore (set s3 33 (set a0 10 (set t6 66 (fun _ => 0))))
    (fun k => match k with Sscratch => 2147745792 | Satp => MAKE_SATP 2147483648 | _ => 0 end) (mem mapped).

(** The kernel with the words [m] in memory. *)
Definition demo_kern (m : gmap Z Z) : kstate :=
  set_csrs [mkCsr 0 0 0 5 0 0 0] (set_pm (set_mem m mapped) (set_procs [demo_proc] Demo.d4)).

Lemma trap_keeps_registers_witness :
  exists c1, exec_code Supervisor smode_trap_code user_core =
      Leaves (Jumps (rd (words user_core) (trapframe demo_proc + TF_kernel_trap))) c1 /\
    exists s' c2, @switch_to Demo.linker0 0 (Some 0%nat) (demo_kern (words c1)) = Stop (Resume 0%nat) s' /\
      exec_code Supervisor return_to_user
        (mkCore (set a1 (MAKE_SATP 2147483648) (set a0 2147745792 (fun _ => 0))) (fun _ => 0) (mem (pm s'))) = Leaves Srets c2 /\
      regs c2 s3 = 33 /\ regs c2 a0 = 10 /\ regs c2 t6 = 2147745792.
Proof.
  destruct (@trap_keeps_registers Demo.linker0 user_core demo_proc) as (c1 & E1 & _ & _ & Hout & Hnext);
    [reflexivity|reflexivity|exact demo_frame|].
  exists c1. split; [exact E1|].
  destruct (Hnext (demo_kern (words c1)) 0%nat 0%nat (mkCsr 0 0 0 5 0 0 0)) as (s' & E2 & Hret).
  - reflexivity.
  - reflexivity.
  - change (mem (pm (demo_kern (words c1)))) with (words c1). apply (frame_mapped_outside (mem mapped)); [exact demo_frame|]. intros a Ha. apply Hout.
    intros Hin. apply Ha. unfold TF_kernel_sp in Hin. klia.
  - intros o Ho. reflexivity.
  - destruct (Hret (set a1 (MAKE_SATP 2147483648) (set a0 2147745792 (fun _ => 0))) (fun _ => 0)) as (c2 & E3 & _ & _ & H6 & Hr & _).
    + reflexivity.
    + reflexivity.
    + exists s', c2. split; [exact E2|]. split; [exact E3|]. split; [by rewrite Hr|]. split; [by rewrite Hr|exact H6].
Defined.
End AsmDemo.
