(* ===== verification/AsmMtrap.v ===== *)
(** * Machine traps in assembly (mtrap_vector.S, mentry.S)

    The stacks of the harts, and what [mtrapvec] does around [handle_mtrap]: it
    refines [mtrap_leave] of Mtrap.v and brings the registers back. *)
From S2P Require Import Prelude Pmm Vmm Process Sched Fork Heap Strap Pages HashTable CString Snprintf Bytes DebugLine.
From S2P Require Import VfsData Rfs RfsDisk RfsFile RfsDir Vfs VfsRefs ProcFile SpikeFile Hostfs Machine Elf Syscall Mtrap MtrapProps Asm.

(** The global variables lie in memory. *)
Record image_ok `{Image} : Prop := {
  ok_to_s : addr_ok (m_forward_to_s - m_forward_to_s mod 8) = true;
  ok_sepc : addr_ok m_forward_sepc = true;
  ok_scause : addr_ok m_forward_scause = true;
  ok_stval : addr_ok m_forward_stval = true;
  ok_sscratch : addr_ok m_forward_sscratch = true;
  ok_sstatus : addr_ok m_forward_sstatus = true;
  ok_stack0 : 0 <= stack0 /\ stack0 + 4096 * Z.of_nat NCPU <= PHYS_TOP
}.

(** The [int] at [a]. *)
Definition int_at (m : gmap Z Z) (a : Z) : Z :=
  let w := rd m (a - a mod 8) in i32 (if a mod 8 =? 0 then w mod 4294967296 else w / 4294967296).

(** The stack of hart [h], empty. *)
Definition stack_top `{Image} (h : nat) : Z := stack0 + 4096 * (Z.of_nat h + 1).

Section View.
Context {H : Type} `{Image}.

(** The registers of hart [h] on the board, and the globals of the forwarding. *)
Record hart_view (b : board H) (h : nat) (c : core) : Prop := {
  hv_hart : exists r, harts b !! h = Some r /\ ctl c Mstatus = mstatus r /\ ctl c Mepc = mepc r /\ ctl c Sscratch = sscratch r;
  hv_csr : exists k, s_csr b h = Some k /\ ctl c Sstatus = sstatus k /\ ctl c Sepc = sepc k /\
             ctl c Scause = scause k /\ ctl c Stval = stval k
}.
Definition forward_view (m : gmap Z Z) (f : forward) : Prop :=
  int_at m m_forward_to_s = to_s f /\ rd m m_forward_sepc = fwd_sepc f /\ rd m m_forward_scause = fwd_scause f /\
  rd m m_forward_stval = fwd_stval f /\ rd m m_forward_sscratch = fwd_sscratch f /\ rd m m_forward_sstatus = fwd_sstatus f.
End View.

(** ** Entry *)

Section Entry.
Context `{Image} (Hi : image_ok).

(** Both [_mentry] and [mtrapvec] compute the stack from the number of the hart. *)
Lemma stack_run md h c rest :
  (h < NCPU)%nat -> ctl c Mhartid = Z.of_nat h ->
  exists g, exec_code md ([La sp stack0; Li a3 4096; Csrr a4 Mhartid; Addi a4 a4 1; Mul a3 a3 a4; Add sp sp a3] ++ rest) c =
      exec_code md rest (mkCore g (ctl c) (words c)) /\ g sp = stack_top h /\ g a0 = regs c a0.
Proof.
  intros Hh Hc. pose proof (ok_stack0 Hi) as Hs. unfold NCPU in *. eexists. split; [|split].
  - cbn [app]. do 6 (erewrite exec_next by reflexivity). unfold write. cbn [regs ctl words]. reflexivity.
  - change (u64 (stack0 + u64 (u64 4096 * u64 (ctl c Mhartid + 1))) = stack_top h). rewrite Hc. unfold stack_top. klia.
  - done.
Qed.

(** C38: every hart starts on a stack of its own, at the upper end of its 4096 bytes
    of [stack0]: the stacks lie in the array and do not overlap. *)
Theorem mentry_stacks h c :
  (h < NCPU)%nat -> ctl c Mhartid = Z.of_nat h ->
  (exists c', exec_code Machine mentry c = Leaves (Calls m_start_addr) c' /\ regs c' sp = stack_top h /\
    ctl c' Mscratch = 0 /\ regs c' a0 = regs c a0 /\ words c' = words c) /\
  stack0 <= stack_top h - 4096 /\ stack_top h <= stack0 + 4096 * Z.of_nat NCPU /\
  (forall h', h' <> h -> stack_top h' <= stack_top h - 4096 \/ stack_top h <= stack_top h' - 4096).
Proof.
  intros Hh Hc. split; [|repeat split; intros; unfold stack_top; lia]. unfold mentry.
  erewrite (exec_next _ _ _ _ (write_ctl Mscratch 0 c)) by reflexivity.
  destruct (stack_run Machine h (write_ctl Mscratch 0 c) [Call m_start_addr] Hh) as (g & E & Hsp & Ha); [done|].
  cbn [app] in E. eexists. split; [rewrite E; reflexivity|]. split; [done|]. split; [apply set_eq|done].
Qed.

(** [mtrapvec] up to the call: the registers are in the frame of the hart. *)
Lemma mtrap_entry_run h f c :
  (h < NCPU)%nat -> ctl c Mhartid = Z.of_nat h -> ctl c Mscratch = f ->
  f mod 8 = 0 -> DRAM_BASE <= f -> f + 248 <= PHYS_TOP ->
  exists c1, exec_code Machine mtrap_entry c = Leaves (Calls handle_mtrap_addr) c1 /\ regs c1 sp = stack_top h /\
    ctl c1 Mscratch = f /\ frame_of f (regs c) (words c1) /\ outside f 248 (words c) (words c1) /\
    (forall k, k <> Mscratch -> ctl c1 k = ctl c k).
Proof.
  intros Hh Hc Hf Ha Hl Hu. pose proof (window_machine (ctl c Satp) (words c) f 248 Ha Hl Hu) as Hw.
  set (e := entered f Mscratch c).
  destruct (stack_run Machine h e [Csrw Mscratch a0; Call handle_mtrap_addr] Hh) as (g & E & Hsp & H0).
  { cbn [e entered ctl]. by rewrite set_ne. }
  exists (mkCore g (set Mscratch f (ctl e)) (words e)). split; [|split; [done|]].
  - change mtrap_entry with (entry_code Mscratch
      ([La sp stack0; Li a3 4096; Csrr a4 Mhartid; Addi a4 a4 1; Mul a3 a3 a4; Add sp sp a3] ++ [Csrw Mscratch a0; Call handle_mtrap_addr])).
    rewrite (entry_run Machine f 248); [|lia|done|done|done]. fold e. rewrite E. erewrite exec_next by reflexivity.
    unfold write_ctl. cbn [read regs ctl words]. rewrite H0. reflexivity.
  - split; [cbn; apply set_eq|]. split; [apply entered_frame|]. split; [apply entered_outside; lia|].
    intros k Hk. cbn [ctl e entered]. by rewrite !set_ne.
Qed.
End Entry.

(** ** Exit *)

Section Exit.
Context {H : Type} `{Frontend H} `{Linker} `{Buffers} `{Hart} `{Image} (Hi : image_ok).

Lemma small_u64 a : addr_ok a = true -> u64 (a + 0) = a.
Proof. unfold addr_ok. rewrite !andb_true_iff, !Z.leb_le. intros ((? & ?) & _). klia. Qed.

(** A global variable goes to a register. *)
Lemma load_global a k rest c :
  addr_ok a = true ->
  exec_code Machine (La t0 a :: Ld t2 0 t0 :: Csrw k t2 :: rest) c =
    exec_code Machine rest (mkCore (set t2 (rd (words c) a) (set t0 a (regs c))) (set k (rd (words c) a) (ctl c)) (words c)).
Proof.
  intros Ha. erewrite exec_next by reflexivity.
  erewrite exec_next; [|cbn [step read]; unfold write; cbn [regs]; rewrite set_eq, (small_u64 a Ha);
    unfold access; cbn [translate]; rewrite Ha; reflexivity].
  erewrite exec_next by reflexivity. unfold write, write_ctl. cbn [read regs ctl words]. by rewrite set_eq.
Qed.

Lemma clear_mpp v : 0 <= v < 18446744073709551616 ->
  Z.lor (Z.land v (u64 (Z.lnot (u64 6144)))) (u64 2048) = Z.lor (Z.ldiff v MSTATUS_MPP_MASK) MSTATUS_MPP_S.
Proof.
  intros Hv. f_equal. rewrite Z.ldiff_land. unfold MSTATUS_MPP_MASK.
  change (u64 6144) with 6144. unfold u64. change 18446744073709551616 with (2 ^ 64). rewrite <- Z.land_ones by lia.
  rewrite (Z.land_comm (Z.lnot 6144)), Z.land_assoc, Z.land_ones by lia.
  by rewrite (Z.mod_small v) by (change (2 ^ 64) with 18446744073709551616; lia).
Qed.

(** [mepc] and the mode of [mret]. *)
Lemma mpp_run c rest :
  0 <= ctl c Mstatus < 18446744073709551616 ->
  exists g, exec_code Machine
      (La t2 smode_trap_vector :: Csrw Mepc t2 :: Csrr t2 Mstatus :: Li t3 6144 :: Not t3 t3 :: And t2 t2 t3 ::
       Li t3 2048 :: Or t2 t2 t3 :: Csrw Mstatus t2 :: rest) c =
    exec_code Machine rest (mkCore g (set Mstatus (Z.lor (Z.ldiff (ctl c Mstatus) MSTATUS_MPP_MASK) MSTATUS_MPP_S)
                                       (set Mepc smode_trap_vector (ctl c))) (words c)).
Proof.
  intros Hm. eexists. do 9 (erewrite exec_next by reflexivity). rewrite <- (clear_mpp _ Hm).
  unfold write, write_ctl. cbn [regs ctl words]. f_equal.
Qed.

(** The end of the trap: the registers come back from the frame. *)
Lemma mtrap_tail_run f c rest :
  ctl c Mscratch = f -> f mod 8 = 0 -> DRAM_BASE <= f -> f + 248 <= PHYS_TOP ->
  exists g, exec_code Machine (Csrr t6 Mscratch :: (restore_all_registers ++ [Mret]) ++ rest) c =
      Leaves Mrets (mkCore g (ctl c) (words c)) /\
    forall r, r <> zero -> g r = rd (words c) (f + offset r).
Proof.
  intros Hf Ha Hl Hu. rewrite <- app_assoc.
  destruct (restore_run Machine f 248 ltac:(lia) (write t6 f c) (words c) ([Mret] ++ rest)) as (g & E & Hg).
  - apply set_eq.
  - by apply window_machine.
  - done.
  - exists g. split; [|done]. rewrite <- Hf in E. erewrite exec_next by reflexivity. rewrite E. reflexivity.
Qed.

(** The forwarding. *)
Lemma mtrap_forward_run f c rest :
  ctl c Mscratch = f -> f mod 8 = 0 -> DRAM_BASE <= f -> f + 248 <= PHYS_TOP -> 0 <= ctl c Mstatus < 18446744073709551616 ->
  exists c', exec_code Machine (mtrap_forward ++ rest) c = Leaves Mrets c' /\ words c' = words c /\
    (forall r, r <> zero -> regs c' r = rd (words c) (f + offset r)) /\
    ctl c' Sepc = rd (words c) m_forward_sepc /\ ctl c' Scause = rd (words c) m_forward_scause /\
    ctl c' Stval = rd (words c) m_forward_stval /\ ctl c' Sscratch = rd (words c) m_forward_sscratch /\
    ctl c' Sstatus = rd (words c) m_forward_sstatus /\ ctl c' Mepc = smode_trap_vector /\
    ctl c' Mstatus = Z.lor (Z.ldiff (ctl c Mstatus) MSTATUS_MPP_MASK) MSTATUS_MPP_S.
Proof.
  intros Hf Ha Hl Hu Hm. unfold mtrap_forward. cbn [app].
  rewrite !load_global by apply Hi. cbn [regs ctl words].
  match goal with |- context [exec_code Machine _ ?c5] => set (c5' := c5) end.
  destruct (mpp_run c5' (Csrr t6 Mscratch :: (restore_all_registers ++ [Mret]) ++ rest) Hm) as (g & ->).
  match goal with |- context [exec_code Machine _ ?c6] => destruct (mtrap_tail_run f c6 rest Hf Ha Hl Hu) as (g' & -> & Hg) end.
  eexists. split; [reflexivity|]. split; [done|]. split; [exact Hg|]. repeat split.
Qed.

Lemma int_zero v : (u64 (i32 v) =? 0) = (i32 v =? 0).
Proof. apply eq_true_iff_eq. rewrite !Z.eqb_eq. unfold i32. destruct (_ <? _) eqn:E; klia. Qed.

(** The test of [m_forward_to_s]. *)
Lemma to_s_run c rest :
  exists g, exec_code Machine (La t0 m_forward_to_s :: Lw t1 0 t0 :: Beqz t1 (length mtrap_forward) :: mtrap_forward ++ rest) c =
    if int_at (words c) m_forward_to_s =? 0 then exec_code Machine rest (mkCore g (ctl c) (words c))
    else exec_code Machine (mtrap_forward ++ rest) (mkCore g (ctl c) (words c)).
Proof.
  pose proof (ok_to_s Hi) as Ho. set (v := int_at (words c) m_forward_to_s).
  set (g := set t1 (u64 v) (set t0 m_forward_to_s (regs c))). exists g.
  erewrite exec_next by reflexivity.
  rewrite (exec_next _ _ _ _ (mkCore g (ctl c) (words c))).
  2: { cbn [step read]. unfold write. cbn [regs ctl words]. rewrite set_eq.
       replace (u64 (m_forward_to_s + 0)) with m_forward_to_s by
         (revert Ho; unfold addr_ok; rewrite !andb_true_iff, !Z.leb_le; intros ((? & ?) & _); klia).
       unfold access. cbn [translate]. by rewrite Ho. }
  assert (Ht : (read (mkCore g (ctl c) (words c)) t1 =? 0) = (v =? 0)) by (cbn [read regs]; unfold g; rewrite set_eq; apply int_zero).
  destruct (v =? 0) eqn:E.
  - rewrite (exec_skip _ _ (length mtrap_forward) _ _ (mkCore g (ctl c) (words c))) by (cbn [step]; by rewrite Ht).
    by rewrite drop_app_length.
  - by rewrite (exec_next _ _ _ _ (mkCore g (ctl c) (words c))) by (cbn [step]; by rewrite Ht).
Qed.

(** The code behind [handle_mtrap] refines [mtrap_leave]. *)
Lemma mtrap_exit_run f h (b : board H) c :
  ctl c Mscratch = f -> f mod 8 = 0 -> DRAM_BASE <= f -> f + 248 <= PHYS_TOP -> 0 <= ctl c Mstatus < 18446744073709551616 ->
  hart_view b h c -> forward_view (words c) (m_forward b) ->
  exists pc md b' c', mtrap_leave h b = Ret (pc, md) b' /\ exec_code Machine mtrap_exit c = Leaves Mrets c' /\
    hart_view b' h c' /\ ctl c' Mepc = pc /\ Z.land (ctl c' Mstatus) MSTATUS_MPP_MASK = md /\ words c' = words c /\
    forall r, r <> zero -> regs c' r = rd (words c) (f + offset r).
Proof.
  intros Hf Ha Hl Hu Hm [(r & Hr & Hms & Hme & Hss) (k & Hk & Hst & Hse & Hca & Htv)] (Hts & Hv1 & Hv2 & Hv3 & Hv4 & Hv5).
  destruct (to_s_run c ([Csrr t6 Mscratch] ++ restore_all_registers ++ [Mret])) as (g & E). rewrite Hts in E.
  destruct (to_s (m_forward b) =? 0) eqn:Ez.
  - destruct (mtrap_tail_run f (mkCore g (ctl c) (words c)) [] Hf Ha Hl Hu) as (g' & Eg & Hg). rewrite app_nil_r in Eg.
    exists (mepc r), (Z.land (mstatus r) MSTATUS_MPP_MASK), b, (mkCore g' (ctl c) (words c)).
    split; [apply leave_back; [done|lia]|]. split; [etrans; [exact E|exact Eg]|].
    split; [by split; [exists r|exists k]|]. split; [done|]. split; [cbn; by rewrite Hms|]. split; [done|exact Hg].
  - destruct (mtrap_forward_run f (mkCore g (ctl c) (words c)) ([Csrr t6 Mscratch] ++ restore_all_registers ++ [Mret]) Hf Ha Hl Hu Hm)
      as (c' & Eg & Hw & Hg & H1' & H2' & H3' & H4' & H5' & H6' & H7').
    destruct (leave_forward h b r k Hr Hk ltac:(lia)) as (b' & El & Hc' & (r' & Hr' & Hs' & He' & Hm') & _).
    exists smode_trap_vector, MSTATUS_MPP_S, b', c'. cbn [words ctl] in *.
    split; [done|]. split; [etrans; [exact E|exact Eg]|].
    split; [split; [exists r'; rewrite Hs', He', Hm', <- Hms, <- Hv4; done|]|].
    + eexists. split; [exact Hc'|]. cbn. by rewrite <- Hv1, <- Hv2, <- Hv3, <- Hv5.
    + split; [done|]. split; [|done]. rewrite H7'. rewrite <- (Z.lor_0_r (_ .| MSTATUS_MPP_S)). by apply mpp_supervisor.
Qed.

(** C25: a machine trap.  [mtrapvec] saves the registers of the interrupted code in
    the frame of the hart and calls [handle_mtrap] on the stack of the hart; when the
    frame is still there afterwards, the code behind the call does what
    [mtrap_leave] says, also when a trap is forwarded to S-mode, and [mret] finds
    every register as it was but [t6], which holds the address of the frame. *)
Theorem mtrap_refines h f c :
  (h < NCPU)%nat -> ctl c Mhartid = Z.of_nat h -> ctl c Mscratch = f ->
  f mod 8 = 0 -> DRAM_BASE <= f -> f + 248 <= PHYS_TOP ->
  exists c1, exec_code Machine mtrap_entry c = Leaves (Calls handle_mtrap_addr) c1 /\
    regs c1 sp = stack_top h /\ ctl c1 Mscratch = f /\ outside f 248 (words c) (words c1) /\
    (forall k, k <> Mscratch -> ctl c1 k = ctl c k) /\
    forall (b : board H) c2,
      ctl c2 Mscratch = f -> (forall o, 0 <= o < 248 -> rd (words c2) (f + o) = rd (words c1) (f + o)) ->
      0 <= ctl c2 Mstatus < 18446744073709551616 -> hart_view b h c2 -> forward_view (words c2) (m_forward b) ->
      exists pc md b' c3, mtrap_leave h b = Ret (pc, md) b' /\ exec_code Machine mtrap_exit c2 = Leaves Mrets c3 /\
        hart_view b' h c3 /\ ctl c3 Mepc = pc /\ Z.land (ctl c3 Mstatus) MSTATUS_MPP_MASK = md /\ words c3 = words c2 /\
        forall r, r <> zero -> regs c3 r = if decide (r = t6) then f else regs c r.
Proof.
  intros Hh Hc Hf Ha Hl Hu.
  destruct (mtrap_entry_run Hi h f c Hh Hc Hf Ha Hl Hu) as (c1 & E1 & Hsp & Hms & Hfr & Hout & Hk).
  exists c1. do 5 (split; [done|]). intros b c2 Hms2 Hkeep Hm Hv Hfv.
  destruct (mtrap_exit_run f h b c2 Hms2 Ha Hl Hu Hm Hv Hfv) as (pc & md & b' & c3 & E & E3 & Hv' & Hpc & Hmd & Hw & Hr).
  exists pc, md, b', c3. do 6 (split; [done|]). intros r Hz. rewrite Hr, Hkeep by (done || by apply offset_bounds). by apply Hfr.
Qed.
End Exit.

(** ** A run *)

Module AsmMtrapDemo.
#[local] Existing Instances sample_host sample_linker sample_buffers board_hart.
#[local] Instance demo_image : Image := {|
  stack0 := 2147487744; m_start_addr := 2147484000; handle_mtrap_addr := 2147484100; m_forward_to_s := 2147500804;
  m_forward_sepc := 2147500808; m_forward_scause := 2147500816; m_forward_stval := 2147500824;
  m_forward_sscratch := 2147500832; m_forward_sstatus := 2147500840 |}.

Lemma demo_image_ok : image_ok.
Proof. split; [reflexivity..|cbv; split; congruence]. Qed.

Lemma mentry_stacks_witness :
  exists c', exec_code Machine mentry (mkCore (fun _ => 0) (set Mhartid 1 (fun _ => 0)) ∅) = Leaves (Calls 2147484000) c' /\
    regs c' sp = 2147495936.
Proof.
  destruct (mentry_stacks demo_image_ok 1 (mkCore (fun _ => 0) (set Mhartid 1 (fun _ => 0)) ∅)) as [(c' & E & Hsp & _) _].
  - unfold NCPU. lia.
  - reflexivity.
  - exists c'. split; [exact E|exact Hsp].
Defined.

(** Hart 0 with its frame at 2147500032; something is to be forwarded. *)
Definition demo_ctl (k : ctrl) : Z :=
  match k with Mscratch => 2147500032 | Mepc => 70000 | Sstatus => 32 | _ => 0 end.
Definition demo_core : core := mkCore (set s3 33 (set a0 10 (fun _ => 0))) demo_ctl {[ 2147500800 := 4294967296 ]}.
Definition forward_board : board (list Z) := set_forward (mkFwd 1 0 0 0 0 0) demo_board.

Lemma mtrap_refines_witness :
  exists c1, exec_code Machine mtrap_entry demo_core = Leaves (Calls 2147484100) c1 /\ regs c1 sp = 2147491840 /\
    exists b' c3, mtrap_leave 0 forward_board = Ret (2147483712, MSTATUS_MPP_S) b' /\
      exec_code Machine mtrap_exit (mkCore (fun _ => 0) demo_ctl (words c1)) = Leaves Mrets c3 /\
      regs c3 s3 = 33 /\ regs c3 a0 = 10 /\ regs c3 t6 = 2147500032 /\ ctl c3 Mepc = 2147483712.
Proof.
  destruct (mtrap_refines (H := list Z) demo_image_ok 0 2147500032 demo_core) as (c1 & E1 & Hsp & _ & Hout & _ & Hnext).
  - unfold NCPU. lia.
  - reflexivity.
  - reflexivity.
  - reflexivity.
  - cbv; congruence.
  - cbv; congruence.
  - exists c1. split; [exact E1|]. split; [exact Hsp|].
    destruct (Hnext forward_board (mkCore (fun _ => 0) demo_ctl (words c1))) as (pc & md & b' & c3 & E & E3 & _ & Hpc & Hmd & _ & Hr).
    + reflexivity.
    + done.
    + cbn; lia.
    + split; [exists timer_hart|exists board_csr]; repeat split; reflexivity.
    + cbn [words]. unfold forward_view, int_at.
      cbn [demo_image m_forward_to_s m_forward_sepc m_forward_scause m_forward_stval m_forward_sscratch m_forward_sstatus].
      change (2147500804 - 2147500804 mod 8) with 2147500800. rewrite !Hout by lia. repeat split; reflexivity.
    + assert (mtrap_leave 0 forward_board = Ret (2147483712, MSTATUS_MPP_S) (final (mtrap_leave 0 forward_board))) as El by reflexivity.
      rewrite El in E. injection E as <- <- <-.
      exists (final (mtrap_leave 0 forward_board)), c3. split; [exact El|]. split; [exact E3|]. rewrite !Hr by discriminate. repeat split. exact Hpc.
Defined.
End AsmMtrapDemo.
