(* ===== verification/Console.v ===== *)
(** * Output (spike_utils.c, [sys_user_print])

    The console of machine mode, panics, and what a text that a program prints
    becomes on its way to the host. *)
From S2P Require Import Prelude Pmm Vmm Process Sched Fork Heap Strap Pages HashTable CString Snprintf Bytes DebugLine.
From S2P Require Import VfsData Rfs RfsDisk RfsFile RfsDir Vfs VfsRefs ProcFile SpikeFile Hostfs Machine Elf ElfLoad Syscall.
From S2P Require Import UserIO Mtrap MtrapProps Htif.

(** ** Output through the console device *)

Section Device.
Context {D : Type} `{Emulator D}.
#[local] Notation HM := (M (htif_state D)).

(** [htif] says whether the device is there. *)
Definition mcall_console_putchar (fuel : nat) (htif ch : Z) : HM Z :=
  when (negb (htif =? 0)) (htif_console_putchar fuel (u8 ch)) ;;; ret 0.

(** The string at [s] of the memory [m]. *)
Fixpoint putstring (n fuel : nat) (htif : Z) (m : bmem) (s : Z) : HM unit :=
  match n with
  | O => halt OutOfFuel
  | S n' =>
      if m s =? 0 then ret tt else
      let* _ := mcall_console_putchar fuel htif (m s) in
      putstring n' fuel htif m (s + 1)
  end.

(** [char buf[256]] lies at [buf]. *)
Definition vprintm (fuel sf : nat) (htif buf s : Z) (vl : list Z) (m : bmem) : HM unit :=
  match vsnprintf fuel sf buf 256 s vl m with
  | Ret _ m' => putstring 256 fuel htif m' buf
  | Stop e _ => halt e
  end.
End Device.

(** ** Output through the files of the host *)

Section Host.
Context {H : Type} `{Frontend H} `{Linker} `{Buffers}.
#[local] Notation SM := (M (sys H)).

Definition printk (s : Z) (args : list Z) : SM unit := vprintk s args.

(** The host ends the emulation. *)
Definition shutdown_kernel (code : Z) : SM unit :=
  print_text (txt "System is shutting down with exit code " ++ show_dec code ++ txt "." ++ [10]) ;;;
  halt (Shutdown code).

Definition poweroff (htif code : Z) : SM unit :=
  check (htif =? 0) (Panic "assert(htif)") ;;;
  print_text (txt "Power off" ++ [13; 10]) ;;;
  halt (Shutdown 0).

(** [sprint(s, vl)]: the list of arguments is itself the first argument; [stale] are
    the registers behind it. *)
Definition do_panic (s vl : Z) (stale : list Z) : SM unit :=
  sprint s (vl :: stale) ;;;
  shutdown_kernel (-1).

(** [msg] is the address of the format of the message. *)
Definition kassert_fail (msg vl : Z) (stale : list Z) : SM unit :=
  do_panic msg vl stale ;;;
  shutdown_kernel (-1).

(** ** A format is printed *)

Lemma view_ok m : bytes_ok (view m).
Proof. intros a. unfold view, byte_in. apply Z.mod_pos_bound. lia. Qed.

Lemma bytes_from_eq m n a l :
  length l = n -> (forall i c, l !! i = Some c -> m (a + Z.of_nat i) = c) -> bytes_from m n a = l.
Proof.
  revert n a. induction l as [|c l IH]; intros n a <- Hl; [done|]. cbn [length bytes_from]. f_equal.
  - rewrite <- (Hl 0%nat c eq_refl). f_equal. lia.
  - apply IH; [done|]. intros i d Hi. rewrite <- (Hl (S i) d Hi). f_equal. lia.
Qed.

(** What [vprintk] takes from its buffer. *)
Lemma printed_bytes m' l :
  (forall i c, take 255 l !! i = Some c -> m' (out_buf + Z.of_nat i) = c) ->
  m' (out_buf + Z.min (Z.of_nat (length l)) 255) = 0 ->
  bytes_from m' (Z.to_nat (if Z.of_nat (length l) <? 256 then Z.of_nat (length l) else 256)) out_buf = printed l.
Proof.
  intros Hl Hz. unfold printed. destruct (Nat.ltb (length l) 256) eqn:E.
  - apply Nat.ltb_lt in E. rewrite (proj2 (Z.ltb_lt _ _)) by lia. apply bytes_from_eq; [lia|].
    intros i c Hi. apply Hl. rewrite take_ge by lia. done.
  - apply Nat.ltb_ge in E. rewrite (proj2 (Z.ltb_ge _ _)) by lia. apply bytes_from_eq.
    + rewrite length_app, length_take. cbn [length]. lia.
    + intros i c Hi. apply lookup_app_Some in Hi as [Hi|[Hle Hi]]; [by apply Hl|]. rewrite length_take in *.
      destruct (i - _)%nat eqn:Ei; [|done]. cbn in Hi. simplify_eq. rewrite <- Hz. f_equal. lia.
Qed.

(** [sprint] writes the text that its format denotes to [stderr]. *)
Lemma vprintk_text fmt l args str t (s : sys H) :
  in_ram fmt (Z.of_nat (S (length l))) ->
  apart_from_buffer (view (mem (pmem s))) out_buf 256 fmt l ->
  (forall a l, str a = Some l -> apart_from_buffer (view (mem (pmem s))) out_buf 256 a l /\ (length l < fuel_str)%nat) ->
  render str l false false args = Some t -> Z.of_nat (length t) < 2 ^ 31 -> Z.of_nat (length t) < 256 \/ 99 ∉ l ->
  vprintk fmt args s = print_text t s.
Proof.
  intros Hram Hfmt Hstr Hr Hlen Hc. unfold vprintk.
  rewrite (bind_Ret _ _ s l s).
  2: { rewrite (on_mem_run _ s (pmem s) l (pmem s) eq_refl) by (apply load_str_run; [done|apply Hfmt]).
       f_equal. by destruct s as [[[]] ? ? ? ? ? ? ? ? ? ? ? ?]. }
  rewrite (bind_Ret _ _ s (kern (fpages s)) s) by by apply on_kern_run.
  destruct (vsnprintf_run (view (mem (pmem s))) out_buf 256 fmt l args str t (S (length l)) fuel_str)
    as (m' & E & Hbuf & _); auto using view_ok; [lia|].
  fold (pmem s). rewrite E. destruct (Hbuf ltac:(lia)) as [Hl Hz].
  replace (u64 (Z.of_nat (length t))) with (Z.of_nat (length t)) by (change (2 ^ 31) with 2147483648 in Hlen; klia).
  by rewrite (printed_bytes m' t Hl Hz).
Qed.

(** ** What a program prints *)

Lemma render_plain str l : forall args, 37 ∉ l -> render str l false false args = Some l.
Proof.
  induction l as [|c l IH]; intros args Hl; [done|]. cbn [render]. apply not_elem_of_cons in Hl as [Hc Hl].
  rewrite (proj2 (Z.eqb_neq c 37)) by congruence. by rewrite IH.
Qed.

(** [user_va_to_pa] finds the frame. *)
Lemma frame_address w off :
  in_ram (PTE2PA w) PGSIZE -> 0 <= off < PGSIZE ->
  u64 (Z.shiftl (Z.land (Z.shiftr w 10) 70368744177663) 12 + off) = PTE2PA w + off.
Proof.
  unfold in_ram, PTE2PA. change 70368744177663 with (Z.ones 46). rewrite Z.land_ones by lia.
  rewrite !Z.shiftl_mul_pow2 by lia. set (v := Z.shiftr w 10). change (2 ^ 46) with 70368744177664. change (2 ^ 12) with 4096.
  intros Hr Ho. klia.
Qed.

Lemma user_pa_run (s : sys H) tp fr u lo n :
  resident s tp fr u lo n -> 0 <= lo -> lo + n <= MAXVA -> 0 < n ->
  user_pa tp lo s = Ret (fr (lo / PGSIZE) + lo mod PGSIZE) s.
Proof.
  intros [(p & x & Hc & Hp & Hwf & Hx) Hram _] Hlo Hhi Hn. unfold user_pa.
  rewrite (bind_Ret _ _ _ _ _ (user_pagetable_run s tp p x Hc Hp)).
  destruct (Hx lo ltac:(lia)) as (w & Hw & _ & Hfr). specialize (Hram lo ltac:(lia)). rewrite <- Hfr in *.
  rewrite (on_mem_run _ s (pmem s) (PTE2PA w + lo mod PGSIZE) (pmem s) eq_refl).
  - f_equal. by destruct s as [[[]] ? ? ? ? ? ? ? ? ? ? ? ?].
  - rewrite user_va_to_pa_run, Hw by (done || lia). by rewrite frame_address by (done || klia).
Qed.

(** The string of the program as the kernel sees it. *)
Lemma resident_cstr (s : sys H) tp fr u lo n : resident s tp fr u lo n ->
  forall l a, lo <= a -> a + Z.of_nat (length l) < lo + n -> a / PGSIZE = (a + Z.of_nat (length l)) / PGSIZE ->
  cstr u a l -> cstr (view (mem (pmem s))) (fr (a / PGSIZE) + a mod PGSIZE) l.
Proof.
  intros Hr. induction l as [|c l IH]; intros a Hlo Hhi Hp; cbn [cstr length] in *.
  - intros <-. apply (res_bytes _ _ _ _ _ _ Hr). lia.
  - intros (Hc & Hnz & Hl). split; [rewrite (res_bytes _ _ _ _ _ _ Hr) by lia; done|]. split; [done|].
    assert (Hq : (a + 1) / PGSIZE = a / PGSIZE) by klia.
    replace (fr (a / PGSIZE) + a mod PGSIZE + 1) with (fr ((a + 1) / PGSIZE) + (a + 1) mod PGSIZE) by (rewrite Hq; klia).
    apply IH; [lia|lia|klia|done].
Qed.

Lemma print_text_run l (s : sys H) e :
  spike_files (spk (fpages s)) !! 2%nat = Some e ->
  print_text l s = Ret tt (set_khost (snd (host_write (kfd e) (printed l) (host (spk (fpages s))))) s).
Proof.
  intros He. unfold print_text. destruct (host_write (kfd e) (printed l) (host (spk (fpages s)))) as [r h] eqn:Ew.
  rewrite (bind_Ret _ _ s r (set_khost h s)); [done|].
  unfold on_host, on_machine, zoom, spike_file_write, bind, get_file. change (stderr =? 0) with false.
  change (Z.to_nat (stderr - 1)) with 2%nat. cbn -[lookup]. rewrite He. unfold call. by rewrite Ew.
Qed.

(** C34: the text of a program reaches the console.  A string inside a page of the
    program, as [printu] makes them (at most 255 bytes), without a percent sign, is
    what the host is asked to write to [stderr], byte by byte, and nothing of the
    kernel changes. *)
Theorem sys_user_print_correct (s : sys H) tp fr u buf n l e :
  resident s tp fr u buf (Z.of_nat (S (length l))) -> 0 <= buf -> buf + Z.of_nat (S (length l)) <= MAXVA ->
  buf / PGSIZE = (buf + Z.of_nat (length l)) / PGSIZE -> cstr u buf l -> 37 ∉ l -> (length l < 256)%nat ->
  (forall a, fr (buf / PGSIZE) <= a < fr (buf / PGSIZE) + PGSIZE -> ~ out_buf <= a < out_buf + 256) ->
  spike_files (spk (fpages s)) !! 2%nat = Some e ->
  exists s', sys_user_print tp buf n s = Ret 0 s' /\ kern (fpages s') = kern (fpages s) /\
    host (spk (fpages s')) = snd (host_write (kfd e) l (host (spk (fpages s)))).
Proof.
  intros Hr Hlo Hhi Hp Hu Hpc Hlen Hap He. pose proof Hr as [(p & x & Hc & Hx & _) Hram _].
  specialize (Hram buf ltac:(lia)). set (pa := fr (buf / PGSIZE) + buf mod PGSIZE).
  assert (Hcs : cstr (view (mem (pmem s))) pa l) by (eapply resident_cstr; eauto; lia).
  assert (Hend : pa + Z.of_nat (length l) < fr (buf / PGSIZE) + PGSIZE) by (unfold pa; klia).
  assert (Hpa : fr (buf / PGSIZE) <= pa) by (unfold pa; klia).
  set (s1 := set_fpages (set_junk (fun n => junk (fpages s) (S n)) (fpages s)) s).
  exists (set_khost (snd (host_write (kfd e) l (host (spk (fpages s))))) s1). split; [|done].
  unfold sys_user_print. rewrite (bind_Ret _ _ s (Some p) s) by (apply on_kern_run; unfold get_current; by rewrite Hc).
  cbn [bool_decide decide check]. rewrite (bind_Ret _ _ s tt s) by done.
  rewrite (bind_Ret _ _ _ _ _ (user_pa_run _ _ _ _ _ _ Hr Hlo Hhi ltac:(lia))). fold pa.
  erewrite (bind_Ret _ _ s _ s1) by reflexivity. unfold sprint.
  rewrite (bind_Ret _ _ s1 tt (set_khost (snd (host_write (kfd e) l (host (spk (fpages s))))) s1)); [done|].
  rewrite (vprintk_text pa l _ (fun _ => None) l s1).
  - rewrite (print_text_run l s1 e He). unfold printed. by rewrite (proj2 (Nat.ltb_lt _ _)).
  - unfold in_ram in *. lia.
  - split; [exact Hcs|]. destruct (decide (out_buf + 256 <= pa)); [by left|].
    destruct (decide (pa + Z.of_nat (length l) < out_buf)); [by right|].
    destruct (Hap (Z.max pa out_buf)); lia.
  - done.
  - by apply render_plain.
  - lia.
  - left. lia.
Qed.
End Host.

(** ** A run *)

Module ConsoleDemo.
#[local] Existing Instances sample_host sample_linker sample_buffers.
(** The program of UserIO.v, whose page holds "hi!", with the console open. *)
Definition console_sys : sys (list Z) :=
  set_fpages (set_spk (mkSp [mkSpikeFile 0 4; mkSpikeFile 1 4; mkSpikeFile 2 4] [1; 2; 3] []) (fpages (io_sys []))) (io_sys []).

Lemma sys_user_print_correct_witness :
  exists s', sys_user_print 0 4194304 3 console_sys = Ret 0 s' /\ host (spk (fpages s')) = [104; 105; 33].
Proof.
  destruct (sys_user_print_correct console_sys 0 (fun _ => one_page) (fun va => view io_mem (one_page + va mod PGSIZE))
              4194304 3 [104; 105; 33] (mkSpikeFile 2 4)) as (s' & E & _ & Hh).
  - apply io_resident_in; [reflexivity|vm_compute; congruence].
  - lia.
  - vm_compute. congruence.
  - reflexivity.
  - repeat split; vm_compute; congruence.
  - rewrite !elem_of_cons, elem_of_nil. lia.
  - cbn. lia.
  - cbn. unfold one_page. lia.
  - reflexivity.
  - exists s'. split; [exact E|exact Hh].
Defined.
End ConsoleDemo.
