(* ===== verification/HeapSpace.v ===== *)
(** * The pages of a process heap

    Two kinds of pages carry the heap of a process: the frames behind its virtual
    pages, and pages of the kernel with the bookkeeping.  This file says which
    pages are whose ([private], [frames_ok]) and that allocating, mapping, unmapping
    and writing keep it so. *)
From S2P Require Import Prelude Pmm Vmm Process Sched Fork Strap Cow Heap.

(** A page of the kernel: neither free nor a table of the address space. *)
Definition private (t : pstate) (l : list Z) (root a : Z) : Prop :=
  table_page a /\ a ∉ l /\ ~ tables_of (mem t) root a.

Lemma table_page_neq a b o o' : table_page a -> table_page b -> 0 <= o < PGSIZE -> 0 <= o' < PGSIZE -> a + o = b + o' -> a = b.
Proof. intros (? & _) (? & _) ? ? ?. klia. Qed.

(** Only words of the pages [P] change. *)
Definition only (P : list Z) (m m' : gmap Z Z) : Prop := forall a, (forall p, p ∈ P -> ~ in_page a p) -> rd m' a = rd m a.

Lemma only_refl P m : only P m m.
Proof. done. Qed.
Lemma only_trans P m1 m2 m3 : only P m1 m2 -> only P m2 m3 -> only P m1 m3.
Proof. intros H1 H2 a Ha. by rewrite H2, H1. Qed.
Lemma only_sub P Q m m' : (forall p, p ∈ P -> p ∈ Q) -> only P m m' -> only Q m m'.
Proof. intros Hs Ho a Ha. apply Ho. auto. Qed.
Lemma only_store P m p o v : p ∈ P -> 0 <= o < PGSIZE -> only P m (<[p + o := v]> m).
Proof. intros Hp Ho a Ha. apply rd_insert_ne. intros <-. apply (Ha p Hp). unfold in_page. lia. Qed.
Lemma only_page P m m' a o :
  only P m m' -> Forall table_page P -> table_page a -> a ∉ P -> 0 <= o < PGSIZE -> rd m' (a + o) = rd m (a + o).
Proof.
  intros Ho Hp Ha Hn Hoff. apply Ho. intros p Hin Hq. apply Hn. rewrite list.Forall_forall in Hp. destruct (Hp p Hin) as (? & _).
  destruct Ha as (? & _). unfold in_page in Hq. assert (a = p) as -> by klia. done.
Qed.

Section Frame.
Variables (t t' : pstate) (l l' : list Z) (root : Z).
Hypothesis Hf : vm_frame t l t' l' root.
Hypothesis Hi : vm_inv t l root.

Lemma frame_sub p : p ∈ l' -> p ∈ l.
Proof. intros Hp. destruct (vf_suffix _ _ _ _ _ Hf) as [k E]. rewrite E. apply elem_of_app. by right. Qed.

Lemma frame_private a : private t l root a -> private t' l' root a.
Proof.
  intros (Hp & Hl & Ht). split; [done|]. split; [by intros ?%frame_sub|].
  intros (π & Hok & Hπ). destruct (vf_new _ _ _ _ _ Hf π a Hok Hπ) as [?|?]; [|done]. apply Ht. by exists π.
Qed.

(** A page of the kernel is not touched. *)
Lemma frame_word a o : private t l root a -> 0 <= o < PGSIZE -> rd (mem t') (a + o) = rd (mem t) (a + o).
Proof.
  intros (Hp & Hl & Ht) Ho. apply (vf_mem _ _ _ _ _ Hf).
  - intros p Hin Hq. apply Hl. pose proof (proj1 (inv_free _ _ (vm_pmm _ _ _ Hi) p) Hin) as [(Hpa & _) _].
    assert (a = p) as ->; [|done]. destruct Hp as (? & _). unfold in_page in Hq. klia.
  - intros π u Hok Hu Hq. apply Ht. pose proof (pt_page _ _ (vm_pt _ _ _ Hi) π u Hok Hu) as (Hua & _).
    assert (a = u) as ->; [|by exists π]. destruct Hp as (? & _). unfold in_page in Hq. klia.
Qed.

Lemma frame_managed p : managed t' p <-> managed t p.
Proof. unfold managed. by rewrite (vf_start _ _ _ _ _ Hf), (vf_end _ _ _ _ _ Hf). Qed.
End Frame.

(** [alloc_page] on the first free page. *)
Section Alloc.
Variables (t : pstate) (q : Z) (l : list Z) (root : Z).
Hypothesis Hi : vm_inv t (q :: l) root.

Lemma alloc_managed : managed t q /\ page_ref t q = 0.
Proof. apply (inv_free _ _ (vm_pmm _ _ _ Hi)). by left. Qed.

Lemma alloc_frame : vm_frame t (q :: l) (alloc_result t q) l root.
Proof.
  pose proof (vm_pmm _ _ _ Hi) as Hpm. split; try done.
  - eapply vm_inv_counts; [exact Hi|done|by apply (alloc_result_inv _ (q :: l))|]. by right.
  - by exists [q].
  - by left.
  - intros p Hp Hl. rewrite (page_ref_alloc _ _ Hpm) by (done || apply alloc_managed).
    rewrite decide_False; [done|]. intros ->. apply Hl. by left.
Qed.

Lemma alloc_private : private (alloc_result t q) l root q.
Proof.
  pose proof (vm_pmm _ _ _ Hi) as Hpm. destruct alloc_managed as [Hm _]. pose proof (inv_geo _ _ Hpm) as [].
  split; [|split].
  - destruct Hm as (? & ? & ?). split; [done|]. lia.
  - pose proof (inv_nodup _ _ Hpm) as Hn. by apply list.NoDup_cons in Hn as [? _].
  - intros (π & Hok & Ht). apply (vm_sep _ _ _ Hi π q Hok Ht). by left.
Qed.

Lemma alloc_ref : page_ref (alloc_result t q) q = 1.
Proof. rewrite (page_ref_alloc _ _ (vm_pmm _ _ _ Hi)) by apply alloc_managed. by rewrite decide_True. Qed.
End Alloc.

(** A store into a page of the kernel. *)
Lemma store_private t l root p o v :
  vm_inv t l root -> private t l root p -> 0 <= o < PGSIZE ->
  let t' := set_mem (<[p + o := v]> (mem t)) t in
  vm_inv t' l root /\ (forall a, private t l root a -> private t' l root a) /\
  (forall y, xlate (mem t') root y = xlate (mem t) root y) /\ (forall a, tables_of (mem t') root a <-> tables_of (mem t) root a).
Proof.
  intros Hi (Hp & Hl & Ht) Ho t'. destruct (vm_inv_store t l root p o v Hi (proj1 Hp) Ho Hl Ht) as [Hi' Hag].
  assert (Htab : forall a, tables_of (mem t') root a <-> tables_of (mem t) root a) by (intros a; by apply tables_shrink).
  split; [exact Hi'|]. split; [|split; [intros y; by apply agree_xlate|done]].
  intros a (? & ? & ?). split; [done|]. split; [done|]. by rewrite Htab.
Qed.

(** ** The frames of the heap area *)

(** The pages of [bot, lim) that are mapped: readable, each in a frame of its own that
    the allocator counts and that is not one of the pages [own] of the kernel. *)
Record frames_ok (t : pstate) (root bot lim : Z) (own : list Z) : Prop := {
  fr_frame : forall y w, bot <= y < lim -> xlate (mem t) root y = Some w ->
    has w PTE_R = true /\ PTE_FLAGS w <> PTE_V /\ managed t (PTE2PA w) /\ 0 < page_ref t (PTE2PA w) /\
    ~ tables_of (mem t) root (PTE2PA w) /\ PTE2PA w ∉ own;
  fr_inj : forall y y' w w', bot <= y < lim -> bot <= y' < lim -> xlate (mem t) root y = Some w -> xlate (mem t) root y' = Some w' ->
    PTE2PA w = PTE2PA w' -> y / PGSIZE = y' / PGSIZE
}.

Lemma counted_not_free t l root p : vm_inv t l root -> 0 < page_ref t p -> p ∉ l.
Proof. intros Hi Hr Hp. apply (inv_free _ _ (vm_pmm _ _ _ Hi)) in Hp as [_ Hp]. lia. Qed.

(** An operation that keeps the translations. *)
Lemma frames_frame t l t' l' root bot lim own :
  vm_frame t l t' l' root -> vm_inv t l root ->
  (forall y, bot <= y < lim -> xlate (mem t') root y = xlate (mem t) root y) ->
  frames_ok t root bot lim own -> frames_ok t' root bot lim own.
Proof.
  intros Hf Hi Hx [Hfr Hinj]. split.
  - intros y w Hy Hw. rewrite Hx in Hw by done. destruct (Hfr y w Hy Hw) as (HR & Hfl & Hm & Hr & Ht & Ho).
    pose proof (counted_not_free _ _ _ _ Hi Hr) as Hnl.
    split; [done|]. split; [done|]. split; [by apply (frame_managed _ _ _ _ _ Hf)|].
    split; [by rewrite (vf_ref _ _ _ _ _ Hf)|]. split; [|done].
    intros (π & Hok & Hπ). destruct (vf_new _ _ _ _ _ Hf π _ Hok Hπ) as [?|?]; [|done]. apply Ht. by exists π.
  - intros y y' w w' Hy Hy' Hw Hw'. rewrite Hx in Hw, Hw' by done. eauto.
Qed.

(** The first free page becomes a page of the kernel. *)
Lemma frames_alloc t q l root bot lim own :
  vm_inv t (q :: l) root -> frames_ok t root bot lim own -> frames_ok (alloc_result t q) root bot lim (q :: own).
Proof.
  intros Hi Hfr. pose proof (frames_frame _ _ _ _ _ _ _ _ (alloc_frame _ _ _ _ Hi) Hi (fun y _ => eq_refl) Hfr) as [H1 H2].
  split; [|done]. intros y w Hy Hw. destruct (H1 y w Hy Hw) as (? & ? & ? & Hr & ? & Ho). repeat (split; [done|]).
  apply not_elem_of_cons. split; [|done]. intros E.
  destruct (fr_frame _ _ _ _ _ Hfr y w Hy Hw) as (_ & _ & _ & Hr0 & _). rewrite E in Hr0.
  destruct (alloc_managed _ _ _ _ Hi). lia.
Qed.

Lemma frames_store t l root bot lim own p o v :
  vm_inv t l root -> private t l root p -> 0 <= o < PGSIZE -> frames_ok t root bot lim own ->
  frames_ok (set_mem (<[p + o := v]> (mem t)) t) root bot lim own.
Proof.
  intros Hi Hp Ho [Hfr Hinj]. destruct (store_private t l root p o v Hi Hp Ho) as (_ & _ & Hx & Ht). split.
  - intros y w Hy Hw. rewrite Hx in Hw. destruct (Hfr y w Hy Hw) as (? & ? & ? & ? & ? & ?).
    repeat (split; [done|]). split; [by rewrite Ht|done].
  - intros y y' w w' Hy Hy'. rewrite !Hx. eauto.
Qed.

Lemma frames_sub t root bot lim own own' : (forall a, a ∈ own' -> a ∈ own) -> frames_ok t root bot lim own -> frames_ok t root bot lim own'.
Proof.
  intros Hs [Hfr Hinj]. split; [|done]. intros y w Hy Hw. destruct (Hfr y w Hy Hw) as (? & ? & ? & ? & ? & Ho).
  repeat (split; [done|]). auto.
Qed.

(** ** Mapping *)

Definition heap_perm : Z := prot_to_type (PROT_READ .| PROT_WRITE) 1.

Lemma user_rw_facts q :
  table_page q -> has (user_rw q) PTE_R = true /\ PTE_FLAGS (user_rw q) <> PTE_V /\ PTE2PA (user_rw q) = q.
Proof.
  intros (Ha & Hlo & Hhi). unfold user_rw. change (prot_to_type (PROT_WRITE .| PROT_READ) 1) with 214.
  rewrite <- Z.lor_assoc. change (214 .| PTE_V) with 215.
  assert (Hb : Z.testbit (PA2PTE q .| 215) 1 = true) by (rewrite Z.lor_spec; apply orb_true_r).
  split; [|split].
  - unfold has, PTE_R. destruct (Z.land _ _ =? 0) eqn:E; [|done]. apply Z.eqb_eq in E.
    apply (f_equal (fun z => Z.testbit z 1)) in E. by rewrite Z.land_spec, Hb in E.
  - unfold PTE_FLAGS. intros E. apply (f_equal (fun z => Z.testbit z 1)) in E. by rewrite Z.land_spec, Hb in E.
  - apply PTE2PA_PA2PTE; [klia|done|lia].
Qed.

(** A free page is taken and mapped at an address where nothing is. *)
Lemma map_fresh t q l root bot lim own va :
  vm_inv t (q :: l) root -> (2 <= length l)%nat -> frames_ok t root bot lim own -> (forall a, a ∈ own -> a ∉ q :: l) ->
  va mod PGSIZE = 0 -> 0 <= bot <= va -> va + PGSIZE <= lim -> lim <= MAXVA -> bot mod PGSIZE = 0 ->
  xlate (mem t) root va = None ->
  exists t' l', user_vm_map root va PGSIZE q heap_perm (alloc_result t q) = Ret tt t' /\
    vm_frame t (q :: l) t' l' root /\ (length l <= length l' + 2)%nat /\ frames_ok t' root bot lim own /\
    (forall y, 0 <= y < MAXVA -> xlate (mem t') root y =
       if decide (y / PGSIZE = va / PGSIZE) then Some (user_rw q) else xlate (mem t) root y).
Proof.
  intros Hi Hlen Hfr Hown Ha Hb Hl Hm Hba Hn.
  pose proof (alloc_frame _ _ _ _ Hi) as Hf1. pose proof (vf_inv _ _ _ _ _ Hf1) as Hi1.
  destruct (alloc_private _ _ _ _ Hi) as (Hqp & Hql & Hqt). destruct (alloc_managed _ _ _ _ Hi) as [Hqm Hq0].
  destruct (user_rw_facts q Hqp) as (HR & Hfl & Hpa).
  destruct (map_one (alloc_result t q) l root va q heap_perm Hi1 Ha) as (t' & l' & E & Hf2 & Hlen' & Hx); try lia.
  { destruct Hqp. klia. } { done. }
  assert (Hf : vm_frame t (q :: l) t' l' root) by (by eapply vm_frame_trans).
  assert (Hx' : forall y, 0 <= y < MAXVA -> xlate (mem t') root y =
            if decide (y / PGSIZE = va / PGSIZE) then Some (user_rw q) else xlate (mem t) root y) by exact Hx.
  exists t', l'. split; [exact E|]. split; [exact Hf|]. split; [done|]. split; [|exact Hx'].
  assert (Hold : forall y w, bot <= y < lim -> xlate (mem t) root y = Some w ->
            PTE2PA w <> q /\ PTE2PA w ∉ q :: l).
  { intros y w Hy Hw. destruct (fr_frame _ _ _ _ _ Hfr y w Hy Hw) as (_ & _ & _ & Hr & _).
    pose proof (counted_not_free _ _ _ _ Hi Hr) as Hnl. split; [intros E'; rewrite E' in Hr; lia|done]. }
  split.
  - intros y w Hy Hw. rewrite Hx' in Hw by lia. destruct (decide (y / PGSIZE = va / PGSIZE)).
    + injection Hw as <-. rewrite Hpa. split; [done|]. split; [done|]. split; [by apply (frame_managed _ _ _ _ _ Hf)|].
      split; [|split].
      * rewrite (vf_ref _ _ _ _ _ Hf2) by done. rewrite (alloc_ref _ _ _ _ Hi). lia.
      * intros (π & Hok & Hπ). destruct (vf_new _ _ _ _ _ Hf2 π q Hok Hπ) as [Ht|Ht]; [|done]. apply Hqt. by exists π.
      * intros Hq. apply (Hown q Hq). by left.
    + destruct (fr_frame _ _ _ _ _ Hfr y w Hy Hw) as (H1 & H2 & H3 & H4 & H5 & H6). destruct (Hold y w Hy Hw) as [_ Hnl].
      split; [done|]. split; [done|]. split; [by apply (frame_managed _ _ _ _ _ Hf)|].
      split; [by rewrite (vf_ref _ _ _ _ _ Hf)|]. split; [|done].
      intros (π & Hok & Hπ). destruct (vf_new _ _ _ _ _ Hf π _ Hok Hπ) as [?|?]; [|done]. apply H5. by exists π.
  - intros y y' w w' Hy Hy' Hw Hw' Epa. rewrite Hx' in Hw, Hw' by lia.
    destruct (decide (y / PGSIZE = va / PGSIZE)), (decide (y' / PGSIZE = va / PGSIZE)); simplify_eq.
    + congruence.
    + rewrite Hpa in Epa. by destruct (Hold y' w' Hy' Hw').
    + rewrite Hpa in Epa. by destruct (Hold y w Hy Hw).
    + exact (fr_inj _ _ _ _ _ Hfr y y' w w' Hy Hy' Hw Hw' Epa).
Qed.

(** The pages of [a, b) get mapped, and nothing else changes. *)
Record maps (t : pstate) (l : list Z) (t' : pstate) (l' : list Z) (root bot lim : Z) (own : list Z) (a b : Z) : Prop := {
  mp_frame : vm_frame t l t' l' root;
  mp_frames : frames_ok t' root bot lim own;
  mp_in : forall y, 0 <= y < MAXVA -> a <= y < b -> xlate (mem t') root y <> None;
  mp_keep : forall y w, 0 <= y < MAXVA -> xlate (mem t) root y = Some w -> xlate (mem t') root y = Some w;
  mp_out : forall y, 0 <= y < MAXVA -> ~ a <= y < b -> xlate (mem t') root y = xlate (mem t) root y
}.

Lemma maps_refl t l root bot lim own a : vm_inv t l root -> frames_ok t root bot lim own -> maps t l t l root bot lim own a a.
Proof. intros Hi Hfr. split; auto using vm_frame_refl. intros. lia. Qed.

Lemma maps_trans t l t1 l1 t2 l2 root bot lim own a b c :
  maps t l t1 l1 root bot lim own a b -> maps t1 l1 t2 l2 root bot lim own b c -> a <= b <= c -> maps t l t2 l2 root bot lim own a c.
Proof.
  intros [F1 _ I1 K1 O1] [F2 R2 I2 K2 O2] Habc. split; [by eapply vm_frame_trans|done| | |].
  - intros y Hy Hr. destruct (decide (y < b)); [|apply I2; [done|lia]]. specialize (I1 y Hy ltac:(lia)).
    destruct (xlate (mem t1) root y) as [w|] eqn:E; [|done]. by rewrite (K2 y w Hy E).
  - eauto.
  - intros y Hy Hr. rewrite O2, O1 by (done || lia). done.
Qed.

(** One page, fresh or there already. *)
Lemma maps_fresh t q l root bot lim own va t' l' :
  vm_inv t (q :: l) root -> vm_frame t (q :: l) t' l' root -> frames_ok t' root bot lim own -> va mod PGSIZE = 0 ->
  xlate (mem t) root va = None ->
  (forall y, 0 <= y < MAXVA -> xlate (mem t') root y =
     if decide (y / PGSIZE = va / PGSIZE) then Some (user_rw q) else xlate (mem t) root y) ->
  maps t (q :: l) t' l' root bot lim own va (va + PGSIZE).
Proof.
  intros Hi Hf Hfr Ha Hn Hx. split; [done|done| | |].
  - intros y Hy Hr. rewrite Hx by done. by rewrite decide_True by klia.
  - intros y w Hy Hw. rewrite Hx by done. destruct (decide _) as [E|E]; [|done].
    unfold xlate in *. rewrite (leaf_same_page _ _ _ _ E) in Hw. congruence.
  - intros y Hy Hr. rewrite Hx by done. by rewrite decide_False by klia.
Qed.

Lemma maps_present t l root bot lim own va w :
  vm_inv t l root -> frames_ok t root bot lim own -> va mod PGSIZE = 0 -> xlate (mem t) root va = Some w ->
  maps t l t l root bot lim own va (va + PGSIZE).
Proof.
  intros Hi Hfr Ha Hw. split; auto using vm_frame_refl. intros y Hy Hr. unfold xlate in *.
  rewrite (leaf_same_page _ _ y va) by klia. by rewrite Hw.
Qed.

Section Loops.
Context `{Linker}.
Variables (tp : nat) (root bot lim : Z) (own : list Z).
Hypothesis Hbot : 0 <= bot /\ bot mod PGSIZE = 0.
Hypothesis Hlim : lim <= MAXVA.

Lemma set_pm_id s : set_pm (pm s) s = s.
Proof. by destruct s. Qed.

(** [alloc_page] and [user_vm_map]. *)
Lemma map_page_run {A} (k : M kstate A) s q l va :
  vm_inv (pm s) (q :: l) root -> (2 <= length l)%nat -> frames_ok (pm s) root bot lim own -> (forall a, a ∈ own -> a ∉ q :: l) ->
  va mod PGSIZE = 0 -> bot <= va -> va + PGSIZE <= lim -> xlate (mem (pm s)) root va = None ->
  q <> 0 /\ on_pm alloc_page s = Ret q (set_pm (alloc_result (pm s) q) s) /\
  exists t' l', maps (pm s) (q :: l) t' l' root bot lim own va (va + PGSIZE) /\ (length l <= length l' + 2)%nat /\
    (vm_call tp tt (user_vm_map root va PGSIZE q heap_perm) ;;; k) (set_pm (alloc_result (pm s) q) s) = k (set_pm t' s).
Proof.
  intros Hi Hlen Hfr Hown Ha Hb Hl Hn. destruct (alloc_private _ _ _ _ Hi) as ((_ & Hq & _) & _).
  split; [klia|]. split; [apply on_pm_ret, (alloc_page_run _ _ (vm_pmm _ _ _ Hi) q l eq_refl)|].
  destruct (map_fresh (pm s) q l root bot lim own va) as (t' & l' & E & Hf & Hlen' & Hfr' & Hx); try done; try lia.
  exists t', l'. split; [by apply maps_fresh|]. split; [done|].
  step_by ltac:(apply vm_call_ret; exact E). done.
Qed.

Lemma own_shrink t l t' l' : vm_frame t l t' l' root -> (forall a, a ∈ own -> a ∉ l) -> forall a, a ∈ own -> a ∉ l'.
Proof. intros Hf Ho a Ha Hin. exact (Ho a Ha (frame_sub _ _ _ _ _ Hf a Hin)). Qed.

Lemma ensure_mapped_run n : forall s l va,
  vm_inv (pm s) l root -> (3 * n <= length l)%nat -> frames_ok (pm s) root bot lim own -> (forall a, a ∈ own -> a ∉ l) ->
  va mod PGSIZE = 0 -> bot <= va -> va + Z.of_nat n * PGSIZE <= lim ->
  exists t' l', ensure_mapped n tp root va s = Ret true (set_pm t' s) /\
    maps (pm s) l t' l' root bot lim own va (va + Z.of_nat n * PGSIZE) /\ (length l <= length l' + 3 * n)%nat.
Proof.
  induction n as [|n IH]; intros s l va Hi Hlen Hfr Hown Ha Hb Hl.
  - exists (pm s), l. cbn [ensure_mapped]. rewrite set_pm_id. split; [done|]. split; [|lia].
    replace (va + Z.of_nat 0 * PGSIZE) with va by lia. by apply maps_refl.
  - cbn [ensure_mapped]. assert (Hva : 0 <= va < MAXVA) by klia.
    step_by ltac:(apply on_pm_ret; apply lookup_pa_run; [apply Hi|lia]). rewrite (proj2 (Z.leb_gt _ _)) by lia.
    rewrite set_pm_id. assert (Hu : u64 (va + PGSIZE) = va + PGSIZE) by (unfold MAXVA in *; klia).
    destruct (xlate (mem (pm s)) root va) as [w|] eqn:Ew.
    + destruct (fr_frame _ _ _ _ _ Hfr va w ltac:(klia) Ew) as (HR & _ & Hm & _). rewrite HR. cbn [orb].
      assert ((PTE2PA w =? 0) = false) as ->.
      { apply Z.eqb_neq. pose proof (inv_geo _ _ (vm_pmm _ _ _ Hi)) as []. destruct Hm as (_ & ? & _). klia. }
      rewrite Hu. destruct (IH s l (va + PGSIZE) Hi) as (t' & l' & E & Hmp & Hlen'); try done; try lia; try klia.
      exists t', l'. split; [exact E|]. split; [|lia]. eapply maps_trans; [by eapply maps_present| |klia].
      by replace (va + Z.of_nat (S n) * PGSIZE) with (va + PGSIZE + Z.of_nat n * PGSIZE) by lia.
    + cbn [Z.eqb]. destruct l as [|q l]; [cbn in Hlen; lia|]. cbn [length] in *.
      destruct (map_page_run (ensure_mapped n tp root (u64 (va + PGSIZE))) s q l va) as (Hq & Ea & t1 & l1 & Hmp1 & Hlen1 & Ek);
        try done; try lia; try klia.
      step_by ltac:(exact Ea). rewrite (proj2 (Z.eqb_neq q 0)) by done. fold heap_perm. rewrite Ek, Hu.
      destruct (IH (set_pm t1 s) l1 (va + PGSIZE)) as (t' & l' & E & Hmp & Hlen');
        [apply (mp_frame _ _ _ _ _ _ _ _ _ _ Hmp1)|lia|apply (mp_frames _ _ _ _ _ _ _ _ _ _ Hmp1)
        |apply (own_shrink _ _ _ _ (mp_frame _ _ _ _ _ _ _ _ _ _ Hmp1) Hown)|klia|klia|klia|].
      exists t', l'. split; [exact E|]. split; [|lia]. eapply maps_trans; [exact Hmp1| |klia].
      by replace (va + Z.of_nat (S n) * PGSIZE) with (va + PGSIZE + Z.of_nat n * PGSIZE) by lia.
Qed.

(** [extend_heap] on pages where nothing is. *)
Lemma extend_heap_run n : forall i s l va fv,
  vm_inv (pm s) l root -> (3 * n <= length l)%nat -> frames_ok (pm s) root bot lim own -> (forall a, a ∈ own -> a ∉ l) ->
  let first := va + Z.of_nat i * PGSIZE in let last := first + Z.of_nat n * PGSIZE in
  va mod PGSIZE = 0 -> bot <= va -> last <= lim ->
  (forall y, first <= y < last -> xlate (mem (pm s)) root y = None) ->
  exists t' l', extend_heap n tp root va i fv s = Ret true (set_pm t' s) /\
    maps (pm s) l t' l' root bot lim own first last /\ (length l <= length l' + 3 * n)%nat.
Proof.
  induction n as [|n IH]; intros i s l va fv Hi Hlen Hfr Hown first last Ha Hb Hl Hn.
  - exists (pm s), l. cbn [extend_heap]. rewrite set_pm_id. split; [done|]. split; [|lia].
    unfold last. replace (first + Z.of_nat 0 * PGSIZE) with first by lia. by apply maps_refl.
  - cbn [extend_heap]. destruct l as [|q l]; [cbn in Hlen; lia|]. cbn [length] in *.
    assert (Hu : u64 (va + Z.of_nat i * PGSIZE) = first) by (unfold first, last, MAXVA in *; klia). rewrite Hu.
    destruct (map_page_run (extend_heap n tp root va (S i) fv) s q l first) as (Hq & Ea & t1 & l1 & Hmp1 & Hlen1 & Ek);
      [done|lia|done|done|unfold first; klia|unfold first; klia|unfold last in Hl; klia|apply Hn; unfold last; klia|].
    step_by ltac:(exact Ea). rewrite (proj2 (Z.eqb_neq q 0)) by done. fold heap_perm. rewrite Ek.
    assert (Hfst : va + Z.of_nat (S i) * PGSIZE = first + PGSIZE) by (unfold first; lia).
    assert (Hlst : first + PGSIZE + Z.of_nat n * PGSIZE = last) by (unfold last; lia).
    destruct (IH (S i) (set_pm t1 s) l1 va fv) as (t' & l' & E & Hmp & Hlen');
      [apply (mp_frame _ _ _ _ _ _ _ _ _ _ Hmp1)|lia|apply (mp_frames _ _ _ _ _ _ _ _ _ _ Hmp1)
      |apply (own_shrink _ _ _ _ (mp_frame _ _ _ _ _ _ _ _ _ _ Hmp1) Hown)|done|done|rewrite Hfst, Hlst; done| |].
    + rewrite Hfst, Hlst. intros y Hy. cbn [pm set_pm].
      rewrite (mp_out _ _ _ _ _ _ _ _ _ _ Hmp1) by (unfold first in *; klia). apply Hn. klia.
    + rewrite Hfst, Hlst in Hmp. exists t', l'. split; [exact E|]. split; [|lia].
      eapply maps_trans; [exact Hmp1|exact Hmp|unfold last; klia].
Qed.

(** ** Unmapping *)

(** The page at [va] goes away; the frame may become free. *)
Record unmaps (t : pstate) (l : list Z) (t' : pstate) (l' : list Z) (va : Z) : Prop := {
  um_vm : vm_inv t' l' root;
  um_frames : frames_ok t' root bot lim own;
  um_own : forall a, private t l root a -> a ∈ own -> private t' l' root a /\ forall o, 0 <= o < PGSIZE -> rd (mem t') (a + o) = rd (mem t) (a + o);
  um_len : (length l <= length l')%nat;
  um_data : forall y w, bot <= y < lim -> xlate (mem t') root y = Some w ->
    forall o, 0 <= o < PGSIZE -> rd (mem t') (PTE2PA w + o) = rd (mem t) (PTE2PA w + o);
  um_xlate : forall y, 0 <= y < MAXVA -> xlate (mem t') root y =
    if decide (y / PGSIZE = va / PGSIZE) then None else xlate (mem t) root y
}.

Lemma unmap_page_run {A} (k : M kstate A) s l va w :
  vm_inv (pm s) l root -> frames_ok (pm s) root bot lim own ->
  va mod PGSIZE = 0 -> bot <= va -> va + PGSIZE <= lim -> xlate (mem (pm s)) root va = Some w ->
  exists t' l', (vm_call tp tt (user_vm_unmap root va PGSIZE true) ;;; k) s = k (set_pm t' s) /\ unmaps (pm s) l t' l' va.
Proof.
  intros Hi Hfr Ha Hb Hl Hw.
  destruct (fr_frame _ _ _ _ _ Hfr va w ltac:(klia) Hw) as (_ & Hfl & Hm & Hr & Ht & Ho).
  destruct (user_vm_unmap_frame (pm s) l root va w Hi Ha) as (t' & E & Hi' & Hrp & Hx & Hmem & Href & Htab & Hst & Hen); try done; try lia.
  { intros π u Hok Hu ->. apply Ht. by exists π. }
  set (p := PTE2PA w) in *. exists t', (if page_ref (pm s) p =? 1 then p :: l else l).
  split; [step_by ltac:(apply vm_call_ret; exact E); done|].
  assert (Hmg : forall q, managed t' q <-> managed (pm s) q) by (intros q; unfold managed; by rewrite Hst, Hen).
  assert (Htab' : forall a, tables_of (mem t') root a -> tables_of (mem (pm s)) root a) by (intros a (π & Hok & Hπ); exists π; auto).
  assert (Hother : forall a, private (pm s) l root a -> a <> p ->
            private t' (if page_ref (pm s) p =? 1 then p :: l else l) root a /\
            forall o, 0 <= o < PGSIZE -> rd (mem t') (a + o) = rd (mem (pm s)) (a + o)).
  { intros a (Hp1 & Hp2 & Hp3) Hap. split.
    + split; [done|]. split; [|by intros ?%Htab'].
      destruct (_ =? _); [|done]. by apply not_elem_of_cons.
    + intros o Hoff. apply Hmem.
      * intros q Hq Hin. apply Hp2. pose proof (proj1 (inv_free _ _ (vm_pmm _ _ _ Hi) q) Hq) as [(Hqa & _) _].
        assert (a = q) as ->; [|done]. destruct Hp1 as (? & _). unfold in_page in Hin. klia.
      * intros Hin. apply Hap. destruct Hm as (? & _). destruct Hp1 as (? & _). unfold in_page in Hin. klia.
      * intros π u Hok Hu Hin. apply Hp3. pose proof (pt_page _ _ (vm_pt _ _ _ Hi) π u Hok Hu) as (Hua & _).
        assert (a = u) as ->; [|by exists π]. destruct Hp1 as (? & _). unfold in_page in Hin. klia. }
  split; [done| | |destruct (_ =? _); cbn; lia| |done].
  - split.
    + intros y v Hy Hv. rewrite Hx in Hv by lia. destruct (decide (y / PGSIZE = va / PGSIZE)) as [|Hne]; [done|].
      destruct (fr_frame _ _ _ _ _ Hfr y v Hy Hv) as (H1 & H2 & H3 & H4 & H5 & H6).
      assert (PTE2PA v <> p) by (intros E'; by apply Hne, (fr_inj _ _ _ _ _ Hfr y va v w Hy ltac:(klia) Hv Hw)).
      split; [done|]. split; [done|]. split; [by apply Hmg|]. split; [by rewrite Href|]. split; [|done].
      intros Hq. by apply H5, Htab'.
    + intros y y' v v' Hy Hy' Hv Hv'. rewrite Hx in Hv, Hv' by lia.
      destruct (decide _); [done|]. destruct (decide _); [done|]. exact (fr_inj _ _ _ _ _ Hfr y y' v v' Hy Hy' Hv Hv').
  - intros a Hpr Hao. apply Hother; [done|]. by intros ->.
  - intros y v Hy Hv. rewrite Hx in Hv by lia. destruct (decide (y / PGSIZE = va / PGSIZE)) as [|Hne]; [done|].
    destruct (fr_frame _ _ _ _ _ Hfr y v Hy Hv) as (_ & _ & (? & ? & ?) & H4 & H5 & _). apply Hother.
    + pose proof (inv_geo _ _ (vm_pmm _ _ _ Hi)) as []. split; [split; [done|lia]|]. split; [by apply (counted_not_free _ _ _ _ Hi)|done].
    + intros E'. by apply Hne, (fr_inj _ _ _ _ _ Hfr y va v w Hy ltac:(klia) Hv Hw).
Qed.
End Loops.
