(* ===== verification/Malloc.v ===== *)
(** * The block allocator of the user heap ([user_better_malloc], [user_better_free])

    A block is described by a node, a page of the kernel; nodes of blocks in use and
    of blocks given back are two doubly linked lists.  [heap_inv] says that the lists
    are well formed and that the blocks do not overlap; allocating and freeing keep
    it, and the block handed out overlaps no block in use and is mapped. *)
From S2P Require Import Prelude Pmm Vmm Process Sched Fork Strap Cow Heap HeapSpace.

(** ** Doubly linked lists of nodes *)

Record node : Type := mkNode { n_at : Z; n_va : Z; n_len : Z }.

Definition first_at (ns : list node) (d : Z) : Z := match ns with [] => d | n :: _ => n_at n end.
Fixpoint last_at (d : Z) (ns : list node) : Z := match ns with [] => d | n :: ns' => last_at (n_at n) ns' end.

(** The nodes [ns] in a row between [pv] and [nx]. *)
Fixpoint seg (m : gmap Z Z) (pv : Z) (ns : list node) (nx : Z) : Prop :=
  match ns with
  | [] => True
  | n :: ns' => rd m (n_at n + N_va) = n_va n /\ rd m (n_at n + N_size) = n_len n /\ rd m (n_at n + N_prev) = pv /\
      rd m (n_at n + N_next) = first_at ns' nx /\ seg m (n_at n) ns' nx
  end.

Notation ats := (fmap n_at).

Lemma first_app ns1 ns2 d : first_at (ns1 ++ ns2) d = first_at ns1 (first_at ns2 d).
Proof. by destruct ns1. Qed.

Lemma seg_app m ns1 : forall pv ns2 nx,
  seg m pv (ns1 ++ ns2) nx <-> seg m pv ns1 (first_at ns2 nx) /\ seg m (last_at pv ns1) ns2 nx.
Proof.
  induction ns1 as [|n ns1 IH]; intros pv ns2 nx; cbn [app seg last_at]; [naive_solver|].
  rewrite IH, first_app. naive_solver.
Qed.

Lemma seg_frame m m' ns : forall pv nx,
  (forall n o, n ∈ ns -> 0 <= o < 32 -> rd m' (n_at n + o) = rd m (n_at n + o)) -> seg m pv ns nx -> seg m' pv ns nx.
Proof.
  induction ns as [|n ns IH]; intros pv nx Hm; [done|]. cbn [seg]. intros (H1 & H2 & H3 & H4 & H5).
  unfold N_va, N_size, N_prev, N_next in *. rewrite !Hm by (by left || lia).
  repeat (split; [done|]). apply IH; [|done]. intros k o Hk. apply Hm. by right.
Qed.

(** A store into another page. *)
Lemma seg_store m ns pv nx a o v :
  Forall table_page (ats ns) -> table_page a -> a ∉ ats ns -> 0 <= o < PGSIZE ->
  seg m pv ns nx -> seg (<[a + o := v]> m) pv ns nx.
Proof.
  intros Hp Ha Hn Ho. apply seg_frame. intros n o' Hin Ho'. apply rd_insert_ne. intros E. apply Hn.
  rewrite list.Forall_forall in Hp. assert (n_at n ∈ ats ns) as Hi by (apply list_elem_of_fmap; by exists n).
  rewrite (table_page_neq a (n_at n) o o' Ha (Hp _ Hi) Ho ltac:(klia) E). done.
Qed.

(** A store into the node itself. *)
Lemma node_store m (n : node) o o' v : o <> o' -> rd (<[n_at n + o := v]> m) (n_at n + o') = rd m (n_at n + o').
Proof. intros. apply rd_insert_ne. lia. Qed.

Lemma seg_set_prev m pv n ns nx v :
  Forall table_page (ats (n :: ns)) -> NoDup (ats (n :: ns)) -> seg m pv (n :: ns) nx -> seg (<[n_at n + N_prev := v]> m) v (n :: ns) nx.
Proof.
  intros Hp Hnd. cbn [fmap list_fmap] in *. apply list.Forall_cons in Hp as [Hpn Hp]. apply list.NoDup_cons in Hnd as [Hn Hnd].
  cbn [seg]. unfold N_va, N_size, N_prev, N_next. intros (H1 & H2 & H3 & H4 & H5). rewrite rd_insert_eq, !node_store by lia.
  repeat (split; [done|]). apply seg_store; [done|done|done|klia|done].
Qed.

Lemma seg_set_next m pv ns n nx v :
  Forall table_page (ats (ns ++ [n])) -> NoDup (ats (ns ++ [n])) -> seg m pv (ns ++ [n]) nx ->
  seg (<[n_at n + N_next := v]> m) pv (ns ++ [n]) v.
Proof.
  rewrite fmap_app. intros Hp Hnd. apply list.Forall_app in Hp as [Hp Hpn]. apply list.NoDup_app in Hnd as (_ & Hd & _).
  cbn [fmap list_fmap] in *. apply list.Forall_cons in Hpn as [Hpn _].
  rewrite !seg_app. cbn [seg first_at]. unfold N_va, N_size, N_prev, N_next. intros (Hs & H1 & H2 & H3 & H4 & _).
  split; [|rewrite rd_insert_eq, !node_store by lia; done].
  apply seg_store; [done|done| |klia|done]. intros Hin. apply (Hd _ Hin). by left.
Qed.

(** ** The changes of memory *)

(** Insertion of [n] in front of the list at [head]. *)
Definition pushed (m : gmap Z Z) (n head : Z) : gmap Z Z :=
  let m := <[n + N_next := head]> m in if head =? 0 then m else <[head + N_prev := n]> m.

(** A node that is in no list. *)
Definition loose (m : gmap Z Z) (n : node) : Prop :=
  rd m (n_at n + N_va) = n_va n /\ rd m (n_at n + N_size) = n_len n /\ rd m (n_at n + N_prev) = 0.

Lemma table_page_nz a : table_page a -> a <> 0.
Proof. intros (_ & ? & _). klia. Qed.

Lemma pushed_seg m n ns :
  Forall table_page (ats (n :: ns)) -> NoDup (ats (n :: ns)) -> loose m n -> seg m 0 ns 0 ->
  seg (pushed m (n_at n) (first_at ns 0)) 0 (n :: ns) 0.
Proof.
  intros Hp Hnd (H1 & H2 & H3) Hs. unfold pushed. pose proof Hp as Hp0. pose proof Hnd as Hnd0.
  cbn [fmap list_fmap] in Hp, Hnd. apply list.Forall_cons in Hp as [Hpn Hp]. apply list.NoDup_cons in Hnd as [Hn Hnd].
  assert (Hs1 : seg (<[n_at n + N_next := first_at ns 0]> m) 0 ns 0) by (apply seg_store; [done|done|done|unfold N_next; klia|done]).
  destruct ns as [|k ns]; cbn [first_at].
  - rewrite Z.eqb_refl. cbn [seg first_at]. unfold N_va, N_size, N_prev, N_next in *. rewrite rd_insert_eq, !node_store by lia. done.
  - pose proof Hp as Hpk. cbn [fmap list_fmap] in Hpk. apply list.Forall_cons in Hpk as [Hpk _].
    rewrite (proj2 (Z.eqb_neq _ 0)) by (by apply table_page_nz).
    assert (Hne : n_at n <> n_at k) by (intros E; apply Hn; rewrite E; by left).
    assert (Hw : forall o, 0 <= o < 32 -> rd (<[n_at k + N_prev := n_at n]> (<[n_at n + N_next := n_at k]> m)) (n_at n + o)
                   = rd (<[n_at n + N_next := n_at k]> m) (n_at n + o)).
    { intros o Ho. apply rd_insert_ne. intros E. apply Hne. symmetry. apply (table_page_neq (n_at k) (n_at n) N_prev o); try done; unfold N_prev; klia. }
    split; [|split; [|split; [|split]]].
    + rewrite Hw by (unfold N_va; lia). unfold N_next, N_va in *. by rewrite node_store by lia.
    + rewrite Hw by (unfold N_size; lia). unfold N_next, N_size in *. by rewrite node_store by lia.
    + rewrite Hw by (unfold N_prev; lia). unfold N_next, N_prev in *. by rewrite node_store by lia.
    + rewrite Hw by (unfold N_next; lia). by rewrite rd_insert_eq.
    + cbn [first_at] in Hs1. by apply (seg_set_prev _ 0).
Qed.

(** Removal of a node between [prev] and [next]. *)
Definition unlinked (m : gmap Z Z) (prev next : Z) : gmap Z Z :=
  let m := if prev =? 0 then m else <[prev + N_next := next]> m in
  if next =? 0 then m else <[next + N_prev := prev]> m.

Lemma last_snoc ns k d : last_at d (ns ++ [k]) = n_at k.
Proof. revert d. induction ns as [|n ns IH]; intros d; [done|]. apply IH. Qed.

Lemma unlinked_seg m ns1 n ns2 :
  Forall table_page (ats (ns1 ++ n :: ns2)) -> NoDup (ats (ns1 ++ n :: ns2)) -> seg m 0 (ns1 ++ n :: ns2) 0 ->
  rd m (n_at n + N_prev) = last_at 0 ns1 /\ rd m (n_at n + N_next) = first_at ns2 0 /\
  seg (unlinked m (last_at 0 ns1) (first_at ns2 0)) 0 (ns1 ++ ns2) 0.
Proof.
  rewrite fmap_app, seg_app. cbn [fmap list_fmap seg first_at]. intros Hp Hnd (Hs1 & _ & _ & Hpv & Hnx & Hs2).
  split; [done|]. split; [done|]. apply list.Forall_app in Hp as [Hp1 Hp2]. apply list.Forall_cons in Hp2 as [_ Hp2].
  apply list.NoDup_app in Hnd as (Hn1 & Hd & Hn2). apply list.NoDup_cons in Hn2 as [_ Hn2].
  assert (Hd' : forall a, a ∈ ats ns1 -> a ∉ ats ns2) by (intros a Ha Hb; apply (Hd a Ha); by right).
  unfold unlinked. apply seg_app.
  assert (H1 : let m1 := if last_at 0 ns1 =? 0 then m else <[last_at 0 ns1 + N_next := first_at ns2 0]> m in
               seg m1 0 ns1 (first_at ns2 0) /\ seg m1 (n_at n) ns2 0).
  { destruct ns1 as [|k ns1 _] using rev_ind; [done|]. rewrite last_snoc.
    rewrite fmap_app in Hp1, Hd'. apply list.Forall_app in Hp1 as [Hpa Hpk]. cbn [fmap list_fmap] in Hpk, Hd'. apply list.Forall_cons in Hpk as [Hpk _].
    rewrite (proj2 (Z.eqb_neq _ 0)) by (by apply table_page_nz). split.
    - apply (seg_set_next _ _ _ _ (n_at n)); [|done|done]. rewrite fmap_app. apply list.Forall_app. split; [done|]. by constructor.
    - apply seg_store; [done|done| |unfold N_next; klia|done]. apply Hd', elem_of_app. right. by left. }
  cbv zeta in H1. destruct H1 as [H1 H2]. destruct ns2 as [|k ns2]; cbn [first_at] in *; [done|].
  cbn [fmap list_fmap] in *. pose proof Hp2 as Hpk. apply list.Forall_cons in Hpk as [Hpk _].
  rewrite (proj2 (Z.eqb_neq _ 0)) by (by apply table_page_nz). split.
  - apply seg_store; [done|done| |unfold N_prev; klia|done]. intros Hin. apply (Hd' _ Hin). by left.
  - by apply (seg_set_prev _ (n_at n)).
Qed.

Lemma only_pushed P m n head : n ∈ P -> head ∈ P \/ head = 0 -> only P m (pushed m n head).
Proof.
  intros Hn Hh. unfold pushed. assert (H1 : only P m (<[n + N_next := head]> m)) by (apply only_store; [done|unfold N_next; klia]).
  destruct (head =? 0) eqn:E; [done|]. apply Z.eqb_neq in E. destruct Hh as [Hh|Hh]; [|done].
  eapply only_trans; [exact H1|]. apply only_store; [done|unfold N_prev; klia].
Qed.
Lemma only_unlinked P m prev next : prev ∈ P \/ prev = 0 -> next ∈ P \/ next = 0 -> only P m (unlinked m prev next).
Proof.
  intros Hp Hn. unfold unlinked.
  assert (H1 : only P m (if prev =? 0 then m else <[prev + N_next := next]> m)).
  { destruct (prev =? 0) eqn:E; [done|]. apply Z.eqb_neq in E. destruct Hp; [|done]. apply only_store; [done|unfold N_next; klia]. }
  destruct (next =? 0) eqn:E; [done|]. apply Z.eqb_neq in E. destruct Hn; [|done].
  eapply only_trans; [exact H1|]. apply only_store; [done|unfold N_prev; klia].
Qed.

Lemma only_seg P m m' pv ns nx :
  only P m m' -> Forall table_page P -> Forall table_page (ats ns) -> (forall a, a ∈ ats ns -> a ∉ P) -> seg m pv ns nx -> seg m' pv ns nx.
Proof.
  intros Ho Hp Hn Hd. apply seg_frame. intros n o Hin Hoff. assert (Hi : n_at n ∈ ats ns) by (apply list_elem_of_fmap; by exists n).
  rewrite list.Forall_forall in Hn. apply (only_page P); [done|done|auto|auto|klia].
Qed.
Lemma only_loose P m m' n : only P m m' -> Forall table_page P -> table_page (n_at n) -> n_at n ∉ P -> loose m n -> loose m' n.
Proof.
  intros Ho Hp Hn Hd (H1 & H2 & H3). unfold loose, N_va, N_size, N_prev in *. by rewrite !(only_page P m m') by (done || klia).
Qed.

(** ** The pages of the nodes *)

Record core (t : pstate) (l : list Z) (root bot lim : Z) (own : list Z) : Prop := {
  co_vm : vm_inv t l root;
  co_frames : frames_ok t root bot lim own;
  co_priv : Forall (private t l root) own;
  co_nodup : NoDup own
}.

Lemma core_pages t l root bot lim own : core t l root bot lim own -> Forall table_page own.
Proof. intros [_ _ Hp _]. eapply list.Forall_impl; [exact Hp|]. by intros a (? & _). Qed.

(** More pages than memory has are not there. *)
Lemma pages_few own : Forall table_page own -> NoDup own -> (length own <= Z.to_nat 32768)%nat.
Proof.
  intros Hp Hn. set (f := fun a => (a - DRAM_BASE) / PGSIZE).
  assert (Hi : NoDup (f <$> own)).
  { clear - Hp Hn. induction own as [|a own IH]; [constructor|]. apply list.Forall_cons in Hp as [Ha Hp]. apply list.NoDup_cons in Hn as [Hna Hn].
    cbn [fmap list_fmap]. apply list.NoDup_cons. split; [|by apply IH]. intros (b & E & Hb)%list_elem_of_fmap. apply Hna.
    rewrite list.Forall_forall in Hp. destruct (Hp b Hb) as (? & ? & ?). destruct Ha as (? & ? & ?). unfold f in E.
    assert (a = b) as -> by klia. done. }
  assert (Hs : f <$> own ⊆ seqZ 0 32768).
  { intros z (a & -> & Ha)%list_elem_of_fmap. rewrite list.Forall_forall in Hp. destruct (Hp a Ha) as (? & ? & ?).
    apply elem_of_seqZ. unfold f. klia. }
  pose proof (submseteq_length _ _ (NoDup_submseteq _ _ Hi Hs)) as Hl. by rewrite length_fmap, length_seqZ in Hl.
Qed.

Section Core.
Variables (t : pstate) (l : list Z) (root bot lim : Z) (own : list Z).
Hypothesis Hc : core t l root bot lim own.

Lemma core_only m' :
  only own (mem t) m' -> core (set_mem m' t) l root bot lim own /\ forall y, xlate m' root y = xlate (mem t) root y.
Proof.
  intros Ho. pose proof Hc as [Hi [Hfr Hinj] Hp Hnd]. pose proof (vm_pmm _ _ _ Hi) as Hpm. rewrite list.Forall_forall in Hp.
  assert (Hag : tables_agree (mem t) m' root).
  { intros π u k Hok Hu Hk. apply Ho. intros a Ha Hin. destruct (Hp a Ha) as ((Hal & _) & _ & Ht). apply Ht.
    pose proof (pt_page _ _ (vm_pt _ _ _ Hi) π u Hok Hu) as (Hua & _).
    assert (a = u) as ->; [|by exists π]. pose proof (slot_in_page u k Hk) as Hs. unfold in_page in *. klia. }
  assert (Htab : forall a, tables_of m' root a <-> tables_of (mem t) root a) by (intros a; by apply tables_shrink).
  assert (Hx : forall y, xlate m' root y = xlate (mem t) root y) by (intros y; by apply agree_xlate).
  split; [|done]. split; [| | |done].
  - eapply agree_vm_inv; [exact Hi|exact Hag| |by left]. apply pmm_inv_set_mem; [done|]. intros x Hxl. apply Ho.
    intros a Ha Hin. destruct (Hp a Ha) as ((Hal & _) & Hnl & _). apply Hnl.
    pose proof (proj1 (inv_free _ _ Hpm x) Hxl) as [(Hxa & _) _]. unfold in_page in Hin. assert (a = x) as -> by klia. done.
  - split.
    + intros y w Hy Hw. cbn [mem set_mem] in *. rewrite Hx in Hw. destruct (Hfr y w Hy Hw) as (? & ? & ? & ? & ? & ?).
      repeat (split; [done|]). split; [by rewrite Htab|done].
    + intros y y' w w' Hy Hy'. cbn [mem set_mem]. rewrite !Hx. eauto.
  - apply list.Forall_forall. intros a Ha. destruct (Hp a Ha) as (? & ? & ?). split; [done|]. split; [done|]. cbn [mem set_mem]. by rewrite Htab.
Qed.

Lemma core_maps t' l' a b :
  maps t l t' l' root bot lim own a b ->
  core t' l' root bot lim own /\ forall p o, p ∈ own -> 0 <= o < PGSIZE -> rd (mem t') (p + o) = rd (mem t) (p + o).
Proof.
  intros [Hf Hfr' _ _ _]. pose proof Hc as [Hi Hfr Hp Hnd]. rewrite list.Forall_forall in Hp. split.
  - split; [apply Hf|done| |done]. apply list.Forall_forall. intros p Hin. apply (frame_private _ _ _ _ _ Hf). auto.
  - intros p o Hin Ho. apply (frame_word _ _ _ _ _ Hf Hi); auto.
Qed.

Lemma core_unmaps t' l' va :
  unmaps root bot lim own t l t' l' va ->
  core t' l' root bot lim own /\ forall p o, p ∈ own -> 0 <= o < PGSIZE -> rd (mem t') (p + o) = rd (mem t) (p + o).
Proof.
  intros [Hi' Hfr' Ho _ _ _]. pose proof Hc as [Hi Hfr Hp Hnd]. rewrite list.Forall_forall in Hp. split.
  - split; [done|done| |done]. apply list.Forall_forall. intros p Hin. by apply (Ho p (Hp p Hin) Hin).
  - intros p o Hin Hoff. by apply (Ho p (Hp p Hin) Hin).
Qed.

Lemma core_not_free p : p ∈ own -> p ∉ l.
Proof. intros Hin. pose proof (co_priv _ _ _ _ _ _ Hc) as Hp. rewrite list.Forall_forall in Hp. by apply (Hp p Hin). Qed.
End Core.

Lemma core_alloc t q l root bot lim own : core t (q :: l) root bot lim own -> core (alloc_result t q) l root bot lim (q :: own).
Proof.
  intros Hc. pose proof Hc as [Hi Hfr Hp Hnd]. pose proof (alloc_frame _ _ _ _ Hi) as Hf. split.
  - apply Hf.
  - by apply (frames_alloc _ _ l).
  - constructor; [by apply alloc_private|]. eapply list.Forall_impl; [exact Hp|]. intros a. by apply frame_private.
  - apply list.NoDup_cons. split; [|done]. intros Hq. apply (core_not_free _ _ _ _ _ _ Hc q Hq). by left.
Qed.

(** ** The steps *)

Lemma store_page p o v t : table_page p -> 0 <= o < PGSIZE -> o mod 8 = 0 -> store (p + o) v t = Ret tt (set_mem (<[p + o := v]> (mem t)) t).
Proof. intros Hp Ho Hm. unfold store. by rewrite (table_page_word p o Hp Ho Hm). Qed.
Lemma load_page p o t : table_page p -> 0 <= o < PGSIZE -> o mod 8 = 0 -> load (p + o) t = Ret (rd (mem t) (p + o)) t.
Proof. intros Hp Ho Hm. unfold load. by rewrite (table_page_word p o Hp Ho Hm). Qed.
Ltac node_word := first [done | unfold N_va, N_size, N_next, N_prev; done | unfold N_va, N_size, N_next, N_prev; klia].
Ltac step_store := step_by ltac:(apply store_page; node_word).
Ltac step_load := step_by ltac:(apply load_page; node_word).

Lemma when_run (b : bool) (c : M pstate unit) t t' : (b = true -> c t = Ret tt t') -> (b = false -> t' = t) -> when b c t = Ret tt t'.
Proof. destruct b; cbn; [auto|]. intros _ H. by rewrite H. Qed.

Lemma link_head_run n head t :
  table_page n -> table_page head \/ head = 0 -> link_head n head t = Ret tt (set_mem (pushed (mem t) n head) t).
Proof.
  intros Hn Hh. unfold link_head, pushed. step_store. destruct (head =? 0) eqn:E; cbn [negb when]; [done|].
  apply Z.eqb_neq in E. destruct Hh as [Hh|]; [|done]. rewrite store_page by node_word. done.
Qed.

(** Both lists are searched from their head. *)
Lemma find_fit_run size t : forall ns fuel pv,
  Forall table_page (ats ns) -> seg (mem t) pv ns 0 -> (length ns < fuel)%nat ->
  (find_fit fuel (first_at ns 0) size t = Ret 0 t /\ Forall (fun n => n_len n < size) ns) \/
  exists ns1 n ns2, ns = ns1 ++ n :: ns2 /\ size <= n_len n /\ Forall (fun n => n_len n < size) ns1 /\
    find_fit fuel (first_at ns 0) size t = Ret (n_at n) t.
Proof.
  induction ns as [|n ns IH]; intros [|fuel] pv Hp Hs Hf; cbn [length] in Hf; try lia; cbn [find_fit first_at].
  - left. by split.
  - cbn [fmap list_fmap] in Hp. apply list.Forall_cons in Hp as [Hpn Hp]. destruct Hs as (_ & Hsz & _ & Hnx & Hs).
    rewrite (proj2 (Z.eqb_neq _ 0)) by (by apply table_page_nz). step_load. rewrite Hsz.
    destruct (size <=? n_len n) eqn:E; bsplit.
    + right. exists [], n, ns. split; [done|]. split; [done|]. by split.
    + step_load. rewrite Hnx. destruct (IH fuel (n_at n) Hp Hs ltac:(lia)) as [[E1 Hall]|(ns1 & k & ns2 & -> & Hk & Hall & E1)].
      * left. split; [done|]. constructor; [lia|done].
      * right. exists (n :: ns1), k, ns2. split; [done|]. split; [done|]. split; [|done]. constructor; [lia|done].
Qed.

Lemma find_node_run va t : forall ns fuel pv,
  Forall table_page (ats ns) -> seg (mem t) pv ns 0 -> (length ns < fuel)%nat ->
  (find_node fuel (first_at ns 0) va t = Ret 0 t /\ Forall (fun n => n_va n <> va) ns) \/
  exists ns1 n ns2, ns = ns1 ++ n :: ns2 /\ n_va n = va /\ Forall (fun n => n_va n <> va) ns1 /\
    find_node fuel (first_at ns 0) va t = Ret (n_at n) t.
Proof.
  induction ns as [|n ns IH]; intros [|fuel] pv Hp Hs Hf; cbn [length] in Hf; try lia; cbn [find_node first_at].
  - left. by split.
  - cbn [fmap list_fmap] in Hp. apply list.Forall_cons in Hp as [Hpn Hp]. destruct Hs as (Hva & _ & _ & Hnx & Hs).
    rewrite (proj2 (Z.eqb_neq _ 0)) by (by apply table_page_nz). step_load. rewrite Hva.
    destruct (n_va n =? va) eqn:E; bsplit.
    + right. exists [], n, ns. split; [done|]. split; [done|]. by split.
    + step_load. rewrite Hnx. destruct (IH fuel (n_at n) Hp Hs ltac:(lia)) as [[E1 Hall]|(ns1 & k & ns2 & -> & Hk & Hall & E1)].
      * left. split; [done|]. by constructor.
      * right. exists (n :: ns1), k, ns2. split; [done|]. split; [done|]. split; [|done]. by constructor.
Qed.

Lemma has_other_run page t : forall ns fuel pv,
  Forall table_page (ats ns) -> seg (mem t) pv ns 0 -> (length ns < fuel)%nat ->
  page_has_other_allocation fuel (first_at ns 0) page t =
    Ret (existsb (fun n => (page <? u64 (n_va n + n_len n)) && (n_va n <? u64 (page + PGSIZE))) ns) t.
Proof.
  induction ns as [|n ns IH]; intros [|fuel] pv Hp Hs Hf; cbn [length] in Hf; try lia; cbn [page_has_other_allocation first_at existsb]; [done|].
  cbn [fmap list_fmap] in Hp. apply list.Forall_cons in Hp as [Hpn Hp]. destruct Hs as (Hva & Hsz & _ & Hnx & Hs).
  rewrite (proj2 (Z.eqb_neq _ 0)) by (by apply table_page_nz). do 2 step_load. rewrite Hva, Hsz.
  destruct (_ && _); [done|]. cbn [orb]. step_load. rewrite Hnx. apply (IH fuel (n_at n) Hp Hs). lia.
Qed.

(** ** Blocks *)

Definition apart (n k : node) : Prop := n_va n + n_len n <= n_va k \/ n_va k + n_len k <= n_va n.
Fixpoint spread (ns : list node) : Prop := match ns with [] => True | n :: ns' => Forall (apart n) ns' /\ spread ns' end.

Lemma apart_sym n k : apart n k -> apart k n.
Proof. unfold apart. tauto. Qed.

#[global] Instance spread_perm : Proper (Permutation ==> iff) spread.
Proof.
  assert (Hone : forall ns ns', Permutation ns ns' -> spread ns -> spread ns').
  { induction 1 as [|n ns ns' Hp IH|n k ns|ns1 ns2 ns3 _ IH1 _ IH2]; cbn [spread]; [done| | |auto].
    - intros [Hf Hs]. split; [by rewrite <- Hp|auto].
    - intros (Hf & Hk & Hs). apply list.Forall_cons in Hf as [Hnk Hn]. split; [|done]. constructor; [by apply apart_sym|done]. }
  intros ns ns' Hp. split; apply Hone; [done|by symmetry].
Qed.

(** [k] lies in the block of [n]. *)
Definition inside (n k : node) : Prop := n_va n <= n_va k /\ 0 < n_len k /\ n_va k + n_len k <= n_va n + n_len n.
Lemma inside_apart n k ns : inside n k -> Forall (apart n) ns -> Forall (apart k) ns.
Proof. intros Hi Hf. eapply list.Forall_impl; [exact Hf|]. unfold apart, inside in *. intros. lia. Qed.

Definition in_area (bot top : Z) (n : node) : Prop := bot <= n_va n /\ 0 < n_len n /\ n_va n + n_len n <= top.
Record blocks_ok (bot top : Z) (ns : list node) : Prop := { bl_area : Forall (in_area bot top) ns; bl_spread : spread ns }.

#[global] Instance blocks_perm bot top : Proper (Permutation ==> iff) (blocks_ok bot top).
Proof.
  assert (Hone : forall ns ns', Permutation ns ns' -> blocks_ok bot top ns -> blocks_ok bot top ns').
  { intros ns ns' Hp [Ha Hs]. split; [by rewrite <- Hp|by rewrite <- Hp]. }
  intros ns ns' Hp. split; apply Hone; [done|by symmetry].
Qed.

Lemma blocks_drop bot top n ns : blocks_ok bot top (n :: ns) -> blocks_ok bot top ns.
Proof. intros [Ha [_ Hs]]. apply list.Forall_cons in Ha as [_ Ha]. by split. Qed.
Lemma blocks_shrink bot top n k ns : inside n k -> blocks_ok bot top (n :: ns) -> blocks_ok bot top (k :: ns).
Proof.
  intros Hi [Ha [Hf Hs]]. apply list.Forall_cons in Ha as [Hn Ha]. split.
  - constructor; [|done]. unfold inside, in_area in *. lia.
  - split; [by eapply inside_apart|done].
Qed.
(** A block is divided. *)
Lemma blocks_split bot top n k1 k2 ns :
  n_va k1 = n_va n -> n_va k2 = n_va k1 + n_len k1 -> n_len k1 + n_len k2 = n_len n -> 0 < n_len k1 -> 0 < n_len k2 ->
  blocks_ok bot top (n :: ns) -> blocks_ok bot top (k1 :: k2 :: ns).
Proof.
  intros E1 E2 E3 H1 H2 [Ha [Hf Hs]]. apply list.Forall_cons in Ha as [Hn Ha].
  assert (Hi1 : inside n k1) by (unfold inside; lia). assert (Hi2 : inside n k2) by (unfold inside; lia). split.
  - constructor; [unfold in_area in *; lia|]. constructor; [unfold in_area in *; lia|done].
  - split; [constructor; [left; lia|by eapply inside_apart]|]. split; [by eapply inside_apart|done].
Qed.
(** A block at the top. *)
Lemma blocks_push bot top n ns :
  bot <= top -> n_va n = top -> 0 < n_len n -> blocks_ok bot top ns -> blocks_ok bot (top + n_len n) (n :: ns).
Proof.
  intros Hb Hv Hl [Ha Hs]. split.
  - constructor; [unfold in_area; lia|]. eapply list.Forall_impl; [exact Ha|]. unfold in_area. intros. lia.
  - split; [|done]. eapply list.Forall_impl; [exact Ha|]. unfold in_area, apart. intros. lia.
Qed.

(** ** The heap *)

(** While a block is handed out, the pages [spare] of the kernel are in no list. *)
Record heap_at (t : pstate) (l : list Z) (root ml fl top bot lim : Z) (spare : list Z) (used free : list node) : Prop := {
  hp_core : core t l root bot lim (spare ++ ats used ++ ats free);
  hp_used : ml = first_at used 0 /\ seg (mem t) 0 used 0;
  hp_free : fl = first_at free 0 /\ seg (mem t) 0 free 0;
  hp_blocks : blocks_ok bot top (used ++ free);
  hp_area : 0 <= bot <= top /\ bot mod PGSIZE = 0 /\ top <= lim /\ lim <= MAXVA /\ lim mod PGSIZE = 0;
  hp_above : forall y, bot <= y < lim -> top <= y - y mod PGSIZE -> xlate (mem t) root y = None;
  hp_mapped : forall n y, n ∈ used -> n_va n <= y < n_va n + n_len n -> xlate (mem t) root y <> None
}.

(** The heap between two calls: the blocks in use and those given back. *)
Definition heap_inv (t : pstate) (l : list Z) (root ml fl top bot lim : Z) (used free : list node) : Prop :=
  heap_at t l root ml fl top bot lim [] used free.

#[global] Instance core_perm t l root bot lim : Proper (Permutation ==> iff) (core t l root bot lim).
Proof.
  assert (Hone : forall o o', Permutation o o' -> core t l root bot lim o -> core t l root bot lim o').
  { intros o o' Hp [H1 H2 H3 H4]. split; [done| |by rewrite <- Hp|by rewrite <- Hp].
    eapply frames_sub; [|exact H2]. intros a. by rewrite Hp. }
  intros o o' Hp. split; apply Hone; [done|by symmetry].
Qed.
Lemma core_drop t l root bot lim a own : core t l root bot lim (a :: own) -> core t l root bot lim own.
Proof.
  intros [H1 H2 H3 H4]. apply list.Forall_cons in H3 as [_ H3]. apply list.NoDup_cons in H4 as [_ H4]. split; [done| |done|done].
  eapply frames_sub; [|exact H2]. by right.
Qed.

Section State.
Context `{Linker}.
Variables (s0 : kstate) (p : nat) (x0 : process).
Hypothesis Hlt : (p < length (procs s0))%nat.

Definition set_lists (ml fl top : Z) (x : process) : process :=
  set_malloc_list ml (set_malloc_free_list fl (set_user_heap (set_heap_top top (user_heap x)) x)).
(** The kernel with the lists and the top of the heap of process [p], and memory [t]. *)
Definition st (ml fl top : Z) (t : pstate) : kstate :=
  set_procs (<[p := set_lists ml fl top x0]> (procs s0)) (set_pm t s0).

Lemma st_init : procs s0 !! p = Some x0 -> s0 = st (malloc_list x0) (malloc_free_list x0) (heap_top (user_heap x0)) (pm s0).
Proof.
  intros E. unfold st. replace (set_lists _ _ _ x0) with x0 by (destruct x0 as [? ? ? ? ? ? ? ? [] ? ? ? ? ? ? ? ? ? ? ?]; done).
  rewrite list_insert_id by done. by destruct s0.
Qed.

Lemma st_get ml fl top t : get_proc p (st ml fl top t) = Ret (set_lists ml fl top x0) (st ml fl top t).
Proof. apply get_proc_run. cbn. by apply list_lookup_insert_eq. Qed.
Lemma st_upd f ml fl top t ml' fl' top' :
  f (set_lists ml fl top x0) = set_lists ml' fl' top' x0 -> upd_proc p f (st ml fl top t) = Ret tt (st ml' fl' top' t).
Proof.
  intros E. erewrite upd_proc_run by (cbn; by apply list_lookup_insert_eq). rewrite E. unfold st, set_procs. cbn.
  by rewrite list_insert_insert_eq.
Qed.
Lemma st_pm {A} (c : M pstate A) ml fl top t a t' : c t = Ret a t' -> on_pm c (st ml fl top t) = Ret a (st ml fl top t').
Proof. intros E. by rewrite (on_pm_ret c _ a t') by exact E. Qed.

Lemma push_free_run n ml fl top t :
  table_page n -> table_page fl \/ fl = 0 ->
  push_free p n (st ml fl top t) = Ret tt (st ml n top (set_mem (pushed (mem t) n fl) t)).
Proof.
  intros Hn Hf. unfold push_free. step_by ltac:(apply st_get). step_by ltac:(apply st_pm, link_head_run; done).
  by apply st_upd.
Qed.

Lemma push_used_run n va size ml fl top t :
  table_page n -> table_page ml \/ ml = 0 ->
  push_used p n va size (st ml fl top t) =
    Ret tt (st n fl top (set_mem (pushed (<[n + N_prev := 0]> (<[n + N_size := size]> (<[n + N_va := va]> (mem t)))) n ml) t)).
Proof.
  intros Hn Hm. unfold push_used. step_by ltac:(apply st_pm; step_store; step_store; apply store_page; node_word).
  step_by ltac:(apply st_get). step_by ltac:(apply st_pm, link_head_run; done). by apply st_upd.
Qed.

Lemma pop_free_run n ns ml fl top t :
  fl = n_at n -> Forall table_page (ats (n :: ns)) -> seg (mem t) 0 (n :: ns) 0 ->
  pop_free_node p (st ml fl top t) = Ret (Some fl) (st ml (first_at ns 0) top (set_mem (unlinked (mem t) 0 (first_at ns 0)) t)).
Proof.
  intros -> Hp (_ & _ & _ & Hnx & _). cbn [fmap list_fmap] in Hp. apply list.Forall_cons in Hp as [Hn Hp].
  unfold pop_free_node. step_by ltac:(apply st_get). cbn [malloc_free_list set_lists set_malloc_list set_malloc_free_list].
  rewrite (proj2 (Z.eqb_neq _ 0)) by (by apply table_page_nz).
  step_by ltac:(apply st_pm, load_page; node_word). rewrite Hnx. step_by ltac:(by apply st_upd).
  unfold unlinked. rewrite Z.eqb_refl. destruct ns as [|k ns]; cbn [first_at].
  - by destruct t.
  - cbn [fmap list_fmap] in Hp. apply list.Forall_cons in Hp as [Hk _]. rewrite (proj2 (Z.eqb_neq _ 0)) by (by apply table_page_nz).
    cbn [negb when]. by step_by ltac:(apply st_pm, store_page; node_word).
Qed.
End State.

(** ** Moving nodes *)

Lemma three_parts {A} (P Q R : list A) :
  NoDup (P ++ Q ++ R) -> (NoDup Q /\ NoDup R) /\ (forall a, a ∈ P -> a ∉ Q /\ a ∉ R) /\ (forall a, a ∈ Q -> a ∉ R).
Proof. rewrite !list.NoDup_app. setoid_rewrite elem_of_app. naive_solver. Qed.

(** The three fields of a node are written. *)
Definition written (m : gmap Z Z) (a va len : Z) : gmap Z Z := <[a + N_prev := 0]> (<[a + N_size := len]> (<[a + N_va := va]> m)).
Lemma written_loose m a va len : loose (written m a va len) (mkNode a va len).
Proof.
  unfold loose, written, N_va, N_size, N_prev. cbn [n_at n_va n_len].
  repeat split; repeat (first [rewrite rd_insert_eq; done | rewrite rd_insert_ne by lia]).
Qed.
Lemma only_written P m a va len : a ∈ P -> only P m (written m a va len).
Proof. intros Ha. unfold written. do 2 (eapply only_trans; [|by apply only_store; [|node_word]]). by apply only_store; [|node_word]. Qed.

Section Move.
Variables (root bot lim : Z).

(** ** What the blocks hold *)

(** The pages of the heap area that are mapped stay where they are and keep their words. *)
Definition data_kept (t t' : pstate) : Prop := forall y w, bot <= y < lim -> xlate (mem t) root y = Some w ->
  xlate (mem t') root y = Some w /\ forall o, 0 <= o < PGSIZE -> rd (mem t') (PTE2PA w + o) = rd (mem t) (PTE2PA w + o).

Lemma kept_refl t : data_kept t t.
Proof. done. Qed.
Lemma kept_trans t1 t2 t3 : data_kept t1 t2 -> data_kept t2 t3 -> data_kept t1 t3.
Proof.
  intros H1 H2 y w Hy Hw. destruct (H1 y w Hy Hw) as [E1 D1]. destruct (H2 y w Hy E1) as [E2 D2]. split; [done|].
  intros o Ho. by rewrite D2, D1.
Qed.

(** Only the bookkeeping changes. *)
Definition same_data (t t' : pstate) : Prop := (forall y, xlate (mem t') root y = xlate (mem t) root y) /\ data_kept t t'.

Lemma same_back t t' : same_data t t' -> data_kept t' t.
Proof. intros [Hx Hk] y w Hy Hw. rewrite Hx in Hw. split; [done|]. intros o Ho. symmetry. by apply (Hk y). Qed.

Section Kept.
Variables (t : pstate) (l : list Z) (own : list Z).
Hypothesis Hc : core t l root bot lim own.
Hypothesis Har : 0 <= bot /\ lim <= MAXVA.

Lemma kept_only m' : only own (mem t) m' -> data_kept t (set_mem m' t).
Proof.
  intros Ho y w Hy Hw. destruct (core_only _ _ _ _ _ _ Hc m' Ho) as [_ Hx]. cbn [mem set_mem]. rewrite Hx. split; [done|].
  intros o Hoff. destruct (fr_frame _ _ _ _ _ (co_frames _ _ _ _ _ _ Hc) y w Hy Hw) as (_ & _ & (Hal & _) & _ & _ & Hno).
  apply Ho. intros p Hp Hin. apply Hno. pose proof (core_pages _ _ _ _ _ _ Hc) as Hpg. rewrite list.Forall_forall in Hpg.
  destruct (Hpg p Hp) as (? & _). unfold in_page in Hin. assert (PTE2PA w = p) as -> by klia. done.
Qed.

Lemma kept_frame t' l' y w :
  vm_frame t l t' l' root -> bot <= y < lim -> xlate (mem t) root y = Some w ->
  forall o, 0 <= o < PGSIZE -> rd (mem t') (PTE2PA w + o) = rd (mem t) (PTE2PA w + o).
Proof.
  intros Hf Hy Hw o Ho. pose proof (co_vm _ _ _ _ _ _ Hc) as Hi.
  destruct (fr_frame _ _ _ _ _ (co_frames _ _ _ _ _ _ Hc) y w Hy Hw) as (_ & _ & Hm & Hr & Ht & _).
  apply (frame_word _ _ _ _ _ Hf Hi); [|done]. split; [|split; [by apply (counted_not_free _ _ _ _ Hi)|done]].
  destruct Hm as (? & ? & ?). pose proof (inv_geo _ _ (vm_pmm _ _ _ Hi)) as []. split; [done|]. lia.
Qed.

Lemma kept_maps t' l' own' a b : maps t l t' l' root bot lim own' a b -> data_kept t t'.
Proof.
  intros Hmp y w Hy Hw. split; [apply (mp_keep _ _ _ _ _ _ _ _ _ _ Hmp); [lia|done]|].
  by apply (kept_frame _ l' y w (mp_frame _ _ _ _ _ _ _ _ _ _ Hmp)).
Qed.
End Kept.

Lemma heap_change t l ml fl top spare used free spare' used' free' m' :
  heap_at t l root ml fl top bot lim spare used free ->
  Permutation (spare ++ ats used ++ ats free) (spare' ++ ats used' ++ ats free') ->
  only (spare ++ ats used ++ ats free) (mem t) m' ->
  seg m' 0 used' 0 -> seg m' 0 free' 0 -> blocks_ok bot top (used' ++ free') ->
  (forall n y, n ∈ used' -> n_va n <= y < n_va n + n_len n -> xlate (mem t) root y <> None) ->
  heap_at (set_mem m' t) l root (first_at used' 0) (first_at free' 0) top bot lim spare' used' free' /\ same_data t (set_mem m' t).
Proof.
  intros [Hc _ _ _ Ha Hab _] Hperm Ho Hu Hf Hb Hm.
  destruct (core_only _ _ _ _ _ _ Hc m' Ho) as [Hc' Hx]. rewrite Hperm in Hc'.
  split; [|split; [exact Hx|by apply (kept_only _ l (spare ++ ats used ++ ats free))]]. split; try done; cbn [mem set_mem].
  - intros y Hy Ht. rewrite Hx. auto.
  - intros n y Hn Hy. rewrite Hx. eauto.
Qed.

Section At.
Variables (t : pstate) (l : list Z) (ml fl top : Z) (spare : list Z) (used free : list node).
Hypothesis Hh : heap_at t l root ml fl top bot lim spare used free.

Lemma at_pages : Forall table_page spare /\ Forall table_page (ats used) /\ Forall table_page (ats free).
Proof. pose proof (core_pages _ _ _ _ _ _ (hp_core _ _ _ _ _ _ _ _ _ _ _ Hh)) as Hp. by rewrite !list.Forall_app in Hp. Qed.
Lemma at_parts :
  (NoDup (ats used) /\ NoDup (ats free)) /\ (forall a, a ∈ spare -> a ∉ ats used /\ a ∉ ats free) /\ (forall a, a ∈ ats used -> a ∉ ats free).
Proof. apply three_parts, (co_nodup _ _ _ _ _ _ (hp_core _ _ _ _ _ _ _ _ _ _ _ Hh)). Qed.
Lemma at_few : (length used + length free <= Z.to_nat 32768)%nat.
Proof.
  pose proof (hp_core _ _ _ _ _ _ _ _ _ _ _ Hh) as Hc. pose proof (pages_few _ (core_pages _ _ _ _ _ _ Hc) (co_nodup _ _ _ _ _ _ Hc)) as Hl.
  rewrite !length_app, !length_fmap in Hl. lia.
Qed.
Lemma first_page ns : Forall table_page (ats ns) -> table_page (first_at ns 0) \/ first_at ns 0 = 0.
Proof. destruct ns; [by right|]. intros Hp. left. by apply list.Forall_cons in Hp as [? _]. Qed.
Lemma first_in ns : first_at ns 0 ∈ ats ns \/ first_at ns 0 = 0.
Proof. destruct ns; [by right|]. left. by left. Qed.
Lemma last_at_in ns : last_at 0 ns ∈ ats ns \/ last_at 0 ns = 0.
Proof. destruct ns as [|k ns _] using rev_ind; [by right|]. left. rewrite last_snoc, fmap_app. apply elem_of_app. right. by left. Qed.

(** A store into a page that is in no list. *)
Lemma spare_change m' : only spare (mem t) m' -> 
  heap_at (set_mem m' t) l root ml fl top bot lim spare used free /\ same_data t (set_mem m' t).
Proof.
  intros Ho. destruct at_pages as (Hps & Hpu & Hpf). destruct at_parts as (_ & Hd & _).
  destruct (hp_used _ _ _ _ _ _ _ _ _ _ _ Hh) as [-> Hu]. destruct (hp_free _ _ _ _ _ _ _ _ _ _ _ Hh) as [-> Hf].
  eapply heap_change; [exact Hh|done| | | |apply Hh|apply Hh].
  - eapply only_sub; [|exact Ho]. intros a Ha. apply elem_of_app. by left.
  - eapply (only_seg spare); [done|done|done| |done]. intros a Ha Hs. by destruct (Hd a Hs).
  - eapply (only_seg spare); [done|done|done| |done]. intros a Ha Hs. by destruct (Hd a Hs).
Qed.
End At.

Lemma only_removed m ns1 n ns2 : only (ats (ns1 ++ n :: ns2)) m (unlinked m (last_at 0 ns1) (first_at ns2 0)).
Proof.
  rewrite fmap_app. cbn [fmap list_fmap]. apply only_unlinked.
  - destruct (last_at_in ns1); [left; apply elem_of_app; by left|by right].
  - destruct (first_in ns2); [left; apply elem_of_app; right; by right|by right].
Qed.

(** A node leaves the list of free blocks, or of those in use, wherever it is. *)
Lemma detach_free t l ml fl top spare used ns1 n ns2 :
  heap_at t l root ml fl top bot lim spare used (ns1 ++ n :: ns2) ->
  let t' := set_mem (unlinked (mem t) (last_at 0 ns1) (first_at ns2 0)) t in
  heap_at t' l root ml (first_at (ns1 ++ ns2) 0) top bot lim
    (n_at n :: spare) used (ns1 ++ ns2) /\ same_data t t'.
Proof.
  intros Hh. destruct (at_pages _ _ _ _ _ _ _ _ Hh) as (Hps & Hpu & Hpf). destruct (at_parts _ _ _ _ _ _ _ _ Hh) as ((_ & Hnf) & _ & Hd).
  destruct (hp_used _ _ _ _ _ _ _ _ _ _ _ Hh) as [-> Hu]. destruct (hp_free _ _ _ _ _ _ _ _ _ _ _ Hh) as [_ Hf].
  destruct (unlinked_seg _ _ _ _ Hpf Hnf Hf) as (_ & _ & Hs). pose proof (only_removed (mem t) ns1 n ns2) as Ho.
  eapply heap_change; [exact Hh| | | |exact Hs| |].
  - rewrite !fmap_app. cbn [fmap list_fmap]. solve_Permutation.
  - eapply only_sub; [|exact Ho]. intros a Ha. rewrite !elem_of_app. by right; right.
  - eapply (only_seg (ats (ns1 ++ n :: ns2))); [exact Ho|done|done|exact Hd|done].
  - apply (blocks_drop _ _ n). eapply (blocks_perm bot top); [|apply Hh]. solve_Permutation.
  - apply Hh.
Qed.

Lemma detach_used t l ml fl top spare ns1 n ns2 free :
  heap_at t l root ml fl top bot lim spare (ns1 ++ n :: ns2) free ->
  let t' := set_mem (unlinked (mem t) (last_at 0 ns1) (first_at ns2 0)) t in
  heap_at t' l root (first_at (ns1 ++ ns2) 0) fl top bot lim
    (n_at n :: spare) (ns1 ++ ns2) free /\ same_data t t'.
Proof.
  intros Hh. destruct (at_pages _ _ _ _ _ _ _ _ Hh) as (Hps & Hpu & Hpf). destruct (at_parts _ _ _ _ _ _ _ _ Hh) as ((Hnu & _) & _ & Hd).
  destruct (hp_used _ _ _ _ _ _ _ _ _ _ _ Hh) as [_ Hu]. destruct (hp_free _ _ _ _ _ _ _ _ _ _ _ Hh) as [-> Hf].
  destruct (unlinked_seg _ _ _ _ Hpu Hnu Hu) as (_ & _ & Hs). pose proof (only_removed (mem t) ns1 n ns2) as Ho.
  eapply heap_change; [exact Hh| | |exact Hs| | |].
  - rewrite !fmap_app. cbn [fmap list_fmap]. solve_Permutation.
  - eapply only_sub; [|exact Ho]. intros a Ha. rewrite !elem_of_app. right; by left.
  - eapply (only_seg (ats (ns1 ++ n :: ns2))); [exact Ho|done|done| |done]. intros a Ha Hb. by apply (Hd a).
  - apply (blocks_drop _ _ n). eapply (blocks_perm bot top); [|apply Hh]. solve_Permutation.
  - intros k y Hk. apply Hh. rewrite !elem_of_app, !elem_of_cons in *. tauto.
Qed.

(** A page that is in no list becomes the first node of a list. *)
Lemma attach_free t l ml fl top spare used free n m :
  heap_at t l root ml fl top bot lim (n_at n :: spare) used free -> only [n_at n] (mem t) m -> loose m n ->
  blocks_ok bot top (used ++ n :: free) ->
  let t' := set_mem (pushed m (n_at n) fl) t in
  heap_at t' l root ml (n_at n) top bot lim spare used (n :: free) /\ same_data t t'.
Proof.
  intros Hh Hom Hl Hb. destruct (at_pages _ _ _ _ _ _ _ _ Hh) as (Hps & Hpu & Hpf). destruct (at_parts _ _ _ _ _ _ _ _ Hh) as ((_ & Hnf) & Hd0 & Hd).
  destruct (hp_used _ _ _ _ _ _ _ _ _ _ _ Hh) as [-> Hu]. destruct (hp_free _ _ _ _ _ _ _ _ _ _ _ Hh) as [-> Hf].
  apply list.Forall_cons in Hps as [Hpn Hps]. destruct (Hd0 (n_at n) ltac:(by left)) as [Hnu Hnfr].
  assert (Hp1 : Forall table_page [n_at n]) by (by constructor).
  assert (Ho : only (n_at n :: ats free) (mem t) (pushed m (n_at n) (first_at free 0))).
  { eapply only_trans; [eapply only_sub; [|exact Hom]|apply only_pushed].
    - intros a ->%list_elem_of_singleton. by left.
    - by left.
    - destruct (first_in free); [left; by right|by right]. }
  apply (heap_change t l (first_at used 0) (first_at free 0) top (n_at n :: spare) used free spare used (n :: free)); [exact Hh| | | | |done|apply Hh].
  - cbn [fmap list_fmap]. solve_Permutation.
  - eapply only_sub; [|exact Ho]. intros a. cbn [app]. rewrite !elem_of_cons, !elem_of_app. tauto.
  - eapply (only_seg (n_at n :: ats free)); [exact Ho|by constructor|done| |done]. intros a Ha. apply not_elem_of_cons.
    split; [by intros ->|by apply Hd].
  - apply pushed_seg; [by constructor|by apply list.NoDup_cons|done|].
    eapply (only_seg [n_at n]); [exact Hom|done|done| |done]. intros a Ha ->%list_elem_of_singleton. done.
Qed.

Lemma attach_used t l ml fl top spare used free n m :
  heap_at t l root ml fl top bot lim (n_at n :: spare) used free -> only [n_at n] (mem t) m -> loose m n ->
  blocks_ok bot top (n :: used ++ free) ->
  (forall y, n_va n <= y < n_va n + n_len n -> xlate (mem t) root y <> None) ->
  let t' := set_mem (pushed m (n_at n) ml) t in
  heap_at t' l root (n_at n) fl top bot lim spare (n :: used) free /\ same_data t t'.
Proof.
  intros Hh Hom Hl Hb Hm. destruct (at_pages _ _ _ _ _ _ _ _ Hh) as (Hps & Hpu & Hpf). destruct (at_parts _ _ _ _ _ _ _ _ Hh) as ((Hnu' & _) & Hd0 & Hd).
  destruct (hp_used _ _ _ _ _ _ _ _ _ _ _ Hh) as [-> Hu]. destruct (hp_free _ _ _ _ _ _ _ _ _ _ _ Hh) as [-> Hf].
  apply list.Forall_cons in Hps as [Hpn Hps]. destruct (Hd0 (n_at n) ltac:(by left)) as [Hnu Hnfr].
  assert (Hp1 : Forall table_page [n_at n]) by (by constructor).
  assert (Ho : only (n_at n :: ats used) (mem t) (pushed m (n_at n) (first_at used 0))).
  { eapply only_trans; [eapply only_sub; [|exact Hom]|apply only_pushed].
    - intros a ->%list_elem_of_singleton. by left.
    - by left.
    - destruct (first_in used); [left; by right|by right]. }
  apply (heap_change t l (first_at used 0) (first_at free 0) top (n_at n :: spare) used free spare (n :: used) free); [exact Hh| | | | |done|].
  - cbn [fmap list_fmap]. solve_Permutation.
  - eapply only_sub; [|exact Ho]. intros a. cbn [app]. rewrite !elem_of_cons, !elem_of_app. tauto.
  - apply pushed_seg; [by constructor|by apply list.NoDup_cons|done|].
    eapply (only_seg [n_at n]); [exact Hom|done|done| |done]. intros a Ha ->%list_elem_of_singleton. done.
  - eapply (only_seg (n_at n :: ats used)); [exact Ho|by constructor|done| |done]. intros a Ha. apply not_elem_of_cons.
    split; [by intros ->|intros Hb'; by apply (Hd a)].
  - intros k y [->|Hk]%elem_of_cons Hy; [by apply Hm|by eapply (hp_mapped _ _ _ _ _ _ _ _ _ _ _ Hh)].
Qed.

(** A free page of memory becomes a page for a node. *)
Lemma heap_alloc t q l ml fl top spare used free :
  heap_at t (q :: l) root ml fl top bot lim spare used free -> heap_at (alloc_result t q) l root ml fl top bot lim (q :: spare) used free.
Proof. intros [Hc Hu Hf Hb Ha Hab Hm]. split; try done. by apply core_alloc. Qed.

(** Pages of the heap area get mapped, and the top may move up over them. *)
Lemma heap_maps t l t' l' ml fl top top' spare used free a b :
  heap_at t l root ml fl top bot lim spare used free ->
  maps t l t' l' root bot lim (spare ++ ats used ++ ats free) a b ->
  top <= top' <= lim -> (forall y, top' <= y - y mod PGSIZE -> b <= y) ->
  heap_at t' l' root ml fl top' bot lim spare used free /\ data_kept t t'.
Proof.
  intros Hh Hmp Ht Hb. pose proof Hh as [Hc [Eu Hu] [Ef Hf] Hbl (Ha1 & Ha2 & Ha3 & Ha4 & Ha5) Hab Hm].
  destruct (core_maps _ _ _ _ _ _ Hc _ _ _ _ Hmp) as [Hc' Hw].
  assert (Hseg : forall ns, (forall k, k ∈ ats ns -> k ∈ spare ++ ats used ++ ats free) -> seg (mem t) 0 ns 0 -> seg (mem t') 0 ns 0).
  { intros ns Hs. apply seg_frame. intros k o Hk Ho. apply Hw; [|klia]. apply Hs, list_elem_of_fmap. by exists k. }
  split; [|apply (kept_maps _ _ _ Hc ltac:(lia) _ _ _ _ _ Hmp)]. split; [done|split; [done|]|split; [done|]| |lia| |].
  - apply Hseg; [|done]. intros k Hk. rewrite !elem_of_app. tauto.
  - apply Hseg; [|done]. intros k Hk. rewrite !elem_of_app. tauto.
  - destruct Hbl as [Hba Hbs]. split; [|done]. eapply list.Forall_impl; [exact Hba|]. unfold in_area. lia.
  - intros y Hy Hty. rewrite (mp_out _ _ _ _ _ _ _ _ _ _ Hmp); [apply Hab; lia|lia|]. specialize (Hb y Hty). lia.
  - intros n y Hn Hy. specialize (Hm n y Hn Hy). destruct (xlate (mem t) root y) as [w|] eqn:E; [|done].
    destruct Hbl as [Hba _]. rewrite list.Forall_app, !list.Forall_forall in Hba. pose proof (proj1 Hba n Hn) as (? & ? & ?).
    rewrite (mp_keep _ _ _ _ _ _ _ _ _ _ Hmp y w); [done|lia|done].
Qed.


End Move.
