(* ===== verification/MallocRun.v ===== *)
(** * Allocating and freeing blocks of the user heap

    The runs of [user_better_malloc] and [user_better_free] on a heap that satisfies
    [heap_inv], and the theorems on them. *)
From S2P Require Import Prelude Pmm Vmm Process Sched Fork Strap Cow Heap HeapSpace Malloc.

(** The loads of the fields of a node, wherever it is in its list. *)
Lemma node_fields m ns1 n ns2 :
  seg m 0 (ns1 ++ n :: ns2) 0 ->
  rd m (n_at n + N_va) = n_va n /\ rd m (n_at n + N_size) = n_len n /\ rd m (n_at n + N_prev) = last_at 0 ns1 /\
  rd m (n_at n + N_next) = first_at ns2 0.
Proof. rewrite seg_app. cbn [seg]. tauto. Qed.

Lemma ats_mid ns1 n ns2 : Forall table_page (ats (ns1 ++ n :: ns2)) -> table_page (n_at n).
Proof. rewrite fmap_app, list.Forall_app. cbn [fmap list_fmap]. rewrite list.Forall_cons. tauto. Qed.

(** The pages that [size] bytes at [va] touch. *)
Lemma span_facts va size :
  0 <= va -> 0 < size -> va + size <= MAXVA ->
  let first := ROUNDDOWN va PGSIZE in let n := Z.to_nat ((u64 (va + size) - first + PGSIZE - 1) / PGSIZE) in
  first mod PGSIZE = 0 /\ first <= va /\ va + size <= first + Z.of_nat n * PGSIZE < va + size + PGSIZE /\
  (n <= Z.to_nat (size / PGSIZE) + 2)%nat /\ 0 <= first /\ va < first + PGSIZE.
Proof. intros Hv Hs Hm first n. unfold n, first, ROUNDDOWN, MAXVA in *. klia. Qed.

(** The node of a block is found by its address. *)
Lemma spread_first bot top ns1 n ns2 : blocks_ok bot top (ns1 ++ n :: ns2) -> Forall (fun k => n_va k <> n_va n) ns1.
Proof.
  intros Hb. assert (Hb' : blocks_ok bot top (n :: ns1 ++ ns2)) by (eapply (blocks_perm bot top); [|exact Hb]; solve_Permutation).
  destruct Hb' as [Ha [Hf _]]. apply list.Forall_app in Hf as [Hf _]. apply list.Forall_cons in Ha as [Hn Ha]. apply list.Forall_app in Ha as [Ha _].
  rewrite !list.Forall_forall in *. intros k Hk. specialize (Hf k Hk). specialize (Ha k Hk). unfold apart, in_area in *. lia.
Qed.

Lemma first_unique va ns1 : forall (n k : node) ns2 us1 us2,
  ns1 ++ k :: ns2 = us1 ++ n :: us2 -> Forall (fun k => n_va k <> va) ns1 -> Forall (fun k => n_va k <> va) us1 ->
  n_va k = va -> n_va n = va -> k = n.
Proof.
  induction ns1 as [|a ns1 IH]; intros n k ns2 [|b us1] us2 E H1 H2 Hk Hn; cbn [app] in E; injection E as -> E.
  - done.
  - by apply list.Forall_cons in H2 as [? _].
  - by apply list.Forall_cons in H1 as [? _].
  - apply list.Forall_cons in H1 as [_ H1]. apply list.Forall_cons in H2 as [_ H2]. by apply (IH _ _ _ _ _ E).
Qed.

Lemma unlinked_node m ns1 n ns2 o :
  Forall table_page (ats (ns1 ++ n :: ns2)) -> NoDup (ats (ns1 ++ n :: ns2)) -> 0 <= o < PGSIZE ->
  rd (unlinked m (last_at 0 ns1) (first_at ns2 0)) (n_at n + o) = rd m (n_at n + o).
Proof.
  intros Hp Hnd Ho. pose proof (ats_mid _ _ _ Hp) as Hn.
  apply (only_page (ats ns1 ++ ats ns2)); [| |done| |done].
  - apply only_unlinked; [destruct (last_at_in ns1)|destruct (first_in ns2)]; rewrite ?elem_of_app; tauto.
  - rewrite fmap_app, list.Forall_app in Hp. cbn [fmap list_fmap] in Hp. rewrite list.Forall_cons in Hp. apply list.Forall_app. tauto.
  - rewrite fmap_app in Hnd. cbn [fmap list_fmap] in Hnd. apply list.NoDup_app in Hnd as (_ & Hd & Hnd). apply list.NoDup_cons in Hnd as [Hnd _].
    intros [Hin|Hin]%elem_of_app; [|done]. apply (Hd _ Hin). by left.
Qed.

Section Run.
Context `{Linker}.
Variables (s0 : kstate) (tp p : nat) (x0 : process) (root bot lim : Z).
Hypothesis Hlt : (p < length (procs s0))%nat.

Notation st := (st s0 p x0).
Notation heap_at t l ml fl top := (heap_at t l root ml fl top bot lim).
Notation kept := (data_kept root bot lim).

Lemma set_mem_id t : set_mem (mem t) t = t.
Proof. by destruct t. Qed.

(** The stores that take a node out of the list whose head is the field [set]. *)
Lemma unlink_run {A} (k : M kstate A) (set : Z -> process -> process) (mk : Z -> pstate -> kstate) t ns1 n ns2 :
  (forall h t d, upd_proc p (set d) (mk h t) = Ret tt (mk d t)) ->
  (forall h t a v, table_page a -> forall o, 0 <= o < PGSIZE -> o mod 8 = 0 ->
     on_pm (store (a + o) v) (mk h t) = Ret tt (mk h (set_mem (<[a + o := v]> (mem t)) t))) ->
  Forall table_page (ats (ns1 ++ n :: ns2)) ->
  let prev := last_at 0 ns1 in let next := first_at ns2 0 in
  ((if negb (prev =? 0) then on_pm (store (prev + N_next) next) else upd_proc p (set next)) ;;;
   when (negb (next =? 0)) (on_pm (store (next + N_prev) prev)) ;;; k) (mk (first_at (ns1 ++ n :: ns2) 0) t) =
  k (mk (first_at (ns1 ++ ns2) 0) (set_mem (unlinked (mem t) prev next) t)).
Proof.
  intros Hset Hst Hp prev next. rewrite !first_app. fold next. cbn [first_at].
  rewrite fmap_app in Hp. apply list.Forall_app in Hp as [H1 H2]. cbn [fmap list_fmap] in H2. apply list.Forall_cons in H2 as [_ H2].
  assert (E1 : (if negb (prev =? 0) then on_pm (store (prev + N_next) next) else upd_proc p (set next)) (mk (first_at ns1 (n_at n)) t) =
               Ret tt (mk (first_at ns1 next) (set_mem (if prev =? 0 then mem t else <[prev + N_next := next]> (mem t)) t))).
  { subst prev. destruct ns1 as [|a ns1 _] using rev_ind.
    - cbn [negb Z.eqb last_at first_at]. rewrite set_mem_id. by apply Hset.
    - rewrite last_snoc. rewrite fmap_app in H1. apply list.Forall_app in H1 as [_ H1]. cbn [fmap list_fmap] in H1.
      apply list.Forall_cons in H1 as [H1 _]. rewrite (proj2 (Z.eqb_neq _ 0)) by (by apply table_page_nz). cbn [negb].
      replace (first_at (ns1 ++ [a]) next) with (first_at (ns1 ++ [a]) (n_at n)) by (by destruct ns1).
      apply Hst; node_word. }
  step_by ltac:(exact E1). unfold unlinked. set (t1 := set_mem (if prev =? 0 then _ else _) t). destruct (next =? 0) eqn:E; cbn [negb when].
  - by step_by ltac:(reflexivity).
  - apply Z.eqb_neq in E. destruct (first_page ns2 H2) as [Hn|]; [|done]. by step_by ltac:(apply Hst; node_word).
Qed.

(** The pages that allocating [size] bytes takes at most: frames, page tables and a node. *)
Definition pages_for (size : Z) : nat := 3 * (Z.to_nat (size / PGSIZE) + 2) + 1.
Definition enough (size : Z) (l : list Z) : Prop := (pages_for size <= length l)%nat.


(** A page for a node: the first node of the list of free blocks, or a new page. *)
Lemma take_node t l ml fl top spare used free :
  heap_at t l ml fl top spare used free -> (0 < length l)%nat ->
  exists a t' l' fl' free', table_page a /\ heap_at t' l' ml fl' top (a :: spare) used free' /\ kept t t' /\
    (length l <= S (length l'))%nat /\ (free = free' \/ exists k, free = k :: free') /\
    ((pop_free_node p (st ml fl top t) = Ret (Some a) (st ml fl' top t')) \/
     (pop_free_node p (st ml fl top t) = Ret None (st ml fl top t) /\
      on_pm alloc_page (st ml fl top t) = Ret a (st ml fl' top t'))).
Proof.
  intros Hh Hl. destruct (hp_free _ _ _ _ _ _ _ _ _ _ _ Hh) as [Efl Hf]. destruct (at_pages _ _ _ _ _ _ _ _ _ _ _ Hh) as (_ & _ & Hpf).
  destruct free as [|n free].
  - destruct l as [|q l]; [cbn in Hl; lia|]. pose proof (co_vm _ _ _ _ _ _ (hp_core _ _ _ _ _ _ _ _ _ _ _ Hh)) as Hi.
    destruct (alloc_private _ _ _ _ Hi) as (Hq & _). exists q, (alloc_result t q), l, fl, []. split; [done|].
    split; [by apply heap_alloc|]. split; [done|]. split; [done|]. split; [by left|]. right. split.
    + unfold pop_free_node. step_by ltac:(by apply st_get). cbn [malloc_free_list set_lists set_malloc_list set_malloc_free_list].
      cbn [first_at] in Efl. rewrite Efl. done.
    + apply st_pm. apply (alloc_page_run _ _ (vm_pmm _ _ _ Hi) q l eq_refl).
  - destruct (detach_free root bot lim t l ml fl top spare used [] n free Hh) as [Hh' [HxHk Hk]].
    eexists (n_at n), _, l, _, free. split; [by apply (ats_mid [] n free)|]. split; [exact Hh'|]. split; [exact Hk|].
    split; [lia|]. split; [right; by exists n|]. left.
    rewrite (pop_free_run s0 p x0 Hlt n free ml fl top t Efl Hpf Hf). cbn [first_at] in Efl. by rewrite Efl.
Qed.

Lemma blocks_fewer top n used free free' :
  free = free' \/ (exists k, free = k :: free') -> blocks_ok bot top (n :: used ++ free) -> blocks_ok bot top (n :: used ++ free').
Proof.
  intros [->|[k ->]] Hb; [done|]. apply (blocks_drop _ _ k). eapply (blocks_perm bot top); [|exact Hb]. solve_Permutation.
Qed.

(** [split_block] keeps what the list has and adds the rest of the block. *)
Lemma split_run t l ml fl top used free a va rsize size :
  heap_at t l ml fl top [a] used free -> blocks_ok bot top (mkNode a va rsize :: used ++ free) ->
  0 < size <= rsize -> (0 < length l)%nat ->
  exists t' l' fl' free', split_block p a va rsize size (st ml fl top t) = Ret true (st ml fl' top t') /\
    heap_at t' l' ml fl' top [a] used free' /\ kept t t' /\ blocks_ok bot top (mkNode a va size :: used ++ free') /\
    (length l <= S (length l'))%nat.
Proof.
  intros Hh Hb Hs Hl. unfold split_block. pose proof (hp_area _ _ _ _ _ _ _ _ _ _ _ Hh) as Har.
  assert (Hva : 0 <= va /\ va + rsize <= MAXVA).
  { destruct Hb as [Hba _]. apply list.Forall_cons in Hba as [Hba _]. unfold in_area in Hba. cbn [n_va n_len] in Hba. lia. }
  destruct (size <? rsize) eqn:Esz; bsplit; [|].
  2: { exists t, l, fl, free. split; [done|]. split; [done|]. split; [apply kept_refl|]. split; [by replace size with rsize by lia|lia]. }
  destruct (take_node _ _ _ _ _ _ _ _ Hh Hl) as (q & t1 & l1 & fl1 & free1 & Hq & Hh1 & Hk1 & Hl1 & Hfr & Erun).
  assert (Hu : u64 (va + size) = va + size) by (unfold MAXVA in *; klia).
  set (k := mkNode q (va + size) (rsize - size)).
  assert (Hb' : blocks_ok bot top (mkNode a va size :: used ++ k :: free1)).
  { apply (blocks_fewer _ _ _ _ _ Hfr) in Hb. apply (blocks_split _ _ _ (mkNode a va size) k) in Hb; cbn; try lia.
    eapply (blocks_perm bot top); [|exact Hb]. solve_Permutation. }
  destruct (attach_free root bot lim t1 l1 ml fl1 top [a] used free1 k (written (mem t1) q (va + size) (rsize - size)) Hh1) as [Hh2 [HxHk2 Hk2]].
  { apply only_written. by left. } { apply written_loose. } { by apply blocks_drop in Hb'. }
  eexists _, l1, q, (k :: free1). split; [|split; [exact Hh2|split; [by eapply kept_trans|by split]]].
  assert (Hpf : table_page fl1 \/ fl1 = 0).
  { destruct (hp_free _ _ _ _ _ _ _ _ _ _ _ Hh1) as [-> _]. apply first_page. apply (at_pages _ _ _ _ _ _ _ _ _ _ _ Hh1). }
  assert (Ek : (on_pm (store (q + N_va) (u64 (va + size)) ;;; store (q + N_size) (rsize - size) ;;; store (q + N_prev) 0) ;;;
                push_free p q ;;; ret true) (st ml fl1 top t1) =
               Ret true (st ml q top (set_mem (pushed (written (mem t1) q (va + size) (rsize - size)) q fl1) t1))).
  { rewrite Hu. step_by ltac:(apply st_pm; step_store; step_store; apply store_page; node_word).
    by step_by ltac:(apply push_free_run). }
  destruct Erun as [E1|[E1 E2]].
  - step_by ltac:(exact E1). step_by ltac:(reflexivity). rewrite (proj2 (Z.eqb_neq _ 0)) by (by apply table_page_nz). exact Ek.
  - step_by ltac:(exact E1). step_by ltac:(exact E2). rewrite (proj2 (Z.eqb_neq _ 0)) by (by apply table_page_nz). exact Ek.
Qed.

(** The node at hand, whose block is mapped, goes in front of the list in use. *)
Lemma finish_run t l ml fl top used free a va size :
  heap_at t l ml fl top [a] used free -> blocks_ok bot top (mkNode a va size :: used ++ free) ->
  (forall y, va <= y < va + size -> xlate (mem t) root y <> None) ->
  exists t', push_used p a va size (st ml fl top t) = Ret tt (st a fl top t') /\
    heap_at t' l a fl top [] (mkNode a va size :: used) free /\ kept t t'.
Proof.
  intros Hh Hb Hm. destruct (at_pages _ _ _ _ _ _ _ _ _ _ _ Hh) as (Hpa & Hpu & _). apply list.Forall_cons in Hpa as [Hpa _].
  destruct (attach_used root bot lim t l ml fl top [] used free (mkNode a va size) (written (mem t) a va size) Hh) as [Hh' [HxHk Hk]].
  { apply only_written. by left. } { apply written_loose. } { done. } { done. }
  eexists. split; [|split; [exact Hh'|exact Hk]]. apply push_used_run; [done|done|].
  destruct (hp_used _ _ _ _ _ _ _ _ _ _ _ Hh) as [-> _]. by apply first_page.
Qed.

Lemma kept_mapped t t' va size :
  kept t t' -> bot <= va -> va + size <= lim -> (forall y, va <= y < va + size -> xlate (mem t) root y <> None) ->
  forall y, va <= y < va + size -> xlate (mem t') root y <> None.
Proof.
  intros Hk Hv Hl Hm y Hy. specialize (Hm y Hy). destruct (xlate (mem t) root y) as [w|] eqn:E; [|done].
  destruct (Hk y w ltac:(lia) E) as [-> _]. done.
Qed.

Lemma reuse_run t l ml fl top used ns1 n ns2 size :
  heap_at t l ml fl top [] used (ns1 ++ n :: ns2) -> 0 < size <= n_len n -> enough size l ->
  exists t' l' fl' free', reuse_block tp p root (n_at n) size (st ml fl top t) = Ret (n_va n) (st (n_at n) fl' top t') /\
    heap_at t' l' (n_at n) fl' top [] (mkNode (n_at n) (n_va n) size :: used) free' /\ kept t t' /\
    (length l <= length l' + pages_for size)%nat.
Proof.
  intros Hh Hs Hl. destruct (hp_free _ _ _ _ _ _ _ _ _ _ _ Hh) as [Efl Hf]. destruct (at_pages _ _ _ _ _ _ _ _ _ _ _ Hh) as (_ & _ & Hpf).
  pose proof (ats_mid _ _ _ Hpf) as Hn. destruct (node_fields _ _ _ _ Hf) as (Eva & Esz & Epv & Enx).
  pose proof (hp_area _ _ _ _ _ _ _ _ _ _ _ Hh) as Har.
  assert (Hb : blocks_ok bot top (mkNode (n_at n) (n_va n) (n_len n) :: used ++ ns1 ++ ns2)).
  { replace (mkNode _ _ _) with n by (by destruct n). eapply (blocks_perm bot top); [|apply Hh]. solve_Permutation. }
  assert (Hva : bot <= n_va n /\ n_va n + n_len n <= top).
  { destruct Hb as [Hba _]. apply list.Forall_cons in Hba as [Hba _]. unfold in_area in Hba. cbn [n_va n_len] in Hba. lia. }
  destruct (span_facts (n_va n) size) as (Hs1 & Hs2 & Hs3 & Hs4 & Hs5 & Hs6); [lia|lia|lia|].
  set (cnt := Z.to_nat ((u64 (n_va n + size) - _ + PGSIZE - 1) / PGSIZE)) in *.
  destruct (detach_free _ _ _ _ _ _ _ _ _ _ _ _ _ Hh) as [Hh1 [HxHk1 Hk1]]. set (t1 := set_mem (unlinked _ _ _) t) in *.
  set (m2 := <[n_at n + N_prev := 0]> (<[n_at n + N_next := 0]> (mem t1))).
  destruct (spare_change _ _ _ _ _ _ _ _ _ _ _ Hh1 m2) as [Hh2 [HxHk2 Hk2]].
  { eapply only_trans; apply only_store; (by left) || node_word. }
  set (t2 := set_mem m2 t1) in *. set (fl1 := first_at (ns1 ++ ns2) 0) in *.
  pose proof (hp_core _ _ _ _ _ _ _ _ _ _ _ Hh2) as Hc2. unfold enough, pages_for in Hl.
  destruct (ensure_mapped_run tp root bot lim ([n_at n] ++ ats used ++ ats (ns1 ++ ns2)) ltac:(lia) ltac:(lia) cnt (st ml fl1 top t2) l
    (ROUNDDOWN (n_va n) PGSIZE) (co_vm _ _ _ _ _ _ Hc2) ltac:(lia) (co_frames _ _ _ _ _ _ Hc2) (core_not_free _ _ _ _ _ _ Hc2))
    as (t3 & l3 & E3 & Hmp & Hl3).
  { exact Hs1. } { klia. } { klia. }
  destruct (heap_maps _ _ _ _ _ _ _ _ _ _ top _ _ _ _ _ Hh2 Hmp) as [Hh3 Hk3]; [lia|intros y Hy; klia|].
  destruct (split_run _ _ _ _ _ _ _ _ (n_va n) (n_len n) size Hh3 Hb Hs) as (t4 & l4 & fl4 & free4 & E4 & Hh4 & Hk4 & Hb4 & Hl4); [lia|].
  destruct (finish_run _ _ _ _ _ _ _ _ _ _ Hh4 Hb4) as (t5 & E5 & Hh5 & Hk5).
  { apply (kept_mapped t3); [done|lia|lia|]. intros y Hy. apply (mp_in _ _ _ _ _ _ _ _ _ _ Hmp); lia. }
  exists t5, l4, fl4, free4. split; [|split; [exact Hh5|split; [|unfold pages_for; lia]]].
  2: { repeat (eapply kept_trans; [eassumption|]). apply kept_refl. }
  unfold reuse_block. do 4 step_by ltac:(apply st_pm, load_page; node_word). rewrite Eva, Esz, Epv, Enx.
  rewrite Efl. rewrite (unlink_run _ set_malloc_free_list (fun h t => st ml h top t)).
  2: { intros. by apply st_upd. } 2: { intros. apply st_pm. by apply store_page. } 2: { done. }
  step_by ltac:(apply st_pm; step_store; apply store_page; node_word). step_by ltac:(exact E3). cbn [negb].
  step_by ltac:(exact E4). cbn [negb]. step_by ltac:(exact E5). done.
Qed.

(** The page of the top is mapped, or gets mapped. *)
Lemma first_page_run b a t l ml fl top spare used free :
  heap_at t l ml fl top spare used free -> top < lim -> (3 <= length l)%nat ->
  let va := ROUNDDOWN top PGSIZE in
  exists mapped t' l', on_pm (lookup_pa root va) (st ml fl top t) = Ret mapped (st ml fl top t) /\
    (if mapped =? 0 then
       let* pa := on_pm alloc_page in
       if pa =? 0 then drop_node p b a ;;; ret false
       else vm_call tp tt (user_vm_map root va PGSIZE pa heap_perm) ;;; ret true
     else ret true) (st ml fl top t) = Ret true (st ml fl top t') /\
    maps t l t' l' root bot lim (spare ++ ats used ++ ats free) va (va + PGSIZE) /\ (length l <= length l' + 3)%nat.
Proof.
  intros Hh Ht Hl va. pose proof (hp_area _ _ _ _ _ _ _ _ _ _ _ Hh) as Har. pose proof (hp_core _ _ _ _ _ _ _ _ _ _ _ Hh) as Hc.
  pose proof (co_vm _ _ _ _ _ _ Hc) as Hi. pose proof (co_frames _ _ _ _ _ _ Hc) as Hfr.
  assert (Hva : va mod PGSIZE = 0 /\ bot <= va /\ va + PGSIZE <= lim) by (unfold va, ROUNDDOWN, MAXVA in *; klia).
  assert (El : on_pm (lookup_pa root va) (st ml fl top t) =
      Ret (match xlate (mem t) root va with Some w => if has w PTE_R || has w PTE_W then PTE2PA w else 0 | None => 0 end) (st ml fl top t)).
  { apply st_pm. rewrite lookup_pa_run; [|apply Hi|lia]. rewrite (proj2 (Z.leb_gt _ _)) by klia. done. }
  destruct (xlate (mem t) root va) as [w|] eqn:Ew.
  - destruct (fr_frame _ _ _ _ _ Hfr va w ltac:(klia) Ew) as (HR & _ & Hm & _). rewrite HR in El. cbn [orb] in El.
    exists (PTE2PA w), t, l. split; [exact El|].
    rewrite (proj2 (Z.eqb_neq (PTE2PA w) 0)).
    2: { pose proof (inv_geo _ _ (vm_pmm _ _ _ Hi)) as []. destruct Hm as (_ & ? & _). klia. }
    split; [done|]. split; [|lia]. apply (maps_present _ _ _ _ _ _ _ w); [done|done|lia|done].
  - destruct l as [|q l]; [cbn in Hl; lia|]. cbn [length] in Hl.
    destruct (map_page_run tp root bot lim (spare ++ ats used ++ ats free) ltac:(lia) ltac:(lia) (ret true) (st ml fl top t) q l va)
      as (Hq & Ea & t1 & l1 & Hmp & Hl1 & Ek); [done|lia|done|by apply (core_not_free _ _ _ _ _ _ Hc)|lia|lia|lia|done|].
    exists 0, t1, l1. split; [exact El|]. split; [|split; [exact Hmp|cbn [length]; lia]]. cbn [Z.eqb].
    step_by ltac:(exact Ea). rewrite (proj2 (Z.eqb_neq q 0)) by done. exact Ek.
Qed.

(** The new top, once the pages up to it are mapped. *)
Lemma top_run t l t' l' ml fl top used free a size e :
  heap_at t l ml fl top [a] used free -> 0 < size -> top + size <= lim ->
  maps t l t' l' root bot lim ([a] ++ ats used ++ ats free) (ROUNDDOWN top PGSIZE) e ->
  e mod PGSIZE = 0 -> top + size <= e < top + size + PGSIZE ->
  exists t2, (upd_proc p (fun x => set_user_heap (set_heap_top (u64 (top + size)) (user_heap x)) x) ;;; push_used p a top size ;;; ret top)
      (st ml fl top t') = Ret top (st a fl (top + size) t2) /\
    heap_at t2 l' a fl (top + size) [] (mkNode a top size :: used) free /\ kept t t2.
Proof.
  intros Hh Hs Hl Hmp He1 He2. pose proof (hp_area _ _ _ _ _ _ _ _ _ _ _ Hh) as Har.
  destruct (heap_maps _ _ _ _ _ _ _ _ _ _ (top + size) _ _ _ _ _ Hh Hmp) as [Hh1 Hk1]; [lia|intros y Hy; klia|].
  destruct (finish_run _ _ _ _ _ _ _ a top size Hh1) as (t2 & E2 & Hh2 & Hk2).
  { apply (blocks_push bot top (mkNode a top size)); [lia|done|done|apply Hh]. }
  { intros y Hy. apply (mp_in _ _ _ _ _ _ _ _ _ _ Hmp); [lia|]. unfold ROUNDDOWN, MAXVA in *. klia. }
  exists t2. split; [|split; [exact Hh2|by eapply kept_trans]].
  replace (u64 (top + size)) with (top + size) by (unfold MAXVA in *; klia).
  step_by ltac:(by apply st_upd). by step_by ltac:(exact E2).
Qed.

Lemma grow_with_run b t l ml fl top used free a size :
  heap_at t l ml fl top [a] used free -> 0 < size -> top + size <= lim -> (3 * (Z.to_nat (size / PGSIZE) + 2) <= length l)%nat ->
  exists t' l', grow_with_node tp p root size top b a (st ml fl top t) = Ret top (st a fl (top + size) t') /\
    heap_at t' l' a fl (top + size) [] (mkNode a top size :: used) free /\ kept t t' /\
    (length l <= length l' + 3 * (Z.to_nat (size / PGSIZE) + 2))%nat.
Proof.
  intros Hh Hs Ht Hl. pose proof (hp_area _ _ _ _ _ _ _ _ _ _ _ Hh) as Har. pose proof (hp_core _ _ _ _ _ _ _ _ _ _ _ Hh) as Hc.
  destruct (first_page_run b a _ _ _ _ _ _ _ _ Hh) as (mapped & t1 & l1 & El & E1 & Hmp1 & Hl1); [lia|lia|].
  set (ps := ROUNDDOWN top PGSIZE) in *.
  assert (Hps : ps mod PGSIZE = 0 /\ bot <= ps <= top /\ top < ps + PGSIZE) by (unfold ps, ROUNDDOWN, MAXVA in *; klia).
  assert (Hu1 : u64 (ps + PGSIZE - top) = ps + PGSIZE - top) by (unfold MAXVA in *; klia).
  assert (Hu2 : u64 (ps + PGSIZE) = ps + PGSIZE) by (unfold MAXVA in *; klia).
  unfold grow_with_node. fold ps heap_perm. rewrite Hu1, Hu2.
  destruct (size <=? ps + PGSIZE - top) eqn:Esz; bsplit.
  - destruct (top_run _ _ _ _ _ _ _ _ _ _ size (ps + PGSIZE) Hh Hs Ht Hmp1) as (t2 & E2 & Hh2 & Hk2); [klia|lia|].
    exists t2, l1. split; [|split; [done|split; [done|lia]]]. step_by ltac:(exact El). step_by ltac:(exact E1). exact E2.
  - set (need := size - (ps + PGSIZE - top)). set (np := Z.to_nat (u64 (need + PGSIZE - 1) / PGSIZE)).
    assert (Hnp : need <= Z.of_nat np * PGSIZE < need + PGSIZE /\ (np <= Z.to_nat (size / PGSIZE) + 1)%nat).
    { unfold np, need, MAXVA in *. klia. }
    destruct (extend_heap_run tp root bot lim ([a] ++ ats used ++ ats free) ltac:(lia) ltac:(lia) np 0 (st ml fl top t1) l1 (ps + PGSIZE)
      (if mapped =? 0 then Some ps else None) (vf_inv _ _ _ _ _ (mp_frame _ _ _ _ _ _ _ _ _ _ Hmp1)) ltac:(lia)
      (mp_frames _ _ _ _ _ _ _ _ _ _ Hmp1)
      (own_shrink root _ _ _ _ _ (mp_frame _ _ _ _ _ _ _ _ _ _ Hmp1) (core_not_free _ _ _ _ _ _ Hc)))
      as (t2 & l2 & E2 & Hmp2 & Hl2); [klia|lia|unfold need in *; klia| |].
    { intros y Hy. cbn [pm]. rewrite (mp_out _ _ _ _ _ _ _ _ _ _ Hmp1) by (unfold need in *; klia).
      apply (hp_above _ _ _ _ _ _ _ _ _ _ _ Hh); unfold need in *; klia. }
    replace (ps + PGSIZE + Z.of_nat 0 * PGSIZE) with (ps + PGSIZE) in Hmp2 by lia.
    assert (Hmp : maps t l t2 l2 root bot lim ([a] ++ ats used ++ ats free) ps (ps + PGSIZE + Z.of_nat np * PGSIZE))
      by (eapply maps_trans; [exact Hmp1|exact Hmp2|klia]).
    destruct (top_run _ _ _ _ _ _ _ _ _ _ size _ Hh Hs Ht Hmp) as (t3 & E3 & Hh3 & Hk3); [klia|unfold need in *; lia|].
    exists t3, l2. split; [|split; [done|split; [done|lia]]]. step_by ltac:(exact El). step_by ltac:(exact E1). cbn [negb]. step_by ltac:(exact E2). exact E3.
Qed.

Lemma grow_run t l ml fl top used free size :
  heap_at t l ml fl top [] used free -> 0 < size -> top + size <= lim -> enough size l ->
  exists t' l' a fl' free', grow_block tp p root size (st ml fl top t) = Ret top (st a fl' (top + size) t') /\
    heap_at t' l' a fl' (top + size) [] (mkNode a top size :: used) free' /\ kept t t' /\
    (length l <= length l' + pages_for size)%nat.
Proof.
  intros Hh Hs Ht Hl. unfold enough, pages_for in Hl.
  destruct (take_node _ _ _ _ _ _ _ _ Hh ltac:(lia)) as (a & t1 & l1 & fl1 & free1 & Ha & Hh1 & Hk1 & Hl1 & _ & Erun).
  unfold grow_block. destruct Erun as [E1|[E1 E2]].
  - destruct (spare_change _ _ _ _ _ _ _ _ _ _ _ Hh1 (<[a + N_next := 0]> (<[a + N_prev := 0]> (mem t1)))) as [Hh2 [HxHk2 Hk2]].
    { eapply only_trans; apply only_store; (by left) || node_word. }
    destruct (grow_with_run true _ _ _ _ _ _ _ _ size Hh2 Hs Ht ltac:(lia)) as (t3 & l3 & E3 & Hh3 & Hk3 & Hl3).
    exists t3, l3, a, fl1, free1. split; [|split; [done|split; [|unfold pages_for; lia]]].
    2: { repeat (eapply kept_trans; [eassumption|]). apply kept_refl. }
    step_by ltac:(by apply st_get). step_by ltac:(exact E1). step_by ltac:(apply st_pm; step_store; apply store_page; node_word).
    exact E3.
  - destruct (grow_with_run false _ _ _ _ _ _ _ _ size Hh1 Hs Ht ltac:(lia)) as (t3 & l3 & E3 & Hh3 & Hk3 & Hl3).
    exists t3, l3, a, fl1, free1. split; [|split; [done|split; [by eapply kept_trans|unfold pages_for; lia]]].
    step_by ltac:(by apply st_get). step_by ltac:(exact E1). step_by ltac:(exact E2).
    rewrite (proj2 (Z.eqb_neq _ 0)) by (by apply table_page_nz). exact E3.
Qed.

(** ** Allocating *)

Hypothesis Hcur : current s0 !! tp = Some (Some p).
Hypothesis Hroot : pagetable x0 = root.

Lemma st_current ml fl top t : get_current tp (st ml fl top t) = Ret (Some p) (st ml fl top t).
Proof. unfold get_current. cbn. by rewrite Hcur. Qed.

(** The first free block that is large enough is used, or the heap grows. *)
Definition first_fit (top size : Z) (free : list node) (va top' : Z) : Prop :=
  (exists ns1 n ns2, free = ns1 ++ n :: ns2 /\ Forall (fun k => n_len k < size) ns1 /\ size <= n_len n /\ va = n_va n /\ top' = top) \/
  (Forall (fun k => n_len k < size) free /\ va = top /\ top' = top + size).

Lemma malloc_run t l ml fl top used free size :
  heap_at t l ml fl top [] used free -> 0 < size -> top + size <= lim -> enough size l ->
  exists va t' l' a fl' top' free', user_better_malloc tp size (st ml fl top t) = Ret va (st a fl' top' t') /\
    heap_at t' l' a fl' top' [] (mkNode a va size :: used) free' /\ kept t t' /\ first_fit top size free va top' /\
    (length l <= length l' + pages_for size)%nat.
Proof.
  intros Hh Hs Ht Hl. pose proof (at_few _ _ _ _ _ _ _ _ _ _ _ Hh) as Hfew. destruct (at_pages _ _ _ _ _ _ _ _ _ _ _ Hh) as (_ & _ & Hpf).
  destruct (hp_free _ _ _ _ _ _ _ _ _ _ _ Hh) as [Efl Hf].
  assert (Hfuel : (length free < MAX_NODES)%nat) by (unfold MAX_NODES; lia).
  assert (Estart : forall v s', (let* reuse := on_pm (find_fit MAX_NODES fl size) in
      if negb (reuse =? 0) then reuse_block tp p root reuse size else grow_block tp p root size) (st ml fl top t) = Ret v s' ->
      user_better_malloc tp size (st ml fl top t) = Ret v s').
  { intros v s' E. unfold user_better_malloc. step_by ltac:(apply st_current). rewrite (proj2 (Z.eqb_neq size 0)) by lia.
    step_by ltac:(by apply st_get). cbn [pagetable set_lists set_malloc_list set_malloc_free_list set_user_heap malloc_free_list]. by rewrite Hroot. }
  destruct (find_fit_run size t free MAX_NODES 0 Hpf Hf Hfuel) as [[E Hall]|(ns1 & n & ns2 & -> & Hn & Hall & E)].
  - destruct (grow_run _ _ _ _ _ _ _ _ Hh Hs Ht Hl) as (t' & l' & a & fl' & free' & E1 & Hh1 & Hk1 & Hl1).
    exists top, t', l', a, fl', (top + size), free'. split; [|split; [exact Hh1|split; [exact Hk1|split; [right; exact (conj Hall (conj eq_refl eq_refl))|exact Hl1]]]].
    apply Estart. rewrite Efl at 1. step_by ltac:(apply st_pm; exact E). exact E1.
  - destruct (reuse_run _ _ _ _ _ _ _ _ _ _ Hh ltac:(split; [exact Hs|exact Hn]) Hl) as (t' & l' & fl' & free' & E1 & Hh1 & Hk1 & Hl1).
    exists (n_va n), t', l', (n_at n), fl', top, free'. split; [|split; [exact Hh1|split; [exact Hk1|split; [|exact Hl1]]]].
    2: { left. exists ns1, n, ns2. exact (conj eq_refl (conj Hall (conj Hn (conj eq_refl eq_refl)))). }
    apply Estart. rewrite Efl at 1. step_by ltac:(apply st_pm; exact E).
    rewrite (proj2 (Z.eqb_neq _ 0)) by (apply table_page_nz; by apply (ats_mid ns1 n ns2)). exact E1.
Qed.

(** ** Freeing *)

(** A block of [ns] overlaps the page at [page]. *)
Definition page_used (ns : list node) (page : Z) : bool :=
  existsb (fun n => (page <? n_va n + n_len n) && (n_va n <? page + PGSIZE)) ns.

Lemma page_used_spec ns page :
  page_used ns page = false <-> Forall (fun n => n_va n + n_len n <= page \/ page + PGSIZE <= n_va n) ns.
Proof.
  unfold page_used. induction ns as [|n ns IH]; cbn [existsb]; [by split|]. rewrite orb_false_iff, list.Forall_cons, <- IH, andb_false_iff, !Z.ltb_ge. tauto.
Qed.

Lemma page_used_code top ns page :
  Forall (in_area bot top) ns -> 0 <= bot -> 0 <= page -> page + PGSIZE <= MAXVA -> top <= MAXVA ->
  existsb (fun n => (page <? u64 (n_va n + n_len n)) && (n_va n <? u64 (page + PGSIZE))) ns = page_used ns page.
Proof.
  intros Ha Hb Hp Hm Ht. unfold page_used. induction Ha as [|n ns Hn _ IH]; cbn [existsb]; [done|]. rewrite IH. unfold in_area in Hn.
  replace (u64 (n_va n + n_len n)) with (n_va n + n_len n) by (unfold MAXVA in *; klia).
  by replace (u64 (page + PGSIZE)) with (page + PGSIZE) by (unfold MAXVA in *; klia).
Qed.

(** A page that no block in use overlaps may go. *)
Lemma heap_unmaps t l t' l' ml fl top spare used free page :
  heap_at t l ml fl top spare used free -> unmaps root bot lim (spare ++ ats used ++ ats free) t l t' l' page ->
  page mod PGSIZE = 0 -> page_used used page = false ->
  heap_at t' l' ml fl top spare used free /\ kept t' t.
Proof.
  intros Hh Hum Hpg Hno. pose proof Hh as [Hc [Eu Hu] [Ef Hf] Hbl Har Hab Hm].
  destruct (core_unmaps _ _ _ _ _ _ Hc _ _ _ Hum) as [Hc' Hw]. pose proof (um_xlate _ _ _ _ _ _ _ _ _ Hum) as Hx.
  assert (Hseg : forall ns, (forall k, k ∈ ats ns -> k ∈ spare ++ ats used ++ ats free) -> seg (mem t) 0 ns 0 -> seg (mem t') 0 ns 0).
  { intros ns Hs. apply seg_frame. intros k o Hk Ho. apply Hw; [|klia]. apply Hs, list_elem_of_fmap. by exists k. }
  split; [split; [done|split; [done|]|split; [done|]|done|done| |]|].
  - apply Hseg; [|done]. intros k Hk. rewrite !elem_of_app. tauto.
  - apply Hseg; [|done]. intros k Hk. rewrite !elem_of_app. tauto.
  - intros y Hy Ht. rewrite Hx by lia. destruct (decide _); [done|by apply Hab].
  - intros n y Hn Hy. destruct Hbl as [Hba _]. rewrite list.Forall_app, !list.Forall_forall in Hba. pose proof (proj1 Hba n Hn) as (? & ? & ?).
    rewrite Hx by lia. apply page_used_spec in Hno. rewrite list.Forall_forall in Hno. pose proof (Hno n Hn).
    rewrite decide_False by klia. by apply (Hm n).
  - intros y w Hy Hw'. split; [|intros o Ho; symmetry; by apply (um_data _ _ _ _ _ _ _ _ _ Hum y)].
    rewrite Hx in Hw' by lia. by destruct (decide _).
Qed.

(** The pages of [a, b) that no block of [ns] overlaps are gone, the others as they were. *)
Definition released (t t' : pstate) (ns : list node) (a b : Z) : Prop := forall y, 0 <= y < MAXVA ->
  xlate (mem t') root y = if decide (a <= y < b /\ page_used ns (y - y mod PGSIZE) = false) then None else xlate (mem t) root y.

Lemma released_trans t1 t2 t3 ns a b c :
  released t1 t2 ns a b -> released t2 t3 ns b c -> a <= b <= c -> released t1 t3 ns a c.
Proof.
  intros H1 H2 Hle y Hy. rewrite H2, H1 by done. destruct (page_used ns (y - y mod PGSIZE)).
  - rewrite !decide_False by (by intros []). done.
  - destruct (decide (b <= y < c /\ _)) as [[? _]|Hn2]; [by rewrite decide_True by (split; [lia|done])|].
    destruct (decide (a <= y < b /\ _)) as [[? _]|Hn1]; [by rewrite decide_True by (split; [lia|done])|].
    rewrite decide_False; [done|]. intros [? _]. destruct (decide (y < b)); [apply Hn1|apply Hn2]; (split; [lia|done]).
Qed.

(** One page. *)
Lemma release_one t l ml fl top used free page :
  heap_at t l ml fl top [] used free -> page mod PGSIZE = 0 -> bot <= page -> page + PGSIZE <= lim -> xlate (mem t) root page <> None ->
  exists t' l', (forall A (k : M kstate A),
      ((if page_used used page then ret tt else vm_call tp tt (user_vm_unmap root page PGSIZE true)) ;;; k) (st ml fl top t) = k (st ml fl top t')) /\
    heap_at t' l' ml fl top [] used free /\ kept t' t /\ (length l <= length l')%nat /\ released t t' used page (page + PGSIZE).
Proof.
  intros Hh Hpg Hb Hl Hm. pose proof (hp_area _ _ _ _ _ _ _ _ _ _ _ Hh) as Har. destruct (page_used used page) eqn:Epu.
  - exists t, l. split; [done|]. split; [done|]. split; [apply kept_refl|]. split; [done|]. intros y Hy. rewrite decide_False; [done|].
    intros [Hr Hp]. assert (y - y mod PGSIZE = page) as Ey by klia. rewrite Ey in Hp. congruence.
  - destruct (xlate (mem t) root page) as [w|] eqn:Ew; [|done].
    pose proof (hp_core _ _ _ _ _ _ _ _ _ _ _ Hh) as Hc.
    destruct (unmap_page_run tp root bot lim ([] ++ ats used ++ ats free) ltac:(lia) ltac:(lia) (ret tt) (st ml fl top t) l page w
      (co_vm _ _ _ _ _ _ Hc) (co_frames _ _ _ _ _ _ Hc) Hpg Hb ltac:(klia) Ew) as (t1 & l1 & E1 & Hum).
    destruct (heap_unmaps _ _ _ _ _ _ _ _ _ _ _ Hh Hum Hpg Epu) as [Hh1 Hk1].
    exists t1, l1. split; [|split; [done|split; [done|split; [apply (um_len _ _ _ _ _ _ _ _ _ Hum)|]]]].
    + intros A k. destruct (vm_call tp tt (user_vm_unmap root page PGSIZE true) (st ml fl top t)) as [[] s1|e] eqn:Ev;
        unfold bind in *; rewrite Ev in E1 |- *; [|done]. injection E1 as ->. done.
    + intros y Hy. rewrite (um_xlate _ _ _ _ _ _ _ _ _ Hum y Hy). destruct (decide (y / PGSIZE = page / PGSIZE)).
      * assert (y - y mod PGSIZE = page) as Ey by klia. rewrite Ey, decide_True; [done|]. split; [klia|done].
      * rewrite decide_False; [done|]. klia.
Qed.

Lemma release_pages_run n : forall t l ml fl top used free page,
  heap_at t l ml fl top [] used free -> page mod PGSIZE = 0 -> bot <= page -> page + Z.of_nat n * PGSIZE <= lim ->
  (forall y, page <= y < page + Z.of_nat n * PGSIZE -> xlate (mem t) root y <> None) ->
  exists t' l', release_pages n tp p root page (st ml fl top t) = Ret tt (st ml fl top t') /\
    heap_at t' l' ml fl top [] used free /\ kept t' t /\ (length l <= length l')%nat /\
    released t t' used page (page + Z.of_nat n * PGSIZE).
Proof.
  induction n as [|n IH]; intros t l ml fl top used free page Hh Hpg Hb Hl Hm.
  - exists t, l. split; [done|]. split; [done|]. split; [apply kept_refl|]. split; [done|]. intros y Hy. rewrite decide_False by lia. done.
  - pose proof (hp_area _ _ _ _ _ _ _ _ _ _ _ Hh) as Har. destruct (at_pages _ _ _ _ _ _ _ _ _ _ _ Hh) as (_ & Hpu & _).
    pose proof (at_few _ _ _ _ _ _ _ _ _ _ _ Hh) as Hfew. destruct (hp_used _ _ _ _ _ _ _ _ _ _ _ Hh) as [Eml Hu].
    pose proof (bl_area _ _ _ (hp_blocks _ _ _ _ _ _ _ _ _ _ _ Hh)) as Hba. apply list.Forall_app in Hba as [Hba _].
    assert (Hun : u64 (page + PGSIZE) = page + PGSIZE) by (unfold MAXVA in *; klia).
    assert (Eo : on_pm (page_has_other_allocation MAX_NODES ml page) (st ml fl top t) = Ret (page_used used page) (st ml fl top t)).
    { apply st_pm. rewrite Eml. rewrite (has_other_run page t used MAX_NODES 0 Hpu Hu) by (unfold MAX_NODES; lia).
      by rewrite (page_used_code top) by (done || klia). }
    destruct (release_one _ _ _ _ _ _ _ page Hh) as (t1 & l1 & E1 & Hh1 & Hk1 & Hl1 & Hr1); [done|done|klia|apply Hm; klia|].
    destruct (IH t1 l1 ml fl top used free (page + PGSIZE) Hh1) as (t2 & l2 & E2 & Hh2 & Hk2 & Hl2 & Hr2); [klia|klia|klia| |].
    { intros y Hy. rewrite Hr1 by klia. rewrite decide_False by klia. apply Hm. klia. }
    exists t2, l2. split; [|split; [done|split; [by eapply kept_trans|split; [lia|]]]].
    + cbn [release_pages]. step_by ltac:(by apply st_get). cbn [malloc_list set_lists set_malloc_list]. step_by ltac:(exact Eo).
      rewrite E1, Hun. exact E2.
    + replace (page + Z.of_nat (S n) * PGSIZE) with (page + PGSIZE + Z.of_nat n * PGSIZE) by lia.
      eapply released_trans; [exact Hr1|exact Hr2|klia].
Qed.

Lemma find_used_run t l ml fl top us1 n us2 free :
  heap_at t l ml fl top [] (us1 ++ n :: us2) free ->
  on_pm (find_node MAX_NODES ml (n_va n)) (st ml fl top t) = Ret (n_at n) (st ml fl top t).
Proof.
  intros Hh. destruct (hp_used _ _ _ _ _ _ _ _ _ _ _ Hh) as [Eml Hu]. destruct (at_pages _ _ _ _ _ _ _ _ _ _ _ Hh) as (_ & Hpu & _).
  pose proof (at_few _ _ _ _ _ _ _ _ _ _ _ Hh) as Hfew. apply st_pm. rewrite Eml.
  assert (Hfst : Forall (fun k => n_va k <> n_va n) us1).
  { apply (spread_first bot top us1 n (us2 ++ free)). pose proof (hp_blocks _ _ _ _ _ _ _ _ _ _ _ Hh) as Hb. by rewrite <- app_assoc in Hb. }
  assert (Hfuel : (length (us1 ++ n :: us2) < MAX_NODES)%nat) by (unfold MAX_NODES; lia).
  destruct (find_node_run (n_va n) t (us1 ++ n :: us2) MAX_NODES 0 Hpu Hu Hfuel) as [[_ Hall]|(ns1 & k & ns2 & E & Hk & Hns & Er)].
  - apply list.Forall_app in Hall as [_ Hall]. apply list.Forall_cons in Hall as [Hall _]. by destruct Hall.
  - rewrite Er. rewrite (first_unique (n_va n) ns1 n k ns2 us1 us2 (eq_sym E) Hns Hfst Hk eq_refl). reflexivity.
Qed.

(** The pages of a block in use are mapped as a whole. *)
Lemma block_pages t l ml fl top spare used free n :
  heap_at t l ml fl top spare used free -> n ∈ used ->
  forall y, ROUNDDOWN (n_va n) PGSIZE <= y < ROUNDUP (n_va n + n_len n) PGSIZE -> xlate (mem t) root y <> None.
Proof.
  intros Hh Hin y Hy. pose proof (hp_area _ _ _ _ _ _ _ _ _ _ _ Hh) as Har.
  pose proof (bl_area _ _ _ (hp_blocks _ _ _ _ _ _ _ _ _ _ _ Hh)) as Hba. rewrite list.Forall_app, !list.Forall_forall in Hba.
  pose proof (proj1 Hba n Hin) as (? & ? & ?). pose proof (hp_mapped _ _ _ _ _ _ _ _ _ _ _ Hh n) as Hm.
  unfold ROUNDDOWN, ROUNDUP, MAXVA in *.
  assert (Hy' : exists y', n_va n <= y' < n_va n + n_len n /\ y / PGSIZE = y' / PGSIZE).
  { destruct (decide (y < n_va n)); [exists (n_va n); klia|]. destruct (decide (y < n_va n + n_len n)); [exists y; lia|].
    exists (n_va n + n_len n - 1). klia. }
  destruct Hy' as (y' & Hr & E). unfold xlate in *. rewrite (leaf_same_page _ _ y y' E). by apply (Hm y').
Qed.

Lemma free_run t l ml fl top us1 n us2 free :
  heap_at t l ml fl top [] (us1 ++ n :: us2) free ->
  exists t' l', user_better_free tp (n_va n) (st ml fl top t) = Ret tt (st (first_at (us1 ++ us2) 0) (n_at n) top t') /\
    heap_at t' l' (first_at (us1 ++ us2) 0) (n_at n) top [] (us1 ++ us2) (n :: free) /\ kept t' t /\ (length l <= length l')%nat /\
    released t t' (us1 ++ us2) (ROUNDDOWN (n_va n) PGSIZE) (ROUNDUP (n_va n + n_len n) PGSIZE).
Proof.
  intros Hh. destruct (hp_used _ _ _ _ _ _ _ _ _ _ _ Hh) as [Eml Hu]. destruct (at_pages _ _ _ _ _ _ _ _ _ _ _ Hh) as (_ & Hpu & Hpf).
  destruct (at_parts _ _ _ _ _ _ _ _ _ _ _ Hh) as ((Hnu & _) & _ & _). pose proof (at_few _ _ _ _ _ _ _ _ _ _ _ Hh) as Hfew.
  pose proof (ats_mid _ _ _ Hpu) as Hn. destruct (node_fields _ _ _ _ Hu) as (Eva & Esz & Epv & Enx).
  pose proof (hp_area _ _ _ _ _ _ _ _ _ _ _ Hh) as Har. pose proof (hp_blocks _ _ _ _ _ _ _ _ _ _ _ Hh) as Hbl.
  assert (Hva : bot <= n_va n /\ 0 < n_len n /\ n_va n + n_len n <= top).
  { destruct Hbl as [Hba _]. rewrite !list.Forall_app, list.Forall_cons in Hba. unfold in_area in Hba. tauto. }
  destruct (span_facts (n_va n) (n_len n)) as (Hs1 & Hs2 & Hs3 & _ & _ & Hs6); [lia|lia|lia|].
  set (first := ROUNDDOWN (n_va n) PGSIZE) in *. set (cnt := Z.to_nat ((u64 (n_va n + n_len n) - first + PGSIZE - 1) / PGSIZE)) in *.
  destruct (roundup_spec (n_va n + n_len n)) as [Hr1 Hr2]; [unfold MAXVA in *; klia|].
  assert (Hend : ROUNDUP (n_va n + n_len n) PGSIZE = first + Z.of_nat cnt * PGSIZE) by klia.
  destruct (detach_used _ _ _ _ _ _ _ _ _ _ _ _ _ Hh) as [Hh1 [HxHk1 Hk1]]. set (t1 := set_mem (unlinked _ _ _) t) in *.
  destruct (attach_free root bot lim t1 l _ fl top [] (us1 ++ us2) free n (<[n_at n + N_prev := 0]> (mem t1)) Hh1) as [Hh2 [HxHk2 Hk2]].
  { apply only_store; [by left|node_word]. }
  { unfold loose, N_va, N_size, N_prev in *. rewrite rd_insert_eq, !node_store by lia. cbn [t1 mem set_mem]. rewrite !unlinked_node by (done || klia). done. }
  { eapply (blocks_perm bot top); [|exact Hbl]. solve_Permutation. }
  assert (Hfl : table_page fl \/ fl = 0) by (destruct (hp_free _ _ _ _ _ _ _ _ _ _ _ Hh) as [-> _]; by apply first_page).
  set (t2 := set_mem (pushed _ _ _) t1) in *.
  assert (Hx : forall y, xlate (mem t2) root y = xlate (mem t) root y).
  { intros y. by rewrite HxHk2, HxHk1. }
  destruct (release_pages_run cnt _ _ _ _ _ _ _ first Hh2 Hs1) as (t3 & l3 & E3 & Hh3 & Hk3 & Hl3 & Hr3); [klia|rewrite <- Hend; klia| |].
  { intros y Hy. rewrite Hx. apply (block_pages _ _ _ _ _ _ _ _ n Hh); [apply elem_of_app; right; by left|]. fold first. lia. }
  exists t3, l3. split; [|split; [exact Hh3|split; [|split; [done|]]]].
  - unfold user_better_free. step_by ltac:(apply st_current). step_by ltac:(by apply st_get).
    cbn [pagetable set_lists set_malloc_list set_malloc_free_list set_user_heap malloc_list]. rewrite Hroot.
    step_by ltac:(by apply (find_used_run t l ml fl top us1 n us2 free)). rewrite (proj2 (Z.eqb_neq _ 0)) by (by apply table_page_nz).
    do 3 step_by ltac:(apply st_pm, load_page; node_word). rewrite Esz, Epv, Enx, Eml.
    rewrite (unlink_run _ set_malloc_list (fun h t => st h fl top t)).
    2: { intros. by apply st_upd. } 2: { intros. apply st_pm. by apply store_page. } 2: { done. }
    step_by ltac:(apply st_pm, store_page; node_word). step_by ltac:(apply push_free_run; [done|done|exact Hfl]). exact E3.
  - eapply kept_trans; [exact Hk3|]. apply (kept_trans _ _ _ t2 t1 t); apply same_back; [exact (conj HxHk2 Hk2)|exact (conj HxHk1 Hk1)].
  - rewrite Hend. intros y Hy. rewrite Hr3 by done. by rewrite Hx.
Qed.
End Run.
