(* ===== verification/MallocProps.v ===== *)
(** * The block allocator of the user heap: theorems

    What [user_better_malloc] and [user_better_free] do to the heap of a process,
    and a heap on which they run. *)
From S2P Require Import Prelude Pmm Vmm Process Sched Fork Strap Cow Heap HeapSpace Malloc MallocRun.

(** Process [p] of kernel [s] has the blocks [used] and [free] in its heap area [bot, lim). *)
Record process_heap (s : kstate) (p : nat) (x : process) (l : list Z) (bot lim : Z) (used free : list node) : Prop := {
  ph_proc : procs s !! p = Some x;
  ph_inv : heap_inv (pm s) l (pagetable x) (malloc_list x) (malloc_free_list x) (heap_top (user_heap x)) bot lim used free
}.

(** Kernel [s'] differs from [s] in memory and in the heap fields of process [p], which is [x'] then. *)
Definition heap_changes (s s' : kstate) (p : nat) (x x' : process) : Prop :=
  x' = set_lists (malloc_list x') (malloc_free_list x') (heap_top (user_heap x')) x /\
  s' = st s p x (malloc_list x') (malloc_free_list x') (heap_top (user_heap x')) (pm s').

Section Results.
Variables (s : kstate) (p : nat) (x : process).
Hypothesis Hx : procs s !! p = Some x.

Lemma st_heap ml fl top t l bot lim used free :
  heap_at t l (pagetable x) ml fl top bot lim [] used free ->
  process_heap (st s p x ml fl top t) p (set_lists ml fl top x) l bot lim used free.
Proof. intros Hh. split; [|exact Hh]. cbn. apply list_lookup_insert_eq. by eapply lookup_lt_Some. Qed.

Lemma st_changes ml fl top t : heap_changes s (st s p x ml fl top t) p x (set_lists ml fl top x).
Proof. done. Qed.
End Results.

Lemma heap_changes_current s s' p x x' tp : heap_changes s s' p x x' -> current s' !! tp = current s !! tp.
Proof. intros [_ ->]. done. Qed.

Lemma heap_changes_pagetable s s' p x x' : heap_changes s s' p x x' -> pagetable x' = pagetable x.
Proof. intros [-> _]. done. Qed.

Section Calls.
Context `{Linker}.
Variables (s : kstate) (tp p : nat) (x : process) (l : list Z) (bot lim : Z) (used free : list node).
Hypothesis Hcur : current s !! tp = Some (Some p).

Lemma malloc_call size :
  process_heap s p x l bot lim used free -> 0 < size -> heap_top (user_heap x) + size <= lim -> enough size l ->
  exists va s' x' l' a free', user_better_malloc tp size s = Ret va s' /\
    process_heap s' p x' l' bot lim (mkNode a va size :: used) free' /\ heap_changes s s' p x x' /\
    first_fit (heap_top (user_heap x)) size free va (heap_top (user_heap x')) /\
    data_kept (pagetable x) bot lim (pm s) (pm s') /\ (length l <= length l' + pages_for size)%nat.
Proof.
  intros [Hx Hh] Hs Ht Hl. pose proof (lookup_lt_Some _ _ _ Hx) as Hlt.
  destruct (malloc_run s tp p x (pagetable x) bot lim Hlt Hcur eq_refl _ _ _ _ _ _ _ size Hh Hs Ht Hl)
    as (va & t' & l' & a & fl' & top' & free' & E & Hh' & Hk & Hff & Hl').
  rewrite <- (st_init s p x (lookup_lt_Some _ _ _ Hx) Hx) in E.
  exists va, (st s p x a fl' top' t'), (set_lists a fl' top' x), l', a, free'. split; [exact E|]. split; [by apply st_heap|].
  split; [apply st_changes|]. split; [exact Hff|]. split; [exact Hk|exact Hl'].
Qed.

Lemma free_call us1 n us2 :
  used = us1 ++ n :: us2 -> process_heap s p x l bot lim used free ->
  exists s' x' l', user_better_free tp (n_va n) s = Ret tt s' /\
    process_heap s' p x' l' bot lim (us1 ++ us2) (n :: free) /\ heap_changes s s' p x x' /\
    heap_top (user_heap x') = heap_top (user_heap x) /\
    released (pagetable x) (pm s) (pm s') (us1 ++ us2) (ROUNDDOWN (n_va n) PGSIZE) (ROUNDUP (n_va n + n_len n) PGSIZE) /\
    data_kept (pagetable x) bot lim (pm s') (pm s) /\ (length l <= length l')%nat.
Proof.
  intros -> [Hx Hh]. pose proof (lookup_lt_Some _ _ _ Hx) as Hlt.
  destruct (free_run s tp p x (pagetable x) bot lim Hlt Hcur eq_refl _ _ _ _ _ _ _ _ _ Hh) as (t' & l' & E & Hh' & Hk & Hl' & Hr).
  rewrite <- (st_init s p x (lookup_lt_Some _ _ _ Hx) Hx) in E.
  exists (st s p x (first_at (us1 ++ us2) 0) (n_at n) (heap_top (user_heap x)) t'),
    (set_lists (first_at (us1 ++ us2) 0) (n_at n) (heap_top (user_heap x)) x), l'.
  split; [exact E|]. split; [by apply st_heap|]. split; [apply st_changes|]. split; [done|]. split; [exact Hr|]. split; [exact Hk|exact Hl'].
Qed.

(** An address where no block in use begins. *)
Lemma free_unknown va :
  process_heap s p x l bot lim used free -> Forall (fun n => n_va n <> va) used -> user_better_free tp va s = Ret tt s.
Proof.
  intros [Hx Hh] Hno. pose proof (lookup_lt_Some _ _ _ Hx) as Hlt. pose proof (at_few _ _ _ _ _ _ _ _ _ _ _ Hh) as Hfew.
  destruct (hp_used _ _ _ _ _ _ _ _ _ _ _ Hh) as [Eml Hu]. destruct (at_pages _ _ _ _ _ _ _ _ _ _ _ Hh) as (_ & Hpu & _).
  assert (Hfuel : (length used < MAX_NODES)%nat) by (unfold MAX_NODES; lia).
  unfold user_better_free. step_by ltac:(unfold get_current; rewrite Hcur; reflexivity). step_get Hx.
  destruct (find_node_run va (pm s) used MAX_NODES 0 Hpu Hu Hfuel) as [[E _]|(ns1 & k & ns2 & Es & Hk & _)].
  - rewrite Eml. step_by ltac:(apply on_pm_ret; exact E). cbn [Z.eqb]. by rewrite set_pm_id.
  - rewrite Es, list.Forall_app, list.Forall_cons in Hno. by destruct Hno as (_ & ? & _).
Qed.
End Calls.

(** C12: allocating a block. With enough free pages, [user_better_malloc] of a
    positive size returns the address of the first free block that is large enough
    or, when there is none, the top of the heap, which moves up.  The heap stays well
    formed with the new block among those in use: it overlaps no other block in use,
    every byte of it is mapped, and every page of the heap area that was mapped keeps its frame
    and its contents; at most [pages_for] pages are taken, and nothing else of the
    kernel's state changes. *)
Theorem better_malloc_correct `{Linker} s tp p x l bot lim used free size :
  current s !! tp = Some (Some p) -> process_heap s p x l bot lim used free ->
  0 < size -> heap_top (user_heap x) + size <= lim -> enough size l ->
  exists va s' x' l' a free', user_better_malloc tp size s = Ret va s' /\
    process_heap s' p x' l' bot lim (mkNode a va size :: used) free' /\ heap_changes s s' p x x' /\
    first_fit (heap_top (user_heap x)) size free va (heap_top (user_heap x')) /\
    Forall (apart (mkNode a va size)) used /\
    (forall y, va <= y < va + size -> xlate (mem (pm s')) (pagetable x) y <> None) /\
    data_kept (pagetable x) bot lim (pm s) (pm s') /\ (length l <= length l' + pages_for size)%nat.
Proof.
  intros Hcur Hh Hs Ht Hl. destruct (malloc_call s tp p x l bot lim used free Hcur size Hh Hs Ht Hl)
    as (va & s' & x' & l' & a & free' & E & Hh' & Hch & Hff & Hk & Hl').
  exists va, s', x', l', a, free'. split; [exact E|]. split; [exact Hh'|]. split; [exact Hch|]. split; [exact Hff|].
  pose proof (ph_inv _ _ _ _ _ _ _ _ Hh') as Hi. split; [|split; [|by split]].
  - pose proof (bl_spread _ _ _ (hp_blocks _ _ _ _ _ _ _ _ _ _ _ Hi)) as [Hap _]. by apply list.Forall_app in Hap as [Hap _].
  - intros y Hy. rewrite <- (heap_changes_pagetable _ _ _ _ _ Hch).
    apply (hp_mapped _ _ _ _ _ _ _ _ _ _ _ Hi (mkNode a va size)); [by left|done].
Qed.

(** C31: freeing a block. [user_better_free] of the address of a block in use
    moves the block to the free ones; of the pages the block touches, exactly those that
    no other block in use overlaps are unmapped, every other translation is kept, what is still mapped of the
    heap area keeps its contents, no page is lost, and freeing the block a second time changes nothing. *)
Theorem better_free_correct `{Linker} s tp p x l bot lim us1 n us2 free :
  current s !! tp = Some (Some p) -> process_heap s p x l bot lim (us1 ++ n :: us2) free ->
  exists s' x' l', user_better_free tp (n_va n) s = Ret tt s' /\
    process_heap s' p x' l' bot lim (us1 ++ us2) (n :: free) /\ heap_changes s s' p x x' /\
    heap_top (user_heap x') = heap_top (user_heap x) /\
    released (pagetable x) (pm s) (pm s') (us1 ++ us2) (ROUNDDOWN (n_va n) PGSIZE) (ROUNDUP (n_va n + n_len n) PGSIZE) /\
    data_kept (pagetable x) bot lim (pm s') (pm s) /\ (length l <= length l')%nat /\
    user_better_free tp (n_va n) s' = Ret tt s'.
Proof.
  intros Hcur Hh. destruct (free_call s tp p x l bot lim _ free Hcur us1 n us2 eq_refl Hh) as (s' & x' & l' & E & Hh' & Hch & Htop & Hr & Hk & Hl').
  exists s', x', l'. do 7 (split; [assumption|]). apply (free_unknown s' tp p x' l' bot lim (us1 ++ us2) (n :: free)); [|exact Hh'|].
  - by rewrite (heap_changes_current _ _ _ _ _ _ Hch).
  - pose proof (hp_blocks _ _ _ _ _ _ _ _ _ _ _ (ph_inv _ _ _ _ _ _ _ _ Hh')) as Hb. exact (spread_first _ _ (us1 ++ us2) n free Hb).
Qed.

(** Giving a block back and asking for one that fits into it. After
    [user_better_free] of a block, [user_better_malloc] of at most its size returns the
    same address, mapped again, and the block is in use beside all others. *)
Theorem free_then_malloc `{Linker} s tp p x l bot lim us1 n us2 free size :
  current s !! tp = Some (Some p) -> process_heap s p x l bot lim (us1 ++ n :: us2) free ->
  0 < size <= n_len n -> heap_top (user_heap x) + size <= lim -> enough size l ->
  exists s1 s2 x2 l2 a free2, user_better_free tp (n_va n) s = Ret tt s1 /\ user_better_malloc tp size s1 = Ret (n_va n) s2 /\
    process_heap s2 p x2 l2 bot lim (mkNode a (n_va n) size :: us1 ++ us2) free2 /\ heap_top (user_heap x2) = heap_top (user_heap x).
Proof.
  intros Hcur Hh Hs Ht Hl. destruct (free_call s tp p x l bot lim _ free Hcur us1 n us2 eq_refl Hh) as (s1 & x1 & l1 & E1 & Hh1 & Hch & Htop & _ & _ & Hl1).
  destruct (malloc_call s1 tp p x1 l1 bot lim (us1 ++ us2) (n :: free)) with (size := size)
    as (va & s2 & x2 & l2 & a & free2 & E2 & Hh2 & _ & Hff & _).
  { by rewrite (heap_changes_current _ _ _ _ _ _ Hch). } { exact Hh1. } { lia. } { by rewrite Htop. } { unfold enough in *. lia. }
  assert (Hva : va = n_va n /\ heap_top (user_heap x2) = heap_top (user_heap x1)).
  { destruct Hff as [(ns1 & k & ns2 & Ef & Hall & Hk & -> & ->)|(Hall & _)].
    - destruct ns1 as [|b ns1]; cbn [app] in Ef; injection Ef as -> Ef; [done|].
      apply list.Forall_cons in Hall as [Hall _]. lia.
    - apply list.Forall_cons in Hall as [Hall _]. lia. }
  destruct Hva as [-> Et]. exists s1, s2, x2, l2, a, free2. split; [exact E1|]. split; [exact E2|]. split; [exact Hh2|]. by rewrite Et.
Qed.

(** ** A heap *)

Module MallocDemo.

(** Sixteen free pages above the kernel, and an empty page table at [DRAM_BASE]. *)
Definition page (i : Z) : Z := 2147549184 + 4096 * i.
Definition demo_free : list Z := page <$> [15; 14; 13; 12; 11; 10; 9; 8; 7; 6; 5; 4; 3; 2; 1; 0].
Definition demo_links : list (Z * Z) := (fun i => (page (i + 1), page i)) <$> seqZ 0 15.
Definition vm16 : pstate := mkP (list_to_map demo_links) (page 15) ∅ 2147549184 2147618816 135168 0.

Lemma vm16_rd a : (forall i, 0 <= i < 16 -> a <> page i) -> rd (mem vm16) a = 0.
Proof.
  intros Ha. unfold rd. cbn [mem vm16]. rewrite not_elem_of_list_to_map_1; [done|].
  intros ((b & v) & -> & (i & E & Hi)%list_elem_of_fmap)%list_elem_of_fmap. injection E as -> ->. apply elem_of_seqZ in Hi.
  apply (Ha (i + 1)); [lia|done].
Qed.

Lemma vm16_pmm : pmm_inv vm16 demo_free.
Proof.
  split.
  - split; cbv; congruence.
  - vm_compute. repeat split; reflexivity.
  - apply (bool_decide_unpack _). vm_compute. exact I.
  - intros p. assert (Hr : page_ref vm16 p = 0) by (unfold page_ref, ref_at; cbn [page_ref_count vm16]; by rewrite lookup_empty).
    rewrite Hr. unfold managed, demo_free. cbn [free_mem_start_addr free_mem_end_addr vm16]. rewrite list_elem_of_fmap. split.
    + intros (i & -> & Hi). assert (0 <= i < 16) by (rewrite !elem_of_cons, elem_of_nil in Hi; lia). unfold page. split; [klia|done].
    + intros [(? & ? & ?) _]. exists ((p - 2147549184) / 4096). unfold page. split; [klia|].
      rewrite !elem_of_cons, elem_of_nil. klia.
  - intros i. unfold ref_at. cbn [page_ref_count vm16]. rewrite lookup_empty. cbn [default]. lia.
  - reflexivity.
Qed.

Lemma vm16_zero k : idx_ok k -> rd (mem vm16) (2147483648 + 8 * k) = 0.
Proof. intros []. apply vm16_rd. unfold page. lia. Qed.

Lemma vm16_inv : vm_inv vm16 demo_free 2147483648.
Proof.
  apply fresh_root; [apply vm16_pmm|repeat split; cbv; congruence| |apply vm16_zero].
  intros (i & E & Hi)%list_elem_of_fmap. rewrite !elem_of_cons, elem_of_nil in Hi. unfold page in E. lia.
Qed.

(** A process whose heap area is empty. *)
Definition demo_bot : Z := 4194304.
Definition demo_lim : Z := 4259840.
Definition demo : kstate :=
  set_pm vm16 (set_procs (<[0%nat := set_malloc_list 0 (set_malloc_free_list 0 heap_proc)]> (procs Demo.d4)) Demo.d4).
Definition demo_proc : process := set_malloc_list 0 (set_malloc_free_list 0 heap_proc).

Lemma demo_current : current demo !! 0%nat = Some (Some 0%nat).
Proof. reflexivity. Qed.

Lemma demo_heap : process_heap demo 0 demo_proc demo_free demo_bot demo_lim [] [].
Proof.
  assert (Hn : forall y, xlate (mem vm16) 2147483648 y = None) by (intros y; apply fresh_root_xlate, vm16_zero).
  split; [reflexivity|]. split.
  - split; [exact vm16_inv| |constructor|constructor]. split.
    + intros y w _ Hw. change (xlate (mem vm16) 2147483648 y = Some w) in Hw. by rewrite Hn in Hw.
    + intros y y' w w' _ _ Hw. change (xlate (mem vm16) 2147483648 y = Some w) in Hw. by rewrite Hn in Hw.
  - split; [reflexivity|exact I].
  - split; [reflexivity|exact I].
  - split; [constructor|exact I].
  - repeat split; cbv; congruence.
  - intros y _ _. exact (Hn y).
  - intros n y Hin. by apply elem_of_nil in Hin.
Qed.

Lemma demo_enough (size : Z) : 0 < size <= 4095 -> enough size demo_free.
Proof. intros Hs. unfold enough, pages_for. replace (size / PGSIZE) with 0 by klia. cbn. lia. Qed.

(** The heap after a first block of 100 bytes. *)
Lemma demo_one :
  exists s x l a free, @user_better_malloc Demo.linker0 0 100 demo = Ret demo_bot s /\
    process_heap s 0 x l demo_bot demo_lim ([] ++ mkNode a demo_bot 100 :: []) free /\ current s !! 0%nat = Some (Some 0%nat) /\
    heap_top (user_heap x) = demo_bot + 100 /\ (9 <= length l)%nat.
Proof.
  destruct (@malloc_call Demo.linker0 demo 0 0 demo_proc demo_free demo_bot demo_lim [] [] demo_current 100 demo_heap)
    as (va & s' & x' & l' & a & free' & E & Hh & Hch & Hff & _ & Hl); [lia|cbv; congruence|apply demo_enough; lia|].
  destruct Hff as [(ns1 & n & ns2 & Ef & _)|(_ & -> & Ht)]; [by destruct ns1|].
  exists s', x', l', a, free'. split; [exact E|]. split; [exact Hh|]. split; [|split; [exact Ht|]].
  - by rewrite (heap_changes_current _ _ _ _ _ _ Hch).
  - unfold pages_for in Hl. replace (100 / PGSIZE) with 0 in Hl by reflexivity. change (length demo_free) with 16%nat in Hl. lia.
Qed.

End MallocDemo.
Import MallocDemo.

Lemma better_malloc_correct_witness :
  exists va s' x' l' a free', @user_better_malloc Demo.linker0 0 100 demo = Ret va s' /\
    process_heap s' 0 x' l' demo_bot demo_lim [mkNode a va 100] free' /\
    first_fit demo_bot 100 [] va (heap_top (user_heap x')).
Proof.
  destruct (@better_malloc_correct Demo.linker0 demo 0 0 demo_proc demo_free demo_bot demo_lim [] [] 100 demo_current demo_heap)
    as (va & s' & x' & l' & a & free' & E & Hh & _ & Hff & _).
  - lia.
  - cbv; congruence.
  - apply demo_enough; lia.
  - exists va, s', x', l', a, free'. split; [exact E|]. split; [exact Hh|exact Hff].
Defined.

Lemma better_free_correct_witness :
  exists s s', @user_better_malloc Demo.linker0 0 100 demo = Ret demo_bot s /\
    @user_better_free Demo.linker0 0 demo_bot s = Ret tt s' /\ @user_better_free Demo.linker0 0 demo_bot s' = Ret tt s'.
Proof.
  destruct demo_one as (s & x & l & a & free & E & Hh & Hcur & _).
  destruct (@better_free_correct Demo.linker0 s 0 0 x l demo_bot demo_lim [] (mkNode a demo_bot 100) [] free Hcur Hh)
    as (s' & x' & l' & E' & _ & _ & _ & _ & _ & _ & E2).
  exists s, s'. split; [exact E|]. split; [exact E'|exact E2].
Defined.

Lemma free_then_malloc_witness :
  exists s s1 s2, @user_better_malloc Demo.linker0 0 100 demo = Ret demo_bot s /\
    @user_better_free Demo.linker0 0 demo_bot s = Ret tt s1 /\ @user_better_malloc Demo.linker0 0 50 s1 = Ret demo_bot s2.
Proof.
  destruct demo_one as (s & x & l & a & free & E & Hh & Hcur & Ht & Hl).
  destruct (@free_then_malloc Demo.linker0 s 0 0 x l demo_bot demo_lim [] (mkNode a demo_bot 100) [] free 50 Hcur Hh)
    as (s1 & s2 & x2 & l2 & a2 & free2 & E1 & E2 & _).
  - cbn; lia.
  - rewrite Ht. cbv; congruence.
  - unfold enough, pages_for. replace (50 / PGSIZE) with 0 by reflexivity. cbn; lia.
  - exists s, s1, s2. split; [exact E|]. split; [exact E1|exact E2].
Defined.
