(* ===== verification/ForkSpace.v ===== *)
(** * The address spaces of parent and child during [do_fork]

    All pages that a fork takes come from the free list it starts with.  [grown] says
    what has become of the rest of memory and of the parent, [childs] what the
    child has so far; every step of [alloc_process] and [do_fork] keeps both. *)
From S2P Require Import Prelude Pmm Vmm Process Sched Fork Strap Cow Heap HeapSpace.

(** The frame behind an address and whether it is readable. *)
Definition frame_of (m : gmap Z Z) (root y : Z) : option (Z * bool) :=
  (fun w => (PTE2PA w, has w PTE_R)) <$> xlate m root y.

Section Grow.
Variables (t0 : pstate) (l0 : list Z) (ppt : Z).
Hypothesis Hstart : vm_inv t0 l0 ppt.

(** Memory [t] with free pages [l], since [t0] and [l0]: outside the pages of [l0] and the tables
    of the parent nothing has changed, the parent sees the same frames, and the frames [sh]
    have one more reference. *)
Record grown (t : pstate) (l : list Z) (sh : list Z) : Prop := {
  gr_pmm : pmm_inv t l;
  gr_suffix : exists k, l0 = k ++ l;
  gr_mem : forall a, (forall p, p ∈ l0 -> ~ in_page a p) -> (forall p, tables_of (mem t0) ppt p -> ~ in_page a p) ->
    rd (mem t) a = rd (mem t0) a;
  gr_tbl : forall π, path_ok π -> tbl (mem t) ppt π = tbl (mem t0) ppt π;
  gr_frames : forall y, 0 <= y < MAXVA -> frame_of (mem t) ppt y = frame_of (mem t0) ppt y;
  gr_ref : forall p, managed t0 p -> p ∉ l0 -> page_ref t p = page_ref t0 p + (if decide (p ∈ sh) then 1 else 0);
  gr_start : free_mem_start_addr t = free_mem_start_addr t0;
  gr_end : free_mem_end_addr t = free_mem_end_addr t0
}.

Lemma grown_refl : grown t0 l0 [].
Proof.
  split; try done; [apply Hstart|by exists []|]. intros p _ _. rewrite decide_False by apply not_elem_of_nil. lia.
Qed.

Section Facts.
Variables (t : pstate) (l sh : list Z).
Hypothesis Hg : grown t l sh.

Lemma gr_sub p : p ∈ l -> p ∈ l0.
Proof. intros Hp. destruct (gr_suffix _ _ _ Hg) as [k ->]. apply elem_of_app. by right. Qed.

Lemma gr_managed p : managed t p <-> managed t0 p.
Proof. unfold managed. by rewrite (gr_start _ _ _ Hg), (gr_end _ _ _ Hg). Qed.

Lemma gr_tables p : tables_of (mem t) ppt p <-> tables_of (mem t0) ppt p.
Proof. split; intros (π & Hok & Ht); exists π; (split; [done|]); [rewrite <- (gr_tbl _ _ _ Hg)|rewrite (gr_tbl _ _ _ Hg)]; done. Qed.

(** The tables of the parent are none of the pages that were free. *)
Lemma gr_table_old p : tables_of (mem t0) ppt p -> p ∉ l0.
Proof. intros (π & Hok & Ht). by apply (vm_sep _ _ _ Hstart π p). Qed.

Lemma gr_parent : vm_inv t l ppt.
Proof.
  split; [apply Hg|apply (pt_wf_ext (mem t0)); [apply Hg|apply Hstart]|].
  intros π u Hok Hu Hl. rewrite (gr_tbl _ _ _ Hg) in Hu by done. apply (gr_table_old u); [by exists π|by apply gr_sub].
Qed.

Lemma l0_page p : p ∈ l0 -> table_page p /\ managed t0 p.
Proof.
  intros Hp. apply (inv_free _ _ (vm_pmm _ _ _ Hstart)) in Hp as [Hm _]. split; [|done].
  eapply managed_table; [apply (vm_pmm _ _ _ Hstart)|done].
Qed.

(** A change of memory inside pages that were free at the start keeps the tables of the parent. *)
Lemma gr_agree m' : (forall a, (forall p, p ∈ l0 -> ~ in_page a p) -> rd m' a = rd (mem t) a) -> tables_agree (mem t) m' ppt.
Proof.
  intros Hm π u k Hok Hu Hk. apply Hm. intros p Hp Hin. rewrite (gr_tbl _ _ _ Hg) in Hu by done.
  apply (gr_table_old u); [by exists π|]. destruct (l0_page p Hp) as [(Hpa & _) _].
  pose proof (pt_page _ _ (vm_pt _ _ _ Hstart) π u Hok Hu) as (Hua & _). by rewrite (page_neq_in_page u p (u + 8 * k)); auto using slot_in_page.
Qed.

(** A step that changes only pages that were free at the start. *)
Lemma grown_step t' l' :
  pmm_inv t' l' -> (exists k, l = k ++ l') -> (forall a, (forall p, p ∈ l0 -> ~ in_page a p) -> rd (mem t') a = rd (mem t) a) ->
  (forall p, managed t p -> p ∉ l0 -> page_ref t' p = page_ref t p) ->
  free_mem_start_addr t' = free_mem_start_addr t -> free_mem_end_addr t' = free_mem_end_addr t -> grown t' l' sh.
Proof.
  intros Hp [k Hk] Hm Hr Hs He. pose proof (gr_agree _ Hm) as Hag. split.
  - done.
  - destruct (gr_suffix _ _ _ Hg) as [k0 ->]. exists (k0 ++ k). by rewrite Hk, <- app_assoc.
  - intros a H1 H2. rewrite Hm by done. by apply Hg.
  - intros π Hok. rewrite (agree_tbl _ _ _ Hag) by done. by apply Hg.
  - intros y Hy. unfold frame_of. rewrite (agree_xlate _ _ _ y Hag). by apply Hg.
  - intros p Hpm Hpl. rewrite Hr by (done || by apply gr_managed). by apply Hg.
  - by rewrite Hs, (gr_start _ _ _ Hg).
  - by rewrite He, (gr_end _ _ _ Hg).
Qed.

Lemma grown_only P m' : (forall p, p ∈ P -> p ∈ l0 /\ p ∉ l) -> only P (mem t) m' -> grown (set_mem m' t) l sh.
Proof.
  intros HP Ho. apply grown_step; try done; [|by exists []|].
  - apply pmm_inv_set_mem; [apply Hg|]. intros x Hx. apply Ho. intros p Hp Hin. destruct (HP p Hp) as [Hp0 Hpl].
    apply Hpl. destruct (l0_page p Hp0) as [(? & _) _]. destruct (l0_page x (gr_sub x Hx)) as [(? & _) _].
    unfold in_page in Hin. assert (x = p) as <- by klia. done.
  - intros a Ha. apply Ho. intros p Hp. apply Ha. by apply HP.
Qed.
End Facts.

Lemma grown_alloc t q l sh : grown t (q :: l) sh -> grown (alloc_result t q) l sh.
Proof.
  intros Hg. pose proof (gr_pmm _ _ _ Hg) as Hpm. assert (Hin : q ∈ q :: l) by by left.
  apply (grown_step t (q :: l) sh Hg); try done.
  - by apply (alloc_result_inv _ (q :: l)).
  - by exists [q].
  - intros p Hm Hp. rewrite (page_ref_alloc _ _ Hpm); [|by apply (inv_free _ _ Hpm)|done].
    rewrite decide_False; [done|]. intros ->. apply Hp. by apply (gr_sub _ _ _ Hg).
Qed.

(** ** The child *)

(** The child has the page table [cpt] and the pages [own], all from [l0]. *)
Record childs (t : pstate) (l : list Z) (cpt : Z) (own : list Z) : Prop := {
  ch_vm : vm_inv t l cpt;
  ch_tab : forall p, tables_of (mem t) cpt p -> p ∈ l0;
  ch_own : Forall (fun a => private t l cpt a /\ a ∈ l0) own;
  ch_nodup : NoDup own
}.

(** Parent and child together. *)
Record fork_at (t : pstate) (l sh : list Z) (cpt : Z) (own : list Z) : Prop := { fa_grown : grown t l sh; fa_child : childs t l cpt own }.

Section Child.
Variables (t : pstate) (l sh : list Z) (cpt : Z) (own : list Z).
Hypothesis Hf : fork_at t l sh cpt own.

Lemma ch_private a : a ∈ own -> private t l cpt a /\ a ∈ l0.
Proof. pose proof (ch_own _ _ _ _ (fa_child _ _ _ _ _ Hf)) as Ho. rewrite list.Forall_forall in Ho. auto. Qed.

Lemma fork_only P m' :
  (forall p, p ∈ P -> p ∈ own) -> only P (mem t) m' ->
  fork_at (set_mem m' t) l sh cpt own /\ forall y, xlate m' cpt y = xlate (mem t) cpt y.
Proof.
  intros HP Ho. pose proof (ch_vm _ _ _ _ (fa_child _ _ _ _ _ Hf)) as Hi.
  assert (HP' : forall p, p ∈ P -> private t l cpt p /\ p ∈ l0) by (intros p Hp; by apply ch_private, HP).
  assert (Hg' : grown (set_mem m' t) l sh).
  { apply (grown_only t l sh (fa_grown _ _ _ _ _ Hf) P); [|done]. intros p Hp. destruct (HP' p Hp) as [(_ & ? & _) ?]. done. }
  assert (Hag : tables_agree (mem t) m' cpt).
  { intros π u k Hok Hu Hk. apply Ho. intros p Hp Hin. destruct (HP' p Hp) as [((Hpa & _) & _ & Hnt) _]. apply Hnt. exists π. split; [done|].
    pose proof (pt_page _ _ (vm_pt _ _ _ Hi) π u Hok Hu) as (Hua & _). rewrite Hu. f_equal. apply (page_neq_in_page u p (u + 8 * k)); auto using slot_in_page. }
  split; [|intros y; by apply agree_xlate]. split; [done|].
  assert (Htab : forall p, tables_of m' cpt p <-> tables_of (mem t) cpt p) by (intros p; by apply tables_shrink).
  split.
  - eapply agree_vm_inv; [exact Hi|exact Hag|apply Hg'|by left].
  - intros p Hp. cbn [mem set_mem] in Hp. rewrite Htab in Hp. by apply (ch_tab _ _ _ _ (fa_child _ _ _ _ _ Hf)).
  - apply list.Forall_forall. intros a Ha. destruct (ch_private a Ha) as [(? & ? & ?) ?]. split; [|done]. split; [done|]. split; [done|]. cbn [mem set_mem]. by rewrite Htab.
  - apply Hf.
Qed.

(** An operation on the page table of the child. *)
Lemma fork_map t' l' :
  vm_frame t l t' l' cpt ->
  fork_at t' l' sh cpt own /\ forall a o, a ∈ own -> 0 <= o < PGSIZE -> rd (mem t') (a + o) = rd (mem t) (a + o).
Proof.
  intros Hv. pose proof (fa_grown _ _ _ _ _ Hf) as Hg. pose proof (fa_child _ _ _ _ _ Hf) as Hc. pose proof (ch_vm _ _ _ _ Hc) as Hi. split.
  - split.
    + apply (grown_step t l sh Hg);
        [apply (vm_pmm _ _ _ (vf_inv _ _ _ _ _ Hv))|apply (vf_suffix _ _ _ _ _ Hv)| | |apply (vf_start _ _ _ _ _ Hv)|apply (vf_end _ _ _ _ _ Hv)].
      * intros a Ha. apply (vf_mem _ _ _ _ _ Hv); [intros p Hp; by apply Ha, (gr_sub _ _ _ Hg)|].
        intros π u Hok Hu. apply Ha, (ch_tab _ _ _ _ Hc). by exists π.
      * intros p Hm Hp. apply (vf_ref _ _ _ _ _ Hv); [done|]. intros Hl. by apply Hp, (gr_sub _ _ _ Hg).
    + split.
      * apply Hv.
      * intros p (π & Hok & Hu). destruct (vf_new _ _ _ _ _ Hv π p Hok Hu) as [Hu'|Hu']; [apply (ch_tab _ _ _ _ Hc); by exists π|by apply (gr_sub _ _ _ Hg)].
      * apply list.Forall_forall. intros a Ha. destruct (ch_private a Ha). split; [by apply (frame_private _ _ _ _ _ Hv)|done].
      * apply Hc.
  - intros a o Ha Ho. apply (frame_word _ _ _ _ _ Hv Hi); [by apply ch_private|done].
Qed.
End Child.

(** A free page becomes a page of the child. *)
Lemma fork_alloc t q l sh cpt own : fork_at t (q :: l) sh cpt own -> fork_at (alloc_result t q) l sh cpt (q :: own).
Proof.
  intros Hf. pose proof (fa_child _ _ _ _ _ Hf) as Hc. pose proof (ch_vm _ _ _ _ Hc) as Hi. pose proof (alloc_frame _ _ _ _ Hi) as Hv.
  assert (Hq : q ∈ l0) by (apply (gr_sub _ _ _ (fa_grown _ _ _ _ _ Hf)); by left).
  split; [by apply grown_alloc, Hf|]. split.
  - apply Hv.
  - apply Hc.
  - constructor; [split; [by apply alloc_private|done]|]. eapply list.Forall_impl; [apply (ch_own _ _ _ _ Hc)|].
    intros a [Ha ?]. split; [by apply (frame_private _ _ _ _ _ Hv)|done].
  - apply list.NoDup_cons. split; [|apply Hc]. intros Hin. destruct (ch_private _ _ _ _ _ Hf q Hin) as [(_ & Hn & _) _]. apply Hn. by left.
Qed.

(** The page table of the child when it is empty. *)
Lemma fork_start t l sh cpt own :
  grown t l sh -> cpt ∈ l0 -> cpt ∉ l -> (forall k, idx_ok k -> rd (mem t) (cpt + 8 * k) = 0) ->
  NoDup (cpt :: own) -> Forall (fun a => a ∉ l /\ a ∈ l0) own -> fork_at t l sh cpt own.
Proof.
  intros Hg H0 Hl Hz Hnd Ho. destruct (l0_page cpt H0) as [Htp _].
  assert (Hroot : forall p, tables_of (mem t) cpt p -> p = cpt).
  { assert (Hc : forall k, idx_ok k -> child (mem t) cpt k = None) by (intros k Hk; unfold child; by rewrite Hz).
    intros p (π & Hok & Hp). destruct π as [|i|i j]; cbn [tbl] in Hp; [by injection Hp|by rewrite Hc in Hp|]. destruct Hok. by rewrite Hc in Hp. }
  apply list.NoDup_cons in Hnd as [Hnc Hnd]. split; [done|]. split; [by apply fresh_root; [apply Hg|..]| | |done].
  - intros p ->%Hroot. done.
  - rewrite list.Forall_forall in Ho |- *. intros a Ha. destruct (Ho a Ha) as [Hal Ha0]. destruct (l0_page a Ha0) as [Hap _].
    split; [|done]. split; [done|]. split; [done|]. intros ->%Hroot. done.
Qed.


Lemma fork_separate t l sh cpt own : fork_at t l sh cpt own -> separate (mem t) cpt ppt.
Proof.
  intros Hf u Hu Hp. apply (gr_tables _ _ _ (fa_grown _ _ _ _ _ Hf)) in Hp. apply (gr_table_old u Hp).
  by apply (ch_tab _ _ _ _ (fa_child _ _ _ _ _ Hf)).
Qed.

(** The write bit of an entry of the parent goes. *)
Lemma cow_frame w : PTE2PA (Z.ldiff w PTE_W .| PTE_COW) = PTE2PA w /\ has (Z.ldiff w PTE_W .| PTE_COW) PTE_R = has w PTE_R.
Proof.
  split.
  - unfold PTE2PA. f_equal. f_equal. rewrite Z.shiftr_lor, Z.shiftr_ldiff. change (Z.shiftr PTE_W 10) with 0. change (Z.shiftr PTE_COW 10) with 0.
    by rewrite Z.ldiff_0_r, Z.lor_0_r.
  - unfold has. f_equal. f_equal. apply Z.bits_inj'. intros n Hn. rewrite !Z.land_spec, Z.lor_spec, Z.ldiff_spec.
    destruct (decide (n = 1)) as [->|Hne].
    + change (Z.testbit PTE_W 1) with false. change (Z.testbit PTE_COW 1) with false. by rewrite andb_true_r, orb_false_r.
    + change PTE_R with (2 ^ 1). rewrite Z.pow2_bits_false by done. by rewrite !andb_false_r.
Qed.

Lemma cow_entry pa : table_page pa -> PTE2PA (PA2PTE pa .| cow_perm) = pa /\ has (PA2PTE pa .| cow_perm) PTE_R = true.
Proof.
  intros (Ha & Hlo & Hhi). split; [apply PTE2PA_PA2PTE; [klia|done|by vm_compute]|].
  unfold has. destruct (Z.land _ _ =? 0) eqn:E; [|done]. apply Z.eqb_eq in E. apply (f_equal (fun z => Z.testbit z 1)) in E.
  rewrite Z.land_spec, Z.lor_spec in E. change (Z.testbit cow_perm 1) with true in E. by rewrite orb_true_r in E.
Qed.

(** A heap page of the parent is shared with the child. *)
Section Share.
Variables (t : pstate) (l sh : list Z) (cpt : Z) (own : list Z) (blk w : Z).
Hypothesis Hf : fork_at t l sh cpt own.
Hypothesis Hblk : blk mod PGSIZE = 0 /\ 0 <= blk /\ blk + PGSIZE <= MAXVA.
Hypothesis Hlen : (2 <= length l)%nat.
Hypothesis Hw : xlate (mem t) ppt blk = Some w.
Hypothesis Hc : xlate (mem t) cpt blk = None.
Hypothesis Hpa : managed t0 (PTE2PA w) /\ PTE2PA w ∉ l0 /\ 0 < page_ref t (PTE2PA w) < 65535 /\ PTE2PA w ∉ sh.

(** [user_vm_set_cow] on the parent. *)
Lemma fork_set_cow t1 l1 :
  fork_at t1 l1 sh cpt own -> xlate (mem t1) ppt blk = Some w ->
  exists t2, user_vm_set_cow ppt blk t1 = Ret tt t2 /\ fork_at t2 l1 sh cpt own /\
    (forall y, xlate (mem t2) cpt y = xlate (mem t1) cpt y) /\
    (forall a o, a ∈ own -> 0 <= o < PGSIZE -> rd (mem t2) (a + o) = rd (mem t1) (a + o)) /\
    (forall p, managed t1 p -> p ∉ l1 -> page_ref t2 p = page_ref t1 p).
Proof.
  intros Hf1 Hw1. pose proof (fa_grown _ _ _ _ _ Hf1) as Hg1. pose proof (fa_child _ _ _ _ _ Hf1) as Hc1. pose proof (gr_parent _ _ _ Hg1) as Hp1.
  pose proof (fork_separate _ _ _ _ _ Hf1) as Hsep. assert (Hva : 0 <= blk < MAXVA) by klia.
  destruct (user_vm_set_cow_run t1 l1 ppt blk w Hp1 Hva Hw1) as (t2 & E2 & F2 & X2).
  destruct (frame_other _ _ _ _ _ _ F2 Hp1 (ch_vm _ _ _ _ Hc1)) as (Hc2 & Hsep2 & Xc); [intros u H1 H2; by apply (Hsep u)|].
  assert (Htbl : forall π, path_ok π -> tbl (mem t2) ppt π = tbl (mem t1) ppt π).
  { intros π Hok. destruct (tbl (mem t1) ppt π) as [u|] eqn:Eu; [by apply (vf_tbl _ _ _ _ _ F2)|].
    destruct (tbl (mem t2) ppt π) as [u|] eqn:Eu2; [|done]. destruct (vf_new _ _ _ _ _ F2 π u Hok Eu2) as [?|Hl]; [congruence|].
    by destruct (vm_sep _ _ _ (vf_inv _ _ _ _ _ F2) π u Hok Eu2). }
  assert (Hctab : forall p, tables_of (mem t2) cpt p <-> tables_of (mem t1) cpt p).
  { intros p. apply tables_shrink. eapply frame_agree; [exact F2|apply Hc1|apply Hp1|intros u H1 H2; by apply (Hsep u)|apply Hg1]. }
  assert (Hown : forall a, a ∈ own -> private t1 l1 cpt a /\ a ∈ l0) by (intros a; by apply (ch_private _ _ _ _ _ Hf1)).
  exists t2. split; [done|]. split; [split|split; [done|split]].
  - split.
    + apply (vm_pmm _ _ _ Hc2).
    + apply Hg1.
    + intros a H1 H2. rewrite (vf_mem _ _ _ _ _ F2); [by apply Hg1| |].
      * intros p Hp. apply H1. by apply (gr_sub _ _ _ Hg1).
      * intros π u Hok Hu. apply H2. apply (gr_tables _ _ _ Hg1). by exists π.
    + intros π Hok. rewrite Htbl by done. by apply Hg1.
    + intros y Hy. rewrite <- (gr_frames _ _ _ Hg1 y Hy). unfold frame_of. rewrite X2 by done. destruct (decide _) as [Ey|]; [|done].
      unfold xlate in *. rewrite (leaf_same_page _ _ y blk Ey), Hw1. cbn. destruct (cow_frame w) as [-> ->]. done.
    + intros p Hm Hp. rewrite (vf_ref _ _ _ _ _ F2); [by apply Hg1|by apply (gr_managed _ _ _ Hg1)|].
      intros Hl. by apply Hp, (gr_sub _ _ _ Hg1).
    + by rewrite (vf_start _ _ _ _ _ F2), (gr_start _ _ _ Hg1).
    + by rewrite (vf_end _ _ _ _ _ F2), (gr_end _ _ _ Hg1).
  - split; [done|intros p Hp; apply (ch_tab _ _ _ _ Hc1); by apply Hctab| |apply Hc1].
    apply list.Forall_forall. intros a Ha. destruct (Hown a Ha) as [(? & ? & ?) ?]. split; [|done]. split; [done|]. split; [done|]. by rewrite Hctab.
  - intros a o Ha Ho. destruct (Hown a Ha) as [((Hal & _) & Hl & _) H0]. apply (vf_mem _ _ _ _ _ F2).
    + intros p Hp Hin. apply Hl. destruct (l0_page p (gr_sub _ _ _ Hg1 p Hp)) as [(? & _) _]. unfold in_page in Hin. assert (a = p) as -> by klia. done.
    + intros π u Hok Hu Hin. apply (gr_table_old u); [apply (gr_tables _ _ _ Hg1); by exists π|].
      pose proof (pt_page _ _ (vm_pt _ _ _ Hp1) π u Hok Hu) as (Hua & _). unfold in_page in Hin. assert (u = a) as -> by klia. done.
  - intros p Hm Hl. by apply (vf_ref _ _ _ _ _ F2).
Qed.

(** [inc_page_ref] of a frame of the parent. *)
Lemma fork_inc t1 l1 pa :
  fork_at t1 l1 sh cpt own -> managed t0 pa -> 0 < page_ref t1 pa < 65535 -> pa ∉ sh -> pa ∉ l0 ->
  inc_page_ref pa t1 = Ret tt (inc_result t1 pa) /\ fork_at (inc_result t1 pa) l1 (pa :: sh) cpt own.
Proof.
  intros Hf1 Hm Hr Hsh Hl. pose proof (fa_grown _ _ _ _ _ Hf1) as Hg1. pose proof (fa_child _ _ _ _ _ Hf1) as Hc1. pose proof (gr_pmm _ _ _ Hg1) as Hpm.
  assert (Hm1 : managed t1 pa) by (by apply (gr_managed _ _ _ Hg1)).
  assert (Hpm' : pmm_inv (inc_result t1 pa) l1) by (by apply inc_result_inv).
  split; [apply (inc_page_ref_run t1 l1 Hpm); [done|lia]|]. split.
  - split; try apply Hg1; [done|]. intros p Hmp Hp.
    rewrite (page_ref_inc t1 l1 Hpm) by (done || by apply (gr_managed _ _ _ Hg1)).
    destruct (decide (p = pa)) as [->|Hne].
    + rewrite (gr_ref _ _ _ Hg1) by done. rewrite decide_False by done. rewrite decide_True by (by left). lia.
    + rewrite (gr_ref _ _ _ Hg1) by done. destruct (decide (p ∈ sh)); [rewrite decide_True by (by right); done|].
      rewrite decide_False by (apply not_elem_of_cons; done). done.
  - split; [|apply Hc1|apply Hc1|apply Hc1]. eapply vm_inv_counts; [apply Hc1|done|done|done].
Qed.

Lemma fork_share :
  let pa := PTE2PA w in
  exists t1 t2 l', user_vm_map_cow cpt blk PGSIZE pa t = Ret tt t1 /\ user_vm_set_cow ppt blk t1 = Ret tt t2 /\
    inc_page_ref pa t2 = Ret tt (inc_result t2 pa) /\ fork_at (inc_result t2 pa) l' (pa :: sh) cpt own /\ (length l <= length l' + 2)%nat /\
    (forall a o, a ∈ own -> 0 <= o < PGSIZE -> rd (mem t2) (a + o) = rd (mem t) (a + o)) /\
    (forall y, 0 <= y < MAXVA -> xlate (mem t2) cpt y = if decide (y / PGSIZE = blk / PGSIZE) then Some (PA2PTE pa .| cow_perm) else xlate (mem t) cpt y).
Proof.
  intros pa. destruct Hpa as (Hm & Hl & Hr & Hs). destruct Hblk as (Hb1 & Hb2 & Hb3).
  pose proof (fa_child _ _ _ _ _ Hf) as Hch. pose proof (fa_grown _ _ _ _ _ Hf) as Hg.
  destruct (map_cow_one t l cpt blk pa (ch_vm _ _ _ _ Hch) Hb1 Hb2 Hb3 Hlen Hc) as (t1 & l1 & E1 & F1 & Hl1 & X1).
  destruct (fork_map _ _ _ _ _ Hf t1 l1 F1) as [Hf1 Hw1].
  destruct (frame_other _ _ _ _ _ _ F1 (ch_vm _ _ _ _ Hch) (gr_parent _ _ _ Hg) (fork_separate _ _ _ _ _ Hf)) as (_ & _ & Xp).
  destruct (fork_set_cow t1 l1 Hf1 (eq_trans (Xp blk) Hw)) as (t2 & E2 & Hf2 & Xc2 & Hw2 & Hr2).
  assert (Hml : managed t pa) by (by apply (gr_managed _ _ _ Hg)).
  assert (Href : page_ref t2 pa = page_ref t pa).
  { rewrite Hr2; [apply (vf_ref _ _ _ _ _ F1); [done|]|by apply (gr_managed _ _ _ (fa_grown _ _ _ _ _ Hf1))|].
    - intros Hin. by apply Hl, (gr_sub _ _ _ Hg).
    - intros Hin. by apply Hl, (gr_sub _ _ _ (fa_grown _ _ _ _ _ Hf1)). }
  destruct (fork_inc t2 l1 pa Hf2 Hm) as [E3 Hf3]; [by rewrite Href|done|done|].
  exists t1, t2, l1. split; [done|]. split; [done|]. split; [done|]. split; [done|]. split; [done|]. split.
  - intros a o Ha Ho. rewrite Hw2, Hw1 by done. done.
  - intros y Hy. rewrite Xc2. by apply X1.
Qed.
End Share.

End Grow.
