(* ===== verification/ForkAlloc.v ===== *)
(** * A new process: [alloc_process]

    The pages, the page table and the table of regions of a new process, with the address
    space of another process in the same memory ([ForkSpace.fork_at]). *)
From S2P Require Import Prelude Pmm Vmm Process Sched Fork Strap Cow Heap HeapSpace ForkSpace.

(** ** Writing pages *)

Lemma page_word_ok p o : table_page p -> 0 <= o < PGSIZE -> o mod 8 = 0 -> addr_ok (p + o) = true.
Proof. intros. by apply table_page_word. Qed.

Lemma store_at p o v t : table_page p -> 0 <= o < PGSIZE -> o mod 8 = 0 -> store (p + o) v t = Ret tt (set_mem (<[p + o := v]> (mem t)) t).
Proof. intros. unfold store. by rewrite page_word_ok. Qed.
Lemma load_at p o t : table_page p -> 0 <= o < PGSIZE -> o mod 8 = 0 -> load (p + o) t = Ret (rd (mem t) (p + o)) t.
Proof. intros. unfold load. by rewrite page_word_ok. Qed.

Lemma words_ok p n : table_page p -> Z.of_nat n <= 512 -> forall i, 0 <= i < Z.of_nat n -> addr_ok (p + 8 * i) = true.
Proof. intros Hp Hn i Hi. apply page_word_ok; [done|klia|klia]. Qed.

Lemma memset_page n p w t : table_page p -> Z.of_nat n <= 512 -> memset_words n p w t = Ret tt (set_mem (fill n p w (mem t)) t).
Proof. intros Hp Hn. apply memset_words_run. by apply words_ok. Qed.

Lemma only_fill n p w m : Z.of_nat n <= 512 -> only [p] m (fill n p w m).
Proof. intros Hn a Ha. apply rd_fill_out. specialize (Ha p ltac:(by left)). unfold in_page in Ha. klia. Qed.

Lemma only_one p o v m : 0 <= o < PGSIZE -> only [p] m (<[p + o := v]> m).
Proof. intros Ho. apply only_store; [by left|done]. Qed.

(** The lower half of a word. *)
Lemma store32_at p o v t :
  table_page p -> 0 <= o < PGSIZE -> o mod 8 = 0 ->
  store32 (p + o) v t = Ret tt (set_mem (<[p + o := rd (mem t) (p + o) / 4294967296 * 4294967296 + u32 v]> (mem t)) t).
Proof.
  intros Hp Ho Hm. unfold store32. replace ((p + o) mod 8 =? 0) with true by (destruct Hp as (? & _); klia).
  step_by ltac:(by apply load_at). by apply store_at.
Qed.

(** ** The table of regions *)

Definition region_is (m : gmap Z Z) (mi i va np seg : Z) : Prop :=
  rd m (region mi i) = va /\ rd m (region mi i + 8) = seg * 4294967296 + np.

Lemma set_region_run mi i va np seg t :
  table_page mi -> 0 <= i < 256 -> 0 <= np < 4294967296 -> 0 <= seg < 4294967296 ->
  exists m', set_region mi i va np seg t = Ret tt (set_mem m' t) /\ region_is m' mi i va np seg /\
    (forall a, a <> region mi i -> a <> region mi i + 8 -> rd m' a = rd (mem t) a) /\ only [mi] (mem t) m'.
Proof.
  intros Hmi Hi Hnp Hseg. unfold set_region, region. set (o := 16 * i).
  assert (Ho : 0 <= o /\ o + 16 <= PGSIZE /\ o mod 8 = 0) by (unfold o; klia).
  assert (Hm : (mi + o + 8) mod 8 = 0) by (destruct Hmi as (? & _); klia).
  eexists. split; [|split; [|split]].
  - step_by ltac:(apply store_at; [done|lia|lia]). rewrite <- Z.add_assoc.
    step_by ltac:(apply store32_at; [done|lia|klia]).
    unfold store32. replace ((mi + o + 12) mod 8 =? 0) with false by klia. replace (mi + o + 12 - 4) with (mi + (o + 8)) by lia.
    step_by ltac:(apply load_at; [done|lia|klia]). rewrite store_at; [unfold set_mem; reflexivity|done|lia|klia].
  - unfold region_is, region. fold o. rewrite <- !Z.add_assoc. cbn [mem set_mem]. rewrite !rd_insert_eq.
    rewrite !(rd_insert_ne _ (mi + (o + 8)) (mi + o)) by lia. rewrite rd_insert_eq. split; [done|klia].
  - intros a H1 H2. cbn [mem set_mem]. rewrite <- Z.add_assoc in H2. by rewrite !rd_insert_ne by done.
  - cbn [mem set_mem]. eapply only_trans; [|apply only_one; lia]. eapply only_trans; [|apply only_one; lia]. apply only_one; lia.
Qed.

(** Regions that are entered later leave the earlier ones alone. *)
Lemma region_keep m m' mi i j va np seg :
  (forall a, a <> region mi j -> a <> region mi j + 8 -> rd m' a = rd m a) -> i <> j ->
  region_is m mi i va np seg -> region_is m' mi i va np seg.
Proof. unfold region_is, region. intros Hm Hne [H1 H2]. rewrite !Hm by lia. done. Qed.

Lemma region_same m m' mi i va np seg :
  (forall o, 0 <= o < PGSIZE -> rd m' (mi + o) = rd m (mi + o)) -> 0 <= i < 256 -> region_is m mi i va np seg -> region_is m' mi i va np seg.
Proof. unfold region_is, region. intros Hm Hi [H1 H2]. rewrite <- Z.add_assoc in *. rewrite !Hm by klia. done. Qed.

(** ** The table of open files *)

Lemma clear_files_run n : forall pf fd t,
  table_page pf -> (fd + n <= MAX_FILES)%nat ->
  exists m', clear_files n pf fd t = Ret tt (set_mem m' t) /\ only [pf] (mem t) m'.
Proof.
  induction n as [|n IH]; intros pf fd t Hp Hn; cbn [clear_files].
  - exists (mem t). split; [by destruct t|done].
  - unfold MAX_FILES in Hn. assert (Ho : 0 <= PF_file fd < PGSIZE /\ PF_file fd mod 8 = 0) by (unfold PF_file; klia).
    step_by ltac:(apply store32_at; [done|lia|lia]).
    edestruct (IH pf (S fd)) as (m' & E & Hm); [done|unfold MAX_FILES; lia|]. exists m'. split; [exact E|].
    eapply only_trans; [|exact Hm]. apply only_one. lia.
Qed.

Lemma init_files_run root t q l :
  pmm_inv t (q :: l) -> table_page q ->
  exists m', init_proc_file_management root t = Ret q (set_mem m' (alloc_result t q)) /\ only [q] (mem t) m'.
Proof.
  intros Hpm Hq. unfold init_proc_file_management. step_by ltac:(apply (alloc_page_run t (q :: l) Hpm q l eq_refl)).
  step_by ltac:(apply store_at; [done|done|done]). step_by ltac:(apply store32_at; [done|done|done]).
  edestruct (clear_files_run MAX_FILES q 0) as (m' & E & Hm); [done|done|]. step_by ltac:(exact E). exists m'. split; [done|].
  eapply only_trans; [|exact Hm]. cbn [mem set_mem]. eapply only_trans; [apply only_one; done|apply only_one; done].
Qed.

(** ** The process table with a child *)

Section Child.
Context `{Linker}.
Variables (s0 : kstate) (c tp : nat).
Hypothesis Hlt : (c < length (procs s0))%nat.

(** The kernel [s0] with the process [y] in slot [c] and memory [t]. *)
Definition cst (y : process) (t : pstate) : kstate := set_procs (<[c := y]> (procs s0)) (set_pm t s0).

Lemma cst_get y t : get_proc c (cst y t) = Ret y (cst y t).
Proof. apply get_proc_run. cbn. by apply list_lookup_insert_eq. Qed.
Lemma cst_get_other p x y t : p <> c -> procs s0 !! p = Some x -> get_proc p (cst y t) = Ret x (cst y t).
Proof. intros Hne Hx. apply get_proc_run. cbn. by rewrite list_lookup_insert_ne. Qed.
Lemma cst_upd f y t : upd_proc c f (cst y t) = Ret tt (cst (f y) t).
Proof.
  erewrite upd_proc_run by (cbn; by apply list_lookup_insert_eq). unfold cst, set_procs. cbn. by rewrite list_insert_insert_eq.
Qed.
Lemma cst_pm {A} (k : M pstate A) y t a t' : k t = Ret a t' -> on_pm k (cst y t) = Ret a (cst y t').
Proof. intros E. by rewrite (on_pm_ret k _ a t') by exact E. Qed.
Lemma cst_vm {A} (d : A) (k : M pstate A) y t a t' : k t = Ret a t' -> vm_call tp d k (cst y t) = Ret a (cst y t').
Proof. intros E. by rewrite (vm_call_ret tp d k _ a t') by exact E. Qed.

Section Space.
Variables (t0 : pstate) (l0 : list Z) (ppt : Z).
Hypothesis Hstart : vm_inv t0 l0 ppt.
Notation fork_at := (fork_at t0 l0 ppt).

(** One page is mapped in the space of the child. *)
Lemma map_step t l sh cpt own va pa perm :
  fork_at t l sh cpt own -> va mod PGSIZE = 0 -> 0 <= va -> va + PGSIZE <= MAXVA -> 0 <= pa < 72057594037923840 -> (2 <= length l)%nat ->
  xlate (mem t) cpt va = None ->
  exists t' l', user_vm_map cpt va PGSIZE pa perm t = Ret tt t' /\ fork_at t' l' sh cpt own /\ (length l <= length l' + 2)%nat /\
    (forall a o, a ∈ own -> 0 <= o < PGSIZE -> rd (mem t') (a + o) = rd (mem t) (a + o)) /\
    (forall y, 0 <= y < MAXVA -> xlate (mem t') cpt y =
       if decide (y / PGSIZE = va / PGSIZE) then Some (PA2PTE pa .| perm .| PTE_V) else xlate (mem t) cpt y).
Proof.
  intros Hf Ha H0 Hm Hpa Hl Hn. pose proof (ch_vm _ _ _ _ _ (fa_child _ _ _ _ _ _ _ _ Hf)) as Hi.
  destruct (map_one t l cpt va pa perm Hi Ha H0 Hm Hpa Hl Hn) as (t' & l' & E & Hv & Hl' & X).
  destruct (fork_map _ _ _ Hstart _ _ _ _ _ Hf t' l' Hv) as [Hf' Hw]. exists t', l'. done.
Qed.

(** A region is entered in the table of the child. *)
Lemma region_step t l sh cpt own mi i va np seg :
  fork_at t l sh cpt own -> mi ∈ own -> 0 <= i < 256 -> 0 <= np < 4294967296 -> 0 <= seg < 4294967296 ->
  exists t', set_region mi i va np seg t = Ret tt t' /\ fork_at t' l sh cpt own /\ region_is (mem t') mi i va np seg /\
    (forall a, a <> region mi i -> a <> region mi i + 8 -> rd (mem t') a = rd (mem t) a) /\
    (forall y, xlate (mem t') cpt y = xlate (mem t) cpt y).
Proof.
  intros Hf Hmi Hi Hnp Hseg. destruct (ch_private _ _ _ _ _ _ _ _ Hf mi Hmi) as [(Hp & _) _].
  destruct (set_region_run mi i va np seg t Hp Hi Hnp Hseg) as (m' & E & Hr & Hk & Ho).
  destruct (fork_only _ _ _ Hstart _ _ _ _ _ Hf [mi] m') as [Hf' Hx]; [by intros p ->%list_elem_of_singleton|done|].
  exists (set_mem m' t). split; [done|]. split; [done|]. split; [done|]. by split.
Qed.

(** Where the linker puts the trap code: a page of the kernel, below the memory that is handed out. *)
Definition trap_code_ok : Prop :=
  trap_sec_start mod PGSIZE = 0 /\ DRAM_BASE <= trap_sec_start /\ trap_sec_start + PGSIZE <= free_mem_start_addr t0.
Hypothesis Htrap : trap_code_ok.

Definition STACK_VA : Z := USER_STACK_TOP - PGSIZE.

(** The process after [map_basic_segments]. *)
Definition basic (mi : Z) (y : process) : process :=
  set_total_mapped_region 4 (set_user_heap (mkHeap USER_FREE_ADDRESS_START USER_FREE_ADDRESS_START (free_pages_address (user_heap y)) 0)
    (set_mapped_info mi y)).

(** The first four regions of a process with trapframe [tf]. *)
Definition basic_regions (m : gmap Z Z) (mi tf np : Z) : Prop :=
  region_is m mi STACK_SEGMENT STACK_VA 1 STACK_SEGMENT /\ region_is m mi CONTEXT_SEGMENT tf 1 CONTEXT_SEGMENT /\
  region_is m mi SYSTEM_SEGMENT trap_sec_start 1 SYSTEM_SEGMENT /\ region_is m mi HEAP_SEGMENT USER_FREE_ADDRESS_START np HEAP_SEGMENT.

Lemma alloc_step t q l sh cpt own :
  fork_at t (q :: l) sh cpt own -> alloc_page t = Ret q (alloc_result t q) /\ fork_at (alloc_result t q) l sh cpt (q :: own) /\ table_page q.
Proof.
  intros Hf. pose proof (gr_pmm _ _ _ _ _ _ (fa_grown _ _ _ _ _ _ _ _ Hf)) as Hpm. split; [apply (alloc_page_run t (q :: l) Hpm q l eq_refl)|].
  pose proof (fork_alloc _ _ _ Hstart _ _ _ _ _ _ Hf) as Hf'. split; [done|].
  by destruct (ch_private _ _ _ _ _ _ _ _ Hf' q ltac:(by left)) as [(? & _) _].
Qed.

(** The three pages that every process has mapped. *)
Lemma map_three t l cpt own tf us mi :
  fork_at t l [] cpt own -> mi ∈ own -> tf ∈ own -> table_page us -> (6 <= length l)%nat -> (forall y, xlate (mem t) cpt y = None) ->
  exists t1 t2 t3 t4 t5 t6 t7 l',
    user_vm_map cpt STACK_VA PGSIZE us (prot_to_type (PROT_WRITE .| PROT_READ) 1) t = Ret tt t1 /\
    set_region mi STACK_SEGMENT STACK_VA 1 STACK_SEGMENT t1 = Ret tt t2 /\
    user_vm_map cpt tf PGSIZE tf (prot_to_type (PROT_WRITE .| PROT_READ) 0) t2 = Ret tt t3 /\
    set_region mi CONTEXT_SEGMENT tf 1 CONTEXT_SEGMENT t3 = Ret tt t4 /\
    user_vm_map cpt trap_sec_start PGSIZE trap_sec_start (prot_to_type (PROT_READ .| PROT_EXEC) 0) t4 = Ret tt t5 /\
    set_region mi SYSTEM_SEGMENT trap_sec_start 1 SYSTEM_SEGMENT t5 = Ret tt t6 /\
    set_region mi HEAP_SEGMENT USER_FREE_ADDRESS_START 0 HEAP_SEGMENT t6 = Ret tt t7 /\
    fork_at t7 l' [] cpt own /\ (length l <= length l' + 6)%nat /\ basic_regions (mem t7) mi tf 0 /\
    (forall y, 0 <= y < DRAM_BASE -> xlate (mem t7) cpt y = if decide (y / PGSIZE = STACK_VA / PGSIZE) then Some (user_rw us) else None).
Proof.
  intros Hf Hmi Htf Hus Hl Hn. destruct (ch_private _ _ _ _ _ _ _ _ Hf tf Htf) as [(Htp & _) Htl].
  destruct (l0_page _ _ _ Hstart tf Htl) as [_ (_ & Htm & _)]. destruct Htrap as (Ht1 & Ht2 & Ht3).
  pose proof (inv_geo _ _ (vm_pmm _ _ _ Hstart)) as Hgeo.
  assert (Hte : trap_sec_start + PGSIZE <= PHYS_TOP) by (destruct Htp as (? & ? & ?); klia).
  destruct (map_step _ _ _ _ _ STACK_VA us (prot_to_type (PROT_WRITE .| PROT_READ) 1) Hf) as (t1 & l1 & E1 & Hf1 & Hl1 & W1 & X1);
    [done|done|done|destruct Hus; klia|lia|apply Hn|].
  destruct (region_step _ _ _ _ _ mi STACK_SEGMENT STACK_VA 1 STACK_SEGMENT Hf1 Hmi) as (t2 & E2 & Hf2 & R2 & K2 & X2); [done|done|done|].
  destruct (map_step _ _ _ _ _ tf tf (prot_to_type (PROT_WRITE .| PROT_READ) 0) Hf2) as (t3 & l3 & E3 & Hf3 & Hl3 & W3 & X3);
    [apply Htp|destruct Htp; klia|destruct Htp; unfold MAXVA; klia|destruct Htp; klia|lia
    |rewrite X2, X1 by (destruct Htp; unfold MAXVA; klia); rewrite decide_False by (destruct Htp; unfold STACK_VA, USER_STACK_TOP; klia); apply Hn|].
  destruct (region_step _ _ _ _ _ mi CONTEXT_SEGMENT tf 1 CONTEXT_SEGMENT Hf3 Hmi) as (t4 & E4 & Hf4 & R4 & K4 & X4); [done|done|done|].
  destruct (map_step _ _ _ _ _ trap_sec_start trap_sec_start (prot_to_type (PROT_READ .| PROT_EXEC) 0) Hf4) as (t5 & l5 & E5 & Hf5 & Hl5 & W5 & X5);
    [done|klia|unfold MAXVA; klia|klia|lia
    |rewrite X4, X3 by (unfold MAXVA; klia); rewrite decide_False by (destruct Htp; klia); rewrite X2, X1 by (unfold MAXVA; klia);
     rewrite decide_False by (unfold STACK_VA, USER_STACK_TOP; klia); apply Hn|].
  destruct (region_step _ _ _ _ _ mi SYSTEM_SEGMENT trap_sec_start 1 SYSTEM_SEGMENT Hf5 Hmi) as (t6 & E6 & Hf6 & R6 & K6 & X6); [done|done|done|].
  destruct (region_step _ _ _ _ _ mi HEAP_SEGMENT USER_FREE_ADDRESS_START 0 HEAP_SEGMENT Hf6 Hmi) as (t7 & E7 & Hf7 & R7 & K7 & X7); [done|done|done|].
  exists t1, t2, t3, t4, t5, t6, t7, l5. do 8 (split; [assumption|]). split; [lia|]. split.
  - assert (S3 : forall i va np seg, 0 <= i < 256 -> region_is (mem t2) mi i va np seg -> region_is (mem t3) mi i va np seg)
      by (intros; eapply region_same; [intros o; by apply W3|done|done]).
    assert (S5 : forall i va np seg, 0 <= i < 256 -> region_is (mem t4) mi i va np seg -> region_is (mem t5) mi i va np seg)
      by (intros; eapply region_same; [intros o; by apply W5|done|done]).
    split; [|split; [|split; [|done]]].
    + apply (region_keep _ _ _ _ _ _ _ _ K7); [done|]. apply (region_keep _ _ _ _ _ _ _ _ K6); [done|]. apply S5; [done|].
      apply (region_keep _ _ _ _ _ _ _ _ K4); [done|]. by apply S3.
    + apply (region_keep _ _ _ _ _ _ _ _ K7); [done|]. apply (region_keep _ _ _ _ _ _ _ _ K6); [done|]. by apply S5.
    + by apply (region_keep _ _ _ _ _ _ _ _ K7).
  - intros y Hy. assert (Hy' : 0 <= y < MAXVA) by (unfold MAXVA; klia). rewrite X7, X6, X5, X4, X3, X2, X1 by done.
    rewrite (decide_False (P := y / PGSIZE = trap_sec_start / PGSIZE)) by klia.
    rewrite (decide_False (P := y / PGSIZE = tf / PGSIZE)) by (destruct Htp; klia). destruct (decide _); [done|apply Hn].
Qed.

Lemma map_basic_run y t us mi l cpt own tf :
  fork_at t (us :: mi :: l) [] cpt own -> tf ∈ own -> trapframe y = tf -> pagetable y = cpt -> (6 <= length l)%nat ->
  (forall v, xlate (mem t) cpt v = None) ->
  exists t' l', map_basic_segments tp c (cst y t) = Ret tt (cst (basic mi y) t') /\
    fork_at t' l' [] cpt (mi :: us :: own) /\ (length l <= length l' + 6)%nat /\ basic_regions (mem t') mi tf 0 /\
    (forall v, 0 <= v < DRAM_BASE -> xlate (mem t') cpt v = if decide (v / PGSIZE = STACK_VA / PGSIZE) then Some (user_rw us) else None).
Proof.
  intros Hf Htf Etf Ept Hl Hn.
  destruct (alloc_step _ _ _ _ _ _ Hf) as (E1 & Hf1 & Hus). set (t1 := alloc_result t us) in *.
  destruct (ch_private _ _ _ _ _ _ _ _ Hf tf Htf) as [(Htp & _) _].
  set (m2 := <[tf + TF_sp := USER_STACK_TOP]> (mem t1)).
  destruct (fork_only _ _ _ Hstart _ _ _ _ _ Hf1 [tf] m2) as [Hf2 X2].
  { intros p ->%list_elem_of_singleton. by right. } { by apply only_one. }
  destruct (alloc_step _ _ _ _ _ _ Hf2) as (E3 & Hf3 & Hmi). set (t3 := alloc_result (set_mem m2 t1) mi) in *.
  destruct (fork_only _ _ _ Hstart _ _ _ _ _ Hf3 [mi] (fill 512 mi 0 (mem t3))) as [Hf4 X4].
  { intros p ->%list_elem_of_singleton. by left. } { by apply only_fill. }
  set (t4 := set_mem (fill 512 mi 0 (mem t3)) t3) in *.
  destruct (map_three t4 l cpt (mi :: us :: own) tf us mi Hf4) as (u1 & u2 & u3 & u4 & u5 & u6 & u7 & l' & A1 & A2 & A3 & A4 & A5 & A6 & A7 & Hf5 & Hl5 & Hr & Hx).
  { by left. } { right. by right. } { done. } { done. } { intros v. etransitivity; [apply X4|]. etransitivity; [apply X2|apply Hn]. }
  exists u7, l'. split; [|by split; [done|split; [done|split]]].
  unfold map_basic_segments. step_by ltac:(apply cst_pm; exact E1). step_by ltac:(apply cst_get; exact Hlt). rewrite Etf, Ept.
  step_by ltac:(apply cst_pm, store_at; done). step_by ltac:(apply cst_pm; exact E3). step_by ltac:(apply cst_upd; exact Hlt).
  step_by ltac:(apply cst_pm, memset_page; done). step_by ltac:(apply cst_vm; exact A1). step_by ltac:(apply cst_pm; exact A2).
  step_by ltac:(apply cst_vm; exact A3). step_by ltac:(apply cst_pm; exact A4). step_by ltac:(apply cst_vm; exact A5).
  step_by ltac:(apply cst_pm; exact A6). step_by ltac:(apply cst_upd; exact Hlt). step_by ltac:(apply cst_pm; exact A7).
  rewrite cst_upd by exact Hlt. reflexivity.
Qed.

(** The new process. *)
Definition new_process (tf pt ks mi pf : Z) (x : process) : process :=
  set_pfiles pf (basic mi (set_kstack (u64 (ks + PGSIZE)) (set_pagetable pt (set_trapframe tf (set_status READY x))))).

(** The trapframe and the page table, before anything is mapped. *)
Lemma root_step tf pt l :
  l0 = tf :: pt :: l ->
  let t1 := alloc_result t0 tf in
  let t2 := set_mem (<[tf + TF_tp := Z.of_nat tp]> (fill 35 tf 0 (mem t1))) t1 in
  let t3 := alloc_result t2 pt in
  let t4 := set_mem (fill 512 pt 0 (<[tf + TF_tp := Z.of_nat tp]> (fill 35 tf 0 (mem t3)))) t3 in
  alloc_page t0 = Ret tf t1 /\ alloc_page t2 = Ret pt t3 /\ table_page tf /\ table_page pt /\
  fork_at t4 l [] pt [tf] /\ forall v, xlate (mem t4) pt v = None.
Proof.
  intros El t1 t2 t3 t4. pose proof (vm_pmm _ _ _ Hstart) as Hpm. pose proof (inv_nodup _ _ Hpm) as Hnd. rewrite El in Hnd.
  apply list.NoDup_cons in Hnd as [Hn1 Hnd]. apply list.NoDup_cons in Hnd as [Hn2 Hnd]. apply not_elem_of_cons in Hn1 as [Hne Hn1].
  assert (Htf0 : tf ∈ l0) by (rewrite El; by left). assert (Hpt0 : pt ∈ l0) by (rewrite El; right; by left).
  destruct (l0_page _ _ _ Hstart tf Htf0) as [Htf _]. destruct (l0_page _ _ _ Hstart pt Hpt0) as [Hpt _].
  pose proof (grown_refl _ _ _ Hstart) as G0. rewrite El in G0 at 2. pose proof (grown_alloc _ _ _ Hstart _ _ _ _ G0) as G1.
  assert (G2 : grown t0 l0 ppt t2 (pt :: l) []).
  { apply (grown_only _ _ _ Hstart _ _ _ G1 [tf]).
    - intros p ->%list_elem_of_singleton. split; [done|]. by apply not_elem_of_cons.
    - apply (only_trans _ _ (fill 35 tf 0 (mem t1))); [by apply only_fill|by apply only_one]. }
  pose proof (grown_alloc _ _ _ Hstart _ _ _ _ G2) as G3.
  assert (G4 : grown t0 l0 ppt t4 l []).
  { apply (grown_only _ _ _ Hstart _ _ _ G3 [tf; pt]).
    - intros p Hp. rewrite !elem_of_cons, elem_of_nil in Hp. destruct Hp as [->|[->|[]]]; done.
    - assert (S1 : forall p, p ∈ [tf] -> p ∈ [tf; pt]) by (intros p ->%list_elem_of_singleton; by left).
      assert (S2 : forall p, p ∈ [pt] -> p ∈ [tf; pt]) by (intros p ->%list_elem_of_singleton; right; by left).
      apply (only_trans _ _ (fill 35 tf 0 (mem t3))); [by apply (only_sub _ _ _ _ S1), only_fill|].
      apply (only_trans _ _ (<[tf + TF_tp := Z.of_nat tp]> (fill 35 tf 0 (mem t3)))); [by apply (only_sub _ _ _ _ S1), only_one|].
      by apply (only_sub _ _ _ _ S2), only_fill. }
  assert (Hz : forall k, idx_ok k -> rd (mem t4) (pt + 8 * k) = 0).
  { intros k [Hk1 Hk2]. cbn [t4 mem set_mem]. apply rd_fill_in. lia. }
  split; [rewrite El in Hpm; apply (alloc_page_run t0 _ Hpm tf _ eq_refl)|].
  split; [apply (alloc_page_run t2 _ (gr_pmm _ _ _ _ _ _ G2) pt _ eq_refl)|]. split; [done|]. split; [done|]. split.
  - apply (fork_start _ _ _ Hstart); [done|done|done|done| |].
    + apply list.NoDup_cons. split; [by intros ->%list_elem_of_singleton|apply list.NoDup_singleton].
    + by constructor.
  - intros v. by apply fresh_root_xlate.
Qed.

Lemma alloc_process_run root x0 tf pt ks us mi l :
  pm s0 = t0 -> first_free (procs s0) 0 = Some c -> procs s0 !! c = Some x0 ->
  l0 = tf :: pt :: ks :: us :: mi :: l -> (7 <= length l)%nat ->
  exists t' l' pf own, alloc_process tp root s0 = Ret c (cst (new_process tf pt ks mi pf x0) t') /\
    fork_at t' l' [] pt own /\ (length l <= length l' + 7)%nat /\ (tf ∈ own /\ mi ∈ own /\ us ∈ own /\ ks ∈ own /\ pf ∈ own) /\ (tf <> mi /\ tf <> us /\ mi <> us) /\
    basic_regions (mem t') mi tf 0 /\
    (forall v, 0 <= v < DRAM_BASE -> xlate (mem t') pt v = if decide (v / PGSIZE = STACK_VA / PGSIZE) then Some (user_rw us) else None).
Proof.
  intros Epm Efree Hx0 El Hl. destruct (root_step tf pt _ El) as (E1 & E2 & Htf & Hpt & Hf & Hn).
  set (t1 := alloc_result t0 tf) in *. set (t2 := set_mem _ t1) in *. set (t3 := alloc_result t2 pt) in *. set (t4 := set_mem _ t3) in *.
  destruct (alloc_step _ _ _ _ _ _ Hf) as (E5 & Hf5 & _).
  destruct (map_basic_run (set_kstack (u64 (ks + PGSIZE)) (set_pagetable pt (set_trapframe tf (set_status READY x0)))) (alloc_result t4 ks) us mi l pt [ks; tf] tf Hf5)
    as (t6 & l6 & E6 & Hf6 & Hl6 & Hr & Hx); [right; by left|done|done|lia|exact Hn|].
  destruct l6 as [|pf l6]; [cbn in Hl6; lia|]. cbn [length] in Hl6.
  pose proof (gr_pmm _ _ _ _ _ _ (fa_grown _ _ _ _ _ _ _ _ Hf6)) as Hpm6. destruct (alloc_step _ _ _ _ _ _ Hf6) as (_ & Hf7 & Hpf).
  destruct (init_files_run root t6 pf l6 Hpm6 Hpf) as (m' & E7 & Ho).
  destruct (fork_only _ _ _ Hstart _ _ _ _ _ Hf7 [pf] m') as [Hf8 X8]; [intros p ->%list_elem_of_singleton; by left|done|].
  assert (Hnd : NoDup [pf; mi; us; ks; tf]) by apply (ch_nodup _ _ _ _ _ (fa_child _ _ _ _ _ _ _ _ Hf8)).
  exists (set_mem m' (alloc_result t6 pf)), l6, pf, [pf; mi; us; ks; tf]. split; [|split; [done|split; [lia|split; [|split; [|split]]]]].
  - unfold alloc_process. step_by ltac:(reflexivity). rewrite Efree.
    step_by ltac:(apply upd_proc_run; exact Hx0).
    replace (set_procs (<[c := set_status READY x0]> (procs s0)) s0) with (cst (set_status READY x0) t0) by (unfold cst; rewrite <- Epm; by destruct s0).
    step_by ltac:(apply cst_pm; exact E1). step_by ltac:(apply cst_upd; exact Hlt).
    step_by ltac:(apply cst_pm, memset_page; done). step_by ltac:(apply cst_pm, store_at; done).
    step_by ltac:(apply cst_pm; exact E2). step_by ltac:(apply cst_upd; exact Hlt).
    step_by ltac:(apply cst_pm, memset_page; done). step_by ltac:(apply cst_pm, store_at; done). step_by ltac:(apply cst_pm, memset_page; done).
    step_by ltac:(apply cst_pm; exact E5). step_by ltac:(apply cst_upd; exact Hlt). step_by ltac:(exact E6).
    step_by ltac:(apply cst_pm; exact E7). step_by ltac:(apply cst_upd; exact Hlt). reflexivity.
  - rewrite !elem_of_cons. tauto.
  - apply list.NoDup_cons in Hnd as [_ Hnd]. apply list.NoDup_cons in Hnd as [Hmi Hnd]. apply list.NoDup_cons in Hnd as [Hus _].
    split; [|split]; intros E; [apply Hmi|apply Hus|apply Hmi]; rewrite E, !elem_of_cons; auto 6.
  - assert (Hkeep : forall i va np seg, 0 <= i < 256 -> region_is (mem t6) mi i va np seg -> region_is m' mi i va np seg).
    { intros i va np seg Hi. apply region_same; [|done]. intros o Hoff. apply (only_page [pf]); [done|by constructor| |by intros ->%list_elem_of_singleton; apply list.NoDup_cons in Hnd as [Hnd _]; apply Hnd; left|done].
      by destruct (ch_private _ _ _ _ _ _ _ _ Hf6 mi ltac:(by left)) as [(? & _) _]. }
    destruct Hr as (R1 & R2 & R3 & R4). split; [by apply Hkeep|]. split; [by apply Hkeep|]. split; by apply Hkeep.
  - intros v Hv. etransitivity; [apply X8|]. by apply Hx.
Qed.
End Space.
End Child.
