(* ===== verification/DoFork.v ===== *)
(** * Forking: the child sees the memory of the parent

    The regions of the parent are duplicated one after the other.  [view] relates the
    space of the child to the memory the parent had when the fork began. *)
From S2P Require Import Prelude Pmm Vmm Process Sched Fork Strap Cow Heap HeapSpace ForkSpace ForkAlloc.

(** The word that user code reads at [v] (a multiple of 8). *)
Definition user_word (m : gmap Z Z) (root v : Z) : option Z :=
  (fun w => rd m (PTE2PA w + v mod PGSIZE)) <$> xlate m root v.

(** Address [v] lies in the page at [p]. *)
Definition on_page (p v : Z) : Prop := v / PGSIZE = p / PGSIZE.

Lemma read_only pa perm : Z.testbit perm 2 = false -> has (PA2PTE pa .| perm) PTE_W = false.
Proof.
  intros Hp. unfold has. replace (Z.land (PA2PTE pa .| perm) PTE_W) with 0; [done|]. symmetry. change PTE_W with (2 ^ 2). apply Z.bits_inj'. intros n Hn.
  rewrite Z.land_spec, Z.lor_spec, Z.bits_0. destruct (decide (n = 2)) as [->|Hne]; [|rewrite (Z.pow2_bits_false 2 n) by lia; by rewrite andb_false_r].
  rewrite Hp. unfold PA2PTE, u64. change 18446744073709551616 with (2 ^ 64). rewrite Z.mod_pow2_bits_low by lia. by rewrite Z.shiftl_spec_low by lia.
Qed.

Section Fork.
Variables (t0 : pstate) (l0 : list Z) (ppt : Z).
Hypothesis Hstart : vm_inv t0 l0 ppt.
Notation fork_at := (fork_at t0 l0 ppt).

(** A page that a fork does not touch. *)
Definition old_page (p : Z) : Prop := p mod PGSIZE = 0 /\ p ∉ l0 /\ ~ tables_of (mem t0) ppt p.

Lemma old_word t l sh p o : grown t0 l0 ppt t l sh -> old_page p -> 0 <= o < PGSIZE -> rd (mem t) (p + o) = rd (mem t0) (p + o).
Proof.
  intros Hg (Hp & Hl & Ht) Ho. apply (gr_mem _ _ _ _ _ _ Hg).
  - intros q Hq Hin. apply Hl. destruct (l0_page _ _ _ Hstart q Hq) as [(? & _) _]. unfold in_page in Hin. assert (p = q) as -> by klia. done.
  - intros q Hq Hin. apply Ht. destruct Hq as (π & Hok & Hπ). pose proof (pt_page _ _ (vm_pt _ _ _ Hstart) π q Hok Hπ) as (? & _).
    unfold in_page in Hin. assert (p = q) as -> by klia. by exists π.
Qed.

Section View.
Variable (cpt : Z).

(** What the child has at [v]: what the parent had, in a page of [vis] or in an old page that it cannot write. *)
Definition sees (t : pstate) (vis : list Z) (v : Z) : Prop :=
  match xlate (mem t0) ppt v with
  | None => xlate (mem t) cpt v = None
  | Some w0 => exists w, xlate (mem t) cpt v = Some w /\ (PTE2PA w ∈ vis \/ old_page (PTE2PA w) /\ has w PTE_W = false) /\
      forall o, 0 <= o < PGSIZE -> o mod 8 = 0 -> rd (mem t) (PTE2PA w + o) = rd (mem t0) (PTE2PA w0 + o)
  end.

(** Below the kernel, the child sees the parent on [D] and nothing elsewhere. *)
Definition view (t : pstate) (vis : list Z) (D : Z -> Prop) : Prop :=
  forall v, 0 <= v < DRAM_BASE -> (D v -> sees t vis v) /\ (~ D v -> xlate (mem t) cpt v = None).

Lemma view_word t vis D v :
  view t vis D -> 0 <= v < DRAM_BASE -> v mod 8 = 0 -> D v -> user_word (mem t) cpt v = user_word (mem t0) ppt v.
Proof.
  intros Hv Hr H8 HD. destruct (Hv v Hr) as [Hs _]. specialize (Hs HD). unfold sees in Hs. unfold user_word.
  destruct (xlate (mem t0) ppt v) as [w0|]; [|by rewrite Hs]. destruct Hs as (w & -> & _ & Hw). cbn. f_equal. apply Hw; klia.
Qed.

Section Step.
Variables (t t' : pstate) (l l' sh sh' : list Z) (own own' vis : list Z) (D : Z -> Prop).
Hypothesis Hf : fork_at t l sh cpt own.
Hypothesis Hf' : fork_at t' l' sh' cpt own'.
Hypothesis Hvis : forall p o, p ∈ vis -> 0 <= o < PGSIZE -> rd (mem t') (p + o) = rd (mem t) (p + o).

Lemma sees_step v vis' : (forall p, p ∈ vis -> p ∈ vis') -> xlate (mem t') cpt v = xlate (mem t) cpt v -> sees t vis v -> sees t' vis' v.
Proof.
  intros Hs Hx. unfold sees. rewrite Hx. destruct (xlate (mem t0) ppt v) as [w0|]; [|done]. intros (w & E & Hp & Hw). exists w.
  split; [done|]. split; [destruct Hp; auto|]. intros o Ho H8. rewrite <- Hw by done. destruct Hp as [Hp|[Hp _]]; [by apply Hvis|].
  rewrite (old_word t' l' sh'), (old_word t l sh); [done|apply Hf|done|done|apply Hf'|done|done].
Qed.

Lemma view_step : (forall v, 0 <= v < DRAM_BASE -> xlate (mem t') cpt v = xlate (mem t) cpt v) -> view t vis D -> view t' vis D.
Proof.
  intros Hx Hv v Hr. destruct (Hv v Hr) as [H1 H2]. split; [intros HD; eapply sees_step; auto|]. intros HD. rewrite Hx by done. auto.
Qed.

(** A page more. *)
Lemma view_map va w vis' :
  0 <= va < DRAM_BASE ->
  (forall v, 0 <= v < MAXVA -> xlate (mem t') cpt v = if decide (v / PGSIZE = va / PGSIZE) then Some w else xlate (mem t) cpt v) ->
  (forall p, p ∈ vis -> p ∈ vis') -> view t vis D -> (forall v, on_page va v -> sees t' vis' v) ->
  view t' vis' (fun v => D v \/ on_page va v).
Proof.
  intros Hva Hx Hs Hv Hn v Hr. assert (Hr' : 0 <= v < MAXVA) by (unfold MAXVA; klia). destruct (Hv v Hr) as [H1 H2]. split.
  - intros [HD|HD]; [|auto]. destruct (decide (v / PGSIZE = va / PGSIZE)) as [E|E]; [by apply Hn|].
    eapply sees_step; [done| |auto]. rewrite Hx by done. by rewrite decide_False.
  - intros HD. rewrite Hx by done. rewrite decide_False; [apply H2; tauto|]. intros E. apply HD. by right.
Qed.
End Step.

Lemma view_sub t vis vis' D D' :
  (forall p, p ∈ vis -> p ∈ vis') -> (forall v, 0 <= v < DRAM_BASE -> D v <-> D' v) -> view t vis D -> view t vis' D'.
Proof.
  intros Hs HD Hv v Hr. destruct (Hv v Hr) as [H1 H2]. rewrite <- (HD v Hr). split; [|done]. intros Hd. specialize (H1 Hd). unfold sees in *.
  destruct (xlate (mem t0) ppt v) as [w0|]; [|done]. destruct H1 as (w & E & Hp & Hw). exists w. split; [done|]. split; [destruct Hp; auto|done].
Qed.
End View.

(** ** The state of a fork *)

(** What is needed of the parent: the pages below the kernel have readable frames of their own. *)
Record parent_ok : Prop := {
  po_frames : frames_ok t0 ppt 0 DRAM_BASE [];
  po_refs : forall v w, 0 <= v < DRAM_BASE -> xlate (mem t0) ppt v = Some w -> page_ref t0 (PTE2PA w) < 65535
}.
Hypothesis Hpar : parent_ok.

Lemma parent_frame v w :
  0 <= v < DRAM_BASE -> xlate (mem t0) ppt v = Some w ->
  has w PTE_R = true /\ managed t0 (PTE2PA w) /\ PTE2PA w <> 0 /\ table_page (PTE2PA w) /\ old_page (PTE2PA w) /\ 0 < page_ref t0 (PTE2PA w) < 65535.
Proof.
  intros Hv Hw. destruct (fr_frame _ _ _ _ _ (po_frames Hpar) v w Hv Hw) as (HR & _ & Hm & Hr & Ht & _).
  pose proof (managed_table _ _ (inv_geo _ _ (vm_pmm _ _ _ Hstart)) Hm) as Htp.
  split; [done|]. split; [done|]. split; [destruct Htp as (? & ? & ?); klia|]. split; [done|].
  split; [|split; [done|by apply (po_refs Hpar v)]]. split; [apply Htp|]. split; [by apply (counted_not_free _ _ _ _ Hstart)|done].
Qed.

(** The kernel finds the frames of the parent at any time of the fork. *)
Lemma parent_lookup t l sh v :
  grown t0 l0 ppt t l sh -> 0 <= v < DRAM_BASE ->
  lookup_pa ppt v t = Ret (match xlate (mem t0) ppt v with Some w => PTE2PA w | None => 0 end) t.
Proof.
  intros Hg Hv. assert (Hm : 0 <= v < MAXVA) by (unfold MAXVA; klia).
  rewrite lookup_pa_run; [|apply (gr_parent _ _ _ Hstart _ _ _ Hg)|lia]. rewrite (proj2 (Z.leb_gt _ _)) by lia.
  pose proof (gr_frames _ _ _ _ _ _ Hg v Hm) as Hf. unfold frame_of in Hf.
  destruct (xlate (mem t0) ppt v) as [w0|] eqn:E0, (xlate (mem t) ppt v) as [w|] eqn:E; cbn in Hf; try done.
  injection Hf as -> ->. destruct (parent_frame v w0 Hv E0) as (-> & _). done.
Qed.

Section Forked.
Variables (cpt tf mi ptf : Z) (K : Z -> option Z).

(** The child so far: pages [own], of which [vis] are visible to it; it sees the parent on [D],
    has the regions [regs] and the registers of the parent. *)
Record forked (t : pstate) (l sh own vis : list Z) (D : Z -> Prop) (regs : list (Z * Z * Z)) : Prop := {
  fd_fork : fork_at t l sh cpt own;
  fd_own : tf ∈ own /\ mi ∈ own /\ tf <> mi;
  fd_vis : forall p, p ∈ vis -> p ∈ own /\ p <> tf /\ p <> mi;
  fd_view : view cpt t vis D;
  fd_high : forall v, DRAM_BASE <= v < MAXVA -> xlate (mem t) cpt v = K v;
  fd_tf : forall o, 0 <= o < sizeof_trapframe -> o mod 8 = 0 -> rd (mem t) (tf + o) = rd (mem t0) (ptf + o);
  fd_regs : forall i va np seg, regs !! i = Some (va, np, seg) -> region_is (mem t) mi (Z.of_nat i) va np seg;
  fd_few : (length regs <= 256)%nat
}.

Section Steps.
Variables (t : pstate) (l sh own vis : list Z) (D : Z -> Prop) (regs : list (Z * Z * Z)).
Hypothesis Hd : forked t l sh own vis D regs.

Lemma fd_private a : a ∈ own -> private t l cpt a /\ a ∈ l0.
Proof. apply (ch_private _ _ _ _ _ _ _ _ (fd_fork _ _ _ _ _ _ _ Hd)). Qed.

(** The parts that a step outside of the pages of the child keeps. *)
Lemma regs_keep m' : (forall o, 0 <= o < PGSIZE -> rd m' (mi + o) = rd (mem t) (mi + o)) ->
  forall i va np seg, regs !! i = Some (va, np, seg) -> region_is m' mi (Z.of_nat i) va np seg.
Proof.
  intros Hm i va np seg Hi. pose proof (lookup_lt_Some _ _ _ Hi) as Hlt. pose proof (fd_few _ _ _ _ _ _ _ Hd) as Hfew.
  eapply region_same; [exact Hm|lia|by apply (fd_regs _ _ _ _ _ _ _ Hd)].
Qed.

Lemma tf_keep m' : (forall o, 0 <= o < PGSIZE -> rd m' (tf + o) = rd (mem t) (tf + o)) ->
  forall o, 0 <= o < sizeof_trapframe -> o mod 8 = 0 -> rd m' (tf + o) = rd (mem t0) (ptf + o).
Proof. intros Hm o Ho H8. rewrite Hm by (unfold sizeof_trapframe in Ho; klia). by apply (fd_tf _ _ _ _ _ _ _ Hd). Qed.

(** A step that maps a page, or nothing. *)
Lemma forked_map t' l' sh' own' vis' va w :
  fork_at t' l' sh' cpt own' -> (forall p, p ∈ own -> p ∈ own') -> (forall p, p ∈ vis -> p ∈ vis') ->
  (forall p, p ∈ vis' -> p ∈ own' /\ p <> tf /\ p <> mi) ->
  (forall p o, p ∈ own -> 0 <= o < PGSIZE -> rd (mem t') (p + o) = rd (mem t) (p + o)) ->
  0 <= va < DRAM_BASE -> va mod PGSIZE = 0 ->
  (forall v, 0 <= v < MAXVA -> xlate (mem t') cpt v = if decide (v / PGSIZE = va / PGSIZE) then Some w else xlate (mem t) cpt v) ->
  (forall v, on_page va v -> sees cpt t' vis' v) ->
  forked t' l' sh' own' vis' (fun v => D v \/ on_page va v) regs.
Proof.
  intros Hf' Hso Hsv Hv' Hw Hva Ha Hx Hs. destruct (fd_own _ _ _ _ _ _ _ Hd) as (Htf & Hmi & Hne). split.
  - done.
  - auto.
  - done.
  - eapply (view_map cpt t t' l l' sh sh' own own' vis); [apply Hd|done| |done|done|done|apply Hd|done].
    intros p o Hp Ho. apply Hw; [by apply (fd_vis _ _ _ _ _ _ _ Hd)|done].
  - intros v Hv. rewrite Hx by (unfold MAXVA in *; klia). rewrite decide_False by klia. by apply (fd_high _ _ _ _ _ _ _ Hd).
  - apply tf_keep. intros o. by apply Hw.
  - apply regs_keep. intros o. by apply Hw.
  - apply Hd.
Qed.

Lemma forked_ext t' l' sh' own' :
  fork_at t' l' sh' cpt own' -> (forall p, p ∈ own -> p ∈ own') ->
  (forall p o, p ∈ own -> 0 <= o < PGSIZE -> rd (mem t') (p + o) = rd (mem t) (p + o)) ->
  (forall v, 0 <= v < MAXVA -> xlate (mem t') cpt v = xlate (mem t) cpt v) ->
  forked t' l' sh' own' vis D regs.
Proof.
  intros Hf' Hso Hw Hx. destruct (fd_own _ _ _ _ _ _ _ Hd) as (Htf & Hmi & Hne). split.
  - done.
  - auto.
  - intros p Hp. destruct (fd_vis _ _ _ _ _ _ _ Hd p Hp) as (? & ? & ?). auto.
  - eapply (view_step cpt t t' l l' sh sh' own own' vis); [apply Hd|done| | |apply Hd].
    + intros p o Hp Ho. apply Hw; [by apply (fd_vis _ _ _ _ _ _ _ Hd)|done].
    + intros v Hv. apply Hx. unfold MAXVA. klia.
  - intros v Hv. rewrite Hx by (unfold MAXVA in *; klia). by apply (fd_high _ _ _ _ _ _ _ Hd).
  - apply tf_keep. intros o. by apply Hw.
  - apply regs_keep. intros o. by apply Hw.
  - apply Hd.
Qed.

(** Addresses that the parent has not mapped either. *)
Lemma forked_none D' :
  (forall v, 0 <= v < DRAM_BASE -> D v -> D' v) -> (forall v, 0 <= v < DRAM_BASE -> D' v -> D v \/ ~ D v /\ xlate (mem t0) ppt v = None) ->
  forked t l sh own vis D' regs.
Proof.
  intros H1 H2. destruct Hd as [A1 A2 A3 A4 A5 A6 A7 A8]. split; try done. intros v Hv. destruct (A4 v Hv) as [B1 B2]. split.
  - intros HD'. destruct (H2 v Hv HD') as [?|[Hn He]]; [auto|]. unfold sees. rewrite He. auto.
  - intros HD'. auto.
Qed.
End Steps.

(** ** The heap *)

Section Kernel.
Context `{Linker}.
Variables (s0 : kstate) (c tp : nat).
Hypothesis Hlt : (c < length (procs s0))%nat.
Notation cst := (cst s0 c).

Lemma same_frame v w0 va w : on_page va v -> xlate (mem t0) ppt v = Some w0 -> xlate (mem t0) ppt va = Some w -> w0 = w.
Proof. unfold on_page, xlate. intros E. rewrite (leaf_same_page _ _ _ _ E). congruence. Qed.
Lemma same_none v va : on_page va v -> xlate (mem t0) ppt va = None -> xlate (mem t0) ppt v = None.
Proof. unfold on_page, xlate. intros E. by rewrite (leaf_same_page _ _ _ _ E). Qed.

(** The page at [blk] is shared, if the parent has it. *)
Lemma share_page_run y t l sh own vis D regs blk :
  forked t l sh own vis D regs -> blk mod PGSIZE = 0 -> 0 <= blk -> blk + PGSIZE <= DRAM_BASE -> (forall v, on_page blk v -> ~ D v) ->
  (2 <= length l)%nat -> (forall w, xlate (mem t0) ppt blk = Some w -> PTE2PA w ∉ sh) ->
  exists t' l' sh', share_page tp ppt cpt blk (cst y t) = Ret tt (cst y t') /\
    forked t' l' sh' own vis (fun v => D v \/ on_page blk v) regs /\ (length l <= length l' + 2)%nat /\
    (forall p, p ∈ sh' -> p ∈ sh \/ exists w, xlate (mem t0) ppt blk = Some w /\ p = PTE2PA w).
Proof.
  intros Hd Ha H0 Hm HD Hl Hsh. pose proof (fd_fork _ _ _ _ _ _ _ Hd) as Hf. pose proof (fa_grown _ _ _ _ _ _ _ _ Hf) as Hg.
  assert (Hb : 0 <= blk < DRAM_BASE) by klia. assert (Hbm : 0 <= blk < MAXVA) by (unfold MAXVA; klia).
  unfold share_page. pose proof (parent_lookup t l sh blk Hg Hb) as El. pose proof (gr_frames _ _ _ _ _ _ Hg blk Hbm) as Hfr. unfold frame_of in Hfr.
  destruct (xlate (mem t0) ppt blk) as [w0|] eqn:E0.
  - destruct (xlate (mem t) ppt blk) as [w|] eqn:E; [|done]. cbn in Hfr. injection Hfr as Hpa _.
    destruct (parent_frame blk w0 Hb E0) as (_ & Hmg & Hnz & Htp & Hold & Hr). specialize (Hsh w0 eq_refl).
    assert (Href : page_ref t (PTE2PA w0) = page_ref t0 (PTE2PA w0)).
    { rewrite (gr_ref _ _ _ _ _ _ Hg) by (done || apply Hold). rewrite decide_False by done. lia. }
    assert (Hcn : xlate (mem t) cpt blk = None) by (by apply (fd_view _ _ _ _ _ _ _ Hd); [|apply HD]).
    destruct (fork_share t0 l0 ppt Hstart t l sh cpt own blk w Hf) as (t1 & t2 & l' & E1 & E2 & E3 & Hf' & Hl' & Hw' & Hx'); try done.
    { unfold MAXVA. klia. } { rewrite Hpa, Href. split; [done|]. split; [apply Hold|]. by split. }
    cbv zeta in E1, E3, Hf', Hx'. rewrite Hpa in E1, E3, Hf', Hx'. exists (inc_result t2 (PTE2PA w0)), l', (PTE2PA w0 :: sh). split; [|split; [|split; [done|]]].
    + step_by ltac:(apply cst_pm; exact El). rewrite (proj2 (Z.eqb_neq _ 0)) by done.
      step_by ltac:(apply cst_vm; exact E1). step_by ltac:(apply cst_vm; exact E2). apply cst_pm. exact E3.
    + destruct (cow_entry (PTE2PA w0) Htp) as [Hce _].
      eapply (forked_map t l sh own vis D regs Hd); [exact Hf'|done|done|apply (fd_vis _ _ _ _ _ _ _ Hd)|exact Hw'|done|done|exact Hx'|].
      intros v Hv. unfold sees. destruct (xlate (mem t0) ppt v) as [w1|] eqn:E1'.
      * rewrite (same_frame v w1 blk w0 Hv E1' E0). eexists. split; [rewrite Hx' by (unfold on_page, MAXVA in *; klia); by rewrite decide_True|].
        rewrite Hce. split; [right; split; [done|by apply read_only]|]. intros o Ho _. by apply (old_word _ _ _ _ _ (fa_grown _ _ _ _ _ _ _ _ Hf')).
      * unfold on_page, xlate in *. rewrite (leaf_same_page _ _ _ _ Hv), E0 in E1'. done.
    + intros p [->|Hp]%elem_of_cons; [right; by exists w0|by left].
  - exists t, l, sh. split; [|split; [|split; [lia|by left]]].
    + step_by ltac:(apply cst_pm; exact El). done.
    + apply (forked_none t l sh own vis D regs Hd); [by left|]. intros v Hv [?|Hp]; [by left|]. right. split; [by apply HD|by apply (same_none v blk)].
Qed.

(** The loop over the heap: [f] marks pages that the parent has not mapped, and the
    pages [lost], which the child does not get. *)
Lemma share_heap_run y bottom f (lost : nat -> Prop) n : forall t l sh own vis D regs blk,
  forked t l sh own vis D regs -> bottom mod PGSIZE = 0 -> 0 <= bottom <= blk -> blk mod PGSIZE = 0 ->
  blk + Z.of_nat n * PGSIZE <= DRAM_BASE -> (blk - bottom) / PGSIZE + Z.of_nat n <= Z.of_nat (length f) ->
  (forall i b, f !! i = Some b -> b <> 0 -> lost i \/ xlate (mem t0) ppt (bottom + Z.of_nat i * PGSIZE) = None) ->
  (forall i, f !! i = Some 0 -> ~ lost i) ->
  (forall v, blk <= v < blk + Z.of_nat n * PGSIZE -> ~ D v) -> (2 * n <= length l)%nat ->
  (forall p, p ∈ sh -> exists v w, bottom <= v < blk /\ xlate (mem t0) ppt v = Some w /\ p = PTE2PA w) ->
  exists t' l' sh', share_heap n tp ppt cpt blk bottom f (cst y t) = Ret tt (cst y t') /\
    forked t' l' sh' own vis (fun v => D v \/ blk <= v < blk + Z.of_nat n * PGSIZE /\ ~ lost (Z.to_nat ((v - bottom) / PGSIZE))) regs /\
    (length l <= length l' + 2 * n)%nat.
Proof.
  induction n as [|n IH]; intros t l sh own vis D regs blk Hd Hbt Hb Hba Hm Hlf Hfm Hfz HD Hl Hsh.
  - exists t, l, sh. split; [done|]. split; [|lia]. apply (forked_none t l sh own vis D regs Hd); [by left|]. intros v Hv [?|?]; [by left|lia].
  - cbn [share_heap]. assert (Hu : u64 (blk - bottom) = blk - bottom) by klia. rewrite Hu. set (i := (blk - bottom) / PGSIZE) in *.
    assert (Hi : 0 <= i /\ blk = bottom + i * PGSIZE) by (unfold i; klia).
    destruct (lookup_lt_is_Some_2 f (Z.to_nat i)) as [b Hbf]; [lia|]. rewrite Hbf.
    assert (Hu2 : u64 (blk + PGSIZE) = blk + PGSIZE) by klia. rewrite Hu2.
    assert (Hpage : forall v, on_page blk v <-> blk <= v < blk + PGSIZE) by (intros v; unfold on_page; klia).
    assert (Hnd : forall v, on_page blk v -> ~ D v) by (intros v Hv%Hpage; apply HD; klia).
    assert (Hstep : exists t1 l1 sh1, (forall A (k : M kstate A), ((if negb (b =? 0) then ret tt else share_page tp ppt cpt blk) ;;; k) (cst y t) = k (cst y t1)) /\
      forked t1 l1 sh1 own vis (fun v => D v \/ on_page blk v /\ ~ lost (Z.to_nat i)) regs /\ (length l <= length l1 + 2)%nat /\
      (forall p, p ∈ sh1 -> exists v w, bottom <= v < blk + PGSIZE /\ xlate (mem t0) ppt v = Some w /\ p = PTE2PA w)).
    { destruct (b =? 0) eqn:Eb; cbn [negb].
      - destruct (share_page_run y t l sh own vis D regs blk Hd) as (t1 & l1 & sh1 & E1 & Hd1 & Hl1 & Hs1); [done|lia|klia|done|lia| |].
        { intros w Hw Hin. destruct (Hsh _ Hin) as (v & w' & Hv & Hw' & Ep).
          pose proof (fr_inj _ _ _ _ _ (po_frames Hpar) v blk w' w ltac:(klia) ltac:(klia) Hw' Hw (eq_sym Ep)). klia. }
        exists t1, l1, sh1. split; [|split; [|split; [done|]]].
        + intros A k. by step_by ltac:(exact E1).
        + apply Z.eqb_eq in Eb as ->. pose proof (Hfz _ Hbf) as Hnl. destruct Hd1 as [A1 A2 A3 A4 A5 A6 A7 A8]. split; try done.
          eapply view_sub; [done| |exact A4]. intros v Hv. cbv beta. tauto.
        + intros p Hp. destruct (Hs1 p Hp) as [Hp'|(w & Hw & ->)]; [|exists blk, w; split; [klia|done]].
          destruct (Hsh p Hp') as (v & w & Hv & Hw & Ep). exists v, w. split; [klia|done].
      - bsplit. exists t, l, sh. split; [done|]. split; [|split; [lia|]].
        + apply (forked_none t l sh own vis D regs Hd); [by left|]. intros v Hv [?|[Hp Hnl]]; [by left|]. right. split; [by apply Hnd|].
          destruct (Hfm (Z.to_nat i) b Hbf Eb) as [?|Hnone]; [done|]. rewrite Z2Nat.id in Hnone by lia. destruct Hi as [_ Hbi]. rewrite <- Hbi in Hnone.
          by apply (same_none v blk).
        + intros p Hp. destruct (Hsh p Hp) as (v & w & Hv & Hw & Ep). exists v, w. split; [klia|done]. }
    destruct Hstep as (t1 & l1 & sh1 & E1 & Hd1 & Hl1 & Hs1).
    destruct (IH t1 l1 sh1 own vis _ regs (blk + PGSIZE) Hd1) as (t2 & l2 & sh2 & E2 & Hd2 & Hl2); [done|klia|klia|klia| |done|done| |lia|done|].
    { replace ((blk + PGSIZE - bottom) / PGSIZE) with (i + 1) by (unfold i; klia). lia. }
    { intros v Hv [HDv|[Hp%Hpage _]]; [by apply (HD v); [klia|]|lia]. }
    exists t2, l2, sh2. split; [rewrite E1; exact E2|]. split; [|lia].
    destruct Hd2 as [A1 A2 A3 A4 A5 A6 A7 A8]. split; try done. eapply view_sub; [done| |exact A4]. intros v Hv. cbv beta. rewrite Hpage. split.
    + intros [[?|[Hp Hn]]|[Hp Hn]]; [by left|right; split; [klia|]|right; split; [klia|done]].
      by replace ((v - bottom) / PGSIZE) with i by (unfold i; klia).
    + intros [?|[Hp Hn]]; [by left; left|]. destruct (decide (v < blk + PGSIZE)); [left; right; split; [lia|]|right; split; [klia|done]].
      by replace ((v - bottom) / PGSIZE) with i in Hn by (unfold i; klia).
Qed.

(** ** The regions *)

Lemma region_loads m mi' i va np seg t :
  mem t = m -> region_is m mi' i va np seg -> table_page mi' -> 0 <= i < 256 -> 0 <= np < 4294967296 ->
  load (region mi' i) t = Ret va t /\ load32 (region mi' i + 8) t = Ret np t /\ load32 (region mi' i + 12) t = Ret seg t.
Proof.
  intros <- [H1 H2] Hp Hi Hn. unfold region in *. assert (Hal : mi' mod 8 = 0) by (destruct Hp as (? & _); klia).
  assert (L8 : load (mi' + (16 * i + 8)) t = Ret (seg * 4294967296 + np) t).
  { rewrite load_at by (done || klia). by rewrite Z.add_assoc, H2. }
  split; [rewrite load_at by (done || klia); by rewrite H1|]. unfold load32. split.
  - replace ((mi' + 16 * i + 8) mod 8 =? 0) with true by klia. rewrite <- Z.add_assoc. step_by ltac:(exact L8). unfold ret. f_equal. klia.
  - replace ((mi' + 16 * i + 12) mod 8 =? 0) with false by klia. replace (mi' + 16 * i + 12 - 4) with (mi' + (16 * i + 8)) by lia.
    step_by ltac:(exact L8). unfold ret. f_equal. klia.
Qed.

(** A change of the table of regions only. *)
Lemma forked_mi t l sh own vis D regs m' regs' :
  forked t l sh own vis D regs -> only [mi] (mem t) m' -> (length regs' <= 256)%nat ->
  (forall i va np seg, regs' !! i = Some (va, np, seg) -> region_is m' mi (Z.of_nat i) va np seg) ->
  forked (set_mem m' t) l sh own vis D regs'.
Proof.
  intros Hd Ho Hlen Hr. pose proof (fd_fork _ _ _ _ _ _ _ Hd) as Hf. destruct (fd_own _ _ _ _ _ _ _ Hd) as (Htf & Hmi & Hne).
  destruct (fork_only _ _ _ Hstart _ _ _ _ _ Hf [mi] m') as [Hf' Hx]; [by intros p ->%list_elem_of_singleton|done|].
  assert (Hp1 : Forall table_page [mi]) by (constructor; [by destruct (fd_private _ _ _ _ _ _ _ Hd mi Hmi) as [(? & _) _]|done]).
  assert (Hw : forall p o, p ∈ own -> p <> mi -> 0 <= o < PGSIZE -> rd m' (p + o) = rd (mem t) (p + o)).
  { intros p o Hp Hpm Ho'. apply (only_page [mi]); [done|done| |by intros ->%list_elem_of_singleton|done]. by destruct (fd_private _ _ _ _ _ _ _ Hd p Hp) as [(? & _) _]. }
  split; try done.
  - apply Hd.
  - eapply (view_step cpt t (set_mem m' t) l l sh sh own own vis); [exact Hf|exact Hf'| | |apply Hd].
    + intros p o Hp Ho'. destruct (fd_vis _ _ _ _ _ _ _ Hd p Hp) as (? & ? & ?). by apply Hw.
    + intros v Hv. apply Hx.
  - intros v Hv. cbn [mem set_mem]. rewrite Hx. by apply (fd_high _ _ _ _ _ _ _ Hd).
  - apply (tf_keep t l sh own vis D regs Hd). intros o. by apply Hw.
Qed.

Lemma register_run y t l sh own vis D regs va np seg :
  forked t l sh own vis D regs -> mapped_info y = mi -> total_mapped_region y = Z.of_nat (length regs) -> (length regs < 256)%nat ->
  0 <= np < 4294967296 -> 0 <= seg < 4294967296 ->
  exists t', register_region c va np seg (cst y t) = Ret tt (cst (set_total_mapped_region (Z.of_nat (length (regs ++ [(va, np, seg)]))) y) t') /\
    forked t' l sh own vis D (regs ++ [(va, np, seg)]).
Proof.
  intros Hd Emi Etot Hlen Hnp Hseg. destruct (fd_own _ _ _ _ _ _ _ Hd) as (_ & Hmi & _).
  destruct (fd_private _ _ _ _ _ _ _ Hd mi Hmi) as [(Hmp & _) _].
  destruct (set_region_run mi (Z.of_nat (length regs)) va np seg t Hmp ltac:(lia) Hnp Hseg) as (m' & E & Hr & Hk & Ho).
  exists (set_mem m' t). split.
  - unfold register_region. step_by ltac:(apply cst_get; exact Hlt). rewrite Emi, Etot. step_by ltac:(apply cst_pm; exact E).
    rewrite cst_upd by exact Hlt. do 2 f_equal. rewrite Etot, length_app. cbn [length]. f_equal. lia.
  - apply (forked_mi t l sh own vis D regs); [done|done|rewrite length_app; cbn [length]; lia|].
    intros i va' np' seg' Hi. destruct (decide (i < length regs)%nat).
    + rewrite lookup_app_l in Hi by done. apply (region_keep _ _ _ _ _ _ _ _ Hk); [lia|]. by apply (fd_regs _ _ _ _ _ _ _ Hd).
    + rewrite lookup_app_r in Hi by lia. destruct (i - length regs)%nat as [|k] eqn:Ek; cbn in Hi; [|done]. injection Hi as <- <- <-.
      by replace (Z.of_nat i) with (Z.of_nat (length regs)) by lia.
Qed.

Definition code_perm : Z := prot_to_type (PROT_READ .| PROT_EXEC) 1.
Definition data_perm : Z := prot_to_type (PROT_WRITE .| PROT_READ) 1.

Lemma entry_frame pa perm : table_page pa -> 0 <= perm .| PTE_V < 1024 -> PTE2PA (PA2PTE pa .| perm .| PTE_V) = pa.
Proof. intros (Ha & Hlo & Hhi) Hp. rewrite <- Z.lor_assoc. apply PTE2PA_PA2PTE; [klia|done|done]. Qed.

(** A page of code is mapped to the frame of the parent. *)
Lemma map_code t l sh own vis D regs va w0 :
  forked t l sh own vis D regs -> va mod PGSIZE = 0 -> 0 <= va -> va + PGSIZE <= DRAM_BASE -> (forall v, on_page va v -> ~ D v) ->
  xlate (mem t0) ppt va = Some w0 -> (2 <= length l)%nat ->
  exists t' l', user_vm_map cpt va PGSIZE (PTE2PA w0) code_perm t = Ret tt t' /\
    forked t' l' sh own vis (fun v => D v \/ on_page va v) regs /\ (length l <= length l' + 2)%nat.
Proof.
  intros Hd Ha H0 Hm HD E0 Hl. pose proof (fd_fork _ _ _ _ _ _ _ Hd) as Hf. assert (Hva : 0 <= va < DRAM_BASE) by klia.
  destruct (parent_frame va w0 Hva E0) as (_ & _ & _ & Htp & Hold & _).
  assert (Hcn : xlate (mem t) cpt va = None) by (by apply (fd_view _ _ _ _ _ _ _ Hd); [|apply HD]).
  destruct (map_step t0 l0 ppt Hstart t l sh cpt own va (PTE2PA w0) code_perm Hf Ha H0) as (t' & l' & E & Hf' & Hl' & Hw & Hx);
    [unfold MAXVA; klia|destruct Htp as (? & ? & ?); klia|done|done|].
  exists t', l'. split; [done|]. split; [|done]. pose proof (entry_frame (PTE2PA w0) code_perm Htp ltac:(by vm_compute)) as Hef.
  eapply (forked_map t l sh own vis D regs Hd); [exact Hf'|done|done|apply (fd_vis _ _ _ _ _ _ _ Hd)|exact Hw|done|done|exact Hx|].
  intros v Hv. unfold sees. destruct (xlate (mem t0) ppt v) as [w1|] eqn:E1.
  - rewrite (same_frame v w1 va w0 Hv E1 E0). eexists. split; [rewrite Hx by (unfold on_page, MAXVA in *; klia); by rewrite decide_True|].
    rewrite Hef. split; [right; split; [done|rewrite <- Z.lor_assoc; by apply read_only]|]. intros o Ho _. by apply (old_word _ _ _ _ _ (fa_grown _ _ _ _ _ _ _ _ Hf')).
  - unfold on_page, xlate in *. rewrite (leaf_same_page _ _ _ _ Hv), E0 in E1. done.
Qed.

#[local] Opaque copied.

(** A page of data is copied. *)
Lemma copy_page t q l sh own vis D regs va w0 :
  forked t (q :: l) sh own vis D regs -> va mod PGSIZE = 0 -> 0 <= va -> va + PGSIZE <= DRAM_BASE -> (forall v, on_page va v -> ~ D v) ->
  xlate (mem t0) ppt va = Some w0 -> (2 <= length l)%nat ->
  exists t1 t2 t' l', alloc_page t = Ret q t1 /\ memcpy_words 512 q (PTE2PA w0) t1 = Ret tt t2 /\
    user_vm_map cpt va PGSIZE q data_perm t2 = Ret tt t' /\
    forked t' l' sh (q :: own) (q :: vis) (fun v => D v \/ on_page va v) regs /\ (length l <= length l' + 2)%nat.
Proof.
  intros Hd Ha H0 Hm HD E0 Hl. pose proof (fd_fork _ _ _ _ _ _ _ Hd) as Hf. assert (Hva : 0 <= va < DRAM_BASE) by klia.
  destruct (parent_frame va w0 Hva E0) as (_ & _ & _ & Htp & Hold & _).
  destruct (alloc_step t0 l0 ppt Hstart _ _ _ _ _ _ Hf) as (E1 & Hf1 & Hq).
  assert (Hm1 : mem (alloc_result t q) = mem t) by reflexivity. set (t1 := alloc_result t q) in *. clearbody t1.
  assert (Ho : only [q] (mem t1) (copied 512 q (PTE2PA w0) (mem t1))).
  { intros a Hna. apply rd_copied_out. specialize (Hna q ltac:(by left)). unfold in_page in Hna. klia. }
  assert (Hqn : q ∉ own).
  { pose proof (ch_nodup _ _ _ _ _ (fa_child _ _ _ _ _ _ _ _ Hf1)) as Hn. by apply list.NoDup_cons in Hn as [? _]. }
  assert (Hneq : PTE2PA w0 <> q).
  { intros Eq. destruct (ch_private _ _ _ _ _ _ _ _ Hf1 q ltac:(by left)) as [_ Hq0]. destruct Hold as (_ & Hnl & _). rewrite Eq in Hnl. exact (Hnl Hq0). }
  assert (Hcp : forall o, 0 <= o < PGSIZE -> o mod 8 = 0 -> rd (copied 512 q (PTE2PA w0) (mem t1)) (q + o) = rd (mem t0) (PTE2PA w0 + o)).
  { intros o Ho' H8. replace o with (8 * (o / 8)) by klia. rewrite rd_copied_in by (destruct Hq as (? & _), Htp as (? & _); klia).
    apply (old_word _ _ _ _ _ (fa_grown _ _ _ _ _ _ _ _ Hf1) Hold). klia. }
  destruct (fork_only _ _ _ Hstart _ _ _ _ _ Hf1 [q] _ ltac:(intros p ->%list_elem_of_singleton; by left) Ho) as [Hf2 X2].
  assert (Ec : memcpy_words 512 q (PTE2PA w0) t1 = Ret tt (set_mem (copied 512 q (PTE2PA w0) (mem t1)) t1)).
  { apply memcpy_words_run; [exact (words_ok q 512 Hq ltac:(lia))|exact (words_ok _ 512 Htp ltac:(lia))]. }
  set (m2 := copied 512 q (PTE2PA w0) (mem t1)) in *. clearbody m2.
  assert (Hcn : xlate m2 cpt va = None) by (rewrite X2, Hm1; by apply (fd_view _ _ _ _ _ _ _ Hd); [|apply HD]).
  destruct (map_step t0 l0 ppt Hstart (set_mem m2 t1) l sh cpt (q :: own) va q data_perm Hf2 Ha H0) as (t' & l' & E & Hf' & Hl' & Hw & Hx);
    [unfold MAXVA; klia|destruct Hq as (? & ? & ?); klia|done|done|].
  assert (Hkeep : forall p o, p ∈ own -> 0 <= o < PGSIZE -> rd (mem t') (p + o) = rd (mem t) (p + o)).
  { intros p o Hp Ho'. assert (Hp' : p ∈ q :: own) by (by right). rewrite (Hw p o Hp' Ho'), <- Hm1.
    apply (only_page [q] (mem t1) _ p o Ho); [by constructor| | |exact Ho'].
    - destruct (fd_private _ _ _ _ _ _ _ Hd p Hp) as [(Hpp & _) _]. exact Hpp.
    - intros Eq%list_elem_of_singleton. rewrite Eq in Hp. exact (Hqn Hp). }
  exists t1, (set_mem m2 t1), t', l'. split; [exact E1|]. split; [exact Ec|]. split; [exact E|]. split; [|exact Hl'].
  pose proof (entry_frame q data_perm Hq ltac:(by vm_compute)) as Hef. destruct (fd_own _ _ _ _ _ _ _ Hd) as (Htf & Hmi & _).
  eapply (forked_map t (q :: l) sh own vis D regs Hd); [exact Hf'|by right|by right| |exact Hkeep|done|done| |].
  - intros p [->|Hp]%elem_of_cons; [|destruct (fd_vis _ _ _ _ _ _ _ Hd p Hp) as (? & ? & ?); split; [by right|done]].
    split; [by left|]. split; intros Eq; rewrite Eq in Hqn; done.
  - intros v Hv. rewrite Hx by done. destruct (decide _); [reflexivity|]. cbn [mem set_mem]. by rewrite X2, Hm1.
  - intros v Hv. unfold sees. destruct (xlate (mem t0) ppt v) as [w1|] eqn:E1'.
    + rewrite (same_frame v w1 va w0 Hv E1' E0). eexists. split; [rewrite Hx by (unfold on_page, MAXVA in *; klia); by rewrite decide_True|].
      rewrite Hef. split; [left; by left|]. intros o Ho' H8. assert (Hq' : q ∈ q :: own) by (by left). rewrite (Hw q o Hq' Ho'). by apply Hcp.
    + unfold on_page, xlate in *. rewrite (leaf_same_page _ _ _ _ Hv), E0 in E1'. done.
Qed.

Lemma copy_data_run y n : forall t l sh own vis D regs va,
  forked t l sh own vis D regs -> va mod PGSIZE = 0 -> 0 <= va -> va + Z.of_nat n * PGSIZE <= DRAM_BASE ->
  (forall v, va <= v < va + Z.of_nat n * PGSIZE -> ~ D v /\ xlate (mem t0) ppt v <> None) -> (3 * n <= length l)%nat ->
  exists t' l' own' vis', copy_data n tp ppt cpt va (cst y t) = Ret tt (cst y t') /\
    forked t' l' sh own' vis' (fun v => D v \/ va <= v < va + Z.of_nat n * PGSIZE) regs /\ (length l <= length l' + 3 * n)%nat.
Proof.
  induction n as [|n IH]; intros t l sh own vis D regs va Hd Ha H0 Hm HD Hl.
  - exists t, l, own, vis. split; [done|]. split; [|lia]. apply (forked_none t l sh own vis D regs Hd); [by left|]. intros v Hv [?|?]; [by left|lia].
  - cbn [copy_data]. destruct l as [|q l]; [cbn in Hl; lia|]. cbn [length] in Hl.
    assert (Hpage : forall v, on_page va v <-> va <= v < va + PGSIZE) by (intros v; unfold on_page; klia).
    destruct (xlate (mem t0) ppt va) as [w0|] eqn:E0; [|by destruct (HD va ltac:(klia)) as [_ []]].
    destruct (copy_page t q l sh own vis D regs va w0 Hd) as (ta & tc & t1 & l1 & Ea & Ec & Em & Hd1 & Hl1); [done|done|klia| |done|lia|].
    { intros v Hv%Hpage. apply HD. klia. }
    assert (Hu : u64 (va + PGSIZE) = va + PGSIZE) by klia.
    destruct (IH t1 l1 sh (q :: own) (q :: vis) _ regs (va + PGSIZE) Hd1) as (t2 & l2 & own2 & vis2 & E2 & Hd2 & Hl2); [klia|klia|klia| |lia|].
    { intros v Hv. destruct (HD v ltac:(klia)) as [H1 H2]. split; [|done]. intros [?|Hp%Hpage]; [done|lia]. }
    exists t2, l2, own2, vis2. split; [|split; [|cbn [length]; lia]].
    + pose proof (parent_lookup t _ sh va (fa_grown _ _ _ _ _ _ _ _ (fd_fork _ _ _ _ _ _ _ Hd)) ltac:(klia)) as El. rewrite E0 in El.
      step_by ltac:(apply cst_pm; exact El). step_by ltac:(apply cst_pm; exact Ea). step_by ltac:(apply cst_pm; exact Ec).
      fold data_perm. step_by ltac:(apply cst_vm; exact Em). rewrite Hu. exact E2.
    + destruct Hd2 as [A1 A2 A3 A4 A5 A6 A7 A8]. split; try done. eapply view_sub; [done| |exact A4]. intros v Hv. cbv beta. rewrite Hpage. split.
      * intros [[?|?]|?]; [by left|right; klia|right; klia].
      * intros [?|?]; [by left; left|]. destruct (decide (v < va + PGSIZE)); [left; right; lia|right; klia].
Qed.

(** ** The regions of the parent *)

Variables (par : nat) (x : process) (pregs : list (Z * Z * Z)).
Hypothesis Hne : par <> c.
Hypothesis Hx : procs s0 !! par = Some x.
Hypothesis Hpt : pagetable x = ppt.
Hypothesis Hptf : trapframe x = ptf /\ private t0 l0 ppt ptf.
Hypothesis Hpmi : private t0 l0 ppt (mapped_info x).
Hypothesis Hpregs : (length pregs <= 256)%nat /\
  forall i va np seg, pregs !! i = Some (va, np, seg) -> region_is (mem t0) (mapped_info x) (Z.of_nat i) va np seg /\ 0 <= np < 4294967296.

Lemma private_old p : private t0 l0 ppt p -> old_page p.
Proof. intros ((? & _) & ? & ?). done. Qed.

Lemma parent_region t l sh i va np seg :
  grown t0 l0 ppt t l sh -> pregs !! i = Some (va, np, seg) ->
  load (region (mapped_info x) (Z.of_nat i)) t = Ret va t /\ load32 (region (mapped_info x) (Z.of_nat i) + 8) t = Ret np t /\
  load32 (region (mapped_info x) (Z.of_nat i) + 12) t = Ret seg t.
Proof.
  intros Hg Hi. destruct Hpregs as [Hlen Hr]. destruct (Hr i va np seg Hi) as [Hri Hnp]. pose proof (lookup_lt_Some _ _ _ Hi) as Hilt.
  apply (region_loads (mem t)); [done| |apply Hpmi|lia|done].
  eapply region_same; [|lia|exact Hri]. intros o Ho. apply (old_word t l sh); [done|by apply private_old|done].
Qed.

(** The start of [fork_region], which reads the type of the region. *)
Ltac region_case E :=
  step_by ltac:(apply cst_get_other; [exact Hne|exact Hx]); step_by ltac:(apply cst_get; exact Hlt); step_by ltac:(apply cst_pm; exact E).

(** The page of the stack is copied to the frame [us] of the child. *)
Lemma fork_stack stale y t l own us va np w0 :
  fork_at t l [] cpt own -> us ∈ own -> mapped_info y = mi -> pagetable y = cpt -> table_page mi ->
  region_is (mem t) mi STACK_SEGMENT STACK_VA 1 STACK_SEGMENT -> pregs !! 0%nat = Some (va, np, STACK_SEGMENT) -> va = STACK_VA ->
  xlate (mem t) cpt STACK_VA = Some (user_rw us) -> xlate (mem t0) ppt STACK_VA = Some w0 ->
  exists m', fork_region tp stale par c 0 (cst y t) = Ret tt (cst y (set_mem m' t)) /\ only [us] (mem t) m' /\
    (forall o, 0 <= o < PGSIZE -> o mod 8 = 0 -> rd m' (us + o) = rd (mem t0) (PTE2PA w0 + o)).
Proof.
  intros Hf Hus Emi Ept Hmp Hr0 Hp0 -> Hc0 E0. pose proof (fa_grown _ _ _ _ _ _ _ _ Hf) as Hg.
  destruct (ch_private _ _ _ _ _ _ _ _ Hf us Hus) as [(Hup & Hul & _) Hu0]. destruct (user_rw_facts us Hup) as (HR & _ & Hpa).
  destruct (parent_frame STACK_VA w0 ltac:(by vm_compute) E0) as (_ & _ & _ & Htp & Hold & _).
  destruct (parent_region _ _ _ _ _ _ _ Hg Hp0) as (Eva & _ & Eseg).
  destruct (region_loads (mem t) mi STACK_SEGMENT STACK_VA 1 STACK_SEGMENT t eq_refl Hr0 Hmp) as (Ecva & _ & _); [done|done|].
  pose proof (parent_lookup t l [] STACK_VA Hg ltac:(by vm_compute)) as Esrc. rewrite E0 in Esrc.
  assert (Edst : lookup_pa cpt STACK_VA t = Ret us t).
  { rewrite lookup_pa_run; [|apply (ch_vm _ _ _ _ _ (fa_child _ _ _ _ _ _ _ _ Hf))|by vm_compute]. rewrite Hc0, HR, Hpa. done. }
  assert (Hneq : PTE2PA w0 <> us) by (intros Eq; destruct Hold as (_ & Hnl & _); rewrite Eq in Hnl; done).
  exists (copied 512 us (PTE2PA w0) (mem t)). split; [|split].
  - unfold fork_region. region_case Eseg. cbn [Z.eqb STACK_SEGMENT CONTEXT_SEGMENT].
    rewrite Emi, Ept, Hpt. step_by ltac:(apply cst_pm; exact Ecva). step_by ltac:(apply cst_pm; exact Edst). step_by ltac:(apply cst_pm; exact Eva).
    step_by ltac:(apply cst_pm; exact Esrc). apply cst_pm, memcpy_words_run; [exact (words_ok us 512 Hup ltac:(lia))|exact (words_ok _ 512 Htp ltac:(lia))].
  - intros a Hna. apply rd_copied_out. specialize (Hna us ltac:(by left)). unfold in_page in Hna. klia.
  - intros o Ho H8. replace o with (8 * (o / 8)) by klia. rewrite rd_copied_in by (destruct Hup as (? & _), Htp as (? & _); klia).
    apply (old_word _ _ _ _ _ Hg Hold). klia.
Qed.

(** The registers of the parent are copied to the trapframe of the child. *)
Lemma fork_context stale y t l own va np :
  fork_at t l [] cpt own -> tf ∈ own -> trapframe y = tf -> pregs !! 1%nat = Some (va, np, CONTEXT_SEGMENT) ->
  exists m', fork_region tp stale par c 1 (cst y t) = Ret tt (cst y (set_mem m' t)) /\ only [tf] (mem t) m' /\
    (forall o, 0 <= o < sizeof_trapframe -> o mod 8 = 0 -> rd m' (tf + o) = rd (mem t0) (ptf + o)).
Proof.
  intros Hf Htf Etf Hp1. pose proof (fa_grown _ _ _ _ _ _ _ _ Hf) as Hg. destruct Hptf as [Eptf Hpv]. pose proof Hpv as (Hpp & _).
  destruct (parent_region _ _ _ _ _ _ _ Hg Hp1) as (_ & _ & Eseg).
  destruct (ch_private _ _ _ _ _ _ _ _ Hf tf Htf) as [(Hup & Hul & _) Hu0].
  assert (Hneq : ptf <> tf) by (intros Eq; destruct Hpv as (_ & Hnl & _); rewrite Eq in Hnl; done).
  exists (copied 35 tf ptf (mem t)). split; [|split].
  - unfold fork_region. region_case Eseg. cbn [Z.eqb Pos.eqb CONTEXT_SEGMENT].
    rewrite Etf, Eptf. apply cst_pm, memcpy_words_run; [exact (words_ok tf 35 Hup ltac:(lia))|exact (words_ok _ 35 Hpp ltac:(lia))].
  - intros a Hna. apply rd_copied_out. specialize (Hna tf ltac:(by left)). unfold in_page in Hna. klia.
  - unfold sizeof_trapframe. intros o Ho H8. replace o with (8 * (o / 8)) by klia. rewrite rd_copied_in by (destruct Hup as (? & _), Hpp as (? & _); klia).
    apply (old_word _ _ _ _ _ Hg (private_old _ Hpv)). klia.
Qed.

Definition first_regions (np : Z) : list (Z * Z * Z) :=
  [(STACK_VA, 1, STACK_SEGMENT); (tf, 1, CONTEXT_SEGMENT); (trap_sec_start, 1, SYSTEM_SEGMENT); (USER_FREE_ADDRESS_START, np, HEAP_SEGMENT)].

Lemma first_regions_is m np : basic_regions m mi tf np -> forall i va k seg, first_regions np !! i = Some (va, k, seg) -> region_is m mi (Z.of_nat i) va k seg.
Proof.
  intros (R0 & R1 & R2 & R3) i va k seg Hi. unfold first_regions in Hi.
  destruct i as [|[|[|[|i]]]]; cbn in Hi; [| | | |done]; injection Hi as <- <- <-; assumption.
Qed.

(** The stack and the registers: the first two regions. *)
Lemma fork_begin stale y t l own us w0 ptfva npt :
  fork_at t l [] cpt own -> tf ∈ own -> mi ∈ own -> us ∈ own -> tf <> mi /\ tf <> us /\ mi <> us ->
  mapped_info y = mi -> trapframe y = tf -> pagetable y = cpt -> basic_regions (mem t) mi tf 0 ->
  (forall v, 0 <= v < DRAM_BASE -> xlate (mem t) cpt v = if decide (v / PGSIZE = STACK_VA / PGSIZE) then Some (user_rw us) else None) ->
  (forall v, DRAM_BASE <= v < MAXVA -> xlate (mem t) cpt v = K v) ->
  pregs !! 0%nat = Some (STACK_VA, 1, STACK_SEGMENT) -> pregs !! 1%nat = Some (ptfva, npt, CONTEXT_SEGMENT) -> xlate (mem t0) ppt STACK_VA = Some w0 ->
  exists t1 t2, fork_region tp stale par c 0 (cst y t) = Ret tt (cst y t1) /\ fork_region tp stale par c 1 (cst y t1) = Ret tt (cst y t2) /\
    forked t2 l [] own [us] (on_page STACK_VA) (first_regions 0).
Proof.
  intros Hf Htf Hmi Hus (N1 & N2 & N3) Emi Etf Ept Hr Hlow Hhigh Hp0 Hp1 E0.
  assert (Hpg : forall p, p ∈ own -> table_page p) by (intros p Hp; by destruct (ch_private _ _ _ _ _ _ _ _ Hf p Hp) as [(? & _) _]).
  assert (Hsv : 0 <= STACK_VA < DRAM_BASE) by (by vm_compute).
  destruct (fork_stack stale y t l own us STACK_VA 1 w0 Hf Hus Emi Ept (Hpg mi Hmi)) as (m1 & E1 & O1 & C1); [apply Hr|done|done|rewrite Hlow by done; by rewrite decide_True|done|].
  destruct (fork_only _ _ _ Hstart _ _ _ _ _ Hf [us] m1) as [Hf1 X1]; [by intros p ->%list_elem_of_singleton|done|].
  destruct (fork_context stale y (set_mem m1 t) l own ptfva npt Hf1 Htf Etf Hp1) as (m2 & E2 & O2 & C2).
  destruct (fork_only _ _ _ Hstart _ _ _ _ _ Hf1 [tf] m2) as [Hf2 X2]; [by intros p ->%list_elem_of_singleton|done|].
  assert (P1 : Forall table_page [us]) by (constructor; auto). assert (P2 : Forall table_page [tf]) by (constructor; auto).
  assert (Hus2 : forall o, 0 <= o < PGSIZE -> rd m2 (us + o) = rd m1 (us + o)).
  { intros o Ho. apply (only_page [tf] m1 m2 us o O2); [done|auto| |done]. intros Eq%list_elem_of_singleton. by symmetry in Eq. }
  assert (Hmi2 : forall o, 0 <= o < PGSIZE -> rd m2 (mi + o) = rd (mem t) (mi + o)).
  { intros o Ho. transitivity (rd m1 (mi + o)).
    - apply (only_page [tf] m1 m2 mi o O2); [done|auto| |done]. intros Eq%list_elem_of_singleton. by symmetry in Eq.
    - apply (only_page [us] (mem t) m1 mi o O1); [done|auto| |done]. by intros Eq%list_elem_of_singleton. }
  assert (X : forall v, xlate m2 cpt v = xlate (mem t) cpt v) by (intros v; rewrite X2; apply X1).
  destruct (user_rw_facts us (Hpg us Hus)) as (_ & _ & Hpa).
  exists (set_mem m1 t), (set_mem m2 t). split; [done|]. split; [exact E2|]. split.
  - exact Hf2.
  - done.
  - intros p ->%list_elem_of_singleton. split; [done|]. split; intros Eq; by symmetry in Eq.
  - intros v Hv. cbn [mem set_mem]. rewrite X, Hlow by done. split.
    + intros HD. unfold on_page in HD. unfold sees. cbn [mem set_mem]. rewrite X, Hlow by done. rewrite decide_True by done.
      assert (Hw : xlate (mem t0) ppt v = Some w0) by (unfold xlate in *; by rewrite (leaf_same_page _ _ _ _ HD)). rewrite Hw.
      exists (user_rw us). split; [done|]. rewrite Hpa. split; [left; by left|]. intros o Ho H8. rewrite Hus2 by done. by apply C1.
    + intros HD. by rewrite decide_False.
  - intros v Hv. cbn [mem set_mem]. rewrite X. by apply Hhigh.
  - exact C2.
  - intros i va k seg Hi. pose proof (lookup_lt_Some _ _ _ Hi) as Hil. cbn in Hil.
    eapply region_same; [exact Hmi2|lia|]. by apply (first_regions_is (mem t) 0 Hr).
  - cbn. lia.
Qed.

(** ** The heap region *)

Lemma mark_free_run bottom l : forall f s,
  Forall (fun a => bottom <= a < bottom + Z.of_nat MAX_HEAP_PAGES * PGSIZE /\ a mod PGSIZE = 0) l -> 0 <= bottom -> bottom mod PGSIZE = 0 ->
  length f = MAX_HEAP_PAGES ->
  exists f', mark_free l bottom f s = Ret f' s /\ length f' = MAX_HEAP_PAGES /\
    (forall i b, f' !! i = Some b -> b <> 0 -> f !! i = Some b \/ bottom + Z.of_nat i * PGSIZE ∈ l) /\
    (forall i, f' !! i = Some 0 -> f !! i = Some 0).
Proof.
  induction l as [|a l IH]; intros f s Hl Hb Hba Hf; cbn [mark_free].
  - exists f. split; [done|]. split; [done|]. split; [by left|done].
  - apply list.Forall_cons in Hl as [[Ha1 Ha2] Hl]. unfold MAX_HEAP_PAGES in Ha1. set (i := (a - bottom) / PGSIZE).
    assert (Hi : 0 <= i < 32 /\ a = bottom + i * PGSIZE) by (unfold i; klia).
    assert (Hix : i32 (u64 (a - bottom) / PGSIZE) = i) by (replace (u64 (a - bottom)) with (a - bottom) by klia; fold i; apply i32_small; lia).
    rewrite Hix. unfold filter_set. replace ((0 <=? i) && (i <? Z.of_nat MAX_HEAP_PAGES)) with true
      by (symmetry; unfold MAX_HEAP_PAGES; apply andb_true_iff; rewrite Z.leb_le, Z.ltb_lt; lia).
    step_by ltac:(reflexivity). destruct (IH (<[Z.to_nat i := 1]> f) s Hl Hb Hba) as (f' & E & Hlen & Hk & Hz); [by rewrite length_insert|].
    exists f'. split; [done|]. split; [done|]. split; [|intros j Hj; apply Hz, list_lookup_insert_Some in Hj as [(_ & ? & _)|[_ Hj]]; done]. intros j b Hj Hnz. destruct (Hk j b Hj Hnz) as [Hj'|Hj']; [|right; by right].
    destruct (decide (j = Z.to_nat i)) as [->|Hji].
    + right. apply elem_of_cons. left. rewrite Z2Nat.id by lia. symmetry. apply Hi.
    + left. by rewrite list_lookup_insert_ne in Hj' by done.
Qed.

(** What [memset] does not clear of the array: from entry 8 on it holds what the
    stack held before.  The page of a nonzero entry is lost. *)
Definition lost (stale : list Z) (i : nat) : Prop := (8 <= i)%nat /\ exists b, stale !! i = Some b /\ b <> 0.

(** The heap of the parent; the array has 32 entries. *)
Record heap_ok (stale : list Z) : Prop := {
  hk_stale : length stale = MAX_HEAP_PAGES;
  hk_bottom : heap_bottom (user_heap x) = USER_FREE_ADDRESS_START;
  hk_top : USER_FREE_ADDRESS_START <= heap_top (user_heap x) <= USER_FREE_ADDRESS_START + Z.of_nat MAX_HEAP_PAGES * PGSIZE;
  hk_count : 0 <= free_pages_count (user_heap x) <= Z.of_nat MAX_HEAP_PAGES;
  hk_free : Forall (fun a => USER_FREE_ADDRESS_START <= a < USER_FREE_ADDRESS_START + Z.of_nat MAX_HEAP_PAGES * PGSIZE /\ a mod PGSIZE = 0 /\
                             xlate (mem t0) ppt a = None)
              (take (Z.to_nat (free_pages_count (user_heap x))) (free_pages_address (user_heap x)))
}.

Definition heap_size : nat := heap_pages USER_FREE_ADDRESS_START (heap_top (user_heap x)).
Definition in_heap (v : Z) : Prop := USER_FREE_ADDRESS_START <= v < USER_FREE_ADDRESS_START + Z.of_nat heap_size * PGSIZE.

(** The addresses of the heap that the child gets. *)
Definition heap_kept (stale : list Z) (v : Z) : Prop :=
  in_heap v /\ ~ lost stale (Z.to_nat ((v - USER_FREE_ADDRESS_START) / PGSIZE)).

Lemma filter_lookup stale i b : filter_init stale !! i = Some b -> (i < 8)%nat /\ b = 0 \/ (8 <= i)%nat /\ stale !! i = Some b.
Proof.
  unfold filter_init. destruct (decide (i < 8)%nat) as [Hi|Hi].
  - rewrite lookup_app_l by (rewrite length_replicate; lia). intros [-> _]%lookup_replicate. by left.
  - rewrite lookup_app_r by (rewrite length_replicate; lia). rewrite length_replicate, lookup_drop. intros Hb. right. split; [lia|].
    by replace (8 + (i - 8))%nat with i in Hb by lia.
Qed.

(** [child->mapped_info[HEAP_SEGMENT].npages = np] *)
Lemma heap_count_run t l sh own vis D regs np np0 :
  forked t l sh own vis D (first_regions np0 ++ regs) -> 0 <= np < 4294967296 -> 0 <= np0 < 4294967296 ->
  exists t', store32 (region mi HEAP_SEGMENT + 8) np t = Ret tt t' /\ forked t' l sh own vis D (first_regions np ++ regs).
Proof.
  intros Hd Hnp Hnp0. destruct (fd_own _ _ _ _ _ _ _ Hd) as (_ & Hmi & _). destruct (fd_private _ _ _ _ _ _ _ Hd mi Hmi) as [(Hmp & _) _].
  assert (Hr : region mi HEAP_SEGMENT + 8 = mi + 56) by (unfold region, HEAP_SEGMENT; lia).
  destruct (fd_regs _ _ _ _ _ _ _ Hd 3 _ _ _ eq_refl) as [Hv Hw]. change (Z.of_nat 3) with HEAP_SEGMENT in Hv, Hw. rewrite Hr in Hw.
  eexists. split; [rewrite Hr; apply store32_at; done|]. apply (forked_mi t l sh own vis D (first_regions np0 ++ regs)); [done|by apply only_one|apply (fd_few _ _ _ _ _ _ _ Hd)|].
  assert (Hk : forall a, a <> mi + 56 -> rd (<[mi + 56 := rd (mem t) (mi + 56) / 4294967296 * 4294967296 + u32 np]> (mem t)) a = rd (mem t) a)
    by (intros a Ha; by apply rd_insert_ne).
  intros i va k seg Hi. destruct (decide (i = 3%nat)) as [->|Hi3].
  - cbn in Hi. injection Hi as <- <- <-. split.
    + change (Z.of_nat 3) with HEAP_SEGMENT. rewrite Hk by (unfold region, HEAP_SEGMENT; lia). done.
    + change (Z.of_nat 3) with HEAP_SEGMENT. rewrite Hr, rd_insert_eq, Hw. unfold HEAP_SEGMENT. klia.
  - assert (Hi' : (first_regions np0 ++ regs) !! i = Some (va, k, seg)) by (destruct i as [|[|[|[|i]]]]; done).
    destruct (fd_regs _ _ _ _ _ _ _ Hd i _ _ _ Hi') as [H1 H2]. split; rewrite Hk; [done|unfold region; lia|done|unfold region; lia].
Qed.

Hypothesis Hcur : current s0 !! tp = Some (Some par).

(** The whole heap. *)
Lemma fork_heap_run stale y t l own vis D hv np :
  heap_ok stale -> forked t l [] own vis D (first_regions 0) -> mapped_info y = mi -> pagetable y = cpt ->
  pregs !! 3%nat = Some (hv, np, HEAP_SEGMENT) -> (forall v, in_heap v -> ~ D v) -> (2 * heap_size <= length l)%nat ->
  exists t' l' sh', fork_region tp stale par c 3 (cst y t) = Ret tt (cst (set_user_heap (user_heap x) y) t') /\
    forked t' l' sh' own vis (fun v => D v \/ heap_kept stale v) (first_regions np) /\ (length l <= length l' + 2 * heap_size)%nat.
Proof.
  intros Hh Hd Emi Ept Hp3 HD Hl. destruct Hh as [Hs1 Hb Ht Hc Hfree]. unfold MAX_HEAP_PAGES in *.
  destruct Hpregs as [_ Hpr]. destruct (Hpr 3%nat _ _ _ Hp3) as [_ Hnp].
  destruct (mark_free_run USER_FREE_ADDRESS_START (take (Z.to_nat (free_pages_count (user_heap x))) (free_pages_address (user_heap x)))
    (filter_init stale) (cst y t)) as (f & Ef & Hlf & Hf & Hfz).
  { eapply list.Forall_impl; [exact Hfree|]. unfold MAX_HEAP_PAGES. intros a (? & ? & _). done. } { by vm_compute. } { by vm_compute. }
  { unfold filter_init, MAX_HEAP_PAGES. rewrite length_app, length_replicate, length_drop, Hs1. done. }
  assert (Hsz : Z.of_nat heap_size <= 32) by (unfold heap_size, heap_pages; klia).
  destruct (share_heap_run y USER_FREE_ADDRESS_START f (lost stale) heap_size t l [] own vis D (first_regions 0) USER_FREE_ADDRESS_START Hd)
    as (t1 & l1 & sh1 & E1 & Hd1 & Hl1); try done.
  { unfold USER_FREE_ADDRESS_START. klia. }
  { replace (USER_FREE_ADDRESS_START - USER_FREE_ADDRESS_START) with 0 by lia. rewrite Hlf. unfold MAX_HEAP_PAGES. change (0 / PGSIZE) with 0. lia. }
  { intros i b Hi Hnz. destruct (Hf i b Hi Hnz) as [Hi'|Hi'].
    - left. destruct (filter_lookup _ _ _ Hi') as [[_ ?]|[? ?]]; [done|]. split; [done|]. by exists b.
    - right. rewrite list.Forall_forall in Hfree. by apply Hfree. }
  { intros i Hi%Hfz [H8 (b & Hb' & Hnz)]. destruct (filter_lookup _ _ _ Hi) as [[? _]|[_ Hs]]; [lia|congruence]. }
  { intros p Hp. by apply elem_of_nil in Hp. }
  pose proof (fa_grown _ _ _ _ _ _ _ _ (fd_fork _ _ _ _ _ _ _ Hd)) as Hg. destruct (parent_region _ _ _ _ _ _ _ Hg Hp3) as (_ & _ & Eseg).
  pose proof (fa_grown _ _ _ _ _ _ _ _ (fd_fork _ _ _ _ _ _ _ Hd1)) as Hg1. destruct (parent_region _ _ _ _ _ _ _ Hg1 Hp3) as (_ & Enp & _).
  rewrite <- (app_nil_r (first_regions 0)) in Hd1. destruct (heap_count_run _ _ _ _ _ _ _ np 0 Hd1) as (t2 & E2 & Hd2); [done|done|]. rewrite app_nil_r in Hd2.
  exists t2, l1, sh1. split; [|split; [exact Hd2|done]].
  unfold fork_region. region_case Eseg. cbn [Z.eqb Pos.eqb HEAP_SEGMENT CONTEXT_SEGMENT STACK_SEGMENT].
  unfold fork_heap. step_by ltac:(apply cst_get_other; [exact Hne|exact Hx]). step_by ltac:(apply cst_get; exact Hlt).
  unfold check. rewrite (proj2 (Z.ltb_ge _ _)) by (unfold MAX_HEAP_PAGES; lia). step_by ltac:(reflexivity). rewrite Hb.
  step_by ltac:(exact Ef). step_by ltac:(apply self_run; exact Hcur). step_by ltac:(apply cst_get_other; [exact Hne|exact Hx]).
  rewrite Hb, Hpt, Ept. fold heap_size. step_by ltac:(exact E1). step_by ltac:(apply cst_pm; exact Enp). rewrite Emi.
  step_by ltac:(apply cst_pm; exact E2). step_by ltac:(apply cst_get_other; [exact Hne|exact Hx]). by apply cst_upd.
Qed.

(** ** Code and data *)

Definition in_seg (r : Z * Z * Z) (v : Z) : Prop := r.1.1 <= v < r.1.1 + r.1.2 * PGSIZE.
(** A region of the program: below the heap, mapped by the parent; one page when it is code. *)
Record seg_ok (r : Z * Z * Z) : Prop := {
  sg_align : r.1.1 mod PGSIZE = 0 /\ 0 <= r.1.1 /\ 0 <= r.1.2;
  sg_low : r.1.1 + r.1.2 * PGSIZE <= USER_FREE_ADDRESS_START;
  sg_kind : r.2 = DATA_SEGMENT \/ (r.2 = CODE_SEGMENT /\ r.1.2 = 1);
  sg_mapped : forall v, in_seg r v -> xlate (mem t0) ppt v <> None
}.

Definition child_fields (y : process) (n : nat) : Prop :=
  mapped_info y = mi /\ trapframe y = tf /\ pagetable y = cpt /\ total_mapped_region y = Z.of_nat n.

Section Segment.
Variables (stale : list Z) (y : process) (t : pstate) (l sh own vis : list Z) (D : Z -> Prop) (regs : list (Z * Z * Z)) (i : nat) (va np seg : Z).
Hypothesis Hd : forked t l sh own vis D regs.
Hypothesis Hy : child_fields y (length regs).
Hypothesis Hlen : (length regs < 256)%nat.
Hypothesis Hi : pregs !! i = Some (va, np, seg).
Hypothesis Hseg : seg_ok (va, np, seg).
Hypothesis HD : forall v, in_seg (va, np, seg) v -> ~ D v.
Hypothesis Hl : (3 * Z.to_nat np <= length l)%nat.

Definition seg_result : Prop :=
  exists t' l' own' vis', fork_region tp stale par c i (cst y t) =
      Ret tt (cst (set_total_mapped_region (Z.of_nat (length (regs ++ [(va, np, seg)]))) y) t') /\
    forked t' l' sh own' vis' (fun v => D v \/ in_seg (va, np, seg) v) (regs ++ [(va, np, seg)]) /\ (length l <= length l' + 3 * Z.to_nat np)%nat.

Lemma seg_loads : load (region (mapped_info x) (Z.of_nat i)) t = Ret va t /\ load32 (region (mapped_info x) (Z.of_nat i) + 8) t = Ret np t /\
  load32 (region (mapped_info x) (Z.of_nat i) + 12) t = Ret seg t.
Proof. exact (parent_region _ _ _ _ _ _ _ (fa_grown _ _ _ _ _ _ _ _ (fd_fork _ _ _ _ _ _ _ Hd)) Hi). Qed.

Lemma code_run : seg = CODE_SEGMENT -> np = 1 -> seg_result.
Proof.
  intros Es En. destruct Hy as (Emi & Etf & Ept & Etot). destruct seg_loads as (Eva & Enp & Eseg). destruct Hseg as [(Ha & H0 & _) Hlow _ Hmap].
  pose proof HD as HD1. pose proof Hl as Hl'. unfold in_seg, USER_FREE_ADDRESS_START in Ha, H0, Hlow, Hmap, HD1. cbn [fst snd] in Ha, H0, Hlow, Hmap, HD1.
  rewrite En in Hlow, Hmap, HD1, Enp, Hl'.
  assert (Hpage : forall v, on_page va v <-> va <= v < va + 1 * PGSIZE) by (intros v; unfold on_page; klia).
  destruct (xlate (mem t0) ppt va) as [w0|] eqn:E0; [|by destruct (Hmap va ltac:(klia))].
  pose proof (parent_lookup t l sh va (fa_grown _ _ _ _ _ _ _ _ (fd_fork _ _ _ _ _ _ _ Hd)) ltac:(klia)) as El. rewrite E0 in El.
  destruct (map_code t l sh own vis D regs va w0 Hd) as (t1 & l1 & E1 & Hd1 & Hl1); [done|done|klia|intros v Hv%Hpage; by apply HD1|done|cbn in Hl'; lia|].
  destruct (register_run y t1 l1 sh own vis _ regs va 1 CODE_SEGMENT Hd1 Emi Etot Hlen) as (t2 & E2 & Hd2); [done|done|].
  exists t2, l1, own, vis. rewrite Es, En. split; [|split; [|change (Z.to_nat 1) with 1%nat; lia]].
  - unfold fork_region. region_case Eseg. rewrite Es, Hpt, Ept. cbn [Z.eqb Pos.eqb CODE_SEGMENT HEAP_SEGMENT CONTEXT_SEGMENT STACK_SEGMENT].
    step_by ltac:(apply cst_pm; exact Eva). step_by ltac:(apply cst_pm; exact El). step_by ltac:(apply cst_pm; exact Enp).
    fold code_perm. change (u32 (1 * PGSIZE)) with PGSIZE. step_by ltac:(apply cst_vm; exact E1). exact E2.
  - destruct Hd2 as [A1 A2 A3 A4 A5 A6 A7 A8]. split; try done. eapply view_sub; [done| |exact A4]. intros v Hv. cbv beta. by rewrite Hpage.
Qed.

Lemma data_run : seg = DATA_SEGMENT -> seg_result.
Proof.
  intros Es. destruct Hy as (Emi & Etf & Ept & Etot). destruct seg_loads as (Eva & Enp & Eseg). destruct Hseg as [(Ha & H0 & Hn0) Hlow _ Hmap].
  destruct Hpregs as [_ Hpr]. destruct (Hpr i _ _ _ Hi) as [_ Hnp].
  unfold in_seg, USER_FREE_ADDRESS_START in Ha, H0, Hn0, Hlow, Hmap. cbn [fst snd] in Ha, H0, Hn0, Hlow, Hmap.
  assert (Hnn : Z.of_nat (Z.to_nat np) = np) by lia.
  destruct (copy_data_run y (Z.to_nat np) t l sh own vis D regs va Hd) as (t1 & l1 & own1 & vis1 & E1 & Hd1 & Hl1); [done|done|klia| |done|].
  { rewrite Hnn. intros v Hv. split; [by apply HD|by apply Hmap]. }
  rewrite Hnn in Hd1. destruct (register_run y t1 l1 sh own1 vis1 _ regs va np DATA_SEGMENT Hd1 Emi Etot Hlen Hnp) as (t2 & E2 & Hd2); [done|].
  exists t2, l1, own1, vis1. rewrite Es. split; [|split; [exact Hd2|exact Hl1]].
  unfold fork_region. region_case Eseg. rewrite Es, Hpt, Ept. cbn [Z.eqb Pos.eqb DATA_SEGMENT CODE_SEGMENT HEAP_SEGMENT CONTEXT_SEGMENT STACK_SEGMENT].
  step_by ltac:(apply cst_pm; exact Eva). step_by ltac:(apply cst_pm; exact Enp). step_by ltac:(exact E1). exact E2.
Qed.

Lemma seg_run : seg_result.
Proof. destruct (sg_kind _ Hseg) as [?|[? ?]]; [by apply data_run|by apply code_run]. Qed.
End Segment.

(** The pages of all of them. *)
Fixpoint seg_pages (segs : list (Z * Z * Z)) : nat := match segs with [] => 0 | r :: segs' => Z.to_nat r.1.2 + seg_pages segs' end.
Definition in_segs (segs : list (Z * Z * Z)) (v : Z) : Prop := exists r, r ∈ segs /\ in_seg r v.
Fixpoint segs_apart (segs : list (Z * Z * Z)) : Prop :=
  match segs with [] => True | r :: segs' => (forall v, in_seg r v -> ~ in_segs segs' v) /\ segs_apart segs' end.

Lemma set_total_id y n : total_mapped_region y = n -> set_total_mapped_region n y = y.
Proof. intros <-. by destruct y. Qed.

Lemma segs_run stale segs : forall i y t l sh own vis D regs,
  forked t l sh own vis D regs -> child_fields y (length regs) -> (length regs + length segs <= 256)%nat ->
  (forall k r, segs !! k = Some r -> pregs !! (i + k)%nat = Some r) -> Forall seg_ok segs -> segs_apart segs -> (forall v, in_segs segs v -> ~ D v) ->
  (3 * seg_pages segs <= length l)%nat ->
  exists t' l' own' vis', fork_regions (length segs) tp stale par c i (cst y t) = Ret tt (cst (set_total_mapped_region (Z.of_nat (length (regs ++ segs))) y) t') /\
    forked t' l' sh own' vis' (fun v => D v \/ in_segs segs v) (regs ++ segs) /\ (length l <= length l' + 3 * seg_pages segs)%nat.
Proof.
  induction segs as [|r segs IH]; intros i y t l sh own vis D regs Hd Hy Hlen Hp Hok Hap HD Hl.
  - exists t, l, own, vis. rewrite app_nil_r. rewrite set_total_id by apply Hy. split; [done|]. split; [|lia].
    apply (forked_none t l sh own vis D regs Hd); [by left|]. intros v Hv [?|(r & Hr & _)]; [by left|by apply elem_of_nil in Hr].
  - cbn [length fork_regions]. apply list.Forall_cons in Hok as [Hr Hok]. destruct Hap as [Hap1 Hap]. cbn [length] in Hlen.
    destruct r as [[va np] seg]. cbn [seg_pages fst snd] in Hl |- *.
    destruct (seg_run stale y t l sh own vis D regs i va np seg Hd Hy) as (t1 & l1 & own1 & vis1 & E1 & Hd1 & Hl1); [lia| |done| |lia|].
    { rewrite <- (Hp 0%nat _ eq_refl). f_equal. lia. }
    { intros v Hv. apply HD. exists (va, np, seg). split; [by left|done]. }
    set (y1 := set_total_mapped_region (Z.of_nat (length (regs ++ [(va, np, seg)]))) y) in *.
    destruct (IH (S i) y1 t1 l1 sh own1 vis1 _ _ Hd1) as (t2 & l2 & own2 & vis2 & E2 & Hd2 & Hl2).
    { destruct Hy as (? & ? & ? & _). by repeat split. } { rewrite length_app. cbn [length]. lia. }
    { intros k r Hk. rewrite <- (Hp (S k) r Hk). f_equal. lia. } { done. } { done. }
    { intros v Hv [?|Hv']; [|by apply (Hap1 v)]. apply (HD v); [|done]. destruct Hv as (r & ? & ?). exists r. split; [by right|done]. } { lia. }
    exists t2, l2, own2, vis2. rewrite <- app_assoc in E2, Hd2. cbn [app] in E2, Hd2. split; [|split; [|lia]].
    + step_by ltac:(exact E1). exact E2.
    + destruct Hd2 as [A1 A2 A3 A4 A5 A6 A7 A8]. split; try done. eapply view_sub; [done| |exact A4]. intros v Hv. cbv beta. unfold in_segs. split.
      * intros [[?|?]|(r & ? & ?)]; [by left| |]; right; [exists (va, np, seg); split; [by left|done]|exists r; split; [by right|done]].
      * intros [?|(r & [->|Hin]%elem_of_cons & ?)]; [by left; left|by left; right|]. right. by exists r.
Qed.
End Kernel.
End Forked.
End Fork.
