(* ===== verification/ForkProps.v ===== *)
(** * [do_fork] as a whole

    A process that is ready to be forked, and what its child is. *)
From S2P Require Import Prelude Pmm Vmm Process Sched Fork Strap Cow Heap HeapSpace MallocProps ForkSpace ForkAlloc DoFork.

Lemma first_free_slot ps : forall i c, first_free ps i = Some c -> exists x, (i <= c)%nat /\ ps !! (c - i)%nat = Some x /\ status x = FREE.
Proof.
  induction ps as [|x ps IH]; intros i c Hf; [done|]. cbn [first_free] in Hf. case_bool_decide as Hs.
  - injection Hf as <-. exists x. by rewrite Nat.sub_diag.
  - destruct (IH (S i) c Hf) as (y & Hic & Hy & Hsy). exists y. split; [lia|]. split; [|done].
    by replace (c - i)%nat with (S (c - S i)) by lia.
Qed.

(** The addresses that a fork duplicates: the first page of the stack, the pages of the heap that are
    not lost, and the program. *)
Definition covered (x : process) (stale : list Z) (segs : list (Z * Z * Z)) (v : Z) : Prop :=
  (on_page STACK_VA v \/ heap_kept x stale v) \/ in_segs segs v.

Section Ready.
Context `{Linker}.

(** Process [x] in slot [par] has four basic regions and those of its program, [segs]; its
    heap region is recorded with [np] pages. *)
Record fork_ready (s : kstate) (par : nat) (x : process) (l : list Z) (np : Z) (segs : list (Z * Z * Z)) (stale : list Z) : Prop := {
  fk_proc : procs s !! par = Some x;
  fk_vm : vm_inv (pm s) l (pagetable x);
  fk_pages : parent_ok (pm s) (pagetable x);
  fk_tf : private (pm s) l (pagetable x) (trapframe x);
  fk_mi : private (pm s) l (pagetable x) (mapped_info x);
  fk_basic : basic_regions (mem (pm s)) (mapped_info x) (trapframe x) np;
  fk_np : 0 <= np < 4294967296;
  fk_total : total_mapped_region x = Z.of_nat (4 + length segs);
  fk_few : (4 + length segs <= 256)%nat;
  fk_segs : forall i va k seg, segs !! i = Some (va, k, seg) -> region_is (mem (pm s)) (mapped_info x) (4 + Z.of_nat i) va k seg /\ 0 <= k < 4294967296;
  fk_seg_ok : Forall (seg_ok (pm s) (pagetable x)) segs;
  fk_apart : segs_apart segs;
  fk_stack : xlate (mem (pm s)) (pagetable x) STACK_VA <> None;
  fk_heap : heap_ok (pm s) (pagetable x) x stale;
  fk_trap : trap_code_ok (pm s)
}.

Section Run.
Variables (s : kstate) (tp par chd : nat) (x x0 : process) (l : list Z) (np : Z) (segs : list (Z * Z * Z)) (stale : list Z).
Hypothesis Hk : fork_ready s par x l np segs stale.
Hypothesis Hcur : current s !! tp = Some (Some par).
Hypothesis Hfree : first_free (procs s) 0 = Some chd.
Hypothesis Hx0 : procs s !! chd = Some x0.
Hypothesis Hne : par <> chd.
Notation forked := (forked (pm s) l (pagetable x)).
Notation regions := (first_regions (trapframe x) np ++ segs).

Lemma fk_regions : (length regions <= 256)%nat /\
  forall i va k seg, regions !! i = Some (va, k, seg) -> region_is (mem (pm s)) (mapped_info x) (Z.of_nat i) va k seg /\ 0 <= k < 4294967296.
Proof.
  destruct Hk. split; [exact fk_few0|]. intros i va k seg Hi. destruct (decide (i < 4)%nat) as [Hlt|Hge].
  - rewrite lookup_app_l in Hi by exact Hlt. split; [by apply (first_regions_is (trapframe x) (mapped_info x) _ np fk_basic0)|].
    destruct i as [|[|[|[|i]]]]; cbn in Hi; [| | | |done]; injection Hi as <- <- <-; done.
  - rewrite lookup_app_r in Hi by (cbn; lia). cbn [length first_regions] in Hi. destruct (fk_segs0 _ _ _ _ Hi) as [Hr Hn]. split; [|done].
    by replace (Z.of_nat i) with (4 + Z.of_nat (i - 4)) by lia.
Qed.

Lemma chd_lt : (chd < length (procs s))%nat.
Proof. by eapply lookup_lt_Some. Qed.

(** The trap code is mapped in every process already. *)
Lemma fork_system y t l' sh : grown (pm s) l (pagetable x) t l' sh -> fork_region tp stale par chd 2 (cst s chd y t) = Ret tt (cst s chd y t).
Proof.
  intros Hg. destruct (parent_region _ _ _ (fk_vm _ _ _ _ _ _ _ Hk) (fun _ => None) s chd chd_lt par x regions Hne (fk_mi _ _ _ _ _ _ _ Hk) fk_regions _ _ _ 2 _ _ _ Hg eq_refl) as (_ & _ & E).
  unfold fork_region. step_by ltac:(apply cst_get_other; [exact Hne|apply Hk]). step_by ltac:(apply cst_get; exact chd_lt). step_by ltac:(apply cst_pm; exact E). done.
Qed.

(** All regions. *)
Lemma fork_regions_run y t l1 own us :
  let cpt := pagetable y in let tf := trapframe y in let mi := mapped_info y in
  fork_at (pm s) l (pagetable x) t l1 [] cpt own -> tf ∈ own /\ mi ∈ own /\ us ∈ own -> tf <> mi /\ tf <> us /\ mi <> us ->
  basic_regions (mem t) mi tf 0 -> total_mapped_region y = 4 ->
  (forall v, 0 <= v < DRAM_BASE -> xlate (mem t) cpt v = if decide (v / PGSIZE = STACK_VA / PGSIZE) then Some (user_rw us) else None) ->
  (2 * heap_size x + 3 * seg_pages segs <= length l1)%nat ->
  exists t' l' sh' own' vis', fork_regions (Z.to_nat (total_mapped_region x)) tp stale par chd 0 (cst s chd y t) =
      Ret tt (cst s chd (set_total_mapped_region (total_mapped_region x) (set_user_heap (user_heap x) y)) t') /\
    forked cpt tf mi (trapframe x) (fun v => xlate (mem t) cpt v) t' l' sh' own' vis' (covered x stale segs) (first_regions tf np ++ segs).
Proof.
  intros cpt tf mi Hf (Htf & Hmi & Hus) Hn Hb Htot Hlow Hl. pose proof (fk_stack _ _ _ _ _ _ _ Hk) as Hst.
  destruct (xlate (mem (pm s)) (pagetable x) STACK_VA) as [w0|] eqn:E0; [clear Hst|done]. pose proof fk_regions as Hrg.
  destruct Hk as [Kp Kv Kg Kt Km Kb Kn Kto Kf Ks Kso Ka _ Kh _].
  destruct (fork_begin _ _ _ Kv Kg cpt tf mi (trapframe x) (fun v => xlate (mem t) cpt v) s chd tp chd_lt par x regions Hne Kp eq_refl (conj eq_refl Kt) Km Hrg
    stale y t l1 own us w0 (trapframe x) 1 Hf Htf Hmi Hus Hn eq_refl eq_refl eq_refl Hb Hlow (fun _ _ => eq_refl) eq_refl eq_refl E0) as (t1 & t2 & E1 & E2 & Hd2).
  pose proof (fork_system y t2 l1 [] (fa_grown _ _ _ _ _ _ _ _ (fd_fork _ _ _ _ _ _ _ _ _ _ _ _ _ _ _ Hd2))) as E3.
  destruct (fork_heap_run _ _ _ Kv Kg cpt tf mi (trapframe x) (fun v => xlate (mem t) cpt v) s chd tp chd_lt par x regions Hne Kp eq_refl Km Hrg Hcur
    stale y t2 l1 own [us] (on_page STACK_VA) USER_FREE_ADDRESS_START np Kh Hd2 eq_refl eq_refl eq_refl) as (t3 & l3 & sh3 & E4 & Hd3 & Hl3).
  { intros v Hv Hp. destruct Kh as [_ _ Htop _ _]. unfold in_heap, heap_size, heap_pages, on_page, MAX_HEAP_PAGES, USER_FREE_ADDRESS_START in *.
    change (STACK_VA / PGSIZE) with 524286 in Hp. klia. } { lia. }
  destruct (segs_run _ _ _ Kv Kg cpt tf mi (trapframe x) (fun v => xlate (mem t) cpt v) s chd tp chd_lt par x regions Hne Kp eq_refl Km Hrg
    stale segs 4 (set_user_heap (user_heap x) y) t3 l3 sh3 own [us] _ _ Hd3) as (t4 & l4 & own4 & vis4 & E5 & Hd4 & _); [by repeat split|exact Kf|by intros k r Hr|exact Kso|exact Ka| |lia|].
  { intros v (r & Hr & Hv) HD. rewrite list.Forall_forall in Kso. pose proof (sg_low _ _ _ (Kso r Hr)) as Hlo. unfold in_seg in Hv.
    destruct HD as [HD|HD]; unfold on_page, heap_kept, in_heap, USER_FREE_ADDRESS_START in *; [change (STACK_VA / PGSIZE) with 524286 in HD|destruct HD as [HD _]]; klia. }
  exists t4, l4, sh3, own4, vis4. split; [|exact Hd4]. rewrite Kto, Nat2Z.id. cbn [fork_regions Nat.add].
  step_by ltac:(exact E1). step_by ltac:(exact E2). step_by ltac:(exact E3). step_by ltac:(exact E4). rewrite E5. by rewrite length_app.
Qed.

(** The return value 0 is put in the trapframe of the child. *)
Lemma fork_zero cpt tf mi K t l1 sh own vis D regs :
  forked cpt tf mi (trapframe x) K t l1 sh own vis D regs ->
  exists t', store (tf + TF_a 0) 0 t = Ret tt t' /\ fork_at (pm s) l (pagetable x) t' l1 sh cpt own /\ view (pm s) l (pagetable x) cpt t' vis D /\
    (forall v, DRAM_BASE <= v < MAXVA -> xlate (mem t') cpt v = K v) /\
    (forall o, 0 <= o < sizeof_trapframe -> o mod 8 = 0 -> rd (mem t') (tf + o) = if o =? TF_a 0 then 0 else rd (mem (pm s)) (trapframe x + o)) /\
    (forall i va k seg, regs !! i = Some (va, k, seg) -> region_is (mem t') mi (Z.of_nat i) va k seg) /\ (forall p, p ∈ vis -> p ∈ own).
Proof.
  intros Hd. pose proof (fk_vm _ _ _ _ _ _ _ Hk) as Kv. destruct Hd as [A1 (Htf & Hmi & Hn) A3 A4 A5 A6 A7 A8] eqn:Ed.
  assert (Hpg : forall p, p ∈ own -> table_page p) by (intros p Hp; by destruct (ch_private _ _ _ _ _ _ _ _ A1 p Hp) as [(? & _) _]).
  set (m' := <[tf + TF_a 0 := 0]> (mem t)). assert (Ho : only [tf] (mem t) m') by (by apply only_one).
  destruct (fork_only _ _ _ Kv _ _ _ _ _ A1 [tf] m') as [Hf' Hx']; [by intros p ->%list_elem_of_singleton|done|].
  assert (Hw : forall p o, p ∈ own -> p <> tf -> 0 <= o < PGSIZE -> rd m' (p + o) = rd (mem t) (p + o)).
  { intros p o Hp Hpt Ho'. apply (only_page [tf]); [done|by constructor; auto|by auto|by intros ->%list_elem_of_singleton|done]. }
  exists (set_mem m' t). split; [by apply store_at; auto|]. split; [done|]. split; [|split; [|split; [|split; [|by intros p Hp; apply A3]]]].
  - eapply (view_step _ _ _ Kv cpt t (set_mem m' t) l1 l1 sh sh own own vis); [exact A1|exact Hf'| | |exact A4].
    + intros p o Hp. destruct (A3 p Hp) as (? & ? & ?). by apply Hw.
    + intros v _. apply Hx'.
  - intros v Hv. cbn [mem set_mem]. rewrite Hx'. by apply A5.
  - intros o Hr H8. cbn [mem set_mem]. unfold m'. destruct (o =? TF_a 0) eqn:Eo; [apply Z.eqb_eq in Eo as ->; by apply rd_insert_eq|].
    apply Z.eqb_neq in Eo. rewrite rd_insert_ne by lia. by apply A6.
  - apply (regs_keep _ _ _ _ _ _ _ _ _ _ _ _ _ _ _ Hd). intros o. by apply Hw; [|intros ->].
Qed.

(** The parent sees what it saw. *)
Lemma parent_words t l1 sh v :
  grown (pm s) l (pagetable x) t l1 sh -> 0 <= v < DRAM_BASE -> user_word (mem t) (pagetable x) v = user_word (mem (pm s)) (pagetable x) v.
Proof.
  intros Hg Hv. pose proof (gr_frames _ _ _ _ _ _ Hg v ltac:(unfold MAXVA; klia)) as Hf. unfold frame_of in Hf. unfold user_word.
  destruct (xlate (mem (pm s)) (pagetable x) v) as [w0|] eqn:E0, (xlate (mem t) (pagetable x) v) as [w|] eqn:E; cbn in Hf |- *; try done.
  injection Hf as -> _. f_equal. destruct (parent_frame _ _ _ (fk_vm _ _ _ _ _ _ _ Hk) (fk_pages _ _ _ _ _ _ _ Hk) v w0 Hv E0) as (_ & _ & _ & _ & Hold & _).
  apply (old_word _ _ _ (fk_vm _ _ _ _ _ _ _ Hk) _ _ _ _ _ Hg Hold). klia.
Qed.

(** What the child can write, the parent does not have. *)
Lemma child_writes cpt t l1 sh own vis D v v' w w' :
  fork_at (pm s) l (pagetable x) t l1 sh cpt own -> view (pm s) l (pagetable x) cpt t vis D -> (forall p, p ∈ vis -> p ∈ own) ->
  0 <= v < DRAM_BASE -> 0 <= v' < DRAM_BASE -> xlate (mem t) cpt v = Some w -> has w PTE_W = true -> xlate (mem t) (pagetable x) v' = Some w' ->
  PTE2PA w <> PTE2PA w'.
Proof.
  intros Hf Hview Hvis Hv Hv' Hw HW Hw' Eq. destruct (Hview v Hv) as [H1 H2]. enough (~ D v) by (rewrite H2 in Hw by done; done). intros HD.
  specialize (H1 HD). unfold sees in H1. destruct (xlate (mem (pm s)) (pagetable x) v) as [w0|]; [|congruence].
  destruct H1 as (w1 & Hw1 & Hp & _). rewrite Hw in Hw1. injection Hw1 as <-. destruct Hp as [Hp|[_ Hp]]; [|congruence].
  destruct (ch_private _ _ _ _ _ _ _ _ Hf _ (Hvis _ Hp)) as [_ Hl].
  pose proof (gr_frames _ _ _ _ _ _ (fa_grown _ _ _ _ _ _ _ _ Hf) v' ltac:(unfold MAXVA; klia)) as Hfr. unfold frame_of in Hfr. rewrite Hw' in Hfr.
  destruct (xlate (mem (pm s)) (pagetable x) v') as [w0'|] eqn:E0; [|done]. injection Hfr as Hpa _.
  destruct (parent_frame _ _ _ (fk_vm _ _ _ _ _ _ _ Hk) (fk_pages _ _ _ _ _ _ _ Hk) v' w0' Hv' E0) as (_ & _ & _ & _ & (_ & Hnl & _) & _).
  apply Hnl. by rewrite <- Hpa, <- Eq.
Qed.
End Run.
End Ready.

Lemma cores_proc s i c : cores s !! i = Some c -> exists x, procs s !! i = Some x /\ core x = c.
Proof. unfold cores. rewrite list_lookup_fmap. destruct (procs s !! i) as [x|]; [|done]. intros [= <-]. by exists x. Qed.

(** The slot of the child is not that of the caller. *)
Lemma fork_slot s run q w tp par x chd :
  sched_inv s run q w -> run !! tp = Some (Some par) -> procs s !! par = Some x -> first_free (procs s) 0 = Some chd ->
  exists x0, procs s !! chd = Some x0 /\ status x0 = FREE /\ par <> chd /\ current s !! tp = Some (Some par).
Proof.
  intros Hi Hrun Hx Hfree. destruct (first_free_slot _ _ _ Hfree) as (x0 & _ & Hx0 & Hs0). rewrite Nat.sub_0_r in Hx0. exists x0.
  assert (Hst : status x = RUNNING) by (apply (si_run _ _ _ _ Hi par _ (cores_lookup _ _ _ Hx)); by exists tp).
  split; [done|]. split; [done|]. split; [|by apply (ro_cur _ _ (si_run_ok _ _ _ _ Hi))].
  intros ->. rewrite Hx0 in Hx. injection Hx as ->. congruence.
Qed.

(** C9: [do_fork] as a whole, run by the process that calls it, whose program has data segments of any
    length and code segments of one page.  If the process table has a free
    slot and memory has enough free pages, [do_fork] returns the pid of that slot.  The slot then holds
    a process with the caller as parent, ready and last in the ready queue, with the heap
    bookkeeping and the table of regions of the parent (but its own trapframe).  It reads what the parent read
    when the fork began, at every address of the first stack page, of the program and of the pages of the heap that it
    gets, and has nothing else mapped below the kernel.  It gets a page of the heap when it is among the first 8,
    or when the entry of the page in [free_block_filter], which the code does not initialise from entry 8 on,
    happens to hold 0 ([stale] is what the stack held there); the other pages of the heap are lost.
    A page that the child can write has a frame that the parent has not; its registers are those of the parent, but for [a0], which is 0.
    The parent still reads what it read, both page tables are well formed and apart from the free
    pages, and all other processes are as they were. *)
Theorem do_fork_correct `{Linker} s run q w tp root par x l np segs stale chd :
  sched_inv s run q w -> run !! tp = Some (Some par) -> fork_ready s par x l np segs stale ->
  first_free (procs s) 0 = Some chd -> (12 + 2 * heap_size x + 3 * seg_pages segs <= length l)%nat ->
  exists s' x0 y l', procs s !! chd = Some x0 /\ do_fork tp root stale par s = Ret (i32 (pid x0)) s' /\ cores s' = <[chd := y]> (cores s) /\
    (pid y = pid x0 /\ parent y = Some par /\ status y = READY /\ user_heap y = user_heap x /\ total_mapped_region y = total_mapped_region x) /\
    sched_inv s' run (q ++ [chd]) w /\
    vm_inv (pm s') l' (pagetable y) /\ vm_inv (pm s') l' (pagetable x) /\
    (forall v, 0 <= v < DRAM_BASE -> v mod 8 = 0 -> covered x stale segs v ->
      user_word (mem (pm s')) (pagetable y) v = user_word (mem (pm s)) (pagetable x) v) /\
    (forall v, 0 <= v < DRAM_BASE -> ~ covered x stale segs v -> xlate (mem (pm s')) (pagetable y) v = None) /\
    (forall v, 0 <= v < DRAM_BASE -> user_word (mem (pm s')) (pagetable x) v = user_word (mem (pm s)) (pagetable x) v) /\
    (forall v v' c p, 0 <= v < DRAM_BASE -> 0 <= v' < DRAM_BASE -> xlate (mem (pm s')) (pagetable y) v = Some c -> has c PTE_W = true ->
      xlate (mem (pm s')) (pagetable x) v' = Some p -> PTE2PA c <> PTE2PA p) /\
    (forall o, 0 <= o < sizeof_trapframe -> o mod 8 = 0 ->
      rd (mem (pm s')) (trapframe y + o) = if o =? TF_a 0 then 0 else rd (mem (pm s)) (trapframe x + o)) /\
    (forall i va k seg, (first_regions (trapframe y) np ++ segs) !! i = Some (va, k, seg) ->
      region_is (mem (pm s')) (mapped_info y) (Z.of_nat i) va k seg).
Proof.
  intros Hi Hrun Hk Hfree Hl. destruct (fork_slot s run q w tp par x chd Hi Hrun (fk_proc _ _ _ _ _ _ _ Hk) Hfree) as (x0 & Hx0 & Hs0 & Hne & Hcur).
  assert (Hlt : (chd < length (procs s))%nat) by (by eapply lookup_lt_Some).
  destruct l as [|tf [|pt [|ks [|us [|mi l]]]]]; [cbn in Hl; lia..|]. cbn [length] in Hl.
  destruct (alloc_process_run s chd tp Hlt (pm s) _ (pagetable x) (fk_vm _ _ _ _ _ _ _ Hk) (fk_trap _ _ _ _ _ _ _ Hk) root x0 tf pt ks us mi l
    eq_refl Hfree Hx0 eq_refl ltac:(lia)) as (t1 & l1 & pf & own & E1 & Hf1 & Hl1 & (H1 & H2 & H3 & _) & Hn & Hb & Hlow).
  set (y := new_process tf pt ks mi pf x0) in *.
  destruct (fork_regions_run s tp par chd x x0 _ np segs stale Hk Hcur Hx0 Hne y t1 l1 own us Hf1 (conj H1 (conj H2 H3)) Hn Hb eq_refl Hlow ltac:(lia))
    as (t2 & l2 & sh2 & own2 & vis2 & E2 & Hd2). change (pagetable y) with pt in Hd2. change (trapframe y) with tf in Hd2. change (mapped_info y) with mi in Hd2.
  destruct (fork_zero s par chd x _ np segs stale Hk Hne _ _ _ _ _ _ _ _ _ _ _ Hd2) as (t3 & E3 & Hf3 & Hv3 & _ & Htf3 & Hr3 & Hv3o).
  set (y2 := set_total_mapped_region (total_mapped_region x) (set_user_heap (user_heap x) y)) in *.
  set (y3 := set_parent (Some par) (set_status READY y2)).
  assert (Hpar : (par < NPROC)%nat) by (rewrite <- (lk_np _ _ _ (si_links _ _ _ _ Hi)); by eapply lookup_lt_Some, Hk).
  destruct (spawn_run (set_pm t3 s) run q w chd y3) as (s' & E4 & Hi4 & _ & Hc4 & Hp4 & _).
  { by apply sched_inv_pm. } { split; [by exists x0|done| |by intros r [= <-]]. by destruct (ch_private _ _ _ _ _ _ _ _ Hf1 tf H1) as [(? & _) _]. }
  change (pm (set_pm t3 s)) with t3 in Hp4. change (cores (set_pm t3 s)) with (cores s) in Hc4.
  exists s', x0, (core y3), l2. rewrite Hp4. change (pagetable (core y3)) with pt. change (trapframe (core y3)) with tf. change (mapped_info (core y3)) with mi. split; [done|]. split; [|split; [exact Hc4|split; [done|split; [exact Hi4|split; [|split; [|split; [|split; [|split; [|split; [|split]]]]]]]]]].
  - unfold do_fork. step_by ltac:(exact E1). step_by ltac:(apply cst_get_other; [exact Hne|apply Hk]). step_by ltac:(exact E2).
    step_by ltac:(apply cst_upd; exact Hlt). step_by ltac:(apply cst_get; exact Hlt). step_by ltac:(apply cst_pm; exact E3).
    step_by ltac:(apply cst_upd; exact Hlt). step_by ltac:(exact E4).
    destruct (cores_proc s' chd (core y3)) as (y4 & Ey & Hc); [rewrite Hc4; apply list_lookup_insert_eq; unfold cores; by rewrite length_fmap|].
    step_by ltac:(apply get_proc_run; exact Ey). unfold ret. do 2 f_equal. exact (f_equal pid Hc).
  - apply Hf3.
  - apply (gr_parent _ _ _ (fk_vm _ _ _ _ _ _ _ Hk) _ _ _ (fa_grown _ _ _ _ _ _ _ _ Hf3)).
  - intros v Hr H8 HD. by apply (view_word _ _ _ _ _ _ _ _ Hv3).
  - intros v Hr HD. by apply Hv3.
  - intros v Hr. by apply (parent_words s par chd x _ np segs stale Hk Hne _ _ _ _ (fa_grown _ _ _ _ _ _ _ _ Hf3)).
  - intros v v' wc wp. exact (child_writes s par chd x _ np segs stale Hk Hne _ _ _ _ _ _ _ v v' wc wp Hf3 Hv3 Hv3o).
  - exact Htf3.
  - exact Hr3.
Qed.

(** C28: how [do_fork] fails.  It never returns an error to the caller: without a free slot in the
    process table the kernel panics and nothing has changed, and without a free page the result of [alloc_page]
    is used unchecked, so that the kernel faults on a store to address 0, with the slot of the child taken. *)
Theorem do_fork_errors `{Linker} s tp root par stale :
  (first_free (procs s) 0 = None ->
    do_fork tp root stale par s = Stop (Panic "cannot find any free process structure.") s) /\
  (forall chd x0, pmm_inv (pm s) [] -> first_free (procs s) 0 = Some chd -> procs s !! chd = Some x0 ->
    exists s', do_fork tp root stale par s = Stop (Fault 0) s' /\ procs s' !! chd = Some (set_trapframe 0 (set_status READY x0)) /\ pm s' = pm s).
Proof.
  split.
  - intros Hf. unfold do_fork, alloc_process, bind, get. by rewrite Hf.
  - intros chd x0 Hp Hf Hx0. assert (Hlt : (chd < length (procs s))%nat) by (by eapply lookup_lt_Some).
    exists (cst s chd (set_trapframe 0 (set_status READY x0)) (pm s)). split; [|split; [by apply list_lookup_insert_eq|done]].
    unfold do_fork. apply bind_Stop. unfold alloc_process. step_by ltac:(reflexivity). rewrite Hf. step_by ltac:(apply upd_proc_run; exact Hx0).
    replace (set_procs (<[chd := set_status READY x0]> (procs s)) s) with (cst s chd (set_status READY x0) (pm s)) by (unfold cst; by destruct s).
    step_by ltac:(apply cst_pm; exact (alloc_page_empty _ _ Hp eq_refl)). step_by ltac:(apply cst_upd; exact Hlt). by apply bind_Stop.
Qed.

(** ** A process to fork *)

Module ForkDemo.
Import MallocDemo Demo.
#[local] Existing Instance linker0.

(** Forty free pages above the kernel. *)
Definition free40 : list Z := page <$> rev (seqZ 0 40).
Definition links40 : list (Z * Z) := (fun i => (page (i + 1), page i)) <$> seqZ 0 39.
Definition vm40 : pstate := mkP (list_to_map links40) (page 39) ∅ 2147549184 2147717120 233472 0.

Lemma vm40_rd a : (forall i, 0 <= i < 40 -> a <> page i) -> rd (mem vm40) a = 0.
Proof.
  intros Ha. unfold rd. cbn [mem vm40]. rewrite not_elem_of_list_to_map_1; [done|].
  intros ((b & v) & -> & (i & E & Hi)%list_elem_of_fmap)%list_elem_of_fmap. injection E as -> ->. apply elem_of_seqZ in Hi.
  apply (Ha (i + 1)); [lia|done].
Qed.

Lemma free40_elem a : a ∈ free40 <-> exists i, a = page i /\ 0 <= i < 40.
Proof.
  unfold free40. rewrite list_elem_of_fmap. split; intros (i & -> & Hi); exists i; (split; [done|]).
  - apply list_elem_of_In, in_rev, list_elem_of_In, elem_of_seqZ in Hi. lia.
  - apply list_elem_of_In. rewrite <- in_rev. apply list_elem_of_In, elem_of_seqZ. lia.
Qed.

Lemma vm40_pmm : pmm_inv vm40 free40.
Proof.
  split.
  - split; cbv; congruence.
  - vm_compute. repeat split; reflexivity.
  - apply (bool_decide_unpack _). vm_compute. exact I.
  - intros p. assert (Hr : page_ref vm40 p = 0) by (unfold page_ref, ref_at; cbn [page_ref_count vm40]; by rewrite lookup_empty).
    rewrite Hr, free40_elem. unfold managed. cbn [free_mem_start_addr free_mem_end_addr vm40]. split.
    + intros (i & -> & Hi). unfold page. split; [klia|done].
    + intros [(? & ? & ?) _]. exists ((p - 2147549184) / 4096). unfold page. klia.
  - intros i. unfold ref_at. cbn [page_ref_count vm40]. rewrite lookup_empty. cbn [default]. lia.
  - reflexivity.
Qed.

(** The process that runs on hart 0 gets a page table, a table of regions, a page of stack, one of heap,
    one of code and one of data. *)
Definition root_pt : Z := 2147491840.
Definition regions_at : Z := 2147495936.
Definition HEAP_VA : Z := USER_FREE_ADDRESS_START.
Definition CODE_VA : Z := 65536.
Definition DATA_VA : Z := 69632.
Definition demo_segs : list (Z * Z * Z) := [(CODE_VA, 1, CODE_SEGMENT); (DATA_VA, 1, DATA_SEGMENT)].
Definition caller : process := default (zero_proc 0) (procs d4 !! 0%nat).
Definition parent_proc : process :=
  set_user_heap (mkHeap (USER_FREE_ADDRESS_START + PGSIZE) USER_FREE_ADDRESS_START [] 0)
    (set_total_mapped_region 6 (set_mapped_info regions_at (set_pagetable root_pt caller))).
Definition region_words : list (Z * Z) :=
  [(regions_at, STACK_VA); (regions_at + 8, 1); (regions_at + 16, 2147483648); (regions_at + 24, 4294967297);
   (regions_at + 32, 2147487744); (regions_at + 40, 8589934593); (regions_at + 48, USER_FREE_ADDRESS_START); (regions_at + 56, 12884901889);
   (regions_at + 64, CODE_VA); (regions_at + 72, 17179869185); (regions_at + 80, DATA_VA); (regions_at + 88, 21474836481)].
Definition start : pstate := set_mem (foldr (fun p m => <[p.1 := p.2]> m) (mem vm40) region_words) vm40.
Definition demo (t : pstate) : kstate := set_pm t (set_procs (<[0%nat := parent_proc]> (procs d4)) d4).
(** What the stack happens to hold where [free_block_filter] is not cleared. *)
Definition stale7 : list Z := replicate 32 7.

Lemma start_rd a : regions_at + 96 <= a \/ a < regions_at -> rd (mem start) a = rd (mem vm40) a.
Proof.
  unfold start, region_words, regions_at. cbn [mem set_mem foldr fst snd]. intros Ha. by rewrite !rd_insert_ne by lia.
Qed.

Lemma start_zero k : idx_ok k -> rd (mem start) (root_pt + 8 * k) = 0.
Proof. intros []. unfold root_pt in *. rewrite start_rd by (unfold regions_at; lia). apply vm40_rd. unfold page. lia. Qed.

Lemma low_not_free a : a < page 0 -> a ∉ free40.
Proof. intros Ha (i & -> & Hi)%free40_elem. unfold page in Ha. lia. Qed.

Lemma start_inv : vm_inv start free40 root_pt.
Proof.
  apply fresh_root; [|repeat split; cbv; congruence|by apply low_not_free|apply start_zero].
  apply pmm_inv_set_mem; [apply vm40_pmm|]. intros x (i & -> & Hi)%free40_elem. apply start_rd. unfold page, regions_at. lia.
Qed.

Lemma start_private a : table_page a -> a < page 0 -> a <> root_pt -> private start free40 root_pt a.
Proof.
  intros Hp Ha Hn. split; [done|]. split; [by apply low_not_free|]. intros (π & Hok & Hπ). apply Hn.
  assert (Hc : forall k, idx_ok k -> child (mem start) root_pt k = None) by (intros k Hk; unfold child; by rewrite start_zero).
  destruct π as [|i|i j]; cbn [tbl] in Hπ; [by injection Hπ|by rewrite Hc in Hπ|]. destruct Hok. by rewrite Hc in Hπ.
Qed.

(** A state on the way: the pages [vs] are mapped. *)
Record built (t : pstate) (l : list Z) (vs : list Z) : Prop := {
  bt_inv : vm_inv t l root_pt;
  bt_frames : frames_ok t root_pt 0 DRAM_BASE [];
  bt_refs : forall v w, 0 <= v < DRAM_BASE -> xlate (mem t) root_pt v = Some w -> page_ref t (PTE2PA w) = 1;
  bt_mapped : forall v, 0 <= v < DRAM_BASE -> xlate (mem t) root_pt v = None <-> Forall (fun va => v / PGSIZE <> va / PGSIZE) vs;
  bt_words : forall o, 0 <= o < PGSIZE -> rd (mem t) (regions_at + o) = rd (mem start) (regions_at + o);
  bt_private : forall a, private start free40 root_pt a -> private t l root_pt a;
  bt_start : free_mem_start_addr t = free_mem_start_addr start
}.

Lemma regions_private : private start free40 root_pt regions_at.
Proof. apply start_private; [repeat split; cbv; congruence|by vm_compute|by vm_compute]. Qed.

Lemma built_none : built start free40 [].
Proof.
  assert (Hn : forall v, xlate (mem start) root_pt v = None) by (intros v; apply fresh_root_xlate, start_zero).
  split; [exact start_inv| | | |done|done|done].
  - split; [intros y w _ Hw|intros y y' w w' _ _ Hw]; by rewrite Hn in Hw.
  - intros v w _ Hw. by rewrite Hn in Hw.
  - intros v _. split; [intros; constructor|intros; apply Hn].
Qed.

Lemma built_step t l vs va :
  built t l vs -> (3 <= length l)%nat -> va mod PGSIZE = 0 -> 0 <= va -> va + PGSIZE <= DRAM_BASE -> Forall (fun y => va / PGSIZE <> y / PGSIZE) vs ->
  exists t' l', built t' l' (va :: vs) /\ (length l <= length l' + 3)%nat.
Proof.
  intros [Hi Hfr Hrf Hmp Hw Hpr Hst] Hlen Ha H0 Hlim Hnew. destruct l as [|q l]; [cbn in Hlen; lia|]. cbn [length] in Hlen.
  assert (Hnone : xlate (mem t) root_pt va = None) by (apply Hmp; [klia|done]).
  destruct (map_fresh t q l root_pt 0 DRAM_BASE [] va Hi) as (t' & l' & E & Hv & Hl & Hfr' & Hx);
    [lia|done|by intros a ?%elem_of_nil|done|lia|done|by vm_compute|done|done|].
  pose proof (alloc_frame _ _ _ _ Hi) as Hf1. destruct (alloc_private _ _ _ _ Hi) as (Hqp & Hql & _). destruct (alloc_managed _ _ _ _ Hi) as [Hqm _].
  assert (Hq1 : page_ref t' q = 1).
  { destruct (map_one (alloc_result t q) l root_pt va q heap_perm (vf_inv _ _ _ _ _ Hf1) Ha) as (t'' & l'' & E' & Hf2 & _);
      [lia|unfold MAXVA; klia|destruct Hqp; klia|lia|exact Hnone|].
    rewrite E' in E. injection E as ->. rewrite (vf_ref _ _ _ _ _ Hf2) by done. rewrite (page_ref_alloc t (q :: l)); [by rewrite decide_True|apply Hi|done|done]. }
  exists t', l'. split; [|cbn; lia]. split.
  - apply Hv.
  - exact Hfr'.
  - intros v w Hr Hxw. rewrite Hx in Hxw by (unfold MAXVA; klia). destruct (decide _) as [Hd|Hd].
    + injection Hxw as <-. destruct (user_rw_facts q Hqp) as (_ & _ & ->). exact Hq1.
    + destruct (fr_frame _ _ _ _ _ Hfr v w Hr Hxw) as (_ & _ & Hm & Hr0 & _). rewrite (vf_ref _ _ _ _ _ Hv); [by apply (Hrf v)|done|].
      by apply (counted_not_free _ _ _ _ Hi).
  - intros v Hr. rewrite Hx by (unfold MAXVA; klia). rewrite list.Forall_cons. destruct (decide _) as [Hd|Hd]; [split; [done|intros [? _]; done]|].
    rewrite Hmp by done. tauto.
  - intros o Ho. rewrite (frame_word _ _ _ _ _ Hv Hi regions_at o (Hpr _ regions_private) Ho). by apply Hw.
  - intros a Hpa. apply (frame_private _ _ _ _ _ Hv). by apply Hpr.
  - by rewrite (vf_start _ _ _ _ _ Hv).
Qed.

Lemma built_all : exists t l, built t l [DATA_VA; CODE_VA; HEAP_VA; STACK_VA] /\ (28 <= length l)%nat.
Proof.
  assert (H40 : length free40 = 40%nat) by reflexivity.
  destruct (built_step _ _ _ STACK_VA built_none) as (t1 & l1 & B1 & L1); [lia|by vm_compute..|constructor|].
  destruct (built_step _ _ _ HEAP_VA B1) as (t2 & l2 & B2 & L2); [lia|by vm_compute..|repeat constructor; by vm_compute|].
  destruct (built_step _ _ _ CODE_VA B2) as (t3 & l3 & B3 & L3); [lia|by vm_compute..|repeat constructor; by vm_compute|].
  destruct (built_step _ _ _ DATA_VA B3) as (t4 & l4 & B4 & L4); [lia|by vm_compute..|repeat constructor; by vm_compute|].
  exists t4, l4. split; [exact B4|lia].
Qed.

Lemma caller_at : procs d4 !! 0%nat = Some caller.
Proof. vm_compute. reflexivity. Qed.

Lemma demo_sched t : sched_inv (demo t) run0 [1%nat] (fun _ => []).
Proof. apply sched_inv_pm. by apply (sched_inv_keep d4 _ _ _ _ 0%nat caller parent_proc d4_inv caller_at). Qed.

Lemma in_one_page va v : va mod PGSIZE = 0 -> 0 <= va /\ va + PGSIZE <= DRAM_BASE -> va <= v < va + 1 * PGSIZE -> 0 <= v < DRAM_BASE /\ v / PGSIZE = va / PGSIZE.
Proof. intros Ha Hr Hv. split; klia. Qed.

Lemma parent_ready : exists t l, fork_ready (demo t) 0 parent_proc l 1 demo_segs stale7 /\ (28 <= length l)%nat /\
  forall va, va ∈ [DATA_VA; CODE_VA; HEAP_VA; STACK_VA] -> xlate (mem t) root_pt va <> None.
Proof.
  destruct built_all as (t & l & [Hi Hfr Hrf Hmp Hw Hpr Hst] & Hl). exists t, l.
  assert (Hin : forall v va, 0 <= v < DRAM_BASE -> va ∈ [DATA_VA; CODE_VA; HEAP_VA; STACK_VA] -> v / PGSIZE = va / PGSIZE -> xlate (mem t) root_pt v <> None).
  { intros v va Hv Hva Ev Hn. apply (Hmp v Hv) in Hn. rewrite list.Forall_forall in Hn. by apply (Hn va Hva). }
  assert (Hlow : forall va, va ∈ [DATA_VA; CODE_VA; HEAP_VA; STACK_VA] -> 0 <= va < DRAM_BASE).
  { intros va. rewrite !elem_of_cons, elem_of_nil. intros [->|[->|[->|[->|[]]]]]; by vm_compute. }
  assert (Hr : forall i va k seg, 0 <= i < 256 -> region_is (mem start) regions_at i va k seg -> region_is (mem t) regions_at i va k seg)
    by (intros i va k seg; by apply region_same).
  assert (Htf : trapframe parent_proc = 2147483648) by (vm_compute; reflexivity).
  split; [|split; [exact Hl|intros va Hva; apply (Hin va va); auto]]. split.
  - vm_compute. reflexivity.
  - exact Hi.
  - split; [exact Hfr|]. intros v w Hv Hx. change (page_ref t (PTE2PA w) < 65535). rewrite (Hrf v w Hv Hx). lia.
  - rewrite Htf. apply Hpr, start_private; [repeat split; cbv; congruence|by vm_compute|by vm_compute].
  - apply Hpr, regions_private.
  - rewrite Htf. split; [|split; [|split]]; (apply Hr; [done|split; vm_compute; reflexivity]).
  - done.
  - reflexivity.
  - cbn. lia.
  - intros [|[|i]] va k seg Hs; cbn in Hs; [| |done]; injection Hs as <- <- <-; (split; [apply Hr; [done|split; vm_compute; reflexivity]|lia]).
  - constructor; [|constructor; [|constructor]]; (split; [by vm_compute|by vm_compute| |]).
    + by right.
    + intros v Hv. destruct (in_one_page CODE_VA v ltac:(by vm_compute) ltac:(by vm_compute) Hv) as [Hv1 Hv2]. apply (Hin v CODE_VA); [exact Hv1|rewrite !elem_of_cons; auto|exact Hv2].
    + by left.
    + intros v Hv. destruct (in_one_page DATA_VA v ltac:(by vm_compute) ltac:(by vm_compute) Hv) as [Hv1 Hv2]. apply (Hin v DATA_VA); [exact Hv1|rewrite !elem_of_cons; auto|exact Hv2].
  - split; [|split; [|done]]; intros v Hv (r & Hr' & Hv').
    + apply list_elem_of_singleton in Hr' as ->. cbv [in_seg fst snd CODE_VA DATA_VA] in Hv, Hv'. klia.
    + by apply elem_of_nil in Hr'.
  - apply (Hin STACK_VA STACK_VA); [by vm_compute|rewrite !elem_of_cons; auto|reflexivity].
  - split; [reflexivity|reflexivity|by vm_compute|by vm_compute|constructor].
  - unfold trap_code_ok. change (pm (demo t)) with t. rewrite Hst. by vm_compute.
Qed.
End ForkDemo.
Import ForkDemo.

(** The processes of [Demo.d4], and memory without a free page. *)
Lemma do_fork_errors_witness :
  exists s', @do_fork Demo.linker0 0 0 [] 0 (set_pm (mkP ∅ 0 ∅ 2147549184 2147549184 65536 0) Demo.d4) = Stop (Fault 0) s'.
Proof.
  destruct (@do_fork_errors Demo.linker0 (set_pm (mkP ∅ 0 ∅ 2147549184 2147549184 65536 0) Demo.d4) 0%nat 0 0%nat []) as [_ Hf].
  destruct (Hf 2%nat (zero_proc 2)) as (s' & E & _); [|vm_compute; reflexivity|vm_compute; reflexivity|by exists s'].
  split; [split; cbv; congruence|reflexivity|apply base.NoDup_nil_2| |intros i; unfold ref_at; cbn [pm set_pm page_ref_count]; rewrite lookup_empty; cbn; lia|reflexivity].
  intros p. split; [by intros ?%elem_of_nil|]. intros [(Ha & Hb & Hc) _]. cbn in Hb, Hc. klia.
Defined.

(** The child reads the parent's stack, heap, code and data, though the array was full of garbage. *)
Lemma do_fork_correct_witness :
  exists t s' y, @do_fork Demo.linker0 0 0 stale7 0 (ForkDemo.demo t) = Ret 2 s' /\ parent y = Some 0%nat /\ status y = READY /\
    cores s' !! 2%nat = Some y /\ sched_inv s' Demo.run0 [1%nat; 2%nat] (fun _ => []) /\
    forall va, va ∈ [DATA_VA; CODE_VA; HEAP_VA; STACK_VA] ->
      user_word (mem (pm s')) (pagetable y) va = user_word (mem t) root_pt va /\ user_word (mem t) root_pt va <> None.
Proof.
  destruct parent_ready as (t & l & Hk & Hl & Hm).
  assert (Hl' : (12 + 2 * heap_size parent_proc + 3 * seg_pages demo_segs <= length l)%nat) by (change (20 <= length l)%nat; lia).
  destruct (@do_fork_correct Demo.linker0 (ForkDemo.demo t) Demo.run0 [1%nat] (fun _ => []) 0%nat 0 0%nat parent_proc l 1 demo_segs stale7 2%nat
    (demo_sched t) eq_refl Hk eq_refl Hl') as (s' & x0 & y & l' & Hx0 & E & Hc & (Hp & Hpar & Hs & _) & Hi & _ & _ & Hw & _).
  vm_compute in Hx0. injection Hx0 as <-. exists t, s', y. split; [exact E|]. split; [exact Hpar|]. split; [exact Hs|]. split; [|split; [exact Hi|]].
  - rewrite Hc. apply list_lookup_insert_eq. vm_compute. lia.
  - intros va Hva. split; [|unfold user_word; pose proof (Hm va Hva); by destruct (xlate (mem t) root_pt va)].
    rewrite !elem_of_cons, elem_of_nil in Hva. destruct Hva as [->|[->|[->|[->|[]]]]]; (apply Hw; [by vm_compute|reflexivity|]).
    + right. exists (DATA_VA, 1, DATA_SEGMENT). split; [right; left|by vm_compute].
    + right. exists (CODE_VA, 1, CODE_SEGMENT). split; [left|by vm_compute].
    + left. right. split; [by vm_compute|]. intros [H8 _]. vm_compute in H8. lia.
    + left. left. reflexivity.
Defined.
