(* ===== verification/UserWrite.v ===== *)
(** * Writing a buffer of the user to a file of rfs

    The table of open files of a process lies in a page of physical memory
    (struct proc_file_management, kernel/proc_file.h): what is stored there is
    what is loaded again.  With this and the theorems about rfs (RfsFile.v)
    [sys_user_write] is followed from the buffer of the user, whose pages lie
    anywhere in memory, to the blocks of the file. *)
From S2P Require Import Prelude Pmm Vmm Process Sched Fork Strap Cow Heap Pages HashTable CString Snprintf Bytes.
From S2P Require Import VfsData Rfs RfsDisk RfsFile RfsDir Vfs VfsRefs ProcFile SpikeFile Hostfs Machine Elf ElfLoad Syscall UserIO.
From S2P Require Import HeapSpace ForkSpace ForkAlloc.

(** ** The table of open files *)

(** Two ints in a word. *)
Definition pair32 (lo hi : Z) : Z := u32 hi * 4294967296 + u32 lo.

Record file_at (m : gmap Z Z) (a : Z) (f : VfsData.file) : Prop := {
  ft_flags : rd m a = pair32 (f_status f) (readable f);
  ft_offset : rd m (a + 8) = pair32 (writable f) (f_offset f);
  ft_dentry : rd m (a + 16) = f_dentry f
}.

Definition file_ints (f : VfsData.file) : Prop :=
  is_int (f_status f) /\ is_int (readable f) /\ is_int (writable f) /\ is_int (f_offset f).

Record table_at (m : gmap Z Z) (pf : Z) (v : proc_file_management) : Prop := {
  ta_cwd : rd m (pf + PF_cwd) = pf_cwd v;
  ta_files : forall i f, opened_files v !! i = Some f -> file_at m (pf + PF_file i) f;
  ta_count : rd m (pf + PF_nfiles) mod 4294967296 = u32 (nfiles v)
}.

Definition table_ok (v : proc_file_management) : Prop :=
  length (opened_files v) = ProcFile.MAX_FILES /\ Forall file_ints (opened_files v) /\ is_int (nfiles v).

Lemma int_back z : is_int z -> i32 (u32 z) = z.
Proof. unfold is_int, i32. intros Hz. destruct (Z.ltb_spec (u32 z mod 4294967296) 2147483648); klia. Qed.

Lemma pair_low lo hi : pair32 lo hi mod 4294967296 = u32 lo.
Proof. unfold pair32. klia. Qed.
Lemma pair_high lo hi : pair32 lo hi / 4294967296 = u32 hi.
Proof. unfold pair32. klia. Qed.

Section Halves.
Variables (p : Z) (t : pstate).
Hypothesis Hp : table_page p.

Lemma high_half o : 0 <= o < PGSIZE -> o mod 8 = 0 -> ((p + o + 4) mod 8 =? 0) = false /\ p + o + 4 - 4 = p + o.
Proof. intros Ho H8. destruct Hp as (? & _). split; [apply Z.eqb_neq; klia|lia]. Qed.

Lemma store_pair {A} o lo hi (k : M pstate A) : 0 <= o < PGSIZE -> o mod 8 = 0 ->
  (store32 (p + o) lo ;;; store32 (p + o + 4) hi ;;; k) t = k (set_mem (<[p + o := pair32 lo hi]> (mem t)) t).
Proof.
  intros Ho H8. destruct (high_half o Ho H8) as [H4 E4]. step_by ltac:(by apply store32_at).
  unfold store32 at 1. rewrite H4, E4. step_by ltac:(step_by ltac:(by apply load_at); by apply store_at).
  cbn [mem set_mem]. rewrite rd_insert_eq, insert_insert_eq. f_equal. unfold set_mem, pair32. cbn. do 2 f_equal. klia.
Qed.

Lemma load_pair {A} o lo hi (k : Z -> Z -> M pstate A) : 0 <= o < PGSIZE -> o mod 8 = 0 -> rd (mem t) (p + o) = pair32 lo hi ->
  (let* a := load32 (p + o) in let* b := load32 (p + o + 4) in k a b) t = k (u32 lo) (u32 hi) t.
Proof.
  intros Ho H8 Hw. destruct (high_half o Ho H8) as [H4 E4].
  assert (E8 : ((p + o) mod 8 =? 0) = true) by (destruct Hp as (? & _); klia).
  unfold load32. rewrite E8, H4, E4. step_by ltac:(step_by ltac:(by apply load_at); reflexivity).
  step_by ltac:(step_by ltac:(by apply load_at); reflexivity). by rewrite Hw, pair_low, pair_high.
Qed.
End Halves.

Section Table.
Variable (p : Z).
Hypothesis Hp : table_page p.

Lemma store_file_run o f t : 0 <= o -> o + 24 <= PGSIZE -> o mod 8 = 0 ->
  exists m', store_file (p + o) f t = Ret tt (set_mem m' t) /\ file_at m' (p + o) f /\
    forall a, a < p + o \/ p + o + 24 <= a -> rd m' a = rd (mem t) a.
Proof.
  intros H0 Hs H8. unfold store_file. eexists. split; [|split].
  - rewrite (store_pair p t Hp) by (done || lia).
    replace (p + o + 8) with (p + (o + 8)) by lia. replace (p + o + 12) with (p + (o + 8) + 4) by lia. replace (p + o + 16) with (p + (o + 16)) by lia.
    rewrite (store_pair p _ Hp) by (klia || lia). rewrite store_at by (done || klia). reflexivity.
  - cbn [mem set_mem]. split.
    + rewrite !(rd_insert_ne _ _ (p + o)) by lia. by rewrite rd_insert_eq.
    + rewrite (rd_insert_ne _ _ (p + o + 8)) by lia. replace (p + o + 8) with (p + (o + 8)) by lia. by rewrite rd_insert_eq.
    + replace (p + o + 16) with (p + (o + 16)) by lia. by rewrite rd_insert_eq.
  - intros a Ha. cbn [mem set_mem]. by rewrite !rd_insert_ne by lia.
Qed.

Lemma store_files_run l : forall o t, 0 <= o -> o + 24 * Z.of_nat (length l) <= PGSIZE -> o mod 8 = 0 ->
  exists m', store_files (p + o) l t = Ret tt (set_mem m' t) /\ (forall i f, l !! i = Some f -> file_at m' (p + o + 24 * Z.of_nat i) f) /\
    forall a, a < p + o \/ p + o + 24 * Z.of_nat (length l) <= a -> rd m' a = rd (mem t) a.
Proof.
  induction l as [|f l IH]; intros o t H0 Hs H8; cbn [store_files length] in *.
  - exists (mem t). split; [by destruct t|]. by split.
  - destruct (store_file_run o f t) as (m1 & E1 & H1 & K1); [lia|lia|done|]. replace (p + o + 24) with (p + (o + 24)) by lia.
    destruct (IH (o + 24) (set_mem m1 t)) as (m2 & E2 & H2 & K2); [lia|lia|klia|]. exists m2. split; [|split].
    + step_by ltac:(exact E1). exact E2.
    + cbn [mem set_mem] in K2. intros [|i] g Hg; cbn [lookup list_lookup] in Hg.
      * injection Hg as <-. rewrite Z.add_0_r. destruct H1 as [F1 F2 F3]. split; rewrite K2 by lia; done.
      * specialize (H2 i g Hg). by replace (p + o + 24 * Z.of_nat (S i)) with (p + (o + 24) + 24 * Z.of_nat i) by lia.
    + intros a Ha. rewrite K2 by lia. cbn [mem set_mem]. apply K1. lia.
Qed.

(** What is stored in the table stays in its page and is there. *)
Lemma store_table_run v t : table_ok v ->
  exists m', store_pfiles p v t = Ret tt (set_mem m' t) /\ table_at m' p v /\ forall a, ~ in_page a p -> rd m' a = rd (mem t) a.
Proof.
  intros (Hlen & _ & _). unfold store_pfiles. set (t1 := set_mem (<[p + PF_cwd := pf_cwd v]> (mem t)) t).
  destruct (store_files_run (opened_files v) (PF_file 0) t1) as (m2 & E2 & H2 & K2); [by vm_compute|rewrite Hlen; by vm_compute|by vm_compute|].
  rewrite Hlen in K2. eexists. split; [|split].
  - step_by ltac:(apply store_at; [exact Hp|by vm_compute|by vm_compute]). fold t1. step_by ltac:(exact E2).
    rewrite store32_at by (exact Hp || by vm_compute). reflexivity.
  - cbn [mem set_mem]. unfold ProcFile.MAX_FILES, PF_file, PF_nfiles, PF_cwd, Fork.MAX_FILES in *. split.
    + rewrite rd_insert_ne by (unfold PF_nfiles, PF_cwd, Fork.MAX_FILES; lia). rewrite K2 by (unfold PF_cwd; lia). unfold t1. cbn [mem set_mem]. by rewrite rd_insert_eq.
    + intros i f Hf. pose proof (lookup_lt_Some _ _ _ Hf) as Hi. rewrite Hlen in Hi. destruct (H2 i f Hf) as [F1 F2 F3].
      replace (p + (8 + 24 * Z.of_nat 0) + 24 * Z.of_nat i) with (p + PF_file i) in F1, F2, F3 by (unfold PF_file; lia).
      split; rewrite rd_insert_ne by (unfold PF_nfiles, PF_file, Fork.MAX_FILES; lia); done.
    + rewrite rd_insert_eq. klia.
  - intros a Ha. cbn [mem set_mem]. unfold in_page in Ha. unfold ProcFile.MAX_FILES, PF_file in K2.
    rewrite rd_insert_ne by (unfold PF_nfiles, Fork.MAX_FILES; klia). rewrite K2 by klia. unfold t1. cbn [mem set_mem].
    rewrite rd_insert_ne by (unfold PF_cwd; klia). done.
Qed.

Lemma load_file_run o f t : 0 <= o -> o + 24 <= PGSIZE -> o mod 8 = 0 -> file_ints f -> file_at (mem t) (p + o) f -> load_file (p + o) t = Ret f t.
Proof.
  intros H0 Hs H8 (I1 & I2 & I3 & I4) [F1 F2 F3]. unfold load_file. rewrite (load_pair p t Hp o (f_status f) (readable f)) by (done || lia).
  replace (p + o + 8) with (p + (o + 8)) in F2 |- * by lia. replace (p + o + 12) with (p + (o + 8) + 4) by lia. replace (p + o + 16) with (p + (o + 16)) in F3 |- * by lia.
  rewrite (load_pair p t Hp (o + 8) (writable f) (f_offset f)) by (done || lia || klia). step_by ltac:(apply load_at; [exact Hp|lia|klia]).
  rewrite F3, !int_back by done. by destruct f.
Qed.

Lemma load_files_run l : forall o t, 0 <= o -> o + 24 * Z.of_nat (length l) <= PGSIZE -> o mod 8 = 0 -> Forall file_ints l ->
  (forall i f, l !! i = Some f -> file_at (mem t) (p + o + 24 * Z.of_nat i) f) -> load_files (length l) (p + o) t = Ret l t.
Proof.
  induction l as [|f l IH]; intros o t H0 Hs H8 Hint Hat; cbn [load_files length] in *; [done|].
  apply list.Forall_cons in Hint as [Hf Hint]. pose proof (Hat 0%nat f eq_refl) as Hf0. rewrite Z.add_0_r in Hf0.
  step_by ltac:(apply load_file_run; [lia|lia|done|done|exact Hf0]). replace (p + o + 24) with (p + (o + 24)) by lia.
  step_by ltac:(apply IH; [lia|lia|klia|done|]; intros i g Hg; replace (p + (o + 24) + 24 * Z.of_nat i) with (p + o + 24 * Z.of_nat (S i)) by lia; by apply Hat).
  done.
Qed.

Lemma load_table_run v t : table_ok v -> table_at (mem t) p v -> load_pfiles p t = Ret v t.
Proof.
  intros (Hlen & Hint & Hn) [T1 T2 T3]. unfold load_pfiles. step_by ltac:(apply load_at; [exact Hp|by vm_compute|by vm_compute]). rewrite T1, <- Hlen.
  step_by ltac:(apply load_files_run; [by vm_compute|rewrite Hlen; by vm_compute|by vm_compute|exact Hint|]; intros i f Hf;
    replace (p + PF_file 0 + 24 * Z.of_nat i) with (p + PF_file i) by (unfold PF_file; lia); by apply T2).
  unfold load32. replace ((p + PF_nfiles) mod 8 =? 0) with true by (destruct Hp as (? & _); unfold PF_nfiles, Fork.MAX_FILES; klia).
  step_by ltac:(step_by ltac:(apply load_at; [exact Hp|by vm_compute|by vm_compute]); reflexivity). rewrite T3, int_back by done. by destruct v.
Qed.
End Table.

(** ** An open file of rfs *)

Section RfsWrite.
Context {H : Type} `{Frontend H} `{Linker} `{Buffers}.
Variables (tp pr : nat) (x : process) (fd bufva count : Z) (fr : Z -> Z) (u : bmem).
Variables (v : proc_file_management) (f : VfsData.file) (de : dentry) (dv : Z).

#[local] Notation p := (dentry_inode de).
#[local] Notation pf := (Process.pfiles x).

(** The table of the process with the file at the offset [off]. *)
Definition at_offset (off : Z) : proc_file_management :=
  mkPF (pf_cwd v) (<[file_index fd := set_f_offset off f]> (opened_files v)) (nfiles v).

(** Process [x] runs on hart [tp] and has the buffer [u]; its descriptor [fd] is the file [f] at
    the offset [off], open on the entry [de] of the inode [n] of rfs, with super block [sb] and
    device [r].  The table of open files lies apart from the buffer and from the page table. *)
Record open_rfs (s : sys H) (off : Z) (n : vinode) (sb : super_block) (r : rfs_device) : Prop := {
  or_cur : Process.current (kern (fpages s)) !! tp = Some (Some pr);
  or_proc : procs (kern (fpages s)) !! pr = Some x;
  or_buf : resident s tp fr u bufva count;
  or_page : table_page pf;
  or_apart : (forall va, bufva <= va < bufva + count -> fr (va / PGSIZE) <> pf) /\ ~ tables_of (mem (pmem s)) (pagetable x) pf;
  or_table : table_at (mem (pmem s)) pf (at_offset off);
  or_ints : table_ok (at_offset off);
  or_file : opened_files v !! file_index fd = Some f /\ writable f <> 0;
  or_dentry : dentries s !! f_dentry f = Some de;
  or_inode : file_inv s p n sb dv r;
  or_kind : i_ops n = RFS /\ vtype n = FILE_I
}.

Lemma frame_aligned w : PTE2PA w mod PGSIZE = 0.
Proof. unfold PTE2PA, u64. rewrite Z.shiftl_mul_pow2 by lia. klia. Qed.

(** The page of the table does not hold what the buffer and the page table are made of. *)
Lemma resident_keep (s s' : sys H) :
  Process.current (kern (fpages s)) !! tp = Some (Some pr) -> procs (kern (fpages s)) !! pr = Some x -> table_page pf ->
  (forall va, bufva <= va < bufva + count -> fr (va / PGSIZE) <> pf) -> ~ tables_of (mem (pmem s)) (pagetable x) pf ->
  Process.current (kern (fpages s')) = Process.current (kern (fpages s)) -> procs (kern (fpages s')) = procs (kern (fpages s)) ->
  (forall a, ~ in_page a pf -> rd (mem (pmem s')) a = rd (mem (pmem s)) a) ->
  resident s tp fr u bufva count -> resident s' tp fr u bufva count /\ tables_agree (mem (pmem s)) (mem (pmem s')) (pagetable x).
Proof.
  intros Hc Hx (Hpa & _) Hfr Hpt Hc' Hp' Hm [(p0 & x0 & Hc0 & Hx0 & Hwf & Hxl) Hram Hby].
  rewrite Hc in Hc0. injection Hc0 as <-. rewrite Hx in Hx0. injection Hx0 as <-.
  assert (Hag : tables_agree (mem (pmem s)) (mem (pmem s')) (pagetable x)).
  { intros π t k Hok Ht Hk. apply Hm. intros Hin. apply Hpt. exists π. split; [done|]. rewrite Ht. f_equal. symmetry.
    pose proof (pt_page _ _ Hwf π t Hok Ht) as (Hta & _). apply (page_neq_in_page pf t (t + 8 * k)); [done|done|done|by apply slot_in_page]. }
  split; [|exact Hag]. split.
  - exists pr, x. rewrite Hc', Hp'. split; [done|]. split; [done|]. split; [exact (pt_wf_ext _ _ _ (agree_tbl _ _ _ Hag) Hwf)|].
    intros va Hva. destruct (Hxl va Hva) as (w & Hw & Hrest). exists w. split; [|done]. by rewrite (agree_xlate _ _ _ va Hag).
  - exact Hram.
  - intros va Hva. rewrite <- (Hby va Hva). unfold view. f_equal. apply Hm. intros Hin. apply (Hfr va Hva).
    destruct (Hxl va Hva) as (w & _ & _ & Hw). assert (Hal : fr (va / PGSIZE) mod PGSIZE = 0) by (rewrite <- Hw; apply frame_aligned).
    unfold in_page, word_of in Hin. klia.
Qed.

(** The call [do_write] in front of the file system. *)
Lemma do_write_run (s s1 : sys H) off w n :
  length (opened_files v) = ProcFile.MAX_FILES -> opened_files v !! file_index fd = Some f -> writable f <> 0 ->
  dentries s !! f_dentry f = Some de -> vinodes s !! p = Some n -> i_ops n = RFS -> vtype n = FILE_I ->
  rfs_write p w off s = Ret (Z.of_nat (length w), off + Z.of_nat (length w)) s1 -> Z.of_nat (length w) < 2147483648 ->
  do_write fd w (mkFP s (at_offset off)) = Ret (Z.of_nat (length w)) (mkFP s1 (at_offset (off + Z.of_nat (length w)))).
Proof.
  intros Hlen Hf Hwr Hd Hn Ho Ht Ew Hlt. assert (Hi : (file_index fd < length (opened_files v))%nat) by by eapply lookup_lt_Some.
  unfold do_write. assert (Eg : get_opened_file fd (mkFP s (at_offset off)) = Ret (set_f_offset off f) (mkFP s (at_offset off))).
  { unfold get_opened_file, at_offset. cbn [ProcFile.pfiles opened_files]. by rewrite list_lookup_insert_eq. }
  step_by ltac:(exact Eg). cbn [writable set_f_offset]. rewrite (proj2 (Z.eqb_neq _ 0)) by done. unfold check. rewrite bind_ret_l.
  assert (Ev : vfs_write (set_f_offset off f) w s = Ret (Z.of_nat (length w), set_f_offset (off + Z.of_nat (length w)) f) s1).
  { unfold vfs_write. cbn [writable set_f_offset]. rewrite (proj2 (Z.eqb_neq _ 0)) by done. unfold inode_of. cbn [f_dentry set_f_offset].
    rewrite bind_assoc. step_by ltac:(unfold get_dentry, obj; rewrite Hd; reflexivity). rewrite bind_ret_l.
    step_by ltac:(apply get_vinode_run; exact Hn). rewrite Ht, Ho. cbn [Z.eqb FILE_I negb f_offset]. by step_by ltac:(exact Ew). }
  unfold with_file. rewrite bind_assoc. step_by ltac:(exact Eg). rewrite bind_assoc.
  step_by ltac:(unfold on_fs, zoom; cbn [fsys]; rewrite Ev; reflexivity). cbn [ProcFile.pfiles].
  unfold put_opened_file, modify, set_pfiles, bind, ret. cbn [fsys ProcFile.pfiles pf_cwd opened_files nfiles at_offset].
  rewrite list_insert_insert_eq, i32_small by lia. done.
Qed.

(** One chunk. *)
Lemma write_chunk s off n sb r w :
  open_rfs s off n sb r -> 0 <= off <= vsize n -> Forall is_byte w -> off + Z.of_nat (length w) <= 40960 ->
  ceil_blocks (off + Z.of_nat (length w)) - nblk n <= Z.of_nat (length (free_list sb)) ->
  exists s' s1 n1 sb' r', file_call tp (-1) (do_write fd w) s = Ret (Z.of_nat (length w)) s' /\
    wrote s s1 p n n1 sb sb' dv r r' off (off + Z.of_nat (length w)) (fun k => default 0 (w !! Z.to_nat (k - off))) /\
    (forall q, q <> p -> vinodes s' !! q = vinodes s !! q) /\
    open_rfs s' (off + Z.of_nat (length w)) (set_vsize (Z.max (vsize n) (off + Z.of_nat (length w))) n1) sb' r'.
Proof.
  intros [Oc Op Ob Og [Oa1 Oa2] Ot Oi [Of Ow] Od (Ov & Ok & Osz) [Oo Oty]] Hoff Hby H10 Hfree.
  set (len := Z.of_nat (length w)) in *. assert (Hc : ceil_blocks (off + len) <= 10) by (unfold ceil_blocks; Z.to_euclidean_division_equations; lia).
  destruct (rfs_write_run s p n sb dv r off w Ov Ok Hoff ltac:(lia) Hby Hc Hfree) as (s1 & n1 & sb' & r' & Hw & Ew). fold len in Hw, Ew.
  set (n2 := set_vsize (Z.max (vsize n) (off + len)) n1) in *. set (s2 := with_vinode p n2 s1) in *.
  assert (Hpg : fpages s1 = fpages s) by exact (w_pages _ _ _ _ _ _ _ _ _ _ _ _ _ Hw).
  pose proof Oi as (Ol & Oin & Onf). unfold at_offset in Ol. cbn [opened_files] in Ol. rewrite length_insert in Ol.
  assert (Hok2 : table_ok (at_offset (off + len))).
  { split; [cbn; by rewrite length_insert|]. split; [|exact Onf]. cbn [opened_files at_offset] in Oin |- *.
    rewrite <- (list_insert_insert_eq (opened_files v) (file_index fd) (set_f_offset (off + len) f) (set_f_offset off f)).
    apply Forall_insert; [done|]. rewrite list.Forall_forall in Oin. specialize (Oin (set_f_offset off f)).
    destruct Oin as (I1 & I2 & I3 & _).
    { apply (list_elem_of_lookup_2 _ (file_index fd)). apply list_lookup_insert_eq. by eapply lookup_lt_Some. }
    split; [exact I1|]. split; [exact I2|]. split; [exact I3|]. cbn. unfold is_int. lia. }
  destruct (store_table_run pf Og (at_offset (off + len)) (pmem s) Hok2) as (m' & Est & Hta & Hout).
  pose proof (do_write_run s s2 off w n Ol Of Ow Od (fv_vinode _ _ _ _ _ _ Ov) Oo Oty Ew ltac:(lia)) as Edo. fold len in Edo.
  set (s3 := set_pmem (set_mem m' (pmem s)) s2).
  assert (Hpm3 : pmem s3 = set_mem m' (pmem s)) by apply pmem_set_pmem.
  destruct (resident_keep s s3 Oc Op Og Oa1 Oa2) as [Hres Hag]; [unfold s3, set_pmem; cbn; by rewrite Hpg..|by rewrite Hpm3|exact Ob|].
  destruct (w_kept _ _ _ _ _ _ _ _ _ _ _ _ _ Hw) as (_ & _ & K3 & _ & _ & K6).
  assert (Hnb : off + len <= 4096 * ceil_blocks (off + len)) by (unfold ceil_blocks; Z.to_euclidean_division_equations; lia).
  pose proof (w_nblk _ _ _ _ _ _ _ _ _ _ _ _ _ Hw) as Enb.
  exists s3, s1, n1, sb', r'. split; [|split; [exact Hw|split]].
  - unfold file_call, fs_call, with_pfiles.
    rewrite (bind_Ret _ _ s pr s) by (apply on_kern_run; unfold self, get_current, bind, deref; by rewrite Oc).
    rewrite (bind_Ret _ _ s x s) by (by apply sys_get_proc_run).
    rewrite (bind_Ret _ _ s (at_offset off) s).
    2:{ rewrite (on_mem_run _ s (pmem s) (at_offset off) (pmem s) eq_refl (load_table_run pf Og _ _ Oi Ot)). f_equal. by destruct s as [[[]] ? ? ? ? ? ? ? ? ? ? ? ?]. }
    rewrite Edo. cbn [fsys ProcFile.pfiles].
    by rewrite (bind_Ret _ _ s2 tt s3) by (apply (on_mem_run _ s2 (pmem s)); [unfold pmem; change (fpages s2) with (fpages s1); by rewrite Hpg|exact Est]).
  - intros q Hq. change (vinodes s3) with (<[p := n2]> (vinodes s1)). rewrite lookup_insert_ne by done. by apply (w_others _ _ _ _ _ _ _ _ _ _ _ _ _ Hw).
  - split.
    + unfold s3, set_pmem. cbn. by rewrite Hpg.
    + unfold s3, set_pmem. cbn. by rewrite Hpg.
    + exact Hres.
    + exact Og.
    + split; [exact Oa1|]. intros (π & Hok & Hπ). apply Oa2. exists π. split; [done|]. by rewrite <- (agree_tbl _ _ _ Hag π Hok).
    + by rewrite Hpm3.
    + exact Hok2.
    + done.
    + change (dentries s3) with (dentries s1). by rewrite (w_dentries _ _ _ _ _ _ _ _ _ _ _ _ _ Hw).
    + pose proof (file_inv_sized s1 p n1 sb' dv r' (Z.max (vsize n) (off + len)) (w_view _ _ _ _ _ _ _ _ _ _ _ _ _ Hw) (w_ok _ _ _ _ _ _ _ _ _ _ _ _ _ Hw) ltac:(lia)) as ([V1 V2 V3 V4] & F & Z1).
      split; [split; [exact V1|exact V2|exact V3|exact V4]|done].
    + split; [exact (eq_trans K6 Oo)|exact (eq_trans K3 Oty)].
Qed.

(** ** The whole buffer *)

Section Whole.
Variables (s0 : sys H) (off0 : Z) (n0 : vinode) (sb0 : super_block) (r0 : rfs_device).
Hypothesis Hopen : open_rfs s0 off0 n0 sb0 r0.
Hypothesis Hoff : 0 <= off0 <= vsize n0.
Hypothesis Hsize : off0 + count <= 40960.
Hypothesis Hroom : ceil_blocks (off0 + count) - nblk n0 <= Z.of_nat (length (free_list sb0)).

(** The state when [k] bytes of the buffer are in the file. *)
Record stored (k : Z) (s : sys H) (n : vinode) (sb : super_block) (r : rfs_device) : Prop := {
  sd_open : open_rfs s (off0 + k) n sb r;
  sd_size : vsize n = Z.max (vsize n0) (off0 + k);
  sd_bytes : forall j, 0 <= j < k -> fbyte r n (off0 + j) = u (bufva + j);
  sd_before : forall j, 0 <= j < off0 -> fbyte r n j = fbyte r0 n0 j;
  sd_free : Z.of_nat (length (free_list sb)) + nblk n = Z.of_nat (length (free_list sb0)) + nblk n0;
  sd_foreign : forall c, foreign n0 sb0 c -> disk r c = disk r0 c /\ foreign n sb c;
  sd_others : forall q, q <> p -> vinodes s !! q = vinodes s0 !! q
}.

Lemma byte_is a m : is_byte (view m a).
Proof. unfold view, byte_in, is_byte. apply Z.mod_pos_bound. lia. Qed.

Lemma user_bytes (s : sys H) k len : resident s tp fr u bufva count -> 0 <= k -> 0 <= len -> k + len <= count -> Forall is_byte (bytes_from u (Z.to_nat len) (bufva + k)).
Proof.
  intros [_ _ Hb] Hk Hlen Hr. apply list.Forall_forall. intros c (j & Hj)%list_elem_of_lookup.
  pose proof (lookup_lt_Some _ _ _ Hj) as Hlt. rewrite length_bytes_from in Hlt.
  rewrite bytes_from_lookup in Hj by done. injection Hj as <-. rewrite <- Hb by lia. apply byte_is.
Qed.

Lemma stored_step k s n sb r len :
  stored k s n sb r -> 0 <= k -> k + len <= count -> 0 < len <= PGSIZE ->
  exists s' n' sb' r', file_call tp (-1) (do_write fd (bytes_from u (Z.to_nat len) (bufva + k))) s = Ret len s' /\ stored (k + len) s' n' sb' r'.
Proof.
  intros [So Ss Sy Sb Sf Sg Sv] Hk Hc Hlen. set (w := bytes_from u (Z.to_nat len) (bufva + k)).
  assert (Hwl : Z.of_nat (length w) = len) by (unfold w; rewrite length_bytes_from; lia).
  assert (Hmono : ceil_blocks (off0 + k + len) <= ceil_blocks (off0 + count)) by (unfold ceil_blocks; apply Z.div_le_mono; lia).
  destruct (write_chunk s (off0 + k) n sb r w So) as (s' & s1 & n1 & sb' & r' & E & Hw & Hq & Ho); [lia| |lia|rewrite Hwl; lia|].
  { apply (user_bytes s); [apply So|lia|lia|lia]. }
  rewrite Hwl in E, Hw, Ho. rewrite <- Z.add_assoc in Ho. exists s'. eexists. exists sb', r'. split; [exact E|].
  pose proof (or_inode _ _ _ _ _ So) as (_ & _ & Hsz).
  assert (Hin : forall j, off0 + k <= j < off0 + k + len -> fbyte r' n1 j = u (bufva + (j - off0))).
  { intros j Hj. rewrite (w_in _ _ _ _ _ _ _ _ _ _ _ _ _ Hw) by lia. unfold w. rewrite bytes_from_lookup by lia. cbn. f_equal. lia. }
  split.
  - exact Ho.
  - cbn [vsize set_vsize]. lia.
  - intros j Hj. change (fbyte r' n1 (off0 + j) = u (bufva + j)). destruct (decide (j < k)) as [Hlt|Hge].
    + rewrite (w_before _ _ _ _ _ _ _ _ _ _ _ _ _ Hw) by lia. apply Sy. lia.
    + rewrite Hin by lia. f_equal. lia.
  - intros j Hj. change (fbyte r' n1 j = fbyte r0 n0 j). rewrite (w_before _ _ _ _ _ _ _ _ _ _ _ _ _ Hw) by lia. by apply Sb.
  - change (nblk (set_vsize _ n1)) with (nblk n1). rewrite (w_free _ _ _ _ _ _ _ _ _ _ _ _ _ Hw). exact Sf.
  - intros c Hf. destruct (Sg c Hf) as [Hd Hf']. destruct (w_foreign _ _ _ _ _ _ _ _ _ _ _ _ _ Hw c Hf') as [Hd2 Hf2].
    split; [by rewrite Hd2|exact Hf2].
  - intros q Hqp. rewrite Hq by done. by apply Sv.
Qed.

Lemma rfs_stores : stores tp fd bufva count fr u (fun k s => exists n sb r, stored k s n sb r).
Proof.
  split.
  - intros k s (n & sb & r & Hs). apply (or_buf _ _ _ _ _ (sd_open _ _ _ _ _ Hs)).
  - intros k s len (n & sb & r & Hs) Hk Hc Hlen. destruct (stored_step k s n sb r len Hs Hk Hc Hlen) as (s' & n' & sb' & r' & E & Hs').
    exists s'. split; [exact E|]. by exists n', sb', r'.
Qed.

Lemma stored_none : stored 0 s0 n0 sb0 r0.
Proof. split; [by rewrite Z.add_0_r|lia|lia|done|done|done|done]. Qed.
End Whole.

(** C21: [sys_user_write] to a file of rfs.  The process has a buffer of [count] bytes at [bufva], in
    pages that lie anywhere in physical memory, and a file open for writing at the offset [off], not
    behind its end, with room for the bytes (ten blocks, and free blocks on the disk).  The call
    returns [count]; the bytes of the file from [off] on are those of the buffer, the bytes before
    [off] are what they were, the file has grown to the end of the write if it was shorter, the offset has moved
    by [count] in the table of open files, and the buffer is unchanged; blocks of other files and other inodes are untouched. *)
Theorem sys_user_write_correct (s : sys H) off n sb r :
  open_rfs s off n sb r -> 0 <= off <= vsize n -> 0 <= bufva -> bufva + count <= MAXVA -> 0 <= count -> off + count <= 40960 ->
  ceil_blocks (off + count) - nblk n <= Z.of_nat (length (free_list sb)) ->
  exists s' n' sb' r', sys_user_write tp fd bufva count s = Ret count s' /\ open_rfs s' (off + count) n' sb' r' /\
    vsize n' = Z.max (vsize n) (off + count) /\
    (forall j, 0 <= j < count -> fbyte r' n' (off + j) = u (bufva + j)) /\
    (forall j, 0 <= j < off -> fbyte r' n' j = fbyte r n j) /\
    (forall c, foreign n sb c -> disk r' c = disk r c) /\
    (forall q, q <> p -> vinodes s' !! q = vinodes s !! q).
Proof.
  intros Ho Hoff Hva Hend Hc Hsize Hroom.
  destruct (user_write_run tp fd bufva count fr u _ (rfs_stores s off n sb r Hoff Hsize Hroom) Hva Hend ltac:(lia) s)
    as (s' & E & n' & sb' & r' & [So Ss Sy Sb _ Sg Sv]).
  { exists n, sb, r. by apply stored_none. }
  exists s', n', sb', r'. split; [exact E|]. split; [exact So|]. split; [exact Ss|]. split; [exact Sy|]. split; [exact Sb|].
  split; [|exact Sv]. intros c Hf. by apply Sg.
Qed.
End RfsWrite.

(** ** A buffer that crosses a page boundary

    The process of Cow.v with a second page of the user, at 4198400, in a frame that is
    not behind the first; the text "abcdefgh" lies in the last four bytes of the first page and the
    first four of the second.  The file of RfsFile.v ("hello") is open as descriptor 0, at its end. *)
Module WriteDemo.
#[local] Existing Instances sample_host sample_linker sample_buffers.

Definition root : Z := 2147483648.
Definition frame2 : Z := 2147508224.
Definition pf_page : Z := 2147512320.
Definition frames (pg : Z) : Z := if pg =? 1024 then one_page else frame2.
Definition start : Z := 4198396.
Definition text (va : Z) : Z := 97 + (va - start).
Definition word_a : Z := 97 * 2 ^ 32 + 98 * 2 ^ 40 + 99 * 2 ^ 48 + 100 * 2 ^ 56.
Definition word_b : Z := 101 + 102 * 2 ^ 8 + 103 * 2 ^ 16 + 104 * 2 ^ 24.

Definition user_proc : process := mkProc 0 root 0 0 0 0 0 4 (mkHeap 0 0 [] 0) 0 RUNNING None None 0 pf_page 0 0 0 0 0.
Definition user_file : VfsData.file := mkFile FD_OPENED 1 1 5 16384.
Definition user_dentry : dentry := mkDentry [97] 1 12288 20480.
Definition user_files : proc_file_management := mkPF 20480 (user_file :: replicate 127 (mkFile 0 0 0 0 0)) 1.
Definition user_sys (t : pstate) : sys (list Z) :=
  mkF (mkMachine (mkK t [user_proc] [] [Some 0%nat; None] None 0 0 0 [0; 0] []) (mkSp [] [] []) (fun _ => 0) [] (fun _ => []))
    (rfs_device_list fs1) (supers fs1) (vinodes fs1) {[ 16384 := user_dentry ]} ∅ (devices fs1)
    (dentry_hash_table fs1) (vinode_hash_table fs1) 0 [] [] [].

Lemma files_ok : table_ok (at_offset 0 user_files user_file 5).
Proof.
  split; [reflexivity|]. split; [|unfold is_int; cbn; lia]. unfold at_offset, user_files. cbn -[replicate].
  apply Forall_cons_2; [|apply Forall_replicate]; repeat split; vm_compute; congruence.
Qed.

(** Physical memory with the two pages of the user and the table of open files. *)
Lemma user_memory : exists t, table_at (mem t) pf_page (at_offset 0 user_files user_file 5) /\
  rd (mem t) (one_page + 4088) = word_a /\ rd (mem t) frame2 = word_b /\ pt_wf (mem t) root /\ ~ tables_of (mem t) root pf_page /\
  forall va, start <= va < start + 8 -> exists w, xlate (mem t) root va = Some w /\ has w PTE_R || has w PTE_W = true /\ PTE2PA w = frames (va / PGSIZE).
Proof.
  set (perm := prot_to_type 3 1).
  destruct (map_one one3 [2147504128; 2147500032] root 4198400 frame2 perm one3_inv) as (t1 & l1 & _ & Hf & _ & Hx); [done|done|by vm_compute|by vm_compute|cbn; lia| |].
  { unfold xlate. vm_compute. reflexivity. }
  pose proof (vm_pt _ _ _ (vf_inv _ _ _ _ _ Hf)) as Hwf1.
  assert (Htb : forall π t, path_ok π -> tbl (mem t1) root π = Some t -> t ∈ [2147483648; 2147487744; 2147491840; 2147504128; 2147500032]).
  { intros π t Hok Ht. destruct (vf_new _ _ _ _ _ Hf π t Hok Ht) as [Hold|Hin]; [|rewrite !elem_of_cons, elem_of_nil in *; tauto].
    rewrite (agree_tbl _ _ _ one3_agree) in Hold by done. apply one_tbl in Hold; [|done]. rewrite !elem_of_cons, elem_of_nil. tauto. }
  set (m2 := <[frame2 := word_b]> (<[one_page + 4088 := word_a]> (mem t1))).
  destruct (store_table_run pf_page ltac:(repeat split; cbv; congruence) _ (set_mem m2 t1) files_ok) as (m3 & _ & Hta & Hout). cbn [mem set_mem] in Hout.
  assert (Hag : tables_agree (mem t1) m3 root).
  { intros π t k Hok Ht Hk. apply (Htb π t Hok) in Ht. unfold idx_ok in Hk.
    assert (Hr : t + 4096 <= 2147508224 /\ (t + 4096 <= one_page \/ one_page + 4096 <= t))
      by (rewrite !elem_of_cons, elem_of_nil in Ht; unfold one_page; lia).
    rewrite Hout by (unfold in_page, pf_page; klia). unfold m2. rewrite !rd_insert_ne by (unfold frame2; lia). done. }
  exists (set_mem m3 t1). cbn [mem set_mem]. split; [exact Hta|]. split; [|split; [|split; [|split]]].
  - rewrite Hout by (unfold in_page, pf_page, one_page; klia). unfold m2. rewrite rd_insert_ne by (unfold frame2, one_page; lia). apply rd_insert_eq.
  - rewrite Hout by (unfold in_page, pf_page, frame2; klia). apply rd_insert_eq.
  - exact (pt_wf_ext _ _ _ (agree_tbl _ _ _ Hag) Hwf1).
  - intros (π & Hok & Hπ). rewrite (agree_tbl _ _ _ Hag) in Hπ by done. apply (Htb π pf_page Hok) in Hπ.
    rewrite !elem_of_cons, elem_of_nil in Hπ. unfold pf_page in Hπ. lia.
  - intros va Hva. rewrite (agree_xlate _ _ _ va Hag), Hx by (unfold start, MAXVA in *; lia).
    assert (Hpg : va / PGSIZE = 1024 \/ va / PGSIZE = 1025) by (unfold start in Hva; klia).
    destruct (decide _) as [Hd|Hd].
    + eexists. split; [done|]. change (4198400 / PGSIZE) with 1025 in Hd. rewrite Hd. split; by vm_compute.
    + change (4198400 / PGSIZE) with 1025 in Hd. assert (Hp : va / PGSIZE = 1024) by lia. rewrite Hp.
      unfold root. rewrite (agree_xlate _ _ _ va one3_agree). unfold xlate. rewrite (leaf_same_page _ _ va 4194304) by (by rewrite Hp).
      eexists. split; [vm_compute; reflexivity|]. split; by vm_compute.
Qed.

Lemma text_bytes m va : rd m (one_page + 4088) = word_a -> rd m frame2 = word_b -> start <= va < start + 8 -> view m (frames (va / PGSIZE) + va mod PGSIZE) = text va.
Proof.
  intros Ha Hb Hva. unfold start in Hva.
  assert (Hc : In va [4198396; 4198397; 4198398; 4198399; 4198400; 4198401; 4198402; 4198403]) by (cbn; lia).
  unfold view. repeat (destruct Hc as [<-|Hc]; [|]); [..|destruct Hc].
  1-4: match goal with |- byte_in (rd _ ?a) ?k = _ => change a with (one_page + 4088) end; rewrite Ha; by vm_compute.
  all: match goal with |- byte_in (rd _ ?a) ?k = _ => change a with frame2 end; rewrite Hb; by vm_compute.
Qed.

Lemma user_open : exists t, open_rfs (H := list Z) 0 0 user_proc 0 start 8 frames text user_files user_file user_dentry 0 (user_sys t) 5 inode1 super1 rdev1.
Proof.
  destruct user_memory as (t & Hta & Ha & Hb & Hwf & Hnt & Hx). exists t. split.
  - reflexivity.
  - reflexivity.
  - split.
    + exists 0%nat, user_proc. split; [reflexivity|]. split; [reflexivity|]. split; [exact Hwf|exact Hx].
    + intros va _. unfold frames. destruct (_ =? _); split; vm_compute; congruence.
    + intros va Hva. by apply text_bytes.
  - repeat split; cbv; congruence.
  - split; [|exact Hnt]. intros va _. unfold frames. by destruct (_ =? _).
  - exact Hta.
  - exact files_ok.
  - done.
  - reflexivity.
  - destruct file1_inv as ([V1 V2 V3 V4] & Hfo & Hsz). split; [split; [exact V1|exact V2|exact V3|exact V4]|done].
  - done.
Qed.
End WriteDemo.

#[local] Existing Instances sample_host sample_linker sample_buffers.

Lemma sys_user_write_correct_witness :
  exists s s' n' r', sys_user_write (H := list Z) 0 0 WriteDemo.start 8 s = Ret 8 s' /\ vsize n' = 13 /\
    (forall j, 0 <= j < 8 -> fbyte r' n' (5 + j) = 97 + j) /\ (forall j, 0 <= j < 5 -> fbyte r' n' j = fbyte rdev1 inode1 j).
Proof.
  destruct WriteDemo.user_open as (t & Ho).
  destruct (sys_user_write_correct (H := list Z) 0 0 WriteDemo.user_proc 0 WriteDemo.start 8 WriteDemo.frames WriteDemo.text
    WriteDemo.user_files WriteDemo.user_file WriteDemo.user_dentry 0 (WriteDemo.user_sys t) 5 inode1 super1 rdev1 Ho)
    as (s' & n' & sb' & r' & E & _ & Hs & Hb & Hk & _).
  - cbn; lia.
  - vm_compute; congruence.
  - vm_compute; congruence.
  - lia.
  - lia.
  - vm_compute; congruence.
  - exists (WriteDemo.user_sys t), s', n', r'. split; [exact E|]. split; [exact Hs|]. split; [|exact Hk].
    intros j Hj. rewrite (Hb j Hj). unfold WriteDemo.text. lia.
Defined.
